(* ===== verification/_CoqProject ===== *)
-Q . S2P
Prelude.v
Vma.v
Pipe.v
Log.v
TimeCore.v
NetBytes.v
ByteMem.v
Xdr.v
Tty.v
Kalloc.v
Kmalloc.v
FsBlock.v
FsFile.v
FsInode.v
HashChain.v
FsCache.v
FsDir.v
Vm.v
VmSpace.v
VmUser.v
VmCow.v
VmAccess.v
VmCopy.v
VmGrow.v
VmExample.v
VmMem.v
BlockDev.v
Bio.v
BioRun.v
BlockIo.v
Umalloc.v
ProcTab.v
Sched.v
Proc.v
ProcLife.v
ProcInv.v
ProcRun.v
ProcFork.v
ProcSig.v
ProcMach.v
FdTable.v
FdView.v
FdRefs.v
FdCalls.v
FdMach.v
