(* ===== verification/Prelude.v ===== *)
(** * auxv6: a verification library

    auxv6 is a Unix-like system for i386 PCs that grew out of xv6: a monolithic
    kernel (src/kernel), a C library (src/libc), user programs, ports and
    drivers.  This library models the parts of the kernel and of the C library
    that hold its own logic, as functions on the state the C code keeps, and
    proves what makes them correct.

    ** The system and its model

    The kernel is layered.  Physical pages come from a page allocator with
    reference counts; on top of it are blocks of pages, the kernel heap, and
    the page tables that give every process its memory.  A process has a table
    of address ranges that says which user addresses exist.  The file system
    stores files as trees of blocks on a disk, through a write-ahead log that
    makes groups of block writes atomic; inodes are cached in memory, and
    directories and path names sit on top.  Pipes and terminals move bytes
    between processes.

    - [Prelude]: machine integers (a [Z] with its wrap-around written out), the
      state-and-panic monad [PM], generic lemmas.  [NetBytes]: words as bytes.
      [ByteMem]: a memory of bytes and the words in it.
    - [Kalloc]: src/kernel/core/kalloc.c and pagedb.c.  State [kmem]: the free
      list, per-CPU caches, the reference counts and flags of pages, the page
      database.  [KernelMap] is what the allocator needs from the page tables;
      [VmSpace.kernel_map] shows that they provide it.
    - [Kmalloc]: src/kernel/vm/buddy.c, vm/pagealloc.c, core/kmalloc.c.  Adds
      the bytes of memory ([mach]), with the heap's headers in them.
    - [Vma]: src/kernel/vm/vma.c.  State [address_space], the C struct.
    - [Vm]: src/kernel/core/vm.c and vm/fault.c.  State [vm]: memory and
      allocator, the kernel directory and its reference, the running process,
      the address spaces.  Directories and tables are the words in memory.
      [VmSpace] has the invariant [vm_ok], which gives every page a role
      (directory, table, user page with the entries that map it), and the
      elementary operations; [VmUser] unmapping and freeing; [VmCow] fork;
      [VmAccess] write faults; [VmCopy] copyout and copyin; [VmGrow] allocuvm
      and deallocuvm; [VmExample] a small concrete machine; [VmMem] the
      specification of user memory and the theorems.
    - [Log]: src/kernel/fs/log.c.  State: the in-memory log, the disk with an
      error oracle, crashes as steps.
    - [BlockDev], [Bio]: src/kernel/core/blockdev.c (the table of devices and
      partitions), kernel/fs/bio.c (the buffer cache), core/sleeplock.c and, as
      a driver, driver/memide.c.  [BioRun] interleaves the critical sections of
      any number of processes; [BlockIo] is the device file of blockdev.c.
      [HashChain]: the chains through a table that the buffer cache and the
      inode cache share, behind the class [Chained].
    - [FsBlock], [FsFile], [FsInode]: src/kernel/fs/fs.c up to readi and writei:
      the bitmap, the block tree of an inode, the contents of files.
      [FsCache]: the inode cache, allocation, reference counts, permissions.
      [FsDir]: directory entries, directories and path names.
    - [Pipe]: src/kernel/core/pipe.c; its critical sections are the steps.
    - [ProcTab], [Sched], [Proc], [ProcLife]: src/kernel/core/proc.c,
      proc_sched.c, proc_lifecycle.c, proc_signal.c and proc_stats.c.  State
      [ptable]: the process table, the scheduler's linked queues, the list of
      tick sleepers and the counts of sleepers by channel; [ProcLife.mach] adds
      what each CPU runs, and the class [Resources] stands for stacks, descriptor
      tables, address spaces and inodes.  A context switch is the pair of
      [sched], which records where the process stopped, and [continue].
      [ProcInv] has the invariant [table_ok]; [ProcRun], [ProcFork] and [ProcSig]
      show that sleeping, running, exit, fork, wait, signals and the clock keep
      it; [ProcMach] runs all of them in any order on any number of CPUs.
    - [FdTable]: src/kernel/fs/file.c and the descriptors of
      src/kernel/core/sysfile.c, exec.c and proc_lifecycle.c: file objects with
      their cache, descriptor tables, open (from the inode on), close, dup,
      dup2, fcntl.  The heap is the class [FdTable.Heap], its contract
      [FdView.HeapLaws].  [FdView]: tables as finite maps; [FdRefs]: the counts
      of the files; [FdCalls]: each call meets its specification; [FdMach]: all
      processes, with proc_fdscan.c.
    - [Tty]: src/kernel/driver/tty_ldisc.c, as pty.c calls it.
    - [Xdr]: src/kernel/net/xdr.c and the codecs of nfs.c and mount.c.
    - [TimeCore]: src/libc/timecore.c.
    - [Umalloc]: src/libc/umalloc.c, the heap of user programs; the system call
      [sbrk] is the class [Umalloc.Kernel].

    Definitions carry the C names.  A C function that updates state becomes a
    function from state to result and state; [None] stands for a panic or for
    an access outside a buffer, so a theorem that a call gives [Some] says that
    it does neither.  Locks appear as atomic steps: the state after a call or,
    where the code drops its lock in between (pipes, the log, the buffer cache,
    processes),
    after each critical section.

    ** What the theorems show

    - Memory: every sequence of allocator calls refines a specification on
      reference counts ([Kalloc.allocator_refines]); the heap refines a map
      from pointers to bytes ([Kmalloc.kmalloc_heap_refines]), and so does the
      heap of the C library ([Umalloc.malloc_heap_refines]); the operations
      on page tables refine private memories, one per directory
      ([VmMem.user_memory_refines]), with isolation
      ([VmMem.user_memory_isolated]), exact reference counts and no writable
      page that is shared; the range table refines a map from addresses
      ([Vma.vma_insert_refines] and others).
    - Storage: after a crash at any block operation, and in any number of
      interrupted recoveries, the disk has all or nothing of a transaction
      ([Log.commit_crash_atomic], [Log.fs_crash_safe]), for a log of any size;
      the log has room for what calls reserve ([Log.log_space_reserved]), which
      on the disks of tools/mkfs.c needs calls that leave one of their
      [MAXOPBLOCKS] unused ([Log.mkfs_log_too_small]); files are byte
      sequences ([FsInode.writei_refines], [FsInode.readi_refines]), and a
      write fits the log space reserved for it ([FsInode.writei_log_budget]);
      the inode cache keeps one slot per inode and its chains intact; path
      names resolve as the directories on disk say ([FsDir.namex_refines]).
      The buffer cache and the disks below it are one memory of blocks in every
      interleaving of processes ([BioRun.buffer_cache_refines]), for drivers that
      keep the contract [BioRun.Storage]; the device file reads and writes exactly
      the bytes it is asked for ([BlockIo.blockdev_read_exact],
      [BlockIo.blockdev_write_exact]).
    - Bytes between processes: a pipe is a queue for one reader in every
      interleaving ([Pipe.pipe_spsc_fifo]); the line discipline is a
      transducer that never leaves its buffers ([Tty.process_input_refines]).
    - Processes: in every interleaving of the CPUs' critical sections no process
      is on two CPUs, the run queues hold exactly the runnable processes and
      nothing panics ([ProcMach.process_table_safe]), under two conditions that the
      code does not ensure; [ProcMach.Demo.stop_and_kill_panics] shows what happens
      without one of them.  The scheduler's queues are first-in first-out lists
      ([Sched.mlfq_refines]), [wakeup1] wakes the sleepers of its channel and no others
      ([ProcMach.wakeup_refines]), and a parent gets the status of a child that
      exits ([ProcMach.exit_then_wait]).
    - Open files: whatever processes do with descriptors, by open, close, dup,
      dup2, fcntl, fork, exec and exit in any order, every file counts exactly
      its descriptors and is closed once, with the last
      ([FdMach.descriptors_refine]), and new descriptors are the lowest free ones
      ([FdMach.lowest_descriptor]).  Two uses that the code gets wrong are
      excluded, and shown: [FdMach.Demo.dup2_loses_top] and
      [FdMach.Demo.fork_high_slots].  The scan before an unmount is exact
      ([FdMach.unmount_scan_exact]).
    - Codecs and conversions: replies from the network are decoded within
      their buffers whatever the bytes ([Xdr.reply_decoders_safe]); round trips
      of encodings and of calendar dates; [TimeCore.strftime_renders] against
      an unbounded reference.
    - Where the code does less than it means to, the theorem says what it does
      ([Pipe.piperead_two_readers_race], [FsInode.InodeExample.writei_fault_leaks_block],
      [Kmalloc.kmalloc_limits], [Tty.long_line_truncated],
      [TimeCore.mktime_truncates_after_2038], [BlockIo.blockdev_limit_wraps],
      [Log.mkfs_log_too_small], [Umalloc.malloc_size_wraps]).

    ** Bounds and fuel

    Loops that are not structural have a fuel argument, and every theorem that
    a call returns proves that the fuel suffices: the walk over hash chains gets
    the number of slots, the loops over pages [pages_to], copies to and from
    user memory [len / PGSIZE + 2] rounds, the device file one round per byte,
    the ring of the C library's heap the number of headers below the break,
    the doubling of a capacity 32 rounds
    (the width of the integer), the growing of a descriptor table 4, since the
    third expansion is refused.  Where the fuel would run out the function
    panics, so the theorems would fail.

    ** Not modelled

    Device drivers (src/kernel/driver other than the line discipline), graphics
    and audio program hardware registers that only the device defines.  The
    other file systems (ext2/3, FAT, exFAT, ISO 9660, UFS2, btrfs, tmpfs, NFS)
    and the VFS layer above them, system calls, exec, sockets and TCP are the program's own logic and are left for later
    work.  Boot code, interrupt entry and context switch are assembly.
    User programs, the X11 server and window managers, and the ports (dash, st,
    dwm, dmenu) are separate programs above the system call interface.  A transfer of a
    block is one step of [BioRun]; partitions are left out of its contract,
    because [bdevrw] changes the identity of the buffer during the transfer without
    the lock under which [bget] reads it.  The translation cache of the
    processor, the interleaving of a fault with kernel code on another CPU, and
    messages are not modelled.  fork, exit and wait are one step each of [ProcMach],
    although the code drops [ptable.lock] while it allocates and frees; the frame that
    delivers a signal to user mode is left out.  A call on descriptors is one step
    of [FdMach]; reading and writing through a file object, and what the drivers
    do in the calls that [fileclose] makes, are left out.

    Limits of single theorems: the pipe has one writer at a time, with a kernel
    source; the runs of [VmMem] do not resize the directory of the running
    process; a call of the page allocator is one step, although the code updates
    counts of the page database without a lock; arrays of ranges and the fields of
    a [tm] do not wrap ([Vma.fresh_array] gives as many entries as asked for, and
    [TimeCore.time_directive] computes on [Z]).

    Next: the fault handler's stack growth and the switch of address spaces as
    theorems, exec's loading of a program, then the VFS.  *)

From stdpp Require Export base numbers list gmap sorting.
From Stdlib Require Export ZArith Lia.

#[export] Set Warnings "-clear-no-such-hyp".

Declare Scope auxv6_scope.
Delimit Scope auxv6_scope with auxv6.

#[global] Open Scope Z_scope.

(** ** Machine integers

    The target is i386: [int], [uint], [long] and pointers have 32 bits.  A
    machine integer is a [Z]; the wrap-around is written where the C code can
    reach it. *)

Definition u8 (x : Z) : Z := x mod 256.
Definition u16 (x : Z) : Z := x mod 65536.
Definition u32 (x : Z) : Z := x mod 4294967296.

(** The conversion to a signed 32-bit [int] (two's complement). *)
Definition s32 (x : Z) : Z := (x + 2147483648) mod 4294967296 - 2147483648.

(** The conversion to a signed [char]. *)
Definition s8 (x : Z) : Z := (x + 128) mod 256 - 128.

Notation "x +u y" := (u32 (x + y)) (at level 50, left associativity) : auxv6_scope.
Notation "x -u y" := (u32 (x - y)) (at level 50, left associativity) : auxv6_scope.
Notation "x *u y" := (u32 (x * y)) (at level 40, left associativity) : auxv6_scope.
#[global] Open Scope auxv6_scope.

(** The size of a page. *)
Definition PGSIZE : Z := 4096.

(** The first kernel address. *)
Definition KERNBASE : Z := 2147483648.

(** [flag f m]: the C test [f & m] of a flag word. *)
Definition flag (f m : Z) : bool := negb (Z.land f m =? 0).

Definition is_u8 (x : Z) : Prop := 0 <= x < 256.
Definition is_u32 (x : Z) : Prop := 0 <= x < 4294967296.

(** ** Lists *)

(** The length of a list as a machine integer sees it. *)
Definition len {A} (l : list A) : Z := Z.of_nat (length l).

Lemma len_nonneg {A} (l : list A) : 0 <= len l.
Proof. unfold len. lia. Qed.
Lemma len_app {A} (a b : list A) : len (a ++ b) = len a + len b.
Proof. unfold len. rewrite length_app. lia. Qed.

(** Counting when the predicate changes at one element. *)
Lemma filter_change (f g : nat -> bool) p l : NoDup l -> (forall j, j <> p -> g j = f j) ->
  Z.of_nat (length (List.filter g l)) = Z.of_nat (length (List.filter f l)) + (if decide (p ∈ l) then Z.b2z (g p) - Z.b2z (f p) else 0).
Proof.
  intros Hd H. induction l as [|x l IH]; [done|]. apply NoDup_cons in Hd as [Hx Hd]. specialize (IH Hd). cbn [List.filter].
  destruct (decide (x = p)) as [->|Hne].
  - rewrite (decide_False (P := p ∈ l)) in IH by done. rewrite (decide_True (P := p ∈ p :: l)) by left. destruct (g p), (f p); cbn [length Z.b2z]; lia.
  - rewrite (H x Hne). assert (E : (if decide (p ∈ x :: l) then Z.b2z (g p) - Z.b2z (f p) else 0) = if decide (p ∈ l) then Z.b2z (g p) - Z.b2z (f p) else 0).
    { destruct (decide (p ∈ l)) as [Hi|Hi]; [rewrite decide_True by (by right); done|]. rewrite decide_False; [done|]. intros [?|?]%elem_of_cons; congruence. }
    rewrite E. destruct (f x); cbn [length]; lia.
Qed.

Lemma flag_bit f n : 0 <= n -> flag f (2 ^ n) = Z.testbit f n.
Proof.
  intros Hn. unfold flag. destruct (Z.testbit f n) eqn:E.
  - apply negb_true_iff, Z.eqb_neq. intros H0. apply (f_equal (fun x => Z.testbit x n)) in H0.
    by rewrite Z.land_spec, E, Z.pow2_bits_true, Z.testbit_0_l in H0.
  - apply negb_false_iff, Z.eqb_eq, Z.bits_inj'. intros m Hm. rewrite Z.land_spec, Z.testbit_0_l.
    destruct (decide (m = n)) as [->|Hne]; [by rewrite E|]. rewrite Z.pow2_bits_false by done.
    apply andb_false_r.
Qed.

(** ** Automation *)

Create HintDb auxv6.
Create Rewrite HintDb auxv6.

Lemma u32_small x : is_u32 x -> u32 x = x.
Proof. unfold u32, is_u32. intros. apply Z.mod_small. lia. Qed.

Lemma u32_range x : is_u32 (u32 x).
Proof. unfold u32, is_u32. apply Z.mod_pos_bound. lia. Qed.

Lemma u8_range x : is_u8 (u8 x).
Proof. unfold u8, is_u8. apply Z.mod_pos_bound. lia. Qed.

Lemma u8_small x : is_u8 x -> u8 x = x.
Proof. unfold u8, is_u8. intros. apply Z.mod_small. lia. Qed.

Lemma s32_id x : -2147483648 <= x < 2147483648 -> s32 x = x.
Proof. intros. unfold s32. rewrite Z.mod_small; lia. Qed.

Lemma s32_range x : -2147483648 <= s32 x < 2147483648.
Proof. unfold s32. pose proof (Z.mod_pos_bound (x + 2147483648) 4294967296). lia. Qed.

#[export] Hint Resolve u32_range u8_range : auxv6.
#[export] Hint Rewrite u32_small u8_small using (unfold is_u32, is_u8 in *; lia) : auxv6.

(** Linear arithmetic with division and remainder by constants. *)
Ltac mlia := Z.to_euclidean_division_equations; lia.

(** ** State and panic

    Kernel code that updates one state and may panic: [None] is the panic. *)

Definition PM (S A : Type) : Type := S -> option (A * S).
Definition pret {S A} (a : A) : PM S A := fun s => Some (a, s).
Definition pbind {S A B} (m : PM S A) (f : A -> PM S B) : PM S B := fun s =>
  match m s with Some (a, s') => f a s' | None => None end.
Definition ppanic {S A} : PM S A := fun _ => None.

Declare Scope pm_scope.
Delimit Scope pm_scope with pm.
Notation "'let!' x ':=' m 'in' k" := (pbind m (fun x => k))
  (at level 10, x pattern, m at level 100, k at level 200) : pm_scope.
Notation "m '>>>' k" := (pbind m (fun _ => k)) (at level 100, right associativity) : pm_scope.

Lemma pbind_Some {S A B} (m : PM S A) (f : A -> PM S B) s a s1 :
  m s = Some (a, s1) -> pbind m f s = f a s1.
Proof. unfold pbind. by intros ->. Qed.

Lemma pbind_inv {S A B} (m : PM S A) (f : A -> PM S B) s b s2 :
  pbind m f s = Some (b, s2) -> exists a s1, m s = Some (a, s1) /\ f a s1 = Some (b, s2).
Proof. unfold pbind. destruct (m s) as [[a s1]|]; [eauto|done]. Qed.

(** Runs a computation known to succeed backwards: one hypothesis per step. *)
Ltac pinv H :=
  let a := fresh "a" in let s := fresh "s" in let E := fresh "E" in
  apply pbind_inv in H as (a & s & E & H).
