(* ===== verification/Vma.v ===== *)
(** * Virtual memory areas: [src/kernel/vm/vma.c], [src/include/vma.h]

    The table of user address ranges of an address space.  The state is the
    C struct: a heap-allocated array [vmas] of capacity [vma_cap] whose first
    [vma_count] entries are live, plus the sizes.  The kernel heap and the page
    directories are the [heap] of live objects; the allocators are the
    interface [VmEnv], of which only freshness and the block size are used. *)

From S2P Require Import Prelude.

Definition VMA_READ : Z := 0x1.
Definition VMA_WRITE : Z := 0x2.
Definition VMA_ZEROFILL : Z := 0x20.

Record vaddr_range := mkVma {
  va_start : Z;
  va_end : Z;
  vflags : Z;
  vinode : Z;
  file_offset : Z
}.

(** [vmas] is the pointer with the array it points to; [None] is NULL. *)
Record address_space := mkAs {
  pgdir : Z;
  owns_pgdir : Z;
  transitional : Z;
  vmas : option (Z * list vaddr_range);
  vma_count : nat;
  vma_cap : Z;
  vm_size : Z;
  rss : Z
}.

(** The live kernel objects: [kmalloc] blocks and page directories. *)
Record heap := mkHeap { blocks : gset Z; pgdirs : gset Z }.

Definition heap_add (p : Z) (h : heap) : heap := mkHeap ({[p]} ∪ blocks h) (pgdirs h).
Definition heap_del (p : Z) (h : heap) : heap := mkHeap (blocks h ∖ {[p]}) (pgdirs h).
Definition heap_add_pgdir (p : Z) (h : heap) : heap := mkHeap (blocks h) ({[p]} ∪ pgdirs h).
Definition heap_del_pgdir (p : Z) (h : heap) : heap := mkHeap (blocks h) (pgdirs h ∖ {[p]}).

(** What vma.c uses of the kernel allocator and of vm.c: an allocation fails
    or gives an address that is not NULL and not live, and the content of a
    fresh array of [n] ranges is some list of [n] ranges. *)
Class VmEnv := {
  kmalloc : heap -> Z -> option Z;
  fresh_array : Z -> Z -> list vaddr_range;
  new_kernel_pgdir : heap -> option Z;
  copy_user_pgdir : heap -> Z -> Z -> option Z;
  kmalloc_fresh h n p : kmalloc h n = Some p -> p <> 0 /\ p ∉ blocks h;
  fresh_array_length p n : length (fresh_array p n) = Z.to_nat n;
  new_kernel_pgdir_fresh h p : new_kernel_pgdir h = Some p -> p <> 0 /\ p ∉ pgdirs h;
  copy_user_pgdir_fresh h d sz p :
    copy_user_pgdir h d sz = Some p -> p <> 0 /\ p ∉ pgdirs h
}.

(** [sizeof(struct vaddr_range)] and [sizeof(struct address_space)] on i386. *)
Definition sizeof_vma : Z := 20.
Definition sizeof_as : Z := 32.

Definition set_vmas (vs : option (Z * list vaddr_range)) (as_ : address_space) : address_space :=
  mkAs (pgdir as_) (owns_pgdir as_) (transitional as_) vs (vma_count as_) (vma_cap as_)
       (vm_size as_) (rss as_).
Definition set_count (n : nat) (as_ : address_space) : address_space :=
  mkAs (pgdir as_) (owns_pgdir as_) (transitional as_) (vmas as_) n (vma_cap as_)
       (vm_size as_) (rss as_).
Definition set_cap (c : Z) (as_ : address_space) : address_space :=
  mkAs (pgdir as_) (owns_pgdir as_) (transitional as_) (vmas as_) (vma_count as_) c
       (vm_size as_) (rss as_).
Definition set_vm_size (sz : Z) (as_ : address_space) : address_space :=
  mkAs (pgdir as_) (owns_pgdir as_) (transitional as_) (vmas as_) (vma_count as_)
       (vma_cap as_) sz (rss as_).
Definition set_transitional (t : Z) (as_ : address_space) : address_space :=
  mkAs (pgdir as_) (owns_pgdir as_) t (vmas as_) (vma_count as_) (vma_cap as_)
       (vm_size as_) (rss as_).
Definition set_pgdir (d : Z) (owns : Z) (t : Z) (as_ : address_space) : address_space :=
  mkAs d owns t (vmas as_) (vma_count as_) (vma_cap as_) (vm_size as_) (rss as_).
Definition set_rss (r : Z) (as_ : address_space) : address_space :=
  mkAs (pgdir as_) (owns_pgdir as_) (transitional as_) (vmas as_) (vma_count as_)
       (vma_cap as_) (vm_size as_) r.

(** The whole backing array, and its live prefix. *)
Definition array (as_ : address_space) : list vaddr_range :=
  match vmas as_ with Some (_, a) => a | None => [] end.
Definition live (as_ : address_space) : list vaddr_range := take (vma_count as_) (array as_).

(** Stores into the array that [as->vmas] points to. *)
Definition with_array (f : list vaddr_range -> list vaddr_range) (as_ : address_space)
  : address_space :=
  set_vmas (match vmas as_ with Some (p, a) => Some (p, f a) | None => None end) as_.

(** [as->vmas[i] = v]. *)
Definition array_set (i : nat) (v : vaddr_range) : address_space -> address_space :=
  with_array (fun a => <[i := v]> a).

Section Ops.
Context `{VmEnv}.

(** [while(newcap < need) newcap <<= 1;], [None] when the fuel runs out. *)
Fixpoint grow_cap (fuel : nat) (newcap need : Z) : option Z :=
  match fuel with
  | O => None
  | S fuel' => if newcap <? need then grow_cap fuel' (u32 (Z.shiftl newcap 1)) need
               else Some newcap
  end.

(** The result is the C return value with the heap and the structure after
    it; [None] only when the capacity loop never ends. *)
Definition vma_ensure_capacity (h : heap) (as_ : address_space) (need : Z)
  : option (Z * heap * address_space) :=
  if need <=? vma_cap as_ then Some (0, h, as_)
  else
    match grow_cap 32 (if vma_cap as_ =? 0 then 4 else vma_cap as_) need with
    | None => None
    | Some newcap =>
        match kmalloc h (newcap *u sizeof_vma) with
        | None => Some (-1, h, as_)
        | Some p =>
            let newv := fresh_array p newcap in
            let newv := live as_ ++ drop (vma_count as_) newv in
            let h1 := heap_add p h in
            let h2 := match vmas as_ with Some (q, _) => heap_del q h1 | None => h1 end in
            Some (0, h2, set_cap newcap (set_vmas (Some (p, newv)) as_))
        end
    end.

Definition address_space_alloc (h : heap) : option (Z * heap * address_space) :=
  match kmalloc h sizeof_as with
  | None => None
  | Some p => Some (p, heap_add p h, mkAs 0 0 0 None 0 0 0 0)
  end.

Definition address_space_create (h : heap) : heap * option (Z * address_space) :=
  match address_space_alloc h with
  | None => (h, None)
  | Some (p, h1, as_) =>
      match new_kernel_pgdir h1 with
      | None => (heap_del p h1, None)
      | Some d => (heap_add_pgdir d h1, Some (p, set_pgdir d 1 0 as_))
      end
  end.

(** [for(i = 0; i < n; i++) dst->vmas[i] = src->vmas[i];] with [k] rounds left. *)
Fixpoint copy_vmas (k i : nat) (src dst : list vaddr_range) : list vaddr_range :=
  match k with
  | O => dst
  | S k' =>
      copy_vmas k' (S i) src (match src !! i with Some v => <[i := v]> dst | None => dst end)
  end.

Definition address_space_dup_cow (h : heap) (src : option address_space)
  : option (heap * option (Z * address_space)) :=
  match src with
  | None => Some (h, None)
  | Some src =>
      match address_space_alloc h with
      | None => Some (h, None)
      | Some (p, h1, dst) =>
          match (if pgdir src =? 0 then None else copy_user_pgdir h1 (pgdir src) (vm_size src)) with
          | None => Some (heap_del p h1, None)
          | Some d =>
              let h2 := heap_add_pgdir d h1 in
              let dst := set_pgdir d 1 (transitional src) dst in
              let fin h dst :=
                let dst := set_rss (rss src) (set_vm_size (vm_size src) dst) in
                let dst := if (0 <? vma_count dst)%nat then set_transitional 0 dst else dst in
                Some (h, Some (p, dst)) in
              if (0 <? vma_count src)%nat then
                match vma_ensure_capacity h2 dst (Z.of_nat (vma_count src)) with
                | None => None
                | Some (r, h3, dst) =>
                    if r <? 0 then Some (heap_del p (heap_del_pgdir d h3), None)
                    else fin h3 (set_count (vma_count src) (with_array (copy_vmas (vma_count src) 0 (array src)) dst))
                end
              else fin h2 dst
          end
      end
  end.

Definition address_space_pgdir (as_ : option address_space) : Z :=
  match as_ with None => 0 | Some a => pgdir a end.

(** [p] is the address of the structure itself. *)
Definition address_space_destroy (h : heap) (as_ : option (Z * address_space)) : heap :=
  match as_ with
  | None => h
  | Some (p, a) =>
      let h := match vmas a with Some (q, _) => heap_del q h | None => h end in
      let h := if negb (owns_pgdir a =? 0) && negb (pgdir a =? 0)
               then heap_del_pgdir (pgdir a) h else h in
      heap_del p h
  end.

(** The scan of [vma_insert]: the position to insert at, or [None] when the
    new range overlaps a live one. *)
Fixpoint insert_scan (l : list vaddr_range) (i : nat) (vma : vaddr_range) : option nat :=
  match l with
  | [] => Some i
  | x :: l' =>
      if va_end vma <=? va_start x then Some i
      else if negb (va_start vma >=? va_end x) then None
      else insert_scan l' (S i) vma
  end.

(** [for(i = count; i > pos; i--) as->vmas[i] = as->vmas[i - 1];] with [k]
    iterations left. *)
Fixpoint shift_up (k pos : nat) (a : list vaddr_range) : list vaddr_range :=
  match k with
  | O => a
  | S k' =>
      shift_up k' pos
        (match a !! (pos + k')%nat with Some v => <[(pos + k)%nat := v]> a | None => a end)
  end.

Definition vma_insert (h : heap) (as_ : option address_space) (vma : option vaddr_range)
  : option (Z * heap * option address_space) :=
  match as_, vma with
  | Some a, Some v =>
      if va_start v >=? va_end v then Some (-1, h, as_)
      else
        match insert_scan (live a) 0 v with
        | None => Some (-1, h, as_)
        | Some pos =>
            match vma_ensure_capacity h a (Z.of_nat (vma_count a) + 1) with
            | None => None
            | Some (r, h1, a1) =>
                if r <? 0 then Some (-1, h1, Some a1)
                else
                  let a2 := array_set pos v (with_array (shift_up (vma_count a1 - pos) pos) a1) in
                  Some (0, h1, Some (set_transitional 0 (set_count (S (vma_count a2)) a2)))
            end
        end
  | _, _ => Some (-1, h, as_)
  end.

(** [for(; i + 1 < count; i++) as->vmas[i] = as->vmas[i + 1];] *)
Fixpoint shift_down (k i : nat) (a : list vaddr_range) : list vaddr_range :=
  match k with
  | O => a
  | S k' => shift_down k' (S i) (match a !! S i with Some v => <[i := v]> a | None => a end)
  end.

(** The C argument is a pointer into the array; here the index it denotes
    ([None]: NULL).  A pointer outside the live entries is ignored. *)
Definition vma_remove (as_ : option address_space) (idx : option nat) : option address_space :=
  match as_, idx with
  | Some a, Some i =>
      if (vma_count a =? 0)%nat then as_
      else if (i <? vma_count a)%nat then
        let a1 := with_array (shift_down (vma_count a - 1 - i) i) a in
        Some (set_count (vma_count a1 - 1) a1)
      else as_
  | _, _ => as_
  end.

(** The last live entry: [&as->vmas[as->vma_count - 1]]. *)
Definition last_vma (a : address_space) : option vaddr_range :=
  if (0 <? vma_count a)%nat then array a !! (vma_count a - 1)%nat else None.

Definition set_va_end (e : Z) (v : vaddr_range) : vaddr_range :=
  mkVma (va_start v) e (vflags v) (vinode v) (file_offset v).

Definition mergeable (v : vaddr_range) (at_ fl : Z) : bool :=
  (va_end v =? at_) && (vflags v =? fl) && (vinode v =? 0) && (file_offset v =? 0).

Definition vma_expand (h : heap) (as_ : option address_space) (new_size : Z)
  : option (Z * heap * option address_space) :=
  match as_ with
  | None => Some (-1, h, as_)
  | Some a =>
      if new_size <? vm_size a then Some (-1, h, as_)
      else if new_size =? vm_size a then Some (0, h, as_)
      else
        let old_size := vm_size a in
        let append :=
          match vma_insert h as_
                  (Some (mkVma old_size new_size (Z.lor VMA_READ VMA_WRITE) 0 0)) with
          | None => None
          | Some (r, h1, a1) =>
              if r <? 0 then Some (-1, h1, a1)
              else
                match a1 with
                | None => Some (-1, h1, a1)
                | Some a1 =>
                    let a2 := set_vm_size new_size a1 in
                    let a3 := if (0 <? vma_count a2)%nat then set_transitional 0 a2 else a2 in
                    Some (0, h1, Some a3)
                end
          end in
        match last_vma a with
        | Some l =>
            if mergeable l old_size (Z.lor VMA_READ VMA_WRITE) then
              let a1 := array_set (vma_count a - 1) (set_va_end new_size l) a in
              Some (0, h, Some (set_transitional 0 (set_vm_size new_size a1)))
            else append
        | None => append
        end
  end.

Definition vma_reserve_zerofill (h : heap) (as_ : option address_space) (start end_ : Z)
  : option (Z * heap * option address_space) :=
  match as_ with
  | None => Some (-1, h, as_)
  | Some a =>
      if start >=? end_ then Some (-1, h, as_)
      else if negb (start =? vm_size a) then Some (-1, h, as_)
      else
        let fl := Z.lor (Z.lor VMA_READ VMA_WRITE) VMA_ZEROFILL in
        let append :=
          match vma_insert h as_ (Some (mkVma start end_ fl 0 0)) with
          | None => None
          | Some (r, h1, a1) =>
              if r <? 0 then Some (-1, h1, a1)
              else Some (0, h1, set_vm_size end_ <$> a1)
          end in
        match last_vma a with
        | Some l =>
            if mergeable l start fl then
              let a1 := array_set (vma_count a - 1) (set_va_end end_ l) a in
              Some (0, h, Some (set_transitional 0 (set_vm_size end_ a1)))
            else append
        | None => append
        end
  end.

(** The loop of [vma_shrink]; each round removes an entry, so [vma_count + 1]
    rounds are enough. *)
Fixpoint shrink_loop (fuel : nat) (a : address_space) (new_size : Z) : address_space :=
  match fuel with
  | O => a
  | S fuel' =>
      match last_vma a with
      | None => a
      | Some v =>
          if va_start v >=? new_size then
            match vma_remove (Some a) (Some (vma_count a - 1)%nat) with
            | Some a' => shrink_loop fuel' a' new_size
            | None => a
            end
          else if va_end v >? new_size
               then array_set (vma_count a - 1) (set_va_end new_size v) a
               else a
      end
  end.

Definition vma_shrink (as_ : option address_space) (new_size : Z) : Z * option address_space :=
  match as_ with
  | None => (-1, as_)
  | Some a =>
      if new_size >? vm_size a then (-1, as_)
      else if new_size =? vm_size a then (0, as_)
      else (0, Some (set_vm_size new_size (shrink_loop (S (vma_count a)) a new_size)))
  end.

(** [vma_find] returns a pointer to the entry: its index. *)
Fixpoint find_loop (l : list vaddr_range) (i : nat) (va : Z) : option nat :=
  match l with
  | [] => None
  | x :: l' => if (va >=? va_start x) && (va <? va_end x) then Some i
               else find_loop l' (S i) va
  end.

Definition vma_find (as_ : option address_space) (va : Z) : option nat :=
  match as_ with None => None | Some a => find_loop (live a) 0 va end.

End Ops.

(** ** Well-formedness *)

Definition before (x y : vaddr_range) : Prop := va_end x <= va_start y.
Definition nonempty (v : vaddr_range) : Prop := va_start v < va_end v.

(** The live ranges are nonempty, in address order and disjoint. *)
Definition ranges_ok (l : list vaddr_range) : Prop :=
  StronglySorted before l /\ Forall nonempty l.

(** The array has the recorded capacity, its live prefix is within it, and the
    ranges are in order.  [below]: no range ends after the recorded size. *)
Definition wf_as (a : address_space) : Prop :=
  Z.of_nat (length (array a)) = vma_cap a /\ (vma_count a <= length (array a))%nat /\
  ranges_ok (live a).
Definition below (a : address_space) : Prop :=
  Forall (fun v => va_end v <= vm_size a) (live a).

Definition contains (va : Z) (v : vaddr_range) : Prop := va_start v <= va < va_end v.
Definition overlaps (x y : vaddr_range) : Prop :=
  va_start x < va_end y /\ va_start y < va_end x.

(** ** Array loops *)

Lemma with_array_array f a : f [] = [] -> array (with_array f a) = f (array a).
Proof. unfold array, with_array, set_vmas. intros Hf. by destruct (vmas a) as [[? ?]|]; simpl. Qed.

Lemma shift_up_lookup k pos l j :
  (pos + k < length l)%nat ->
  shift_up k pos l !! j =
  if decide (pos < j <= pos + k)%nat then l !! (j - 1)%nat else l !! j.
Proof.
  revert l. induction k as [|k IH]; intros l Hlen; simpl.
  { case_decide; [lia|done]. }
  destruct (lookup_lt_is_Some_2 l (pos + k)%nat) as [v Hv]; [lia|]. rewrite Hv.
  rewrite IH by (rewrite length_insert; lia).
  destruct (decide (j = pos + S k)%nat) as [->|Hne].
  - rewrite decide_False by lia. rewrite decide_True by lia.
    rewrite list_lookup_insert_eq by lia. by replace (pos + S k - 1)%nat with (pos + k)%nat by lia.
  - repeat case_decide; try lia; rewrite list_lookup_insert_ne by lia; done.
Qed.

Lemma shift_down_lookup k i l j :
  (i + k < length l)%nat ->
  shift_down k i l !! j = if decide (i <= j < i + k)%nat then l !! S j else l !! j.
Proof.
  revert i l. induction k as [|k IH]; intros i l Hlen; simpl.
  { case_decide; [lia|done]. }
  destruct (lookup_lt_is_Some_2 l (S i)) as [v Hv]; [lia|]. rewrite Hv.
  rewrite IH by (rewrite length_insert; lia).
  destruct (decide (j = i)) as [->|Hne].
  - rewrite decide_False by lia. rewrite decide_True by lia.
    by rewrite list_lookup_insert_eq by lia.
  - repeat case_decide; try lia; rewrite list_lookup_insert_ne by lia; done.
Qed.

Lemma copy_vmas_lookup k i src dst j :
  (i + k <= length src)%nat -> (i + k <= length dst)%nat ->
  copy_vmas k i src dst !! j = if decide (i <= j < i + k)%nat then src !! j else dst !! j.
Proof.
  revert i dst. induction k as [|k IH]; intros i dst Hs Hd; simpl.
  { case_decide; [lia|done]. }
  destruct (lookup_lt_is_Some_2 src i) as [v Hv]; [lia|]. rewrite Hv.
  rewrite IH by (rewrite ?length_insert; lia).
  destruct (decide (j = i)) as [->|Hne].
  - rewrite decide_False by lia. rewrite decide_True by lia.
    by rewrite list_lookup_insert_eq by lia.
  - repeat case_decide; try lia; rewrite ?list_lookup_insert_ne by lia; done.
Qed.

Lemma shift_up_nil k pos : shift_up k pos [] = [].
Proof. induction k; done. Qed.

Lemma shift_down_nil k i : shift_down k i [] = [].
Proof. revert i. induction k; intros i; simpl; auto. Qed.

Lemma shift_up_length k pos l : length (shift_up k pos l) = length l.
Proof.
  revert l. induction k as [|k IH]; intros l; simpl; [done|].
  rewrite IH. destruct (l !! _); by rewrite ?length_insert.
Qed.

Lemma shift_down_length k i l : length (shift_down k i l) = length l.
Proof.
  revert i l. induction k as [|k IH]; intros i l; simpl; [done|].
  rewrite IH. destruct (l !! _); by rewrite ?length_insert.
Qed.

Lemma copy_vmas_length k i src dst : length (copy_vmas k i src dst) = length dst.
Proof.
  revert i dst. induction k as [|k IH]; intros i dst; simpl; [done|].
  rewrite IH. destruct (src !! _); by rewrite ?length_insert.
Qed.

#[local] Hint Rewrite shift_up_length shift_down_length copy_vmas_length @length_insert
  @length_take @length_drop @length_app : auxv6.

(** Opening a gap at [pos] and storing there inserts into the live prefix. *)
Lemma open_gap_insert n pos v l :
  (pos <= n)%nat -> (n < length l)%nat ->
  take (S n) (<[pos := v]> (shift_up (n - pos) pos l)) =
  take pos (take n l) ++ v :: drop pos (take n l).
Proof.
  intros Hp Hn. apply list_eq. intros j.
  destruct (decide (j < S n)%nat) as [Hj|Hj].
  2:{ rewrite (proj2 (lookup_ge_None (take _ _) _)) by (autorewrite with auxv6; lia).
      symmetry. apply lookup_ge_None. autorewrite with auxv6. simpl.
      autorewrite with auxv6. lia. }
  rewrite lookup_take_lt by done.
  destruct (decide (j = pos)) as [->|Hne].
  { rewrite list_lookup_insert_eq by (autorewrite with auxv6; lia).
    rewrite lookup_app_r by (autorewrite with auxv6; lia).
    autorewrite with auxv6. by replace (pos - _)%nat with 0%nat by lia. }
  rewrite list_lookup_insert_ne by done. rewrite shift_up_lookup by lia.
  case_decide.
  - rewrite lookup_app_r by (autorewrite with auxv6; lia). autorewrite with auxv6.
    rewrite lookup_cons_ne_0 by lia.
    rewrite lookup_drop, lookup_take_lt by lia. f_equal. lia.
  - rewrite lookup_app_l by (autorewrite with auxv6; lia).
    by rewrite !lookup_take_lt by lia.
Qed.

(** Closing the gap at [i] deletes entry [i] of the live prefix. *)
Lemma close_gap_delete n i l :
  (i < n)%nat -> (n <= length l)%nat ->
  take (n - 1) (shift_down (n - 1 - i) i l) = take i (take n l) ++ drop (S i) (take n l).
Proof.
  intros Hi Hn. apply list_eq. intros j.
  destruct (decide (j < n - 1)%nat) as [Hj|Hj].
  2:{ rewrite (proj2 (lookup_ge_None (take _ _) _)) by (autorewrite with auxv6; lia).
      symmetry. apply lookup_ge_None. autorewrite with auxv6. lia. }
  rewrite lookup_take_lt by done. rewrite shift_down_lookup by lia.
  case_decide.
  - rewrite lookup_app_r by (autorewrite with auxv6; lia). autorewrite with auxv6.
    rewrite lookup_drop, lookup_take_lt by lia. f_equal. lia.
  - rewrite lookup_app_l by (autorewrite with auxv6; lia).
    by rewrite !lookup_take_lt by lia.
Qed.

Lemma copy_all n src dst :
  (n <= length src)%nat -> (n <= length dst)%nat ->
  take n (copy_vmas n 0 src dst) = take n src.
Proof.
  intros Hs Hd. apply list_eq. intros j.
  destruct (decide (j < n)%nat).
  - rewrite !lookup_take_lt by done. rewrite copy_vmas_lookup by lia.
    by rewrite decide_True by lia.
  - rewrite !(proj2 (lookup_ge_None _ j)); rewrite ?length_take; try done; lia.
Qed.

(** ** Ranges *)

Lemma insert_scan_Some l i v k :
  insert_scan l i v = Some k ->
  exists l1 l2, l = l1 ++ l2 /\ k = (i + length l1)%nat /\
    Forall (fun x => before x v) l1 /\
    match l2 with [] => True | x :: _ => before v x end.
Proof.
  revert i. induction l as [|x l IH]; intros i Hk; simpl in Hk.
  { simplify_eq. exists [], []. repeat split; [simpl; lia|constructor]. }
  destruct (va_end v <=? va_start x) eqn:E1.
  { simplify_eq. exists [], (x :: l). apply Z.leb_le in E1.
    repeat split; [simpl; lia|constructor|done]. }
  destruct (va_start v >=? va_end x) eqn:E2; simpl in Hk; [|done].
  apply IH in Hk as (l1 & l2 & -> & -> & Hb & Ha).
  exists (x :: l1), l2. repeat split; [simpl; lia| |done].
  constructor; [|done]. unfold before. lia.
Qed.

Lemma insert_scan_None l i v :
  insert_scan l i v = None -> exists x, x ∈ l /\ overlaps x v.
Proof.
  revert i. induction l as [|x l IH]; intros i Hk; simpl in Hk; [done|].
  destruct (va_end v <=? va_start x) eqn:E1; [done|].
  destruct (va_start v >=? va_end x) eqn:E2; simpl in Hk.
  - apply IH in Hk as (y & Hy & Ho). exists y. split; [by right|done].
  - exists x. split; [by left|]. unfold overlaps. lia.
Qed.

Lemma ranges_ok_app l1 l2 :
  ranges_ok (l1 ++ l2) <->
  (forall x y, x ∈ l1 -> y ∈ l2 -> before x y) /\ ranges_ok l1 /\ ranges_ok l2.
Proof. unfold ranges_ok. rewrite StronglySorted_app, Forall_app. tauto. Qed.

Lemma ranges_ok_cons x l :
  ranges_ok (x :: l) <-> nonempty x /\ (forall y, y ∈ l -> before x y) /\ ranges_ok l.
Proof.
  unfold ranges_ok. rewrite Forall_cons. split.
  - intros [Hs [Hx Hl]]. apply StronglySorted_inv in Hs as [Hs Hall].
    rewrite Forall_forall in Hall. naive_solver.
  - intros (Hx & Hb & Hs & Hl). split; [|done]. constructor; [done|by apply Forall_forall].
Qed.

(** A range that fits between two parts of an ordered table keeps it ordered. *)
Lemma ranges_ok_insert l1 l2 v :
  ranges_ok (l1 ++ l2) -> nonempty v -> Forall (fun x => before x v) l1 ->
  match l2 with [] => True | x :: _ => before v x end ->
  ranges_ok (l1 ++ v :: l2).
Proof.
  rewrite !ranges_ok_app, ranges_ok_cons. intros (Hb & H1 & H2) Hv Hf Hh.
  rewrite Forall_forall in Hf.
  assert (Hv2 : forall y, y ∈ l2 -> before v y).
  { destruct l2 as [|z l2]; [intros y Hy; by apply elem_of_nil in Hy|].
    rewrite ranges_ok_cons in H2. destruct H2 as (Hz & Hbz & _).
    intros y [->|Hy]%elem_of_cons; [done|]. specialize (Hbz y Hy).
    unfold before, nonempty in *. lia. }
  split_and!; try done.
  intros x y Hx [->|Hy]%elem_of_cons; eauto.
Qed.

Lemma find_loop_spec l i va :
  match find_loop l i va with
  | Some k => exists v, (i <= k)%nat /\ l !! (k - i)%nat = Some v /\ contains va v
  | None => forall v, v ∈ l -> ~ contains va v
  end.
Proof.
  revert i. induction l as [|x l IH]; intros i; simpl.
  { intros v Hv. by apply elem_of_nil in Hv. }
  destruct ((va >=? va_start x) && (va <? va_end x)) eqn:E.
  - exists x. rewrite Nat.sub_diag. repeat split; unfold contains; [lia| |]; lia.
  - specialize (IH (S i)). destruct (find_loop l (S i) va) as [k|].
    + destruct IH as (v & Hk & Hv & Hc). exists v. repeat split; [lia| |apply Hc|apply Hc].
      replace (k - i)%nat with (S (k - S i))%nat by lia. done.
    + intros v [->|Hv]%elem_of_cons; [|eauto]. unfold contains. lia.
Qed.

(** In an ordered table an address lies in at most one range. *)
Lemma ranges_ok_unique l i j x y va :
  ranges_ok l -> l !! i = Some x -> l !! j = Some y ->
  contains va x -> contains va y -> i = j.
Proof.
  revert i j. induction l as [|z l IH]; intros i j Hok Hx Hy Hcx Hcy; [done|].
  rewrite ranges_ok_cons in Hok. destruct Hok as (Hz & Hb & Hok).
  destruct i as [|i], j as [|j]; simpl in *; simplify_eq; try done.
  - apply list_elem_of_lookup_2 in Hy. specialize (Hb _ Hy). unfold contains, before in *. lia.
  - apply list_elem_of_lookup_2 in Hx. specialize (Hb _ Hx). unfold contains, before in *. lia.
  - f_equal. eauto.
Qed.

(** ** Capacity *)

Lemma grow_cap_enough fuel c need :
  0 < c -> need <= 2147483648 -> need <= c * 2 ^ Z.of_nat fuel ->
  c < 4294967296 ->
  exists n, grow_cap (S fuel) c need = Some n /\ need <= n /\ c <= n < 4294967296.
Proof.
  revert c. induction fuel as [|fuel IH]; intros c Hc Hn Hb Hu.
  { simpl. simpl in Hb. replace (c <? need) with false by lia. exists c. repeat split; lia. }
  change (grow_cap (S (S fuel)) c need) with
    (if c <? need then grow_cap (S fuel) (u32 (Z.shiftl c 1)) need else Some c).
  destruct (c <? need) eqn:E; [|exists c; repeat split; lia].
  rewrite Z.shiftl_mul_pow2 by lia. rewrite u32_small by (unfold is_u32; lia).
  rewrite Nat2Z.inj_succ, Z.pow_succ_r in Hb by lia.
  destruct (IH (c * 2 ^ 1)) as (n & Hg & Hge & Hr); try lia.
  exists n. repeat split; [done|lia..].
Qed.

(** ** The abstract view: which memory backs an address

    An address space promises a partial map from addresses to the flags, the
    backing inode and the offset in it (0 for anonymous memory). *)

Definition attrs (v : vaddr_range) (va : Z) : Z * Z * Z :=
  (vflags v, vinode v, if vinode v =? 0 then 0 else file_offset v + (va - va_start v)).

Fixpoint attr_of (l : list vaddr_range) (va : Z) : option (Z * Z * Z) :=
  match l with
  | [] => None
  | v :: l' => if decide (contains va v) then Some (attrs v va) else attr_of l' va
  end.

Definition vma_view (a : address_space) (va : Z) : option (Z * Z * Z) :=
  match vma_find (Some a) va with
  | Some i => (fun v => attrs v va) <$> live a !! i
  | None => None
  end.

(** The ranges of [l] cut at [sz]. *)
Definition clip (sz : Z) (l : list vaddr_range) : list vaddr_range :=
  (fun v => set_va_end (Z.min (va_end v) sz) v) <$> filter (fun v => va_start v < sz) l.

#[export] Instance contains_dec va v : Decision (contains va v).
Proof. unfold contains. apply _. Defined.

Lemma attr_of_None l va : (forall v, v ∈ l -> ~ contains va v) -> attr_of l va = None.
Proof.
  induction l as [|x l IH]; intros Hn; simpl; [done|].
  rewrite decide_False by (apply Hn; left). apply IH. intros v Hv. apply Hn. by right.
Qed.

Lemma attr_of_app l1 l2 va :
  attr_of (l1 ++ l2) va =
  match attr_of l1 va with Some x => Some x | None => attr_of l2 va end.
Proof. induction l1 as [|x l IH]; simpl; [done|]. by case_decide. Qed.

Lemma find_loop_attr l i va :
  match find_loop l i va with
  | Some k => (fun v => attrs v va) <$> l !! (k - i)%nat = attr_of l va
  | None => attr_of l va = None
  end.
Proof.
  revert i. induction l as [|x l IH]; intros i; simpl; [done|].
  destruct ((va >=? va_start x) && (va <? va_end x)) eqn:E.
  - rewrite Nat.sub_diag. simpl. rewrite decide_True by (unfold contains; lia). done.
  - rewrite decide_False by (unfold contains; lia). specialize (IH (S i)).
    pose proof (find_loop_spec l (S i) va) as Hs.
    destruct (find_loop l (S i) va) as [k|]; [|done].
    destruct Hs as (v & Hk & _). rewrite <- IH.
    by replace (k - i)%nat with (S (k - S i))%nat by lia.
Qed.

Lemma vma_view_attr a va : vma_view a va = attr_of (live a) va.
Proof.
  unfold vma_view, vma_find. pose proof (find_loop_attr (live a) 0 va) as Hf.
  destruct (find_loop _ _ _); [|done]. by rewrite Nat.sub_0_r in Hf.
Qed.

Lemma clip_cons sz x l :
  clip sz (x :: l) = if decide (va_start x < sz)
                     then set_va_end (Z.min (va_end x) sz) x :: clip sz l else clip sz l.
Proof. unfold clip. rewrite filter_cons. by case_decide. Qed.

Lemma attr_of_clip sz l va :
  attr_of (clip sz l) va = if decide (va < sz) then attr_of l va else None.
Proof.
  induction l as [|x l IH].
  { by case_decide. }
  rewrite clip_cons. destruct (decide (va_start x < sz)) as [Hs|Hs]; cbn [attr_of]; rewrite IH;
    unfold contains, attrs; simpl; repeat case_decide; lia || done.
Qed.

Lemma clip_all sz l : Forall (fun v => va_end v <= sz) l -> Forall nonempty l -> clip sz l = l.
Proof.
  induction 1 as [|x l Hx Hl IH]; intros Hn; [done|].
  apply Forall_cons in Hn as [Hnx Hn]. unfold nonempty in Hnx.
  rewrite clip_cons, decide_True by lia. rewrite IH by done.
  f_equal. destruct x; unfold set_va_end; simpl in *. f_equal. lia.
Qed.

Lemma elem_of_clip sz l v :
  v ∈ clip sz l <->
  exists x, x ∈ l /\ va_start x < sz /\ v = set_va_end (Z.min (va_end x) sz) x.
Proof. unfold clip. rewrite list_elem_of_fmap. setoid_rewrite list_elem_of_filter. firstorder. Qed.

Lemma clip_ok sz l : ranges_ok l -> ranges_ok (clip sz l).
Proof.
  induction l as [|x l IH]; intros Hok; [done|].
  rewrite ranges_ok_cons in Hok. destruct Hok as (Hx & Hb & Hok).
  rewrite clip_cons. case_decide; [|auto].
  rewrite ranges_ok_cons. split_and!; [| |auto].
  - unfold nonempty in *; simpl. lia.
  - intros y (z & Hz & Hs & ->)%elem_of_clip.
    specialize (Hb _ Hz). unfold before in *; simpl. lia.
Qed.

Section Specs.
Context `{VmEnv}.

(** Enlarging keeps the live ranges and every other field. *)
(** The table is full and the heap refuses the larger one. *)
Definition no_room (h : heap) (a : address_space) (need : Z) : Prop :=
  vma_cap a < need /\ exists cap, grow_cap 32 (if vma_cap a =? 0 then 4 else vma_cap a) need = Some cap /\
    kmalloc h (cap *u sizeof_vma) = None.

Lemma vma_ensure_capacity_spec h a need :
  wf_as a -> is_u32 (vma_cap a) -> 0 <= need <= 2147483648 ->
  exists r h' a', vma_ensure_capacity h a need = Some (r, h', a') /\
    ((r = -1 /\ h' = h /\ a' = a /\ no_room h a need) \/
     (r = 0 /\ wf_as a' /\ need <= vma_cap a' /\ is_u32 (vma_cap a') /\
      live a' = live a /\ vma_count a' = vma_count a /\ vm_size a' = vm_size a)).
Proof.
  intros (Hlen & Hcnt & Hok) Hcap Hneed. unfold vma_ensure_capacity.
  destruct (need <=? vma_cap a) eqn:E.
  { exists 0, h, a. split; [done|]. right. unfold wf_as. split_and!; done || lia. }
  unfold is_u32 in *.
  assert (exists n, grow_cap 32 (if vma_cap a =? 0 then 4 else vma_cap a) need = Some n /\
            need <= n /\ vma_cap a <= n < 4294967296) as (n & En & Hn & Hr).
  { destruct (vma_cap a =? 0) eqn:E0.
    - destruct (grow_cap_enough 31 4 need) as (n & ? & ? & ?); try lia. exists n. split_and!; lia || done.
    - apply (grow_cap_enough 31); lia. }
  rewrite En. destruct (kmalloc h (n *u sizeof_vma)) as [p|] eqn:Ek.
  2:{ exists (-1), h, a. split; [done|]. left. split_and!; try done. split; [lia|eauto]. }
  set (newv := live a ++ drop (vma_count a) (fresh_array p n)).
  set (a' := set_cap n (set_vmas (Some (p, newv)) a)).
  do 3 eexists. split; [reflexivity|]. right.
  assert (Hll : length (live a) = vma_count a) by (unfold live; rewrite length_take; lia).
  assert (Hlive : live a' = live a).
  { change (take (vma_count a) newv = live a). unfold newv.
    rewrite take_app_le by lia. apply take_ge. lia. }
  unfold wf_as, is_u32. rewrite Hlive. change (array a') with newv.
  change (vma_cap a') with n. change (vma_count a') with (vma_count a).
  assert (length newv = Z.to_nat n).
  { unfold newv. rewrite length_app, length_drop, fresh_array_length, Hll. lia. }
  split_and!; done || lia.
Qed.

(** A successful insertion puts the range at its place in address order and
    changes nothing else; a failure changes nothing. *)
Lemma vma_insert_live h a v :
  wf_as a -> is_u32 (vma_cap a) -> Z.of_nat (vma_count a) < 2147483648 -> nonempty v ->
  exists r h' a', vma_insert h (Some a) (Some v) = Some (r, h', Some a') /\
    ((r = -1 /\ h' = h /\ a' = a /\
        ((exists x, x ∈ live a /\ overlaps x v) \/ no_room h a (Z.of_nat (vma_count a) + 1))) \/
     (r = 0 /\ wf_as a' /\ is_u32 (vma_cap a') /\ vm_size a' = vm_size a /\
      vma_count a' = S (vma_count a) /\
      exists l1 l2, live a = l1 ++ l2 /\ live a' = l1 ++ v :: l2 /\
        Forall (fun x => before x v) l1 /\
        match l2 with [] => True | x :: _ => before v x end)).
Proof.
  intros Hwf Hcap Hcnt Hv. unfold vma_insert, nonempty in *.
  replace (va_start v >=? va_end v) with false by lia.
  destruct (insert_scan (live a) 0 v) as [pos|] eqn:Es.
  2:{ exists (-1), h, a. split; [done|]. left. split_and!; try done.
      left. by eapply insert_scan_None. }
  apply insert_scan_Some in Es as (l1 & l2 & Hl & -> & Hb & Ha). simpl.
  destruct (vma_ensure_capacity_spec h a (Z.of_nat (vma_count a) + 1))
    as (r & h1 & a1 & -> & [(-> & -> & -> & Hn)|(-> & Hwf1 & Hge & Hcap1 & Hl1 & Hc1 & Hs1)]);
    [done..|lia| |]; simpl.
  { exists (-1), h, a. split; [done|]. left. eauto. }
  do 3 eexists. split; [reflexivity|]. right.
  destruct Hwf1 as (Hlen1 & Hle1 & Hok1). rewrite Hc1.
  assert (Hpos : (length l1 <= vma_count a)%nat).
  { apply (f_equal length) in Hl. unfold live in Hl. rewrite length_take, length_app in Hl. lia. }
  set (a2 := set_transitional 0 _).
  assert (Harr : array a2 =
    <[length l1 := v]> (shift_up (vma_count a - length l1) (length l1) (array a1))).
  { change (array a2) with (array (array_set (length l1) v
      (with_array (shift_up (vma_count a - length l1) (length l1)) a1))).
    unfold array_set. rewrite !with_array_array; try done. apply shift_up_nil. }
  assert (Hc2 : vma_count a2 = S (vma_count a)) by reflexivity.
  assert (Hlive : live a2 = l1 ++ v :: l2).
  { unfold live. rewrite Hc2, Harr, open_gap_insert by lia.
    rewrite <- Hc1. fold (live a1). rewrite Hl1, Hl, take_app_length, drop_app_length. done. }
  unfold wf_as. rewrite Hlive, Harr. autorewrite with auxv6. change (vma_cap a2) with (vma_cap a1).
  split_and!; try done; try lia.
  - apply ranges_ok_insert; try done. rewrite <- Hl. apply Hwf.
  - eauto 10.
Qed.

Lemma ranges_ok_delete i l : ranges_ok l -> ranges_ok (take i l ++ drop (S i) l).
Proof.
  intros Hok. destruct (l !! i) as [x|] eqn:Hx.
  - rewrite <- (take_drop_middle l i x Hx) in Hok.
    rewrite ranges_ok_app, ranges_ok_cons in Hok. rewrite ranges_ok_app.
    destruct Hok as (Hb & H1 & _ & _ & H2). split_and!; try done.
    intros y z Hy Hz. apply Hb; [done|by right].
  - apply lookup_ge_None in Hx. rewrite take_ge, drop_ge by lia. by rewrite app_nil_r.
Qed.

Lemma vma_remove_live a i :
  wf_as a -> (i < vma_count a)%nat ->
  exists a', vma_remove (Some a) (Some i) = Some a' /\ wf_as a' /\
    live a' = take i (live a) ++ drop (S i) (live a) /\
    vma_count a' = (vma_count a - 1)%nat /\ vm_size a' = vm_size a /\ vma_cap a' = vma_cap a.
Proof.
  intros (Hlen & Hle & Hok) Hi. unfold vma_remove.
  destruct (vma_count a =? 0)%nat eqn:E0; [apply Nat.eqb_eq in E0; lia|].
  apply Nat.ltb_lt in Hi as Hi'. rewrite Hi'.
  eexists. split; [reflexivity|]. set (a' := set_count _ _).
  assert (Harr : array a' = shift_down (vma_count a - 1 - i) i (array a)).
  { change (array a') with (array (with_array (shift_down (vma_count a - 1 - i) i) a)).
    apply with_array_array, shift_down_nil. }
  assert (Hc : vma_count a' = (vma_count a - 1)%nat) by reflexivity.
  assert (Hlive : live a' = take i (live a) ++ drop (S i) (live a)).
  { unfold live at 1. rewrite Hc, Harr. by apply close_gap_delete. }
  split_and!; try done. unfold wf_as. rewrite Hlive, Harr, Hc, shift_down_length.
  split_and!; [done|lia|by apply ranges_ok_delete].
Qed.

Lemma last_vma_spec a :
  wf_as a ->
  match last_vma a with
  | None => live a = []
  | Some v => exists l, live a = l ++ [v] /\ vma_count a = S (length l)
  end.
Proof.
  intros (Hlen & Hle & _). unfold last_vma, live.
  destruct (vma_count a) as [|n] eqn:Ec; simpl; [done|]. rewrite Nat.sub_0_r.
  destruct (lookup_lt_is_Some_2 (array a) n) as [v Hv]; [lia|]. rewrite Hv.
  exists (take n (array a)). split; [by apply take_S_r|]. rewrite length_take. lia.
Qed.

(** Replacing the last live range. *)
Lemma set_last_live a l v w :
  wf_as a -> live a = l ++ [v] -> vma_count a = S (length l) ->
  live (array_set (vma_count a - 1) w a) = l ++ [w].
Proof.
  intros (Hlen & Hle & _) Hl Hc. unfold array_set, live at 1.
  rewrite with_array_array by done. simpl.
  rewrite take_insert_lt by lia. fold (live a). rewrite Hl, Hc.
  replace (S (length l) - 1)%nat with (length l + 0)%nat by lia.
  by rewrite insert_app_r.
Qed.

Lemma set_last_wf a l v w :
  wf_as a -> live a = l ++ [v] -> vma_count a = S (length l) -> ranges_ok (l ++ [w]) ->
  wf_as (array_set (vma_count a - 1) w a).
Proof.
  intros Hwf Hl Hc Hok. unfold wf_as. erewrite set_last_live by done.
  destruct Hwf as (Hlen & Hle & _). unfold array_set. rewrite with_array_array by done.
  rewrite length_insert. split_and!; done.
Qed.

Lemma shrink_loop_spec fuel a n :
  wf_as a -> (vma_count a < fuel)%nat ->
  wf_as (shrink_loop fuel a n) /\ live (shrink_loop fuel a n) = clip n (live a).
Proof.
  revert a. induction fuel as [|fuel IH]; intros a Hwf Hf; [lia|]. cbn [shrink_loop].
  pose proof (last_vma_spec a Hwf) as Hlast. destruct (last_vma a) as [v|].
  2:{ rewrite Hlast. done. }
  destruct Hlast as (l & Hl & Hc).
  pose proof Hwf as (_ & _ & Hok). rewrite Hl, ranges_ok_app, ranges_ok_cons in Hok.
  destruct Hok as (Hb & [Hsl Hnl] & Hv & _ & Hnil).
  rewrite Hl. unfold clip. rewrite filter_app, fmap_app. fold (clip n l). fold (clip n [v]).
  rewrite (clip_cons n v). destruct (va_start v >=? n) eqn:E.
  - rewrite decide_False by lia. rewrite app_nil_r.
    destruct (vma_remove_live a (vma_count a - 1)) as (a' & -> & Hwf' & Hl' & Hc' & _); [done|lia|].
    destruct (IH a' Hwf') as [Hw Hlv]; [lia|]. split; [done|]. rewrite Hlv, Hl', Hl, Hc.
    replace (S (length l) - 1)%nat with (length l) by lia.
    rewrite take_app_length. rewrite drop_ge by (rewrite length_app; simpl; lia).
    by rewrite app_nil_r.
  - rewrite decide_True by lia. change (clip n []) with (@nil vaddr_range).
    assert (Hcl : clip n l = l).
    { apply clip_all; [|done]. apply Forall_forall. intros x Hx.
      specialize (Hb x v Hx ltac:(left)). unfold before in Hb. lia. }
    rewrite Hcl. destruct (va_end v >? n) eqn:E2.
    + rewrite Z.min_r by lia. split; [|by eapply set_last_live].
      eapply set_last_wf; try done. rewrite ranges_ok_app, ranges_ok_cons.
      split_and!; try done.
      * intros x y Hx ->%list_elem_of_singleton. apply (Hb x v); [done|left].
      * unfold nonempty in *; simpl. lia.
      * intros y Hy. by apply elem_of_nil in Hy.
    + rewrite Z.min_l by lia. split; [done|]. rewrite Hl. by destruct v.
Qed.

(** [a'] is [a] grown to [e] by anonymous memory with flags [fl]. *)
Definition extends (a a' : address_space) (e fl : Z) : Prop :=
  wf_as a' /\ below a' /\ vm_size a' = e /\
  forall va, vma_view a' va =
    if decide (vm_size a <= va < e) then Some (fl, 0, 0) else vma_view a va.

(** Structures that differ in [vm_size] and [transitional] only. *)
Lemma resize_live sz t a : live (set_transitional t (set_vm_size sz a)) = live a.
Proof. done. Qed.
Lemma resize_wf sz t a : wf_as (set_transitional t (set_vm_size sz a)) <-> wf_as a.
Proof. reflexivity. Qed.

(** Memory above every range of [l] is mapped by the last one only. *)
Lemma attr_of_snoc l v va :
  Forall (fun x => va_end x <= va_start v) l ->
  attr_of (l ++ [v]) va =
  if decide (contains va v) then Some (attrs v va) else attr_of l va.
Proof.
  intros Hf. rewrite attr_of_app. simpl. destruct (decide (contains va v)) as [Hc|Hc].
  - rewrite attr_of_None; [done|]. intros x Hx [? ?].
    rewrite Forall_forall in Hf. specialize (Hf _ Hx). unfold contains in *. lia.
  - by destruct (attr_of l va).
Qed.

Lemma append_extends h a e fl :
  wf_as a -> below a -> is_u32 (vma_cap a) -> Z.of_nat (vma_count a) < 2147483648 ->
  vm_size a < e ->
  exists r h' a',
    vma_insert h (Some a) (Some (mkVma (vm_size a) e fl 0 0)) = Some (r, h', Some a') /\
    ((r = 0 /\ forall t, extends a (set_transitional t (set_vm_size e a')) e fl) \/
     (r = -1 /\ a' = a /\ h' = h /\ no_room h a (Z.of_nat (vma_count a) + 1))).
Proof.
  intros Hwf Hbel Hcap Hcnt He. set (v := mkVma _ _ _ _ _).
  unfold below in Hbel. rewrite Forall_forall in Hbel.
  destruct (vma_insert_live h a v) as (r & h' & a' & -> & Hcase); try done.
  exists r, h', a'. split; [done|].
  destruct Hcase as [(-> & -> & -> & [(x & Hx & Ho)|Hoom])|Hok].
  { specialize (Hbel _ Hx). unfold overlaps in Ho. simpl in Ho. lia. }
  { right. done. }
  left. destruct Hok as (-> & Hwf' & _ & Hsz & _ & l1 & l2 & Hl & Hl' & Hb & Ha).
  split; [done|]. intros t.
  assert (l2 = []) as ->.
  { destruct l2 as [|x l2]; [done|]. exfalso.
    assert (Hin : x ∈ live a) by (rewrite Hl; set_solver).
    specialize (Hbel _ Hin). destruct Hwf as (_ & _ & _ & Hne).
    rewrite Forall_forall in Hne. specialize (Hne _ Hin).
    unfold before, nonempty in *. simpl in *. lia. }
  rewrite app_nil_r in Hl. subst l1.
  unfold extends. rewrite resize_wf. unfold below. rewrite resize_live, Hl'.
  split_and!; [done| |done|].
  - apply Forall_app. split; [|repeat constructor; simpl; lia].
    apply Forall_forall. intros x Hx. specialize (Hbel _ Hx). simpl. lia.
  - intros va. rewrite !vma_view_attr, resize_live, Hl', attr_of_snoc by
      (apply Forall_forall; intros x Hx; specialize (Hbel _ Hx); done).
    unfold contains; simpl. done.
Qed.

(** Moving the end of a last anonymous range that reaches [vm_size]. *)
Lemma merge_extends a v e fl :
  wf_as a -> below a -> last_vma a = Some v -> mergeable v (vm_size a) fl = true ->
  vm_size a < e ->
  extends a (set_transitional 0 (set_vm_size e
    (array_set (vma_count a - 1) (set_va_end e v) a))) e fl.
Proof.
  intros Hwf Hbel Hlast Hm He. pose proof (last_vma_spec a Hwf) as Hs. rewrite Hlast in Hs.
  destruct Hs as (l & Hl & Hc). unfold mergeable in Hm.
  repeat (apply andb_prop in Hm as [Hm ?]). apply Z.eqb_eq in Hm. rewrite !Z.eqb_eq in *.
  pose proof Hwf as (_ & _ & Hok). rewrite Hl, ranges_ok_app, ranges_ok_cons in Hok.
  destruct Hok as (Hb & Hokl & Hv & _ & Hnil).
  assert (Hbl : forall x, x ∈ l -> va_end x <= va_start v).
  { intros x Hx. apply (Hb x v); [done|left]. }
  unfold extends. rewrite resize_wf. unfold below. rewrite resize_live.
  erewrite set_last_live by done. unfold nonempty in Hv. split_and!; [| |done|].
  - eapply set_last_wf; try done. rewrite ranges_ok_app, ranges_ok_cons. split_and!; try done.
    + intros x y Hx ->%list_elem_of_singleton. by apply Hbl.
    + unfold nonempty; simpl. lia.
    + intros y Hy. by apply elem_of_nil in Hy.
  - apply Forall_app. split; [|repeat constructor; simpl; lia].
    apply Forall_forall. intros x Hx. specialize (Hbl _ Hx). simpl. lia.
  - intros va. rewrite !vma_view_attr, resize_live. erewrite set_last_live by done.
    rewrite Hl, !attr_of_snoc by (apply Forall_forall; done).
    unfold contains, attrs; simpl. repeat case_decide; try lia; try done.
    destruct (vinode v =? 0) eqn:E; [|lia]. congruence.
Qed.

Lemma heap_add_del p h : p ∉ blocks h -> heap_del p (heap_add p h) = h.
Proof. destruct h; unfold heap_add, heap_del; simpl. intros. f_equal. set_solver. Qed.
Lemma heap_add_del_pgdir p h : p ∉ pgdirs h -> heap_del_pgdir p (heap_add_pgdir p h) = h.
Proof. destruct h; unfold heap_add_pgdir, heap_del_pgdir; simpl. intros. f_equal. set_solver. Qed.
Lemma heap_del_comm p d h : heap_del p (heap_del_pgdir d h) = heap_del_pgdir d (heap_del p h).
Proof. done. Qed.
Lemma heap_add_comm p d h : heap_add p (heap_add_pgdir d h) = heap_add_pgdir d (heap_add p h).
Proof. done. Qed.

(** The array of a fresh structure is fresh memory of the right capacity. *)
Lemma ensure_capacity_fresh h a need :
  vmas a = None -> vma_cap a = 0 -> vma_count a = 0%nat -> 0 < need <= 2147483648 ->
  vma_ensure_capacity h a need = Some (-1, h, a) \/
  exists q n, vma_ensure_capacity h a need =
    Some (0, heap_add q h, set_cap n (set_vmas (Some (q, fresh_array q n)) a)) /\
    (q ∉ blocks h) /\ need <= n /\ is_u32 n.
Proof.
  intros Hv Hc Hn Hneed. unfold vma_ensure_capacity. rewrite Hc, Z.eqb_refl.
  replace (need <=? 0) with false by lia.
  destruct (grow_cap_enough 31 4 need) as (n & -> & Hge & Hr); try lia.
  destruct (kmalloc h (n *u sizeof_vma)) as [q|] eqn:Ek; [right|by left].
  apply kmalloc_fresh in Ek as [_ Hq]. exists q, n. unfold live. rewrite Hn, Hv. simpl.
  rewrite drop_0. unfold is_u32. split_and!; done || lia.
Qed.

Lemma wf_intro a p arr :
  vmas a = Some (p, arr) -> Z.of_nat (length arr) = vma_cap a ->
  (vma_count a <= length arr)%nat -> ranges_ok (take (vma_count a) arr) -> wf_as a.
Proof. intros Hv. unfold wf_as, live, array. by rewrite Hv. Qed.

(** C15.  Inserting a nonempty range succeeds exactly when it overlaps no live
    range and memory suffices.  On success the new range answers for its own
    addresses and every other address keeps its answer; on failure nothing
    changed.  The table stays sorted and disjoint either way. *)
Theorem vma_insert_refines h a v :
  wf_as a -> is_u32 (vma_cap a) -> Z.of_nat (vma_count a) < 2147483648 -> nonempty v ->
  exists r h' a', vma_insert h (Some a) (Some v) = Some (r, h', Some a') /\ wf_as a' /\
    ((r = -1 /\ h' = h /\ a' = a /\
        ((exists x, x ∈ live a /\ overlaps x v) \/ no_room h a (Z.of_nat (vma_count a) + 1))) \/
     (r = 0 /\ (forall x, x ∈ live a -> ~ overlaps x v) /\
      forall va, vma_view a' va =
        if decide (contains va v) then Some (attrs v va) else vma_view a va)).
Proof.
  intros Hwf Hcap Hcnt Hv. destruct (vma_insert_live h a v) as (r & h' & a' & He & Hc); try done.
  exists r, h', a'. split; [done|]. destruct Hc as [(-> & -> & -> & Hf)|Hc]; [by eauto 10|].
  destruct Hc as (-> & Hwf' & _ & _ & _ & l1 & l2 & Hl & Hl' & Hb & Ha).
  pose proof Hwf' as (_ & _ & Hok'). rewrite Hl', ranges_ok_app, ranges_ok_cons in Hok'.
  destruct Hok' as (Hb1 & _ & _ & Hb2 & _). rewrite Forall_forall in Hb.
  assert (Hdis : forall x, x ∈ l1 ++ l2 -> ~ overlaps x v).
  { unfold overlaps. intros x [Hx|Hx]%elem_of_app [? ?].
    - specialize (Hb _ Hx). unfold before in Hb. lia.
    - specialize (Hb2 _ Hx). unfold before in Hb2. lia. }
  split; [done|]. right. rewrite Hl. split_and!; try done.
  intros va. rewrite !vma_view_attr, Hl', Hl, !attr_of_app. simpl.
  destruct (decide (contains va v)) as [Hin|Hin]; [|done].
  rewrite attr_of_None; [done|]. intros x Hx [? ?].
  specialize (Hb _ Hx). unfold before, contains in *. lia.
Qed.

(** [vma_find] returns the index of the one live range that contains the
    address, and NULL exactly when no live range contains it. *)
Theorem vma_find_correct a va :
  wf_as a ->
  (forall i, vma_find (Some a) va = Some i <->
     exists v, live a !! i = Some v /\ contains va v) /\
  (vma_find (Some a) va = None <-> forall v, v ∈ live a -> ~ contains va v).
Proof.
  intros (_ & _ & Hok). unfold vma_find. pose proof (find_loop_spec (live a) 0 va) as Hs.
  destruct (find_loop (live a) 0 va) as [k|].
  - destruct Hs as (v & _ & Hv & Hc). rewrite Nat.sub_0_r in Hv. split.
    + intros i. split; [intros [= <-]; eauto|].
      intros (w & Hw & Hcw). f_equal. eapply ranges_ok_unique; eauto.
    + split; [done|]. intros Hn. exfalso. eapply Hn; [|done]. by eapply list_elem_of_lookup_2.
  - split; [|done]. intros i. split; [done|]. intros (w & Hw & Hcw). exfalso.
    eapply Hs; [|done]. by eapply list_elem_of_lookup_2.
Qed.

(** Shrinking below the current size always succeeds and cuts every range
    at the new size: addresses below it keep their mapping, the others lose
    it, and the table stays well formed. *)
Theorem vma_shrink_refines a n :
  wf_as a -> below a -> n < vm_size a ->
  exists a', vma_shrink (Some a) n = (0, Some a') /\ wf_as a' /\ below a' /\
    vm_size a' = n /\ live a' = clip n (live a) /\
    forall va, vma_view a' va = if decide (va < n) then vma_view a va else None.
Proof.
  intros Hwf Hbel Hn. unfold vma_shrink.
  replace (n >? vm_size a) with false by lia. replace (n =? vm_size a) with false by lia.
  destruct (shrink_loop_spec (S (vma_count a)) a n) as [Hwf' Hl]; [done|lia|].
  eexists. split; [reflexivity|].
  set (a' := shrink_loop _ _ _) in *. change (live (set_vm_size n a')) with (live a').
  split_and!; try done.
  - unfold below. change (live (set_vm_size n a')) with (live a'). rewrite Hl.
    apply Forall_forall. intros v (x & _ & _ & ->)%elem_of_clip. simpl. lia.
  - intros va. rewrite !vma_view_attr.
    change (live (set_vm_size n a')) with (live a'). rewrite Hl. apply attr_of_clip.
Qed.

Lemma expand_outcome h a n :
  wf_as a -> below a -> is_u32 (vma_cap a) -> Z.of_nat (vma_count a) < 2147483648 ->
  vm_size a < n ->
  exists r h' a', vma_expand h (Some a) n = Some (r, h', Some a') /\
    ((r = 0 /\ extends a a' n (Z.lor VMA_READ VMA_WRITE)) \/
     (r = -1 /\ a' = a /\ h' = h /\ no_room h a (Z.of_nat (vma_count a) + 1))).
Proof.
  intros Hwf Hbel Hcap Hcnt Hn. unfold vma_expand.
  replace (n <? vm_size a) with false by lia. replace (n =? vm_size a) with false by lia.
  destruct (append_extends h a n (Z.lor VMA_READ VMA_WRITE)) as (r & h' & a' & He & Hc); try done.
  destruct (last_vma a) as [v|] eqn:El.
  - destruct (mergeable v (vm_size a) (Z.lor VMA_READ VMA_WRITE)) eqn:Em.
    + do 3 eexists. split; [reflexivity|]. left. split; [done|]. by apply merge_extends.
    + rewrite He. destruct Hc as [[-> Hx]|(-> & -> & -> & Hoom)]; simpl; do 3 eexists;
        (split; [reflexivity|]); [left|right; eauto]. split; [done|].
      destruct (vma_count a') as [|k] eqn:Ek; simpl; [apply (Hx (transitional a'))|apply (Hx 0)].
  - rewrite He. destruct Hc as [[-> Hx]|(-> & -> & -> & Hoom)]; simpl; do 3 eexists;
      (split; [reflexivity|]); [left|right; eauto]. split; [done|].
    destruct (vma_count a') as [|k] eqn:Ek; simpl; [apply (Hx (transitional a'))|apply (Hx 0)].
Qed.

(** Growing the heap ([sbrk]) maps exactly the new addresses as anonymous
    read-write memory, whether it extends the last range or adds one; it fails
    only when the kernel heap is exhausted and then changes nothing. *)
Theorem vma_expand_refines h a n :
  wf_as a -> below a -> is_u32 (vma_cap a) -> Z.of_nat (vma_count a) < 2147483648 ->
  vm_size a < n ->
  exists r h' a', vma_expand h (Some a) n = Some (r, h', Some a') /\
    ((r = 0 /\ extends a a' n (Z.lor VMA_READ VMA_WRITE)) \/
     (r = -1 /\ a' = a /\ h' = h /\ no_room h a (Z.of_nat (vma_count a) + 1))).
Proof. apply expand_outcome. Qed.

(** [vma_reserve_zerofill] at the current end maps exactly the new
    addresses as demand-zero memory; a reservation that does not start at
    [vm_size], or is empty, is refused without any change. *)
Theorem vma_reserve_zerofill_refines h a start e :
  wf_as a -> below a -> is_u32 (vma_cap a) -> Z.of_nat (vma_count a) < 2147483648 ->
  exists r h' a', vma_reserve_zerofill h (Some a) start e = Some (r, h', Some a') /\
    ((r = 0 /\ start = vm_size a /\ start < e /\
      extends a a' e (Z.lor (Z.lor VMA_READ VMA_WRITE) VMA_ZEROFILL)) \/
     (r = -1 /\ a' = a /\ h' = h /\
      (start <> vm_size a \/ e <= start \/ no_room h a (Z.of_nat (vma_count a) + 1)))).
Proof.
  intros Hwf Hbel Hcap Hcnt. unfold vma_reserve_zerofill.
  destruct (start >=? e) eqn:E1; [do 3 eexists; (split; [reflexivity|]); right; split_and!; try done; lia|].
  destruct (start =? vm_size a) eqn:E2; cbn [negb].
  2:{ do 3 eexists; (split; [reflexivity|]); right; split_and!; try done. lia. }
  apply Z.eqb_eq in E2 as ->.
  set (fl := Z.lor (Z.lor VMA_READ VMA_WRITE) VMA_ZEROFILL).
  destruct (append_extends h a e fl) as (r & h' & a' & He & Hc); try done; [lia|].
  destruct (last_vma a) as [v|] eqn:El; [destruct (mergeable v (vm_size a) fl) eqn:Em|].
  1:{ do 3 eexists. split; [reflexivity|]. left. split_and!; try done; [lia|].
      apply merge_extends; done || lia. }
  all: rewrite He; destruct Hc as [[-> Hx]|(-> & -> & -> & Hoom)]; simpl; do 3 eexists;
    (split; [reflexivity|]); [left|right; eauto 10]; split_and!; try done; try lia;
    exact (Hx (transitional a')).
Qed.

(** Duplicating an address space for [fork] either fails and frees
    whatever it had allocated, or gives a well-formed copy with the same
    ranges in fresh memory; destroying the copy gives back exactly the heap
    before the call. *)
Theorem address_space_dup_cow_no_leak h src :
  wf_as src -> Z.of_nat (vma_count src) <= 2147483648 ->
  exists h' o, address_space_dup_cow h (Some src) = Some (h', o) /\
    match o with
    | None => h' = h
    | Some (p, dst) =>
        wf_as dst /\ live dst = live src /\ vm_size dst = vm_size src /\ rss dst = rss src /\
        (pgdir dst ∉ pgdirs h) /\
        (forall q arr, vmas dst = Some (q, arr) -> q ∉ blocks h) /\
        address_space_destroy h' (Some (p, dst)) = h
    end.
Proof.
  intros Hwf Hcnt. unfold address_space_dup_cow, address_space_alloc.
  destruct (kmalloc h sizeof_as) as [p|] eqn:Ep; [|exists h, None; done].
  apply kmalloc_fresh in Ep as [Hp0 Hp]. set (h1 := heap_add p h).
  destruct (if pgdir src =? 0 then None else _) as [d|] eqn:Ed.
  2:{ exists (heap_del p h1), None. split; [done|]. by apply heap_add_del. }
  destruct (pgdir src =? 0); [done|]. apply copy_user_pgdir_fresh in Ed as [Hd0 Hd].
  assert (Hneg : negb (d =? 0) = true) by (apply negb_true_iff, Z.eqb_neq; done).
  pose proof Hwf as (Hlen & Hle & Hok).
  destruct (0 <? vma_count src)%nat eqn:Ec.
  2:{ apply Nat.ltb_ge in Ec. do 2 eexists. split; [reflexivity|]. simpl.
      assert (Hsrc0 : live src = []) by (unfold live; by replace (vma_count src) with 0%nat by lia).
      split_and!; try done;
        [split_and!; done || (split; constructor)|]. rewrite Hneg. simpl.
      rewrite heap_add_del_pgdir by done. by apply heap_add_del. }
  apply Nat.ltb_lt in Ec. set (dst := set_pgdir d 1 _ _).
  destruct (ensure_capacity_fresh (heap_add_pgdir d h1) dst (Z.of_nat (vma_count src)))
    as [->|(q & n & -> & Hq & Hn & Hnu)]; try done; [lia| |]; simpl.
  { do 2 eexists. split; [reflexivity|]. simpl.
    rewrite heap_add_del_pgdir by done. by apply heap_add_del. }
  replace (0 <? vma_count src)%nat with true by (symmetry; by apply Nat.ltb_lt).
  do 2 eexists. split; [reflexivity|]. simpl.
  assert (Hfl : length (fresh_array q n) = Z.to_nat n) by apply fresh_array_length.
  assert (Hl' : take (vma_count src) (copy_vmas (vma_count src) 0 (array src) (fresh_array q n))
                = live src) by (apply copy_all; lia).
  split_and!; try done.
  - unfold is_u32 in Hnu. eapply wf_intro; try reflexivity; simpl;
      rewrite ?Hl', ?copy_vmas_length; done || lia.
  - intros q' arr [= <- <-]. simpl in Hq. set_solver.
  - rewrite Hneg. simpl. rewrite heap_add_del by done. rewrite heap_add_del_pgdir by done.
    by apply heap_add_del.
Qed.

End Specs.

(** ** A concrete environment, for the examples *)

Definition above (X : gset Z) : Z := 1 + foldr Z.max 0 (elements X).

Lemma above_fresh X : above X <> 0 /\ above X ∉ X.
Proof.
  assert (Hm : forall l : list Z, 0 <= foldr Z.max 0 l /\ forall x, x ∈ l -> x <= foldr Z.max 0 l).
  { induction l as [|y l [IH1 IH2]]; simpl; split; try lia.
    - intros x Hx. by apply elem_of_nil in Hx.
    - intros x [->|Hx]%elem_of_cons; [lia|]. specialize (IH2 _ Hx). lia. }
  unfold above. destruct (Hm (elements X)) as [H0 Hx]. split; [lia|].
  intros Hin%elem_of_elements%Hx. lia.
Qed.

#[export, program] Instance bump_env : VmEnv := {
  kmalloc h n := if n <=? 524276 then Some (above (blocks h)) else None;
  fresh_array p n := replicate (Z.to_nat n) (mkVma 0 0 0 0 0);
  new_kernel_pgdir h := Some (above (pgdirs h));
  copy_user_pgdir h d sz := Some (above (pgdirs h))
}.
Next Obligation.
  intros h n p Hp. cbv beta in Hp. destruct (n <=? 524276); simplify_eq. apply above_fresh.
Qed.
Next Obligation. intros p n. apply length_replicate. Qed.
Next Obligation. intros h p Hp. cbv beta in Hp. simplify_eq. apply above_fresh. Qed.
Next Obligation. intros h d sz p Hp. cbv beta in Hp. simplify_eq. apply above_fresh. Qed.

(** ** Examples *)

Definition demo_heap : heap := mkHeap {[100; 200]} {[7]}.
Definition demo_text : vaddr_range := mkVma 0x1000 0x3000 1 5 0x2000.
Definition demo_data : vaddr_range := mkVma 0x4000 0x6000 3 0 0.
Definition demo_as : address_space :=
  mkAs 7 1 0 (Some (200, [demo_text; demo_data; mkVma 0 0 0 0 0; mkVma 0 0 0 0 0])) 2 4 0x6000 3.

Lemma demo_wf : wf_as demo_as.
Proof.
  unfold wf_as. split_and!; [done|simpl; lia|].
  split; repeat constructor; unfold before, nonempty; simpl; lia.
Qed.
Lemma demo_below : below demo_as.
Proof. repeat constructor; simpl; lia. Qed.

Example demo_find : vma_find (Some demo_as) 0x4fff = Some 1%nat.
Proof. reflexivity. Qed.

Lemma vma_insert_refines_witness :
  exists r h' a', vma_insert demo_heap (Some demo_as) (Some (mkVma 0x3000 0x4000 1 0 0))
    = Some (r, h', Some a') /\ wf_as a'.
Proof.
  destruct (vma_insert_refines demo_heap demo_as (mkVma 0x3000 0x4000 1 0 0))
    as (r & h' & a' & He & Hwf & _);
    [apply demo_wf|unfold is_u32; simpl; lia|simpl; lia|unfold nonempty; simpl; lia|].
  exists r, h', a'. split; [exact He|exact Hwf].
Defined.

Lemma vma_find_correct_witness :
  vma_find (Some demo_as) 0x3800 = None <-> forall v, v ∈ live demo_as -> ~ contains 0x3800 v.
Proof. apply (vma_find_correct demo_as 0x3800 demo_wf). Defined.

Lemma vma_shrink_refines_witness :
  exists a', vma_shrink (Some demo_as) 0x2800 = (0, Some a') /\ wf_as a'.
Proof.
  destruct (vma_shrink_refines demo_as 0x2800 demo_wf demo_below) as (a' & He & Hwf & _);
    [simpl; lia|]. exists a'. split; [exact He|exact Hwf].
Defined.

Lemma vma_expand_refines_witness :
  exists r h' a', vma_expand demo_heap (Some demo_as) 0x9000 = Some (r, h', Some a') /\
    (r = 0 \/ r = -1).
Proof.
  destruct (vma_expand_refines demo_heap demo_as 0x9000 demo_wf demo_below)
    as (r & h' & a' & He & Hc); [unfold is_u32; simpl; lia|simpl; lia..|].
  exists r, h', a'. split; [exact He|]. destruct Hc as [[-> _]|[-> _]]; auto.
Defined.

Lemma vma_reserve_zerofill_refines_witness :
  exists r h' a', vma_reserve_zerofill demo_heap (Some demo_as) 0x6000 0x8000
    = Some (r, h', Some a') /\ (r = 0 \/ r = -1).
Proof.
  destruct (vma_reserve_zerofill_refines demo_heap demo_as 0x6000 0x8000 demo_wf demo_below)
    as (r & h' & a' & He & Hc); [unfold is_u32; simpl; lia|simpl; lia|].
  exists r, h', a'. split; [exact He|]. destruct Hc as [[-> _]|[-> _]]; auto.
Defined.

Lemma address_space_dup_cow_no_leak_witness :
  exists h' o, address_space_dup_cow demo_heap (Some demo_as) = Some (h', o).
Proof.
  destruct (address_space_dup_cow_no_leak demo_heap demo_as demo_wf) as (h' & o & He & _);
    [simpl; lia|]. exists h', o. exact He.
Defined.
