(* ===== verification/Pipe.v ===== *)
(** * Pipes: [src/kernel/core/pipe.c]

    A ring buffer of [PIPE_CAPACITY] bytes with free-running 32-bit counters.
    A call runs under the pipe's lock up to its return or its [sleep]; such a
    critical section is one function here, and [WSleep]/[RSleep] say where the
    call resumes.  A read into user memory releases the lock around each
    [copyout]: [plan_read], [copy_read] and [commit_read] are its three steps.

    Modelled: the ring, both loops, end closing with its wakeups and signals,
    the statistics, allocation and the cache of closed pipes.  Locks and
    scheduling appear as the atomicity of the steps. *)

From S2P Require Import Prelude.

Definition PIPE_CAPACITY : Z := 2048.
Definition PIPE_CACHE_MAX : Z := 256.

Record pipe := mkPipe {
  data : list Z;
  nread : Z;
  nwrite : Z;
  readopen : bool;
  writeopen : bool
}.

(** The module's counters ([pipe_get_stats]). *)
Record pipe_stats := mkStats {
  pipe_read_sleep_calls : Z;
  pipe_write_sleep_calls : Z;
  pipe_wakeup_readers : Z;
  pipe_wakeup_writers : Z
}.

Definition read_sleep_inc (s : pipe_stats) : pipe_stats :=
  mkStats (pipe_read_sleep_calls s +u 1) (pipe_write_sleep_calls s)
          (pipe_wakeup_readers s) (pipe_wakeup_writers s).
Definition write_sleep_inc (s : pipe_stats) : pipe_stats :=
  mkStats (pipe_read_sleep_calls s) (pipe_write_sleep_calls s +u 1)
          (pipe_wakeup_readers s) (pipe_wakeup_writers s).
Definition wake_readers_inc (s : pipe_stats) : pipe_stats :=
  mkStats (pipe_read_sleep_calls s) (pipe_write_sleep_calls s)
          (pipe_wakeup_readers s +u 1) (pipe_wakeup_writers s).
Definition wake_writers_inc (s : pipe_stats) : pipe_stats :=
  mkStats (pipe_read_sleep_calls s) (pipe_write_sleep_calls s)
          (pipe_wakeup_readers s) (pipe_wakeup_writers s +u 1).

Definition set_nread (x : Z) (p : pipe) : pipe :=
  mkPipe (data p) x (nwrite p) (readopen p) (writeopen p).
Definition set_ends (r w : bool) (p : pipe) : pipe :=
  mkPipe (data p) (nread p) (nwrite p) r w.

(** The state of a call: the pipe, the counters, and whether SIGPIPE was
    raised in the calling process. *)
Record pst := mkPst { pp : pipe; stats : pipe_stats; sigpipe : bool }.

Definition pipe_full (p : pipe) : bool := nwrite p =? (nread p +u PIPE_CAPACITY).
Definition pipe_empty (p : pipe) : bool := nread p =? nwrite p.

(** ** Writing *)

Inductive wout := WRet (r : Z) | WSleep (i : Z).

(** [off] and [chunk] of one round of the copy loop. *)
Definition write_off (p : pipe) : Z := nwrite p mod PIPE_CAPACITY.
Definition write_chunk (p : pipe) (n i : Z) : Z :=
  let space := PIPE_CAPACITY - s32 (nwrite p - nread p) in
  let chunk := n - i in
  let chunk := if chunk >? space then space else chunk in
  let until_wrap := PIPE_CAPACITY - write_off p in
  if chunk >? until_wrap then until_wrap else chunk.

Definition put_bytes (p : pipe) (bs : list Z) : pipe :=
  mkPipe (list_inserts (Z.to_nat (write_off p)) bs (data p)) (nread p)
         (nwrite p +u Z.of_nat (length bs)) (readopen p) (writeopen p).

(** [fetch i len]: the bytes [addr+i .. addr+i+len) of the source, [None] when
    [copyin] faults.  [None] is the result only when the fuel runs out. *)
Fixpoint pipewrite_loop (fuel : nat) (fetch : Z -> Z -> option (list Z)) (killed : bool)
    (n i : Z) (s : pst) : option (wout * pst) :=
  match fuel with
  | O => None
  | S fuel' =>
      if i <? n then
        let p := pp s in
        if pipe_full p then
          if negb (readopen p) || killed then
            Some (WRet (-1), mkPst p (stats s) (sigpipe s || negb (readopen p)))
          else Some (WSleep i, mkPst p (wake_readers_inc (write_sleep_inc (stats s))) (sigpipe s))
        else
          let was_empty := nwrite p =? nread p in
          let chunk := write_chunk p n i in
          match fetch i chunk with
          | None => Some (WRet (if i >? 0 then i else -1), s)
          | Some bs =>
              let st := if was_empty then wake_readers_inc (stats s) else stats s in
              pipewrite_loop fuel' fetch killed n (i + chunk)
                (mkPst (put_bytes p bs) st (sigpipe s))
          end
      else Some (WRet n, s)
  end.

Definition write_fuel (n : Z) : nat := S (Z.to_nat n).

(** [no_pgdir]: the source is a user address and the process has no page
    directory. *)
Definition pipewrite (no_pgdir : bool) (fetch : Z -> Z -> option (list Z)) (killed : bool)
    (n : Z) (s : pst) : option (wout * pst) :=
  if no_pgdir then Some (WRet (-1), s)
  else if negb (readopen (pp s)) then Some (WRet (-1), mkPst (pp s) (stats s) true)
  else pipewrite_loop (write_fuel n) fetch killed n 0 s.

(** After [sleep] the call goes round the inner loop again. *)
Definition pipewrite_resume (fetch : Z -> Z -> option (list Z)) (killed : bool)
    (n i : Z) (s : pst) : option (wout * pst) :=
  pipewrite_loop (write_fuel n) fetch killed n i s.

(** ** Reading *)

Inductive rout := RRet (r : Z) (got : list Z) | RSleep.

Definition read_off (p : pipe) : Z := nread p mod PIPE_CAPACITY.

(** The locked part before the copy: [None] is the [break] on an empty pipe,
    otherwise offset, length and [was_full]. *)
Definition plan_read (p : pipe) (n i : Z) : option (Z * Z * bool) :=
  if pipe_empty p then None
  else
    let avail := s32 (nwrite p - nread p) in
    let chunk := n - i in
    let chunk := if chunk >? avail then avail else chunk in
    let until_wrap := PIPE_CAPACITY - read_off p in
    let chunk := if chunk >? until_wrap then until_wrap else chunk in
    Some (read_off p, chunk, pipe_full p).

(** The bytes the copy reads from [p->data + off]. *)
Definition copy_read (p : pipe) (off chunk : Z) : list Z :=
  take (Z.to_nat chunk) (drop (Z.to_nat off) (data p)).

(** The locked part after the copy. *)
Definition commit_read (chunk : Z) (was_full : bool) (s : pst) : pst :=
  mkPst (set_nread (nread (pp s) +u chunk) (pp s))
        (if was_full then wake_writers_inc (stats s) else stats s) (sigpipe s).

(** The copy loop when nothing else touches the pipe in between; [store i bs]
    is [copyout] (or [memmove]) of [bs] to [addr+i], false when it faults. *)
Fixpoint piperead_loop (fuel : nat) (store : Z -> list Z -> bool) (n i : Z) (got : list Z)
    (s : pst) : option (rout * pst) :=
  match fuel with
  | O => None
  | S fuel' =>
      if i <? n then
        match plan_read (pp s) n i with
        | None => Some (RRet i got, s)
        | Some (off, chunk, was_full) =>
            let bs := copy_read (pp s) off chunk in
            if store i bs then
              piperead_loop fuel' store n (i + chunk) (got ++ bs) (commit_read chunk was_full s)
            else Some (RRet (if i >? 0 then i else -1) got, s)
        end
      else Some (RRet i got, s)
  end.

Definition piperead (no_pgdir : bool) (store : Z -> list Z -> bool) (killed : bool)
    (n : Z) (s : pst) : option (rout * pst) :=
  if no_pgdir then Some (RRet (-1) [], s)
  else if pipe_empty (pp s) && writeopen (pp s) then
    if killed then Some (RRet (-1) [], s)
    else Some (RSleep, mkPst (pp s) (read_sleep_inc (stats s)) (sigpipe s))
  else piperead_loop (write_fuel n) store n 0 [] s.

(** ** Polling *)

Definition pipe_readable (p : pipe) : bool := negb (pipe_empty p) || negb (writeopen p).
Definition pipe_writable (p : pipe) : bool :=
  (nwrite p <? (nread p +u PIPE_CAPACITY)) || negb (readopen p).
Definition pipe_writeopen (p : pipe) : bool := writeopen p.

(** ** Allocation and closing *)

(** The cache of closed pipe pages (a linked list through the pages), its
    recorded length, and the pipes in use by page address. *)
Record pipes := mkPipes {
  cache_head : list Z;
  cache_count : Z;
  open_pipes : gmap Z pipe
}.

Definition zero_data : list Z := replicate (Z.to_nat PIPE_CAPACITY) 0.
Definition new_pipe : pipe := mkPipe zero_data 0 0 true true.

(** [f0], [f1]: the two [filealloc] results; [page]: the [kalloc] result.  The
    result is the C return value, the state, and the files closed again. *)
Definition pipealloc (f0 f1 page : option Z) (ps : pipes) : Z * pipes * list Z * option Z :=
  match f0 with
  | None => (-1, ps, [], None)
  | Some a =>
      match f1 with
      | None => (-1, ps, [a], None)
      | Some b =>
          match cache_head ps with
          | p :: rest =>
              let c := if cache_count ps >? 0 then cache_count ps - 1 else cache_count ps in
              (0, mkPipes rest c (<[p := new_pipe]> (open_pipes ps)), [], Some p)
          | [] =>
              match page with
              | None => (-1, ps, [a; b], None)
              | Some p => (0, mkPipes [] (cache_count ps) (<[p := new_pipe]> (open_pipes ps)), [], Some p)
              end
          end
      end
  end.

(** The result also says which page went back to [kfree]. *)
Definition pipeclose (a : Z) (writable : bool) (ps : pipes) (st : pipe_stats)
  : pipes * pipe_stats * option Z :=
  match open_pipes ps !! a with
  | None => (ps, st, None)
  | Some p =>
      let p' := if writable then set_ends (readopen p) false p
                else set_ends false (writeopen p) p in
      let st' := if writable then wake_readers_inc st else wake_writers_inc st in
      if negb (readopen p') && negb (writeopen p') then
        if cache_count ps <? PIPE_CACHE_MAX then
          (mkPipes (a :: cache_head ps) (cache_count ps +u 1) (delete a (open_pipes ps)), st', None)
        else (mkPipes (cache_head ps) (cache_count ps) (delete a (open_pipes ps)), st', Some a)
      else (mkPipes (cache_head ps) (cache_count ps) (<[a := p']> (open_pipes ps)), st', None)
  end.

(** ** The ring as a queue *)

Definition count (p : pipe) : Z := nwrite p -u nread p.
Definition cell (p : pipe) (j : Z) : Z := default 0 (data p !! Z.to_nat (j mod PIPE_CAPACITY)).
Definition contents (p : pipe) : list Z := (fun k => cell p (nread p + k)) <$> seqZ 0 (count p).

Definition ring_ok (p : pipe) : Prop :=
  length (data p) = Z.to_nat PIPE_CAPACITY /\ is_u32 (nread p) /\ is_u32 (nwrite p) /\
  count p <= PIPE_CAPACITY.

Ltac ring_arith :=
  unfold ring_ok, count, is_u32, u32, s32, PIPE_CAPACITY, write_off, read_off in *; mlia.

Lemma count_range p : 0 <= count p.
Proof. unfold count, u32. mlia. Qed.

Lemma contents_lookup p (i : nat) :
  contents p !! i =
  if decide (Z.of_nat i < count p) then Some (cell p (nread p + Z.of_nat i)) else None.
Proof.
  unfold contents. rewrite list_lookup_fmap. case_decide.
  - rewrite lookup_seqZ_lt by lia. simpl. done.
  - rewrite lookup_seqZ_ge by lia. done.
Qed.

Lemma contents_length p : Z.of_nat (length (contents p)) = count p.
Proof. unfold contents. rewrite length_fmap, length_seqZ. pose proof (count_range p). lia. Qed.

Lemma pipe_full_count p : ring_ok p -> pipe_full p = true <-> count p = PIPE_CAPACITY.
Proof. intros. unfold pipe_full. rewrite Z.eqb_eq. ring_arith. Qed.

Lemma pipe_empty_count p : ring_ok p -> pipe_empty p = true <-> count p = 0.
Proof. intros. unfold pipe_empty. rewrite Z.eqb_eq. ring_arith. Qed.

Lemma signed_count p : ring_ok p -> s32 (nwrite p - nread p) = count p.
Proof. intros. ring_arith. Qed.

(** The data cell behind a queue position. *)
Lemma cell_data p j k :
  ring_ok p -> 0 <= k < PIPE_CAPACITY -> j mod PIPE_CAPACITY = k ->
  data p !! Z.to_nat k = Some (cell p j).
Proof.
  intros (Hl & _) Hk <-. unfold cell.
  destruct (lookup_lt_is_Some_2 (data p) (Z.to_nat (j mod PIPE_CAPACITY))) as [x Hx].
  { rewrite Hl. unfold PIPE_CAPACITY in *. mlia. }
  by rewrite Hx.
Qed.

(** The capacity divides 2^32, so the counters may wrap. *)
Lemma slot_wrap x : u32 x mod PIPE_CAPACITY = x mod PIPE_CAPACITY.
Proof. unfold u32, PIPE_CAPACITY. apply Z.mod_mod_divide. by exists 2097152. Qed.

Lemma slot_wrap_add x y : (u32 x + y) mod PIPE_CAPACITY = (x + y) mod PIPE_CAPACITY.
Proof. by rewrite Zplus_mod, slot_wrap, <- Zplus_mod. Qed.

Lemma write_off_eq p : write_off p = (nread p + count p) mod PIPE_CAPACITY.
Proof.
  unfold count, write_off. rewrite Z.add_comm, slot_wrap_add. f_equal. lia.
Qed.

(** Slots of queued bytes stay clear of the free slots from the write offset. *)
Lemma slot_disjoint a c i n :
  0 <= i < c -> 0 <= n -> c + n <= PIPE_CAPACITY -> (a + c) mod PIPE_CAPACITY + n <= PIPE_CAPACITY ->
  (a + i) mod PIPE_CAPACITY < (a + c) mod PIPE_CAPACITY \/
  (a + c) mod PIPE_CAPACITY + n <= (a + i) mod PIPE_CAPACITY.
Proof. unfold PIPE_CAPACITY. intros. mlia. Qed.

Lemma slot_shift a c k :
  0 <= k -> (a + c) mod PIPE_CAPACITY + k < PIPE_CAPACITY ->
  (a + (c + k)) mod PIPE_CAPACITY = (a + c) mod PIPE_CAPACITY + k.
Proof. unfold PIPE_CAPACITY. intros. mlia. Qed.

Lemma slot_range a : 0 <= a mod PIPE_CAPACITY < PIPE_CAPACITY.
Proof. unfold PIPE_CAPACITY. mlia. Qed.

Lemma put_bytes_spec p bs :
  ring_ok p -> Z.of_nat (length bs) <= PIPE_CAPACITY - count p ->
  write_off p + Z.of_nat (length bs) <= PIPE_CAPACITY ->
  ring_ok (put_bytes p bs) /\ contents (put_bytes p bs) = contents p ++ bs.
Proof.
  intros Hok Hspace Hwrap.
  assert (Hc : count (put_bytes p bs) = count p + Z.of_nat (length bs)).
  { unfold put_bytes, count in *; simpl. ring_arith. }
  assert (Hok' : ring_ok (put_bytes p bs)).
  { unfold ring_ok. rewrite Hc. destruct Hok as (Hl & Hr & Hw & _).
    split_and!; [by simpl; rewrite length_inserts|done|apply u32_range|lia]. }
  split; [done|]. apply list_eq. intros i. rewrite contents_lookup, Hc.
  pose proof (contents_length p) as Hcl. pose proof (count_range p).
  pose proof (slot_range (nread p + count p)). pose proof (slot_range (nread p + Z.of_nat i)).
  rewrite write_off_eq in Hwrap.
  destruct (decide (Z.of_nat i < count p)) as [Hi|Hi].
  - rewrite decide_True by lia. rewrite lookup_app_l by lia.
    rewrite contents_lookup, decide_True by lia. f_equal.
    unfold cell; simpl. rewrite write_off_eq.
    destruct (slot_disjoint (nread p) (count p) (Z.of_nat i) (Z.of_nat (length bs)));
      try lia; [rewrite list_lookup_inserts_lt by lia|rewrite list_lookup_inserts_ge by lia]; done.
  - rewrite lookup_app_r by lia. case_decide as Hj.
    2:{ symmetry. apply lookup_ge_None. lia. }
    pose proof (slot_shift (nread p) (count p) (Z.of_nat i - count p)) as Hs.
    replace (count p + (Z.of_nat i - count p)) with (Z.of_nat i) in Hs by lia.
    unfold cell; simpl. rewrite write_off_eq, Hs by lia.
    destruct Hok as (Hl & _). rewrite list_lookup_inserts by (rewrite ?Hl; lia).
    replace (_ - _)%nat with (i - length (contents p))%nat by lia.
    destruct (lookup_lt_is_Some_2 bs (i - length (contents p))) as [x ->]; [lia|done].
Qed.

Lemma read_off_range p : 0 <= read_off p < PIPE_CAPACITY.
Proof. apply slot_range. Qed.

(** A planned copy takes a prefix of the queue; committing it removes it. *)
Lemma plan_read_spec p n i off chunk wf :
  ring_ok p -> i < n -> plan_read p n i = Some (off, chunk, wf) ->
  0 < chunk <= n - i /\ chunk <= count p /\
  off = read_off p /\ off + chunk <= PIPE_CAPACITY.
Proof.
  intros Hok Hi. unfold plan_read. destruct (pipe_empty p) eqn:E; [done|].
  intros [= <- <- <-]. rewrite signed_count by done.
  assert (count p <> 0).
  { intros H0. apply pipe_empty_count in H0; [congruence|done]. }
  pose proof (count_range p). pose proof (read_off_range p).
  destruct (Z.gtb_spec (n - i) (count p));
    match goal with |- context [?x >? ?y] => destruct (Z.gtb_spec x y) end; lia.
Qed.

Lemma copy_read_prefix p chunk :
  ring_ok p -> 0 <= chunk <= count p -> read_off p + chunk <= PIPE_CAPACITY ->
  copy_read p (read_off p) chunk = take (Z.to_nat chunk) (contents p).
Proof.
  intros Hok Hc Hw. unfold copy_read. apply list_eq. intros i.
  destruct (decide (i < Z.to_nat chunk)%nat) as [Hi|Hi].
  2:{ rewrite !(proj2 (lookup_ge_None _ i)); rewrite ?length_take; try done; lia. }
  rewrite !lookup_take_lt by done. rewrite lookup_drop, contents_lookup, decide_True by lia.
  pose proof (read_off_range p).
  replace (Z.to_nat (read_off p) + i)%nat with (Z.to_nat (read_off p + Z.of_nat i)) by lia.
  unfold read_off in *. apply cell_data; [done|lia|].
  pose proof (slot_shift (nread p) 0 (Z.of_nat i)) as Hs.
  rewrite Z.add_0_r, Z.add_0_l in Hs. apply Hs; lia.
Qed.

Lemma commit_read_spec s chunk wf :
  ring_ok (pp s) -> 0 <= chunk <= count (pp s) ->
  ring_ok (pp (commit_read chunk wf s)) /\
  contents (pp (commit_read chunk wf s)) = drop (Z.to_nat chunk) (contents (pp s)).
Proof.
  intros Hok Hc. set (p := pp s) in *. set (p' := pp (commit_read chunk wf s)).
  assert (Hc' : count p' = count p - chunk) by (unfold p', count; simpl; fold p; ring_arith).
  assert (Hok' : ring_ok p').
  { unfold ring_ok. rewrite Hc'. destruct Hok as (Hl & Hr & Hw & Hle).
    split_and!; [done|apply u32_range|done|lia]. }
  split; [done|]. apply list_eq. intros i.
  rewrite lookup_drop, !contents_lookup, Hc'. repeat case_decide; try lia; [|done].
  f_equal. unfold cell, p'; simpl. fold p. rewrite slot_wrap_add.
  by replace (nread p + Z.of_nat (Z.to_nat chunk + i)) with (nread p + chunk + Z.of_nat i) by lia.
Qed.

(** ** Sequential behaviour *)

Definition slice (l : list Z) (i len : Z) : list Z := take (Z.to_nat len) (drop (Z.to_nat i) l).

(** [fetch] reads the buffer [src] or faults. *)
Definition fetches (fetch : Z -> Z -> option (list Z)) (src : list Z) : Prop :=
  forall i len bs, fetch i len = Some bs -> bs = slice src i len.

(** A kernel source: [memmove] never faults. *)
Definition kernel_src (src : list Z) (i len : Z) : option (list Z) := Some (slice src i len).

Lemma slice_length l i len :
  0 <= i -> 0 <= len -> i + len <= Z.of_nat (length l) -> Z.of_nat (length (slice l i len)) = len.
Proof. intros. unfold slice. rewrite length_take, length_drop. lia. Qed.

Lemma slice_app l i a b :
  0 <= i -> 0 <= a -> 0 <= b -> slice l i a ++ slice l (i + a) b = slice l i (a + b).
Proof.
  intros. unfold slice. replace (Z.to_nat (i + a)) with (Z.to_nat i + Z.to_nat a)%nat by lia.
  rewrite <- drop_drop, take_take_drop. f_equal. lia.
Qed.

Lemma write_chunk_spec p n i :
  ring_ok p -> pipe_full p = false -> i < n ->
  0 < write_chunk p n i <= n - i /\ write_chunk p n i <= PIPE_CAPACITY - count p /\
  write_off p + write_chunk p n i <= PIPE_CAPACITY.
Proof.
  intros Hok Hf Hi. unfold write_chunk. rewrite signed_count by done.
  assert (count p <> PIPE_CAPACITY).
  { intros H0. apply pipe_full_count in H0; [congruence|done]. }
  assert (count p <= PIPE_CAPACITY) by apply Hok.
  assert (0 <= write_off p < PIPE_CAPACITY) by (unfold write_off; apply slot_range).
  destruct (Z.gtb_spec (n - i) (PIPE_CAPACITY - count p));
    match goal with |- context [?x >? ?y] => destruct (Z.gtb_spec x y) end; lia.
Qed.

(** How a write call ends when it accepted bytes up to [j] of [src]. *)
Definition write_end (fetch : Z -> Z -> option (list Z)) (killed : bool) (n j : Z) (p : pipe)
    (out : wout) : Prop :=
  match out with
  | WSleep j' => j' = j /\ j < n /\ count p = PIPE_CAPACITY /\ readopen p = true
  | WRet r =>
      (r = n /\ j = n) \/
      (r = -1 /\ j < n /\ count p = PIPE_CAPACITY /\ (readopen p = false \/ killed = true)) \/
      (r = (if j >? 0 then j else -1) /\ j < n /\ exists len, fetch j len = None)
  end.

Lemma pipewrite_loop_spec fetch src killed n fuel i s :
  fetches fetch src -> Z.of_nat (length src) = n -> ring_ok (pp s) -> 0 <= i <= n ->
  n - i < Z.of_nat fuel ->
  exists out s' j, pipewrite_loop fuel fetch killed n i s = Some (out, s') /\
    ring_ok (pp s') /\ i <= j <= n /\
    contents (pp s') = contents (pp s) ++ slice src i (j - i) /\
    nread (pp s') = nread (pp s) /\ readopen (pp s') = readopen (pp s) /\
    writeopen (pp s') = writeopen (pp s) /\ write_end fetch killed n j (pp s') out.
Proof.
  intros Hfe Hlen. revert i s. induction fuel as [|fuel IH]; intros i s Hok Hi Hf; [lia|].
  cbn [pipewrite_loop].
  assert (Hnil : contents (pp s) = contents (pp s) ++ slice src i (i - i)).
  { unfold slice. by rewrite Z.sub_diag, app_nil_r. }
  destruct (i <? n) eqn:Ein.
  2:{ exists (WRet n), s, i. split_and!; try done; try lia. simpl. left. lia. }
  apply Z.ltb_lt in Ein. destruct (pipe_full (pp s)) eqn:Efull.
  { apply pipe_full_count in Efull; [|done].
    destruct (negb (readopen (pp s)) || killed) eqn:Ek.
    - do 2 eexists. exists i. split; [reflexivity|]. simpl. split_and!; try done; try lia.
      right; left. apply orb_prop in Ek as [Ek%negb_true_iff|Ek]; eauto.
    - do 2 eexists. exists i. split; [reflexivity|]. simpl. split_and!; try done; try lia.
      apply orb_false_elim in Ek as [Ek%negb_false_iff _]. done. }
  pose proof (write_chunk_spec (pp s) n i Hok Efull Ein) as (Hc1 & Hc2 & Hc3).
  set (c := write_chunk (pp s) n i) in *.
  destruct (fetch i c) as [bs|] eqn:Efe.
  2:{ do 2 eexists. exists i. split; [reflexivity|]. simpl. split_and!; try done; try lia.
      right; right. eauto. }
  apply Hfe in Efe as Hbs.
  assert (Hbl : Z.of_nat (length bs) = c) by (rewrite Hbs; apply slice_length; lia).
  destruct (put_bytes_spec (pp s) bs) as [Hok' Hcont]; [done|lia..|].
  set (s1 := mkPst (put_bytes (pp s) bs) _ _).
  destruct (IH (i + c) s1) as (out & s' & j & He & Hok2 & Hj & Hct & Hnr & Hro & Hwo & Hend);
    [done|lia|lia|].
  exists out, s', j. split_and!; try done; try lia.
  rewrite Hct. change (pp s1) with (put_bytes (pp s) bs). rewrite Hcont, <- app_assoc. f_equal.
  rewrite Hbs, slice_app by lia. f_equal. lia.
Qed.

(** What a read call ends with when it took [k] more bytes. *)
Lemma piperead_loop_spec store n fuel i acc s :
  ring_ok (pp s) -> 0 <= i <= n -> n - i < Z.of_nat fuel ->
  exists r got s' k, piperead_loop fuel store n i acc s = Some (RRet r got, s') /\
    ring_ok (pp s') /\ 0 <= k <= Z.min (n - i) (count (pp s)) /\
    got = acc ++ take (Z.to_nat k) (contents (pp s)) /\
    contents (pp s') = drop (Z.to_nat k) (contents (pp s)) /\
    nwrite (pp s') = nwrite (pp s) /\
    ((r = i + k /\ k = Z.min (n - i) (count (pp s))) \/
     (r = (if i + k >? 0 then i + k else -1) /\ exists j bs, store j bs = false)).
Proof.
  revert i acc s. induction fuel as [|fuel IH]; intros i acc s Hok Hi Hf; [lia|].
  cbn [piperead_loop]. pose proof (count_range (pp s)) as Hcr.
  destruct (i <? n) eqn:Ein.
  2:{ exists i, acc, s, 0. simpl. rewrite app_nil_r, drop_0. split_and!; try done; lia. }
  apply Z.ltb_lt in Ein. destruct (plan_read (pp s) n i) as [[[off c] wf]|] eqn:Ep.
  2:{ assert (count (pp s) = 0).
      { unfold plan_read in Ep. destruct (pipe_empty (pp s)) eqn:E; [|done].
        by apply pipe_empty_count. }
      exists i, acc, s, 0. simpl. rewrite app_nil_r, drop_0. split_and!; try done; lia. }
  apply plan_read_spec in Ep as (Hc1 & Hc2 & -> & Hc3); [|done|done].
  rewrite copy_read_prefix by (done || lia).
  destruct (store i _) eqn:Est.
  2:{ do 3 eexists. exists 0. split; [reflexivity|]. simpl. rewrite app_nil_r, drop_0, Z.add_0_r.
      split_and!; try done; try lia. right. eauto. }
  destruct (commit_read_spec s c wf) as [Hok' Hct]; [done|lia|].
  assert (Hcnt : count (pp (commit_read c wf s)) = count (pp s) - c).
  { rewrite <- !contents_length, Hct, length_drop. pose proof (contents_length (pp s)). lia. }
  destruct (IH (i + c) (acc ++ take (Z.to_nat c) (contents (pp s))) (commit_read c wf s))
    as (r & got & s' & k & He & Hok2 & Hk & Hg & Hct2 & Hnw & Hend); [done|lia|lia|].
  rewrite Hcnt in *. exists r, got, s', (c + k). split_and!; try done; try lia.
  - rewrite Hg, Hct, <- app_assoc, take_take_drop. do 2 f_equal. lia.
  - rewrite Hct2, Hct, drop_drop. f_equal. lia.
  - replace (i + (c + k)) with (i + c + k) by lia.
    destruct Hend as [[-> ->]|Hend]; [left; lia|right; done].
Qed.

(** A write call, first run or resumed after a sleep at [i], always ends
    (it returns or goes to sleep on a full pipe), and the bytes it accepted,
    and no others, are appended to the queue in order. *)
Theorem pipewrite_appends fetch src killed n i s :
  fetches fetch src -> Z.of_nat (length src) = n -> ring_ok (pp s) -> 0 <= i <= n ->
  exists out s' j, pipewrite_resume fetch killed n i s = Some (out, s') /\
    ring_ok (pp s') /\ i <= j <= n /\
    contents (pp s') = contents (pp s) ++ slice src i (j - i) /\
    write_end fetch killed n j (pp s') out.
Proof.
  intros Hfe Hlen Hok Hi. unfold pipewrite_resume.
  destruct (pipewrite_loop_spec fetch src killed n (write_fuel n) i s)
    as (out & s' & j & He & Hok' & Hj & Hc & _ & _ & _ & Hend); try done.
  { unfold write_fuel. lia. }
  exists out, s', j. done.
Qed.

(** A read that does not have to wait delivers exactly the longest prefix
    of the queue that fits in [n] bytes (less only if the destination
    faults), removes exactly that prefix, and returns its length. *)
Theorem piperead_takes_prefix store killed n s :
  ring_ok (pp s) -> 0 <= n -> pipe_empty (pp s) && writeopen (pp s) = false ->
  exists r got s', piperead false store killed n s = Some (RRet r got, s') /\
    ring_ok (pp s') /\ contents (pp s) = got ++ contents (pp s') /\
    (r = Z.of_nat (length got) /\ r = Z.min n (count (pp s)) \/
     (exists j bs, store j bs = false)).
Proof.
  intros Hok Hn Hw. unfold piperead. rewrite Hw.
  destruct (piperead_loop_spec store n (write_fuel n) 0 [] s)
    as (r & got & s' & k & He & Hok' & Hk & Hg & Hc & _ & Hend); [done|lia|unfold write_fuel; lia|].
  exists r, got, s'. split_and!; try done.
  - rewrite Hg, Hc. simpl. by rewrite take_drop.
  - destruct Hend as [[-> ->]|[_ Hend]]; [left|by right].
    subst got. simpl. rewrite length_take. pose proof (contents_length (pp s)). lia.
Qed.

(** ** Concurrency: one writer, several readers *)

(** A reader between its critical sections: idle, about to copy outside the
    lock, or done copying and about to take the lock again. *)
Inductive reader :=
| RIdle
| RCopying (n i off chunk : Z) (was_full : bool)
| RCopied (n i chunk : Z) (was_full : bool) (bs : list Z).

(** A writer asleep at position [i] of its buffer, or idle. *)
Inductive writer := WIdle | WBlocked (src : list Z) (i : Z).

(** [sent]: all bytes ever accepted; [got]: all bytes ever delivered. *)
Record sys := mkSys {
  spst : pst;
  swriter : writer;
  sreaders : list reader;
  sent : list Z;
  got : list Z
}.

(** The locked part that ends in the next copy, or in the return. *)
Definition next_read (p : pipe) (n i : Z) : reader :=
  if i <? n then
    match plan_read p n i with
    | Some (off, chunk, wf) => RCopying n i off chunk wf
    | None => RIdle
    end
  else RIdle.

Definition writer_after (src : list Z) (o : wout) : writer :=
  match o with WSleep i => WBlocked src i | WRet _ => WIdle end.

(** The bytes of [src] accepted by a critical section from [s] to [s']. *)
Definition accepted (s s' : pst) (src : list Z) (i : Z) : list Z :=
  slice src i (nwrite (pp s') -u nwrite (pp s)).

Inductive step : sys -> sys -> Prop :=
| step_write s rs se go src killed o s' :
    pipewrite false (kernel_src src) killed (Z.of_nat (length src)) s = Some (o, s') ->
    step (mkSys s WIdle rs se go)
         (mkSys s' (writer_after src o) rs (se ++ accepted s s' src 0) go)
| step_write_resume s rs se go src i killed o s' :
    pipewrite_resume (kernel_src src) killed (Z.of_nat (length src)) i s = Some (o, s') ->
    step (mkSys s (WBlocked src i) rs se go)
         (mkSys s' (writer_after src o) rs (se ++ accepted s s' src i) go)
| step_read_begin s w rs se go r n :
    rs !! r = Some RIdle -> pipe_empty (pp s) && writeopen (pp s) = false ->
    step (mkSys s w rs se go) (mkSys s w (<[r := next_read (pp s) n 0]> rs) se go)
| step_read_copy s w rs se go r n i off c wf :
    rs !! r = Some (RCopying n i off c wf) ->
    step (mkSys s w rs se go)
         (mkSys s w (<[r := RCopied n i c wf (copy_read (pp s) off c)]> rs) se go)
| step_read_fault s w rs se go r n i off c wf :
    rs !! r = Some (RCopying n i off c wf) ->
    step (mkSys s w rs se go) (mkSys s w (<[r := RIdle]> rs) se go)
| step_read_commit s w rs se go r n i c wf bs :
    rs !! r = Some (RCopied n i c wf bs) ->
    step (mkSys s w rs se go)
         (mkSys (commit_read c wf s) w
                (<[r := next_read (pp (commit_read c wf s)) n (i + c)]> rs) se (go ++ bs))
| step_close s w rs se go (a b : bool) :
    step (mkSys s w rs se go)
         (mkSys (mkPst (set_ends (readopen (pp s) && a) (writeopen (pp s) && b) (pp s))
                       (stats s) (sigpipe s)) w rs se go).

Definition sys_init (nreaders : nat) : sys :=
  mkSys (mkPst new_pipe (mkStats 0 0 0 0) false) WIdle (replicate nreaders RIdle) [] [].

Definition reachable (nreaders : nat) : sys -> Prop := rtc step (sys_init nreaders).

Definition reader_ok (p : pipe) (r : reader) : Prop :=
  match r with
  | RIdle => True
  | RCopying n i off c _ =>
      off = read_off p /\ 0 < c <= count p /\ off + c <= PIPE_CAPACITY
  | RCopied n i c _ bs => 0 < c <= count p /\ bs = take (Z.to_nat c) (contents p)
  end.

Definition writer_ok (w : writer) : Prop :=
  match w with WIdle => True | WBlocked src i => 0 <= i <= Z.of_nat (length src) end.

(** With one reader the queue is exactly what was sent and not yet delivered. *)
Definition spsc_inv (x : sys) : Prop :=
  ring_ok (pp (spst x)) /\ writer_ok (swriter x) /\
  sent x = got x ++ contents (pp (spst x)) /\
  exists r, sreaders x = [r] /\ reader_ok (pp (spst x)) r.

Lemma kernel_fetches src : fetches (kernel_src src) src.
Proof. intros i len bs [= <-]. done. Qed.

Lemma next_read_ok p n i : ring_ok p -> reader_ok p (next_read p n i).
Proof.
  intros Hok. unfold next_read. destruct (i <? n) eqn:E; [|done]. apply Z.ltb_lt in E.
  destruct (plan_read p n i) as [[[off c] wf]|] eqn:Ep; [|done].
  apply plan_read_spec in Ep; [|done|done]. simpl. naive_solver lia.
Qed.

(** Appending to the queue does not disturb a reader outside the lock. *)
Lemma reader_ok_append p p' r bs :
  ring_ok p -> ring_ok p' -> nread p' = nread p -> contents p' = contents p ++ bs ->
  reader_ok p r -> reader_ok p' r.
Proof.
  intros Hok Hok' Hn Hc.
  assert (Hcnt : count p <= count p').
  { rewrite <- !contents_length, Hc, length_app. lia. }
  destruct r as [|n i off c wf|n i c wf bs']; simpl; [done| |].
  - unfold read_off. rewrite Hn. naive_solver lia.
  - intros [Hr ->]. split; [lia|]. rewrite Hc, take_app_le; [done|].
    pose proof (contents_length p). lia.
Qed.

(** A whole critical section of the writer, as the system sees it. *)
Lemma write_section s src i killed o s' :
  ring_ok (pp s) -> 0 <= i <= Z.of_nat (length src) ->
  pipewrite_resume (kernel_src src) killed (Z.of_nat (length src)) i s = Some (o, s') ->
  ring_ok (pp s') /\ writer_ok (writer_after src o) /\ nread (pp s') = nread (pp s) /\
  contents (pp s') = contents (pp s) ++ accepted s s' src i.
Proof.
  intros Hok Hi He.
  destruct (pipewrite_loop_spec (kernel_src src) src killed (Z.of_nat (length src))
    (write_fuel (Z.of_nat (length src))) i s)
    as (o' & s'' & j & He' & Hok' & Hj & Hc & Hn & _ & _ & Hend);
    [apply kernel_fetches|done..|unfold write_fuel; lia|].
  unfold pipewrite_resume in He. rewrite He in He'. simplify_eq.
  assert (Hd : nwrite (pp s'') -u nwrite (pp s) = j - i).
  { assert (Hcnt : count (pp s'') = count (pp s) + (j - i)).
    { rewrite <- !contents_length, Hc, length_app.
      rewrite Nat2Z.inj_add, slice_length by lia. done. }
    revert Hcnt Hok Hok' Hn. unfold ring_ok. ring_arith. }
  split_and!; [done| |done|].
  - destruct o'; simpl in *; [done|]. lia.
  - unfold accepted. by rewrite Hd.
Qed.

Lemma pipewrite_is_resume s src killed o s' :
  pipewrite false (kernel_src src) killed (Z.of_nat (length src)) s = Some (o, s') ->
  (readopen (pp s) = false /\ pp s' = pp s /\ o = WRet (-1)) \/
  pipewrite_resume (kernel_src src) killed (Z.of_nat (length src)) 0 s = Some (o, s').
Proof.
  unfold pipewrite, pipewrite_resume. destruct (readopen (pp s)); simpl; [by right|].
  intros [= <- <-]. by left.
Qed.

Lemma contents_set_ends r w p : contents (set_ends r w p) = contents p.
Proof. done. Qed.

Lemma writer_step_inv s s' w' r se go src i :
  spsc_inv (mkSys s w' [r] se go) -> ring_ok (pp s') -> nread (pp s') = nread (pp s) ->
  contents (pp s') = contents (pp s) ++ accepted s s' src i ->
  forall w, writer_ok w -> spsc_inv (mkSys s' w [r] (se ++ accepted s s' src i) go).
Proof.
  intros (Hok & _ & Hs & r' & Hr & Hro) Hok' Hn Hc w Hw. simpl in *. simplify_eq.
  split_and!; simpl; [done|done| |].
  - by rewrite Hc, app_assoc.
  - eexists. split; [done|]. by eapply (reader_ok_append (pp s)).
Qed.

Lemma spsc_inv_step x y : spsc_inv x -> step x y -> spsc_inv y.
Proof.
  intros Hinv Hst. pose proof Hinv as (Hok & Hw & Hs & r0 & Hr & Hro).
  destruct Hst as [s rs se go src k o s' He|s rs se go src i k o s' He|s w rs se go r n Hl He
    |s w rs se go r n i off c wf Hl|s w rs se go r n i off c wf Hl|s w rs se go r n i c wf bs Hl
    |s w rs se go a b]; simpl in *; subst rs;
    try (destruct r as [|r]; simpl in Hl; [|done]; simplify_eq; simpl).
  - apply pipewrite_is_resume in He as [(_ & Hp & ->)|He].
    + unfold accepted. rewrite Hp, Z.sub_diag, app_nil_r.
      split_and!; simpl; rewrite ?Hp; eauto.
    + apply write_section in He as (Hok' & Hw' & Hn & Hc); [|done|lia].
      by eapply writer_step_inv.
  - apply write_section in He as (Hok' & Hw' & Hn & Hc); [|done|done].
    by eapply writer_step_inv.
  - split_and!; simpl; try done. eexists. split; [done|]. by apply next_read_ok.
  - split_and!; simpl; try done. eexists. split; [done|]. simpl. destruct Hro as (-> & Hc & Hw').
    split; [lia|]. apply copy_read_prefix; done || lia.
  - split_and!; simpl; try done. eexists. split; [done|]. done.
  - destruct Hro as (Hc & ->). destruct (commit_read_spec s c wf) as [Hok' Hct]; [done|lia|].
    split_and!; cbn [spst swriter sreaders sent got]; [done|done| |].
    + by rewrite Hct, <- app_assoc, take_drop.
    + eexists. split; [done|]. by apply next_read_ok.
  - split_and!; simpl; try done. eexists. split; [done|]. by destruct r0.
Qed.

Lemma new_pipe_ok : ring_ok new_pipe.
Proof. unfold ring_ok, is_u32, count; simpl. split_and!; done || lia. Qed.

Lemma spsc_inv_init : spsc_inv (sys_init 1).
Proof.
  split_and!; simpl; [apply new_pipe_ok|done|done|]. by exists RIdle.
Qed.

(** C11.  With a single reader, whatever the interleaving of the writer's
    critical sections with the reader's copies outside the lock, the delivered
    bytes are a prefix of the accepted bytes in order, the difference is the
    ring's content, and the ring stays consistent. *)
Theorem pipe_spsc_fifo x :
  reachable 1 x ->
  ring_ok (pp (spst x)) /\ sent x = got x ++ contents (pp (spst x)) /\
  Z.of_nat (length (sent x)) - Z.of_nat (length (got x)) <= PIPE_CAPACITY.
Proof.
  intros Hr. assert (Hi : spsc_inv x).
  { unfold reachable in Hr. remember (sys_init 1) as x0 eqn:E.
    assert (H0 : spsc_inv x0) by (subst; apply spsc_inv_init). clear E.
    induction Hr as [|x0 x1 x2 Hs _ IH]; [done|]. eauto using spsc_inv_step. }
  destruct Hi as (Hok & _ & Hs & _). split_and!; try done.
  rewrite Hs, length_app, Nat2Z.inj_add, contents_length.
  destruct Hok as (_ & _ & _ & Hle). lia.
Qed.

(** With two readers the unlocked copy of [piperead] races: from a pipe
    that accepted the one byte 65 both readers deliver it, and the counters
    end up inconsistent ([nread] has passed [nwrite]). *)
Theorem piperead_two_readers_race :
  exists x, reachable 2 x /\ sent x = [65] /\ got x = [65; 65] /\
    nread (pp (spst x)) = nwrite (pp (spst x)) + 1 /\ ~ ring_ok (pp (spst x)).
Proof.
  eexists. split.
  { unfold reachable.
    eapply rtc_l. { eapply (step_write _ _ _ _ [65] false). vm_compute. reflexivity. }
    eapply rtc_l. { eapply (step_read_begin _ _ _ _ _ 0%nat 1); vm_compute; reflexivity. }
    eapply rtc_l. { eapply (step_read_begin _ _ _ _ _ 1%nat 1); vm_compute; reflexivity. }
    eapply rtc_l. { eapply (step_read_copy _ _ _ _ _ 0%nat); vm_compute; reflexivity. }
    eapply rtc_l. { eapply (step_read_copy _ _ _ _ _ 1%nat); vm_compute; reflexivity. }
    eapply rtc_l. { eapply (step_read_commit _ _ _ _ _ 0%nat); vm_compute; reflexivity. }
    eapply rtc_l. { eapply (step_read_commit _ _ _ _ _ 1%nat); vm_compute; reflexivity. }
    apply rtc_refl. }
  split_and!; try (vm_compute; reflexivity).
  intros (_ & _ & _ & Hc). revert Hc. vm_compute. intros Hc. by apply Hc.
Qed.

(** ** Polling *)

(** [pipe_readable] holds exactly when a read would not sleep;
    [pipe_writable] never reports room in a full pipe with a reader, but it
    misses free room exactly while [nread + PIPE_CAPACITY] has wrapped past
    2^32 and [nwrite] has not. *)
Theorem pipe_poll_exact p :
  ring_ok p ->
  (pipe_readable p = true <-> contents p <> [] \/ writeopen p = false) /\
  (pipe_writable p = true <->
     readopen p = false \/
     count p < PIPE_CAPACITY /\ ~ (4294967296 <= nread p + PIPE_CAPACITY /\ nread p <= nwrite p)).
Proof.
  intros Hok. split.
  - unfold pipe_readable. rewrite orb_true_iff, !negb_true_iff.
    assert (Hc : pipe_empty p = false <-> contents p <> []).
    { rewrite <- not_true_iff_false, pipe_empty_count by done.
      rewrite <- contents_length. destruct (contents p); simpl; split; try done; lia. }
    tauto.
  - unfold pipe_writable. rewrite orb_true_iff, negb_true_iff, Z.ltb_lt.
    destruct Hok as (_ & Hr & Hw & Hc).
    assert (Ha : nwrite p < (nread p +u PIPE_CAPACITY) <->
      count p < PIPE_CAPACITY /\ ~ (4294967296 <= nread p + PIPE_CAPACITY /\ nread p <= nwrite p)).
    { revert Hr Hw Hc. unfold count, is_u32, u32, PIPE_CAPACITY. intros.
      split; [|intros [? ?]]; mlia. }
    tauto.
Qed.

(** ** Allocation *)

(** The cache holds distinct pages, none of them in use, and its counter is
    its length. *)
Definition pipes_ok (ps : pipes) : Prop :=
  NoDup (cache_head ps) /\ (forall a, a ∈ cache_head ps -> open_pipes ps !! a = None) /\
  cache_count ps = Z.of_nat (length (cache_head ps)) /\ cache_count ps <= PIPE_CACHE_MAX /\
  (forall a p, open_pipes ps !! a = Some p -> ring_ok p).

(** Pipe allocation and closing keep the cache sound: a page is never
    both cached and open, the cache is bounded by its counter, a new pipe is
    empty with both ends open, and the last close caches the page or gives it
    back to the page allocator. *)
Theorem pipe_cache_sound ps st a writable f0 f1 page :
  pipes_ok ps -> (forall p, page = Some p -> open_pipes ps !! p = None /\ p ∉ cache_head ps) ->
  pipes_ok (fst (fst (pipeclose a writable ps st))) /\
  (forall r ps' closed addr, pipealloc f0 f1 page ps = (r, ps', closed, addr) ->
     pipes_ok ps' /\
     match addr with
     | Some p => r = 0 /\ closed = [] /\ open_pipes ps !! p = None /\
                 open_pipes ps' = <[p := new_pipe]> (open_pipes ps)
     | None => r = -1 /\ ps' = ps
     end).
Proof.
  intros Hall Hpage. pose proof Hall as (Hnd & Hdis & Hcnt & Hmax & Hring). split.
  - unfold pipeclose. destruct (open_pipes ps !! a) as [p|] eqn:Ea; simpl; [|done].
    set (p' := if writable then _ else _).
    assert (Hp' : ring_ok p') by (apply Hring in Ea; by unfold p'; destruct writable).
    assert (Hna : a ∉ cache_head ps) by (intros Hin; specialize (Hdis _ Hin); congruence).
    destruct (negb (readopen p') && negb (writeopen p')); [destruct (cache_count ps <? _) eqn:Ec|]; simpl.
    + apply Z.ltb_lt in Ec. rewrite u32_small by (unfold is_u32, PIPE_CACHE_MAX in *; lia).
      unfold pipes_ok, PIPE_CACHE_MAX in *; simpl. split_and!; try lia.
      * by constructor.
      * intros b [->|Hb]%elem_of_cons; [apply lookup_delete_eq|].
        rewrite lookup_delete_ne; [by apply Hdis|]. intros ->. done.
      * intros b q [_ Hq]%lookup_delete_Some. eauto.
    + split_and!; simpl; try done.
      * intros b Hb. rewrite lookup_delete_ne; [by apply Hdis|]. intros ->. done.
      * intros b q [_ Hq]%lookup_delete_Some. eauto.
    + split_and!; simpl; try done.
      * intros b Hb. rewrite lookup_insert_ne; [by apply Hdis|]. intros ->. done.
      * intros b q [[_ <-]|[_ Hq]]%lookup_insert_Some; eauto.
  - intros r ps' closed addr He. unfold pipealloc in He.
    destruct f0 as [x|]; [|by simplify_eq]. destruct f1 as [y|]; [|by simplify_eq].
    destruct (cache_head ps) as [|p rest] eqn:Eh.
    + destruct page as [p|]; [|by simplify_eq]. destruct (Hpage p) as [Hp Hnp]; [done|].
      simplify_eq. split; [|done]. split_and!; simpl in *; try done.
      * intros b Hb. by apply elem_of_nil in Hb.
      * intros b q [[_ <-]|[_ Hq]]%lookup_insert_Some; eauto using new_pipe_ok.
    + assert (Hp : open_pipes ps !! p = None) by (apply Hdis; left).
      simplify_eq. split; [|done]. apply NoDup_cons in Hnd as [Hnp Hnd]. simpl in Hcnt.
      split_and!; simpl; try done.
      * intros b Hb. rewrite lookup_insert_ne; [apply Hdis; by right|]. intros ->. done.
      * destruct (cache_count ps >? 0) eqn:E; lia.
      * destruct (cache_count ps >? 0); lia.
      * intros b q [[_ <-]|[_ Hq]]%lookup_insert_Some; eauto using new_pipe_ok.
Qed.

(** ** Examples *)

Definition demo_pst : pst := mkPst (put_bytes new_pipe [1; 2; 3]) (mkStats 0 0 0 0) false.

Lemma demo_pst_ok : ring_ok (pp demo_pst).
Proof. apply put_bytes_spec; [apply new_pipe_ok|vm_compute; done..]. Qed.

Lemma pipewrite_appends_witness :
  exists out s' j, pipewrite_resume (kernel_src [7; 8]) false 2 0 demo_pst = Some (out, s') /\
    contents (pp s') = contents (pp demo_pst) ++ slice [7; 8] 0 (j - 0).
Proof.
  destruct (pipewrite_appends (kernel_src [7; 8]) [7; 8] false 2 0 demo_pst)
    as (out & s' & j & He & _ & _ & Hc & _);
    [apply kernel_fetches|reflexivity|apply demo_pst_ok|lia|].
  exists out, s', j. split; [exact He|exact Hc].
Defined.

Lemma piperead_takes_prefix_witness :
  exists r got s', piperead false (fun _ _ => true) false 2 demo_pst = Some (RRet r got, s') /\
    contents (pp demo_pst) = got ++ contents (pp s').
Proof.
  destruct (piperead_takes_prefix (fun _ _ => true) false 2 demo_pst)
    as (r & g & s' & He & _ & Hc & _); [apply demo_pst_ok|lia|reflexivity|].
  exists r, g, s'. split; [exact He|exact Hc].
Defined.

(** A write, a read that has copied but not committed, and a second write. *)
Lemma pipe_spsc_fifo_witness :
  exists x, reachable 1 x /\ sent x = [65; 66] /\ sent x = got x ++ contents (pp (spst x)).
Proof.
  eexists. split; [|split; [|apply (pipe_spsc_fifo _)]].
  1,3: unfold reachable;
    eapply rtc_l; [eapply (step_write _ _ _ _ [65] false); vm_compute; reflexivity|];
    eapply rtc_l; [eapply (step_read_begin _ _ _ _ _ 0%nat 1); vm_compute; reflexivity|];
    eapply rtc_l; [eapply (step_read_copy _ _ _ _ _ 0%nat); vm_compute; reflexivity|];
    eapply rtc_l; [eapply (step_write _ _ _ _ [66] false); vm_compute; reflexivity|];
    apply rtc_refl.
  vm_compute. reflexivity.
Defined.

(** After 4 GB a poll for room fails although 1998 bytes are free. *)
Lemma pipe_poll_exact_witness :
  let p := mkPipe zero_data 4294967196 4294967246 true true in
  count p = 50 /\ ~ (pipe_writable p = true).
Proof.
  split; [reflexivity|].
  destruct (pipe_poll_exact (mkPipe zero_data 4294967196 4294967246 true true)) as [_ Hw].
  { unfold ring_ok, is_u32. split_and!; simpl; try lia; vm_compute; done. }
  intros [Hr|[_ Hn]]%Hw; [discriminate Hr|]. apply Hn. simpl. unfold PIPE_CAPACITY. lia.
Defined.

Lemma pipe_cache_sound_witness :
  pipes_ok (fst (fst (pipeclose 4096 true (mkPipes [8192] 1 {[4096 := new_pipe]}) (mkStats 0 0 0 0)))).
Proof.
  apply (pipe_cache_sound (mkPipes [8192] 1 {[4096 := new_pipe]}) (mkStats 0 0 0 0) 4096 true
           None None None).
  - split_and!; simpl; try (done || lia).
    + apply NoDup_singleton.
    + intros a ->%list_elem_of_singleton. reflexivity.
    + intros a p [<- <-]%lookup_singleton_Some. apply new_pipe_ok.
  - intros p Hp. discriminate Hp.
Defined.
