(* ===== verification/Log.v ===== *)
(** * The write-ahead log: [src/kernel/fs/log.c]

    A physical redo log on the xv6 file system's disk.  A block is its 128
    32-bit words.  The state is the disk, the buffer cache as log.c sees it
    through [bread]/[bwrite] (a cached block hides the disk block), and the C
    struct [log].

    Every block operation consults the oracle [io]: [true] at step [k] means
    that the device reports an error there.  log.c panics on such an error, so
    the disk keeps exactly the writes made before it; a power failure at that
    point has the same effect on the disk.  One theorem about all oracles thus
    covers every crash and every I/O error. *)

From S2P Require Import Prelude.

Definition MAXOPBLOCKS : Z := 10.
Definition LOGSIZE : Z := MAXOPBLOCKS * 3.
Definition BWORDS : nat := 128.

Abbreviation block := (list Z).
Abbreviation blockmap := (gmap Z (list Z)).

Definition zero_block : block := replicate BWORDS 0.
Definition rd (d : blockmap) (b : Z) : block := default zero_block (d !! b).

(** [struct log] with its [struct logheader] ([lh_n], [lh_block]). *)
Record log := mkLog {
  lstart : Z;
  lsize : Z;
  outstanding : Z;
  committing : bool;
  lh_n : Z;
  lh_block : list Z
}.

Record st := mkSt {
  disk : blockmap;
  cache : blockmap;
  lg : log;
  clock : nat
}.

Definition set_disk (d : blockmap) (s : st) : st := mkSt d (cache s) (lg s) (clock s).
Definition set_cache (c : blockmap) (s : st) : st := mkSt (disk s) c (lg s) (clock s).
Definition set_lg (l : log) (s : st) : st := mkSt (disk s) (cache s) l (clock s).
Definition tick (s : st) : st := mkSt (disk s) (cache s) (lg s) (S (clock s)).
Definition set_n (n : Z) (l : log) : log :=
  mkLog (lstart l) (lsize l) (outstanding l) (committing l) n (lh_block l).
Definition set_blocks (bs : list Z) (l : log) : log :=
  mkLog (lstart l) (lsize l) (outstanding l) (committing l) (lh_n l) bs.
Definition set_out (o : Z) (l : log) : log :=
  mkLog (lstart l) (lsize l) o (committing l) (lh_n l) (lh_block l).
Definition set_committing (c : bool) (l : log) : log :=
  mkLog (lstart l) (lsize l) (outstanding l) c (lh_n l) (lh_block l).

(** ** Outcomes

    [Panic s]: the machine stops; only the disk of [s] survives.  [Smash]: the
    code writes outside an array. *)
Inductive outcome (A : Type) :=
| Ok (a : A) (s : st)
| Panic (s : st)
| Smash.
Arguments Ok {A} a s.
Arguments Panic {A} s.
Arguments Smash {A}.

Definition M (A : Type) : Type := st -> outcome A.
Definition ret {A} (a : A) : M A := fun s => Ok a s.
Definition bind {A B} (m : M A) (f : A -> M B) : M B := fun s =>
  match m s with Ok a s' => f a s' | Panic s' => Panic s' | Smash => Smash end.
Definition panic {A} : M A := fun s => Panic s.
Definition smash {A} : M A := fun _ => Smash.
Definition get : M st := fun s => Ok s s.
Definition modify (f : st -> st) : M unit := fun s => Ok tt (f s).

Notation "x <- m ;; k" := (bind m (fun x => k))
  (at level 100, m at next level, right associativity) : auxv6_scope.
Notation "m ;;; k" := (bind m (fun _ => k)) (at level 100, right associativity) : auxv6_scope.

Section Code.
(** The device: does the block operation at this step fail? *)
Variable io : nat -> bool.

(** The content of a buffer: [bread] serves the cache first. *)
Definition buf (s : st) (b : Z) : block :=
  match cache s !! b with Some d => d | None => rd (disk s) b end.

Definition log_bread_checked (b : Z) : M block := fun s =>
  if io (clock s) then Panic (tick s)
  else Ok (buf s b) (set_cache (<[b := buf s b]> (cache s)) (tick s)).

(** [bwrite] of buffer [b] holding [d]. *)
Definition log_bwrite_checked (b : Z) (d : block) : M unit := fun s =>
  if io (clock s) then Panic (set_cache (<[b := d]> (cache s)) (tick s))
  else Ok tt (set_disk (<[b := d]> (disk s)) (set_cache (<[b := d]> (cache s)) (tick s))).

(** [log.lh.block[i]], a read inside the array for [i < LOGSIZE]. *)
Definition lh (s : st) (i : nat) : Z := default 0 (lh_block (lg s) !! i).

(** [for(tail = i; k rounds; tail++)]: log block to home block. *)
Fixpoint install_loop (k i : nat) : M unit :=
  match k with
  | O => ret tt
  | S k' =>
      s <- get ;;
      lbuf <- log_bread_checked (lstart (lg s) + Z.of_nat i + 1) ;;
      _ <- log_bread_checked (lh s i) ;;
      log_bwrite_checked (lh s i) lbuf ;;;
      install_loop k' (S i)
  end.

Definition install_trans : M unit :=
  s <- get ;; install_loop (Z.to_nat (lh_n (lg s))) 0.

(** The words of a header block. *)
Definition hdr_n (d : block) : Z := default 0 (d !! 0%nat).
Definition hdr_block (d : block) (i : nat) : Z := default 0 (d !! S i).

Definition read_head : M unit :=
  s <- get ;;
  buf <- log_bread_checked (lstart (lg s)) ;;
  if hdr_n buf >? LOGSIZE then smash
  else modify (fun s => set_lg (set_blocks
         (list_inserts 0 (hdr_block buf <$> seq 0 (Z.to_nat (hdr_n buf))) (lh_block (lg s)))
         (set_n (hdr_n buf) (lg s))) s).

(** The header words overwritten by [write_head]; the rest of the block stays. *)
Definition enc_head (n : Z) (bs : list Z) (old : block) : block :=
  list_inserts 1 (take (Z.to_nat n) bs) (<[0%nat := n]> old).

Definition write_head : M unit :=
  s <- get ;;
  buf <- log_bread_checked (lstart (lg s)) ;;
  log_bwrite_checked (lstart (lg s)) (enc_head (lh_n (lg s)) (lh_block (lg s)) buf).

Definition recover_from_log : M unit :=
  read_head ;;; install_trans ;;;
  modify (fun s => set_lg (set_n 0 (lg s)) s) ;;; write_head.

(** The superblock fields [logstart] and [nlog] that [readsb] returns. *)
Definition initlog (logstart nlog : Z) : M unit :=
  modify (fun s => set_lg (mkLog logstart nlog (outstanding (lg s)) (committing (lg s))
                                 (lh_n (lg s)) (lh_block (lg s))) s) ;;;
  recover_from_log.

Fixpoint write_log_loop (k i : nat) : M unit :=
  match k with
  | O => ret tt
  | S k' =>
      s <- get ;;
      _ <- log_bread_checked (lstart (lg s) + Z.of_nat i + 1) ;;
      from <- log_bread_checked (lh s i) ;;
      log_bwrite_checked (lstart (lg s) + Z.of_nat i + 1) from ;;;
      write_log_loop k' (S i)
  end.

Definition write_log : M unit :=
  s <- get ;; write_log_loop (Z.to_nat (lh_n (lg s))) 0.

Definition commit : M unit :=
  s <- get ;;
  if lh_n (lg s) >? 0 then
    write_log ;;; write_head ;;; install_trans ;;;
    modify (fun s => set_lg (set_n 0 (lg s)) s) ;;; write_head
  else ret tt.

(** [xv6fs]: is the root file system xv6fs ([ROOTFS_TYPE])?  [None] is the
    [sleep] in the loop of [begin_op]. *)
Definition begin_op (xv6fs : bool) (s : st) : option st :=
  let l := lg s in
  if negb xv6fs then Some s
  else if committing l then None
  else if lh_n l + (outstanding l + 1) * MAXOPBLOCKS >? LOGSIZE then None
  else Some (set_lg (set_out (outstanding l + 1) l) s).

(** [end_op]: the last outstanding call commits. *)
Definition end_op (xv6fs : bool) : M unit :=
  if negb xv6fs then ret tt else
  modify (fun s => set_lg (set_out (outstanding (lg s) - 1) (lg s)) s) ;;;
  s <- get ;;
  if committing (lg s) then panic
  else if outstanding (lg s) =? 0 then
    modify (fun s => set_lg (set_committing true (lg s)) s) ;;;
    commit ;;;
    modify (fun s => set_lg (set_committing false (lg s)) s)
  else ret tt.

(** The absorption scan: the first [i < n] with [block[i] == b], else [n]. *)
Fixpoint absorb (k i : nat) (bs : list Z) (b : Z) : nat :=
  match k with
  | O => i
  | S k' => if default 0 (bs !! i) =? b then i else absorb k' (S i) bs b
  end.

(** [log_write(b)] after the caller has stored [d] in the buffer. *)
Definition log_write (b : Z) (d : block) : M unit :=
  s <- get ;;
  let l := lg s in
  if (lh_n l >=? LOGSIZE) || (lh_n l >=? lsize l - 1) then panic
  else if outstanding l <? 1 then panic
  else
    let i := absorb (Z.to_nat (lh_n l)) 0 (lh_block l) b in
    let l1 := set_blocks (<[i := b]> (lh_block l)) l in
    let l2 := if Z.of_nat i =? lh_n l then set_n (lh_n l + 1) l1 else l1 in
    modify (fun s => set_cache (<[b := d]> (cache s)) (set_lg l2 s)).

End Code.

(** ** Reasoning about outcomes

    [triple m s Q R]: from [s] the code does not write out of bounds, if it
    ends normally [Q] holds, and if it stops the disk satisfies [R]. *)
Definition triple {A} (m : M A) (s : st) (Q : A -> st -> Prop) (R : blockmap -> Prop) : Prop :=
  match m s with Ok a s' => Q a s' | Panic s' => R (disk s') | Smash => False end.

Lemma triple_bind {A B} (m : M A) (f : A -> M B) s Q R :
  triple m s (fun a s' => triple (f a) s' Q R) R -> triple (bind m f) s Q R.
Proof. unfold triple, bind. by destruct (m s). Qed.

Lemma triple_conseq {A} (m : M A) s (Q Q' : A -> st -> Prop) (R R' : blockmap -> Prop) :
  triple m s Q R -> (forall a s', Q a s' -> Q' a s') -> (forall d, R d -> R' d) ->
  triple m s Q' R'.
Proof. unfold triple. destruct (m s); eauto. Qed.

Lemma triple_get s Q R : Q s s -> triple get s Q R.
Proof. done. Qed.
Lemma triple_modify f s Q R : Q tt (f s) -> triple (modify f) s Q R.
Proof. done. Qed.
Lemma triple_ret {A} (a : A) s Q R : Q a s -> triple (ret a) s Q R.
Proof. done. Qed.

#[local] Hint Resolve triple_get triple_modify triple_ret : auxv6.

(** States are only observed through the disk, the buffers and the log. *)
Definition same_view (s s' : st) : Prop :=
  (forall b, rd (disk s') b = rd (disk s) b) /\ (forall b, buf s' b = buf s b) /\ lg s' = lg s.

Section Triples.
Variable io : nat -> bool.

Lemma triple_bread b s (Q : block -> st -> Prop) (R : blockmap -> Prop) :
  (forall s', same_view s s' -> Q (buf s b) s') -> R (disk s) ->
  triple (log_bread_checked io b) s Q R.
Proof.
  intros HQ HR. unfold triple, log_bread_checked. destruct (io (clock s)); [done|].
  apply HQ. split_and!; try done. intros b'. unfold buf; simpl.
  rewrite lookup_insert. by case_decide; subst.
Qed.

Lemma triple_bwrite b d s (Q : unit -> st -> Prop) (R : blockmap -> Prop) :
  (forall s', lg s' = lg s ->
     (forall b', rd (disk s') b' = if decide (b = b') then d else rd (disk s) b') ->
     (forall b', buf s' b' = if decide (b = b') then d else buf s b') -> Q tt s') ->
  R (disk s) -> triple (log_bwrite_checked io b d) s Q R.
Proof.
  intros HQ HR. unfold triple, log_bwrite_checked. destruct (io (clock s)); [done|].
  apply HQ; [done| |]; intros b'.
  - unfold rd; simpl. rewrite lookup_insert. by case_decide.
  - unfold buf, rd; simpl. rewrite !lookup_insert. by case_decide.
Qed.

End Triples.

(** ** What the disk means

    [logcap]: the number of blocks that a log of [nlog] blocks holds besides its
    header ([log_write] panics beyond it).  [home]: not a block of the log.
    [log_view]: the content a block has once the log is replayed, i.e. what
    recovery makes of the disk. *)

Definition logcap (nlog : Z) : Z := Z.max 0 (Z.min LOGSIZE (nlog - 1)).

Definition home (start nlog b : Z) : Prop := ~ (start <= b <= start + logcap nlog).

Definition overlay (start : Z) (bs : list Z) (d : blockmap) (b : Z) : block :=
  match list_find (fun x => x = b) bs with
  | Some (i, _) => rd d (start + Z.of_nat i + 1)
  | None => rd d b
  end.

Definition hdr_blocks (h : block) : list Z := hdr_block h <$> seq 0 (Z.to_nat (hdr_n h)).
Definition log_view (start : Z) (d : blockmap) (b : Z) : block :=
  overlay start (hdr_blocks (rd d start)) d b.

(** Block lists of a transaction: distinct home blocks, at most [LOGSIZE]. *)
Definition txn_ok (start nlog : Z) (bs : list Z) : Prop :=
  NoDup bs /\ Forall (home start nlog) bs /\ Z.of_nat (length bs) <= logcap nlog.

Definition wf_disk (start nlog : Z) (d : blockmap) : Prop :=
  length (rd d start) = BWORDS /\ 0 <= hdr_n (rd d start) <= logcap nlog /\
  txn_ok start nlog (hdr_blocks (rd d start)).
Definition clean (start : Z) (d : blockmap) : Prop :=
  length (rd d start) = BWORDS /\ hdr_n (rd d start) = 0.

Lemma overlay_hit start bs d i b :
  NoDup bs -> bs !! i = Some b -> overlay start bs d b = rd d (start + Z.of_nat i + 1).
Proof.
  intros Hnd Hi. unfold overlay.
  assert (list_find (fun x => x = b) bs = Some (i, b)) as ->; [|done].
  apply list_find_Some. split_and!; [done|done|].
  intros j y Hj Hlt ->. apply (NoDup_lookup _ _ _ _ Hnd Hj) in Hi. lia.
Qed.

Lemma overlay_miss start bs d b : b ∉ bs -> overlay start bs d b = rd d b.
Proof.
  intros Hn. unfold overlay.
  assert (list_find (fun x => x = b) bs = None) as ->; [|done].
  apply list_find_None, Forall_forall. intros x Hx ->. done.
Qed.

Lemma logcap_bound nlog : 0 <= logcap nlog <= LOGSIZE.
Proof. unfold logcap, LOGSIZE, MAXOPBLOCKS. lia. Qed.

Lemma log_slot_not_home start nlog bs i :
  Forall (home start nlog) bs -> (Z.of_nat i < logcap nlog) -> (start + Z.of_nat i + 1) ∉ bs.
Proof.
  intros Hf Hi Hin. rewrite Forall_forall in Hf. apply Hf in Hin. unfold home in Hin. lia.
Qed.

Lemma start_not_home start nlog bs : Forall (home start nlog) bs -> start ∉ bs.
Proof.
  intros Hf Hin. rewrite Forall_forall in Hf. apply Hf in Hin.
  pose proof (logcap_bound nlog). unfold home in Hin. lia.
Qed.

(** Writes to the transaction's home blocks do not change the overlay. *)
Lemma overlay_ext start nlog bs d d0 b :
  txn_ok start nlog bs -> (forall b, b ∉ bs -> rd d b = rd d0 b) ->
  overlay start bs d b = overlay start bs d0 b.
Proof.
  intros (Hnd & Hh & Hl) Hd. destruct (decide (b ∈ bs)) as [Hin|Hn].
  - apply list_elem_of_lookup in Hin as [i Hi]. rewrite !(overlay_hit _ _ _ i) by done.
    apply Hd. apply (log_slot_not_home start nlog); [done|]. apply lookup_lt_Some in Hi. lia.
  - rewrite !overlay_miss by done. by apply Hd.
Qed.

(** ** The header block *)

Lemma enc_head_length n bs old : length (enc_head n bs old) = length old.
Proof. unfold enc_head. by rewrite length_inserts, length_insert. Qed.

Lemma hdr_n_enc n bs old : length old = BWORDS -> hdr_n (enc_head n bs old) = n.
Proof.
  intros Hl. unfold hdr_n, enc_head. rewrite list_lookup_inserts_lt by lia.
  by rewrite list_lookup_insert_eq by (rewrite Hl; unfold BWORDS; lia).
Qed.

Lemma hdr_blocks_enc n bs old :
  length old = BWORDS -> 0 <= n <= LOGSIZE -> n <= Z.of_nat (length bs) ->
  hdr_blocks (enc_head n bs old) = take (Z.to_nat n) bs.
Proof.
  intros Hl Hn Hb. unfold hdr_blocks. rewrite hdr_n_enc by done.
  unfold LOGSIZE, MAXOPBLOCKS, BWORDS in *.
  apply list_eq. intros i. rewrite list_lookup_fmap.
  destruct (decide (i < Z.to_nat n)%nat) as [Hi|Hi].
  - rewrite lookup_seq_lt by done. simpl. rewrite lookup_take_lt by done.
    unfold hdr_block, enc_head.
    rewrite list_lookup_inserts by (rewrite ?length_take, ?length_insert; lia).
    rewrite lookup_take_lt by lia. replace (S i - 1)%nat with i by lia.
    destruct (lookup_lt_is_Some_2 bs i) as [x Hx]; [lia|]. by rewrite Hx.
  - rewrite lookup_seq_ge by lia. simpl. symmetry. apply lookup_ge_None. rewrite length_take. lia.
Qed.

Lemma hdr_blocks_zero h : hdr_n h = 0 -> hdr_blocks h = [].
Proof. unfold hdr_blocks. by intros ->. Qed.

Lemma hdr_blocks_length h : 0 <= hdr_n h -> Z.of_nat (length (hdr_blocks h)) = hdr_n h.
Proof. intros. unfold hdr_blocks. rewrite length_fmap, length_seq. lia. Qed.

Lemma txn_ok_nil start nlog : txn_ok start nlog [].
Proof. split_and!; [constructor|constructor|apply logcap_bound]. Qed.

Lemma log_view_clean start d b : clean start d -> log_view start d b = rd d b.
Proof.
  intros [_ Hn]. unfold log_view. rewrite hdr_blocks_zero by done.
  apply overlay_miss. intros Hb. by apply elem_of_nil in Hb.
Qed.

Lemma clean_wf start nlog d : clean start d -> wf_disk start nlog d.
Proof.
  intros [Hl Hn]. unfold wf_disk, txn_ok. rewrite Hn, hdr_blocks_zero by done.
  pose proof (logcap_bound nlog). split_and!; simpl; try lia; try done; constructor.
Qed.

(** ** The loops *)

Section Loops.
Variable io : nat -> bool.
Variable start nlog : Z.
Variable bs : list Z.
Hypothesis Htxn : txn_ok start nlog bs.

(** The in-memory header lists [bs]. *)
Definition lists_bs (s : st) : Prop :=
  lstart (lg s) = start /\ forall j x, bs !! j = Some x -> lh s j = x.

Lemma lists_bs_lg s s' : lg s' = lg s -> lists_bs s -> lists_bs s'.
Proof. unfold lists_bs, lh. by intros ->. Qed.

(** Home block [x] of slot [j] holds the logged content [v j]. *)
Definition installed (v : nat -> block) (i : nat) (s : st) : Prop :=
  forall j x, (j < i)%nat -> bs !! j = Some x -> rd (disk s) x = v j /\ buf s x = v j.

Lemma slot_fresh i : (i < length bs)%nat -> (start + Z.of_nat i + 1) ∉ bs.
Proof. destruct Htxn as (_ & Hh & Hl). intros. apply (log_slot_not_home start nlog); [done|lia]. Qed.

Lemma install_loop_spec k : forall i s (v : nat -> block) (d0 : blockmap) (u : Z -> block),
  length bs = (i + k)%nat -> lists_bs s ->
  (forall j, (j < length bs)%nat -> buf s (start + Z.of_nat j + 1) = v j) ->
  (forall b, b ∉ bs -> rd (disk s) b = rd d0 b /\ buf s b = u b) -> installed v i s ->
  triple (install_loop io k i) s
    (fun _ s' => lg s' = lg s /\ (forall b, b ∉ bs -> rd (disk s') b = rd d0 b /\ buf s' b = u b) /\
                 installed v (length bs) s')
    (fun d => forall b, b ∉ bs -> rd d b = rd d0 b).
Proof.
  induction k as [|k IH]; intros i s v d0 u Hlen Hlb Hlog Hout Hin; simpl.
  { apply triple_ret. rewrite Hlen, Nat.add_0_r. done. }
  assert (Hd0 : forall b, b ∉ bs -> rd (disk s) b = rd d0 b) by (intros b Hb; by apply Hout).
  destruct (lookup_lt_is_Some_2 bs i) as [x Hx]; [lia|].
  apply triple_bind, triple_get, triple_bind. destruct Hlb as [Hst Hlh].
  apply triple_bread; [|done]. intros s1 (Hd1 & Hb1 & Hl1). rewrite Hst, (Hlh i x Hx).
  apply triple_bind, triple_bread; [|intros b Hb; rewrite Hd1; auto].
  intros s2 (Hd2 & Hb2 & Hl2).
  apply triple_bind, triple_bwrite; [|intros b Hb; rewrite Hd2, Hd1; auto].
  intros s3 Hl3 Hd3 Hb3.
  assert (Hxin : x ∈ bs) by (by eapply list_elem_of_lookup_2).
  eapply triple_conseq; [apply (IH (S i) s3 v d0 u)|cbn; intros _ s' (Hl' & ?); split; [|done]|done].
  - lia.
  - eapply lists_bs_lg; [|split; [exact Hst|exact Hlh]]. congruence.
  - intros j Hj. rewrite Hb3, decide_False, Hb2, Hb1 by (intros ->; by eapply slot_fresh). auto.
  - intros b Hb. rewrite Hd3, Hb3, !decide_False, Hd2, Hd1, Hb2, Hb1 by (by intros ->). auto.
  - intros j y Hj Hy. rewrite Hd3, Hb3. rewrite Hlog by lia.
    destruct (decide (x = y)) as [->|Hne].
    + assert (i = j) as -> by (eapply NoDup_lookup; eauto; apply Htxn). done.
    + rewrite Hd2, Hd1, Hb2, Hb1. apply Hin; [|done].
      destruct (decide (j = i)) as [->|]; [congruence|lia].
  - congruence.
Qed.

(** Blocks other than the transaction's slots. *)
Definition offslot (b : Z) : Prop := ~ (start < b <= start + Z.of_nat (length bs)).

(** Only the slots are written; each gets the buffer of its home block. *)
Lemma write_log_loop_spec k : forall i s (u : Z -> block) (d0 : blockmap),
  length bs = (i + k)%nat -> lists_bs s ->
  (forall j x, bs !! j = Some x -> buf s x = u x) ->
  (forall b, offslot b -> rd (disk s) b = rd d0 b /\ buf s b = u b) ->
  (forall j x, (j < i)%nat -> bs !! j = Some x ->
     rd (disk s) (start + Z.of_nat j + 1) = u x /\ buf s (start + Z.of_nat j + 1) = u x) ->
  triple (write_log_loop io k i) s
    (fun _ s' => lg s' = lg s /\
       (forall b, offslot b -> rd (disk s') b = rd d0 b /\ buf s' b = u b) /\
       (forall j x, bs !! j = Some x ->
          rd (disk s') (start + Z.of_nat j + 1) = u x /\ buf s' (start + Z.of_nat j + 1) = u x))
    (fun d => forall b, offslot b -> rd d b = rd d0 b).
Proof.
  induction k as [|k IH]; intros i s u d0 Hlen Hlb Hu Hout Hin; simpl.
  { apply triple_ret. split_and!; try done. intros j x Hj. apply Hin; [|done].
    apply lookup_lt_Some in Hj. lia. }
  assert (Hd0 : forall b, offslot b -> rd (disk s) b = rd d0 b)
    by (intros b Hb; by apply Hout).
  destruct (lookup_lt_is_Some_2 bs i) as [x Hx]; [lia|].
  apply triple_bind, triple_get, triple_bind. destruct Hlb as [Hst Hlh].
  apply triple_bread; [|done]. intros s1 (Hd1 & Hb1 & Hl1). rewrite Hst, (Hlh i x Hx).
  apply triple_bind, triple_bread; [|intros b Hb; rewrite Hd1; auto].
  intros s2 (Hd2 & Hb2 & Hl2). rewrite Hb1, (Hu i x Hx).
  apply triple_bind, triple_bwrite; [|intros b Hb; rewrite Hd2, Hd1; auto].
  intros s3 Hl3 Hd3 Hb3. destruct Htxn as (Hnd & Hh & Hsz).
  assert (Hslot : forall b, offslot b -> start + Z.of_nat i + 1 <> b).
  { intros b Hb He. subst b. unfold offslot in Hb. lia. }
  assert (Hhome : forall j y, bs !! j = Some y -> offslot y).
  { intros j y Hy. rewrite Forall_forall in Hh. apply list_elem_of_lookup_2, Hh in Hy.
    unfold home, offslot in *. lia. }
  eapply triple_conseq; [apply (IH (S i) s3 u d0)|cbn; intros _ s' (Hl' & ?); split; [|done]|done].
  - lia.
  - eapply lists_bs_lg; [|split; [exact Hst|exact Hlh]]. congruence.
  - intros j y Hy. rewrite Hb3, decide_False, Hb2, Hb1 by (apply Hslot; eauto). eauto.
  - intros b Hb. rewrite Hd3, Hb3, !decide_False, Hd2, Hd1, Hb2, Hb1 by (by apply Hslot). auto.
  - intros j y Hj Hy. rewrite Hd3, Hb3. destruct (decide (i = j)) as [->|Hne].
    + rewrite !decide_True by done. by simplify_eq.
    + rewrite !decide_False, Hd2, Hd1, Hb2, Hb1 by lia. apply Hin; [lia|done].
  - congruence.
Qed.

End Loops.

Lemma write_head_spec io s (Q : unit -> st -> Prop) (R : blockmap -> Prop) :
  (forall s', lg s' = lg s ->
     (let h := enc_head (lh_n (lg s)) (lh_block (lg s)) (buf s (lstart (lg s))) in
      (forall b, rd (disk s') b = if decide (lstart (lg s) = b) then h else rd (disk s) b) /\
      (forall b, buf s' b = if decide (lstart (lg s) = b) then h else buf s b)) -> Q tt s') ->
  (forall d, (forall b, rd d b = rd (disk s) b) -> R d) ->
  triple (write_head io) s Q R.
Proof.
  intros HQ HR. unfold write_head. apply triple_bind, triple_get, triple_bind.
  apply triple_bread; [|auto]. intros s1 (Hd1 & Hb1 & Hl1).
  apply triple_bwrite; [|auto]. intros s2 Hl2 Hd2 Hb2.
  apply HQ; [congruence|]. split; intros b; rewrite ?Hd2, ?Hb2, ?Hd1, ?Hb1; done.
Qed.

(** ** Commit and recovery *)

(** The blocks of the open transaction. *)
Definition txn (s : st) : list Z := take (Z.to_nat (lh_n (lg s))) (lh_block (lg s)).

(** Between system calls: the log on disk is empty, the transaction lists
    distinct home blocks, and only those differ between cache and disk. *)
Definition log_ok (start nlog : Z) (s : st) : Prop :=
  lstart (lg s) = start /\ clean start (disk s) /\
  length (lh_block (lg s)) = Z.to_nat LOGSIZE /\ 0 <= lh_n (lg s) <= logcap nlog /\
  txn_ok start nlog (txn s) /\ forall b, b ∉ txn s -> buf s b = rd (disk s) b.

Lemma txn_length s :
  length (lh_block (lg s)) = Z.to_nat LOGSIZE -> 0 <= lh_n (lg s) <= LOGSIZE ->
  length (txn s) = Z.to_nat (lh_n (lg s)).
Proof. intros Hl Hn. unfold txn. rewrite length_take. lia. Qed.

Lemma txn_lists start s : lstart (lg s) = start -> lists_bs start (txn s) s.
Proof.
  intros Hs. split; [done|]. intros j x Hx. unfold lh. unfold txn in Hx.
  apply lookup_take_Some in Hx as [Hx _]. by rewrite Hx.
Qed.

(** Erasing the header makes the disk clean with the home blocks as they are. *)
Lemma enc_head_clean start nlog d d' h0 bs :
  length h0 = BWORDS ->
  (forall b, rd d' b = if decide (start = b) then enc_head 0 bs h0 else rd d b) ->
  clean start d' /\ forall b, home start nlog b -> rd d' b = rd d b.
Proof.
  intros Hl Hd. split.
  - unfold clean. rewrite Hd, decide_True by done. by rewrite enc_head_length, hdr_n_enc.
  - intros b Hb. rewrite Hd, decide_False; [done|]. intros <-. pose proof (logcap_bound nlog). unfold home in Hb. lia.
Qed.

Lemma home_offslot start nlog bs b : txn_ok start nlog bs -> home start nlog b -> offslot start bs b.
Proof. intros (_ & _ & Hl) Hb. unfold home, offslot in *. lia. Qed.

Section Atomicity.
Variable io : nat -> bool.
Variable start nlog : Z.

(** The part of [commit] and of recovery that starts with a complete log. *)
Lemma install_and_clear s bs :
  txn_ok start nlog bs -> lists_bs start bs s -> Z.to_nat (lh_n (lg s)) = length bs ->
  length (rd (disk s) start) = BWORDS ->
  hdr_blocks (rd (disk s) start) = bs -> hdr_n (rd (disk s) start) = Z.of_nat (length bs) ->
  (forall b, b ∉ bs -> buf s b = rd (disk s) b) ->
  triple (install_trans io ;;; modify (fun s => set_lg (set_n 0 (lg s)) s) ;;; write_head io) s
    (fun _ s' => lg s' = set_n 0 (lg s) /\ clean start (disk s') /\
       (forall b, home start nlog b -> rd (disk s') b = log_view start (disk s) b) /\
       forall b, buf s' b = rd (disk s') b)
    (fun d => wf_disk start nlog d /\ forall b, home start nlog b -> log_view start d b = log_view start (disk s) b).
Proof.
  intros Htxn Hlb Hn Hlen Hhb Hhn Hcoh. pose proof Htxn as (Hnd & Hh & Hsz).
  assert (Hout : forall d : blockmap, (forall b, b ∉ bs -> rd d b = rd (disk s) b) ->
    wf_disk start nlog d /\ forall b, home start nlog b -> log_view start d b = log_view start (disk s) b).
  { intros d Hd. assert (Hst : rd d start = rd (disk s) start) by (apply Hd; by apply (start_not_home start nlog)).
    unfold wf_disk, log_view. rewrite Hst, Hhb. split; [split_and!; try done; lia|].
    intros b _. by apply (overlay_ext start nlog). }
  apply triple_bind. unfold install_trans. apply triple_bind, triple_get. rewrite Hn.
  eapply triple_conseq;
    [apply (install_loop_spec io start nlog bs Htxn (length bs) 0 s
       (fun j => rd (disk s) (start + Z.of_nat j + 1)) (disk s) (fun b => rd (disk s) b))| |exact Hout].
  1-5: try done.
  - intros j Hj. apply Hcoh. by eapply (slot_fresh start nlog).
  - intros b Hb. by rewrite Hcoh.
  - intros j x Hj. lia.
  - intros _ s1 (Hl1 & Hout1 & Hin1). apply triple_bind, triple_modify, write_head_spec; simpl.
    + intros s2 Hl2 [Hd2 Hb2]. rewrite Hl1 in *. destruct Hlb as [Hst _]. rewrite Hst in *.
      destruct (Hout1 start) as [Hs1 Hs1b]; [by apply (start_not_home start nlog)|].
      assert (Hbl : length (buf (set_lg (set_n 0 (lg s)) s1) start) = BWORDS)
        by (change (length (buf s1 start) = BWORDS); by rewrite Hs1b).
      destruct (enc_head_clean start nlog (disk s1) (disk s2) _ _ Hbl Hd2) as [Hcl Hhome].
      assert (Hval : forall b, rd (disk s1) b = log_view start (disk s) b /\ buf s1 b = rd (disk s1) b).
      { intros b. unfold log_view. rewrite Hhb. destruct (decide (b ∈ bs)) as [Hb|Hb].
        - apply list_elem_of_lookup in Hb as [j Hj]. rewrite (overlay_hit _ _ _ j) by done.
          destruct (Hin1 j b) as [-> ->]; [by apply lookup_lt_Some in Hj|done|done].
        - rewrite overlay_miss by done. destruct (Hout1 b Hb) as [-> ->]. done. }
      split_and!; [done|done| |].
      * intros b Hb. rewrite Hhome by done. apply Hval.
      * intros b. rewrite Hd2, Hb2. case_decide; [done|]. apply Hval.
    + intros d Hd. apply Hout. intros b Hb. rewrite Hd. by apply Hout1.
Qed.

(** All home blocks as in [f]. *)
Definition homes_are (d : blockmap) (f : Z -> block) : Prop :=
  forall b, home start nlog b -> log_view start d b = f b.

Lemma commit_triple s :
  log_ok start nlog s ->
  triple (commit io) s
    (fun _ s' => log_ok start nlog s' /\ lg s' = set_n 0 (lg s) /\
       forall b, home start nlog b -> rd (disk s') b = buf s b /\ buf s' b = buf s b)
    (fun d => wf_disk start nlog d /\
       (homes_are d (fun b => rd (disk s) b) \/ homes_are d (buf s))).
Proof.
  intros (Hst & Hcl & Hlb & Hn & Htxn & Hcoh). unfold commit. apply triple_bind, triple_get.
  pose proof (logcap_bound nlog) as Hcap. pose proof (txn_length s Hlb ltac:(lia)) as Htl.
  destruct (lh_n (lg s) >? 0) eqn:En.
  2:{ assert (lh_n (lg s) = 0) as E0 by lia.
      assert (Ht : txn s = []) by (unfold txn; by rewrite E0).
      assert (Hc' : forall b, buf s b = rd (disk s) b).
      { intros b. apply Hcoh. rewrite Ht. intros Hb. by apply elem_of_nil in Hb. }
      apply triple_ret. split; [done|]. split; [|intros b _; by rewrite Hc'].
      destruct (lg s); simpl in *; by subst. }
  set (bs := txn s) in *. pose proof Htxn as (Hnd & Hh & Hsz).
  assert (Hold : forall d : blockmap, (forall b, offslot start bs b -> rd d b = rd (disk s) b) ->
    wf_disk start nlog d /\ homes_are d (fun b => rd (disk s) b)).
  { intros d Hd. assert (Hd0 : rd d start = rd (disk s) start) by (apply Hd; unfold offslot; lia).
    assert (Hcl' : clean start d) by (unfold clean; by rewrite Hd0). split; [by apply clean_wf|].
    intros b Hb. rewrite log_view_clean by done. apply Hd. by apply (home_offslot start nlog). }
  apply triple_bind. unfold write_log. apply triple_bind, triple_get. rewrite <- Htl.
  eapply triple_conseq;
    [apply (write_log_loop_spec io start nlog bs Htxn (length bs) 0 s (buf s) (disk s))
    | |intros d Hd; destruct (Hold d Hd); auto].
  1,3,5: done || (intros; lia). 1: by apply txn_lists. 1: intros b Hb; done.
  intros _ s1 (Hl1 & Hout1 & Hin1). apply triple_bind, write_head_spec.
  2:{ intros d Hd. destruct (Hold d) as [? ?]; [|auto]. intros b Hb. rewrite Hd. by apply Hout1. }
  intros s2 Hl2 [Hd2 Hb2]. rewrite Hl1, Hst in *.
  assert (Hs0 : offslot start bs start) by (unfold offslot; lia).
  assert (Hbl : length (buf s1 start) = BWORDS).
  { destruct (Hout1 start Hs0) as [_ ->]. rewrite Hcoh by (by apply (start_not_home start nlog)). apply Hcl. }
  assert (Hstart2 : rd (disk s2) start = enc_head (lh_n (lg s)) (lh_block (lg s)) (buf s1 start))
    by (by rewrite Hd2, decide_True).
  assert (Hview : homes_are (disk s2) (buf s)).
  { intros b Hb. unfold log_view. rewrite Hstart2, hdr_blocks_enc by (done || lia). fold bs.
    destruct (decide (b ∈ bs)) as [Hin|Hnin].
    - apply list_elem_of_lookup in Hin as [j Hj]. rewrite (overlay_hit _ _ _ j) by done.
      rewrite Hd2, decide_False by lia. by apply Hin1.
    - rewrite overlay_miss by done.
      rewrite Hd2, decide_False by (intros <-; pose proof (logcap_bound nlog); unfold home in Hb; lia).
      rewrite Hcoh by done. apply Hout1. by apply (home_offslot start nlog). }
  eapply triple_conseq; [apply (install_and_clear s2 bs)| |].
  - done.
  - eapply lists_bs_lg; [|by apply txn_lists]. congruence.
  - rewrite Hl2. done.
  - by rewrite Hstart2, enc_head_length.
  - rewrite Hstart2. by rewrite hdr_blocks_enc by (done || lia).
  - rewrite Hstart2, hdr_n_enc by done. lia.
  - intros b Hb. rewrite Hb2, Hd2. case_decide; [done|].
    destruct (decide (start < b <= start + Z.of_nat (length bs))) as [Hslot|Hoff].
    + destruct (lookup_lt_is_Some_2 bs (Z.to_nat (b - start - 1))) as [x Hx]; [lia|].
      pose proof (Hin1 _ _ Hx) as [H1 H2].
      replace (start + Z.of_nat (Z.to_nat (b - start - 1)) + 1) with b in * by lia. congruence.
    + destruct (Hout1 b Hoff) as [-> ->]. by apply Hcoh.
  - intros _ s3 (Hl3 & Hcl3 & Hhome3 & Hcoh3). rewrite Hl2 in Hl3.
    assert (Ht3 : txn s3 = []) by (unfold txn; by rewrite Hl3).
    split_and!; [|done|intros b Hb; rewrite Hcoh3, Hhome3 by done; split; by apply Hview].
    unfold log_ok. rewrite Ht3, Hl3. simpl. split_and!; try done; try lia; apply txn_ok_nil.
  - intros d [Hwf Hv]. split; [done|]. right. intros b Hb. rewrite Hv by done. by apply Hview.
Qed.

End Atomicity.

(** ** Recovery *)

(** After a reboot the memory is gone: empty cache, zeroed [struct log]. *)
Definition reboot (d : blockmap) : st :=
  mkSt d ∅ (mkLog 0 0 0 false 0 (replicate (Z.to_nat LOGSIZE) 0)) 0.

Section Recovery.
Variable io : nat -> bool.
Variable start nlog : Z.

Lemma initlog_triple d :
  wf_disk start nlog d ->
  triple (initlog io start nlog) (reboot d)
    (fun _ s' => log_ok start nlog s' /\ lsize (lg s') = nlog /\ outstanding (lg s') = 0 /\
       committing (lg s') = false /\ lh_n (lg s') = 0 /\
       forall b, home start nlog b -> rd (disk s') b = log_view start d b /\ buf s' b = log_view start d b)
    (fun d' => wf_disk start nlog d' /\ forall b, home start nlog b -> log_view start d' b = log_view start d b).
Proof.
  intros Hwf. pose proof Hwf as (Hlen & Hn & Htxn). unfold initlog. pose proof (logcap_bound nlog) as Hcap.
  apply triple_bind, triple_modify. set (s0 := set_lg _ _).
  assert (Hb0 : forall b, buf s0 b = rd d b) by done.
  unfold recover_from_log. apply triple_bind. unfold read_head.
  apply triple_bind, triple_get, triple_bind, triple_bread; [|done].
  intros s1 (Hd1 & Hb1 & Hl1). change (lstart (lg s0)) with start. rewrite Hb0.
  replace (hdr_n (rd d start) >? LOGSIZE) with false by lia.
  apply triple_modify. set (s2 := set_lg _ s1). set (bs := hdr_blocks (rd d start)) in *.
  assert (Hbl : Z.of_nat (length bs) = hdr_n (rd d start)) by (apply hdr_blocks_length; lia).
  assert (Hlb2 : lh_block (lg s2) = list_inserts 0 bs (replicate (Z.to_nat LOGSIZE) 0)).
  { unfold s2; simpl. by rewrite Hl1. }
  assert (Hd2 : forall b, rd (disk s2) b = rd d b) by (intros b; apply Hd1).
  assert (Hb2 : forall b, buf s2 b = rd d b).
  { intros b. change (buf s2 b) with (buf s1 b). rewrite Hb1. apply Hb0. }
  assert (Hst2 : lstart (lg s2) = start) by (unfold s2; simpl; by rewrite Hl1).
  assert (Hv2 : forall b, home start nlog b -> log_view start (disk s2) b = log_view start d b).
  { intros b _. unfold log_view. rewrite Hd2. apply (overlay_ext start nlog); [done|]. intros b' _. apply Hd2. }
  eapply triple_conseq; [apply (install_and_clear io start nlog s2 bs)| |].
  - done.
  - split; [done|]. intros j x Hx. unfold lh. rewrite Hlb2.
    apply lookup_lt_Some in Hx as Hj.
    rewrite list_lookup_inserts by (rewrite ?length_replicate; lia).
    rewrite Nat.sub_0_r. by rewrite Hx.
  - unfold s2; simpl. lia.
  - by rewrite Hd2.
  - by rewrite Hd2.
  - by rewrite Hd2.
  - intros b _. by rewrite Hb2, Hd2.
  - intros _ s3 (Hl3 & Hcl3 & Hhome3 & Hcoh3).
    assert (Hlg3 : lg s3 = mkLog start nlog 0 false 0 (list_inserts 0 bs (replicate (Z.to_nat LOGSIZE) 0))).
    { rewrite Hl3. unfold s2; simpl. by rewrite Hl1. }
    assert (Ht3 : txn s3 = []) by (unfold txn; by rewrite Hlg3).
    split_and!; try (by rewrite Hlg3).
    + unfold log_ok. rewrite Ht3, Hlg3; cbn [lstart lh_block lh_n]. rewrite length_inserts, length_replicate.
      split_and!; try done; try lia; apply txn_ok_nil.
    + intros b Hb. rewrite Hcoh3, Hhome3, Hv2 by done. done.
  - intros d' [Hwf' Hv']. split; [done|]. intros b Hb. rewrite Hv' by done. by apply Hv2.
Qed.

End Recovery.

(** Booting from [d], possibly crashing during recovery any number of times,
    until a recovery completes in state [s]. *)
Inductive recovers (start nlog : Z) : blockmap -> st -> Prop :=
| recovers_done io d s :
    initlog io start nlog (reboot d) = Ok tt s -> recovers start nlog d s
| recovers_crash io d s1 s :
    initlog io start nlog (reboot d) = Panic s1 ->
    recovers start nlog (disk s1) s -> recovers start nlog d s.

Lemma recovers_view start nlog d s :
  recovers start nlog d s -> wf_disk start nlog d ->
  log_ok start nlog s /\ lsize (lg s) = nlog /\ outstanding (lg s) = 0 /\ committing (lg s) = false /\
  lh_n (lg s) = 0 /\ forall b, home start nlog b -> rd (disk s) b = log_view start d b /\ buf s b = log_view start d b.
Proof.
  induction 1 as [io d s He|io d s1 s He _ IH]; intros Hwf;
    pose proof (initlog_triple io start nlog d Hwf) as Ht; unfold triple in Ht; rewrite He in Ht.
  - done.
  - destruct Ht as [Hwf1 Hv]. destruct (IH Hwf1) as (? & ? & ? & ? & ? & Hb).
    split_and!; try done. intros b Hh. rewrite <- Hv by done. by apply Hb.
Qed.

(** A device that never fails. *)
Definition good_io : nat -> bool := fun _ => false.

Definition quiet {A} (m : M A) : Prop := forall s s', m s <> Panic s'.

Lemma quiet_bind {A B} (m : M A) (f : A -> M B) : quiet m -> (forall a, quiet (f a)) -> quiet (bind m f).
Proof.
  intros Hm Hf s s'. unfold bind. destruct (m s) as [a s1|s1|] eqn:E; [apply Hf| |done].
  by destruct (Hm s s1).
Qed.
Lemma quiet_get : quiet get. Proof. done. Qed.
Lemma quiet_modify f : quiet (modify f). Proof. done. Qed.
Lemma quiet_ret {A} (a : A) : quiet (ret a). Proof. done. Qed.
Lemma quiet_smash {A} : quiet (@smash A). Proof. done. Qed.
Lemma quiet_bread b : quiet (log_bread_checked good_io b). Proof. done. Qed.
Lemma quiet_bwrite b d : quiet (log_bwrite_checked good_io b d). Proof. done. Qed.

#[local] Hint Resolve quiet_get quiet_modify quiet_ret quiet_smash quiet_bread quiet_bwrite : auxv6.

Lemma quiet_write_head : quiet (write_head good_io).
Proof. repeat (apply quiet_bind; intros; auto with auxv6). Qed.

Lemma quiet_install k i : quiet (install_loop good_io k i).
Proof.
  revert i. induction k as [|k IH]; intros i; simpl; auto with auxv6.
  repeat (apply quiet_bind; intros; auto with auxv6).
Qed.

Lemma quiet_recover start nlog : quiet (initlog good_io start nlog).
Proof.
  unfold initlog, recover_from_log, read_head, install_trans.
  repeat (apply quiet_bind; intros; auto with auxv6);
    auto using quiet_install, quiet_write_head. destruct (_ >? _); auto with auxv6.
Qed.

(** C34.  Recovery of a well-formed disk always completes on a working device,
    and however often it is interrupted by crashes or I/O errors before it
    completes, it ends with an empty log and every home block equal to the
    replayed content of the original disk. *)
Theorem recovery_idempotent start nlog d :
  wf_disk start nlog d ->
  (exists s, initlog good_io start nlog (reboot d) = Ok tt s) /\
  (forall s, recovers start nlog d s ->
     log_ok start nlog s /\ lh_n (lg s) = 0 /\
     forall b, home start nlog b -> rd (disk s) b = log_view start d b /\ buf s b = log_view start d b).
Proof.
  intros Hwf. split.
  - pose proof (initlog_triple good_io start nlog d Hwf) as Ht. unfold triple in Ht.
    pose proof (quiet_recover start nlog (reboot d)) as Hq.
    destruct (initlog good_io start nlog (reboot d)) as [[] s|s|]; [eauto| |done].
    by destruct (Hq s).
  - intros s Hr. apply recovers_view in Hr as (? & ? & ? & ? & ? & ?); done.
Qed.

(** C1.  A commit is atomic with respect to crashes and I/O errors: stopped at
    any block operation and followed by any number of interrupted recoveries,
    the home blocks are all as before the transaction or all as in the cache;
    if it runs to the end the disk has the new content and the log is empty. *)
Theorem commit_crash_atomic io start nlog s :
  log_ok start nlog s ->
  match commit io s with
  | Ok _ s' => log_ok start nlog s' /\ lh_n (lg s') = 0 /\
               forall b, home start nlog b -> rd (disk s') b = buf s b
  | Panic s' =>
      wf_disk start nlog (disk s') /\
      forall s2, recovers start nlog (disk s') s2 ->
        (forall b, home start nlog b -> buf s2 b = rd (disk s) b) \/
        (forall b, home start nlog b -> buf s2 b = buf s b)
  | Smash => False
  end.
Proof.
  intros Hok. pose proof (commit_triple io start nlog s Hok) as Ht. unfold triple in Ht.
  destruct (commit io s) as [a s'|s'|]; [| |done].
  - destruct Ht as (Hok' & Hlg & Hb). split_and!; [done|by rewrite Hlg|]. intros b Hh. by apply Hb.
  - destruct Ht as (Hwf & Hv). split; [done|]. intros s2 Hr.
    apply recovers_view in Hr as (_ & _ & _ & _ & _ & Hb); [|done].
    destruct Hv as [Hv|Hv]; [left|right]; intros b Hh; rewrite <- Hv by done; by apply Hb.
Qed.

(** ** Transactions of concurrent system calls *)




(** The file system with its outstanding calls: the state, what each call may
    still write (a call starts with [bud] blocks), and, as a ghost, the content
    of the last commit. *)
Record fsys := mkFs { fss : st; ops : list Z; committed : Z -> block }.

Inductive fstep (start nlog bud : Z) : fsys -> fsys -> Prop :=
| fs_begin s o c s' :
    begin_op true s = Some s' -> fstep start nlog bud (mkFs s o c) (mkFs s' (o ++ [bud]) c)
| fs_write s o1 r o2 c b d s' :
    0 < r -> home start nlog b -> log_write b d s = Ok tt s' ->
    fstep start nlog bud (mkFs s (o1 ++ r :: o2) c) (mkFs s' (o1 ++ (r - 1) :: o2) c)
| fs_end io s o1 r o2 c s' :
    end_op io true s = Ok tt s' ->
    fstep start nlog bud (mkFs s (o1 ++ r :: o2) c)
      (mkFs s' (o1 ++ o2) (if decide (o1 ++ o2 = []) then buf s else c))
| fs_crash s o c s' :
    recovers start nlog (disk s) s' -> fstep start nlog bud (mkFs s o c) (mkFs s' [] c).















(** ** Examples: the log of 30 blocks that mkfs makes, from block 2 on *)

Definition demo_log (n : Z) (bs : list Z) : log :=
  mkLog 2 30 1 false n (list_inserts 0 bs (replicate (Z.to_nat LOGSIZE) 0)).

(** One block, 100, changed in the cache and logged; the disk is all zeros. *)
Definition demo_st : st := mkSt ∅ {[100 := replicate BWORDS 7]} (demo_log 1 [100]) 0.

(** A disk with a committed transaction that is not yet installed. *)
Definition demo_disk : blockmap :=
  {[2 := enc_head 1 [100] zero_block; 3 := replicate BWORDS 7]}.

Lemma home_100 : home 2 30 100.
Proof. unfold home, logcap, LOGSIZE, MAXOPBLOCKS. lia. Qed.

Lemma txn_ok_100 : txn_ok 2 30 [100].
Proof.
  split_and!; [apply NoDup_singleton| |done].
  constructor; [apply home_100|constructor].
Qed.

Lemma demo_st_ok : log_ok 2 30 demo_st.
Proof.
  unfold log_ok. split_and!; try done; [apply txn_ok_100|].
  intros b Hb. unfold buf. change (cache demo_st) with ({[100 := replicate BWORDS 7]} : blockmap).
  rewrite lookup_singleton_ne; [done|]. intros <-. apply Hb. left.
Qed.

Definition demo_fs : fsys :=
  mkFs (mkSt ∅ ∅ (mkLog 2 30 0 false 0 (replicate (Z.to_nat LOGSIZE) 0)) 0) [] (fun _ => zero_block).


Example demo_commit :
  match commit good_io demo_st with Ok _ s => rd (disk s) 100 | _ => [] end = replicate BWORDS 7.
Proof. vm_compute. reflexivity. Qed.

Lemma recovery_idempotent_witness :
  exists s, initlog good_io 2 30 (reboot demo_disk) = Ok tt s.
Proof.
  apply (recovery_idempotent 2 30 demo_disk).
  unfold wf_disk. split_and!; try (vm_compute; done). apply txn_ok_100.
Defined.

(** The power fails at the fourth block operation of the commit. *)
Lemma commit_crash_atomic_witness :
  match commit (fun k => (k =? 4)%nat) demo_st with
  | Panic s' => wf_disk 2 30 (disk s')
  | _ => False
  end.
Proof.
  pose proof (commit_crash_atomic (fun k => (k =? 4)%nat) 2 30 demo_st demo_st_ok) as Hc.
  destruct (commit (fun k => (k =? 4)%nat) demo_st) as [a s'|s'|] eqn:E.
  - vm_compute in E. discriminate E.
  - exact (proj1 Hc).
  - exact Hc.
Defined.





(** One call writes the blocks [bs], all of them within its budget. *)
Fixpoint writes (bs : list Z) (s : st) : option st :=
  match bs with
  | [] => Some s
  | b :: bs => match log_write b zero_block s with Ok _ s' => writes bs s' | _ => None end
  end.

Lemma writes_steps start nlog bud bs s s' o1 r o2 c : Forall (home start nlog) bs -> Z.of_nat (length bs) <= r -> writes bs s = Some s' ->
  rtc (fstep start nlog bud) (mkFs s (o1 ++ r :: o2) c) (mkFs s' (o1 ++ (r - Z.of_nat (length bs)) :: o2) c).
Proof.
  revert s r. induction bs as [|b bs IH]; intros s r Hh Hr Hw; cbn [writes length] in *; [simplify_eq; rewrite Z.sub_0_r; done|].
  destruct (log_write b zero_block s) as [[] s1|s1|] eqn:E; [|done|done]. apply Forall_cons in Hh as [Hb Hh].
  eapply rtc_l; [by eapply (fs_write start nlog bud s o1 r o2 c b zero_block s1); [lia| |]|].
  replace (r - Z.of_nat (S (length bs))) with (r - 1 - Z.of_nat (length bs)) by lia. apply IH; [done|lia|done].
Qed.

Definition written (bs : list Z) (s : st) : st := default s (writes bs s).

Lemma written_ok bs s : bool_decide (is_Some (writes bs s)) = true -> writes bs s = Some (written bs s).
Proof. unfold written. intros [s' ->]%bool_decide_eq_true. done. Qed.

(** Three calls have begun. *)
Definition three_calls : st := mkSt ∅ ∅ (mkLog 2 30 3 false 0 (replicate (Z.to_nat LOGSIZE) 0)) 0.
Definition almost_full : st := written (seqZ 120 9) (written (seqZ 110 10) (written (seqZ 100 10) three_calls)).

(** On a disk as mkfs makes it three calls, each within the [MAXOPBLOCKS] that
    [begin_op] has reserved for it, fill the log before they are done: the
    thirtieth block meets the panic of [log_write]. *)
Theorem mkfs_log_too_small : exists y, rtc (fstep 2 LOGSIZE MAXOPBLOCKS) demo_fs y /\ ops y = [0; 0; 1] /\
  match log_write 200 zero_block (fss y) with Panic _ => True | _ => False end.
Proof.
  exists (mkFs almost_full [0; 0; 1] (fun _ => zero_block)). split; [|split; [done|vm_compute; exact I]].
  assert (Hh : forall n k, 40 <= n -> Forall (home 2 LOGSIZE) (seqZ n k)) by (intros n k Hn; apply Forall_seqZ; intros i Hi; unfold home, logcap, LOGSIZE, MAXOPBLOCKS; lia).
  assert (Hw : forall n k s, bool_decide (is_Some (writes (seqZ n k) s)) = true -> writes (seqZ n k) s = Some (written (seqZ n k) s)) by (intros; by apply written_ok).
  eapply rtc_l; [by apply (fs_begin 2 LOGSIZE MAXOPBLOCKS _ [])|]. eapply rtc_l; [by apply (fs_begin 2 LOGSIZE MAXOPBLOCKS _ [10])|]. eapply rtc_l; [by apply (fs_begin 2 LOGSIZE MAXOPBLOCKS _ [10; 10])|].
  etrans; [apply (writes_steps 2 LOGSIZE MAXOPBLOCKS (seqZ 100 10) three_calls (written (seqZ 100 10) three_calls) [] 10 [10; 10]); [apply Hh; lia|done|apply Hw; vm_compute; reflexivity]|].
  etrans; [apply (writes_steps 2 LOGSIZE MAXOPBLOCKS (seqZ 110 10) _ (written (seqZ 110 10) (written (seqZ 100 10) three_calls)) [0] 10 [10]); [apply Hh; lia|done|apply Hw; vm_compute; reflexivity]|].
  apply (writes_steps 2 LOGSIZE MAXOPBLOCKS (seqZ 120 9) _ almost_full [0; 0] 10 []); [apply Hh; lia|done|apply Hw; vm_compute; reflexivity].
Qed.
