(* ===== verification/TimeCore.v ===== *)
(** * Calendar time: [src/libc/timecore.c]

    Conversion between seconds since the epoch and broken-down UTC time,
    [strftime], and the [timespec] helpers.  The target is i386: [time_t] is
    [long], so it has 32 bits; [long long] has 64 and does not overflow here.
    C's [/] and [%] round towards zero ([Z.quot], [Z.rem]).  Strings are lists
    of characters without the final NUL.  A result [inl e] sets [errno]
    to [e] and returns -1, [inr v] succeeds. *)

From S2P Require Import Prelude.
From Stdlib Require Import String Ascii.

#[local] Open Scope Z_scope.

Definition str (s : string) : list ascii := list_ascii_of_string s.

Definition EINVAL : Z := 22.
Definition EOVERFLOW : Z := 75.
Definition ERANGE : Z := 34.

Definition time_wday_short : list (list ascii) :=
  str <$> ["Sun"; "Mon"; "Tue"; "Wed"; "Thu"; "Fri"; "Sat"]%string.
Definition time_wday_long : list (list ascii) :=
  str <$> ["Sunday"; "Monday"; "Tuesday"; "Wednesday"; "Thursday"; "Friday"; "Saturday"]%string.
Definition time_mon_short : list (list ascii) :=
  str <$> ["Jan"; "Feb"; "Mar"; "Apr"; "May"; "Jun"; "Jul"; "Aug"; "Sep"; "Oct"; "Nov"; "Dec"]%string.
Definition time_mon_long : list (list ascii) :=
  str <$> ["January"; "February"; "March"; "April"; "May"; "June"; "July"; "August";
           "September"; "October"; "November"; "December"]%string.

Record tm := mkTm {
  tm_sec : Z; tm_min : Z; tm_hour : Z; tm_mday : Z; tm_mon : Z;
  tm_year : Z; tm_wday : Z; tm_yday : Z; tm_isdst : Z
}.

Record rtcdate := mkRtc {
  r_second : Z; r_minute : Z; r_hour : Z; r_day : Z; r_month : Z; r_year : Z
}.

(** ** Years and months *)

Definition time_is_leap_year (year : Z) : bool :=
  if negb (Z.rem year 4 =? 0) then false
  else if negb (Z.rem year 100 =? 0) then true
  else Z.rem year 400 =? 0.

Definition time_days_in_year (year : Z) : Z := if time_is_leap_year year then 366 else 365.

Definition time_month_days (leap : bool) : list Z :=
  if leap then [31; 29; 31; 30; 31; 30; 31; 31; 30; 31; 30; 31]
  else [31; 28; 31; 30; 31; 30; 31; 31; 30; 31; 30; 31].

Definition time_days_in_month (year mon : Z) : Z :=
  if (mon <? 0) || (mon >=? 12) then 31
  else default 0 (time_month_days (time_is_leap_year year) !! Z.to_nat mon).

(** [for(y = y0; k rounds; y++) days += sign * days_in_year(y)]. *)
Fixpoint year_loop (k : nat) (y sign days : Z) : Z :=
  match k with
  | O => days
  | S k' => year_loop k' (y + 1) sign (days + sign * time_days_in_year y)
  end.

Definition time_days_before_year (year : Z) : Z :=
  if year >=? 1970 then year_loop (Z.to_nat (year - 1970)) 1970 1 0
  else year_loop (Z.to_nat (1970 - year)) year (-1) 0.

Fixpoint month_loop (k : nat) (year i days : Z) : Z :=
  match k with
  | O => days
  | S k' => month_loop k' year (i + 1) (days + time_days_in_month year i)
  end.

Definition time_days_before_month (year mon : Z) : Z := month_loop (Z.to_nat mon) year 0 0.

(** ** Conversions *)

(** [None] is a NULL argument; [out] says that the output pointer is not NULL. *)
Definition time_rtc_to_epoch (r : option rtcdate) (out : bool) : Z + Z :=
  match r with
  | None => inl EINVAL
  | Some r =>
      if negb out then inl EINVAL
      else if (r_month r <? 1) || (r_month r >? 12) || (r_day r <? 1) ||
         (r_day r >? u32 (time_days_in_month (s32 (r_year r)) (s32 (r_month r) - 1))) ||
         (r_hour r >? 23) || (r_minute r >? 59) || (r_second r >? 60)
      then inl EINVAL
      else
        let days := time_days_before_year (s32 (r_year r)) in
        let days := days + time_days_before_month (s32 (r_year r)) (s32 (r_month r) - 1) in
        let days := days + r_day r - 1 in
        let seconds := days * 86400 + r_hour r * 3600 + r_minute r * 60 + r_second r in
        if (seconds <? -2147483648) || (seconds >? 2147483647) then inl EOVERFLOW
        else inr seconds
  end.

(** [while(days >= days_in_year(year)) { days -= ...; year++; }] *)
Fixpoint year_up (fuel : nat) (days year : Z) : option (Z * Z) :=
  match fuel with
  | O => None
  | S fuel' =>
      if days >=? time_days_in_year year
      then year_up fuel' (days - time_days_in_year year) (year + 1)
      else Some (days, year)
  end.

(** [do { year--; days += ...; } while(days < 0);] *)
Fixpoint year_down (fuel : nat) (days year : Z) : option (Z * Z) :=
  match fuel with
  | O => None
  | S fuel' =>
      let year := year - 1 in
      let days := days + time_days_in_year year in
      if days <? 0 then year_down fuel' days year else Some (days, year)
  end.

Fixpoint mon_up (fuel : nat) (days year mon : Z) : Z * Z :=
  match fuel with
  | O => (days, mon)
  | S fuel' =>
      if (mon <? 11) && (days >=? time_days_in_month year mon)
      then mon_up fuel' (days - time_days_in_month year mon) year (mon + 1)
      else (days, mon)
  end.

(** [|days| + 1] rounds are enough for either year loop, 11 for the months. *)
Definition time_epoch_to_tm (timer : Z) : option tm :=
  let days := Z.quot timer 86400 in
  let rem := Z.rem timer 86400 in
  let '(rem, days) := if rem <? 0 then (rem + 86400, days - 1) else (rem, days) in
  let epoch_days := days in
  let fuel := S (Z.to_nat (Z.abs days)) in
  match (if days >=? 0 then year_up fuel days 1970 else year_down fuel days 1970) with
  | None => None
  | Some (days, year) =>
      let yday := days in
      let '(days, mon) := mon_up 11 days year 0 in
      let wday := Z.rem (epoch_days + 4) 7 in
      Some (mkTm (Z.rem rem 60) (Z.rem (Z.quot rem 60) 60) (Z.quot (Z.quot rem 60) 60)
                 (days + 1) mon (year - 1900) (if wday <? 0 then wday + 7 else wday) yday 0)
  end.

(** [while(mon < 0) { mon += 12; year--; }  while(mon >= 12) { ... }] *)
Fixpoint mon_norm_up (fuel : nat) (mon year : Z) : Z * Z :=
  match fuel with
  | O => (mon, year)
  | S fuel' => if mon <? 0 then mon_norm_up fuel' (mon + 12) (year - 1) else (mon, year)
  end.
Fixpoint mon_norm_down (fuel : nat) (mon year : Z) : Z * Z :=
  match fuel with
  | O => (mon, year)
  | S fuel' => if mon >=? 12 then mon_norm_down fuel' (mon - 12) (year + 1) else (mon, year)
  end.

(** The seconds before the range check. *)
Definition tm_seconds (t : tm) : Z :=
  let year := tm_year t + 1900 in
  let mon := tm_mon t in
  let '(mon, year) := mon_norm_up (S (Z.to_nat (- mon))) mon year in
  let '(mon, year) := mon_norm_down (S (Z.to_nat mon)) mon year in
  let days := time_days_before_year (s32 year) in
  let days := days + time_days_before_month (s32 year) (s32 mon) in
  let days := days + tm_mday t - 1 in
  days * 86400 + tm_hour t * 3600 + tm_min t * 60 + tm_sec t.

(** The check admits years up to 9999; the cast to [time_t] is 32-bit. *)
Definition time_tm_to_epoch (t : option tm) (out : bool) : Z + Z :=
  match t with
  | None => inl EINVAL
  | Some t =>
      if negb out then inl EINVAL
      else
        let seconds := tm_seconds t in
        if (seconds <? 0) || (seconds >? 253402300799) then inl EOVERFLOW
        else inr (s32 seconds)
  end.

Definition gmtime_r (timer : option Z) (result : bool) : Z + option tm :=
  match timer with
  | None => inl EINVAL
  | Some t => if negb result then inl EINVAL else inr (time_epoch_to_tm t)
  end.
Definition localtime_r := gmtime_r.

(** The value returned and the structure as left for the caller. *)
Definition mktime (t : option tm) : (Z + Z) * option tm :=
  match t with
  | None => (inl EINVAL, None)
  | Some tm0 =>
      match time_tm_to_epoch t true with
      | inl e => (inl e, t)
      | inr out =>
          match time_epoch_to_tm out with
          | None => (inl EINVAL, t)
          | Some n => (inr out, Some n)
          end
      end
  end.

(** ** Formatting

    The bytes written so far are a list; its length is the code's [*len].
    [None] is the code's return value 0, on which [strftime] discards the
    buffer. *)

Definition time_append_char (max : Z) (dst : list ascii) (ch : ascii) : option (list ascii) :=
  if len dst + 1 >=? max then None else Some (dst ++ [ch]).

Fixpoint time_append_str (max : Z) (dst : list ascii) (src : list ascii) : option (list ascii) :=
  match src with
  | [] => Some dst
  | c :: src' =>
      match time_append_char max dst c with
      | None => None
      | Some dst' => time_append_str max dst' src'
      end
  end.

Definition digit (v : Z) : ascii := ascii_of_N (Z.to_N (48 + v)).

(** The digits of the [do ... while] loop, least significant first;
    [room] is what is left of [tmp[16]]. *)
Fixpoint num_digits (room : nat) (value : Z) : list ascii :=
  match room with
  | O => []
  | S room' =>
      digit (value mod 10) ::
      (if value / 10 =? 0 then [] else num_digits room' (value / 10))
  end.

(** The contents of [tmp], padded. *)
Definition num_tmp (value width : Z) (pad : ascii) : list ascii :=
  let ds := num_digits 16 value in
  ds ++ replicate (Z.to_nat (Z.min width 16 - len ds)) pad.

Definition time_append_num (max : Z) (dst : list ascii) (value width : Z) (pad : ascii)
    : option (list ascii) :=
  time_append_str max dst (reverse (num_tmp (u32 value) width pad)).

Definition nth_name (names : list (list ascii)) (i : Z) : list ascii :=
  default [] (names !! Z.to_nat i).

(** The [switch] on one directive; [sub] is the recursive call. *)
Definition time_directive (sub : list ascii -> list ascii -> option (list ascii))
    (max : Z) (tm : tm) (c : ascii) (dst : list ascii) : option (list ascii) :=
  let year := tm_year tm + 1900 in
  let ayear := if year <? 0 then - year else year in
  match c with
  | "%"%char => time_append_char max dst "%"%char
  | "a"%char => time_append_str max dst (nth_name time_wday_short (tm_wday tm))
  | "A"%char => time_append_str max dst (nth_name time_wday_long (tm_wday tm))
  | "b"%char => time_append_str max dst (nth_name time_mon_short (tm_mon tm))
  | "B"%char => time_append_str max dst (nth_name time_mon_long (tm_mon tm))
  | "c"%char => sub dst (str "%a %b %e %H:%M:%S %Y")
  | "C"%char => time_append_num max dst (Z.quot ayear 100) 2 "0"%char
  | "d"%char => time_append_num max dst (tm_mday tm) 2 "0"%char
  | "D"%char => sub dst (str "%m/%d/%y")
  | "e"%char => time_append_num max dst (tm_mday tm) 2 " "%char
  | "F"%char => sub dst (str "%Y-%m-%d")
  | "H"%char => time_append_num max dst (tm_hour tm) 2 "0"%char
  | "I"%char =>
      let hour12 := Z.rem (tm_hour tm) 12 in
      time_append_num max dst (if hour12 =? 0 then 12 else hour12) 2 "0"%char
  | "j"%char => time_append_num max dst (tm_yday tm + 1) 3 "0"%char
  | "m"%char => time_append_num max dst (tm_mon tm + 1) 2 "0"%char
  | "M"%char => time_append_num max dst (tm_min tm) 2 "0"%char
  | "n"%char => time_append_char max dst "010"%char
  | "p"%char => time_append_str max dst (if tm_hour tm <? 12 then str "AM" else str "PM")
  | "R"%char => sub dst (str "%H:%M")
  | "r"%char => sub dst (str "%I:%M:%S %p")
  | "S"%char => time_append_num max dst (tm_sec tm) 2 "0"%char
  | "T"%char => sub dst (str "%H:%M:%S")
  | "t"%char => time_append_char max dst "009"%char
  | "u"%char => time_append_num max dst (if tm_wday tm =? 0 then 7 else tm_wday tm) 1 "0"%char
  | "w"%char => time_append_num max dst (tm_wday tm) 1 "0"%char
  | "x"%char => sub dst (str "%m/%d/%y")
  | "X"%char => sub dst (str "%H:%M:%S")
  | "y"%char => time_append_num max dst (Z.rem ayear 100) 2 "0"%char
  | "Y"%char =>
      if year <? 0 then
        match time_append_char max dst "-"%char with
        | None => None
        | Some dst => time_append_num max dst ayear 4 "0"%char
        end
      else time_append_num max dst ayear 4 "0"%char
  | "Z"%char => time_append_str max dst (str "UTC")
  | _ =>
      match time_append_char max dst "%"%char with
      | None => None
      | Some dst => time_append_char max dst c
      end
  end.

(** The loop over the format string. *)
Fixpoint format_loop (sub : list ascii -> list ascii -> option (list ascii))
    (max : Z) (tm : tm) (dst format : list ascii) : option (list ascii) :=
  match format with
  | [] => Some dst
  | c :: format =>
      if Ascii.eqb c "%"%char then
        match format with
        | [] => None
        | d :: format =>
            match time_directive sub max tm d dst with
            | None => None
            | Some dst => format_loop sub max tm dst format
            end
        end
      else
        match time_append_char max dst c with
        | None => None
        | Some dst => format_loop sub max tm dst format
        end
  end.

(** [depth] bounds the recursion; the formats the function passes to itself
    hold no composite directive, so depth 2 is enough for every format
    ([strftime_renders]). *)
Fixpoint time_append_format (depth : nat) (max : Z) (tm : tm) (dst format : list ascii)
    : option (list ascii) :=
  match depth with
  | O => None
  | S depth => format_loop (time_append_format depth max tm) max tm dst format
  end.

(** The value returned and the string left in the buffer ([None]: untouched). *)
Definition strftime (s : bool) (max : Z) (format : option (list ascii)) (tm : option tm)
    : Z * option (list ascii) :=
  match format, tm with
  | Some format, Some tm =>
      if negb s || (max =? 0) then (0, None)
      else if (tm_wday tm <? 0) || (tm_wday tm >? 6) || (tm_mon tm <? 0) || (tm_mon tm >? 11)
      then (0, Some [])
      else
        match time_append_format 2 max tm [] format with
        | None => (0, Some [])
        | Some out => (len out, Some out)
        end
  | _, _ => (0, None)
  end.

Definition newline : ascii := "010"%char.

Definition asctime_r (tm : option tm) (buf : bool) : Z + option (list ascii) :=
  match tm with
  | None => inl EINVAL
  | Some _ =>
      if negb buf then inl EINVAL
      else
        let '(n, out) := strftime buf 26 (Some (str "%a %b %e %H:%M:%S %Y" ++ [newline])) tm in
        if n =? 0 then inl ERANGE else inr out
  end.

Definition ctime_r (timer : option Z) (buf : bool) : Z + option (list ascii) :=
  match localtime_r timer true with
  | inl e => inl e
  | inr tm => asctime_r tm buf
  end.

(** ** [timespec] arithmetic *)

Record timespec := mkTs { tv_sec : Z; tv_nsec : Z }.
Record timeval := mkTv { tv_secs : Z; tv_usec : Z }.

Definition AUXV6_NSEC_PER_SEC : Z := 1000000000.

Definition time_timespec_valid (ts : option timespec) : bool :=
  match ts with
  | None => false
  | Some ts =>
      if tv_sec ts <? 0 then false
      else if (tv_nsec ts <? 0) || (tv_nsec ts >=? AUXV6_NSEC_PER_SEC) then false
      else true
  end.

Fixpoint nsec_down (fuel : nat) (ts : timespec) : timespec :=
  match fuel with
  | O => ts
  | S fuel =>
      if tv_nsec ts >=? AUXV6_NSEC_PER_SEC
      then nsec_down fuel (mkTs (s32 (tv_sec ts + 1)) (tv_nsec ts - AUXV6_NSEC_PER_SEC))
      else ts
  end.
Fixpoint nsec_up (fuel : nat) (ts : timespec) : timespec :=
  match fuel with
  | O => ts
  | S fuel =>
      if tv_nsec ts <? 0
      then nsec_up fuel (mkTs (s32 (tv_sec ts - 1)) (tv_nsec ts + AUXV6_NSEC_PER_SEC))
      else ts
  end.

(** [long] has 32 bits, so three rounds are enough for each loop. *)
Definition time_timespec_normalize (ts : timespec) : timespec := nsec_up 3 (nsec_down 3 ts).

Definition time_timespec_add (a b : timespec) : timespec :=
  time_timespec_normalize (mkTs (s32 (tv_sec a + tv_sec b)) (s32 (tv_nsec a + tv_nsec b))).
Definition time_timespec_sub (a b : timespec) : timespec :=
  time_timespec_normalize (mkTs (s32 (tv_sec a - tv_sec b)) (s32 (tv_nsec a - tv_nsec b))).

Definition time_timespec_cmp (a b : timespec) : Z :=
  if tv_sec a <? tv_sec b then -1
  else if tv_sec a >? tv_sec b then 1
  else if tv_nsec a <? tv_nsec b then -1
  else if tv_nsec a >? tv_nsec b then 1
  else 0.

Definition time_timespec_clear (ts : option timespec) : option timespec :=
  match ts with None => None | Some _ => Some (mkTs 0 0) end.

Definition time_timespec_to_timeval (ts : timespec) : timeval :=
  let usec := Z.quot (s32 (tv_nsec ts + 999)) 1000 in
  if usec >=? 1000000 then mkTv (s32 (tv_sec ts + 1)) (usec - 1000000)
  else mkTv (tv_sec ts) usec.

(** [unsigned long long] results. *)
Definition u64 (x : Z) : Z := x mod 18446744073709551616.

Definition timespec_to_msec (ts : option timespec) : Z :=
  match ts with
  | None => 0
  | Some ts => u64 (u64 (u64 (tv_sec ts) * 1000) + u64 (tv_nsec ts) / 1000000)
  end.

Definition timespec_diff_msec (start end_ : option timespec) : Z :=
  match start, end_ with
  | Some s, Some e =>
      let sec := s32 (tv_sec e - tv_sec s) in
      let nsec := s32 (tv_nsec e - tv_nsec s) in
      let '(sec, nsec) := if nsec <? 0 then (s32 (sec - 1), nsec + 1000000000) else (sec, nsec) in
      if sec <? 0 then 0 else timespec_to_msec (Some (mkTs sec nsec))
  | _, _ => 0
  end.

(** ** The calendar in closed form *)

(** Days before 1 January of [y] in the proleptic Gregorian calendar. *)
Definition year_start (y : Z) : Z := 365 * y + (y - 1) / 4 - (y - 1) / 100 + (y - 1) / 400.

Lemma div_step m y : 0 < m -> y / m - (y - 1) / m = if y mod m =? 0 then 1 else 0.
Proof.
  intros. pose proof (Z.div_mod y m). pose proof (Z.div_mod (y - 1) m).
  pose proof (Z.mod_pos_bound y m). pose proof (Z.mod_pos_bound (y - 1) m).
  destruct (Z.eqb_spec (y mod m) 0); nia.
Qed.

Lemma leap_year_spec y :
  time_is_leap_year y = (y mod 4 =? 0) && (negb (y mod 100 =? 0) || (y mod 400 =? 0)).
Proof.
  assert (Hr : forall m, 0 < m -> (Z.rem y m =? 0) = (y mod m =? 0)).
  { intros m Hm. apply eq_bool_prop_intro. rewrite !Is_true_true, !Z.eqb_eq.
    rewrite Z.rem_divide, Z.mod_divide by lia. done. }
  unfold time_is_leap_year. rewrite !Hr by lia.
  destruct (y mod 4 =? 0), (y mod 100 =? 0), (y mod 400 =? 0); done.
Qed.

Lemma year_start_step y : year_start (y + 1) = year_start y + time_days_in_year y.
Proof.
  unfold time_days_in_year. rewrite leap_year_spec. unfold year_start.
  replace (y + 1 - 1) with y by lia.
  pose proof (div_step 4 y) as H4. pose proof (div_step 100 y) as H100.
  pose proof (div_step 400 y) as H400.
  specialize (H4 eq_refl). specialize (H100 eq_refl). specialize (H400 eq_refl).
  destruct (Z.eqb_spec (y mod 4) 0), (Z.eqb_spec (y mod 100) 0), (Z.eqb_spec (y mod 400) 0);
    cbn [andb orb negb]; try lia; exfalso; mlia.
Qed.

Lemma days_in_year_cases y : time_days_in_year y = 365 \/ time_days_in_year y = 366.
Proof. unfold time_days_in_year. destruct time_is_leap_year; auto. Qed.

Lemma year_start_mono y k : 0 <= k -> year_start y + 365 * k <= year_start (y + k).
Proof.
  intros Hk. pattern k. apply natlike_ind; [replace (y + 0) with y by lia; lia | | done].
  intros x Hx IH. rewrite <- Z.add_1_r, Z.add_assoc, year_start_step.
  destruct (days_in_year_cases (y + x)); lia.
Qed.

Lemma year_start_unique y d y' d' :
  0 <= d < time_days_in_year y -> 0 <= d' < time_days_in_year y' ->
  year_start y + d = year_start y' + d' -> y = y' /\ d = d'.
Proof.
  intros Hd Hd' He.
  assert (Hstep : forall a b da db, 0 <= da < time_days_in_year a -> 0 <= db ->
            year_start a + da = year_start b + db -> ~ a < b).
  { intros a b da db Ha Hb E Hlt. pose proof (year_start_mono (a + 1) (b - (a + 1))) as Hm.
    rewrite year_start_step in Hm. replace (a + 1 + (b - (a + 1))) with b in Hm by lia. lia. }
  assert (~ y < y') by (apply (Hstep y y' d d'); lia).
  assert (~ y' < y) by (apply (Hstep y' y d' d); lia).
  assert (y = y') by lia. subst. lia.
Qed.

Lemma year_loop_spec k y sign days :
  year_loop k y sign days = days + sign * (year_start (y + Z.of_nat k) - year_start y).
Proof.
  revert y days; induction k as [|k IH]; intros y days; cbn [year_loop].
  - replace (y + Z.of_nat 0) with y by lia. lia.
  - rewrite IH, year_start_step.
    replace (y + 1 + Z.of_nat k) with (y + Z.of_nat (S k)) by lia. lia.
Qed.

(** The loop over years is the closed form. *)
Lemma days_before_year_spec y : time_days_before_year y = year_start y - year_start 1970.
Proof.
  unfold time_days_before_year. rewrite Z.geb_leb.
  destruct (Z.leb_spec 1970 y); rewrite year_loop_spec.
  - replace (1970 + Z.of_nat (Z.to_nat (y - 1970))) with y by lia. lia.
  - replace (y + Z.of_nat (Z.to_nat (1970 - y))) with 1970 by lia. lia.
Qed.

Lemma month_loop_last k year i days :
  month_loop (S k) year i days =
  month_loop k year i days + time_days_in_month year (i + Z.of_nat k).
Proof.
  revert i days; induction k as [|k IH]; intros i days.
  - cbn [month_loop]. replace (i + Z.of_nat 0) with i by lia. lia.
  - change (month_loop (S (S k)) year i days)
      with (month_loop (S k) year (i + 1) (days + time_days_in_month year i)).
    rewrite IH. cbn [month_loop]. do 2 f_equal. lia.
Qed.

Lemma days_before_month_step year mon : 0 <= mon ->
  time_days_before_month year (mon + 1) =
  time_days_before_month year mon + time_days_in_month year mon.
Proof.
  intros. unfold time_days_before_month.
  replace (Z.to_nat (mon + 1)) with (S (Z.to_nat mon)) by lia.
  rewrite month_loop_last. replace (0 + Z.of_nat (Z.to_nat mon)) with mon by lia. done.
Qed.

Lemma days_before_month_12 year : time_days_before_month year 12 = time_days_in_year year.
Proof.
  unfold time_days_before_month, time_days_in_year.
  change (Z.to_nat 12) with 12%nat. cbn [month_loop]. unfold time_days_in_month.
  destruct (time_is_leap_year year); reflexivity.
Qed.

Lemma days_in_month_pos year mon : 28 <= time_days_in_month year mon <= 31.
Proof.
  unfold time_days_in_month. rewrite Z.geb_leb.
  destruct (Z.ltb_spec mon 0), (Z.leb_spec 12 mon); cbn [orb]; try lia.
  assert (mon = 0 \/ mon = 1 \/ mon = 2 \/ mon = 3 \/ mon = 4 \/ mon = 5 \/ mon = 6 \/
          mon = 7 \/ mon = 8 \/ mon = 9 \/ mon = 10 \/ mon = 11) as Hc by lia.
  destruct (time_is_leap_year year); destruct_or! Hc; subst; vm_compute; by split.
Qed.

(** ** Correctness of the loops *)

Lemma year_up_spec fuel days year :
  0 <= days < Z.of_nat fuel ->
  exists d y, year_up fuel days year = Some (d, y) /\
    0 <= d < time_days_in_year y /\ year_start y + d = year_start year + days /\ year <= y.
Proof.
  revert days year; induction fuel as [|fuel IH]; intros days year Hd; [lia|].
  cbn [year_up]. rewrite Z.geb_leb.
  destruct (Z.leb_spec (time_days_in_year year) days) as [Hle|Hlt].
  - destruct (IH (days - time_days_in_year year) (year + 1)) as (d & y & E & ? & Hs & ?).
    { destruct (days_in_year_cases year); lia. }
    exists d, y. rewrite year_start_step in Hs. split_and!; [done|lia..].
  - exists days, year. split_and!; [done|lia..].
Qed.

Lemma year_down_spec fuel days year :
  - Z.of_nat fuel <= days < 0 ->
  exists d y, year_down fuel days year = Some (d, y) /\
    0 <= d < time_days_in_year y /\ year_start y + d = year_start year + days /\ y < year.
Proof.
  revert days year; induction fuel as [|fuel IH]; intros days year Hd; [lia|].
  cbn [year_down]. pose proof (year_start_step (year - 1)) as Hs0.
  replace (year - 1 + 1) with year in Hs0 by lia.
  destruct (Z.ltb_spec (days + time_days_in_year (year - 1)) 0) as [Hlt|Hge].
  - destruct (IH (days + time_days_in_year (year - 1)) (year - 1)) as (d & y & E & ? & Hs & ?).
    { destruct (days_in_year_cases (year - 1)); lia. }
    exists d, y. split_and!; [done|lia..].
  - eexists _, _. split_and!; [reflexivity|lia..].
Qed.

Lemma mon_up_spec fuel days year mon :
  0 <= mon -> mon + Z.of_nat fuel = 11 -> 0 <= days ->
  days < time_days_in_year year - time_days_before_month year mon ->
  exists d m, mon_up fuel days year mon = (d, m) /\ 0 <= m <= 11 /\
    0 <= d < time_days_in_month year m /\
    time_days_before_month year m + d = time_days_before_month year mon + days.
Proof.
  revert days mon; induction fuel as [|fuel IH]; intros days mon Hm Hf Hd Hlt; cbn [mon_up].
  - exists days, mon. assert (mon = 11) as -> by lia.
    rewrite <- (days_before_month_12 year) in Hlt.
    change 12 with (11 + 1) in Hlt. rewrite days_before_month_step in Hlt by lia.
    split_and!; [done|lia..].
  - rewrite Z.geb_leb. destruct (Z.ltb_spec mon 11) as [_|]; [|lia]. cbn [andb].
    destruct (Z.leb_spec (time_days_in_month year mon) days) as [Hle|Hgt].
    + destruct (IH (days - time_days_in_month year mon) (mon + 1)) as (d & m & E & ? & ? & Hs);
        rewrite ?days_before_month_step in * by lia; [lia..|].
      exists d, m. split_and!; [done|lia..].
    + exists days, mon. split_and!; [done|lia..].
Qed.

Lemma days_before_month_mono year m k : 0 <= m -> 0 <= k ->
  time_days_before_month year m <= time_days_before_month year (m + k).
Proof.
  intros Hm Hk. pattern k. apply natlike_ind; [replace (m + 0) with m by lia; lia| |done].
  intros x Hx IH. rewrite <- Z.add_1_r, Z.add_assoc, days_before_month_step by lia.
  pose proof (days_in_month_pos year (m + x)). lia.
Qed.

Lemma month_unique year m d m' d' :
  0 <= m -> 0 <= m' -> 0 <= d < time_days_in_month year m -> 0 <= d' < time_days_in_month year m' ->
  time_days_before_month year m + d = time_days_before_month year m' + d' -> m = m' /\ d = d'.
Proof.
  intros Hm Hm' Hd Hd' He.
  assert (Hstep : forall a b da db, 0 <= a -> 0 <= db -> 0 <= da < time_days_in_month year a ->
    time_days_before_month year a + da = time_days_before_month year b + db -> ~ a < b).
  { intros a b da db Ha Hb Hda E Hlt.
    pose proof (days_before_month_mono year (a + 1) (b - (a + 1))) as Hmono.
    rewrite days_before_month_step in Hmono by lia.
    replace (a + 1 + (b - (a + 1))) with b in Hmono by lia. lia. }
  assert (~ m < m') by (apply (Hstep m m' d d'); lia).
  assert (~ m' < m) by (apply (Hstep m' m d' d); lia).
  assert (m = m') by lia. subst. lia.
Qed.

(** ** Broken-down time *)

(** The calendar position a [struct tm] names, in seconds since the epoch. *)
Definition stamp (t : tm) : Z :=
  let y := tm_year t + 1900 in
  (year_start y - year_start 1970 + time_days_before_month y (tm_mon t) + tm_mday t - 1) * 86400
  + tm_hour t * 3600 + tm_min t * 60 + tm_sec t.

(** Every field in its range and consistent with the others. *)
Record tm_canonical (t : tm) : Prop := {
  can_sec : 0 <= tm_sec t <= 59;
  can_min : 0 <= tm_min t <= 59;
  can_hour : 0 <= tm_hour t <= 23;
  can_mon : 0 <= tm_mon t <= 11;
  can_mday : 1 <= tm_mday t <= time_days_in_month (tm_year t + 1900) (tm_mon t);
  can_yday : tm_yday t = time_days_before_month (tm_year t + 1900) (tm_mon t) + tm_mday t - 1;
  can_wday : tm_wday t = (stamp t / 86400 + 4) mod 7;
  can_isdst : tm_isdst t = 0
}.

Lemma yday_range year mon d :
  0 <= mon <= 11 -> 0 <= d < time_days_in_month year mon ->
  0 <= time_days_before_month year mon + d < time_days_in_year year.
Proof.
  intros Hm Hd. rewrite <- (days_before_month_12 year).
  pose proof (days_before_month_mono year (mon + 1) (12 - (mon + 1))) as Hmono.
  replace (mon + 1 + (12 - (mon + 1))) with 12 in Hmono by lia.
  rewrite days_before_month_step in Hmono by lia.
  pose proof (days_before_month_mono year 0 mon). change (time_days_before_month year 0) with 0 in *.
  rewrite Z.add_0_l in *. lia.
Qed.

Lemma floor_fix t :
  (if Z.rem t 86400 <? 0 then (Z.rem t 86400 + 86400, Z.quot t 86400 - 1)
   else (Z.rem t 86400, Z.quot t 86400)) = (t mod 86400, t / 86400).
Proof. destruct (Z.ltb_spec (Z.rem t 86400) 0); f_equal; mlia. Qed.

Lemma weekday_fix d :
  (if Z.rem (d + 4) 7 <? 0 then Z.rem (d + 4) 7 + 7 else Z.rem (d + 4) 7) = (d + 4) mod 7.
Proof. destruct (Z.ltb_spec (Z.rem (d + 4) 7) 0); mlia. Qed.

Lemma year_search days :
  exists d y,
    (if days >=? 0 then year_up (S (Z.to_nat (Z.abs days))) days 1970
     else year_down (S (Z.to_nat (Z.abs days))) days 1970) = Some (d, y) /\
    0 <= d < time_days_in_year y /\ year_start y + d = year_start 1970 + days.
Proof.
  rewrite Z.geb_leb. destruct (Z.leb_spec 0 days).
  - destruct (year_up_spec (S (Z.to_nat (Z.abs days))) days 1970) as (d & y & ? & ? & ? & _);
      [lia|]. eauto.
  - destruct (year_down_spec (S (Z.to_nat (Z.abs days))) days 1970) as (d & y & ? & ? & ? & _);
      [lia|]. eauto.
Qed.

Lemma epoch_to_tm_spec t :
  exists r, time_epoch_to_tm t = Some r /\ tm_canonical r /\ stamp r = t.
Proof.
  unfold time_epoch_to_tm. rewrite floor_fix.
  destruct (year_search (t / 86400)) as (d & y & -> & Hd & Hy).
  destruct (mon_up_spec 11 d y 0) as (d' & m & -> & Hm & Hd' & Hs);
    [lia..| change (time_days_before_month y 0) with 0; lia |].
  change (time_days_before_month y 0) with 0 in Hs. rewrite weekday_fix.
  eexists. split; [reflexivity|].
  match goal with |- tm_canonical ?r /\ _ => assert (Hst : stamp r = t) end.
  { unfold stamp; cbn. replace (y - 1900 + 1900) with y by lia. mlia. }
  split; [|done]. split; rewrite ?Hst; cbn;
    replace (y - 1900 + 1900) with y by lia; try lia; mlia.
Qed.

Lemma stamp_days r : tm_canonical r ->
  stamp r / 86400 = year_start (tm_year r + 1900) - year_start 1970
                    + time_days_before_month (tm_year r + 1900) (tm_mon r) + (tm_mday r - 1) /\
  stamp r mod 86400 = tm_hour r * 3600 + tm_min r * 60 + tm_sec r.
Proof.
  intros [? ? ? ? ? ? ? ?]. unfold stamp.
  set (D := year_start (tm_year r + 1900) - year_start 1970
            + time_days_before_month (tm_year r + 1900) (tm_mon r) + tm_mday r - 1).
  replace (year_start (tm_year r + 1900) - year_start 1970
           + time_days_before_month (tm_year r + 1900) (tm_mon r) + (tm_mday r - 1))
    with D by (unfold D; lia).
  clearbody D. mlia.
Qed.

(** A canonical broken-down time is determined by its position in time. *)
Lemma canonical_unique a b : tm_canonical a -> tm_canonical b -> stamp a = stamp b -> a = b.
Proof.
  intros Ca Cb E. destruct (stamp_days a Ca) as [Da Ta]. destruct (stamp_days b Cb) as [Db Tb].
  destruct Ca, Cb. rewrite E in *.
  assert (H := yday_range (tm_year a + 1900) (tm_mon a) (tm_mday a - 1)).
  assert (H' := yday_range (tm_year b + 1900) (tm_mon b) (tm_mday b - 1)).
  destruct (year_start_unique (tm_year a + 1900)
    (time_days_before_month (tm_year a + 1900) (tm_mon a) + (tm_mday a - 1)) (tm_year b + 1900)
    (time_days_before_month (tm_year b + 1900) (tm_mon b) + (tm_mday b - 1))) as [Ey Ed]; [lia..|].
  assert (Ey' : tm_year a = tm_year b) by lia. rewrite Ey' in *.
  destruct (month_unique (tm_year b + 1900) (tm_mon a) (tm_mday a - 1) (tm_mon b) (tm_mday b - 1))
    as [Em Edd]; [lia..|].
  destruct a, b; cbn in *. subst. assert (tm_mday0 = tm_mday1) by lia. subst. f_equal; lia.
Qed.

Lemma epoch_to_tm_inverse r : tm_canonical r -> time_epoch_to_tm (stamp r) = Some r.
Proof.
  intros Hc. destruct (epoch_to_tm_spec (stamp r)) as (r' & -> & Hc' & E).
  f_equal. by apply canonical_unique.
Qed.

Lemma stamp_year_bound r : tm_canonical r ->
  -2147483648 <= stamp r <= 2147483647 -> 1801 <= tm_year r + 1900 <= 2100.
Proof.
  intros Hc Hb. destruct (stamp_days r Hc) as [Hd _]. destruct Hc.
  pose proof (yday_range (tm_year r + 1900) (tm_mon r) (tm_mday r - 1)).
  pose proof (days_in_year_cases (tm_year r + 1900)).
  assert (-24856 <= stamp r / 86400 <= 24855) by mlia.
  set (y := tm_year r + 1900) in *.
  split; apply Z.nlt_ge; intros Hy.
  - pose proof (year_start_mono y (1801 - y)). replace (y + (1801 - y)) with 1801 in * by lia.
    change (year_start 1970) with 719527 in *. change (year_start 1801) with 657801 in *. lia.
  - pose proof (year_start_mono 2100 (y - 2100)). replace (2100 + (y - 2100)) with y in * by lia.
    change (year_start 1970) with 719527 in *. change (year_start 2100) with 767009 in *. lia.
Qed.

Lemma mon_norm_up_spec fuel mon year :
  - mon < Z.of_nat fuel ->
  mon_norm_up fuel mon year = if mon <? 0 then (mon mod 12, year + mon / 12) else (mon, year).
Proof.
  revert mon year; induction fuel as [|fuel IH]; intros mon year Hf; cbn [mon_norm_up].
  - destruct (Z.ltb_spec mon 0); [lia|done].
  - destruct (Z.ltb_spec mon 0); [|done]. rewrite IH by lia.
    destruct (Z.ltb_spec (mon + 12) 0); f_equal; mlia.
Qed.

Lemma mon_norm_down_spec fuel mon year :
  0 <= mon < Z.of_nat fuel -> mon_norm_down fuel mon year = (mon mod 12, year + mon / 12).
Proof.
  revert mon year; induction fuel as [|fuel IH]; intros mon year Hf; cbn [mon_norm_down]; [lia|].
  rewrite Z.geb_leb. destruct (Z.leb_spec 12 mon); [rewrite IH by lia|]; f_equal; mlia.
Qed.

(** [t] with its month carried into the year. *)
Definition carry_month (t : tm) : tm :=
  mkTm (tm_sec t) (tm_min t) (tm_hour t) (tm_mday t) (tm_mon t mod 12)
       (tm_year t + tm_mon t / 12) (tm_wday t) (tm_yday t) (tm_isdst t).

Lemma tm_seconds_stamp r :
  -2147483648 <= tm_year r + tm_mon r / 12 + 1900 < 2147483648 ->
  tm_seconds r = stamp (carry_month r).
Proof.
  intros Hy. unfold tm_seconds. rewrite mon_norm_up_spec by lia.
  assert (Hn : forall m y, (let '(mon, year) := if m <? 0 then (m mod 12, y + m / 12) else (m, y) in
                 mon_norm_down (S (Z.to_nat mon)) mon year) = (m mod 12, y + m / 12)).
  { intros m y. destruct (Z.ltb_spec m 0); rewrite mon_norm_down_spec by mlia; f_equal; mlia. }
  specialize (Hn (tm_mon r) (tm_year r + 1900)).
  destruct (if tm_mon r <? 0 then _ else _) as [m y]. rewrite Hn.
  assert (Hs : s32 (tm_year r + 1900 + tm_mon r / 12) = tm_year r + tm_mon r / 12 + 1900)
    by (unfold s32; rewrite Z.mod_small; lia).
  assert (Hs' : s32 (tm_mon r mod 12) = tm_mon r mod 12) by (unfold s32; mlia).
  cbv zeta. rewrite Hs, Hs', days_before_year_spec. unfold stamp, carry_month; cbn. lia.
Qed.

Lemma carry_month_id r : 0 <= tm_mon r <= 11 -> carry_month r = r.
Proof. intros. destruct r; unfold carry_month; cbn in *. f_equal; mlia. Qed.

Lemma tm_to_epoch_stamp r :
  -2147483648 <= tm_year r + tm_mon r / 12 + 1900 < 2147483648 ->
  time_tm_to_epoch (Some r) true =
    let s := stamp (carry_month r) in
    if (s <? 0) || (s >? 253402300799) then inl EOVERFLOW else inr (s32 s).
Proof. intros. unfold time_tm_to_epoch. cbn [negb]. by rewrite tm_seconds_stamp. Qed.

(** C36.  [gmtime_r] is total on [time_t] and gives the Gregorian date: every
    field is in range and consistent (day within its month, [tm_yday],
    [tm_wday]), the date names exactly the given second, and it is the only
    canonical date that does; converting it back with [mktime] returns the
    same second and leaves the structure as it is, for every non-negative
    [time_t]. *)
Theorem gmtime_roundtrip t :
  -2147483648 <= t <= 2147483647 ->
  exists r, gmtime_r (Some t) true = inr (Some r) /\ tm_canonical r /\ stamp r = t /\
    (forall r', tm_canonical r' -> stamp r' = t -> r' = r) /\
    (0 <= t -> mktime (Some r) = (inr t, Some r)).
Proof.
  intros Ht. destruct (epoch_to_tm_spec t) as (r & E & Hc & Hs). exists r.
  split_and!; [cbn; by rewrite E|done|done| |].
  - intros r' Hc' Hs'. apply canonical_unique; congruence.
  - intros H0. unfold mktime.
    pose proof (stamp_year_bound r Hc ltac:(lia)). destruct (can_mon r Hc).
    rewrite tm_to_epoch_stamp, carry_month_id, Hs by (try lia; mlia). cbv zeta.
    destruct (Z.ltb_spec t 0), (Z.gtb_spec t 253402300799); try lia. cbn [orb].
    by rewrite s32_id, E by lia.
Qed.

Lemma gmtime_roundtrip_witness :
  -2147483648 <= 951782400 <= 2147483647 /\
  gmtime_r (Some 951782400) true = inr (Some (mkTm 0 0 0 29 1 100 2 59 0)) /\
  mktime (Some (mkTm 0 0 0 29 1 100 2 59 0)) = (inr 951782400, Some (mkTm 0 0 0 29 1 100 2 59 0)).
Proof.
  split; [lia|]. destruct (gmtime_roundtrip 951782400) as (r & E & _ & _ & _ & Hm); [lia|].
  vm_compute in E. injection E as <-. split; [reflexivity|]. apply Hm. lia.
Defined.

(** [mktime] accepts out-of-range fields (months outside 0..11, days,
    hours, minutes and seconds outside their range): when the second they
    name fits a non-negative [time_t], it is returned, and the structure is
    replaced by the one canonical date of that second. *)
Theorem mktime_normalizes r :
  -2147483648 <= tm_year r + tm_mon r / 12 + 1900 < 2147483648 ->
  0 <= stamp (carry_month r) <= 2147483647 ->
  exists n, mktime (Some r) = (inr (stamp (carry_month r)), Some n) /\
    tm_canonical n /\ stamp n = stamp (carry_month r).
Proof.
  intros Hy Hs. destruct (epoch_to_tm_spec (stamp (carry_month r))) as (n & E & Hc & Hn).
  exists n. split_and!; [|done..]. unfold mktime. rewrite tm_to_epoch_stamp by done. cbv zeta.
  destruct (Z.ltb_spec (stamp (carry_month r)) 0), (Z.gtb_spec (stamp (carry_month r)) 253402300799);
    try lia. cbn [orb]. by rewrite s32_id, E by lia.
Qed.

Lemma mktime_normalizes_witness :
  exists n, mktime (Some (mkTm 75 (-3) 25 31 13 100 0 0 0)) = (inr 983667495, Some n) /\
    tm_canonical n /\ stamp n = 983667495.
Proof.
  assert (E : stamp (carry_month (mkTm 75 (-3) 25 31 13 100 0 0 0)) = 983667495) by reflexivity.
  rewrite <- E. apply mktime_normalizes; vm_compute; by split.
Defined.

(** [time_t] has 32 bits, but the range check of [time_tm_to_epoch]
    admits every second up to the end of year 9999: for a date past
    2038-01-19 03:14:07 [mktime] reports success with a value that names a
    different second, and overwrites the caller's structure with that other
    date. *)
Theorem mktime_truncates_after_2038 r :
  -2147483648 <= tm_year r + tm_mon r / 12 + 1900 < 2147483648 ->
  2147483647 < stamp (carry_month r) <= 253402300799 ->
  exists t n, mktime (Some r) = (inr t, Some n) /\ t = s32 (stamp (carry_month r)) /\
    t <> stamp (carry_month r) /\ stamp n <> stamp (carry_month r).
Proof.
  intros Hy Hs. set (s := stamp (carry_month r)) in *.
  destruct (epoch_to_tm_spec (s32 s)) as (n & E & Hc & Hn). exists (s32 s), n.
  pose proof (s32_range s).
  split_and!; [|done|lia|lia]. unfold mktime. rewrite tm_to_epoch_stamp by done. cbv zeta. fold s.
  destruct (Z.ltb_spec s 0), (Z.gtb_spec s 253402300799); try lia. cbn [orb]. by rewrite E.
Qed.

Lemma mktime_truncates_after_2038_witness :
  exists t n, mktime (Some (mkTm 8 14 3 19 0 138 0 0 0)) = (inr t, Some n) /\
    t = -2147483648 /\ t <> 2147483648 /\ stamp n <> 2147483648.
Proof.
  apply (mktime_truncates_after_2038 (mkTm 8 14 3 19 0 138 0 0 0)); vm_compute; by split.
Defined.

(** The date an RTC reading names. *)
Definition rtc_tm (r : rtcdate) (wday yday : Z) : tm :=
  mkTm (r_second r) (r_minute r) (r_hour r) (r_day r) (r_month r - 1) (r_year r - 1900) wday yday 0.

Definition rtc_valid (r : rtcdate) : bool :=
  (1 <=? r_month r) && (r_month r <=? 12) && (1 <=? r_day r) &&
  (r_day r <=? time_days_in_month (r_year r) (r_month r - 1)) &&
  (r_hour r <=? 23) && (r_minute r <=? 59) && (r_second r <=? 60).

(** [time_rtc_to_epoch] rejects exactly the readings that are not a date
    and time ([EINVAL]) or lie outside [time_t] ([EOVERFLOW]); otherwise
    [gmtime_r] of the result has the fields of the reading (readings without
    a leap second). *)
Theorem rtc_roundtrip r :
  0 <= r_second r -> 0 <= r_minute r -> 0 <= r_hour r -> 0 <= r_day r -> is_u32 (r_month r) ->
  0 <= r_year r < 2147483648 ->
  (rtc_valid r = false -> time_rtc_to_epoch (Some r) true = inl EINVAL) /\
  (rtc_valid r = true ->
     time_rtc_to_epoch (Some r) true =
       if (stamp (rtc_tm r 0 0) >? 2147483647) || (stamp (rtc_tm r 0 0) <? -2147483648)
       then inl EOVERFLOW else inr (stamp (rtc_tm r 0 0))) /\
  (rtc_valid r = true -> r_second r <= 59 ->
     exists wday yday, time_epoch_to_tm (stamp (rtc_tm r 0 0)) = Some (rtc_tm r wday yday)).
Proof.
  intros Hsec Hmin Hhour Hday Hmon Hyear. unfold is_u32 in Hmon.
  unfold time_rtc_to_epoch. cbn [negb]. rewrite (s32_id (r_year r)) by lia.
  assert (Hm : (r_month r <? 1) = false -> (r_month r >? 12) = false ->
               s32 (r_month r) - 1 = r_month r - 1 /\
               u32 (time_days_in_month (r_year r) (r_month r - 1)) =
               time_days_in_month (r_year r) (r_month r - 1)).
  { intros H1 H2. apply Z.ltb_ge in H1. rewrite Z.gtb_ltb in H2. apply Z.ltb_ge in H2.
    rewrite s32_id by lia. split; [done|]. apply u32_small. unfold is_u32.
    pose proof (days_in_month_pos (r_year r) (r_month r - 1)). lia. }
  match goal with |- context [if ?c then inl EINVAL else _] => assert (Hv : c = negb (rtc_valid r)) end.
  { unfold rtc_valid. rewrite !Z.gtb_ltb in *.
    destruct (Z.ltb_spec (r_month r) 1), (Z.ltb_spec 12 (r_month r)); cbn [orb];
      [symmetry; apply negb_true_iff; rewrite !andb_false_iff, !Z.leb_gt; tauto..|].
    destruct Hm as [-> ->]; [done..|]. rewrite !negb_andb, <- !Z.ltb_antisym.
    rewrite (proj2 (Z.ltb_ge _ _) H), (proj2 (Z.ltb_ge _ _) H0). done. }
  rewrite Hv. clear Hv. split_and!.
  - by intros ->.
  - intros Hvr. rewrite Hvr. cbn [negb]. unfold rtc_valid in Hvr.
    rewrite !andb_true_iff, !Z.leb_le in Hvr. destruct_and! Hvr.
    rewrite s32_id, days_before_year_spec by lia.
    match goal with |- (if (?a <? _) || _ then _ else _) = _ =>
      replace a with (stamp (rtc_tm r 0 0))
        by (unfold stamp, rtc_tm; cbn; replace (r_year r - 1900 + 1900) with (r_year r) by lia; lia)
    end. by rewrite orb_comm.
  - intros Hvr Hs. unfold rtc_valid in Hvr.
    rewrite !andb_true_iff, !Z.leb_le in Hvr. destruct_and! Hvr.
    set (w := (stamp (rtc_tm r 0 0) / 86400 + 4) mod 7).
    set (yd := time_days_before_month (r_year r) (r_month r - 1) + r_day r - 1).
    exists w, yd. change (stamp (rtc_tm r 0 0)) with (stamp (rtc_tm r w yd)).
    apply epoch_to_tm_inverse. unfold rtc_tm.
    split; cbn; replace (r_year r - 1900 + 1900) with (r_year r) by lia; try lia; done.
Qed.

Lemma rtc_roundtrip_witness :
  exists wday yday,
    time_epoch_to_tm 1709211845 = Some (rtc_tm (mkRtc 5 4 13 29 2 2024) wday yday).
Proof.
  apply (rtc_roundtrip (mkRtc 5 4 13 29 2 2024)); cbn; unfold is_u32; try lia; done.
Defined.

(** ** [strftime]: the reference *)

(** The composite directives are abbreviations of formats. *)
Definition macro (c : ascii) : option (list ascii) :=
  match c with
  | "c"%char => Some (str "%a %b %e %H:%M:%S %Y")
  | "D"%char | "x"%char => Some (str "%m/%d/%y")
  | "F"%char => Some (str "%Y-%m-%d")
  | "R"%char => Some (str "%H:%M")
  | "r"%char => Some (str "%I:%M:%S %p")
  | "T"%char | "X"%char => Some (str "%H:%M:%S")
  | _ => None
  end.

Definition percent : ascii := "%"%char.

Fixpoint expand (fmt : list ascii) : list ascii :=
  match fmt with
  | [] => []
  | c :: fmt' =>
      if Ascii.eqb c percent then
        match fmt' with
        | [] => [c]
        | d :: rest =>
            match macro d with Some m => m ++ expand rest | None => c :: d :: expand rest end
        end
      else c :: expand fmt'
  end.

(** A number in decimal, padded on the left. *)
Definition number (value width : Z) (pad : ascii) : list ascii :=
  reverse (num_tmp (u32 value) width pad).

(** What one simple directive stands for. *)
Definition field (t : tm) (c : ascii) : list ascii :=
  let year := tm_year t + 1900 in
  match c with
  | "%"%char => [percent]
  | "a"%char => nth_name time_wday_short (tm_wday t)
  | "A"%char => nth_name time_wday_long (tm_wday t)
  | "b"%char => nth_name time_mon_short (tm_mon t)
  | "B"%char => nth_name time_mon_long (tm_mon t)
  | "C"%char => number (Z.quot (Z.abs year) 100) 2 "0"%char
  | "d"%char => number (tm_mday t) 2 "0"%char
  | "e"%char => number (tm_mday t) 2 " "%char
  | "H"%char => number (tm_hour t) 2 "0"%char
  | "I"%char => number (if Z.rem (tm_hour t) 12 =? 0 then 12 else Z.rem (tm_hour t) 12) 2 "0"%char
  | "j"%char => number (tm_yday t + 1) 3 "0"%char
  | "m"%char => number (tm_mon t + 1) 2 "0"%char
  | "M"%char => number (tm_min t) 2 "0"%char
  | "n"%char => ["010"%char]
  | "p"%char => if tm_hour t <? 12 then str "AM" else str "PM"
  | "S"%char => number (tm_sec t) 2 "0"%char
  | "t"%char => ["009"%char]
  | "u"%char => number (if tm_wday t =? 0 then 7 else tm_wday t) 1 "0"%char
  | "w"%char => number (tm_wday t) 1 "0"%char
  | "y"%char => number (Z.rem (Z.abs year) 100) 2 "0"%char
  | "Y"%char => (if year <? 0 then ["-"%char] else []) ++ number (Z.abs year) 4 "0"%char
  | "Z"%char => str "UTC"
  | _ => [percent; c]
  end.

(** The text of a format without composite directives, of any length;
    [None] when it ends in a lone [%]. *)
Fixpoint render (t : tm) (fmt : list ascii) : option (list ascii) :=
  match fmt with
  | [] => Some []
  | c :: fmt' =>
      if Ascii.eqb c percent then
        match fmt' with
        | [] => None
        | d :: rest => (fun r => field t d ++ r) <$> render t rest
        end
      else cons c <$> render t fmt'
  end.

(** ** Appending within the bound *)

Definition emit (max : Z) (dst s : list ascii) : option (list ascii) :=
  if len (dst ++ s) + 1 <=? max then Some (dst ++ s) else None.

Lemma append_char_emit max dst c : time_append_char max dst c = emit max dst [c].
Proof.
  unfold time_append_char, emit. rewrite len_app, Z.geb_leb. change (len [c]) with 1.
  destruct (Z.leb_spec max (len dst + 1)), (Z.leb_spec (len dst + 1 + 1) max); lia || done.
Qed.

Lemma emit_emit max dst a b :
  emit max dst a ≫= (fun dst' => emit max dst' b) = emit max dst (a ++ b).
Proof.
  unfold emit. rewrite !len_app. pose proof (len_nonneg b).
  destruct (Z.leb_spec (len dst + len a + 1) max); cbn; rewrite ?len_app, <- ?app_assoc, Z.add_assoc.
  - done.
  - destruct (Z.leb_spec (len dst + len a + len b + 1) max); [lia|done].
Qed.

Lemma append_str_emit max dst s :
  len dst + 1 <= max -> time_append_str max dst s = emit max dst s.
Proof.
  revert dst; induction s as [|c s IH]; intros dst Hd; cbn [time_append_str].
  - unfold emit. rewrite app_nil_r. by rewrite (proj2 (Z.leb_le _ _) Hd).
  - rewrite append_char_emit. change (c :: s) with ([c] ++ s). rewrite <- emit_emit.
    unfold emit at 1 3. destruct (Z.leb_spec (len (dst ++ [c]) + 1) max); [cbn|done].
    by apply IH.
Qed.

Lemma emit_fits max dst s dst' : emit max dst s = Some dst' -> len dst' + 1 <= max.
Proof. unfold emit. destruct (Z.leb_spec (len (dst ++ s) + 1) max); intros; by simplify_eq. Qed.

Lemma abs_year y : (if y <? 0 then - y else y) = Z.abs y.
Proof. destruct (Z.ltb_spec y 0); lia. Qed.

(** Every simple directive appends its field. *)
Lemma directive_field sub max t c dst :
  macro c = None -> len dst + 1 <= max ->
  time_directive sub max t c dst = emit max dst (field t c).
Proof.
  intros Hm Hd. unfold time_directive, field. rewrite abs_year.
  assert (Hnum : forall v w p, time_append_num max dst v w p = emit max dst (number v w p))
    by (intros; unfold time_append_num, number; by apply append_str_emit).
  assert (Hdef : match time_append_char max dst "%"%char with
                 | None => None | Some dst => time_append_char max dst c end
                 = emit max dst [percent; c]).
  { unfold percent. change ["%"%char; c] with (["%"%char] ++ [c]). rewrite <- emit_emit, append_char_emit.
    destruct (emit max dst ["%"%char]); [apply append_char_emit|done]. }
  destruct c as [[] [] [] [] [] [] [] []]; try exact Hdef; try discriminate Hm;
    try apply Hnum; try (by apply append_str_emit); try apply append_char_emit.
  destruct (tm_year t + 1900 <? 0); [|apply Hnum].
  rewrite <- emit_emit, append_char_emit.
  destruct (emit max dst ["-"%char]) as [dst'|] eqn:E; [|done]. cbn.
  unfold time_append_num, number. by eapply append_str_emit, emit_fits.
Qed.

(** Appending a rendered text, if there is one. *)
Definition put (max : Z) (dst : list ascii) (o : option (list ascii)) : option (list ascii) :=
  o ≫= emit max dst.

Lemma put_app max dst a o :
  put max dst (app a <$> o) = emit max dst a ≫= (fun dst' => put max dst' o).
Proof.
  destruct o; cbn; [by rewrite <- emit_emit|]. by destruct (emit max dst a).
Qed.

Lemma render_app t n a b x :
  (List.length a <= n)%nat -> render t a = Some x -> render t (a ++ b) = app x <$> render t b.
Proof.
  revert a x; induction n as [|n IH]; intros [|c a] x Hn E; cbn in Hn; try lia;
    [simplify_eq/=; by destruct (render t b)..|].
  cbn [render app] in *. destruct (Ascii.eqb c percent).
  - destruct a as [|d a]; [done|]. cbn in Hn. cbn [app].
    destruct (render t a) as [y|] eqn:Ey; [|done]. simplify_eq/=.
    rewrite (IH a y) by (lia || done). destruct (render t b); cbn; [by rewrite app_assoc|done].
  - destruct (render t a) as [y|] eqn:Ey; [|done]. simplify_eq/=.
    rewrite (IH a y) by (lia || done). by destruct (render t b).
Qed.

Lemma format_loop_spec sub max t n dst fmt :
  (List.length fmt <= n)%nat -> len dst + 1 <= max ->
  (forall c m dst, c ∈ fmt -> macro c = Some m -> len dst + 1 <= max ->
     sub dst m = put max dst (render t m)) ->
  (forall c m, macro c = Some m -> is_Some (render t m)) ->
  format_loop sub max t dst fmt = put max dst (render t (expand fmt)).
Proof.
  revert dst fmt; induction n as [|n IH]; intros dst [|c fmt] Hn Hd Hsub Hmac; cbn in Hn; try lia;
    try (by cbn; rewrite <- append_str_emit by done).
  assert (Hnext : forall a rest, (List.length rest <= n)%nat -> rest ⊆ c :: fmt ->
    emit max dst a ≫= (fun dst => format_loop sub max t dst rest) =
    put max dst (app a <$> render t (expand rest))).
  { intros a rest Hl Hs. rewrite put_app. destruct (emit max dst a) as [d|] eqn:E; [|done]. cbn.
    apply emit_fits in E. apply IH; [done..| |done]. intros c' m' d' Hc'. apply Hsub. set_solver. }
  cbn [format_loop expand]. fold percent. destruct (Ascii.eqb c percent) eqn:Ec.
  - destruct fmt as [|d rest]; [cbn [render]; by rewrite Ec|]. cbn in Hn.
    assert (Hr : (List.length rest <= n)%nat) by lia.
    assert (Hs : rest ⊆ c :: d :: rest) by set_solver.
    destruct (macro d) as [m|] eqn:Em.
    + replace (time_directive sub max t d dst) with (sub dst m)
        by (destruct d as [[] [] [] [] [] [] [] []]; try discriminate Em;
            injection Em as <-; reflexivity).
      rewrite (Hsub d m) by (set_solver || done). destruct (Hmac _ _ Em) as [x Hx].
      rewrite (render_app t (List.length m) m _ x), Hx by done. cbn [put mbind option_bind].
      by apply Hnext.
    + rewrite directive_field by done. cbn [render]. rewrite Ec. by apply Hnext.
  - rewrite append_char_emit. cbn [render]. rewrite Ec.
    apply (Hnext [c] fmt); [lia|set_solver].
Qed.

Lemma macro_simple c m d : macro c = Some m -> d ∈ m -> macro d = None.
Proof.
  intros Hm Hd. apply list_elem_of_lookup in Hd as [i Hi].
  assert (Hall : forallb (fun d => match macro d with None => true | _ => false end) m = true).
  { destruct c as [[] [] [] [] [] [] [] []]; try discriminate Hm; injection Hm as <-; reflexivity. }
  rewrite forallb_forall in Hall. specialize (Hall d).
  destruct (macro d); [|done]. discriminate Hall. apply list_elem_of_In. by eapply list_elem_of_lookup_2.
Qed.

Lemma macro_expand c m : macro c = Some m -> expand m = m.
Proof.
  intros Hm.
  destruct c as [[] [] [] [] [] [] [] []]; try discriminate Hm; injection Hm as <-; reflexivity.
Qed.

Lemma macro_render t c m : macro c = Some m -> is_Some (render t m).
Proof.
  intros Hm.
  destruct c as [[] [] [] [] [] [] [] []]; try discriminate Hm; injection Hm as <-; by eexists.
Qed.

Lemma append_format_spec max t dst fmt :
  len dst + 1 <= max -> time_append_format 2 max t dst fmt = put max dst (render t (expand fmt)).
Proof.
  intros Hd. eapply format_loop_spec; [done|done| |apply macro_render].
  intros c m dst' _ Hm Hd'. rewrite <- (macro_expand _ _ Hm) at 2.
  eapply format_loop_spec; [done|done| |apply macro_render].
  intros c' m' dst'' Hc' Hm'. rewrite (macro_simple _ _ _ Hm Hc') in Hm'. discriminate.
Qed.

(** C37.  [strftime] writes the text of the format, its composite directives
    expanded, exactly when the text and its terminating NUL fit in the buffer,
    and returns the text's length; when they do not fit, or the format ends in
    a lone [%], it returns 0 and leaves the empty string.  No byte is written
    past the bound. *)
Theorem strftime_renders max fmt t :
  1 <= max -> 0 <= tm_wday t <= 6 -> 0 <= tm_mon t <= 11 ->
  strftime true max (Some fmt) (Some t) =
    match render t (expand fmt) with
    | Some text => if len text + 1 <=? max then (len text, Some text) else (0, Some [])
    | None => (0, Some [])
    end.
Proof.
  intros Hmax Hw Hm. unfold strftime. cbn [negb orb].
  destruct (Z.eqb_spec max 0), (Z.ltb_spec (tm_wday t) 0), (Z.gtb_spec (tm_wday t) 6),
    (Z.ltb_spec (tm_mon t) 0), (Z.gtb_spec (tm_mon t) 11); try lia. cbn [orb].
  rewrite append_format_spec by (unfold len; cbn; lia). unfold put.
  destruct (render t (expand fmt)) as [x|]; [cbn|done]. unfold emit. cbn [app].
  by destruct (len x + 1 <=? max).
Qed.

Lemma strftime_renders_witness :
  strftime true 9 (Some (str "%D")) (Some (mkTm 0 0 0 29 1 100 2 59 0)) = (8, Some (str "02/29/00")) /\
  strftime true 8 (Some (str "%D")) (Some (mkTm 0 0 0 29 1 100 2 59 0)) = (0, Some []).
Proof.
  split; (etransitivity; [apply strftime_renders; cbn; lia | vm_compute; reflexivity]).
Defined.

(** ** Reading formatted numbers back *)

Definition undigit (a : ascii) : Z := Z.of_N (N_of_ascii a) - 48.
Definition dec_value (l : list ascii) : Z := foldl (fun acc c => acc * 10 + undigit c) 0 l.

Lemma forallb_below (P : Z -> bool) n v :
  forallb P (Z.of_nat <$> seq 0 n) = true -> 0 <= v < Z.of_nat n -> P v = true.
Proof.
  intros Hall Hv. rewrite forallb_forall in Hall. apply Hall, list_elem_of_In, list_elem_of_fmap.
  exists (Z.to_nat v). split; [lia|]. apply elem_of_seq. lia.
Qed.

Lemma number2 v : 0 <= v < 100 ->
  exists a b, number v 2 "0"%char = [a; b] /\ dec_value [a; b] = v.
Proof.
  intros Hv.
  pose proof (forallb_below (fun v => match number v 2 "0"%char with
    | [a; b] => dec_value [a; b] =? v | _ => false end) 100 v ltac:(vm_compute; reflexivity) Hv) as H.
  cbv beta in H. destruct (number v 2 "0"%char) as [|a [|b [|]]]; try discriminate.
  apply Z.eqb_eq in H. eauto.
Qed.

Lemma number4 v : 0 <= v < 4000 ->
  exists a b c d, number v 4 "0"%char = [a; b; c; d] /\ dec_value [a; b; c; d] = v.
Proof.
  intros Hv.
  pose proof (forallb_below (fun v => match number v 4 "0"%char with
    | [a; b; c; d] => dec_value [a; b; c; d] =? v | _ => false end) 4000 v
    ltac:(vm_compute; reflexivity) Hv) as H.
  cbv beta in H. destruct (number v 4 "0"%char) as [|a [|b [|c [|d [|]]]]]; try discriminate.
  apply Z.eqb_eq in H. eauto 6.
Qed.

Lemma number_blank v : 0 <= v < 100 -> len (number v 2 " "%char) = 2.
Proof.
  intros Hv. apply Z.eqb_eq.
  apply (forallb_below (fun v => len (number v 2 " "%char) =? 2) 100); [vm_compute; reflexivity|lia].
Qed.

Lemma name_len i :
  (0 <= i < 7 -> len (nth_name time_wday_short i) = 3) /\
  (0 <= i < 12 -> len (nth_name time_mon_short i) = 3).
Proof.
  split; intros Hi; apply Z.eqb_eq.
  - apply (forallb_below (fun i => len (nth_name time_wday_short i) =? 3) 7); [reflexivity|lia].
  - apply (forallb_below (fun i => len (nth_name time_mon_short i) =? 3) 12); [reflexivity|lia].
Qed.

(** The broken-down time written by ["%Y-%m-%d %H:%M:%S"]. *)
Definition parse_iso (s : list ascii) : tm :=
  let num i n := dec_value (take n (drop i s)) in
  mkTm (num 17%nat 2%nat) (num 14%nat 2%nat) (num 11%nat 2%nat) (num 8%nat 2%nat)
       (num 5%nat 2%nat - 1) (num 0%nat 4%nat - 1900) 0 0 0.

Lemma canonical_ranges r : tm_canonical r ->
  0 <= tm_wday r <= 6 /\ 0 <= tm_mon r <= 11 /\ 1 <= tm_mday r <= 31.
Proof.
  intros []. pose proof (days_in_month_pos (tm_year r + 1900) (tm_mon r)).
  split_and!; try lia; rewrite can_wday0; apply Z.mod_pos_bound || apply Z.lt_succ_r, Z.mod_pos_bound; lia.
Qed.

Lemma abs_pos y : 1801 <= y -> (if y <? 0 then ["-"%char] else []) = [] /\ Z.abs y = y.
Proof. intros. destruct (Z.ltb_spec y 0); lia || (split; [done|lia]). Qed.

(** The ISO form ["%Y-%m-%d %H:%M:%S"] of a [time_t] is a lossless time
    stamp: [strftime] of [gmtime_r] fills exactly 19 characters, and the
    numbers read back from them give the same second with
    [time_tm_to_epoch]. *)
Theorem iso_timestamp_lossless t :
  0 <= t <= 2147483647 ->
  exists r text,
    gmtime_r (Some t) true = inr (Some r) /\
    strftime true 20 (Some (str "%Y-%m-%d %H:%M:%S")) (Some r) = (19, Some text) /\
    time_tm_to_epoch (Some (parse_iso text)) true = inr t.
Proof.
  intros Ht. destruct (epoch_to_tm_spec t) as (r & E & Hc & Hs). exists r.
  pose proof (stamp_year_bound r Hc ltac:(lia)) as Hy. pose proof (canonical_ranges r Hc) as (Hw & Hm & Hd).
  destruct (abs_pos _ (proj1 Hy)) as [Hneg Habs].
  destruct Hc as [Hc1 Hc2 Hc3 _ _ _ _ _].
  destruct (number4 (tm_year r + 1900)) as (y1 & y2 & y3 & y4 & Ey & Vy); [lia|].
  destruct (number2 (tm_mon r + 1)) as (m1 & m2 & Em & Vm); [lia|].
  destruct (number2 (tm_mday r)) as (d1 & d2 & Ed & Vd); [lia|].
  destruct (number2 (tm_hour r)) as (h1 & h2 & Eh & Vh); [lia|].
  destruct (number2 (tm_min r)) as (i1 & i2 & Ei & Vi); [lia|].
  destruct (number2 (tm_sec r)) as (s1 & s2 & Es & Vs); [lia|].
  exists [y1; y2; y3; y4; "-"%char; m1; m2; "-"%char; d1; d2; " "%char; h1; h2; ":"%char; i1; i2;
          ":"%char; s1; s2].
  split; [cbn; by rewrite E|]. split.
  - unfold strftime. cbn [negb orb Z.eqb].
    destruct (Z.ltb_spec (tm_wday r) 0), (Z.gtb_spec (tm_wday r) 6),
      (Z.ltb_spec (tm_mon r) 0), (Z.gtb_spec (tm_mon r) 11); try lia. cbn [orb].
    rewrite append_format_spec by (unfold len; cbn; lia).
    cbn -[number emit Z.abs Z.ltb]. rewrite Hneg, Habs, Ey, Em, Ed, Eh, Ei, Es. reflexivity.
  - set (p := parse_iso _).
    assert (Hp : p = mkTm (tm_sec r) (tm_min r) (tm_hour r) (tm_mday r) (tm_mon r) (tm_year r) 0 0 0).
    { unfold p, parse_iso. cbn [take drop]. rewrite Vy, Vm, Vd, Vh, Vi, Vs. f_equal; lia. }
    rewrite Hp, tm_to_epoch_stamp, carry_month_id by (cbn; try lia; mlia).
    change (stamp (mkTm _ _ _ _ _ _ _ _ _)) with (stamp r). rewrite Hs. cbv zeta.
    destruct (Z.ltb_spec t 0), (Z.gtb_spec t 253402300799); try lia. cbn [orb]. by rewrite s32_id by lia.
Qed.

Lemma iso_timestamp_lossless_witness :
  0 <= 1700000000 <= 2147483647 /\
  time_tm_to_epoch (Some (parse_iso (str "2023-11-14 22:13:20"))) true = inr 1700000000.
Proof.
  split; [lia|]. destruct (iso_timestamp_lossless 1700000000) as (r & text & E & F & G); [lia|].
  vm_compute in E. injection E as <-. vm_compute in F. injection F as <-. exact G.
Defined.

(** [ctime_r] never fails on a [time_t]: the 25 characters of its fixed
    format and the NUL exactly fill the 26-byte buffer it documents, so
    [ERANGE] cannot occur. *)
Theorem ctime_total t :
  -2147483648 <= t <= 2147483647 ->
  exists text, ctime_r (Some t) true = inr (Some text) /\ len text = 25.
Proof.
  intros Ht. destruct (epoch_to_tm_spec t) as (r & E & Hc & Hs).
  pose proof (stamp_year_bound r Hc ltac:(lia)) as Hy. pose proof (canonical_ranges r Hc) as (Hw & Hm & Hd).
  destruct (abs_pos _ (proj1 Hy)) as [Hneg Habs].
  destruct Hc as [Hc1 Hc2 Hc3 _ _ _ _ _].
  unfold ctime_r, localtime_r, gmtime_r. cbn [negb]. rewrite E. unfold asctime_r. cbn [negb].
  unfold strftime. cbn [negb orb Z.eqb].
  destruct (Z.ltb_spec (tm_wday r) 0), (Z.gtb_spec (tm_wday r) 6),
    (Z.ltb_spec (tm_mon r) 0), (Z.gtb_spec (tm_mon r) 11); try lia. cbn [orb].
  rewrite append_format_spec by (unfold len; cbn; lia).
  match goal with |- context [render r ?f] =>
    assert (exists text, render r f = Some text /\ len text = 25) as (text & -> & Hl) end.
  { eexists. split.
    { cbn -[number nth_name time_wday_short time_mon_short Z.abs Z.ltb]. reflexivity. }
    rewrite Hneg, Habs.
    destruct (number4 (tm_year r + 1900)) as (y1 & y2 & y3 & y4 & Ey & _); [lia|].
    destruct (number2 (tm_hour r)) as (h1 & h2 & Eh & _); [lia|].
    destruct (number2 (tm_min r)) as (i1 & i2 & Ei & _); [lia|].
    destruct (number2 (tm_sec r)) as (s1 & s2 & Es & _); [lia|].
    rewrite Ey, Eh, Ei, Es.
    pose proof (number_blank (tm_mday r)). pose proof (proj1 (name_len (tm_wday r))).
    pose proof (proj2 (name_len (tm_mon r))).
    repeat (rewrite ?len_app; match goal with |- context [len (?a :: ?l)] =>
      lazymatch l with [] => fail | _ => change (a :: l) with ([a] ++ l) end end).
    rewrite ?len_app. unfold len in *; cbn [List.length] in *. lia. }
  exists text. unfold put, emit. cbn [app mbind option_bind]. rewrite Hl.
  change (25 + 1 <=? 26) with true. cbv iota beta. by rewrite Hl.
Qed.

Lemma ctime_total_witness :
  -2147483648 <= -1 <= 2147483647 /\
  exists text, ctime_r (Some (-1)) true = inr (Some text) /\ len text = 25.
Proof. split; [lia|]. apply ctime_total. lia. Defined.

(** ** [timespec] arithmetic *)

Definition ts_nanos (a : timespec) : Z := tv_sec a * 1000000000 + tv_nsec a.
Definition ts_normal (a : timespec) : Prop := 0 <= tv_nsec a < 1000000000.

Lemma normalize_spec ts :
  -1000000000 <= tv_nsec ts < 2000000000 -> -2147483647 <= tv_sec ts <= 2147483646 ->
  ts_normal (time_timespec_normalize ts) /\
  ts_nanos (time_timespec_normalize ts) = ts_nanos ts.
Proof.
  intros Hn Hs. unfold time_timespec_normalize, ts_normal, ts_nanos, AUXV6_NSEC_PER_SEC in *.
  destruct ts as [s n]; cbn [tv_sec tv_nsec nsec_down nsec_up] in *. unfold AUXV6_NSEC_PER_SEC.
  rewrite !Z.geb_leb.
  destruct (Z.leb_spec 1000000000 n); cbn [tv_sec tv_nsec nsec_up nsec_down]; unfold AUXV6_NSEC_PER_SEC.
  - destruct (Z.leb_spec 1000000000 (n - 1000000000)); [lia|]. cbn [tv_sec tv_nsec].
    destruct (Z.ltb_spec (n - 1000000000) 0); [lia|]. cbn [tv_sec tv_nsec]. rewrite s32_id; lia.
  - destruct (Z.ltb_spec n 0); cbn [tv_sec tv_nsec]; [|lia].
    destruct (Z.ltb_spec (n + 1000000000) 0); [lia|]. cbn [tv_sec tv_nsec]. rewrite s32_id; lia.
Qed.

Lemma cmp_spec a b : ts_normal a -> ts_normal b ->
  time_timespec_cmp a b = Z.sgn (ts_nanos a - ts_nanos b).
Proof.
  unfold ts_normal, ts_nanos, time_timespec_cmp. intros Ha Hb.
  destruct (Z.ltb_spec (tv_sec a) (tv_sec b)), (Z.gtb_spec (tv_sec a) (tv_sec b)),
    (Z.ltb_spec (tv_nsec a) (tv_nsec b)), (Z.gtb_spec (tv_nsec a) (tv_nsec b)); lia.
Qed.

(** On normalised operands whose seconds do not overflow, the
    [timespec] sum and difference that [clock_nanosleep] computes are
    normalised and exact to the nanosecond, the comparison is that of the
    instants, the wake-up deadline [now + rqtp] is not before [now], and the
    [timeval] passed to [select] for the rest is rounded up: it never ends
    before the deadline and is at most one microsecond late. *)
Theorem timespec_exact a b :
  ts_normal a -> ts_normal b -> 0 <= tv_sec a <= 1073741822 -> 0 <= tv_sec b <= 1073741822 ->
  let s := time_timespec_add a b in
  let d := time_timespec_sub a b in
  let tv := time_timespec_to_timeval d in
  ts_normal s /\ ts_nanos s = ts_nanos a + ts_nanos b /\
  ts_normal d /\ ts_nanos d = ts_nanos a - ts_nanos b /\
  time_timespec_cmp a b = Z.sgn (ts_nanos a - ts_nanos b) /\
  time_timespec_cmp s a <> -1 /\
  (0 <= tv_usec tv < 1000000 /\
   ts_nanos d <= (tv_secs tv * 1000000 + tv_usec tv) * 1000 < ts_nanos d + 1000).
Proof.
  intros Ha Hb Hsa Hsb s d tv. unfold ts_normal in *.
  assert (Hs : ts_normal s /\ ts_nanos s = ts_nanos a + ts_nanos b).
  { unfold s, time_timespec_add. rewrite !s32_id by lia.
    destruct (normalize_spec (mkTs (tv_sec a + tv_sec b) (tv_nsec a + tv_nsec b)));
      cbn; [lia..|]. split; [done|]. unfold ts_nanos in *; cbn in *. lia. }
  assert (Hd : ts_normal d /\ ts_nanos d = ts_nanos a - ts_nanos b).
  { unfold d, time_timespec_sub. rewrite !s32_id by lia.
    destruct (normalize_spec (mkTs (tv_sec a - tv_sec b) (tv_nsec a - tv_nsec b)));
      cbn; [lia..|]. split; [done|]. unfold ts_nanos in *; cbn in *. lia. }
  destruct Hs as [Hs1 Hs2], Hd as [Hd1 Hd2].
  do 4 (split; [done|]). split; [by apply cmp_spec|]. split.
  { rewrite cmp_spec by done. unfold ts_nanos in Hs2 at 2 3. unfold ts_nanos at 2. lia. }
  unfold ts_nanos in Hd2. unfold tv, time_timespec_to_timeval, ts_nanos. unfold ts_normal in Hd1.
  clear tv Hs1 Hs2. clearbody s d. rewrite (s32_id (tv_nsec d + 999)) by lia.
  rewrite Z.geb_leb. destruct (Z.leb_spec 1000000 (Z.quot (tv_nsec d + 999) 1000)); cbn;
    rewrite ?s32_id by lia; mlia.
Qed.

Lemma timespec_exact_witness :
  let a := mkTs 5 200 in let b := mkTs 3 999999999 in
  ts_nanos (time_timespec_sub a b) = 1000000201 /\ time_timespec_cmp a b = 1.
Proof.
  intros a b. destruct (timespec_exact a b) as (_ & _ & _ & H & H' & _);
    [unfold ts_normal; cbn; lia..|]. split; [exact H|exact H'].
Defined.

(** [timespec_diff_msec] of two normalised instants is the elapsed time
    in whole milliseconds, rounded down, and 0 when time went backwards by
    any amount. *)
Theorem diff_msec_exact a b :
  ts_normal a -> ts_normal b -> 0 <= tv_sec a <= 2147483647 -> 0 <= tv_sec b <= 2147483647 ->
  timespec_diff_msec (Some a) (Some b) = Z.max 0 ((ts_nanos b - ts_nanos a) / 1000000).
Proof.
  intros Ha Hb Hsa Hsb. unfold ts_normal, ts_nanos, timespec_diff_msec in *.
  rewrite (s32_id (tv_sec b - tv_sec a)), (s32_id (tv_nsec b - tv_nsec a)) by lia.
  assert (Hmsec : forall s n, 0 <= s <= 2147483647 -> 0 <= n < 1000000000 ->
            timespec_to_msec (Some (mkTs s n)) = (s * 1000000000 + n) / 1000000).
  { intros s n Hs Hn. unfold timespec_to_msec, u64; cbn [tv_sec tv_nsec].
    rewrite (Z.mod_small s), (Z.mod_small n) by lia.
    rewrite (Z.mod_small (s * 1000)) by lia.
    rewrite Z.mod_small by mlia. mlia. }
  destruct (Z.ltb_spec (tv_nsec b - tv_nsec a) 0).
  - rewrite s32_id by lia. destruct (Z.ltb_spec (tv_sec b - tv_sec a - 1) 0); [mlia|].
    rewrite Hmsec by lia. rewrite Z.max_r by mlia. f_equal. lia.
  - destruct (Z.ltb_spec (tv_sec b - tv_sec a) 0); [mlia|].
    rewrite Hmsec by lia. rewrite Z.max_r by mlia. f_equal. lia.
Qed.

Lemma diff_msec_exact_witness :
  timespec_diff_msec (Some (mkTs 1 999000000)) (Some (mkTs 3 500000)) = 1001.
Proof. etransitivity; [apply diff_msec_exact; unfold ts_normal; cbn; lia|reflexivity]. Defined.
