(* ===== verification/NetBytes.v ===== *)
(** * Network byte order: [net_htons] and [net_htonl] of [src/include/net.h]

    The target is little-endian: storing a [uint] puts its least significant
    byte first.  [le32] and [rd32] are that store and load; the lemmas show
    that storing [net_htonl v] puts the bytes of [v] in network order and that
    loading undoes it. *)

From S2P Require Import Prelude.

Definition net_htons (x : Z) : Z :=
  u16 (Z.lor (Z.shiftl (Z.land x 255) 8) (Z.land (Z.shiftr x 8) 255)).
Definition net_ntohs (x : Z) : Z := net_htons x.

Definition net_htonl (x : Z) : Z :=
  u32 (Z.lor (Z.lor (Z.lor (Z.shiftl (Z.land x 255) 24)
                           (Z.shiftl (Z.land x 65280) 8))
                    (Z.shiftr (Z.land x 16711680) 8))
             (Z.shiftr (Z.land x 4278190080) 24)).
Definition net_ntohl (x : Z) : Z := net_htonl x.

(** ** Stores and loads *)

Definition byte_of (v i : Z) : Z := (v / 2 ^ (8 * i)) mod 256.

Definition le16 (v : Z) : list Z := [byte_of v 0; byte_of v 1].
Definition le32 (v : Z) : list Z := [byte_of v 0; byte_of v 1; byte_of v 2; byte_of v 3].
Definition be16 (v : Z) : list Z := [byte_of v 1; byte_of v 0].
Definition be32 (v : Z) : list Z := [byte_of v 3; byte_of v 2; byte_of v 1; byte_of v 0].

Definition rd16 (bs : list Z) : Z :=
  match bs with [a; b] => a + 256 * b | _ => 0 end.
Definition rd32 (bs : list Z) : Z :=
  match bs with [a; b; c; d] => a + 256 * b + 65536 * c + 16777216 * d | _ => 0 end.

Lemma byte_of_bits v i n : 0 <= i -> 0 <= n < 8 -> Z.testbit (byte_of v i) n = Z.testbit v (n + 8 * i).
Proof.
  intros Hi Hn. unfold byte_of. change 256 with (2 ^ 8).
  rewrite Z.mod_pow2_bits_low, <- Z.shiftr_div_pow2, Z.shiftr_spec by lia. done.
Qed.

Lemma byte_ext a b :
  is_u8 a -> is_u8 b -> (forall n, 0 <= n < 8 -> Z.testbit a n = Z.testbit b n) -> a = b.
Proof.
  unfold is_u8. intros Ha Hb H.
  rewrite <- (Z.mod_small a 256), <- (Z.mod_small b 256) by lia.
  change 256 with (2 ^ 8). apply Z.bits_inj'. intros n Hn.
  destruct (Z.lt_ge_cases n 8) as [Hl|Hg].
  - rewrite !Z.mod_pow2_bits_low by lia. apply H. lia.
  - by rewrite !Z.mod_pow2_bits_high by lia.
Qed.

Lemma byte_of_range v i : is_u8 (byte_of v i).
Proof. unfold is_u8, byte_of. apply Z.mod_pos_bound. lia. Qed.
#[export] Hint Resolve byte_of_range : auxv6.

(** Decides an equation of bits at the eight positions of a byte. *)
Ltac byte_bits :=
  apply byte_ext; [apply byte_of_range..|];
  let n := fresh "n" in let Hn := fresh "Hn" in
  intros n Hn; rewrite !byte_of_bits by lia;
  assert (n = 0 \/ n = 1 \/ n = 2 \/ n = 3 \/ n = 4 \/ n = 5 \/ n = 6 \/ n = 7) as Hc by lia;
  unfold net_htonl, net_htons, u32, u16;
  change 4294967296 with (2 ^ 32); change 65536 with (2 ^ 16);
  destruct_or! Hc; subst n;
  rewrite Z.mod_pow2_bits_low by lia;
  rewrite ?Z.lor_spec, ?Z.shiftl_spec, ?Z.shiftr_spec by lia;
  rewrite ?Z.land_spec, ?Z.shiftr_spec by lia; cbn -[Z.testbit];
  repeat match goal with
  | |- context [Z.testbit ?c ?k] =>
      match isZcst c with true => let b := eval vm_compute in (Z.testbit c k) in
        change (Z.testbit c k) with b end
  | |- context [Z.testbit ?c ?k] =>
      match k with Zneg _ => rewrite (Z.testbit_neg_r c k) by lia end
  end; rewrite ?andb_true_r, ?andb_false_r, ?orb_false_r; reflexivity.

Lemma htonl_bytes v i : i = 0 \/ i = 1 \/ i = 2 \/ i = 3 ->
  byte_of (net_htonl v) i = byte_of v (3 - i).
Proof. intros Hi. destruct_or! Hi; subst i; byte_bits. Qed.

Lemma htons_bytes v i : i = 0 \/ i = 1 -> byte_of (net_htons v) i = byte_of v (1 - i).
Proof. intros Hi. destruct_or! Hi; subst i; byte_bits. Qed.

(** Storing a converted word puts its most significant byte first. *)
Lemma le32_htonl v : le32 (net_htonl v) = be32 v.
Proof. unfold le32, be32. rewrite !htonl_bytes by lia. done. Qed.
Lemma le16_htons v : le16 (net_htons v) = be16 v.
Proof. unfold le16, be16. rewrite !htons_bytes by lia. done. Qed.

Lemma rd32_le32 v : is_u32 v -> rd32 (le32 v) = v.
Proof.
  unfold is_u32, le32, rd32, byte_of. intros.
  change (2 ^ (8 * 0)) with 1. change (2 ^ (8 * 1)) with 256.
  change (2 ^ (8 * 2)) with 65536. change (2 ^ (8 * 3)) with 16777216. mlia.
Qed.
Lemma rd16_le16 v : 0 <= v < 65536 -> rd16 (le16 v) = v.
Proof.
  unfold le16, rd16, byte_of. intros.
  change (2 ^ (8 * 0)) with 1. change (2 ^ (8 * 1)) with 256. mlia.
Qed.

Lemma htonl_range v : is_u32 (net_htonl v).
Proof. apply u32_range. Qed.
Lemma htons_range v : 0 <= net_htons v < 65536.
Proof. unfold net_htons, u16. apply Z.mod_pos_bound. lia. Qed.

Lemma htonl_involutive v : is_u32 v -> net_ntohl (net_htonl v) = v.
Proof.
  intros Hv. assert (E : le32 (net_ntohl (net_htonl v)) = le32 v).
  { unfold net_ntohl. rewrite le32_htonl. unfold le32, be32. by rewrite !htonl_bytes by lia. }
  apply (f_equal rd32) in E. by rewrite !rd32_le32 in E by (done || apply htonl_range).
Qed.
Lemma htons_involutive v : 0 <= v < 65536 -> net_ntohs (net_htons v) = v.
Proof.
  intros Hv. assert (E : le16 (net_ntohs (net_htons v)) = le16 v).
  { unfold net_ntohs. rewrite le16_htons. unfold le16, be16. by rewrite !htons_bytes by lia. }
  apply (f_equal rd16) in E. by rewrite !rd16_le16 in E by (done || apply htons_range).
Qed.

(** Loading network-order bytes and converting gives the value back. *)
Lemma ntohl_rd32_be32 v : is_u32 v -> net_ntohl (rd32 (be32 v)) = v.
Proof. intros. rewrite <- le32_htonl, rd32_le32 by apply htonl_range. by apply htonl_involutive. Qed.
Lemma ntohs_rd16_be16 v : 0 <= v < 65536 -> net_ntohs (rd16 (be16 v)) = v.
Proof. intros. rewrite <- le16_htons, rd16_le16 by apply htons_range. by apply htons_involutive. Qed.
