(* ===== verification/ByteMem.v ===== *)
(** * Memory as bytes

    A memory gives every address a byte; a word is stored least significant byte
    first.  The kernel heap, the page tables and the heap of the C library keep
    their headers and entries in such a memory, beside the data of their users. *)

From S2P Require Import Prelude NetBytes.

Definition write_bytes (m : Z -> Z) (a : Z) (l : list Z) : Z -> Z :=
  fun x => if (a <=? x) && (x <? a + len l) then nth (Z.to_nat (x - a)) l 0 else m x.
Definition read_bytes (m : Z -> Z) (a n : Z) : list Z := (fun i => m (a + Z.of_nat i)) <$> seq 0 (Z.to_nat n).
Definition store32 (m : Z -> Z) (a v : Z) : Z -> Z := write_bytes m a (le32 v).
Definition load32 (m : Z -> Z) (a : Z) : Z := rd32 (read_bytes m a 4).

Lemma write_other m a l x : ~ (a <= x < a + len l) -> write_bytes m a l x = m x.
Proof.
  intros Hx. unfold write_bytes.
  destruct (Z.leb_spec a x), (Z.ltb_spec x (a + len l)); try done. lia.
Qed.

Lemma write_in m a l (i : nat) x : l !! i = Some x -> write_bytes m a l (a + Z.of_nat i) = x.
Proof.
  intros Hl. pose proof (lookup_lt_Some _ _ _ Hl). unfold write_bytes, len.
  destruct (Z.leb_spec a (a + Z.of_nat i)), (Z.ltb_spec (a + Z.of_nat i) (a + Z.of_nat (length l))); try lia.
  cbn [andb]. replace (Z.to_nat (a + Z.of_nat i - a)) with i by lia. by apply nth_lookup_Some.
Qed.

Lemma read_ext m m' a n : (forall x, a <= x < a + n -> m' x = m x) -> read_bytes m' a n = read_bytes m a n.
Proof.
  intros H. unfold read_bytes. apply list_fmap_ext. intros i x Hx.
  apply lookup_seq in Hx as [-> Hi]. apply H. lia.
Qed.

Lemma read_write m a l : read_bytes (write_bytes m a l) a (len l) = l.
Proof.
  apply list_eq. intros i. unfold read_bytes, len. rewrite Nat2Z.id, list_lookup_fmap.
  destruct (decide (i < length l)%nat) as [Hi|Hi].
  - rewrite lookup_seq_lt by done. cbn [fmap option_fmap option_map].
    destruct (lookup_lt_is_Some_2 l i Hi) as [x Hx]. rewrite Hx. f_equal. by apply write_in.
  - rewrite lookup_seq_ge, lookup_ge_None_2 by lia. done.
Qed.

Lemma read_length m a n : 0 <= n -> len (read_bytes m a n) = n.
Proof. intros. unfold len, read_bytes. rewrite length_fmap, length_seq. lia. Qed.

Lemma read_app m a n1 n2 : 0 <= n1 -> 0 <= n2 ->
  read_bytes m a (n1 + n2) = read_bytes m a n1 ++ read_bytes m (a + n1) n2.
Proof.
  intros. unfold read_bytes. rewrite Z2Nat.inj_add, seq_app, fmap_app by lia. f_equal.
  apply list_eq. intros i. rewrite !list_lookup_fmap, Nat.add_0_l.
  destruct (decide (i < Z.to_nat n2)%nat) as [Hi|Hi].
  - rewrite !lookup_seq_lt by done. cbn. do 2 f_equal. lia.
  - rewrite !lookup_seq_ge by lia. done.
Qed.

Lemma load_store m a v : is_u32 v -> load32 (store32 m a v) a = v.
Proof.
  intros Hv. unfold load32, store32. change 4 with (len (le32 v)). rewrite read_write. by apply rd32_le32.
Qed.

Lemma load_ext m m' a : (forall x, a <= x < a + 4 -> m' x = m x) -> load32 m' a = load32 m a.
Proof. intros H. unfold load32. by rewrite (read_ext m m'). Qed.

Lemma store_other m a v x : ~ (a <= x < a + 4) -> store32 m a v x = m x.
Proof. intros. by apply write_other. Qed.

(** The bytes of a buffer after part of it has been written. *)
Definition patch (off : Z) (l cs : list Z) : list Z :=
  take (Z.to_nat off) cs ++ l ++ drop (Z.to_nat (off + len l)) cs.

Lemma read_patch m q n off l : 0 <= off -> off + len l <= n ->
  read_bytes (write_bytes m (q + off) l) q n = patch off l (read_bytes m q n).
Proof.
  intros Ho Hn. pose proof (len_nonneg l) as Hl0. unfold patch.
  assert (E : n = off + (len l + (n - off - len l))) by lia. rewrite E, !read_app by lia.
  rewrite (read_ext m (write_bytes m (q + off) l) q off) by (intros; apply write_other; lia).
  rewrite read_write.
  rewrite (read_ext m (write_bytes m (q + off) l) (q + off + len l) _) by (intros; apply write_other; lia).
  assert (L1 : length (read_bytes m q off) = Z.to_nat off) by (unfold read_bytes; by rewrite length_fmap, length_seq).
  assert (L2 : length (read_bytes m (q + off) (len l)) = Z.to_nat (len l))
    by (unfold read_bytes; by rewrite length_fmap, length_seq).
  rewrite take_app_length' by done. f_equal. f_equal.
  rewrite app_assoc, drop_app_length'; [done|]. rewrite length_app, L1, L2. lia.
Qed.

Lemma patch_len off l cs : 0 <= off -> off + len l <= len cs -> len (patch off l cs) = len cs.
Proof.
  unfold patch, len. intros. rewrite !length_app, length_take, length_drop. lia.
Qed.
