(* ===== verification/Xdr.v ===== *)
(** * XDR serialization: [src/kernel/net/xdr.c], and the NFS and MOUNT codecs

    A stream is a buffer and a position; every routine both encodes and
    decodes, by the stream's [op].  A routine of the code that takes a stream
    and a pointer to an [A] is a [codec A]: it takes the stream and the value behind the pointer and
    returns the code's result with the stream and the value afterwards, or
    [None] when it accesses memory outside the buffers it was given.

    [Lawful] is the interface between the codecs and their clients: what an
    encoder writes, what a decoder of it reads, and that neither leaves the
    buffer whatever the bytes are.  The basic routines and the combinators of
    [xdr.c] and of the clients ([src/kernel/net/nfs.c],
    [src/kernel/net/mount.c]) are instances. *)

From S2P Require Import Prelude NetBytes.

Inductive xdr_op := XDR_ENCODE | XDR_DECODE | XDR_FREE.

#[global] Instance xdr_op_eq_dec : EqDecision xdr_op.
Proof. solve_decision. Defined.

Definition is_op (a b : xdr_op) : bool := bool_decide (a = b).

(** [x_mem] is the memory from [start] on; [x_buf] is [buf - start]. *)
Record XDR := mkXDR {
  x_mem : list Z;
  x_buf : Z;
  x_buflen : Z;
  x_pos : Z;
  x_op : xdr_op
}.

Definition set_mem (x : XDR) (m : list Z) : XDR :=
  mkXDR m (x_buf x) (x_buflen x) (x_pos x) (x_op x).

(** ** Memory *)

(** Reading and writing [n] bytes at an offset; [None] is out of bounds. *)
Definition rd (mem : list Z) (off n : Z) : option (list Z) :=
  if (0 <=? off) && (0 <=? n) && (off + n <=? len mem)
  then Some (take (Z.to_nat n) (drop (Z.to_nat off) mem)) else None.

Definition wr (mem : list Z) (off : Z) (bs : list Z) : option (list Z) :=
  if (0 <=? off) && (off + len bs <=? len mem)
  then Some (take (Z.to_nat off) mem ++ bs ++ drop (Z.to_nat (off + len bs)) mem) else None.

(** ** Stream management *)

Definition xdr_init (buf : list Z) (n : Z) (op : xdr_op) : XDR := mkXDR buf 0 n 0 op.

Definition xdr_reset (x : XDR) : XDR := mkXDR (x_mem x) 0 (x_buflen x) 0 (x_op x).

Definition xdr_getpos (x : XDR) : Z := x_pos x.

Definition xdr_setpos (x : XDR) (pos : Z) : bool * XDR :=
  if pos >? x_buflen x then (false, x)
  else (true, mkXDR (x_mem x) pos (x_buflen x) pos (x_op x)).

Definition xdr_check_bytes (x : XDR) (needed : Z) : bool :=
  if (x_pos x +u needed) >? x_buflen x then false else true.

(** The old [buf] and the advanced stream. *)
Definition xdr_advance (x : XDR) (bytes : Z) : Z * XDR :=
  (x_buf x, mkXDR (x_mem x) (x_buf x + bytes) (x_buflen x) (x_pos x +u bytes) (x_op x)).

Definition codec (A : Type) : Type := XDR -> A -> option (bool * XDR * A).

(** ** Scalars *)

Definition xdr_int_internal : codec Z := fun x v =>
  if negb (xdr_check_bytes x 4) then Some (false, x, v)
  else
    let '(p, x) := xdr_advance x 4 in
    match x_op x with
    | XDR_ENCODE =>
        match wr (x_mem x) p (le32 (net_htonl v)) with
        | None => None
        | Some m => Some (true, set_mem x m, v)
        end
    | XDR_DECODE =>
        match rd (x_mem x) p 4 with
        | None => None
        | Some bs => Some (true, x, net_ntohl (rd32 bs))
        end
    | XDR_FREE => Some (true, x, v)
    end.

(** A signed [int] is passed as the [uint] with its bits. *)
Definition xdr_int : codec Z := fun x v =>
  match xdr_int_internal x (u32 v) with
  | None => None
  | Some (b, x, v') => Some (b, x, s32 v')
  end.
Definition xdr_uint : codec Z := xdr_int_internal.
Definition xdr_long : codec Z := xdr_int.
Definition xdr_ulong : codec Z := xdr_int_internal.

Definition s16 (x : Z) : Z := (x + 32768) mod 65536 - 32768.

Definition xdr_short : codec Z := fun x sp =>
  match x_op x with
  | XDR_ENCODE =>
      match xdr_int_internal x (u32 sp) with
      | None => None
      | Some (b, x, _) => Some (b, x, sp)
      end
  | XDR_DECODE =>
      match xdr_int_internal x 0 with
      | None => None
      | Some (false, x, _) => Some (false, x, sp)
      | Some (true, x, val) => Some (true, x, s16 (Z.shiftr (s32 val) 16))
      end
  | XDR_FREE => Some (false, x, sp)
  end.

Definition xdr_ushort : codec Z := fun x usp =>
  match x_op x with
  | XDR_ENCODE =>
      match xdr_int_internal x usp with
      | None => None
      | Some (b, x, _) => Some (b, x, usp)
      end
  | XDR_DECODE =>
      match xdr_int_internal x 0 with
      | None => None
      | Some (false, x, _) => Some (false, x, usp)
      | Some (true, x, val) => Some (true, x, u16 (Z.shiftr val 16))
      end
  | XDR_FREE => Some (false, x, usp)
  end.

Definition xdr_bool : codec Z := fun x bp =>
  match x_op x with
  | XDR_ENCODE =>
      match xdr_int_internal x (if bp =? 0 then 0 else 1) with
      | None => None
      | Some (b, x, _) => Some (b, x, bp)
      end
  | XDR_DECODE =>
      match xdr_int_internal x 0 with
      | None => None
      | Some (false, x, _) => Some (false, x, bp)
      | Some (true, x, val) => Some (true, x, if val =? 0 then 0 else 1)
      end
  | XDR_FREE => Some (false, x, bp)
  end.

Definition xdr_enum : codec Z := xdr_int.

(** The IEEE bits of a [float]; a [double] is its low and high words. *)
Definition xdr_float : codec Z := xdr_int_internal.

Definition xdr_double : codec (Z * Z) := fun x '(lo, hi) =>
  match xdr_int_internal x lo with
  | None => None
  | Some (false, x, lo) => Some (false, x, (lo, hi))
  | Some (true, x, lo) =>
      match xdr_int_internal x hi with
      | None => None
      | Some (b, x, hi) => Some (b, x, (lo, hi))
      end
  end.

(** ** Bytes *)

Definition rndup (n : Z) : Z := Z.land (n +u 3) 4294967292.

(** [memcpy(p, bytes, n); memset(p + n, 0, rndup - n)] *)
Definition put_padded (mem : list Z) (p : Z) (bs : list Z) (r : Z) : option (list Z) :=
  match wr mem p bs with
  | None => None
  | Some mem => wr mem (p + len bs) (replicate (Z.to_nat (r - len bs)) 0)
  end.

(** [cp] is the caller's array. *)
Definition xdr_opaque (cnt : Z) : codec (list Z) := fun x cp =>
  let r := rndup cnt in
  if negb (xdr_check_bytes x r) then Some (false, x, cp)
  else
    let '(p, x) := xdr_advance x r in
    match x_op x with
    | XDR_ENCODE =>
        match rd cp 0 cnt with
        | None => None
        | Some bs =>
            match put_padded (x_mem x) p bs r with
            | None => None
            | Some m => Some (true, set_mem x m, cp)
            end
        end
    | XDR_DECODE =>
        match rd (x_mem x) p cnt with
        | None => None
        | Some bs =>
            match wr cp 0 bs with
            | None => None
            | Some cp => Some (true, x, cp)
            end
        end
    | XDR_FREE => Some (true, x, cp)
    end.

(** A [char *]: into memory of the caller, or into the stream's buffer. *)
Inductive cptr := PExt (l : list Z) | PStream (off : Z).

Definition ptr_read (x : XDR) (p : cptr) (n : Z) : option (list Z) :=
  match p with
  | PExt l => rd l 0 n
  | PStream off => rd (x_mem x) off n
  end.

(** The common end of [xdr_bytes] and [xdr_string]. *)
Definition xdr_body (x : XDR) (cpp : cptr) (n : Z) : option (bool * XDR * cptr) :=
  let r := rndup n in
  if negb (xdr_check_bytes x r) then Some (false, x, cpp)
  else
    let '(p, x) := xdr_advance x r in
    match x_op x with
    | XDR_ENCODE =>
        match ptr_read x cpp n with
        | None => None
        | Some bs =>
            match put_padded (x_mem x) p bs r with
            | None => None
            | Some m => Some (true, set_mem x m, cpp)
            end
        end
    | XDR_DECODE => Some (true, x, PStream p)
    | XDR_FREE => Some (true, x, cpp)
    end.

Definition xdr_bytes (maxsize : Z) : codec (cptr * Z) := fun x '(cpp, size) =>
  let n := if is_op (x_op x) XDR_ENCODE then size else 0 in
  if is_op (x_op x) XDR_ENCODE && (n >? maxsize) then Some (false, x, (cpp, size))
  else
    match xdr_uint x n with
    | None => None
    | Some (false, x, _) => Some (false, x, (cpp, size))
    | Some (true, x, n) =>
        if is_op (x_op x) XDR_DECODE && (n >? maxsize) then Some (false, x, (cpp, size))
        else
          let size := if is_op (x_op x) XDR_DECODE then n else size in
          match xdr_body x cpp n with
          | None => None
          | Some (b, x, cpp) => Some (b, x, (cpp, size))
          end
    end.

(** [strlen]: the offset of the first NUL; [None] when it runs off the end. *)
Fixpoint strlen (l : list Z) : option Z :=
  match l with
  | [] => None
  | c :: l => if c =? 0 then Some 0 else Z.succ <$> strlen l
  end.

Definition ptr_strlen (x : XDR) (p : cptr) : option Z :=
  match p with
  | PExt l => strlen l
  | PStream off => if off <? 0 then None else strlen (drop (Z.to_nat off) (x_mem x))
  end.

(** After the length is known: the length, the checks of the decoder, the data. *)
Definition xdr_string_from (maxsize : Z) (x : XDR) (cpp : cptr) (n : Z)
    : option (bool * XDR * cptr) :=
  match xdr_uint x n with
  | None => None
  | Some (false, x, _) => Some (false, x, cpp)
  | Some (true, x, n) =>
      if is_op (x_op x) XDR_DECODE && ((n >? maxsize) || (n =? 0)) then Some (false, x, cpp)
      else xdr_body x cpp n
  end.

Definition xdr_string (maxsize : Z) : codec cptr := fun x cpp =>
  if is_op (x_op x) XDR_ENCODE then
    match ptr_strlen x cpp with
    | None => None
    | Some n => if n >=? maxsize then Some (false, x, cpp) else xdr_string_from maxsize x cpp (n +u 1)
    end
  else xdr_string_from maxsize x cpp 0.

(** ** Arrays and unions *)

(** [for(i = 0; i < n; i++) if(!elproc(xdrs, base + i * size)) return 0;] on an
    array of elements; [None] when [i] leaves the array. *)
Fixpoint elems_loop {A} (elproc : codec A) (n : nat) (x : XDR) (arr : list A)
    : option (bool * XDR * list A) :=
  match n with
  | O => Some (true, x, arr)
  | S n =>
      match arr with
      | [] => None
      | a :: arr =>
          match elproc x a with
          | None => None
          | Some (false, x, a) => Some (false, x, a :: arr)
          | Some (true, x, a) =>
              match elems_loop elproc n x arr with
              | None => None
              | Some (b, x, arr) => Some (b, x, a :: arr)
              end
          end
      end
  end.

Definition xdr_vector {A} (nelem : Z) (xdr_elem : codec A) : codec (list A) := fun x basep =>
  elems_loop xdr_elem (Z.to_nat nelem) x basep.

(** The array pointer may be NULL ([None]); [page] is what [kalloc] returns,
    a page seen as an array of elements. *)
Definition xdr_array {A} (page : option (list A)) (maxsize : Z) (elproc : codec A)
    : codec (option (list A) * Z) := fun x '(addr, size) =>
  let n := if is_op (x_op x) XDR_ENCODE then size else 0 in
  if is_op (x_op x) XDR_ENCODE && (n >? maxsize) then Some (false, x, (addr, size))
  else
    match xdr_uint x n with
    | None => None
    | Some (false, x, _) => Some (false, x, (addr, size))
    | Some (true, x, n) =>
        if is_op (x_op x) XDR_DECODE && (n >? maxsize) then Some (false, x, (addr, size))
        else
          let size := if is_op (x_op x) XDR_DECODE then n else size in
          let addr := match addr with
                      | Some a => Some a
                      | None => if is_op (x_op x) XDR_DECODE then page else None
                      end in
          match addr with
          | None => if is_op (x_op x) XDR_DECODE then Some (false, x, (addr, size))
                    else if n =? 0 then Some (true, x, (addr, size)) else None
          | Some arr =>
              match elems_loop elproc (Z.to_nat n) x arr with
              | None => None
              | Some (b, x, arr) => Some (b, x, (Some arr, size))
              end
          end
    end.

Fixpoint find_arm {A} (choices : list (Z * codec A)) (dscm : Z) : option (codec A) :=
  match choices with
  | [] => None
  | (value, proc) :: choices => if value =? dscm then Some proc else find_arm choices dscm
  end.

(** [junk] is the uninitialised [dscm] of a stream that does not encode. *)
Definition xdr_union {A} (junk : Z) (choices : list (Z * codec A)) (defaultarm : option (codec A))
    : codec (Z * A) := fun x '(dscm0, un) =>
  match xdr_int x (if is_op (x_op x) XDR_ENCODE then dscm0 else junk) with
  | None => None
  | Some (false, x, _) => Some (false, x, (dscm0, un))
  | Some (true, x, dscm) =>
      let dscm0 := if is_op (x_op x) XDR_DECODE then dscm else dscm0 in
      match (match find_arm choices dscm with Some proc => Some proc | None => defaultarm end) with
      | None => Some (false, x, (dscm0, un))
      | Some proc =>
          match proc x un with
          | None => None
          | Some (b, x, un) => Some (b, x, (dscm0, un))
          end
      end
  end.

(** [stack] is the temporary buffer's initial content. *)
Definition xdr_sizeof {A} (stack : list Z) (func : codec A) (data : A) : option Z :=
  match func (xdr_init stack 4096 XDR_ENCODE) data with
  | None => None
  | Some (true, x, _) => Some (xdr_getpos x)
  | Some (false, _, _) => Some 0
  end.

Definition xdr_free {A} (stack : list Z) (func : codec A) (objp : A) : option A :=
  match func (xdr_init stack 1 XDR_FREE) objp with
  | None => None
  | Some (_, _, objp) => Some objp
  end.

(** ** The clients' codecs: NFS and MOUNT

    A codec of a structure runs codecs of its fields in sequence and stops at
    the first that fails. *)

Definition on_field {S A} (get : S -> A) (set : A -> S -> S) (c : codec A) : codec S := fun x s =>
  match c x (get s) with
  | None => None
  | Some (b, x, a) => Some (b, x, set a s)
  end.

Definition seqc {S} (c1 c2 : codec S) : codec S := fun x s =>
  match c1 x s with
  | None => None
  | Some (false, x, s) => Some (false, x, s)
  | Some (true, x, s) => c2 x s
  end.
Infix ">>" := seqc (at level 61, left associativity) : auxv6_scope.

(** [if(cond) { ... }  return 1;] *)
Definition whenc {S} (cond : S -> bool) (c : codec S) : codec S := fun x s =>
  if cond s then c x s else Some (true, x, s).

Record fattr3 := mkFattr3 {
  fa_type : Z; fa_mode : Z; fa_nlink : Z; fa_uid : Z; fa_gid : Z; fa_size : Z; fa_used : Z;
  fa_rdev_major : Z; fa_rdev_minor : Z; fa_fsid : Z; fa_fileid : Z;
  fa_atime_sec : Z; fa_atime_nsec : Z; fa_mtime_sec : Z; fa_mtime_nsec : Z;
  fa_ctime_sec : Z; fa_ctime_nsec : Z
}.

(** [&attr->field] as the argument of a routine: reading and writing a field. *)
Definition set_fa_type (v : Z) (a : fattr3) : fattr3 :=
  let 'mkFattr3 _ a2 a3 a4 a5 a6 a7 a8 a9 a10 a11 a12 a13 a14 a15 a16 a17 := a in
  mkFattr3 v a2 a3 a4 a5 a6 a7 a8 a9 a10 a11 a12 a13 a14 a15 a16 a17.
Definition set_fa_mode (v : Z) (a : fattr3) : fattr3 :=
  let 'mkFattr3 a1 _ a3 a4 a5 a6 a7 a8 a9 a10 a11 a12 a13 a14 a15 a16 a17 := a in
  mkFattr3 a1 v a3 a4 a5 a6 a7 a8 a9 a10 a11 a12 a13 a14 a15 a16 a17.
Definition set_fa_nlink (v : Z) (a : fattr3) : fattr3 :=
  let 'mkFattr3 a1 a2 _ a4 a5 a6 a7 a8 a9 a10 a11 a12 a13 a14 a15 a16 a17 := a in
  mkFattr3 a1 a2 v a4 a5 a6 a7 a8 a9 a10 a11 a12 a13 a14 a15 a16 a17.
Definition set_fa_uid (v : Z) (a : fattr3) : fattr3 :=
  let 'mkFattr3 a1 a2 a3 _ a5 a6 a7 a8 a9 a10 a11 a12 a13 a14 a15 a16 a17 := a in
  mkFattr3 a1 a2 a3 v a5 a6 a7 a8 a9 a10 a11 a12 a13 a14 a15 a16 a17.
Definition set_fa_gid (v : Z) (a : fattr3) : fattr3 :=
  let 'mkFattr3 a1 a2 a3 a4 _ a6 a7 a8 a9 a10 a11 a12 a13 a14 a15 a16 a17 := a in
  mkFattr3 a1 a2 a3 a4 v a6 a7 a8 a9 a10 a11 a12 a13 a14 a15 a16 a17.
Definition set_fa_size (v : Z) (a : fattr3) : fattr3 :=
  let 'mkFattr3 a1 a2 a3 a4 a5 _ a7 a8 a9 a10 a11 a12 a13 a14 a15 a16 a17 := a in
  mkFattr3 a1 a2 a3 a4 a5 v a7 a8 a9 a10 a11 a12 a13 a14 a15 a16 a17.
Definition set_fa_used (v : Z) (a : fattr3) : fattr3 :=
  let 'mkFattr3 a1 a2 a3 a4 a5 a6 _ a8 a9 a10 a11 a12 a13 a14 a15 a16 a17 := a in
  mkFattr3 a1 a2 a3 a4 a5 a6 v a8 a9 a10 a11 a12 a13 a14 a15 a16 a17.
Definition set_fa_rdev_major (v : Z) (a : fattr3) : fattr3 :=
  let 'mkFattr3 a1 a2 a3 a4 a5 a6 a7 _ a9 a10 a11 a12 a13 a14 a15 a16 a17 := a in
  mkFattr3 a1 a2 a3 a4 a5 a6 a7 v a9 a10 a11 a12 a13 a14 a15 a16 a17.
Definition set_fa_rdev_minor (v : Z) (a : fattr3) : fattr3 :=
  let 'mkFattr3 a1 a2 a3 a4 a5 a6 a7 a8 _ a10 a11 a12 a13 a14 a15 a16 a17 := a in
  mkFattr3 a1 a2 a3 a4 a5 a6 a7 a8 v a10 a11 a12 a13 a14 a15 a16 a17.
Definition set_fa_fsid (v : Z) (a : fattr3) : fattr3 :=
  let 'mkFattr3 a1 a2 a3 a4 a5 a6 a7 a8 a9 _ a11 a12 a13 a14 a15 a16 a17 := a in
  mkFattr3 a1 a2 a3 a4 a5 a6 a7 a8 a9 v a11 a12 a13 a14 a15 a16 a17.
Definition set_fa_fileid (v : Z) (a : fattr3) : fattr3 :=
  let 'mkFattr3 a1 a2 a3 a4 a5 a6 a7 a8 a9 a10 _ a12 a13 a14 a15 a16 a17 := a in
  mkFattr3 a1 a2 a3 a4 a5 a6 a7 a8 a9 a10 v a12 a13 a14 a15 a16 a17.
Definition set_fa_atime_sec (v : Z) (a : fattr3) : fattr3 :=
  let 'mkFattr3 a1 a2 a3 a4 a5 a6 a7 a8 a9 a10 a11 _ a13 a14 a15 a16 a17 := a in
  mkFattr3 a1 a2 a3 a4 a5 a6 a7 a8 a9 a10 a11 v a13 a14 a15 a16 a17.
Definition set_fa_atime_nsec (v : Z) (a : fattr3) : fattr3 :=
  let 'mkFattr3 a1 a2 a3 a4 a5 a6 a7 a8 a9 a10 a11 a12 _ a14 a15 a16 a17 := a in
  mkFattr3 a1 a2 a3 a4 a5 a6 a7 a8 a9 a10 a11 a12 v a14 a15 a16 a17.
Definition set_fa_mtime_sec (v : Z) (a : fattr3) : fattr3 :=
  let 'mkFattr3 a1 a2 a3 a4 a5 a6 a7 a8 a9 a10 a11 a12 a13 _ a15 a16 a17 := a in
  mkFattr3 a1 a2 a3 a4 a5 a6 a7 a8 a9 a10 a11 a12 a13 v a15 a16 a17.
Definition set_fa_mtime_nsec (v : Z) (a : fattr3) : fattr3 :=
  let 'mkFattr3 a1 a2 a3 a4 a5 a6 a7 a8 a9 a10 a11 a12 a13 a14 _ a16 a17 := a in
  mkFattr3 a1 a2 a3 a4 a5 a6 a7 a8 a9 a10 a11 a12 a13 a14 v a16 a17.
Definition set_fa_ctime_sec (v : Z) (a : fattr3) : fattr3 :=
  let 'mkFattr3 a1 a2 a3 a4 a5 a6 a7 a8 a9 a10 a11 a12 a13 a14 a15 _ a17 := a in
  mkFattr3 a1 a2 a3 a4 a5 a6 a7 a8 a9 a10 a11 a12 a13 a14 a15 v a17.
Definition set_fa_ctime_nsec (v : Z) (a : fattr3) : fattr3 :=
  let 'mkFattr3 a1 a2 a3 a4 a5 a6 a7 a8 a9 a10 a11 a12 a13 a14 a15 a16 _ := a in
  mkFattr3 a1 a2 a3 a4 a5 a6 a7 a8 a9 a10 a11 a12 a13 a14 a15 a16 v.

Definition xdr_fattr3 : codec fattr3 :=
  on_field fa_type set_fa_type xdr_uint >>
  on_field fa_mode set_fa_mode xdr_uint >>
  on_field fa_nlink set_fa_nlink xdr_uint >>
  on_field fa_uid set_fa_uid xdr_uint >>
  on_field fa_gid set_fa_gid xdr_uint >>
  on_field fa_size set_fa_size xdr_ulong >>
  on_field fa_used set_fa_used xdr_ulong >>
  on_field fa_rdev_major set_fa_rdev_major xdr_uint >>
  on_field fa_rdev_minor set_fa_rdev_minor xdr_uint >>
  on_field fa_fsid set_fa_fsid xdr_ulong >>
  on_field fa_fileid set_fa_fileid xdr_ulong >>
  on_field fa_atime_sec set_fa_atime_sec xdr_uint >>
  on_field fa_atime_nsec set_fa_atime_nsec xdr_uint >>
  on_field fa_mtime_sec set_fa_mtime_sec xdr_uint >>
  on_field fa_mtime_nsec set_fa_mtime_nsec xdr_uint >>
  on_field fa_ctime_sec set_fa_ctime_sec xdr_uint >>
  on_field fa_ctime_nsec set_fa_ctime_nsec xdr_uint.

Record post_op_attr := mkPoa { attributes_follow : Z; poa_attr : fattr3 }.

Definition xdr_post_op_attr : codec post_op_attr :=
  on_field attributes_follow (fun v p => mkPoa v (poa_attr p)) xdr_bool >>
  whenc (fun p => negb (attributes_follow p =? 0))
    (on_field poa_attr (fun a p => mkPoa (attributes_follow p) a) xdr_fattr3).

Definition FHSIZE3 : Z := 64.
Definition NFS3_OK : Z := 0.

(** A file handle is its [FHSIZE3] bytes. *)
Definition xdr_fhandle3 : codec (list Z) := xdr_opaque FHSIZE3.

Definition xdr_getattr3args : codec (list Z) := xdr_fhandle3.

Record getattr3res := mkGetattr3res { ga_status : Z; obj_attributes : fattr3 }.

Definition xdr_getattr3res : codec getattr3res :=
  on_field ga_status (fun v r => mkGetattr3res v (obj_attributes r)) xdr_uint >>
  whenc (fun r => ga_status r =? NFS3_OK)
    (on_field obj_attributes (fun v r => mkGetattr3res (ga_status r) v) xdr_fattr3).

Record lookup3res := mkLookup3res {
  lk_status : Z; lk_object : list Z; lk_obj_attributes : post_op_attr; lk_dir_attributes : post_op_attr
}.

Definition xdr_lookup3res : codec lookup3res :=
  on_field lk_status
    (fun v r => mkLookup3res v (lk_object r) (lk_obj_attributes r) (lk_dir_attributes r)) xdr_uint >>
  whenc (fun r => lk_status r =? NFS3_OK)
    (on_field lk_object
       (fun v r => mkLookup3res (lk_status r) v (lk_obj_attributes r) (lk_dir_attributes r))
       xdr_fhandle3) >>
  on_field lk_obj_attributes
    (fun v r => mkLookup3res (lk_status r) (lk_object r) v (lk_dir_attributes r)) xdr_post_op_attr >>
  on_field lk_dir_attributes
    (fun v r => mkLookup3res (lk_status r) (lk_object r) (lk_obj_attributes r) v) xdr_post_op_attr.

Record read3args := mkRead3args { ra_file : list Z; ra_offset : Z; ra_count : Z }.

Definition xdr_read3args : codec read3args :=
  on_field ra_file (fun v r => mkRead3args v (ra_offset r) (ra_count r)) xdr_fhandle3 >>
  on_field ra_offset (fun v r => mkRead3args (ra_file r) v (ra_count r)) xdr_ulong >>
  on_field ra_count (fun v r => mkRead3args (ra_file r) (ra_offset r) v) xdr_uint.

Record read3res := mkRead3res {
  rr_status : Z; rr_file_attributes : post_op_attr; rr_count : Z; rr_eof : Z;
  rr_data : cptr; rr_data_len : Z
}.

Definition xdr_read3res : codec read3res :=
  on_field rr_status (fun v r => mkRead3res v (rr_file_attributes r) (rr_count r) (rr_eof r)
    (rr_data r) (rr_data_len r)) xdr_uint >>
  on_field rr_file_attributes (fun v r => mkRead3res (rr_status r) v (rr_count r) (rr_eof r)
    (rr_data r) (rr_data_len r)) xdr_post_op_attr >>
  whenc (fun r => rr_status r =? NFS3_OK)
    (on_field rr_count (fun v r => mkRead3res (rr_status r) (rr_file_attributes r) v (rr_eof r)
       (rr_data r) (rr_data_len r)) xdr_uint >>
     on_field rr_eof (fun v r => mkRead3res (rr_status r) (rr_file_attributes r) (rr_count r) v
       (rr_data r) (rr_data_len r)) xdr_bool >>
     on_field (fun r => (rr_data r, rr_data_len r))
       (fun '(d, n) r => mkRead3res (rr_status r) (rr_file_attributes r) (rr_count r) (rr_eof r) d n)
       (xdr_bytes 65536)).

Record readdir3args := mkReaddir3args {
  rd_dir : list Z; rd_cookie : Z; rd_cookieverf : list Z; rd_count : Z
}.

Definition xdr_readdir3args : codec readdir3args :=
  on_field rd_dir
    (fun v r => mkReaddir3args v (rd_cookie r) (rd_cookieverf r) (rd_count r)) xdr_fhandle3 >>
  on_field rd_cookie
    (fun v r => mkReaddir3args (rd_dir r) v (rd_cookieverf r) (rd_count r)) xdr_ulong >>
  on_field rd_cookieverf
    (fun v r => mkReaddir3args (rd_dir r) (rd_cookie r) v (rd_count r)) (xdr_opaque 8) >>
  on_field rd_count
    (fun v r => mkReaddir3args (rd_dir r) (rd_cookie r) (rd_cookieverf r) v) xdr_uint.

(** The entry list is not decoded by the code; [entries_count] is reset. *)
Record readdir3res := mkReaddir3res {
  rs_status : Z; rs_dir_attributes : post_op_attr; rs_cookieverf : list Z; rs_entries_count : Z
}.

Definition xdr_readdir3res : codec readdir3res :=
  on_field rs_status (fun v r => mkReaddir3res v (rs_dir_attributes r) (rs_cookieverf r)
    (rs_entries_count r)) xdr_uint >>
  on_field rs_dir_attributes (fun v r => mkReaddir3res (rs_status r) v (rs_cookieverf r)
    (rs_entries_count r)) xdr_post_op_attr >>
  whenc (fun r => rs_status r =? NFS3_OK)
    (on_field rs_cookieverf (fun v r => mkReaddir3res (rs_status r) (rs_dir_attributes r) v
       (rs_entries_count r)) (xdr_opaque 8) >>
     fun x r => Some (true, x, mkReaddir3res (rs_status r) (rs_dir_attributes r) (rs_cookieverf r) 0)).

Definition MNT_OK : Z := 0.

Record mount_res := mkMountRes {
  mr_status : Z; mr_fhandle : list Z; auth_flavors_len : Z; auth_flavors : list Z
}.

(** The clamp of the count to the array and the loop over the flavors. *)
Definition xdr_mount_flavors : codec mount_res := fun x r =>
  let r := if auth_flavors_len r >? 10
           then mkMountRes (mr_status r) (mr_fhandle r) 10 (auth_flavors r) else r in
  on_field auth_flavors
    (fun v r => mkMountRes (mr_status r) (mr_fhandle r) (auth_flavors_len r) v)
    (elems_loop xdr_uint (Z.to_nat (auth_flavors_len r))) x r.

Definition xdr_mount_res : codec mount_res :=
  on_field mr_status (fun v r => mkMountRes v (mr_fhandle r) (auth_flavors_len r) (auth_flavors r))
    xdr_uint >>
  whenc (fun r => mr_status r =? MNT_OK)
    (on_field mr_fhandle
       (fun v r => mkMountRes (mr_status r) v (auth_flavors_len r) (auth_flavors r)) xdr_fhandle3 >>
     on_field auth_flavors_len
       (fun v r => mkMountRes (mr_status r) (mr_fhandle r) v (auth_flavors r)) xdr_uint >>
     xdr_mount_flavors).

Record pmap_call := mkPmap { pm_prog : Z; pm_vers : Z; pm_prot : Z; pm_port : Z }.

Definition xdr_pmap_call_rpc : codec pmap_call :=
  on_field pm_prog (fun v p => mkPmap v (pm_vers p) (pm_prot p) (pm_port p)) xdr_uint >>
  on_field pm_vers (fun v p => mkPmap (pm_prog p) v (pm_prot p) (pm_port p)) xdr_uint >>
  on_field pm_prot (fun v p => mkPmap (pm_prog p) (pm_vers p) v (pm_port p)) xdr_uint >>
  on_field pm_port (fun v p => mkPmap (pm_prog p) (pm_vers p) (pm_prot p) v) xdr_uint.

(** ** The interface *)

Record wf (x : XDR) : Prop := {
  wf_buf : x_buf x = x_pos x;
  wf_pos : 0 <= x_pos x <= x_buflen x;
  wf_mem : x_buflen x <= len (x_mem x);
  wf_len : x_buflen x <= 2147483648
}.

(** The stream after [bs] was written at its position, and after [n] bytes
    were passed over. *)
Definition push (x : XDR) (bs : list Z) : XDR :=
  mkXDR (take (Z.to_nat (x_pos x)) (x_mem x) ++ bs ++ drop (Z.to_nat (x_pos x + len bs)) (x_mem x))
        (x_pos x + len bs) (x_buflen x) (x_pos x + len bs) (x_op x).
Definition skip (x : XDR) (n : Z) : XDR :=
  mkXDR (x_mem x) (x_pos x + n) (x_buflen x) (x_pos x + n) (x_op x).

(** [bs] fits, and is what the stream holds at its position. *)
Definition fits (x : XDR) (bs : list Z) : Prop := x_pos x + len bs <= x_buflen x.
Definition at_pos (x : XDR) (bs : list Z) : Prop :=
  fits x bs /\ take (length bs) (drop (Z.to_nat (x_pos x)) (x_mem x)) = bs.

(** What a codec puts on the wire, for which values, what it makes of the
    caller's variable [a0] when it reads the encoding of [a], and what [a0]
    has to satisfy for that. *)
Record spec (A : Type) := mkSpec {
  wire : A -> list Z;
  ok : A -> Prop;
  pre : A -> A -> Prop;
  upd : A -> A -> A
}.
Arguments mkSpec {A}. Arguments wire {A}. Arguments ok {A}. Arguments pre {A}. Arguments upd {A}.

Class Lawful {A} (c : codec A) (s : spec A) : Prop := {
  law_enc x a : wf x -> x_op x = XDR_ENCODE -> ok s a -> fits x (wire s a) ->
    c x a = Some (true, push x (wire s a), a);
  law_full x a : wf x -> x_op x = XDR_ENCODE -> ok s a -> ~ fits x (wire s a) ->
    exists x', c x a = Some (false, x', a);
  law_dec x a a0 : wf x -> x_op x = XDR_DECODE -> ok s a -> pre s a a0 -> at_pos x (wire s a) ->
    c x a0 = Some (true, skip x (len (wire s a)), upd s a a0)
}.

(** The stream after any operation on [x]. *)
Record after (x x' : XDR) : Prop := {
  af_wf : wf x';
  af_buflen : x_buflen x' = x_buflen x;
  af_op : x_op x' = x_op x;
  af_pos : x_pos x <= x_pos x';
  af_len : len (x_mem x') = len (x_mem x);
  af_mem : x_op x <> XDR_ENCODE -> x_mem x' = x_mem x
}.

(** Whatever bytes arrive, decoding them stays within the buffers. *)
Class Safe {A} (c : codec A) (shape : A -> Prop) : Prop :=
  safe x a : wf x -> x_op x = XDR_DECODE -> shape a ->
    exists b x' a', c x a = Some (b, x', a') /\ after x x' /\ shape a'.

(** ** Streams *)

Lemma after_refl x : wf x -> after x x.
Proof. intros. split; auto; lia. Qed.
Lemma after_trans x y z : after x y -> after y z -> after x z.
Proof.
  intros [] []. split; [done|congruence|congruence|lia|congruence|].
  intros Hop. rewrite af_mem1 by congruence. auto.
Qed.

Lemma wf_skip x n : wf x -> 0 <= n -> x_pos x + n <= x_buflen x -> wf (skip x n).
Proof. intros [] ? ?. split; cbn; lia. Qed.
Lemma after_skip x n : wf x -> 0 <= n -> x_pos x + n <= x_buflen x -> after x (skip x n).
Proof. intros. split; cbn; auto using wf_skip; lia. Qed.

Lemma push_len x bs : wf x -> fits x bs -> len (x_mem (push x bs)) = len (x_mem x).
Proof.
  intros [] Hf. unfold fits in Hf. cbn. rewrite !len_app. pose proof (len_nonneg bs).
  unfold len in *. rewrite length_take, length_drop. lia.
Qed.
Lemma wf_push x bs : wf x -> fits x bs -> wf (push x bs).
Proof.
  intros Hw Hf. pose proof (push_len x bs Hw Hf) as Hl. destruct Hw. pose proof (len_nonneg bs).
  unfold fits in Hf. split; try (cbn; lia). rewrite Hl. cbn. lia.
Qed.
Lemma after_push x bs : wf x -> x_op x = XDR_ENCODE -> fits x bs -> after x (push x bs).
Proof.
  intros Hw Ho Hf. split; cbn; auto using wf_push.
  - pose proof (len_nonneg bs). lia.
  - by apply (push_len x bs).
  - congruence.
Qed.

Lemma push_app x a b : wf x -> fits x (a ++ b) -> push (push x a) b = push x (a ++ b).
Proof.
  intros Hw Hf. destruct Hw. unfold fits in Hf. rewrite len_app in Hf. unfold push at 1. cbn [x_pos x_mem x_buflen x_op push].
  unfold push. rewrite len_app, Z.add_assoc. f_equal. unfold len in *.
  rewrite take_app_ge by (rewrite length_take; lia). rewrite length_take.
  rewrite take_app_le by lia. rewrite (take_ge a) by lia.
  rewrite drop_app_ge by (rewrite length_take; lia). rewrite length_take.
  rewrite drop_app_ge by lia. rewrite drop_drop, <- !app_assoc. do 4 f_equal. lia.
Qed.
Lemma skip_skip x a b : skip (skip x a) b = skip x (a + b).
Proof. unfold skip; cbn. by rewrite Z.add_assoc. Qed.
Lemma fits_app_l x a b : fits x (a ++ b) -> fits x a.
Proof. unfold fits. rewrite len_app. pose proof (len_nonneg b). lia. Qed.

Lemma at_app x a b : wf x -> at_pos x (a ++ b) -> at_pos x a /\ at_pos (skip x (len a)) b.
Proof.
  intros [] [Hf Hm]. unfold at_pos. pose proof (len_nonneg a). unfold fits in *. rewrite len_app in Hf.
  pose proof (len_nonneg b). rewrite length_app, <- take_take_drop in Hm.
  assert (Hla : length (take (length a) (drop (Z.to_nat (x_pos x)) (x_mem x))) = length a).
  { rewrite length_take, length_drop. unfold len in *. lia. }
  apply app_inj_1 in Hm as [Ha Hb]; [|done]. cbn. split_and!; [lia|done|lia|].
  rewrite drop_drop in Hb. rewrite <- Hb at 2. do 2 f_equal. unfold len. lia.
Qed.

Lemma at_push x bs op : wf x -> fits x bs ->
  at_pos (mkXDR (x_mem (push x bs)) (x_pos x) (x_buflen x) (x_pos x) op) bs.
Proof.
  intros [] Hf. split; [done|]. cbn. unfold fits, len in *.
  rewrite drop_app_ge by (rewrite length_take; lia). rewrite length_take.
  replace (Z.to_nat (x_pos x) - Z.to_nat (x_pos x) `min` length (x_mem x))%nat with 0%nat by lia.
  rewrite drop_0. by rewrite take_app_length.
Qed.

(** ** The primitive steps *)

Lemma check_spec x n : wf x -> 0 <= n <= 2147483647 ->
  xdr_check_bytes x n = (x_pos x + n <=? x_buflen x).
Proof.
  intros [] Hn. unfold xdr_check_bytes. rewrite u32_small by (unfold is_u32; lia).
  destruct (Z.gtb_spec (x_pos x + n) (x_buflen x)), (Z.leb_spec (x_pos x + n) (x_buflen x)); lia || done.
Qed.

Lemma advance_spec x n : wf x -> 0 <= n -> x_pos x + n <= x_buflen x ->
  xdr_advance x n = (x_pos x, skip x n).
Proof.
  intros [] ? ?. unfold xdr_advance, skip. rewrite u32_small by (unfold is_u32; lia).
  by rewrite wf_buf0.
Qed.

Lemma wr_spec x bs : wf x -> fits x bs -> wr (x_mem x) (x_pos x) bs = Some (x_mem (push x bs)).
Proof.
  intros [] Hf. unfold fits in Hf. unfold wr.
  destruct (Z.leb_spec 0 (x_pos x)), (Z.leb_spec (x_pos x + len bs) (len (x_mem x))); try lia. done.
Qed.

Lemma rd_spec x bs : wf x -> at_pos x bs -> rd (x_mem x) (x_pos x) (len bs) = Some bs.
Proof.
  intros [] [Hf Hm]. unfold fits in Hf. unfold rd. pose proof (len_nonneg bs).
  destruct (Z.leb_spec 0 (x_pos x)), (Z.leb_spec 0 (len bs)),
    (Z.leb_spec (x_pos x + len bs) (len (x_mem x))); try lia. cbn [andb].
  unfold len at 1. by rewrite Nat2Z.id, Hm.
Qed.

Lemma rd_total mem off n : 0 <= off -> 0 <= n -> off + n <= len mem ->
  exists bs, rd mem off n = Some bs /\ len bs = n.
Proof.
  intros. unfold rd.
  destruct (Z.leb_spec 0 off), (Z.leb_spec 0 n), (Z.leb_spec (off + n) (len mem)); try lia.
  eexists. split; [reflexivity|]. unfold len in *. rewrite length_take, length_drop. lia.
Qed.

Lemma wr_total mem off bs : 0 <= off -> off + len bs <= len mem ->
  exists m, wr mem off bs = Some m /\ len m = len mem.
Proof.
  intros. unfold wr.
  destruct (Z.leb_spec 0 off), (Z.leb_spec (off + len bs) (len mem)); try lia.
  eexists. split; [reflexivity|]. rewrite !len_app. pose proof (len_nonneg bs).
  unfold len in *. rewrite length_take, length_drop. lia.
Qed.

Lemma wr_whole (l bs : list Z) : len l = len bs -> wr l 0 bs = Some bs.
Proof.
  intros Hl. unfold wr. rewrite Z.add_0_l, Hl, !Z.leb_refl. cbn [andb]. rewrite drop_ge by (unfold len in *; lia).
  change (Z.to_nat 0) with 0%nat. by rewrite take_0, app_nil_r.
Qed.

Lemma set_mem_push x bs : set_mem (skip x (len bs)) (x_mem (push x bs)) = push x bs.
Proof. done. Qed.

(** ** 32-bit words *)

Definition spec_word : spec Z := mkSpec be32 is_u32 (fun _ _ => True) (fun a _ => a).

#[global] Instance int_internal_lawful : Lawful xdr_int_internal spec_word.
Proof.
  split; cbn; intros x a; intros.
  - unfold xdr_int_internal. unfold fits in *. change (len (be32 a)) with 4 in *.
    rewrite check_spec, (proj2 (Z.leb_le _ _)), advance_spec by (done || lia). cbn [negb].
    cbn [x_op skip]. rewrite H0, le32_htonl. cbn [x_mem skip].
    rewrite wr_spec by done. done.
  - unfold xdr_int_internal. unfold fits in *. change (len (be32 a)) with 4 in *.
    rewrite check_spec, (proj2 (Z.leb_gt _ _)) by (done || lia). eauto.
  - pose proof (rd_spec x _ H H3) as Hrd. destruct H3 as [Hf _]. unfold fits in *.
    change (len (be32 a)) with 4 in *. unfold xdr_int_internal.
    rewrite check_spec, (proj2 (Z.leb_le _ _)), advance_spec by (done || lia). cbn [negb].
    cbn [x_op skip]. rewrite H0. cbn [x_mem skip]. rewrite Hrd. by rewrite ntohl_rd32_be32.
Qed.

(** The result is whatever the stream held; encoding leaves the value alone. *)
Lemma int_internal_total x v : wf x ->
  exists b x' v', xdr_int_internal x v = Some (b, x', v') /\ after x x' /\
    (x_op x <> XDR_DECODE -> v' = v) /\ (is_u32 v -> is_u32 v').
Proof.
  intros Hw. unfold xdr_int_internal. rewrite check_spec by (done || lia).
  destruct (Z.leb_spec (x_pos x + 4) (x_buflen x)); cbn [negb];
    [|eexists _, _, _; split_and!; [done|by apply after_refl|done|done]].
  rewrite advance_spec by (done || lia). cbn [x_op skip x_mem].
  destruct (x_op x) eqn:Ho.
  - rewrite wr_spec by (done || (unfold fits; change (len (le32 _)) with 4; lia)).
    eexists _, _, _. split_and!; [done| |done|done].
    apply (after_push x (le32 (net_htonl v))); [done..|].
    unfold fits; change (len (le32 _)) with 4; lia.
  - destruct Hw. destruct (rd_total (x_mem x) (x_pos x) 4) as (bs & -> & _); [lia..|].
    eexists _, _, _. split_and!; [done| |done|intros; apply htonl_range].
    apply after_skip; [by split|lia..].
  - eexists _, _, _. split_and!; [done| |done|done]. apply after_skip; done || lia.
Qed.

#[global] Instance int_internal_safe : Safe xdr_int_internal (fun _ => True).
Proof. intros x v Hw _ _. destruct (int_internal_total x v Hw) as (b & x' & v' & ? & ? & _). eauto 7. Qed.

#[global] Instance uint_lawful : Lawful xdr_uint spec_word := int_internal_lawful.
#[global] Instance ulong_lawful : Lawful xdr_ulong spec_word := int_internal_lawful.
#[global] Instance uint_safe : Safe xdr_uint (fun _ => True) := int_internal_safe.
#[global] Instance ulong_safe : Safe xdr_ulong (fun _ => True) := int_internal_safe.

Definition spec_int : spec Z :=
  mkSpec (fun v => be32 (u32 v)) (fun v => -2147483648 <= v < 2147483648)
         (fun _ _ => True) (fun a _ => a).

Lemma s32_u32 v : -2147483648 <= v < 2147483648 -> s32 (u32 v) = v.
Proof. unfold s32, u32. intros. mlia. Qed.

#[global] Instance int_lawful : Lawful xdr_int spec_int.
Proof.
  split; cbn; intros x a; intros; unfold xdr_int.
  - rewrite (law_enc (c := xdr_int_internal) (s := spec_word)) by (done || apply u32_range).
    by rewrite s32_u32.
  - edestruct (law_full (c := xdr_int_internal) (s := spec_word) x (u32 a)) as [x' ->];
      [done..|apply u32_range|done|]. rewrite s32_u32 by done. eauto.
  - rewrite (law_dec (c := xdr_int_internal) (s := spec_word) x (u32 a)) by (done || apply u32_range).
    cbn [upd spec_word]. by rewrite s32_u32.
Qed.

Definition spec_bool : spec Z :=
  mkSpec be32 (fun v => v = 0 \/ v = 1) (fun _ _ => True) (fun a _ => a).

#[global] Instance bool_lawful : Lawful xdr_bool spec_bool.
Proof.
  split; cbn; intros x a; intros; unfold xdr_bool.
  - rewrite H0. replace (if a =? 0 then 0 else 1) with a by (destruct H1; subst; done).
    rewrite (law_enc (c := xdr_int_internal) (s := spec_word)); [done..| |done].
    cbn; unfold is_u32; lia.
  - rewrite H0. replace (if a =? 0 then 0 else 1) with a by (destruct H1; subst; done).
    edestruct (law_full (c := xdr_int_internal) (s := spec_word) x a) as [x' ->];
      [done..|cbn; unfold is_u32; lia|done|]. eauto.
  - rewrite H0. rewrite (law_dec (c := xdr_int_internal) (s := spec_word) x a);
      [|done..|cbn; unfold is_u32; lia|done|done].
    cbn [upd spec_word]. destruct H1; subst; done.
Qed.

#[global] Instance bool_safe : Safe xdr_bool (fun _ => True).
Proof.
  intros x v Hw Hop _. unfold xdr_bool. rewrite Hop.
  destruct (int_internal_total x 0 Hw) as (b2 & x2 & v2 & -> & ? & _). destruct b2; eauto 7.
Qed.

(** ** Padded bytes *)

Lemma land_fffc x : is_u32 x -> Z.land x 4294967292 = 4 * (x / 4).
Proof.
  unfold is_u32. intros Hx. rewrite Z.mul_comm. change 4 with (2 ^ 2).
  rewrite <- Z.shiftr_div_pow2, <- Z.shiftl_mul_pow2 by lia.
  change 4294967292 with (Z.shiftl (Z.ones 30) 2). apply Z.bits_inj'. intros n Hn.
  rewrite Z.land_spec, !Z.shiftl_spec by lia.
  destruct (Z.lt_ge_cases n 2).
  { rewrite !(Z.testbit_neg_r _ (n - 2)) by lia. apply andb_false_r. }
  rewrite Z.shiftr_spec by lia. replace (n - 2 + 2) with n by lia.
  destruct (Z.lt_ge_cases n 32).
  { rewrite Z.ones_spec_low by lia. apply andb_true_r. }
  rewrite Z.ones_spec_high by lia. rewrite andb_false_r.
  symmetry. rewrite <- (Z.mod_small x (2 ^ 32)) by lia. apply Z.mod_pow2_bits_high. lia.
Qed.

Lemma rndup_spec n : 0 <= n <= 2147483644 -> rndup n = 4 * ((n + 3) / 4).
Proof.
  intros. unfold rndup. rewrite u32_small by (unfold is_u32; lia). apply land_fffc. unfold is_u32; lia.
Qed.
Lemma rndup_bounds n : 0 <= n <= 2147483644 -> n <= rndup n <= n + 3 /\ rndup n <= 2147483647.
Proof. intros. rewrite rndup_spec by lia. mlia. Qed.

(** Bytes with their padding to a multiple of four. *)
Definition padded (bs : list Z) : list Z := bs ++ replicate (Z.to_nat (rndup (len bs) - len bs)) 0.

Lemma len_padded bs : len bs <= 2147483644 -> len (padded bs) = rndup (len bs).
Proof.
  intros. pose proof (rndup_bounds (len bs)). pose proof (len_nonneg bs). unfold padded. rewrite len_app.
  unfold len at 2. rewrite length_replicate. lia.
Qed.

Lemma put_padded_spec x bs : wf x -> fits x (padded bs) ->
  put_padded (x_mem x) (x_pos x) bs (rndup (len bs)) = Some (x_mem (push x (padded bs))).
Proof.
  intros Hw Hf. pose proof (fits_app_l _ _ _ Hf). unfold put_padded. rewrite wr_spec by done.
  change (x_pos x + len bs) with (x_pos (push x bs)).
  rewrite wr_spec; [|by apply wf_push|].
  - by rewrite push_app.
  - unfold fits, padded in *. rewrite len_app in Hf. cbn [push x_pos x_buflen]. lia.
Qed.

Definition spec_opaque (cnt : Z) : spec (list Z) :=
  mkSpec padded (fun a => len a = cnt) (fun _ a0 => len a0 = cnt) (fun a _ => a).

Class SmallCount (cnt : Z) : Prop := small_count : 0 <= cnt <= 2147483644.

Lemma rd_all (l : list Z) : rd l 0 (len l) = Some l.
Proof.
  unfold rd. rewrite Z.add_0_l, !Z.leb_refl, (proj2 (Z.leb_le _ _) (len_nonneg l)). cbn [andb].
  change (Z.to_nat 0) with 0%nat. unfold len. rewrite Nat2Z.id, drop_0, take_ge by lia. done.
Qed.

#[global] Instance opaque_lawful cnt : SmallCount cnt -> Lawful (xdr_opaque cnt) (spec_opaque cnt).
Proof.
  unfold SmallCount. intros Hc. split; cbn; intros x a; intros; subst cnt; unfold xdr_opaque;
    pose proof (rndup_bounds (len a) Hc).
  - pose proof H2 as Hf. unfold fits in Hf. rewrite len_padded in Hf by lia.
    rewrite check_spec, (proj2 (Z.leb_le _ _)), advance_spec by (done || lia). cbn [negb].
    cbn [x_op skip]. rewrite H0, rd_all. cbn [x_mem skip].
    rewrite put_padded_spec by done. rewrite <- len_padded at 1 by lia. done.
  - unfold fits in *. rewrite len_padded in * by lia.
    rewrite check_spec, (proj2 (Z.leb_gt _ _)) by (done || lia). eauto.
  - pose proof (at_app _ _ _ H H3) as [Ha _]. pose proof (rd_spec x _ H Ha) as Hrd.
    destruct H3 as [Hf _]. unfold fits in Hf. rewrite len_padded in * by lia.
    rewrite check_spec, (proj2 (Z.leb_le _ _)), advance_spec by (done || lia). cbn [negb].
    cbn [x_op skip]. rewrite H0. cbn [x_mem skip]. rewrite Hrd, wr_whole by done. done.
Qed.

#[global] Instance opaque_safe cnt : SmallCount cnt -> Safe (xdr_opaque cnt) (fun a => len a = cnt).
Proof.
  unfold SmallCount. intros Hc x a Hw Ho Ha. unfold xdr_opaque.
  pose proof (rndup_bounds cnt Hc). rewrite check_spec by (done || lia).
  destruct (Z.leb_spec (x_pos x + rndup cnt) (x_buflen x)); cbn [negb];
    [|eexists _, _, _; split_and!; [done|by apply after_refl|done]].
  rewrite advance_spec by (done || lia). cbn [x_op skip x_mem]. rewrite Ho.
  pose proof Hw as []. destruct (rd_total (x_mem x) (x_pos x) cnt) as (bs & -> & Hb); [lia..|].
  rewrite wr_whole by lia. eexists _, _, _. split_and!; [done| |done].
  apply after_skip; done || lia.
Qed.

#[global] Instance fhsize_small : SmallCount FHSIZE3.
Proof. unfold SmallCount, FHSIZE3. lia. Qed.
#[global] Instance eight_small : SmallCount 8.
Proof. unfold SmallCount. lia. Qed.

(** ** Combinators *)

Section Combinators.
Context {S A : Type}.

Definition spec_field (get : S -> A) (set : A -> S -> S) (s : spec A) : spec S :=
  mkSpec (fun v => wire s (get v)) (fun v => ok s (get v)) (fun v v0 => pre s (get v) (get v0))
         (fun v v0 => set (upd s (get v) (get v0)) v0).

Definition spec_seq (s1 s2 : spec S) : spec S :=
  mkSpec (fun v => wire s1 v ++ wire s2 v) (fun v => ok s1 v /\ ok s2 v)
         (fun v v0 => pre s1 v v0 /\ pre s2 v (upd s1 v v0))
         (fun v v0 => upd s2 v (upd s1 v v0)).

Definition spec_when (cond : S -> bool) (s : spec S) : spec S :=
  mkSpec (fun v => if cond v then wire s v else []) (fun v => cond v = true -> ok s v)
         (fun v v0 => cond v0 = cond v /\ (cond v = true -> pre s v v0))
         (fun v v0 => if cond v then upd s v v0 else v0).

(** Writing back a field that was read leaves the structure as it is. *)
Class SetGet (get : S -> A) (set : A -> S -> S) : Prop := set_get s : set (get s) s = s.

#[global] Instance field_lawful get set (c : codec A) s :
  SetGet get set -> Lawful c s -> Lawful (on_field get set c) (spec_field get set s).
Proof.
  intros Hsg Hc. split; cbn; intros x v; intros; unfold on_field.
  - rewrite law_enc by done. by rewrite set_get.
  - edestruct (law_full (c := c)) as [x' ->]; [done..|]. rewrite set_get. eauto.
  - by erewrite law_dec by done.
Qed.

#[global] Instance seq_lawful (c1 c2 : codec S) s1 s2 :
  Lawful c1 s1 -> Lawful c2 s2 -> Lawful (c1 >> c2) (spec_seq s1 s2).
Proof.
  intros H1 H2. split; cbn; intros x v; unfold seqc.
  - intros Hw Hop Hok Hf. destruct Hok as [Hok1 Hok2]. pose proof (fits_app_l _ _ _ Hf).
    rewrite law_enc by done. rewrite law_enc; [by rewrite push_app|by apply wf_push|done|done|].
    unfold fits in *. rewrite len_app in *. cbn [push x_pos x_buflen]. lia.
  - intros Hw Hop Hok Hf. destruct Hok as [Hok1 Hok2].
    destruct (decide (x_pos x + len (wire s1 v) <= x_buflen x)) as [Hf1|Hf1].
    + rewrite law_enc by done.
      edestruct (law_full (c := c2) (push x (wire s1 v)) v) as [x' ->];
        [by apply wf_push|done|done| |eauto].
      unfold fits in *. rewrite len_app in *. cbn [push x_pos x_buflen]. lia.
    + edestruct (law_full (c := c1) x v) as [x' ->]; [done..|eauto].
  - intros v0 Hw Hop Hok Hpre Hat. destruct Hok as [Hok1 Hok2], Hpre as [Hp1 Hp2].
    pose proof (at_app _ _ _ Hw Hat) as [Ha1 Ha2]. pose proof (proj1 Ha1) as Hf1.
    erewrite law_dec by done. pose proof (len_nonneg (wire s1 v)).
    erewrite law_dec; [|by apply wf_skip|done|done|done|done]. by rewrite skip_skip, len_app.
Qed.

#[global] Instance when_lawful cond (c : codec S) s :
  Lawful c s -> Lawful (whenc cond c) (spec_when cond s).
Proof.
  intros Hc. split; cbn; intros x v; unfold whenc; destruct (cond v) eqn:Ec; intros.
  - rewrite law_enc by auto. done.
  - unfold push. change (len (@nil Z)) with 0. rewrite Z.add_0_r. cbn [app]. rewrite take_drop.
    pose proof (wf_buf x H). destruct x; cbn in *.
    by subst.
  - apply law_full; auto.
  - exfalso. apply H2. unfold fits. pose proof (wf_pos x H). change (len (@nil Z)) with 0. lia.
  - destruct H2 as [-> Hp]. apply law_dec; auto.
  - destruct H2 as [-> Hp]. unfold skip. change (len (@nil Z)) with 0. rewrite Z.add_0_r. pose proof (wf_buf x H).
    destruct x; cbn in *. by subst.
Qed.

#[global] Instance field_safe get set (c : codec A) (shape : A -> Prop) (shapeS : S -> Prop) :
  Safe c shape -> (forall s, shapeS s -> shape (get s)) ->
  (forall s a, shapeS s -> shape a -> shapeS (set a s)) -> Safe (on_field get set c) shapeS.
Proof.
  intros Hc Hg Hset x s Hw Hop Hs. unfold on_field.
  destruct (safe x (get s) Hw Hop (Hg s Hs)) as (b & x' & a' & -> & ? & ?). eauto 8.
Qed.

#[global] Instance seq_safe (c1 c2 : codec S) shape :
  Safe c1 shape -> Safe c2 shape -> Safe (c1 >> c2) shape.
Proof.
  intros H1 H2 x s Hw Hop Hs. unfold seqc. destruct (H1 x s Hw Hop Hs) as (b & x' & s' & -> & Ha & Hs').
  destruct b; [|eauto 8].
  destruct (H2 x' s' (af_wf _ _ Ha) ltac:(by rewrite (af_op _ _ Ha)) Hs') as (b & x'' & s'' & -> & Ha' & ?).
  eexists _, _, _. split_and!; [done|by eapply after_trans|done].
Qed.

#[global] Instance when_safe cond (c : codec S) shape : Safe c shape -> Safe (whenc cond c) shape.
Proof.
  intros Hc x s Hw Hop Hs. unfold whenc. destruct (cond s); [by apply Hc|].
  eexists _, _, _. split_and!; [done|by apply after_refl|done].
Qed.
End Combinators.

(** ** Vectors and arrays *)

Section Vectors.
Context {A : Type} (elproc : codec A) (s : spec A) `{!Lawful elproc s}.

(** The update of a vector, element by element. *)
Fixpoint upd_elems (l l0 : list A) : list A :=
  match l, l0 with
  | a :: l, a0 :: l0 => upd s a a0 :: upd_elems l l0
  | _, _ => l0
  end.

Definition wire_elems (l : list A) : list Z := concat (wire s <$> l).

Lemma elems_enc x l n rest :
  wf x -> x_op x = XDR_ENCODE -> Forall (ok s) l -> length l = n -> fits x (wire_elems l) ->
  elems_loop elproc n x (l ++ rest) = Some (true, push x (wire_elems l), l ++ rest).
Proof.
  intros Hw Hop Hok. revert x n Hw Hop. induction Hok as [|a l Ha Hok IH]; intros x n Hw Hop <- Hf; cbn.
  - unfold push. change (len (wire_elems [])) with 0. rewrite Z.add_0_r.
    change (wire_elems []) with (@nil Z). cbn [app]. rewrite take_drop.
    pose proof (wf_buf x Hw). destruct x; cbn in *. by subst.
  - change (wire_elems (a :: l)) with (wire s a ++ wire_elems l) in *.
    pose proof (fits_app_l _ _ _ Hf). rewrite law_enc by done.
    rewrite IH; [by rewrite push_app|by apply wf_push|done|done|].
    unfold fits in *. rewrite len_app in *. cbn [push x_pos x_buflen]. lia.
Qed.

Lemma elems_full x l n rest :
  wf x -> x_op x = XDR_ENCODE -> Forall (ok s) l -> length l = n -> ~ fits x (wire_elems l) ->
  exists x', elems_loop elproc n x (l ++ rest) = Some (false, x', l ++ rest).
Proof.
  intros Hw Hop Hok. revert x n Hw Hop. induction Hok as [|a l Ha Hok IH]; intros x n Hw Hop <- Hf; cbn.
  - exfalso. apply Hf. unfold fits. pose proof (wf_pos x Hw). change (len (wire_elems [])) with 0. lia.
  - change (wire_elems (a :: l)) with (wire s a ++ wire_elems l) in *.
    destruct (decide (x_pos x + len (wire s a) <= x_buflen x)) as [Hf1|Hf1].
    + rewrite law_enc by done.
      destruct (IH (push x (wire s a)) (length l)) as [x' ->]; [by apply wf_push|done|done| |eauto].
      unfold fits in *. rewrite len_app in *. cbn [push x_pos x_buflen]. lia.
    + edestruct (law_full (c := elproc) x a) as [x' ->]; [done..|eauto].
Qed.

Lemma elems_dec x l l0 n :
  wf x -> x_op x = XDR_DECODE -> Forall (ok s) l -> length l = n ->
  (length l <= length l0)%nat ->
  (forall i a a0, l !! i = Some a -> l0 !! i = Some a0 -> pre s a a0) ->
  at_pos x (wire_elems l) ->
  elems_loop elproc n x l0 = Some (true, skip x (len (wire_elems l)), upd_elems l l0).
Proof.
  intros Hw Hop Hok. revert x n l0 Hw Hop.
  induction Hok as [|a l Ha Hok IH]; intros x n l0 Hw Hop <- Hl Hpre Hat.
  - cbn. unfold skip. change (len (wire_elems [])) with 0. rewrite Z.add_0_r.
    pose proof (wf_buf x Hw). destruct x; cbn in *; subst. by destruct l0.
  - destruct l0 as [|a0 l0]; cbn in Hl; [lia|]. cbn.
    change (wire_elems (a :: l)) with (wire s a ++ wire_elems l) in *.
    pose proof (at_app _ _ _ Hw Hat) as [Ha1 Ha2]. pose proof (proj1 Ha1) as Hf1. unfold fits in Hf1.
    erewrite law_dec; [|done|done|done|by apply (Hpre 0%nat)|done].
    pose proof (len_nonneg (wire s a)).
    rewrite IH; [by rewrite skip_skip, len_app|by apply wf_skip|done|done|lia| |done].
    intros i b b0 Hb Hb0. by apply (Hpre (S i)).
Qed.

(** A vector of a fixed number of elements. *)
Definition spec_vector (n : Z) : spec (list A) :=
  mkSpec wire_elems (fun l => len l = n /\ Forall (ok s) l)
         (fun l l0 => len l0 = n /\ (forall i a a0, l !! i = Some a -> l0 !! i = Some a0 -> pre s a a0))
         upd_elems.

#[global] Instance vector_lawful n : Lawful (xdr_vector n elproc) (spec_vector n).
Proof.
  split; cbn; intros x l; intros; unfold xdr_vector, len in *; destruct_and!.
  - rewrite <- (app_nil_r l). rewrite elems_enc by (done || (rewrite ?app_nil_r; lia || done)).
    by rewrite !app_nil_r.
  - destruct (elems_full x l (Z.to_nat n) []) as [x' E]; [done..|lia|done|].
    rewrite app_nil_r in E. eauto.
  - rewrite (elems_dec x l); try done; lia.
Qed.
End Vectors.

Lemma elems_safe {A} (elproc : codec A) shape n x l :
  Safe elproc shape -> wf x -> x_op x = XDR_DECODE -> Forall shape l -> (n <= length l)%nat ->
  exists b x' l', elems_loop elproc n x l = Some (b, x', l') /\ after x x' /\
    Forall shape l' /\ length l' = length l.
Proof.
  intros Hs Hw Hop Hl. revert n x Hw Hop. induction Hl as [|a l Ha Hl IH]; intros n x Hw Hop Hn.
  - cbn in Hn. replace n with 0%nat by lia. cbn. eexists _, _, _. split_and!; [done|by apply after_refl|done..].
  - destruct n as [|n]; cbn.
    { eexists _, _, _. split_and!; [done|by apply after_refl|by constructor|done]. }
    destruct (safe x a Hw Hop Ha) as (b & x' & a' & -> & Haf & Ha'). cbn in Hn.
    destruct b; [|eexists _, _, _; split_and!; [done|done|by constructor|done]].
    destruct (IH n x' (af_wf _ _ Haf)) as (b & x'' & l' & -> & Haf' & ? & ?);
      [by rewrite (af_op _ _ Haf)|lia|].
    eexists _, _, _. split_and!; [done|by eapply after_trans|by constructor|cbn; lia].
Qed.

Lemma is_op_refl a : is_op a a = true.
Proof. by apply bool_decide_eq_true. Qed.

Section Arrays.
Context {A : Type} (elproc : codec A) (s : spec A) `{!Lawful elproc s}.
Context (page : option (list A)) (maxsize : Z).

(** The memory a decoder fills: the caller's, or a page when it passes NULL. *)
Definition array_target (addr : option (list A)) : option (list A) :=
  match addr with Some l => Some l | None => page end.

Definition array_used (v : option (list A) * Z) : list A :=
  take (Z.to_nat (snd v)) (default [] (fst v)).

Definition spec_array : spec (option (list A) * Z) :=
  mkSpec (fun v => be32 (snd v) ++ wire_elems s (array_used v))
    (fun v => is_u32 (snd v) /\ snd v <= maxsize /\ is_Some (fst v) /\
              len (array_used v) = snd v /\ Forall (ok s) (array_used v))
    (fun v v0 => exists l0, array_target (fst v0) = Some l0 /\ snd v <= len l0 /\
       forall i a a0, array_used v !! i = Some a -> l0 !! i = Some a0 -> pre s a a0)
    (fun v v0 => ((upd_elems s (array_used v)) <$> array_target (fst v0), snd v)).

#[global] Instance array_lawful : Lawful (xdr_array page maxsize elproc) spec_array.
Proof.
  split; intros x [addr size]; cbn [ok pre wire upd spec_array fst snd].
  - intros Hw Hop (Hu & Hm & [arr Ea] & Hl & Hok) Hf. cbn in Ea. subst addr. unfold xdr_array.
    rewrite Hop, is_op_refl. destruct (Z.gtb_spec size maxsize); [lia|]. cbn [andb].
    rewrite (law_enc (s := spec_word)); [|done..|by eapply fits_app_l]. cbn [x_op push wire spec_word].
    rewrite Hop. cbn [is_op]. change (is_op XDR_ENCODE XDR_DECODE) with false. cbn [andb].
    change (array_used (Some arr, size)) with (take (Z.to_nat size) arr) in *.
    rewrite <- (take_drop (Z.to_nat size) arr) at 1 3.
    rewrite (elems_enc elproc s); [by rewrite push_app|apply wf_push; [done|by eapply fits_app_l]
      |done|done|unfold len in Hl; lia|].
    unfold fits in *. rewrite len_app in *. cbn [push x_pos x_buflen]. lia.
  - intros Hw Hop (Hu & Hm & [arr Ea] & Hl & Hok) Hf. cbn in Ea. subst addr. unfold xdr_array.
    rewrite Hop, is_op_refl. destruct (Z.gtb_spec size maxsize); [lia|]. cbn [andb].
    destruct (decide (x_pos x + len (be32 size) <= x_buflen x)) as [Hf1|Hf1].
    + rewrite (law_enc (s := spec_word)) by done. cbn [x_op push wire spec_word].
      rewrite Hop. change (is_op XDR_ENCODE XDR_DECODE) with false. cbn [andb].
      change (array_used (Some arr, size)) with (take (Z.to_nat size) arr) in *.
      destruct (elems_full elproc s (push x (be32 size)) (take (Z.to_nat size) arr) (Z.to_nat size)
        (drop (Z.to_nat size) arr)) as [x' E];
        [by apply wf_push|done|done|unfold len in Hl; lia| |].
      { unfold fits in *. rewrite len_app in *. cbn [push x_pos x_buflen]. lia. }
      rewrite take_drop in E. rewrite E. eauto.
    + edestruct (law_full (c := xdr_uint) (s := spec_word) x size) as [x' ->]; [done..|eauto].
  - intros [addr0 size0] Hw Hop (Hu & Hm & [arr Ea] & Hl & Hok) (l0 & Et & Hl0 & Hpre) Hat.
    cbn in Ea. subst addr. unfold xdr_array. rewrite Hop.
    change (is_op XDR_DECODE XDR_ENCODE) with false. cbn [andb].
    pose proof (at_app _ _ _ Hw Hat) as [Ha1 Ha2]. pose proof (proj1 Ha1) as Hf1. unfold fits in Hf1.
    rewrite (law_dec (s := spec_word) x size); [|done..]. cbn [x_op skip wire spec_word upd].
    rewrite Hop, is_op_refl. cbn [andb]. destruct (Z.gtb_spec size maxsize); [lia|].
    cbn [fst] in Et |- *. fold (array_target addr0). rewrite Et.
    pose proof (len_nonneg (be32 size)).
    rewrite (elems_dec elproc s _ (array_used (Some arr, size)));
      [|by apply wf_skip|done|done|unfold len in *; lia|unfold len in *; lia|done|done].
    by rewrite skip_skip, len_app.
Qed.
End Arrays.

Section Unions.
Context {A : Type} (junk : Z) (choices : list (Z * codec A)) (defaultarm : option (codec A)).

Definition arm_of (d : Z) : option (codec A) :=
  match find_arm choices d with Some proc => Some proc | None => defaultarm end.

Context (arm : Z -> spec A) (Harm : forall d proc, arm_of d = Some proc -> Lawful proc (arm d)).

Definition spec_union : spec (Z * A) :=
  mkSpec (fun v => be32 (u32 (fst v)) ++ wire (arm (fst v)) (snd v))
    (fun v => -2147483648 <= fst v < 2147483648 /\ is_Some (arm_of (fst v)) /\
              ok (arm (fst v)) (snd v))
    (fun v v0 => pre (arm (fst v)) (snd v) (snd v0))
    (fun v v0 => (fst v, upd (arm (fst v)) (snd v) (snd v0))).

#[global] Instance union_lawful : Lawful (xdr_union junk choices defaultarm) spec_union.
Proof.
  split; intros x [d u]; cbn [ok pre wire upd spec_union fst snd].
  - intros Hw Hop (Hd & [proc Hp] & Hok) Hf. unfold xdr_union. rewrite Hop, is_op_refl.
    rewrite (law_enc (s := spec_int)); [|done..|by eapply fits_app_l]. cbn [x_op push wire spec_int].
    rewrite Hop. change (is_op XDR_ENCODE XDR_DECODE) with false. fold (arm_of d). rewrite Hp.
    pose proof (Harm _ _ Hp) as Hl. rewrite (law_enc (s := arm d));
      [by rewrite push_app|apply wf_push; [done|by eapply fits_app_l]|done|done|].
    unfold fits in *. rewrite len_app in *. cbn [push x_pos x_buflen]. lia.
  - intros Hw Hop (Hd & [proc Hp] & Hok) Hf. unfold xdr_union. rewrite Hop, is_op_refl.
    destruct (decide (x_pos x + len (be32 (u32 d)) <= x_buflen x)) as [Hf1|Hf1].
    + rewrite (law_enc (s := spec_int)) by done. cbn [x_op push wire spec_int].
      rewrite Hop. change (is_op XDR_ENCODE XDR_DECODE) with false. fold (arm_of d). rewrite Hp.
      pose proof (Harm _ _ Hp) as Hl.
      destruct (law_full (s := arm d) (push x (be32 (u32 d))) u) as [x' ->];
        [by apply wf_push|done|done| |eauto].
      unfold fits in *. rewrite len_app in *. cbn [push x_pos x_buflen]. lia.
    + edestruct (law_full (c := xdr_int) (s := spec_int) x d) as [x' ->]; [done..|eauto].
  - intros [d0 u0] Hw Hop (Hd & [proc Hp] & Hok) Hpre Hat. cbn [snd] in *. unfold xdr_union. rewrite Hop.
    change (is_op XDR_DECODE XDR_ENCODE) with false.
    pose proof (at_app _ _ _ Hw Hat) as [Ha1 Ha2]. pose proof (proj1 Ha1) as Hf1. unfold fits in Hf1.
    rewrite (law_dec (s := spec_int) x d); [|done..]. cbn [x_op skip wire spec_int upd].
    rewrite Hop, is_op_refl. fold (arm_of d). rewrite Hp. pose proof (Harm _ _ Hp) as Hl.
    pose proof (len_nonneg (be32 (u32 d))).
    rewrite (law_dec (s := arm d) _ u); [|by apply wf_skip|done..]. by rewrite skip_skip, len_app.
Qed.
End Unions.

(** ** Strings of bytes *)

(** What the decoder leaves behind a [char *]: the stream's own bytes. *)
Lemma body_enc x p n bs :
  wf x -> x_op x = XDR_ENCODE -> ptr_read x p n = Some bs -> 0 <= n <= 2147483644 -> len bs = n ->
  fits x (padded bs) -> xdr_body x p n = Some (true, push x (padded bs), p).
Proof.
  intros Hw Hop Hp Hn Hl Hf. unfold xdr_body. pose proof (rndup_bounds n Hn). subst n.
  pose proof Hf as Hf'. unfold fits in Hf'. rewrite len_padded in Hf' by lia.
  rewrite check_spec, (proj2 (Z.leb_le _ _)), advance_spec by (done || lia). cbn [negb].
  cbn [x_op skip]. rewrite Hop. replace (ptr_read (skip x (rndup (len bs))) p (len bs)) with (Some bs)
    by (rewrite <- Hp; by destruct p).
  cbn [x_mem skip]. rewrite put_padded_spec by done. rewrite <- len_padded at 1 by lia. done.
Qed.

Lemma body_dec x p bs :
  wf x -> x_op x = XDR_DECODE -> len bs <= 2147483644 -> at_pos x (padded bs) ->
  xdr_body x p (len bs) = Some (true, skip x (len (padded bs)), PStream (x_pos x)) /\
  ptr_read x (PStream (x_pos x)) (len bs) = Some bs.
Proof.
  intros Hw Hop Hn Hat. pose proof (len_nonneg bs). unfold xdr_body.
  pose proof (rndup_bounds (len bs) ltac:(lia)).
  pose proof (at_app _ _ _ Hw Hat) as [Ha _]. pose proof (proj1 Hat) as Hf. unfold fits in Hf.
  rewrite len_padded in * by lia.
  rewrite check_spec, (proj2 (Z.leb_le _ _)), advance_spec by (done || lia). cbn [negb x_op skip].
  rewrite Hop. split; [done|]. by apply rd_spec.
Qed.

(** Any length the checks let through stays within the stream. *)
Lemma body_total x p n :
  wf x -> 0 <= n <= 2147483644 -> (x_op x = XDR_ENCODE -> is_Some (ptr_read x p n)) ->
  exists b x' p', xdr_body x p n = Some (b, x', p') /\ after x x' /\
    (x_op x = XDR_DECODE -> b = true -> is_Some (ptr_read x' p' n)) /\
    (x_op x <> XDR_DECODE -> p' = p).
Proof.
  intros Hw Hn Hp. unfold xdr_body. pose proof (rndup_bounds n Hn). rewrite check_spec by (done || lia).
  destruct (Z.leb_spec (x_pos x + rndup n) (x_buflen x)); cbn [negb];
    [|eexists _, _, _; split_and!; [done|by apply after_refl|done|done]].
  rewrite advance_spec by (done || lia). cbn [x_op skip]. destruct (x_op x) eqn:Ho.
  - destruct (Hp eq_refl) as [bs Hbs].
    replace (ptr_read (skip x (rndup n)) p n) with (Some bs) by (rewrite <- Hbs; by destruct p).
    assert (Hl : len bs = n).
    { assert (Hrl : forall l off, rd l off n = Some bs -> len bs = n).
      { intros l off. unfold rd.
        destruct (Z.leb_spec 0 off), (Z.leb_spec 0 n), (Z.leb_spec (off + n) (len l)); try done.
        cbn [andb]. intros [= <-]. unfold len in *. rewrite length_take, length_drop. lia. }
      destruct p; by eapply Hrl. }
    subst n. assert (Hf : fits x (padded bs)) by (unfold fits; rewrite len_padded; lia).
    cbn [x_mem skip]. rewrite put_padded_spec by done. eexists _, _, _. split_and!; [done| |done|done].
    rewrite <- len_padded by lia. by apply (after_push x (padded bs)).
  - pose proof Hw as []. eexists _, _, _. split_and!; [done|apply after_skip; done || lia| |done].
    intros _ _. cbn. destruct (rd_total (x_mem x) (x_pos x) n) as (bs & -> & _); [lia..|eauto].
  - eexists _, _, _. split_and!; [done|apply after_skip; done || lia|done|done].
Qed.

#[global] Instance bytes_safe maxsize : SmallCount maxsize -> Safe (xdr_bytes maxsize) (fun _ => True).
Proof.
  unfold SmallCount. intros Hm x [p size] Hw Hop _. unfold xdr_bytes. rewrite Hop.
  change (is_op XDR_DECODE XDR_ENCODE) with false. cbn [andb].
  destruct (int_internal_total x 0 Hw) as (b & x1 & n & E & Ha & _ & Hr). unfold xdr_uint. rewrite E.
  destruct b; [|eauto 7]. rewrite (af_op _ _ Ha), Hop, is_op_refl. cbn [andb].
  destruct (Z.gtb_spec n maxsize); [eauto 7|]. specialize (Hr ltac:(by vm_compute)). unfold is_u32 in Hr.
  destruct (body_total x1 p n (af_wf _ _ Ha)) as (b & x2 & p' & -> & Ha' & _);
    [lia|rewrite (af_op _ _ Ha), Hop; discriminate|].
  eexists _, _, _. split_and!; [done|by eapply after_trans|done].
Qed.

#[global] Instance string_safe maxsize : SmallCount maxsize -> Safe (xdr_string maxsize) (fun _ => True).
Proof.
  unfold SmallCount. intros Hm x p Hw Hop _. unfold xdr_string, xdr_string_from. rewrite Hop.
  change (is_op XDR_DECODE XDR_ENCODE) with false.
  destruct (int_internal_total x 0 Hw) as (b & x1 & n & E & Ha & _ & Hr). unfold xdr_uint. rewrite E.
  destruct b; [|eauto 7]. rewrite (af_op _ _ Ha), Hop, is_op_refl. cbn [andb].
  destruct (Z.gtb_spec n maxsize); cbn [orb]; [eauto 7|].
  destruct (n =? 0); [eauto 7|]. specialize (Hr ltac:(by vm_compute)). unfold is_u32 in Hr.
  destruct (body_total x1 p n (af_wf _ _ Ha)) as (b & x2 & p' & -> & Ha' & _);
    [lia|rewrite (af_op _ _ Ha), Hop; discriminate|].
  eexists _, _, _. split_and!; [done|by eapply after_trans|done].
Qed.

(** The stream for reading back what was written from [pos] on. *)
Definition reread (x : XDR) (pos : Z) : XDR :=
  snd (xdr_setpos (xdr_init (x_mem x) (x_buflen x) XDR_DECODE) pos).

Lemma reread_push x bs : wf x -> fits x bs ->
  wf (reread (push x bs) (x_pos x)) /\ x_op (reread (push x bs) (x_pos x)) = XDR_DECODE /\
  x_pos (reread (push x bs) (x_pos x)) = x_pos x /\ at_pos (reread (push x bs) (x_pos x)) bs.
Proof.
  intros Hw Hf. pose proof (push_len x bs Hw Hf) as Hl. pose proof (at_push x bs XDR_DECODE Hw Hf) as Hat.
  destruct Hw. unfold reread, xdr_setpos, xdr_init. cbn [x_buflen push].
  destruct (Z.gtb_spec (x_pos x) (x_buflen x)); [lia|]. cbn [snd x_op x_pos].
  split_and!; [|done|done|done]. split; cbn [x_buf x_pos x_buflen x_mem]; try lia.
Qed.

Lemma lawful_roundtrip {A} (c : codec A) s x a a0 :
  Lawful c s -> wf x -> x_op x = XDR_ENCODE -> ok s a -> pre s a a0 -> fits x (wire s a) ->
  exists x1 x2, c x a = Some (true, x1, a) /\ x_pos x1 = x_pos x + len (wire s a) /\
    c (reread x1 (x_pos x)) a0 = Some (true, x2, upd s a a0) /\ x_pos x2 = x_pos x1.
Proof.
  intros Hc Hw Hop Hok Hpre Hf. destruct (reread_push x (wire s a) Hw Hf) as (Hw' & Ho' & Hp' & Hat).
  exists (push x (wire s a)), (skip (reread (push x (wire s a)) (x_pos x)) (len (wire s a))).
  split_and!; [by apply law_enc|done|by apply law_dec|]. cbn [skip x_pos]. by rewrite Hp'.
Qed.

#[global] Hint Extern 1 (SetGet _ _) => (intros []; reflexivity) : typeclass_instances.

(** ** NFS *)

(** Every field of a [fattr3] is a word. *)
Definition fattr3_ok (a : fattr3) : Prop :=
  is_u32 (fa_type a) /\ is_u32 (fa_mode a) /\ is_u32 (fa_nlink a) /\ is_u32 (fa_uid a) /\
  is_u32 (fa_gid a) /\ is_u32 (fa_size a) /\ is_u32 (fa_used a) /\ is_u32 (fa_rdev_major a) /\
  is_u32 (fa_rdev_minor a) /\ is_u32 (fa_fsid a) /\ is_u32 (fa_fileid a) /\
  is_u32 (fa_atime_sec a) /\ is_u32 (fa_atime_nsec a) /\ is_u32 (fa_mtime_sec a) /\
  is_u32 (fa_mtime_nsec a) /\ is_u32 (fa_ctime_sec a) /\ is_u32 (fa_ctime_nsec a).

Definition fattr3_wire (a : fattr3) : list Z :=
  be32 (fa_type a) ++ be32 (fa_mode a) ++ be32 (fa_nlink a) ++ be32 (fa_uid a) ++ be32 (fa_gid a) ++
  be32 (fa_size a) ++ be32 (fa_used a) ++ be32 (fa_rdev_major a) ++ be32 (fa_rdev_minor a) ++
  be32 (fa_fsid a) ++ be32 (fa_fileid a) ++ be32 (fa_atime_sec a) ++ be32 (fa_atime_nsec a) ++
  be32 (fa_mtime_sec a) ++ be32 (fa_mtime_nsec a) ++ be32 (fa_ctime_sec a) ++ be32 (fa_ctime_nsec a).

Definition spec_fattr3 : spec fattr3 :=
  mkSpec fattr3_wire fattr3_ok (fun _ _ => True) (fun a _ => a).

(** Two specifications that agree on the values a codec is for. *)
Lemma lawful_ext {A} (c : codec A) (s s' : spec A) :
  Lawful c s -> (forall a, ok s' a -> ok s a /\ wire s a = wire s' a) ->
  (forall a a0, ok s' a -> pre s' a a0 -> pre s a a0 /\ upd s a a0 = upd s' a a0) -> Lawful c s'.
Proof.
  intros Hc Hw Hu. split; intros x a; intros.
  - destruct (Hw a) as [? Ew]; [done|]. rewrite <- Ew in *. by apply law_enc.
  - destruct (Hw a) as [? Ew]; [done|]. rewrite <- Ew in *. by apply (law_full (s := s)).
  - destruct (Hw a) as [? Ew]; [done|]. destruct (Hu a a0) as [? Eu]; [done..|].
    rewrite <- Ew, <- Eu in *. by apply law_dec.
Qed.

#[global] Instance fattr3_lawful : Lawful xdr_fattr3 spec_fattr3.
Proof.
  eapply lawful_ext; [unfold xdr_fattr3; typeclasses eauto| |].
  - intros a Ha. unfold spec_fattr3, fattr3_ok in Ha. cbn in Ha |- *. split; [tauto|].
    reflexivity.
  - intros [] [] _ _. cbn. tauto.
Qed.

Definition poa_ok (p : post_op_attr) : Prop :=
  attributes_follow p = 0 \/ attributes_follow p = 1 /\ fattr3_ok (poa_attr p).

Definition poa_wire (p : post_op_attr) : list Z :=
  be32 (attributes_follow p) ++ (if attributes_follow p =? 0 then [] else fattr3_wire (poa_attr p)).

(** Absent attributes leave the caller's variable as it was. *)
Definition poa_upd (p p0 : post_op_attr) : post_op_attr :=
  if attributes_follow p =? 0 then mkPoa 0 (poa_attr p0) else p.

Definition spec_poa : spec post_op_attr := mkSpec poa_wire poa_ok (fun _ _ => True) poa_upd.

#[global] Instance poa_lawful : Lawful xdr_post_op_attr spec_poa.
Proof.
  eapply lawful_ext; [unfold xdr_post_op_attr; typeclasses eauto| |].
  - intros [f a] Hp. unfold spec_poa in *. cbn in *. unfold poa_ok, poa_wire in *. cbn in *.
    destruct (Z.eqb_spec f 0); cbn; (split; [|done]); (split; [tauto|]); intros; [done|]. tauto.
  - intros [f a] [f0 a0] Hp _. unfold spec_poa in *. cbn in *. unfold poa_ok, poa_upd in *. cbn in *.
    destruct Hp as [->|[-> ?]]; cbn; tauto.
Qed.

Definition lookup3res_ok (r : lookup3res) : Prop :=
  is_u32 (lk_status r) /\ len (lk_object r) = 64 /\
  poa_ok (lk_obj_attributes r) /\ poa_ok (lk_dir_attributes r).

(** What the reply to LOOKUP says: the file handle only on success, and the
    attributes the server chose to send. *)
Definition lookup3res_merge (r r0 : lookup3res) : lookup3res :=
  mkLookup3res (lk_status r) (if lk_status r =? NFS3_OK then lk_object r else lk_object r0)
    (poa_upd (lk_obj_attributes r) (lk_obj_attributes r0))
    (poa_upd (lk_dir_attributes r) (lk_dir_attributes r0)).

Definition lookup3res_wire (r : lookup3res) : list Z :=
  be32 (lk_status r) ++ (if lk_status r =? NFS3_OK then lk_object r else []) ++
  poa_wire (lk_obj_attributes r) ++ poa_wire (lk_dir_attributes r).

#[global] Instance lookup3res_lawful : Lawful xdr_lookup3res
  (mkSpec lookup3res_wire lookup3res_ok (fun _ r0 => len (lk_object r0) = 64) lookup3res_merge).
Proof.
  eapply lawful_ext; [unfold xdr_lookup3res, xdr_fhandle3; typeclasses eauto| |].
  - intros r (H1 & H2 & H3 & H4). cbn. split; [tauto|]. unfold lookup3res_wire.
    destruct (lk_status r =? NFS3_OK); rewrite <- ?app_assoc; [|done].
    unfold padded. rewrite H2. change (rndup 64) with 64. cbn [Z.to_nat Z.sub Z.opp Z.add Z.pos_sub replicate].
    change (replicate (Z.to_nat (64 - 64)) 0) with (@nil Z). by rewrite app_nil_r.
  - intros [st ob oa da] [st0 ob0 oa0 da0] (H1 & H2 & H3 & H4) Hp. cbn in *.
    unfold lookup3res_merge. cbn. destruct (st =? NFS3_OK); cbn; tauto.
Qed.

(** C40.  LOOKUP replies survive the trip: the bytes [xdr_lookup3res] encodes
    are the status, the 64-byte handle exactly when the status is OK, and the
    two optional attribute blocks; it fails without touching the reply when
    they do not fit; and decoding them yields the same reply, whatever the
    caller's variable held (parts the reply omits keep the caller's values). *)
Theorem lookup3res_roundtrip x r r0 :
  wf x -> x_op x = XDR_ENCODE -> lookup3res_ok r -> len (lk_object r0) = 64 ->
  (fits x (lookup3res_wire r) ->
     exists x1 x2, xdr_lookup3res x r = Some (true, x1, r) /\
       x1 = push x (lookup3res_wire r) /\
       xdr_lookup3res (reread x1 (x_pos x)) r0 = Some (true, x2, lookup3res_merge r r0) /\
       x_pos x2 = x_pos x1) /\
  (~ fits x (lookup3res_wire r) -> exists x1, xdr_lookup3res x r = Some (false, x1, r)).
Proof.
  intros Hw Hop Hok Hr0. pose proof lookup3res_lawful as Hl. split; intros Hf.
  - destruct (lawful_roundtrip xdr_lookup3res _ x r r0 Hl Hw Hop Hok Hr0 Hf)
      as (x1 & x2 & E1 & _ & E2 & Ep).
    exists x1, x2. split_and!; [done| |done|done].
    pose proof (law_enc (Lawful := Hl) x r Hw Hop Hok Hf) as E. cbn [wire] in E. congruence.
  - by apply (law_full (Lawful := Hl)).
Qed.

Definition sample_attr : fattr3 := mkFattr3 1 420 1 0 0 5 8192 0 0 7 42 1 0 2 0 3 0.
Definition sample_lookup : lookup3res :=
  mkLookup3res 0 (replicate 64 9) (mkPoa 1 sample_attr) (mkPoa 0 sample_attr).
Definition blank_lookup : lookup3res :=
  mkLookup3res 99 (replicate 64 0) (mkPoa 5 (mkFattr3 0 0 0 0 0 0 0 0 0 0 0 0 0 0 0 0 0))
    (mkPoa 5 (mkFattr3 0 0 0 0 0 0 0 0 0 0 0 0 0 0 0 0 0)).

Lemma lookup3res_roundtrip_witness :
  let x := xdr_init (replicate 200 0) 200 XDR_ENCODE in
  exists x1 x2, xdr_lookup3res x sample_lookup = Some (true, x1, sample_lookup) /\
    x1 = push x (lookup3res_wire sample_lookup) /\
    xdr_lookup3res (reread x1 0) blank_lookup =
      Some (true, x2, lookup3res_merge sample_lookup blank_lookup) /\ x_pos x2 = x_pos x1.
Proof.
  apply lookup3res_roundtrip.
  - split; vm_compute; intuition discriminate.
  - reflexivity.
  - split_and!; vm_compute; try (intuition discriminate); right; intuition discriminate.
  - reflexivity.
  - vm_compute. discriminate.
Defined.

(** ** Decoding hostile input *)

Ltac safe_codec :=
  repeat first
    [ apply seq_safe | apply when_safe
    | eapply field_safe; [typeclasses eauto | intros []; cbn; tauto | intros [] ?; cbn; tauto ] ].

#[global] Instance fattr3_safe : Safe xdr_fattr3 (fun _ => True).
Proof. unfold xdr_fattr3. safe_codec. Qed.
#[global] Instance poa_safe : Safe xdr_post_op_attr (fun _ => True).
Proof. unfold xdr_post_op_attr. safe_codec. Qed.
#[global] Instance fhandle3_safe : Safe xdr_fhandle3 (fun h => len h = 64).
Proof. apply (opaque_safe FHSIZE3). typeclasses eauto. Qed.
#[global] Instance getattr3res_safe : Safe xdr_getattr3res (fun _ => True).
Proof. unfold xdr_getattr3res. safe_codec. Qed.
#[global] Instance lookup3res_safe : Safe xdr_lookup3res (fun r => len (lk_object r) = 64).
Proof. unfold xdr_lookup3res. safe_codec. Qed.
#[global] Instance read_max_small : SmallCount 65536.
Proof. unfold SmallCount. lia. Qed.
#[global] Instance read3res_safe : Safe xdr_read3res (fun _ => True).
Proof. unfold xdr_read3res. safe_codec. Qed.

#[global] Instance readdir3res_safe : Safe xdr_readdir3res (fun r => len (rs_cookieverf r) = 8).
Proof.
  unfold xdr_readdir3res. safe_codec. intros x [] Hw _ Hs. eexists _, _, _.
  split_and!; [done|by apply after_refl|done].
Qed.

(** The caller's arrays have the sizes of the structure. *)
Definition mount_res_shape (r : mount_res) : Prop :=
  len (mr_fhandle r) = 64 /\ length (auth_flavors r) = 10%nat.

#[global] Instance mount_flavors_safe : Safe xdr_mount_flavors mount_res_shape.
Proof.
  intros x r Hw Hop [Hs1 Hs2]. unfold xdr_mount_flavors, on_field.
  assert (Hd : forall r', mr_fhandle r' = mr_fhandle r -> auth_flavors r' = auth_flavors r ->
    auth_flavors_len r' <= 10 ->
    exists b x' a', (match elems_loop xdr_uint (Z.to_nat (auth_flavors_len r')) x (auth_flavors r') with
      | None => None
      | Some (b, x, a) => Some (b, x, mkMountRes (mr_status r') (mr_fhandle r') (auth_flavors_len r') a)
      end) = Some (b, x', a') /\ after x x' /\ mount_res_shape a').
  { intros r' E1 E2 Hl.
    destruct (elems_safe xdr_uint (fun _ => True) (Z.to_nat (auth_flavors_len r')) x (auth_flavors r'))
      as (b & x' & l' & -> & Ha & _ & Hl'); [typeclasses eauto|done|done|by apply Forall_true| |].
    { rewrite E2, Hs2. lia. }
    eexists _, _, _. split_and!; [done|done|]. split; cbn; congruence. }
  destruct (Z.gtb_spec (auth_flavors_len r) 10); apply Hd; cbn; done || lia.
Qed.

#[global] Instance mount_res_safe : Safe xdr_mount_res mount_res_shape.
Proof. unfold xdr_mount_res, mount_res_shape. safe_codec. exact mount_flavors_safe. Qed.

(** C35.  Decoding a reply of the NFS or MOUNT server never reads or writes
    outside the received buffer or the caller's structure, whatever bytes
    arrived, wherever the stream stands: every decoder returns, the position
    stays within the buffer, the received bytes are not changed and the
    caller's arrays keep their sizes. *)
Theorem reply_decoders_safe x :
  wf x -> x_op x = XDR_DECODE ->
  (forall r, exists b x' r', xdr_getattr3res x r = Some (b, x', r') /\ after x x') /\
  (forall r, len (lk_object r) = 64 ->
     exists b x' r', xdr_lookup3res x r = Some (b, x', r') /\ after x x' /\ len (lk_object r') = 64) /\
  (forall r, exists b x' r', xdr_read3res x r = Some (b, x', r') /\ after x x') /\
  (forall r, len (rs_cookieverf r) = 8 ->
     exists b x' r', xdr_readdir3res x r = Some (b, x', r') /\ after x x' /\
       len (rs_cookieverf r') = 8) /\
  (forall r, mount_res_shape r ->
     exists b x' r', xdr_mount_res x r = Some (b, x', r') /\ after x x' /\ mount_res_shape r').
Proof.
  intros Hw Hop. split_and!; intros r; intros.
  - destruct (getattr3res_safe x r Hw Hop I) as (b & x' & r' & ? & ? & _); eauto 6.
  - by apply lookup3res_safe.
  - destruct (read3res_safe x r Hw Hop I) as (b & x' & r' & ? & ? & _); eauto 6.
  - by apply readdir3res_safe.
  - by apply mount_res_safe.
Qed.

Lemma reply_decoders_safe_witness :
  let x := xdr_init (replicate 40 255) 30 XDR_DECODE in
  exists b x' r', xdr_lookup3res x blank_lookup = Some (b, x', r') /\ after x x' /\
    len (lk_object r') = 64.
Proof.
  apply reply_decoders_safe; [split; vm_compute; intuition discriminate|reflexivity|reflexivity].
Defined.

(** ** Byte strings *)

Lemma strlen_app s rest : Forall (fun c => c <> 0) s -> strlen (s ++ 0 :: rest) = Some (len s).
Proof.
  induction 1 as [|c s Hc Hs IH]; cbn; [done|].
  destruct (Z.eqb_spec c 0); [done|]. rewrite IH. cbn. f_equal. unfold len. cbn. lia.
Qed.

Lemma rd_prefix (l rest : list Z) : rd (l ++ rest) 0 (len l) = Some l.
Proof.
  unfold rd. rewrite len_app. pose proof (len_nonneg l). pose proof (len_nonneg rest).
  destruct (Z.leb_spec 0 0), (Z.leb_spec 0 (len l)), (Z.leb_spec (0 + len l) (len l + len rest)); try lia.
  cbn [andb]. change (Z.to_nat 0) with 0%nat. unfold len. by rewrite Nat2Z.id, drop_0, take_app_length.
Qed.

Lemma fits_push x a b : fits x (a ++ b) -> fits (push x a) b.
Proof. unfold fits. rewrite len_app. cbn [push x_pos x_buflen]. lia. Qed.

(** The decoder's side, common to bytes and strings: a pointer to the bytes
    within the received buffer. *)
Lemma counted_dec x bs p n0 :
  wf x -> x_op x = XDR_DECODE -> len bs <= 2147483644 -> at_pos x (be32 (len bs) ++ padded bs) ->
  exists x1 x2 off, xdr_uint x n0 = Some (true, x1, len bs) /\ x_op x1 = XDR_DECODE /\
    xdr_body x1 p (len bs) = Some (true, x2, PStream off) /\
    x_pos x2 = x_pos x + len (be32 (len bs) ++ padded bs) /\ x_mem x2 = x_mem x /\
    ptr_read x2 (PStream off) (len bs) = Some bs.
Proof.
  intros Hw Hop Hl Hat. pose proof (len_nonneg bs). pose proof (at_app _ _ _ Hw Hat) as [Ha1 Ha2].
  pose proof (proj1 Ha1) as Hf1. unfold fits in Hf1.
  assert (Hw1 : wf (skip x (len (be32 (len bs))))) by (apply wf_skip; done || apply len_nonneg).
  destruct (body_dec _ p bs Hw1 Hop Hl Ha2) as [Hb Hp].
  eexists _, _, _. split_and!.
  - apply (law_dec (c := xdr_uint) (s := spec_word) x (len bs)); cbn; try done. unfold is_u32. lia.
  - done.
  - exact Hb.
  - cbn [skip x_pos]. rewrite len_app. lia.
  - done.
  - exact Hp.
Qed.

(** Counted bytes and strings survive the trip: what [xdr_bytes] (any
    bytes up to [maxsize]) and [xdr_string] (a NUL-terminated string shorter
    than [maxsize]) encode is decoded to the same length and to a pointer into
    the received buffer that holds the same bytes, for strings with the
    terminating NUL. *)
Theorem bytes_string_roundtrip x bs s rest maxsize p0 n0 :
  wf x -> x_op x = XDR_ENCODE -> 0 <= maxsize <= 2147483644 ->
  len bs <= maxsize -> fits x (be32 (len bs) ++ padded bs) ->
  Forall (fun c => c <> 0) s -> len s < maxsize -> fits x (be32 (len s + 1) ++ padded (s ++ [0])) ->
  (exists x1 x2 off,
     xdr_bytes maxsize x (PExt (bs ++ rest), len bs) = Some (true, x1, (PExt (bs ++ rest), len bs)) /\
     xdr_bytes maxsize (reread x1 (x_pos x)) (p0, n0) = Some (true, x2, (PStream off, len bs)) /\
     x_pos x2 = x_pos x1 /\ ptr_read x2 (PStream off) (len bs) = Some bs) /\
  (exists x1 x2 off,
     xdr_string maxsize x (PExt (s ++ 0 :: rest)) = Some (true, x1, PExt (s ++ 0 :: rest)) /\
     xdr_string maxsize (reread x1 (x_pos x)) p0 = Some (true, x2, PStream off) /\
     x_pos x2 = x_pos x1 /\ ptr_read x2 (PStream off) (len s + 1) = Some (s ++ [0])).
Proof.
  intros Hw Hop Hm Hbs Hf Hnz Hs Hfs. pose proof (len_nonneg bs). pose proof (len_nonneg s).
  assert (Henc : forall l p, len l <= 2147483644 -> fits x (be32 (len l) ++ padded l) ->
    ptr_read (push x (be32 (len l))) p (len l) = Some l ->
    xdr_uint x (len l) = Some (true, push x (be32 (len l)), len l) /\
    xdr_body (push x (be32 (len l))) p (len l) =
      Some (true, push x (be32 (len l) ++ padded l), p)).
  { intros l p Hl Hfl Hp. pose proof (len_nonneg l). pose proof (fits_app_l _ _ _ Hfl). split.
    - apply (law_enc (c := xdr_uint) (s := spec_word)); cbn; try done. unfold is_u32. lia.
    - rewrite (body_enc _ _ _ l); [by rewrite push_app|by apply wf_push|done|done|lia|done|].
      by apply fits_push. }
  split.
  - destruct (Henc bs (PExt (bs ++ rest))) as [E1 E2]; [lia|done|apply rd_prefix|].
    destruct (reread_push x _ Hw Hf) as (Hw' & Ho' & Hp' & Hat).
    destruct (counted_dec _ bs p0 0 Hw' Ho' ltac:(lia) Hat) as (y1 & y2 & off & F1 & Fo & F2 & Fp & _ & Fr).
    exists (push x (be32 (len bs) ++ padded bs)), y2, off. unfold xdr_bytes.
    rewrite Hop, Ho', is_op_refl, E1. cbn [x_op push]. rewrite Hop.
    change (is_op XDR_ENCODE XDR_DECODE) with false. change (is_op XDR_DECODE XDR_ENCODE) with false.
    assert (Hg : (len bs >? maxsize) = false) by (destruct (Z.gtb_spec (len bs) maxsize); lia || done).
    rewrite Hg. cbn [andb]. rewrite E2, F1, Fo, is_op_refl, Hg.
    cbn [andb]. rewrite F2. split_and!; [done|done| |done]. rewrite Fp, Hp'. done.
  - assert (El : len (s ++ [0]) = len s + 1) by (rewrite len_app; done).
    rewrite <- El in Hfs.
    destruct (Henc (s ++ [0]) (PExt (s ++ 0 :: rest))) as [E1 E2]; [lia|done| |].
    { cbn [ptr_read]. rewrite (cons_middle 0 s rest), app_assoc. apply rd_prefix. }
    destruct (reread_push x _ Hw Hfs) as (Hw' & Ho' & Hp' & Hat).
    destruct (counted_dec _ (s ++ [0]) p0 0 Hw' Ho' ltac:(lia) Hat)
      as (y1 & y2 & off & F1 & Fo & F2 & Fp & _ & Fr).
    exists (push x (be32 (len (s ++ [0])) ++ padded (s ++ [0]))), y2, off.
    unfold xdr_string, xdr_string_from.
    rewrite Hop, Ho', is_op_refl. change (is_op XDR_DECODE XDR_ENCODE) with false. cbn [ptr_strlen].
    rewrite strlen_app by done. rewrite Z.geb_leb. destruct (Z.leb_spec maxsize (len s)); [lia|].
    rewrite u32_small by (unfold is_u32; lia). rewrite <- El. rewrite E1. cbn [x_op push]. rewrite Hop.
    change (is_op XDR_ENCODE XDR_DECODE) with false. cbn [andb]. rewrite E2, F1, Fo, is_op_refl.
    cbn [andb]. destruct (Z.gtb_spec (len (s ++ [0])) maxsize), (Z.eqb_spec (len (s ++ [0])) 0); try lia.
    cbn [orb]. rewrite F2. split_and!; [done|done| |done]. rewrite Fp, Hp'. done.
Qed.

Lemma bytes_string_roundtrip_witness :
  let x := xdr_init (replicate 40 0) 40 XDR_ENCODE in
  exists x1 x2 off,
    xdr_string 10 x (PExt [104; 105; 0; 7]) = Some (true, x1, PExt [104; 105; 0; 7]) /\
    xdr_string 10 (reread x1 0) (PExt []) = Some (true, x2, PStream off) /\
    x_pos x2 = x_pos x1 /\ ptr_read x2 (PStream off) 3 = Some [104; 105; 0].
Proof.
  apply (bytes_string_roundtrip (xdr_init (replicate 40 0) 40 XDR_ENCODE) [] [104; 105] [7] 10 (PExt []) 0);
    try (vm_compute; intuition discriminate).
  - split; vm_compute; intuition discriminate.
  - repeat constructor; lia.
Defined.

Lemma upd_elems_all {A} (s : spec A) n (l l0 : list A) :
  (forall a a0, upd s a a0 = a) -> (n <= length l0)%nat -> (n <= length l)%nat ->
  upd_elems s (take n l) l0 = take n l ++ drop n l0.
Proof.
  intros Hu. revert l l0. induction n as [|n IH]; intros l l0 H1 H2; [by destruct l0|].
  destruct l as [|a l], l0 as [|a0 l0]; cbn in *; try lia. rewrite Hu. f_equal. apply IH; lia.
Qed.

(** Arrays of any codec that obeys its specification survive the trip: an
    array of [size] elements, encoded by [xdr_array] with its count in front,
    is decoded to the same count and the same elements, into the caller's
    array or, for a NULL pointer, into the page from [kalloc]; a count above
    [maxsize] is refused by the encoder and by the decoder. *)
Theorem array_roundtrip {A} (elproc : codec A) (s : spec A) page maxsize x arr size addr0 size0 l0 :
  Lawful elproc s -> (forall a a0, pre s a a0 /\ upd s a a0 = a) ->
  wf x -> x_op x = XDR_ENCODE -> is_u32 size -> size <= len arr -> Forall (ok s) arr ->
  array_target page addr0 = Some l0 -> size <= len l0 ->
  fits x (be32 size ++ wire_elems s (take (Z.to_nat size) arr)) ->
  (size <= maxsize -> exists x1 x2,
     xdr_array page maxsize elproc x (Some arr, size) = Some (true, x1, (Some arr, size)) /\
     xdr_array page maxsize elproc (reread x1 (x_pos x)) (addr0, size0) =
       Some (true, x2, (Some (take (Z.to_nat size) arr ++ drop (Z.to_nat size) l0), size)) /\
     x_pos x2 = x_pos x1) /\
  (size > maxsize ->
     xdr_array page maxsize elproc x (Some arr, size) = Some (false, x, (Some arr, size)) /\
     exists x2, xdr_array page maxsize elproc
       (reread (push x (be32 size ++ wire_elems s (take (Z.to_nat size) arr))) (x_pos x)) (addr0, size0)
       = Some (false, x2, (addr0, size0))).
Proof.
  intros Hl Hupd Hw Hop Hu Ha Hok Ht Hl0 Hf. unfold is_u32 in Hu. split; intros Hm.
  - assert (Hused : len (array_used (Some arr, size)) = size).
    { unfold array_used, len in *. cbn. rewrite length_take. lia. }
    destruct (lawful_roundtrip (xdr_array page maxsize elproc) (spec_array s page maxsize) x
      (Some arr, size) (addr0, size0)) as (x1 & x2 & E1 & _ & E2 & Ep); [typeclasses eauto|done|done| | |done|].
    { cbn. split_and!; [done..|by eexists|done|by apply Forall_take]. }
    { cbn. exists l0. split_and!; [done|done|]. intros. apply Hupd. }
    exists x1, x2. split_and!; [done| |done]. rewrite E2. cbn [upd spec_array fst snd]. rewrite Ht.
    cbn [fmap option_fmap option_map]. do 4 f_equal. unfold array_used, len in *; cbn [snd fst default].
    apply upd_elems_all; [by intros; apply Hupd|lia..].
  - unfold xdr_array at 1. rewrite Hop, is_op_refl.
    assert (Hg : (size >? maxsize) = true) by (destruct (Z.gtb_spec size maxsize); lia || done).
    rewrite Hg. cbn [andb]. split; [done|].
    destruct (reread_push x _ Hw Hf) as (Hw' & Ho' & Hp' & Hat). unfold xdr_array. rewrite Ho'.
    change (is_op XDR_DECODE XDR_ENCODE) with false. cbn [andb].
    pose proof (at_app _ _ _ Hw' Hat) as [Ha1 _].
    rewrite (law_dec (c := xdr_uint) (s := spec_word) _ size); [|done..]. cbn [x_op skip upd spec_word].
    rewrite Ho', is_op_refl, Hg. cbn [andb]. eauto.
Qed.

Lemma array_roundtrip_witness :
  let x := xdr_init (replicate 40 0) 40 XDR_ENCODE in
  exists x1 x2,
    xdr_array (Some (replicate 5 0)) 8 xdr_uint x (Some [7; 8; 9], 2) = Some (true, x1, (Some [7; 8; 9], 2)) /\
    xdr_array (Some (replicate 5 0)) 8 xdr_uint (reread x1 0) (None, 77) =
      Some (true, x2, (Some [7; 8; 0; 0; 0], 2)) /\ x_pos x2 = x_pos x1.
Proof.
  apply (array_roundtrip xdr_uint spec_word (Some (replicate 5 0)) 8
    (xdr_init (replicate 40 0) 40 XDR_ENCODE) [7; 8; 9] 2 None 77 (replicate 5 0)).
  - typeclasses eauto.
  - intros; split; done.
  - split; vm_compute; intuition discriminate.
  - reflexivity.
  - unfold is_u32; lia.
  - unfold len; cbn; lia.
  - repeat constructor; lia.
  - reflexivity.
  - unfold len; cbn; lia.
  - vm_compute; discriminate.
  - lia.
Defined.

(** [xdr_short] and [xdr_ushort] do not survive the trip: the value is
    written in the low half of the word and read from the high half, so a
    decoded [short] is 0 or -1, its sign, and a decoded [ushort] is always 0. *)
Theorem short_roundtrip_broken x v v0 w w0 :
  wf x -> x_op x = XDR_ENCODE -> x_pos x + 4 <= x_buflen x ->
  -32768 <= v < 32768 -> 0 <= w < 65536 ->
  (exists x1 x2, xdr_short x v = Some (true, x1, v) /\
     xdr_short (reread x1 (x_pos x)) v0 = Some (true, x2, if v <? 0 then -1 else 0)) /\
  (exists x1 x2, xdr_ushort x w = Some (true, x1, w) /\
     xdr_ushort (reread x1 (x_pos x)) w0 = Some (true, x2, 0)).
Proof.
  intros Hw Hop Hf Hv Hw'.
  assert (Hrt : forall u, is_u32 u -> exists x1 x2, xdr_int_internal x u = Some (true, x1, u) /\
     x_op (reread x1 (x_pos x)) = XDR_DECODE /\
     xdr_int_internal (reread x1 (x_pos x)) 0 = Some (true, x2, u)).
  { intros u Hu.
    destruct (reread_push x (be32 u) Hw Hf) as (Hw2 & Ho2 & _ & Hat).
    eexists _, _. split_and!; [apply (law_enc (s := spec_word)); done|done|].
    by apply (law_dec (c := xdr_int_internal) (s := spec_word)). }
  split.
  - destruct (Hrt (u32 v)) as (x1 & x2 & E1 & Eo & E2); [apply u32_range|].
    exists x1, x2. unfold xdr_short. rewrite Hop, E1, Eo, E2. split; [done|].
    rewrite s32_u32 by lia. do 2 f_equal. rewrite Z.shiftr_div_pow2 by lia. change (2 ^ 16) with 65536.
    unfold s16. destruct (Z.ltb_spec v 0); mlia.
  - destruct (Hrt w) as (x1 & x2 & E1 & Eo & E2); [unfold is_u32; lia|].
    exists x1, x2. unfold xdr_ushort. rewrite Hop, E1, Eo, E2. split; [done|].
    do 2 f_equal. rewrite Z.shiftr_div_pow2 by lia. change (2 ^ 16) with 65536. unfold u16. mlia.
Qed.

Lemma short_roundtrip_broken_witness :
  let x := xdr_init (replicate 8 0) 8 XDR_ENCODE in
  exists x1 x2, xdr_ushort x 4660 = Some (true, x1, 4660) /\
    xdr_ushort (reread x1 0) 1 = Some (true, x2, 0).
Proof.
  apply (short_roundtrip_broken (xdr_init (replicate 8 0) 8 XDR_ENCODE) 5 0 4660 1);
    try (vm_compute; intuition discriminate).
  split; vm_compute; intuition discriminate.
Defined.
