(* ===== verification/Tty.v ===== *)
(** * The terminal line discipline: [src/kernel/driver/tty_ldisc.c]

    Input from the keyboard side goes through flow control, signal
    characters, line editing and echo; output of programs goes through the
    newline conversions.  A [char] is its byte, 0 to 255: the code compares
    characters only for equality with bytes, and with ranges below 128.

    The line being edited is the first [canon_len] bytes of [canon_buf]; the
    code never reads the rest.  A buffer of the caller is the list of bytes
    stored in it, with its capacity as a parameter. *)

From S2P Require Import Prelude.

Definition TTY_LDISC_CANON_BUFSZ : Z := 4096.
Definition TTY_LDISC_SCRATCH_BUFSZ : Z := 512.

Record termios := mkTermios { c_iflag : Z; c_oflag : Z; c_lflag : Z; c_cc : list Z }.

Definition VINTR : nat := 0.
Definition VQUIT : nat := 1.
Definition VERASE : nat := 2.
Definition VKILL : nat := 3.
Definition VEOF : nat := 4.
Definition VSTART : nat := 8.
Definition VSTOP : nat := 9.
Definition VSUSP : nat := 10.
Definition VEOL : nat := 11.
Definition VREPRINT : nat := 12.
Definition VWERASE : nat := 14.
Definition VEOL2 : nat := 16.

Definition INLCR : Z := 64.
Definition IGNCR : Z := 128.
Definition ICRNL : Z := 256.
Definition IXON : Z := 1024.
Definition OPOST : Z := 1.
Definition ONLCR : Z := 4.
Definition OCRNL : Z := 8.
Definition ONOCR : Z := 16.
Definition ONLRET : Z := 32.
Definition ISIG : Z := 1.
Definition ICANON : Z := 2.
Definition ECHO : Z := 8.
Definition ECHOE : Z := 16.
Definition ECHOK : Z := 32.
Definition ECHONL : Z := 64.
Definition NOFLSH : Z := 128.
Definition ECHOCTL : Z := 512.
Definition IEXTEN : Z := 32768.

Definition SIGINT : Z := 2.
Definition SIGQUIT : Z := 3.
Definition SIGTSTP : Z := 20.

Definition CR : Z := 13.
Definition NL : Z := 10.
Definition BS : Z := 8.
Definition SP : Z := 32.
Definition TAB : Z := 9.

(** [(char)tp->c_cc[i]] *)
Definition cc (tp : termios) (i : nat) : Z := default 0 (c_cc tp !! i).
Definition iflag (tp : termios) (m : Z) : bool := flag (c_iflag tp) m.
Definition oflag (tp : termios) (m : Z) : bool := flag (c_oflag tp) m.
Definition lflag (tp : termios) (m : Z) : bool := flag (c_lflag tp) m.

Record tty_ldisc_state := mkLd { canon : list Z; out_col : Z; flow_stopped : Z }.

Definition tty_ldisc_reset (ld : option tty_ldisc_state) : option tty_ldisc_state :=
  match ld with None => None | Some _ => Some (mkLd [] 0 0) end.
Definition tty_ldisc_init (ld : option tty_ldisc_state) : option tty_ldisc_state := tty_ldisc_reset ld.

Definition set_canon (ld : tty_ldisc_state) (l : list Z) : tty_ldisc_state :=
  mkLd l (out_col ld) (flow_stopped ld).

(** ** Echo *)

Definition put (cap : Z) (buf : list Z) (c : Z) : list Z :=
  if len buf <? cap then buf ++ [c] else buf.

Definition ld_echo_char (c : Z) (cap : Z) (echo : list Z) : list Z :=
  if c =? NL then put cap (put cap echo CR) NL
  else if len echo >=? cap then echo else echo ++ [c].

Definition ld_echo_erase_one (cap : Z) (echo : list Z) : list Z :=
  ld_echo_char BS cap (ld_echo_char SP cap (ld_echo_char BS cap echo)).

Definition ld_is_word_char (c : Z) : bool :=
  if (97 <=? c) && (c <=? 122) then true
  else if (65 <=? c) && (c <=? 90) then true
  else if (48 <=? c) && (c <=? 57) then true
  else c =? 95.

(** Whether the character was stored, and the state after. *)
Definition ld_store_canon (ld : tty_ldisc_state) (c : Z) : bool * tty_ldisc_state :=
  if len (canon ld) >=? TTY_LDISC_CANON_BUFSZ then (false, ld)
  else (true, set_canon ld (canon ld ++ [c])).

(** The settings of a new pseudo-terminal ([pty_pair_init_defaults]). *)
Definition cooked : termios :=
  mkTermios ICRNL (OPOST + ONLCR) (ECHO + ICANON + ISIG + ECHOE + IEXTEN)
    [3; 28; 127; 21; 4; 0; 1; 0; 17; 19; 26; 0; 18; 0; 23; 22; 0; 0; 0].

(** ** Input *)

(** What the loop of [tty_ldisc_process_input] changes. *)
Record io := mkIo { io_ld : tty_ldisc_state; io_out : list Z; io_echo : list Z; io_sig : Z }.

Definition io_set_ld (s : io) (ld : tty_ldisc_state) : io := mkIo ld (io_out s) (io_echo s) (io_sig s).
Definition io_set_echo (s : io) (e : list Z) : io := mkIo (io_ld s) (io_out s) e (io_sig s).

Section Input.
Context (tp : termios) (slave_cap echo_cap : Z).

Definition echo_char (c : Z) (s : io) : io := io_set_echo s (ld_echo_char c echo_cap (io_echo s)).
Definition echo_erase (s : io) : io := io_set_echo s (ld_echo_erase_one echo_cap (io_echo s)).

(** [for(j = 0; j < canon_len && out_len < slave_cap; j++) ...; canon_len = 0;] *)
Definition flush_line (s : io) : io :=
  mkIo (set_canon (io_ld s) [])
       (fold_left (put slave_cap) (canon (io_ld s)) (io_out s)) (io_echo s) (io_sig s).

(** A signal character: [glyph] is echoed as [^glyph]. *)
Definition signal_char (sig glyph : Z) (s : io) : io :=
  let s := mkIo (io_ld s) (io_out s) (io_echo s) sig in
  let s := if lflag tp ECHO && lflag tp ECHOCTL
           then echo_char NL (echo_char glyph (echo_char 94 s)) else s in
  if negb (lflag tp NOFLSH) then io_set_ld s (set_canon (io_ld s) []) else s.

Definition erase_char (c : Z) (s : io) : io :=
  match canon (io_ld s) with
  | [] => s
  | _ :: _ =>
      let s := io_set_ld s (set_canon (io_ld s) (removelast (canon (io_ld s)))) in
      if lflag tp ECHOE then echo_erase s
      else if lflag tp ECHO then echo_char c s else s
  end.

(** [while(canon_len > 0 && p(canon_buf[canon_len - 1])) { canon_len--; erased++; }]
    on the reversed line. *)
Fixpoint drop_while (p : Z -> bool) (rline : list Z) (erased : Z) : list Z * Z :=
  match rline with
  | [] => ([], erased)
  | c :: rline' => if p c then drop_while p rline' (erased + 1) else (rline, erased)
  end.

Definition word_erase (c : Z) (s : io) : io :=
  let '(r, e) := drop_while (fun c => (c =? SP) || (c =? TAB)) (reverse (canon (io_ld s))) 0 in
  let '(r, e) := drop_while ld_is_word_char r e in
  let s := io_set_ld s (set_canon (io_ld s) (reverse r)) in
  if lflag tp ECHOE && (e >? 0) then Nat.iter (Z.to_nat e) echo_erase s
  else if lflag tp ECHO then echo_char c s else s.

Definition reprint (c : Z) (s : io) : io :=
  if lflag tp ECHO then
    let s := if lflag tp ECHOCTL then echo_char 82 (echo_char 94 s) else echo_char c s in
    let s := echo_char NL s in
    fold_left (fun s c => echo_char c s) (canon (io_ld s)) s
  else s.

(** [None] is [continue]: the character is consumed here. *)
Definition map_input (c : Z) : option Z :=
  if c =? CR then
    if iflag tp IGNCR then None else if iflag tp ICRNL then Some NL else Some c
  else if c =? NL then
    if iflag tp INLCR then Some CR else Some c
  else Some c.

Definition canonical_char (c : Z) (s : io) : io :=
  if lflag tp ISIG && (c =? cc tp VINTR) then signal_char SIGINT 67 s
  else if lflag tp ISIG && (c =? cc tp VQUIT) then signal_char SIGQUIT 92 s
  else if lflag tp ISIG && (c =? cc tp VSUSP) then signal_char SIGTSTP 90 s
  else if c =? cc tp VERASE then erase_char c s
  else if lflag tp IEXTEN && (c =? cc tp VWERASE) then word_erase c s
  else if lflag tp IEXTEN && (c =? cc tp VREPRINT) then reprint c s
  else if c =? cc tp VKILL then
    let s := io_set_ld s (set_canon (io_ld s) []) in
    if lflag tp ECHOK then echo_char NL s else s
  else if c =? cc tp VEOF then flush_line s
  else
    let '(stored, ld) := ld_store_canon (io_ld s) c in
    let s := io_set_ld s ld in
    let s := if stored && (lflag tp ECHO || ((c =? NL) && lflag tp ECHONL))
             then echo_char c s else s in
    if (c =? NL) || (c =? cc tp VEOL) || (c =? cc tp VEOL2) then flush_line s else s.

Definition raw_char (c : Z) (s : io) : io :=
  let s := mkIo (io_ld s) (put slave_cap (io_out s) c) (io_echo s) (io_sig s) in
  if lflag tp ECHO then echo_char c s else s.

(** One round of the loop over the input. *)
Definition input_char (s : io) (c : Z) : io :=
  match map_input c with
  | None => s
  | Some c =>
      if iflag tp IXON && (c =? cc tp VSTOP)
      then io_set_ld s (mkLd (canon (io_ld s)) (out_col (io_ld s)) 1)
      else if iflag tp IXON && (c =? cc tp VSTART)
      then io_set_ld s (mkLd (canon (io_ld s)) (out_col (io_ld s)) 0)
      else if lflag tp ICANON then canonical_char c s
      else raw_char c s
  end.
End Input.

(** [None] is the return value -1; [nonnull] says that no pointer is NULL. *)
Definition tty_ldisc_process_input (nonnull : bool) (tp : termios) (ld : tty_ldisc_state)
    (input : list Z) (slave_cap echo_cap : Z) : option io :=
  if negb nonnull || (slave_cap <? 0) || (echo_cap <? 0) then None
  else Some (fold_left (input_char tp slave_cap echo_cap) input (mkIo ld [] [] 0)).

(** ** Output *)

Definition output_col (tp : termios) (c col : Z) : Z :=
  if c =? CR then 0 else if c =? NL then (if oflag tp ONLRET then 0 else col) else s32 (col + 1).

Definition output_char (tp : termios) (master_cap : Z) (s : tty_ldisc_state * list Z) (c : Z)
    : tty_ldisc_state * list Z :=
  let '(ld, out) := s in
  let set_col col := mkLd (canon ld) col (flow_stopped ld) in
  let plain c := (set_col (output_col tp c (out_col ld)), put master_cap out c) in
  if oflag tp OPOST then
    let c := if (c =? CR) && oflag tp OCRNL then NL else c in
    if (c =? CR) && oflag tp ONOCR && (out_col ld =? 0) then (ld, out)
    else if (c =? NL) && oflag tp ONLCR then
      (set_col 0, if len out + 2 <=? master_cap then out ++ [CR; NL] else out)
    else plain c
  else plain c.

Definition tty_ldisc_process_output (nonnull : bool) (tp : termios) (ld : tty_ldisc_state)
    (input : list Z) (master_cap : Z) : option (tty_ldisc_state * list Z) :=
  if negb nonnull || (master_cap <? 0) then None
  else Some (fold_left (output_char tp master_cap) input (ld, [])).

(** ** The discipline as a transducer

    What one input character does when the caller's buffers are large enough:
    the new state, the bytes for the reading program, the echo and the
    signal. *)

Definition echo_of (c : Z) : list Z := if c =? NL then [CR; NL] else [c].
Definition rubout : list Z := [BS; SP; BS].

Record reaction := mkReact {
  r_ld : tty_ldisc_state; r_out : list Z; r_echo : list Z; r_sig : option Z
}.

Definition quiet (ld : tty_ldisc_state) : reaction := mkReact ld [] [] None.

(** The line without its trailing blanks, and then without its last word. *)
Definition word_rubout (line : list Z) : list Z * Z :=
  let '(r, e) := drop_while (fun c => (c =? SP) || (c =? TAB)) (reverse line) 0 in
  let '(r, e) := drop_while ld_is_word_char r e in (reverse r, e).

Definition react_signal (tp : termios) (sig glyph : Z) (ld : tty_ldisc_state) : reaction :=
  mkReact (if negb (lflag tp NOFLSH) then set_canon ld [] else ld) []
    (if lflag tp ECHO && lflag tp ECHOCTL then echo_of 94 ++ echo_of glyph ++ echo_of NL else [])
    (Some sig).

Definition react_canonical (tp : termios) (ld : tty_ldisc_state) (c : Z) : reaction :=
  if lflag tp ISIG && (c =? cc tp VINTR) then react_signal tp SIGINT 67 ld
  else if lflag tp ISIG && (c =? cc tp VQUIT) then react_signal tp SIGQUIT 92 ld
  else if lflag tp ISIG && (c =? cc tp VSUSP) then react_signal tp SIGTSTP 90 ld
  else if c =? cc tp VERASE then
    match canon ld with
    | [] => quiet ld
    | _ :: _ => mkReact (set_canon ld (removelast (canon ld))) []
                  (if lflag tp ECHOE then rubout else if lflag tp ECHO then echo_of c else []) None
    end
  else if lflag tp IEXTEN && (c =? cc tp VWERASE) then
    let '(line, e) := word_rubout (canon ld) in
    mkReact (set_canon ld line) []
      (if lflag tp ECHOE && (e >? 0) then concat (replicate (Z.to_nat e) rubout)
       else if lflag tp ECHO then echo_of c else []) None
  else if lflag tp IEXTEN && (c =? cc tp VREPRINT) then
    mkReact ld []
      (if lflag tp ECHO
       then (if lflag tp ECHOCTL then echo_of 94 ++ echo_of 82 else echo_of c) ++ echo_of NL ++
            concat (echo_of <$> canon ld)
       else []) None
  else if c =? cc tp VKILL then
    mkReact (set_canon ld []) [] (if lflag tp ECHOK then echo_of NL else []) None
  else if c =? cc tp VEOF then mkReact (set_canon ld []) (canon ld) [] None
  else
    let room := len (canon ld) <? TTY_LDISC_CANON_BUFSZ in
    let line := if room then canon ld ++ [c] else canon ld in
    let echo := if room && (lflag tp ECHO || ((c =? NL) && lflag tp ECHONL)) then echo_of c else [] in
    if (c =? NL) || (c =? cc tp VEOL) || (c =? cc tp VEOL2)
    then mkReact (set_canon ld []) line echo None
    else mkReact (set_canon ld line) [] echo None.

Definition react (tp : termios) (ld : tty_ldisc_state) (c : Z) : reaction :=
  match map_input tp c with
  | None => quiet ld
  | Some c =>
      if iflag tp IXON && (c =? cc tp VSTOP) then quiet (mkLd (canon ld) (out_col ld) 1)
      else if iflag tp IXON && (c =? cc tp VSTART) then quiet (mkLd (canon ld) (out_col ld) 0)
      else if lflag tp ICANON then react_canonical tp ld c
      else mkReact ld [c] (if lflag tp ECHO then echo_of c else []) None
  end.

(** The transducer on a sequence of characters; the last signal counts. *)
Fixpoint react_all (tp : termios) (ld : tty_ldisc_state) (input : list Z) : reaction :=
  match input with
  | [] => quiet ld
  | c :: input =>
      let r1 := react tp ld c in
      let r2 := react_all tp (r_ld r1) input in
      mkReact (r_ld r2) (r_out r1 ++ r_out r2) (r_echo r1 ++ r_echo r2)
              (match r_sig r2 with Some s => Some s | None => r_sig r1 end)
  end.

Lemma react_all_app tp ld a b :
  react_all tp ld (a ++ b) =
    let r1 := react_all tp ld a in
    let r2 := react_all tp (r_ld r1) b in
    mkReact (r_ld r2) (r_out r1 ++ r_out r2) (r_echo r1 ++ r_echo r2)
            (match r_sig r2 with Some s => Some s | None => r_sig r1 end).
Proof.
  revert ld; induction a as [|c a IH]; intros ld; cbn.
  - destruct (react_all tp ld b) as [? ? ? []]; done.
  - rewrite IH. cbn. rewrite !app_assoc. f_equal. by destruct (r_sig (react_all tp _ b)).
Qed.

(** ** Bounded buffers only truncate *)

Definition trunc (cap : Z) (l : list Z) : list Z := take (Z.to_nat cap) l.

Lemma put_trunc cap l c : 0 <= cap -> put cap (trunc cap l) c = trunc cap (l ++ [c]).
Proof.
  intros Hc. unfold put, trunc, len. rewrite length_take.
  destruct (Z.ltb_spec (Z.of_nat (Z.to_nat cap `min` length l)) cap).
  - rewrite !take_ge by (rewrite ?length_app; cbn; lia). done.
  - by rewrite take_app_le by lia.
Qed.

Lemma fold_put_trunc cap l a : 0 <= cap -> fold_left (put cap) l (trunc cap a) = trunc cap (a ++ l).
Proof.
  intros Hc. revert a; induction l as [|c l IH]; intros a; cbn [fold_left].
  - by rewrite app_nil_r.
  - rewrite put_trunc, IH, <- app_assoc by done. done.
Qed.

Lemma echo_trunc cap l c : 0 <= cap -> ld_echo_char c cap (trunc cap l) = trunc cap (l ++ echo_of c).
Proof.
  intros Hc. unfold ld_echo_char, echo_of. destruct (c =? NL).
  - rewrite !put_trunc by done. by rewrite <- app_assoc.
  - rewrite <- put_trunc by done. unfold put. rewrite Z.geb_leb.
    destruct (Z.leb_spec cap (len (trunc cap l))), (Z.ltb_spec (len (trunc cap l)) cap); lia || done.
Qed.

Lemma rubout_trunc cap l : 0 <= cap -> ld_echo_erase_one cap (trunc cap l) = trunc cap (l ++ rubout).
Proof. intros. unfold ld_echo_erase_one. rewrite !echo_trunc, <- !app_assoc by done. done. Qed.

Section Simulation.
Context (tp : termios) (slave_cap echo_cap : Z) (Hs : 0 <= slave_cap) (He : 0 <= echo_cap).

(** The loop's variables when [O] and [E] would have been produced. *)
Definition emb (ld : tty_ldisc_state) (O E : list Z) (sig : Z) : io :=
  mkIo ld (trunc slave_cap O) (trunc echo_cap E) sig.

Lemma emb_echo ld O E sig c :
  echo_char echo_cap c (emb ld O E sig) = emb ld O (E ++ echo_of c) sig.
Proof. unfold echo_char, io_set_echo, emb; cbn [io_ld io_out io_echo io_sig]. by rewrite echo_trunc. Qed.

Lemma emb_rubout ld O E sig : echo_erase echo_cap (emb ld O E sig) = emb ld O (E ++ rubout) sig.
Proof. unfold echo_erase, io_set_echo, emb; cbn [io_ld io_out io_echo io_sig]. by rewrite rubout_trunc. Qed.

Lemma emb_rubouts n ld O E sig :
  Nat.iter n (echo_erase echo_cap) (emb ld O E sig) = emb ld O (E ++ concat (replicate n rubout)) sig.
Proof.
  revert E; induction n as [|n IH]; intros E; [by cbn; rewrite app_nil_r|].
  rewrite Nat.iter_succ_r, emb_rubout, IH, <- app_assoc. done.
Qed.

Lemma emb_echoes l ld O E sig :
  fold_left (fun s c => echo_char echo_cap c s) l (emb ld O E sig) =
  emb ld O (E ++ concat (echo_of <$> l)) sig.
Proof.
  revert E; induction l as [|c l IH]; intros E; [by cbn; rewrite app_nil_r|].
  cbn [fold_left fmap list_fmap concat]. by rewrite emb_echo, IH, <- app_assoc.
Qed.

Lemma emb_flush ld O E sig :
  flush_line slave_cap (emb ld O E sig) = emb (set_canon ld []) (O ++ canon ld) E sig.
Proof. unfold flush_line, emb; cbn. by rewrite fold_put_trunc. Qed.

Definition after_sig (sig : Z) (o : option Z) : Z := default sig o.

Lemma signal_sim sg glyph ld O E sig :
  signal_char tp echo_cap sg glyph (emb ld O E sig) =
    let r := react_signal tp sg glyph ld in emb (r_ld r) (O ++ r_out r) (E ++ r_echo r) sg.
Proof.
  unfold signal_char, react_signal. cbn -[echo_of]. change (mkIo ld _ _ sg) with (emb ld O E sg).
  destruct (lflag tp ECHO && lflag tp ECHOCTL); rewrite ?emb_echo, ?app_nil_r, <- ?app_assoc;
    destruct (negb (lflag tp NOFLSH)); done.
Qed.

Lemma canonical_sim c ld O E sig :
  canonical_char tp slave_cap echo_cap c (emb ld O E sig) =
    let r := react_canonical tp ld c in
    emb (r_ld r) (O ++ r_out r) (E ++ r_echo r) (after_sig sig (r_sig r)).
Proof.
  unfold canonical_char, react_canonical.
  destruct (lflag tp ISIG && (c =? cc tp VINTR)); [apply signal_sim|].
  destruct (lflag tp ISIG && (c =? cc tp VQUIT)); [apply signal_sim|].
  destruct (lflag tp ISIG && (c =? cc tp VSUSP)); [apply signal_sim|].
  destruct (c =? cc tp VERASE).
  { unfold erase_char. cbn [io_ld emb]. destruct (canon ld) as [|d l] eqn:Ec.
    - cbn. by rewrite !app_nil_r.
    - change (io_set_ld _ _) with (emb (set_canon ld (removelast (d :: l))) O E sig). cbv zeta.
      cbn [r_ld r_out r_echo r_sig after_sig default]. rewrite app_nil_r.
      destruct (lflag tp ECHOE); [by rewrite emb_rubout|].
      destruct (lflag tp ECHO); [by rewrite emb_echo|by rewrite app_nil_r]. }
  destruct (lflag tp IEXTEN && (c =? cc tp VWERASE)).
  { unfold word_erase, word_rubout. cbn [io_ld emb].
    destruct (drop_while _ (reverse (canon ld)) 0) as [r e]. destruct (drop_while _ r e) as [r' e'].
    change (io_set_ld _ _) with (emb (set_canon ld (reverse r')) O E sig). cbv zeta.
    cbn [r_ld r_out r_echo r_sig after_sig default]. rewrite app_nil_r.
    destruct (lflag tp ECHOE && (e' >? 0)); [by rewrite emb_rubouts|].
    destruct (lflag tp ECHO); [by rewrite emb_echo|by rewrite app_nil_r]. }
  destruct (lflag tp IEXTEN && (c =? cc tp VREPRINT)).
  { unfold reprint. cbn [r_ld r_out r_echo r_sig after_sig default]. cbv zeta.
    destruct (lflag tp ECHO); [|by rewrite !app_nil_r].
    destruct (lflag tp ECHOCTL); rewrite !emb_echo; cbn [io_ld emb]; fold (emb ld);
      rewrite ?emb_echoes, ?app_nil_r, <- ?app_assoc; try done. }
  destruct (c =? cc tp VKILL).
  { change (io_set_ld _ _) with (emb (set_canon ld []) O E sig). cbv zeta.
    cbn [r_ld r_out r_echo r_sig after_sig default]. rewrite app_nil_r.
    destruct (lflag tp ECHOK); [by rewrite emb_echo|by rewrite app_nil_r]. }
  destruct (c =? cc tp VEOF).
  { rewrite emb_flush. cbn. by rewrite app_nil_r. }
  unfold ld_store_canon. cbn [io_ld emb]. cbv zeta. rewrite Z.geb_leb.
  set (b := (c =? NL) || (c =? cc tp VEOL) || (c =? cc tp VEOL2)).
  set (q := lflag tp ECHO || ((c =? NL) && lflag tp ECHONL)).
  destruct (Z.leb_spec TTY_LDISC_CANON_BUFSZ (len (canon ld))),
    (Z.ltb_spec (len (canon ld)) TTY_LDISC_CANON_BUFSZ); try lia; cbn [andb].
  - change (io_set_ld _ ld) with (emb ld O E sig).
    destruct b; cbn [r_ld r_out r_echo r_sig after_sig default]; rewrite ?emb_flush, ?app_nil_r;
      [done|by destruct ld].
  - change (io_set_ld _ _) with (emb (set_canon ld (canon ld ++ [c])) O E sig).
    destruct q, b; cbn [r_ld r_out r_echo r_sig after_sig default];
      rewrite ?emb_echo, ?emb_flush, ?app_nil_r; done.
Qed.

Lemma input_sim c ld O E sig :
  input_char tp slave_cap echo_cap (emb ld O E sig) c =
    let r := react tp ld c in
    emb (r_ld r) (O ++ r_out r) (E ++ r_echo r) (after_sig sig (r_sig r)).
Proof.
  unfold input_char, react. destruct (map_input tp c) as [d|]; [|by cbn; rewrite !app_nil_r].
  destruct (iflag tp IXON && (d =? cc tp VSTOP)); [by cbn; rewrite !app_nil_r|].
  destruct (iflag tp IXON && (d =? cc tp VSTART)); [by cbn; rewrite !app_nil_r|].
  destruct (lflag tp ICANON); [apply canonical_sim|].
  unfold raw_char. cbn [io_ld io_out io_echo io_sig emb]. rewrite put_trunc by done.
  change (mkIo ld _ _ sig) with (emb ld (O ++ [d]) E sig). cbv zeta.
  cbn [r_ld r_out r_echo r_sig after_sig default].
  destruct (lflag tp ECHO); [by rewrite emb_echo|by rewrite app_nil_r].
Qed.

Lemma input_fold_sim input ld O E sig :
  fold_left (input_char tp slave_cap echo_cap) input (emb ld O E sig) =
    let r := react_all tp ld input in
    emb (r_ld r) (O ++ r_out r) (E ++ r_echo r) (after_sig sig (r_sig r)).
Proof.
  revert ld O E sig; induction input as [|c input IH]; intros ld O E sig.
  - cbn. by rewrite !app_nil_r.
  - cbn [fold_left react_all]. rewrite input_sim. cbv zeta. rewrite IH. cbv zeta.
    cbn [r_ld r_out r_echo r_sig]. rewrite <- !app_assoc.
    by destruct (r_sig (react_all tp (r_ld (react tp ld c)) input)).
Qed.
End Simulation.

Lemma drop_while_len p l e : len (fst (drop_while p l e)) <= len l.
Proof.
  revert e; induction l as [|c l IH]; intros e; cbn; [lia|].
  destruct (p c); [|cbn; lia]. specialize (IH (e + 1)). unfold len in *. cbn in *. lia.
Qed.

Lemma word_rubout_len line : len (fst (word_rubout line)) <= len line.
Proof.
  unfold word_rubout.
  pose proof (drop_while_len (fun c => (c =? SP) || (c =? TAB)) (reverse line) 0) as H1.
  destruct (drop_while _ (reverse line) 0) as [r e]. pose proof (drop_while_len ld_is_word_char r e) as H2.
  destruct (drop_while _ r e) as [r' e']. cbn in *. unfold len in *. rewrite !length_reverse in *. lia.
Qed.

Lemma removelast_len {A} (l : list A) : len (removelast l) <= len l.
Proof. rewrite removelast_firstn_len. unfold len. rewrite length_take. lia. Qed.

Lemma canonical_bound tp ld c :
  len (canon ld) <= TTY_LDISC_CANON_BUFSZ ->
  len (canon (r_ld (react_canonical tp ld c))) <= TTY_LDISC_CANON_BUFSZ.
Proof.
  intros Hl. unfold react_canonical, react_signal.
  assert (Hnil : len (@nil Z) <= TTY_LDISC_CANON_BUFSZ) by (vm_compute; discriminate).
  do 3 (destruct (lflag tp ISIG && _); [cbn [r_ld]; destruct (negb (lflag tp NOFLSH)); [exact Hnil|exact Hl]|]).
  destruct (c =? cc tp VERASE).
  { destruct (canon ld) as [|d l] eqn:E; [cbn [r_ld quiet]; by rewrite E|]. cbn [r_ld canon set_canon].
    pose proof (removelast_len (d :: l)). lia. }
  destruct (lflag tp IEXTEN && _).
  { pose proof (word_rubout_len (canon ld)). destruct (word_rubout (canon ld)). cbn in *. lia. }
  destruct (lflag tp IEXTEN && _); [exact Hl|]. destruct (c =? cc tp VKILL); [exact Hnil|].
  destruct (c =? cc tp VEOF); [exact Hnil|]. cbv zeta.
  destruct (_ || _ || _); [exact Hnil|]. cbn [r_ld canon set_canon].
  destruct (Z.ltb_spec (len (canon ld)) TTY_LDISC_CANON_BUFSZ); [|done].
  rewrite len_app. change (len [c]) with 1. lia.
Qed.

Lemma react_all_bound tp ld input :
  len (canon ld) <= TTY_LDISC_CANON_BUFSZ ->
  len (canon (r_ld (react_all tp ld input))) <= TTY_LDISC_CANON_BUFSZ.
Proof.
  revert ld; induction input as [|c input IH]; intros ld Hl; cbn [react_all r_ld quiet]; [done|].
  apply IH. unfold react. destruct (map_input tp c) as [d|]; [|done].
  destruct (_ && _); [done|]. destruct (_ && _); [done|].
  destruct (lflag tp ICANON); [by apply canonical_bound|done].
Qed.

(** C16.  [tty_ldisc_process_input] is the transducer [react_all] with its
    output and echo cut to the caller's buffers: for all settings and all
    input it never writes past either buffer nor past the 4096-byte line, the
    editing state and the signal do not depend on the capacities, and feeding
    the input in any two pieces gives the same state and the same streams. *)
Theorem process_input_refines tp ld a b slave_cap echo_cap :
  0 <= slave_cap -> 0 <= echo_cap -> len (canon ld) <= TTY_LDISC_CANON_BUFSZ ->
  let r := react_all tp ld (a ++ b) in
  tty_ldisc_process_input true tp ld (a ++ b) slave_cap echo_cap =
    Some (mkIo (r_ld r) (trunc slave_cap (r_out r)) (trunc echo_cap (r_echo r)) (default 0 (r_sig r))) /\
  len (trunc slave_cap (r_out r)) <= slave_cap /\ len (trunc echo_cap (r_echo r)) <= echo_cap /\
  len (canon (r_ld r)) <= TTY_LDISC_CANON_BUFSZ /\
  (let r1 := react_all tp ld a in let r2 := react_all tp (r_ld r1) b in
   r_ld r = r_ld r2 /\ r_out r = r_out r1 ++ r_out r2 /\ r_echo r = r_echo r1 ++ r_echo r2).
Proof.
  intros Hs He Hl r. split_and!.
  - unfold tty_ldisc_process_input.
    destruct (Z.ltb_spec slave_cap 0), (Z.ltb_spec echo_cap 0); try lia. cbn [negb orb]. f_equal.
    pose proof (input_fold_sim tp slave_cap echo_cap Hs He (a ++ b) ld [] [] 0) as H1.
    unfold emb, trunc in H1. rewrite !take_nil in H1. exact H1.
  - unfold trunc, len. rewrite length_take. lia.
  - unfold trunc, len. rewrite length_take. lia.
  - by apply react_all_bound.
  - unfold r. by rewrite react_all_app.
Qed.

Lemma process_input_refines_witness :
  tty_ldisc_process_input true cooked (mkLd [] 0 0) ([104; 105; 127] ++ [111; 13]) 2 100 =
    Some (mkIo (mkLd [] 0 0) [104; 111] [104; 105; 8; 32; 8; 111; 13; 10] 0).
Proof.
  destruct (process_input_refines cooked (mkLd [] 0 0) [104; 105; 127] [111; 13] 2 100) as [E _];
    [lia|lia|vm_compute; discriminate|]. exact E.
Defined.

(** ** Line editing *)

Inductive key := Type_ (c : Z) | Erase | WordErase | Kill.

Definition key_char (tp : termios) (k : key) : Z :=
  match k with
  | Type_ c => c
  | Erase => cc tp VERASE
  | WordErase => cc tp VWERASE
  | Kill => cc tp VKILL
  end.

(** What the user sees the line become. *)
Definition edit (line : list Z) (k : key) : list Z :=
  match k with
  | Type_ c => line ++ [c]
  | Erase => removelast line
  | WordErase => fst (word_rubout line)
  | Kill => []
  end.

(** The character reaches the line editor unchanged. *)
Definition reaches (tp : termios) (c : Z) : bool :=
  bool_decide (map_input tp c = Some c) &&
  negb (iflag tp IXON && ((c =? cc tp VSTOP) || (c =? cc tp VSTART))) &&
  negb (lflag tp ISIG && ((c =? cc tp VINTR) || (c =? cc tp VQUIT) || (c =? cc tp VSUSP))).

(** Neither an editing character nor an end of line or file. *)
Definition ordinary (tp : termios) (c : Z) : bool :=
  reaches tp c && negb (c =? cc tp VERASE) && negb (c =? cc tp VKILL) && negb (c =? cc tp VEOF) &&
  negb (lflag tp IEXTEN && ((c =? cc tp VWERASE) || (c =? cc tp VREPRINT))).

Definition line_end (tp : termios) (c : Z) : bool :=
  (c =? NL) || (c =? cc tp VEOL) || (c =? cc tp VEOL2).

(** The editing characters differ from each other and get through. *)
Definition keys_usable (tp : termios) : bool :=
  lflag tp ICANON && lflag tp IEXTEN &&
  reaches tp (cc tp VERASE) && reaches tp (cc tp VWERASE) && reaches tp (cc tp VKILL) &&
  negb (cc tp VWERASE =? cc tp VERASE) && negb (cc tp VKILL =? cc tp VERASE) &&
  negb (cc tp VKILL =? cc tp VWERASE) && negb (cc tp VKILL =? cc tp VREPRINT).

Definition key_ok (tp : termios) (k : key) : bool :=
  match k with Type_ c => ordinary tp c && negb (line_end tp c) | _ => true end.

Lemma react_reaches tp ld c :
  lflag tp ICANON = true -> reaches tp c = true ->
  react tp ld c = react_canonical tp ld c /\
  lflag tp ISIG && (c =? cc tp VINTR) = false /\ lflag tp ISIG && (c =? cc tp VQUIT) = false /\
  lflag tp ISIG && (c =? cc tp VSUSP) = false.
Proof.
  unfold reaches, react. intros Hc Hr.
  rewrite !andb_true_iff, bool_decide_eq_true, !negb_true_iff in Hr. destruct Hr as [[-> Hx] Hs].
  rewrite Hc. destruct (iflag tp IXON), (c =? cc tp VSTOP), (c =? cc tp VSTART), (lflag tp ISIG),
    (c =? cc tp VINTR), (c =? cc tp VQUIT), (c =? cc tp VSUSP); done.
Qed.

Lemma key_edits tp ld k :
  keys_usable tp = true -> key_ok tp k = true -> len (canon ld) < TTY_LDISC_CANON_BUFSZ ->
  let r := react tp ld (key_char tp k) in
  canon (r_ld r) = edit (canon ld) k /\ r_out r = [] /\ r_sig r = None.
Proof.
  unfold keys_usable. rewrite !andb_true_iff, !negb_true_iff. intros Hk Hok Hl.
  destruct Hk as [[[[[[[[Hc Hx] He] Hw] Hki] Hwe] Hke] Hkw] Hkr]. destruct k as [c| | |]; cbn [key_char].
  - cbn in Hok. unfold ordinary in Hok. rewrite !andb_true_iff, !negb_true_iff, Hx in Hok.
    destruct Hok as [[[[[Hr H1] H2] H3] H4] Hend].
    destruct (react_reaches tp ld c Hc Hr) as (-> & S1 & S2 & S3).
    unfold react_canonical, line_end in *. rewrite S1, S2, S3, H1, Hx, H2, H3.
    destruct (c =? cc tp VWERASE), (c =? cc tp VREPRINT); try discriminate. cbn [andb]. cbv zeta.
    rewrite Hend. destruct (Z.ltb_spec (len (canon ld)) TTY_LDISC_CANON_BUFSZ); [|lia]. done.
  - destruct (react_reaches tp ld _ Hc He) as (-> & S1 & S2 & S3).
    unfold react_canonical. rewrite S1, S2, S3, Z.eqb_refl. cbn [edit].
    destruct (canon ld) eqn:E; [cbn; by rewrite E|done].
  - destruct (react_reaches tp ld _ Hc Hw) as (-> & S1 & S2 & S3).
    unfold react_canonical. rewrite S1, S2, S3, Hwe, Hx, Z.eqb_refl. cbn [edit andb].
    by destruct (word_rubout (canon ld)).
  - destruct (react_reaches tp ld _ Hc Hki) as (-> & S1 & S2 & S3).
    unfold react_canonical. rewrite S1, S2, S3, Hke, Hx, Hkw, Hkr, Z.eqb_refl. done.
Qed.

Lemma edit_len line k : len (edit line k) <= len line + 1.
Proof.
  destruct k; cbn [edit].
  - rewrite len_app. change (len [c]) with 1. lia.
  - pose proof (removelast_len line). lia.
  - pose proof (word_rubout_len line). lia.
  - pose proof (len_nonneg line). change (len (@nil Z)) with 0. lia.
Qed.

Lemma keys_edit tp ks ld :
  keys_usable tp = true -> forallb (key_ok tp) ks = true ->
  len (canon ld) + len ks <= TTY_LDISC_CANON_BUFSZ ->
  let r := react_all tp ld (key_char tp <$> ks) in
  canon (r_ld r) = fold_left edit ks (canon ld) /\ r_out r = [] /\ r_sig r = None.
Proof.
  intros Hu. revert ld; induction ks as [|k ks IH]; intros ld Hks Hl; [done|].
  cbn [forallb] in Hks. apply andb_true_iff in Hks as [Hk Hks].
  unfold len in Hl at 2. cbn [length] in Hl. rewrite Nat2Z.inj_succ in Hl.
  destruct (key_edits tp ld k Hu Hk) as (E1 & E2 & E3); [unfold len in *; lia|].
  cbn [fmap list_fmap react_all r_ld r_out r_sig].
  destruct (IH (r_ld (react tp ld (key_char tp k))) Hks) as (F1 & F2 & F3).
  { rewrite E1. pose proof (edit_len (canon ld) k). unfold len in *. lia. }
  cbn [fold_left]. rewrite <- E1. split_and!; [done| |].
  - change (fmap (key_char tp) ks) with (key_char tp <$> ks) in *. by rewrite E2, F2.
  - by rewrite E3, F3.
Qed.

(** In canonical mode the reader gets the line as the user edited it: for
    any sequence of typed characters, erases, word erases and kills (fewer
    than 4096 of them, starting on an empty line) ended by a newline, the
    bytes delivered are the edited line and the newline, and the line buffer
    is empty again. *)
Theorem line_editing tp ks slave_cap echo_cap col flow :
  keys_usable tp = true -> forallb (key_ok tp) ks = true ->
  ordinary tp NL = true -> len ks < TTY_LDISC_CANON_BUFSZ ->
  len (fold_left edit ks []) < slave_cap -> 0 <= echo_cap ->
  exists s, tty_ldisc_process_input true tp (mkLd [] col flow) ((key_char tp <$> ks) ++ [NL])
              slave_cap echo_cap = Some s /\
    io_out s = fold_left edit ks [] ++ [NL] /\ canon (io_ld s) = [] /\ io_sig s = 0.
Proof.
  intros Hu Hks Hnl Hlen Hcap He. pose proof (len_nonneg (fold_left edit ks [])).
  destruct (keys_edit tp ks (mkLd [] col flow) Hu Hks) as (E1 & E2 & E3).
  { cbn [canon]. change (len (@nil Z)) with 0. lia. }
  cbn [canon] in E1. set (r1 := react_all tp (mkLd [] col flow) (key_char tp <$> ks)) in *.
  assert (Hline : len (canon (r_ld r1)) < TTY_LDISC_CANON_BUFSZ).
  { rewrite E1. clear -Hlen. enough (Hg : forall l, len (fold_left edit ks l) <= len l + len ks).
    { specialize (Hg []). change (len (@nil Z)) with 0 in Hg. lia. }
    clear Hlen. induction ks as [|k ks IH]; intros l; cbn [fold_left]; [unfold len; cbn; lia|].
    specialize (IH (edit l k)). pose proof (edit_len l k). unfold len in *; cbn [length]; lia. }
  assert (Hend : react tp (r_ld r1) NL =
            mkReact (set_canon (r_ld r1) []) (canon (r_ld r1) ++ [NL])
              (if lflag tp ECHO || lflag tp ECHONL then echo_of NL else []) None).
  { unfold keys_usable in Hu. rewrite !andb_true_iff in Hu. destruct_and! Hu.
    unfold ordinary in Hnl. rewrite !andb_true_iff, !negb_true_iff in Hnl.
    destruct Hnl as [[[[Hr H1'] H2'] H3'] H4'].
    destruct (react_reaches tp (r_ld r1) NL) as (-> & S1 & S2 & S3); [done..|].
    unfold react_canonical. rewrite S1, S2, S3, H1', H2', H3'.
    assert (Hn : lflag tp IEXTEN && (NL =? cc tp VWERASE) = false /\
                 lflag tp IEXTEN && (NL =? cc tp VREPRINT) = false).
    { destruct (lflag tp IEXTEN), (NL =? cc tp VWERASE), (NL =? cc tp VREPRINT); done. }
    destruct Hn as [-> ->]. cbv zeta.
    destruct (Z.ltb_spec (len (canon (r_ld r1))) TTY_LDISC_CANON_BUFSZ); [|lia].
    rewrite Z.eqb_refl. done. }
  unfold tty_ldisc_process_input.
  destruct (Z.ltb_spec slave_cap 0), (Z.ltb_spec echo_cap 0); try lia. cbn [negb orb].
  eexists. split; [reflexivity|].
  assert (Hs0 : 0 <= slave_cap) by lia.
  pose proof (input_fold_sim tp slave_cap echo_cap Hs0 He ((key_char tp <$> ks) ++ [NL]) (mkLd [] col flow)
    [] [] 0) as H4.
  unfold emb, trunc in H4. rewrite !take_nil in H4. rewrite H4. clear H4.
  rewrite react_all_app. fold r1. cbn [react_all r_ld r_out r_sig quiet]. rewrite Hend.
  cbn [r_ld r_out r_sig io_out io_ld io_sig canon set_canon app after_sig default].
  rewrite E2, E3, app_nil_r, E1. cbn [app default]. split_and!; [|done|done].
  apply take_ge. unfold len in *. rewrite length_app. cbn [length]. lia.
Qed.

Lemma line_editing_witness :
  let ks := [Type_ 108; Type_ 115; Type_ 32; Type_ 97; Type_ 98; WordErase; Type_ 120; Erase; Type_ 121] in
  exists s, tty_ldisc_process_input true cooked (mkLd [] 0 0) ((key_char cooked <$> ks) ++ [NL]) 100 100
              = Some s /\ io_out s = [108; 115; 32; 121; 10] /\ canon (io_ld s) = [] /\ io_sig s = 0.
Proof.
  intros ks. apply (line_editing cooked ks 100 100 0 0); try reflexivity. lia.
Defined.

(** A line longer than the pseudo-terminal's 1024-byte scratch buffer
    loses its end: the discipline edits lines of up to 4096 bytes, but the
    buffer [pty_write_chunk_locked] passes for a completed line has
    [2 * TTY_LDISC_SCRATCH_BUFSZ] bytes, so the reader gets the first 1024
    bytes without a newline and the rest, the newline included, is gone.  A
    full 4096-byte line loses its newline with a buffer of any size. *)
Theorem long_line_truncated ld :
  2 * TTY_LDISC_SCRATCH_BUFSZ <= len (canon ld) <= TTY_LDISC_CANON_BUFSZ ->
  let cap := 2 * TTY_LDISC_SCRATCH_BUFSZ in
  (exists s, tty_ldisc_process_input true cooked ld [NL] cap cap = Some s /\
     io_out s = take 1024 (canon ld) /\ canon (io_ld s) = []) /\
  (len (canon ld) = TTY_LDISC_CANON_BUFSZ -> forall cap', TTY_LDISC_CANON_BUFSZ <= cap' ->
     exists s, tty_ldisc_process_input true cooked ld [NL] cap' cap = Some s /\
       io_out s = canon ld /\ canon (io_ld s) = []).
Proof.
  intros Hl cap. change (2 * TTY_LDISC_SCRATCH_BUFSZ) with 1024 in *.
  unfold TTY_LDISC_CANON_BUFSZ in *.
  assert (Hrun : forall c, 0 <= c -> exists s,
    tty_ldisc_process_input true cooked ld [NL] c cap = Some s /\
    io_out s = trunc c (if len (canon ld) <? 4096 then canon ld ++ [NL] else canon ld) /\
    canon (io_ld s) = []).
  { intros c Hc. unfold tty_ldisc_process_input.
    destruct (Z.ltb_spec c 0); [lia|]. cbn [negb orb]. change (cap <? 0) with false. cbn [orb].
    eexists. split; [reflexivity|].
    pose proof (input_fold_sim cooked c cap Hc ltac:(unfold cap; lia) [NL] ld [] [] 0) as H1.
    unfold emb, trunc in H1. rewrite !take_nil in H1. rewrite H1.
    cbn [react_all r_out r_ld io_out io_ld quiet app]. rewrite app_nil_r. split; done. }
  split.
  - destruct (Hrun 1024) as (s & E & Ho & Hc); [lia|]. exists s. split_and!; [done| |done].
    rewrite Ho. unfold trunc. change (Z.to_nat 1024) with 1024%nat.
    destruct (len (canon ld) <? 4096); [|done]. apply take_app_le. unfold len in *. lia.
  - intros Hfull cap' Hcap. destruct (Hrun cap') as (s & E & Ho & Hc); [lia|].
    exists s. split_and!; [done| |done]. rewrite Ho, Hfull. change (4096 <? 4096) with false.
    unfold trunc. apply take_ge. unfold len in *. lia.
Qed.

(** Three chunks of 512 characters make such a line. *)
Definition typed (n : nat) (ld : tty_ldisc_state) : tty_ldisc_state :=
  match tty_ldisc_process_input true cooked ld (replicate n 97) 1024 1024 with
  | Some s => io_ld s
  | None => ld
  end.

Lemma long_line_truncated_witness :
  let ld := typed 512 (typed 512 (typed 512 (mkLd [] 0 0))) in
  let cap := 2 * TTY_LDISC_SCRATCH_BUFSZ in
  exists s, tty_ldisc_process_input true cooked ld [NL] cap cap = Some s /\
    io_out s = take 1024 (canon ld) /\ canon (io_ld s) = [].
Proof.
  intros ld. refine (proj1 (long_line_truncated ld _)). vm_compute. split; discriminate.
Defined.

(** ** Output *)

(** What one character of output becomes at a column, and the next column. *)
Definition out_of (tp : termios) (col c : Z) : list Z * Z :=
  if oflag tp OPOST then
    let c := if (c =? CR) && oflag tp OCRNL then NL else c in
    if (c =? CR) && oflag tp ONOCR && (col =? 0) then ([], col)
    else if (c =? NL) && oflag tp ONLCR then ([CR; NL], 0)
    else ([c], output_col tp c col)
  else ([c], output_col tp c col).

Fixpoint out_all (tp : termios) (col : Z) (input : list Z) : list Z * Z :=
  match input with
  | [] => ([], col)
  | c :: input =>
      let '(o, col) := out_of tp col c in
      let '(o', col) := out_all tp col input in (o ++ o', col)
  end.

Lemma output_step tp cap ld out c :
  len out + 2 <= cap ->
  output_char tp cap (ld, out) c =
    (mkLd (canon ld) (snd (out_of tp (out_col ld) c)) (flow_stopped ld),
     out ++ fst (out_of tp (out_col ld) c)) /\
  len (fst (out_of tp (out_col ld) c)) <= 2.
Proof.
  intros Hr. unfold output_char, out_of. assert (Hput : forall c, put cap out c = out ++ [c]).
  { intros d. unfold put. destruct (Z.ltb_spec (len out) cap); [done|lia]. }
  destruct (oflag tp OPOST); cbv zeta.
  - set (d := if (c =? CR) && oflag tp OCRNL then NL else c). clearbody d.
    destruct ((d =? CR) && oflag tp ONOCR && (out_col ld =? 0)); [cbn [fst snd]|].
    { rewrite app_nil_r. destruct ld. split; [done|]. unfold len; cbn; lia. }
    destruct ((d =? NL) && oflag tp ONLCR); cbn [fst snd].
    + destruct (Z.leb_spec (len out + 2) cap); [|lia]. split; [done|]. unfold len; cbn; lia.
    + rewrite Hput. split; [done|]. unfold len; cbn; lia.
  - rewrite Hput. cbn [fst snd]. split; [done|]. unfold len; cbn; lia.
Qed.

Lemma output_fold tp cap input ld out :
  len out + 2 * len input <= cap ->
  fold_left (output_char tp cap) input (ld, out) =
    (mkLd (canon ld) (snd (out_all tp (out_col ld) input)) (flow_stopped ld),
     out ++ fst (out_all tp (out_col ld) input)) /\
  len (fst (out_all tp (out_col ld) input)) <= 2 * len input.
Proof.
  revert ld out; induction input as [|c input IH]; intros ld out Hr.
  - cbn. rewrite app_nil_r. destruct ld. split; [done|]. unfold len; cbn; lia.
  - assert (Hc : len (c :: input) = len input + 1) by (unfold len; cbn [length]; lia).
    rewrite Hc in *. pose proof (len_nonneg input).
    destruct (output_step tp cap ld out c) as [E El]; [lia|]. cbn [fold_left out_all]. rewrite E.
    destruct (out_of tp (out_col ld) c) as [o col]. cbn [fst snd] in *.
    destruct (IH (mkLd (canon ld) col (flow_stopped ld)) (out ++ o)) as [F Fl].
    { rewrite len_app. lia. }
    rewrite F. cbn [canon out_col flow_stopped] in *.
    destruct (out_all tp col input) as [o' col']. cbn [fst snd] in *.
    rewrite <- app_assoc, len_app. split; [done|lia].
Qed.

(** Program output is never dropped by the pseudo-terminal: a chunk of at
    most [TTY_LDISC_SCRATCH_BUFSZ] bytes, translated into the buffer of twice
    that size which the pseudo-terminal uses, gives exactly the translation of
    every byte, and the editing state is untouched; with the settings of a
    new terminal the translation is the text with each newline preceded by a
    carriage return. *)
Theorem process_output_complete tp ld input :
  len input <= TTY_LDISC_SCRATCH_BUFSZ ->
  let '(out, col) := out_all tp (out_col ld) input in
  tty_ldisc_process_output true tp ld input (TTY_LDISC_SCRATCH_BUFSZ * 2) =
    Some (mkLd (canon ld) col (flow_stopped ld), out) /\
  len out <= 2 * len input /\
  (tp = cooked -> out = concat ((fun c => if c =? NL then [CR; NL] else [c]) <$> input)).
Proof.
  intros Hl. destruct (output_fold tp (TTY_LDISC_SCRATCH_BUFSZ * 2) input ld []) as [E El].
  { change (len (@nil Z)) with 0. lia. }
  destruct (out_all tp (out_col ld) input) as [out col] eqn:Eo. cbn [fst snd app] in *.
  split_and!; [unfold tty_ldisc_process_output; cbn [negb orb]; by rewrite E|done|].
  intros ->. clear - Eo. revert Eo. generalize (out_col ld) as k. revert out col.
  induction input as [|c input IH]; intros out col k Eo; cbn in Eo; [by simplify_eq|].
  cbn [fmap list_fmap concat].
  destruct (out_of cooked k c) as [o k1] eqn:E1.
  destruct (out_all cooked k1 input) as [o' k2] eqn:E2. simplify_eq. f_equal; [|by eapply IH].
  unfold out_of in E1. change (oflag cooked OPOST) with true in E1.
  change (oflag cooked OCRNL) with false in E1. change (oflag cooked ONOCR) with false in E1.
  change (oflag cooked ONLCR) with true in E1. rewrite !andb_false_r, andb_true_r in E1.
  cbn [andb] in E1. destruct (c =? NL); by simplify_eq.
Qed.

Lemma process_output_complete_witness :
  tty_ldisc_process_output true cooked (mkLd [] 0 0) [97; 10; 98] 1024 =
    Some (mkLd [] 1 0, [97; 13; 10; 98]).
Proof.
  exact (proj1 (process_output_complete cooked (mkLd [] 0 0) [97; 10; 98]
    ltac:(vm_compute; discriminate))).
Defined.
