(* ===== verification/Kalloc.v ===== *)
(** * The physical page allocator: [src/kernel/core/kalloc.c] and
    [src/kernel/core/pagedb.c]

    Free pages are on a global list, linked through the pages themselves, and
    in per-CPU caches; every page has a reference count, kept in [kpage_meta]
    during boot and in the page database once [pagedb_init] has run.  A page is
    named by its kernel virtual address.

    The state is one record.  A list of the code that is threaded through the
    pages is the list of their addresses, in order; an address that is not a
    page stands for a corrupt pointer, and ends the list.  A CPU's cache is a
    stack, its top first.  [None] is a panic.  Each call runs to completion
    before the next one: the locks and disabled interrupts appear as that. *)

From S2P Require Import Prelude.

Definition PHYSTOP : Z := 536870912.
Definition NPAGE : Z := PHYSTOP / PGSIZE.
Definition BOOT_EARLY_PHYSTOP : Z := 16777216.

Definition KALLOC_CPU_CACHE : Z := 32.
Definition KALLOC_PCPU_LOW_WATER : Z := 8.
Definition KALLOC_PCPU_HIGH_WATER : Z := 28.
Definition KALLOC_PCPU_REFILL_TRIGGER : Z := 4.
Definition KALLOC_REFILL_BATCH : Z := 16.
Definition KALLOC_DRAIN_BATCH : Z := 16.
Definition KALLOC_GLOBAL_RESERVE : Z := 256.

Definition KPAGE_MANAGED : Z := 1.
Definition KPAGE_FREE : Z := 2.
Definition PAGE_MANAGED : Z := 1.
Definition PAGE_PINNED : Z := 2.
Definition PAGE_RESERVED : Z := 4.
Definition PAGE_FREE : Z := 8.

Definition V2P (v : Z) : Z := v -u KERNBASE.
Definition P2V (pa : Z) : Z := pa +u KERNBASE.

(** [struct kpage_meta], and the fields of [struct page_descriptor] that change. *)
Record meta := mkMeta { refcount : Z; flags : Z }.

(** The counters of [kmem] that only statistics read, in the order of the structure. *)
Definition ALLOC_CALLS : nat := 0.
Definition FREE_CALLS : nat := 1.
Definition CACHE_ALLOC_HITS : nat := 2.
Definition CACHE_ALLOC_MISSES : nat := 3.
Definition CACHE_FREE_INSERTS : nat := 4.
Definition REFILL_BATCHES : nat := 5.
Definition REFILL_PAGES : nat := 6.
Definition DRAIN_BATCHES : nat := 7.
Definition DRAIN_PAGES : nat := 8.
Definition REF_INCREMENTS : nat := 9.
Definition DEFERRED_FREES : nat := 10.
Definition INVALID_CACHE_DROPS : nat := 11.
Definition INVALID_GLOBAL_DROPS : nat := 12.
Definition HEAD_RESETS : nat := 13.
Definition DUPLICATE_FREES : nat := 14.
Definition CONTIG_DROPS : nat := 15.

Record kmem := mkK {
  kmeta : gmap Z meta;          (* kpage_meta[] *)
  pg_ready : bool;
  pg_array : gmap Z meta;       (* pg_array[] *)
  use_lock : bool;
  freelist : list Z;
  caches : list (list Z);       (* cpus[].kfree_cache *)
  total_pages : Z;
  free_pages : Z;
  stats : list Z
}.

Definition set_kmeta (k : kmem) (m : gmap Z meta) : kmem :=
  mkK m (pg_ready k) (pg_array k) (use_lock k) (freelist k) (caches k) (total_pages k) (free_pages k) (stats k).
Definition set_pg (k : kmem) (m : gmap Z meta) : kmem :=
  mkK (kmeta k) (pg_ready k) m (use_lock k) (freelist k) (caches k) (total_pages k) (free_pages k) (stats k).
Definition set_freelist (k : kmem) (l : list Z) : kmem :=
  mkK (kmeta k) (pg_ready k) (pg_array k) (use_lock k) l (caches k) (total_pages k) (free_pages k) (stats k).
Definition set_free_pages (k : kmem) (n : Z) : kmem :=
  mkK (kmeta k) (pg_ready k) (pg_array k) (use_lock k) (freelist k) (caches k) (total_pages k) n (stats k).
Definition set_total_pages (k : kmem) (n : Z) : kmem :=
  mkK (kmeta k) (pg_ready k) (pg_array k) (use_lock k) (freelist k) (caches k) n (free_pages k) (stats k).
Definition set_caches (k : kmem) (c : list (list Z)) : kmem :=
  mkK (kmeta k) (pg_ready k) (pg_array k) (use_lock k) (freelist k) c (total_pages k) (free_pages k) (stats k).
Definition bump (c : nat) (n : Z) (k : kmem) : kmem :=
  mkK (kmeta k) (pg_ready k) (pg_array k) (use_lock k) (freelist k) (caches k) (total_pages k) (free_pages k)
      (alter (fun x => x +u n) c (stats k)).

(** [kpage_meta[i]] and [pg_array[i]]; both arrays start zeroed. *)
Definition meta_at (k : kmem) (i : Z) : meta := default (mkMeta 0 0) (kmeta k !! i).
Definition desc_at (k : kmem) (i : Z) : meta := default (mkMeta 0 0) (pg_array k !! i).
Definition upd_meta (i : Z) (f : meta -> meta) (k : kmem) : kmem :=
  set_kmeta k (<[i := f (meta_at k i)]> (kmeta k)).
Definition upd_desc (i : Z) (f : meta -> meta) (k : kmem) : kmem :=
  set_pg k (<[i := f (desc_at k i)]> (pg_array k)).

Definition set_flag (m : Z) (d : meta) : meta := mkMeta (refcount d) (Z.lor (flags d) m).
Definition clear_flag (m : Z) (d : meta) : meta := mkMeta (refcount d) (Z.ldiff (flags d) m).
Definition set_refs (n : Z) (d : meta) : meta := mkMeta n (flags d).

(** ** The page database *)

(** The index of [pgdesc_by_pa]'s descriptor; [None] is NULL. *)
Definition pgdesc_by_pa (k : kmem) (pa : Z) : option Z :=
  if negb (pg_ready k) || (pa >=? PHYSTOP) then None
  else let pfn := pa / PGSIZE in if pfn >=? NPAGE then None else Some pfn.

Definition with_desc (k : kmem) (pa : Z) (f : meta -> meta) : kmem :=
  match pgdesc_by_pa k pa with None => k | Some i => upd_desc i f k end.

Definition pagedb_mark_managed_pa (pa : Z) (k : kmem) : kmem := with_desc k pa (set_flag PAGE_MANAGED).
Definition pagedb_refcount_pa (k : kmem) (pa : Z) : Z :=
  match pgdesc_by_pa k pa with None => 0 | Some i => refcount (desc_at k i) end.
Definition pagedb_set_refcount_pa (pa refs : Z) (k : kmem) : kmem := with_desc k pa (set_refs refs).
Definition pagedb_mark_free_pa (pa : Z) (k : kmem) : kmem := with_desc k pa (set_flag PAGE_FREE).
Definition pagedb_mark_allocated_pa (pa : Z) (k : kmem) : kmem :=
  with_desc k pa (fun d => set_flag PAGE_MANAGED (clear_flag PAGE_FREE d)).
Definition pagedb_ready (k : kmem) : bool := pg_ready k.

(** ** Page metadata *)

(** The index of [kpage_meta_pa]'s entry; [None] is NULL. *)
Definition kpage_meta_pa (pa : Z) : option Z :=
  if pa >=? PHYSTOP then None else Some (pa / PGSIZE).

Definition kpage_mark_managed (pa : Z) (k : kmem) : option kmem :=
  match kpage_meta_pa pa with
  | None => None
  | Some i =>
      let k := upd_meta i (fun _ => mkMeta 1 KPAGE_MANAGED) k in
      Some (pagedb_set_refcount_pa pa 1 (pagedb_mark_allocated_pa pa (pagedb_mark_managed_pa pa k)))
  end.

Definition kpage_refcount (k : kmem) (pa : Z) : Z :=
  if pagedb_ready k then pagedb_refcount_pa k pa
  else match kpage_meta_pa pa with
       | None => 0
       | Some i => if flag (flags (meta_at k i)) KPAGE_MANAGED then refcount (meta_at k i) else 0
       end.

Definition kpage_is_managed (k : kmem) (pa : Z) : bool :=
  match kpage_meta_pa pa with
  | None => false
  | Some i => flag (flags (meta_at k i)) KPAGE_MANAGED
  end.

(** The count after the drop. *)
Definition kpage_drop_ref (pa : Z) (k : kmem) : option (Z * kmem) :=
  match kpage_meta_pa pa with
  | None => None
  | Some i =>
      if negb (flag (flags (meta_at k i)) KPAGE_MANAGED) then None
      else if pagedb_ready k then
        let refs := pagedb_refcount_pa k pa in
        if refs =? 0 then None
        else Some (refs - 1, pagedb_set_refcount_pa pa (refs - 1) k)
      else
        let refs := refcount (meta_at k i) in
        if refs =? 0 then None
        else Some (refs - 1, upd_meta i (set_refs (refs - 1)) k)
  end.

Definition kpage_incref (pa : Z) (k : kmem) : option kmem :=
  match kpage_meta_pa pa with
  | None => None
  | Some i =>
      if negb (flag (flags (meta_at k i)) KPAGE_MANAGED) then None
      else
        match (if pagedb_ready k then
                 let refs := pagedb_refcount_pa k pa in
                 if refs =? 0 then None else Some (pagedb_set_refcount_pa pa (refs +u 1) k)
               else
                 let refs := refcount (meta_at k i) in
                 if refs =? 0 then None else Some (upd_meta i (set_refs (refs +u 1)) k)) with
        | None => None
        | Some k => Some (bump REF_INCREMENTS 1 (upd_meta i (clear_flag KPAGE_FREE) k))
        end
  end.

(** The last steps of every allocation: the page is taken. *)
Definition mark_allocated (pa i : Z) (k : kmem) : kmem :=
  let k := upd_meta i (clear_flag KPAGE_FREE) k in
  let k := if pagedb_ready k then k else upd_meta i (set_refs 1) k in
  pagedb_set_refcount_pa pa 1 (pagedb_mark_allocated_pa pa k).

Section Allocator.

(** [end_]: the first address after the kernel image; [writable]:
    [kaddr_writable_current_pgdir] of the page-table code; [meta_base]: the
    address of [kpage_meta]. *)
Context (end_ : Z) (writable : Z -> bool) (meta_base : Z).

Definition meta_addr (i : Z) : Z := meta_base + 8 * i.

Definition kalloc_runptr_valid (r : Z) : bool :=
  if r =? 0 then false
  else if negb (r mod PGSIZE =? 0) then false
  else if r <? end_ then false
  else if V2P r >=? PHYSTOP then false
  else true.

Definition kalloc_free_run_valid (k : kmem) (r : Z) : bool :=
  if negb (kalloc_runptr_valid r) then false
  else
    match kpage_meta_pa (V2P r) with
    | None => false
    | Some i =>
        if negb (writable (meta_addr i)) then false
        else if negb (flag (flags (meta_at k i)) KPAGE_MANAGED) then false
        else if negb (flag (flags (meta_at k i)) KPAGE_FREE) then false
        else if negb (kpage_refcount k (V2P r) =? 0) then false
        else if negb (writable r) then false
        else true
    end.

(** ** Per-CPU caches *)

Definition cache_of (k : kmem) (c : nat) : list Z := default [] (caches k !! c).
Definition set_cache (c : nat) (l : list Z) (k : kmem) : kmem := set_caches k (<[c := l]> (caches k)).

(** Pops until a valid page; the pages dropped are counted. *)
Fixpoint pop_loop (k : kmem) (c : nat) (l : list Z) : option Z * kmem :=
  match l with
  | [] => (None, set_cache c [] k)
  | r :: l =>
      if kalloc_free_run_valid k r then (Some r, set_cache c l k)
      else pop_loop (bump INVALID_CACHE_DROPS 1 k) c l
  end.
Definition kalloc_cache_pop_valid (c : nat) (k : kmem) : option Z * kmem := pop_loop k c (cache_of k c).

Definition kalloc_pick_refill_goal (local_count : Z) : Z :=
  let goal := KALLOC_REFILL_BATCH in
  let goal := if local_count <? KALLOC_PCPU_LOW_WATER then
                let need := KALLOC_PCPU_LOW_WATER - local_count in
                if goal <? need then need else goal
              else goal in
  let goal := if goal <? 1 then 1 else goal in
  let goal := if goal >? KALLOC_CPU_CACHE - local_count then KALLOC_CPU_CACHE - local_count else goal in
  if goal <? 1 then 1 else goal.

(** The batch taken from the global list, in pop order, and the state. *)
Fixpoint refill_loop (k : kmem) (goal : nat) (fl : list Z) : list Z * kmem :=
  match goal with
  | O => ([], set_freelist k fl)
  | S goal =>
      match fl with
      | [] => ([], set_freelist k [])
      | r :: rest =>
          if negb (kalloc_free_run_valid k r) then
            ([], bump HEAD_RESETS 1 (set_freelist (bump INVALID_GLOBAL_DROPS 1 k) []))
          else
            match rest with
            | next :: _ =>
                if negb (kalloc_runptr_valid next) then
                  ([r], set_freelist (bump HEAD_RESETS 1 (bump INVALID_GLOBAL_DROPS 1 k)) [])
                else let '(b, k) := refill_loop k goal rest in (r :: b, k)
            | [] => ([r], set_freelist k [])
            end
      end
  end.

Definition kalloc_refill_local (c : nat) (k : kmem) : Z * kmem :=
  let cache := cache_of k c in
  if len cache >=? KALLOC_PCPU_LOW_WATER then (0, k)
  else
    let goal := kalloc_pick_refill_goal (len cache) in
    let can_take := s32 (free_pages k) - KALLOC_GLOBAL_RESERVE in
    let can_take := if can_take <? 1 then 1 else can_take in
    let goal := if goal >? can_take then can_take else goal in
    let '(batch, k) := refill_loop k (Z.to_nat goal) (freelist k) in
    let k := if len batch >? 0 then bump REFILL_PAGES (len batch) (bump REFILL_BATCHES 1 k) else k in
    (len batch, set_cache c (batch ++ cache_of k c) k).

(** [if(kmem.freelist && !kalloc_runptr_valid(kmem.freelist)) ...] *)
Definition check_head (k : kmem) : kmem :=
  match freelist k with
  | r :: _ => if negb (kalloc_runptr_valid r) then bump HEAD_RESETS 1 (set_freelist k []) else k
  | [] => k
  end.

Fixpoint drain_loop (drain : nat) (c : nat) (k : kmem) (i : Z) : Z * kmem :=
  match drain with
  | O => (i, k)
  | S drain =>
      match kalloc_cache_pop_valid c k with
      | (None, k) => (i, k)
      | (Some p, k) => drain_loop drain c (set_freelist k (p :: freelist k)) (i + 1)
      end
  end.

Definition kalloc_drain_local (c : nat) (k : kmem) : kmem :=
  if len (cache_of k c) <? KALLOC_PCPU_HIGH_WATER then k
  else
    let drain := len (cache_of k c) - KALLOC_PCPU_LOW_WATER in
    let drain := if drain >? KALLOC_DRAIN_BATCH then KALLOC_DRAIN_BATCH else drain in
    if drain <? 1 then k
    else
      let '(i, k) := drain_loop (Z.to_nat drain) c (check_head k) 0 in
      bump DRAIN_PAGES i (bump DRAIN_BATCHES 1 k).

(** ** Freeing *)

(** The page is on no list yet: put it on one. *)
Definition kfree_insert (c : nat) (r : Z) (k : kmem) : option kmem :=
  if negb (use_lock k) then
    let k := check_head k in
    Some (set_free_pages (set_freelist k (r :: freelist k)) (free_pages k +u 1))
  else
    let k := kalloc_drain_local c k in
    let k :=
      if len (cache_of k c) >=? KALLOC_CPU_CACHE then
        let k := check_head k in
        if len (cache_of k c) >? 0 then
          match kalloc_cache_pop_valid c k with
          | (Some p, k) => bump DRAIN_PAGES 1 (bump DRAIN_BATCHES 1 (set_freelist k (p :: freelist k)))
          | (None, k) => k
          end
        else k
      else k in
    if len (cache_of k c) >=? KALLOC_CPU_CACHE then None
    else
      let k := bump CACHE_FREE_INSERTS 1 (set_cache c (r :: cache_of k c) k) in
      Some (set_free_pages k (free_pages k +u 1)).

Definition kfree (c : nat) (v : Z) (k : kmem) : option kmem :=
  if negb (v mod PGSIZE =? 0) || (v <? end_) || (V2P v >=? PHYSTOP) then None
  else
    let pa := V2P v in
    match kpage_meta_pa pa with
    | None => None
    | Some i =>
        if negb (writable (meta_addr i)) || negb (flag (flags (meta_at k i)) KPAGE_MANAGED) then None
        else if kpage_refcount k pa =? 0 then
          if flag (flags (meta_at k i)) KPAGE_FREE then Some (bump DUPLICATE_FREES 1 k) else None
        else
          match kpage_drop_ref pa (bump FREE_CALLS 1 k) with
          | None => None
          | Some (refs, k) =>
              if refs >? 0 then Some (bump DEFERRED_FREES 1 k)
              else
                let k := pagedb_mark_free_pa pa (upd_meta i (set_flag KPAGE_FREE) k) in
                if negb (kalloc_runptr_valid v) then None else kfree_insert c v k
          end
    end.

(** ** Allocating *)

(** The page popped is marked taken. *)
Definition take_page (r : Z) (k : kmem) : option kmem :=
  let pa := V2P r in
  match kpage_meta_pa pa with
  | None => None
  | Some i =>
      if negb (writable (meta_addr i)) || negb (flag (flags (meta_at k i)) KPAGE_MANAGED) then None
      else Some (mark_allocated pa i k)
  end.

(** The page, 0 for none, and the state. *)
Definition kalloc_legacy_page (c : nat) (k : kmem) : option (Z * kmem) :=
  let k := bump ALLOC_CALLS 1 k in
  if negb (use_lock k) then
    match freelist k with
    | [] => Some (0, k)
    | r :: rest =>
        if negb (kalloc_free_run_valid k r) then None
        else
          let k := set_freelist k rest in
          let k := if free_pages k >? 0 then set_free_pages k (free_pages k - 1) else k in
          match take_page r k with None => None | Some k => Some (r, k) end
    end
  else
    let k := if len (cache_of k c) <=? KALLOC_PCPU_REFILL_TRIGGER
             then snd (kalloc_refill_local c k) else k in
    match kalloc_cache_pop_valid c k with
    | (Some r, k) =>
        let k := bump CACHE_ALLOC_HITS 1 k in
        let k := set_free_pages k (free_pages k -u 1) in
        match take_page r k with None => None | Some k => Some (r, k) end
    | (None, k) =>
        let k := bump CACHE_ALLOC_MISSES 1 k in
        let '(n, k) := kalloc_refill_local c k in
        if (n >? 0) && (len (cache_of k c) >? 0) then
          match kalloc_cache_pop_valid c k with
          | (None, k) => Some (0, k)
          | (Some r, k) =>
              let k := set_free_pages k (free_pages k -u 1) in
              match take_page r k with None => None | Some k => Some (r, k) end
          end
        else Some (0, k)
    end.

(** The scan of the global list for a run of pages, each one page below the
    one before it: the list as the scan leaves it, and the position of the run
    when there is one.  [i] is the position of [fl] in the list, [head] the
    start of the current run, [run_len] its length. *)
Fixpoint contig_scan (k : kmem) (npages : Z) (i : nat) (fl : list Z)
    (head : nat) (run_len last_pa : Z) (drops : Z) : list Z * option nat * Z :=
  match fl with
  | [] => ([], None, drops)
  | r :: rest =>
      if negb (kalloc_free_run_valid k r) then ([], None, drops + 1)
      else
        let bad_next := match rest with next :: _ => negb (kalloc_runptr_valid next) | [] => false end in
        let drops := if bad_next then drops + 1 else drops in
        let pa := V2P r in
        let ok := match kpage_meta_pa pa with
                  | None => false
                  | Some j => flag (flags (meta_at k j)) KPAGE_MANAGED && flag (flags (meta_at k j)) KPAGE_FREE
                  end in
        let '(head, run_len, last_pa) :=
          if ok then
            if run_len =? 0 then (i, 1, pa)
            else if (pa +u PGSIZE) =? last_pa then (head, run_len + 1, pa)
            else (i, 1, pa)
          else (0%nat, 0, 0) in
        if ok && (run_len =? npages)
        then (r :: (if bad_next then [] else rest), Some head, drops)
        else if bad_next then ([r], None, drops)
        else
          let '(l, found, drops) := contig_scan k npages (S i) rest head run_len last_pa drops in
          (r :: l, found, drops)
  end.

Fixpoint contig_mark (run : list Z) (k : kmem) : option kmem :=
  match run with
  | [] => Some k
  | r :: run =>
      match kpage_meta_pa (V2P r) with
      | None => None
      | Some i =>
          if negb (flag (flags (meta_at k i)) KPAGE_MANAGED) then None
          else contig_mark run (mark_allocated (V2P r) i k)
      end
  end.

(** The base of the run, its last page on the list. *)
Definition kalloc_contiguous (npages : Z) (c : nat) (k : kmem) : option (Z * kmem) :=
  if npages =? 0 then Some (0, k)
  else if npages =? 1 then kalloc_legacy_page c k
  else
    let k := bump ALLOC_CALLS 1 k in
    if negb (use_lock k) then Some (0, k)
    else
      let '(fl, found, drops) := contig_scan k npages 0 (freelist k) 0 0 0 0 in
      let k := bump CONTIG_DROPS drops (set_freelist k fl) in
      match found with
      | None => Some (0, k)
      | Some h =>
          let n := Z.to_nat npages in
          let run := take n (drop h fl) in
          let k := set_freelist k (take h fl ++ drop (h + n) fl) in
          match contig_mark run k with
          | None => None
          | Some k =>
              let k := if free_pages k >=? npages then set_free_pages k (free_pages k - npages)
                       else set_free_pages k 0 in
              Some (default 0 (last run), k)
          end
      end.

(** ** Sequences of calls *)

(** A call by a client, on a CPU.  [kpage_incref] takes a physical address. *)
Inductive call := CAlloc (c : nat) | CFree (c : nat) (v : Z) | CIncref (v : Z).

(** The results, 0 for a call that returns nothing, and the final state;
    [None] when a call panics. *)
Fixpoint exec (cs : list call) (k : kmem) : option (list Z * kmem) :=
  match cs with
  | [] => Some ([], k)
  | x :: cs =>
      match (match x with
             | CAlloc c => kalloc_legacy_page c k
             | CFree c v => match kfree c v k with None => None | Some k => Some (0, k) end
             | CIncref v => match kpage_incref (V2P v) k with None => None | Some k => Some (0, k) end
             end) with
      | None => None
      | Some (r, k) => match exec cs k with None => None | Some (rs, k) => Some (r :: rs, k) end
      end
  end.

(** ** Boot *)

Definition PGROUNDUP (sz : Z) : Z := Z.land (sz +u (PGSIZE - 1)) 4294963200.

Fixpoint freerange_loop (n : nat) (p : Z) (k : kmem) : option kmem :=
  match n with
  | O => Some k
  | S n =>
      match kpage_mark_managed (V2P p) k with
      | None => None
      | Some k =>
          match kfree 0 p (set_total_pages k (total_pages k +u 1)) with
          | None => None
          | Some k => freerange_loop n (p + PGSIZE) k
          end
      end
  end.

(** [for(; p + PGSIZE <= vend; p += PGSIZE)] runs once per whole page. *)
Definition freerange (vstart vend : Z) (k : kmem) : option kmem :=
  let p := PGROUNDUP vstart in
  freerange_loop (Z.to_nat ((vend - p) / PGSIZE)) p k.

Definition set_use_lock (b : bool) (k : kmem) : kmem :=
  mkK (kmeta k) (pg_ready k) (pg_array k) b (freelist k) (caches k) (total_pages k) (free_pages k) (stats k).

Definition kinit1 (vstart vend : Z) (k : kmem) : option kmem := freerange vstart vend (set_use_lock false k).

Definition kinit2 (vstart vend : Z) (k : kmem) : option kmem :=
  match freerange vstart vend k with None => None | Some k => Some (set_use_lock true k) end.

(** [pagedb_init] after the descriptors have been allocated at [base]: one
    descriptor's initial value. *)
Definition desc_init (k : kmem) (base pg_npages i : Z) : meta :=
  let f := if (V2P base / PGSIZE <=? i) && (i <? V2P base / PGSIZE + pg_npages) then PAGE_RESERVED else 0 in
  if kpage_is_managed k (i * PGSIZE) then
    let refs := kpage_refcount k (i * PGSIZE) in
    mkMeta refs (if refs =? 0 then Z.lor (Z.lor f PAGE_MANAGED) PAGE_FREE else Z.lor f PAGE_MANAGED)
  else mkMeta 0 f.

Definition seqZ_pages : list Z := Z.of_nat <$> seq 0 (Z.to_nat NPAGE).

Definition set_ready (m : gmap Z meta) (k : kmem) : kmem :=
  mkK (kmeta k) true m (use_lock k) (freelist k) (caches k) (total_pages k) (free_pages k) (stats k).

Definition pagedb_init (c : nat) (k : kmem) : option kmem :=
  if pg_ready k then Some k
  else
    let pg_bytes := NPAGE * 12 in
    let pg_npages := (pg_bytes + PGSIZE - 1) / PGSIZE in
    match kalloc_contiguous pg_npages c k with
    | None => None
    | Some (base, k) =>
        if base =? 0 then None
        else Some (set_ready (list_to_map ((fun i => (i, desc_init k base pg_npages i)) <$> seqZ_pages)) k)
    end.
End Allocator.

(** ** What the allocator needs of the page tables *)

(** The kernel image lies in the direct map, and the direct map (pages and the
    metadata array) is writable in every address space. *)
Class KernelMap (end_ : Z) (writable : Z -> bool) (meta_base : Z) : Prop := {
  km_end : KERNBASE <= end_;
  km_page v : is_u32 v -> kalloc_runptr_valid end_ v = true -> writable v = true;
  km_meta i : 0 <= i < NPAGE -> writable (meta_addr meta_base i) = true
}.

Section Proofs.
Context {end_ : Z} {writable : Z -> bool} {meta_base : Z} {KM : KernelMap end_ writable meta_base}.

Abbreviation run_ok := (kalloc_free_run_valid end_ writable meta_base).

(** The address of a page of the allocator's range. *)
Definition page (v : Z) : Prop := is_u32 v /\ kalloc_runptr_valid end_ v = true.

Definition idx (v : Z) : Z := V2P v / PGSIZE.

(** The reference count of a page, whether the allocator manages it, and its
    free mark. *)
Definition refs (k : kmem) (v : Z) : Z := kpage_refcount k (V2P v).
Definition managed (k : kmem) (v : Z) : bool := flag (flags (meta_at k (idx v))) KPAGE_MANAGED.
Definition marked_free (k : kmem) (v : Z) : bool := flag (flags (meta_at k (idx v))) KPAGE_FREE.

(** All free pages: on the global list and in the caches. *)
Definition frees (k : kmem) : list Z := freelist k ++ concat (caches k).

Lemma page_spec v : page v ->
  v mod PGSIZE = 0 /\ end_ <= v /\ V2P v = v - KERNBASE /\ 0 <= v - KERNBASE < PHYSTOP /\ v <> 0.
Proof.
  intros [Hu Hv]. unfold kalloc_runptr_valid in Hv. rewrite Z.geb_leb in Hv.
  pose proof (km_end (KernelMap := KM)). unfold is_u32 in Hu.
  destruct (Z.eqb_spec v 0), (Z.eqb_spec (v mod PGSIZE) 0), (Z.ltb_spec v end_),
    (Z.leb_spec PHYSTOP (V2P v)); cbn [negb] in Hv; try discriminate.
  assert (E : V2P v = v - KERNBASE) by (apply u32_small; unfold is_u32, KERNBASE in *; lia).
  rewrite E in *. split_and!; try lia.
Qed.

Lemma page_idx v : page v -> 0 <= idx v < NPAGE /\ kpage_meta_pa (V2P v) = Some (idx v) /\
  (forall k, pg_ready k = true -> pgdesc_by_pa k (V2P v) = Some (idx v)).
Proof.
  intros Hp. destruct (page_spec v Hp) as (Hm & _ & E & Hr & _).
  assert (Hi : 0 <= idx v < NPAGE).
  { unfold idx. rewrite E. unfold NPAGE. split; [apply Z.div_pos; unfold PGSIZE; lia|].
    apply Z.div_lt_upper_bound; [unfold PGSIZE; lia|].
    change (PGSIZE * (PHYSTOP / PGSIZE)) with PHYSTOP. lia. }
  split_and!; [lia|lia| |].
  - unfold kpage_meta_pa. rewrite E, Z.geb_leb. destruct (Z.leb_spec PHYSTOP (v - KERNBASE)); [lia|].
    unfold idx. by rewrite E.
  - intros k Hk. unfold pgdesc_by_pa. rewrite Hk, E, !Z.geb_leb.
    destruct (Z.leb_spec PHYSTOP (v - KERNBASE)); [lia|]. cbn [negb orb].
    unfold idx in Hi. rewrite E in Hi. destruct (Z.leb_spec NPAGE ((v - KERNBASE) / PGSIZE)); [lia|].
    unfold idx. by rewrite E.
Qed.

Lemma idx_inj v w : page v -> page w -> idx v = idx w -> v = w.
Proof.
  intros Hv Hw. destruct (page_spec v Hv) as (Hm & _ & E & Hr & _).
  destruct (page_spec w Hw) as (Hm' & _ & E' & Hr' & _). unfold idx. rewrite E, E'.
  unfold PGSIZE, KERNBASE in *. intros H. mlia.
Qed.

(** The count in terms of the entries. *)
Lemma refs_spec k v : page v ->
  refs k v = if pg_ready k then refcount (desc_at k (idx v))
             else if managed k v then refcount (meta_at k (idx v)) else 0.
Proof.
  intros Hp. destruct (page_idx v Hp) as (_ & Hm & Hd). unfold refs, kpage_refcount, pagedb_ready.
  destruct (pg_ready k) eqn:Er.
  - unfold pagedb_refcount_pa. by rewrite Hd.
  - by rewrite Hm.
Qed.

(** [k'] has the metadata of [k]. *)
Definition same_meta (k k' : kmem) : Prop :=
  kmeta k' = kmeta k /\ pg_ready k' = pg_ready k /\ pg_array k' = pg_array k.

Lemma same_refs k k' v : same_meta k k' -> refs k' v = refs k v.
Proof.
  intros (E1 & E2 & E3). unfold refs, kpage_refcount, pagedb_ready, pagedb_refcount_pa, pgdesc_by_pa,
    desc_at, meta_at. by rewrite E1, E2, E3.
Qed.
Lemma same_managed k k' v : same_meta k k' -> managed k' v = managed k v.
Proof. intros (E1 & _ & _). unfold managed, meta_at. by rewrite E1. Qed.
Lemma same_marked k k' v : same_meta k k' -> marked_free k' v = marked_free k v.
Proof. intros (E1 & _ & _). unfold marked_free, meta_at. by rewrite E1. Qed.

Lemma run_ok_spec k v : page v ->
  run_ok k v = managed k v && marked_free k v && (refs k v =? 0).
Proof.
  intros Hp. destruct (page_idx v Hp) as (Hi & Hm & _). unfold kalloc_free_run_valid.
  rewrite (proj2 Hp), Hm, (km_meta (KernelMap := KM)), (km_page (KernelMap := KM)) by (apply Hp || done).
  cbn [negb]. fold (managed k v) (marked_free k v) (refs k v).
  by destruct (managed k v), (marked_free k v), (refs k v =? 0).
Qed.

Lemma same_run_ok k k' v : same_meta k k' -> page v -> run_ok k' v = run_ok k v.
Proof.
  intros Hs Hp. rewrite !run_ok_spec by done.
  by rewrite (same_managed k), (same_marked k), (same_refs k).
Qed.

(** ** The invariant *)

Record inv (k : kmem) : Prop := {
  inv_nodup : NoDup (frees k);
  inv_free v : v ∈ frees k -> page v /\ managed k v = true /\ marked_free k v = true /\ refs k v = 0;
  inv_leak v : page v -> managed k v = true -> refs k v = 0 -> v ∈ frees k;
  inv_count : free_pages k = len (frees k);
  inv_cache l : l ∈ caches k -> len l <= KALLOC_CPU_CACHE;
  inv_early : use_lock k = false -> concat (caches k) = [];
  inv_refs v : page v -> is_u32 (refs k v);
  inv_desc v : pg_ready k = true -> page v -> managed k v = true ->
    flag (flags (desc_at k (idx v))) PAGE_FREE = (refs k v =? 0)
}.

Lemma pages_bound l : NoDup l -> (forall v, v ∈ l -> page v) -> len l <= NPAGE.
Proof.
  intros Hn Hp. assert (Hn' : NoDup (idx <$> l)).
  { apply NoDup_fmap_2_strong; [|done]. intros v w Hv Hw. apply idx_inj; auto. }
  assert (Hsub : (idx <$> l) ⊆+ seqZ 0 NPAGE).
  { apply NoDup_submseteq; [done|]. intros i Hi. apply list_elem_of_fmap in Hi as (v & -> & Hv).
    apply elem_of_seqZ. destruct (page_idx v (Hp v Hv)) as (? & _). lia. }
  apply submseteq_length in Hsub. rewrite length_fmap, length_seqZ in Hsub. unfold len.
  assert (0 <= NPAGE) by (vm_compute; discriminate). lia.
Qed.

(** ** Moving pages between the lists *)

(** Only the distribution of the free pages over the lists may differ. *)
Record moved (k k' : kmem) : Prop := {
  mv_meta : same_meta k k';
  mv_frees : frees k' ≡ₚ frees k;
  mv_count : free_pages k' = free_pages k;
  mv_lock : use_lock k' = use_lock k;
  mv_ncpu : length (caches k') = length (caches k);
  mv_cache : (forall l, l ∈ caches k -> len l <= KALLOC_CPU_CACHE) ->
             forall l, l ∈ caches k' -> len l <= KALLOC_CPU_CACHE
}.

Lemma moved_refl k : moved k k.
Proof. split; try done. Qed.
Lemma moved_trans k1 k2 k3 : moved k1 k2 -> moved k2 k3 -> moved k1 k3.
Proof.
  intros [(?&?&?) ? ? ? ? ?] [(?&?&?) ? ? ? ? ?]. split; try congruence; auto.
  - split_and!; congruence.
  - by etransitivity.
Qed.
Lemma moved_bump c n k : moved k (bump c n k).
Proof. split; try done. Qed.
Hint Resolve moved_refl moved_bump : core.

Definition lists_ok (k : kmem) : Prop := forall v, v ∈ frees k -> page v /\ run_ok k v = true.
Definition cpu_ok (k : kmem) (c : nat) : Prop := (c < length (caches k))%nat.

Lemma inv_lists k : inv k -> lists_ok k.
Proof.
  intros Hi v Hv. destruct (inv_free k Hi v Hv) as (Hp & Hm & Hf & Hr). split; [done|].
  by rewrite run_ok_spec, Hm, Hf, Hr.
Qed.

Lemma moved_lists k k' : moved k k' -> lists_ok k -> lists_ok k'.
Proof.
  intros Hm Hl v Hv. rewrite (mv_frees _ _ Hm) in Hv. destruct (Hl v Hv) as [Hp Hr]. split; [done|].
  by rewrite (same_run_ok k k' v (mv_meta _ _ Hm) Hp).
Qed.
Lemma moved_cpu k k' c : moved k k' -> cpu_ok k c -> cpu_ok k' c.
Proof. intros Hm. unfold cpu_ok. by rewrite (mv_ncpu _ _ Hm). Qed.

Lemma cache_lookup k c : cpu_ok k c -> caches k !! c = Some (cache_of k c).
Proof. intros Hc. unfold cache_of. destruct (lookup_lt_is_Some_2 _ _ Hc) as [l ->]. done. Qed.
Lemma cache_of_set c l k : cpu_ok k c -> cache_of (set_cache c l k) c = l.
Proof. intros Hc. unfold cache_of, set_cache; cbn. by rewrite list_lookup_insert_eq. Qed.

Lemma concat_split (ls : list (list Z)) c l :
  ls !! c = Some l -> exists rest, concat ls ≡ₚ l ++ rest /\ forall l', concat (<[c := l']> ls) ≡ₚ l' ++ rest.
Proof.
  intros Hl. exists (concat (take c ls) ++ concat (drop (S c) ls)).
  assert (Hc : (c < length ls)%nat) by (by eapply lookup_lt_Some).
  assert (H : forall l', concat (<[c := l']> ls) ≡ₚ l' ++ concat (take c ls) ++ concat (drop (S c) ls)).
  { intros l'. rewrite insert_take_drop by done. rewrite concat_app. cbn [concat].
    by rewrite Permutation_app_swap_app. }
  split; [|done]. rewrite <- (list_insert_id ls c l Hl) at 1. apply H.
Qed.

(** The free pages with the cache of one CPU singled out. *)
Lemma frees_split k c : cpu_ok k c ->
  exists rest, frees k ≡ₚ cache_of k c ++ freelist k ++ rest /\
    forall l f, frees (set_cache c l (set_freelist k f)) ≡ₚ l ++ f ++ rest.
Proof.
  intros Hc. destruct (concat_split (caches k) c _ (cache_lookup k c Hc)) as (rest & H1 & H2).
  exists rest. unfold frees; cbn. split.
  - rewrite H1. by rewrite Permutation_app_swap_app.
  - intros l f. rewrite H2. by rewrite Permutation_app_swap_app.
Qed.

Lemma set_cache_freelist c l f k :
  set_freelist (set_cache c l k) f = set_cache c l (set_freelist k f).
Proof. done. Qed.

(** A new cache and a new global list with the same pages. *)
Lemma moved_set k c l f :
  cpu_ok k c -> l ++ f ≡ₚ cache_of k c ++ freelist k -> len l <= KALLOC_CPU_CACHE ->
  moved k (set_cache c l (set_freelist k f)).
Proof.
  intros Hc Hp Hl. destruct (frees_split k c Hc) as (rest & H1 & H2). split; try done.
  - rewrite H2, H1, !app_assoc. by rewrite Hp.
  - unfold set_cache; cbn. apply length_insert.
  - intros Hk l' Hl'. unfold set_cache in Hl'; cbn in Hl'.
    apply list_elem_of_lookup in Hl' as [i Hi].
    apply list_lookup_insert_Some in Hi as [(-> & -> & _)|(_ & Hi)]; [done|].
    apply Hk. by eapply list_elem_of_lookup_2.
Qed.

Lemma cache_in_frees k c v : cpu_ok k c -> v ∈ cache_of k c -> v ∈ frees k.
Proof.
  intros Hc Hv. destruct (frees_split k c Hc) as (rest & H1 & _). rewrite H1. set_solver.
Qed.

Lemma pop_spec k c : lists_ok k -> cpu_ok k c ->
  kalloc_cache_pop_valid end_ writable meta_base c k =
    match cache_of k c with [] => (None, k) | r :: l => (Some r, set_cache c l k) end.
Proof.
  intros Hl Hc. unfold kalloc_cache_pop_valid. destruct (cache_of k c) as [|r l] eqn:E; cbn.
  - f_equal. unfold set_cache, set_caches. rewrite list_insert_id; [by destruct k|].
    by rewrite (cache_lookup k c Hc), E.
  - destruct (Hl r) as [_ ->]; [|done]. apply (cache_in_frees k c); [done|]. rewrite E. set_solver.
Qed.

Lemma refill_loop_spec k goal fl :
  (forall v, v ∈ fl -> page v /\ run_ok k v = true) ->
  refill_loop end_ writable meta_base k goal fl = (take goal fl, set_freelist k (drop goal fl)).
Proof.
  revert fl; induction goal as [|goal IH]; intros fl Hfl; cbn [refill_loop]; [by rewrite take_0, drop_0|].
  destruct fl as [|r rest]; [done|]. destruct (Hfl r) as [_ ->]; [set_solver|]. cbn [negb].
  destruct rest as [|next rest]; [cbn; by rewrite take_nil, drop_nil|].
  destruct (Hfl next) as [Hp _]; [set_solver|]. rewrite (proj2 Hp). cbn [negb].
  rewrite IH by (intros; apply Hfl; set_solver). done.
Qed.

Lemma refill_goal_spec n : 0 <= n -> 1 <= kalloc_pick_refill_goal n /\
  (n < KALLOC_PCPU_LOW_WATER -> kalloc_pick_refill_goal n <= KALLOC_CPU_CACHE - n).
Proof.
  intros Hn. unfold kalloc_pick_refill_goal, KALLOC_REFILL_BATCH, KALLOC_PCPU_LOW_WATER, KALLOC_CPU_CACHE.
  rewrite !Z.gtb_ltb. cbv zeta.
  repeat match goal with |- context [?a <? ?b] => destruct (Z.ltb_spec a b) end; lia.
Qed.

Lemma refill_spec k c : lists_ok k -> cpu_ok k c ->
  let '(n, k') := kalloc_refill_local end_ writable meta_base c k in
  moved k k' /\ (cache_of k c = [] -> freelist k <> [] -> cache_of k' c <> [] /\ 0 < n) /\
  (freelist k = [] -> cache_of k' c = cache_of k c) /\
  (cache_of k c <> [] -> cache_of k' c <> []).
Proof.
  intros Hl Hc. unfold kalloc_refill_local. rewrite Z.geb_leb. pose proof (len_nonneg (cache_of k c)) as H0.
  destruct (Z.leb_spec KALLOC_PCPU_LOW_WATER (len (cache_of k c))) as [Hge|Hlt].
  { split_and!; auto. intros E. rewrite E in Hge. unfold KALLOC_PCPU_LOW_WATER, len in Hge; cbn in Hge. lia. }
  destruct (refill_goal_spec (len (cache_of k c)) H0) as [Hg1 Hg2]. specialize (Hg2 Hlt).
  set (ct := if s32 (free_pages k) - KALLOC_GLOBAL_RESERVE <? 1 then 1
             else s32 (free_pages k) - KALLOC_GLOBAL_RESERVE).
  assert (Hct : 1 <= ct) by (unfold ct; destruct (Z.ltb_spec (s32 (free_pages k) - KALLOC_GLOBAL_RESERVE) 1); lia).
  set (goal := if kalloc_pick_refill_goal (len (cache_of k c)) >? ct then ct
               else kalloc_pick_refill_goal (len (cache_of k c))).
  assert (Hgoal : 1 <= goal <= KALLOC_CPU_CACHE - len (cache_of k c)).
  { unfold goal. destruct (Z.gtb_spec (kalloc_pick_refill_goal (len (cache_of k c))) ct); lia. }
  clearbody goal ct. rewrite refill_loop_spec; [|intros v Hv; apply Hl; unfold frees; set_solver].
  set (n := Z.to_nat goal). set (b := take n (freelist k)).
  set (k1 := if len b >? 0 then _ else _).
  assert (Hk1 : exists st, set_cache c (b ++ cache_of k1 c) k1 =
     mkK (kmeta k) (pg_ready k) (pg_array k) (use_lock k) (drop n (freelist k))
         (<[c := b ++ cache_of k c]> (caches k)) (total_pages k) (free_pages k) st).
  { unfold k1. destruct (len b >? 0); by eexists. }
  destruct Hk1 as [st ->].
  assert (Hlen : len (b ++ cache_of k c) <= KALLOC_CPU_CACHE).
  { rewrite len_app. unfold b, n, len in *. rewrite length_take. lia. }
  assert (Hmv : moved k (set_cache c (b ++ cache_of k c) (set_freelist k (drop n (freelist k))))).
  { apply moved_set; [done| |done]. unfold b.
    rewrite (Permutation_app_comm (take n (freelist k))), <- app_assoc, take_drop. done. }
  assert (Hco : cache_of (mkK (kmeta k) (pg_ready k) (pg_array k) (use_lock k) (drop n (freelist k))
         (<[c := b ++ cache_of k c]> (caches k)) (total_pages k) (free_pages k) st) c = b ++ cache_of k c).
  { unfold cache_of; cbn. by rewrite list_lookup_insert_eq. }
  rewrite Hco. split_and!.
  - destruct Hmv as [A1 A2 A3 A4 A5 A6]. split; try done.
  - intros E Hne. rewrite E, app_nil_r. unfold b. destruct (freelist k) as [|r rest]; [done|].
    destruct n as [|n'] eqn:En; [lia|]. split; [done|]. unfold len; cbn. lia.
  - intros E. unfold b. by rewrite E, take_nil.
  - intros Hne E. apply app_nil in E as [_ E]. done.
Qed.

(** ** Updating one page's entries *)

(** Only the entries of page [v] differ. *)
Record only (v : Z) (k k' : kmem) : Prop := {
  on_lists : freelist k' = freelist k /\ caches k' = caches k /\ free_pages k' = free_pages k /\
             use_lock k' = use_lock k /\ pg_ready k' = pg_ready k;
  on_meta i : i <> idx v -> meta_at k' i = meta_at k i;
  on_desc i : i <> idx v -> desc_at k' i = desc_at k i
}.

Lemma only_refl v k : only v k k.
Proof. by split. Qed.
Lemma only_trans v k1 k2 k3 : only v k1 k2 -> only v k2 k3 -> only v k1 k3.
Proof.
  intros [(?&?&?&?&?) ? ?] [(?&?&?&?&?) Hm Hd]. split.
  - split_and!; congruence.
  - intros i Hi. rewrite Hm; auto.
  - intros i Hi. rewrite Hd; auto.
Qed.
Lemma only_bump v c n k : only v k (bump c n k).
Proof. by split. Qed.

Lemma meta_upd i j f k : meta_at (upd_meta i f k) j = if bool_decide (i = j) then f (meta_at k i) else meta_at k j.
Proof.
  unfold meta_at, upd_meta; cbn. case_bool_decide; subst; [by rewrite lookup_insert_eq|by rewrite lookup_insert_ne].
Qed.
Lemma desc_upd i j f k : desc_at (upd_desc i f k) j = if bool_decide (i = j) then f (desc_at k i) else desc_at k j.
Proof.
  unfold desc_at, upd_desc; cbn. case_bool_decide; subst; [by rewrite lookup_insert_eq|by rewrite lookup_insert_ne].
Qed.

Lemma only_upd_meta v f k : only v k (upd_meta (idx v) f k).
Proof. split; [done| |done]. intros i Hi. rewrite meta_upd. by rewrite bool_decide_eq_false_2. Qed.
Lemma only_with_desc v f k : page v -> only v k (with_desc k (V2P v) f).
Proof.
  intros Hp. destruct (page_idx v Hp) as (_ & _ & Hd). unfold with_desc.
  destruct (pg_ready k) eqn:Er; [rewrite Hd by done|unfold pgdesc_by_pa; rewrite Er; apply only_refl].
  split; [done|done|]. intros i Hi. rewrite desc_upd. by rewrite bool_decide_eq_false_2.
Qed.
Lemma with_desc_meta k pa f i : meta_at (with_desc k pa f) i = meta_at k i.
Proof. unfold with_desc. by destruct (pgdesc_by_pa k pa). Qed.
Lemma with_desc_at k v f : page v ->
  desc_at (with_desc k (V2P v) f) (idx v) =
    if pg_ready k then f (desc_at k (idx v)) else desc_at k (idx v).
Proof.
  intros Hp. destruct (page_idx v Hp) as (_ & _ & Hd). unfold with_desc. destruct (pg_ready k) eqn:Er.
  - rewrite Hd by done. rewrite desc_upd. by rewrite bool_decide_eq_true_2.
  - unfold pgdesc_by_pa. by rewrite Er.
Qed.

(** Other pages look the same. *)
Lemma only_other v k k' w : only v k k' -> page v -> page w -> w <> v ->
  refs k' w = refs k w /\ managed k' w = managed k w /\ marked_free k' w = marked_free k w /\
  desc_at k' (idx w) = desc_at k (idx w).
Proof.
  intros Ho Hv Hw Hne. assert (Hi : idx w <> idx v) by (intros E; by apply idx_inj in E).
  destruct Ho as [(_&_&_&_&Hr) Hm Hd]. rewrite !refs_spec by done. unfold managed, marked_free.
  by rewrite Hr, Hm, Hd.
Qed.

Lemma set_flag_on d m n : 0 <= n -> flag (flags (set_flag (2 ^ n) d)) (2 ^ m) =
  if bool_decide (n = m) then true else flag (flags d) (2 ^ m).
Proof.
  intros Hn. cbn [set_flag flags]. destruct (Z.lt_ge_cases m 0) as [Hm|Hm].
  { rewrite (Z.pow_neg_r 2 m) by lia. unfold flag. rewrite !Z.land_0_r. by rewrite bool_decide_eq_false_2 by lia. }
  rewrite !flag_bit, Z.lor_spec, Z.pow2_bits_eqb by lia.
  destruct (Z.eqb_spec n m), (bool_decide_reflect (n = m)); try done; [apply orb_true_r|apply orb_false_r].
Qed.
Lemma clear_flag_on d m n : 0 <= n -> flag (flags (clear_flag (2 ^ n) d)) (2 ^ m) =
  if bool_decide (n = m) then false else flag (flags d) (2 ^ m).
Proof.
  intros Hn. cbn [clear_flag flags]. destruct (Z.lt_ge_cases m 0) as [Hm|Hm].
  { rewrite (Z.pow_neg_r 2 m) by lia. unfold flag. rewrite !Z.land_0_r. by rewrite bool_decide_eq_false_2 by lia. }
  rewrite !flag_bit, Z.ldiff_spec, Z.pow2_bits_eqb by lia.
  destruct (Z.eqb_spec n m), (bool_decide_reflect (n = m)); try done; cbn; [apply andb_false_r|apply andb_true_r].
Qed.

Lemma set_free_flags d :
  flag (flags (set_flag KPAGE_FREE d)) KPAGE_MANAGED = flag (flags d) KPAGE_MANAGED /\
  flag (flags (set_flag KPAGE_FREE d)) KPAGE_FREE = true /\
  flag (flags (set_flag PAGE_FREE d)) PAGE_FREE = true.
Proof.
  split_and!; [apply (set_flag_on d 0 1)|apply (set_flag_on d 1 1)|apply (set_flag_on d 3 3)]; lia.
Qed.
Lemma clear_free_flags d :
  flag (flags (clear_flag KPAGE_FREE d)) KPAGE_MANAGED = flag (flags d) KPAGE_MANAGED /\
  flag (flags (clear_flag KPAGE_FREE d)) KPAGE_FREE = false /\
  flag (flags (set_flag PAGE_MANAGED (clear_flag PAGE_FREE d))) PAGE_FREE = false.
Proof.
  split_and!; [apply (clear_flag_on d 0 1)|apply (clear_flag_on d 1 1)|]; [lia..|].
  etransitivity; [apply (set_flag_on (clear_flag PAGE_FREE d) 3 0); lia|].
  apply (clear_flag_on d 3 3). lia.
Qed.

Lemma mark_allocated_spec k v : page v -> managed k v = true ->
  let k' := mark_allocated (V2P v) (idx v) k in
  only v k k' /\ managed k' v = true /\ marked_free k' v = false /\ refs k' v = 1 /\
  (pg_ready k = true -> flag (flags (desc_at k' (idx v))) PAGE_FREE = false).
Proof.
  intros Hp Hm k'. unfold k', mark_allocated, pagedb_ready, pagedb_set_refcount_pa, pagedb_mark_allocated_pa.
  set (k1 := upd_meta (idx v) (clear_flag KPAGE_FREE) k).
  set (k2 := if pg_ready k1 then k1 else upd_meta (idx v) (set_refs 1) k1).
  assert (Ho : only v k k2).
  { eapply only_trans; [apply (only_upd_meta v (clear_flag KPAGE_FREE))|]. fold k1. unfold k2.
    destruct (pg_ready k1); [apply only_refl|apply only_upd_meta]. }
  assert (Hr2 : pg_ready k2 = pg_ready k) by (apply (on_lists _ _ _ Ho)).
  assert (Hmeta : flags (meta_at k2 (idx v)) = flags (clear_flag KPAGE_FREE (meta_at k (idx v))) /\
                  (pg_ready k = false -> refcount (meta_at k2 (idx v)) = 1)).
  { unfold k2. change (pg_ready k1) with (pg_ready k). destruct (pg_ready k);
      unfold k1; rewrite !meta_upd, !bool_decide_eq_true_2 by done; done. }
  set (k3 := with_desc k2 (V2P v) _). set (k4 := with_desc k3 (V2P v) _).
  assert (Ho4 : only v k k4).
  { eapply only_trans; [exact Ho|]. eapply only_trans; by apply only_with_desc. }
  assert (Hm4 : meta_at k4 (idx v) = meta_at k2 (idx v)) by (unfold k4, k3; by rewrite !with_desc_meta).
  assert (Hr3 : pg_ready k3 = pg_ready k) by (rewrite <- Hr2; apply (on_lists _ _ _ (only_with_desc v _ k2 Hp))).
  assert (Hr4 : pg_ready k4 = pg_ready k) by (apply (on_lists _ _ _ Ho4)).
  destruct (clear_free_flags (meta_at k (idx v))) as (F1 & F2 & _).
  assert (Hmg : managed k4 v = true).
  { unfold managed. rewrite Hm4, (proj1 Hmeta), F1. exact Hm. }
  assert (Hd4 : pg_ready k = true -> desc_at k4 (idx v) =
     set_refs 1 (set_flag PAGE_MANAGED (clear_flag PAGE_FREE (desc_at k2 (idx v))))).
  { intros Er. unfold k4. rewrite with_desc_at by done. rewrite Hr3, Er. unfold k3.
    rewrite with_desc_at by done. by rewrite Hr2, Er. }
  split_and!; [done|done| | |].
  - unfold marked_free. by rewrite Hm4, (proj1 Hmeta), F2.
  - rewrite refs_spec, Hr4, Hmg by done. destruct (pg_ready k) eqn:Er; [by rewrite Hd4|].
    rewrite Hm4. by apply Hmeta.
  - intros Er. rewrite Hd4 by done. apply (clear_free_flags (desc_at k2 (idx v))).
Qed.

(** ** Allocation *)

(** Page [v] got the count [n]; all other pages kept theirs, and no page
    entered or left the allocator's care. *)
Definition refs_set (v n : Z) (k k' : kmem) : Prop :=
  refs k' v = n /\
  (forall w, page w -> w <> v -> refs k' w = refs k w) /\
  (forall w, page w -> managed k' w = managed k w) /\
  length (caches k') = length (caches k) /\ use_lock k' = use_lock k /\ pg_ready k' = pg_ready k.

(** A free page that has left the lists is marked taken. *)
Lemma inv_take k k1 v :
  inv k -> same_meta k k1 -> frees k ≡ₚ v :: frees k1 -> free_pages k1 = free_pages k - 1 ->
  (forall l, l ∈ caches k1 -> len l <= KALLOC_CPU_CACHE) ->
  (use_lock k1 = false -> concat (caches k1) = []) ->
  length (caches k1) = length (caches k) -> use_lock k1 = use_lock k ->
  let k' := mark_allocated (V2P v) (idx v) k1 in
  inv k' /\ refs_set v 1 k k'.
Proof.
  intros Hi Hs Hp Hfp Hc He Hn Hlk k'.
  assert (Hv : v ∈ frees k) by (rewrite Hp; set_solver).
  destruct (inv_free k Hi v Hv) as (Hpv & Hmv & Hfv & Hrv).
  assert (Hm1 : managed k1 v = true) by (by rewrite (same_managed k k1 v Hs)).
  destruct (mark_allocated_spec k1 v Hpv Hm1) as (Ho & Hm' & Hf' & Hr' & Hd'). fold k' in Ho, Hm', Hf', Hr', Hd'.
  pose proof (on_lists _ _ _ Ho) as (L1 & L2 & L3 & L4 & L5).
  assert (Hfr : frees k' = frees k1) by (unfold frees; by rewrite L1, L2).
  pose proof (inv_nodup k Hi) as Hnd. rewrite Hp in Hnd. apply NoDup_cons in Hnd as [Hnin Hnd].
  assert (Hoth : forall w, page w -> w <> v -> refs k' w = refs k w /\ managed k' w = managed k w /\
    marked_free k' w = marked_free k w /\ desc_at k' (idx w) = desc_at k (idx w)).
  { intros w Hw Hne. destruct (only_other v k1 k' w Ho Hpv Hw Hne) as (-> & -> & -> & ->).
    rewrite (same_refs k), (same_managed k), (same_marked k) by done. split_and!; try done.
    unfold desc_at. by rewrite (proj2 (proj2 Hs)). }
  assert (Hman : forall w, page w -> managed k' w = managed k w).
  { intros w Hw. destruct (decide (w = v)) as [->|Hne]; [by rewrite Hm', Hmv|by apply Hoth]. }
  split; [|split_and!; [done| |done|by rewrite L2|congruence|rewrite L5; apply Hs]; intros w Hw Hne; by apply Hoth].
  split.
  - by rewrite Hfr.
  - intros w Hw. rewrite Hfr in Hw. assert (Hne : w <> v) by (intros ->; done).
    destruct (inv_free k Hi w) as (Hpw & ? & ? & ?); [rewrite Hp; set_solver|].
    destruct (Hoth w Hpw Hne) as (-> & -> & -> & _). done.
  - intros w Hw Hmw Hrw. rewrite Hfr. assert (Hne : w <> v) by (intros ->; lia).
    destruct (Hoth w Hw Hne) as (Er & Em & _). assert (Hin : w ∈ frees k).
    { apply (inv_leak k Hi); [done|by rewrite <- Em|by rewrite <- Er]. }
    rewrite Hp in Hin. set_solver.
  - rewrite L3, Hfp, (inv_count k Hi), Hfr. apply Permutation_length in Hp. unfold len. cbn in Hp. lia.
  - rewrite L2. done.
  - rewrite L2, L4. done.
  - intros w Hw. destruct (decide (w = v)) as [->|Hne]; [rewrite Hr'; unfold is_u32; lia|].
    destruct (Hoth w Hw Hne) as (-> & _). by apply (inv_refs k Hi).
  - intros w Hrd Hw Hmw. destruct (decide (w = v)) as [->|Hne].
    + rewrite Hr'. apply Hd'. by rewrite <- L5.
    + destruct (Hoth w Hw Hne) as (Er & Em & _ & Ed). rewrite Er, Ed. apply (inv_desc k Hi); [|done|congruence].
      rewrite <- (proj1 (proj2 Hs)). by rewrite <- L5.
Qed.

(** No count changed. *)
Definition refs_same (k k' : kmem) : Prop :=
  (forall w, refs k' w = refs k w) /\ (forall w, managed k' w = managed k w) /\
  length (caches k') = length (caches k) /\ use_lock k' = use_lock k /\ pg_ready k' = pg_ready k.

Lemma moved_same k k' : moved k k' -> refs_same k k'.
Proof.
  intros [Hm ? ? ? ? ?]. split_and!; [intros; by apply same_refs|intros; by apply same_managed|done..|apply Hm].
Qed.

Lemma refs_set_same v n k k1 k' : refs_same k k1 -> refs_set v n k1 k' -> refs_set v n k k'.
Proof.
  intros (S1 & S2 & S3 & S4 & S5) (R1 & R2 & R3 & R4 & R5 & R6). split_and!; try congruence.
  - intros w Hw Hne. rewrite R2 by done. apply S1.
  - intros w Hw. rewrite R3 by done. apply S2.
Qed.

Lemma moved_inv k k' : moved k k' -> use_lock k = true -> inv k -> inv k'.
Proof.
  intros Hm Hu Hi. pose proof (mv_meta _ _ Hm) as Hs. split.
  - rewrite (mv_frees _ _ Hm). apply Hi.
  - intros v Hv. rewrite (mv_frees _ _ Hm) in Hv. destruct (inv_free k Hi v Hv) as (? & ? & ? & ?).
    by rewrite (same_refs k), (same_managed k), (same_marked k).
  - intros v Hp. rewrite (same_refs k), (same_managed k) by done. intros. rewrite (mv_frees _ _ Hm).
    by apply (inv_leak k Hi).
  - rewrite (mv_count _ _ Hm), (inv_count k Hi). unfold len. by rewrite (mv_frees _ _ Hm).
  - apply (mv_cache _ _ Hm), Hi.
  - rewrite (mv_lock _ _ Hm), Hu. discriminate.
  - intros v Hp. rewrite (same_refs k) by done. by apply (inv_refs k Hi).
  - intros v Hr Hp Hmn. rewrite (same_refs k) by done. rewrite (same_managed k) in Hmn by done.
    unfold desc_at. rewrite (proj2 (proj2 Hs)). apply (inv_desc k Hi); [|done|done].
    by rewrite <- (proj1 (proj2 Hs)).
Qed.

Lemma frees_count k : inv k -> len (frees k) <= NPAGE.
Proof. intros Hi. apply pages_bound; [apply Hi|]. intros v Hv. by apply (inv_free k Hi). Qed.

Lemma take_page_spec r k : page r -> managed k r = true ->
  take_page writable meta_base r k = Some (mark_allocated (V2P r) (idx r) k).
Proof.
  intros Hp Hm. destruct (page_idx r Hp) as (Hi & Hpa & _). unfold take_page.
  rewrite Hpa, (km_meta (KernelMap := KM)) by done. fold (managed k r). by rewrite Hm.
Qed.

(** The page on top of a cache is handed out. *)
Lemma alloc_pop k1 k3 c r l :
  inv k1 -> use_lock k1 = true -> cpu_ok k1 c -> cache_of k1 c = r :: l ->
  same_meta k1 k3 -> freelist k3 = freelist k1 -> caches k3 = <[c := l]> (caches k1) ->
  free_pages k3 = free_pages k1 -u 1 -> use_lock k3 = use_lock k1 ->
  exists k', take_page writable meta_base r k3 = Some k' /\ inv k' /\ refs_set r 1 k1 k' /\
    r ∈ frees k1 /\ page r.
Proof.
  intros Hi Hu Hc E Hs Hfl Hca Hfp Hul.
  assert (Hr : r ∈ frees k1) by (apply (cache_in_frees k1 c); [done|rewrite E; set_solver]).
  destruct (inv_free k1 Hi r Hr) as (Hp & Hm & _ & _).
  destruct (frees_split k1 c Hc) as (rest & H1 & H2). rewrite E in H1.
  assert (Hfr : frees k1 ≡ₚ r :: frees k3).
  { rewrite H1. unfold frees. rewrite Hfl, Hca. specialize (H2 l (freelist k1)).
    unfold frees in H2; cbn in H2. rewrite H2. done. }
  assert (Hcnt : free_pages k3 = free_pages k1 - 1).
  { rewrite Hfp, (inv_count k1 Hi). apply u32_small. pose proof (frees_count k1 Hi).
    assert (NPAGE = 131072) by reflexivity.
    apply Permutation_length in Hfr. unfold is_u32, len in *. cbn in Hfr. lia. }
  destruct (inv_take k1 k3 r Hi Hs Hfr Hcnt) as [Hi' Hrs].
  - intros l' Hl'. rewrite Hca in Hl'. apply list_elem_of_lookup in Hl' as [j Hj].
    apply list_lookup_insert_Some in Hj as [(_ & El & _)|(_ & Hj)].
    + subst l'. pose proof (inv_cache k1 Hi (cache_of k1 c)) as Hb. rewrite E in Hb.
      enough (len (r :: l) <= KALLOC_CPU_CACHE) by (unfold len in *; cbn in *; lia).
      apply Hb. rewrite <- E. eapply list_elem_of_lookup_2. by apply cache_lookup.
    + apply (inv_cache k1 Hi). by eapply list_elem_of_lookup_2.
  - rewrite Hul, Hu. discriminate.
  - rewrite Hca. apply length_insert.
  - done.
  - exists (mark_allocated (V2P r) (idx r) k3). split_and!; try done. apply take_page_spec; [done|].
    by rewrite (same_managed k1).
Qed.

Lemma set_cache_nil k c : cpu_ok k c -> cache_of k c = [] -> moved k (set_cache c [] k).
Proof.
  intros Hc E. change (set_cache c [] k) with (set_cache c [] (set_freelist k (freelist k))).
  apply moved_set; [done|by rewrite E|]. unfold len; cbn. vm_compute. discriminate.
Qed.

(** The outcomes of an allocation on CPU [c]. *)
Definition alloc_outcome (k : kmem) (c : nat) (o : option (Z * kmem)) : Prop :=
  exists v k', o = Some (v, k') /\ inv k' /\
    ((v <> 0 /\ page v /\ v ∈ frees k /\ refs k v = 0 /\ (v ∉ frees k') /\ refs_set v 1 k k') \/
     (v = 0 /\ freelist k = [] /\ cache_of k c = [] /\ refs_same k k')).

Lemma handed_out k v k1 k' :
  inv k -> refs_same k k1 -> frees k1 ≡ₚ frees k -> inv k' -> refs_set v 1 k1 k' -> v ∈ frees k1 -> page v ->
  v <> 0 /\ page v /\ v ∈ frees k /\ refs k v = 0 /\ (v ∉ frees k') /\ refs_set v 1 k k'.
Proof.
  intros Hi Hs Hf Hi' Hr Hv Hp. rewrite Hf in Hv. split_and!; try done.
  - apply (page_spec v Hp).
  - by apply (inv_free k Hi).
  - intros Hin. destruct (inv_free k' Hi' v Hin) as (_ & _ & _ & Hz). destruct Hr as [Hr _]. lia.
  - by eapply refs_set_same.
Qed.

Lemma kalloc_locked k c : inv k -> cpu_ok k c -> use_lock k = true ->
  alloc_outcome k c (kalloc_legacy_page end_ writable meta_base c k).
Proof.
  intros Hi Hc Hu. unfold kalloc_legacy_page. set (k0 := bump ALLOC_CALLS 1 k).
  assert (Hm0 : moved k k0) by apply moved_bump. change (use_lock k0) with (use_lock k).
  rewrite Hu. cbn [negb].
  assert (Hl0 : lists_ok k0) by (eapply moved_lists; [done|by apply inv_lists]).
  assert (Hc0 : cpu_ok k0 c) by done.
  set (k1 := if len (cache_of k0 c) <=? KALLOC_PCPU_REFILL_TRIGGER then _ else _).
  assert (Hk1 : moved k k1 /\ (cache_of k1 c = [] -> cache_of k c = [] /\ freelist k = [])).
  { pose proof (refill_spec k0 c Hl0 Hc0) as Hr. unfold k1.
    destruct (Z.leb_spec (len (cache_of k0 c)) KALLOC_PCPU_REFILL_TRIGGER) as [Hle|Hgt].
    - destruct (kalloc_refill_local end_ writable meta_base c k0) as [n k0'] eqn:Er. cbn [snd].
      destruct Hr as (Hmv & R1 & _ & R2). split; [by eapply moved_trans|]. intros E.
      change (cache_of k0 c) with (cache_of k c) in *. change (freelist k0) with (freelist k) in *.
      destruct (cache_of k c) eqn:Ek; [|by exfalso; apply R2]. split; [done|].
      destruct (freelist k) eqn:Ef; [done|]. exfalso. by destruct R1.
    - split; [done|]. intros E. rewrite E in Hgt. unfold KALLOC_PCPU_REFILL_TRIGGER, len in Hgt; cbn in Hgt. lia. }
  destruct Hk1 as [Hm1 Hempty]. clearbody k1.
  assert (Hi1 : inv k1) by (by eapply moved_inv). assert (Hc1 : cpu_ok k1 c) by (by eapply moved_cpu).
  assert (Hu1 : use_lock k1 = true) by (rewrite (mv_lock _ _ Hm1); done).
  rewrite pop_spec by (done || by apply inv_lists).
  destruct (cache_of k1 c) as [|r l] eqn:Ek1.
  - set (k2 := bump CACHE_ALLOC_MISSES 1 k1). assert (Hm2 : moved k1 k2) by apply moved_bump.
    assert (Hl2 : lists_ok k2) by (eapply moved_lists; [done|by apply inv_lists]).
    assert (Hc2 : cpu_ok k2 c) by (by eapply moved_cpu).
    pose proof (refill_spec k2 c Hl2 Hc2) as Hr.
    destruct (kalloc_refill_local end_ writable meta_base c k2) as [n k3]. destruct Hr as (Hmv & _).
    assert (Hm3 : moved k k3) by (eapply moved_trans; [exact Hm1|by eapply moved_trans]).
    assert (Hi3 : inv k3) by (by eapply moved_inv). assert (Hc3 : cpu_ok k3 c) by (by eapply moved_cpu).
    destruct ((n >? 0) && (len (cache_of k3 c) >? 0)).
    + rewrite pop_spec by (done || by apply inv_lists).
      destruct (cache_of k3 c) as [|r l] eqn:Ek3.
      { exists 0, k3. split_and!; [done|done|]. right. destruct (Hempty eq_refl). split_and!; try done.
        by apply moved_same. }
      destruct (alloc_pop k3 (set_free_pages (set_cache c l k3) (free_pages k3 -u 1)) c r l)
        as (k' & Et & Hi' & Hrs & Hin & Hp); try done; [by rewrite (mv_lock _ _ Hm3)|].
      change (free_pages (set_cache c l k3)) with (free_pages k3). rewrite Et.
      exists r, k'. split_and!; [done|done|]. left. eapply (handed_out k r k3); try done; [by apply moved_same|apply Hm3].
    + exists 0, k3. split_and!; [done|done|]. right. destruct (Hempty eq_refl). split_and!; try done.
      by apply moved_same.
  - destruct (alloc_pop k1 (set_free_pages (bump CACHE_ALLOC_HITS 1 (set_cache c l k1)) (free_pages k1 -u 1)) c r l)
      as (k' & Et & Hi' & Hrs & Hin & Hp); try done.
    change (free_pages (bump CACHE_ALLOC_HITS 1 (set_cache c l k1))) with (free_pages k1). rewrite Et.
    exists r, k'. split_and!; [done|done|]. left. eapply (handed_out k r k1); try done; [by apply moved_same|apply Hm1].
Qed.

Lemma kalloc_early k c : inv k -> cpu_ok k c -> use_lock k = false ->
  alloc_outcome k c (kalloc_legacy_page end_ writable meta_base c k).
Proof.
  intros Hi Hc Hu. unfold kalloc_legacy_page. set (k0 := bump ALLOC_CALLS 1 k).
  assert (Hm0 : moved k k0) by apply moved_bump. change (use_lock k0) with (use_lock k).
  rewrite Hu. cbn [negb].
  change (freelist k0) with (freelist k). pose proof (inv_early k Hi Hu) as Hce.
  assert (Hcn : cache_of k c = []).
  { destruct (cache_of k c) as [|r l] eqn:E; [done|]. pose proof (cache_lookup k c Hc) as Hl.
    rewrite E in Hl. apply list_elem_of_lookup_2 in Hl. apply list_elem_of_split in Hl as (l1 & l2 & El).
    rewrite El, concat_app in Hce. cbn in Hce. by destruct (concat l1). }
  destruct (freelist k) as [|r rest] eqn:Ef.
  { exists 0, k0. split_and!; [done| |].
    - split; [apply Hi..].
    - right. split_and!; try done. }
  assert (Hr : r ∈ frees k) by (unfold frees; rewrite Ef; set_solver).
  destruct (inv_free k Hi r Hr) as (Hp & Hm & Hfm & Hz).
  rewrite (same_run_ok k k0 r (mv_meta _ _ Hm0) Hp), run_ok_spec, Hm, Hfm, Hz by done. cbn [negb andb Z.eqb].
  change (free_pages (set_freelist k0 rest)) with (free_pages k).
  assert (Hlen : free_pages k = len (frees k)) by apply Hi.
  assert (Hfr : frees k = r :: (rest ++ concat (caches k))) by (unfold frees; by rewrite Ef).
  destruct (Z.gtb_spec (free_pages k) 0) as [Hpos|Hle];
    [|rewrite Hlen, Hfr in Hle; unfold len in Hle; cbn in Hle; lia].
  set (k1 := set_free_pages (set_freelist k0 rest) (free_pages k - 1)).
  rewrite take_page_spec by done.
  destruct (inv_take k k1 r Hi) as [Hi' Hrs]; try done.
  - by rewrite Hfr.
  - apply Hi.
  - exists r, (mark_allocated (V2P r) (idx r) k1). split_and!; [done|done|].
    left. eapply (handed_out k r k); try done; split_and!; try done.
Qed.

Lemma alloc_any k c : inv k -> cpu_ok k c -> alloc_outcome k c (kalloc_legacy_page end_ writable meta_base c k).
Proof. intros Hi Hc. destruct (use_lock k) eqn:Hu; [by apply kalloc_locked|by apply kalloc_early]. Qed.

(** [kalloc_legacy_page] never panics and never hands out a page that is
    in use: from a consistent state it returns either a page that was free,
    now with reference count 1 and on no free list while every other page
    keeps its count, or 0, and that only when the CPU's cache and the global
    list are both empty; the state stays consistent either way. *)
Theorem kalloc_page_correct k c :
  inv k -> cpu_ok k c ->
  exists v k', kalloc_legacy_page end_ writable meta_base c k = Some (v, k') /\ inv k' /\
    ((v <> 0 /\ page v /\ v ∈ frees k /\ refs k v = 0 /\ (v ∉ frees k') /\ refs_set v 1 k k') \/
     (v = 0 /\ freelist k = [] /\ cache_of k c = [] /\ refs_same k k')).
Proof.
  apply alloc_any.
Qed.

(** ** Freeing *)

Lemma check_head_id k : lists_ok k -> check_head end_ k = k.
Proof.
  intros Hl. unfold check_head. destruct (freelist k) as [|r l] eqn:E; [done|].
  destruct (Hl r) as [[_ Hv] _]; [unfold frees; rewrite E; set_solver|]. by rewrite Hv.
Qed.

Lemma drain_loop_spec n c k i :
  lists_ok k -> cpu_ok k c -> (n <= length (cache_of k c))%nat ->
  (forall l, l ∈ caches k -> len l <= KALLOC_CPU_CACHE) ->
  drain_loop end_ writable meta_base n c k i =
    (i + Z.of_nat n,
     set_cache c (drop n (cache_of k c)) (set_freelist k (reverse (take n (cache_of k c)) ++ freelist k))).
Proof.
  revert k i; induction n as [|n IH]; intros k i Hl Hc Hn Hb; cbn [drain_loop].
  - rewrite take_0, drop_0, Z.add_0_r. f_equal. unfold set_cache, set_caches; cbn.
    rewrite list_insert_id by (by apply cache_lookup). by destruct k.
  - rewrite pop_spec by done. destruct (cache_of k c) as [|p l] eqn:E; cbn in Hn; [lia|].
    assert (Hbl : len (p :: l) <= KALLOC_CPU_CACHE).
    { apply Hb. rewrite <- E. eapply list_elem_of_lookup_2. by apply cache_lookup. }
    set (k1 := set_freelist (set_cache c l k) (p :: freelist k)).
    assert (Hm : moved k k1).
    { unfold k1. rewrite set_cache_freelist. apply moved_set; [done| |unfold len in *; cbn in *; lia].
      rewrite E. cbn. symmetry. apply Permutation_middle. }
    assert (Hc1 : cpu_ok k1 c) by (by eapply moved_cpu).
    assert (Ec : cache_of k1 c = l) by (by apply (cache_of_set c l k)).
    change (freelist (set_cache c l k)) with (freelist k). fold k1.
    rewrite IH; [|by eapply moved_lists|done|rewrite Ec; lia|by apply (mv_cache _ _ Hm)].
    rewrite Ec. cbn [take drop]. rewrite reverse_cons, <- app_assoc. f_equal; [lia|].
    unfold k1, set_cache, set_caches, set_freelist. cbn [kmeta pg_ready pg_array use_lock freelist caches
      total_pages free_pages stats]. by rewrite list_insert_insert_eq.
Qed.

Lemma drain_spec c k :
  lists_ok k -> cpu_ok k c -> (forall l, l ∈ caches k -> len l <= KALLOC_CPU_CACHE) ->
  moved k (kalloc_drain_local end_ writable meta_base c k) /\
  len (cache_of (kalloc_drain_local end_ writable meta_base c k) c) < KALLOC_CPU_CACHE.
Proof.
  intros Hl Hc Hb. assert (Hbc : len (cache_of k c) <= KALLOC_CPU_CACHE).
  { apply Hb. eapply list_elem_of_lookup_2. by apply cache_lookup. }
  unfold kalloc_drain_local, KALLOC_CPU_CACHE, KALLOC_PCPU_HIGH_WATER, KALLOC_PCPU_LOW_WATER, KALLOC_DRAIN_BATCH in *.
  destruct (Z.ltb_spec (len (cache_of k c)) 28); [split; [apply moved_refl|lia]|].
  destruct (Z.gtb_spec (len (cache_of k c) - 8) 16) as [_|]; [|lia]. change (16 <? 1) with false. cbv iota.
  rewrite check_head_id by done. change (Z.to_nat 16) with 16%nat.
  rewrite drain_loop_spec; [|done|done|unfold len in *; lia|done].
  set (k1 := set_cache c _ _). assert (Hm : moved k k1).
  { apply moved_set; [done| |unfold len, KALLOC_CPU_CACHE in *; rewrite length_drop; lia].
    rewrite reverse_Permutation, app_assoc.
    rewrite (Permutation_app_comm (drop _ _) (take _ _)), take_drop. done. }
  split.
  - eapply moved_trans; [exact Hm|]. eapply moved_trans; apply moved_bump.
  - change (cache_of (bump _ _ (bump _ _ k1)) c) with (cache_of k1 c). unfold k1. rewrite cache_of_set by done.
    unfold len in *. rewrite length_drop. lia.
Qed.

Lemma insert_spec c v k :
  lists_ok k -> cpu_ok k c -> (forall l, l ∈ caches k -> len l <= KALLOC_CPU_CACHE) ->
  exists k', kfree_insert end_ writable meta_base c v k = Some k' /\ same_meta k k' /\
    frees k' ≡ₚ v :: frees k /\ free_pages k' = free_pages k +u 1 /\
    (forall l, l ∈ caches k' -> len l <= KALLOC_CPU_CACHE) /\
    (use_lock k = false -> caches k' = caches k) /\
    length (caches k') = length (caches k) /\ use_lock k' = use_lock k.
Proof.
  intros Hl Hc Hb. unfold kfree_insert. destruct (use_lock k) eqn:Hu; cbn [negb].
  - destruct (drain_spec c k Hl Hc Hb) as [Hm Hlt].
    set (k1 := kalloc_drain_local end_ writable meta_base c k) in *. clearbody k1.
    assert (Hge : (len (cache_of k1 c) >=? KALLOC_CPU_CACHE) = false)
      by (rewrite Z.geb_leb; apply Z.leb_gt; lia).
    rewrite Hge. cbv zeta. rewrite Hge. assert (Hc1 : cpu_ok k1 c) by (by eapply moved_cpu).
    set (k2 := set_cache c (v :: cache_of k1 c) k1).
    exists (set_free_pages (bump CACHE_FREE_INSERTS 1 k2) (free_pages k1 +u 1)).
    destruct (frees_split k1 c Hc1) as (rest & H1 & H2).
    split_and!; [done|apply Hm| | | |done| |cbn; rewrite (mv_lock _ _ Hm); done].
    + change (frees (set_free_pages _ _)) with (frees (set_cache c (v :: cache_of k1 c) (set_freelist k1 (freelist k1)))).
      rewrite H2. cbn. rewrite <- H1. by rewrite (mv_frees _ _ Hm).
    + cbn. by rewrite (mv_count _ _ Hm).
    + intros l Hin. cbn in Hin. apply list_elem_of_lookup in Hin as [i Hi].
      apply list_lookup_insert_Some in Hi as [(_ & El & _)|(_ & Hi)].
      * subst l. unfold len in *; cbn [length]. lia.
      * apply (mv_cache _ _ Hm Hb). by eapply list_elem_of_lookup_2.
    + cbn. rewrite length_insert. apply Hm.
  - rewrite check_head_id by done. eexists. split_and!; try done.
Qed.

Lemma drop_spec k v : page v -> managed k v = true -> refs k v <> 0 ->
  exists k1, kpage_drop_ref (V2P v) k = Some (refs k v - 1, k1) /\ only v k k1 /\
    refs k1 v = refs k v - 1 /\ flags (meta_at k1 (idx v)) = flags (meta_at k (idx v)) /\
    flags (desc_at k1 (idx v)) = flags (desc_at k (idx v)).
Proof.
  intros Hp Hm Hr. destruct (page_idx v Hp) as (_ & Hpa & Hd). unfold kpage_drop_ref, pagedb_ready. rewrite Hpa.
  fold (managed k v). rewrite Hm. cbn [negb]. rewrite refs_spec, Hm in Hr by done.
  rewrite (refs_spec k), Hm by done. destruct (pg_ready k) eqn:Er.
  - assert (E : pagedb_refcount_pa k (V2P v) = refcount (desc_at k (idx v)))
      by (unfold pagedb_refcount_pa; by rewrite Hd).
    rewrite E. apply Z.eqb_neq in Hr. rewrite Hr. eexists. split; [done|].
    pose proof (only_with_desc v (set_refs (refcount (desc_at k (idx v)) - 1)) k Hp) as Ho.
    unfold pagedb_set_refcount_pa. set (k1 := with_desc _ _ _) in *.
    assert (E1 : desc_at k1 (idx v) = set_refs (refcount (desc_at k (idx v)) - 1) (desc_at k (idx v)))
      by (unfold k1; rewrite with_desc_at by done; by rewrite Er).
    assert (E2 : meta_at k1 (idx v) = meta_at k (idx v)) by apply with_desc_meta.
    split_and!; [done| |by rewrite E2|by rewrite E1].
    rewrite refs_spec by done. destruct (on_lists _ _ _ Ho) as (_&_&_&_&->). rewrite Er. by rewrite E1.
  - apply Z.eqb_neq in Hr. rewrite Hr. eexists. split; [done|].
    pose proof (only_upd_meta v (set_refs (refcount (meta_at k (idx v)) - 1)) k) as Ho.
    set (k1 := upd_meta _ _ _) in *.
    assert (E1 : meta_at k1 (idx v) = set_refs (refcount (meta_at k (idx v)) - 1) (meta_at k (idx v)))
      by (unfold k1; rewrite meta_upd; by rewrite bool_decide_eq_true_2).
    split_and!; [done| |by rewrite E1|done].
    rewrite refs_spec by done. unfold managed. rewrite E1. cbn [set_refs flags refcount].
    fold (managed k v). rewrite Hm. by destruct (on_lists _ _ _ Ho) as (_&_&_&_&->); rewrite Er.
Qed.

(** A page whose entries were updated, the lists as they were. *)
Lemma inv_only k k1 v :
  inv k -> page v -> managed k v = true -> only v k k1 -> managed k1 v = true ->
  is_u32 (refs k1 v) -> (refs k1 v = 0 <-> refs k v = 0) ->
  (refs k v = 0 -> marked_free k1 v = true) ->
  (pg_ready k = true -> flag (flags (desc_at k1 (idx v))) PAGE_FREE = (refs k1 v =? 0)) ->
  inv k1 /\ refs_set v (refs k1 v) k k1.
Proof.
  intros Hi Hp Hm Ho Hm1 Hu Hz Hf Hd. pose proof (on_lists _ _ _ Ho) as (L1 & L2 & L3 & L4 & L5).
  assert (Hfr : frees k1 = frees k) by (unfold frees; by rewrite L1, L2).
  assert (Hoth := fun w Hw Hne => only_other v k k1 w Ho Hp Hw Hne).
  split; [|split_and!; [done| | |congruence|done|done]].
  - split.
    + rewrite Hfr. apply Hi.
    + intros w Hw. rewrite Hfr in Hw. destruct (inv_free k Hi w Hw) as (Hpw & ? & ? & ?).
      destruct (decide (w = v)) as [->|Hne]; [split_and!; auto; by apply Hz|].
      destruct (Hoth w Hpw Hne) as (-> & -> & -> & _). done.
    + intros w Hw Hmw Hrw. rewrite Hfr. destruct (decide (w = v)) as [->|Hne].
      * apply (inv_leak k Hi); [done|done|by apply Hz].
      * destruct (Hoth w Hw Hne) as (Er & Em & _). apply (inv_leak k Hi); congruence.
    + rewrite L3, Hfr. apply Hi.
    + rewrite L2. apply Hi.
    + rewrite L2, L4. apply Hi.
    + intros w Hw. destruct (decide (w = v)) as [->|Hne]; [done|].
      destruct (Hoth w Hw Hne) as (-> & _). by apply (inv_refs k Hi).
    + intros w Hr Hw Hmw. destruct (decide (w = v)) as [->|Hne]; [apply Hd; congruence|].
      destruct (Hoth w Hw Hne) as (-> & Em & _ & ->). apply (inv_desc k Hi); congruence.
  - intros w Hw Hne. by apply Hoth.
  - intros w Hw. destruct (decide (w = v)) as [->|Hne]; [congruence|by apply Hoth].
Qed.

(** A page whose last reference was dropped is put on a list. *)
Lemma inv_put k k1 k' v :
  inv k -> page v -> managed k v = true -> refs k v <> 0 -> only v k k1 ->
  managed k1 v = true -> marked_free k1 v = true -> refs k1 v = 0 ->
  (pg_ready k = true -> flag (flags (desc_at k1 (idx v))) PAGE_FREE = true) ->
  same_meta k1 k' -> frees k' ≡ₚ v :: frees k -> free_pages k' = free_pages k +u 1 ->
  (forall l, l ∈ caches k' -> len l <= KALLOC_CPU_CACHE) ->
  (use_lock k = false -> caches k' = caches k) ->
  length (caches k') = length (caches k) -> use_lock k' = use_lock k ->
  inv k' /\ refs_set v 0 k k'.
Proof.
  intros Hi Hp Hm Hr Ho Hm1 Hf1 Hr1 Hd1 Hs Hfr Hcnt Hb Hce Hn Hlk.
  pose proof (on_lists _ _ _ Ho) as (_ & _ & _ & _ & L5).
  assert (Hnin : v ∉ frees k) by (intros Hin; by destruct (inv_free k Hi v Hin) as (_&_&_&?)).
  assert (Hoth : forall w, page w -> w <> v -> refs k' w = refs k w /\ managed k' w = managed k w /\
    marked_free k' w = marked_free k w /\ desc_at k' (idx w) = desc_at k (idx w)).
  { intros w Hw Hne. rewrite (same_refs k1), (same_managed k1), (same_marked k1) by done.
    destruct (only_other v k k1 w Ho Hp Hw Hne) as (-> & -> & -> & <-). split_and!; try done.
    unfold desc_at. by rewrite (proj2 (proj2 Hs)). }
  assert (Hv : refs k' v = 0 /\ managed k' v = true /\ marked_free k' v = true).
  { by rewrite (same_refs k1), (same_managed k1), (same_marked k1). }
  destruct Hv as (Hv1 & Hv2 & Hv3).
  assert (Hpg : forall w, w ∈ v :: frees k -> page w).
  { intros w [->|Hw]%elem_of_cons; [done|by apply (inv_free k Hi)]. }
  assert (Hnd : NoDup (v :: frees k)) by (constructor; [done|apply Hi]).
  split; [|split_and!; [done| | |done|done|]].
  - split.
    + by rewrite Hfr.
    + intros w Hw. rewrite Hfr in Hw. apply elem_of_cons in Hw as [->|Hw]; [done|].
      assert (Hne : w <> v) by (intros ->; done).
      destruct (inv_free k Hi w Hw) as (Hpw & ? & ? & ?). by destruct (Hoth w Hpw Hne) as (-> & -> & -> & _).
    + intros w Hw Hmw Hrw. rewrite Hfr. destruct (decide (w = v)) as [->|Hne]; [by left|]. right.
      destruct (Hoth w Hw Hne) as (Er & Em & _). apply (inv_leak k Hi); congruence.
    + rewrite Hcnt, (inv_count k Hi). unfold len. rewrite Hfr. cbn [length].
      rewrite u32_small; [lia|]. pose proof (pages_bound _ Hnd Hpg) as Hbd. unfold is_u32, len in *.
      assert (NPAGE = 131072) by reflexivity. cbn [length] in Hbd. lia.
    + done.
    + rewrite Hlk. intros E. rewrite Hce by done. by apply (inv_early k Hi).
    + intros w Hw. destruct (decide (w = v)) as [->|Hne]; [rewrite Hv1; unfold is_u32; lia|].
      destruct (Hoth w Hw Hne) as (-> & _). by apply (inv_refs k Hi).
    + intros w Hrd Hw Hmw. destruct (decide (w = v)) as [->|Hne].
      * rewrite Hv1. unfold desc_at. rewrite (proj2 (proj2 Hs)). apply Hd1.
        rewrite <- L5. by rewrite <- (proj1 (proj2 Hs)).
      * destruct (Hoth w Hw Hne) as (-> & Em & _ & ->). apply (inv_desc k Hi); [|done|congruence].
        rewrite <- L5. by rewrite <- (proj1 (proj2 Hs)).
  - intros w Hw Hne. by apply Hoth.
  - intros w Hw. destruct (decide (w = v)) as [->|Hne]; [congruence|by apply Hoth].
  - rewrite (proj1 (proj2 Hs)). done.
Qed.

(** The checks at the start of [kfree] are passed by the managed pages only. *)
Lemma kfree_guard c v k : is_u32 v -> ~ (page v /\ managed k v = true) ->
  kfree end_ writable meta_base c v k = None.
Proof.
  intros Hu Hn. unfold kfree. rewrite Z.geb_leb.
  destruct (Z.eqb_spec (v mod PGSIZE) 0), (Z.ltb_spec v end_), (Z.leb_spec PHYSTOP (V2P v));
    cbn [negb orb]; try done.
  pose proof (km_end (KernelMap := KM)).
  assert (Hp : page v).
  { split; [done|]. unfold kalloc_runptr_valid. rewrite Z.geb_leb.
    destruct (Z.eqb_spec v 0); [unfold KERNBASE in *; lia|].
    destruct (Z.eqb_spec (v mod PGSIZE) 0), (Z.ltb_spec v end_), (Z.leb_spec PHYSTOP (V2P v)); try lia. done. }
  destruct (page_idx v Hp) as (_ & -> & _). fold (managed k v).
  destruct (managed k v); [by exfalso; apply Hn|]. by rewrite orb_true_r.
Qed.

(** The last reference was dropped, in [k1]: the page is marked and listed. *)
Lemma kfree_last k k1 c v :
  inv k -> cpu_ok k c -> page v -> managed k v = true -> refs k v = 1 -> only v k k1 ->
  managed k1 v = true -> refs k1 v = 0 ->
  exists k', kfree_insert end_ writable meta_base c v
      (pagedb_mark_free_pa (V2P v) (upd_meta (idx v) (set_flag KPAGE_FREE) k1)) = Some k' /\
    inv k' /\ refs_set v 0 k k' /\ frees k' ≡ₚ v :: frees k.
Proof.
  intros Hi Hc Hp Hm Hone Ho' Hm1 Hr1.
  set (k2 := pagedb_mark_free_pa (V2P v) (upd_meta (idx v) (set_flag KPAGE_FREE) k1)).
  assert (Ho2 : only v k k2).
  { eapply only_trans; [exact Ho'|]. eapply only_trans; [apply only_upd_meta|by apply only_with_desc]. }
  pose proof (on_lists _ _ _ Ho2) as (L1 & L2 & L3 & L4 & L5).
  assert (Hmt : meta_at k2 (idx v) = set_flag KPAGE_FREE (meta_at k1 (idx v))).
  { unfold k2, pagedb_mark_free_pa. rewrite with_desc_meta, meta_upd. by rewrite bool_decide_eq_true_2. }
  destruct (set_free_flags (meta_at k1 (idx v))) as (F1 & F2 & _).
  assert (Hm2 : managed k2 v = true) by (unfold managed; rewrite Hmt, F1; exact Hm1).
  assert (Hf2 : marked_free k2 v = true) by (unfold marked_free; by rewrite Hmt).
  assert (Hdt : desc_at k2 (idx v) =
            if pg_ready k1 then set_flag PAGE_FREE (desc_at k1 (idx v)) else desc_at k1 (idx v)).
  { unfold k2, pagedb_mark_free_pa. by rewrite with_desc_at. }
  assert (L5' : pg_ready k1 = pg_ready k) by (apply (on_lists _ _ _ Ho')).
  assert (Hr2 : refs k2 v = 0).
  { rewrite (refs_spec k2), Hm2 by done. rewrite (refs_spec k1), Hm1, L5' in Hr1 by done.
    rewrite L5, Hmt, Hdt, L5'.
    destruct (pg_ready k); cbn [set_flag refcount]; lia. }
  assert (Hfr2 : frees k2 = frees k) by (unfold frees; by rewrite L1, L2).
  assert (Hl2 : lists_ok k2).
  { intros w Hw. rewrite Hfr2 in Hw. destruct (inv_free k Hi w Hw) as (Hpw & Hmw & Hfw & Hzw).
    assert (Hne : w <> v) by (intros ->; lia). split; [done|].
    destruct (only_other v k k2 w Ho2 Hp Hpw Hne) as (A1 & A2 & A3 & _).
    by rewrite run_ok_spec, A1, A2, A3, Hmw, Hfw, Hzw. }
  destruct (insert_spec c v k2) as (k' & Ei & Hs & Hfr & Hcnt & Hb & Hce & Hn & Hlk);
    [done|unfold cpu_ok; by rewrite L2|rewrite L2; apply Hi|].
  rewrite Hfr2 in Hfr. rewrite L3 in Hcnt. rewrite L4, L2 in *.
  destruct (inv_put k k2 k' v) as [Hi' Hrs]; try done; [lia| |eauto].
  intros Erd. rewrite Hdt, L5', Erd. apply set_free_flags.
Qed.

Lemma kfree_managed k c v :
  inv k -> cpu_ok k c -> page v -> managed k v = true ->
  exists k', kfree end_ writable meta_base c v k = Some k' /\ inv k' /\
    (refs k v = 0 -> refs_same k k' /\ frees k' = frees k) /\
    (refs k v <> 0 -> refs_set v (refs k v - 1) k k') /\
    (v ∈ frees k' <-> refs k v = 0 \/ refs k v = 1).
Proof.
  intros Hi Hc Hp Hm.
  destruct (page_spec v Hp) as (Hal & Hge & EV & Hr & _). destruct (page_idx v Hp) as (Hix & Hpa & _).
  unfold kfree. rewrite Hal, Z.geb_leb, EV. change (0 =? 0) with true.
  destruct (Z.ltb_spec v end_), (Z.leb_spec PHYSTOP (v - KERNBASE)); try lia. cbn [negb orb].
  rewrite <- EV, Hpa, (km_meta (KernelMap := KM)) by done. fold (managed k v). rewrite Hm. cbn [negb orb].
  fold (refs k v). fold (marked_free k v). pose proof (inv_refs k Hi v Hp) as Hru. unfold is_u32 in Hru.
  destruct (Z.eqb_spec (refs k v) 0) as [Hz|Hnz].
  { assert (Hin : v ∈ frees k) by (by apply (inv_leak k Hi)).
    destruct (inv_free k Hi v Hin) as (_ & _ & -> & _). eexists. split; [done|].
    split; [split; apply Hi|]. split_and!; [intros _; split; [split_and!; done|done]|done|].
    split; [by left|done]. }
  destruct (drop_spec (bump FREE_CALLS 1 k) v Hp Hm Hnz) as (k1 & E & Ho & Hr1 & Hf1 & Hd1).
  change (refs (bump FREE_CALLS 1 k) v) with (refs k v) in *. rewrite E.
  assert (Ho' : only v k k1) by (eapply only_trans; [apply only_bump|exact Ho]).
  assert (Hm1 : managed k1 v = true) by (unfold managed; by rewrite Hf1).
  destruct (Z.gtb_spec (refs k v - 1) 0) as [Hgt|Hle].
  - destruct (inv_only k (bump DEFERRED_FREES 1 k1) v) as [Hi' Hrs]; try done.
    + eapply only_trans; [exact Ho'|apply only_bump].
    + change (refs (bump DEFERRED_FREES 1 k1) v) with (refs k1 v). rewrite Hr1. unfold is_u32. lia.
    + change (refs (bump DEFERRED_FREES 1 k1) v) with (refs k1 v). lia.
    + change (refs (bump DEFERRED_FREES 1 k1) v) with (refs k1 v). intros Erd.
      change (desc_at (bump DEFERRED_FREES 1 k1) (idx v)) with (desc_at k1 (idx v)). rewrite Hd1, Hr1.
      change (desc_at (bump FREE_CALLS 1 k) (idx v)) with (desc_at k (idx v)).
      rewrite (inv_desc k Hi v Erd Hp Hm). destruct (Z.eqb_spec (refs k v) 0), (Z.eqb_spec (refs k v - 1) 0); lia || done.
    + change (refs (bump DEFERRED_FREES 1 k1) v) with (refs k1 v) in Hrs. rewrite Hr1 in Hrs.
      eexists. split_and!; [done|done|intros; exfalso; lia|done|]. split; [|lia]. intros Hin.
      destruct (inv_free _ Hi' v Hin) as (_ & _ & _ & Hz). destruct Hrs as [Hz' _]. lia.
  - destruct (kfree_last k k1 c v) as (k' & Ek & Hi' & Hrs & Hfr); try done; [lia..|].
    rewrite (proj2 Hp). cbn [negb]. exists k'. split_and!; [done|done|done| |].
    + intros _. by replace (refs k v - 1) with 0 by lia.
    + split; [intros; right; lia|]. intros _. rewrite Hfr. by left.
Qed.

(** [kfree] of a page the allocator manages never panics: it drops one
    reference; the page goes back to a free list exactly when that was the
    last one; freeing a page that is already free changes nothing, so a double
    free cannot put a page on the lists twice; all other counts are kept and
    the state stays consistent.  Any other address panics. *)
Theorem kfree_correct k c v :
  inv k -> cpu_ok k c -> is_u32 v ->
  (page v /\ managed k v = true ->
   exists k', kfree end_ writable meta_base c v k = Some k' /\ inv k' /\
    (refs k v = 0 -> refs_same k k' /\ frees k' = frees k) /\
    (refs k v <> 0 -> refs_set v (refs k v - 1) k k') /\
    (v ∈ frees k' <-> refs k v = 0 \/ refs k v = 1)) /\
  (~ (page v /\ managed k v = true) -> kfree end_ writable meta_base c v k = None).
Proof.
  intros Hi Hc Hu. split; [|by apply kfree_guard]. intros [Hp Hm]. by apply kfree_managed.
Qed.

(** ** References *)

Lemma incref_spec k v : inv k -> page v -> managed k v = true ->
  (refs k v = 0 -> kpage_incref (V2P v) k = None) /\
  (0 < refs k v < 4294967295 ->
   exists k', kpage_incref (V2P v) k = Some k' /\ inv k' /\ refs_set v (refs k v + 1) k k').
Proof.
  intros Hi Hp Hm. destruct (page_idx v Hp) as (_ & Hpa & Hd). unfold kpage_incref, pagedb_ready. rewrite Hpa.
  fold (managed k v). rewrite Hm. cbn [negb].
  set (o := if pg_ready k then _ else _).
  assert (Ho : (refs k v = 0 -> o = None) /\ (0 < refs k v < 4294967295 -> exists k1, o = Some k1 /\ only v k k1 /\
    refs k1 v = refs k v + 1 /\ flags (meta_at k1 (idx v)) = flags (meta_at k (idx v)) /\
    flags (desc_at k1 (idx v)) = flags (desc_at k (idx v)))).
  { unfold o. rewrite (refs_spec k), Hm by done. destruct (pg_ready k) eqn:Er.
    - assert (E : pagedb_refcount_pa k (V2P v) = refcount (desc_at k (idx v)))
        by (unfold pagedb_refcount_pa; by rewrite Hd).
      rewrite E. split; [by intros ->|]. intros Hr.
      cbv zeta. rewrite u32_small by (unfold is_u32; lia).
      destruct (Z.eqb_spec (refcount (desc_at k (idx v))) 0); [lia|]. eexists. split; [done|].
      unfold pagedb_set_refcount_pa.
      pose proof (only_with_desc v (set_refs (refcount (desc_at k (idx v)) + 1)) k Hp) as Ho.
      set (k1 := with_desc k (V2P v) (set_refs (refcount (desc_at k (idx v)) + 1))) in *.
      assert (E1 : desc_at k1 (idx v) = set_refs (refcount (desc_at k (idx v)) + 1) (desc_at k (idx v)))
        by (unfold k1; rewrite with_desc_at by done; by rewrite Er).
      assert (E2 : meta_at k1 (idx v) = meta_at k (idx v)) by apply with_desc_meta.
      split_and!; [done| |by rewrite E2|by rewrite E1].
      rewrite refs_spec by done. destruct (on_lists _ _ _ Ho) as (_&_&_&_&->). by rewrite Er, E1.
    - split; [by intros ->|]. intros Hr.
      cbv zeta. rewrite u32_small by (unfold is_u32; lia).
      destruct (Z.eqb_spec (refcount (meta_at k (idx v))) 0); [lia|]. eexists. split; [done|].
      pose proof (only_upd_meta v (set_refs (refcount (meta_at k (idx v)) + 1)) k) as Ho.
      set (k1 := upd_meta (idx v) (set_refs (refcount (meta_at k (idx v)) + 1)) k) in *.
      assert (E1 : meta_at k1 (idx v) = set_refs (refcount (meta_at k (idx v)) + 1) (meta_at k (idx v)))
        by (unfold k1; rewrite meta_upd; by rewrite bool_decide_eq_true_2).
      split_and!; [done| |by rewrite E1|done].
      rewrite refs_spec by done. unfold managed. rewrite E1. cbn [set_refs flags refcount].
      fold (managed k v). rewrite Hm. by destruct (on_lists _ _ _ Ho) as (_&_&_&_&->); rewrite Er. }
  destruct Ho as [Hz Hpos]. split; [by intros E; rewrite Hz|]. intros Hr.
  destruct (Hpos Hr) as (k1 & -> & Ho & Hr1 & Hf1 & Hd1). eexists. split; [done|].
  set (k2 := upd_meta (idx v) (clear_flag KPAGE_FREE) k1).
  assert (Ho2 : only v k k2) by (eapply only_trans; [exact Ho|apply only_upd_meta]).
  destruct (clear_free_flags (meta_at k1 (idx v))) as (F1 & _ & _).
  assert (E2 : meta_at k2 (idx v) = clear_flag KPAGE_FREE (meta_at k1 (idx v)))
    by (unfold k2; rewrite meta_upd; by rewrite bool_decide_eq_true_2).
  assert (Hm1 : managed k1 v = true) by (unfold managed; by rewrite Hf1).
  assert (Hm2 : managed k2 v = true) by (unfold managed; rewrite E2, F1; exact Hm1).
  assert (Hr2 : refs k2 v = refs k v + 1).
  { rewrite <- Hr1, (refs_spec k2), (refs_spec k1), Hm1, Hm2, E2 by done. done. }
  destruct (inv_only k (bump REF_INCREMENTS 1 k2) v) as [Hi' Hrs]; try done.
  - eapply only_trans; [exact Ho2|apply only_bump].
  - change (refs (bump REF_INCREMENTS 1 k2) v) with (refs k2 v). rewrite Hr2. unfold is_u32. lia.
  - change (refs (bump REF_INCREMENTS 1 k2) v) with (refs k2 v). lia.
  - lia.
  - intros Erd. change (desc_at (bump REF_INCREMENTS 1 k2) (idx v)) with (desc_at k1 (idx v)). rewrite Hd1.
    change (refs (bump REF_INCREMENTS 1 k2) v) with (refs k2 v).
    rewrite (inv_desc k Hi v Erd Hp Hm), Hr2. destruct (Z.eqb_spec (refs k v) 0), (Z.eqb_spec (refs k v + 1) 0); lia || done.
  - change (refs (bump REF_INCREMENTS 1 k2) v) with (refs k2 v) in Hrs. rewrite Hr2 in Hrs. done.
Qed.

(** ** Contiguous runs *)

(** Each page lies one page below the one before it. *)
Definition chain (l : list Z) : Prop :=
  forall j a b, l !! j = Some a -> l !! S j = Some b -> a = b + PGSIZE.

Lemma chain_snoc l r : chain (l ++ [r]) <-> chain l /\ (forall w, last l = Some w -> w = r + PGSIZE).
Proof.
  split.
  - intros H. split.
    + intros j a b Ha Hb. apply (H j); by apply lookup_app_l_Some.
    + intros w Hw. rewrite last_lookup in Hw. apply (H (pred (length l))).
      * by apply lookup_app_l_Some.
      * destruct l as [|x l]; [done|]. cbn [length pred]. apply lookup_app_Some. right. cbn. split; [lia|].
        by rewrite Nat.sub_diag.
  - intros [Hl Hr] j a b Ha Hb. apply lookup_app_Some in Hb as [Hb|[Hge Hb]].
    + apply (Hl j); [|done]. apply lookup_lt_Some in Hb. rewrite lookup_app_l in Ha by lia. done.
    + apply list_lookup_singleton_Some in Hb as [Hj ->].
      assert (Hjl : S j = length l) by lia. apply Hr. rewrite last_lookup, <- Hjl. cbn [pred].
      rewrite lookup_app_l in Ha by lia. done.
Qed.

Lemma chain_drop n l : chain l -> chain (drop n l).
Proof. intros H j a b Ha Hb. rewrite !lookup_drop in *. apply (H (n + j)%nat); [done|]. by rewrite <- Nat.add_succ_r. Qed.

Lemma chain_single v : chain [v].
Proof. intros [|j] a b Ha Hb; done. Qed.

(** The chain at the end of [pre] that the scan has found is the longest one. *)
Definition scan_inv (pre : list Z) (head : nat) (run_len last_pa : Z) : Prop :=
  (forall h, chain (drop h pre) -> Z.of_nat (length pre) - Z.of_nat h <= run_len) /\
  (pre <> [] -> 1 <= run_len) /\
  (run_len <> 0 -> Z.of_nat head + run_len = Z.of_nat (length pre) /\ chain (drop head pre) /\
     exists w, last pre = Some w /\ V2P w = last_pa).

Lemma last_drop_lt (l : list Z) h : (h < length l)%nat -> last (drop h l) = last l.
Proof. intros Hh. rewrite !last_lookup, length_drop, lookup_drop. f_equal. lia. Qed.

(** A break of the chain at [r] starts a new one. *)
Lemma scan_break pre r :
  (forall h, chain (drop h pre) -> (h < length pre)%nat -> exists w, last pre = Some w /\ w <> r + PGSIZE) ->
  scan_inv (pre ++ [r]) (length pre) 1 (V2P r).
Proof.
  intros Hbr. split_and!.
  - intros h Hc. rewrite length_app; cbn. destruct (Nat.lt_ge_cases h (length pre)) as [Hlt|Hge]; [|lia].
    rewrite drop_app_le in Hc by lia. apply chain_snoc in Hc as [Hc Hl].
    destruct (Hbr h Hc Hlt) as (w & Hw & Hneq). exfalso. apply Hneq, Hl. by rewrite last_drop_lt.
  - done.
  - intros _. rewrite length_app. cbn. split; [lia|]. rewrite drop_app_length. split; [apply chain_single|].
    exists r. by rewrite last_snoc.
Qed.

Lemma scan_step pre head run_len last_pa r :
  (forall v, v ∈ pre ++ [r] -> page v) -> 0 <= run_len -> scan_inv pre head run_len last_pa ->
  let '(head', run_len', last_pa') :=
    if run_len =? 0 then (length pre, 1, V2P r)
    else if (V2P r +u PGSIZE) =? last_pa then (head, run_len + 1, V2P r)
    else (length pre, 1, V2P r) in
  scan_inv (pre ++ [r]) head' run_len' last_pa' /\ 1 <= run_len' <= run_len + 1.
Proof.
  intros Hp H0 (Hmax & Hne & Hrun). destruct (Z.eqb_spec run_len 0) as [Hz|Hnz].
  - split; [|lia]. apply scan_break. intros h Hc Hlt. exfalso. destruct pre; [cbn in Hlt; lia|].
    specialize (Hne ltac:(done)). lia.
  - destruct (Hrun Hnz) as (Hlen & Hch & w & Hw & Hpa).
    assert (Hpw : page w) by (apply Hp; apply elem_of_app; left; apply last_Some_elem_of; done).
    assert (Hpr : page r) by (apply Hp; set_solver).
    destruct (page_spec w Hpw) as (_ & _ & Ew & Rw & _). destruct (page_spec r Hpr) as (_ & _ & Er & Rr & _).
    assert (Eu : (V2P r +u PGSIZE) = r - KERNBASE + PGSIZE)
      by (rewrite Er; apply u32_small; unfold is_u32, PHYSTOP, PGSIZE in *; lia).
    rewrite Eu. destruct (Z.eqb_spec (r - KERNBASE + PGSIZE) last_pa) as [Heq|Hneq].
    + assert (Hwr : w = r + PGSIZE) by lia. split; [|lia]. split_and!.
      * intros h Hc. rewrite length_app; cbn. destruct (Nat.lt_ge_cases h (length pre)) as [Hlt|Hge]; [|lia].
        rewrite drop_app_le in Hc by lia. apply chain_snoc in Hc as [Hc _]. specialize (Hmax h Hc). lia.
      * intros _. lia.
      * intros _. rewrite length_app. cbn. split; [lia|]. rewrite drop_app_le by lia. split.
        { apply chain_snoc. split; [done|]. intros w' Hw'. rewrite last_drop_lt in Hw' by lia. congruence. }
        exists r. by rewrite last_snoc.
    + split; [|lia]. apply scan_break. intros h Hc Hlt. exists w. split; [done|]. intros ->. lia.
Qed.

Lemma contig_scan_spec k npages pre fl head run_len last_pa :
  (forall v, v ∈ pre ++ fl -> page v /\ run_ok k v = true) -> 0 <= run_len < npages ->
  scan_inv pre head run_len last_pa ->
  exists found, contig_scan end_ writable meta_base k npages (length pre) fl head run_len last_pa 0
      = (fl, found, 0) /\
    match found with
    | Some h => (h + Z.to_nat npages <= length (pre ++ fl))%nat /\
                chain (take (Z.to_nat npages) (drop h (pre ++ fl)))
    | None => forall h, (length pre < h + Z.to_nat npages <= length (pre ++ fl))%nat ->
                ~ chain (take (Z.to_nat npages) (drop h (pre ++ fl)))
    end.
Proof.
  revert pre head run_len last_pa. induction fl as [|r rest IH]; intros pre head run_len last_pa Hok Hrl Hinv.
  { exists None. split; [done|]. intros h Hh. rewrite app_nil_r in Hh. lia. }
  cbn [contig_scan]. destruct (Hok r) as [Hpr Hrr]; [set_solver|]. rewrite Hrr. cbn [negb].
  assert (Hbad : match rest with next :: _ => negb (kalloc_runptr_valid end_ next) | [] => false end = false).
  { destruct rest as [|nx rest]; [done|]. destruct (Hok nx) as [[_ ->] _]; [set_solver|done]. }
  rewrite Hbad. cbv iota. destruct (page_idx r Hpr) as (_ & Hpa & _). rewrite Hpa.
  rewrite run_ok_spec in Hrr by done. apply andb_true_iff in Hrr as [Hrr _].
  fold (managed k r) (marked_free k r). rewrite Hrr.
  pose proof (scan_step pre head run_len last_pa r) as Hst.
  destruct (if run_len =? 0 then _ else _) as [[head' run_len'] last_pa'].
  destruct Hst as [Hinv' Hrl']; [intros v Hv; apply Hok; set_solver|lia|done|]. cbn [andb].
  assert (Eapp : pre ++ r :: rest = (pre ++ [r]) ++ rest) by (by rewrite <- app_assoc).
  destruct (Z.eqb_spec run_len' npages) as [Heq|Hneq].
  - exists (Some head'). split; [done|]. destruct Hinv' as (_ & _ & Hr). destruct Hr as (Hl & Hc & _); [lia|].
    rewrite Eapp. rewrite length_app in Hl |- *. cbn in Hl.
    split; [rewrite length_app; cbn; lia|].
    rewrite drop_app_le by (rewrite length_app; cbn; lia).
    rewrite take_app_le by (rewrite length_drop, length_app; cbn; lia).
    by rewrite take_ge by (rewrite length_drop, length_app; cbn; lia).
  - destruct (IH (pre ++ [r]) head' run_len' last_pa') as (found & E & Hf);
      [by rewrite <- Eapp|lia|done|]. rewrite <- Eapp in *.
    rewrite length_app, Nat.add_1_r in E. rewrite E. exists found. split; [done|].
    destruct found as [h|]; [done|]. intros h Hh.
    destruct (Nat.eq_dec (h + Z.to_nat npages) (S (length pre))) as [He|Hne].
    + intros Hc. destruct Hinv' as (Hmax & _ & _).
      assert (Hcp : chain (drop h (pre ++ [r]))).
      { rewrite Eapp in Hc. rewrite drop_app_le in Hc by (rewrite length_app; cbn; lia).
        rewrite take_app_le in Hc by (rewrite length_drop, length_app; cbn; lia).
        by rewrite take_ge in Hc by (rewrite length_drop, length_app; cbn; lia). }
      specialize (Hmax h Hcp). rewrite length_app in Hmax. cbn in Hmax. lia.
    + apply Hf. rewrite length_app, Nat.add_1_r. lia.
Qed.

(** Marking works on the metadata only: it commutes with list updates. *)
Definition set_lists (f : list Z) (n : Z) (k : kmem) : kmem := set_free_pages (set_freelist k f) n.

Lemma mark_allocated_lists pa i f n k :
  mark_allocated pa i (set_lists f n k) = set_lists f n (mark_allocated pa i k).
Proof.
  unfold mark_allocated, pagedb_ready, pagedb_set_refcount_pa, pagedb_mark_allocated_pa, with_desc, pgdesc_by_pa.
  cbn. destruct (pg_ready k) eqn:Er; cbn; rewrite Er; cbn; [|by rewrite Er].
  destruct (pa >=? PHYSTOP); cbn; [by rewrite Er|]. destruct (pa / PGSIZE >=? NPAGE); cbn; rewrite ?Er; done.
Qed.

Lemma contig_mark_lists run f n k :
  contig_mark run (set_lists f n k) = set_lists f n <$> contig_mark run k.
Proof.
  revert k; induction run as [|r run IH]; intros k; [done|]. cbn [contig_mark].
  destruct (kpage_meta_pa (V2P r)) as [i|]; [|done].
  change (meta_at (set_lists f n k) i) with (meta_at k i).
  destruct (negb (flag (flags (meta_at k i)) KPAGE_MANAGED)); [done|]. by rewrite mark_allocated_lists, IH.
Qed.

Lemma contig_mark_spec run pre post k :
  inv k -> use_lock k = true -> freelist k = pre ++ run ++ post ->
  exists k', contig_mark run k = Some k' /\ inv (set_lists (pre ++ post) (free_pages k - len run) k') /\
    free_pages k' = free_pages k /\ length (caches k') = length (caches k) /\ use_lock k' = use_lock k /\
    pg_ready k' = pg_ready k /\
    (forall w, page w -> refs k' w = if bool_decide (w ∈ run) then 1 else refs k w) /\
    (forall w, page w -> managed k' w = managed k w).
Proof.
  revert k. induction run as [|r run IH]; intros k Hi Hu Hfl; cbn [contig_mark].
  { exists k. split_and!; try done. unfold set_lists, len; cbn. rewrite Z.sub_0_r.
    cbn in Hfl. rewrite <- Hfl. by destruct k. }
  assert (Hin : r ∈ frees k) by (unfold frees; rewrite Hfl; set_solver).
  destruct (inv_free k Hi r Hin) as (Hp & Hm & _ & Hz). destruct (page_idx r Hp) as (_ & Hpa & _).
  rewrite Hpa. fold (managed k r). rewrite Hm. cbn [negb].
  set (k1 := set_lists (pre ++ run ++ post) (free_pages k - 1) k).
  destruct (inv_take k k1 r Hi) as [Hi1 (R1 & R2 & R3 & R4 & R5 & R6)]; try done.
  { unfold frees, k1, set_lists; cbn. rewrite Hfl. cbn. by rewrite <- Permutation_middle. }
  { apply Hi. }
  { unfold k1; cbn. rewrite Hu. discriminate. }
  unfold k1 in Hi1, R1, R2, R3, R4, R5, R6. rewrite mark_allocated_lists in *.
  set (k2 := mark_allocated (V2P r) (idx r) k) in *.
  set (k3 := set_lists (pre ++ run ++ post) (free_pages k - 1) k2) in *.
  destruct (IH k3 Hi1) as (k' & E & Hi' & F1 & F2 & F3 & F4 & F5 & F6); [by rewrite R5|done|].
  unfold k3 in E. rewrite contig_mark_lists in E. destruct (contig_mark run k2) as [k4|] eqn:E4; [|done].
  cbn in E. injection E as <-. exists k4. split; [done|].
  assert (Hfp : forall run k k4, contig_mark run k = Some k4 -> free_pages k4 = free_pages k).
  { clear. induction run as [|r run IH]; intros k k4 E; cbn in E; [congruence|].
    destruct (kpage_meta_pa (V2P r)); [|done]. destruct (negb _); [done|]. rewrite (IH _ _ E).
    unfold mark_allocated, pagedb_ready, pagedb_set_refcount_pa, pagedb_mark_allocated_pa, with_desc, pgdesc_by_pa.
    cbn. destruct (pg_ready k); cbn; repeat case_match; done. }
  pose proof (Hfp _ _ _ E4) as Hk4. assert (Hk2 : free_pages k2 = free_pages k).
  { apply (on_lists r). by apply mark_allocated_spec. }
  split_and!; [|congruence|exact (eq_trans F2 R4)|exact (eq_trans F3 R5)|exact (eq_trans F4 R6)| |].
  - replace (free_pages k - len (r :: run)) with (free_pages k3 - len run)
      by (unfold k3, len; cbn; lia). exact Hi'.
  - intros w Hw. change (refs k4 w) with (refs (set_lists (pre ++ run ++ post) (free_pages k - 1) k4) w).
    rewrite F5 by done. destruct (decide (w = r)) as [->|Hne].
    + rewrite (bool_decide_eq_true_2 (r ∈ r :: run)) by set_solver. by case_bool_decide.
    + rewrite (R2 w Hw Hne). repeat case_bool_decide; set_solver.
  - intros w Hw. change (managed k4 w) with (managed (set_lists (pre ++ run ++ post) (free_pages k - 1) k4) w).
    rewrite F6 by done. by apply R3.
Qed.

(** The pages of a descending chain, from its last one up. *)
Lemma chain_lookup l v j : chain l -> last l = Some v -> (j < length l)%nat ->
  l !! j = Some (v + (Z.of_nat (length l) - 1 - Z.of_nat j) * PGSIZE).
Proof.
  intros Hc Hl Hj. remember (length l - 1 - j)%nat as d eqn:Ed. revert j Hj Ed.
  induction d as [|d IH]; intros j Hj Ed.
  - rewrite last_lookup in Hl. replace j with (pred (length l)) at 1 by lia. rewrite Hl. f_equal. unfold PGSIZE. lia.
  - pose proof (IH (S j) ltac:(lia) ltac:(lia)) as Hs.
    destruct (lookup_lt_is_Some_2 l j Hj) as [a Ha]. rewrite Ha. f_equal. rewrite (Hc j a _ Ha Hs). unfold PGSIZE. lia.
Qed.

(** What no allocation or free changes. *)
Definition kept (k k' : kmem) : Prop :=
  (forall w, page w -> managed k' w = managed k w) /\
  length (caches k') = length (caches k) /\ use_lock k' = use_lock k /\ pg_ready k' = pg_ready k.

(** A run taken off the list is what the caller asked for. *)
Definition run_taken (npages v : Z) (k k' : kmem) : Prop :=
  v <> 0 /\
  (forall j, 0 <= j < npages ->
     let w := v + j * PGSIZE in page w /\ w ∈ freelist k /\ refs k w = 0 /\ refs k' w = 1 /\ (w ∉ frees k')) /\
  (forall w, page w -> (forall j, 0 <= j < npages -> w <> v + j * PGSIZE) -> refs k' w = refs k w).

Lemma chain_taken k k' run v :
  inv k -> inv k' -> (forall w, w ∈ run -> w ∈ freelist k) -> chain run -> last run = Some v ->
  (forall w, page w -> refs k' w = if bool_decide (w ∈ run) then 1 else refs k w) ->
  run_taken (len run) v k k'.
Proof.
  intros Hi Hi' Hrf Hch Hl G. unfold len.
  assert (Hw : forall j, 0 <= j < Z.of_nat (length run) -> (v + j * PGSIZE) ∈ run).
  { intros j Hj. eapply (list_elem_of_lookup_2 _ (length run - 1 - Z.to_nat j)%nat).
    rewrite (chain_lookup run v) by (done || lia). unfold PGSIZE. do 2 f_equal. lia. }
  assert (Hpg : forall w, w ∈ run -> page w /\ refs k w = 0).
  { intros w Hin. destruct (inv_free k Hi w) as (? & _ & _ & ?); [unfold frees; apply elem_of_app; left; auto|done]. }
  split_and!.
  - apply last_Some_elem_of in Hl. by apply (page_spec v), Hpg.
  - intros j Hj. set (w := v + j * PGSIZE). destruct (Hpg w (Hw j Hj)) as [Hp Hz].
    assert (H1 : refs k' w = 1) by (rewrite G, bool_decide_eq_true_2 by (done || by apply Hw); done).
    split_and!; [done|by apply Hrf, Hw|done|done|].
    intros Hin. destruct (inv_free k' Hi' w Hin) as (_ & _ & _ & Hz'). lia.
  - intros w Hp Hne. rewrite G by done. case_bool_decide as Hin; [|done].
    exfalso. apply list_elem_of_lookup in Hin as [i Hi'']. pose proof (lookup_lt_Some _ _ _ Hi'').
    rewrite (chain_lookup run v) in Hi'' by (done || lia). injection Hi'' as Hi''.
    apply (Hne (Z.of_nat (length run) - 1 - Z.of_nat i)); unfold PGSIZE in *; lia.
Qed.

(** What a request for several pages does. *)
Lemma contiguous_spec k c npages :
  inv k -> use_lock k = true -> 2 <= npages <= 4294967295 ->
  exists v k', kalloc_contiguous end_ writable meta_base npages c k = Some (v, k') /\ inv k' /\ kept k k' /\
    (run_taken npages v k k' \/
     (v = 0 /\ refs_same k k' /\
      forall h, (h + Z.to_nat npages <= length (freelist k))%nat ->
        ~ chain (take (Z.to_nat npages) (drop h (freelist k))))).
Proof.
  intros Hi Hu Hn. unfold kalloc_contiguous.
  destruct (Z.eqb_spec npages 0), (Z.eqb_spec npages 1); try lia.
  set (k0 := bump ALLOC_CALLS 1 k). change (use_lock k0) with (use_lock k). rewrite Hu. cbn [negb].
  assert (Hi0 : inv k0) by (eapply moved_inv; [apply moved_bump|done|done]).
  destruct (contig_scan_spec k0 npages [] (freelist k) 0 0 0) as (found & E & Hf).
  { intros v Hv. apply (inv_lists k0 Hi0). unfold frees. set_solver. }
  { lia. }
  { split_and!; [intros h _; cbn; lia|done|done]. }
  change (freelist k0) with (freelist k). change (length (@nil Z)) with 0%nat in E. rewrite E.
  cbn [app] in Hf.
  set (k1 := bump CONTIG_DROPS 0 (set_freelist k0 (freelist k))).
  assert (Hm1 : moved k k1) by (split; done).
  assert (Hi1 : inv k1) by (by eapply moved_inv).
  destruct found as [h|].
  2: { exists 0, k1. split; [done|]. split; [done|]. split; [split_and!; done|]. right.
       split_and!; [done|by apply moved_same|]. intros h Hh. apply Hf. cbn. lia. }
  destruct Hf as [Hlen Hch]. set (m := Z.to_nat npages) in *. set (run := take m (drop h (freelist k))) in *.
  assert (Hm2 : Z.of_nat m = npages) by (unfold m; lia).
  assert (Hrun : len run = npages) by (unfold run, len; rewrite length_take, length_drop; lia).
  assert (Hsplit : freelist k1 = take h (freelist k) ++ run ++ drop (h + m) (freelist k)).
  { cbn. unfold run. rewrite <- drop_drop, (take_drop m), take_drop. done. }
  destruct (contig_mark_spec run _ _ k1 Hi1 Hu Hsplit) as (k2 & E2 & Hi2 & G1 & G2 & G3 & G4 & G5 & G6).
  set (f := take h (freelist k) ++ drop (h + m) (freelist k)) in *.
  change (set_freelist k1 f) with (set_lists f (free_pages k1) k1). rewrite contig_mark_lists, E2.
  cbn [fmap option_fmap option_map].
  assert (Hcnt : npages <= free_pages k2).
  { rewrite G1, (inv_count k1 Hi1). unfold frees. rewrite Hsplit. unfold len in *. rewrite !length_app. lia. }
  change (free_pages (set_lists f (free_pages k1) k2)) with (free_pages k1). rewrite <- G1, Z.geb_leb.
  destruct (Z.leb_spec npages (free_pages k2)); [|lia].
  rewrite Hrun, <- G1 in Hi2.
  set (k3 := set_free_pages (set_lists f (free_pages k2) k2) (free_pages k2 - npages)).
  change (set_lists f (free_pages k2 - npages) k2) with k3 in Hi2.
  destruct (last run) as [v|] eqn:Hl; [|apply last_None in Hl; rewrite Hl in Hrun; unfold len in Hrun; cbn in Hrun; lia].
  exists v, k3. split; [done|]. split; [done|]. split; [split_and!; done|]. left. rewrite <- Hrun.
  apply (chain_taken k k3 run v); try done.
  intros w Hin. unfold run in Hin. apply elem_of_take in Hin as (i & Hi' & _).
  rewrite lookup_drop in Hi'. by eapply list_elem_of_lookup_2.
Qed.

(** [kalloc_contiguous] of two or more pages never panics: it returns the
    base of a physically contiguous run of pages that were free on the global
    list, each with reference count 1 afterwards and on no free list, every
    other page keeping its count; or 0 without touching any page, and that
    only when no [npages] neighbours of the list, in list order, form a
    descending run. *)
Theorem contiguous_correct k c npages :
  inv k -> use_lock k = true -> 2 <= npages <= 4294967295 ->
  exists v k', kalloc_contiguous end_ writable meta_base npages c k = Some (v, k') /\ inv k' /\ kept k k' /\
    (run_taken npages v k k' \/
     (v = 0 /\ refs_same k k' /\
      forall h, (h + Z.to_nat npages <= length (freelist k))%nat ->
        ~ chain (take (Z.to_nat npages) (drop h (freelist k))))).
Proof. apply contiguous_spec. Qed.

(** ** Sequences of calls *)

(** The promise to clients, on reference counts alone: an allocation returns 0
    or a page with no references, which then has one; a free drops one, or
    does nothing when there is none; [kpage_incref] adds one. *)
Definition count_set (v n : Z) (a a' : Z -> Z) : Prop :=
  a' v = n /\ forall w, page w -> w <> v -> a' w = a w.
Definition count_same (a a' : Z -> Z) : Prop := forall w, page w -> a' w = a w.

Definition spec_call (x : call) (r : Z) (a a' : Z -> Z) : Prop :=
  match x with
  | CAlloc _ => (r = 0 /\ count_same a a') \/ (page r /\ a r = 0 /\ count_set r 1 a a')
  | CFree _ v => r = 0 /\ page v /\
      ((a v = 0 /\ count_same a a') \/ (0 < a v /\ count_set v (a v - 1) a a'))
  | CIncref v => r = 0 /\ 0 < a v /\ count_set v (a v + 1) a a'
  end.

Fixpoint spec_calls (cs : list call) (rs : list Z) (a a' : Z -> Z) : Prop :=
  match cs, rs with
  | [], [] => count_same a a'
  | x :: cs, r :: rs => exists b, spec_call x r a b /\ spec_calls cs rs b a'
  | _, _ => False
  end.

(** The calls name existing CPUs, and references are taken on managed pages. *)
Definition call_ok (k : kmem) (x : call) : Prop :=
  match x with
  | CAlloc c => cpu_ok k c
  | CFree c v => cpu_ok k c /\ is_u32 v
  | CIncref v => page v /\ managed k v = true
  end.

Lemma refs_set_kept v n k k' : refs_set v n k k' -> kept k k' /\ count_set v n (refs k) (refs k').
Proof. intros (R1 & R2 & R3 & R4 & R5 & R6). split; split_and!; auto. Qed.
Lemma refs_same_kept k k' : refs_same k k' -> kept k k' /\ count_same (refs k) (refs k').
Proof. intros (R1 & R2 & R3 & R4 & R5). split; [split_and!; auto|]. intros w _. apply R1. Qed.

Lemma call_ok_kept k k' x : kept k k' -> call_ok k x -> call_ok k' x.
Proof.
  intros (M & N & _). destruct x; cbn; unfold cpu_ok; rewrite ?N; try done.
  intros [Hp Hm]. split; [done|]. by rewrite M.
Qed.

Lemma exec_call x k r k' :
  inv k -> call_ok k x -> (forall v, page v -> refs k v < 4294967295) ->
  exec end_ writable meta_base [x] k = Some ([r], k') ->
  inv k' /\ kept k k' /\ spec_call x r (refs k) (refs k').
Proof.
  intros Hi Hok Hb. cbn [exec]. destruct x as [c|c v|v]; cbn in Hok.
  - destruct (alloc_any k c Hi Hok) as (v & k1 & -> & Hi1 & Ho). intros [= <- <-].
    destruct Ho as [(_ & Hp & _ & Hz & _ & Hs)|(-> & _ & _ & Hs)].
    + destruct (refs_set_kept _ _ _ _ Hs). split_and!; [done..|]. by right.
    + destruct (refs_same_kept _ _ Hs). split_and!; [done..|]. by left.
  - destruct Hok as [Hc Hu].
    assert (Hdec : (page v /\ managed k v = true) \/ kfree end_ writable meta_base c v k = None).
    { destruct (kalloc_runptr_valid end_ v) eqn:Ev; [destruct (managed k v) eqn:Em|].
      - by left.
      - right. apply kfree_guard; [done|]. intros [_ ?]. congruence.
      - right. apply kfree_guard; [done|]. intros [[_ ?] _]. congruence. }
    destruct Hdec as [[Hp Hm]| ->]; [|done].
    destruct (kfree_managed k c v Hi Hc Hp Hm) as (k1 & -> & Hi1 & H0 & H1 & _). intros [= <- <-].
    pose proof (inv_refs k Hi v Hp) as Hr. unfold is_u32 in Hr.
    destruct (Z.eq_dec (refs k v) 0) as [Hz|Hz].
    + destruct (refs_same_kept _ _ (proj1 (H0 Hz))). split_and!; [done..|]. split_and!; [done..|]. by left.
    + destruct (refs_set_kept _ _ _ _ (H1 Hz)). split_and!; [done..|]. split_and!; [done..|]. right. split; [lia|done].
  - destruct Hok as [Hp Hm]. destruct (incref_spec k v Hi Hp Hm) as [H0 H1].
    pose proof (inv_refs k Hi v Hp) as Hr. unfold is_u32 in Hr.
    destruct (Z.eq_dec (refs k v) 0) as [Hz|Hz]; [by rewrite H0|].
    destruct H1 as (k1 & -> & Hi1 & Hs); [specialize (Hb v Hp); lia|]. intros [= <- <-].
    destruct (refs_set_kept _ _ _ _ Hs). split_and!; [done..|]. split_and!; [done|lia|done].
Qed.

Lemma exec_cons x cs k : exec end_ writable meta_base (x :: cs) k =
  match exec end_ writable meta_base [x] k with
  | Some ([r], k1) => match exec end_ writable meta_base cs k1 with
                      | Some (rs, k2) => Some (r :: rs, k2) | None => None end
  | _ => None
  end.
Proof. cbn [exec]. by destruct (match x with CAlloc _ => _ | CFree _ _ => _ | CIncref _ => _ end) as [[? ?]|]. Qed.

Lemma exec_one x k rs k' : exec end_ writable meta_base [x] k = Some (rs, k') -> exists r, rs = [r].
Proof. cbn [exec]. destruct (match x with CAlloc _ => _ | CFree _ _ => _ | CIncref _ => _ end) as [[? ?]|]; naive_solver. Qed.

Lemma spec_call_bound x r a a' n : (forall v, page v -> a v <= n) -> 1 <= n + 1 -> spec_call x r a a' ->
  forall v, page v -> a' v <= n + 1.
Proof.
  intros Hb Hn Hs v Hp. pose proof (Hb v Hp).
  assert (Hset : forall w m, m <= n + 1 -> count_set w m a a' -> a' v <= n + 1).
  { intros w m Hm [E1 E2]. destruct (decide (v = w)) as [->|Hne]; [lia|]. rewrite E2 by done. lia. }
  assert (Hsame : count_same a a' -> a' v <= n + 1) by (intros E; rewrite E by done; lia).
  destruct x as [c|c w|w]; cbn in Hs.
  - destruct Hs as [[_ E]|(Hw & Hz & E)]; [auto|]. eapply Hset; [|exact E]. pose proof (Hb r Hw). lia.
  - destruct Hs as (_ & Hw & [[_ E]|[Hw0 E]]); [auto|]. eapply Hset; [|exact E]. pose proof (Hb w Hw). lia.
  - destruct Hs as (_ & Hw0 & E). destruct (decide (v = w)) as [->|Hne]; [destruct E; lia|].
    destruct E as [_ E2]. rewrite E2 by done. lia.
Qed.

Lemma exec_spec cs k n rs k' :
  inv k -> Forall (call_ok k) cs -> 0 <= n -> (forall v, page v -> refs k v <= n) -> n + len cs <= 4294967295 ->
  exec end_ writable meta_base cs k = Some (rs, k') ->
  inv k' /\ kept k k' /\ spec_calls cs rs (refs k) (refs k').
Proof.
  revert k n rs. induction cs as [|x cs IH]; intros k n rs Hi Hok Hn Hb Hl.
  { cbn. intros [= <- <-]. split_and!; done. }
  rewrite exec_cons. destruct (exec _ _ _ [x] k) as [[rs1 k1]|] eqn:E1; [|done].
  destruct (exec_one _ _ _ _ E1) as [r ->]. destruct (exec _ _ _ cs k1) as [[rs2 k2]|] eqn:E2; [|done].
  intros [= <- <-]. apply Forall_cons in Hok as [Hx Hok]. unfold len in Hl. cbn [length] in Hl.
  destruct (exec_call x k r k1 Hi Hx) as (Hi1 & Hk1 & Hs1); [|done|].
  { intros v Hp. specialize (Hb v Hp). lia. }
  destruct (IH k1 (n + 1) rs2 Hi1) as (Hi2 & Hk2 & Hs2); [| |by eapply spec_call_bound; eauto; lia| |done|].
  { eapply Forall_impl; [exact Hok|]. intros y. by apply call_ok_kept. }
  { lia. }
  { unfold len. lia. }
  split_and!; [done| |by exists (refs k1)].
  destruct Hk1 as (M1 & N1 & U1 & P1), Hk2 as (M2 & N2 & U2 & P2). split_and!; try congruence.
  intros w Hw. by rewrite M2, M1.
Qed.

(** C8.  The allocator refines its specification on reference counts: in every
    sequence of [kalloc], [kfree] and [kpage_incref] calls that does not panic,
    on any CPUs and in any order, the results and the counts are those of the
    specification.  In particular no page is handed out while it has
    references.  The only bound needed is that no count can reach 2^32. *)
Theorem allocator_refines cs k n rs k' :
  inv k -> Forall (call_ok k) cs -> 0 <= n -> (forall v, page v -> refs k v <= n) -> n + len cs <= 4294967295 ->
  exec end_ writable meta_base cs k = Some (rs, k') ->
  inv k' /\ spec_calls cs rs (refs k) (refs k').
Proof. intros. destruct (exec_spec cs k n rs k') as (? & _ & ?); auto. Qed.

(** ** Boot *)

(** A new page enters the allocator's care with one reference. *)
Lemma inv_manage k v : inv k -> page v -> managed k v = false -> pg_ready k = false ->
  exists k', kpage_mark_managed (V2P v) k = Some k' /\ inv k' /\ managed k' v = true /\ refs k' v = 1 /\
    only v k k'.
Proof.
  intros Hi Hp Hm Hr. destruct (page_idx v Hp) as (_ & Hpa & _). unfold kpage_mark_managed. rewrite Hpa.
  set (k1 := upd_meta (idx v) (fun _ => mkMeta 1 KPAGE_MANAGED) k).
  assert (Hnr : forall f, with_desc k1 (V2P v) f = k1) by (intros f; unfold with_desc, pgdesc_by_pa; cbn; by rewrite Hr).
  unfold pagedb_set_refcount_pa, pagedb_mark_allocated_pa, pagedb_mark_managed_pa. rewrite !Hnr.
  exists k1. assert (Ho : only v k k1) by apply only_upd_meta.
  assert (Em : meta_at k1 (idx v) = mkMeta 1 KPAGE_MANAGED)
    by (unfold k1; rewrite meta_upd; by rewrite bool_decide_eq_true_2).
  assert (Hm1 : managed k1 v = true) by (unfold managed; by rewrite Em).
  assert (Hr1 : refs k1 v = 1).
  { rewrite refs_spec, Hm1, Em by done. change (pg_ready k1) with (pg_ready k). by rewrite Hr. }
  assert (Hoth := fun w Hw Hne => only_other v k k1 w Ho Hp Hw Hne).
  assert (Hnin : v ∉ frees k) by (intros Hin; destruct (inv_free k Hi v Hin) as (_&?&_); congruence).
  split_and!; try done. split.
  - apply Hi.
  - intros w Hw. assert (Hne : w <> v) by (intros ->; done). destruct (inv_free k Hi w Hw) as (Hpw & ? & ? & ?).
    by destruct (Hoth w Hpw Hne) as (-> & -> & -> & _).
  - intros w Hw Hmw Hrw. destruct (decide (w = v)) as [->|Hne]; [lia|].
    destruct (Hoth w Hw Hne) as (Er & Emw & _). apply (inv_leak k Hi); congruence.
  - apply Hi.
  - apply Hi.
  - apply Hi.
  - intros w Hw. destruct (decide (w = v)) as [->|Hne]; [rewrite Hr1; unfold is_u32; lia|].
    destruct (Hoth w Hw Hne) as (-> & _). by apply (inv_refs k Hi).
  - cbn. congruence.
Qed.

(** The state at the start of the boot, on a machine with [n] CPUs. *)
Definition blank_kmem (n : nat) : kmem := mkK ∅ false ∅ false [] (replicate n []) 0 0 (replicate 16 0).

Lemma blank_inv n : inv (blank_kmem n).
Proof.
  assert (Hc : concat (caches (blank_kmem n)) = []) by (cbn; induction n; done).
  assert (Hf : frees (blank_kmem n) = []) by (unfold frees; by rewrite Hc).
  split; rewrite ?Hf; try done.
  - constructor.
  - intros v Hv. by apply not_elem_of_nil in Hv.
  - intros l Hl. cbn in Hl. apply elem_of_replicate in Hl as [-> _]. vm_compute. discriminate.
  - intros v Hp. rewrite refs_spec by done. unfold managed, meta_at. cbn [kmeta pg_ready blank_kmem].
    rewrite lookup_empty. vm_compute. intuition discriminate.
Qed.

(** Facts about the boot that all its steps keep. *)
Definition booting (k : kmem) : Prop := inv k /\ use_lock k = false /\ pg_ready k = false /\ cpu_ok k 0.

(** Before locking starts a page freed goes on the front of the global list. *)
Lemma drop_ref_lists pa k n k' : kpage_drop_ref pa k = Some (n, k') ->
  freelist k' = freelist k /\ use_lock k' = use_lock k.
Proof.
  unfold kpage_drop_ref, pagedb_set_refcount_pa, with_desc. intros E.
  repeat case_match; simplify_eq; done.
Qed.

Lemma kfree_early_list k c v k' : use_lock k = false -> check_head end_ k = k ->
  kfree end_ writable meta_base c v k = Some k' ->
  freelist k' = freelist k \/ freelist k' = v :: freelist k.
Proof.
  intros Hu Hh. unfold kfree. destruct (_ || _); [done|]. destruct (kpage_meta_pa _) as [i|]; [|done].
  destruct (_ || _); [done|]. destruct (_ =? 0).
  { destruct (flag _ _); [|done]. intros [= <-]. by left. }
  destruct (kpage_drop_ref _ _) as [[n k1]|] eqn:E; [|done].
  destruct (drop_ref_lists _ _ _ _ E) as [Hf Hl]. cbn in Hf, Hl.
  destruct (_ >? _); [intros [= <-]; by left|]. destruct (negb _); [done|].
  set (k2 := pagedb_mark_free_pa _ _).
  assert (freelist k2 = freelist k /\ use_lock k2 = false) as [Hf2 Hl2].
  { unfold k2, pagedb_mark_free_pa, with_desc. case_match; cbn; rewrite Hf, Hl; done. }
  unfold kfree_insert. rewrite Hl2. cbn [negb]. intros [= <-]. right. cbn. f_equal.
  unfold check_head in Hh |- *. rewrite Hf2 in *. destruct (freelist k) as [|r l] eqn:El; [done|].
  destruct (negb (kalloc_runptr_valid _ r)); [|done].
  apply (f_equal freelist) in Hh. cbn in Hh. by rewrite El in Hh.
Qed.

(** [n] pages from [p] up. *)
Fixpoint pages_from (n : nat) (p : Z) : list Z :=
  match n with O => [] | S n => p :: pages_from n (p + PGSIZE) end.

Lemma pages_from_lookup n p j : (j < n)%nat -> pages_from n p !! j = Some (p + Z.of_nat j * PGSIZE).
Proof.
  revert p j; induction n as [|n IH]; intros p j Hj; [lia|]. destruct j as [|j]; cbn [pages_from].
  - cbn. f_equal. lia.
  - cbn [lookup list_lookup]. rewrite IH by lia. f_equal. unfold PGSIZE. lia.
Qed.
Lemma pages_from_length n p : length (pages_from n p) = n.
Proof. revert p; induction n; intros; cbn; auto. Qed.

Lemma freerange_loop_spec n p k :
  booting k -> (forall j, 0 <= j < Z.of_nat n -> page (p + j * PGSIZE) /\ managed k (p + j * PGSIZE) = false) ->
  exists k', freerange_loop end_ writable meta_base n p k = Some k' /\ booting k' /\
    length (caches k') = length (caches k) /\
    freelist k' = rev (pages_from n p) ++ freelist k /\
    (forall j, 0 <= j < Z.of_nat n -> (p + j * PGSIZE) ∈ frees k') /\
    (forall w, page w -> (forall j, 0 <= j < Z.of_nat n -> w <> p + j * PGSIZE) ->
       managed k' w = managed k w /\ refs k' w = refs k w).
Proof.
  revert p k; induction n as [|n IH]; intros p k Hb Hpg; cbn [freerange_loop].
  { exists k. split_and!; try apply Hb; try done. intros j Hj. lia. }
  destruct Hb as (Hi & Hu & Hr & Hc). destruct (Hpg 0) as [Hp Hm]; [lia|].
  replace (p + 0 * PGSIZE) with p in * by (unfold PGSIZE; lia).
  destruct (inv_manage k p Hi Hp Hm Hr) as (k1 & -> & Hi1 & Hm1 & Hr1 & Ho1).
  pose proof (on_lists _ _ _ Ho1) as (L1 & L2 & L3 & L4 & L5).
  set (k2 := set_total_pages k1 (total_pages k1 +u 1)).
  assert (Hi2 : inv k2) by (split; apply Hi1).
  destruct (kfree_managed k2 0 p Hi2) as (k3 & Ef & Hi3 & _ & Hset & Hin);
    [unfold cpu_ok, k2; cbn; by rewrite L2|done|done|].
  assert (Hfl : freelist k3 = p :: freelist k).
  { destruct (kfree_early_list k2 0 p k3) as [Hf|Hf]; [cbn; congruence|apply check_head_id, inv_lists, Hi2|done| |];
      cbn in Hf; rewrite L1 in Hf; [|done].
    exfalso. assert (Hp3 : p ∈ frees k3) by (apply Hin; right; exact Hr1).
    destruct Hset as (_ & _ & _ & _ & S5 & _); [change (refs k2 p) with (refs k1 p); lia|].
    unfold frees in Hp3. rewrite (inv_early k3 Hi3), app_nil_r, Hf in Hp3 by (rewrite S5; cbn; congruence).
    destruct (inv_free k Hi p) as (_ & Hm' & _); [unfold frees; set_solver|congruence]. }
  rewrite Ef.
  change (refs k2 p) with (refs k1 p) in *. rewrite Hr1 in *. destruct Hset as (S1 & S2 & S3 & S4 & S5 & S6); [done|].
  assert (Hother : forall w, page w -> w <> p -> managed k3 w = managed k w /\ refs k3 w = refs k w).
  { intros w Hw Hne. rewrite S3, S2 by done.
    change (refs k2 w) with (refs k1 w). change (managed k2 w) with (managed k1 w). by destruct (only_other p k k1 w Ho1 Hp Hw Hne) as (-> & -> & _). }
  assert (Hstep : forall j, p + PGSIZE + j * PGSIZE = p + (j + 1) * PGSIZE) by (intros; unfold PGSIZE; lia).
  destruct (IH (p + PGSIZE) k3) as (k' & E & Hb' & N' & FL & F1 & F2).
  { split_and!; [done|rewrite S5; cbn; congruence|rewrite S6; cbn; congruence|unfold cpu_ok; rewrite S4; cbn; by rewrite L2]. }
  { intros j Hj. rewrite Hstep. destruct (Hpg (j + 1)) as [Hpj Hmj]; [lia|]. split; [done|].
    destruct (Hother _ Hpj) as [-> _]; [unfold PGSIZE; lia|done]. }
  exists k'. split_and!; [done|apply Hb'..| | | |].
  - rewrite N', S4. cbn. by rewrite L2.
  - rewrite FL, Hfl. cbn [pages_from rev]. by rewrite <- app_assoc.
  - intros j Hj. destruct (decide (j = 0)) as [->|Hj0].
    + replace (p + 0 * PGSIZE) with p by (unfold PGSIZE; lia).
      destruct (F2 p Hp) as [Fm Fr]; [intros j' Hj'; unfold PGSIZE; lia|].
      apply (inv_leak k' (proj1 Hb')); [done|rewrite Fm, S3 by done; exact Hm1|by rewrite Fr].
    + replace (p + j * PGSIZE) with (p + PGSIZE + (j - 1) * PGSIZE) by (unfold PGSIZE; lia). apply F1. lia.
  - intros w Hw Hne. destruct (F2 w Hw) as [-> ->].
    { intros j Hj. rewrite Hstep. apply Hne. lia. }
    apply Hother; [done|]. specialize (Hne 0). unfold PGSIZE in Hne. intros ->. apply Hne; lia.
Qed.

Lemma PGROUNDUP_spec v : 0 <= v <= 4294963200 ->
  PGROUNDUP v mod PGSIZE = 0 /\ v <= PGROUNDUP v < v + PGSIZE.
Proof.
  intros Hv. unfold PGROUNDUP, PGSIZE. rewrite u32_small by (unfold is_u32; lia).
  set (x := v + (4096 - 1)). assert (Hx : 0 <= x < 2 ^ 32) by (unfold x; lia).
  assert (E : Z.land x 4294963200 = x - x mod 4096).
  { assert (Hs : Z.land x 4294963200 = Z.ldiff x (Z.ones 12)).
    { apply Z.bits_inj'. intros b Hb. rewrite Z.land_spec, Z.ldiff_spec.
      change 4294963200 with (Z.ldiff (Z.ones 32) (Z.ones 12)). rewrite Z.ldiff_spec, (Z.testbit_ones_nonneg 32) by lia.
      destruct (Z.ltb_spec b 32); [by rewrite andb_true_l|].
      rewrite (Z.bits_above_log2 x b); [done|lia|].
      destruct (Z.eq_dec x 0) as [->|]; [cbn; lia|]. apply Z.lt_le_trans with 32; [|done]. by apply Z.log2_lt_pow2; lia. }
    rewrite Hs, Z.ldiff_ones_r by lia. rewrite Z.shiftr_div_pow2, Z.shiftl_mul_pow2 by lia.
    change (2 ^ 12) with 4096. pose proof (Z.div_mod x 4096). lia. }
  rewrite E. unfold x. split; mlia.
Qed.

(** One phase of the boot: all whole pages between the bounds become free. *)
Lemma freerange_spec vstart vend k :
  booting k -> end_ <= vstart -> vstart <= vend <= P2V PHYSTOP ->
  (forall v, page v -> vstart <= v -> v < vend -> managed k v = false) -> vend mod PGSIZE = 0 ->
  let p := PGROUNDUP vstart in
  exists k', freerange end_ writable meta_base vstart vend k = Some k' /\ booting k' /\
    length (caches k') = length (caches k) /\
    freelist k' = rev (pages_from (Z.to_nat ((vend - p) / PGSIZE)) p) ++ freelist k /\
    (forall v, page v -> vstart <= v < vend -> v ∈ frees k') /\
    (forall w, page w -> ~ (vstart <= w < vend) -> managed k' w = managed k w /\ refs k' w = refs k w).
Proof.
  intros Hb He Hv Hm Hal p. change (P2V PHYSTOP) with 2684354560 in Hv.
  pose proof (km_end (KernelMap := KM)) as Hke. unfold KERNBASE in Hke.
  destruct (PGROUNDUP_spec vstart) as [Hp1 Hp2]; [lia|]. fold p in Hp1, Hp2. unfold PGSIZE in Hp1, Hp2, Hal.
  set (n := Z.to_nat ((vend - p) / PGSIZE)).
  assert (Hn : p <= vend /\ p + Z.of_nat n * 4096 = vend).
  { unfold n, PGSIZE. assert (p <= vend) by mlia. split; [done|].
    assert (0 <= (vend - p) / 4096) by (apply Z.div_pos; lia).
    assert (Hmod : (vend - p) mod 4096 = 0) by mlia.
    pose proof (Z.div_mod (vend - p) 4096 ltac:(lia)). lia. }
  assert (Hpg : forall v, v mod 4096 = 0 -> vstart <= v < vend -> page v).
  { intros v Ha Hr. split; [unfold is_u32; lia|]. unfold kalloc_runptr_valid, PGSIZE, PHYSTOP.
    rewrite Ha, Z.geb_leb. unfold V2P, KERNBASE. rewrite u32_small by (unfold is_u32; lia).
    destruct (Z.eqb_spec v 0), (Z.ltb_spec v end_), (Z.leb_spec 536870912 (v - 2147483648)); try lia. done. }
  destruct (freerange_loop_spec n p k Hb) as (k' & E & Hb' & N' & FL & F1 & F2).
  { intros j Hj. unfold PGSIZE. assert (Hq : page (p + j * 4096)) by (apply Hpg; [mlia|lia]). split; [done|]. apply Hm; [done|lia..]. }
  assert (Hj : forall v, page v -> vstart <= v < vend -> v = p + (v - p) / 4096 * PGSIZE /\ 0 <= (v - p) / 4096 < Z.of_nat n).
  { intros v Hpv Hr. destruct (page_spec v Hpv) as (Ha & _). unfold PGSIZE in *.
    assert (p <= v) by mlia. split; [mlia|]. split; [apply Z.div_pos; lia|]. apply Z.div_lt_upper_bound; lia. }
  exists k'. split_and!; [done|apply Hb'..|done|done| |].
  - intros v Hpv Hr. destruct (Hj v Hpv Hr) as [Ev Hjv]. rewrite Ev. by apply F1.
  - intros w Hpw Hr. apply F2; [done|]. intros j Hjr ->. apply Hr. unfold PGSIZE. lia.
Qed.

Lemma kinit1_spec k : booting k -> end_ <= P2V BOOT_EARLY_PHYSTOP ->
  (forall v, page v -> managed k v = false) ->
  exists k', kinit1 end_ writable meta_base end_ (P2V BOOT_EARLY_PHYSTOP) k = Some k' /\ booting k' /\
    length (caches k') = length (caches k) /\
    (forall v, page v -> v < P2V BOOT_EARLY_PHYSTOP -> v ∈ frees k') /\
    (forall v, page v -> P2V BOOT_EARLY_PHYSTOP <= v -> managed k' v = false).
Proof.
  intros Hb He Hm. unfold kinit1.
  assert (Ek : set_use_lock false k = k) by (destruct k, Hb as (_ & Hu & _); cbn in *; by subst). rewrite Ek.
  destruct (freerange_spec end_ (P2V BOOT_EARLY_PHYSTOP) k Hb) as (k' & E & Hb' & N & _ & F1 & F2);
    [lia|split; [done|vm_compute; discriminate]|auto|done|].
  exists k'. split; [done|]. split; [done|]. split; [done|]. split.
  - intros v Hp Hv. apply F1; [done|]. destruct (page_spec v Hp) as (_ & ? & _). lia.
  - intros v Hp Hv. destruct (F2 v Hp) as [-> _]; [lia|]. auto.
Qed.

Lemma inv_locked k : inv k -> inv (set_use_lock true k).
Proof. intros Hi. split; try apply Hi. done. Qed.

Lemma freerange_span :
  (P2V PHYSTOP - PGROUNDUP (P2V BOOT_EARLY_PHYSTOP)) / PGSIZE = 126976.
Proof. vm_compute. reflexivity. Qed.

Lemma boot_aligned : PGROUNDUP (P2V BOOT_EARLY_PHYSTOP) = P2V BOOT_EARLY_PHYSTOP.
Proof. vm_compute. reflexivity. Qed.

Lemma kinit2_spec k : booting k -> end_ <= P2V BOOT_EARLY_PHYSTOP ->
  (forall v, page v -> P2V BOOT_EARLY_PHYSTOP <= v -> managed k v = false) ->
  exists k' rest, kinit2 end_ writable meta_base (P2V BOOT_EARLY_PHYSTOP) (P2V PHYSTOP) k = Some k' /\
    inv k' /\ use_lock k' = true /\ pg_ready k' = false /\ length (caches k') = length (caches k) /\
    freelist k' = rev (pages_from (Z.to_nat 126976) (P2V BOOT_EARLY_PHYSTOP)) ++ rest /\
    (forall v, page v -> P2V BOOT_EARLY_PHYSTOP <= v -> managed k' v = true /\ refs k' v = 0) /\
    (forall w, page w -> w < P2V BOOT_EARLY_PHYSTOP -> managed k' w = managed k w /\ refs k' w = refs k w).
Proof.
  intros Hb He Hm. unfold kinit2.
  destruct (freerange_spec (P2V BOOT_EARLY_PHYSTOP) (P2V PHYSTOP) k Hb He) as (k' & E & Hb' & N & FL & F1 & F2);
    [split; vm_compute; discriminate|auto|done|]. cbv zeta in FL. rewrite freerange_span, boot_aligned in FL.
  rewrite E. exists (set_use_lock true k'), (freelist k). split; [done|].
  split; [apply inv_locked, Hb'|]. split; [done|]. split; [apply Hb'|]. split; [done|].
  split; [exact FL|]. clear FL. split.
  - intros v Hp Hv. destruct (inv_free k' (proj1 Hb') v) as (_ & ? & _ & ?); [|done]. apply F1; [done|].
    destruct (page_spec v Hp) as (_ & _ & _ & ? & _). change (P2V PHYSTOP) with 2684354560.
    unfold KERNBASE, PHYSTOP in *. lia.
  - intros w Hp Hw. apply (F2 w Hp). lia.
Qed.

Lemma init_lookup (g : Z -> meta) i : 0 <= i < NPAGE ->
  (list_to_map ((fun i => (i, g i)) <$> seqZ_pages) : gmap Z meta) !! i = Some (g i).
Proof.
  intros Hi. apply elem_of_list_to_map_1.
  - rewrite <- list_fmap_compose. unfold compose; cbn [fst]. rewrite list_fmap_id.
    unfold seqZ_pages. apply NoDup_fmap_2; [typeclasses eauto|apply NoDup_seq].
  - apply list_elem_of_fmap. exists i. split; [done|]. unfold seqZ_pages. apply list_elem_of_fmap.
    exists (Z.to_nat i). split; [lia|]. apply elem_of_seq. lia.
Qed.

(** The counts move into the page database unchanged. *)
Lemma set_ready_spec k base n : inv k -> pg_ready k = false ->
  let k' := set_ready (list_to_map ((fun i => (i, desc_init k base n i)) <$> seqZ_pages)) k in
  inv k' /\ (forall v, page v -> refs k' v = refs k v) /\ (forall v, managed k' v = managed k v).
Proof.
  intros Hi Hr k'.
  assert (Hd : forall v, page v -> desc_at k' (idx v) = desc_init k base n (idx v)).
  { intros v Hp. destruct (page_idx v Hp) as (Hx & _). unfold desc_at, k'. cbn. by rewrite init_lookup. }
  assert (Hpa : forall v, page v -> idx v * PGSIZE = V2P v).
  { intros v Hp. destruct (page_spec v Hp) as (Hm & _ & E & _). unfold idx. rewrite E. unfold PGSIZE, KERNBASE in *. mlia. }
  assert (Hmg : forall v, page v -> kpage_is_managed k (idx v * PGSIZE) = managed k v).
  { intros v Hp. rewrite Hpa by done. unfold kpage_is_managed. destruct (page_idx v Hp) as (_ & -> & _). done. }
  assert (Hrf : forall v, page v -> refs k' v = refs k v).
  { intros v Hp. rewrite (refs_spec k') by done. change (pg_ready k') with true. rewrite Hd by done. unfold desc_init.
    rewrite Hmg by done. destruct (managed k v) eqn:Em; cbn [refcount].
    - rewrite Hpa by done. done.
    - rewrite refs_spec, Hr, Em by done. done. }
  split; [|split; done]. split; try apply Hi.
  - intros v Hv. destruct (inv_free k Hi v Hv) as (? & ? & ? & ?). rewrite Hrf by done. done.
  - intros v Hp Hm. rewrite Hrf by done. by apply (inv_leak k Hi).
  - intros v Hp. rewrite Hrf by done. by apply (inv_refs k Hi).
  - intros v _ Hp Hm. rewrite Hrf, Hd by done. unfold desc_init. rewrite Hmg by done.
    change (managed k' v) with (managed k v) in Hm. rewrite Hm, Hpa by done. cbn [flags]. fold (refs k v).
    destruct (_ && _), (refs k v =? 0); done.
Qed.

Lemma pages_from_chain n p : chain (rev (pages_from n p)) /\
  (forall w, last (rev (pages_from n p)) = Some w -> w = p).
Proof.
  revert p; induction n as [|n IH]; intros p; cbn [pages_from rev].
  - split; [|done]. intros i a b Ha. by rewrite lookup_nil in Ha.
  - destruct (IH (p + PGSIZE)) as [H1 H2]. split.
    + apply chain_snoc. split; [done|]. intros w Hw. by apply H2.
    + intros w. rewrite last_snoc. congruence.
Qed.

Lemma chain_take n l : chain l -> chain (take n l).
Proof.
  intros Hc i a b Ha Hb. apply lookup_take_Some in Ha as [Ha _]. apply lookup_take_Some in Hb as [Hb _]. by eapply Hc.
Qed.

Definition PAGEDB_PAGES : Z := 384.

Lemma pagedb_init_spec k c l rest :
  inv k -> use_lock k = true -> pg_ready k = false ->
  freelist k = l ++ rest -> chain l -> PAGEDB_PAGES <= len l ->
  exists base k', pagedb_init end_ writable meta_base c k = Some k' /\ inv k' /\
    use_lock k' = true /\ pg_ready k' = true /\ (forall w, page w -> managed k' w = managed k w) /\
    (forall j, 0 <= j < PAGEDB_PAGES -> let w := base + j * PGSIZE in page w /\ refs k w = 0 /\ refs k' w = 1) /\
    (forall w, page w -> (forall j, 0 <= j < PAGEDB_PAGES -> w <> base + j * PGSIZE) -> refs k' w = refs k w).
Proof.
  intros Hi Hu Hr Hf Hc Hl. unfold pagedb_init. rewrite Hr.
  change ((NPAGE * 12 + PGSIZE - 1) / PGSIZE) with PAGEDB_PAGES.
  destruct (contiguous_spec k c PAGEDB_PAGES Hi Hu) as (base & k1 & -> & Hi1 & (M & N & U & P) & Ho);
    [unfold PAGEDB_PAGES; lia|].
  destruct Ho as [(Hb & T1 & T2)|(_ & _ & Hno)].
  2: { exfalso. apply (Hno 0%nat); unfold PAGEDB_PAGES, len in *; [rewrite Hf, length_app; lia|].
       rewrite drop_0, Hf, take_app_le by lia. by apply chain_take. }
  rewrite (proj2 (Z.eqb_neq _ _) Hb). rewrite Hr in P.
  destruct (set_ready_spec k1 base PAGEDB_PAGES Hi1 P) as (Hi2 & R2 & M2).
  set (k2 := set_ready _ k1) in *. exists base, k2.
  split; [done|]. split; [done|]. split; [by rewrite <- Hu, <- U|]. split; [done|]. split_and!.
  - intros w Hw. rewrite M2. by apply M.
  - intros j Hj. destruct (T1 j Hj) as (Hp & _ & Hz & H1 & _). rewrite R2 by done. done.
  - intros w Hp Hne. rewrite R2 by done. by apply T2.
Qed.

Lemma kinit1_zero k : booting k ->
  (forall v, page v -> v < P2V BOOT_EARLY_PHYSTOP -> v ∈ frees k) ->
  (forall v, page v -> P2V BOOT_EARLY_PHYSTOP <= v -> managed k v = false) ->
  forall v, page v -> refs k v = 0.
Proof.
  intros (Hi & _ & Hr & _) Hlo Hhi v Hp. destruct (Z.lt_ge_cases v (P2V BOOT_EARLY_PHYSTOP)).
  - apply (inv_free k Hi), Hlo; done.
  - rewrite refs_spec, Hr, Hhi by done. done.
Qed.

(** C32.  The boot sequence of [main] brings the allocator up.  [kinit1] from
    the zeroed state never panics, whatever the size of the kernel image below
    16 MB; after any calls to the allocator that do not panic, [kinit2] and
    [pagedb_init] never panic either: the 384 pages of descriptors are found,
    every count is carried over into the page database, and every page of
    memory above the early window is under management. *)
Theorem boot_correct ncpu c :
  end_ <= P2V BOOT_EARLY_PHYSTOP -> (0 < ncpu)%nat ->
  exists k1, kinit1 end_ writable meta_base end_ (P2V BOOT_EARLY_PHYSTOP) (blank_kmem ncpu) = Some k1 /\
    forall cs rs k2, Forall (call_ok k1) cs -> len cs <= 4294967295 ->
      exec end_ writable meta_base cs k1 = Some (rs, k2) ->
      exists k3 k4 base,
        kinit2 end_ writable meta_base (P2V BOOT_EARLY_PHYSTOP) (P2V PHYSTOP) k2 = Some k3 /\
        pagedb_init end_ writable meta_base c k3 = Some k4 /\
        inv k4 /\ use_lock k4 = true /\ pg_ready k4 = true /\
        (forall j, 0 <= j < PAGEDB_PAGES ->
           let w := base + j * PGSIZE in page w /\ refs k2 w = 0 /\ refs k4 w = 1) /\
        (forall w, page w -> (forall j, 0 <= j < PAGEDB_PAGES -> w <> base + j * PGSIZE) ->
           refs k4 w = refs k2 w) /\
        (forall w, page w -> P2V BOOT_EARLY_PHYSTOP <= w -> managed k4 w = true).
Proof.
  intros He Hn.
  assert (Hb0 : booting (blank_kmem ncpu)).
  { split; [apply blank_inv|]. split; [done|]. split; [done|]. unfold cpu_ok. cbn. by rewrite length_replicate. }
  destruct (kinit1_spec (blank_kmem ncpu) Hb0 He) as (k1 & E1 & Hb1 & N1 & Lo & Hi1); [done|].
  exists k1. split; [done|]. intros cs rs k2 Hok Hl Ex.
  pose proof (kinit1_zero k1 Hb1 Lo Hi1) as Hz1. destruct Hb1 as (I1 & U1 & P1 & C1).
  destruct (exec_spec cs k1 0 rs k2 I1 Hok) as (I2 & (M2 & N2 & U2 & P2) & _);
    [lia|intros v Hp; rewrite Hz1 by done; lia|lia|done|].
  assert (Hb2 : booting k2) by (split; [done|]; split; [congruence|]; split; [congruence|]; unfold cpu_ok; by rewrite N2).
  assert (Hm2 : forall v, page v -> P2V BOOT_EARLY_PHYSTOP <= v -> managed k2 v = false)
    by (intros v Hp Hv; rewrite M2 by done; auto).
  destruct (kinit2_spec k2 Hb2 He Hm2) as (k3 & rest & E3 & I3 & U3 & P3 & N3 & FL & Up & Dn).
  assert (Hlen : PAGEDB_PAGES <= len (rev (pages_from (Z.to_nat 126976) (P2V BOOT_EARLY_PHYSTOP)))).
  { unfold len. rewrite length_rev, pages_from_length. unfold PAGEDB_PAGES. lia. }
  destruct (pagedb_init_spec k3 c _ _ I3 U3 P3 FL (proj1 (pages_from_chain _ _)) Hlen)
    as (base & k4 & E4 & I4 & U4 & P4 & M4 & R1 & R2).
  clear FL Hlen. assert (H23 : forall w, page w -> refs k3 w = refs k2 w).
  { intros w Hp. destruct (Z.lt_ge_cases w (P2V BOOT_EARLY_PHYSTOP)) as [Hw|Hw]; [by apply Dn|].
    destruct (Up w Hp Hw) as [_ ->]. rewrite refs_spec, P2, P1, Hm2 by done. done. }
  exists k3, k4, base. split; [done|]. split; [done|]. split; [done|]. split; [done|]. split; [done|]. split_and!.
  - intros j Hj w. destruct (R1 j Hj) as (Hp & Hz & H1). split_and!; [done|by rewrite <- H23|done].
  - intros w Hp Hne. rewrite R2 by done. auto.
  - intros w Hp Hw. rewrite M4 by done. by apply Up.
Qed.
End Proofs.

(** ** A small machine *)

Module Example.

(** The kernel ends 1 MB into memory, which is all mapped. *)
Definition END : Z := KERNBASE + 1048576.
Definition all_mapped (_ : Z) : bool := true.

#[local] Instance direct_map : KernelMap END all_mapped 0.
Proof. split; [vm_compute; discriminate|done|done]. Qed.

(** Six pages, on two CPUs, before and after locking starts. *)
Definition early : kmem :=
  default (blank_kmem 2) (freerange_loop END all_mapped 0 6 END (blank_kmem 2)).
Definition late : kmem := set_use_lock true early.

Lemma six_pages j : 0 <= j < 6 ->
  page (end_ := END) (END + j * PGSIZE) /\ managed (blank_kmem 2) (END + j * PGSIZE) = false.
Proof.
  intros Hj. split; [|done]. split; [unfold is_u32, END, KERNBASE, PGSIZE; lia|].
  assert (j = 0 \/ j = 1 \/ j = 2 \/ j = 3 \/ j = 4 \/ j = 5) as Hc by lia.
  destruct Hc as [-> | [-> | [-> | [-> | [-> | ->]]]]]; vm_compute; reflexivity.
Qed.

Lemma early_ok : booting (end_ := END) early /\ length (caches early) = 2%nat /\
  forall v, page (end_ := END) v -> refs early v <= 0.
Proof.
  assert (Hb : booting (end_ := END) (blank_kmem 2)).
  { split; [apply (blank_inv (end_ := END))|]. split; [done|]. split; [done|]. unfold cpu_ok; cbn; lia. }
  destruct (freerange_loop_spec (KM := direct_map) 6 END (blank_kmem 2) Hb six_pages)
    as (k & E & Hk & N & _ & F1 & F2).
  assert (Ek : early = k) by (unfold early; by rewrite E). rewrite Ek. clear Ek. split; [exact Hk|]. split; [exact N|].
  intros v Hp. destruct (decide (v ∈ frees k)) as [Hin|Hin].
  - destruct (inv_free k (proj1 Hk) v Hin) as (_ & _ & _ & ->). lia.
  - destruct (F2 v Hp) as [_ ->].
    2: { rewrite (refs_spec (KM := direct_map)) by done. unfold managed, meta_at. cbn [kmeta blank_kmem pg_ready].
         rewrite lookup_empty. done. }
    intros j Hj ->. by apply Hin, F1.
Qed.

Lemma late_inv : inv (end_ := END) late.
Proof. apply inv_locked, early_ok. Qed.
Lemma late_cpus c : (c < 2)%nat -> cpu_ok late c.
Proof.
  assert (H : forall k, length (caches k) = 2%nat -> (c < 2)%nat -> cpu_ok (set_use_lock true k) c).
  { intros k Hk Hc. unfold cpu_ok. cbn. lia. }
  apply (H early), early_ok.
Qed.
Lemma late_page : forall v, v = END \/ v = END + 20480 -> page (end_ := END) v /\ managed late v = true.
Proof.
  intros v Hv. split; [split|].
  - unfold is_u32. destruct Hv as [-> | ->]; vm_compute; split; congruence.
  - destruct Hv as [-> | ->]; vm_compute; reflexivity.
  - destruct Hv as [-> | ->]; vm_compute; reflexivity.
Qed.
Lemma late_refs v : page (end_ := END) v -> refs late v <= 0.
Proof.
  assert (H : forall k w, refs (set_use_lock true k) w = refs k w) by done.
  intros Hp. unfold late. rewrite H. by apply early_ok.
Qed.

Lemma kalloc_page_correct_witness :
  exists v k', kalloc_legacy_page END all_mapped 0 1 late = Some (v, k') /\ inv (end_ := END) k' /\
    ((v <> 0 /\ page (end_ := END) v /\ v ∈ frees late /\ refs late v = 0 /\ (v ∉ frees k') /\
      refs_set (end_ := END) v 1 late k') \/
     (v = 0 /\ freelist late = [] /\ cache_of late 1 = [] /\ refs_same late k')).
Proof.
  apply (kalloc_page_correct (KM := direct_map) late 1 late_inv). apply late_cpus. lia.
Defined.

Lemma kfree_correct_witness :
  exists k', kfree END all_mapped 0 0 END late = Some k' /\ inv (end_ := END) k'.
Proof.
  pose proof (late_page END (or_introl eq_refl)) as Hp.
  destruct (kfree_correct (KM := direct_map) late 0 END late_inv (late_cpus 0 Nat.lt_0_2) (proj1 (proj1 Hp))) as [H _].
  destruct (H Hp) as (k' & E & Hi & _). exists k'. split; [exact E|exact Hi].
Defined.

Lemma contiguous_correct_witness :
  exists v k', kalloc_contiguous END all_mapped 0 3 0 late = Some (v, k') /\ inv (end_ := END) k' /\
    kept (end_ := END) late k' /\
    (run_taken (end_ := END) 3 v late k' \/
     (v = 0 /\ refs_same late k' /\
      forall h, (h + Z.to_nat 3 <= length (freelist late))%nat ->
        ~ chain (take (Z.to_nat 3) (drop h (freelist late))))).
Proof. apply (contiguous_correct (KM := direct_map) late 0 3 late_inv); [reflexivity|lia]. Defined.

(** A page is allocated, shared, released twice, and the next one allocated. *)
Definition story : list call :=
  [CAlloc 0; CIncref (END + 20480); CFree 1 (END + 20480); CFree 0 (END + 20480); CAlloc 0].
Definition story_end : kmem :=
  match exec END all_mapped 0 story late with Some (_, k) => k | None => late end.

Lemma allocator_refines_witness :
  exec END all_mapped 0 story late = Some ([END + 20480; 0; 0; 0; END + 16384], story_end) /\
  inv (end_ := END) story_end /\
  spec_calls (end_ := END) story [END + 20480; 0; 0; 0; END + 16384] (refs late) (refs story_end).
Proof.
  assert (E : exec END all_mapped 0 story late = Some ([END + 20480; 0; 0; 0; END + 16384], story_end))
    by (vm_compute; reflexivity).
  split; [exact E|].
  apply (allocator_refines (KM := direct_map) story late 0 _ _ late_inv);
    [|lia|exact late_refs|vm_compute; discriminate|exact E].
  destruct (late_page (END + 20480) (or_intror eq_refl)) as [Hp Hm].
  pose proof (late_cpus 0 ltac:(lia)) as H0. pose proof (late_cpus 1 ltac:(lia)) as H1.
  unfold story. repeat apply Forall_cons_2; [exact H0|exact (conj Hp Hm)| | |exact H0|apply Forall_nil_2].
  - exact (conj H1 (proj1 Hp)).
  - exact (conj H0 (proj1 Hp)).
Defined.

Lemma boot_correct_witness :
  exists k1, kinit1 END all_mapped 0 END (P2V BOOT_EARLY_PHYSTOP) (blank_kmem 2) = Some k1.
Proof.
  destruct (boot_correct (KM := direct_map) 2 0) as (k1 & E & _); [vm_compute; discriminate|lia|].
  exists k1. exact E.
Defined.
End Example.
