(* ===== verification/Kmalloc.v ===== *)
(** * Page blocks and kernel buffers: [src/kernel/vm/buddy.c],
    [src/kernel/vm/pagealloc.c], [src/kernel/core/kmalloc.c], and [kalloc] and
    the frame-number accessors of [kalloc.c] and [pagedb.c]

    The layers above the page allocator of [Kalloc].  The state adds the bytes
    of memory, which [kmalloc] writes its headers to, the switch that routes
    [kalloc] through the block layer, and the block layer's counters.  The
    links that the page allocator keeps inside free pages are not part of the
    bytes; no theorem depends on what a page holds when it is handed out.

    A call that takes or frees several pages may move between CPUs: [cpu i] is
    the CPU of its [i]-th page operation.  [None] is a panic. *)

From S2P Require Import Prelude NetBytes ByteMem Kalloc.

Definition BUDDY_BRIDGE_MAX_ORDER : Z := 7.
Definition KMALLOC_MAGIC : Z := 1263354188.
Definition HDR_SIZE : Z := 12.
Definition DESC_SIZE : Z := 12.

(** The counters of [buddy.c]; the per-order ones have eight entries. *)
Record bcount := mkB {
  buddy_alloc_order : list Z;
  buddy_free_order : list Z;
  buddy_alloc_fail_order : list Z;
  buddy_bad_order_requests : Z;
  buddy_free_estimate_order : list Z;
  buddy_free_invalid_order : Z;
  buddy_free_invalid_desc : Z;
  buddy_free_double_free : Z
}.

Record mach := mkM {
  kk : kmem;
  mem : Z -> Z;                 (* the bytes of memory *)
  pagealloc_online : bool;
  bcounts : bcount
}.

Definition set_kk (s : mach) (k : kmem) : mach := mkM k (mem s) (pagealloc_online s) (bcounts s).
Definition set_mem (s : mach) (m : Z -> Z) : mach := mkM (kk s) m (pagealloc_online s) (bcounts s).
Definition count (f : bcount -> bcount) (s : mach) : mach := mkM (kk s) (mem s) (pagealloc_online s) (f (bcounts s)).

Definition bump_order (order : Z) (l : list Z) : list Z := alter (fun x => x +u 1) (Z.to_nat order) l.
Definition inc_alloc (order : Z) (b : bcount) : bcount :=
  mkB (bump_order order (buddy_alloc_order b)) (buddy_free_order b) (buddy_alloc_fail_order b)
      (buddy_bad_order_requests b) (buddy_free_estimate_order b) (buddy_free_invalid_order b)
      (buddy_free_invalid_desc b) (buddy_free_double_free b).
Definition inc_free (order : Z) (b : bcount) : bcount :=
  mkB (buddy_alloc_order b) (bump_order order (buddy_free_order b)) (buddy_alloc_fail_order b)
      (buddy_bad_order_requests b) (buddy_free_estimate_order b) (buddy_free_invalid_order b)
      (buddy_free_invalid_desc b) (buddy_free_double_free b).
Definition inc_fail (order : Z) (b : bcount) : bcount :=
  mkB (buddy_alloc_order b) (buddy_free_order b) (bump_order order (buddy_alloc_fail_order b))
      (buddy_bad_order_requests b) (buddy_free_estimate_order b) (buddy_free_invalid_order b)
      (buddy_free_invalid_desc b) (buddy_free_double_free b).
Definition inc_bad_order (b : bcount) : bcount :=
  mkB (buddy_alloc_order b) (buddy_free_order b) (buddy_alloc_fail_order b)
      (buddy_bad_order_requests b +u 1) (buddy_free_estimate_order b) (buddy_free_invalid_order b)
      (buddy_free_invalid_desc b) (buddy_free_double_free b).
Definition inc_invalid_order (b : bcount) : bcount :=
  mkB (buddy_alloc_order b) (buddy_free_order b) (buddy_alloc_fail_order b)
      (buddy_bad_order_requests b) (buddy_free_estimate_order b) (buddy_free_invalid_order b +u 1)
      (buddy_free_invalid_desc b) (buddy_free_double_free b).
Definition inc_invalid_desc (b : bcount) : bcount :=
  mkB (buddy_alloc_order b) (buddy_free_order b) (buddy_alloc_fail_order b)
      (buddy_bad_order_requests b) (buddy_free_estimate_order b) (buddy_free_invalid_order b)
      (buddy_free_invalid_desc b +u 1) (buddy_free_double_free b).
Definition inc_double_free (b : bcount) : bcount :=
  mkB (buddy_alloc_order b) (buddy_free_order b) (buddy_alloc_fail_order b)
      (buddy_bad_order_requests b) (buddy_free_estimate_order b) (buddy_free_invalid_order b)
      (buddy_free_invalid_desc b) (buddy_free_double_free b +u 1).
Definition set_estimate (l : list Z) (b : bcount) : bcount :=
  mkB (buddy_alloc_order b) (buddy_free_order b) (buddy_alloc_fail_order b)
      (buddy_bad_order_requests b) l (buddy_free_invalid_order b)
      (buddy_free_invalid_desc b) (buddy_free_double_free b).

(** ** Frame numbers *)

Definition pgfn_to_pa (pfn : Z) : Z := pfn *u PGSIZE.

Definition pgfn_refcount (k : kmem) (pfn : Z) : Z :=
  if pg_ready k && (pfn <? NPAGE) then s32 (refcount (desc_at k pfn))
  else if pfn >=? NPAGE then 0
  else s32 (kpage_refcount k (pgfn_to_pa pfn)).

Definition pgfn_is_managed (k : kmem) (pfn : Z) : bool :=
  if pfn >=? NPAGE then false
  else if pg_ready k then flag (flags (desc_at k pfn)) PAGE_MANAGED
  else kpage_is_managed k (pgfn_to_pa pfn).

Definition pgfn_flags (k : kmem) (pfn : Z) : Z :=
  if negb (pg_ready k) || (pfn >=? NPAGE) then 0 else flags (desc_at k pfn).

Definition pgfn_incref (pfn : Z) (k : kmem) : option kmem :=
  if pfn >=? NPAGE then None else kpage_incref (pgfn_to_pa pfn) k.

(** ** Free blocks *)

(** A frame that a block may contain. *)
Definition frame_free (k : kmem) (pfn : Z) : bool :=
  let f := pgfn_flags k pfn in
  flag f PAGE_MANAGED && flag f PAGE_FREE && negb (flag f PAGE_RESERVED).

Fixpoint frames_free (k : kmem) (n : nat) (pfn : Z) : bool :=
  match n with
  | O => true
  | S n => if negb (frame_free k pfn) then false else frames_free k n (pfn + 1)
  end.

Definition buddy_block_all_free (k : kmem) (start_pfn order : Z) : bool :=
  let n := Z.shiftl 1 order in
  if start_pfn +u n >? NPAGE then false else frames_free k (Z.to_nat n) start_pfn.

(** [while(order > 0)]: the largest aligned free block that starts here. *)
Fixpoint pick_order (k : kmem) (pfn : Z) (order : nat) : nat :=
  match order with
  | O => O
  | S o =>
      let block := Z.shiftl 1 (Z.of_nat order) in
      if negb (Z.land pfn (block - 1) =? 0) then pick_order k pfn o
      else if buddy_block_all_free k pfn (Z.of_nat order) then order
      else pick_order k pfn o
  end.

(** The scan; each round passes at least one frame, so [NPAGE] rounds do. *)
Fixpoint estimate_loop (fuel : nat) (k : kmem) (pfn : Z) (est : list Z) : list Z :=
  match fuel with
  | O => est
  | S fuel =>
      if pfn >=? NPAGE then est
      else if negb (frame_free k pfn) then estimate_loop fuel k (pfn + 1) est
      else
        let order := pick_order k pfn (Z.to_nat BUDDY_BRIDGE_MAX_ORDER) in
        estimate_loop fuel k (pfn + Z.shiftl 1 (Z.of_nat order)) (bump_order (Z.of_nat order) est)
  end.

Definition buddy_refresh_free_estimates (s : mach) : mach :=
  count (set_estimate (estimate_loop (Z.to_nat NPAGE) (kk s) 0 (replicate 8 0))) s.

Definition buddy_init (s : mach) : mach := buddy_refresh_free_estimates s.

Definition pagealloc_init (s : mach) : mach :=
  let s := buddy_init s in mkM (kk s) (mem s) true (bcounts s).

Definition buddy_free_estimate (order : Z) (s : mach) : Z * mach :=
  let s := buddy_refresh_free_estimates s in
  (if order >? BUDDY_BRIDGE_MAX_ORDER then 0
   else default 0 (buddy_free_estimate_order (bcounts s) !! Z.to_nat order), s).

Section Machine.
Context (end_ : Z) (writable : Z -> bool) (meta_base : Z).

(** The address of the descriptors, where [pagedb_init] put them. *)
Context (pg_array_addr : Z).

(** A descriptor pointer is an address, 0 for NULL. *)
Definition pgfn_descriptor (k : kmem) (pfn : Z) : Z :=
  if negb (pg_ready k) || (pfn >=? NPAGE) then 0 else pg_array_addr + DESC_SIZE * pfn.

Definition pgfn_from_descriptor (k : kmem) (pg : Z) : option Z :=
  if negb (pg_ready k) || (pg =? 0) then None
  else if (pg <? pg_array_addr) || (pg >=? pg_array_addr + DESC_SIZE * NPAGE) then None
  else Some ((pg - pg_array_addr) / DESC_SIZE).

Definition pgfn_decref (c : nat) (pfn : Z) (k : kmem) : option kmem :=
  if pfn >=? NPAGE then None else kfree end_ writable meta_base c (P2V (pgfn_to_pa pfn)) k.

(** ** The block layer *)

(** A run of two or more pages comes zeroed. *)
Definition contiguous (npages : Z) (c : nat) (s : mach) : option (Z * mach) :=
  match kalloc_contiguous end_ writable meta_base npages c (kk s) with
  | None => None
  | Some (v, k) =>
      let s := set_kk s k in
      Some (v, if (2 <=? npages) && negb (v =? 0)
               then set_mem s (write_bytes (mem s) v (replicate (Z.to_nat (npages *u PGSIZE)) 0)) else s)
  end.

Definition alloc_pages_order (order flags_ : Z) (c : nat) (s : mach) : option (Z * mach) :=
  if (order <? 0) || (order >? BUDDY_BRIDGE_MAX_ORDER) then Some (0, count inc_bad_order s)
  else
    let npages := Z.shiftl 1 order in
    match (if order =? 0 then
             match kalloc_legacy_page end_ writable meta_base c (kk s) with
             | None => None
             | Some (v, k) => Some (v, set_kk s k)
             end
           else contiguous npages c s) with
    | None => None
    | Some (v, s) =>
        if v =? 0 then Some (0, count (inc_fail order) s)
        else
          let pfn := V2P v / PGSIZE in
          if pgfn_descriptor (kk s) pfn =? 0 then Some (0, count (inc_fail order) s)
          else
            let s := count (inc_alloc order) s in
            Some (pgfn_descriptor (kk s) pfn, s)
    end.

(** [kfree] of [n] pages from [v] up; [i] counts the pages done. *)
Fixpoint kfree_pages (cpu : nat -> nat) (n i : nat) (v : Z) (k : kmem) : option kmem :=
  match n with
  | O => Some k
  | S n =>
      match kfree end_ writable meta_base (cpu i) v k with
      | None => None
      | Some k => kfree_pages cpu n (S i) (v +u PGSIZE) k
      end
  end.

(** [if(flags & PAGE_FREE)] for one of the frames. *)
Fixpoint some_free (k : kmem) (n : nat) (pfn : Z) : bool :=
  match n with
  | O => false
  | S n => if flag (pgfn_flags k pfn) PAGE_FREE then true else some_free k n (pfn + 1)
  end.

Definition free_pages_order (pg order : Z) (cpu : nat -> nat) (s : mach) : option mach :=
  if (order <? 0) || (order >? BUDDY_BRIDGE_MAX_ORDER) then Some (count inc_invalid_order (count inc_bad_order s))
  else if pg =? 0 then Some s
  else
    match pgfn_from_descriptor (kk s) pg with
    | None => Some (count inc_invalid_desc s)
    | Some pfn =>
        let npages := Z.shiftl 1 order in
        if pfn +u npages >? NPAGE then Some (count inc_invalid_desc s)
        else if some_free (kk s) (Z.to_nat npages) pfn then Some (count inc_double_free s)
        else
          match kfree_pages cpu (Z.to_nat npages) 0 (P2V (pfn *u PGSIZE)) (kk s) with
          | None => None
          | Some k => Some (count (inc_free order) (set_kk s k))
          end
    end.

Definition alloc_single_page (flags_ : Z) (c : nat) (s : mach) : option (Z * mach) := alloc_pages_order 0 flags_ c s.
Definition free_single_page (pg : Z) (cpu : nat -> nat) (s : mach) : option mach := free_pages_order pg 0 cpu s.

Definition kalloc (c : nat) (s : mach) : option (Z * mach) :=
  if negb (pagealloc_online s) then
    match kalloc_legacy_page end_ writable meta_base c (kk s) with
    | None => None
    | Some (v, k) => Some (v, set_kk s k)
    end
  else
    match alloc_single_page 0 c s with
    | None => None
    | Some (pg, s) =>
        if pg =? 0 then Some (0, s)
        else match pgfn_from_descriptor (kk s) pg with
             | None => Some (0, s)
             | Some pfn => Some (P2V (pfn *u PGSIZE), s)
             end
    end.

(** ** Kernel buffers *)

Definition kmalloc (size : Z) (c : nat) (s : mach) : option (Z * mach) :=
  if size =? 0 then Some (0, s)
  else
    let total := HDR_SIZE +u size in
    let npages := (total +u (PGSIZE - 1)) / PGSIZE in
    match (if npages =? 1 then kalloc c s else contiguous npages c s) with
    | None => None
    | Some (base, s) =>
        if base =? 0 then Some (0, s)
        else if negb (writable base) then None
        else if (npages >? 1) && negb (writable (base +u (npages - 1) * PGSIZE)) then None
        else
          let m := store32 (mem s) base KMALLOC_MAGIC in
          let m := store32 m (base + 4) npages in
          let m := store32 m (base + 8) size in
          Some (base + HDR_SIZE, set_mem s m)
    end.

Definition kmalloc_free (ptr : Z) (cpu : nat -> nat) (s : mach) : option mach :=
  if ptr =? 0 then Some s
  else
    let h := ptr -u HDR_SIZE in
    if negb (load32 (mem s) h =? KMALLOC_MAGIC) then Some s
    else
      let npages := load32 (mem s) (h + 4) in
      if (npages =? 0) || (npages >? 128) then None
      else
        let s := set_mem s (store32 (mem s) h 0) in
        match kfree_pages cpu (Z.to_nat npages) 0 h (kk s) with
        | None => None
        | Some k => Some (set_kk s k)
        end.

Definition kmalloc_realloc (ptr size : Z) (c : nat) (cpu : nat -> nat) (s : mach) : option (Z * mach) :=
  if ptr =? 0 then kmalloc size c s
  else if size =? 0 then
    match kmalloc_free ptr cpu s with None => None | Some s => Some (0, s) end
  else
    let h := ptr -u HDR_SIZE in
    if negb (load32 (mem s) h =? KMALLOC_MAGIC) then None
    else
      let old_size := load32 (mem s) (h + 8) in
      if old_size >=? size then Some (ptr, s)
      else
        match kmalloc size c s with
        | None => None
        | Some (newp, s) =>
            if newp =? 0 then Some (0, s)
            else
              let copy_n := if old_size <? size then old_size else size in
              let s := set_mem s (write_bytes (mem s) newp (read_bytes (mem s) ptr copy_n)) in
              match kmalloc_free ptr cpu s with None => None | Some s => Some (newp, s) end
        end.
End Machine.

(** ** Runs of pages *)

Section Proofs.
Context {end_ : Z} {writable : Z -> bool} {meta_base : Z} {KM : KernelMap end_ writable meta_base}.
Context {pg_array_addr : Z}.
Context (Haddr : 0 < pg_array_addr).

Abbreviation page := (page (end_ := end_)).
Abbreviation kept := (kept (end_ := end_)).
Abbreviation inv := (inv (end_ := end_)).

(** A run of free pages is given to the caller. *)
Record granted (n v : Z) (k k' : kmem) : Prop := {
  gr_nz : v <> 0;
  gr_page j : 0 <= j < n -> page (v + j * PGSIZE) /\ managed k' (v + j * PGSIZE) = true /\
    refs k (v + j * PGSIZE) = 0 /\ refs k' (v + j * PGSIZE) = 1;
  gr_other w : page w -> (forall j, 0 <= j < n -> w <> v + j * PGSIZE) -> refs k' w = refs k w;
  gr_kept : kept k k'
}.

(** The state outside the page allocator that a call may not change. *)
Definition calm (n v : Z) (s s' : mach) : Prop :=
  pagealloc_online s' = pagealloc_online s /\
  forall a, (forall j, 0 <= j < n -> ~ (v + j * PGSIZE <= a < v + j * PGSIZE + PGSIZE)) -> mem s' a = mem s a.

(** An allocation of [n] pages. *)
Definition grant_outcome (n : Z) (s : mach) (o : option (Z * mach)) : Prop :=
  exists v s', o = Some (v, s') /\ inv (kk s') /\ kept (kk s) (kk s') /\
    ((v = 0 /\ (forall w, page w -> refs (kk s') w = refs (kk s) w) /\ calm 0 v s s') \/
     (granted n v (kk s) (kk s') /\ calm n v s s')).

Lemma legacy_outcome s c : inv (kk s) -> cpu_ok (kk s) c ->
  exists v k', kalloc_legacy_page end_ writable meta_base c (kk s) = Some (v, k') /\
    inv k' /\ kept (kk s) k' /\
    ((v = 0 /\ (forall w, page w -> refs k' w = refs (kk s) w)) \/ granted 1 v (kk s) k').
Proof.
  intros Hi Hc. destruct (alloc_any (KM := KM) (kk s) c Hi Hc) as (v & k' & E & Hi' & Ho).
  exists v, k'. split; [done|]. split; [done|].
  destruct Ho as [(Hz & Hp & Hin & Hr & _ & Hs)|(-> & _ & _ & Hs)].
  - destruct (refs_set_kept _ _ _ _ Hs) as [Hk [H1 H2]]. split; [done|]. right. split; [done| | |done].
    + intros j Hj. replace (v + j * PGSIZE) with v by (unfold PGSIZE; lia). split_and!; try done.
      rewrite (proj1 Hk) by done. by apply (inv_free (kk s) Hi).
    + intros w Hw Hne. apply H2; [done|]. intros ->. apply (Hne 0); [lia|unfold PGSIZE; lia].
  - destruct (refs_same_kept (end_ := end_) _ _ Hs) as [Hk Hc']. split; [done|]. left. done.
Qed.

Lemma P2V_idx v : page v -> P2V (idx v *u PGSIZE) = v.
Proof.
  intros Hp. destruct (page_spec (KM := KM) v Hp) as (Hm & _ & E & Hr & _). unfold P2V, idx. rewrite E.
  unfold KERNBASE, PHYSTOP, PGSIZE in *.
  assert (E2 : (v - 2147483648) / 4096 * 4096 = v - 2147483648) by mlia.
  rewrite E2, (u32_small (v - 2147483648)), u32_small by (unfold is_u32; lia). lia.
Qed.

Lemma desc_roundtrip k v : pg_ready k = true -> page v ->
  pgfn_descriptor pg_array_addr k (idx v) <> 0 /\
  pgfn_from_descriptor pg_array_addr k (pgfn_descriptor pg_array_addr k (idx v)) = Some (idx v).
Proof.
  intros Hr Hp. destruct (page_idx (KM := KM) v Hp) as (Hx & _).
  unfold pgfn_descriptor, pgfn_from_descriptor, DESC_SIZE. rewrite Hr, !Z.geb_leb. cbn [negb orb].
  destruct (Z.leb_spec NPAGE (idx v)); [lia|]. split; [lia|].
  destruct (Z.eqb_spec (pg_array_addr + 12 * idx v) 0); [lia|].
  destruct (Z.ltb_spec (pg_array_addr + 12 * idx v) pg_array_addr),
    (Z.leb_spec (pg_array_addr + 12 * NPAGE) (pg_array_addr + 12 * idx v)); try lia. cbn [orb]. f_equal. mlia.
Qed.

Lemma calm_same n v s s' : pagealloc_online s' = pagealloc_online s -> mem s' = mem s -> calm n v s s'.
Proof. intros H1 H2. split; [done|]. intros. by rewrite H2. Qed.

Lemma kalloc_outcome s c : inv (kk s) -> cpu_ok (kk s) c -> (pagealloc_online s = true -> pg_ready (kk s) = true) ->
  grant_outcome 1 s (kalloc end_ writable meta_base pg_array_addr c s).
Proof.
  intros Hi Hc Hr. destruct (legacy_outcome s c Hi Hc) as (v & k' & E & Hi' & Hk & Ho).
  unfold kalloc, alloc_single_page, alloc_pages_order. rewrite E. destruct (pagealloc_online s) eqn:Eo; cbn [negb].
  2: { exists v, (set_kk s k'). split; [done|]. split; [done|]. split; [done|].
       destruct Ho as [[-> Ho]|Ho]; [left; split_and!|right; split]; try done; by apply calm_same. }
  change ((0 <? 0) || (0 >? BUDDY_BRIDGE_MAX_ORDER)) with false. cbn [Z.eqb].
  destruct Ho as [[-> Ho]|Ho].
  - exists 0. eexists. split; [done|]. split; [done|]. split; [done|]. left. split_and!; try done.
  - destruct (gr_page _ _ _ _ Ho 0) as [Hp _]; [lia|]. replace (v + 0 * PGSIZE) with v in Hp by lia.
    assert (Hr' : pg_ready k' = true) by (destruct Hk as (_ & _ & _ & ->); auto).
    destruct (desc_roundtrip k' v Hr' Hp) as [Hd1 Hd2].
    rewrite (proj2 (Z.eqb_neq v 0)) by apply Ho. change (V2P v / PGSIZE) with (idx v). cbn [kk set_kk count].
    rewrite (proj2 (Z.eqb_neq _ 0) Hd1). cbn beta iota zeta. cbn [kk set_kk count].
    rewrite (proj2 (Z.eqb_neq _ 0) Hd1), Hd2, P2V_idx by done.
    exists v. eexists. split; [done|]. split; [done|]. split; [done|]. right. split; [done|]. split; [done|]. done.
Qed.

Lemma contiguous_outcome s c n : inv (kk s) -> use_lock (kk s) = true -> 2 <= n < 1048576 ->
  grant_outcome n s (contiguous end_ writable meta_base n c s).
Proof.
  intros Hi Hu Hn. destruct (contiguous_spec (KM := KM) (kk s) c n Hi Hu) as (v & k' & E & Hi' & Hk & Ho); [lia|].
  unfold contiguous. rewrite E. destruct (Z.leb_spec 2 n); [|lia]. cbn [andb].
  eexists v, _. split; [done|].
  destruct Ho as [(Hz & T1 & T2)|(-> & Hs & _)].
  - rewrite (proj2 (Z.eqb_neq v 0) Hz). cbn [negb]. split; [done|]. split; [done|]. right. split.
    + split; [done| | |done].
      * intros j Hj. destruct (T1 j Hj) as (Hp & Hf & Hr & H1 & _). split_and!; try done. cbn.
        rewrite (proj1 Hk) by done. apply (inv_free (kk s) Hi). apply elem_of_app. by left.
      * intros w Hw Hne. by apply T2.
    + split; [done|]. intros a Ha. apply write_other. unfold len. rewrite length_replicate.
      unfold PGSIZE in *. rewrite u32_small by (unfold is_u32; lia). intros Hr.
      apply (Ha ((a - v) / 4096)); [split; [apply Z.div_pos; lia|apply Z.div_lt_upper_bound; lia]|mlia].
  - cbn [Z.eqb negb]. split; [done|]. split; [done|]. left. split_and!; try done. intros w _. apply Hs.
Qed.

Lemma kept_trans k1 k2 k3 : kept k1 k2 -> kept k2 k3 -> kept k1 k3.
Proof.
  intros (M1 & N1 & U1 & P1) (M2 & N2 & U2 & P2). split_and!; try congruence. intros w Hw. by rewrite M2, M1.
Qed.
Lemma kept_refl k : kept k k.
Proof. split_and!; done. Qed.
Lemma kept_cpu k k' c : kept k k' -> cpu_ok k c -> cpu_ok k' c.
Proof. intros (_ & N & _). unfold cpu_ok. by rewrite N. Qed.

(** Pages with one reference each are all given back. *)
Lemma kfree_pages_spec cpu n i v k :
  inv k -> (forall i, cpu_ok k (cpu i)) ->
  (forall j, 0 <= j < Z.of_nat n ->
     page (v + j * PGSIZE) /\ managed k (v + j * PGSIZE) = true /\ refs k (v + j * PGSIZE) = 1) ->
  exists k', kfree_pages end_ writable meta_base cpu n i v k = Some k' /\ inv k' /\ kept k k' /\
    (forall j, 0 <= j < Z.of_nat n -> refs k' (v + j * PGSIZE) = 0) /\
    (forall w, page w -> (forall j, 0 <= j < Z.of_nat n -> w <> v + j * PGSIZE) -> refs k' w = refs k w).
Proof.
  revert i v k; induction n as [|n IH]; intros i v k Hi Hc Hpg; cbn [kfree_pages].
  { exists k. split; [done|]. split; [done|]. split; [apply kept_refl|]. split; [lia|done]. }
  destruct (Hpg 0) as (Hp & Hm & Hr); [lia|]. replace (v + 0 * PGSIZE) with v in * by lia.
  destruct (kfree_managed (KM := KM) k (cpu i) v Hi (Hc i) Hp Hm) as (k1 & -> & Hi1 & _ & Hs & _).
  destruct (refs_set_kept _ _ _ _ (Hs ltac:(lia))) as [Hk1 [H1 H2]]. rewrite Hr in H1.
  assert (Hstep : forall j, 0 <= j < Z.of_nat n -> (v +u PGSIZE) + j * PGSIZE = v + (j + 1) * PGSIZE).
  { intros j Hj. destruct (Hpg 1) as ([Hu _] & _); [lia|]. unfold PGSIZE, is_u32 in *.
    rewrite u32_small by (unfold is_u32; lia). lia. }
  destruct (IH (S i) (v +u PGSIZE) k1 Hi1) as (k' & E & Hi' & Hk' & F1 & F2).
  { intros i'. by eapply kept_cpu. }
  { intros j Hj. rewrite Hstep by done. destruct (Hpg (j + 1)) as (Hpj & Hmj & Hrj); [lia|].
    rewrite (proj1 Hk1), H2 by (done || unfold PGSIZE; lia). done. }
  exists k'. split; [done|]. split; [done|]. split; [by eapply kept_trans|]. split.
  - intros j Hj. destruct (decide (j = 0)) as [->|Hj0].
    + replace (v + 0 * PGSIZE) with v by lia. rewrite F2; [lia|done|]. intros j Hj'. rewrite Hstep by done. unfold PGSIZE. lia.
    + replace (v + j * PGSIZE) with ((v +u PGSIZE) + (j - 1) * PGSIZE) by (rewrite Hstep by lia; f_equal; lia).
      apply F1. lia.
  - intros w Hw Hne. rewrite F2; [|done|].
    + apply H2; [done|]. specialize (Hne 0). unfold PGSIZE in Hne. intros ->. apply Hne; lia.
    + intros j Hj. rewrite Hstep by done. apply Hne. lia.
Qed.

(** ** Buffers *)

Definition npages_of (n : Z) : Z := (n + HDR_SIZE + (PGSIZE - 1)) / PGSIZE.

(** The pages of the buffer of [n] bytes at [p]. *)
Definition owns (p n v : Z) : Prop := exists j, 0 <= j < npages_of n /\ v = p - HDR_SIZE + j * PGSIZE.

(** The largest request whose size computation does not wrap. *)
Definition KMALLOC_MAX : Z := 4294963188.

(** A live buffer with the content [bs]. *)
Record block_ok (s : mach) (p : Z) (bs : list Z) : Prop := {
  bo_size : 1 <= len bs <= KMALLOC_MAX;
  bo_page v : owns p (len bs) v -> page v /\ managed (kk s) v = true /\ refs (kk s) v = 1;
  bo_magic : load32 (mem s) (p - HDR_SIZE) = KMALLOC_MAGIC;
  bo_npages : load32 (mem s) (p - HDR_SIZE + 4) = npages_of (len bs);
  bo_req : load32 (mem s) (p - HDR_SIZE + 8) = len bs;
  bo_bytes : read_bytes (mem s) p (len bs) = bs
}.

(** The state of the kernel heap: the live buffers and their contents. *)
Record heap_ok (s : mach) (H : gmap Z (list Z)) : Prop := {
  ho_inv : inv (kk s);
  ho_lock : use_lock (kk s) = true;
  ho_ready : pagealloc_online s = true -> pg_ready (kk s) = true;
  ho_block p bs : H !! p = Some bs -> block_ok s p bs;
  ho_disj p q bs cs v : H !! p = Some bs -> H !! q = Some cs ->
    owns p (len bs) v -> owns q (len cs) v -> p = q
}.

Lemma npages_bounds n : 1 <= n <= KMALLOC_MAX ->
  1 <= npages_of n < 1048576 /\ n + HDR_SIZE <= npages_of n * PGSIZE.
Proof. unfold npages_of, KMALLOC_MAX, HDR_SIZE, PGSIZE. intros. mlia. Qed.

(** Every byte of a buffer and of its header lies in one of its pages. *)
Lemma owns_byte p n a : 1 <= n <= KMALLOC_MAX -> p - HDR_SIZE <= a < p + n ->
  exists v, owns p n v /\ v <= a < v + PGSIZE.
Proof.
  intros Hn Ha. pose proof (npages_bounds n Hn) as [Hb Hb2]. set (j := (a - (p - HDR_SIZE)) / PGSIZE).
  exists (p - HDR_SIZE + j * PGSIZE). unfold owns. split; [|unfold j, PGSIZE in *; mlia].
  exists j. split; [|done]. unfold j. split; [apply Z.div_pos; unfold PGSIZE; lia|].
  apply Z.div_lt_upper_bound; [unfold PGSIZE; lia|]. lia.
Qed.

Lemma pages_apart v w a : page v -> page w -> v <= a < v + PGSIZE -> w <= a < w + PGSIZE -> v = w.
Proof.
  intros Hv Hw. destruct (page_spec (KM := KM) v Hv) as (H1 & _), (page_spec (KM := KM) w Hw) as (H2 & _).
  unfold PGSIZE in *. mlia.
Qed.

Lemma block_first s p bs : block_ok s p bs -> page (p - HDR_SIZE).
Proof.
  intros Hb. pose proof (npages_bounds _ (bo_size _ _ _ Hb)).
  apply (bo_page _ _ _ Hb). exists 0. split; lia.
Qed.

(** A buffer is not disturbed by changes elsewhere. *)
Lemma block_keep s s' p bs :
  block_ok s p bs ->
  (forall v, owns p (len bs) v -> managed (kk s') v = managed (kk s) v /\ refs (kk s') v = refs (kk s) v) ->
  (forall a, p - HDR_SIZE <= a < p + len bs -> mem s' a = mem s a) ->
  block_ok s' p bs.
Proof.
  intros [B1 B2 B3 B4 B5 B6] Hp Hm. split; try done.
  - intros v Hv. destruct (Hp v Hv) as [-> ->]. auto.
  - rewrite (load_ext (mem s)); [done|]. intros. apply Hm. unfold HDR_SIZE in *. lia.
  - rewrite (load_ext (mem s)); [done|]. intros. apply Hm. unfold HDR_SIZE in *. lia.
  - rewrite (load_ext (mem s)); [done|]. intros. apply Hm. unfold HDR_SIZE in *. lia.
  - rewrite (read_ext (mem s)); [done|]. intros. apply Hm. unfold HDR_SIZE in *. lia.
Qed.

(** The other buffers after a change that touches only pages they do not own. *)
Lemma heap_rest s s' H (P : Z -> Prop) :
  heap_ok s H -> inv (kk s') -> kept (kk s) (kk s') ->
  (forall w, page w -> ~ P w -> refs (kk s') w = refs (kk s) w) ->
  (forall a, (forall w, page w -> P w -> ~ (w <= a < w + PGSIZE)) -> mem s' a = mem s a) ->
  forall q cs, H !! q = Some cs -> (forall v, owns q (len cs) v -> ~ P v) -> block_ok s' q cs.
Proof.
  intros HO Hi (M & _) Hr Hm q cs Hq Hn. pose proof (ho_block _ _ HO q cs Hq) as Hb.
  apply (block_keep s); [done| |].
  - intros v Hv. destruct (bo_page _ _ _ Hb v Hv) as (Hp & _ & _). split; [by apply M|apply Hr; auto].
  - intros a Ha. apply Hm. intros w Hw HP Hr'.
    destruct (owns_byte q (len cs) a (bo_size _ _ _ Hb) Ha) as (v & Hv & Hva).
    assert (v = w) as -> by (eapply pages_apart; eauto; by apply (bo_page _ _ _ Hb)). by apply (Hn w).
Qed.

Lemma kmalloc_npages size : 1 <= size <= KMALLOC_MAX ->
  ((HDR_SIZE +u size) +u (PGSIZE - 1)) / PGSIZE = npages_of size.
Proof.
  unfold KMALLOC_MAX, npages_of, HDR_SIZE, PGSIZE. intros H.
  rewrite (u32_small (12 + size)), u32_small by (unfold is_u32; lia). f_equal. lia.
Qed.

(** The header of a new buffer. *)
Definition headed (m : Z -> Z) (v n size : Z) : Z -> Z :=
  store32 (store32 (store32 m v KMALLOC_MAGIC) (v + 4) n) (v + 8) size.

Lemma headed_other m v n size a : ~ (v <= a < v + HDR_SIZE) -> headed m v n size a = m a.
Proof. unfold HDR_SIZE. intros. unfold headed. rewrite !store_other by lia. done. Qed.

Lemma headed_loads m v n size : is_u32 n -> is_u32 size ->
  load32 (headed m v n size) v = KMALLOC_MAGIC /\ load32 (headed m v n size) (v + 4) = n /\
  load32 (headed m v n size) (v + 8) = size.
Proof.
  intros Hn Hs. unfold headed. split_and!.
  - rewrite (load_ext (store32 m v KMALLOC_MAGIC)); [apply load_store; unfold is_u32, KMALLOC_MAGIC; lia|].
    intros. by rewrite !store_other by lia.
  - rewrite (load_ext (store32 (store32 m v KMALLOC_MAGIC) (v + 4) n)); [by apply load_store|].
    intros. by rewrite store_other by lia.
  - by apply load_store.
Qed.

Lemma granted_heap s s1 H v size :
  heap_ok s H -> 1 <= size <= KMALLOC_MAX -> inv (kk s1) -> kept (kk s) (kk s1) ->
  granted (npages_of size) v (kk s) (kk s1) -> calm (npages_of size) v s s1 ->
  let s2 := set_mem s1 (headed (mem s1) v (npages_of size) size) in
  H !! (v + HDR_SIZE) = None /\
  heap_ok s2 (<[v + HDR_SIZE := read_bytes (mem s2) (v + HDR_SIZE) size]> H).
Proof.
  intros HO Hs Hi1 Hk Hg [Hon Hc] s2. pose proof (npages_bounds size Hs) as [Hn1 Hn2].
  set (bs := read_bytes _ _ _). assert (Hl : len bs = size) by (apply read_length; lia).
  assert (Hown : forall w, owns (v + HDR_SIZE) size w -> page w /\ managed (kk s2) w = true /\
            refs (kk s) w = 0 /\ refs (kk s2) w = 1).
  { intros w (j & Hj & ->). replace (v + HDR_SIZE - HDR_SIZE + j * PGSIZE) with (v + j * PGSIZE) by lia.
    by apply (gr_page _ _ _ _ Hg). }
  assert (Hv0 : owns (v + HDR_SIZE) size v) by (exists 0; split; lia).
  assert (Hfresh : forall q cs w, H !! q = Some cs -> owns q (len cs) w -> ~ owns (v + HDR_SIZE) size w).
  { intros q cs w Hq Hw Hw'. destruct (Hown w Hw') as (_ & _ & Hz & _).
    destruct (bo_page _ _ _ (ho_block _ _ HO q cs Hq) w Hw) as (_ & _ & H1). lia. }
  split.
  { destruct (H !! (v + HDR_SIZE)) as [cs|] eqn:E; [|done]. exfalso.
    pose proof (ho_block _ _ HO _ _ E) as Hb. pose proof (npages_bounds _ (bo_size _ _ _ Hb)).
    apply (Hfresh _ cs v E); [exists 0; split; lia|done]. }
  destruct (headed_loads (mem s1) v (npages_of size) size) as (L1 & L2 & L3);
    [unfold is_u32; lia|unfold is_u32, KMALLOC_MAX in *; lia|].
  pose proof Hk as (M & N & U & P). split; try done.
  - cbn. by rewrite U, (ho_lock _ _ HO).
  - cbn. rewrite P, Hon. apply HO.
  - intros q cs Hq. apply lookup_insert_Some in Hq as [[<- <-]|[_ Hq]].
    + split; rewrite ?Hl; try done; replace (v + HDR_SIZE - HDR_SIZE) with v by lia; try done.
      intros w Hw. destruct (Hown w Hw) as (? & ? & _ & ?). done.
    + apply (heap_rest s s2 H (owns (v + HDR_SIZE) size)); try done; [| |by eauto].
      * intros w Hw Hnw. apply (gr_other _ _ _ _ Hg w Hw). intros j Hj ->. apply Hnw. exists j. split; [done|lia].
      * intros a Ha. cbn. rewrite headed_other.
        -- apply Hc. intros j Hj. apply Ha; [by apply (gr_page _ _ _ _ Hg)|]. exists j. split; [done|lia].
        -- specialize (Ha v). unfold HDR_SIZE, PGSIZE in *. intros Hr. apply Ha; [by apply Hown|done|lia].
  - intros q r cs ds w Hq Hr Ow1 Ow2.
    apply lookup_insert_Some in Hq as [[<- <-]|[Hne Hq]]; apply lookup_insert_Some in Hr as [[<- <-]|[Hne' Hr]];
      rewrite ?Hl in *.
    + done.
    + exfalso. by apply (Hfresh r ds w).
    + exfalso. by apply (Hfresh q cs w).
    + by apply (ho_disj _ _ HO q r cs ds w).
Qed.

Lemma heap_same s s' H : heap_ok s H -> inv (kk s') -> kept (kk s) (kk s') ->
  pagealloc_online s' = pagealloc_online s ->
  (forall w, page w -> refs (kk s') w = refs (kk s) w) -> (forall a, mem s' a = mem s a) -> heap_ok s' H.
Proof.
  intros HO Hi Hk Hon Hr Hm. pose proof Hk as (M & N & U & P). split; try done.
  - by rewrite U, (ho_lock _ _ HO).
  - rewrite P, Hon. apply HO.
  - intros q cs Hq. apply (heap_rest s s' H (fun _ => False)); auto.
  - apply (ho_disj _ _ HO).
Qed.

Lemma kmalloc_spec s H size c :
  heap_ok s H -> cpu_ok (kk s) c -> 0 <= size <= KMALLOC_MAX ->
  exists p s', kmalloc end_ writable meta_base pg_array_addr size c s = Some (p, s') /\ kept (kk s) (kk s') /\
    ((p = 0 /\ heap_ok s' H) \/
     (p <> 0 /\ 0 < size /\ H !! p = None /\ exists bs, len bs = size /\ heap_ok s' (<[p := bs]> H))).
Proof.
  intros HO Hc Hs. unfold kmalloc. destruct (Z.eqb_spec size 0) as [->|Hz].
  { exists 0, s. split; [done|]. split; [apply kept_refl|]. by left. }
  cbv zeta. rewrite kmalloc_npages by lia. pose proof (npages_bounds size ltac:(lia)) as [Hn1 Hn2].
  set (n := npages_of size) in *.
  assert (Ho : grant_outcome n s (if n =? 1 then kalloc end_ writable meta_base pg_array_addr c s
                                  else contiguous end_ writable meta_base n c s)).
  { destruct (Z.eqb_spec n 1) as [->|].
    - apply kalloc_outcome; [apply HO|done|apply HO].
    - apply contiguous_outcome; [apply HO|apply HO|lia]. }
  destruct Ho as (v & s1 & -> & Hi1 & Hk & [(-> & Hr & Hm)|[Hg Hm]]).
  - exists 0, s1. split; [done|]. split; [done|]. left. split; [done|].
    apply (heap_same s); try done; [apply Hm|]. intros a. apply Hm. lia.
  - assert (Hw : forall j, 0 <= j < n -> page (v + j * PGSIZE) /\ writable (v + j * PGSIZE) = true).
    { intros j Hj. destruct (gr_page _ _ _ _ Hg j Hj) as [Hp _]. split; [done|].
      apply (km_page (KernelMap := KM)); apply Hp. }
    rewrite (proj2 (Z.eqb_neq v 0)) by apply Hg.
    destruct (Hw 0) as [Hp0 Hw0]; [lia|]. replace (v + 0 * PGSIZE) with v in * by lia. rewrite Hw0. cbn [negb].
    destruct (Hw (n - 1)) as [[Hu _] Hwl]; [lia|]. rewrite (u32_small (v + _)), Hwl, andb_false_r by done.
    destruct (granted_heap s s1 H v size HO ltac:(lia) Hi1 Hk Hg Hm) as [Hnone HO'].
    eexists (v + HDR_SIZE), _. split; [done|]. split; [done|]. right.
    split; [destruct (page_spec (KM := KM) v Hp0); unfold HDR_SIZE, KERNBASE in *; lia|].
    split; [lia|]. split; [done|]. eexists. split; [|exact HO']. apply read_length. lia.
Qed.

Lemma block_ptr s p bs : block_ok s p bs -> p -u HDR_SIZE = p - HDR_SIZE /\ p <> 0 /\ 0 < p.
Proof.
  intros Hb. pose proof (block_first _ _ _ Hb) as Hp. destruct (page_spec (KM := KM) _ Hp) as (_ & _ & _ & Hr & _).
  destruct Hp as [Hu _]. split; [by apply u32_small|]. unfold HDR_SIZE, KERNBASE in *. lia.
Qed.

Lemma kmalloc_free_spec s H p bs cpu :
  heap_ok s H -> (forall i, cpu_ok (kk s) (cpu i)) -> H !! p = Some bs -> npages_of (len bs) <= 128 ->
  exists s', kmalloc_free end_ writable meta_base p cpu s = Some s' /\ kept (kk s) (kk s') /\
    heap_ok s' (delete p H).
Proof.
  intros HO Hc Hp Hn. pose proof (ho_block _ _ HO p bs Hp) as Hb.
  destruct (block_ptr _ _ _ Hb) as (Eh & Hz & _). pose proof (npages_bounds _ (bo_size _ _ _ Hb)) as [Hn1 _].
  unfold kmalloc_free. rewrite (proj2 (Z.eqb_neq p 0) Hz), Eh, (bo_magic _ _ _ Hb), (bo_npages _ _ _ Hb).
  cbn [negb]. rewrite Z.eqb_refl. cbn [negb].
  destruct (Z.eqb_spec (npages_of (len bs)) 0) as [?|_], (Z.gtb_spec (npages_of (len bs)) 128) as [?|_]; try lia.
  cbn [orb]. set (h := p - HDR_SIZE). set (n := npages_of (len bs)) in *. cbn [kk set_mem].
  destruct (kfree_pages_spec cpu (Z.to_nat n) 0 h (kk s)) as (k' & -> & Hi & Hk & F1 & F2); [apply HO|done| |].
  { intros j Hj. apply (bo_page _ _ _ Hb). exists j. split; [lia|done]. }
  eexists. split; [done|]. split; [exact Hk|]. pose proof Hk as (M & N & U & P).
  set (s' := set_kk _ k'). split; try done.
  - cbn. by rewrite U, (ho_lock _ _ HO).
  - cbn. rewrite P. apply HO.
  - intros q cs Hq. apply lookup_delete_Some in Hq as [Hne Hq].
    apply (heap_rest s s' H (owns p (len bs))); try done.
    + intros w Hw Hnw. apply F2; [done|]. intros j Hj ->. apply Hnw. exists j. split; [lia|done].
    + intros a Ha. cbn. apply store_other. intros Hr. apply (Ha h); [by eapply block_first| |unfold PGSIZE; lia].
      exists 0. split; [lia|]. unfold h. lia.
    + intros v Hv Hv'. apply Hne. by apply (ho_disj _ _ HO p q bs cs v).
  - intros q r cs ds w Hq Hr. apply lookup_delete_Some in Hq as [_ Hq]. apply lookup_delete_Some in Hr as [_ Hr].
    by apply (ho_disj _ _ HO).
Qed.

(** More than 128 pages: [kmalloc_free] takes the header for corrupt. *)
Lemma kmalloc_free_large s H p bs cpu :
  heap_ok s H -> H !! p = Some bs -> 128 < npages_of (len bs) ->
  kmalloc_free end_ writable meta_base p cpu s = None.
Proof.
  intros HO Hp Hn. pose proof (ho_block _ _ HO p bs Hp) as Hb. destruct (block_ptr _ _ _ Hb) as (Eh & Hz & _).
  unfold kmalloc_free. rewrite (proj2 (Z.eqb_neq p 0) Hz), Eh, (bo_magic _ _ _ Hb), (bo_npages _ _ _ Hb).
  cbn [negb]. rewrite Z.eqb_refl. cbn [negb].
  destruct (Z.gtb_spec (npages_of (len bs)) 128); [by rewrite orb_true_r|lia].
Qed.

(** A store into a buffer changes that buffer only. *)
Lemma heap_write s H q cs off l :
  heap_ok s H -> H !! q = Some cs -> 0 <= off -> off + len l <= len cs ->
  heap_ok (set_mem s (write_bytes (mem s) (q + off) l)) (<[q := patch off l cs]> H).
Proof.
  intros HO Hq Ho Hl. set (s' := set_mem _ _). pose proof (ho_block _ _ HO q cs Hq) as Hb.
  pose proof (patch_len off l cs Ho Hl) as El. split; try apply HO.
  - intros r ds Hr. apply lookup_insert_Some in Hr as [[<- <-]|[Hne Hr]].
    + destruct Hb as [B1 B2 B3 B4 B5 B6]. split; rewrite ?El; try done.
      * cbn. rewrite (load_ext (mem s)); [done|]. intros. apply write_other. unfold HDR_SIZE in *. lia.
      * cbn. rewrite (load_ext (mem s)); [done|]. intros. apply write_other. unfold HDR_SIZE in *. lia.
      * cbn. rewrite (load_ext (mem s)); [done|]. intros. apply write_other. unfold HDR_SIZE in *. lia.
      * cbn. rewrite read_patch by lia. by rewrite B6.
    + apply (heap_rest s s' H (owns q (len cs))); try done; [exact (ho_inv _ _ HO)| |].
      * intros a Ha. cbn. apply write_other. intros Hr'.
        destruct (owns_byte q (len cs) a (bo_size _ _ _ Hb)) as (v & Hv & Hva); [unfold HDR_SIZE; lia|].
        apply (Ha v); [by apply (bo_page _ _ _ Hb)|done|done].
      * intros v Hv Hv'. apply Hne. by apply (ho_disj _ _ HO q r cs ds v).
  - intros r t cs1 ds w Hr Ht Ow1 Ow2.
    apply lookup_insert_Some in Hr as [[<- <-]|[_ Hr]]; apply lookup_insert_Some in Ht as [[<- <-]|[_ Ht]];
      rewrite ?El in *; [done|by apply (ho_disj _ _ HO q t cs ds w)|by apply (ho_disj _ _ HO r q cs1 cs w)|].
    by apply (ho_disj _ _ HO r t cs1 ds w).
Qed.

(** A request that needs at most 128 pages, so that the buffer can be freed. *)
Definition small (n : Z) : Prop := npages_of n <= 128.

Lemma kmalloc_realloc_spec s H p bs size c cpu :
  heap_ok s H -> cpu_ok (kk s) c -> (forall i, cpu_ok (kk s) (cpu i)) ->
  H !! p = Some bs -> small (len bs) -> 0 < size <= KMALLOC_MAX ->
  exists q s', kmalloc_realloc end_ writable meta_base pg_array_addr p size c cpu s = Some (q, s') /\
    kept (kk s) (kk s') /\
    ((q = 0 /\ heap_ok s' H) \/
     (q = p /\ size <= len bs /\ heap_ok s' H) \/
     (q <> 0 /\ len bs < size /\ H !! q = None /\
      exists bs', len bs' = size - len bs /\ heap_ok s' (<[q := bs ++ bs']> (delete p H)))).
Proof.
  intros HO Hc Hcs Hp Hsm Hs. pose proof (ho_block _ _ HO p bs Hp) as Hb. destruct (block_ptr _ _ _ Hb) as (Eh & Hz & _).
  unfold kmalloc_realloc. rewrite (proj2 (Z.eqb_neq p 0) Hz), Eh, (bo_magic _ _ _ Hb), (bo_req _ _ _ Hb), Z.eqb_refl.
  destruct (Z.eqb_spec size 0) as [?|_]; [lia|]. cbn [negb]. rewrite Z.geb_leb.
  destruct (Z.leb_spec size (len bs)) as [Hle|Hlt].
  { exists p, s. split; [done|]. split; [apply kept_refl|]. right. by left. }
  destruct (kmalloc_spec s H size c HO Hc ltac:(lia)) as (q & s1 & -> & Hk1 & [[-> HO1]|(Hqz & _ & Hq & bs0 & Hl0 & HO1)]).
  { exists 0, s1. split; [done|]. split; [done|]. by left. }
  rewrite (proj2 (Z.eqb_neq q 0) Hqz). destruct (Z.ltb_spec (len bs) size) as [_|?]; [|lia].
  assert (Hpq : p <> q) by (intros ->; congruence).
  assert (Hp1 : <[q := bs0]> H !! p = Some bs) by (by rewrite lookup_insert_ne).
  rewrite (bo_bytes _ _ _ (ho_block _ _ HO1 p bs Hp1)).
  pose proof (heap_write s1 _ q bs0 0 bs HO1 (lookup_insert_eq _ _ _) ltac:(lia) ltac:(lia)) as HO2.
  rewrite Z.add_0_r in HO2. set (s2 := set_mem _ _) in *. rewrite insert_insert_eq in HO2.
  destruct (kmalloc_free_spec s2 (<[q := patch 0 bs bs0]> H) p bs cpu) as (s3 & -> & Hk3 & HO3); [done| | |done|].
  { intros i. apply (kept_cpu (kk s)); [exact Hk1|done]. }
  { by rewrite lookup_insert_ne. }
  exists q, s3. split; [done|]. split; [by eapply kept_trans; [exact Hk1|]|]. right. right.
  split; [done|]. split; [done|]. split; [done|]. rewrite delete_insert_ne in HO3 by done.
  exists (drop (length bs) bs0). split; [unfold len in *; rewrite length_drop; lia|].
  unfold patch in HO3. cbn [Z.to_nat take app] in HO3. rewrite Z.add_0_l in HO3. unfold len in HO3 at 1.
  by rewrite Nat2Z.id in HO3.
Qed.

(** ** The kernel heap *)

(** A call of a client, and a client's store into its buffer. *)
Inductive hcall :=
| HAlloc (size : Z)
| HFree (p : Z)
| HRealloc (p size : Z)
| HStore (p off : Z) (l : list Z).

Definition hexec (x : hcall) (c : nat) (cpu : nat -> nat) (s : mach) : option (Z * mach) :=
  match x with
  | HAlloc size => kmalloc end_ writable meta_base pg_array_addr size c s
  | HFree p => match kmalloc_free end_ writable meta_base p cpu s with None => None | Some s => Some (0, s) end
  | HRealloc p size => kmalloc_realloc end_ writable meta_base pg_array_addr p size c cpu s
  | HStore p off l => Some (0, set_mem s (write_bytes (mem s) (p + off) l))
  end.

(** What clients may do: free and resize NULL or live buffers of at most 128
    pages, store inside them, and ask for sizes that do not wrap. *)
Definition hvalid (H : gmap Z (list Z)) (x : hcall) : Prop :=
  match x with
  | HAlloc size => 0 <= size <= KMALLOC_MAX
  | HFree p => p = 0 \/ exists bs, H !! p = Some bs /\ small (len bs)
  | HRealloc p size => 0 <= size <= KMALLOC_MAX /\ (p = 0 \/ exists bs, H !! p = Some bs /\ small (len bs))
  | HStore p off l => exists bs, H !! p = Some bs /\ 0 <= off /\ off + len l <= len bs
  end.

(** The heap as clients see it: buffers are separate sequences of bytes. *)
Definition alloc_result (size r : Z) (H H' : gmap Z (list Z)) : Prop :=
  (r = 0 /\ H' = H) \/
  (r <> 0 /\ 0 < size /\ H !! r = None /\ exists bs, len bs = size /\ H' = <[r := bs]> H).

Definition hspec (x : hcall) (r : Z) (H H' : gmap Z (list Z)) : Prop :=
  match x with
  | HAlloc size => alloc_result size r H H'
  | HFree p => r = 0 /\ H' = delete p H
  | HRealloc p size =>
      if p =? 0 then alloc_result size r H H'
      else if size =? 0 then r = 0 /\ H' = delete p H
      else exists bs, H !! p = Some bs /\
        ((r = 0 /\ H' = H) \/ (r = p /\ size <= len bs /\ H' = H) \/
         (r <> 0 /\ len bs < size /\ H !! r = None /\
          exists bs', len bs' = size - len bs /\ H' = <[r := bs ++ bs']> (delete p H)))
  | HStore p off l => exists bs, H !! p = Some bs /\ H' = <[p := patch off l bs]> H
  end.

Lemma heap_null s H : heap_ok s H -> H !! 0 = None.
Proof.
  intros HO. destruct (H !! 0) as [bs|] eqn:E; [|done]. exfalso.
  by destruct (block_ptr _ _ _ (ho_block _ _ HO 0 bs E)) as (_ & ? & _).
Qed.

Lemma free_call s H p cpu : heap_ok s H -> (forall i, cpu_ok (kk s) (cpu i)) ->
  p = 0 \/ (exists bs, H !! p = Some bs /\ small (len bs)) ->
  exists s', kmalloc_free end_ writable meta_base p cpu s = Some s' /\ kept (kk s) (kk s') /\ heap_ok s' (delete p H).
Proof.
  intros HO Hc [->|(bs & Hp & Hs)].
  - exists s. split; [done|]. split; [apply kept_refl|]. by rewrite delete_id by (by eapply heap_null).
  - by apply (kmalloc_free_spec s H p bs).
Qed.

Lemma alloc_call s H size c : heap_ok s H -> cpu_ok (kk s) c -> 0 <= size <= KMALLOC_MAX ->
  exists r s' H', kmalloc end_ writable meta_base pg_array_addr size c s = Some (r, s') /\
    alloc_result size r H H' /\ heap_ok s' H' /\ kept (kk s) (kk s').
Proof.
  intros HO Hc Hs. destruct (kmalloc_spec s H size c HO Hc Hs) as (p & s' & E & Hk & Ho).
  destruct Ho as [[-> HO']|(Hz & Hp & Hn & bs & Hl & HO')].
  - exists 0, s', H. split; [done|]. split; [by left|]. done.
  - exists p, s', (<[p := bs]> H). split; [done|]. split; [|done]. right. eauto 6.
Qed.

(** C12.  The kernel heap refines a map from pointers to byte sequences: every
    [kmalloc], [kmalloc_free], [kmalloc_realloc] and store into a buffer by a
    well-behaved client returns without panic, with the result and the heap of
    the specification.  A new buffer is disjoint from all live ones, nothing
    but its own stores changes a buffer, and [kmalloc_realloc] keeps the old
    content. *)
Theorem kmalloc_heap_refines x s H c cpu :
  heap_ok s H -> cpu_ok (kk s) c -> (forall i, cpu_ok (kk s) (cpu i)) -> hvalid H x ->
  exists r s' H', hexec x c cpu s = Some (r, s') /\ hspec x r H H' /\ heap_ok s' H' /\ kept (kk s) (kk s').
Proof.
  intros HO Hc Hcs Hv. destruct x as [size|p|p size|p off l]; cbn [hexec hvalid] in *.
  - by apply alloc_call.
  - destruct (free_call s H p cpu HO Hcs Hv) as (s' & -> & Hk & HO'). exists 0, s', (delete p H). done.
  - destruct Hv as [Hs Hp]. destruct (Z.eqb_spec p 0) as [->|Hz]; cbn [hspec]; [by apply alloc_call|].
    rewrite (proj2 (Z.eqb_neq p 0) Hz). destruct (Z.eqb_spec size 0) as [->|Hsz].
    + unfold kmalloc_realloc. rewrite (proj2 (Z.eqb_neq p 0) Hz). cbn [Z.eqb].
      destruct (free_call s H p cpu HO Hcs Hp) as (s' & -> & Hk & HO'). exists 0, s', (delete p H). done.
    + destruct Hp as [?|(bs & Hp & Hsm)]; [lia|].
      destruct (kmalloc_realloc_spec s H p bs size c cpu HO Hc Hcs Hp Hsm ltac:(lia)) as (q & s' & -> & Hk & Ho).
      destruct Ho as [[-> HO']|[(-> & Hle & HO')|(Hqz & Hlt & Hq & bs' & Hl & HO')]].
      * exists 0, s', H. split; [done|]. split; [|done]. exists bs. split; [done|]. by left.
      * exists p, s', H. split; [done|]. split; [|done]. exists bs. split; [done|]. right. by left.
      * eexists q, s', _. split; [done|]. split; [|done]. exists bs. split; [done|]. right. right. eauto 7.
  - destruct Hv as (bs & Hp & Ho & Hl). eexists 0, _, _. split; [done|]. split; [by exists bs|].
    split; [by apply heap_write|apply kept_refl].
Qed.

(** ** Limits *)

Lemma kmalloc_wrap size : KMALLOC_MAX < size < 4294967296 ->
  ((HDR_SIZE +u size) +u (PGSIZE - 1)) / PGSIZE = if size <=? 4294967284 then 0 else 1.
Proof.
  unfold KMALLOC_MAX, HDR_SIZE, PGSIZE, u32. intros H. destruct (Z.leb_spec size 4294967284); mlia.
Qed.

(** Where [kmalloc] goes wrong.  A request within 11 bytes of 2^32 (a
    negative [int] as the size) wraps to the size of one page: whenever
    [kmalloc] of one byte succeeds it succeeds too, with a buffer of one page.
    And a buffer of more than 128 pages is handed out, but freeing it panics. *)
Theorem kmalloc_limits s H :
  heap_ok s H ->
  (forall size c s1 p, 4294967285 <= size < 4294967296 ->
     kmalloc end_ writable meta_base pg_array_addr 1 c s = Some (p, s1) -> p <> 0 ->
     exists s2, kmalloc end_ writable meta_base pg_array_addr size c s = Some (p, s2) /\ kk s2 = kk s1) /\
  (forall p bs cpu, H !! p = Some bs -> 128 < npages_of (len bs) ->
     kmalloc_free end_ writable meta_base p cpu s = None).
Proof.
  intros HO. split; [|intros; by eapply kmalloc_free_large].
  intros size c s1 p Hs. unfold kmalloc.
  destruct (Z.eqb_spec size 0) as [?|_]; [lia|]. cbv zeta. rewrite (kmalloc_wrap size) by (unfold KMALLOC_MAX; lia).
  destruct (Z.leb_spec size 4294967284) as [?|_]; [lia|].
  change ((HDR_SIZE +u 1 +u (PGSIZE - 1)) / PGSIZE) with 1. cbn [Z.eqb Pos.eqb].
  destruct (kalloc _ _ _ _ c s) as [[v s']|]; [|done]. destruct (v =? 0); [congruence|].
  destruct (negb (writable v)); [done|]. change (1 >? 1) with false. cbn [andb]. intros [= <- <-] _. eauto.
Qed.
End Proofs.

(** ** The free block estimates *)

(** The frames that [n] free blocks per order stand for. *)
Fixpoint weight (l : list Z) : Z :=
  match l with [] => 0 | x :: l => x + 2 * weight l end.

(** The free frames among [n] from [pfn] up. *)
Fixpoint count_free (k : kmem) (n : nat) (pfn : Z) : Z :=
  match n with O => 0 | S n => (if frame_free k pfn then 1 else 0) + count_free k n (pfn + 1) end.

Lemma count_free_bound k n pfn : 0 <= count_free k n pfn <= Z.of_nat n.
Proof. revert pfn; induction n as [|n IH]; intros; cbn [count_free]; [lia|]. specialize (IH (pfn + 1)). case_match; lia. Qed.

Lemma count_free_app k n1 n2 pfn :
  count_free k (n1 + n2) pfn = count_free k n1 pfn + count_free k n2 (pfn + Z.of_nat n1).
Proof.
  revert pfn; induction n1 as [|n1 IH]; intros; cbn [count_free Nat.add].
  - replace (pfn + Z.of_nat 0) with pfn by lia. lia.
  - rewrite IH. replace (pfn + 1 + Z.of_nat n1) with (pfn + Z.of_nat (S n1)) by lia. lia.
Qed.

Lemma frames_free_count k n pfn : frames_free k n pfn = true -> count_free k n pfn = Z.of_nat n.
Proof.
  revert pfn; induction n as [|n IH]; intros pfn; cbn [frames_free count_free]; [done|].
  destruct (frame_free k pfn); cbn [negb]; [|done]. intros H. rewrite (IH _ H). lia.
Qed.

(** The order chosen is that of an aligned block of free frames. *)
Lemma pick_order_spec k pfn m : 0 <= pfn < NPAGE -> frame_free k pfn = true -> (m <= 7)%nat ->
  let o := pick_order k pfn m in
  (o <= m)%nat /\ pfn mod 2 ^ Z.of_nat o = 0 /\ pfn + 2 ^ Z.of_nat o <= NPAGE /\
  frames_free k (Z.to_nat (2 ^ Z.of_nat o)) pfn = true.
Proof.
  assert (HN : NPAGE = 131072) by reflexivity. intros Hp Hf. induction m as [|m IH]; intros Hm.
  - cbn [pick_order]. change (2 ^ Z.of_nat 0) with 1. split; [done|]. split; [apply Z.mod_1_r|]. split; [lia|].
    change (Z.to_nat 1) with 1%nat. cbn [frames_free]. by rewrite Hf.
  - cbn [pick_order]. rewrite !Z.shiftl_1_l. unfold buddy_block_all_free. rewrite !Z.shiftl_1_l.
    assert (Hle : 2 ^ Z.of_nat (S m) <= 2 ^ 7) by (apply Z.pow_le_mono_r; lia). change (2 ^ 7) with 128 in Hle.
    assert (Hge : 0 < 2 ^ Z.of_nat (S m)) by (apply Z.pow_pos_nonneg; lia).
    specialize (IH ltac:(lia)).
    assert (Hsub : forall o, (o <= m)%nat /\ pfn mod 2 ^ Z.of_nat o = 0 /\ pfn + 2 ^ Z.of_nat o <= NPAGE /\
      frames_free k (Z.to_nat (2 ^ Z.of_nat o)) pfn = true -> (o <= S m)%nat /\ pfn mod 2 ^ Z.of_nat o = 0 /\
      pfn + 2 ^ Z.of_nat o <= NPAGE /\ frames_free k (Z.to_nat (2 ^ Z.of_nat o)) pfn = true)
      by (intros o (? & ? & ? & ?); split_and!; try done; lia).
    replace (2 ^ Z.of_nat (S m) - 1) with (Z.ones (Z.of_nat (S m))) by (rewrite Z.ones_equiv; lia).
    rewrite Z.land_ones by lia.
    destruct (Z.eqb_spec (pfn mod 2 ^ Z.of_nat (S m)) 0) as [Hal|_]; cbn [negb]; [|by apply Hsub].
    rewrite u32_small by (unfold is_u32; lia).
    destruct (Z.gtb_spec (pfn + 2 ^ Z.of_nat (S m)) NPAGE); [by apply Hsub|].
    destruct (frames_free k (Z.to_nat (2 ^ Z.of_nat (S m))) pfn) eqn:E; [|by apply Hsub]. split_and!; try done. 
Qed.

Lemma weight_bump l o : (o < length l)%nat -> Forall (fun x => 0 <= x < 4294967295) l ->
  weight (bump_order (Z.of_nat o) l) = weight l + 2 ^ Z.of_nat o.
Proof.
  unfold bump_order. rewrite Nat2Z.id. revert o; induction l as [|x l IH]; intros o Ho Hl; [cbn in Ho; lia|].
  apply Forall_cons in Hl as [Hx Hl]. destruct o as [|o].
  - cbn [weight]. change (alter _ 0%nat (x :: l)) with ((x +u 1) :: l). cbn [weight].
    rewrite u32_small by (unfold is_u32; lia). change (2 ^ Z.of_nat 0) with 1. lia.
  - change (alter (fun x => x +u 1) (S o) (x :: l)) with (x :: alter (fun x => x +u 1) o l). cbn [weight].
    rewrite IH by (done || (cbn in Ho; lia)). rewrite Nat2Z.inj_succ, Z.pow_succ_r by lia. lia.
Qed.

Lemma weight_entry l : Forall (fun x => 0 <= x) l -> 0 <= weight l /\ Forall (fun x => 0 <= x <= weight l) l.
Proof.
  induction l as [|x l IH]; intros H; [done|]. apply Forall_cons in H as [Hx Hl]. destruct (IH Hl) as [Hw Hf].
  cbn [weight]. split; [lia|]. apply Forall_cons. split; [lia|].
  eapply Forall_impl; [exact Hf|]. cbn. intros y Hy. lia.
Qed.

Lemma bump_nonneg l o : Forall (fun x => 0 <= x) l -> Forall (fun x => 0 <= x) (bump_order o l).
Proof.
  intros H. apply Forall_alter; [done|]. intros x _ _. apply u32_range.
Qed.

Lemma estimate_loop_spec fuel k pfn est :
  0 <= pfn <= NPAGE -> NPAGE - pfn <= Z.of_nat fuel -> length est = 8%nat -> Forall (fun x => 0 <= x) est ->
  weight est + (NPAGE - pfn) < 4294967295 ->
  let est' := estimate_loop fuel k pfn est in
  length est' = 8%nat /\ weight est' = weight est + count_free k (Z.to_nat (NPAGE - pfn)) pfn.
Proof.
  assert (HN : NPAGE = 131072) by reflexivity.
  revert pfn est; induction fuel as [|fuel IH]; intros pfn est Hp Hf Hl He Hw; cbn [estimate_loop].
  { replace (NPAGE - pfn) with 0 by lia. split; [done|]. change (Z.to_nat 0) with 0%nat. cbn [count_free]. lia. }
  rewrite Z.geb_leb. destruct (Z.leb_spec NPAGE pfn).
  { replace (NPAGE - pfn) with 0 by lia. split; [done|]. change (Z.to_nat 0) with 0%nat. cbn [count_free]. lia. }
  destruct (frame_free k pfn) eqn:Ef; cbn [negb].
  - destruct (pick_order_spec k pfn 7 ltac:(lia) Ef ltac:(lia)) as (Ho & _ & Hb & Hfr).
    change (Z.to_nat BUDDY_BRIDGE_MAX_ORDER) with 7%nat. set (o := pick_order k pfn 7) in *.
    rewrite Z.shiftl_1_l. set (n := 2 ^ Z.of_nat o) in *.
    assert (Hn : 0 < n) by (apply Z.pow_pos_nonneg; lia).
    assert (Hwb : weight (bump_order (Z.of_nat o) est) = weight est + n).
    { apply weight_bump; [lia|]. eapply Forall_impl; [apply weight_entry, He|]. cbn. intros x Hx. lia. }
    destruct (IH (pfn + n) (bump_order (Z.of_nat o) est)) as [L W];
      [lia|lia|unfold bump_order; by rewrite length_alter|by apply bump_nonneg|lia|].
    split; [exact L|]. rewrite W, Hwb.
    replace (Z.to_nat (NPAGE - pfn)) with (Z.to_nat n + Z.to_nat (NPAGE - (pfn + n)))%nat by lia.
    rewrite count_free_app, (frames_free_count k _ pfn Hfr). rewrite Z2Nat.id by lia. lia.
  - destruct (IH (pfn + 1) est) as [L W]; [lia|lia|done|done|lia|]. split; [exact L|]. rewrite W.
    replace (Z.to_nat (NPAGE - pfn)) with (S (Z.to_nat (NPAGE - (pfn + 1)))) by lia. cbn [count_free]. rewrite Ef. lia.
Qed.

(** The free block estimates that [buddy_stats] reports are exact: the
    blocks counted are aligned, disjoint and free, so the sizes of the blocks,
    summed over the eight orders, are the number of free frames. *)
Theorem buddy_estimates_exact s :
  let est := buddy_free_estimate_order (bcounts (buddy_refresh_free_estimates s)) in
  length est = 8%nat /\ weight est = count_free (kk s) (Z.to_nat NPAGE) 0 /\
  kk (buddy_refresh_free_estimates s) = kk s.
Proof.
  unfold buddy_refresh_free_estimates. cbn [count bcounts set_estimate buddy_free_estimate_order kk].
  destruct (estimate_loop_spec (Z.to_nat NPAGE) (kk s) 0 (replicate 8 0)) as [L W].
  - split; [lia|vm_compute; discriminate].
  - rewrite Z2Nat.id; [lia|vm_compute; discriminate].
  - done.
  - by repeat constructor.
  - vm_compute. reflexivity.
  - split; [exact L|]. split; [|done]. rewrite W. change (weight (replicate 8 0)) with 0.
    rewrite Z.sub_0_r. lia.
Qed.

(** ** Blocks of pages *)

Section Blocks.
Context {end_ : Z} {writable : Z -> bool} {meta_base : Z} {KM : KernelMap end_ writable meta_base}.
Context {pg_array_addr : Z}.
Context (Haddr : 0 < pg_array_addr).

Abbreviation page := (page (end_ := end_)).
Abbreviation kept := (kept (end_ := end_)).
Abbreviation inv := (inv (end_ := end_)).
Abbreviation granted := (granted (end_ := end_)).

Lemma idx_step v j : page v -> page (v + j * PGSIZE) -> idx (v + j * PGSIZE) = idx v + j.
Proof.
  intros Hv Hw. destruct (page_spec (KM := KM) v Hv) as (H1 & _ & E1 & _),
    (page_spec (KM := KM) _ Hw) as (H2 & _ & E2 & _). unfold idx. rewrite E1, E2. unfold PGSIZE, KERNBASE. mlia.
Qed.

Lemma some_free_false k v n i : inv k -> pg_ready k = true -> page v ->
  (forall j, i <= j < i + Z.of_nat n ->
     page (v + j * PGSIZE) /\ managed k (v + j * PGSIZE) = true /\ refs k (v + j * PGSIZE) = 1) ->
  some_free k n (idx v + i) = false.
Proof.
  intros Hi Hr Hv. revert i; induction n as [|n IH]; intros i Hp; cbn [some_free]; [done|].
  destruct (Hp i) as (Hpi & Hmi & Hri); [lia|]. rewrite <- (idx_step v i Hv Hpi).
  destruct (page_idx (KM := KM) _ Hpi) as (Hx & _). unfold pgfn_flags. rewrite Hr, Z.geb_leb. cbn [negb orb].
  destruct (Z.leb_spec NPAGE (idx (v + i * PGSIZE))); [lia|].
  rewrite (inv_desc k Hi _ Hr Hpi Hmi), Hri. cbn [Z.eqb]. rewrite (idx_step v i Hv Hpi).
  replace (idx v + i + 1) with (idx v + (i + 1)) by lia. apply IH. intros j Hj. apply Hp. lia.
Qed.

Lemma order_pages order : 0 <= order <= 7 -> 1 <= 2 ^ order <= 128 /\ (order <> 0 -> 2 <= 2 ^ order).
Proof.
  intros. split.
  - split; [pose proof (Z.pow_pos_nonneg 2 order); lia|].
    change 128 with (2 ^ 7). apply Z.pow_le_mono_r; lia.
  - intros. change 2 with (2 ^ 1) at 1. apply Z.pow_le_mono_r; lia.
Qed.

Lemma order_guard order : 0 <= order <= 7 -> (order <? 0) || (order >? BUDDY_BRIDGE_MAX_ORDER) = false.
Proof.
  unfold BUDDY_BRIDGE_MAX_ORDER. intros.
  destruct (Z.ltb_spec order 0), (Z.gtb_spec order 7); lia || done.
Qed.

Lemma free_pages_order_spec s v order cpu :
  inv (kk s) -> pg_ready (kk s) = true -> (forall i, cpu_ok (kk s) (cpu i)) -> 0 <= order <= 7 ->
  (forall j, 0 <= j < 2 ^ order ->
     page (v + j * PGSIZE) /\ managed (kk s) (v + j * PGSIZE) = true /\ refs (kk s) (v + j * PGSIZE) = 1) ->
  exists s', free_pages_order end_ writable meta_base pg_array_addr
      (pgfn_descriptor pg_array_addr (kk s) (idx v)) order cpu s = Some s' /\ inv (kk s') /\ kept (kk s) (kk s') /\
    (forall j, 0 <= j < 2 ^ order -> refs (kk s') (v + j * PGSIZE) = 0) /\
    (forall w, page w -> (forall j, 0 <= j < 2 ^ order -> w <> v + j * PGSIZE) -> refs (kk s') w = refs (kk s) w).
Proof.
  intros Hi Hr Hc Ho Hpg. destruct (order_pages order Ho) as [Hn _].
  destruct (Hpg 0) as (Hv & _); [lia|]. replace (v + 0 * PGSIZE) with v in Hv by lia.
  destruct (desc_roundtrip (KM := KM) Haddr (kk s) v Hr Hv) as [Hd1 Hd2].
  unfold free_pages_order. rewrite (order_guard order Ho), (proj2 (Z.eqb_neq _ 0) Hd1), Hd2, Z.shiftl_1_l.
  destruct (Hpg (2 ^ order - 1)) as (Hl & _); [lia|]. pose proof (idx_step v _ Hv Hl) as El.
  destruct (page_idx (KM := KM) _ Hl) as (Hxl & _), (page_idx (KM := KM) _ Hv) as (Hx & _).
  assert (HN : NPAGE = 131072) by reflexivity. rewrite u32_small by (unfold is_u32; lia).
  destruct (Z.gtb_spec (idx v + 2 ^ order) NPAGE); [lia|].
  pose proof (some_free_false (kk s) v (Z.to_nat (2 ^ order)) 0 Hi Hr Hv) as Hsf. rewrite Z.add_0_r in Hsf.
  rewrite Hsf by (intros j Hj; apply Hpg; lia). rewrite P2V_idx by done.
  destruct (kfree_pages_spec (KM := KM) cpu (Z.to_nat (2 ^ order)) 0 v (kk s) Hi Hc) as (k' & -> & Hi' & Hk & F1 & F2).
  { intros j Hj. apply Hpg. lia. }
  eexists. split; [done|]. split; [exact Hi'|]. split; [exact Hk|]. split.
  - intros j Hj. apply F1. lia.
  - intros w Hw Hne. apply F2; [done|]. intros j Hj. apply Hne. lia.
Qed.

Lemma alloc_pages_order_spec s order flags_ c :
  inv (kk s) -> use_lock (kk s) = true -> pg_ready (kk s) = true -> cpu_ok (kk s) c -> 0 <= order <= 7 ->
  exists pg s', alloc_pages_order end_ writable meta_base pg_array_addr order flags_ c s = Some (pg, s') /\
    inv (kk s') /\ kept (kk s) (kk s') /\
    ((pg = 0 /\ forall w, page w -> refs (kk s') w = refs (kk s) w) \/
     (pg <> 0 /\ exists v, pg = pgfn_descriptor pg_array_addr (kk s') (idx v) /\
        granted (2 ^ order) v (kk s) (kk s'))).
Proof.
  intros Hi Hu Hr Hc Ho. destruct (order_pages order Ho) as [Hn Hn2]. unfold alloc_pages_order.
  rewrite (order_guard order Ho), Z.shiftl_1_l.
  assert (Hg : exists v s1, (if order =? 0 then
             match kalloc_legacy_page end_ writable meta_base c (kk s) with
             | None => None | Some (v, k) => Some (v, set_kk s k) end
           else contiguous end_ writable meta_base (2 ^ order) c s) = Some (v, s1) /\
           inv (kk s1) /\ kept (kk s) (kk s1) /\
           ((v = 0 /\ forall w, page w -> refs (kk s1) w = refs (kk s) w) \/ granted (2 ^ order) v (kk s) (kk s1))).
  { destruct (Z.eqb_spec order 0) as [->|Hz].
    - destruct (legacy_outcome (KM := KM) s c Hi Hc) as (v & k' & -> & ? & ? & ?). by exists v, (set_kk s k').
    - destruct (contiguous_outcome (KM := KM) s c (2 ^ order) Hi Hu) as (v & s1 & -> & ? & ? & Hv); [lia|].
      exists v, s1. split; [done|]. split; [done|]. split; [done|].
      destruct Hv as [(? & ? & _)|[? _]]; [by left|by right]. }
  destruct Hg as (v & s1 & -> & Hi1 & Hk1 & [[-> Hs]|Hg]).
  - exists 0. eexists. split; [done|]. split; [done|]. split; [done|]. by left.
  - rewrite (proj2 (Z.eqb_neq v 0)) by apply Hg. destruct (gr_page _ _ _ _ Hg 0) as [Hp _]; [lia|].
    replace (v + 0 * PGSIZE) with v in Hp by lia.
    assert (Hr1 : pg_ready (kk s1) = true) by (destruct Hk1 as (_ & _ & _ & ->); done).
    destruct (desc_roundtrip (KM := KM) Haddr (kk s1) v Hr1 Hp) as [Hd1 _].
    change (V2P v / PGSIZE) with (idx v). rewrite (proj2 (Z.eqb_neq _ 0) Hd1).
    eexists _, _. split; [done|]. split; [done|]. split; [done|]. right. split; [done|]. by exists v.
Qed.

(** Blocks of pages: [alloc_pages_order] of an order from 0 to 7 returns
    NULL and changes no count, or the descriptor of a run of [2 ^ order]
    physically contiguous pages that were free; and [free_pages_order] of that
    descriptor and order takes the block back on any CPUs, restoring every
    reference count. *)
Theorem pages_order_roundtrip s order flags_ c cpu :
  inv (kk s) -> use_lock (kk s) = true -> pg_ready (kk s) = true ->
  cpu_ok (kk s) c -> (forall i, cpu_ok (kk s) (cpu i)) -> 0 <= order <= 7 ->
  exists pg s1, alloc_pages_order end_ writable meta_base pg_array_addr order flags_ c s = Some (pg, s1) /\ inv (kk s1) /\
    ((pg = 0 /\ forall w, page w -> refs (kk s1) w = refs (kk s) w) \/
     (pg <> 0 /\ (exists v, granted (2 ^ order) v (kk s) (kk s1)) /\
      exists s2, free_pages_order end_ writable meta_base pg_array_addr pg order cpu s1 = Some s2 /\ inv (kk s2) /\
        forall w, page w -> refs (kk s2) w = refs (kk s) w)).
Proof.
  intros Hi Hu Hr Hc Hcs Ho.
  destruct (alloc_pages_order_spec s order flags_ c Hi Hu Hr Hc Ho) as (pg & s1 & E & Hi1 & Hk1 & Hout).
  exists pg, s1. split; [done|]. split; [done|]. destruct Hout as [[-> Hs]|(Hz & v & -> & Hg)]; [by left|]. right.
  assert (Hr1 : pg_ready (kk s1) = true) by (destruct Hk1 as (_ & _ & _ & ->); done).
  destruct (free_pages_order_spec s1 v order cpu Hi1 Hr1) as (s2 & E2 & Hi2 & _ & F1 & F2); [|done| |].
  { intros i. by eapply kept_cpu. }
  { intros j Hj. destruct (gr_page _ _ _ _ Hg j Hj) as (? & ? & _ & ?). done. }
  split; [done|]. split; [by exists v|]. exists s2. split; [done|]. split; [done|]. intros w Hw.
  destruct (decide (Exists (fun j => w = v + j * PGSIZE) (seqZ 0 (2 ^ order)))) as [Hex|Hne].
  - apply Exists_exists in Hex as (j & Hj & ->). apply elem_of_seqZ in Hj.
    rewrite F1 by lia. symmetry. apply (gr_page _ _ _ _ Hg). lia.
  - assert (Hn : forall j, 0 <= j < 2 ^ order -> w <> v + j * PGSIZE).
    { intros j Hj ->. apply Hne, Exists_exists. exists j. split; [apply elem_of_seqZ; lia|done]. }
    rewrite F2 by done. by apply (gr_other _ _ _ _ Hg).
Qed.
End Blocks.

(** ** A small machine *)

Module HeapExample.
Import Kalloc.Example.

#[local] Existing Instance direct_map.

Definition no_counts : bcount := mkB (replicate 8 0) (replicate 8 0) (replicate 8 0) 0 (replicate 8 0) 0 0 0.

(** The block layer off, and all of memory zero. *)
Definition idle : mach := mkM late (fun _ => 0) false no_counts.

Lemma idle_heap : heap_ok (end_ := END) idle ∅.
Proof. split; [exact late_inv|reflexivity|done|intros p bs Hp|intros p q bs cs v Hp]; by rewrite lookup_empty in Hp. Qed.

Lemma kmalloc_heap_refines_witness :
  exists r s' H', hexec (end_ := END) (writable := all_mapped) (meta_base := 0) (pg_array_addr := 4096)
      (HAlloc 5000) 1 (fun _ => 0%nat) idle = Some (r, s') /\
    hspec (HAlloc 5000) r ∅ H' /\ heap_ok (end_ := END) s' H' /\ kept (end_ := END) (kk idle) (kk s').
Proof.
  apply (kmalloc_heap_refines (KM := direct_map) (pg_array_addr := 4096) eq_refl (HAlloc 5000) idle ∅ 1 (fun _ => 0%nat) idle_heap).
  - apply (late_cpus 1). lia.
  - intros _. apply (late_cpus 0). lia.
  - unfold hvalid, KMALLOC_MAX. lia.
Defined.

(** A request of 2^32 - 1 bytes gets one page. *)
Definition tiny : option Z := fst <$> kmalloc END all_mapped 0 4096 4294967295 0 idle.

Lemma kmalloc_limits_witness :
  tiny = Some (END + 20480 + 12) /\
  forall p bs cpu, (∅ : gmap Z (list Z)) !! p = Some bs -> 128 < npages_of (len bs) ->
    kmalloc_free END all_mapped 0 p cpu idle = None.
Proof.
  destruct (kmalloc_limits (KM := direct_map) (pg_array_addr := 4096) idle ∅ idle_heap) as [H1 H2].
  split; [|exact H2]. destruct (kmalloc END all_mapped 0 4096 1 0 idle) as [[p s1]|] eqn:E.
  - assert (Ep : p = END + 20480 + 12).
    { apply (f_equal (fmap fst)) in E. vm_compute in E. injection E as <-. reflexivity. }
    destruct (H1 4294967295 0%nat s1 p) as (s2 & E2 & _); [lia|exact E|rewrite Ep; discriminate|].
    unfold tiny. rewrite E2. cbn. by rewrite Ep.
  - apply (f_equal (fmap fst)) in E. vm_compute in E. discriminate.
Defined.

(** The same pages with the page database on. *)
Definition ready : mach :=
  mkM (set_ready (list_to_map ((fun i => (i, desc_init late END 384 i)) <$> seqZ_pages)) late) (fun _ => 0) true no_counts.

Lemma ready_inv : inv (end_ := END) (kk ready).
Proof. apply (set_ready_spec (KM := direct_map) late END 384 late_inv). reflexivity. Qed.
Lemma ready_cpus c : (c < 2)%nat -> cpu_ok (kk ready) c.
Proof.
  assert (H : forall m k, cpu_ok k c -> cpu_ok (set_ready m k) c) by done.
  intros Hc. unfold ready. cbn [kk]. by apply H, late_cpus.
Qed.

Lemma pages_order_roundtrip_witness :
  exists pg s1, alloc_pages_order END all_mapped 0 4096 2 0 0 ready = Some (pg, s1) /\ inv (end_ := END) (kk s1) /\
    ((pg = 0 /\ forall w, page (end_ := END) w -> refs (kk s1) w = refs (kk ready) w) \/
     (pg <> 0 /\ (exists v, granted (end_ := END) (2 ^ 2) v (kk ready) (kk s1)) /\
      exists s2, free_pages_order END all_mapped 0 4096 pg 2 (fun _ => 1%nat) s1 = Some s2 /\
        inv (end_ := END) (kk s2) /\
        forall w, page (end_ := END) w -> refs (kk s2) w = refs (kk ready) w)).
Proof.
  apply (pages_order_roundtrip (KM := direct_map) (pg_array_addr := 4096) eq_refl ready 2 0 0 (fun _ => 1%nat) ready_inv).
  - reflexivity.
  - reflexivity.
  - apply (ready_cpus 0). lia.
  - intros _. apply (ready_cpus 1). lia.
  - lia.
Defined.
End HeapExample.
