(* ===== verification/FsBlock.v ===== *)
(** * Disk blocks: the block layer of [src/kernel/fs/fs.c]

    Blocks are lists of [BSIZE] bytes.  The state is the content of the disk as
    file system code sees it through [bread] and [log_write] (the log and the
    buffer cache below are the subject of [Log]), and the list of the blocks
    written since the operation began, one entry per [log_write].  Reading a
    block that the device does not have is an I/O error, which panics. *)

From S2P Require Import Prelude NetBytes.

#[global] Open Scope pm_scope.

Definition BSIZE : Z := 512.
Definition BPB : Z := BSIZE * 8.

Record superblock := mkSb {
  sb_size : Z;
  sb_nblocks : Z;
  sb_ninodes : Z;
  sb_nlog : Z;
  sb_logstart : Z;
  sb_inodestart : Z;
  sb_bmapstart : Z
}.

Abbreviation bytes := (list Z).

Record fs := mkFs { dsk : gmap Z bytes; logged : list Z }.

Definition fs_bread_checked (b : Z) : PM fs bytes := fun s =>
  match dsk s !! b with Some d => Some (d, s) | None => None end.

Definition log_write (b : Z) (d : bytes) : PM fs unit := fun s =>
  Some (tt, mkFs (<[b := d]> (dsk s)) (logged s ++ [b])).

(** A change of a cached buffer that is not logged. *)
Definition set_buffer (b : Z) (d : bytes) : PM fs unit := fun s =>
  Some (tt, mkFs (<[b := d]> (dsk s)) (logged s)).

(** ** Arrays inside a block *)

Definition byte_at (d : bytes) (i : Z) : Z := nth (Z.to_nat i) d 0.
Definition set_byte (d : bytes) (i v : Z) : bytes := <[Z.to_nat i := v]> d.

(** [n] bytes at [off], and [l] written over the bytes at [off]. *)
Definition sub_bytes (d : bytes) (off n : Z) : bytes := take (Z.to_nat n) (drop (Z.to_nat off) d).
Definition put (d : bytes) (off : Z) (l : bytes) : bytes :=
  take (Z.to_nat off) d ++ l ++ drop (Z.to_nat off + length l) d.

(** Word [j] of a block seen as an array of [uint], and its assignment. *)
Definition word_at (d : bytes) (j : Z) : Z := rd32 (sub_bytes d (4 * j) 4).
Definition set_word (d : bytes) (j v : Z) : bytes := put d (4 * j) (le32 v).

Section Blocks.
Context (sb : superblock).

Definition BBLOCK (b : Z) : Z := b / BPB + sb_bmapstart sb.

Definition readsb (b : bytes) : superblock :=
  mkSb (word_at b 0) (word_at b 1) (word_at b 2) (word_at b 3) (word_at b 4) (word_at b 5) (word_at b 6).

Definition bzero (bno : Z) : PM fs unit :=
  let! d := fs_bread_checked bno in log_write bno (replicate (Z.to_nat BSIZE) 0).

Definition bit_mask (bi : Z) : Z := Z.shiftl 1 (bi mod 8).

(** [for(bi = ...; ...)]: the first clear bit among [n] from [bi] on. *)
Fixpoint find_clear (d : bytes) (n : nat) (bi : Z) : option Z :=
  match n with
  | O => None
  | S n => if Z.land (byte_at d (bi / 8)) (bit_mask bi) =? 0 then Some bi else find_clear d n (bi + 1)
  end.

(** [for(b = 0; b < sb.size; b += BPB)]: one bitmap block per round, [n]
    rounds left. *)
Fixpoint balloc_loop (n : nat) (b : Z) : PM fs Z :=
  match n with
  | O => ppanic
  | S n =>
      if b <? sb_size sb then
        let! d := fs_bread_checked (BBLOCK b) in
        match find_clear d (Z.to_nat (Z.min BPB (sb_size sb - b))) 0 with
        | Some bi =>
            log_write (BBLOCK b) (set_byte d (bi / 8) (Z.lor (byte_at d (bi / 8)) (bit_mask bi))) >>>
            bzero (b + bi) >>>
            pret (b + bi)
        | None => balloc_loop n (b + BPB)
        end
      else ppanic
  end.

Definition balloc : PM fs Z := balloc_loop (Z.to_nat (sb_size sb / BPB + 1)) 0.

Definition bfree (b : Z) : PM fs unit :=
  let! d := fs_bread_checked (BBLOCK b) in
  let bi := b mod BPB in
  let m := bit_mask bi in
  if Z.land (byte_at d (bi / 8)) m =? 0 then ppanic
  else log_write (BBLOCK b) (set_byte d (bi / 8) (Z.ldiff (byte_at d (bi / 8)) m)).
End Blocks.

Lemma bread_bind {A} b d (f : bytes -> PM fs A) s : dsk s !! b = Some d -> pbind (fs_bread_checked b) f s = f d s.
Proof. unfold pbind, fs_bread_checked. by intros ->. Qed.
Lemma log_bind {A} b d (f : unit -> PM fs A) s :
  pbind (log_write b d) f s = f tt (mkFs (<[b := d]> (dsk s)) (logged s ++ [b])).
Proof. done. Qed.

(** ** Bytes and words of a block *)

Lemma put_length d off l : (Z.to_nat off + length l <= length d)%nat -> length (put d off l) = length d.
Proof. intros. unfold put. rewrite !length_app, length_take, length_drop. lia. Qed.

Lemma lookup_put d off l i : (Z.to_nat off + length l <= length d)%nat ->
  put d off l !! i = if bool_decide (Z.to_nat off <= i < Z.to_nat off + length l)%nat
                     then l !! (i - Z.to_nat off)%nat else d !! i.
Proof.
  intros Hl. unfold put. assert (Ht : length (take (Z.to_nat off) d) = Z.to_nat off) by (rewrite length_take; lia).
  case_bool_decide as Hi.
  - rewrite lookup_app_r, Ht by lia. by rewrite lookup_app_l by lia.
  - destruct (decide (i < Z.to_nat off)%nat).
    + rewrite lookup_app_l by lia. by rewrite lookup_take_lt.
    + rewrite lookup_app_r, Ht by lia. rewrite lookup_app_r by lia. rewrite lookup_drop. f_equal. lia.
Qed.

Lemma lookup_sub d off n i :
  sub_bytes d off n !! i = if bool_decide (i < Z.to_nat n)%nat then d !! (Z.to_nat off + i)%nat else None.
Proof.
  unfold sub_bytes. case_bool_decide.
  - rewrite lookup_take_lt by done. by rewrite lookup_drop.
  - by rewrite lookup_take_ge by lia.
Qed.

Lemma sub_bytes_ext d d' off n :
  (forall i, (Z.to_nat off <= i < Z.to_nat off + Z.to_nat n)%nat -> d' !! i = d !! i) ->
  sub_bytes d' off n = sub_bytes d off n.
Proof.
  intros H. apply list_eq. intros i. rewrite !lookup_sub. case_bool_decide; [|done]. apply H. lia.
Qed.

Lemma sub_bytes_length d off n : 0 <= off -> 0 <= n -> off + n <= len d -> len (sub_bytes d off n) = n.
Proof. unfold len, sub_bytes. intros. rewrite length_take, length_drop. lia. Qed.

Lemma sub_put d off l : 0 <= off -> off + len l <= len d -> sub_bytes (put d off l) off (len l) = l.
Proof.
  unfold len. intros. apply list_eq. intros i. rewrite lookup_sub, lookup_put by lia. rewrite Nat2Z.id.
  case_bool_decide; [|by rewrite lookup_ge_None_2 by lia].
  rewrite bool_decide_eq_true_2 by lia. f_equal. lia.
Qed.

Lemma word_set d j v : 0 <= j -> 4 * j + 4 <= len d -> is_u32 v -> word_at (set_word d j v) j = v.
Proof.
  intros. unfold word_at, set_word. change 4 with (len (le32 v)) at 3.
  rewrite sub_put; [by apply rd32_le32|lia|]. change (len (le32 v)) with 4. lia.
Qed.

Lemma word_set_ne d j k v : 0 <= j -> 0 <= k -> j <> k -> 4 * j + 4 <= len d ->
  word_at (set_word d j v) k = word_at d k.
Proof.
  intros. unfold word_at, set_word, len in *. f_equal. apply sub_bytes_ext. intros i Hi.
  rewrite lookup_put by (cbn [length le32]; lia). rewrite bool_decide_eq_false_2; [done|]. cbn [length le32]. lia.
Qed.

Lemma word_zero j : word_at (replicate (Z.to_nat BSIZE) 0) j = 0.
Proof.
  unfold word_at, sub_bytes. rewrite drop_replicate, take_replicate.
  destruct (Z.to_nat 4 `min` (Z.to_nat BSIZE - Z.to_nat (4 * j)))%nat as [|[|[|[|[|n]]]]]; done.
Qed.

Lemma rd32_u8 l : Forall is_u8 l -> is_u32 (rd32 l).
Proof.
  intros H. unfold rd32, is_u32. destruct l as [|a [|b [|c [|d [|e l]]]]]; try lia.
  rewrite !Forall_cons in H. unfold is_u8 in H. lia.
Qed.

(** ** The bitmap *)

Lemma land_mask x bi : (Z.land x (bit_mask bi) =? 0) = negb (Z.testbit x (bi mod 8)).
Proof.
  unfold bit_mask. rewrite Z.shiftl_1_l. pose proof (Z.mod_pos_bound bi 8 ltac:(lia)) as Hb.
  destruct (Z.testbit x (bi mod 8)) eqn:E; cbn [negb].
  - apply Z.eqb_neq. intros H. apply (f_equal (fun y => Z.testbit y (bi mod 8))) in H.
    rewrite Z.land_spec, E, Z.pow2_bits_true, Z.bits_0 in H by lia. done.
  - apply Z.eqb_eq. apply Z.bits_inj'. intros n Hn. rewrite Z.land_spec, Z.bits_0, Z.pow2_bits_eqb by lia.
    destruct (Z.eqb_spec (bi mod 8) n) as [<-|]; [by rewrite E|by rewrite andb_false_r].
Qed.

(** Bit [bi] of a bitmap block. *)
Definition bit_in (d : bytes) (bi : Z) : bool := Z.testbit (byte_at d (bi / 8)) (bi mod 8).

Lemma byte_set d i v k : 0 <= i < len d -> 0 <= k ->
  byte_at (set_byte d i v) k = if k =? i then v else byte_at d k.
Proof.
  unfold byte_at, set_byte, len. intros Hi Hk. rewrite !nth_lookup.
  destruct (Z.eqb_spec k i) as [->|]; [by rewrite list_lookup_insert_eq by lia|].
  by rewrite list_lookup_insert_ne by lia.
Qed.

Lemma bit_in_set d bi k : len d = BSIZE -> 0 <= bi < BPB -> 0 <= k ->
  bit_in (set_byte d (bi / 8) (Z.lor (byte_at d (bi / 8)) (bit_mask bi))) k = (k =? bi) || bit_in d k.
Proof.
  intros Hd Hb Hk. unfold bit_in. pose proof (Z.mod_pos_bound bi 8 ltac:(lia)). pose proof (Z.mod_pos_bound k 8 ltac:(lia)).
  unfold BPB, BSIZE in *. rewrite byte_set; [|rewrite Hd; mlia|apply Z.div_pos; lia].
  destruct (Z.eqb_spec (k / 8) (bi / 8)) as [E|E].
  - rewrite Z.lor_spec, <- E. unfold bit_mask. rewrite Z.shiftl_1_l, Z.pow2_bits_eqb by lia.
    rewrite orb_comm. f_equal. destruct (Z.eqb_spec (bi mod 8) (k mod 8)), (Z.eqb_spec k bi); try done; mlia.
  - destruct (Z.eqb_spec k bi); [congruence|done].
Qed.

Lemma bit_in_clear d bi k : len d = BSIZE -> 0 <= bi < BPB -> 0 <= k ->
  bit_in (set_byte d (bi / 8) (Z.ldiff (byte_at d (bi / 8)) (bit_mask bi))) k = negb (k =? bi) && bit_in d k.
Proof.
  intros Hd Hb Hk. unfold bit_in. pose proof (Z.mod_pos_bound bi 8 ltac:(lia)). pose proof (Z.mod_pos_bound k 8 ltac:(lia)).
  unfold BPB, BSIZE in *. rewrite byte_set; [|rewrite Hd; mlia|apply Z.div_pos; lia].
  destruct (Z.eqb_spec (k / 8) (bi / 8)) as [E|E].
  - rewrite Z.ldiff_spec, <- E. unfold bit_mask. rewrite Z.shiftl_1_l, Z.pow2_bits_eqb by lia.
    rewrite andb_comm. f_equal. f_equal. destruct (Z.eqb_spec (bi mod 8) (k mod 8)), (Z.eqb_spec k bi); try done; mlia.
  - destruct (Z.eqb_spec k bi); [congruence|done].
Qed.

Lemma find_clear_spec d n bi : 0 <= bi ->
  match find_clear d n bi with
  | Some k => bi <= k < bi + Z.of_nat n /\ bit_in d k = false /\ forall i, bi <= i < k -> bit_in d i = true
  | None => forall i, bi <= i < bi + Z.of_nat n -> bit_in d i = true
  end.
Proof.
  revert bi; induction n as [|n IH]; intros bi Hb; cbn [find_clear]; [lia|].
  rewrite land_mask. fold (bit_in d bi). destruct (bit_in d bi) eqn:E; cbn [negb].
  - specialize (IH (bi + 1) ltac:(lia)). destruct (find_clear d n (bi + 1)) as [k|].
    + destruct IH as (? & ? & H). split; [lia|]. split; [done|]. intros i Hi.
      destruct (decide (i = bi)) as [->|]; [done|apply H; lia].
    + intros i Hi. destruct (decide (i = bi)) as [->|]; [done|apply IH; lia].
  - split; [lia|]. split; [done|]. lia.
Qed.

Section Bitmap.
Context (sb : superblock).

(** The first data block: what lies below (boot block, superblock, log, inodes
    and bitmap) is marked in use by mkfs. *)
Definition datastart : Z := sb_bmapstart sb + sb_size sb / BPB + 1.

(** The layout of the disk that the code relies on. *)
Record sb_ok : Prop := {
  sbo_size : 0 < sb_size sb < 2147483648;
  sbo_bmap : 0 < sb_bmapstart sb;
  sbo_data : datastart <= sb_size sb
}.
Context (SB : sb_ok).

(** Is block [b] marked in use? *)
Definition bit (D : gmap Z bytes) (b : Z) : bool :=
  match D !! BBLOCK sb b with Some d => bit_in d (b mod BPB) | None => false end.

Lemma bmap_range b : 0 <= b < sb_size sb -> 0 < BBLOCK sb b < datastart.
Proof.
  intros Hb. pose proof (sbo_bmap SB). unfold BBLOCK, datastart.
  assert (0 <= b / BPB) by (apply Z.div_pos; [lia|by vm_compute]).
  assert (b / BPB <= sb_size sb / BPB) by (apply Z.div_le_mono; [by vm_compute|lia]). lia.
Qed.
Lemma bmap_size b : 0 <= b < sb_size sb -> 0 <= BBLOCK sb b < sb_size sb.
Proof. intros Hb. pose proof (bmap_range b Hb). pose proof (sbo_data SB). lia. Qed.

(** Every block of the device is there, and what is no data is marked in use. *)
Record blocks_ok (D : gmap Z bytes) : Prop := {
  bk_len b : 0 <= b < sb_size sb -> exists d, D !! b = Some d /\ len d = BSIZE;
  bk_meta c : 0 <= c < datastart -> bit D c = true
}.

Lemma bit_block b k : 0 <= b -> b mod BPB = 0 -> 0 <= k < BPB -> BBLOCK sb (b + k) = BBLOCK sb b /\ (b + k) mod BPB = k.
Proof. unfold BBLOCK, BPB, BSIZE. intros. split; mlia. Qed.

Definition zeroes : bytes := replicate (Z.to_nat BSIZE) 0.
Lemma zeroes_len : len zeroes = BSIZE.
Proof. reflexivity. Qed.

(** The effect of taking a block. *)
Record taken (b : Z) (s s' : fs) : Prop := {
  tk_range : 0 <= b < sb_size sb;
  tk_clear : bit (dsk s) b = false;
  tk_bit c : 0 <= c < sb_size sb -> bit (dsk s') c = (c =? b) || bit (dsk s) c;
  tk_zero : dsk s' !! b = Some zeroes;
  tk_map : exists d, dsk s' !! BBLOCK sb b = Some d /\ len d = BSIZE;
  tk_other c : c <> b -> c <> BBLOCK sb b -> dsk s' !! c = dsk s !! c;
  tk_log : logged s' = logged s ++ [BBLOCK sb b; b]
}.

(** Bits after an update of one bitmap block. *)
Lemma bit_update D b d d' c : 0 <= b -> 0 <= c -> D !! BBLOCK sb b = Some d ->
  bit (<[BBLOCK sb b := d']> D) c =
    if BBLOCK sb c =? BBLOCK sb b then bit_in d' (c mod BPB) else bit D c.
Proof.
  intros Hb Hc Hd. unfold bit. destruct (Z.eqb_spec (BBLOCK sb c) (BBLOCK sb b)) as [->|].
  - by rewrite lookup_insert_eq.
  - by rewrite lookup_insert_ne.
Qed.

Lemma same_bit b c : 0 <= b -> 0 <= c -> BBLOCK sb c = BBLOCK sb b -> (c mod BPB =? b mod BPB) = (c =? b).
Proof.
  unfold BBLOCK, BPB, BSIZE. intros. destruct (Z.eqb_spec (c mod (512 * 8)) (b mod (512 * 8))), (Z.eqb_spec c b); try done; mlia.
Qed.

Lemma mark_bit D b d c : len d = BSIZE -> 0 <= b -> 0 <= c -> D !! BBLOCK sb b = Some d ->
  let bi := b mod BPB in
  bit (<[BBLOCK sb b := set_byte d (bi / 8) (Z.lor (byte_at d (bi / 8)) (bit_mask bi))]> D) c
    = (c =? b) || bit D c.
Proof.
  intros Hl Hb Hc Hd bi. rewrite (bit_update D b d) by done.
  assert (Hbi : 0 <= bi < BPB) by (apply Z.mod_pos_bound; by vm_compute).
  assert (Hci : 0 <= c mod BPB < BPB) by (apply Z.mod_pos_bound; by vm_compute).
  destruct (Z.eqb_spec (BBLOCK sb c) (BBLOCK sb b)) as [E|E].
  - rewrite bit_in_set by (done || lia). unfold bi. rewrite same_bit by done. f_equal.
    unfold bit. by rewrite E, Hd.
  - destruct (Z.eqb_spec c b); [congruence|done].
Qed.

Lemma clear_bit D b d c : len d = BSIZE -> 0 <= b -> 0 <= c -> D !! BBLOCK sb b = Some d ->
  let bi := b mod BPB in
  bit (<[BBLOCK sb b := set_byte d (bi / 8) (Z.ldiff (byte_at d (bi / 8)) (bit_mask bi))]> D) c
    = negb (c =? b) && bit D c.
Proof.
  intros Hl Hb Hc Hd bi. rewrite (bit_update D b d) by done.
  assert (Hbi : 0 <= bi < BPB) by (apply Z.mod_pos_bound; by vm_compute).
  assert (Hci : 0 <= c mod BPB < BPB) by (apply Z.mod_pos_bound; by vm_compute).
  destruct (Z.eqb_spec (BBLOCK sb c) (BBLOCK sb b)) as [E|E].
  - rewrite bit_in_clear by (done || lia). unfold bi. rewrite same_bit by done. f_equal.
    unfold bit. by rewrite E, Hd.
  - destruct (Z.eqb_spec c b); [congruence|done].
Qed.

Lemma set_byte_len d i v : len (set_byte d i v) = len d.
Proof. unfold len, set_byte. by rewrite length_insert. Qed.

(** One round that finds a clear bit. *)
Lemma balloc_take s d b bi : blocks_ok (dsk s) -> 0 <= b -> b mod BPB = 0 -> 0 <= bi < BPB -> b + bi < sb_size sb ->
  dsk s !! BBLOCK sb b = Some d -> bit_in d bi = false ->
  exists s', (log_write (BBLOCK sb b) (set_byte d (bi / 8) (Z.lor (byte_at d (bi / 8)) (bit_mask bi))) >>>
     bzero (b + bi) >>> pret (b + bi)) s = Some (b + bi, s') /\ taken (b + bi) s s'.
Proof.
  intros Hk Hb Hm Hbi Hr Hd Hf. destruct (bit_block b bi Hb Hm Hbi) as [E1 E2].
  assert (Hl : len d = BSIZE).
  { destruct (bk_len _ Hk (BBLOCK sb b)) as (d0 & Hd0 & ?); [apply bmap_size; lia|congruence]. }
  assert (Hclr : bit (dsk s) (b + bi) = false) by (unfold bit; by rewrite E1, E2, Hd).
  assert (Hne : b + bi <> BBLOCK sb b).
  { intros E. rewrite (bk_meta _ Hk) in Hclr; [done|]. rewrite E. pose proof (bmap_range b). lia. }
  set (d' := set_byte _ _ _). rewrite log_bind. destruct (bk_len _ Hk (b + bi)) as (d1 & Hd1 & _); [lia|].
  unfold pbind at 1, bzero. rewrite (bread_bind _ d1) by (cbn; by rewrite lookup_insert_ne by congruence).
  unfold log_write, pret. cbn [dsk logged]. clear d1 Hd1. eexists. split; [done|]. split; cbn [dsk logged]; try done.
  - lia.
  - intros c Hc. unfold bit. rewrite lookup_insert_ne.
    2: { intros E. rewrite (bk_meta _ Hk) in Hclr; [done|]. pose proof (bmap_range c Hc). lia. }
    assert (Hd1 : dsk s !! BBLOCK sb (b + bi) = Some d) by (by rewrite E1).
    pose proof (mark_bit (dsk s) (b + bi) d c Hl ltac:(lia) ltac:(lia) Hd1) as Hmb.
    cbv zeta in Hmb. rewrite E1, E2 in Hmb. exact Hmb.
  - apply lookup_insert_eq.
  - rewrite E1, lookup_insert_ne, lookup_insert_eq by congruence. exists d'. split; [done|]. by unfold d'; rewrite set_byte_len.
  - intros c Hc1 Hc2. rewrite E1 in Hc2. by rewrite !lookup_insert_ne by congruence.
  - rewrite <- app_assoc. by rewrite E1.
Qed.

Lemma balloc_loop_spec n s b : blocks_ok (dsk s) -> 0 <= b -> b mod BPB = 0 -> sb_size sb - b <= Z.of_nat n * BPB ->
  (forall c, 0 <= c < Z.min b (sb_size sb) -> bit (dsk s) c = true) ->
  (exists c s', balloc_loop sb n b s = Some (c, s') /\ taken c s s') \/
  (balloc_loop sb n b s = None /\ forall c, 0 <= c < sb_size sb -> bit (dsk s) c = true).
Proof.
  revert b; induction n as [|n IH]; intros b Hk Hb Hm Hn Hlow; cbn [balloc_loop].
  { right. split; [done|]. intros c Hc. apply Hlow. lia. }
  destruct (Z.ltb_spec b (sb_size sb)) as [Hlt|Hge].
  2: { right. split; [done|]. intros c Hc. apply Hlow. lia. }
  destruct (bk_len _ Hk (BBLOCK sb b)) as (d & Hd & Hl); [apply bmap_size; lia|].
  rewrite (bread_bind _ d) by done.
  set (w := Z.min BPB (sb_size sb - b)).
  assert (Hw : 0 < w <= BPB) by (unfold w, BPB, BSIZE; lia).
  pose proof (find_clear_spec d (Z.to_nat w) 0 ltac:(lia)) as Hfc. rewrite Z2Nat.id in Hfc by lia.
  destruct (find_clear d (Z.to_nat w) 0) as [bi|].
  - destruct Hfc as (Hbi & Hf & _). left.
    destruct (balloc_take s d b bi Hk Hb Hm) as (s' & E & Ht); [lia|lia|done|done|]. eauto.
  - apply IH; [done|unfold BPB, BSIZE; lia|unfold BPB, BSIZE in *; mlia|lia|].
    intros c Hc. destruct (decide (c < b)) as [|Hcb]; [apply Hlow; lia|].
    destruct (bit_block b (c - b) Hb Hm) as [E1 E2]; [unfold w in *; lia|].
    replace (b + (c - b)) with c in * by lia. unfold bit. rewrite E1, E2, Hd. apply Hfc. unfold w. lia.
Qed.

(** [balloc] takes the block and zeroes it, or panics because there is none. *)
Lemma balloc_spec s : blocks_ok (dsk s) ->
  (exists b s', balloc sb s = Some (b, s') /\ taken b s s') \/
  (balloc sb s = None /\ forall c, 0 <= c < sb_size sb -> bit (dsk s) c = true).
Proof.
  intros Hk. apply balloc_loop_spec; [done|lia|done| |lia].
  pose proof (sbo_size SB). unfold BPB, BSIZE. rewrite Z2Nat.id by (apply Z.add_nonneg_nonneg; [apply Z.div_pos; lia|lia]). mlia.
Qed.

Lemma taken_ok b s s' : blocks_ok (dsk s) -> taken b s s' -> blocks_ok (dsk s').
Proof.
  intros Hk Ht. split.
  - intros c Hc. destruct (decide (c = b)) as [->|Hne]; [exists zeroes; split; [apply Ht|done]|].
    destruct (decide (c = BBLOCK sb b)) as [->|Hne2]; [apply Ht|].
    rewrite (tk_other _ _ _ Ht) by done. by apply (bk_len _ Hk).
  - intros c Hc. pose proof (sbo_data SB). rewrite (tk_bit _ _ _ Ht), (bk_meta _ Hk) by lia. apply orb_true_r.
Qed.

(** The effect of releasing a block. *)
Record released (b : Z) (s s' : fs) : Prop := {
  rl_bit c : 0 <= c < sb_size sb -> bit (dsk s') c = negb (c =? b) && bit (dsk s) c;
  rl_map : exists d, dsk s' !! BBLOCK sb b = Some d /\ len d = BSIZE;
  rl_other c : c <> BBLOCK sb b -> dsk s' !! c = dsk s !! c;
  rl_log : logged s' = logged s ++ [BBLOCK sb b]
}.

(** [bfree] releases a block in use, and panics on a free one. *)
Lemma bfree_spec s b : blocks_ok (dsk s) -> 0 <= b < sb_size sb ->
  (bit (dsk s) b = true -> exists s', bfree sb b s = Some (tt, s') /\ released b s s') /\
  (bit (dsk s) b = false -> bfree sb b s = None).
Proof.
  intros Hk Hb. destruct (bk_len _ Hk (BBLOCK sb b)) as (d & Hd & Hl); [by apply bmap_size|].
  unfold bfree, pbind, fs_bread_checked. rewrite Hd. cbv zeta. rewrite land_mask.
  assert (Hbit : bit (dsk s) b = bit_in d (b mod BPB)) by (unfold bit; by rewrite Hd).
  change (Z.testbit (byte_at d (b mod BPB / 8)) ((b mod BPB) mod 8)) with (bit_in d (b mod BPB)). rewrite <- Hbit.
  split; intros ->; cbn [negb]; [|done]. unfold log_write. eexists. split; [done|]. split; cbn [dsk logged].
  - intros c Hc. by apply clear_bit; [|lia|lia|].
  - rewrite lookup_insert_eq. eexists. split; [done|]. by rewrite set_byte_len.
  - intros c Hc. by rewrite lookup_insert_ne.
  - done.
Qed.

Lemma released_ok b s s' : blocks_ok (dsk s) -> released b s s' -> datastart <= b -> blocks_ok (dsk s').
Proof.
  intros Hk Hr Hn. split.
  - intros c Hc. destruct (decide (c = BBLOCK sb b)) as [->|Hne]; [apply Hr|].
    rewrite (rl_other _ _ _ Hr) by done. by apply (bk_len _ Hk).
  - intros c Hc. pose proof (sbo_data SB). rewrite (rl_bit _ _ _ Hr), (bk_meta _ Hk) by lia.
    destruct (Z.eqb_spec c b); [lia|done].
Qed.
End Bitmap.
