(* ===== verification/FsFile.v ===== *)
(** * Files: the inode content layer of [src/kernel/fs/fs.c]

    [bmap], [itrunc], [readi], [writei] and the disk image of an inode.  An
    in-memory inode is a value: each function that changes it returns the new
    one.  Blocks come from [FsBlock].

    What the code outside this file does is a parameter: the handlers of the
    device switch and of procfs; [store] and [fetch] move bytes to and from the caller's buffer ([memmove]
    for kernel buffers, [copyout] and [copyin], which can fault, for user
    buffers). *)

From S2P Require Import Prelude NetBytes FsBlock.

Definition NDIRECT : Z := 9.
Definition NINDIRECT : Z := BSIZE / 4.
Definition NDINDIRECT : Z := NINDIRECT * NINDIRECT.
Definition NADDRS : Z := NDIRECT + 2.
Definition INDIRECT_INDEX : Z := NDIRECT.
Definition DINDIRECT_INDEX : Z := NDIRECT + 1.
Definition MAXFILE : Z := NDIRECT + NINDIRECT + NDINDIRECT.

Definition T_DIR : Z := 1.
Definition T_FILE : Z := 2.
Definition T_DEV : Z := 3.
Definition PROCFSDEV : Z := 31.
Definition M_IFMT : Z := 61440.
Definition M_IFCHR : Z := 8192.

Definition DINODE_SIZE : Z := 64.
Definition IPB : Z := BSIZE / DINODE_SIZE.

Record inode := mkIn {
  i_dev : Z;
  i_inum : Z;
  i_type : Z;
  i_major : Z;
  i_minor : Z;
  i_nlink : Z;
  i_uid : Z;
  i_gid : Z;
  i_mode : Z;
  i_size : Z;
  i_addrs : list Z
}.

Definition set_addrs (l : list Z) (ip : inode) : inode :=
  mkIn (i_dev ip) (i_inum ip) (i_type ip) (i_major ip) (i_minor ip) (i_nlink ip)
       (i_uid ip) (i_gid ip) (i_mode ip) (i_size ip) l.
Definition set_isize (n : Z) (ip : inode) : inode :=
  mkIn (i_dev ip) (i_inum ip) (i_type ip) (i_major ip) (i_minor ip) (i_nlink ip)
       (i_uid ip) (i_gid ip) (i_mode ip) n (i_addrs ip).
Definition set_type (t : Z) (ip : inode) : inode :=
  mkIn (i_dev ip) (i_inum ip) t (i_major ip) (i_minor ip) (i_nlink ip)
       (i_uid ip) (i_gid ip) (i_mode ip) (i_size ip) (i_addrs ip).

Definition set_mode (m : Z) (ip : inode) : inode :=
  mkIn (i_dev ip) (i_inum ip) (i_type ip) (i_major ip) (i_minor ip) (i_nlink ip)
       (i_uid ip) (i_gid ip) m (i_size ip) (i_addrs ip).

Definition addr (ip : inode) (i : Z) : Z := nth (Z.to_nat i) (i_addrs ip) 0.
Definition set_addr (i v : Z) (ip : inode) : inode := set_addrs (<[Z.to_nat i := v]> (i_addrs ip)) ip.

(** [short]: 16 bits, signed. *)
Definition s16 (x : Z) : Z := (x + 32768) mod 65536 - 32768.

Section Files.
Context (sb : superblock).

(** ** The inode on disk *)

Definition IBLOCK (i : Z) : Z := i / IPB + sb_inodestart sb.

Definition enc_shorts (ip : inode) : bytes :=
  le16 (i_type ip) ++ le16 (i_major ip) ++ le16 (i_minor ip) ++ le16 (i_nlink ip) ++
  le16 (i_uid ip) ++ le16 (i_gid ip) ++ le16 (i_mode ip).
Definition enc_rest (ip : inode) : bytes := le32 (i_size ip) ++ concat (le32 <$> i_addrs ip).

(** The fields of the [inum]-th inode are stored over the old ones; the two
    bytes of padding after the shorts keep their value. *)
Definition put_dinode (d : bytes) (ip : inode) : bytes :=
  let off := DINODE_SIZE * (i_inum ip mod IPB) in
  put (put d off (enc_shorts ip)) (off + 16) (enc_rest ip).

Definition iupdate (ip : inode) : PM fs unit :=
  let! d := fs_bread_checked (IBLOCK (i_inum ip)) in
  log_write (IBLOCK (i_inum ip)) (put_dinode d ip).

Definition short_at (d : bytes) (off : Z) : Z := s16 (rd16 (sub_bytes d off 2)).
Definition uint_at (d : bytes) (off : Z) : Z := rd32 (sub_bytes d off 4).

Definition get_dinode (d : bytes) (dev inum : Z) : inode :=
  let off := DINODE_SIZE * (inum mod IPB) in
  mkIn dev inum (short_at d off) (short_at d (off + 2)) (short_at d (off + 4)) (short_at d (off + 6))
       (short_at d (off + 8)) (short_at d (off + 10)) (short_at d (off + 12)) (uint_at d (off + 16))
       ((fun i => uint_at d (off + 20 + 4 * Z.of_nat i)) <$> seq 0 (Z.to_nat NADDRS)).

(** A device without a file type in its mode is a character device. *)
Definition no_fmt (ip : inode) : bool := (i_type ip =? T_DEV) && (Z.land (i_mode ip) M_IFMT =? 0).
Definition fix_mode (ip : inode) : inode :=
  if no_fmt ip then set_mode (Z.lor (Z.land (i_mode ip) 4095) M_IFCHR) ip else ip.

(** The reading part of [ilock]. *)
Definition iload (dev inum : Z) : PM fs inode :=
  let! d := fs_bread_checked (IBLOCK inum) in
  let ip := fix_mode (get_dinode d dev inum) in
  if i_type ip =? 0 then ppanic else pret ip.

(** ** Block addresses *)

(** [if((addr = ip->addrs[i]) == 0) ip->addrs[i] = addr = balloc(ip->dev)] *)
Definition addr_alloc (ip : inode) (i : Z) : PM fs (Z * inode) :=
  if addr ip i =? 0 then let! b := balloc sb in pret (b, set_addr i b ip) else pret (addr ip i, ip).

(** The same for word [j] of the index block [blk], which is then logged.  The
    buffer of [blk] is held over [balloc]. *)
Definition word_alloc (blk j : Z) : PM fs Z :=
  let! d := fs_bread_checked blk in
  if word_at d j =? 0 then
    let! b := balloc sb in
    let! d := fs_bread_checked blk in
    log_write blk (set_word d j b) >>> pret b
  else pret (word_at d j).

Definition bmap (ip : inode) (bn : Z) : PM fs (Z * inode) :=
  if bn <? NDIRECT then addr_alloc ip bn
  else
    let bn := bn - NDIRECT in
    if bn <? NINDIRECT then
      let! (a, ip) := addr_alloc ip INDIRECT_INDEX in
      let! b := word_alloc a bn in
      pret (b, ip)
    else
      let bn := bn - NINDIRECT in
      if bn <? NDINDIRECT then
        let! (a, ip) := addr_alloc ip DINDIRECT_INDEX in
        let! o := word_alloc a (bn / NINDIRECT) in
        let! b := word_alloc o (bn mod NINDIRECT) in
        pret (b, ip)
      else ppanic.

(** ** Truncation *)

Fixpoint free_direct (n : nat) (i : Z) (ip : inode) : PM fs inode :=
  match n with
  | O => pret ip
  | S n =>
      if negb (addr ip i =? 0) then bfree sb (addr ip i) >>> free_direct n (i + 1) (set_addr i 0 ip)
      else free_direct n (i + 1) ip
  end.

(** [if(a[j]) bfree(a[j])] for [n] words of the index block [blk], whose buffer
    is held. *)
Fixpoint free_words (n : nat) (j blk : Z) : PM fs unit :=
  match n with
  | O => pret tt
  | S n =>
      let! d := fs_bread_checked blk in
      (if negb (word_at d j =? 0) then bfree sb (word_at d j) else pret tt) >>>
      free_words n (j + 1) blk
  end.

Fixpoint free_inner (n : nat) (i blk : Z) : PM fs unit :=
  match n with
  | O => pret tt
  | S n =>
      let! d := fs_bread_checked blk in
      (if word_at d i =? 0 then pret tt
       else free_words (Z.to_nat NINDIRECT) 0 (word_at d i) >>>
            let! d := fs_bread_checked blk in bfree sb (word_at d i)) >>>
      free_inner n (i + 1) blk
  end.

Definition itrunc (ip : inode) : PM fs inode :=
  let! ip := free_direct (Z.to_nat NDIRECT) 0 ip in
  let! ip :=
    if negb (addr ip INDIRECT_INDEX =? 0) then
      free_words (Z.to_nat NINDIRECT) 0 (addr ip INDIRECT_INDEX) >>>
      bfree sb (addr ip INDIRECT_INDEX) >>>
      pret (set_addr INDIRECT_INDEX 0 ip)
    else pret ip in
  let! ip :=
    if negb (addr ip DINDIRECT_INDEX =? 0) then
      free_inner (Z.to_nat NINDIRECT) 0 (addr ip DINDIRECT_INDEX) >>>
      bfree sb (addr ip DINDIRECT_INDEX) >>>
      pret (set_addr DINDIRECT_INDEX 0 ip)
    else pret ip in
  let ip := set_isize 0 ip in
  iupdate ip >>> pret ip.

(** ** Reading and writing *)

(** The device switch: the handlers of a major number, if any.  A handler is
    called with the number of calls made before it in the same system call (its
    answer may depend on the past), the offset and the number of bytes; it
    answers its result and, for a read, the bytes it stored. *)
Context (devsw_read : Z -> option (nat -> Z -> Z -> Z * bytes))
        (devsw_write : Z -> option (nat -> Z -> bytes -> Z))
        (procfs_readi : inode -> Z -> Z -> Z * bytes).

(** [kern]: the caller's buffer is in kernel memory; [pgdir], [kbuf]: there is a
    page directory, and a page for the bounce buffer. *)
Context (kern pgdir kbuf : bool).

Definition NDEV : Z := 64.

Definition handler {H} (devsw : Z -> option H) (major : Z) : option H :=
  if (major <? 0) || (major >=? NDEV) then None else devsw major.

(** [want]: what is left as an [int], at most a page. *)
Definition dev_want (n tot : Z) : Z := if s32 (n - tot) >? PGSIZE then PGSIZE else s32 (n - tot).

Definition dev_result (tot r : Z) : Z := if tot >? 0 then s32 tot else r.

(** Each round moves at least one byte, so [n + 1] rounds are enough. *)
Fixpoint dev_read_loop (fuel k : nat) (rd : nat -> Z -> Z -> Z * bytes) (store : Z -> bytes -> bool)
    (off n tot r : Z) (got : bytes) : option (Z * bytes) :=
  match fuel with
  | O => None
  | S fuel =>
      if tot <? n then
        let want := dev_want n tot in
        let '(r, bs) := rd k (off + tot) want in
        if r <=? 0 then Some (dev_result tot r, got)
        else if store tot bs then
          let tot := u32 (tot + r) in
          if r <? want then Some (dev_result tot r, got ++ bs)
          else dev_read_loop fuel (S k) rd store off n tot r (got ++ bs)
        else Some (dev_result tot (-1), got)
      else Some (dev_result tot r, got)
  end.

Definition dev_readi (ip : inode) (store : Z -> bytes -> bool) (off n : Z) : option (Z * bytes) :=
  match handler devsw_read (i_major ip) with
  | None => Some (-1, [])
  | Some rd =>
      if kern then Some (rd O off (s32 n))
      else if negb pgdir then Some (-1, [])
      else if n =? 0 then Some (0, [])
      else if negb kbuf then Some (-1, [])
      else dev_read_loop (S (Z.to_nat n)) O rd store off n 0 0 []
  end.

(** [fetch tot m]: the bytes [src + tot .. src + tot + m) that could be copied,
    and whether that is all of them. *)
Fixpoint dev_write_loop (fuel k : nat) (wr : nat -> Z -> bytes -> Z) (fetch : Z -> Z -> bytes * bool)
    (off n tot r : Z) : option Z :=
  match fuel with
  | O => None
  | S fuel =>
      if tot <? n then
        let want := dev_want n tot in
        let '(bs, ok) := fetch tot want in
        if negb ok then Some (dev_result tot (-1))
        else
          let r := wr k (off + tot) bs in
          if r <=? 0 then Some (dev_result tot r)
          else
            let tot := u32 (tot + r) in
            if r <? want then Some (dev_result tot r)
            else dev_write_loop fuel (S k) wr fetch off n tot r
      else Some (dev_result tot r)
  end.

Definition dev_writei (ip : inode) (fetch : Z -> Z -> bytes * bool) (off n : Z) : option Z :=
  match handler devsw_write (i_major ip) with
  | None => Some (-1)
  | Some wr =>
      if kern then Some (wr O off (fst (fetch 0 n)))
      else if negb pgdir then Some (-1)
      else if n =? 0 then Some 0
      else if negb kbuf then Some (-1)
      else dev_write_loop (S (Z.to_nat n)) O wr fetch off n 0 0
  end.

(** [off + n] in 64 bits. *)
Definition u64 (x : Z) : Z := x mod 18446744073709551616.

(** [store tot bs]: the bytes go to [dst + tot]; false when that faults.  Each
    round moves at least one byte, so [n + 1] rounds are enough. *)
Fixpoint readi_loop (fuel : nat) (store : Z -> bytes -> bool) (n tot off : Z) (got : bytes) (ip : inode)
    : PM fs (Z * bytes * inode) :=
  match fuel with
  | O => ppanic
  | S fuel =>
      if tot <? n then
        let! (b, ip) := bmap ip (u32 (off / BSIZE)) in
        let! d := fs_bread_checked b in
        let m := Z.min (n - tot) (BSIZE - off mod BSIZE) in
        let bs := sub_bytes d (off mod BSIZE) m in
        if store tot bs then readi_loop fuel store n (tot + m) (off + m) (got ++ bs) ip
        else pret (-1, got, ip)
      else pret (s32 n, got, ip)
  end.

(** The result, the bytes delivered and the inode. *)
Definition readi (ip : inode) (store : Z -> bytes -> bool) (off n : Z) : PM fs (Z * bytes * inode) :=
  if i_dev ip =? PROCFSDEV then let '(r, got) := procfs_readi ip off n in pret (r, got, ip)
  else if i_type ip =? T_DEV then
    match dev_readi ip store off n with Some (r, got) => pret (r, got, ip) | None => ppanic end
  else if (off >? i_size ip) || (u64 (off + n) <? off) then pret (-1, [], ip)
  else
    let n := if u64 (off + n) >? i_size ip then u32 (i_size ip - off) else n in
    readi_loop (S (Z.to_nat n)) store n 0 off [] ip.

(** The bytes copied before a fault stay in the buffer of the block, which is not
    logged.  The offset reached is returned with the inode. *)
Fixpoint writei_loop (fuel : nat) (fetch : Z -> Z -> bytes * bool) (n tot off : Z) (ip : inode)
    : PM fs (bool * Z * inode) :=
  match fuel with
  | O => ppanic
  | S fuel =>
      if tot <? n then
        let! (b, ip) := bmap ip (u32 (off / BSIZE)) in
        let! d := fs_bread_checked b in
        let m := Z.min (n - tot) (BSIZE - off mod BSIZE) in
        let '(bs, ok) := fetch tot m in
        if negb ok then set_buffer b (put d (off mod BSIZE) bs) >>> pret (false, off, ip)
        else
          log_write b (put d (off mod BSIZE) bs) >>>
          writei_loop fuel fetch n (tot + m) (off + m) ip
      else pret (true, off, ip)
  end.

Definition writei (ip : inode) (fetch : Z -> Z -> bytes * bool) (off n : Z) : PM fs (Z * inode) :=
  if i_dev ip =? PROCFSDEV then pret (-1, ip)
  else if i_type ip =? T_DEV then match dev_writei ip fetch off n with Some r => pret (r, ip) | None => ppanic end
  else if (off >? i_size ip) || (u64 (off + n) <? off) then pret (-1, ip)
  else if u64 (off + n) >? MAXFILE * BSIZE then pret (-1, ip)
  else
    let! (ok, off, ip) := writei_loop (S (Z.to_nat n)) fetch n 0 off ip in
    if negb ok then pret (-1, ip)
    else if (n >? 0) && (off >? i_size ip) then
      let ip := set_isize off ip in iupdate ip >>> pret (s32 n, ip)
    else pret (s32 n, ip).
End Files.

(** ** The tree of blocks of a file *)

(** What a block is for: the [bn]-th block of data, one of the two index roots,
    or an inner index block. *)
Inductive role := RData (bn : Z) | RInd | RDind | RInner (o : Z).

Definition role_ok (r : role) : Prop :=
  match r with
  | RData bn => 0 <= bn < MAXFILE
  | RInd | RDind => True
  | RInner o => 0 <= o < NINDIRECT
  end.

Definition blk (D : gmap Z bytes) (b : Z) : bytes := default zeroes (D !! b).

(** Word [j] of index block [b]; 0 when there is no such block. *)
Definition entry (D : gmap Z bytes) (b j : Z) : Z := if b =? 0 then 0 else word_at (blk D b) j.

(** The address stored for a block of the file, 0 for none. *)
Definition inner (D : gmap Z bytes) (A : list Z) (o : Z) : Z := entry D (nth 10 A 0) o.
Definition ptr (D : gmap Z bytes) (A : list Z) (r : role) : Z :=
  match r with
  | RInd => nth 9 A 0
  | RDind => nth 10 A 0
  | RInner o => inner D A o
  | RData bn =>
      if bn <? 9 then nth (Z.to_nat bn) A 0
      else if bn <? 137 then entry D (nth 9 A 0) (bn - 9)
      else entry D (inner D A ((bn - 137) / 128)) ((bn - 137) mod 128)
  end.

(** Byte [off] of the file; blocks that are not there read as zeros. *)
Definition fbyte (D : gmap Z bytes) (A : list Z) (off : Z) : Z :=
  let b := ptr D A (RData (off / BSIZE)) in
  if b =? 0 then 0 else byte_at (blk D b) (off mod BSIZE).

Definition content (D : gmap Z bytes) (ip : inode) : bytes :=
  (fun i => fbyte D (i_addrs ip) (Z.of_nat i)) <$> seq 0 (Z.to_nat (i_size ip)).

(** The owner of every block in use: a file and a role in it.  One owner per
    block, so the trees of the files are disjoint and without sharing. *)
Abbreviation owners := (gmap Z (Z * role)).

Section Tree.
Context (sb : superblock) (SB : sb_ok sb).

Record disk_ok (D : gmap Z bytes) (own : owners) : Prop := {
  dk_blocks : blocks_ok sb D;
  dk_own b o : own !! b = Some o -> datastart sb <= b < sb_size sb /\ bit sb D b = true
}.

Record file_ok (inum : Z) (A : list Z) (D : gmap Z bytes) (own : owners) : Prop := {
  fk_len : length A = 11%nat;
  fk_own r : role_ok r -> ptr D A r <> 0 -> own !! ptr D A r = Some (inum, r)
}.

(** Block [c] is in the tree of [A]. *)
Definition linked (D : gmap Z bytes) (A : list Z) (c : Z) : Prop :=
  exists r, role_ok r /\ ptr D A r = c /\ c <> 0.

(** A step that only adds blocks to file [inum]. *)
Record grown (inum : Z) (s : fs) (A : list Z) (own : owners) (s' : fs) (A' : list Z) (own' : owners) : Prop := {
  gw_disk : disk_ok (dsk s') own';
  gw_file : file_ok inum A' (dsk s') own';
  gw_own : own ⊆ own';
  gw_new c o : own' !! c = Some o -> own !! c = None -> fst o = inum;
  gw_ptr r : role_ok r -> ptr (dsk s) A r <> 0 -> ptr (dsk s') A' r = ptr (dsk s) A r;
  gw_zero bn : role_ok (RData bn) -> ptr (dsk s) A (RData bn) = 0 -> ptr (dsk s') A' (RData bn) <> 0 ->
    dsk s' !! ptr (dsk s') A' (RData bn) = Some zeroes;
  gw_data c i bn : own !! c = Some (i, RData bn) -> dsk s' !! c = dsk s !! c;
  gw_other c i r : own !! c = Some (i, r) -> i <> inum -> dsk s' !! c = dsk s !! c;
  gw_meta c : 0 <= c < datastart sb -> (forall b, 0 <= b < sb_size sb -> c <> BBLOCK sb b) -> dsk s' !! c = dsk s !! c;
  gw_bit c : 0 <= c < sb_size sb -> bit sb (dsk s') c = true ->
    bit sb (dsk s) c = true \/ linked (dsk s') A' c
}.

Lemma grown_refl inum s A own : disk_ok (dsk s) own -> file_ok inum A (dsk s) own -> grown inum s A own s A own.
Proof. intros Hd Hf. split; try done; [|by left]. intros c o H1 H2. congruence. Qed.

Lemma grown_linked inum s A own s' A' own' c : grown inum s A own s' A' own' ->
  linked (dsk s) A c -> linked (dsk s') A' c.
Proof. intros G (r & Hr & Hp & Hc). exists r. split; [done|]. split; [|done]. by rewrite (gw_ptr _ _ _ _ _ _ _ G) by congruence. Qed.

Lemma grown_trans inum s1 A1 o1 s2 A2 o2 s3 A3 o3 :
  grown inum s1 A1 o1 s2 A2 o2 -> grown inum s2 A2 o2 s3 A3 o3 -> grown inum s1 A1 o1 s3 A3 o3.
Proof.
  intros G H. assert (Hsub : forall c o, o1 !! c = Some o -> o2 !! c = Some o)
    by (intros; by eapply lookup_weaken; [|apply G]). split.
  - apply H.
  - apply H.
  - etransitivity; [apply G|apply H].
  - intros c o Hc Hn. destruct (o2 !! c) as [o'|] eqn:E.
    + assert (o = o') as -> by (pose proof (lookup_weaken _ _ _ _ E (gw_own _ _ _ _ _ _ _ H)); congruence).
      by apply (gw_new _ _ _ _ _ _ _ G c).
    + by apply (gw_new _ _ _ _ _ _ _ H c).
  - intros r Hr Hp. pose proof (gw_ptr _ _ _ _ _ _ _ G r Hr Hp) as E.
    rewrite (gw_ptr _ _ _ _ _ _ _ H r Hr); congruence.
  - intros bn Hr Hz Hp. destruct (Z.eq_dec (ptr (dsk s2) A2 (RData bn)) 0) as [E|E].
    + by apply (gw_zero _ _ _ _ _ _ _ H).
    + rewrite (gw_ptr _ _ _ _ _ _ _ H) by done.
      rewrite (gw_data _ _ _ _ _ _ _ H _ inum bn) by (by apply (fk_own _ _ _ _ (gw_file _ _ _ _ _ _ _ G))).
      by apply (gw_zero _ _ _ _ _ _ _ G).
  - intros c i bn Hc. rewrite (gw_data _ _ _ _ _ _ _ H c i bn) by auto. by apply (gw_data _ _ _ _ _ _ _ G c i bn).
  - intros c i r Hc Hi. rewrite (gw_other _ _ _ _ _ _ _ H c i r) by auto. by apply (gw_other _ _ _ _ _ _ _ G c i r).
  - intros c Hc Hn. rewrite (gw_meta _ _ _ _ _ _ _ H c) by done. by apply (gw_meta _ _ _ _ _ _ _ G).
  - intros c Hc Hb. destruct (gw_bit _ _ _ _ _ _ _ H c Hc Hb) as [Hb2|]; [|by right].
    destruct (gw_bit _ _ _ _ _ _ _ G c Hc Hb2) as [|Hl]; [by left|]. right. by eapply grown_linked.
Qed.

(** *** Pointers *)

(** Where the pointer to a block is stored: in the inode, or in a word of an
    index block. *)
Definition parent (r : role) : option (role * Z) :=
  match r with
  | RInd | RDind => None
  | RInner o => Some (RDind, o)
  | RData bn => if bn <? 9 then None else if bn <? 137 then Some (RInd, bn - 9)
                else Some (RInner ((bn - 137) / 128), (bn - 137) mod 128)
  end.
Definition root (r : role) : nat :=
  match r with RInd => 9 | RDind => 10 | RData bn => Z.to_nat bn | RInner _ => 0 end.
Definition height (r : role) : nat :=
  match r with
  | RInd | RDind => 0
  | RInner _ => 1
  | RData bn => if bn <? 9 then 0 else if bn <? 137 then 1 else 2
  end.

Lemma MAXFILE_value : MAXFILE = 16521. Proof. reflexivity. Qed.
Lemma NINDIRECT_value : NINDIRECT = 128. Proof. reflexivity. Qed.

Lemma ptr_parent D A r : role_ok r ->
  match parent r with
  | None => ptr D A r = nth (root r) A 0 /\ (root r < 11)%nat
  | Some (p, j) => ptr D A r = entry D (ptr D A p) j /\ role_ok p /\ 0 <= j < 128 /\ (height p < height r)%nat
  end.
Proof.
  destruct r as [bn| | |o]; cbn [parent role_ok]; rewrite ?MAXFILE_value, ?NINDIRECT_value; intros Hr; cbn.
  - destruct (Z.ltb_spec bn 9); [split; [done|lia]|]. destruct (Z.ltb_spec bn 137).
    + split; [done|]. split; [done|]. split; [lia|cbn; lia].
    + split; [done|]. cbn [role_ok height]. rewrite NINDIRECT_value. split; [mlia|]. split; [mlia|lia].
  - split; [done|lia].
  - split; [done|lia].
  - split; [done|]. split; [done|]. split; [lia|cbn; lia].
Qed.

Lemma parent_inj r r' p j : role_ok r -> role_ok r' -> parent r = Some (p, j) -> parent r' = Some (p, j) -> r = r'.
Proof.
  destruct r as [b| | |o], r' as [b'| | |o']; cbn; intros H1 H2 E1 E2; repeat case_match; simplify_eq;
    try done; f_equal; try lia;
    rewrite ?Z.ltb_lt, ?Z.ltb_ge in *; mlia.
Qed.

Lemma root_inj r r' : role_ok r -> role_ok r' -> parent r = None -> parent r' = None -> root r = root r' -> r = r'.
Proof.
  destruct r as [b| | |o], r' as [b'| | |o']; cbn; intros H1 H2 E1 E2 E; repeat case_match; simplify_eq;
    rewrite ?Z.ltb_lt in *; try done; try (f_equal; lia); lia.
Qed.

#[global] Instance role_eq_dec : EqDecision role.
Proof. solve_decision. Defined.

(** One empty slot [r0] of the tree is filled with the new, zeroed block [b]. *)
Lemma fill_ptr D A D' A' r0 b :
  role_ok r0 -> ptr D A r0 = 0 -> b <> 0 -> blk D' b = zeroes ->
  (forall r, role_ok r -> parent r = None -> nth (root r) A' 0 = if decide (r = r0) then b else nth (root r) A 0) ->
  (forall p k, role_ok p -> ptr D A p <> 0 -> 0 <= k < 128 ->
     word_at (blk D' (ptr D A p)) k = if decide (parent r0 = Some (p, k)) then b else word_at (blk D (ptr D A p)) k) ->
  (forall p k, parent r0 = Some (p, k) -> ptr D A p <> 0) ->
  forall r, role_ok r -> ptr D' A' r = if decide (r = r0) then b else ptr D A r.
Proof.
  intros Hr0 Hz Hb Hbz HR HW Hp0 r. remember (height r) as h eqn:Eh. revert r Eh.
  induction h as [h IH] using lt_wf_ind. intros r -> Hr.
  pose proof (ptr_parent D' A' r Hr) as H'. pose proof (ptr_parent D A r Hr) as H.
  destruct (parent r) as [[p k]|] eqn:Ep.
  2: { destruct H' as [-> _], H as [-> _]. by apply HR. }
  destruct H' as (-> & Hp & Hk & Hh), H as (-> & _). rewrite (IH (height p) Hh p eq_refl Hp).
  destruct (decide (p = r0)) as [->|Hne].
  - assert (r <> r0) by (intros ->; lia). rewrite decide_False by done. rewrite Hz.
    unfold entry. rewrite (proj2 (Z.eqb_neq b 0) Hb), Hbz. apply word_zero.
  - unfold entry. destruct (Z.eqb_spec (ptr D A p) 0) as [E|E].
    + rewrite decide_False; [done|]. intros ->. by apply (Hp0 p k).
    + rewrite HW by done. destruct (decide (r = r0)) as [->|Hrr].
      * by rewrite decide_True.
      * rewrite decide_False; [done|]. intros E0. apply Hrr. by eapply parent_inj.
Qed.

(** *** Adding a block *)

Definition is_data (r : role) : bool := match r with RData _ => true | _ => false end.

(** [s'] differs from [s1] in index blocks of file [inum] only. *)
Definition index_only (inum : Z) (own : owners) (s1 s' : fs) : Prop :=
  forall c, dsk s' !! c = dsk s1 !! c \/
    (exists p d, own !! c = Some (inum, p) /\ is_data p = false /\ dsk s' !! c = Some d /\ len d = BSIZE).

Lemma index_same inum own s1 s' c : index_only inum own s1 s' ->
  (forall p, own !! c = Some (inum, p) -> is_data p = true) -> dsk s' !! c = dsk s1 !! c.
Proof. intros Hi Hn. destruct (Hi c) as [|(p & d & Ho & Hp & _)]; [done|]. rewrite Hn in Hp; done. Qed.

Lemma fresh_block D own b : disk_ok D own -> 0 <= b < sb_size sb -> bit sb D b = false ->
  own !! b = None /\ datastart sb <= b.
Proof.
  intros Hd Hb Hf. split.
  - destruct (own !! b) as [o|] eqn:E; [|done]. destruct (dk_own _ _ Hd b o E) as [_ H]. congruence.
  - destruct (Z.lt_ge_cases b (datastart sb)); [|lia].
    rewrite (bk_meta _ _ (dk_blocks _ _ Hd)) in Hf by lia. done.
Qed.

Lemma bit_same D D' : (forall c, 0 <= c < datastart sb -> D' !! c = D !! c) ->
  forall c, 0 <= c < sb_size sb -> bit sb D' c = bit sb D c.
Proof. intros H c Hc. unfold bit. rewrite H; [done|]. pose proof (bmap_range sb SB c Hc). lia. Qed.

Lemma owned_data D own b o : disk_ok D own -> own !! b = Some o -> datastart sb <= b.
Proof. intros Hd Ho. destruct (dk_own _ _ Hd b o Ho). lia. Qed.

Lemma grown_fill inum s A own s1 s' A' r0 b :
  disk_ok (dsk s) own -> file_ok inum A (dsk s) own -> taken sb b s s1 ->
  role_ok r0 -> ptr (dsk s) A r0 = 0 -> length A' = 11%nat -> index_only inum own s1 s' ->
  (forall r, role_ok r -> parent r = None -> nth (root r) A' 0 = if decide (r = r0) then b else nth (root r) A 0) ->
  (forall p k, role_ok p -> ptr (dsk s) A p <> 0 -> 0 <= k < 128 ->
     word_at (blk (dsk s') (ptr (dsk s) A p)) k =
       if decide (parent r0 = Some (p, k)) then b else word_at (blk (dsk s) (ptr (dsk s) A p)) k) ->
  (forall p k, parent r0 = Some (p, k) -> ptr (dsk s) A p <> 0) ->
  grown inum s A own s' A' (<[b := (inum, r0)]> own) /\ ptr (dsk s') A' r0 = b.
Proof.
  intros Hd Hf Ht Hr0 Hz Hl Hix HR HW Hp0.
  destruct (fresh_block _ _ b Hd (tk_range _ _ _ _ Ht) (tk_clear _ _ _ _ Ht)) as [Hnb Hds].
  pose proof (sbo_bmap _ SB) as Hbm.
  assert (Hb0 : b <> 0).
  { unfold datastart in Hds. pose proof (sbo_size _ SB). assert (0 <= sb_size sb / BPB) by (apply Z.div_pos; [lia|by vm_compute]). lia. }
  assert (Hsb : dsk s' !! b = Some zeroes).
  { rewrite (index_same inum own s1) by (done || intros p; congruence). apply Ht. }
  assert (Hlow : forall c, 0 <= c < datastart sb -> dsk s' !! c = dsk s1 !! c).
  { intros c Hc. apply (index_same inum own); [done|]. intros p Ho. pose proof (owned_data _ _ _ _ Hd Ho). lia. }
  assert (Hbits : forall c, 0 <= c < sb_size sb -> bit sb (dsk s') c = (c =? b) || bit sb (dsk s) c).
  { intros c Hc. rewrite (bit_same (dsk s1)) by done. by apply Ht. }
  assert (Hold : forall c o, own !! c = Some o -> dsk s1 !! c = dsk s !! c).
  { intros c o Ho. apply (tk_other _ _ _ _ Ht); [intros ->; congruence|].
    pose proof (owned_data _ _ _ _ Hd Ho). pose proof (bmap_range sb SB b (tk_range _ _ _ _ Ht)). lia. }
  pose proof (fill_ptr (dsk s) A (dsk s') A' r0 b Hr0 Hz Hb0) as HP.
  assert (Hbz : blk (dsk s') b = zeroes) by (unfold blk; by rewrite Hsb). specialize (HP Hbz HR HW Hp0).
  split; [|by rewrite HP, decide_True]. split.
  - split; [split|].
    + intros c Hc. destruct (Hix c) as [->|(p & d & _ & _ & -> & ?)]; [|by eauto].
      by apply (bk_len _ _ (taken_ok _ SB _ _ _ (dk_blocks _ _ Hd) Ht)).
    + intros c Hc. pose proof (sbo_data _ SB). rewrite Hbits, (bk_meta _ _ (dk_blocks _ _ Hd)) by lia. apply orb_true_r.
    + intros c o Hc. apply lookup_insert_Some in Hc as [[<- <-]|[_ Hc]].
      * pose proof (tk_range _ _ _ _ Ht). split; [lia|]. rewrite Hbits by lia. by rewrite Z.eqb_refl.
      * destruct (dk_own _ _ Hd c o Hc) as [Hr Hbit]. split; [done|].
        assert (0 <= datastart sb) by (pose proof (bmap_range sb SB b (tk_range _ _ _ _ Ht)); lia).
        rewrite Hbits, Hbit by lia. apply orb_true_r.
  - split; [done|]. intros r Hr. rewrite HP by done. destruct (decide (r = r0)) as [->|].
    + intros _. by rewrite lookup_insert_eq.
    + intros Hp. rewrite lookup_insert_ne; [by apply Hf|]. intros ->. rewrite (fk_own _ _ _ _ Hf) in Hnb by done. done.
  - by apply insert_subseteq.
  - intros c o Hc Hn. apply lookup_insert_Some in Hc as [[<- <-]|[_ Hc]]; [done|congruence].
  - intros r Hr Hp. rewrite HP by done. rewrite decide_False; [done|]. intros ->. done.
  - intros bn Hr Hpz. rewrite HP by done. destruct (decide (RData bn = r0)); [done|]. done.
  - intros c i bn Hc. rewrite (index_same inum own s1); [by apply (Hold c _ Hc)|done|].
    intros p Ho. rewrite Hc in Ho. injection Ho as <- <-. done.
  - intros c i r Hc Hi. rewrite (index_same inum own s1); [by apply (Hold c _ Hc)|done|].
    intros p Ho. congruence.
  - intros c Hc Hn. rewrite Hlow by done. apply (tk_other _ _ _ _ Ht); [lia|]. apply Hn, Ht.
  - intros c Hc. rewrite Hbits by done. destruct (Z.eqb_spec c b) as [->|]; [|by left]. intros _. right.
    exists r0. split; [done|]. by rewrite HP, decide_True.
Qed.

(** *** [bmap] *)

(** The blocks written between two states: bitmap blocks, and blocks of the
    file with a role in [R]. *)
Definition logs (R : role -> Prop) (s : fs) (s' : fs) (A' : list Z) : Prop :=
  exists L, logged s' = logged s ++ L /\
    Forall (fun c => (exists b, 0 <= b < sb_size sb /\ c = BBLOCK sb b) \/
                     (exists r, role_ok r /\ R r /\ c <> 0 /\ c = ptr (dsk s') A' r)) L.

Lemma logs_refl R s A : logs R s s A.
Proof. exists []. by rewrite app_nil_r. Qed.

Lemma logs_trans (R R' : role -> Prop) s1 s2 A2 s3 A3 :
  (forall r, role_ok r -> ptr (dsk s2) A2 r <> 0 -> ptr (dsk s3) A3 r = ptr (dsk s2) A2 r) ->
  (forall r, R r -> R' r) -> logs R s1 s2 A2 -> logs R' s2 s3 A3 -> logs R' s1 s3 A3.
Proof.
  intros Hp HR (L & E & F) (L' & E' & F'). exists (L ++ L'). rewrite E', E, app_assoc. split; [done|].
  apply Forall_app. split; [|done]. eapply Forall_impl; [exact F|]. intros c [?|(r & Hr & HRr & Hc & Ec)]; [by left|].
  right. exists r. split; [done|]. split; [auto|]. split; [done|]. by rewrite Hp by congruence.
Qed.

(** The number of free blocks. *)
Definition nfree (D : gmap Z bytes) : Z :=
  Z.of_nat (length (List.filter (fun c => negb (bit sb D (Z.of_nat c))) (seq 0 (Z.to_nat (sb_size sb))))).

Lemma nfree_same D D' : (forall c, 0 <= c < sb_size sb -> bit sb D' c = bit sb D c) -> nfree D' = nfree D.
Proof. intros H. unfold nfree. do 2 f_equal. apply List.filter_ext_in. intros c [_ Hc]%List.in_seq. rewrite H by lia. done. Qed.

Lemma nfree_full D : (forall c, 0 <= c < sb_size sb -> bit sb D c = true) -> nfree D = 0.
Proof.
  intros H. unfold nfree. assert (Hl : forall l, (forall c, In c l -> Z.of_nat c < sb_size sb) -> length (List.filter (fun c => negb (bit sb D (Z.of_nat c))) l) = 0%nat).
  { induction l as [|c l IH]; intros Hl; [done|]. cbn [List.filter]. rewrite H by (pose proof (Hl c (or_introl eq_refl)); lia). apply IH. intros x Hx. apply Hl. by right. }
  rewrite Hl; [done|]. intros c [_ Hc]%List.in_seq. lia.
Qed.

Lemma nfree_nonneg D : 0 <= nfree D.
Proof. unfold nfree. lia. Qed.

Lemma nfree_taken b s s' : taken sb b s s' -> nfree (dsk s') = nfree (dsk s) - 1.
Proof.
  intros Ht. pose proof (tk_range _ _ _ _ Ht) as Hb. set (g := fun c => negb ((Z.of_nat c =? b) || bit sb (dsk s) (Z.of_nat c))).
  assert (E : nfree (dsk s') = Z.of_nat (length (List.filter g (seq 0 (Z.to_nat (sb_size sb)))))).
  { unfold nfree. do 2 f_equal. apply List.filter_ext_in. intros c [_ Hc]%List.in_seq. unfold g. rewrite (tk_bit _ _ _ _ Ht) by lia. done. }
  rewrite E. unfold nfree. rewrite (filter_change (fun c => negb (bit sb (dsk s) (Z.of_nat c))) g (Z.to_nat b)); [|apply NoDup_seq|].
  - rewrite decide_True by (apply elem_of_seq; lia). unfold g. rewrite !Z2Nat.id, Z.eqb_refl, (tk_clear _ _ _ _ Ht) by lia. cbn. lia.
  - intros j Hj. unfold g. rewrite (proj2 (Z.eqb_neq _ _)) by lia. done.
Qed.

(** The blocks that the bytes from [off] to [off + n] lie in. *)
Definition touched (off n : Z) : Z := if n <=? 0 then 0 else (off + n - 1) / BSIZE - off / BSIZE + 1.

(** An operation that looks up or adds the block with role [r]. *)
Record located (inum : Z) (r : role) (R : role -> Prop) (s : fs) (A : list Z) (own : owners)
    (b : Z) (s' : fs) (A' : list Z) (own' : owners) : Prop := {
  lc_grown : grown inum s A own s' A' own';
  lc_ptr : ptr (dsk s') A' r = b;
  lc_nz : b <> 0;
  lc_logs : logs R s s' A'
}.

Lemma located_own inum r R s A own b s' A' own' : role_ok r ->
  located inum r R s A own b s' A' own' -> own' !! b = Some (inum, r).
Proof.
  intros Hr [G E Hb _]. rewrite <- E. apply (fk_own _ _ _ _ (gw_file _ _ _ _ _ _ _ G)); [done|]. by rewrite E.
Qed.

Lemma nth_insert (l : list Z) (i j : nat) v : (i < length l)%nat ->
  nth j (<[i := v]> l) 0 = if decide (j = i) then v else nth j l 0.
Proof.
  intros Hi. rewrite !nth_lookup. destruct (decide (j = i)) as [->|]; [by rewrite list_lookup_insert_eq|].
  by rewrite list_lookup_insert_ne.
Qed.

Lemma addr_alloc_spec inum ip i r (R : role -> Prop) s own :
  disk_ok (dsk s) own -> file_ok inum (i_addrs ip) (dsk s) own ->
  role_ok r -> parent r = None -> root r = Z.to_nat i -> R r ->
  (exists b A' s' own', addr_alloc sb ip i s = Some (b, set_addrs A' ip, s') /\
     located inum r R s (i_addrs ip) own b s' A' own' /\ nfree (dsk s) - 1 <= nfree (dsk s')) \/
  (addr_alloc sb ip i s = None /\ nfree (dsk s) = 0).
Proof.
  intros Hd Hf Hr Hp Hi HR. unfold addr_alloc.
  pose proof (ptr_parent (dsk s) (i_addrs ip) r Hr) as HP. rewrite Hp in HP. destruct HP as [HP Hlt]. rewrite Hi in *.
  fold (addr ip i) in HP. destruct (Z.eqb_spec (addr ip i) 0) as [E|E].
  - destruct (balloc_spec sb SB s (dk_blocks _ _ Hd)) as [(b & s1 & Eb & Ht)|[Eb Hfull]].
    2: { right. unfold pbind. rewrite Eb. split; [done|by apply nfree_full]. }
    left. rewrite (pbind_Some _ _ _ _ _ Eb). unfold pret, set_addr. exists b. eexists. exists s1, (<[b := (inum, r)]> own).
    split; [done|]. split; [|rewrite (nfree_taken b s s1 Ht); lia].
    destruct (grown_fill inum s (i_addrs ip) own s1 s1 (<[Z.to_nat i := b]> (i_addrs ip)) r b) as [G Eptr]; try done.
    + by rewrite HP.
    + rewrite length_insert. apply Hf.
    + intros c. by left.
    + intros r' Hr' Hp'. rewrite nth_insert by (rewrite (fk_len _ _ _ _ Hf); lia).
      destruct (decide (root r' = Z.to_nat i)) as [Er|Er], (decide (r' = r)) as [->|Hne]; try done.
      * exfalso. apply Hne. apply root_inj; try done. congruence.
    + intros p k Hpr Hpp Hk. rewrite decide_False by (rewrite Hp; done).
      unfold blk. rewrite (tk_other _ _ _ _ Ht); [done| |].
      * intros Ex. destruct (fresh_block _ _ b Hd (tk_range _ _ _ _ Ht) (tk_clear _ _ _ _ Ht)) as [Hn _].
        rewrite <- Ex, (fk_own _ _ _ _ Hf p Hpr Hpp) in Hn. done.
      * pose proof (owned_data _ _ _ _ Hd (fk_own _ _ _ _ Hf p Hpr Hpp)).
        pose proof (bmap_range sb SB b (tk_range _ _ _ _ Ht)). lia.
    + intros p k Hpk. congruence.
    + destruct (fresh_block _ _ b Hd (tk_range _ _ _ _ Ht) (tk_clear _ _ _ _ Ht)) as [_ Hds].
      pose proof (bmap_range sb SB b (tk_range _ _ _ _ Ht)).
      split; [done|done|lia|]. exists [BBLOCK sb b; b]. split; [apply Ht|]. rewrite !Forall_cons. split_and!; [|right; exists r|done].
      * left. exists b. split; [apply Ht|done].
      * split; [done|]. split; [done|]. split; [lia|done].
  - left. exists (addr ip i), (i_addrs ip), s, own. split; [by destruct ip|]. split; [|lia].
    split; [by apply grown_refl|done|done|apply logs_refl].
Qed.

Lemma word_alloc_spec inum A p j r (R : role -> Prop) s own :
  disk_ok (dsk s) own -> file_ok inum A (dsk s) own ->
  role_ok r -> parent r = Some (p, j) -> ptr (dsk s) A p <> 0 -> is_data p = false -> R r -> R p ->
  (exists b s' own', word_alloc sb (ptr (dsk s) A p) j s = Some (b, s') /\
     located inum r R s A own b s' A own' /\ nfree (dsk s) - 1 <= nfree (dsk s')) \/
  (word_alloc sb (ptr (dsk s) A p) j s = None /\ nfree (dsk s) = 0).
Proof.
  intros Hd Hf Hr Hpar Hx Hdata HRr HRp. unfold word_alloc. set (x := ptr (dsk s) A p) in *.
  pose proof (ptr_parent (dsk s) A r Hr) as HP. rewrite Hpar in HP. destruct HP as (HP & Hpr & Hj & _). fold x in HP.
  pose proof (fk_own _ _ _ _ Hf p Hpr Hx) as Hown. fold x in Hown.
  destruct (dk_own _ _ Hd x _ Hown) as [Hxr _].
  destruct (bk_len _ _ (dk_blocks _ _ Hd) x) as (d & Hxd & Hl).
  { pose proof (bmap_range sb SB 0 ltac:(pose proof (sbo_size _ SB); lia)). lia. }
  rewrite (bread_bind _ d) by done.
  assert (Hblk : blk (dsk s) x = d) by (unfold blk; by rewrite Hxd).
  unfold entry in HP. rewrite (proj2 (Z.eqb_neq x 0) Hx), Hblk in HP.
  destruct (Z.eqb_spec (word_at d j) 0) as [E|E].
  2: { left. exists (word_at d j), s, own. split; [done|]. split; [|lia]. split; [by apply grown_refl|done|done|apply logs_refl]. }
  destruct (balloc_spec sb SB s (dk_blocks _ _ Hd)) as [(b & s1 & Eb & Ht)|[Eb Hfull]].
  2: { right. unfold pbind. rewrite Eb. split; [done|by apply nfree_full]. }
  pose proof (tk_range _ _ _ _ Ht) as Hbr. pose proof (bmap_range sb SB b Hbr) as Hbb. pose proof (sbo_size _ SB) as Hsz.
  destruct (fresh_block _ _ b Hd Hbr (tk_clear _ _ _ _ Ht)) as [Hnb Hds].
  assert (Hold : forall c o, own !! c = Some o -> dsk s1 !! c = dsk s !! c).
  { intros c o Ho. apply (tk_other _ _ _ _ Ht); [intros ->; congruence|].
    pose proof (owned_data _ _ _ _ Hd Ho). lia. }
  left. rewrite (pbind_Some _ _ _ _ _ Eb), (bread_bind _ d) by (by rewrite (Hold x _ Hown)).
  rewrite log_bind. unfold pret. set (s' := mkFs _ _). exists b, s', (<[b := (inum, r)]> own). split; [done|]. split.
  2: { rewrite (nfree_same (dsk s1) (dsk s')), (nfree_taken b s s1 Ht); [lia|]. apply bit_same. intros c Hc. cbn. rewrite lookup_insert_ne; [done|]. intros <-. lia. }
  assert (Hlw : len (set_word d j b) = BSIZE).
  { unfold set_word, len. rewrite put_length; [done|]. unfold len, BSIZE in Hl. cbn [length le32]. lia. }
  destruct (grown_fill inum s A own s1 s' A r b) as [G Eptr]; try done.
  - by rewrite HP.
  - apply Hf.
  - intros c. cbn. destruct (decide (c = x)) as [->|Hne]; [|left; by rewrite lookup_insert_ne].
    right. exists p, (set_word d j b). rewrite lookup_insert_eq. done.
  - intros r' Hr' Hp'. rewrite decide_False; [done|]. intros ->. congruence.
  - intros q k Hq Hqp Hk. pose proof (fk_own _ _ _ _ Hf q Hq Hqp) as Hoq.
    unfold blk at 1. cbn. destruct (decide (ptr (dsk s) A q = x)) as [Ex|Ex].
    + rewrite Ex, lookup_insert_eq, Hblk. rewrite Ex, Hown in Hoq. injection Hoq as ->. rewrite Hpar. cbn [default].
      destruct (decide (Some (q, j) = Some (q, k))) as [E1|E1].
      * injection E1 as <-. apply word_set; [lia|unfold BSIZE in Hl; lia|unfold is_u32; lia].
      * apply word_set_ne; [lia|lia|congruence|unfold BSIZE in Hl; lia].
    + rewrite lookup_insert_ne, (Hold _ _ Hoq) by done. rewrite decide_False; [done|].
      intros E1. rewrite Hpar in E1. injection E1 as -> _. done.
  - intros q k Hq. rewrite Hpar in Hq. by injection Hq as <- <-.
  - split; [done|done|lia|].
    exists [BBLOCK sb b; b; x]. cbn [logged s']. rewrite (tk_log _ _ _ _ Ht), <- app_assoc. split; [done|].
    rewrite !Forall_cons. split_and!; [left; by exists b|right; exists r|right; exists p|done].
    + split; [done|]. split; [done|]. split; [lia|done].
    + split; [done|]. split; [done|]. split; [done|]. symmetry. apply (gw_ptr _ _ _ _ _ _ _ G p Hpr Hx).
Qed.

(** The blocks on the way to block [bn] of a file. *)
Definition on_path (bn : Z) (r : role) : Prop :=
  r = RData bn \/ (9 <= bn < 137 /\ r = RInd) \/
  (137 <= bn /\ (r = RDind \/ r = RInner ((bn - 137) / 128))).

Lemma located_trans inum r1 r2 R s1 A1 o1 b1 s2 A2 o2 b2 s3 A3 o3 :
  located inum r1 R s1 A1 o1 b1 s2 A2 o2 -> located inum r2 R s2 A2 o2 b2 s3 A3 o3 ->
  located inum r2 R s1 A1 o1 b2 s3 A3 o3.
Proof.
  intros [G1 P1 N1 L1] [G2 P2 N2 L2]. split; [by eapply grown_trans|done|done|].
  eapply logs_trans; [apply G2|..]; eauto.
Qed.

(** [bmap] finds the block or adds it with the index blocks above it, at most
    three blocks; it fails only when fewer are free. *)
Lemma bmap_spec inum ip bn s own :
  disk_ok (dsk s) own -> file_ok inum (i_addrs ip) (dsk s) own -> 0 <= bn < MAXFILE ->
  (exists b A' s' own', bmap sb ip bn s = Some (b, set_addrs A' ip, s') /\
     located inum (RData bn) (on_path bn) s (i_addrs ip) own b s' A' own' /\ nfree (dsk s) - 3 <= nfree (dsk s')) \/
  (bmap sb ip bn s = None /\ nfree (dsk s) < 3).
Proof.
  intros Hd Hf Hbn. unfold bmap. change NDIRECT with 9. change NINDIRECT with 128. change NDINDIRECT with 16384.
  rewrite MAXFILE_value in Hbn. assert (Hrole : role_ok (RData bn)) by (cbn; rewrite MAXFILE_value; lia).
  destruct (Z.ltb_spec bn 9) as [H9|H9].
  { destruct (addr_alloc_spec inum ip bn (RData bn) (on_path bn) s own) as [(b & A1 & s1 & o1 & E1 & L1 & F1)|[E Hfull]]; try done.
    - cbn. by rewrite (proj2 (Z.ltb_lt bn 9) H9).
    - by left.
    - left. exists b, A1, s1, o1. split; [done|]. split; [done|lia].
    - right. split; [done|lia]. }
  destruct (Z.ltb_spec (bn - 9) 128) as [H137|H137].
  - destruct (addr_alloc_spec inum ip INDIRECT_INDEX RInd (on_path bn) s own)
      as [(a & A1 & s1 & o1 & E1 & L1 & F1)|[E Hfull]]; try done; [right; left; split; [lia|done]| |].
    2: { right. unfold pbind at 1. rewrite E. split; [done|lia]. }
    rewrite (pbind_Some _ _ _ _ _ E1). destruct L1 as [G1 P1 N1 Lg1].
    destruct (word_alloc_spec inum A1 RInd (bn - 9) (RData bn) (on_path bn) s1 o1)
      as [(b & s2 & o2 & E2 & L2 & F2)|[E Hfull]]; try done; [apply G1|apply G1| |congruence|by left|right; left; split; [lia|done]| |].
    + cbn. rewrite (proj2 (Z.ltb_ge bn 9)), (proj2 (Z.ltb_lt bn 137)) by lia. done.
    + left. rewrite P1 in E2. rewrite (pbind_Some _ _ _ _ _ E2). exists b, A1, s2, o2. split; [done|].
      split; [eapply located_trans; [by split|done]|lia].
    + right. rewrite P1 in E. unfold pbind. rewrite E. split; [done|lia].
  - destruct (Z.ltb_spec (bn - 9 - 128) 16384) as [Hmax|]; [|lia].
    replace (bn - 9 - 128) with (bn - 137) by lia. set (o := (bn - 137) / 128). set (k := (bn - 137) mod 128).
    assert (Ho : 0 <= o < 128) by (unfold o; mlia).
    destruct (addr_alloc_spec inum ip DINDIRECT_INDEX RDind (on_path bn) s own)
      as [(a & A1 & s1 & o1 & E1 & L1 & F1)|[E Hfull]]; try done; [right; right; split; [lia|by left]| |].
    2: { right. unfold pbind at 1. rewrite E. split; [done|lia]. }
    rewrite (pbind_Some _ _ _ _ _ E1). pose proof L1 as [G1 P1 N1 Lg1].
    destruct (word_alloc_spec inum A1 RDind o (RInner o) (on_path bn) s1 o1)
      as [(b & s2 & o2 & E2 & L2 & F2)|[E Hfull]]; try done;
      [apply G1|apply G1|congruence|right; right; split; [lia|by right]|right; right; split; [lia|by left]| |].
    2: { right. rewrite P1 in E. unfold pbind at 1. rewrite E. split; [done|lia]. }
    rewrite P1 in E2. rewrite (pbind_Some _ _ _ _ _ E2). pose proof L2 as [G2 P2 N2 Lg2].
    pose proof (located_trans _ _ _ _ _ _ _ _ _ _ _ _ _ _ _ L1 L2) as L12.
    destruct (word_alloc_spec inum A1 (RInner o) k (RData bn) (on_path bn) s2 o2)
      as [(c & s3 & o3 & E3 & L3 & F3)|[E Hfull]]; try done;
      [apply G2|apply G2| |congruence|by left|right; right; split; [lia|by right]| |].
    + cbn. rewrite (proj2 (Z.ltb_ge bn 9)), (proj2 (Z.ltb_ge bn 137)) by lia. done.
    + left. rewrite P2 in E3. rewrite (pbind_Some _ _ _ _ _ E3). exists c, A1, s3, o3. split; [done|].
      split; [by eapply located_trans|lia].
    + right. rewrite P2 in E. unfold pbind. rewrite E. split; [done|lia].
Qed.

(** *** Contents *)

Lemma parent_index r p j : parent r = Some (p, j) -> is_data p = false.
Proof. destruct r; cbn; intros; repeat case_match; simplify_eq; done. Qed.

(** The tree of a file depends on its index blocks only. *)
Lemma ptr_frame i B D own D' : file_ok i B D own ->
  (forall c r, own !! c = Some (i, r) -> is_data r = false -> D' !! c = D !! c) ->
  forall r, role_ok r -> ptr D' B r = ptr D B r.
Proof.
  intros Hf Hs r. remember (height r) as h eqn:Eh. revert r Eh.
  induction h as [h IH] using lt_wf_ind. intros r -> Hr.
  pose proof (ptr_parent D' B r Hr) as H'. pose proof (ptr_parent D B r Hr) as H.
  destruct (parent r) as [[p k]|] eqn:Ep; [|destruct H' as [-> _], H as [-> _]; done].
  destruct H' as (-> & Hp & Hk & Hh), H as (-> & _). rewrite (IH (height p) Hh p eq_refl Hp).
  unfold entry, blk. destruct (Z.eqb_spec (ptr D B p) 0) as [|E]; [done|].
  rewrite (Hs _ p); [done|by apply Hf|by eapply parent_index].
Qed.

(** A file whose blocks are not touched stays as it is. *)
Record kept (i : Z) (B : list Z) (D D' : gmap Z bytes) (own' : owners) : Prop := {
  kp_file : file_ok i B D' own';
  kp_ptr r : role_ok r -> ptr D' B r = ptr D B r;
  kp_byte x : 0 <= x < MAXFILE * BSIZE -> fbyte D' B x = fbyte D B x
}.

Lemma fkept_trans i B D1 D2 D3 o2 o3 : kept i B D1 D2 o2 -> kept i B D2 D3 o3 -> kept i B D1 D3 o3.
Proof.
  intros G H. split; [apply H| |].
  - intros r Hr. rewrite (kp_ptr _ _ _ _ _ H) by done. by apply G.
  - intros x Hx. rewrite (kp_byte _ _ _ _ _ H) by done. by apply G.
Qed.

Lemma file_frame i B D own D' own' : file_ok i B D own ->
  (forall c r, own !! c = Some (i, r) -> own' !! c = Some (i, r) /\ D' !! c = D !! c) -> kept i B D D' own'.
Proof.
  intros Hf Hs. assert (HP : forall r, role_ok r -> ptr D' B r = ptr D B r)
    by (apply (ptr_frame i B D own); [done|]; intros c r Hc _; by apply (Hs c r)).
  split; [split; [apply Hf|]|done|].
  - intros r Hr Hp. rewrite HP in * by done. by apply Hs, Hf.
  - intros off Hoff. assert (Hr : role_ok (RData (off / BSIZE))) by (cbn; unfold BSIZE in *; mlia).
    unfold fbyte. rewrite HP by done. destruct (Z.eqb_spec (ptr D B (RData (off / BSIZE))) 0) as [|E]; [done|].
    unfold blk. by rewrite (proj2 (Hs _ _ (fk_own _ _ _ _ Hf _ Hr E))).
Qed.

Lemma byte_zero i : byte_at zeroes i = 0.
Proof. unfold byte_at, zeroes. rewrite nth_lookup. by destruct (replicate _ 0 !! _) eqn:E; [apply lookup_replicate in E as [-> _]|]. Qed.

Lemma grown_fbyte inum s A own s' A' own' off : file_ok inum A (dsk s) own ->
  grown inum s A own s' A' own' -> 0 <= off < MAXFILE * BSIZE -> fbyte (dsk s') A' off = fbyte (dsk s) A off.
Proof.
  intros Hf G Hoff. assert (Hr : role_ok (RData (off / BSIZE))) by (cbn; unfold BSIZE in *; mlia).
  unfold fbyte. destruct (Z.eqb_spec (ptr (dsk s) A (RData (off / BSIZE))) 0) as [E|E].
  - destruct (Z.eqb_spec (ptr (dsk s') A' (RData (off / BSIZE))) 0) as [|E']; [done|].
    unfold blk. rewrite (gw_zero _ _ _ _ _ _ _ G) by done. apply byte_zero.
  - rewrite (gw_ptr _ _ _ _ _ _ _ G) by done. rewrite (proj2 (Z.eqb_neq _ 0) E).
    unfold blk. by rewrite (gw_data _ _ _ _ _ _ _ G _ inum _ (fk_own _ _ _ _ Hf _ Hr E)).
Qed.

Lemma grown_other inum s A own s' A' own' i B : i <> inum -> file_ok i B (dsk s) own ->
  grown inum s A own s' A' own' -> kept i B (dsk s) (dsk s') own'.
Proof.
  intros Hi Hf G. apply (file_frame i B (dsk s) own); [done|].
  intros c r Hc. split; [by eapply lookup_weaken; [|apply G]|]. by apply (gw_other _ _ _ _ _ _ _ G c i r).
Qed.

(** [n] bytes of the file from [off] on. *)
Definition bytes_of (D : gmap Z bytes) (A : list Z) (off n : Z) : bytes :=
  (fun i => fbyte D A (off + Z.of_nat i)) <$> seq 0 (Z.to_nat n).

Lemma bytes_of_ext D A D' A' off n :
  (forall x, off <= x < off + n -> fbyte D' A' x = fbyte D A x) -> bytes_of D' A' off n = bytes_of D A off n.
Proof.
  intros H. apply list_fmap_ext. intros i x Hx. apply lookup_seq in Hx as [-> Hi]. apply H. lia.
Qed.

Lemma bytes_of_app D A off n1 n2 : 0 <= n1 -> 0 <= n2 ->
  bytes_of D A off (n1 + n2) = bytes_of D A off n1 ++ bytes_of D A (off + n1) n2.
Proof.
  intros. unfold bytes_of. rewrite Z2Nat.inj_add, seq_app, fmap_app by lia. f_equal.
  apply list_eq. intros i. rewrite !list_lookup_fmap, Nat.add_0_l.
  destruct (decide (i < Z.to_nat n2)%nat) as [Hi|Hi].
  - rewrite !lookup_seq_lt by done. cbn. do 2 f_equal. lia.
  - rewrite !lookup_seq_ge by lia. done.
Qed.

Lemma bytes_of_len D A off n : 0 <= n -> len (bytes_of D A off n) = n.
Proof. intros. unfold len, bytes_of. rewrite length_fmap, length_seq. lia. Qed.

(** What one round of the copy loops sees. *)
Lemma block_bytes D A off m b d : 0 <= off -> 0 <= m <= BSIZE - off mod BSIZE ->
  ptr D A (RData (off / BSIZE)) = b -> b <> 0 -> D !! b = Some d -> len d = BSIZE ->
  sub_bytes d (off mod BSIZE) m = bytes_of D A off m.
Proof.
  intros Ho Hm Hp Hb Hd Hl. pose proof (Z.mod_pos_bound off BSIZE ltac:(by vm_compute)) as Hmod.
  apply list_eq. intros i. rewrite lookup_sub. unfold bytes_of. rewrite list_lookup_fmap. case_bool_decide as Hi.
  - rewrite lookup_seq_lt by done. cbn [fmap option_fmap option_map].
    unfold fbyte. replace ((off + Z.of_nat (0 + i)) / BSIZE) with (off / BSIZE) by (unfold BSIZE in *; mlia).
    rewrite Hp, (proj2 (Z.eqb_neq b 0) Hb). unfold blk. rewrite Hd. change (default zeroes (Some d)) with d.
    replace ((off + Z.of_nat (0 + i)) mod BSIZE) with (off mod BSIZE + Z.of_nat i) by (unfold BSIZE in *; mlia).
    unfold byte_at. rewrite nth_lookup. replace (Z.to_nat (off mod BSIZE + Z.of_nat i)) with (Z.to_nat (off mod BSIZE) + i)%nat by lia.
    destruct (lookup_lt_is_Some_2 d (Z.to_nat (off mod BSIZE) + i)%nat) as [x ->]; [unfold len in Hl; lia|done].
  - by rewrite lookup_seq_ge by lia.
Qed.

(** *** Blocks that are there *)

Lemma tree_block inum A s own p : disk_ok (dsk s) own -> file_ok inum A (dsk s) own -> role_ok p -> ptr (dsk s) A p <> 0 ->
  exists d, dsk s !! ptr (dsk s) A p = Some d /\ len d = BSIZE.
Proof.
  intros Hd Hf Hp Hb. destruct (dk_own _ _ Hd _ _ (fk_own _ _ _ _ Hf p Hp Hb)) as [Hr _].
  apply (bk_len _ _ (dk_blocks _ _ Hd)). pose proof (bmap_range sb SB 0 ltac:(pose proof (sbo_size _ SB); lia)). lia.
Qed.

Lemma word_found inum A s own r p j : disk_ok (dsk s) own -> file_ok inum A (dsk s) own ->
  role_ok r -> parent r = Some (p, j) -> ptr (dsk s) A r <> 0 ->
  ptr (dsk s) A p <> 0 /\ word_alloc sb (ptr (dsk s) A p) j s = Some (ptr (dsk s) A r, s).
Proof.
  intros Hd Hf Hr Hp Hb. pose proof (ptr_parent (dsk s) A r Hr) as HP. rewrite Hp in HP. destruct HP as (E & Hpr & _).
  unfold entry in E. destruct (Z.eqb_spec (ptr (dsk s) A p) 0) as [|Hx]; [congruence|]. split; [done|].
  destruct (tree_block _ _ _ _ _ Hd Hf Hpr Hx) as (d & Ed & _). unfold word_alloc. rewrite (bread_bind _ d) by done.
  unfold blk in E. rewrite Ed in E. change (default zeroes (Some d)) with d in E. rewrite <- E.
  by rewrite (proj2 (Z.eqb_neq _ 0) Hb).
Qed.

Lemma addr_found ip i (s : fs) : addr ip i <> 0 -> addr_alloc sb ip i s = Some (addr ip i, ip, s).
Proof. intros H. unfold addr_alloc. by rewrite (proj2 (Z.eqb_neq _ 0) H). Qed.

(** [bmap] of a block that is there changes nothing. *)
Lemma bmap_found inum ip bn s own : disk_ok (dsk s) own -> file_ok inum (i_addrs ip) (dsk s) own -> 0 <= bn < MAXFILE ->
  ptr (dsk s) (i_addrs ip) (RData bn) <> 0 -> bmap sb ip bn s = Some (ptr (dsk s) (i_addrs ip) (RData bn), ip, s).
Proof.
  intros Hd Hf Hbn Hp. unfold bmap. change NDIRECT with 9. change NINDIRECT with 128. change NDINDIRECT with 16384.
  rewrite MAXFILE_value in Hbn. assert (Hrole : role_ok (RData bn)) by (cbn; rewrite MAXFILE_value; lia).
  destruct (Z.ltb_spec bn 9) as [H9|H9].
  { assert (E : ptr (dsk s) (i_addrs ip) (RData bn) = addr ip bn) by (cbn; by rewrite (proj2 (Z.ltb_lt bn 9))).
    rewrite E in *. by apply addr_found. }
  destruct (Z.ltb_spec (bn - 9) 128) as [H137|H137].
  - destruct (word_found inum (i_addrs ip) s own (RData bn) RInd (bn - 9)) as [Hx E]; try done.
    { cbn. by rewrite (proj2 (Z.ltb_ge bn 9)), (proj2 (Z.ltb_lt bn 137)) by lia. }
    rewrite (pbind_Some _ _ _ _ _ (addr_found ip INDIRECT_INDEX s Hx)).
    by rewrite (pbind_Some _ _ _ _ _ E).
  - rewrite (proj2 (Z.ltb_lt (bn - 9 - 128) 16384)) by lia. replace (bn - 9 - 128) with (bn - 137) by lia.
    destruct (word_found inum (i_addrs ip) s own (RData bn) (RInner ((bn - 137) / 128)) ((bn - 137) mod 128)) as [Ho E]; try done.
    { cbn. by rewrite (proj2 (Z.ltb_ge bn 9)), (proj2 (Z.ltb_ge bn 137)) by lia. }
    destruct (word_found inum (i_addrs ip) s own (RInner ((bn - 137) / 128)) RDind ((bn - 137) / 128)) as [Hx E1]; try done.
    { cbn. rewrite NINDIRECT_value. mlia. }
    rewrite (pbind_Some _ _ _ _ _ (addr_found ip DINDIRECT_INDEX s Hx)).
    rewrite (pbind_Some _ _ _ _ _ E1). by rewrite (pbind_Some _ _ _ _ _ E).
Qed.

(** *** Reading *)

Lemma block_number off : 0 <= off < MAXFILE * BSIZE ->
  u32 (off / BSIZE) = off / BSIZE /\ 0 <= off / BSIZE < MAXFILE.
Proof.
  rewrite MAXFILE_value. unfold BSIZE. intros. assert (0 <= off / 512 < 16521) by mlia.
  split; [|done]. apply u32_small. unfold is_u32. lia.
Qed.

Lemma chunk_bounds n tot off : 0 <= tot < n -> 0 <= off ->
  let m := Z.min (n - tot) (BSIZE - off mod BSIZE) in 0 < m <= BSIZE - off mod BSIZE /\ m <= n - tot.
Proof. intros. unfold m. pose proof (Z.mod_pos_bound off BSIZE ltac:(by vm_compute)). lia. Qed.

Lemma touched_pos off n : 0 <= off -> 0 < n -> 1 <= touched off n.
Proof. intros Ho Hn. unfold touched. rewrite (proj2 (Z.leb_gt _ _)) by lia. pose proof (Z.div_le_mono off (off + n - 1) BSIZE ltac:(by vm_compute) ltac:(lia)). lia. Qed.

Lemma touched_step off n m : 0 <= off -> 0 < n -> m = Z.min n (BSIZE - off mod BSIZE) -> touched off n = 1 + touched (off + m) (n - m).
Proof.
  intros Ho Hn Hm. pose proof (Z.mod_pos_bound off BSIZE ltac:(by vm_compute)) as Hmod. pose proof (Z.div_mod off BSIZE ltac:(by vm_compute)) as Hd.
  unfold touched. rewrite (proj2 (Z.leb_gt n 0)) by lia. destruct (Z.leb_spec (n - m) 0) as [Hle|Hgt].
  - rewrite (Z.div_unique (off + n - 1) BSIZE (off / BSIZE) (off mod BSIZE + n - 1)); [lia|left; lia|lia].
  - assert (Em : m = BSIZE - off mod BSIZE) by lia. replace (off + m + (n - m) - 1) with (off + n - 1) by lia.
    rewrite <- (Z.div_unique (off + m) BSIZE (off / BSIZE + 1) 0); [lia|left; unfold BSIZE; lia|lia].
Qed.

Lemma located_block inum r R s A own b s' A' own' : role_ok r -> located inum r R s A own b s' A' own' ->
  exists d, dsk s' !! b = Some d /\ len d = BSIZE.
Proof.
  intros Hr L. pose proof (located_own _ _ _ _ _ _ _ _ _ _ Hr L) as Ho.
  destruct (dk_own _ _ (gw_disk _ _ _ _ _ _ _ (lc_grown _ _ _ _ _ _ _ _ _ _ L)) b _ Ho) as [Hb _].
  apply (bk_len _ _ (dk_blocks _ _ (gw_disk _ _ _ _ _ _ _ (lc_grown _ _ _ _ _ _ _ _ _ _ L)))).
  pose proof (bmap_range sb SB 0 ltac:(pose proof (sbo_size _ SB); lia)). lia.
Qed.

(** How a read ends: all bytes, or the bytes before the first chunk that could
    not be stored. *)
Definition read_end (store : Z -> bytes -> bool) (D : gmap Z bytes) (A : list Z) (n tot off : Z) (r : Z) (out : bytes) : Prop :=
  (r = s32 n /\ out = bytes_of D A off (n - tot)) \/
  (r = -1 /\ exists k m, 0 <= k /\ 0 < m /\ k + m <= n - tot /\ out = bytes_of D A off k /\
     store (tot + k) (bytes_of D A (off + k) m) = false).

(** A read of blocks that are there changes nothing. *)
Lemma readi_loop_found inum fuel store n tot off got ip s own :
  disk_ok (dsk s) own -> file_ok inum (i_addrs ip) (dsk s) own ->
  0 <= tot <= n -> 0 <= off -> off + (n - tot) <= MAXFILE * BSIZE -> n - tot < Z.of_nat fuel ->
  (forall x, off <= x < off + (n - tot) -> ptr (dsk s) (i_addrs ip) (RData (x / BSIZE)) <> 0) ->
  exists r out, readi_loop sb fuel store n tot off got ip s = Some (r, out, ip, s).
Proof.
  intros Hd Hf. revert tot off got. induction fuel as [|fuel IH]; intros tot off got Ht Ho Hmax Hfuel Hx; [lia|].
  cbn [readi_loop]. destruct (Z.ltb_spec tot n) as [Hlt|Hge]; [|by eauto].
  destruct (block_number off ltac:(lia)) as [-> Hbn]. pose proof (Hx off ltac:(lia)) as Hp.
  rewrite (pbind_Some _ _ _ _ _ (bmap_found _ _ _ _ _ Hd Hf Hbn Hp)).
  destruct (tree_block _ _ _ _ (RData (off / BSIZE)) Hd Hf Hbn Hp) as (d & Ed & _). rewrite (bread_bind _ d) by done. cbv zeta.
  destruct (chunk_bounds n tot off ltac:(lia) Ho) as [Hm1 Hm2]. set (m := Z.min _ _) in *.
  destruct (store tot _); [|unfold pret; eauto]. apply IH; try lia. intros x Hx'. apply Hx. lia.
Qed.

Lemma readi_loop_spec inum fuel store n tot off got ip s own :
  disk_ok (dsk s) own -> file_ok inum (i_addrs ip) (dsk s) own ->
  0 <= tot <= n -> 0 <= off -> off + (n - tot) <= MAXFILE * BSIZE -> n - tot < Z.of_nat fuel ->
  (exists r out A' s' own', readi_loop sb fuel store n tot off got ip s = Some (r, got ++ out, set_addrs A' ip, s') /\
     grown inum s (i_addrs ip) own s' A' own' /\ read_end store (dsk s) (i_addrs ip) n tot off r out) \/
  (readi_loop sb fuel store n tot off got ip s = None /\
   nfree (dsk s) < 3 * touched off (n - tot)).
Proof.
  revert tot off got ip s own. induction fuel as [|fuel IH]; intros tot off got ip s own Hd Hf Ht Ho Hmax Hfuel; [lia|].
  cbn [readi_loop]. destruct (Z.ltb_spec tot n) as [Hlt|Hge].
  2: { left. exists (s32 n), [], (i_addrs ip), s, own. split; [by rewrite app_nil_r; destruct ip|].
       split; [by apply grown_refl|]. left. split; [done|]. by replace (n - tot) with 0 by lia. }
  destruct (block_number off ltac:(lia)) as [-> Hbn].
  destruct (bmap_spec inum ip (off / BSIZE) s own Hd Hf Hbn) as [(b & A1 & s1 & o1 & E1 & L1 & F1)|(E & Hfull)].
  2: { right. unfold pbind at 1. rewrite E. split; [done|]. pose proof (touched_pos off (n - tot) ltac:(lia) ltac:(lia)). lia. }
  rewrite (pbind_Some _ _ _ _ _ E1). destruct (located_block _ (RData (off / BSIZE)) _ _ _ _ _ _ _ _ Hbn L1) as (d & Hb & Hl).
  rewrite (bread_bind _ d) by done. cbv zeta.
  destruct (chunk_bounds n tot off ltac:(lia) Ho) as [Hm1 Hm2]. set (m := Z.min _ _) in *.
  pose proof L1 as [G1 P1 N1 _].
  assert (Heq : forall x, 0 <= x < MAXFILE * BSIZE -> fbyte (dsk s1) A1 x = fbyte (dsk s) (i_addrs ip) x)
    by (intros; by eapply grown_fbyte).
  rewrite (block_bytes (dsk s1) A1 off m b d) by (done || lia).
  rewrite (bytes_of_ext (dsk s) (i_addrs ip) (dsk s1) A1) by (intros; apply Heq; lia).
  destruct (store tot (bytes_of (dsk s) (i_addrs ip) off m)) eqn:Est.
  - destruct (IH (tot + m) (off + m) (got ++ bytes_of (dsk s) (i_addrs ip) off m) (set_addrs A1 ip) s1 o1)
      as [(r & out & A' & s' & own' & E2 & G2 & Hend)|(E2 & Hfull)];
      [apply G1|apply G1|lia|lia|lia|lia| |].
    + left. exists r, (bytes_of (dsk s) (i_addrs ip) off m ++ out), A', s', own'. cbn [i_addrs set_addrs] in *.
      rewrite E2, <- app_assoc. split; [done|]. split; [by eapply grown_trans|].
      destruct Hend as [[-> ->]|(-> & k & m' & Hk & Hm' & Hkm & -> & Hs)].
      * left. split; [done|]. rewrite (bytes_of_ext (dsk s) (i_addrs ip) (dsk s1) A1) by (intros; apply Heq; lia).
        replace (n - tot) with (m + (n - (tot + m))) by lia. by rewrite bytes_of_app by lia.
      * right. split; [done|]. exists (m + k), m'. split; [lia|]. split; [done|]. split; [lia|].
        rewrite (bytes_of_ext (dsk s) (i_addrs ip) (dsk s1) A1) by (intros; apply Heq; lia).
        rewrite (bytes_of_ext (dsk s) (i_addrs ip) (dsk s1) A1) in Hs by (intros; apply Heq; lia).
        split; [by rewrite bytes_of_app by lia|]. by rewrite !Z.add_assoc.
    + right. split; [done|]. rewrite (touched_step off (n - tot) m) by (done || lia). replace (n - tot - m) with (n - (tot + m)) by lia. lia.
  - left. exists (-1), [], A1, s1, o1. rewrite app_nil_r. split; [done|]. split; [done|]. right. split; [done|].
    exists 0, m. split; [lia|]. split; [lia|]. split; [lia|]. split; [done|]. by rewrite !Z.add_0_r.
Qed.

(** *** Writing *)

(** [l] has been written to file [inum] at [off]; all other bytes of all files
    are as before. *)
Record wrote (inum off : Z) (l : bytes) (s : fs) (A : list Z) (own : owners)
    (s' : fs) (A' : list Z) (own' : owners) : Prop := {
  wr_disk : disk_ok (dsk s') own';
  wr_file : file_ok inum A' (dsk s') own';
  wr_own : own ⊆ own';
  wr_new c o : own' !! c = Some o -> own !! c = None -> fst o = inum;
  wr_byte x : 0 <= x < MAXFILE * BSIZE ->
    fbyte (dsk s') A' x = if (off <=? x) && (x <? off + len l) then byte_at l (x - off) else fbyte (dsk s) A x;
  wr_other i B : i <> inum -> file_ok i B (dsk s) own -> kept i B (dsk s) (dsk s') own';
  wr_meta c : 0 <= c < datastart sb -> (forall b, 0 <= b < sb_size sb -> c <> BBLOCK sb b) -> dsk s' !! c = dsk s !! c;
  wr_ptr r : role_ok r -> ptr (dsk s) A r <> 0 -> ptr (dsk s') A' r = ptr (dsk s) A r;
  wr_there x : 0 <= off -> off <= x < off + len l -> ptr (dsk s') A' (RData (x / BSIZE)) <> 0;
  wr_bit c : 0 <= c < sb_size sb -> bit sb (dsk s') c = true ->
    bit sb (dsk s) c = true \/ linked (dsk s') A' c
}.

Lemma grown_wrote inum off s A own s' A' own' : file_ok inum A (dsk s) own ->
  grown inum s A own s' A' own' -> wrote inum off [] s A own s' A' own'.
Proof.
  intros Hf G. split; try apply G; [| |intros x _; change (len (@nil Z)) with 0; lia].
  - intros x Hx. cbn. change (len (@nil Z)) with 0. rewrite Z.add_0_r.
    destruct (Z.leb_spec off x), (Z.ltb_spec x off); try lia; cbn; by eapply grown_fbyte.
  - intros i B Hi HfB. by eapply grown_other.
Qed.

Lemma byte_app_l l l' i : 0 <= i < len l -> byte_at (l ++ l') i = byte_at l i.
Proof. unfold byte_at, len. intros. rewrite app_nth1 by lia. done. Qed.
Lemma byte_app_r l l' i : len l <= i -> byte_at (l ++ l') i = byte_at l' (i - len l).
Proof. unfold byte_at, len. intros. rewrite app_nth2 by lia. f_equal. lia. Qed.

Lemma wrote_trans inum off l1 l2 s1 A1 o1 s2 A2 o2 s3 A3 o3 :
  wrote inum off l1 s1 A1 o1 s2 A2 o2 -> wrote inum (off + len l1) l2 s2 A2 o2 s3 A3 o3 ->
  off + len l1 <= MAXFILE * BSIZE -> wrote inum off (l1 ++ l2) s1 A1 o1 s3 A3 o3.
Proof.
  intros G H Hmax. pose proof (len_nonneg l1). pose proof (len_nonneg l2). split; try apply H.
  - etransitivity; [apply G|apply H].
  - intros c o Hc Hn. destruct (o2 !! c) as [o'|] eqn:E.
    + assert (o = o') as -> by (pose proof (lookup_weaken _ _ _ _ E (wr_own _ _ _ _ _ _ _ _ _ H)); congruence).
      by apply (wr_new _ _ _ _ _ _ _ _ _ G c).
    + by apply (wr_new _ _ _ _ _ _ _ _ _ H c).
  - intros x Hx. rewrite (wr_byte _ _ _ _ _ _ _ _ _ H x Hx), (wr_byte _ _ _ _ _ _ _ _ _ G x Hx), len_app.
    destruct (Z.leb_spec off x), (Z.ltb_spec x (off + len l1)), (Z.leb_spec (off + len l1) x),
      (Z.ltb_spec x (off + len l1 + len l2)), (Z.ltb_spec x (off + (len l1 + len l2))); try lia; cbn [andb]; try done.
    + rewrite byte_app_l by lia. done.
    + rewrite byte_app_r by lia. f_equal. lia.
  - intros i B Hi Hf. pose proof (wr_other _ _ _ _ _ _ _ _ _ G i B Hi Hf) as K.
    eapply fkept_trans; [exact K|]. apply H; [done|apply K].
  - intros c Hc Hn. rewrite (wr_meta _ _ _ _ _ _ _ _ _ H) by done. by apply (wr_meta _ _ _ _ _ _ _ _ _ G).
  - intros r Hr Hp. pose proof (wr_ptr _ _ _ _ _ _ _ _ _ G r Hr Hp) as E.
    rewrite (wr_ptr _ _ _ _ _ _ _ _ _ H r Hr); congruence.
  - intros x Ho Hx. rewrite len_app in Hx. destruct (Z.lt_ge_cases x (off + len l1)) as [Hlt|Hge].
    + pose proof (wr_there _ _ _ _ _ _ _ _ _ G x Ho ltac:(lia)) as E. destruct (Z.lt_ge_cases x (MAXFILE * BSIZE)) as [Hm|Hm].
      * rewrite (wr_ptr _ _ _ _ _ _ _ _ _ H); [done|cbn; unfold BSIZE in *; mlia|done].
      * lia.
    + apply (wr_there _ _ _ _ _ _ _ _ _ H); lia.
  - intros c Hc Hb. destruct (wr_bit _ _ _ _ _ _ _ _ _ H c Hc Hb) as [Hb2|]; [|by right].
    destruct (wr_bit _ _ _ _ _ _ _ _ _ G c Hc Hb2) as [|(r & Hr & Hp & Hc0)]; [by left|].
    right. exists r. split; [done|]. split; [|done]. by rewrite (wr_ptr _ _ _ _ _ _ _ _ _ H) by congruence.
Qed.

Lemma byte_put d o l i : 0 <= o -> o + len l <= len d -> 0 <= i ->
  byte_at (put d o l) i = if (o <=? i) && (i <? o + len l) then byte_at l (i - o) else byte_at d i.
Proof.
  unfold byte_at, len. intros Ho Hl Hi. rewrite !nth_lookup, lookup_put by lia.
  destruct (Z.leb_spec o i), (Z.ltb_spec i (o + Z.of_nat (length l))); cbn [andb].
  - rewrite bool_decide_eq_true_2 by lia. do 2 f_equal. lia.
  - rewrite bool_decide_eq_false_2 by lia. done.
  - rewrite bool_decide_eq_false_2 by lia. done.
  - rewrite bool_decide_eq_false_2 by lia. done.
Qed.

(** One block of the file is changed. *)
Lemma write_step inum s A own bn b d o l L : disk_ok (dsk s) own -> file_ok inum A (dsk s) own ->
  role_ok (RData bn) -> ptr (dsk s) A (RData bn) = b -> b <> 0 -> dsk s !! b = Some d -> len d = BSIZE ->
  0 <= o -> o + len l <= BSIZE ->
  wrote inum (bn * BSIZE + o) l s A own (mkFs (<[b := put d o l]> (dsk s)) L) A own.
Proof.
  intros Hd Hf Hr Hp Hb Hdb Hld Ho Hl. set (s' := mkFs _ _).
  assert (Hown : own !! b = Some (inum, RData bn)) by (rewrite <- Hp; apply Hf; [done|by rewrite Hp]).
  pose proof (owned_data _ _ _ _ Hd Hown) as Hds.
  assert (Hlp : len (put d o l) = BSIZE) by (unfold len in *; rewrite put_length; [done|unfold BSIZE in *; lia]).
  assert (HP : forall r, role_ok r -> ptr (dsk s') A r = ptr (dsk s) A r).
  { apply (ptr_frame inum A (dsk s) own); [done|]. intros c r Hc Hnd. cbn. rewrite lookup_insert_ne; [done|].
    intros <-. rewrite Hown in Hc. by injection Hc as <-. }
  assert (Hbits : forall c, 0 <= c < sb_size sb -> bit sb (dsk s') c = bit sb (dsk s) c).
  { apply bit_same. intros c Hc. cbn. rewrite lookup_insert_ne; [done|lia]. }
  split.
  - split; [split|].
    + intros c Hc. cbn. destruct (decide (c = b)) as [->|]; [rewrite lookup_insert_eq; eauto|].
      rewrite lookup_insert_ne by done. by apply (bk_len _ _ (dk_blocks _ _ Hd)).
    + intros c Hc. pose proof (sbo_data _ SB). rewrite Hbits by lia. by apply (bk_meta _ _ (dk_blocks _ _ Hd)).
    + intros c o' Hc. destruct (dk_own _ _ Hd c o' Hc) as [? ?]. split; [done|].
      pose proof (bmap_range sb SB 0 ltac:(pose proof (sbo_size _ SB); lia)). by rewrite Hbits by lia.
  - split; [apply Hf|]. intros r Hr'. rewrite HP by done. by apply Hf.
  - done.
  - intros c o' H1 H2. congruence.
  - intros x Hx. assert (Hrx : role_ok (RData (x / BSIZE))) by (cbn; unfold BSIZE in *; mlia).
    unfold fbyte. rewrite HP by done.
    pose proof (Z.mod_pos_bound x BSIZE ltac:(by vm_compute)) as Hmx. pose proof (len_nonneg l).
    destruct (Z.eq_dec (x / BSIZE) bn) as [E|E].
    + rewrite E, Hp, (proj2 (Z.eqb_neq b 0) Hb). unfold blk, s'. cbn [dsk]. rewrite lookup_insert_eq, Hdb.
      change (default zeroes (Some (put d o l))) with (put d o l). change (default zeroes (Some d)) with d.
      rewrite byte_put by lia. assert (Ex : x = bn * BSIZE + x mod BSIZE) by (unfold BSIZE in *; mlia).
      replace (bn * BSIZE + o <=? x) with (o <=? x mod BSIZE) by (destruct (Z.leb_spec o (x mod BSIZE)), (Z.leb_spec (bn * BSIZE + o) x); lia).
      replace (x <? bn * BSIZE + o + len l) with (x mod BSIZE <? o + len l)
        by (destruct (Z.ltb_spec (x mod BSIZE) (o + len l)), (Z.ltb_spec x (bn * BSIZE + o + len l)); lia).
      replace (x - (bn * BSIZE + o)) with (x mod BSIZE - o) by lia. done.
    + replace ((bn * BSIZE + o <=? x) && (x <? bn * BSIZE + o + len l)) with false.
      2: { destruct (Z.leb_spec (bn * BSIZE + o) x), (Z.ltb_spec x (bn * BSIZE + o + len l)); cbn; try done.
           exfalso. apply E. unfold BSIZE in *. mlia. }
      destruct (Z.eqb_spec (ptr (dsk s) A (RData (x / BSIZE))) 0) as [|Ep]; [done|].
      unfold blk, s'. cbn [dsk]. rewrite lookup_insert_ne; [done|]. intros Eb.
      pose proof (fk_own _ _ _ _ Hf _ Hrx Ep) as Ho2. rewrite <- Eb, Hown in Ho2. congruence.
  - intros i B Hi HfB. apply (file_frame i B (dsk s) own); [done|].
    intros c r Hc. split; [done|]. cbn. rewrite lookup_insert_ne; [done|]. intros <-. congruence.
  - intros c Hc _. cbn. rewrite lookup_insert_ne; [done|lia].
  - intros r Hr' _. by apply HP.
  - intros x Hx1 Hx2. assert (x / BSIZE = bn) as -> by (unfold BSIZE in *; mlia). rewrite HP by done. congruence.
  - intros c Hc. rewrite Hbits by done. by left.
Qed.

Lemma sub_bytes_app d off n1 n2 : 0 <= off -> 0 <= n1 -> 0 <= n2 ->
  sub_bytes d off (n1 + n2) = sub_bytes d off n1 ++ sub_bytes d (off + n1) n2.
Proof.
  intros. unfold sub_bytes. rewrite !Z2Nat.inj_add by lia. rewrite <- drop_drop.
  rewrite <- (take_drop (Z.to_nat n1) (take (Z.to_nat n1 + Z.to_nat n2) (drop (Z.to_nat off) d))).
  rewrite take_take, skipn_firstn_comm. f_equal; f_equal; lia.
Qed.

(** The caller's buffer holds [src]. *)
Definition fetches (fetch : Z -> Z -> bytes * bool) (src : bytes) : Prop :=
  forall t m bs ok, 0 <= t -> 0 < m -> t + m <= len src -> fetch t m = (bs, ok) ->
    bs = sub_bytes src t (len bs) /\ if ok then len bs = m else len bs < m.

(** The blocks on the way to the bytes from [off] to [off + n]. *)
Definition write_path (off n : Z) (r : role) : Prop :=
  exists bn, off / BSIZE <= bn <= (off + n - 1) / BSIZE /\ on_path bn r.

Lemma logs_mono (R R' : role -> Prop) s s' A : (forall r, R r -> R' r) -> logs R s s' A -> logs R' s s' A.
Proof.
  intros HR (L & E & F). exists L. split; [done|]. eapply Forall_impl; [exact F|].
  intros c [?|(r & Hr & HRr & Hc)]; [by left|]. right. exists r. auto.
Qed.

(** How the copy loop of a write ends: [k] bytes are in the file; all of them,
    unless the next chunk could not be fetched and [j] bytes of it only are in
    the buffer of their block. *)
Definition write_end (inum : Z) (fetch : Z -> Z -> bytes * bool) (src : bytes) (n tot off : Z) (s : fs) (A : list Z) (own : owners)
    (ok : bool) (off' : Z) (s' : fs) (A' : list Z) (own' : owners) : Prop :=
  exists k j, 0 <= k /\ 0 <= j /\ k + j <= n - tot /\ off' = off + k /\
    wrote inum off (sub_bytes src tot (k + j)) s A own s' A' own' /\
    logs (write_path off (n - tot)) s s' A' /\
    ((forall x, off <= x < off + (n - tot) -> ptr (dsk s) A (RData (x / BSIZE)) <> 0) -> A' = A) /\
    (if ok then k = n - tot /\ j = 0 else k + j < n - tot /\ exists m bs, fetch (tot + k) m = (bs, false)).

Lemma writei_loop_spec inum fuel fetch src n tot off ip s own :
  disk_ok (dsk s) own -> file_ok inum (i_addrs ip) (dsk s) own -> fetches fetch src -> len src = n ->
  0 <= tot <= n -> 0 <= off -> off + (n - tot) <= MAXFILE * BSIZE -> n - tot < Z.of_nat fuel ->
  (exists ok off' A' s' own', writei_loop sb fuel fetch n tot off ip s = Some (ok, off', set_addrs A' ip, s') /\
     write_end inum fetch src n tot off s (i_addrs ip) own ok off' s' A' own') \/
  (writei_loop sb fuel fetch n tot off ip s = None /\
   nfree (dsk s) < 3 * touched off (n - tot)).
Proof.
  intros Hd0 Hf0 Hfe Hn. revert tot off ip s own Hd0 Hf0.
  induction fuel as [|fuel IH]; intros tot off ip s own Hd Hf Ht Ho Hmax Hfuel; [lia|].
  cbn [writei_loop]. destruct (Z.ltb_spec tot n) as [Hlt|Hge].
  2: { left. exists true, off, (i_addrs ip), s, own. split; [by destruct ip|]. exists 0, 0. split; [lia|]. split; [lia|]. split; [lia|]. split; [lia|].
       split; [apply grown_wrote; [done|by apply grown_refl]|]. split; [apply logs_refl|]. split; [done|lia]. }
  destruct (block_number off ltac:(lia)) as [-> Hbn].
  destruct (bmap_spec inum ip (off / BSIZE) s own Hd Hf Hbn) as [(b & A1 & s1 & o1 & E1 & L1 & F1)|(E & Hfull)].
  2: { right. unfold pbind at 1. rewrite E. split; [done|]. pose proof (touched_pos off (n - tot) ltac:(lia) ltac:(lia)). lia. }
  rewrite (pbind_Some _ _ _ _ _ E1). destruct (located_block _ (RData (off / BSIZE)) _ _ _ _ _ _ _ _ Hbn L1) as (d & Hb & Hl).
  rewrite (bread_bind _ d) by done. cbv zeta.
  destruct (chunk_bounds n tot off ltac:(lia) Ho) as [Hm1 Hm2]. set (m := Z.min _ _) in *.
  pose proof (located_own _ (RData (off / BSIZE)) _ _ _ _ _ _ _ _ Hbn L1) as Hown.
  pose proof L1 as [G1 P1 N1 Lg1].
  assert (Hsame : (forall x, off <= x < off + (n - tot) -> ptr (dsk s) (i_addrs ip) (RData (x / BSIZE)) <> 0) -> A1 = i_addrs ip).
  { intros Hx. rewrite (bmap_found inum) with (own := own) in E1 by (done || apply Hx; lia). by destruct ip; injection E1. }
  assert (Hpath : forall r, on_path (off / BSIZE) r -> write_path off (n - tot) r).
  { intros r Hr. exists (off / BSIZE). split; [|done]. split; [lia|]. apply Z.div_le_mono; [by vm_compute|lia]. }
  destruct (fetch tot m) as [bs okf] eqn:Ef.
  destruct (Hfe tot m bs okf ltac:(lia) ltac:(lia) ltac:(lia) Ef) as [Ebs Hlb]. pose proof (len_nonneg bs) as Hbs0.
  pose proof (Z.mod_pos_bound off BSIZE ltac:(by vm_compute)) as Hmod.
  assert (W : forall L, wrote inum off bs s (i_addrs ip) own (mkFs (<[b := put d (off mod BSIZE) bs]> (dsk s1)) L) A1 o1).
  { intros L. pose proof (write_step inum s1 A1 o1 (off / BSIZE) b d (off mod BSIZE) bs L
      (gw_disk _ _ _ _ _ _ _ G1) (gw_file _ _ _ _ _ _ _ G1) Hbn P1 N1 Hb Hl ltac:(lia) ltac:(destruct okf; lia)) as W2.
    replace (off / BSIZE * BSIZE + off mod BSIZE) with (off + len (@nil Z)) in W2 by (change (len (@nil Z)) with 0; unfold BSIZE in *; mlia).
    exact (wrote_trans _ _ _ _ _ _ _ _ _ _ _ _ _ (grown_wrote inum off _ _ _ _ _ _ Hf G1) W2 ltac:(change (len (@nil Z)) with 0; lia)). }
  assert (HP2 : forall r L, role_ok r -> ptr (dsk (mkFs (<[b := put d (off mod BSIZE) bs]> (dsk s1)) L)) A1 r = ptr (dsk s1) A1 r).
  { intros r L. revert r. apply (ptr_frame inum A1 (dsk s1) o1); [apply G1|]. intros c r Hc Hnd. cbn [dsk].
    rewrite lookup_insert_ne; [done|]. intros <-. rewrite Hown in Hc. by injection Hc as <-. }
  destruct okf; cbn [negb].
  - rewrite log_bind. specialize (W (logged s1 ++ [b])). set (s2 := mkFs _ _) in *.
    assert (Lg2 : logs (write_path off (n - tot)) s s2 A1).
    { eapply logs_trans; [intros r Hr _; by apply HP2|exact Hpath|exact Lg1|]. exists [b]. split; [done|]. apply Forall_cons. split; [|done].
      right. exists (RData (off / BSIZE)). split; [done|]. split; [apply Hpath; by left|]. split; [done|]. unfold s2. by rewrite HP2. }
    destruct (IH (tot + m) (off + m) (set_addrs A1 ip) s2 o1)
      as [(ok & off' & A' & s' & own' & E2 & k & j & Hk & Hj & Hkj & -> & W3 & Lg3 & HA & Hend)|(E2 & Hfull)];
      [apply W|apply W|lia|lia|lia|lia| |].
    + left. exists ok, (off + m + k), A', s', own'. split; [done|]. exists (m + k), j. split; [lia|]. split; [lia|]. split; [lia|]. split; [lia|].
      split; [|split; [|split]].
      * rewrite <- Z.add_assoc, sub_bytes_app by lia. rewrite Hlb in Ebs. rewrite <- Ebs. eapply wrote_trans; [exact W|by rewrite Hlb|lia].
      * eapply logs_trans; [apply W3|intros r; exact id|exact Lg2|]. eapply logs_mono; [|exact Lg3].
        intros r (bn & Hbn' & Hr). exists bn. split; [|done]. assert (off / BSIZE <= (off + m) / BSIZE) by (apply Z.div_le_mono; [by vm_compute|lia]).
        replace (off + (n - tot) - 1) with (off + m + (n - (tot + m)) - 1) by lia. lia.
      * intros Hx. cbn [i_addrs set_addrs] in HA. rewrite <- Hsame by done. apply HA. intros x Hx'.
        rewrite (wr_ptr _ _ _ _ _ _ _ _ _ W).
        -- apply Hx. lia.
        -- cbn. unfold BSIZE in *. mlia.
        -- apply Hx. lia.
      * destruct ok; [lia|]. destruct Hend as (? & m' & bs' & ?). split; [lia|]. exists m', bs'. by replace (tot + (m + k)) with (tot + m + k) by lia.
    + right. split; [done|]. rewrite (touched_step off (n - tot) m) by (done || lia). replace (n - tot - m) with (n - (tot + m)) by lia.
      assert (Hsame2 : nfree (dsk s2) = nfree (dsk s1)) by (apply nfree_same, bit_same; intros c Hc; cbn; rewrite lookup_insert_ne; [done|]; intros <-; pose proof (owned_data _ _ _ _ (gw_disk _ _ _ _ _ _ _ G1) Hown); lia). lia.
  - left. exists false, off, A1, (mkFs (<[b := put d (off mod BSIZE) bs]> (dsk s1)) (logged s1)), o1. split; [done|].
    exists 0, (len bs). split; [lia|]. split; [lia|]. split; [lia|]. split; [lia|].
    split; [rewrite Z.add_0_l, <- Ebs; apply W|]. split; [|split; [done|split; [lia|]; exists m, bs; by rewrite Z.add_0_r]].
    eapply logs_mono; [exact Hpath|]. destruct Lg1 as (L & EL & FL). exists L. split; [done|].
    eapply Forall_impl; [exact FL|]. intros c [?|(r & Hr & HRr & Hc & Ec)]; [by left|]. right. exists r. by rewrite HP2.
Qed.

(** *** Truncation *)

(** The blocks of file [inum] with a role in [R] have been freed; the tree as
    it was is still on the disk. *)
Record freed (inum : Z) (A : list Z) (R : role -> Prop) (s : fs) (own : owners) (s' : fs) (own' : owners) : Prop := {
  fd_disk : disk_ok (dsk s') own';
  fd_data c : datastart sb <= c -> dsk s' !! c = dsk s !! c;
  fd_meta c : 0 <= c < datastart sb -> (forall b, 0 <= b < sb_size sb -> c <> BBLOCK sb b) -> dsk s' !! c = dsk s !! c;
  fd_own c o : own' !! c = Some o <->
    own !! c = Some o /\ ~ (exists r, role_ok r /\ R r /\ o = (inum, r) /\ c = ptr (dsk s) A r);
  fd_bit c : 0 <= c < sb_size sb -> bit sb (dsk s') c = true <->
    bit sb (dsk s) c = true /\ ~ (exists r, role_ok r /\ R r /\ c <> 0 /\ c = ptr (dsk s) A r);
  fd_log : exists L, logged s' = logged s ++ L /\ Forall (fun c => exists b, 0 <= b < sb_size sb /\ c = BBLOCK sb b) L
}.

Lemma freed_refl inum A R s own : disk_ok (dsk s) own -> (forall r, role_ok r -> R r -> ptr (dsk s) A r = 0) -> freed inum A R s own s own.
Proof.
  intros Hd HR. split; try done.
  - intros c o. split; [|tauto]. intros Hc. split; [done|]. intros (r & Hr & HRr & _ & Ec).
    rewrite (HR r Hr HRr) in Ec. destruct (dk_own _ _ Hd c o Hc) as [Hds _].
    pose proof (bmap_range sb SB 0 ltac:(pose proof (sbo_size _ SB); lia)). lia.
  - intros c Hc. split; [|tauto]. intros Hb. split; [done|]. intros (r & Hr & HRr & Hn & Ec). by rewrite HR in Ec.
  - exists []. by rewrite app_nil_r.
Qed.

(** The tree on a disk whose data blocks did not change. *)
Lemma ptr_data i B D own D' : file_ok i B D own -> disk_ok D own ->
  (forall c, datastart sb <= c -> D' !! c = D !! c) -> forall r, role_ok r -> ptr D' B r = ptr D B r.
Proof.
  intros Hf Hd Hs. apply (ptr_frame i B D own); [done|]. intros c r Hc _. apply Hs. by eapply owned_data.
Qed.

Lemma freed_trans inum A R1 R2 s1 o1 s2 o2 s3 o3 : disk_ok (dsk s1) o1 -> file_ok inum A (dsk s1) o1 ->
  freed inum A R1 s1 o1 s2 o2 -> freed inum A R2 s2 o2 s3 o3 -> freed inum A (fun r => R1 r \/ R2 r) s1 o1 s3 o3.
Proof.
  intros Hd Hf F G. assert (HP : forall r, role_ok r -> ptr (dsk s2) A r = ptr (dsk s1) A r)
    by (eapply ptr_data; eauto; apply F). split.
  - apply G.
  - intros c Hc. rewrite (fd_data _ _ _ _ _ _ _ G) by done. by apply (fd_data _ _ _ _ _ _ _ F).
  - intros c Hc Hn. rewrite (fd_meta _ _ _ _ _ _ _ G) by done. by apply (fd_meta _ _ _ _ _ _ _ F).
  - intros c o. rewrite (fd_own _ _ _ _ _ _ _ G), (fd_own _ _ _ _ _ _ _ F). split.
    + intros [[Ho H1] H2]. split; [done|]. intros (r & Hr & [HR|HR] & Eo & Ec); [apply H1|apply H2]; exists r; split_and!; try done.
      by rewrite HP.
    + intros [Ho H]. split; [split; [done|]|]; intros (r & Hr & HR & Eo & Ec); apply H; exists r; split_and!; try done.
      * by left.
      * by right.
      * by rewrite <- HP.
  - intros c Hc. rewrite (fd_bit _ _ _ _ _ _ _ G), (fd_bit _ _ _ _ _ _ _ F) by done. split.
    + intros [[Ho H1] H2]. split; [done|]. intros (r & Hr & [HR|HR] & Eo & Ec); [apply H1|apply H2]; exists r; split_and!; try done.
      by rewrite HP.
    + intros [Ho H]. split; [split; [done|]|]; intros (r & Hr & HR & Eo & Ec); apply H; exists r; split_and!; try done.
      * by left.
      * by right.
      * by rewrite <- HP.
  - destruct (fd_log _ _ _ _ _ _ _ F) as (L & E & FL), (fd_log _ _ _ _ _ _ _ G) as (L' & E' & FL').
    exists (L ++ L'). rewrite E', E, app_assoc. split; [done|]. by apply Forall_app.
Qed.

Lemma freed_mono inum A R R' s own s' own' : (forall r, role_ok r -> R r <-> R' r) -> freed inum A R s own s' own' -> freed inum A R' s own s' own'.
Proof.
  intros HR F. split; try apply F; [intros c o; rewrite (fd_own _ _ _ _ _ _ _ F)|
    intros c Hc; rewrite (fd_bit _ _ _ _ _ _ _ F) by done]; split; intros [Ho Hn]; (split; [done|]);
    intros (r & Hr & HRr & E1 & E2); apply Hn; exists r; split_and!; try done; by apply HR.
Qed.

(** Freed blocks do not take away from the rest of the tree. *)
Lemma freed_file inum A R s own s' own' : disk_ok (dsk s) own -> file_ok inum A (dsk s) own -> freed inum A R s own s' own' ->
  forall r, role_ok r -> ~ R r -> ptr (dsk s') A r <> 0 -> own' !! ptr (dsk s') A r = Some (inum, r).
Proof.
  intros Hd Hf F r Hr HR. rewrite (ptr_data inum A (dsk s) own) by (done || apply F). intros Hp.
  apply (fd_own _ _ _ _ _ _ _ F). split; [by apply Hf|]. intros (r' & _ & HR' & E & _). congruence.
Qed.

Lemma bfree_step inum A s own r b : disk_ok (dsk s) own -> role_ok r -> ptr (dsk s) A r = b -> own !! b = Some (inum, r) ->
  exists s', bfree sb b s = Some (tt, s') /\ freed inum A (eq r) s own s' (delete b own).
Proof.
  intros Hd Hr Hp Ho. destruct (dk_own _ _ Hd b _ Ho) as [Hb Hbit].
  pose proof (bmap_range sb SB 0 ltac:(pose proof (sbo_size _ SB); lia)) as H0.
  destruct (proj1 (bfree_spec sb SB s b (dk_blocks _ _ Hd) ltac:(lia)) Hbit) as (s' & E & Hrel).
  pose proof (bmap_range sb SB b ltac:(lia)) as HB.
  exists s'. split; [done|]. split.
  - split; [by eapply released_ok; [exact SB|apply Hd|exact Hrel|lia]|].
    intros c o Hc. apply lookup_delete_Some in Hc as [Hne Hc]. destruct (dk_own _ _ Hd c o Hc) as [Hc1 Hc2].
    split; [done|]. rewrite (rl_bit _ _ _ _ Hrel), Hc2 by lia. destruct (Z.eqb_spec c b); [congruence|done].
  - intros c Hc. apply (rl_other _ _ _ _ Hrel). lia.
  - intros c Hc Hn. apply (rl_other _ _ _ _ Hrel). apply Hn. lia.
  - intros c o. rewrite lookup_delete_Some. split.
    + intros [Hne Hc]. split; [done|]. intros (r' & _ & <- & _ & Ec). congruence.
    + intros [Hc Hn]. split; [|done]. intros <-. apply Hn. exists r. split_and!; try done. congruence.
  - intros c Hc. rewrite (rl_bit _ _ _ _ Hrel), andb_true_iff, negb_true_iff, Z.eqb_neq by done. split.
    + intros [Hne Hbc]. split; [done|]. intros (r' & _ & <- & _ & Ec). congruence.
    + intros [Hbc Hn]. split; [|done]. intros ->. apply Hn. exists r. split_and!; try done. lia.
  - exists [BBLOCK sb b]. split; [apply Hrel|]. apply Forall_cons. split; [|done]. exists b. split; [lia|done].
Qed.
End Tree.
