(* ===== verification/FsInode.v ===== *)
(** * Inodes: truncation, the inode on disk, and the contracts of
    [readi], [writei] and [itrunc] of [src/kernel/fs/fs.c] *)

From S2P Require Import Prelude NetBytes Log FsBlock FsFile.

(** ** The disk image of an inode *)

Definition is_s16 (x : Z) : Prop := -32768 <= x < 32768.

(** The fields fit their widths. *)
Record inode_wf (ip : inode) : Prop := {
  iw_type : is_s16 (i_type ip);
  iw_major : is_s16 (i_major ip);
  iw_minor : is_s16 (i_minor ip);
  iw_nlink : is_s16 (i_nlink ip);
  iw_uid : is_s16 (i_uid ip);
  iw_gid : is_s16 (i_gid ip);
  iw_mode : is_s16 (i_mode ip);
  iw_size : is_u32 (i_size ip);
  iw_addrs : Forall is_u32 (i_addrs ip) /\ length (i_addrs ip) = 11%nat
}.

Lemma sub_put_in d off l a n : 0 <= off -> off + len l <= len d -> 0 <= a -> 0 <= n -> a + n <= len l ->
  sub_bytes (put d off l) (off + a) n = sub_bytes l a n.
Proof.
  unfold len. intros. apply list_eq. intros i. rewrite !lookup_sub. case_bool_decide; [|done].
  rewrite lookup_put by lia. rewrite bool_decide_eq_true_2 by lia. f_equal. lia.
Qed.

Lemma sub_put_out d off l a n : 0 <= off -> off + len l <= len d -> 0 <= a -> 0 <= n -> a + n <= off \/ off + len l <= a ->
  sub_bytes (put d off l) a n = sub_bytes d a n.
Proof.
  unfold len. intros. apply sub_bytes_ext. intros i Hi. rewrite lookup_put by lia. by rewrite bool_decide_eq_false_2 by lia.
Qed.

Lemma s16_le16 v : is_s16 v -> s16 (rd16 (le16 v)) = v.
Proof.
  unfold is_s16, s16, le16, rd16, byte_of. intros. change (2 ^ (8 * 0)) with 1. change (2 ^ (8 * 1)) with 256. mlia.
Qed.

Lemma enc_lens ip : length (i_addrs ip) = 11%nat -> len (enc_shorts ip) = 14 /\ len (enc_rest ip) = 48.
Proof.
  intros H. split; [done|]. unfold enc_rest. rewrite len_app. change (len (le32 (i_size ip))) with 4.
  destruct (i_addrs ip) as [|?[|?[|?[|?[|?[|?[|?[|?[|?[|?[|?[|??]]]]]]]]]]]]; done.
Qed.

Lemma slot_bounds i : 0 <= DINODE_SIZE * (i mod IPB) /\ DINODE_SIZE * (i mod IPB) + 64 <= BSIZE.
Proof. unfold DINODE_SIZE, BSIZE. change IPB with 8. mlia. Qed.

Lemma put_dinode_len d ip : len d = BSIZE -> length (i_addrs ip) = 11%nat -> len (put_dinode d ip) = BSIZE.
Proof.
  intros Hd Hl. destruct (enc_lens ip Hl). pose proof (slot_bounds (i_inum ip)). unfold put_dinode. cbv zeta.
  set (off := DINODE_SIZE * _) in *.
  assert (Hp : length (put d off (enc_shorts ip)) = length d) by (unfold len in *; rewrite put_length; lia).
  unfold len in *. rewrite put_length; lia.
Qed.

(** Field access through the two stores of [put_dinode]. *)
Lemma put_short d ip a x : len d = BSIZE -> length (i_addrs ip) = 11%nat -> is_s16 x -> 0 <= a <= 12 ->
  sub_bytes (enc_shorts ip) a 2 = le16 x -> short_at (put_dinode d ip) (DINODE_SIZE * (i_inum ip mod IPB) + a) = x.
Proof.
  intros Hd Hl Hx Ha E. destruct (enc_lens ip Hl) as [H1 H2]. pose proof (slot_bounds (i_inum ip)).
  unfold short_at, put_dinode. cbv zeta. set (off := DINODE_SIZE * _) in *.
  assert (Hp : len (put d off (enc_shorts ip)) = BSIZE) by (unfold len in *; rewrite put_length; lia).
  rewrite sub_put_out by (lia || (left; lia)). rewrite sub_put_in, E by lia. by apply s16_le16.
Qed.

Lemma put_uint d ip a x : len d = BSIZE -> length (i_addrs ip) = 11%nat -> is_u32 x -> 0 <= a <= 44 ->
  sub_bytes (enc_rest ip) a 4 = le32 x -> uint_at (put_dinode d ip) (DINODE_SIZE * (i_inum ip mod IPB) + 16 + a) = x.
Proof.
  intros Hd Hl Hx Ha E. destruct (enc_lens ip Hl) as [H1 H2]. pose proof (slot_bounds (i_inum ip)).
  unfold uint_at, put_dinode. cbv zeta. set (off := DINODE_SIZE * _) in *.
  assert (Hp : len (put d off (enc_shorts ip)) = BSIZE) by (unfold len in *; rewrite put_length; lia).
  rewrite sub_put_in, E by lia. by apply rd32_le32.
Qed.

Lemma dinode_roundtrip d ip : len d = BSIZE -> inode_wf ip -> get_dinode (put_dinode d ip) (i_dev ip) (i_inum ip) = ip.
Proof.
  intros Hd W. destruct (iw_addrs ip W) as [HA Hl]. unfold get_dinode. cbv zeta.
  set (off := DINODE_SIZE * (i_inum ip mod IPB)).
  assert (Ha : ((fun i => uint_at (put_dinode d ip) (off + 20 + 4 * Z.of_nat i)) <$> seq 0 (Z.to_nat NADDRS)) = i_addrs ip).
  { apply list_eq. intros i. rewrite list_lookup_fmap. change (Z.to_nat NADDRS) with 11%nat.
    destruct (decide (i < 11)%nat) as [Hi|Hi].
    2: { rewrite lookup_seq_ge, lookup_ge_None_2 by lia. done. }
    rewrite lookup_seq_lt by done. cbn [fmap option_fmap option_map Nat.add].
    destruct (lookup_lt_is_Some_2 (i_addrs ip) i) as [x Ex]; [lia|]. rewrite Ex. f_equal.
    replace (off + 20 + 4 * Z.of_nat i) with (off + 16 + (4 + 4 * Z.of_nat i)) by lia.
    apply put_uint; [done|done|by eapply Forall_lookup in HA|lia|].
    clear HA. unfold enc_rest. destruct ip as [? ? ? ? ? ? ? ? ? sz A]. cbn [i_size i_addrs] in *.
    do 11 (destruct A as [|? A]; [done|]). destruct A; [|done]. clear W Hd.
    do 11 (destruct i as [|i]; [by injection Ex as <-|]). lia. }
  assert (H0 : short_at (put_dinode d ip) off = i_type ip)
    by (rewrite <- (Z.add_0_r off); apply put_short; done || apply W || lia).
  assert (Hs : uint_at (put_dinode d ip) (off + 16) = i_size ip)
    by (rewrite <- (Z.add_0_r (off + 16)); apply put_uint; done || apply W || lia).
  rewrite Ha, H0, Hs. unfold off.
  rewrite (put_short d ip 2 (i_major ip)), (put_short d ip 4 (i_minor ip)),
    (put_short d ip 6 (i_nlink ip)), (put_short d ip 8 (i_uid ip)), (put_short d ip 10 (i_gid ip)),
    (put_short d ip 12 (i_mode ip)) by (done || apply W || lia).
  by destruct ip.
Qed.

(** An inode depends on its 64 bytes only. *)
Lemma get_dinode_ext d d' dev j :
  (forall a n, 0 <= a -> 0 <= n -> a + n <= 64 ->
    sub_bytes d' (DINODE_SIZE * (j mod IPB) + a) n = sub_bytes d (DINODE_SIZE * (j mod IPB) + a) n) ->
  get_dinode d' dev j = get_dinode d dev j.
Proof.
  intros E. unfold get_dinode, short_at, uint_at. cbv zeta. set (off := DINODE_SIZE * (j mod IPB)) in *.
  pose proof (E 0 2 ltac:(lia) ltac:(lia) ltac:(lia)) as E0. rewrite Z.add_0_r in E0.
  rewrite E0, !E by lia. f_equal. apply list_fmap_ext. intros i x Hx. apply lookup_seq in Hx as [-> Hi].
  change (Z.to_nat NADDRS) with 11%nat in Hi. rewrite <- !Z.add_assoc. by rewrite E by lia.
Qed.

(** Bytes written to one inode leave the others of the block alone. *)
Lemma slot_other d l k dev j : len d = BSIZE -> len l <= 64 -> j mod IPB <> k mod IPB ->
  forall a, 0 <= a -> a + len l <= 64 -> get_dinode (put d (DINODE_SIZE * (k mod IPB) + a) l) dev j = get_dinode d dev j.
Proof.
  intros Hd Hl Hj a Ha Hal. pose proof (slot_bounds k). pose proof (slot_bounds j). apply get_dinode_ext. intros b n Hb Hn Hbn.
  unfold DINODE_SIZE in *. apply sub_put_out; lia.
Qed.

Lemma dinode_other d ip dev j : len d = BSIZE -> length (i_addrs ip) = 11%nat -> j mod IPB <> i_inum ip mod IPB ->
  get_dinode (put_dinode d ip) dev j = get_dinode d dev j.
Proof.
  intros Hd Hl Hj. destruct (enc_lens ip Hl) as [H1 H2]. pose proof (slot_bounds (i_inum ip)). unfold put_dinode. cbv zeta.
  assert (Hp : len (put d (DINODE_SIZE * (i_inum ip mod IPB)) (enc_shorts ip)) = BSIZE) by (unfold len in *; rewrite put_length; lia).
  rewrite slot_other by lia. rewrite <- (Z.add_0_r (DINODE_SIZE * _)). by apply slot_other; lia.
Qed.

Section Inodes.
Context (sb : superblock) (SB : sb_ok sb).

(** ** Truncation *)

(** Slot [k] of an index block. *)
Definition child (p : role) (k : Z) : role :=
  match p with
  | RInd => RData (k + 9)
  | RDind => RInner k
  | RInner o => RData (137 + 128 * o + k)
  | RData _ => p
  end.

Lemma child_ok p k : role_ok p -> is_data p = false -> 0 <= k < 128 ->
  role_ok (child p k) /\ parent (child p k) = Some (p, k).
Proof.
  destruct p as [bn| | |o]; cbn [role_ok is_data child]; rewrite ?NINDIRECT_value, ?MAXFILE_value; intros Hp Hd Hk; try done.
  - split; [lia|]. cbn. rewrite (proj2 (Z.ltb_ge (k + 9) 9)), (proj2 (Z.ltb_lt (k + 9) 137)) by lia. do 2 f_equal. lia.
  - split; [lia|]. cbn [parent].
    rewrite (proj2 (Z.ltb_ge (137 + 128 * o + k) 9)), (proj2 (Z.ltb_ge (137 + 128 * o + k) 137)) by lia.
    do 2 f_equal; [f_equal; mlia|mlia].
Qed.

Lemma child_parent r p k : role_ok r -> parent r = Some (p, k) -> r = child p k.
Proof.
  intros Hr E. pose proof (ptr_parent ∅ [] r Hr) as H. rewrite E in H. destruct H as (_ & Hp & Hk & _).
  destruct (child_ok p k Hp (parent_index r p k E) Hk) as [Hc Ec]. by eapply parent_inj.
Qed.

Section Truncation.
Context (inum : Z) (A : list Z) (s0 : fs) (own0 : owners)
  (Hd0 : disk_ok sb (dsk s0) own0) (Hf0 : file_ok inum A (dsk s0) own0).

(** Since [s0], the blocks with a role in [R] were freed. *)
Abbreviation gone R s own := (freed sb inum A R s0 own0 s own).

(** Roles whose pointers are 0 count as freed. *)
Lemma gone_zeros R Q s own : gone R s own -> (forall r, role_ok r -> Q r -> ptr (dsk s0) A r = 0) ->
  gone (fun x => R x \/ Q x) s own.
Proof.
  intros F HQ. eapply (freed_trans sb); [done|done|exact F|]. apply (freed_refl sb SB); [apply F|].
  intros r Hr Hq. rewrite (ptr_data sb inum A (dsk s0) own0) by (done || apply F). auto.
Qed.

(** [if(a) bfree(a)] for a block that is still there. *)
Lemma free_role R r s own : gone R s own -> role_ok r -> ~ R r ->
  exists s' own', (if negb (ptr (dsk s0) A r =? 0) then bfree sb (ptr (dsk s0) A r) else pret tt) s = Some (tt, s') /\
    gone (fun x => R x \/ x = r) s' own'.
Proof.
  intros F Hr HR. destruct (Z.eqb_spec (ptr (dsk s0) A r) 0) as [E|E]; cbn [negb].
  { exists s, own. split; [done|]. by apply (gone_zeros R (fun x => x = r)); [|intros r' _ ->]. }
  assert (HP : ptr (dsk s) A r = ptr (dsk s0) A r) by (apply (ptr_data sb inum A (dsk s0) own0); done || apply F).
  destruct (bfree_step sb SB inum A s own r (ptr (dsk s0) A r) (fd_disk _ _ _ _ _ _ _ _ F) Hr HP) as (s' & E' & F').
  { rewrite <- HP. eapply (freed_file sb inum A R); try done. by rewrite HP. }
  exists s', (delete (ptr (dsk s0) A r) own). split; [done|].
  eapply freed_mono; [|exact (freed_trans sb inum A R (eq r) _ _ _ _ _ _ Hd0 Hf0 F F')]. intros x _. intuition congruence.
Qed.

Lemma gone_mono (R R' : role -> Prop) s own : (forall r, role_ok r -> R r <-> R' r) -> gone R s own -> gone R' s own.
Proof. apply freed_mono. Qed.

(** The index blocks as they were can still be read. *)
Lemma gone_read R s own p j : gone R s own -> role_ok p -> ptr (dsk s0) A p <> 0 -> is_data p = false -> 0 <= j < 128 ->
  exists d, dsk s !! ptr (dsk s0) A p = Some d /\ word_at d j = ptr (dsk s0) A (child p j).
Proof.
  intros F Hp Hb Hi Hj. pose proof (fk_own _ _ _ _ Hf0 p Hp Hb) as Ho.
  destruct (dk_own _ _ _ Hd0 _ _ Ho) as [Hr _]. pose proof (bmap_range sb SB 0 ltac:(pose proof (sbo_size _ SB); lia)).
  destruct (bk_len _ _ (dk_blocks _ _ _ Hd0) (ptr (dsk s0) A p)) as (d & Ed & _); [lia|].
  exists d. split; [by rewrite (fd_data _ _ _ _ _ _ _ _ F) by lia|].
  destruct (child_ok p j Hp Hi Hj) as [Hc Ec]. pose proof (ptr_parent (dsk s0) A (child p j) Hc) as HP.
  rewrite Ec in HP. destruct HP as (-> & _). unfold entry, blk. by rewrite (proj2 (Z.eqb_neq _ 0) Hb), Ed.
Qed.

Lemma free_words_spec n p j R s own : gone R s own -> role_ok p -> ptr (dsk s0) A p <> 0 -> is_data p = false ->
  0 <= j -> j + Z.of_nat n <= 128 -> (forall k, j <= k < 128 -> ~ R (child p k)) ->
  exists s' own', free_words sb n j (ptr (dsk s0) A p) s = Some (tt, s') /\
    gone (fun x => R x \/ exists k, j <= k < j + Z.of_nat n /\ x = child p k) s' own'.
Proof.
  revert j R s own. induction n as [|n IH]; intros j R s own F Hp Hb Hi Hj Hn HR; cbn [free_words].
  { exists s, own. split; [done|]. eapply gone_mono; [|exact F]. intros r _. split; [by left|]. intros [|(k & Hk & _)]; [done|lia]. }
  destruct (gone_read R s own p j F Hp Hb Hi ltac:(lia)) as (d & Ed & Ew). rewrite (bread_bind _ d) by done. rewrite Ew.
  destruct (child_ok p j Hp Hi ltac:(lia)) as [Hc Ec].
  destruct (free_role R (child p j) s own F Hc (HR j ltac:(lia))) as (s1 & o1 & E1 & F1).
  rewrite (pbind_Some _ _ _ _ _ E1).
  destruct (IH (j + 1) _ s1 o1 F1 Hp Hb Hi) as (s2 & o2 & E2 & F2); [lia|lia| |].
  { intros k Hk [H|H]; [by apply (HR k ltac:(lia))|]. destruct (child_ok p k Hp Hi ltac:(lia)) as [_ Ek].
    rewrite H, Ec in Ek. injection Ek as ->. lia. }
  exists s2, o2. split; [done|]. eapply gone_mono; [|exact F2]. intros r _. split.
  - intros [[?| ->]|(k & Hk & ->)]; [by left|right; exists j; split; [lia|done]|right; exists k; split; [lia|done]].
  - intros [?|(k & Hk & ->)]; [by left; left|]. destruct (decide (k = j)) as [->|]; [by left; right|].
    right. exists k. split; [lia|done].
Qed.

Lemma child_zero p k : role_ok p -> is_data p = false -> 0 <= k < 128 -> ptr (dsk s0) A p = 0 -> ptr (dsk s0) A (child p k) = 0.
Proof.
  intros Hp Hi Hk Hz. destruct (child_ok p k Hp Hi Hk) as [Hc Ec]. pose proof (ptr_parent (dsk s0) A _ Hc) as HP.
  rewrite Ec in HP. destruct HP as (-> & _). unfold entry. by rewrite Hz.
Qed.

(** An inner index block and what it points to. *)
Definition below (i : Z) (r : role) : Prop := r = RInner i \/ exists k, 0 <= k < 128 /\ r = child (RInner i) k.

Lemma below_inj i i' r : 0 <= i < 128 -> 0 <= i' < 128 -> below i r -> below i' r -> i = i'.
Proof.
  intros Hi Hi' [->|(k & Hk & ->)] [E|(k' & Hk' & E)]; try (by cbn in E); cbn in E; injection E; lia.
Qed.

Lemma free_inner_spec n i R s own : gone R s own -> ptr (dsk s0) A RDind <> 0 ->
  0 <= i -> i + Z.of_nat n <= 128 -> (forall k r, i <= k < 128 -> below k r -> ~ R r) ->
  exists s' own', free_inner sb n i (ptr (dsk s0) A RDind) s = Some (tt, s') /\
    gone (fun x => R x \/ exists k, i <= k < i + Z.of_nat n /\ below k x) s' own'.
Proof.
  revert i R s own. induction n as [|n IH]; intros i R s own F Hb Hi Hn HR; cbn [free_inner].
  { exists s, own. split; [done|]. eapply gone_mono; [|exact F]. intros r _. split; [by left|]. intros [|(k & Hk & _)]; [done|lia]. }
  destruct (gone_read R s own RDind i F I Hb eq_refl ltac:(lia)) as (d & Ed & Ew). cbn [child] in Ew.
  rewrite (bread_bind _ d) by done.
  assert (Hpi : role_ok (RInner i)) by (cbn; rewrite NINDIRECT_value; lia).
  assert (Hstep : exists s1 o1, (if word_at d i =? 0 then pret tt
       else free_words sb (Z.to_nat NINDIRECT) 0 (word_at d i) >>>
            let! d := fs_bread_checked (ptr (dsk s0) A RDind) in bfree sb (word_at d i)) s = Some (tt, s1) /\
       gone (fun x => R x \/ below i x) s1 o1).
  { rewrite Ew. destruct (Z.eqb_spec (ptr (dsk s0) A (RInner i)) 0) as [E|E].
    - exists s, own. split; [done|]. apply gone_zeros; [done|]. intros r Hr [->|(k & Hk & ->)]; [done|].
      by apply child_zero.
    - destruct (free_words_spec (Z.to_nat NINDIRECT) (RInner i) 0 R s own F Hpi E eq_refl) as (s1 & o1 & E1 & F1);
        [lia|by vm_compute| |].
      { intros k Hk. apply (HR i); [lia|]. right. exists k. split; [lia|done]. }
      rewrite (pbind_Some _ _ _ _ _ E1).
      destruct (gone_read _ s1 o1 RDind i F1 I Hb eq_refl ltac:(lia)) as (d1 & Ed1 & Ew1). cbn [child] in Ew1.
      rewrite (bread_bind _ d1) by done. rewrite Ew1.
      destruct (free_role _ (RInner i) s1 o1 F1 Hpi) as (s2 & o2 & E2 & F2).
      { intros [H|(k & _ & H)]; [|done]. by apply (HR i (RInner i) ltac:(lia)); [left|]. }
      rewrite (proj2 (Z.eqb_neq _ 0) E) in E2. cbn [negb] in E2. exists s2, o2. split; [done|].
      eapply gone_mono; [|exact F2]. intros r _. change (0 + Z.of_nat (Z.to_nat NINDIRECT)) with 128. unfold below. tauto. }
  destruct Hstep as (s1 & o1 & E1 & F1). rewrite (pbind_Some _ _ _ _ _ E1).
  destruct (IH (i + 1) _ s1 o1 F1 Hb) as (s2 & o2 & E2 & F2); [lia|lia| |].
  { intros k r Hk Hbl [H|H]; [by apply (HR k r ltac:(lia))|]. assert (k = i) by (by eapply below_inj; [..|done|done]; lia). lia. }
  exists s2, o2. split; [done|]. eapply gone_mono; [|exact F2]. intros r _. split.
  - intros [[?|?]|(k & Hk & ?)]; [by left|right; exists i; split; [lia|done]|right; exists k; split; [lia|done]].
  - intros [?|(k & Hk & ?)]; [by left; left|]. destruct (decide (k = i)) as [->|]; [by left; right|].
    right. exists k. split; [lia|done].
Qed.

Lemma free_direct_spec n j ip R s own : gone R s own -> length (i_addrs ip) = 11%nat -> 0 <= j -> j + Z.of_nat n <= 9 ->
  (forall k, j <= k < 9 -> addr ip k = ptr (dsk s0) A (RData k) /\ ~ R (RData k)) ->
  exists A' s' own', free_direct sb n j ip s = Some (set_addrs A' ip, s') /\ length A' = 11%nat /\
    (forall k, nth k A' 0 = if decide (j <= Z.of_nat k < j + Z.of_nat n) then 0 else nth k (i_addrs ip) 0) /\
    gone (fun x => R x \/ exists k, j <= k < j + Z.of_nat n /\ x = RData k) s' own'.
Proof.
  revert j ip R s own. induction n as [|n IH]; intros j ip R s own F Hl Hj Hn HR; cbn [free_direct].
  { exists (i_addrs ip), s, own. split; [by destruct ip|]. split; [done|]. split; [intros k; rewrite decide_False by lia; done|].
    eapply gone_mono; [|exact F]. intros r _. split; [by left|]. intros [|(k & Hk & _)]; [done|lia]. }
  destruct (HR j ltac:(lia)) as [Ej HRj].
  destruct (free_role R (RData j) s own F) as (s1 & o1 & E1 & F1); [cbn; rewrite MAXFILE_value; lia|done|].
  set (ip1 := if addr ip j =? 0 then ip else set_addr j 0 ip).
  assert (Hz : forall k, nth k (i_addrs ip1) 0 = if decide (k = Z.to_nat j) then 0 else nth k (i_addrs ip) 0).
  { intros k. unfold ip1. destruct (Z.eqb_spec (addr ip j) 0) as [E|E].
    - destruct (decide (k = Z.to_nat j)) as [->|]; done.
    - cbn. rewrite nth_insert by lia. done. }
  destruct (IH (j + 1) ip1 _ s1 o1 F1) as (A' & s2 & o2 & E2 & Hl2 & Hn2 & F2).
  - unfold ip1. destruct (addr ip j =? 0); cbn; by rewrite ?length_insert.
  - lia.
  - lia.
  - intros k Hk. destruct (HR k ltac:(lia)) as [Ek HRk]. split.
    + unfold addr. rewrite Hz, decide_False by lia. done.
    + intros [?|E]; [done|]. injection E. lia.
  - exists A', s2, o2. split.
    { rewrite <- Ej in E1. replace (set_addrs A' ip) with (set_addrs A' ip1) by (unfold ip1; by destruct (addr ip j =? 0)).
      rewrite <- E2. unfold ip1. destruct (Z.eqb_spec (addr ip j) 0) as [E|E]; cbn [negb] in *.
      - unfold pret in E1. by injection E1 as ->.
      - by rewrite (pbind_Some _ _ _ _ _ E1). }
    split; [done|]. split.
    + intros k. rewrite Hn2, Hz. repeat case_decide; try done; lia.
    + eapply gone_mono; [|exact F2]. intros r _. split.
      * intros [[?| ->]|(k & Hk & ->)]; [by left|right; exists j; split; [lia|done]|right; exists k; split; [lia|done]].
      * intros [?|(k & Hk & ->)]; [by left; left|]. destruct (decide (k = j)) as [->|]; [by left; right|].
        right. exists k. split; [lia|done].
Qed.

(** The three parts of the tree. *)
Definition in_direct (r : role) : Prop := exists k, 0 <= k < 9 /\ r = RData k.
Definition in_single (r : role) : Prop := r = RInd \/ exists k, 0 <= k < 128 /\ r = child RInd k.
Definition in_double (r : role) : Prop := r = RDind \/ exists i, 0 <= i < 128 /\ below i r.

Lemma roles_cover r : role_ok r -> (in_direct r \/ in_single r) \/ in_double r.
Proof.
  destruct r as [bn| | |o]; cbn [role_ok]; rewrite ?MAXFILE_value, ?NINDIRECT_value; intros Hr.
  - destruct (Z.lt_ge_cases bn 9); [left; left; exists bn; split; [lia|done]|].
    destruct (Z.lt_ge_cases bn 137).
    + left. right. right. exists (bn - 9). split; [lia|]. cbn. f_equal. lia.
    + right. right. exists ((bn - 137) / 128). split; [mlia|]. right. exists ((bn - 137) mod 128). split; [mlia|].
      cbn. f_equal. mlia.
  - left. right. by left.
  - right. by left.
  - right. right. exists o. split; [done|]. by left.
Qed.

Lemma parts_disjoint r : (in_direct r -> ~ in_single r) /\ (in_direct r \/ in_single r -> ~ in_double r).
Proof.
  unfold in_direct, in_single, in_double, below. split.
  - intros (k & Hk & ->) [E|(k' & Hk' & E)]; [done|]. injection E. lia.
  - intros [(k & Hk & ->)|[->|(k & Hk & ->)]] [E|(i & Hi & [E|(k' & Hk' & E)])]; try (by cbn in E); cbn in E; injection E; lia.
Qed.

Lemma trunc_single ip s own R : gone R s own -> addr ip INDIRECT_INDEX = ptr (dsk s0) A RInd ->
  (forall r, in_single r -> ~ R r) ->
  exists s' own', (if negb (addr ip INDIRECT_INDEX =? 0) then
      free_words sb (Z.to_nat NINDIRECT) 0 (addr ip INDIRECT_INDEX) >>>
      bfree sb (addr ip INDIRECT_INDEX) >>> pret (set_addr INDIRECT_INDEX 0 ip)
    else pret ip) s = Some (if addr ip INDIRECT_INDEX =? 0 then ip else set_addr INDIRECT_INDEX 0 ip, s') /\
    gone (fun x => R x \/ in_single x) s' own'.
Proof.
  intros F Ea HR. rewrite Ea. destruct (Z.eqb_spec (ptr (dsk s0) A RInd) 0) as [E|E]; cbn [negb].
  { exists s, own. split; [done|]. apply gone_zeros; [done|]. intros r Hr [->|(k & Hk & ->)]; [done|]. by apply child_zero. }
  destruct (free_words_spec (Z.to_nat NINDIRECT) RInd 0 R s own F I E eq_refl) as (s1 & o1 & E1 & F1); [lia|by vm_compute| |].
  { intros k Hk. apply HR. right. exists k. split; [lia|done]. }
  rewrite (pbind_Some _ _ _ _ _ E1).
  destruct (free_role _ RInd s1 o1 F1 I) as (s2 & o2 & E2 & F2); [intros [H|(k & _ & H)]; [by apply (HR RInd); [left|]|done]|].
  rewrite (proj2 (Z.eqb_neq _ 0) E) in E2. cbn [negb] in E2. rewrite (pbind_Some _ _ _ _ _ E2). exists s2, o2. split; [done|].
  eapply gone_mono; [|exact F2]. intros r _. change (0 + Z.of_nat (Z.to_nat NINDIRECT)) with 128. unfold in_single. tauto.
Qed.

Lemma trunc_double ip s own R : gone R s own -> addr ip DINDIRECT_INDEX = ptr (dsk s0) A RDind ->
  (forall r, in_double r -> ~ R r) ->
  exists s' own', (if negb (addr ip DINDIRECT_INDEX =? 0) then
      free_inner sb (Z.to_nat NINDIRECT) 0 (addr ip DINDIRECT_INDEX) >>>
      bfree sb (addr ip DINDIRECT_INDEX) >>> pret (set_addr DINDIRECT_INDEX 0 ip)
    else pret ip) s = Some (if addr ip DINDIRECT_INDEX =? 0 then ip else set_addr DINDIRECT_INDEX 0 ip, s') /\
    gone (fun x => R x \/ in_double x) s' own'.
Proof.
  intros F Ea HR. rewrite Ea. destruct (Z.eqb_spec (ptr (dsk s0) A RDind) 0) as [E|E]; cbn [negb].
  { exists s, own. split; [done|]. apply gone_zeros; [done|].
    assert (Hin : forall i, 0 <= i < 128 -> ptr (dsk s0) A (RInner i) = 0) by (intros i Hi; exact (child_zero RDind i I eq_refl Hi E)).
    intros r Hr [->|(i & Hi & [->|(k & Hk & ->)])]; [done|by apply Hin|].
    apply child_zero; [cbn; rewrite NINDIRECT_value; lia|done|done|by apply Hin]. }
  destruct (free_inner_spec (Z.to_nat NINDIRECT) 0 R s own F E) as (s1 & o1 & E1 & F1); [lia|by vm_compute| |].
  { intros k r Hk Hb. apply HR. right. exists k. split; [lia|done]. }
  rewrite (pbind_Some _ _ _ _ _ E1).
  destruct (free_role _ RDind s1 o1 F1 I) as (s2 & o2 & E2 & F2).
  { intros [H|(k & _ & [H|(k' & _ & H)])]; [by apply (HR RDind); [left|]|done|done]. }
  rewrite (proj2 (Z.eqb_neq _ 0) E) in E2. cbn [negb] in E2. rewrite (pbind_Some _ _ _ _ _ E2). exists s2, o2. split; [done|].
  eapply gone_mono; [|exact F2]. intros r _. change (0 + Z.of_nat (Z.to_nat NINDIRECT)) with 128. unfold in_double. tauto.
Qed.
End Truncation.

(** ** Inodes and their files *)

(** The inode area lies below the bitmap. *)
Record layout_ok : Prop := {
  lo_start : 0 < sb_inodestart sb;
  lo_end i : 0 <= i < sb_ninodes sb -> IBLOCK sb i < sb_bmapstart sb
}.
Context (LO : layout_ok).

(** Inode [i] as the disk has it. *)
Definition dinode (D : gmap Z bytes) (dev i : Z) : inode := get_dinode (blk D (IBLOCK sb i)) dev i.

(** An inode in memory that agrees with the disk: written through, its tree of
    blocks without sharing, and without holes below its size. *)
Record inode_ok (ip : inode) (D : gmap Z bytes) (own : owners) : Prop := {
  io_num : 0 <= i_inum ip < sb_ninodes sb;
  io_wf : inode_wf ip;
  io_size : i_size ip <= MAXFILE * BSIZE;
  io_file : file_ok (i_inum ip) (i_addrs ip) D own;
  io_dense x : 0 <= x < i_size ip -> ptr D (i_addrs ip) (RData (x / BSIZE)) <> 0;
  io_sync : fix_mode (dinode D (i_dev ip) (i_inum ip)) = ip
}.

Lemma fix_mode_done ip : no_fmt (fix_mode ip) = false.
Proof.
  unfold fix_mode. destruct (no_fmt ip) eqn:E; [|done]. unfold no_fmt. cbn. apply andb_false_iff. right. apply Z.eqb_neq.
  intros H. apply (f_equal (fun x => Z.testbit x 13)) in H. rewrite Z.land_spec, Z.lor_spec in H.
  replace (Z.testbit M_IFCHR 13) with true in H by done. by rewrite orb_true_r in H.
Qed.

Lemma inode_fixed ip D own : inode_ok ip D own -> no_fmt ip = false.
Proof. intros J. rewrite <- (io_sync _ _ _ J). apply fix_mode_done. Qed.

Lemma fix_mode_id ip : no_fmt ip = false -> fix_mode ip = ip.
Proof. unfold fix_mode. by intros ->. Qed.

(** All other inodes and files are as before. *)
Record others_kept (i : Z) (D : gmap Z bytes) (own : owners) (D' : gmap Z bytes) (own' : owners) : Prop := {
  ot_file jp : inode_ok jp D own -> i_inum jp <> i -> inode_ok jp D' own' /\ content D' jp = content D jp;
  ot_inode dev j : 0 <= j < sb_ninodes sb -> j <> i -> dinode D' dev j = dinode D dev j
}.

Lemma iblock_range i : 0 <= i < sb_ninodes sb -> 0 < IBLOCK sb i < datastart sb /\
  (forall b, 0 <= b < sb_size sb -> IBLOCK sb i <> BBLOCK sb b).
Proof.
  intros Hi. pose proof (lo_end LO i Hi). pose proof (lo_start LO). pose proof (sbo_size _ SB).
  assert (0 <= i / IPB) by (apply Z.div_pos; [lia|by vm_compute]).
  assert (0 <= sb_size sb / BPB) by (apply Z.div_pos; [lia|by vm_compute]).
  unfold IBLOCK, datastart, BBLOCK in *. split; [lia|]. intros b Hb.
  assert (0 <= b / BPB) by (apply Z.div_pos; [lia|by vm_compute]). lia.
Qed.

Lemma file_addrs i A D own : disk_ok sb D own -> file_ok i A D own -> Forall is_u32 A.
Proof.
  intros Hd Hf. apply Forall_lookup. intros k x Hx. pose proof (lookup_lt_Some _ _ _ Hx) as Hk. rewrite (fk_len _ _ _ _ Hf) in Hk.
  assert (Hr : exists r, role_ok r /\ ptr D A r = x).
  { pose proof (nth_lookup_Some _ _ 0 _ Hx) as E. destruct (decide (k < 9)%nat).
    - exists (RData (Z.of_nat k)). split; [cbn; rewrite MAXFILE_value; lia|]. cbn. rewrite (proj2 (Z.ltb_lt _ 9)) by lia. by rewrite Nat2Z.id.
    - destruct (decide (k = 9%nat)) as [->|]; [by exists RInd|]. replace k with 10%nat in * by lia. by exists RDind. }
  destruct Hr as (r & Hr & E). pose proof (sbo_size _ SB). unfold is_u32. destruct (Z.eq_dec x 0) as [|Hn]; [lia|].
  pose proof (fk_own _ _ _ _ Hf r Hr) as Ho. rewrite E in Ho. destruct (dk_own _ _ _ Hd _ _ (Ho Hn)) as [Hb _].
  pose proof (bmap_range sb SB 0 ltac:(lia)). lia.
Qed.

(** A change of the inode area leaves the files alone. *)
Lemma kept_inodes i B D D' own : disk_ok sb D own -> file_ok i B D own ->
  (forall c, datastart sb <= c -> D' !! c = D !! c) -> kept i B D D' own.
Proof.
  intros Hd Hf HD. apply (file_frame i B D own); [done|]. intros c r Hc. split; [done|]. apply HD.
  by destruct (dk_own _ _ _ Hd c _ Hc) as [[? _] _].
Qed.

Lemma content_bytes D ip : content D ip = bytes_of D (i_addrs ip) 0 (i_size ip).
Proof. done. Qed.

Lemma kept_inode_ok jp D own D' own' : inode_ok jp D own ->
  kept (i_inum jp) (i_addrs jp) D D' own' -> dinode D' (i_dev jp) (i_inum jp) = dinode D (i_dev jp) (i_inum jp) ->
  inode_ok jp D' own' /\ content D' jp = content D jp.
Proof.
  intros J K E. split.
  - split; try apply J; [apply K| |by rewrite E; apply J]. intros x Hx. pose proof (io_size _ _ _ J).
    rewrite (kp_ptr _ _ _ _ _ K); [by apply J|]. cbn. unfold BSIZE in *. mlia.
  - rewrite !content_bytes. apply bytes_of_ext. intros x Hx. pose proof (io_size _ _ _ J). apply K. lia.
Qed.

Lemma dinode_same D D' dev j : D' !! IBLOCK sb j = D !! IBLOCK sb j -> dinode D' dev j = dinode D dev j.
Proof. unfold dinode, blk. by intros ->. Qed.

(** A new content for the block of inode [k], in which the other inodes are as
    they were. *)
Lemma inode_block_update k D own d d' : disk_ok sb D own -> 0 <= k < sb_ninodes sb -> D !! IBLOCK sb k = Some d -> len d' = BSIZE ->
  (forall dev j, j mod IPB <> k mod IPB -> get_dinode d' dev j = get_dinode d dev j) ->
  let D' := <[IBLOCK sb k := d']> D in
  disk_ok sb D' own /\ (forall c, datastart sb <= c -> D' !! c = D !! c) /\
    (forall c, 0 <= c < sb_size sb -> bit sb D' c = bit sb D c) /\
    (forall dev, dinode D' dev k = get_dinode d' dev k) /\ others_kept k D own D' own.
Proof.
  intros Hd Hk Ed Hl Hj D'. destruct (iblock_range _ Hk) as [Hr Hnb]. pose proof (sbo_data _ SB).
  assert (Hbits : forall c, 0 <= c < sb_size sb -> bit sb D' c = bit sb D c).
  { intros c Hc. unfold bit, D'. by rewrite lookup_insert_ne by (by apply Hnb). }
  assert (HD : forall c, datastart sb <= c -> D' !! c = D !! c) by (intros c Hc; apply lookup_insert_ne; lia).
  assert (Hi : forall dev j, 0 <= j < sb_ninodes sb -> j <> k -> dinode D' dev j = dinode D dev j).
  { intros dev j Hj' Hne. unfold dinode, blk, D'. destruct (decide (IBLOCK sb j = IBLOCK sb k)) as [E|E].
    - rewrite E, lookup_insert_eq, Ed. apply Hj. unfold IBLOCK in E. change IPB with 8 in *. mlia.
    - by rewrite lookup_insert_ne by done. }
  pose proof (bmap_range sb SB 0 ltac:(pose proof (sbo_size _ SB); lia)).
  split; [split; [split|]|split; [done|split; [done|split]]].
  - intros c Hc. unfold D'. destruct (decide (c = IBLOCK sb k)) as [->|]; [rewrite lookup_insert_eq; eauto|].
    rewrite lookup_insert_ne by done. by apply (bk_len _ _ (dk_blocks _ _ _ Hd)).
  - intros c Hc. rewrite Hbits by lia. by apply (bk_meta _ _ (dk_blocks _ _ _ Hd)).
  - intros c o Ho. destruct (dk_own _ _ _ Hd c o Ho). rewrite Hbits by lia. done.
  - intros dev. unfold dinode, blk, D'. by rewrite lookup_insert_eq.
  - split; [|done]. intros jp J Hne. apply (kept_inode_ok jp _ own); [done| |by apply Hi; [apply J|]].
    apply (kept_inodes _ _ _ _ _ Hd); [apply J|done].
Qed.

Lemma inode_block D own k : disk_ok sb D own -> 0 <= k < sb_ninodes sb ->
  exists d, D !! IBLOCK sb k = Some d /\ len d = BSIZE /\ forall dev, dinode D dev k = get_dinode d dev k.
Proof.
  intros Hd Hk. destruct (iblock_range _ Hk). pose proof (sbo_data _ SB).
  destruct (bk_len _ _ (dk_blocks _ _ _ Hd) (IBLOCK sb k)) as (d & Ed & Hl); [lia|]. exists d. split; [done|]. split; [done|].
  intros dev. unfold dinode, blk. by rewrite Ed.
Qed.

Lemma iupdate_spec ip s own : disk_ok sb (dsk s) own -> 0 <= i_inum ip < sb_ninodes sb -> inode_wf ip ->
  exists s', iupdate sb ip s = Some (tt, s') /\ disk_ok sb (dsk s') own /\
    (forall c, datastart sb <= c -> dsk s' !! c = dsk s !! c) /\
    (forall c, 0 <= c < sb_size sb -> bit sb (dsk s') c = bit sb (dsk s) c) /\
    dinode (dsk s') (i_dev ip) (i_inum ip) = ip /\ others_kept (i_inum ip) (dsk s) own (dsk s') own /\
    logged s' = logged s ++ [IBLOCK sb (i_inum ip)].
Proof.
  intros Hd Hi W. destruct (inode_block _ _ _ Hd Hi) as (d & Ed & Hl & _).
  destruct (inode_block_update (i_inum ip) (dsk s) own d (put_dinode d ip) Hd Hi Ed) as (H1 & H2 & H3 & H4 & H5).
  { by apply put_dinode_len; [|apply W]. }
  { intros dev j Hj. apply dinode_other; [done|apply W|done]. }
  unfold iupdate. rewrite (bread_bind _ d) by done. unfold log_write. eexists. split; [done|]. cbn [dsk logged].
  split; [done|]. split; [done|]. split; [done|]. split; [|done]. rewrite H4. by apply dinode_roundtrip.
Qed.

(** The disk image of inodes.  Storing an inode with [iupdate] and reading it
    back the way [ilock] does gives the same inode, negative [short] fields
    included; every other inode, also those in the same block, reads as before;
    and reading panics exactly when the inode is free. *)
Theorem iupdate_ilock_roundtrip ip s own : disk_ok sb (dsk s) own -> 0 <= i_inum ip < sb_ninodes sb -> inode_wf ip ->
  no_fmt ip = false ->
  exists s', iupdate sb ip s = Some (tt, s') /\
    iload sb (i_dev ip) (i_inum ip) s' = (if i_type ip =? 0 then None else Some (ip, s')) /\
    forall dev j, 0 <= j < sb_ninodes sb -> j <> i_inum ip ->
      (iload sb dev j s' = None <-> iload sb dev j s = None) /\
      forall jp, iload sb dev j s = Some (jp, s) -> iload sb dev j s' = Some (jp, s').
Proof.
  intros Hd Hi W Hdev. destruct (iupdate_spec ip s own Hd Hi W) as (s' & E & Hd' & _ & _ & Hdi & Hdo & _).
  exists s'. split; [done|]. split.
  - destruct (inode_block _ _ _ Hd' Hi) as (d & Ed & _ & Eg). unfold iload. rewrite (bread_bind _ d) by done.
    rewrite <- Eg, Hdi, fix_mode_id by done. cbv zeta. by destruct (i_type ip =? 0).
  - intros dev j Hj Hne. destruct (inode_block _ _ _ Hd' Hj) as (d' & Ed' & _ & Eg'), (inode_block _ _ _ Hd Hj) as (d & Ed & _ & Eg).
    specialize (Eg' dev). rewrite (ot_inode _ _ _ _ _ Hdo), Eg in Eg' by done. symmetry in Eg'. unfold iload. rewrite (bread_bind _ d'), (bread_bind _ d) by done. rewrite Eg'. cbv zeta.
    match goal with |- context [i_type ?x =? 0] => set (jp := x) end.
    unfold ppanic, pret. destruct (i_type jp =? 0); [done|]. split; [done|].
    intros jp' E'. congruence.
Qed.

(** ** Contents as lists *)

Lemma bytes_of_sub D A off n sz : 0 <= off -> 0 <= n -> off + n <= sz -> bytes_of D A off n = sub_bytes (bytes_of D A 0 sz) off n.
Proof.
  intros. apply list_eq. intros i. rewrite lookup_sub. unfold bytes_of. rewrite !list_lookup_fmap. case_bool_decide.
  - rewrite !lookup_seq_lt by lia. cbn. do 2 f_equal. lia.
  - by rewrite lookup_seq_ge by lia.
Qed.

Lemma bytes_of_src D A off src : (forall i, 0 <= i < len src -> fbyte D A (off + i) = byte_at src i) ->
  bytes_of D A off (len src) = src.
Proof.
  intros H. apply list_eq. intros i. unfold bytes_of, len in *. rewrite list_lookup_fmap, Nat2Z.id.
  destruct (decide (i < length src)%nat) as [Hi|Hi].
  - rewrite lookup_seq_lt by done. cbn [fmap option_fmap option_map Nat.add]. rewrite H by lia. unfold byte_at. rewrite Nat2Z.id, nth_lookup.
    by destruct (lookup_lt_is_Some_2 src i Hi) as [x ->].
  - rewrite lookup_seq_ge, lookup_ge_None_2 by lia. done.
Qed.

Lemma put_bytes_of D A D' A' size off src : 0 <= off <= size ->
  (forall x, 0 <= x < Z.max size (off + len src) -> fbyte D' A' x =
     if (off <=? x) && (x <? off + len src) then byte_at src (x - off) else fbyte D A x) ->
  bytes_of D' A' 0 (Z.max size (off + len src)) = put (bytes_of D A 0 size) off src.
Proof.
  intros Ho H. pose proof (len_nonneg src). set (n := len src) in *. unfold put.
  replace (Z.max size (off + n)) with (off + (n + (Z.max size (off + n) - off - n))) by lia.
  rewrite !bytes_of_app by lia. rewrite !Z.add_0_l. f_equal; [|f_equal].
  - replace size with (off + (size - off)) by lia. rewrite bytes_of_app by lia. rewrite take_app_le.
    2: { pose proof (bytes_of_len D A 0 off). unfold len in *. lia. }
    rewrite take_ge. 2: { pose proof (bytes_of_len D A 0 off). unfold len in *. lia. }
    apply bytes_of_ext. intros x Hx. rewrite H by lia. by rewrite (proj2 (Z.leb_gt off x)) by lia.
  - apply bytes_of_src. intros i Hi. rewrite H by lia.
    rewrite (proj2 (Z.leb_le off (off + i))), (proj2 (Z.ltb_lt (off + i) (off + n))) by lia. cbn [andb]. f_equal. lia.
  - replace (Z.to_nat off + length src)%nat with (Z.to_nat (off + n)) by (unfold n, len; lia).
    destruct (Z.le_gt_cases size (off + n)) as [Hle|Hgt].
    + rewrite drop_ge. 2: { pose proof (bytes_of_len D A 0 size). unfold len in *. lia. }
      replace (Z.max size (off + n) - off - n) with 0 by lia. done.
    + replace size with (off + n + (size - (off + n))) at 2 by lia. rewrite bytes_of_app by lia. rewrite Z.add_0_l.
      assert (El : length (bytes_of D A 0 (off + n)) = Z.to_nat (off + n)) by (pose proof (bytes_of_len D A 0 (off + n)); unfold len in *; lia).
      rewrite drop_app_ge by lia. rewrite El, Nat.sub_diag, drop_0.
      replace (Z.max size (off + n) - off - n) with (size - (off + n)) by lia.
      apply bytes_of_ext. intros x Hx. rewrite H by lia.
      rewrite (proj2 (Z.ltb_ge x (off + n))) by lia. by rewrite andb_false_r.
Qed.

(** ** The contracts *)

(** A file or directory of this file system. *)
Definition regular (ip : inode) : Prop := i_dev ip <> PROCFSDEV /\ i_type ip <> T_DEV.

Lemma u64_small x : 0 <= x < 18446744073709551616 -> u64 x = x.
Proof. intros. unfold u64. by apply Z.mod_small. Qed.

Lemma MAXSIZE_value : MAXFILE * BSIZE = 8458752. Proof. reflexivity. Qed.

Section Reading.
Context (devsw_read : Z -> option (nat -> Z -> Z -> Z * bytes)) (procfs_readi : inode -> Z -> Z -> Z * bytes) (kern pgdir kbuf : bool).
Abbreviation read_inode := (readi sb devsw_read procfs_readi kern pgdir kbuf).

Lemma readi_spec ip s own store off n :
  disk_ok sb (dsk s) own -> inode_ok ip (dsk s) own -> regular ip -> 0 <= off < 18446744073709551616 -> is_u32 n ->
  exists r out, read_inode ip store off n s = Some (r, out, ip, s) /\
    if off >? i_size ip then r = -1 /\ out = []
    else let m := Z.min n (i_size ip - off) in
      (r = m /\ out = sub_bytes (content (dsk s) ip) off m) \/
      (r = -1 /\ exists k j, 0 <= k /\ 0 < j /\ k + j <= m /\ out = sub_bytes (content (dsk s) ip) off k /\
        store k (sub_bytes (content (dsk s) ip) (off + k) j) = false).
Proof.
  intros Hd J [Hreg1 Hreg2] Ho Hn. unfold readi. rewrite (proj2 (Z.eqb_neq _ _) Hreg1), (proj2 (Z.eqb_neq _ _) Hreg2).
  pose proof (io_size _ _ _ J) as Hsz. rewrite MAXSIZE_value in Hsz. pose proof (iw_size _ (io_wf _ _ _ J)) as Hsz0. unfold is_u32 in *.
  rewrite Z.gtb_ltb. destruct (Z.ltb_spec (i_size ip) off) as [Hgt|Hle]; [cbn [orb]; exists (-1), []; done|].
  rewrite u64_small by lia. rewrite (proj2 (Z.ltb_ge (off + n) off)) by lia. cbn [orb]. rewrite Z.gtb_ltb.
  set (m := if i_size ip <? off + n then u32 (i_size ip - off) else n).
  assert (Hm : m = Z.min n (i_size ip - off)).
  { unfold m. destruct (Z.ltb_spec (i_size ip) (off + n)); [rewrite u32_small by (unfold is_u32; lia)|]; lia. }
  rewrite <- Hm. clearbody m. pose proof (io_file _ _ _ J) as Hf.
  destruct (readi_loop_found sb SB (i_inum ip) (S (Z.to_nat m)) store m 0 off [] ip s own) as (r & out & E);
    [done|done|lia|lia|rewrite MAXSIZE_value; lia|lia|intros x Hx; apply J; lia|].
  exists r, out. rewrite E. split; [done|].
  destruct (readi_loop_spec sb SB (i_inum ip) (S (Z.to_nat m)) store m 0 off [] ip s own)
    as [(r' & out' & A' & s' & own' & E' & G & Hend)|(E' & _)]; [done|done|lia|lia|rewrite MAXSIZE_value; lia|lia| |congruence].
  rewrite E in E'. cbn [app] in E'. injection E' as <- <- _ _.
  destruct Hend as [[-> ->]|(-> & k & j & Hk & Hj & Hkj & -> & Hs)]; rewrite content_bytes.
  - left. rewrite s32_id, Z.sub_0_r by lia. split; [done|]. apply bytes_of_sub; lia.
  - right. split; [done|]. exists k, j. rewrite Z.sub_0_r, Z.add_0_l in *. rewrite <- !bytes_of_sub by lia. done.
Qed.

(** C33.  Reading a file of the file system returns what an abstract file would:
    an offset beyond the end is an error, and otherwise the result is the number
    of bytes from the offset to the end of the file, at most the number asked
    for, with exactly these bytes of the content delivered; a fault in the
    caller's buffer gives -1 after a prefix of them.  Neither the inode nor any
    block of the disk changes. *)
Theorem readi_refines ip s own store off n :
  disk_ok sb (dsk s) own -> inode_ok ip (dsk s) own -> regular ip -> 0 <= off < 18446744073709551616 -> is_u32 n ->
  exists r out, read_inode ip store off n s = Some (r, out, ip, s) /\
    if off >? i_size ip then r = -1 /\ out = []
    else let m := Z.min n (i_size ip - off) in
      (r = m /\ out = sub_bytes (content (dsk s) ip) off m) \/
      (r = -1 /\ exists k j, 0 <= k /\ 0 < j /\ k + j <= m /\ out = sub_bytes (content (dsk s) ip) off k /\
        store k (sub_bytes (content (dsk s) ip) (off + k) j) = false).
Proof. apply readi_spec. Qed.
End Reading.

Lemma wrote_inodes i off l s A own s' A' own' j : wrote sb i off l s A own s' A' own' -> 0 <= j < sb_ninodes sb ->
  dsk s' !! IBLOCK sb j = dsk s !! IBLOCK sb j.
Proof. intros W Hj. destruct (iblock_range j Hj). apply (wr_meta _ _ _ _ _ _ _ _ _ _ W); [lia|done]. Qed.

Lemma wrote_others i off l s A own s' A' own' : wrote sb i off l s A own s' A' own' -> others_kept i (dsk s) own (dsk s') own'.
Proof.
  intros W. assert (Hi : forall dev j, 0 <= j < sb_ninodes sb -> dinode (dsk s') dev j = dinode (dsk s) dev j)
    by (intros; by eapply dinode_same, wrote_inodes). split; [|auto].
  intros jp J Hne. apply (kept_inode_ok jp _ own); [done|apply W; [done|apply J]|apply Hi, J].
Qed.

Lemma freed_others i A R s own s' own' : disk_ok sb (dsk s) own -> freed sb i A R s own s' own' ->
  others_kept i (dsk s) own (dsk s') own'.
Proof.
  intros Hd F. assert (Hi : forall dev j, 0 <= j < sb_ninodes sb -> dinode (dsk s') dev j = dinode (dsk s) dev j).
  { intros dev j Hj. apply dinode_same. destruct (iblock_range _ Hj). apply (fd_meta _ _ _ _ _ _ _ _ F); [lia|done]. }
  split; [|auto]. intros jp J Hne. apply (kept_inode_ok jp _ own); [done| |apply Hi, J].
  - apply (file_frame _ _ _ own); [apply J|]. intros c r Hc. split.
    + apply (fd_own _ _ _ _ _ _ _ _ F). split; [done|]. intros (r' & _ & _ & E & _). congruence.
    + apply F. by destruct (dk_own _ _ _ Hd c _ Hc) as [[? _] _].
Qed.

Lemma empty_tree D r : role_ok r -> ptr D (replicate 11 0) r = 0.
Proof.
  intros Hr. assert (Hz : forall k, nth k (replicate 11 0) 0 = 0) 
    by (intros k; do 11 (destruct k as [|k]; [done|]); by destruct k).
  destruct r as [bn| | |o]; cbn [ptr]; unfold inner; rewrite ?Hz; try done.
  destruct (bn <? 9); [done|]. by destruct (bn <? 137).
Qed.

Lemma others_kept_trans i D1 o1 D2 o2 D3 o3 : others_kept i D1 o1 D2 o2 -> others_kept i D2 o2 D3 o3 -> others_kept i D1 o1 D3 o3.
Proof.
  intros [H1 I1] [H2 I2]. split.
  - intros jp J Hne. destruct (H1 jp J Hne) as [J2 E2]. destruct (H2 jp J2 Hne) as [J3 E3]. split; [done|congruence].
  - intros dev j Hj Hne. rewrite I2 by done. auto.
Qed.

(** Storing the inode after its file was changed. *)
Lemma iupdate_inode_ok ip s own : disk_ok sb (dsk s) own -> 0 <= i_inum ip < sb_ninodes sb -> inode_wf ip ->
  no_fmt ip = false -> i_size ip <= MAXFILE * BSIZE -> file_ok (i_inum ip) (i_addrs ip) (dsk s) own ->
  (forall x, 0 <= x < i_size ip -> ptr (dsk s) (i_addrs ip) (RData (x / BSIZE)) <> 0) ->
  exists s', iupdate sb ip s = Some (tt, s') /\ disk_ok sb (dsk s') own /\ inode_ok ip (dsk s') own /\
    content (dsk s') ip = content (dsk s) ip /\ others_kept (i_inum ip) (dsk s) own (dsk s') own /\
    logged s' = logged s ++ [IBLOCK sb (i_inum ip)] /\ (forall c, 0 <= c < sb_size sb -> bit sb (dsk s') c = bit sb (dsk s) c) /\
    kept (i_inum ip) (i_addrs ip) (dsk s) (dsk s') own.
Proof.
  intros Hd Hi W Hfm Hsz Hf Hden. destruct (iupdate_spec ip s own Hd Hi W) as (s' & E & Hd' & HD' & Hbits & Hdi & Hdo & Hlog).
  exists s'. split; [done|]. split; [done|].
  pose proof (kept_inodes _ _ _ _ _ Hd Hf HD') as K.
  assert (Hx : forall x, 0 <= x < i_size ip -> 0 <= x < MAXFILE * BSIZE) by lia.
  split; [split; try done; [apply K| |by rewrite Hdi; apply fix_mode_id]|split; [|done]].
  - intros x Hx'. rewrite (kp_ptr _ _ _ _ _ K); [by apply Hden|]. cbn. unfold BSIZE in *. mlia.
  - rewrite !content_bytes. apply bytes_of_ext. intros x Hx'. apply K. lia.
Qed.

(** The blocks a write to [ip] may log. *)
Definition write_logs (ip : inode) (off n : Z) (s s' : fs) (A' : list Z) : Prop :=
  exists L, logged s' = logged s ++ L /\
    Forall (fun c => (exists b, 0 <= b < sb_size sb /\ c = BBLOCK sb b) \/
                     (exists r, role_ok r /\ write_path off n r /\ c <> 0 /\ c = ptr (dsk s') A' r) \/ c = IBLOCK sb (i_inum ip)) L.

Record write_done (ip : inode) (off : Z) (src : bytes) (s : fs) (own : owners) (ip' : inode) (s' : fs) (own' : owners) : Prop := {
  wd_disk : disk_ok sb (dsk s') own';
  wd_inode : inode_ok ip' (dsk s') own';
  wd_attr : ip' = set_isize (Z.max (i_size ip) (off + len src)) (set_addrs (i_addrs ip') ip);
  wd_content : content (dsk s') ip' = put (content (dsk s) ip) off src;
  wd_others : others_kept (i_inum ip) (dsk s) own (dsk s') own';
  wd_bit c : 0 <= c < sb_size sb -> bit sb (dsk s') c = true -> bit sb (dsk s) c = true \/ linked (dsk s') (i_addrs ip') c;
  wd_logs : write_logs ip off (len src) s s' (i_addrs ip')
}.

(** A fault: part of the bytes are in the blocks of the file, whose inode is as
    it was but for the blocks that were added. *)
Record write_fault (ip : inode) (fetch : Z -> Z -> bytes * bool) (off : Z) (src : bytes) (s : fs) (own : owners)
    (ip' : inode) (s' : fs) (own' : owners) : Prop := {
  wf_attr : ip' = set_addrs (i_addrs ip') ip;
  wf_wrote : exists k, 0 <= k < len src /\ wrote sb (i_inum ip) off (sub_bytes src 0 k) s (i_addrs ip) own s' (i_addrs ip') own';
  wf_fetch : exists t m bs, 0 <= t < len src /\ fetch t m = (bs, false);
  wf_others : others_kept (i_inum ip) (dsk s) own (dsk s') own';
  wf_logs : write_logs ip off (len src) s s' (i_addrs ip')
}.

Lemma logs_write ip off n s s' A' : logs sb (write_path off n) s s' A' -> write_logs ip off n s s' A'.
Proof. intros (L & E & F). exists L. split; [done|]. eapply Forall_impl; [exact F|]. intros c [?|?]; [by left|right; by left]. Qed.

Lemma fetches_prefix src t : 0 <= t <= len src -> sub_bytes src 0 (len src) = src.
Proof. intros. unfold sub_bytes, len. rewrite Nat2Z.id, drop_0. apply take_ge. done. Qed.

(** The end of [writei] after its copy loop has run. *)
Lemma write_finish ip off src s own A1 s1 own1 :
  inode_ok ip (dsk s) own -> 0 <= off <= i_size ip -> off + len src <= MAXFILE * BSIZE ->
  wrote sb (i_inum ip) off src s (i_addrs ip) own s1 A1 own1 -> logs sb (write_path off (len src)) s s1 A1 ->
  ((forall x, off <= x < off + len src -> ptr (dsk s) (i_addrs ip) (RData (x / BSIZE)) <> 0) -> A1 = i_addrs ip) ->
  exists ip' s', (if (len src >? 0) && (off + len src >? i_size (set_addrs A1 ip)) then
      let ip := set_isize (off + len src) (set_addrs A1 ip) in iupdate sb ip >>> pret (s32 (len src), ip)
    else pret (s32 (len src), set_addrs A1 ip)) s1 = Some (len src, ip', s') /\ write_done ip off src s own ip' s' own1.
Proof.
  intros J Ho Hmax W Lg HA. pose proof (len_nonneg src) as Hn. rewrite MAXSIZE_value in Hmax. rewrite s32_id by lia.
  pose proof (io_size _ _ _ J) as Hsz. rewrite MAXSIZE_value in Hsz. rewrite !Z.gtb_ltb. cbn [i_size set_addrs].
  assert (HC : bytes_of (dsk s1) A1 0 (Z.max (i_size ip) (off + len src)) = put (content (dsk s) ip) off src).
  { rewrite content_bytes. apply put_bytes_of; [done|]. intros x Hx. apply W. rewrite MAXSIZE_value. lia. }
  destruct ((0 <? len src) && (i_size ip <? off + len src)) eqn:Eg; rewrite ?andb_true_iff, ?andb_false_iff, ?Z.ltb_lt, ?Z.ltb_ge in Eg.
  - set (ip1 := set_isize (off + len src) (set_addrs A1 ip)). cbv zeta.
    destruct (iupdate_inode_ok ip1 s1 own1) as (s2 & E2 & Hd2 & J2 & C2 & O2 & L2 & B2 & K2).
    + apply W.
    + apply J.
    + pose proof (io_wf _ _ _ J) as Wf. split; try apply Wf; [unfold is_u32; cbn; lia|].
      split; [eapply file_addrs; apply W|apply W].
    + by apply (inode_fixed ip) in J.
    + cbn [ip1 i_size set_isize]. rewrite MAXSIZE_value. lia.
    + apply W.
    + intros x Hx. cbn [ip1 i_addrs set_isize set_addrs i_size] in *. destruct (Z.lt_ge_cases x (i_size ip)) as [Hlt|Hge].
      * rewrite (wr_ptr _ _ _ _ _ _ _ _ _ _ W); [by apply J; lia| |by apply J; lia]. cbn. rewrite MAXFILE_value. unfold BSIZE. mlia.
      * apply (wr_there _ _ _ _ _ _ _ _ _ _ W); lia.
    + exists ip1, s2. rewrite (pbind_Some _ _ _ _ _ E2). split; [done|]. split; try done.
      * unfold ip1. cbn. replace (Z.max (i_size ip) (off + len src)) with (off + len src) by lia. done.
      * rewrite C2, <- HC, content_bytes. cbn [ip1 i_addrs set_isize set_addrs i_size]. f_equal. lia.
      * eapply others_kept_trans; [by eapply wrote_others|done].
      * intros c Hc. rewrite B2 by done. intros Hb. destruct (wr_bit _ _ _ _ _ _ _ _ _ _ W c Hc Hb) as [|(r & Hr & Hp & Hc0)]; [by left|].
        right. exists r. split; [done|]. split; [|done]. rewrite <- Hp. by apply K2.
      * destruct (logs_write ip _ _ _ _ _ Lg) as (L & E & F). exists (L ++ [IBLOCK sb (i_inum ip)]). rewrite L2, E, app_assoc. split; [done|].
        apply Forall_app. split; [|apply Forall_cons; split; [|done]; right; by right].
        eapply Forall_impl; [exact F|]. intros c [?|[(r & Hr & HRr & Hc & Ec)|?]]; [by left| |right; by right].
        right. left. exists r. split; [done|]. split; [done|]. split; [done|]. rewrite Ec. symmetry. by apply K2.
  - assert (A1 = i_addrs ip) as -> by (apply HA; intros x Hx; apply J; lia).
    replace (set_addrs (i_addrs ip) ip) with ip by (by destruct ip).
    exists ip, s1. split; [done|]. split; [apply W| | | |by eapply wrote_others|apply W|by apply logs_write].
    + split; try apply J; [apply W| |].
      * intros x Hx. rewrite (wr_ptr _ _ _ _ _ _ _ _ _ _ W); [by apply J| |by apply J]. cbn. rewrite MAXFILE_value. unfold BSIZE. mlia.
      * rewrite (dinode_same (dsk s)) by (eapply wrote_inodes; [done|apply J]). apply J.
    + replace (Z.max (i_size ip) (off + len src)) with (i_size ip) by lia. by destruct ip.
    + rewrite <- HC, content_bytes. f_equal. lia.
Qed.

(** ** The size of a transaction *)

(** The index blocks on the way to four consecutive blocks of data. *)
Definition index_roles (b0 : Z) : list role :=
  if b0 + 3 <? 137 then [RInd]
  else if 137 <=? b0 then [RDind; RInner ((b0 - 137) / 128); RInner ((b0 + 3 - 137) / 128)]
  else [RInd; RDind; RInner 0].

Definition path_roles (b0 : Z) : list role :=
  [RData b0; RData (b0 + 1); RData (b0 + 2); RData (b0 + 3)] ++ index_roles b0.

Lemma path_roles_length b0 : (length (path_roles b0) <= 7)%nat.
Proof. unfold path_roles, index_roles. repeat case_match; cbn; lia. Qed.

Lemma write_path_roles off n r : 0 <= off -> n <= 1536 -> write_path off n r -> r ∈ path_roles (off / BSIZE).
Proof.
  intros Ho Hn (bn & Hbn & Hr). set (b0 := off / BSIZE) in *.
  assert (Hb : 0 <= b0 /\ b0 <= bn <= b0 + 3) by (unfold b0, BSIZE in *; mlia).
  apply elem_of_app. destruct Hr as [->|[[H ->]|[H Hr]]].
  - left. assert (bn = b0 \/ bn = b0 + 1 \/ bn = b0 + 2 \/ bn = b0 + 3) as HC by lia. destruct_or! HC; subst bn; set_solver.
  - right. unfold index_roles. destruct (Z.ltb_spec (b0 + 3) 137), (Z.leb_spec 137 b0); try lia; set_solver.
  - right. unfold index_roles. destruct (Z.ltb_spec (b0 + 3) 137), (Z.leb_spec 137 b0); try lia.
    + destruct Hr as [->| ->]; [set_solver|].
      assert ((bn - 137) / 128 = (b0 - 137) / 128 \/ (bn - 137) / 128 = (b0 + 3 - 137) / 128) as [->| ->] by mlia; set_solver.
    + destruct Hr as [->| ->]; [set_solver|]. replace ((bn - 137) / 128) with 0 by mlia. set_solver.
Qed.

Lemma size_cover (L l : list Z) : (forall c, c ∈ L -> c ∈ l) -> (size (list_to_set L : gset Z) <= length l)%nat.
Proof.
  intros H. trans (size (list_to_set l : gset Z)); [apply subseteq_size; set_solver|].
  clear. induction l as [|x l IH]; cbn; [by rewrite size_empty|].
  rewrite size_union_alt, size_singleton.
  assert (size (list_to_set l ∖ {[x]} : gset Z) <= size (list_to_set l : gset Z))%nat by (apply subseteq_size; set_solver). lia.
Qed.

(** On a disk with one bitmap block, a write of up to three blocks' worth of
    bytes logs the bitmap, the inode, four blocks of data and three index blocks
    at most. *)
Lemma write_logs_bound ip off n s s' A' : write_logs ip off n s s' A' -> 0 <= off -> n <= 1536 -> sb_size sb <= BPB ->
  exists L, logged s' = logged s ++ L /\ (size (list_to_set L : gset Z) <= 9)%nat.
Proof.
  intros (L & E & F) Ho Hn Hb. exists L. split; [done|].
  trans (length (sb_bmapstart sb :: IBLOCK sb (i_inum ip) :: (ptr (dsk s') A' <$> path_roles (off / BSIZE)))).
  - apply size_cover. intros c Hc. rewrite Forall_forall in F. destruct (F c Hc) as [(b & Hb' & ->)|[(r & _ & Hr & _ & ->)| ->]].
    + unfold BBLOCK. rewrite Z.div_small by lia. left.
    + right. right. apply list_elem_of_fmap. exists r. split; [done|]. by apply (write_path_roles off n).
    + right. left.
  - cbn [length]. rewrite length_fmap. pose proof (path_roles_length (off / BSIZE)). lia.
Qed.

Section Writing.
Context (devsw_write : Z -> option (nat -> Z -> bytes -> Z)) (kern pgdir kbuf : bool).
Abbreviation write_inode := (writei sb devsw_write kern pgdir kbuf).

Lemma writei_spec ip s own fetch src off :
  disk_ok sb (dsk s) own -> inode_ok ip (dsk s) own -> regular ip -> fetches fetch src ->
  0 <= off <= i_size ip -> off + len src <= MAXFILE * BSIZE ->
  (exists ip' s' own', write_inode ip fetch off (len src) s = Some (len src, ip', s') /\ write_done ip off src s own ip' s' own') \/
  (exists ip' s' own', write_inode ip fetch off (len src) s = Some (-1, ip', s') /\ write_fault ip fetch off src s own ip' s' own') \/
  (write_inode ip fetch off (len src) s = None /\
   nfree sb (dsk s) < 3 * touched off (len src)).
Proof.
  intros Hd J [Hreg1 Hreg2] Hfe Ho Hmax. unfold writei. rewrite (proj2 (Z.eqb_neq _ _) Hreg1), (proj2 (Z.eqb_neq _ _) Hreg2).
  pose proof (io_size _ _ _ J) as Hsz. rewrite MAXSIZE_value in *. pose proof (len_nonneg src) as Hn.
  rewrite Z.gtb_ltb, (proj2 (Z.ltb_ge (i_size ip) off)) by lia. rewrite u64_small by lia.
  rewrite (proj2 (Z.ltb_ge (off + len src) off)) by lia. cbn [orb]. rewrite Z.gtb_ltb, (proj2 (Z.ltb_ge 8458752 _)) by lia.
  pose proof (io_file _ _ _ J) as Hf.
  destruct (writei_loop_spec sb SB (i_inum ip) (S (Z.to_nat (len src))) fetch src (len src) 0 off ip s own)
    as [(ok & off' & A' & s' & own' & E & k & j & Hk & Hj & Hkj & -> & W & Lg & HA & Hend)|(E & Hfull)];
    try done; try lia; [rewrite MAXSIZE_value; lia| |].
  2: { right. right. unfold pbind. rewrite E. split; [done|]. by rewrite Z.sub_0_r in Hfull. }
  rewrite (pbind_Some _ _ _ _ _ E). rewrite Z.sub_0_r in *. destruct ok; cbn [negb].
  - destruct Hend as [-> ->]. rewrite Z.add_0_r, (fetches_prefix src 0) in W by lia. left.
    destruct (write_finish ip off src s own A' s' own' J Ho ltac:(rewrite MAXSIZE_value; lia) W Lg HA) as (ip' & s2 & E2 & D).
    exists ip', s2, own'. done.
  - destruct Hend as (Hlt & m & bs & Hfb). right. left. exists (set_addrs A' ip), s', own'. split; [done|]. split.
    + done.
    + exists (k + j). split; [lia|done].
    + exists (0 + k), m, bs. split; [lia|done].
    + by eapply wrote_others.
    + by apply logs_write.
Qed.

Lemma writei_refused ip s own fetch off n : inode_ok ip (dsk s) own -> regular ip -> 0 <= off < 18446744073709551616 -> is_u32 n ->
  (off >? i_size ip) || (off + n >? MAXFILE * BSIZE) = true -> write_inode ip fetch off n s = Some (-1, ip, s).
Proof.
  intros J [Hreg1 Hreg2] Ho Hn Eb. unfold writei. rewrite (proj2 (Z.eqb_neq _ _) Hreg1), (proj2 (Z.eqb_neq _ _) Hreg2).
  pose proof (io_size _ _ _ J) as Hsz. rewrite MAXSIZE_value in *. unfold is_u32 in Hn.
  destruct (Z.gtb_spec off (i_size ip)) as [|Hle]; [done|]. cbn [orb] in *. rewrite u64_small by lia.
  rewrite (proj2 (Z.ltb_ge (off + n) off)) by lia. by rewrite Eb.
Qed.

(** C17.  Writing to a file of the file system does what writing to an abstract
    file does.  Offsets beyond the end and writes beyond the largest file are
    refused without effect.  Otherwise the write returns its length, the content
    becomes the old one with the bytes laid over it at the offset (extended when
    they reach beyond the end), the inode on disk agrees with the one in memory,
    every block newly marked in use is in the tree of the file, and no other
    inode or file changes.  It returns -1 only when the caller's buffer faults,
    and panics only when fewer blocks are free before the call than three for each
    block that the range touches (a block and two index blocks above it). *)
Theorem writei_refines ip s own fetch src off :
  disk_ok sb (dsk s) own -> inode_ok ip (dsk s) own -> regular ip -> fetches fetch src ->
  0 <= off < 18446744073709551616 -> is_u32 (len src) ->
  if (off >? i_size ip) || (off + len src >? MAXFILE * BSIZE)
  then write_inode ip fetch off (len src) s = Some (-1, ip, s)
  else
    (exists ip' s' own', write_inode ip fetch off (len src) s = Some (len src, ip', s') /\
       disk_ok sb (dsk s') own' /\ inode_ok ip' (dsk s') own' /\
       ip' = set_isize (Z.max (i_size ip) (off + len src)) (set_addrs (i_addrs ip') ip) /\
       content (dsk s') ip' = put (content (dsk s) ip) off src /\
       others_kept (i_inum ip) (dsk s) own (dsk s') own' /\
       forall c, 0 <= c < sb_size sb -> bit sb (dsk s') c = true -> bit sb (dsk s) c = true \/ linked (dsk s') (i_addrs ip') c) \/
    (exists ip' s' own', write_inode ip fetch off (len src) s = Some (-1, ip', s') /\
       i_size ip' = i_size ip /\ others_kept (i_inum ip) (dsk s) own (dsk s') own' /\
       exists t m bs, 0 <= t < len src /\ fetch t m = (bs, false)) \/
    (write_inode ip fetch off (len src) s = None /\
     nfree sb (dsk s) < 3 * touched off (len src)).
Proof.
  intros Hd J Hreg Hfe Ho Hn. destruct (_ || _) eqn:Eb.
  - by eapply writei_refused.
  - apply orb_false_iff in Eb as [E1 E2]. rewrite Z.gtb_ltb, Z.ltb_ge in E1, E2.
    destruct (writei_spec ip s own fetch src off Hd J Hreg Hfe) as [(ip' & s' & own' & E & D)|[(ip' & s' & own' & E & F)|H]]; [lia|lia| | |].
    + left. exists ip', s', own'. split; [done|]. split; [apply D|]. split; [apply D|]. split; [apply D|].
      split; [apply D|]. split; [apply D|]. apply D.
    + right. left. exists ip', s', own'. split; [done|]. split; [by rewrite (wf_attr _ _ _ _ _ _ _ _ _ F)|].
      split; [apply F|]. apply F.
    + right. by right.
Qed.

(** C39.  The log budget of a write.  On a disk whose bitmap is one block (the
    3000 blocks of [FSSIZE] fit in one), a write of at most 1536 bytes, which is
    what [filewrite] passes to [writei] at a time, logs at most 9 distinct
    blocks whether it succeeds or faults: less than the [MAXOPBLOCKS] that
    [begin_op] has reserved for it. *)
Theorem writei_log_budget ip s own fetch src off r ip' s' :
  disk_ok sb (dsk s) own -> inode_ok ip (dsk s) own -> regular ip -> fetches fetch src ->
  0 <= off < 18446744073709551616 -> len src <= 1536 -> sb_size sb <= BPB ->
  write_inode ip fetch off (len src) s = Some (r, ip', s') ->
  exists L, logged s' = logged s ++ L /\ Z.of_nat (size (list_to_set L : gset Z)) < MAXOPBLOCKS.
Proof.
  intros Hd J Hreg Hfe Ho Hn Hsz E. unfold MAXOPBLOCKS.
  assert (HB : write_logs ip off (len src) s s' (i_addrs ip') -> exists L, logged s' = logged s ++ L /\ Z.of_nat (size (list_to_set L : gset Z)) < 10).
  { intros Lg. destruct (write_logs_bound _ _ _ _ _ _ Lg) as (L & EL & HL); [lia..|]. exists L. split; [done|]. lia. }
  destruct (decide (off <= i_size ip /\ off + len src <= MAXFILE * BSIZE)) as [[H1 H2]|H].
  - destruct (writei_spec ip s own fetch src off Hd J Hreg Hfe ltac:(lia) H2)
      as [(ip2 & s2 & own' & E2 & D)|[(ip2 & s2 & own' & E2 & F)|[E2 _]]]; rewrite E in E2; [| |done].
    + injection E2 as -> -> ->. apply HB, D.
    + injection E2 as -> -> ->. apply HB, F.
  - exists []. assert (s' = s) as ->; [|by rewrite app_nil_r]. pose proof (len_nonneg src).
    rewrite (writei_refused ip s own) in E; [by injection E|done|done|done|unfold is_u32; lia|].
    rewrite !Z.gtb_ltb. apply orb_true_iff. rewrite !Z.ltb_lt. lia.
Qed.

End Writing.

(** [if(ip->addrs[i]){ ...; ip->addrs[i] = 0; }] *)
Lemma clear_slot ip i : (Z.to_nat i < length (i_addrs ip))%nat ->
  (if addr ip i =? 0 then ip else set_addr i 0 ip) = set_addrs (<[Z.to_nat i := 0]> (i_addrs ip)) ip.
Proof.
  intros Hi. destruct (Z.eqb_spec (addr ip i) 0) as [E|E]; [|done]. rewrite list_insert_id; [by destruct ip|].
  unfold addr in E. rewrite nth_lookup in E. destruct (lookup_lt_is_Some_2 _ _ Hi) as [x Hx]. rewrite Hx in *. by cbn in E; subst.
Qed.

Lemma all_clear A : length A = 11%nat -> (forall k, (k < 9)%nat -> nth k A 0 = 0) -> <[10%nat := 0]> (<[9%nat := 0]> A) = replicate 11 0.
Proof.
  intros Hl H. do 11 (destruct A as [|? A]; [done|]). destruct A; [|done].
  pose proof (H 0%nat) as H0. pose proof (H 1%nat) as H1. pose proof (H 2%nat) as H2. pose proof (H 3%nat) as H3.
  pose proof (H 4%nat) as H4. pose proof (H 5%nat) as H5. pose proof (H 6%nat) as H6. pose proof (H 7%nat) as H7.
  pose proof (H 8%nat) as H8. cbn in *. rewrite H0, H1, H2, H3, H4, H5, H6, H7, H8 by lia. done.
Qed.

Lemma itrunc_frees ip s own : disk_ok sb (dsk s) own -> inode_ok ip (dsk s) own ->
  let ip' := set_isize 0 (set_addrs (replicate 11 0) ip) in
  exists s' own', itrunc sb ip s = (iupdate sb ip' >>> pret ip') s' /\
    freed sb (i_inum ip) (i_addrs ip) (fun _ => True) s own s' own'.
Proof.
  intros Hd J ip'. pose proof (io_file _ _ _ J) as Hf. set (A := i_addrs ip). set (i := i_inum ip).
  assert (F0 : freed sb i A (fun _ => False) s own s own) by (by apply (freed_refl sb SB)).
  unfold itrunc. destruct (free_direct_spec i A s own Hd Hf (Z.to_nat NDIRECT) 0 ip _ s own F0) as (A1 & s1 & o1 & E1 & Hl1 & Hn1 & F1).
  { apply Hf. } { lia. } { by vm_compute. }
  { intros k Hk. split; [|tauto]. cbn. by rewrite (proj2 (Z.ltb_lt k 9)) by lia. }
  change (0 + Z.of_nat (Z.to_nat NDIRECT)) with 9 in *. rewrite (pbind_Some _ _ _ _ _ E1). set (ip1 := set_addrs A1 ip).
  assert (G1 : freed sb i A in_direct s own s1 o1).
  { eapply gone_mono; [|exact F1]. intros r _. unfold in_direct. tauto. }
  destruct (trunc_single i A s own Hd Hf ip1 s1 o1 _ G1) as (s2 & o2 & E2 & F2).
  { unfold addr. cbn [i_addrs ip1 set_addrs]. by rewrite Hn1. }
  { intros r H1 H2. by apply (proj1 (parts_disjoint r) H2). }
  rewrite clear_slot in E2 by (cbn [ip1 i_addrs set_addrs]; rewrite Hl1; by vm_compute; lia).
  rewrite (pbind_Some _ _ _ _ _ E2). set (ip2 := set_addrs _ ip1).
  destruct (trunc_double i A s own Hd Hf ip2 s2 o2 _ F2) as (s3 & o3 & E3 & F3).
  { unfold addr, ip2. cbn [i_addrs ip1 set_addrs]. rewrite nth_insert by (rewrite Hl1; vm_compute; lia). by rewrite Hn1. }
  { intros r H1 H2. by apply (proj2 (parts_disjoint r) H2). }
  rewrite clear_slot in E3 by (cbn [ip2 ip1 i_addrs set_addrs]; rewrite length_insert, Hl1; by vm_compute; lia).
  rewrite (pbind_Some _ _ _ _ _ E3). cbv zeta. exists s3, o3. split.
  - replace (set_isize 0 (set_addrs (<[Z.to_nat DINDIRECT_INDEX := 0]> (i_addrs ip2)) ip2)) with ip'; [done|].
    unfold ip', ip2, ip1. cbn [i_addrs set_addrs]. change (Z.to_nat DINDIRECT_INDEX) with 10%nat. change (Z.to_nat INDIRECT_INDEX) with 9%nat.
    rewrite all_clear; [done|done|]. intros k Hk. rewrite Hn1. by rewrite decide_True by lia.
  - eapply gone_mono; [|exact F3]. intros r Hr. split; [done|]. intros _. by apply roles_cover.
Qed.

Lemma itrunc_spec ip s own : disk_ok sb (dsk s) own -> inode_ok ip (dsk s) own ->
  let ip' := set_isize 0 (set_addrs (replicate 11 0) ip) in
  exists s' own', itrunc sb ip s = Some (ip', s') /\ disk_ok sb (dsk s') own' /\ inode_ok ip' (dsk s') own' /\
    others_kept (i_inum ip) (dsk s) own (dsk s') own' /\
    (forall c, 0 <= c < sb_size sb -> bit sb (dsk s') c = true <-> bit sb (dsk s) c = true /\ ~ linked (dsk s) (i_addrs ip) c) /\
    (exists L, logged s' = logged s ++ L /\
       Forall (fun c => (exists b, 0 <= b < sb_size sb /\ c = BBLOCK sb b) \/ c = IBLOCK sb (i_inum ip)) L).
Proof.
  intros Hd J ip'. destruct (itrunc_frees ip s own Hd J) as (s1 & o1 & E & F). fold ip' in E.
  destruct (iupdate_inode_ok ip' s1 o1) as (s2 & E2 & Hd2 & J2 & _ & O2 & L2 & B2 & _).
  - apply F.
  - apply J.
  - pose proof (io_wf _ _ _ J) as W. split; try apply W; [by unfold is_u32; cbn|]. split; [|done].
    apply Forall_replicate. by unfold is_u32.
  - by apply (inode_fixed ip) in J.
  - by vm_compute.
  - split; [done|]. intros r Hr Hp. destruct Hp. by apply empty_tree.
  - cbn. lia.
  - exists s2, o1. rewrite E, (pbind_Some _ _ _ _ _ E2). split; [done|]. split; [done|]. split; [done|].
    split; [|split].
    + eapply others_kept_trans; [|exact O2]. by eapply freed_others.
    + intros c Hc. rewrite B2 by done. rewrite (fd_bit _ _ _ _ _ _ _ _ F c Hc). unfold linked. naive_solver.
    + destruct (fd_log _ _ _ _ _ _ _ _ F) as (L & EL & FL). exists (L ++ [IBLOCK sb (i_inum ip)]). rewrite L2, EL, app_assoc. split; [done|].
      apply Forall_app. split; [eapply Forall_impl; [exact FL|]; by left|]. apply Forall_cons. split; [by right|done].
Qed.

(** C28.  Truncation.  [itrunc] of a file frees every block of its tree, data and
    index blocks, each once (freeing a free block would panic, so this shows
    that it does not), and no other: a block is marked in use afterwards if and
    only if it was before and is not in the tree.  The inode, in memory and on
    disk, has size 0 and no blocks; all other files are as before; and the
    transaction logs bitmap blocks and the block of the inode only. *)
Theorem itrunc_refines ip s own : disk_ok sb (dsk s) own -> inode_ok ip (dsk s) own ->
  let ip' := set_isize 0 (set_addrs (replicate 11 0) ip) in
  exists s' own', itrunc sb ip s = Some (ip', s') /\ disk_ok sb (dsk s') own' /\ inode_ok ip' (dsk s') own' /\
    others_kept (i_inum ip) (dsk s) own (dsk s') own' /\
    (forall c, 0 <= c < sb_size sb -> bit sb (dsk s') c = true <-> bit sb (dsk s) c = true /\ ~ linked (dsk s) (i_addrs ip) c) /\
    (exists L, logged s' = logged s ++ L /\
       Forall (fun c => (exists b, 0 <= b < sb_size sb /\ c = BBLOCK sb b) \/ c = IBLOCK sb (i_inum ip)) L).
Proof. apply itrunc_spec. Qed.
End Inodes.

(** ** Devices *)

Section Devices.
Context (rd : nat -> Z -> Z -> Z * bytes)
  (RD : forall k off want r bs, 0 < want -> rd k off want = (r, bs) -> r <= want /\ (0 < r -> len bs = r)).

(** A device that answers at most what it is asked for: the read ends, its
    result is at most [n], and is the number of bytes delivered. *)
Lemma dev_read_loop_spec fuel k store off n tot r got : 0 < n < 2147483648 -> tot = len got -> tot <= n ->
  n - tot < Z.of_nat fuel ->
  exists r' got', dev_read_loop fuel k rd store off n tot r got = Some (r', got') /\ r' <= n /\
    (0 < r' -> len got' = r') /\ (r' <= 0 -> got' = []).
Proof.
  revert k tot r got. induction fuel as [|fuel IH]; intros k tot r got Hn Ht Htn Hf; [lia|]. cbn [dev_read_loop].
  pose proof (len_nonneg got) as H0.
  assert (Hres : forall x, x <= 0 -> dev_result tot x <= n /\ (0 < dev_result tot x -> len got = dev_result tot x) /\ (dev_result tot x <= 0 -> got = [])).
  { intros x Hx. unfold dev_result. destruct (Z.gtb_spec tot 0); [rewrite s32_id by lia; split; [lia|split; [lia|intros; exfalso; lia]]|].
    split; [lia|]. split; [lia|]. intros _. destruct got; [done|]. unfold len in *. cbn in *. lia. }
  destruct (Z.ltb_spec tot n) as [Hlt|Hge].
  2: { exists (dev_result tot r), got. split; [done|]. assert (dev_result tot r = dev_result tot 0) as ->; [|by apply Hres].
       unfold dev_result. destruct (Z.gtb_spec tot 0); [done|lia]. }
  set (want := dev_want n tot).
  assert (Hw : 0 < want <= n - tot) by (unfold want, dev_want, PGSIZE; rewrite s32_id by lia; destruct (Z.gtb_spec (n - tot) 4096); lia).
  destruct (rd k (off + tot) want) as [r1 bs] eqn:E. destruct (RD _ _ _ _ _ (proj1 Hw) E) as [R1 R2].
  destruct (Z.leb_spec r1 0) as [Hr|Hr]; [eexists _, _; split; [done|by apply Hres]|].
  specialize (R2 Hr). destruct (store tot bs); [|eexists _, _; split; [done|apply Hres; lia]].
  assert (Hu : u32 (tot + r1) = len (got ++ bs)) by (rewrite len_app, u32_small by (unfold is_u32; lia); lia). rewrite Hu.
  assert (Hl : len (got ++ bs) = tot + r1) by (rewrite len_app; lia).
  destruct (Z.ltb_spec r1 want) as [Hrw|Hrw].
  - eexists _, _. split; [done|]. unfold dev_result. destruct (Z.gtb_spec (len (got ++ bs)) 0); [|lia].
    rewrite s32_id by lia. split; [lia|]. split; [lia|intros; exfalso; lia].
  - apply IH; [done|done|lia|lia].
Qed.
End Devices.

(** ** A small disk *)

Module InodeExample.
(** Sixteen blocks: the inodes in block 2, the bitmap in block 3, and an unlinked
    file with the five bytes of block 4. *)
Definition sb0 : superblock := mkSb 16 12 8 0 2 2 3.
Definition ip0 : inode := mkIn 1 1 T_FILE 0 0 0 0 0 420 5 (4 :: replicate 10 0).
Definition hello : bytes := [104; 101; 108; 108; 111].

Definition disk0 : gmap Z bytes :=
  <[2 := put_dinode zeroes ip0]> (<[3 := set_byte zeroes 0 31]> (<[4 := put zeroes 0 hello]>
    (list_to_map ((fun i => (Z.of_nat i, zeroes)) <$> seq 0 16)))).
Definition s0 : fs := mkFs disk0 [].
Definition own0 : owners := {[ 4 := (1, RData 0) ]}.

Lemma sb0_ok : sb_ok sb0.
Proof. split; vm_compute; try done; intuition discriminate. Qed.
Lemma layout0_ok : layout_ok sb0.
Proof. split; [done|]. cbn. unfold IBLOCK. change IPB with 8. cbn. intros. mlia. Qed.

(** Decides a statement about the numbers below 16. *)
Ltac upto16 b H := let C := fresh in
  assert (b = 0 \/ b = 1 \/ b = 2 \/ b = 3 \/ b = 4 \/ b = 5 \/ b = 6 \/ b = 7 \/ b = 8 \/ b = 9 \/ b = 10 \/ b = 11 \/
          b = 12 \/ b = 13 \/ b = 14 \/ b = 15) as C by (clear - H; cbn in H; lia); destruct_or! C; subst b.

Lemma blocks0_ok : blocks_ok sb0 disk0.
Proof.
  split.
  - intros b Hb. assert (E : exists d, disk0 !! b = Some d /\ length d = 512%nat).
    { upto16 b Hb; (eexists; split; [vm_compute; reflexivity|reflexivity]). }
    destruct E as (d & Ed & El). exists d. split; [done|]. unfold len. by rewrite El.
  - intros c Hc. change (datastart sb0) with 4 in Hc. upto16 c Hc; vm_compute; done || lia.
Qed.

Lemma disk0_ok : disk_ok sb0 disk0 own0.
Proof.
  split; [apply blocks0_ok|]. intros b o Ho. unfold own0 in Ho. apply lookup_singleton_Some in Ho as [<- <-].
  split; [by vm_compute|by vm_compute].
Qed.

Lemma ptr0 D b r : role_ok r -> ptr D (b :: replicate 10 0) r <> 0 -> r = RData 0.
Proof.
  intros Hr Hp. destruct r as [bn| | |o]; cbn [ptr] in Hp; try done.
  destruct (Z.ltb_spec bn 9); [|by destruct (bn <? 137)].
  cbn in Hr. assert (bn = 0 \/ bn = 1 \/ bn = 2 \/ bn = 3 \/ bn = 4 \/ bn = 5 \/ bn = 6 \/ bn = 7 \/ bn = 8) as C by lia.
  destruct_or! C; subst bn; done.
Qed.

Lemma inode0_ok : inode_ok sb0 ip0 disk0 own0.
Proof.
  split.
  - by vm_compute.
  - split; cbn; unfold is_s16, is_u32, T_FILE; try lia. split; [|done]. repeat (apply Forall_cons; split; [lia|]). by apply Forall_nil.
  - by vm_compute.
  - split; [done|]. intros r Hr Hp. by rewrite (ptr0 disk0 4 r Hr Hp).
  - intros x Hx. cbn [i_size ip0] in Hx. unfold BSIZE. by rewrite Z.div_small by lia.
  - by vm_compute.
Qed.

Lemma regular0 : regular ip0.
Proof. by vm_compute. Qed.

(** A caller's buffer without faults. *)
Definition fetch_all (src : bytes) (t m : Z) : bytes * bool := (sub_bytes src t m, true).
Lemma fetch_all_ok src : fetches (fetch_all src) src.
Proof. intros t m bs ok Ht Hm Hl E. injection E as <- <-. rewrite sub_bytes_length by lia. done. Qed.

Definition no_rd : Z -> option (nat -> Z -> Z -> Z * bytes) := fun _ => None.
Definition no_wr : Z -> option (nat -> Z -> bytes -> Z) := fun _ => None.
Definition no_procfs : inode -> Z -> Z -> Z * bytes := fun _ _ _ => (-1, []).

Lemma readi_refines_witness :
  exists r out, readi sb0 no_rd no_procfs true true true ip0 (fun _ _ => true) 1 10 s0 = Some (r, out, ip0, s0) /\
    (r = 4 /\ out = [101; 108; 108; 111]).
Proof.
  destruct (readi_refines sb0 sb0_ok no_rd no_procfs true true true ip0 s0 own0 (fun _ _ => true) 1 10)
    as (r & out & E & H); [apply disk0_ok|apply inode0_ok|apply regular0|lia|by vm_compute|].
  exists r, out. split; [exact E|]. cbn [i_size ip0] in H. destruct H as [[-> ->]|(_ & k & j & _ & _ & _ & _ & H)]; [|discriminate].
  by vm_compute.
Defined.

Lemma writei_refines_witness :
  exists ip' s', writei sb0 no_wr true true true ip0 (fetch_all [33; 33]) 5 2 s0 = Some (2, ip', s') /\
    content (dsk s') ip' = hello ++ [33; 33].
Proof.
  pose proof (writei_refines sb0 sb0_ok layout0_ok no_wr true true true ip0 s0 own0 (fetch_all [33; 33]) [33; 33] 5
    disk0_ok inode0_ok regular0 (fetch_all_ok _) ltac:(lia) ltac:(by vm_compute)) as H.
  cbn [i_size ip0] in H. change ((5 >? 5) || (5 + len [33; 33] >? MAXFILE * BSIZE)) with false in H.
  change (len [33; 33]) with 2 in H. cbv match in H.
  destruct H as [(ip' & s' & own' & E & _ & _ & _ & Hc & _)|[(ip' & s' & own' & _ & _ & _ & t & m & bs & _ & H)|(E & _)]].
  - exists ip', s'. split; [exact E|]. rewrite Hc. by vm_compute.
  - discriminate.
  - vm_compute in E. discriminate.
Defined.

Lemma writei_log_budget_witness :
  exists r ip' s', writei sb0 no_wr true true true ip0 (fetch_all [33; 33]) 5 2 s0 = Some (r, ip', s') /\
    exists L, logged s' = L /\ Z.of_nat (size (list_to_set L : gset Z)) < MAXOPBLOCKS.
Proof.
  destruct (writei sb0 no_wr true true true ip0 (fetch_all [33; 33]) 5 2 s0) as [[[r ip'] s']|] eqn:E; [|vm_compute in E; discriminate].
  exists r, ip', s'. split; [reflexivity|].
  exact (writei_log_budget sb0 sb0_ok layout0_ok no_wr true true true ip0 s0 own0 (fetch_all [33; 33]) [33; 33] 5 r ip' s'
    disk0_ok inode0_ok regular0 (fetch_all_ok _) ltac:(lia) ltac:(by vm_compute) ltac:(by vm_compute) E).
Defined.

Lemma iupdate_ilock_roundtrip_witness :
  exists s', iupdate sb0 ip0 s0 = Some (tt, s') /\ iload sb0 1 1 s' = Some (ip0, s').
Proof.
  destruct (iupdate_ilock_roundtrip sb0 sb0_ok layout0_ok ip0 s0 own0 disk0_ok) as (s' & E & Hl & _);
    [by vm_compute|apply inode0_ok|by vm_compute|]. exists s'. split; [exact E|exact Hl].
Defined.

Lemma itrunc_refines_witness :
  exists s', itrunc sb0 ip0 s0 = Some (set_isize 0 (set_addrs (replicate 11 0) ip0), s') /\ bit sb0 (dsk s') 4 = false.
Proof.
  destruct (itrunc_refines sb0 sb0_ok layout0_ok ip0 s0 own0 disk0_ok inode0_ok) as (s' & own' & E & _ & _ & _ & Hb & _).
  exists s'. split; [exact E|]. apply not_true_iff_false. intros H. apply Hb in H as [_ H]; [|by vm_compute]. apply H.
  exists (RData 0). done.
Defined.

(** A buffer whose bytes from 507 on are not mapped. *)
Definition bad_page (t m : Z) : bytes * bool := if t <? 507 then (replicate (Z.to_nat m) 33, true) else ([], false).

(** A write whose buffer faults loses blocks.  The block that [bmap] added
    for the failed write is marked in use on the disk and entered in the inode in
    memory, but [writei] returns -1 without [iupdate]: no inode on the disk has
    the block.  When the inode is dropped from memory before another write stores
    it, the block is never freed. *)
Theorem writei_fault_leaks_block :
  exists ip' s', writei sb0 no_wr true true true ip0 bad_page 5 600 s0 = Some (-1, ip', s') /\
    addr ip' 1 = 5 /\ bit sb0 (dsk s') 5 = true /\
    forall j, 0 <= j < sb_ninodes sb0 -> ~ linked (dsk s') (i_addrs (dinode sb0 (dsk s') 1 j)) 5.
Proof.
  destruct (writei sb0 no_wr true true true ip0 bad_page 5 600 s0) as [[[r ip'] s']|] eqn:E; [|by vm_compute in E].
  assert (Hr : r = -1 /\ addr ip' 1 = 5 /\ bit sb0 (dsk s') 5 = true /\ i_addrs (dinode sb0 (dsk s') 1 1) = i_addrs ip0 /\
    Forall (fun j => i_addrs (dinode sb0 (dsk s') 1 j) = replicate 11 0) [0; 2; 3; 4; 5; 6; 7]).
  { vm_compute in E. injection E as <- <- <-. repeat (split; [by vm_compute|]). repeat constructor; by vm_compute. }
  destruct Hr as (-> & H1 & H2 & H3 & H4). exists ip', s'. split; [done|]. split; [done|]. split; [done|]. clear E H1 H2.
  intros j Hj (r & Hr & Hp & _). destruct (decide (j = 1)) as [->|Hne].
  - rewrite H3 in Hp. assert (r = RData 0) as ->; [|by cbn in Hp].
    apply (ptr0 (dsk s') 4 r Hr). change (4 :: replicate 10 0) with (i_addrs ip0). by rewrite Hp.
  - change (sb_ninodes sb0) with 8 in Hj. rewrite Forall_forall in H4. rewrite (H4 j) in Hp.
    + by rewrite empty_tree in Hp.
    + assert (j = 0 \/ j = 2 \/ j = 3 \/ j = 4 \/ j = 5 \/ j = 6 \/ j = 7) as C by lia. destruct_or! C; subst j; set_solver.
Qed.
End InodeExample.
