(* ===== verification/HashChain.v ===== *)
(** * Hash chains through a table of entries

    The inode cache and the buffer cache look entries up the same way: an array
    of entries, an array of chain heads, and a link in each entry, where a link
    is the number of an entry.  [Chained] says what an entry provides; the
    lemmas are about taking an entry out of its chain and giving it a new key.
    [FsCache] and [Bio] instantiate the class. *)

From S2P Require Import Prelude.

Lemma alter_insert_at {A} (f : A -> A) i (l : list A) a : l !! i = Some a -> alter f i l = <[i := f a]> l.
Proof. revert i; induction l as [|b l IH]; intros [|i]; cbn; intros E; [done|done|by injection E as ->|]. by rewrite IH. Qed.

(** [nxt] is the link of an entry, [key] its identity, if it has one. *)
Class Chained (A K : Type) := {
  nxt : A -> option nat;
  set_nxt : option nat -> A -> A;
  key : A -> option K;
  bucket : K -> nat;
  buckets : nat;
  nxt_set n a : nxt (set_nxt n a) = n;
  set_nxt_nxt a : set_nxt (nxt a) a = a;
  key_set n a : key (set_nxt n a) = key a;
  bucket_lt k : (bucket k < buckets)%nat
}.

Record table (A : Type) := mkT { t_el : list A; t_hd : list (option nat) }.
Arguments mkT {A} _ _.
Arguments t_el {A} _.
Arguments t_hd {A} _.

Section HashChain.
Context {A K : Type} `{Chained A K}.
Implicit Types (t : table A) (C : nat -> list nat).

Definition first_at (t : table A) (h : nat) : option nat := default None (t_hd t !! h).

(** Where a link is kept. *)
Inductive place := AtHead (h : nat) | AtEntry (i : nat).
Definition get_at (t : table A) (q : place) : option nat :=
  match q with AtHead h => first_at t h | AtEntry i => match t_el t !! i with Some a => nxt a | None => None end end.
Definition put_at (q : place) (v : option nat) (t : table A) : table A :=
  match q with
  | AtHead h => mkT (t_el t) (<[h := v]> (t_hd t))
  | AtEntry i => mkT (alter (set_nxt v) i (t_el t)) (t_hd t)
  end.

(** The removal of entry [e] from the chain that starts at [q]. *)
Fixpoint unlink_at (fuel : nat) (q : place) (e : nat) (t : table A) : option (table A) :=
  match fuel with
  | O => None
  | S fuel =>
      match get_at t q with
      | None => Some t
      | Some i => if decide (i = e) then Some (put_at q (get_at t (AtEntry e)) t) else unlink_at fuel (AtEntry i) e t
      end
  end.

Inductive links (l : list A) : option nat -> list nat -> Prop :=
| links_nil : links l None []
| links_cons i a js : l !! i = Some a -> links l (nxt a) js -> links l (Some i) (i :: js).

(** [C h]: the entries of chain [h].  An entry is in a chain when it has a key,
    and no two entries have the same one. *)
Record chains (t : table A) (C : nat -> list nat) : Prop := {
  ch_hlen : length (t_hd t) = buckets;
  ch_links h : (h < buckets)%nat -> links (t_el t) (first_at t h) (C h) /\ NoDup (C h);
  ch_in h i : (h < buckets)%nat -> i ∈ C h -> exists a k, t_el t !! i = Some a /\ key a = Some k /\ bucket k = h;
  ch_linked i a k : t_el t !! i = Some a -> key a = Some k -> i ∈ C (bucket k);
  ch_uniq i j a b k : t_el t !! i = Some a -> t_el t !! j = Some b -> key a = Some k -> key b = Some k -> i = j
}.

(** A chain sees the links of its own entries only. *)
Lemma links_frame l l' p js : links l p js ->
  (forall i a, i ∈ js -> l !! i = Some a -> exists a', l' !! i = Some a' /\ nxt a' = nxt a) -> links l' p js.
Proof.
  induction 1 as [|i a js Hi Hc IH]; intros F; [constructor|].
  destruct (F i a ltac:(left) Hi) as (a' & Ha' & E). econstructor; [exact Ha'|]. rewrite E. apply IH.
  intros j b Hj. apply F. by right.
Qed.

Lemma chains_short t C h : chains t C -> (h < buckets)%nat -> (length (C h) <= length (t_el t))%nat.
Proof.
  intros Ok Hh. destruct (ch_links _ _ Ok h Hh) as [_ Hnd]. rewrite <- (length_seq (length (t_el t)) 0).
  apply submseteq_length, NoDup_submseteq; [done|]. intros i Hi. destruct (ch_in _ _ Ok h i Hh Hi) as (a & k & Ha & _).
  apply lookup_lt_Some in Ha. apply elem_of_seq. lia.
Qed.

(** [t'] differs from [t] in links only. *)
Record linksonly (t t' : table A) : Prop := {
  lo_len : length (t_el t') = length (t_el t);
  lo_hlen : length (t_hd t') = length (t_hd t);
  lo_el i a : t_el t !! i = Some a -> exists n, t_el t' !! i = Some (set_nxt n a)
}.

Lemma linksonly_refl t : linksonly t t.
Proof. split; [done|done|]. intros i a Ha. exists (nxt a). by rewrite set_nxt_nxt. Qed.

Lemma linksonly_inv t t' i b : linksonly t t' -> t_el t' !! i = Some b -> exists a n, t_el t !! i = Some a /\ b = set_nxt n a.
Proof.
  intros R Hb. pose proof (lookup_lt_Some _ _ _ Hb) as Hlt. rewrite (lo_len _ _ R) in Hlt.
  destruct (lookup_lt_is_Some_2 _ _ Hlt) as [a Ha]. destruct (lo_el _ _ R i a Ha) as [n Hn]. exists a, n. split; [done|congruence].
Qed.

Definition place_in (t : table A) (q : place) : Prop :=
  match q with AtHead h => (h < length (t_hd t))%nat | AtEntry i => (i < length (t_el t))%nat end.

Lemma put_get t q v : place_in t q -> get_at (put_at q v t) q = v.
Proof.
  destruct q as [h|i]; cbn; intros Hq.
  - unfold first_at. cbn. by rewrite list_lookup_insert_eq.
  - destruct (lookup_lt_is_Some_2 _ _ Hq) as [a Ha]. rewrite list_lookup_alter_eq, Ha. cbn. apply nxt_set.
Qed.

Lemma put_linksonly t q v : linksonly t (put_at q v t).
Proof.
  destruct q as [h|k]; cbn; split; cbn; rewrite ?length_insert, ?length_alter; try done; intros i a Ha.
  - exists (nxt a). by rewrite set_nxt_nxt.
  - destruct (decide (i = k)) as [->|]; [exists v; by rewrite list_lookup_alter_eq, Ha|].
    exists (nxt a). rewrite list_lookup_alter_ne by done. by rewrite set_nxt_nxt.
Qed.

Lemma put_el t q v i : q <> AtEntry i -> t_el (put_at q v t) !! i = t_el t !! i.
Proof. destruct q as [h|k]; cbn; intros Hq; [done|]. rewrite list_lookup_alter_ne; [done|congruence]. Qed.

Lemma put_first t q v h : q <> AtHead h -> first_at (put_at q v t) h = first_at t h.
Proof. destruct q as [k|k]; cbn; intros Hq; [|done]. unfold first_at. cbn. rewrite list_lookup_insert_ne; [done|congruence]. Qed.

Lemma without_id (e : nat) (js : list nat) : e ∉ js -> filter (fun i => i <> e) js = js.
Proof.
  induction js as [|i js IH]; [done|]. intros Hn. apply not_elem_of_cons in Hn as [H1 H2].
  rewrite filter_cons_True by congruence. by rewrite IH.
Qed.

Lemma unlink_at_spec fuel t q e js : links (t_el t) (get_at t q) js -> NoDup js -> (length js < fuel)%nat ->
  place_in t q -> (forall i, i ∈ js -> q <> AtEntry i) ->
  exists t', unlink_at fuel q e t = Some t' /\ linksonly t t' /\
    links (t_el t') (get_at t' q) (filter (fun i => i <> e) js) /\
    (forall i, i ∉ js -> q <> AtEntry i -> t_el t' !! i = t_el t !! i) /\
    (forall h, q <> AtHead h -> first_at t' h = first_at t h).
Proof.
  revert fuel q. induction js as [|i js IH]; intros [|fuel] q Hc Hnd Hf Hq Hni; cbn in Hf; try lia; cbn [unlink_at].
  - assert (E : get_at t q = None) by (by inversion Hc). rewrite E. exists t. split; [done|]. split; [apply linksonly_refl|].
    rewrite E. split; [constructor|done].
  - inversion Hc as [|i' a js' Ha Hc' E]. subst i' js'. apply NoDup_cons in Hnd as [Hi Hnd].
    destruct (decide (i = e)) as [->|Hne].
    + eexists. split; [done|]. split; [apply put_linksonly|]. rewrite put_get by done.
      split; [|split; [intros j _ Hj; by apply put_el|intros h Hh; by apply put_first]].
      rewrite filter_cons_False by (by intros ?). rewrite without_id by done.
      cbn [get_at]. rewrite Ha. apply (links_frame (t_el t)); [done|].
      intros j b Hj Hb. exists b. split; [|done]. rewrite put_el; [done|]. apply Hni. by right.
    + destruct (IH fuel (AtEntry i)) as (t' & E' & R & Hch & Hsl & Hhd).
      * cbn. by rewrite Ha.
      * done.
      * lia.
      * cbn. by apply lookup_lt_Some in Ha.
      * intros j Hj Ej. injection Ej as ->. done.
      * exists t'. split; [done|]. split; [done|].
        assert (Eq : get_at t' q = Some i).
        { rewrite E. destruct q as [h|k]; cbn [get_at] in *; [by apply Hhd|].
          rewrite Hsl; [done| |].
          - intros Hk. by apply (Hni k); [right|].
          - intros Ek. injection Ek as ->. by apply (Hni k); [left|]. }
        rewrite Eq, filter_cons_True by done. split; [|split].
        -- destruct (lo_el _ _ R i a Ha) as (n & Hn). econstructor; [exact Hn|]. cbn [get_at] in Hch. by rewrite Hn in Hch.
        -- intros j Hj Hqj. apply Hsl; [intros Hj'; apply Hj; by right|]. intros Ej. injection Ej as ->. apply Hj. left.
        -- intros h Hh. by apply Hhd.
Qed.

(** Taking an entry out of its chain. *)
Lemma unlink_chains t C e a k : chains t C -> t_el t !! e = Some a -> key a = Some k ->
  exists t', unlink_at (S (length (t_el t))) (AtHead (bucket k)) e t = Some t' /\ linksonly t t' /\
    forall h, (h < buckets)%nat -> links (t_el t') (first_at t' h) (filter (fun i => i <> e) (C h)).
Proof.
  intros Ok Ha Hk. pose proof (bucket_lt k) as Hh0. set (h0 := bucket k) in *.
  destruct (ch_links _ _ Ok h0 Hh0) as [Hc Hnd]. pose proof (chains_short t C h0 Ok Hh0).
  destruct (unlink_at_spec (S (length (t_el t))) t (AtHead h0) e (C h0)) as (t' & E1 & R & Hch & Hsl & Hhd);
    [done|done|lia|by cbn; rewrite (ch_hlen _ _ Ok)|done|].
  exists t'. split; [done|]. split; [done|]. intros h Hh. destruct (decide (h = h0)) as [->|Hne]; [exact Hch|].
  rewrite without_id; [|intros He; destruct (ch_in _ _ Ok h e Hh He) as (a' & k' & Ha' & Hk' & E); apply Hne; unfold h0; congruence].
  rewrite Hhd by congruence. apply (links_frame (t_el t)); [by apply Ok|].
  intros i b Hi Hb. exists b. split; [|done]. rewrite Hsl; [done| |done].
  intros Hi0. destruct (ch_in _ _ Ok h i Hh Hi) as (? & ? & ? & ? & ?), (ch_in _ _ Ok h0 i Hh0 Hi0) as (? & ? & ? & ? & ?). congruence.
Qed.

(** An entry without a key is in no chain. *)
Lemma keyless_chains t C e a : chains t C -> t_el t !! e = Some a -> key a = None ->
  forall h, (h < buckets)%nat -> links (t_el t) (first_at t h) (filter (fun i => i <> e) (C h)).
Proof.
  intros Ok Ha Hk h Hh. rewrite without_id; [by apply Ok|]. intros He. destruct (ch_in _ _ Ok h e Hh He) as (? & ? & ? & ? & _). congruence.
Qed.

(** Entry [e], in no chain, gets the key [k], which no entry has, and becomes the
    first of its chain. *)
Lemma assign_chains t C e a t1 k b : chains t C -> t_el t !! e = Some a -> linksonly t t1 ->
  (forall h, (h < buckets)%nat -> links (t_el t1) (first_at t1 h) (filter (fun i => i <> e) (C h))) ->
  (forall j c, t_el t !! j = Some c -> j <> e -> key c <> Some k) ->
  key b = Some k -> nxt b = first_at t1 (bucket k) ->
  chains (mkT (<[e := b]> (t_el t1)) (<[bucket k := Some e]> (t_hd t1)))
    (fun h => if decide (h = bucket k) then e :: filter (fun i => i <> e) (C h) else filter (fun i => i <> e) (C h)).
Proof.
  intros Ok Ha R Hch Hno Hkb Hnb. pose proof (bucket_lt k) as Hh. set (h0 := bucket k) in *.
  set (t2 := mkT _ _).
  assert (He2 : t_el t2 !! e = Some b).
  { cbn. rewrite list_lookup_insert_eq; [done|]. rewrite (lo_len _ _ R). by apply lookup_lt_Some in Ha. }
  assert (Hj2 : forall j, j <> e -> t_el t2 !! j = t_el t1 !! j) by (intros j Hj; cbn; by rewrite list_lookup_insert_ne).
  assert (Hold : forall j c, j <> e -> t_el t2 !! j = Some c -> exists u, t_el t !! j = Some u /\ key c = key u).
  { intros j c Hj Hc. rewrite Hj2 in Hc by done. destruct (linksonly_inv _ _ _ _ R Hc) as (u & n & Hu & ->). exists u. by rewrite key_set. }
  assert (Hhead : forall h, (h < buckets)%nat -> first_at t2 h = if decide (h = h0) then Some e else first_at t1 h).
  { intros h Hk. unfold first_at at 1, t2. cbn. destruct (decide (h = h0)) as [->|Hne].
    - rewrite list_lookup_insert_eq; [done|]. by rewrite (lo_hlen _ _ R), (ch_hlen _ _ Ok).
    - by rewrite list_lookup_insert_ne by done. }
  assert (Hfr : forall h, (h < buckets)%nat -> links (t_el t2) (first_at t1 h) (filter (fun i => i <> e) (C h))).
  { intros h Hk. apply (links_frame (t_el t1)); [by apply Hch|]. intros j c Hj Hc. apply list_elem_of_filter in Hj as [Hj _].
    exists c. by rewrite Hj2. }
  assert (Hne : forall h, e ∉ filter (fun i => i <> e) (C h)) by (intros h [? _]%list_elem_of_filter; done).
  split.
  - cbn. rewrite length_insert, (lo_hlen _ _ R). apply Ok.
  - intros h Hk. rewrite Hhead by done. destruct (ch_links _ _ Ok h Hk) as [_ Hnd].
    destruct (decide (h = h0)) as [->|]; [|split; [by apply Hfr|by apply NoDup_filter]].
    split; [econstructor; [exact He2|rewrite Hnb; by apply Hfr]|]. apply NoDup_cons. split; [done|by apply NoDup_filter].
  - intros h j Hk Hj. assert (Hcase : (j = e /\ h = h0) \/ (j <> e /\ j ∈ C h)).
    { destruct (decide (h = h0)) as [->|]; [apply elem_of_cons in Hj as [->|Hj]; [by left|]|];
        apply list_elem_of_filter in Hj as [? ?]; by right. }
    destruct Hcase as [[-> ->]|[Hje Hjk]]; [by exists b, k|].
    destruct (ch_in _ _ Ok h j Hk Hjk) as (c & kc & Hc & Hkc & Eh). destruct (lo_el _ _ R j c Hc) as [m Hm].
    exists (set_nxt m c), kc. by rewrite Hj2, Hm, key_set.
  - intros j c kc Hc Hkc. destruct (decide (j = e)) as [->|Hje].
    + rewrite He2 in Hc. injection Hc as <-. rewrite Hkb in Hkc. injection Hkc as <-. rewrite decide_True by done. left.
    + destruct (Hold j c Hje Hc) as (u & Hu & Eu). rewrite Eu in Hkc. pose proof (ch_linked _ _ Ok j u kc Hu Hkc) as Hin.
      case_decide as Eh; [right|]; by apply list_elem_of_filter.
  - intros i j c d kk Hc Hd Hkc Hkd. destruct (decide (i = e)) as [->|Hie], (decide (j = e)) as [->|Hje]; [done| | |].
    + rewrite He2 in Hc. injection Hc as <-. destruct (Hold j d Hje Hd) as (v & Hv & Ev). destruct (Hno j v Hv Hje). congruence.
    + rewrite He2 in Hd. injection Hd as <-. destruct (Hold i c Hie Hc) as (v & Hv & Ev). destruct (Hno i v Hv Hie). congruence.
    + destruct (Hold i c Hie Hc) as (v & Hv & Ev), (Hold j d Hje Hd) as (w & Hw & Ew). apply (ch_uniq _ _ Ok i j v w kk); congruence.
Qed.

(** Changes that keep every key and link keep the chains. *)
Lemma chains_frame l l' hd C : chains (mkT l hd) C ->
  (forall i a', l' !! i = Some a' -> exists a, l !! i = Some a /\ key a' = key a) ->
  (forall i a, l !! i = Some a -> exists a', l' !! i = Some a' /\ key a' = key a /\ nxt a' = nxt a) -> chains (mkT l' hd) C.
Proof.
  intros Ok Hb Hf. split; cbn.
  - apply Ok.
  - intros h Hh. destruct (ch_links _ _ Ok h Hh) as [Hc Hnd]. split; [|done]. apply (links_frame l); [done|].
    intros i a _ Ha. destruct (Hf i a Ha) as (a' & ? & _ & ?). eauto.
  - intros h i Hh Hi. destruct (ch_in _ _ Ok h i Hh Hi) as (a & k & Ha & ? & ?). destruct (Hf i a Ha) as (a' & ? & E & _).
    exists a', k. by rewrite E.
  - intros i a k Ha Hk. apply Hb in Ha as (b & Hb' & E). rewrite E in Hk. by apply (ch_linked _ _ Ok i b).
  - intros i j a b k Ha Hb' Hk Hk'. apply Hb in Ha as (u & Hu & E), Hb' as (v & Hv & E'). apply (ch_uniq _ _ Ok i j u v k); [done|done|congruence..].
Qed.

Lemma chains_alter l hd C i f : chains (mkT l hd) C ->
  (forall a, l !! i = Some a -> key (f a) = key a /\ nxt (f a) = nxt a) -> chains (mkT (alter f i l) hd) C.
Proof.
  intros Ok Hf. apply (chains_frame l); [done|..]; intros j a.
  - destruct (decide (j = i)) as [->|Hne]; [rewrite list_lookup_alter_eq|rewrite list_lookup_alter_ne by done; eauto].
    intros (b & Hb & ->)%fmap_Some. exists b. split; [done|by apply Hf].
  - intros Ha. destruct (decide (j = i)) as [->|Hne]; [rewrite list_lookup_alter_eq, Ha|rewrite list_lookup_alter_ne by done; eauto].
    eexists. split; [done|]. by apply Hf.
Qed.
End HashChain.
