(* ===== verification/FsCache.v ===== *)
(** * The inode cache of [src/kernel/fs/fs.c]

    [iget], [idup], [ilock], [iput] and [ialloc].  The cache is a table of slots
    with hash chains threaded through them; the chains are the source's linked
    lists, with slot numbers for pointers.  A sleep lock or [icache.lock] makes
    a call atomic; the operations are the steps of the model. *)

From S2P Require Import Prelude HashChain NetBytes FsBlock FsFile FsInode.

Definition NINODE : nat := 200.
Definition ICACHE_HASH_SIZE : nat := 64.

Definition IHASH (dev inum : Z) : nat := Z.to_nat (Z.land (dev *u 31 +u inum) 63).

(** A slot: [sl_ip] holds the fields that are read from the disk. *)
Record slot := mkSlot {
  sl_dev : Z;
  sl_inum : Z;
  sl_ref : Z;
  sl_valid : bool;
  sl_next : option nat;
  sl_ip : inode
}.

Record icache := mkIc { ic_slot : list slot; ic_hash : list (option nat) }.

Definition set_ref (r : Z) (s : slot) : slot := mkSlot (sl_dev s) (sl_inum s) r (sl_valid s) (sl_next s) (sl_ip s).
Definition set_next (n : option nat) (s : slot) : slot := mkSlot (sl_dev s) (sl_inum s) (sl_ref s) (sl_valid s) n (sl_ip s).
Definition set_ip (v : bool) (ip : inode) (s : slot) : slot := mkSlot (sl_dev s) (sl_inum s) (sl_ref s) v (sl_next s) ip.

Definition upd_slot (i : nat) (f : slot -> slot) (c : icache) : icache := mkIc (alter f i (ic_slot c)) (ic_hash c).
Definition set_hash (h : nat) (p : option nat) (c : icache) : icache := mkIc (ic_slot c) (<[h := p]> (ic_hash c)).

Definition head (c : icache) (h : nat) : option nat := default None (ic_hash c !! h).

(** [for(ip = icache.hash[h]; ip != 0; ip = ip->hash_next)]; the chain has at
    most [NINODE] slots. *)
Fixpoint iget_walk (fuel : nat) (c : icache) (p : option nat) (dev inum : Z) : option (option nat) :=
  match fuel with
  | O => None
  | S fuel =>
      match p with
      | None => Some None
      | Some i =>
          match ic_slot c !! i with
          | None => None
          | Some s => if (sl_dev s =? dev) && (sl_inum s =? inum) then Some (Some i)
                      else iget_walk fuel c (sl_next s) dev inum
          end
      end
  end.

(** The first slot with [ref == 0]. *)
Fixpoint find_empty (l : list slot) (i : nat) : option nat :=
  match l with
  | [] => None
  | s :: l => if sl_ref s =? 0 then Some i else find_empty l (S i)
  end.

(** [pp] points to the head of a chain or to the link of a slot. *)
Inductive cell := CHash (h : nat) | CNext (i : nat).
Definition get_cell (c : icache) (q : cell) : option nat :=
  match q with CHash h => head c h | CNext i => match ic_slot c !! i with Some s => sl_next s | None => None end end.
Definition set_cell (q : cell) (v : option nat) (c : icache) : icache :=
  match q with CHash h => set_hash h v c | CNext i => upd_slot i (set_next v) c end.

(** [while( *pp && *pp != empty) pp = &( *pp)->hash_next; if( *pp) *pp = empty->hash_next;] *)
Fixpoint unlink (fuel : nat) (q : cell) (e : nat) (c : icache) : option icache :=
  match fuel with
  | O => None
  | S fuel =>
      match get_cell c q with
      | None => Some c
      | Some i => if decide (i = e) then Some (set_cell q (get_cell c (CNext e)) c) else unlink fuel (CNext i) e c
      end
  end.

Definition iget (dev inum : Z) : PM icache nat := fun c =>
  match iget_walk (S NINODE) c (head c (IHASH dev inum)) dev inum with
  | None => None
  | Some (Some i) => Some (i, upd_slot i (fun s => set_ref (sl_ref s + 1) s) c)
  | Some None =>
      match find_empty (ic_slot c) 0 with
      | None => None
      | Some e =>
          match ic_slot c !! e with
          | None => None
          | Some s =>
              let c' := if sl_inum s =? 0 then Some c else unlink (S NINODE) (CHash (IHASH (sl_dev s) (sl_inum s))) e c in
              match c' with
              | None => None
              | Some c =>
                  let h := IHASH dev inum in
                  let c := upd_slot e (fun s => mkSlot dev inum 1 false (head c h) (sl_ip s)) c in
                  Some (e, set_hash h (Some e) c)
              end
          end
      end
  end.

Definition idup (i : nat) : PM icache nat := fun c => Some (i, upd_slot i (fun s => set_ref (sl_ref s + 1) s) c).

(** ** Chains *)

Definition ident (s : slot) : option (Z * Z) := if sl_inum s =? 0 then None else Some (sl_dev s, sl_inum s).

Lemma IHASH_bound dev inum : (IHASH dev inum < ICACHE_HASH_SIZE)%nat.
Proof.
  unfold IHASH, ICACHE_HASH_SIZE. change 63 with (Z.ones 6). rewrite Z.land_ones by lia.
  pose proof (Z.mod_pos_bound (dev *u 31 +u inum) (2 ^ 6) ltac:(lia)). lia.
Qed.

#[export] Program Instance slot_chained : Chained slot (Z * Z) := {|
  nxt := sl_next; set_nxt := set_next; key := ident; bucket := fun k => IHASH (fst k) (snd k); buckets := ICACHE_HASH_SIZE
|}.
Next Obligation. done. Qed.
Next Obligation. by intros []. Qed.
Next Obligation. done. Qed.
Next Obligation. intros [dev inum]. apply IHASH_bound. Qed.

Definition tab (c : icache) : table slot := mkT (ic_slot c) (ic_hash c).

Record icache_ok (c : icache) (C : nat -> list nat) : Prop := {
  ic_len : length (ic_slot c) = NINODE;
  ic_chains : chains (tab c) C;
  ic_ref i s : ic_slot c !! i = Some s -> 0 <= sl_ref s /\ (0 < sl_ref s -> sl_inum s <> 0)
}.

Lemma ident_Some s : sl_inum s <> 0 -> ident s = Some (sl_dev s, sl_inum s).
Proof. unfold ident. by intros ->%Z.eqb_neq. Qed.

Lemma ic_uniq c C : icache_ok c C -> forall i j s t, ic_slot c !! i = Some s -> ic_slot c !! j = Some t -> sl_inum s <> 0 ->
  sl_dev s = sl_dev t -> sl_inum s = sl_inum t -> i = j.
Proof.
  intros K i j s t Hs Ht Hn Ed Ei. apply (ch_uniq _ _ (ic_chains _ _ K) i j s t (sl_dev s, sl_inum s) Hs Ht).
  - by apply ident_Some.
  - rewrite Ed, Ei. apply ident_Some. congruence.
Qed.

(** The walk finds the slot with the identity, if it is in the chain. *)
Lemma walk_spec fuel c p js dev inum : links (ic_slot c) p js -> (length js < fuel)%nat ->
  exists r, iget_walk fuel c p dev inum = Some r /\
    match r with
    | Some i => i ∈ js /\ exists s, ic_slot c !! i = Some s /\ sl_dev s = dev /\ sl_inum s = inum
    | None => forall i s, i ∈ js -> ic_slot c !! i = Some s -> ~ (sl_dev s = dev /\ sl_inum s = inum)
    end.
Proof.
  intros Hc. revert fuel. induction Hc as [|i s js Hi Hc IH]; intros [|fuel] Hf; cbn in Hf; try lia; cbn [iget_walk].
  - exists None. split; [done|]. intros i s Hi. by apply elem_of_nil in Hi.
  - rewrite Hi. destruct (Z.eqb_spec (sl_dev s) dev) as [Ed|Ed], (Z.eqb_spec (sl_inum s) inum) as [Ei|Ei]; cbn [andb];
      [exists (Some i); split; [done|]; split; [left|eauto]| | |];
      (destruct (IH fuel ltac:(lia)) as (r & Er & Hr); exists r; split; [done|]; destruct r as [j|];
        [destruct Hr as [? ?]; split; [by right|done]|intros j t Hj Ht; apply elem_of_cons in Hj as [->|Hj]; [intros [? ?]; congruence|by apply (Hr j t)]]).
Qed.

Lemma find_empty_spec l i : match find_empty l i with
  | Some e => exists k s, e = (i + k)%nat /\ l !! k = Some s /\ sl_ref s = 0
  | None => forall k s, l !! k = Some s -> sl_ref s <> 0
  end.
Proof.
  revert i; induction l as [|s l IH]; intros i; cbn [find_empty]; [done|].
  destruct (Z.eqb_spec (sl_ref s) 0) as [E|E]; [exists 0%nat, s; split; [lia|done]|].
  specialize (IH (S i)). destruct (find_empty l (S i)) as [e|].
  - destruct IH as (k & t & -> & Hk & Ht). exists (S k), t. split; [lia|done].
  - intros [|k] t Hk; [by injection Hk as <-|by eapply IH].
Qed.

(** [unlink] is the removal of [HashChain]. *)
Definition of_tab (t : table slot) : icache := mkIc (t_el t) (t_hd t).
Definition place_of (q : cell) : place := match q with CHash h => AtHead h | CNext i => AtEntry i end.
Lemma unlink_at_eq fuel q e c : unlink fuel q e c = of_tab <$> unlink_at fuel (place_of q) e (tab c).
Proof.
  revert q; induction fuel as [|fuel IH]; intros q; cbn [unlink unlink_at]; [done|].
  assert (E : forall p, get_cell c p = get_at (tab c) (place_of p)) by (by intros []). rewrite E.
  destruct (get_at (tab c) (place_of q)) as [i|]; [|by destruct c]. destruct (decide (i = e)) as [->|]; [|apply IH].
  rewrite E. cbn. by destruct q.
Qed.

(** Taking a slot out of its chain. *)
Lemma detach c C e s : icache_ok c C -> ic_slot c !! e = Some s ->
  exists c1, (if sl_inum s =? 0 then Some c else unlink (S NINODE) (CHash (IHASH (sl_dev s) (sl_inum s))) e c) = Some c1 /\
    linksonly (tab c) (tab c1) /\
    forall h, (h < ICACHE_HASH_SIZE)%nat -> links (ic_slot c1) (head c1 h) (filter (fun i => i <> e) (C h)).
Proof.
  intros K Hs. destruct (Z.eqb_spec (sl_inum s) 0) as [E|E].
  - exists c. split; [done|]. split; [apply linksonly_refl|]. apply (keyless_chains (tab c) C e s (ic_chains _ _ K) Hs).
    cbn. unfold ident. by rewrite E.
  - destruct (unlink_chains (tab c) C e s _ (ic_chains _ _ K) Hs (ident_Some s E)) as (t & Et & R & Hl).
    cbn [t_el tab] in Et. rewrite (ic_len _ _ K) in Et. exists (of_tab t). rewrite unlink_at_eq. cbn [place_of].
    cbn [bucket slot_chained fst snd] in Et. rewrite Et. split; [done|]. by destruct t.
Qed.

(** The fields that are not links. *)
Definition same_slot (s t : slot) : Prop := exists n, t = set_next n s.

(** What [iget] does to the table: slot [i] has the identity and one more
    reference, and the other slots are as they were. *)
Record got (dev inum : Z) (c : icache) (i : nat) (c' : icache) : Prop := {
  gt_new : exists t, ic_slot c' !! i = Some t /\ sl_dev t = dev /\ sl_inum t = inum;
  gt_other j s : j <> i -> ic_slot c !! j = Some s -> exists t, ic_slot c' !! j = Some t /\ same_slot s t;
  gt_hit : forall s, ic_slot c !! i = Some s -> sl_dev s = dev -> sl_inum s = inum ->
    exists t, ic_slot c' !! i = Some t /\ same_slot (set_ref (sl_ref s + 1) s) t;
  gt_miss : (forall j s, ic_slot c !! j = Some s -> ~ (sl_dev s = dev /\ sl_inum s = inum)) ->
    (exists s, ic_slot c !! i = Some s /\ sl_ref s = 0) /\
    exists t, ic_slot c' !! i = Some t /\ sl_ref t = 1 /\ sl_valid t = false
}.

(** A change of fields that are neither identity nor link. *)
Lemma slot_upd_ok c C i f : icache_ok c C ->
  (forall s, sl_dev (f s) = sl_dev s /\ sl_inum (f s) = sl_inum s /\ sl_next (f s) = sl_next s) ->
  (forall s, ic_slot c !! i = Some s -> 0 <= sl_ref (f s) /\ (0 < sl_ref (f s) -> sl_inum s <> 0)) ->
  icache_ok (upd_slot i f c) C.
Proof.
  intros K Hf Hr. split.
  - cbn. rewrite length_alter. apply K.
  - apply (chains_alter (ic_slot c)); [apply K|]. intros s _. destruct (Hf s) as (E1 & E2 & E3). cbn. unfold ident. by rewrite E1, E2.
  - intros j t. cbn. destruct (decide (j = i)) as [->|]; [rewrite list_lookup_alter_eq|rewrite list_lookup_alter_ne by done; apply K].
    intros (s & Hs & ->)%fmap_Some. destruct (Hf s) as (_ & -> & _). by apply Hr.
Qed.

(** A free slot [e] that is in no chain gets a new identity. *)
Lemma assign_ok c C e s c1 dev inum : icache_ok c C -> ic_slot c !! e = Some s -> sl_ref s = 0 -> inum <> 0 ->
  linksonly (tab c) (tab c1) -> (forall h, (h < ICACHE_HASH_SIZE)%nat -> links (ic_slot c1) (head c1 h) (filter (fun i => i <> e) (C h))) ->
  (forall j t, ic_slot c !! j = Some t -> ~ (sl_dev t = dev /\ sl_inum t = inum)) ->
  let h := IHASH dev inum in
  let c2 := set_hash h (Some e) (upd_slot e (fun s => mkSlot dev inum 1 false (head c1 h) (sl_ip s)) c1) in
  got dev inum c e c2 /\ exists C2, icache_ok c2 C2.
Proof.
  intros K Hs Hr Hi R Hch Hno h c2. destruct (lo_el _ _ R e s Hs) as [n Hn]. set (b := mkSlot dev inum 1 false (head c1 h) (sl_ip s)).
  assert (E2 : ic_slot c2 = <[e := b]> (ic_slot c1)).
  { cbn in Hn |- *. by rewrite (alter_insert_at _ _ _ _ Hn). }
  assert (He : (e < length (ic_slot c1))%nat) by (by apply lookup_lt_Some in Hn).
  assert (Hother : forall j t, j <> e -> ic_slot c !! j = Some t -> exists u, ic_slot c2 !! j = Some u /\ same_slot t u).
  { intros j t Hj Ht. rewrite E2, list_lookup_insert_ne by done. destruct (lo_el _ _ R j t Ht) as [m Hm]. cbn in Hm. rewrite Hm.
    eexists. split; [done|]. by exists m. }
  assert (He2 : ic_slot c2 !! e = Some b) by (by rewrite E2, list_lookup_insert_eq).
  split.
  - split.
    + by exists b.
    + exact Hother.
    + intros t Ht Ed Ei. by destruct (Hno e t Ht).
    + intros _. split; [by exists s|]. by exists b.
  - edestruct (assign_chains (tab c) C e s (tab c1) (dev, inum) b) as [Z1 Z2 Z3 Z4 Z5]; [apply K|done|done|exact Hch| |by apply (ident_Some b)|done|].
    { intros j t Ht _ Ek. cbn in Ek. unfold ident in Ek. destruct (Z.eqb_spec (sl_inum t) 0); [done|]. injection Ek as Ed Ei. by destruct (Hno j t Ht). }
    eexists. split.
    + rewrite E2, length_insert. etransitivity; [apply R|apply K].
    + unfold tab. rewrite E2. split; [exact Z1|exact Z2|exact Z3|exact Z4|exact Z5].
    + intros j t Ht. destruct (decide (j = e)) as [->|Hje]; [rewrite He2 in Ht; injection Ht as <-; cbn; split; [lia|done]|].
      rewrite E2, list_lookup_insert_ne in Ht by done. destruct (linksonly_inv _ _ _ _ R Ht) as (u & m & Hu & ->). by apply (ic_ref _ _ K j u).
Qed.

Lemma same_slot_refl t : same_slot t t.
Proof. exists (sl_next t). by destruct t. Qed.

Lemma iget_spec c C dev inum : icache_ok c C -> inum <> 0 ->
  (exists i c' C', iget dev inum c = Some (i, c') /\ icache_ok c' C' /\ got dev inum c i c') \/
  (iget dev inum c = None /\ (forall j s, ic_slot c !! j = Some s -> 0 < sl_ref s /\ ~ (sl_dev s = dev /\ sl_inum s = inum))).
Proof.
  intros K Hi. pose proof (IHASH_bound dev inum) as Hh. unfold iget.
  destruct (ch_links _ _ (ic_chains _ _ K) _ Hh) as [Hc _]. pose proof (chains_short _ C _ (ic_chains _ _ K) Hh) as Hsh. cbn [t_el tab] in Hsh. rewrite (ic_len _ _ K) in Hsh.
  destruct (walk_spec (S NINODE) c (head c (IHASH dev inum)) _ dev inum Hc ltac:(lia)) as (r & -> & Hr). destruct r as [i|].
  - destruct Hr as (_ & s & Hs & Ed & Ei). left. eexists i, _, C. split; [done|]. split.
    + apply slot_upd_ok; [done|done|]. cbn. intros s' Hs'. rewrite Hs in Hs'. injection Hs' as <-. destruct (ic_ref _ _ K i s Hs). split; [lia|]. congruence.
    + split; cbn.
      * rewrite list_lookup_alter_eq, Hs. by eexists.
      * intros j t Hj Ht. rewrite list_lookup_alter_ne by done. exists t. split; [done|]. apply same_slot_refl.
      * intros t Ht _ _. rewrite list_lookup_alter_eq, Ht. eexists. split; [done|]. apply same_slot_refl.
      * intros Hno. by destruct (Hno i s Hs).
  - assert (Hno : forall j t, ic_slot c !! j = Some t -> ~ (sl_dev t = dev /\ sl_inum t = inum)).
    { intros j t Ht [E1 E2]. apply (Hr j t); [|done|done]. rewrite <- E1, <- E2. apply (ch_linked _ _ (ic_chains _ _ K) j t (sl_dev t, sl_inum t) Ht). apply ident_Some. congruence. }
    pose proof (find_empty_spec (ic_slot c) 0) as Hf. destruct (find_empty (ic_slot c) 0) as [e|].
    + destruct Hf as (k & s & -> & Hs & Hz). rewrite Nat.add_0_l in *. rewrite Hs.
      destruct (detach c C k s K Hs) as (c1 & E1 & R & Hch). cbv zeta. rewrite E1.
      destruct (assign_ok c C k s c1 dev inum K Hs Hz Hi R Hch Hno) as [G [C2 K2]]. left. eexists k, _, C2. split; [done|]. split; [exact K2|exact G].
    + right. split; [done|]. intros j s Hs. split; [|by apply (Hno j)]. pose proof (Hf j s Hs). destruct (ic_ref _ _ K j s Hs). lia.
Qed.

Lemma classify_hit dev inum c :
  (exists j s, ic_slot c !! j = Some s /\ sl_dev s = dev /\ sl_inum s = inum) \/
  (forall j s, ic_slot c !! j = Some s -> ~ (sl_dev s = dev /\ sl_inum s = inum)).
Proof.
  destruct (list_find (fun s => sl_dev s = dev /\ sl_inum s = inum) (ic_slot c)) as [[j s]|] eqn:E.
  - apply list_find_Some in E as (Hs & [? ?] & _). left. eauto.
  - right. intros j s Hs. apply list_find_None in E. rewrite Forall_lookup in E. by apply (E j).
Qed.

(** The cache as an abstract object: how many references an inode has. *)
Definition refs (c : icache) (dev inum : Z) : Z :=
  match list_find (fun s => sl_dev s = dev /\ sl_inum s = inum) (ic_slot c) with Some (_, s) => sl_ref s | None => 0 end.

Lemma refs_slot c C i s : icache_ok c C -> ic_slot c !! i = Some s -> sl_inum s <> 0 -> refs c (sl_dev s) (sl_inum s) = sl_ref s.
Proof.
  intros K Hs Hn. unfold refs. destruct (list_find _ _) as [[j t]|] eqn:E.
  - apply list_find_Some in E as (Ht & [E1 E2] & _).
    assert (i = j) as -> by (by apply (ic_uniq _ _ K i j s t)). congruence.
  - apply list_find_None in E. rewrite Forall_lookup in E. by destruct (E i s Hs).
Qed.

Lemma refs_none c dev inum : (forall j s, ic_slot c !! j = Some s -> ~ (sl_dev s = dev /\ sl_inum s = inum)) -> refs c dev inum = 0.
Proof.
  intros H. unfold refs. destruct (list_find _ _) as [[j t]|] eqn:E; [|done].
  apply list_find_Some in E as (Ht & HE & _). by destruct (H j t Ht).
Qed.

Lemma got_hit dev inum c C i c' C' j s : icache_ok c C -> icache_ok c' C' -> got dev inum c i c' -> inum <> 0 ->
  ic_slot c !! j = Some s -> sl_dev s = dev -> sl_inum s = inum -> j = i.
Proof.
  intros K K' G Hi Hs Ed Ei. destruct (decide (j = i)) as [|Hne]; [done|].
  destruct (gt_other _ _ _ _ _ G j s Hne Hs) as (u & Hu & m & ->).
  destruct (gt_new _ _ _ _ _ G) as (t' & Ht' & Ed' & Ei'). apply (ic_uniq _ _ K' j i _ t' Hu Ht'); cbn; congruence.
Qed.

Lemma got_refs dev inum c C i c' C' d n : icache_ok c C -> icache_ok c' C' -> got dev inum c i c' -> inum <> 0 -> n <> 0 ->
  refs c' d n = refs c d n + (if decide (d = dev /\ n = inum) then 1 else 0).
Proof.
  intros K K' G Hi Hn. destruct (gt_new _ _ _ _ _ G) as (t & Ht & Ed & Ei).
  destruct (decide (d = dev /\ n = inum)) as [[-> ->]|Hne].
  - assert (refs c' dev inum = sl_ref t) as -> by (rewrite <- Ed, <- Ei; apply (refs_slot c' C' i); congruence).
    destruct (classify_hit dev inum c) as [(j & s & Hs & Eds & Eis)|Hno].
    + pose proof (got_hit _ _ _ _ _ _ _ _ _ K K' G Hi Hs Eds Eis) as ->.
      assert (refs c dev inum = sl_ref s) as -> by (rewrite <- Eds, <- Eis; apply (refs_slot c C i); congruence).
      destruct (gt_hit _ _ _ _ _ G s Hs Eds Eis) as (u & Hu & m & ->). rewrite Ht in Hu. by injection Hu as ->.
    + rewrite refs_none by done. destruct (gt_miss _ _ _ _ _ G Hno) as [_ (u & Hu & Hr & _)]. rewrite Ht in Hu. injection Hu as ->. lia.
  - rewrite Z.add_0_r. destruct (classify_hit d n c) as [(j & s & Hs & <- & <-)|Hno].
    + rewrite (refs_slot c C j s) by done. destruct (decide (j = i)) as [->|Hji].
      * destruct (classify_hit dev inum c) as [(k & u & Hu & E1 & E2)|Hno].
        { pose proof (got_hit _ _ _ _ _ _ _ _ _ K K' G Hi Hu E1 E2) as ->. rewrite Hs in Hu. injection Hu as <-. by destruct Hne. }
        destruct (gt_miss _ _ _ _ _ G Hno) as [(u & Hu & Hr) _]. rewrite Hs in Hu. injection Hu as <-. rewrite Hr.
        apply refs_none. intros k v Hv [E1 E2]. destruct (decide (k = i)) as [->|Hk]; [rewrite Ht in Hv; injection Hv as <-; apply Hne; split; congruence|].
        pose proof (lookup_lt_Some _ _ _ Hv) as Hlt. rewrite (ic_len _ _ K'), <- (ic_len _ _ K) in Hlt.
        destruct (lookup_lt_is_Some_2 _ _ Hlt) as [w Hw]. destruct (gt_other _ _ _ _ _ G k w Hk Hw) as (x & Hx & m & ->).
        rewrite Hv in Hx. injection Hx as ->. cbn in *. apply Hk. by apply (ic_uniq _ _ K k i w s); congruence.
      * destruct (gt_other _ _ _ _ _ G j s Hji Hs) as (u & Hu & m & ->).
        pose proof (refs_slot c' C' j _ K' Hu) as E. cbn in E. by apply E.
    + rewrite (refs_none c) by done. apply refs_none. intros k v Hv [E1 E2].
      destruct (decide (k = i)) as [->|Hk]; [rewrite Ht in Hv; injection Hv as <-; apply Hne; split; congruence|].
      pose proof (lookup_lt_Some _ _ _ Hv) as Hlt. rewrite (ic_len _ _ K'), <- (ic_len _ _ K) in Hlt.
      destruct (lookup_lt_is_Some_2 _ _ Hlt) as [w Hw]. destruct (gt_other _ _ _ _ _ G k w Hk Hw) as (x & Hx & m & ->).
      rewrite Hv in Hx. injection Hx as ->. cbn in *. by apply (Hno k w Hw).
Qed.

(** C29.  The inode cache keeps one slot per inode.  Started from a cache whose
    hash chains are intact, [iget] ends (no chain has a cycle), keeps the chains
    intact (every used slot is in exactly the chain of its identity, and no
    identity is in two slots), returns a slot with the identity asked for, and
    adds one reference to that inode and none to any other; slots in use by
    others keep their identity, their validity and their inode.  It panics only
    when all slots are referenced and none of them is the inode. *)
Theorem iget_refines c C dev inum : icache_ok c C -> inum <> 0 ->
  match iget dev inum c with
  | Some (i, c') =>
      (exists C', icache_ok c' C') /\
      (exists t, ic_slot c' !! i = Some t /\ sl_dev t = dev /\ sl_inum t = inum /\ sl_ref t = refs c dev inum + 1) /\
      (forall d n, n <> 0 -> refs c' d n = refs c d n + (if decide (d = dev /\ n = inum) then 1 else 0)) /\
      (forall j s, ic_slot c !! j = Some s -> 0 < sl_ref s ->
         exists t, ic_slot c' !! j = Some t /\ sl_dev t = sl_dev s /\ sl_inum t = sl_inum s /\ sl_valid t = sl_valid s /\ sl_ip t = sl_ip s)
  | None => forall j s, ic_slot c !! j = Some s -> 0 < sl_ref s /\ ~ (sl_dev s = dev /\ sl_inum s = inum)
  end.
Proof.
  intros K Hi. destruct (iget_spec c C dev inum K Hi) as [(i & c' & C' & -> & K' & G)|[-> H]]; [|done].
  pose proof (got_refs dev inum c C i c' C') as HR. split; [by exists C'|]. split; [|split; [by auto|]].
  - destruct (gt_new _ _ _ _ _ G) as (t & Ht & Ed & Ei). exists t. split; [done|]. split; [done|]. split; [done|].
    pose proof (HR dev inum K K' G Hi Hi) as E. rewrite decide_True in E by done. rewrite <- E.
    rewrite <- Ed, <- Ei. symmetry. apply (refs_slot c' C' i); [done|done|congruence].
  - intros j s Hs Hr. destruct (decide (j = i)) as [->|Hne].
    + destruct (classify_hit dev inum c) as [(k & u & Hu & E1 & E2)|Hno].
      * pose proof (got_hit _ _ _ _ _ _ _ _ _ K K' G Hi Hu E1 E2) as ->. rewrite Hs in Hu. injection Hu as <-.
        destruct (gt_hit _ _ _ _ _ G s Hs E1 E2) as (t & Ht & m & ->). by eexists.
      * destruct (gt_miss _ _ _ _ _ G Hno) as [(u & Hu & Hz) _]. rewrite Hs in Hu. injection Hu as <-. lia.
    + destruct (gt_other _ _ _ _ _ G j s Hne Hs) as (t & Ht & m & ->). by eexists.
Qed.

(** ** The file system and the cache together *)

Record sys := mkSys { y_fs : fs; y_ic : icache }.

Definition on_fs {A} (m : PM fs A) : PM sys A := fun y =>
  match m (y_fs y) with Some (a, s) => Some (a, mkSys s (y_ic y)) | None => None end.
Definition on_ic {A} (m : PM icache A) : PM sys A := fun y =>
  match m (y_ic y) with Some (a, c) => Some (a, mkSys (y_fs y) c) | None => None end.

(** [ip->...]: the slot behind a pointer. *)
Definition slot_of (i : nat) : PM sys slot := fun y =>
  match ic_slot (y_ic y) !! i with Some s => Some (s, y) | None => None end.
Definition put_slot (i : nat) (f : slot -> slot) : PM sys unit := fun y => Some (tt, mkSys (y_fs y) (upd_slot i f (y_ic y))).

Section Cache.
Context (sb : superblock).

(** The VFS layer: the [drop] operation mounted for a device, and whether the
    device holds this file system. *)
Context (vfs_drop : Z -> option (inode -> PM fs unit)) (vfs_dev_is_xv6fs : Z -> bool).

Definition ilock (i : nat) : PM sys unit :=
  let! s := slot_of i in
  if sl_ref s <? 1 then ppanic
  else if sl_valid s then pret tt
  else let! ip := on_fs (iload sb (sl_dev s) (sl_inum s)) in put_slot i (set_ip true ip).

Definition iunlock (i : nat) : PM sys unit :=
  let! s := slot_of i in if sl_ref s <? 1 then ppanic else pret tt.

(** No links and no other references: the inode is freed. *)
Definition iput_free (i : nat) (s : slot) : PM sys unit :=
  match vfs_drop (sl_dev s) with
  | Some drop => on_fs (drop (sl_ip s)) >>> put_slot i (set_ip false (set_type 0 (sl_ip s)))
  | None =>
      if vfs_dev_is_xv6fs (sl_dev s) then
        let! ip := on_fs (itrunc sb (sl_ip s)) in
        let ip := set_type 0 ip in
        on_fs (iupdate sb ip) >>> put_slot i (set_ip false ip)
      else put_slot i (set_ip false (set_type 0 (sl_ip s)))
  end.

Definition iput (i : nat) : PM sys unit :=
  let! s := slot_of i in
  (if sl_valid s && (i_nlink (sl_ip s) =? 0) && (sl_ref s =? 1) then iput_free i s else pret tt) >>>
  put_slot i (fun s => set_ref (sl_ref s - 1) s).

Definition iunlockput (i : nat) : PM sys unit := iunlock i >>> iput i.

Definition DEFAULT_FILE_MODE : Z := 420.
Definition DEFAULT_DIR_MODE : Z := 493.
Definition DEFAULT_DEV_MODE : Z := 438.

Definition inode_default_mode (type : Z) : Z :=
  if type =? T_DIR then DEFAULT_DIR_MODE else if type =? T_DEV then DEFAULT_DEV_MODE else DEFAULT_FILE_MODE.

(** [memset(dip, 0, sizeof( *dip)); dip->type = type; dip->mode = ...] *)
Definition fresh_dinode (d : bytes) (inum type : Z) : bytes :=
  let off := DINODE_SIZE * (inum mod IPB) in
  let d := put d off (replicate (Z.to_nat DINODE_SIZE) 0) in
  put (put d off (le16 type)) (off + 12) (le16 (inode_default_mode type)).

(** [for(inum = 1; inum < sb.ninodes; inum++)], [n] rounds left. *)
Fixpoint ialloc_scan (n : nat) (inum type : Z) : PM fs Z :=
  match n with
  | O => ppanic
  | S n =>
      let! d := fs_bread_checked (IBLOCK sb inum) in
      if short_at d (DINODE_SIZE * (inum mod IPB)) =? 0 then
        log_write (IBLOCK sb inum) (fresh_dinode d inum type) >>> pret inum
      else ialloc_scan n (inum + 1) type
  end.

Definition ialloc (dev type : Z) : PM sys nat :=
  let! inum := on_fs (ialloc_scan (Z.to_nat (sb_ninodes sb - 1)) 1 type) in
  on_ic (iget dev inum).
End Cache.

(** ** Access *)

Definition IACC_EXEC : Z := 1.
Definition IACC_WRITE : Z := 2.
Definition IACC_READ : Z := 4.

Record cred := mkCred { p_uid : Z; p_gid : Z; p_groups : list Z }.

Definition proc_in_group (p : cred) (gid : Z) : bool :=
  (p_gid p =? gid) || existsb (fun g => g =? gid) (take 16 (p_groups p)).

(** No process ([None]): the kernel itself. *)
Definition inode_allowed_bits (ip : inode) (p : option cred) : Z :=
  match p with
  | None => 7
  | Some p =>
      if p_uid p =? 0 then 7
      else
        let mode := if i_mode ip =? 0 then inode_default_mode (i_type ip) else i_mode ip in
        if p_uid p =? i_uid ip then Z.land (Z.shiftr mode 6) 7
        else if proc_in_group p (i_gid ip) then Z.land (Z.shiftr mode 3) 7
        else Z.land mode 7
  end.

Definition iaccess (ip : inode) (p : option cred) (mode : Z) : Z :=
  let allowed := inode_allowed_bits ip p in
  if flag mode IACC_READ && negb (flag allowed 4) then -1
  else if flag mode IACC_WRITE && negb (flag allowed 2) then -1
  else if flag mode IACC_EXEC && negb (flag allowed 1) then -1
  else 0.

(** ** The invariant of the mounted file system *)

Section Invariant.
Context (sb : superblock) (SB : sb_ok sb) (LO : layout_ok sb) (dev : Z).

(** Every allocated inode of the disk is well formed. *)
Record fs_ok (D : gmap Z bytes) (own : owners) : Prop := {
  fo_disk : disk_ok sb D own;
  fo_inode j : 0 < j < sb_ninodes sb -> i_type (dinode sb D dev j) <> 0 -> inode_ok sb (fix_mode (dinode sb D dev j)) D own
}.

(** Valid slots of the device hold allocated inodes, as the disk has them. *)
Record sys_ok (y : sys) (own : owners) (C : nat -> list nat) : Prop := {
  so_cache : icache_ok (y_ic y) C;
  so_fs : fs_ok (dsk (y_fs y)) own;
  so_valid i s : ic_slot (y_ic y) !! i = Some s -> sl_dev s = dev -> sl_valid s = true ->
    0 < sl_inum s < sb_ninodes sb /\ i_type (dinode sb (dsk (y_fs y)) dev (sl_inum s)) <> 0 /\
    sl_ip s = fix_mode (dinode sb (dsk (y_fs y)) dev (sl_inum s))
}.

Lemma fix_mode_fields ip : i_dev (fix_mode ip) = i_dev ip /\ i_inum (fix_mode ip) = i_inum ip /\ i_type (fix_mode ip) = i_type ip.
Proof. unfold fix_mode. by destruct (no_fmt ip). Qed.

(** A step on one inode. *)
Lemma fs_ok_step D own D' own' k : fs_ok D own -> disk_ok sb D' own' -> others_kept sb k D own D' own' ->
  (i_type (dinode sb D' dev k) <> 0 -> inode_ok sb (fix_mode (dinode sb D' dev k)) D' own') -> fs_ok D' own'.
Proof.
  intros F Hd O Hk. split; [done|]. intros j Hj Ht. destruct (decide (j = k)) as [->|Hne]; [by apply Hk|].
  rewrite (ot_inode _ _ _ _ _ _ O) in * by lia. destruct (ot_file _ _ _ _ _ _ O (fix_mode (dinode sb D dev j))) as [J _].
  - by apply F.
  - by destruct (fix_mode_fields (dinode sb D dev j)) as (_ & -> & _).
  - done.
Qed.

Lemma iload_spec D own s inum : fs_ok D own -> dsk s = D -> 0 < inum < sb_ninodes sb ->
  iload sb dev inum s = if i_type (dinode sb D dev inum) =? 0 then None else Some (fix_mode (dinode sb D dev inum), s).
Proof.
  intros F <- Hi. destruct (iblock_range sb SB LO inum ltac:(lia)). pose proof (sbo_data _ SB).
  destruct (bk_len _ _ (dk_blocks _ _ _ (fo_disk _ _ F)) (IBLOCK sb inum)) as (d & Ed & _); [lia|].
  unfold iload. rewrite (bread_bind _ d) by done. cbv zeta.
  assert (E : get_dinode d dev inum = dinode sb (dsk s) dev inum) by (unfold dinode, blk; by rewrite Ed).
  rewrite E. destruct (fix_mode_fields (dinode sb (dsk s) dev inum)) as (_ & _ & ->). by destruct (_ =? 0).
Qed.

(** [ilock] of a referenced, allocated inode: afterwards the slot is valid and
    holds the inode as the disk has it. *)
Lemma ilock_spec y own C i s : sys_ok y own C -> ic_slot (y_ic y) !! i = Some s -> 0 < sl_ref s -> sl_dev s = dev ->
  0 < sl_inum s < sb_ninodes sb -> i_type (dinode sb (dsk (y_fs y)) dev (sl_inum s)) <> 0 ->
  exists y', ilock sb i y = Some (tt, y') /\ sys_ok y' own C /\ y_fs y' = y_fs y /\
    ic_slot (y_ic y') !! i = Some (set_ip true (fix_mode (dinode sb (dsk (y_fs y)) dev (sl_inum s))) s) /\
    forall j, j <> i -> ic_slot (y_ic y') !! j = ic_slot (y_ic y) !! j.
Proof.
  intros Y Hs Hr Hd Hi Ht. unfold ilock, slot_of. unfold pbind at 1. rewrite Hs. rewrite (proj2 (Z.ltb_ge _ 1)) by lia.
  destruct (sl_valid s) eqn:Ev.
  - exists y. split; [done|]. split; [done|]. split; [done|]. split; [|done]. rewrite Hs. f_equal.
    destruct (so_valid _ _ _ Y i s Hs Hd Ev) as (_ & _ & <-). destruct s. cbn in *. by subst.
  - unfold pbind, on_fs. rewrite Hd, (iload_spec (dsk (y_fs y)) own) by (done || apply Y). rewrite (proj2 (Z.eqb_neq _ 0) Ht).
    eexists. split; [done|]. cbn. split; [|split; [by destruct y|split]].
    + split; cbn.
      * apply slot_upd_ok; [apply Y|done|]. intros s' Hs'. exact (ic_ref _ _ (so_cache _ _ _ Y) i s' Hs').
      * apply Y.
      * intros j t Ht' Hdt Hvt. destruct (decide (j = i)) as [->|]; [|rewrite list_lookup_alter_ne in Ht' by done; by apply (so_valid _ _ _ Y j)].
        rewrite list_lookup_alter_eq, Hs in Ht'. injection Ht' as <-. done.
    + by rewrite list_lookup_alter_eq, Hs.
    + intros j Hj. by rewrite list_lookup_alter_ne.
Qed.

(** *** Releasing a reference *)

(** The slots after a change of slot [i]. *)
Lemma upd_slot_lookup c i f j : ic_slot (upd_slot i f c) !! j = if decide (j = i) then f <$> ic_slot c !! i else ic_slot c !! j.
Proof. cbn. destruct (decide (j = i)) as [->|]; [by rewrite list_lookup_alter_eq|by rewrite list_lookup_alter_ne]. Qed.

Lemma upd_slot_ext c i f g : (forall s, ic_slot c !! i = Some s -> f s = g s) -> upd_slot i f c = upd_slot i g c.
Proof.
  intros H. unfold upd_slot. f_equal. apply list_eq. intros j. change (alter f i (ic_slot c)) with (ic_slot (upd_slot i f c)).
  change (alter g i (ic_slot c)) with (ic_slot (upd_slot i g c)). rewrite !upd_slot_lookup. case_decide; [|done].
  destruct (ic_slot c !! i) as [s|] eqn:E; [|done]. cbn. by rewrite H.
Qed.

Lemma upd_slot_twice c i f g : upd_slot i f (upd_slot i g c) = upd_slot i (fun s => f (g s)) c.
Proof.
  unfold upd_slot. cbn. f_equal. apply list_eq. intros j. destruct (decide (j = i)) as [->|].
  - rewrite !list_lookup_alter_eq. by destruct (ic_slot c !! i).
  - by rewrite !list_lookup_alter_ne.
Qed.

(** The cache after slot [i] has lost a reference and maybe its validity, with
    the inode it holds changed on the disk. *)
Lemma sys_ok_release y own C i s ip v s' own' : sys_ok y own C -> ic_slot (y_ic y) !! i = Some s -> 0 < sl_ref s -> sl_dev s = dev ->
  fs_ok (dsk s') own' -> (forall j, 0 < j < sb_ninodes sb -> j <> sl_inum s -> dinode sb (dsk s') dev j = dinode sb (dsk (y_fs y)) dev j) ->
  (v = true -> dsk s' = dsk (y_fs y) /\ sl_valid s = true /\ ip = sl_ip s) ->
  sys_ok (mkSys s' (upd_slot i (fun s => mkSlot (sl_dev s) (sl_inum s) (sl_ref s - 1) v (sl_next s) ip) (y_ic y))) own' C.
Proof.
  intros Y Hs Hr Hd F HD Hv. split; cbn [y_ic y_fs]; [|done|].
  - apply slot_upd_ok; [apply Y|done|]. cbn. intros t Ht. rewrite Hs in Ht. injection Ht as <-.
    destruct (ic_ref _ _ (so_cache _ _ _ Y) i s Hs). split; [lia|auto].
  - intros j t. rewrite upd_slot_lookup. destruct (decide (j = i)) as [->|Hne].
    + rewrite Hs. intros Et. injection Et as <-. cbn. intros _ ->. destruct (Hv eq_refl) as (-> & Hvs & ->).
      by apply (so_valid _ _ _ Y i s).
    + intros Ht Hdt Hvt. destruct (so_valid _ _ _ Y j t Ht Hdt Hvt) as (Hn & Hty & Hip). split; [done|].
      rewrite HD; [done|done|]. intros E. apply Hne. apply (ic_uniq _ _ (so_cache _ _ _ Y) j i t s); [done|done|lia|congruence|done].
Qed.

Section Put.
Context (vfs_drop : Z -> option (inode -> PM fs unit)) (vfs_dev_is_xv6fs : Z -> bool)
  (VD : vfs_drop dev = None) (VX : vfs_dev_is_xv6fs dev = true).

(** Does [iput] free the inode? *)
Definition last_put (s : slot) : bool := sl_valid s && (i_nlink (sl_ip s) =? 0) && (sl_ref s =? 1).

Lemma iput_spec y own C i s : sys_ok y own C -> ic_slot (y_ic y) !! i = Some s -> 0 < sl_ref s -> sl_dev s = dev ->
  exists y' own', iput sb vfs_drop vfs_dev_is_xv6fs i y = Some (tt, y') /\ sys_ok y' own' C /\
    (exists t, ic_slot (y_ic y') !! i = Some t /\ sl_dev t = dev /\ sl_inum t = sl_inum s /\ sl_ref t = sl_ref s - 1) /\
    (forall j, j <> i -> ic_slot (y_ic y') !! j = ic_slot (y_ic y) !! j) /\
    if last_put s then
      i_type (dinode sb (dsk (y_fs y')) dev (sl_inum s)) = 0 /\
      (forall c, 0 <= c < sb_size sb -> bit sb (dsk (y_fs y')) c = true <->
         bit sb (dsk (y_fs y)) c = true /\ ~ linked (dsk (y_fs y)) (i_addrs (sl_ip s)) c) /\
      others_kept sb (sl_inum s) (dsk (y_fs y)) own (dsk (y_fs y')) own'
    else y_fs y' = y_fs y /\ own' = own.
Proof.
  intros Y Hs Hr Hd. unfold iput, slot_of. unfold pbind at 1. rewrite Hs. fold (last_put s).
  destruct (last_put s) eqn:El.
  - apply andb_true_iff in El as [[Hv Hl]%andb_true_iff Hr1]. apply Z.eqb_eq in Hr1.
    destruct (so_valid _ _ _ Y i s Hs Hd Hv) as (Hn & Hty & Hip).
    pose proof (fo_inode _ _ (so_fs _ _ _ Y) _ Hn Hty) as J. rewrite <- Hip in J.
    assert (Hnum : i_inum (sl_ip s) = sl_inum s /\ i_dev (sl_ip s) = dev)
      by (rewrite Hip; destruct (fix_mode_fields (dinode sb (dsk (y_fs y)) dev (sl_inum s))) as (-> & -> & _); done).
    destruct Hnum as [Hnum Hdev].
    destruct (itrunc_spec sb SB LO (sl_ip s) (y_fs y) own (fo_disk _ _ (so_fs _ _ _ Y)) J) as (s1 & o1 & E1 & Hd1 & J1 & O1 & B1 & _).
    set (ip1 := set_isize 0 _) in *. set (ip2 := set_type 0 ip1).
    destruct (iupdate_inode_ok sb SB LO ip2 s1 o1 Hd1) as (s2 & E2 & Hd2 & J2 & _ & O2 & _ & B2 & _); try apply J1.
    { destruct (io_wf _ _ _ _ J1). by split. }
    { done. }
    assert (O : others_kept sb (sl_inum s) (dsk (y_fs y)) own (dsk s2) o1).
    { rewrite <- Hnum. eapply others_kept_trans; [exact O1|exact O2]. }
    assert (Ht0 : dinode sb (dsk s2) dev (sl_inum s) = ip2 \/ i_type (dinode sb (dsk s2) dev (sl_inum s)) = 0).
    { right. pose proof (io_sync _ _ _ _ J2) as Hsy. change (i_inum ip2) with (i_inum (sl_ip s)) in Hsy.
      change (i_dev ip2) with (i_dev (sl_ip s)) in Hsy. rewrite Hnum, Hdev in Hsy.
      destruct (fix_mode_fields (dinode sb (dsk s2) dev (sl_inum s))) as (_ & _ & <-). by rewrite Hsy. }
    assert (Ht : i_type (dinode sb (dsk s2) dev (sl_inum s)) = 0) by (destruct Ht0 as [->|]; done).
    unfold iput_free. rewrite Hd, VD, VX. unfold pbind, on_fs. rewrite E1. cbv zeta. cbn [y_fs y_ic]. fold ip2. rewrite E2. unfold put_slot. cbn [y_fs y_ic].
    eexists _, o1. split; [reflexivity|].
    match goal with |- sys_ok ?z _ _ /\ _ => replace z with (mkSys s2 (upd_slot i (fun s => mkSlot (sl_dev s) (sl_inum s) (sl_ref s - 1) false (sl_next s) ip2) (y_ic y))) end.
    2: { by rewrite upd_slot_twice. }
    split; [|split; [|split; [|split; [|split]]]]; cbn [y_fs y_ic].
    + apply (sys_ok_release y own C i s); try done.
      * eapply fs_ok_step; [apply Y|done|exact O|]. by rewrite Ht.
      * intros j Hj Hne. apply (ot_inode _ _ _ _ _ _ O); [lia|done].
    + rewrite upd_slot_lookup, decide_True, Hs by done. eexists. split; [done|]. done.
    + intros j Hj. by rewrite upd_slot_lookup, decide_False.
    + done.
    + intros c Hc. rewrite B2 by done. by apply B1.
    + exact O.
  - unfold pbind, pret, put_slot. eexists _, own. split; [done|]. cbn [y_fs y_ic]. split; [|split; [|split; [|done]]].
    + replace (upd_slot i _ (y_ic y)) with (upd_slot i (fun t => mkSlot (sl_dev t) (sl_inum t) (sl_ref t - 1) (sl_valid s) (sl_next t) (sl_ip s)) (y_ic y)).
      * apply (sys_ok_release y own C i s); try done. apply Y.
      * apply upd_slot_ext. intros t Ht. rewrite Hs in Ht. injection Ht as <-. done.
    + rewrite upd_slot_lookup, decide_True, Hs by done. by eexists.
    + intros j Hj. by rewrite upd_slot_lookup, decide_False.
Qed.

(** C31.  Releasing a reference to an inode.  [iput] takes one reference from the
    slot and changes no other slot.  When it was the last one and no directory
    entry names the inode, the inode is free on the disk, its blocks and no
    others are free in the bitmap, and every other inode and file is as before;
    otherwise the disk does not change.  The invariant of the file system and of
    the cache is preserved. *)
Theorem iput_reclaims y own C i s : sys_ok y own C -> ic_slot (y_ic y) !! i = Some s -> 0 < sl_ref s -> sl_dev s = dev ->
  exists y' own', iput sb vfs_drop vfs_dev_is_xv6fs i y = Some (tt, y') /\ sys_ok y' own' C /\
    (exists t, ic_slot (y_ic y') !! i = Some t /\ sl_dev t = dev /\ sl_inum t = sl_inum s /\ sl_ref t = sl_ref s - 1) /\
    (forall j, j <> i -> ic_slot (y_ic y') !! j = ic_slot (y_ic y) !! j) /\
    if last_put s then
      i_type (dinode sb (dsk (y_fs y')) dev (sl_inum s)) = 0 /\
      (forall c, 0 <= c < sb_size sb -> bit sb (dsk (y_fs y')) c = true <->
         bit sb (dsk (y_fs y)) c = true /\ ~ linked (dsk (y_fs y)) (i_addrs (sl_ip s)) c) /\
      others_kept sb (sl_inum s) (dsk (y_fs y)) own (dsk (y_fs y')) own'
    else y_fs y' = y_fs y /\ own' = own.
Proof. apply iput_spec. Qed.

End Put.

(** *** Allocating an inode *)

(** A new inode. *)
Definition fresh_inode (inum type : Z) : inode :=
  mkIn dev inum type 0 0 0 0 0 (inode_default_mode type) 0 (replicate 11 0).

Lemma put_put_in d off a l l' : 0 <= off -> 0 <= a -> a + len l' <= len l -> off + len l <= len d ->
  put (put d off l) (off + a) l' = put d off (put l a l').
Proof.
  unfold len. intros. assert (length (put d off l) = length d) by (rewrite put_length; lia).
  assert (length (put l a l') = length l) by (rewrite put_length; lia).
  apply list_eq. intros i. rewrite !lookup_put by lia. repeat case_bool_decide; try lia; try done; f_equal; lia.
Qed.

Lemma mode_s16 type : is_s16 (inode_default_mode type).
Proof. unfold is_s16, inode_default_mode, DEFAULT_FILE_MODE, DEFAULT_DIR_MODE, DEFAULT_DEV_MODE. repeat case_match; lia. Qed.

Lemma fresh_put d inum type : len d = BSIZE ->
  fresh_dinode d inum type = put_dinode (put d (DINODE_SIZE * (inum mod IPB)) (replicate 64 0)) (fresh_inode inum type).
Proof.
  intros Hd. pose proof (slot_bounds inum). unfold fresh_dinode, put_dinode. cbv zeta. cbn [i_inum fresh_inode].
  change (Z.to_nat DINODE_SIZE) with 64%nat. set (off := DINODE_SIZE * (inum mod IPB)) in *.
  assert (Hz : len (replicate 64 0) = 64) by done.
  assert (E : forall l, len l <= 64 -> put (put d off (replicate 64 0)) off l = put d off (put (replicate 64 0) 0 l)).
  { intros l Hl. rewrite <- put_put_in by lia. by rewrite Z.add_0_r. }
  assert (El : forall l, len l <= 64 -> len (put (replicate 64 0) 0 l) = 64) by (unfold len; intros l Hl; rewrite put_length; rewrite length_replicate; lia).
  assert (E1 : len (le16 type) = 2) by done. assert (E2 : len (le16 (inode_default_mode type)) = 2) by done.
  destruct (enc_lens (fresh_inode inum type) eq_refl) as [E3 E4].
  rewrite !E by lia. rewrite !put_put_in by (rewrite ?El; lia). reflexivity.
Qed.

Lemma fresh_inode_wf inum type : is_s16 type -> inode_wf (fresh_inode inum type).
Proof.
  intros Ht. split; cbn; try (unfold is_s16, is_u32 in *; lia); [apply mode_s16|]. split; [|done].
  repeat (apply Forall_cons; split; [unfold is_u32; lia|]). by apply Forall_nil.
Qed.

Lemma fresh_inode_ok D own inum type : is_s16 type -> 0 <= inum < sb_ninodes sb -> dinode sb D dev inum = fresh_inode inum type ->
  inode_ok sb (fix_mode (fresh_inode inum type)) D own.
Proof.
  intros Ht Hi Ed. pose proof (fresh_inode_wf inum type Ht) as W.
  assert (E : fix_mode (fresh_inode inum type) = set_mode (i_mode (fix_mode (fresh_inode inum type))) (fresh_inode inum type)).
  { unfold fix_mode. by destruct (no_fmt _). }
  assert (Hm : is_s16 (i_mode (fix_mode (fresh_inode inum type)))).
  { unfold fix_mode, no_fmt. cbn [i_type i_mode fresh_inode]. unfold inode_default_mode.
    destruct (Z.eqb_spec type T_DEV) as [->|]; [by vm_compute|]. cbn. apply mode_s16. }
  rewrite E. set (m := i_mode _) in *. split; cbn [i_inum i_size i_addrs i_dev set_mode fresh_inode].
  - done.
  - destruct W. by split.
  - by vm_compute.
  - split; [done|]. intros r Hr Hp. destruct Hp. by apply empty_tree.
  - lia.
  - by rewrite Ed, E.
Qed.

Lemma ialloc_scan_spec n inum type s own : fs_ok (dsk s) own -> is_s16 type -> 0 < inum -> inum + Z.of_nat n = sb_ninodes sb ->
  (exists k s', ialloc_scan sb n inum type s = Some (k, s') /\ inum <= k < sb_ninodes sb /\
     i_type (dinode sb (dsk s) dev k) = 0 /\ dinode sb (dsk s') dev k = fresh_inode k type /\
     fs_ok (dsk s') own /\ others_kept sb k (dsk s) own (dsk s') own) \/
  (ialloc_scan sb n inum type s = None /\ forall j, inum <= j < sb_ninodes sb -> i_type (dinode sb (dsk s) dev j) <> 0).
Proof.
  intros F Ht. revert inum. induction n as [|n IH]; intros inum Hi Hn; cbn [ialloc_scan].
  { right. split; [done|lia]. }
  destruct (inode_block sb SB LO _ _ inum (fo_disk _ _ F) ltac:(lia)) as (d & Ed & Hl & Eg). rewrite (bread_bind _ d) by done.
  assert (Ety : short_at d (DINODE_SIZE * (inum mod IPB)) = i_type (dinode sb (dsk s) dev inum)) by (by rewrite Eg).
  rewrite Ety. destruct (Z.eqb_spec (i_type (dinode sb (dsk s) dev inum)) 0) as [E0|E0].
  - left. pose proof (slot_bounds inum) as Hsl.
    set (d0 := put d (DINODE_SIZE * (inum mod IPB)) (replicate 64 0)).
    assert (Hl0 : len d0 = BSIZE) by (unfold d0, len in *; rewrite put_length; [done|]; rewrite length_replicate; lia).
    destruct (inode_block_update sb SB LO inum (dsk s) own d (fresh_dinode d inum type) (fo_disk _ _ F) ltac:(lia) Ed) as (H1 & H2 & H3 & H4 & H5).
    { rewrite fresh_put by done. by apply put_dinode_len. }
    { intros dv j Hj. rewrite fresh_put by done. rewrite dinode_other by done.
      rewrite <- (Z.add_0_r (DINODE_SIZE * (inum mod IPB))). by apply slot_other. }
    unfold log_write, pbind, pret. eexists inum, _. split; [done|]. cbn [dsk].
    assert (Efr : dinode sb (<[IBLOCK sb inum := fresh_dinode d inum type]> (dsk s)) dev inum = fresh_inode inum type).
    { rewrite H4, fresh_put by done. exact (dinode_roundtrip d0 (fresh_inode inum type) Hl0 (fresh_inode_wf inum type Ht)). }
    split; [lia|]. split; [done|]. split; [done|]. split; [|done].
    eapply fs_ok_step; [exact F|done|exact H5|]. intros _. rewrite Efr. by apply fresh_inode_ok; [|lia|].
  - destruct (IH (inum + 1)) as [(k & s' & E & Hk & H)|[E H]]; [lia|lia| |].
    + left. exists k, s'. split; [done|]. split; [lia|done].
    + right. split; [done|]. intros j Hj. destruct (decide (j = inum)) as [->|]; [done|apply H; lia].
Qed.

Lemma ialloc_spec y own C type : sys_ok y own C -> is_s16 type -> 0 < sb_ninodes sb ->
  (exists i y' C' inum, ialloc sb dev type y = Some (i, y') /\ 0 < inum < sb_ninodes sb /\
     i_type (dinode sb (dsk (y_fs y)) dev inum) = 0 /\ dinode sb (dsk (y_fs y')) dev inum = fresh_inode inum type /\
     sys_ok y' own C' /\ others_kept sb inum (dsk (y_fs y)) own (dsk (y_fs y')) own /\ got dev inum (y_ic y) i (y_ic y') /\
     forall t, ic_slot (y_ic y') !! i = Some t -> sl_valid t = false) \/
  (ialloc sb dev type y = None /\
   ((forall j, 0 < j < sb_ninodes sb -> i_type (dinode sb (dsk (y_fs y)) dev j) <> 0) \/
    forall j s, ic_slot (y_ic y) !! j = Some s -> 0 < sl_ref s)).
Proof.
  intros Y Ht Hn. unfold ialloc.
  destruct (ialloc_scan_spec (Z.to_nat (sb_ninodes sb - 1)) 1 type (y_fs y) own (so_fs _ _ _ Y) Ht) as [(k & s' & E & Hk & H0 & Hf & F & O)|[E H]]; [lia|lia| |].
  2: { right. unfold pbind, on_fs. rewrite E. split; [done|]. left. intros j Hj. apply H. lia. }
  unfold pbind, on_fs. rewrite E. unfold on_ic. cbn [y_ic y_fs].
  destruct (iget_spec (y_ic y) C dev k (so_cache _ _ _ Y) ltac:(lia)) as [(i & c' & C' & E2 & K & G)|[E2 H]]; rewrite E2.
  2: { right. split; [done|]. right. intros j s Hs. by destruct (H j s Hs). }
  left. exists i, (mkSys s' c'), C', k. cbn [y_fs y_ic]. split; [done|]. split; [lia|]. split; [done|]. split; [done|].
  assert (Hinv : forall t, ic_slot c' !! i = Some t -> sl_valid t = false).
  { intros t Et. destruct (sl_valid t) eqn:Ev; [exfalso|done].
    pose proof (lookup_lt_Some _ _ _ Et) as Hlt. rewrite (ic_len _ _ K), <- (ic_len _ _ (so_cache _ _ _ Y)) in Hlt.
    destruct (classify_hit dev k (y_ic y)) as [(j & s & Hs & Ed & Ei)|Hno].
    - pose proof (got_hit _ _ _ _ _ _ _ _ _ (so_cache _ _ _ Y) K G ltac:(lia) Hs Ed Ei) as ->.
      destruct (gt_hit _ _ _ _ _ G s Hs Ed Ei) as (u & Hu & m & ->). rewrite Et in Hu. injection Hu as ->. cbn in Ev.
      destruct (so_valid _ _ _ Y i s Hs Ed Ev) as (_ & Hty & _). rewrite Ei in Hty. done.
    - destruct (gt_miss _ _ _ _ _ G Hno) as [_ (u & Hu & _ & Hv)]. congruence. }
  split; [|done]. split; cbn [y_fs y_ic]; [done|done|].
  intros j t Hj Hdt Hvt. destruct (decide (j = i)) as [->|Hne]; [rewrite Hinv in Hvt; done|].
  pose proof (lookup_lt_Some _ _ _ Hj) as Hlt. rewrite (ic_len _ _ K), <- (ic_len _ _ (so_cache _ _ _ Y)) in Hlt.
  destruct (lookup_lt_is_Some_2 _ _ Hlt) as [s Hs]. destruct (gt_other _ _ _ _ _ G j s Hne Hs) as (u & Hu & m & ->).
  rewrite Hj in Hu. injection Hu as ->. cbn [set_next sl_inum sl_dev sl_valid sl_ip] in *. destruct (so_valid _ _ _ Y j s Hs Hdt Hvt) as (Hr & Hty & Hip).
  assert (Hnk : sl_inum s <> k) by (intros Ek; rewrite Ek in Hty; done).
  rewrite (ot_inode _ _ _ _ _ _ O) by (lia || done). done.
Qed.

(** Allocating an inode.  [ialloc] takes a free inode of the disk, stores it
    with the type asked for, the default permissions, no links, size 0 and no
    blocks, and returns a slot for it that is not yet valid; the other inodes and
    files, and the invariant, are kept.  It panics only when every inode is in
    use or every slot of the cache is referenced. *)
Theorem ialloc_correct y own C type : sys_ok y own C -> is_s16 type -> 0 < sb_ninodes sb ->
  (exists i y' C' inum, ialloc sb dev type y = Some (i, y') /\ 0 < inum < sb_ninodes sb /\
     i_type (dinode sb (dsk (y_fs y)) dev inum) = 0 /\ dinode sb (dsk (y_fs y')) dev inum = fresh_inode inum type /\
     sys_ok y' own C' /\ others_kept sb inum (dsk (y_fs y)) own (dsk (y_fs y')) own /\ got dev inum (y_ic y) i (y_ic y') /\
     forall t, ic_slot (y_ic y') !! i = Some t -> sl_valid t = false) \/
  (ialloc sb dev type y = None /\
   ((forall j, 0 < j < sb_ninodes sb -> i_type (dinode sb (dsk (y_fs y)) dev j) <> 0) \/
    forall j s, ic_slot (y_ic y) !! j = Some s -> 0 < sl_ref s)).
Proof. apply ialloc_spec. Qed.
End Invariant.

(** ** Permissions *)

Lemma allowed_range ip p : 0 <= inode_allowed_bits ip p < 8.
Proof.
  unfold inode_allowed_bits. destruct p as [p|]; [|lia]. destruct (p_uid p =? 0); [lia|]. cbv zeta. change 7 with (Z.ones 3).
  repeat case_match; rewrite Z.land_ones by lia; apply Z.mod_pos_bound; lia.
Qed.

Lemma iaccess_bits ip p mode : 0 <= mode < 8 ->
  iaccess ip p mode = 0 <-> Z.land mode (inode_allowed_bits ip p) = mode.
Proof.
  intros Hm. unfold iaccess. pose proof (allowed_range ip p) as Ha. set (a := inode_allowed_bits ip p) in *. clearbody a.
  assert (mode = 0 \/ mode = 1 \/ mode = 2 \/ mode = 3 \/ mode = 4 \/ mode = 5 \/ mode = 6 \/ mode = 7) as Cm by lia.
  assert (a = 0 \/ a = 1 \/ a = 2 \/ a = 3 \/ a = 4 \/ a = 5 \/ a = 6 \/ a = 7) as Ca by lia. clear Hm Ha.
  destruct_or! Cm; subst mode; destruct_or! Ca; subst a; vm_compute; split; intros E; try reflexivity; discriminate E.
Qed.

(** The mode that [iaccess] goes by: a stored mode of 0 counts as 0755 for a
    directory, 0666 for a device and 0644 for a file. *)
Definition effective_mode (ip : inode) : Z :=
  if i_mode ip =? 0 then (if i_type ip =? T_DIR then 493 else if i_type ip =? T_DEV then 438 else 420) else i_mode ip.

(** Permission checks.  [iaccess] grants a request to the kernel and to root,
    and to any other process exactly when all bits of the request are among the
    three bits of the mode for the class of the process: owner, else group, else
    others.  A mode of 0 counts as the default one, so chmod 000 leaves a file
    readable to everybody. *)
Theorem iaccess_unix_rule ip p mode : 0 <= mode < 8 ->
  iaccess ip p mode = 0 <->
  match p with
  | None => True
  | Some p => p_uid p = 0 \/
      Z.land mode (Z.shiftr (effective_mode ip) (if p_uid p =? i_uid ip then 6 else if proc_in_group p (i_gid ip) then 3 else 0)) = mode
  end.
Proof.
  intros Hm.
  assert (H7 : forall x, Z.land mode (Z.land x 7) = Z.land mode x).
  { intros x. rewrite (Z.land_comm x), Z.land_assoc. f_equal. change 7 with (Z.ones 3). rewrite Z.land_ones by lia. by apply Z.mod_small. }
  assert (Hall : Z.land mode 7 = mode) by (change 7 with (Z.ones 3); rewrite Z.land_ones by lia; by apply Z.mod_small).
  rewrite iaccess_bits by done. destruct p as [p|]; [|by split]. unfold inode_allowed_bits.
  destruct (Z.eqb_spec (p_uid p) 0) as [E|E]; [split; [by left|done]|]. cbv zeta. fold (inode_default_mode (i_type ip)).
  change (if i_mode ip =? 0 then inode_default_mode (i_type ip) else i_mode ip) with (effective_mode ip).
  destruct (p_uid p =? i_uid ip); [|destruct (proc_in_group p (i_gid ip))]; rewrite H7, ?Z.shiftr_0_r; (split; [by right|by intros [?|?]]).
Qed.

(** ** A cache with one file *)

Module CacheExample.
Import InodeExample.

Definition slot0 : slot := mkSlot 0 0 0 false None (mkIn 0 0 0 0 0 0 0 0 0 0 []).
Definition slot1 : slot := mkSlot 1 1 1 true None ip0.
Definition c0 : icache := mkIc (slot1 :: replicate 199 slot0) (<[32%nat := Some 0%nat]> (replicate 64 None)).
Definition C0 (h : nat) : list nat := if decide (h = 32%nat) then [0%nat] else [].
Definition y0 : sys := mkSys s0 c0.

Lemma c0_slot i s : ic_slot c0 !! i = Some s -> (i = 0%nat /\ s = slot1) \/ s = slot0.
Proof.
  unfold c0. cbn [ic_slot]. destruct i as [|i].
  - intros E. injection E as <-. by left.
  - rewrite lookup_cons_ne_0 by done. intros [E _]%lookup_replicate. by right.
Qed.

Lemma c0_ok : icache_ok c0 C0.
Proof.
  split; [done| |intros i s Hs; destruct (c0_slot i s Hs) as [[-> ->]| ->]; cbn; lia]. split.
  - done.
  - intros h Hh. unfold first_at, C0, c0. cbn [ic_hash tab t_hd]. destruct (decide (h = 32%nat)) as [->|Hne].
    + rewrite list_lookup_insert_eq by (rewrite length_replicate; lia). cbn. split; [|apply NoDup_singleton].
      eapply links_cons; [done|]. apply links_nil.
    + rewrite list_lookup_insert_ne by done. rewrite lookup_replicate_2 by done. cbn.
      split; [apply links_nil|apply NoDup_nil_2].
  - intros h i Hh. unfold C0. destruct (decide (h = 32%nat)) as [->|]; [|by intros ?%elem_of_nil].
    intros ->%list_elem_of_singleton. by exists slot1, (1, 1).
  - intros i s k Hs Hk. destruct (c0_slot i s Hs) as [[-> ->]| ->]; [|done]. injection Hk as <-. apply list_elem_of_singleton. done.
  - intros i j s t k Hs Ht Hk Hk'. destruct (c0_slot i s Hs) as [[-> ->]| ->]; [|done]. by destruct (c0_slot j t Ht) as [[-> ->]| ->].
Qed.

Lemma fs0_ok : fs_ok sb0 1 disk0 own0.
Proof.
  split; [apply disk0_ok|]. intros j Hj Ht. cbn [sb_ninodes sb0] in Hj.
  assert (j = 1 \/ j = 2 \/ j = 3 \/ j = 4 \/ j = 5 \/ j = 6 \/ j = 7) as Cj by lia.
  destruct_or! Cj; subst j; try (vm_compute in Ht; by destruct Ht).
  replace (fix_mode (dinode sb0 disk0 1 1)) with ip0 by (by vm_compute). apply inode0_ok.
Qed.

Lemma y0_ok : sys_ok sb0 1 y0 own0 C0.
Proof.
  split; cbn [y0 y_ic y_fs]; [apply c0_ok|apply fs0_ok|].
  intros i s Hs Hd Hv. destruct (c0_slot i s Hs) as [[-> ->]| ->]; [|done]. by vm_compute.
Qed.

Lemma iget_refines_witness :
  match iget 1 1 c0 with Some (i, c') => refs c' 1 1 = 2 | None => False end.
Proof.
  pose proof (iget_refines c0 C0 1 1 c0_ok ltac:(discriminate)) as H.
  destruct (iget 1 1 c0) as [[i c']|] eqn:E; [|vm_compute in E; discriminate].
  destruct H as (_ & _ & H & _). rewrite H by discriminate. by vm_compute.
Defined.

Lemma iput_reclaims_witness :
  exists y', iput sb0 (fun _ => None) (fun _ => true) 0 y0 = Some (tt, y') /\ i_type (dinode sb0 (dsk (y_fs y')) 1 1) = 0.
Proof.
  destruct (iput_reclaims sb0 sb0_ok layout0_ok 1 (fun _ => None) (fun _ => true) eq_refl eq_refl y0 own0 C0 0 slot1 y0_ok eq_refl)
    as (y' & own' & E & _ & _ & _ & H); [by vm_compute|reflexivity|].
  exists y'. split; [exact E|]. exact (proj1 H).
Defined.

Lemma ialloc_correct_witness : exists i y', ialloc sb0 1 T_FILE y0 = Some (i, y').
Proof.
  destruct (ialloc_correct sb0 sb0_ok layout0_ok 1 y0 own0 C0 T_FILE y0_ok) as [(i & y' & C' & inum & E & _)|[E _]];
    [by vm_compute|by vm_compute|by exists i, y'|vm_compute in E; discriminate].
Defined.

Lemma iaccess_unix_rule_witness :
  iaccess ip0 (Some (mkCred 5 5 [])) IACC_READ = 0 /\ iaccess ip0 (Some (mkCred 5 5 [])) IACC_WRITE = -1.
Proof. split; [|by vm_compute]. apply iaccess_unix_rule; [by vm_compute|]. right. by vm_compute. Defined.
End CacheExample.
