(* ===== verification/FsDir.v ===== *)
(** * Directories and paths of [src/kernel/fs/fs.c]

    A C string is the list of its bytes up to the NUL; an array of characters is
    the list of all of them.  Reading past the end of a list reads NULs. *)

From S2P Require Import Prelude NetBytes FsBlock FsFile FsInode FsCache.

Definition NAME_MAX : Z := 255.
Definition DIRSIZ : nat := Z.to_nat (NAME_MAX + 1).
Definition DIRENT_SIZE : Z := 258.

(** ** Strings, [src/kernel/core/string.c] *)

Definition chr (s : bytes) : Z := match s with [] => 0 | c :: _ => c end.

Fixpoint strncmp (p q : bytes) (n : nat) : Z :=
  match n with
  | O => 0
  | S n => if negb (chr p =? 0) && (chr p =? chr q) then strncmp (tail p) (tail q) n else chr p - chr q
  end.

(** The bytes stored at the destination. *)
Fixpoint strncpy (t : bytes) (n : nat) : bytes :=
  match n with
  | O => []
  | S n => if chr t =? 0 then replicate (S n) 0 else chr t :: strncpy (tail t) n
  end.

Lemma strncpy_length t n : length (strncpy t n) = n.
Proof.
  revert t; induction n as [|n IH]; intros t; cbn [strncpy]; [done|].
  destruct (chr t =? 0); cbn [length]; [by rewrite length_replicate|by rewrite IH].
Qed.

(** Two strings compare equal when [strncpy] stores the same bytes for them. *)
Lemma strncmp_eq p q n : strncmp p q n = 0 <-> strncpy p n = strncpy q n.
Proof.
  revert p q; induction n as [|n IH]; intros p q; cbn [strncmp strncpy]; [done|].
  destruct (Z.eqb_spec (chr p) 0) as [Ep|Ep]; cbn [negb andb].
  - rewrite Ep. destruct (Z.eqb_spec (chr q) 0) as [Eq|Eq]; [rewrite Eq; done|].
    split; [lia|]. cbn [replicate]. intros E. injection E. lia.
  - destruct (Z.eqb_spec (chr p) (chr q)) as [E|E].
    + rewrite E in Ep |- *. rewrite (proj2 (Z.eqb_neq _ 0) Ep), IH. split; [by intros ->|]. intros H. by injection H.
    + split; [lia|]. destruct (Z.eqb_spec (chr q) 0) as [Eq|Eq]; cbn [replicate]; intros H; injection H; lia.
Qed.

Lemma strncpy_idem t n : strncpy (strncpy t n) n = strncpy t n.
Proof.
  revert t; induction n as [|n IH]; intros t; cbn [strncpy]; [done|].
  destruct (Z.eqb_spec (chr t) 0) as [E|E]; [done|]. cbn [chr tail]. by rewrite (proj2 (Z.eqb_neq _ 0) E), IH.
Qed.

Definition namecmp (s t : bytes) : Z := strncmp s t DIRSIZ.

(** ** Directory entries *)

Definition de_inum (e : bytes) : Z := rd16 (sub_bytes e 0 2).
Definition de_name (e : bytes) : bytes := sub_bytes e 2 256.
Definition enc_dirent (inum : Z) (name : bytes) : bytes := le16 inum ++ strncpy name DIRSIZ.

Section Directories.
Context (sb : superblock).
Context (devsw_read : Z -> option (nat -> Z -> Z -> Z * bytes)) (devsw_write : Z -> option (nat -> Z -> bytes -> Z))
  (procfs_readi : inode -> Z -> Z -> Z * bytes) (pgdir kbuf : bool)
  (vfs_drop : Z -> option (inode -> PM fs unit)) (vfs_dev_is_xv6fs : Z -> bool).

(** [readi(dp, (char* )&de, off, sizeof(de))] and [writei] of an entry, whose buffer is
    on the kernel stack. *)
Definition read_dirent (i : nat) (off : Z) : PM sys (Z * bytes) :=
  let! s := slot_of i in
  let! (r, got, ip) := on_fs (readi sb devsw_read procfs_readi true pgdir kbuf (sl_ip s) (fun _ _ => true) off DIRENT_SIZE) in
  put_slot i (set_ip (sl_valid s) ip) >>> pret (r, got).

Definition write_dirent (i : nat) (off : Z) (e : bytes) : PM sys Z :=
  let! s := slot_of i in
  let! (r, ip) := on_fs (writei sb devsw_write true pgdir kbuf (sl_ip s) (fun t m => (sub_bytes e t m, true)) off DIRENT_SIZE) in
  put_slot i (set_ip (sl_valid s) ip) >>> pret r.

(** [for(off = 0; off < dp->size; off += sizeof(de))] *)
Fixpoint dirlookup_loop (fuel : nat) (i : nat) (name : bytes) (off : Z) : PM sys (option (nat * Z)) :=
  match fuel with
  | O => ppanic
  | S fuel =>
      let! s := slot_of i in
      if off <? i_size (sl_ip s) then
        let! (r, de) := read_dirent i off in
        if negb (r =? DIRENT_SIZE) then ppanic
        else if de_inum de =? 0 then dirlookup_loop fuel i name (off +u DIRENT_SIZE)
        else if namecmp name (de_name de) =? 0 then
          let! j := on_ic (iget (sl_dev s) (de_inum de)) in pret (Some (j, off))
        else dirlookup_loop fuel i name (off +u DIRENT_SIZE)
      else pret None
  end.

(** The slot of the entry's inode and the offset of the entry. *)
Definition dirlookup (i : nat) (name : bytes) : PM sys (option (nat * Z)) :=
  let! s := slot_of i in
  if negb (i_type (sl_ip s) =? T_DIR) then ppanic
  else dirlookup_loop (S (Z.to_nat (i_size (sl_ip s)))) i name 0.

(** The search of [dirlink] for an empty entry. *)
Fixpoint empty_loop (fuel : nat) (i : nat) (off : Z) : PM sys Z :=
  match fuel with
  | O => ppanic
  | S fuel =>
      let! s := slot_of i in
      if off <? i_size (sl_ip s) then
        let! (r, de) := read_dirent i off in
        if negb (r =? DIRENT_SIZE) then ppanic
        else if de_inum de =? 0 then pret off
        else empty_loop fuel i (off + DIRENT_SIZE)
      else pret off
  end.

Definition dirlink (i : nat) (name : bytes) (inum : Z) : PM sys Z :=
  let! found := dirlookup i name in
  match found with
  | Some (j, _) => iput sb vfs_drop vfs_dev_is_xv6fs j >>> pret (-1)
  | None =>
      let! s := slot_of i in
      let! off := empty_loop (S (Z.to_nat (i_size (sl_ip s)))) i 0 in
      let! r := write_dirent i off (enc_dirent inum name) in
      if negb (r =? DIRENT_SIZE) then ppanic else pret 0
  end.
End Directories.

(** ** Paths *)

Definition slash : Z := 47.

Fixpoint skip_slashes (p : bytes) : bytes :=
  match p with c :: p' => if c =? slash then skip_slashes p' else p | [] => [] end.

(** The element up to the next slash, and what follows it. *)
Fixpoint take_elem (p : bytes) : bytes * bytes :=
  match p with
  | c :: p' => if c =? slash then ([], p) else let '(e, r) := take_elem p' in (c :: e, r)
  | [] => ([], [])
  end.

(** The name and the rest of the path.  A name of [DIRSIZ] bytes or more is cut
    to [DIRSIZ] bytes. *)
Definition skipelem (path : bytes) : option (bytes * bytes) :=
  match skip_slashes path with
  | [] => None
  | p => let '(e, r) := take_elem p in Some (take DIRSIZ e, skip_slashes r)
  end.

Definition ROOTDEV : Z := 1.
Definition ROOTINO : Z := 1.

Section Paths.
Context (sb : superblock).
Context (devsw_read : Z -> option (nat -> Z -> Z -> Z * bytes)) (procfs_readi : inode -> Z -> Z -> Z * bytes) (pgdir kbuf : bool)
  (vfs_drop : Z -> option (inode -> PM fs unit)) (vfs_dev_is_xv6fs : Z -> bool).

(** The current process: its credentials and its working directory. *)
Context (myproc : option cred) (cwd : nat).

(** [while((path = skipelem(path, name)) != 0)]: every round takes an element off
    the path, so its length is enough fuel. *)
Fixpoint namex_loop (fuel : nat) (ip : nat) (path : bytes) (nameiparent : bool) : PM sys (option (nat * bytes)) :=
  match fuel with
  | O => ppanic
  | S fuel =>
      match skipelem path with
      | None =>
          if nameiparent then iput sb vfs_drop vfs_dev_is_xv6fs ip >>> pret None else pret (Some (ip, []))
      | Some (name, path) =>
          ilock sb ip >>>
          let! s := slot_of ip in
          if negb (i_type (sl_ip s) =? T_DIR) then iunlockput sb vfs_drop vfs_dev_is_xv6fs ip >>> pret None
          else if iaccess (sl_ip s) myproc IACC_EXEC <? 0 then iunlockput sb vfs_drop vfs_dev_is_xv6fs ip >>> pret None
          else if nameiparent && (chr path =? 0) then iunlock ip >>> pret (Some (ip, name))
          else
            let! next := dirlookup sb devsw_read procfs_readi pgdir kbuf ip name in
            match next with
            | None => iunlockput sb vfs_drop vfs_dev_is_xv6fs ip >>> pret None
            | Some (next, _) => iunlockput sb vfs_drop vfs_dev_is_xv6fs ip >>> namex_loop fuel next path nameiparent
            end
      end
  end.

Definition namex (path : bytes) (nameiparent : bool) : PM sys (option (nat * bytes)) :=
  let! ip := if chr path =? slash then on_ic (iget ROOTDEV ROOTINO) else on_ic (idup cwd) in
  namex_loop (S (length path)) ip path nameiparent.

Definition namei (path : bytes) : PM sys (option nat) :=
  let! r := namex path false in pret (fst <$> r).
Definition nameiparent (path : bytes) : PM sys (option (nat * bytes)) := namex path true.
End Paths.

(** ** Directories as maps from names to inode numbers *)

(** The entries of a directory. *)
Definition ents (c : bytes) : list bytes :=
  (fun k => sub_bytes c (DIRENT_SIZE * Z.of_nat k) DIRENT_SIZE) <$> seq 0 (Z.to_nat (len c / DIRENT_SIZE)).

(** Does entry [e] name [name]? *)
Definition names (name e : bytes) : bool := negb (de_inum e =? 0) && (namecmp name (de_name e) =? 0).

Fixpoint find_ent (l : list bytes) (k : nat) (name : bytes) : option (nat * Z) :=
  match l with
  | [] => None
  | e :: l => if names name e then Some (k, de_inum e) else find_ent l (S k) name
  end.

(** What a directory with content [c] says about a name. *)
Definition dir_get (c : bytes) (name : bytes) : option Z := snd <$> find_ent (ents c) 0 name.

Fixpoint find_free (l : list bytes) (k : nat) : nat :=
  match l with
  | [] => k
  | e :: l => if de_inum e =? 0 then k else find_free l (S k)
  end.

Lemma find_ent_shift l k name : find_ent l k name = (fun '(j, n) => ((k + j)%nat, n)) <$> find_ent l 0 name.
Proof.
  revert k; induction l as [|e l IH]; intros k; cbn [find_ent]; [done|]. destruct (names name e).
  - cbn. by rewrite Nat.add_0_r.
  - rewrite IH, (IH 1%nat). destruct (find_ent l 0 name) as [[j n]|]; [|done]. cbn. do 2 f_equal. lia.
Qed.

Lemma names_eq n1 n2 e : strncpy n1 DIRSIZ = strncpy n2 DIRSIZ -> names n1 e = names n2 e.
Proof.
  intros E. unfold names, namecmp. f_equal.
  destruct (Z.eqb_spec (strncmp n1 (de_name e) DIRSIZ) 0) as [E1|E1], (Z.eqb_spec (strncmp n2 (de_name e) DIRSIZ) 0) as [E2|E2]; try done;
    rewrite strncmp_eq in *; congruence.
Qed.

Lemma find_ent_app l1 l2 name : find_ent (l1 ++ l2) 0 name =
  match find_ent l1 0 name with Some r => Some r | None => find_ent l2 (length l1) name end.
Proof.
  induction l1 as [|e l1 IH]; cbn [find_ent app length]; [by destruct (find_ent l2 0 name)|].
  destruct (names name e); [done|]. rewrite find_ent_shift, IH, (find_ent_shift l1 1).
  destruct (find_ent l1 0 name) as [[j n]|]; [done|]. cbn. rewrite (find_ent_shift l2 (length l1)), (find_ent_shift l2 (S (length l1))).
  destruct (find_ent l2 0 name) as [[j n]|]; done.
Qed.

(** Entering a name that is not there in a slot that is free, or at the end. *)
Lemma find_ent_set l1 old l2 e name n name' :
  Forall (fun x => de_inum x = 0) old -> (length old <= 1)%nat -> de_inum e = n -> n <> 0 -> de_name e = strncpy name DIRSIZ ->
  find_ent (l1 ++ old ++ l2) 0 name = None ->
  snd <$> find_ent (l1 ++ e :: l2) 0 name' =
    if decide (strncpy name' DIRSIZ = strncpy name DIRSIZ) then Some n else snd <$> find_ent (l1 ++ old ++ l2) 0 name'.
Proof.
  intros Hold Hl Hn Hn0 Hnm Hno.
  assert (Hcan : strncpy (strncpy name DIRSIZ) DIRSIZ = strncpy name DIRSIZ) by apply strncpy_idem.
  assert (Hme : forall x, names x e = bool_decide (strncpy x DIRSIZ = strncpy name DIRSIZ)).
  { intros x. unfold names, namecmp. rewrite Hn, (proj2 (Z.eqb_neq _ 0) Hn0), Hnm. cbn [negb andb].
    apply eq_bool_prop_intro. rewrite Is_true_true, Z.eqb_eq, strncmp_eq, Hcan. by rewrite Is_true_true, bool_decide_eq_true. }
  assert (Hskip : forall x, snd <$> find_ent (old ++ l2) (length l1) x = snd <$> find_ent l2 (length l1) x).
  { intros x. destruct old as [|o [|]]; cbn in Hl; [done| |lia]. apply Forall_cons in Hold as [Ho _]. cbn [app find_ent].
    replace (names x o) with false by (unfold names; by rewrite Ho).
    rewrite (find_ent_shift l2 (S _)), (find_ent_shift l2 (length l1)). by destruct (find_ent l2 0 x) as [[]|]. }
  rewrite !find_ent_app in *. case_decide as Ec.
  - assert (Hsame : forall l k, find_ent l k name' = find_ent l k name).
    { intros l. induction l as [|x l IH]; intros k; cbn [find_ent]; [done|]. rewrite (names_eq name' name) by done. by rewrite IH. }
    rewrite Hsame. destruct (find_ent l1 0 name); [done|]. cbn [find_ent]. rewrite Hme, bool_decide_eq_true_2 by done. cbn. by rewrite Hn.
  - destruct (find_ent l1 0 name') as [r|]; [done|]. rewrite Hskip. cbn [find_ent]. rewrite Hme, bool_decide_eq_false_2 by done.
    rewrite (find_ent_shift l2 (S _)), (find_ent_shift l2 (length l1)). by destruct (find_ent l2 0 name') as [[]|].
Qed.

(** *** The entries after a write *)

Lemma ents_length c n : len c = DIRENT_SIZE * Z.of_nat n -> length (ents c) = n.
Proof. intros E. unfold ents. rewrite length_fmap, length_seq, E. unfold DIRENT_SIZE. rewrite Z.mul_comm, Z.div_mul by lia. lia. Qed.

Lemma ents_lookup c n k : len c = DIRENT_SIZE * Z.of_nat n ->
  ents c !! k = if decide (k < n)%nat then Some (sub_bytes c (DIRENT_SIZE * Z.of_nat k) DIRENT_SIZE) else None.
Proof.
  intros E. case_decide as Hk.
  - unfold ents. rewrite list_lookup_fmap, lookup_seq_lt; [done|]. rewrite E. unfold DIRENT_SIZE. rewrite Z.mul_comm, Z.div_mul by lia. lia.
  - apply lookup_ge_None. rewrite (ents_length c n) by done. lia.
Qed.

Lemma put_end c e : put c (len c) e = c ++ e.
Proof. unfold put, len. rewrite Nat2Z.id, take_ge, drop_ge, app_nil_r by lia. done. Qed.

Lemma sub_app_l c e off n : 0 <= off -> 0 <= n -> off + n <= len c -> sub_bytes (c ++ e) off n = sub_bytes c off n.
Proof.
  unfold len. intros. apply sub_bytes_ext. intros i Hi. by rewrite lookup_app_l by lia.
Qed.
Lemma sub_app_r c e : sub_bytes (c ++ e) (len c) (len e) = e.
Proof. unfold sub_bytes, len. rewrite !Nat2Z.id, drop_app_length, take_ge by lia. done. Qed.

Lemma ents_put c n k e : len c = DIRENT_SIZE * Z.of_nat n -> (k <= n)%nat -> len e = DIRENT_SIZE ->
  ents (put c (DIRENT_SIZE * Z.of_nat k) e) = take k (ents c) ++ e :: drop (S k) (ents c).
Proof.
  intros Hc Hk He. pose proof (ents_length c n Hc) as Hl. unfold DIRENT_SIZE in *.
  assert (Ht : length (take k (ents c)) = k) by (rewrite length_take; lia).
  destruct (decide (k = n)) as [->|Hne].
  - rewrite <- Hc, put_end. assert (Hc' : len (c ++ e) = 258 * Z.of_nat (S n)) by (rewrite len_app; lia).
    apply list_eq. intros i. rewrite (ents_lookup (c ++ e) (S n)) by done. unfold DIRENT_SIZE.
    destruct (decide (i < n)%nat) as [Hi|Hi].
    + rewrite lookup_app_l by lia. rewrite lookup_take_lt by done. rewrite (ents_lookup c n) by done. rewrite !decide_True by lia.
      unfold DIRENT_SIZE. by rewrite sub_app_l by lia.
    + rewrite lookup_app_r, Ht by lia. destruct (decide (i = n)) as [->|].
      * rewrite Nat.sub_diag, decide_True by lia. cbn. f_equal. rewrite <- Hc, <- He. apply sub_app_r.
      * rewrite decide_False by lia. symmetry. apply lookup_ge_None. cbn. rewrite length_drop. lia.
  - assert (Hc' : len (put c (258 * Z.of_nat k) e) = 258 * Z.of_nat n) by (unfold len in *; rewrite put_length; lia).
    apply list_eq. intros i. rewrite (ents_lookup _ n) by done. unfold DIRENT_SIZE.
    destruct (decide (i < k)%nat) as [Hi|Hi]; [|destruct (decide (i = k)) as [->|Hik]].
    + rewrite lookup_app_l by lia. rewrite lookup_take_lt by done. rewrite (ents_lookup c n) by done. rewrite !decide_True by lia.
      unfold DIRENT_SIZE. by rewrite sub_put_out by lia.
    + rewrite lookup_app_r, Ht, Nat.sub_diag by lia. rewrite decide_True by lia. cbn. f_equal. rewrite <- He. apply sub_put; lia.
    + rewrite lookup_app_r, Ht by lia. destruct (i - k)%nat as [|m] eqn:Em; [lia|]. rewrite lookup_cons_ne_0 by done. change (Init.Nat.pred (S m)) with m. rewrite lookup_drop.
      replace (S k + m)%nat with i by lia. rewrite (ents_lookup c n) by done. case_decide; [|done].
      unfold DIRENT_SIZE. by rewrite sub_put_out by lia.
Qed.

Lemma enc_dirent_len inum name : len (enc_dirent inum name) = DIRENT_SIZE.
Proof. unfold enc_dirent, len. rewrite length_app, strncpy_length. done. Qed.

Lemma enc_dirent_fields inum name : 0 <= inum < 65536 ->
  de_inum (enc_dirent inum name) = inum /\ de_name (enc_dirent inum name) = strncpy name DIRSIZ.
Proof.
  intros Hi. unfold de_inum, de_name, enc_dirent. split.
  - rewrite sub_app_l by (change (len (le16 inum)) with 2; lia). change (sub_bytes (le16 inum) 0 2) with (le16 inum). by apply rd16_le16.
  - change 2 with (len (le16 inum)). replace 256 with (len (strncpy name DIRSIZ)) by (unfold len; by rewrite strncpy_length).
    apply sub_app_r.
Qed.

Lemma find_free_spec l k : let j := find_free l k in (k <= j <= k + length l)%nat /\
  (forall e, l !! (j - k)%nat = Some e -> de_inum e = 0).
Proof.
  cbv zeta. revert k; induction l as [|e l IH]; intros k; cbn [find_free length].
  - split; [lia|]. intros e. by rewrite lookup_nil.
  - destruct (Z.eqb_spec (de_inum e) 0) as [E|E].
    + split; [lia|]. rewrite Nat.sub_diag. intros e' E'. by injection E' as <-.
    + destruct (IH (S k)) as [H1 H2]. split; [lia|]. intros e' He'. apply H2.
      replace (find_free l (S k) - k)%nat with (S (find_free l (S k) - S k)) in He' by lia. done.
Qed.

(** Linking a new name gives the map with the name added. *)
Lemma dir_get_link c n inum name name' : len c = DIRENT_SIZE * Z.of_nat n -> 0 < inum < 65536 -> dir_get c name = None ->
  dir_get (put c (DIRENT_SIZE * Z.of_nat (find_free (ents c) 0)) (enc_dirent inum name)) name' =
    if decide (strncpy name' DIRSIZ = strncpy name DIRSIZ) then Some inum else dir_get c name'.
Proof.
  intros Hc Hi Hno. set (k := find_free (ents c) 0). destruct (find_free_spec (ents c) 0) as [Hk Hfree]. fold k in Hk, Hfree.
  rewrite Nat.sub_0_r in Hfree. rewrite (ents_length c n Hc) in Hk.
  destruct (enc_dirent_fields inum name ltac:(lia)) as [E1 E2].
  set (old := take 1 (drop k (ents c))).
  assert (Hsplit : ents c = take k (ents c) ++ old ++ drop (S k) (ents c)).
  { rewrite <- (take_drop k (ents c)) at 1. f_equal. rewrite <- (take_drop 1 (drop k (ents c))) at 1. unfold old. f_equal.
    rewrite drop_drop. f_equal. lia. }
  unfold dir_get in *. rewrite (ents_put c n) by (done || lia || apply enc_dirent_len).
  pose proof (find_ent_set (take k (ents c)) old (drop (S k) (ents c)) (enc_dirent inum name) name inum name') as H.
  rewrite <- Hsplit in H. apply H; try done; [|unfold old; rewrite length_take; lia|lia|].
  - unfold old. apply Forall_lookup. intros [|m] e He; [|rewrite lookup_take_ge in He by lia; done].
    rewrite lookup_take_lt, lookup_drop, Nat.add_0_r in He by lia. by apply Hfree.
  - destruct (find_ent _ 0 name); done.
Qed.

(** ** What the code does *)

Section DirSpec.
Context (sb : superblock) (SB : sb_ok sb) (LO : layout_ok sb) (dev : Z) (ND : dev <> PROCFSDEV).
Context (devsw_read : Z -> option (nat -> Z -> Z -> Z * bytes)) (procfs_readi : inode -> Z -> Z -> Z * bytes) (pgdir kbuf : bool).

(** Slot [i] holds a directory with [n] entries. *)
Record dir_slot (y : sys) (i : nat) (s : slot) (n : nat) : Prop := {
  ds_slot : ic_slot (y_ic y) !! i = Some s;
  ds_dev : sl_dev s = dev;
  ds_valid : sl_valid s = true;
  ds_type : i_type (sl_ip s) = T_DIR;
  ds_size : i_size (sl_ip s) = DIRENT_SIZE * Z.of_nat n
}.

Abbreviation dcontent y s := (content (dsk (y_fs y)) (sl_ip s)).

Lemma valid_inode y own C i s : sys_ok sb dev y own C -> ic_slot (y_ic y) !! i = Some s -> sl_dev s = dev -> sl_valid s = true ->
  inode_ok sb (sl_ip s) (dsk (y_fs y)) own /\ i_inum (sl_ip s) = sl_inum s /\ i_dev (sl_ip s) = dev.
Proof.
  intros Y Hs Hd Hv. destruct (so_valid _ _ _ _ _ Y i s Hs Hd Hv) as (Hn & Ht & Hip).
  destruct (fix_mode_fields (dinode sb (dsk (y_fs y)) dev (sl_inum s))) as (E1 & E2 & _). rewrite Hip, E1, E2.
  split; [|done]. by apply (fo_inode _ _ _ _ (so_fs _ _ _ _ _ Y)).
Qed.

Lemma dir_inode y own C i s n : sys_ok sb dev y own C -> dir_slot y i s n ->
  inode_ok sb (sl_ip s) (dsk (y_fs y)) own /\ regular (sl_ip s) /\ i_inum (sl_ip s) = sl_inum s /\ i_dev (sl_ip s) = dev /\
  len (dcontent y s) = DIRENT_SIZE * Z.of_nat n /\ DIRENT_SIZE * Z.of_nat n <= 8458752.
Proof.
  intros Y H. destruct (valid_inode y own C i s Y (ds_slot _ _ _ _ H) (ds_dev _ _ _ _ H) (ds_valid _ _ _ _ H)) as (J & E1 & E2).
  split; [done|]. split; [split; [congruence|rewrite (ds_type _ _ _ _ H); done]|]. split; [done|]. split; [done|].
  pose proof (io_size _ _ _ _ J) as Hs. rewrite (ds_size _ _ _ _ H), MAXSIZE_value in Hs. split; [|done].
  rewrite content_bytes, bytes_of_len, (ds_size _ _ _ _ H); [done|]. rewrite (ds_size _ _ _ _ H). unfold DIRENT_SIZE. lia.
Qed.

Lemma upd_slot_id c i s f : ic_slot c !! i = Some s -> f s = s -> upd_slot i f c = c.
Proof.
  intros Hs Hf. destruct c as [l h]. unfold upd_slot. cbn in *. f_equal. apply list_eq. intros j.
  destruct (decide (j = i)) as [->|]; [rewrite list_lookup_alter_eq, Hs; cbn; by rewrite Hf|by rewrite list_lookup_alter_ne].
Qed.

Lemma read_dirent_spec y own C i s n k : sys_ok sb dev y own C -> dir_slot y i s n -> (k < n)%nat ->
  exists e, read_dirent sb devsw_read procfs_readi pgdir kbuf i (DIRENT_SIZE * Z.of_nat k) y = Some ((DIRENT_SIZE, e), y) /\
    ents (dcontent y s) !! k = Some e.
Proof.
  intros Y H Hk. destruct (dir_inode y own C i s n Y H) as (J & Hreg & _ & _ & Hl & Hmax).
  exists (sub_bytes (dcontent y s) (DIRENT_SIZE * Z.of_nat k) DIRENT_SIZE).
  split; [|rewrite (ents_lookup _ n) by done; by rewrite decide_True].
  destruct (readi_spec sb SB devsw_read procfs_readi true pgdir kbuf (sl_ip s) (y_fs y) own (fun _ _ => true) (DIRENT_SIZE * Z.of_nat k) DIRENT_SIZE)
    as (r & out & E & Hr); [apply Y|done|done|unfold DIRENT_SIZE in *; lia|unfold is_u32, DIRENT_SIZE; lia|].
  rewrite (ds_size _ _ _ _ H), Z.gtb_ltb in Hr. rewrite (proj2 (Z.ltb_ge _ _)) in Hr by (unfold DIRENT_SIZE; lia).
  replace (Z.min DIRENT_SIZE (DIRENT_SIZE * Z.of_nat n - DIRENT_SIZE * Z.of_nat k)) with DIRENT_SIZE in Hr by (unfold DIRENT_SIZE; lia).
  destruct Hr as [[-> ->]|(_ & k' & j & _ & _ & _ & _ & Hf)]; [|done].
  unfold read_dirent, slot_of, pbind, on_fs, put_slot, pret. rewrite (ds_slot _ _ _ _ H), E. cbn [y_fs y_ic]. do 2 f_equal.
  rewrite (upd_slot_id _ _ s); [by destruct y|apply H|by destruct s].
Qed.

Lemma loop_off k n : (k < n)%nat -> DIRENT_SIZE * Z.of_nat n <= 8458752 -> DIRENT_SIZE * Z.of_nat k +u DIRENT_SIZE = DIRENT_SIZE * Z.of_nat (S k).
Proof. unfold DIRENT_SIZE. intros. rewrite u32_small by (unfold is_u32; lia). lia. Qed.

Lemma drop_ent (l : list bytes) k e : l !! k = Some e -> drop k l = e :: drop (S k) l.
Proof. intros H. by apply drop_S. Qed.

(** The loop of [dirlookup] finds the first entry with the name. *)
Lemma dirlookup_loop_spec y own C i s n name fuel k : sys_ok sb dev y own C -> dir_slot y i s n -> (k <= n)%nat -> (n - k < fuel)%nat ->
  dirlookup_loop sb devsw_read procfs_readi pgdir kbuf fuel i name (DIRENT_SIZE * Z.of_nat k) y =
    match find_ent (drop k (ents (dcontent y s))) k name with
    | None => Some (None, y)
    | Some (j, inum) =>
        match iget dev inum (y_ic y) with
        | Some (x, c') => Some (Some (x, DIRENT_SIZE * Z.of_nat j), mkSys (y_fs y) c')
        | None => None
        end
    end.
Proof.
  intros Y H. destruct (dir_inode y own C i s n Y H) as (_ & _ & _ & _ & Hl & Hmax).
  revert k. induction fuel as [|fuel IH]; intros k Hk Hf; [lia|]. cbn [dirlookup_loop].
  unfold slot_of. unfold pbind at 1. rewrite (ds_slot _ _ _ _ H), (ds_size _ _ _ _ H), (ds_dev _ _ _ _ H).
  destruct (decide (k = n)) as [->|Hne].
  - rewrite (proj2 (Z.ltb_ge _ _)) by lia. rewrite drop_ge by (rewrite (ents_length _ n) by done; lia). done.
  - rewrite (proj2 (Z.ltb_lt _ _)) by (unfold DIRENT_SIZE; lia).
    destruct (read_dirent_spec y own C i s n k Y H ltac:(lia)) as (e & E & He). rewrite (pbind_Some _ _ _ _ _ E).
    rewrite Z.eqb_refl. cbn [negb]. rewrite (drop_ent _ _ _ He). cbn [find_ent].
    rewrite (loop_off k n) by (done || lia). unfold names.
    destruct (de_inum e =? 0); cbn [negb andb]; [apply IH; lia|]. destruct (namecmp name (de_name e) =? 0); [|apply IH; lia].
    unfold pbind, on_ic. destruct (iget dev (de_inum e) (y_ic y)) as [[x c']|]; done.
Qed.

Lemma dirlookup_spec y own C i s n name : sys_ok sb dev y own C -> dir_slot y i s n ->
  dirlookup sb devsw_read procfs_readi pgdir kbuf i name y =
    match find_ent (ents (dcontent y s)) 0 name with
    | None => Some (None, y)
    | Some (j, inum) =>
        match iget dev inum (y_ic y) with
        | Some (x, c') => Some (Some (x, DIRENT_SIZE * Z.of_nat j), mkSys (y_fs y) c')
        | None => None
        end
    end.
Proof.
  intros Y H. unfold dirlookup, slot_of. unfold pbind at 1. rewrite (ds_slot _ _ _ _ H), (ds_type _ _ _ _ H). cbn [negb].
  rewrite Z.eqb_refl. cbn [negb]. pose proof (dirlookup_loop_spec y own C i s n name (S (Z.to_nat (i_size (sl_ip s)))) 0 Y H) as E.
  rewrite Z.mul_0_r in E. rewrite E; [done|lia|]. rewrite (ds_size _ _ _ _ H). unfold DIRENT_SIZE. lia.
Qed.

Lemma empty_loop_spec y own C i s n fuel k : sys_ok sb dev y own C -> dir_slot y i s n -> (k <= n)%nat -> (n - k < fuel)%nat ->
  empty_loop sb devsw_read procfs_readi pgdir kbuf fuel i (DIRENT_SIZE * Z.of_nat k) y =
    Some (DIRENT_SIZE * Z.of_nat (find_free (drop k (ents (dcontent y s))) k), y).
Proof.
  intros Y H. destruct (dir_inode y own C i s n Y H) as (_ & _ & _ & _ & Hl & Hmax).
  revert k. induction fuel as [|fuel IH]; intros k Hk Hf; [lia|]. cbn [empty_loop].
  unfold slot_of. unfold pbind at 1. rewrite (ds_slot _ _ _ _ H), (ds_size _ _ _ _ H).
  destruct (decide (k = n)) as [->|Hne].
  - rewrite (proj2 (Z.ltb_ge _ _)) by lia. rewrite drop_ge by (rewrite (ents_length _ n) by done; lia). done.
  - rewrite (proj2 (Z.ltb_lt _ _)) by (unfold DIRENT_SIZE; lia).
    destruct (read_dirent_spec y own C i s n k Y H ltac:(lia)) as (e & E & He). rewrite (pbind_Some _ _ _ _ _ E).
    rewrite Z.eqb_refl. cbn [negb]. rewrite (drop_ent _ _ _ He). cbn [find_free].
    destruct (de_inum e =? 0); [done|]. replace (DIRENT_SIZE * Z.of_nat k + DIRENT_SIZE) with (DIRENT_SIZE * Z.of_nat (S k)) by (unfold DIRENT_SIZE; lia).
    apply IH; lia.
Qed.

Lemma find_ent_nz l k name j n : find_ent l k name = Some (j, n) -> n <> 0.
Proof.
  revert k; induction l as [|e l IH]; intros k; cbn [find_ent]; [done|]. unfold names.
  destruct (Z.eqb_spec (de_inum e) 0) as [E|E]; cbn [negb andb]; [apply IH|].
  destruct (namecmp name (de_name e) =? 0); [|apply IH]. intros H. injection H as _ <-. done.
Qed.

Lemma find_ent_entry l name j n : find_ent l 0 name = Some (j, n) ->
  exists e, l !! j = Some e /\ de_inum e = n /\ namecmp name (de_name e) = 0.
Proof.
  revert j. induction l as [|e l IH]; intros j; cbn [find_ent]; [done|]. destruct (names name e) eqn:E.
  - intros H. injection H as <- <-. exists e. split; [done|]. split; [done|]. apply andb_true_iff in E as [_ E]. by apply Z.eqb_eq.
  - rewrite find_ent_shift. destruct (find_ent l 0 name) as [[k m]|]; [|done]. cbn. intros H. injection H as <- <-. by apply IH.
Qed.

(** A new reference keeps the invariant. *)
Lemma sys_ok_iget y own C inum x c' C' : sys_ok sb dev y own C -> icache_ok c' C' -> got dev inum (y_ic y) x c' -> inum <> 0 ->
  sys_ok sb dev (mkSys (y_fs y) c') own C'.
Proof.
  intros Y K G Hi. split; cbn [y_ic y_fs]; [done|apply Y|]. intros j t Hj Hdt Hvt.
  assert (Hold : exists u, ic_slot (y_ic y) !! j = Some u /\ sl_dev u = sl_dev t /\ sl_inum u = sl_inum t /\ sl_valid u = sl_valid t /\ sl_ip u = sl_ip t).
  { pose proof (lookup_lt_Some _ _ _ Hj) as Hlt. rewrite (ic_len _ _ K), <- (ic_len _ _ (so_cache _ _ _ _ _ Y)) in Hlt.
    destruct (lookup_lt_is_Some_2 _ _ Hlt) as [u Hu]. exists u. split; [done|]. destruct (decide (j = x)) as [->|Hne].
    - destruct (classify_hit dev inum (y_ic y)) as [(k & v & Hv & E1 & E2)|Hno].
      + pose proof (got_hit _ _ _ _ _ _ _ _ _ (so_cache _ _ _ _ _ Y) K G Hi Hv E1 E2) as ->. rewrite Hu in Hv. injection Hv as <-.
        destruct (gt_hit _ _ _ _ _ G u Hu E1 E2) as (w & Hw & m & ->). rewrite Hj in Hw. by injection Hw as ->.
      + destruct (gt_miss _ _ _ _ _ G Hno) as [_ (w & Hw & _ & Hv)]. congruence.
    - destruct (gt_other _ _ _ _ _ G j u Hne Hu) as (w & Hw & m & ->). rewrite Hj in Hw. by injection Hw as ->. }
  destruct Hold as (u & Hu & E1 & E2 & E3 & E4). rewrite <- E2, <- E4. apply (so_valid _ _ _ _ _ Y j u); congruence.
Qed.

(** Looking up a name.  For a directory of the file system [dirlookup] ends
    without panic: it returns 0 and changes nothing when no entry has the name,
    and otherwise a new reference to the inode of the first entry in use with
    the name, together with the entry's offset; names are compared as C strings
    of at most [DIRSIZ] bytes.  The disk does not change.  Only a full inode
    cache makes it panic. *)
Theorem dirlookup_refines y own C i s n name : sys_ok sb dev y own C -> dir_slot y i s n ->
  match dir_get (dcontent y s) name with
  | None => dirlookup sb devsw_read procfs_readi pgdir kbuf i name y = Some (None, y)
  | Some inum =>
      (exists x off c' C', dirlookup sb devsw_read procfs_readi pgdir kbuf i name y = Some (Some (x, off), mkSys (y_fs y) c') /\
         sys_ok sb dev (mkSys (y_fs y) c') own C' /\
         (exists t, ic_slot c' !! x = Some t /\ sl_dev t = dev /\ sl_inum t = inum /\ sl_ref t = refs (y_ic y) dev inum + 1) /\
         (exists e, ents (dcontent y s) !! Z.to_nat (off / DIRENT_SIZE) = Some e /\ de_inum e = inum /\ namecmp name (de_name e) = 0)) \/
      (dirlookup sb devsw_read procfs_readi pgdir kbuf i name y = None /\
       forall j t, ic_slot (y_ic y) !! j = Some t -> 0 < sl_ref t)
  end.
Proof.
  intros Y H. rewrite (dirlookup_spec y own C i s n) by done. unfold dir_get.
  destruct (find_ent (ents (dcontent y s)) 0 name) as [[j inum]|] eqn:E; cbn [fmap option_fmap option_map snd]; [|done].
  pose proof (find_ent_nz _ _ _ _ _ E) as Hnz.
  destruct (iget_spec (y_ic y) C dev inum (so_cache _ _ _ _ _ Y) Hnz) as [(x & c' & C' & -> & K & G)|[-> Hf]].
  2: { right. split; [done|]. intros k t Ht. by destruct (Hf k t Ht). }
  left. exists x, (DIRENT_SIZE * Z.of_nat j), c', C'. split; [done|]. split; [by eapply sys_ok_iget|]. split.
  - destruct (gt_new _ _ _ _ _ G) as (t & Ht & Ed & Ei). exists t. split; [done|]. split; [done|]. split; [done|].
    pose proof (got_refs dev inum _ _ _ _ _ dev inum (so_cache _ _ _ _ _ Y) K G Hnz Hnz) as ER. rewrite decide_True in ER by done. rewrite <- ER.
    rewrite <- Ed, <- Ei. symmetry. apply (refs_slot c' C' x); [done|done|congruence].
  - destruct (find_ent_entry _ _ _ _ E) as (e & He & H1 & H2). exists e.
    replace (DIRENT_SIZE * Z.of_nat j / DIRENT_SIZE) with (Z.of_nat j) by (unfold DIRENT_SIZE; rewrite Z.mul_comm, Z.div_mul; lia).
    by rewrite Nat2Z.id.
Qed.

Section Linking.
Context (devsw_write : Z -> option (nat -> Z -> bytes -> Z))
  (vfs_drop : Z -> option (inode -> PM fs unit)) (vfs_dev_is_xv6fs : Z -> bool)
  (VD : vfs_drop dev = None) (VX : vfs_dev_is_xv6fs dev = true).

(** The invariant after slot [i] and its file changed together. *)
Lemma sys_ok_write y own C i s ip' s' own' : sys_ok sb dev y own C -> ic_slot (y_ic y) !! i = Some s -> sl_dev s = dev -> sl_valid s = true ->
  disk_ok sb (dsk s') own' -> inode_ok sb ip' (dsk s') own' -> i_dev ip' = dev -> i_inum ip' = sl_inum s -> i_type ip' = i_type (sl_ip s) ->
  others_kept sb (sl_inum s) (dsk (y_fs y)) own (dsk s') own' ->
  sys_ok sb dev (mkSys s' (upd_slot i (set_ip true ip') (y_ic y))) own' C.
Proof.
  intros Y Hs Hd Hv HD J E1 E2 E3 O. destruct (so_valid _ _ _ _ _ Y i s Hs Hd Hv) as (Hn & Ht & Hip).
  pose proof (io_sync _ _ _ _ J) as Hsy. rewrite E1, E2 in Hsy.
  destruct (fix_mode_fields (dinode sb (dsk s') dev (sl_inum s))) as (_ & _ & E4).
  destruct (fix_mode_fields (dinode sb (dsk (y_fs y)) dev (sl_inum s))) as (_ & _ & E5). rewrite <- Hip in E5.
  assert (Ht' : i_type (dinode sb (dsk s') dev (sl_inum s)) <> 0) by (rewrite <- E4, Hsy, E3; congruence).
  split; cbn [y_ic y_fs].
  - apply slot_upd_ok; [apply Y|done|]. intros t Hst. exact (ic_ref _ _ (so_cache _ _ _ _ _ Y) i t Hst).
  - eapply fs_ok_step; [apply Y|done|exact O|]. intros _. by rewrite Hsy.
  - intros j t. rewrite upd_slot_lookup. destruct (decide (j = i)) as [->|Hne].
    + rewrite Hs. intros Et. injection Et as <-. cbn [set_ip sl_dev sl_inum sl_valid sl_ip]. intros _ _. split; [done|]. by rewrite Hsy.
    + intros Hj Hdt Hvt. destruct (so_valid _ _ _ _ _ Y j t Hj Hdt Hvt) as (Hr & Hty & Hip'). split; [done|].
      rewrite (ot_inode _ _ _ _ _ _ O); [done|lia|]. intros Eq. apply Hne.
      apply (ic_uniq _ _ (so_cache _ _ _ _ _ Y) j i t s); [done|done|lia|congruence|done].
Qed.

Lemma fetch_kernel e : fetches (fun t m => (sub_bytes e t m, true)) e.
Proof. intros t m bs ok Ht Hm Hl E. injection E as <- <-. rewrite sub_bytes_length by lia. done. Qed.

(** An entry lies in two blocks at most. *)
Lemma touched_dirent k : touched (DIRENT_SIZE * Z.of_nat k) DIRENT_SIZE <= 2.
Proof. unfold touched, DIRENT_SIZE, BSIZE. rewrite (proj2 (Z.leb_gt 258 0)) by lia. mlia. Qed.

Lemma fix_mode_nlink ip : i_nlink (fix_mode ip) = i_nlink ip.
Proof. unfold fix_mode. by destruct (no_fmt ip). Qed.

(** Dropping a reference, as a change of the counts per inode. *)
Lemma refs_put c C c' C' x t t' d n : icache_ok c C -> icache_ok c' C' -> ic_slot c !! x = Some t -> ic_slot c' !! x = Some t' ->
  (forall j, j <> x -> ic_slot c' !! j = ic_slot c !! j) -> sl_dev t' = sl_dev t -> sl_inum t' = sl_inum t -> sl_ref t' = sl_ref t - 1 -> n <> 0 ->
  refs c' d n = refs c d n - (if decide (d = sl_dev t /\ n = sl_inum t) then 1 else 0).
Proof.
  intros K K' Ht Ht' Ho Ed Ei Er Hn. case_decide as Hdn.
  - destruct Hdn as [-> ->]. rewrite (refs_slot c C x t K Ht Hn), <- Ed, <- Ei, (refs_slot c' C' x t' K' Ht'); congruence.
  - rewrite Z.sub_0_r. destruct (classify_hit d n c) as [(j & s & Hs & <- & <-)|Hno].
    + assert (Hj : j <> x) by (intros ->; rewrite Ht in Hs; injection Hs as <-; by apply Hdn).
      rewrite (refs_slot c C j s) by done. apply (refs_slot c' C' j); [done|by rewrite Ho|done].
    + rewrite (refs_none c), refs_none; [done| |done]. intros j s Hs [E1 E2]. destruct (decide (j = x)) as [->|Hj].
      * rewrite Ht' in Hs. injection Hs as <-. apply (Hno x t Ht). split; congruence.
      * rewrite Ho in Hs by done. by apply (Hno j s Hs).
Qed.

(** The slot [iget] returned is not the last user of an inode that was
    referenced before or that has links. *)
Lemma got_not_last y own C m x c' C' t : sys_ok sb dev y own C -> sys_ok sb dev (mkSys (y_fs y) c') own C' -> got dev m (y_ic y) x c' -> m <> 0 ->
  ic_slot c' !! x = Some t -> sl_dev t = dev -> sl_inum t = m ->
  0 < refs (y_ic y) dev m \/ i_nlink (dinode sb (dsk (y_fs y)) dev m) <> 0 -> last_put t = false.
Proof.
  intros Y Y1 G Hm Ht Ed Ei Hk. unfold last_put. destruct (sl_valid t) eqn:Ev; [|done]. cbn [andb]. destruct Hk as [Hr|Hl].
  - pose proof (got_refs dev m _ _ _ _ _ dev m (so_cache _ _ _ _ _ Y) (so_cache _ _ _ _ _ Y1) G Hm Hm) as ER. rewrite decide_True in ER by done.
    assert (refs c' dev m = sl_ref t) as Er by (rewrite <- Ed, <- Ei; apply (refs_slot c' C' x); [apply Y1|done|congruence]).
    cbn [y_ic] in ER. rewrite (proj2 (Z.eqb_neq (sl_ref t) 1)) by lia. apply andb_false_r.
  - destruct (so_valid _ _ _ _ _ Y1 x t Ht Ed Ev) as (_ & _ & Hip). cbn [y_fs] in Hip. rewrite Hip, Ei, fix_mode_nlink.
    by rewrite (proj2 (Z.eqb_neq _ 0) Hl).
Qed.

Lemma write_dirent_spec y own C i s n k e : sys_ok sb dev y own C -> dir_slot y i s n -> (k <= n)%nat -> len e = DIRENT_SIZE ->
  DIRENT_SIZE * Z.of_nat k + DIRENT_SIZE <= MAXFILE * BSIZE ->
  (exists y' own' s' n', write_dirent sb devsw_write pgdir kbuf i (DIRENT_SIZE * Z.of_nat k) e y = Some (DIRENT_SIZE, y') /\
     sys_ok sb dev y' own' C /\ dir_slot y' i s' n' /\ sl_inum s' = sl_inum s /\
     content (dsk (y_fs y')) (sl_ip s') = put (dcontent y s) (DIRENT_SIZE * Z.of_nat k) e /\
     others_kept sb (sl_inum s) (dsk (y_fs y)) own (dsk (y_fs y')) own') \/
  (write_dirent sb devsw_write pgdir kbuf i (DIRENT_SIZE * Z.of_nat k) e y = None /\
   nfree sb (dsk (y_fs y)) < 6).
Proof.
  intros Y H Hk He Hmax. destruct (dir_inode y own C i s n Y H) as (J & Hreg & Hnum & Hdev & Hl & _).
  unfold write_dirent, slot_of. unfold pbind at 1 4. rewrite (ds_slot _ _ _ _ H).
  pose proof (writei_spec sb SB LO devsw_write true pgdir kbuf (sl_ip s) (y_fs y) own (fun t m => (sub_bytes e t m, true)) e
    (DIRENT_SIZE * Z.of_nat k) (fo_disk _ _ _ _ (so_fs _ _ _ _ _ Y)) J Hreg (fetch_kernel e)) as HW.
  rewrite (ds_size _ _ _ _ H), He in HW.
  destruct HW as [(ip' & s' & own' & E & D)|[(ip' & s' & own' & E & F)|[E Hfull]]]; [unfold DIRENT_SIZE; lia|done| | |].
  - left. unfold pbind, on_fs, put_slot, pret. rewrite E. cbn [y_fs y_ic].
    pose proof (wd_attr _ _ _ _ _ _ _ _ _ D) as Ha. rewrite (ds_size _ _ _ _ H), He in Ha.
    assert (Hsz : exists n', i_size ip' = DIRENT_SIZE * Z.of_nat n').
    { rewrite Ha. cbn [i_size set_isize]. exists (Nat.max n (k + 1)). unfold DIRENT_SIZE. lia. }
    destruct Hsz as [n' Hn']. rewrite (ds_valid _ _ _ _ H).
    eexists _, own', (set_ip true ip' s), n'. split; [reflexivity|].
    split; [|split; [|split; [done|split]]].
    + apply (sys_ok_write y own C i s); [done|apply H|apply H|apply H|apply D|apply D| | | |].
      * rewrite Ha. cbn. done.
      * rewrite Ha. cbn. done.
      * by rewrite Ha.
      * rewrite <- Hnum. apply D.
    + split; cbn [y_ic y_fs set_ip sl_dev sl_valid sl_ip]; [|apply H|done|rewrite Ha; apply H|done].
      by rewrite upd_slot_lookup, decide_True, (ds_slot _ _ _ _ H).
    + cbn [y_fs set_ip sl_ip]. apply D.
    + rewrite <- Hnum. apply D.
  - destruct (wf_fetch _ _ _ _ _ _ _ _ _ _ F) as (t & m & bs & _ & Hbad). done.
  - right. unfold pbind, on_fs. rewrite E. split; [done|]. pose proof (touched_dirent k). lia.
Qed.

(** C30.  Entering a name.  When the directory has an entry with the name,
    [dirlink] returns -1 with every reference count as before, and the disk is
    untouched provided that the inode of the entry is referenced or has a link (else
    the [iput] of the inode just looked up frees it); it panics only when every
    slot of the inode cache is referenced.  When there is none, it returns 0, the
    directory maps the name to the inode number and every other name as before,
    all other files are unchanged and the invariant holds; it panics only when the
    directory has the maximal size or fewer than six blocks are free before the
    call (an entry lies in two blocks at most, each with two index blocks above). *)
Theorem dirlink_refines y own C i s n name inum : sys_ok sb dev y own C -> dir_slot y i s n -> 0 < inum < 65536 ->
  let run := dirlink sb devsw_read devsw_write procfs_readi pgdir kbuf vfs_drop vfs_dev_is_xv6fs i name inum y in
  match dir_get (dcontent y s) name with
  | Some m =>
      (exists y' own' C', run = Some (-1, y') /\ sys_ok sb dev y' own' C' /\
         (forall d k, k <> 0 -> refs (y_ic y') d k = refs (y_ic y) d k) /\
         (0 < refs (y_ic y) dev m \/ i_nlink (dinode sb (dsk (y_fs y)) dev m) <> 0 -> y_fs y' = y_fs y /\ own' = own)) \/
      (run = None /\ forall j t, ic_slot (y_ic y) !! j = Some t -> 0 < sl_ref t)
  | None =>
      (exists y' own' s' n', run = Some (0, y') /\ sys_ok sb dev y' own' C /\ dir_slot y' i s' n' /\ sl_inum s' = sl_inum s /\
         (forall name', dir_get (content (dsk (y_fs y')) (sl_ip s')) name' =
            if decide (strncpy name' DIRSIZ = strncpy name DIRSIZ) then Some inum else dir_get (dcontent y s) name') /\
         others_kept sb (sl_inum s) (dsk (y_fs y)) own (dsk (y_fs y')) own') \/
      (run = None /\ (DIRENT_SIZE * Z.of_nat n + DIRENT_SIZE > MAXFILE * BSIZE \/ nfree sb (dsk (y_fs y)) < 6))
  end.
Proof.
  intros Y H Hi run. pose proof (dirlookup_spec y own C i s n name Y H) as EL.
  destruct (dir_inode y own C i s n Y H) as (J & Hreg & Hnum & Hdev & Hl & Hmax).
  unfold dir_get. destruct (find_ent (ents (dcontent y s)) 0 name) as [[j m]|] eqn:E; cbn [fmap option_fmap option_map snd].
  - pose proof (find_ent_nz _ _ _ _ _ E) as Hnz.
    destruct (iget_spec (y_ic y) C dev m (so_cache _ _ _ _ _ Y) Hnz) as [(x & c' & C' & Eg & K & G)|[Eg Hf]]; rewrite Eg in EL.
    2: { right. unfold run, dirlink, pbind at 1. rewrite EL. split; [done|]. intros k t Ht. by destruct (Hf k t Ht). }
    left. pose proof (sys_ok_iget y own C m x c' C' Y K G Hnz) as Y1. destruct (gt_new _ _ _ _ _ G) as (t & Ht & Ed & Ei).
    assert (Hr : 0 < sl_ref t).
    { pose proof (got_refs dev m _ _ _ _ _ dev m (so_cache _ _ _ _ _ Y) K G Hnz Hnz) as ER. rewrite decide_True in ER by done.
      assert (refs c' dev m = sl_ref t) as Er by (rewrite <- Ed, <- Ei; apply (refs_slot c' C' x); congruence).
      assert (0 <= refs (y_ic y) dev m); [|lia]. unfold refs. destruct (list_find _ _) as [[k u]|] eqn:Ef; [|lia].
      apply list_find_Some in Ef as (Hu & _ & _). by apply (ic_ref _ _ (so_cache _ _ _ _ _ Y) k u). }
    destruct (iput_spec sb SB LO dev vfs_drop vfs_dev_is_xv6fs VD VX _ own C' x t Y1 Ht Hr Ed)
      as (y' & own' & Ep & Y' & (u & Hu & Edu & Eiu & Eru) & Ho & Hl').
    exists y', own', C'. split; [|split; [done|split]].
    2: { intros d k Hk. pose proof (refs_put c' C' (y_ic y') C' x t u d k K (so_cache _ _ _ _ _ Y') Ht Hu Ho ltac:(congruence) Eiu Eru Hk) as E2.
      rewrite E2, (got_refs dev m _ _ _ _ _ d k (so_cache _ _ _ _ _ Y) K G Hnz Hk), Ed, Ei. lia. }
    2: { intros Hkp. by rewrite (got_not_last y own C m x c' C' t Y Y1 G Hnz Ht Ed Ei Hkp) in Hl'. }
    unfold run, dirlink. rewrite (pbind_Some _ _ _ _ _ EL), (pbind_Some _ _ _ _ _ Ep). done.
  - pose proof (empty_loop_spec y own C i s n (S (Z.to_nat (i_size (sl_ip s)))) 0 Y H ltac:(lia)) as EE.
    rewrite Z.mul_0_r, drop_0 in EE. specialize (EE ltac:(rewrite (ds_size _ _ _ _ H); unfold DIRENT_SIZE; lia)).
    set (k := find_free (ents (dcontent y s)) 0) in *.
    assert (Hk : (k <= n)%nat) by (destruct (find_free_spec (ents (dcontent y s)) 0) as [Hk _]; rewrite (ents_length _ n Hl) in Hk; unfold k; lia).
    assert (Erun : run = (let! r := write_dirent sb devsw_write pgdir kbuf i (DIRENT_SIZE * Z.of_nat k) (enc_dirent inum name) in
      if negb (r =? DIRENT_SIZE) then ppanic else pret 0) y).
    { unfold run, dirlink. rewrite (pbind_Some _ _ _ _ _ EL).
      assert (Es : slot_of i y = Some (s, y)) by (unfold slot_of; by rewrite (ds_slot _ _ _ _ H)).
      rewrite (pbind_Some _ _ _ _ _ Es). by rewrite (pbind_Some _ _ _ _ _ EE). }
    clearbody run. rewrite Erun. clear Erun run.
    destruct (Z.le_gt_cases (DIRENT_SIZE * Z.of_nat k + DIRENT_SIZE) (MAXFILE * BSIZE)) as [Hle|Hgt].
    + destruct (write_dirent_spec y own C i s n k (enc_dirent inum name) Y H Hk (enc_dirent_len _ _) Hle)
        as [(y' & own' & s' & n' & Ew & Y' & H' & En & Ec & O)|[Ew Hfull]].
      * left. exists y', own', s', n'. rewrite (pbind_Some _ _ _ _ _ Ew), Z.eqb_refl. split; [done|]. split; [done|]. split; [done|].
        split; [done|]. split; [|done]. intros name'. rewrite Ec.
        pose proof (dir_get_link (dcontent y s) n inum name name' Hl Hi) as HL. unfold dir_get in HL. fold k in HL. apply HL. by rewrite E.
      * right. unfold pbind. rewrite Ew. split; [done|]. by right.
    + right. split; [|left; unfold DIRENT_SIZE in *; lia].
      unfold write_dirent, slot_of, pbind, on_fs. rewrite (ds_slot _ _ _ _ H).
      rewrite (writei_refused sb devsw_write true pgdir kbuf (sl_ip s) (y_fs y) own); [done|done|done| |unfold is_u32, DIRENT_SIZE; lia|].
      * unfold DIRENT_SIZE in *. lia.
      * rewrite !Z.gtb_ltb. apply orb_true_iff. right. apply Z.ltb_lt. lia.
Qed.
End Linking.
End DirSpec.

(** ** Path resolution *)

Lemma skip_slashes_le p : (length (skip_slashes p) <= length p)%nat.
Proof. induction p as [|c p IH]; cbn; [lia|]. destruct (c =? slash); cbn; lia. Qed.

Lemma take_elem_le p : (length (snd (take_elem p)) <= length p)%nat.
Proof. induction p as [|c p IH]; cbn; [lia|]. destruct (c =? slash); [cbn; lia|]. destruct (take_elem p). cbn in *. lia. Qed.

Lemma skipelem_shorter p name rest : skipelem p = Some (name, rest) -> (length rest < length p)%nat.
Proof.
  unfold skipelem. pose proof (skip_slashes_le p). destruct (skip_slashes p) as [|c q] eqn:E; [done|].
  assert (Hc : (c =? slash) = false).
  { clear H. induction p as [|a p IH]; [done|]. cbn in E. destruct (a =? slash) eqn:Ea; [by apply IH|]. by injection E as -> ->. }
  cbn [take_elem]. rewrite Hc. pose proof (take_elem_le q). destruct (take_elem q) as [e r]. intros H1. injection H1 as <- <-.
  pose proof (skip_slashes_le r). cbn [length snd] in *. lia.
Qed.

Lemma skip_slashes_split p : exists k, p = replicate k slash ++ skip_slashes p /\ chr (skip_slashes p) <> slash.
Proof.
  induction p as [|c p IH]; [by exists 0%nat|]. cbn [skip_slashes]. destruct (Z.eqb_spec c slash) as [->|Hc].
  - destruct IH as (k & E & Hn). exists (S k). cbn. by rewrite <- E.
  - by exists 0%nat.
Qed.

Lemma take_elem_split p : let '(e, r) := take_elem p in p = e ++ r /\ (slash ∉ e) /\ (r = [] \/ chr r = slash).
Proof.
  induction p as [|c p IH]; cbn [take_elem]; [split; [done|]; split; [apply not_elem_of_nil|by left]|].
  destruct (Z.eqb_spec c slash) as [->|Hc]; [split; [done|]; split; [apply not_elem_of_nil|by right]|].
  destruct (take_elem p) as [e r]. destruct IH as (-> & He & Hr). split; [done|]. split; [|done]. apply not_elem_of_cons. by split.
Qed.

(** Path elements.  [skipelem] returns 0 exactly for a path without elements,
    and otherwise splits the path into slashes, a first element without slash,
    cut to [DIRSIZ] bytes, slashes again and the rest of the path, which does not
    begin with a slash and is shorter. *)
Theorem skipelem_splits p :
  match skipelem p with
  | None => exists k, p = replicate k slash
  | Some (name, rest) => exists k e m, p = replicate k slash ++ e ++ replicate m slash ++ rest /\ e <> [] /\ (slash ∉ e) /\
      name = take DIRSIZ e /\ chr rest <> slash /\ (rest <> [] -> m <> 0%nat) /\ (length rest < length p)%nat
  end.
Proof.
  destruct (skipelem p) as [[name rest]|] eqn:Es; unfold skipelem in Es.
  - pose proof (skipelem_shorter p name rest) as Hlt. unfold skipelem in Hlt. rewrite Es in Hlt. specialize (Hlt eq_refl).
    destruct (skip_slashes_split p) as (k & Ep & Hn). destruct (skip_slashes p) as [|c q] eqn:Eq; [done|].
    pose proof (take_elem_split (c :: q)) as Ht. destruct (take_elem (c :: q)) as [e r] eqn:Et. destruct Ht as (Ecq & He & Hr).
    injection Es as <- <-. destruct (skip_slashes_split r) as (m & Er & Hr').
    exists k, e, m. split; [by rewrite <- Er, <- Ecq|]. split; [|split; [done|split; [done|split; [done|split; [|done]]]]].
    + intros ->. cbn in Ecq. rewrite <- Ecq in Hr. destruct Hr as [|Hr]; [done|]. by apply Hn.
    + intros Hne ->. cbn in Er. destruct Hr as [->|Hr]; [done|]. rewrite Er in Hr. done.
  - destruct (skip_slashes_split p) as (k & Ep & _). destruct (skip_slashes p) as [|c q] eqn:Eq; [exists k; by rewrite app_nil_r in Ep|].
    by destruct (take_elem (c :: q)).
Qed.

Section Walk.
Context (sb : superblock) (SB : sb_ok sb) (LO : layout_ok sb).
Abbreviation dev := ROOTDEV.
Context (devsw_read : Z -> option (nat -> Z -> Z -> Z * bytes)) (procfs_readi : inode -> Z -> Z -> Z * bytes) (pgdir kbuf : bool)
  (vfs_drop : Z -> option (inode -> PM fs unit)) (vfs_dev_is_xv6fs : Z -> bool)
  (VD : vfs_drop dev = None) (VX : vfs_dev_is_xv6fs dev = true) (myproc : option cred).

(** The inode of the disk, as [ilock] shows it. *)
Definition disk_inode (D : gmap Z bytes) (j : Z) : inode := fix_mode (dinode sb D dev j).

Definition live (D : gmap Z bytes) (j : Z) : Prop := 0 < j < sb_ninodes sb /\ i_type (dinode sb D dev j) <> 0.

(** Directories consist of whole entries, and entries in use refer to allocated
    inodes that count at least one link. *)
Definition tree_ok (D : gmap Z bytes) : Prop := forall j, live D j -> i_type (disk_inode D j) = T_DIR ->
  (exists n, i_size (disk_inode D j) = DIRENT_SIZE * Z.of_nat n) /\
  forall name k, dir_get (content D (disk_inode D j)) name = Some k -> live D k /\ i_nlink (disk_inode D k) <> 0.

(** Path resolution as a function of the disk: from inode [j], the inode the path
    names, or its parent directory and the last name. *)
Fixpoint resolve (fuel : nat) (D : gmap Z bytes) (j : Z) (path : bytes) (parent : bool) : option (Z * bytes) :=
  match fuel with
  | O => None
  | S fuel =>
      match skipelem path with
      | None => if parent then None else Some (j, [])
      | Some (name, rest) =>
          let ip := disk_inode D j in
          if negb (i_type ip =? T_DIR) then None
          else if iaccess ip myproc IACC_EXEC <? 0 then None
          else if parent && (chr rest =? 0) then Some (j, name)
          else match dir_get (content D ip) name with
               | None => None
               | Some k => resolve fuel D k rest parent
               end
      end
  end.

(** How often a caller holds slot [k], for a list of the references it holds. *)
Fixpoint holds (l : list nat) (k : nat) : Z :=
  match l with [] => 0 | x :: l => (if decide (k = x) then 1 else 0) + holds l k end.

Lemma holds_nonneg l k : 0 <= holds l k.
Proof. induction l as [|x l IH]; cbn [holds]; [lia|]. case_decide; lia. Qed.

(** From [c] to [c'] the references of others did not change: the caller held
    [l] and now holds [l']. *)
Definition moved (c : icache) (l : list nat) (c' : icache) (l' : list nat) : Prop :=
  forall k s, ic_slot c !! k = Some s -> exists t, ic_slot c' !! k = Some t /\
    sl_ref t - holds l' k = sl_ref s - holds l k /\
    (0 < sl_ref s - holds l k -> sl_dev t = sl_dev s /\ sl_inum t = sl_inum s).

Lemma dmoved_trans c1 l1 c2 l2 c3 l3 : moved c1 l1 c2 l2 -> moved c2 l2 c3 l3 -> moved c1 l1 c3 l3.
Proof.
  intros H1 H2 k s Hs. destruct (H1 k s Hs) as (t & Ht & E1 & I1). destruct (H2 k t Ht) as (u & Hu & E2 & I2).
  exists u. split; [done|]. split; [lia|]. intros Hp. destruct (I1 Hp) as [Ia Ib].
  destruct I2 as [Ic Id]; [lia|]. split; congruence.
Qed.

Lemma moved_swap c l c' x x' : moved c l c' [x; x'] -> moved c l c' [x'; x].
Proof.
  intros M k s Hs. destruct (M k s Hs) as (t & Ht & E & I). exists t. split; [done|]. split; [|done]. cbn [holds] in *. lia.
Qed.

(** Two slots that nobody but the caller uses. *)
Definition roomy (c : icache) (l : list nat) : Prop :=
  exists a b s t, a <> b /\ ic_slot c !! a = Some s /\ ic_slot c !! b = Some t /\ sl_ref s = holds l a /\ sl_ref t = holds l b.

Lemma roomy_moved c l c' l' : roomy c l -> moved c l c' l' -> roomy c' l'.
Proof.
  intros (a & b & s & t & Hab & Hs & Ht & Es & Et) M. destruct (M a s Hs) as (s' & Hs' & E1 & _), (M b t Ht) as (t' & Ht' & E2 & _).
  exists a, b, s', t'. split; [done|]. split; [done|]. split; [done|]. split; lia.
Qed.

Lemma got_moved inum c C i c' C' l : icache_ok c C -> icache_ok c' C' -> got dev inum c i c' -> inum <> 0 -> moved c l c' (i :: l).
Proof.
  intros K K' G Hn k s Hs. cbn [holds]. destruct (decide (k = i)) as [->|Hne].
  - destruct (classify_hit dev inum c) as [(j & u & Hu & E1 & E2)|Hno].
    + pose proof (got_hit _ _ _ _ _ _ _ _ _ K K' G Hn Hu E1 E2) as ->. rewrite Hs in Hu. injection Hu as <-.
      destruct (gt_hit _ _ _ _ _ G s Hs E1 E2) as (t & Ht & m & ->). eexists. split; [exact Ht|]. cbn. split; [lia|done].
    + destruct (gt_miss _ _ _ _ _ G Hno) as [(u & Hu & Hz) (t & Ht & Hr & _)]. rewrite Hs in Hu. injection Hu as <-.
      exists t. split; [done|]. pose proof (holds_nonneg l i). split; lia.
  - destruct (gt_other _ _ _ _ _ G k s Hne Hs) as (t & Ht & m & ->). eexists. split; [exact Ht|]. cbn. split; [lia|done].
Qed.

(** A free slot can be found while there is room. *)
Lemma roomy_iget c C x inum : icache_ok c C -> roomy c [x] -> inum <> 0 ->
  exists i c' C', iget dev inum c = Some (i, c') /\ icache_ok c' C' /\ got dev inum c i c'.
Proof.
  intros K (a & b & s & t & Hab & Hs & Ht & Es & Et) Hn.
  destruct (iget_spec c C dev inum K Hn) as [?|[_ H]]; [done|]. exfalso. destruct (H a s Hs) as [Ha _], (H b t Ht) as [Hb _].
  cbn [holds] in *. destruct (decide (a = x)), (decide (b = x)); lia.
Qed.

Lemma root_iget c C : roomy c [] -> icache_ok c C ->
  exists i c' C', iget dev ROOTINO c = Some (i, c') /\ icache_ok c' C' /\ got dev ROOTINO c i c'.
Proof.
  intros (a & b & s & t & Hab & Hs & Ht & Es & Et) K.
  destruct (iget_spec c C dev ROOTINO K ltac:(discriminate)) as [?|[_ H]]; [done|]. exfalso. destruct (H a s Hs) as [Ha _].
  cbn [holds] in Es. lia.
Qed.

(** What the walk needs to know about the slot it holds. *)
Record standing (y : sys) (x : nat) (s : slot) : Prop := {
  st_slot : ic_slot (y_ic y) !! x = Some s;
  st_dev : sl_dev s = dev;
  st_live : live (dsk (y_fs y)) (sl_inum s);
  st_ref : 0 < sl_ref s;
  st_keep : i_nlink (disk_inode (dsk (y_fs y)) (sl_inum s)) <> 0 \/ 1 < sl_ref s
}.

(** [iput] of a slot the walk holds changes its count only. *)
Lemma iput_keeps y own C x s l : sys_ok sb dev y own C -> standing y x s ->
  exists y', iput sb vfs_drop vfs_dev_is_xv6fs x y = Some (tt, y') /\ sys_ok sb dev y' own C /\ y_fs y' = y_fs y /\
    moved (y_ic y) (x :: l) (y_ic y') l /\
    (forall j, j <> x -> ic_slot (y_ic y') !! j = ic_slot (y_ic y) !! j) /\
    (exists t, ic_slot (y_ic y') !! x = Some t /\ sl_dev t = dev /\ sl_inum t = sl_inum s /\ sl_ref t = sl_ref s - 1).
Proof.
  intros Y S. destruct (iput_spec sb SB LO dev vfs_drop vfs_dev_is_xv6fs VD VX y own C x s Y (st_slot _ _ _ S) (st_ref _ _ _ S) (st_dev _ _ _ S))
    as (y' & own' & E & Y' & (t & Ht & Hd & Hi & Hr) & Ho & Hl).
  assert (El : last_put s = false).
  { unfold last_put. destruct (sl_valid s) eqn:Ev; [|done]. cbn [andb].
    destruct (so_valid _ _ _ _ _ Y x s (st_slot _ _ _ S) (st_dev _ _ _ S) Ev) as (_ & _ & ->).
    fold (disk_inode (dsk (y_fs y)) (sl_inum s)). destruct (st_keep _ _ _ S) as [Hn|Hn]; [by rewrite (proj2 (Z.eqb_neq _ 0) Hn)|].
    rewrite (proj2 (Z.eqb_neq (sl_ref s) 1)) by lia. apply andb_false_r. }
  rewrite El in Hl. destruct Hl as [Hfs ->]. exists y'. split; [done|]. split; [done|]. split; [done|]. split; [|split; [done|by exists t]].
  intros k u Hu. cbn [holds]. destruct (decide (k = x)) as [->|Hne].
  - rewrite (st_slot _ _ _ S) in Hu. injection Hu as <-. exists t. split; [done|]. split; [lia|]. rewrite (st_dev _ _ _ S). done.
  - rewrite Ho by done. exists u. split; [done|]. split; [lia|done].
Qed.

Lemma iunlockput_keeps y own C x s l : sys_ok sb dev y own C -> standing y x s ->
  exists y', iunlockput sb vfs_drop vfs_dev_is_xv6fs x y = Some (tt, y') /\ sys_ok sb dev y' own C /\ y_fs y' = y_fs y /\
    moved (y_ic y) (x :: l) (y_ic y') l /\
    (forall j, j <> x -> ic_slot (y_ic y') !! j = ic_slot (y_ic y) !! j) /\
    (exists t, ic_slot (y_ic y') !! x = Some t /\ sl_dev t = dev /\ sl_inum t = sl_inum s /\ sl_ref t = sl_ref s - 1).
Proof.
  intros Y S. destruct (iput_keeps y own C x s l Y S) as (y' & E & H). exists y'. split; [|done].
  unfold iunlockput, iunlock, slot_of. unfold pbind at 1 2. rewrite (st_slot _ _ _ S).
  rewrite (proj2 (Z.ltb_ge _ 1)) by (pose proof (st_ref _ _ _ S); lia). done.
Qed.

(** Locking the inode the walk stands on. *)
Lemma ilock_keeps y own C x s : sys_ok sb dev y own C -> standing y x s ->
  let s1 := set_ip true (disk_inode (dsk (y_fs y)) (sl_inum s)) s in
  exists y1, ilock sb x y = Some (tt, y1) /\ sys_ok sb dev y1 own C /\ y_fs y1 = y_fs y /\ standing y1 x s1 /\ moved (y_ic y) [x] (y_ic y1) [x].
Proof.
  intros Y S s1. destruct (st_live _ _ _ S) as [Hr Ht].
  destruct (ilock_spec sb SB LO dev y own C x s Y (st_slot _ _ _ S) (st_ref _ _ _ S) (st_dev _ _ _ S) Hr Ht) as (y1 & E & Y1 & Ef & Hx & Ho).
  exists y1. split; [done|]. split; [done|]. split; [done|]. split.
  - split; [done|apply S|rewrite Ef; apply S|apply S|rewrite Ef; apply S].
  - intros k u Hu. destruct (decide (k = x)) as [->|Hne]; [|rewrite Ho by done; by exists u].
    rewrite (st_slot _ _ _ S) in Hu. injection Hu as <-. eexists. split; [exact Hx|]. done.
Qed.

(** One step down: the name was found, the old reference is dropped. *)
Lemma step_down y own C x s inum : sys_ok sb dev y own C -> standing y x s -> roomy (y_ic y) [x] ->
  live (dsk (y_fs y)) inum -> i_nlink (disk_inode (dsk (y_fs y)) inum) <> 0 ->
  exists i c' C' y' t, iget dev inum (y_ic y) = Some (i, c') /\
    iunlockput sb vfs_drop vfs_dev_is_xv6fs x (mkSys (y_fs y) c') = Some (tt, y') /\
    sys_ok sb dev y' own C' /\ y_fs y' = y_fs y /\ standing y' i t /\ sl_inum t = inum /\ moved (y_ic y) [x] (y_ic y') [i].
Proof.
  intros Y S R Hlive Hlink. assert (Hn : inum <> 0) by (destruct Hlive; lia).
  destruct (roomy_iget _ C x inum (so_cache _ _ _ _ _ Y) R Hn) as (i & c' & C' & E & K & G).
  pose proof (sys_ok_iget sb dev y own C inum i c' C' Y K G Hn) as Y2.
  pose proof (got_moved inum _ C i c' C' [] (so_cache _ _ _ _ _ Y) K G Hn) as M0.
  pose proof (got_moved inum _ C i c' C' [x] (so_cache _ _ _ _ _ Y) K G Hn) as M1.
  destruct (M0 x s (st_slot _ _ _ S)) as (s2 & Hs2 & Er2 & Id2). cbn [holds] in Er2, Id2. pose proof (st_ref _ _ _ S) as Hr.
  destruct Id2 as [Ed2 Ei2]; [lia|].
  assert (S2 : standing (mkSys (y_fs y) c') x s2).
  { split; cbn [y_fs y_ic]; [done|rewrite Ed2; apply S|rewrite Ei2; apply S|case_decide; lia|].
    rewrite Ei2. destruct (st_keep _ _ _ S) as [|]; [by left|right; case_decide; lia]. }
  destruct (iunlockput_keeps (mkSys (y_fs y) c') own C' x s2 [i] Y2 S2) as (y' & Ep & Y' & Ef & M2 & Ho & (t & Ht & Hdt & Hit & Hrt)).
  cbn [y_fs y_ic] in *. destruct (gt_new _ _ _ _ _ G) as (u & Hu & Edu & Eiu).
  assert (Hru : 0 < sl_ref u).
  { pose proof (lookup_lt_Some _ _ _ Hu) as Hlt. rewrite (ic_len _ _ K), <- (ic_len _ _ (so_cache _ _ _ _ _ Y)) in Hlt.
    destruct (lookup_lt_is_Some_2 _ _ Hlt) as [v Hv]. destruct (M0 i v Hv) as (w & Hw & Er & _). cbn [holds] in Er. rewrite decide_True in Er by done.
    destruct (ic_ref _ _ (so_cache _ _ _ _ _ Y) i v Hv). rewrite Hu in Hw. injection Hw as <-. lia. }
  assert (Hnew : exists t', ic_slot (y_ic y') !! i = Some t' /\ sl_dev t' = dev /\ sl_inum t' = inum /\ 0 < sl_ref t').
  { destruct (decide (i = x)) as [->|Hne].
    - exists t. rewrite Hs2 in Hu. injection Hu as <-. split; [done|]. split; [done|]. split; [congruence|]. rewrite decide_True in Er2 by done. lia.
    - exists u. rewrite Ho by done. done. }
  destruct Hnew as (t' & Ht' & Hd' & Hi' & Hr'). exists i, c', C', y', t'. split; [done|]. split; [done|]. split; [done|]. split; [done|].
  split; [|split; [done|]].
  - split; [done|done|rewrite Hi', Ef; done|done|left; rewrite Hi', Ef; done].
  - eapply dmoved_trans; [apply moved_swap; exact M1|exact M2].
Qed.

Lemma namex_loop_spec fuel path parent y own C x s : sys_ok sb dev y own C -> tree_ok (dsk (y_fs y)) -> standing y x s ->
  roomy (y_ic y) [x] -> (length path < fuel)%nat ->
  exists r y' C', namex_loop sb devsw_read procfs_readi pgdir kbuf vfs_drop vfs_dev_is_xv6fs myproc fuel x path parent y = Some (r, y') /\
    y_fs y' = y_fs y /\ sys_ok sb dev y' own C' /\
    match resolve fuel (dsk (y_fs y)) (sl_inum s) path parent with
    | None => r = None /\ moved (y_ic y) [x] (y_ic y') []
    | Some (k, name) => exists x' t, r = Some (x', name) /\ ic_slot (y_ic y') !! x' = Some t /\ sl_dev t = dev /\ sl_inum t = k /\
        moved (y_ic y) [x] (y_ic y') [x']
    end.
Proof.
  revert path y C x s. induction fuel as [|fuel IH]; intros path y C x s Y T S R Hf; [lia|]. cbn [namex_loop resolve].
  destruct (skipelem path) as [[name rest]|] eqn:Esk.
  2: { destruct parent.
       - destruct (iput_keeps y own C x s [] Y S) as (y' & E & Y' & Ef & M & _). rewrite (pbind_Some _ _ _ _ _ E).
         exists None, y', C. done.
       - exists (Some (x, [])), y, C. split; [done|]. split; [done|]. split; [done|]. exists x, s. split; [done|]. split; [apply S|]. split; [apply S|].
         split; [done|]. intros k u Hu. by exists u. }
  destruct (ilock_keeps y own C x s Y S) as (y1 & E1 & Y1 & Ef1 & S1 & M1). set (s1 := set_ip true _ s) in *.
  rewrite (pbind_Some _ _ _ _ _ E1). assert (Es : slot_of x y1 = Some (s1, y1)) by (unfold slot_of; by rewrite (st_slot _ _ _ S1)).
  rewrite (pbind_Some _ _ _ _ _ Es). cbn [s1 set_ip sl_ip]. set (D := dsk (y_fs y)) in *. set (ip := disk_inode D (sl_inum s)) in *.
  assert (Hdrop : exists r y' C', (iunlockput sb vfs_drop vfs_dev_is_xv6fs x >>> pret (@None (nat * bytes))) y1 = Some (r, y') /\
    y_fs y' = y_fs y /\ sys_ok sb dev y' own C' /\ r = None /\ moved (y_ic y) [x] (y_ic y') []).
  { destruct (iunlockput_keeps y1 own C x s1 [] Y1 S1) as (y' & E & Y' & Ef & M & _). exists None, y', C.
    rewrite (pbind_Some _ _ _ _ _ E). split; [done|]. split; [congruence|]. split; [done|]. split; [done|]. by eapply dmoved_trans. }
  destruct (Z.eqb_spec (i_type ip) T_DIR) as [Hdir|]; cbn [negb]; [|exact Hdrop].
  destruct (iaccess ip myproc IACC_EXEC <? 0); [exact Hdrop|].
  destruct (parent && (chr rest =? 0)).
  { exists (Some (x, name)), y1, C. unfold iunlock. rewrite (pbind_Some _ _ y1 tt y1).
    - split; [done|]. split; [done|]. split; [done|]. exists x, s1. split; [done|]. split; [apply S1|]. split; [apply S|]. split; [done|exact M1].
    - rewrite (pbind_Some _ _ _ _ _ Es). cbn [s1 set_ip sl_ref]. rewrite (proj2 (Z.ltb_ge _ 1)) by (pose proof (st_ref _ _ _ S); lia). done. }
  destruct (T (sl_inum s) (st_live _ _ _ S) Hdir) as [[n Hn] Hent]. fold ip in Hn, Hent.
  assert (HD1 : dir_slot dev y1 x s1 n) by (split; [apply S1|apply S|done|exact Hdir|exact Hn]).
  pose proof (dirlookup_spec sb SB dev ltac:(discriminate) devsw_read procfs_readi pgdir kbuf y1 own C x s1 n name Y1 HD1) as EL.
  rewrite Ef1 in EL. change (content (dsk (y_fs y)) (sl_ip s1)) with (content D ip) in EL.
  unfold dir_get in *. destruct (find_ent (ents (content D ip)) 0 name) as [[j inum]|] eqn:Efe; cbn [fmap option_fmap option_map snd] in *.
  2: { rewrite (pbind_Some _ _ _ _ _ EL). exact Hdrop. }
  destruct (Hent name inum) as [Hlive Hlink]; [by rewrite Efe|].
  destruct (step_down y1 own C x s1 inum Y1 S1 (roomy_moved _ _ _ _ R M1)) as (i & c' & C' & y' & t & Eg & Ep & Y' & Ef & S' & Ei & M);
    [by rewrite Ef1|by rewrite Ef1|].
  rewrite Eg in EL. rewrite Ef1 in Ep. rewrite (pbind_Some _ _ _ _ _ EL), (pbind_Some _ _ _ _ _ Ep).
  pose proof (dmoved_trans _ _ _ _ _ _ M1 M) as M'. rewrite Ef1 in Ef.
  destruct (IH rest y' C' i t Y') as (r & y2 & C2 & E2 & Ef2 & Y2 & Hres); [by rewrite Ef|done|by eapply roomy_moved| |].
  { pose proof (skipelem_shorter path name rest Esk). lia. }
  exists r, y2, C2. split; [exact E2|]. split; [congruence|]. split; [done|]. rewrite Ef, Ei in Hres. fold D in Hres.
  destruct (resolve fuel D inum rest parent) as [[k nm]|].
  - destruct Hres as (x' & t' & -> & H1 & H2 & H3 & M2). exists x', t'. split; [done|]. split; [done|]. split; [done|]. split; [done|]. by eapply dmoved_trans.
  - destruct Hres as [-> M2]. split; [done|]. by eapply dmoved_trans.
Qed.

(** C18.  Path resolution.  In a file system whose directories are well formed, and
    with two slots of the inode cache free, [namex] never panics and does what
    following the path on the disk does: from the root for an absolute path and
    from the working directory otherwise, it looks up element after element,
    fails at anything that is no directory, may not be searched or has no such
    entry, and stops one element early for [nameiparent].  The disk does not
    change, and no reference is lost or left behind: on success exactly one is
    added, to the slot returned, and on failure none. *)
Theorem namex_refines path parent y own C cwd s : sys_ok sb dev y own C -> tree_ok (dsk (y_fs y)) ->
  live (dsk (y_fs y)) ROOTINO -> i_nlink (disk_inode (dsk (y_fs y)) ROOTINO) <> 0 ->
  ic_slot (y_ic y) !! cwd = Some s -> sl_dev s = dev -> live (dsk (y_fs y)) (sl_inum s) -> 0 < sl_ref s ->
  roomy (y_ic y) [] ->
  exists r y' C', namex sb devsw_read procfs_readi pgdir kbuf vfs_drop vfs_dev_is_xv6fs myproc cwd path parent y = Some (r, y') /\
    y_fs y' = y_fs y /\ sys_ok sb dev y' own C' /\
    match resolve (S (length path)) (dsk (y_fs y)) (if chr path =? slash then ROOTINO else sl_inum s) path parent with
    | None => r = None /\ moved (y_ic y) [] (y_ic y') []
    | Some (k, name) => exists x t, r = Some (x, name) /\ ic_slot (y_ic y') !! x = Some t /\ sl_dev t = dev /\ sl_inum t = k /\
        moved (y_ic y) [] (y_ic y') [x]
    end.
Proof.
  intros Y T Hroot Hlink Hs Hd Hlive Hr R. unfold namex.
  assert (Hstart : exists x y1 C1 t, (if chr path =? slash then on_ic (iget ROOTDEV ROOTINO) else on_ic (idup cwd)) y = Some (x, y1) /\
    sys_ok sb dev y1 own C1 /\ y_fs y1 = y_fs y /\ standing y1 x t /\ moved (y_ic y) [] (y_ic y1) [x] /\
    sl_inum t = if chr path =? slash then ROOTINO else sl_inum s).
  { destruct (chr path =? slash).
    - destruct (root_iget _ _ R (so_cache _ _ _ _ _ Y)) as (i & c' & C' & E & K & G).
      pose proof (got_moved ROOTINO _ C i c' C' [] (so_cache _ _ _ _ _ Y) K G ltac:(discriminate)) as M.
      pose proof (sys_ok_iget sb dev y own C ROOTINO i c' C' Y K G ltac:(discriminate)) as Y1.
      destruct (gt_new _ _ _ _ _ G) as (u & Hu & Edu & Eiu). exists i, (mkSys (y_fs y) c'), C', u. unfold on_ic. rewrite E.
      split; [done|]. split; [done|]. split; [done|]. split; [|done]. split; cbn [y_ic y_fs]; [done|done|by rewrite Eiu| |left; by rewrite Eiu].
      pose proof (lookup_lt_Some _ _ _ Hu) as Hlt. rewrite (ic_len _ _ K), <- (ic_len _ _ (so_cache _ _ _ _ _ Y)) in Hlt.
      destruct (lookup_lt_is_Some_2 _ _ Hlt) as [v Hv]. destruct (M i v Hv) as (w & Hw & Er & _). cbn [holds] in Er. rewrite decide_True in Er by done.
      destruct (ic_ref _ _ (so_cache _ _ _ _ _ Y) i v Hv). rewrite Hu in Hw. injection Hw as <-. lia.
    - exists cwd, (mkSys (y_fs y) (upd_slot cwd (fun s => set_ref (sl_ref s + 1) s) (y_ic y))), C, (set_ref (sl_ref s + 1) s).
      split; [done|]. split; [|split; [done|split; [|split; [|done]]]].
      + split; cbn [y_fs y_ic]; [|apply Y|].
        * apply slot_upd_ok; [apply Y|done|]. cbn. intros t Ht. destruct (ic_ref _ _ (so_cache _ _ _ _ _ Y) cwd t Ht).
          rewrite Hs in Ht. injection Ht as <-. split; [lia|auto].
        * intros j t. rewrite upd_slot_lookup. destruct (decide (j = cwd)) as [->|]; [|apply Y].
          rewrite Hs. intros E. injection E as <-. cbn. apply (so_valid _ _ _ _ _ Y cwd s Hs).
      + split; cbn [y_ic y_fs set_ref sl_ref sl_dev sl_inum]; [|done|done|lia|right; lia].
        by rewrite upd_slot_lookup, decide_True, Hs.
      + intros k u Hu. cbn [y_ic holds]. rewrite upd_slot_lookup. destruct (decide (k = cwd)) as [->|]; [|exists u; split; [done|]; split; [lia|done]].
        rewrite Hu. eexists. split; [done|]. cbn. split; [lia|done]. }
  destruct Hstart as (x & y1 & C1 & t & E1 & Y1 & Ef & S1 & M1 & Ei). rewrite (pbind_Some _ _ _ _ _ E1).
  destruct (namex_loop_spec (S (length path)) path parent y1 own C1 x t Y1) as (r & y2 & C2 & E2 & Ef2 & Y2 & Hres);
    [by rewrite Ef|done|by eapply roomy_moved|lia|].
  exists r, y2, C2. split; [exact E2|]. split; [congruence|]. split; [done|]. rewrite Ef, Ei in Hres.
  destruct (resolve _ _ _ _ _) as [[k nm]|].
  - destruct Hres as (x' & t' & -> & H1 & H2 & H3 & M2). exists x', t'. split; [done|]. split; [done|]. split; [done|]. split; [done|]. by eapply dmoved_trans.
  - destruct Hres as [-> M2]. split; [done|]. by eapply dmoved_trans.
Qed.
End Walk.

(** ** A small tree *)

Module DirExample.
Import InodeExample CacheExample.

(** The root directory has an entry [a] for the empty file 2, and a free entry. *)
Definition root_ip : inode := mkIn 1 1 T_DIR 0 0 1 0 0 493 516 (4 :: 5 :: replicate 9 0).
Definition file_ip : inode := mkIn 1 2 T_FILE 0 0 1 0 0 420 0 (replicate 11 0).
Definition root_bytes : bytes := enc_dirent 2 [97] ++ enc_dirent 0 [].

Definition disk1 : gmap Z bytes :=
  <[2 := put_dinode (put_dinode zeroes root_ip) file_ip]> (<[3 := set_byte zeroes 0 63]>
    (<[4 := take 512 root_bytes]> (<[5 := drop 512 root_bytes ++ replicate 508 0]>
    (list_to_map ((fun i => (Z.of_nat i, zeroes)) <$> seq 0 16))))).
Definition s1 : fs := mkFs disk1 [].
Definition own1 : owners := <[4 := (1, RData 0)]> {[ 5 := (1, RData 1) ]}.
Definition slot_root : slot := mkSlot 1 1 1 true None root_ip.
Definition c1 : icache := mkIc (slot_root :: replicate 199 slot0) (<[32%nat := Some 0%nat]> (replicate 64 None)).
Definition y1 : sys := mkSys s1 c1.

Lemma disk1_ok : disk_ok sb0 disk1 own1.
Proof.
  split; [split|].
  - intros b Hb. assert (E : exists d, disk1 !! b = Some d /\ length d = 512%nat).
    { upto16 b Hb; (eexists; split; [vm_compute; reflexivity|reflexivity]). }
    destruct E as (d & Ed & El). exists d. split; [done|]. unfold len. by rewrite El.
  - intros c Hc. change (datastart sb0) with 4 in Hc. upto16 c Hc; vm_compute; done || lia.
  - intros b o Ho. unfold own1 in Ho. apply lookup_insert_Some in Ho as [[<- <-]|[_ Ho]]; [by split; vm_compute|].
    apply lookup_singleton_Some in Ho as [<- <-]. by split; vm_compute.
Qed.

Lemma ptr1 D a b r : role_ok r -> ptr D (a :: b :: replicate 9 0) r <> 0 -> r = RData 0 \/ r = RData 1.
Proof.
  intros Hr Hp. destruct r as [bn| | |o]; cbn [ptr] in Hp; try done.
  destruct (Z.ltb_spec bn 9); [|by destruct (bn <? 137)].
  cbn in Hr. assert (bn = 0 \/ bn = 1 \/ bn = 2 \/ bn = 3 \/ bn = 4 \/ bn = 5 \/ bn = 6 \/ bn = 7 \/ bn = 8) as Cb by lia.
  destruct_or! Cb; subst bn; auto; done.
Qed.

Lemma root_ok : inode_ok sb0 root_ip disk1 own1.
Proof.
  split.
  - by vm_compute.
  - split; cbn; unfold is_s16, is_u32, T_DIR; try lia. split; [|done]. repeat (apply Forall_cons; split; [lia|]). by apply Forall_nil.
  - by vm_compute.
  - split; [done|]. intros r Hr Hp. by destruct (ptr1 disk1 4 5 r Hr Hp) as [->| ->].
  - intros x Hx. cbn [i_size root_ip] in Hx. assert (x / BSIZE = 0 \/ x / BSIZE = 1) as [->| ->] by (unfold BSIZE; mlia); done.
  - by vm_compute.
Qed.

Lemma file_ok2 : inode_ok sb0 file_ip disk1 own1.
Proof.
  split.
  - by vm_compute.
  - split; cbn; unfold is_s16, is_u32, T_FILE; try lia. split; [|done]. repeat (apply Forall_cons; split; [lia|]). by apply Forall_nil.
  - by vm_compute.
  - split; [done|]. intros r Hr Hp. destruct Hp. by apply empty_tree.
  - cbn [i_size file_ip]. lia.
  - by vm_compute.
Qed.

Lemma live1 j : live sb0 disk1 j -> (j = 1 /\ disk_inode sb0 disk1 j = root_ip) \/ (j = 2 /\ disk_inode sb0 disk1 j = file_ip).
Proof.
  intros [Hj Ht]. cbn [sb_ninodes sb0] in Hj.
  assert (j = 1 \/ j = 2 \/ j = 3 \/ j = 4 \/ j = 5 \/ j = 6 \/ j = 7) as Cj by lia.
  destruct_or! Cj; subst j; try (vm_compute in Ht; by destruct Ht); [left|right]; (split; [done|by vm_compute]).
Qed.

Lemma fs1_ok : fs_ok sb0 1 disk1 own1.
Proof.
  split; [apply disk1_ok|]. intros j Hj Ht. change (fix_mode (dinode sb0 disk1 1 j)) with (disk_inode sb0 disk1 j).
  destruct (live1 j (conj Hj Ht)) as [[_ ->]|[_ ->]]; [apply root_ok|apply file_ok2].
Qed.

Lemma c1_slot i s : ic_slot c1 !! i = Some s -> (i = 0%nat /\ s = slot_root) \/ s = slot0.
Proof.
  unfold c1. cbn [ic_slot]. destruct i as [|i].
  - intros E. injection E as <-. by left.
  - rewrite lookup_cons_ne_0 by done. intros [E _]%lookup_replicate. by right.
Qed.

Lemma c1_ok : icache_ok c1 C0.
Proof.
  assert (E : c1 = upd_slot 0 (fun s => mkSlot (sl_dev s) (sl_inum s) (sl_ref s) (sl_valid s) (sl_next s) root_ip) c0) by done.
  rewrite E. apply slot_upd_ok; [apply c0_ok|done|]. intros s Hs. exact (ic_ref _ _ c0_ok 0%nat s Hs).
Qed.

Lemma y1_ok : sys_ok sb0 1 y1 own1 C0.
Proof.
  split; cbn [y1 y_ic y_fs s1 dsk]; [apply c1_ok|apply fs1_ok|].
  intros i s Hs Hd Hv. destruct (c1_slot i s Hs) as [[-> ->]| ->]; [|done]. by vm_compute.
Qed.

Lemma root_content : content disk1 root_ip = root_bytes.
Proof. by vm_compute. Qed.

Lemma root_get name : dir_get root_bytes name = if namecmp name (strncpy [97] DIRSIZ) =? 0 then Some 2 else None.
Proof.
  unfold dir_get. replace (ents root_bytes) with [enc_dirent 2 [97]; enc_dirent 0 []] by (by vm_compute).
  cbn [find_ent]. unfold names. destruct (enc_dirent_fields 2 [97] ltac:(lia)) as [-> ->]. destruct (enc_dirent_fields 0 [] ltac:(lia)) as [-> _].
  cbn [Z.eqb negb andb]. by destruct (namecmp name (strncpy [97] DIRSIZ) =? 0).
Qed.

Lemma tree1_ok : tree_ok sb0 disk1.
Proof.
  intros j Hj Hd. destruct (live1 j Hj) as [[-> E]|[-> E]]; rewrite E in *; [|done]. split; [by exists 2%nat|].
  intros name k. rewrite root_content, root_get. destruct (namecmp name (strncpy [97] DIRSIZ) =? 0); [|done].
  intros H. injection H as <-. by vm_compute.
Qed.

Lemma root_dir : dir_slot 1 y1 0 slot_root 2.
Proof. by split. Qed.

Lemma roomy1 : roomy c1 [].
Proof. by exists 1%nat, 2%nat, slot0, slot0. Qed.

Lemma dirlookup_refines_witness :
  exists x off c' C', dirlookup sb0 no_rd no_procfs true true 0 [97] y1 = Some (Some (x, off), mkSys s1 c') /\ sys_ok sb0 1 (mkSys s1 c') own1 C'.
Proof.
  pose proof (dirlookup_refines sb0 sb0_ok 1 ltac:(discriminate) no_rd no_procfs true true y1 own1 C0 0 slot_root 2 [97] y1_ok root_dir) as H.
  change (content (dsk (y_fs y1)) (sl_ip slot_root)) with (content disk1 root_ip) in H. rewrite root_content, root_get in H.
  replace (namecmp [97] (strncpy [97] DIRSIZ) =? 0) with true in H by (by vm_compute).
  destruct H as [(x & off & c' & C' & E & Y & _)|[_ H]]; [exists x, off, c', C'; split; [exact E|exact Y]|].
  specialize (H 1%nat slot0 eq_refl). discriminate H.
Defined.

Lemma dirlink_refines_witness :
  exists y', dirlink sb0 no_rd no_wr no_procfs true true (fun _ => None) (fun _ => true) 0 [98] 2 y1 = Some (0, y').
Proof.
  pose proof (dirlink_refines sb0 sb0_ok layout0_ok 1 ltac:(discriminate) no_rd no_procfs true true no_wr (fun _ => None) (fun _ => true)
    eq_refl eq_refl y1 own1 C0 0 slot_root 2 [98] 2 y1_ok root_dir ltac:(lia)) as H. cbv zeta in H.
  change (content (dsk (y_fs y1)) (sl_ip slot_root)) with (content disk1 root_ip) in H. rewrite root_content, root_get in H.
  replace (namecmp [98] (strncpy [97] DIRSIZ) =? 0) with false in H by (by vm_compute).
  destruct H as [(y' & own' & s' & n' & E & _)|[E _]]; [by exists y'|]. vm_compute in E. discriminate E.
Defined.

Lemma namex_refines_witness :
  exists x y' t, namex sb0 no_rd no_procfs true true (fun _ => None) (fun _ => true) None 0 [47; 47; 97] false y1 = Some (Some (x, []), y') /\
    ic_slot (y_ic y') !! x = Some t /\ sl_inum t = 2 /\ moved c1 [] (y_ic y') [x].
Proof.
  destruct (namex_refines sb0 sb0_ok layout0_ok no_rd no_procfs true true (fun _ => None) (fun _ => true) eq_refl eq_refl None
    [47; 47; 97] false y1 own1 C0 0 slot_root y1_ok tree1_ok) as (r & y' & C' & E & _ & _ & H);
    [by vm_compute|by vm_compute|reflexivity|reflexivity|by vm_compute|by vm_compute|exact roomy1|].
  replace (resolve sb0 None _ (dsk (y_fs y1)) _ [47; 47; 97] false) with (Some (2, @nil Z)) in H by (by vm_compute).
  destruct H as (x & t & -> & Ht & _ & Hi & M). exists x, y', t. split; [exact E|]. split; [exact Ht|]. split; [exact Hi|exact M].
Defined.
End DirExample.
