(* ===== verification/Vm.v ===== *)
(** * Page tables: [src/kernel/core/vm.c], [src/kernel/vm/fault.c]

    The operations on page directories, page tables and user pages.  They work
    on the memory of [Kmalloc]: a directory is a page of 1024 words, its present
    entries hold the physical addresses of page tables, and those hold the
    physical addresses of pages.  Pages come from the allocator of [Kalloc] and
    return to it through their reference counts.

    [None] is a panic (or an access through a dangling [struct address_space]
    pointer).  Messages are not modelled, nor is the translation cache: loading
    CR3 is the assignment of [cr3].  The CPU of the [i]-th page operation is
    [cpu i].  The allocator's check of kernel addresses
    ([kaddr_writable_current_pgdir]) is the one defined here; the allocator sees
    it as a predicate, so a directory entry that the check would repair while a
    page is allocated stays as it is.  Range tables are those of [Vma]; their
    memory comes from the heap of [Vma], not from the pages of this file. *)

From S2P Require Import Prelude NetBytes Vma Kalloc ByteMem Kmalloc.

(** ** Addresses and entries *)

Definition NPDENTRIES : Z := 1024.
Definition PTXSHIFT : Z := 12.
Definition PDXSHIFT : Z := 22.
Definition PDX (va : Z) : Z := Z.land (Z.shiftr va PDXSHIFT) 1023.
Definition PTX (va : Z) : Z := Z.land (Z.shiftr va PTXSHIFT) 1023.
Definition PGADDR (d t o : Z) : Z := u32 (Z.lor (Z.lor (Z.shiftl d PDXSHIFT) (Z.shiftl t PTXSHIFT)) o).
Definition PGROUNDDOWN (a : Z) : Z := Z.land a 4294963200.

Definition PTE_P : Z := 1.
Definition PTE_W : Z := 2.
Definition PTE_U : Z := 4.
Definition PTE_COW : Z := 512.
Definition PTE_ADDR (pte : Z) : Z := Z.land pte 4294963200.
Definition PTE_FLAGS (pte : Z) : Z := Z.land pte 4095.

Definition EXTMEM : Z := 1048576.
Definition DEVSPACE : Z := 4261412864.
Definition KERNLINK : Z := KERNBASE + EXTMEM.
Definition KSTACKSIZE : Z := 8192.
Definition USER_STACK_MAX_PAGES : Z := 64.
Definition SIGSEGV_BIT : Z := 1024.           (* SIGBIT(SIGSEGV) *)

Definition pte_is_cow (pte : Z) : bool := flag pte PTE_COW.
Definition pte_is_writable (pte : Z) : bool := flag pte PTE_W.
Definition pte_is_user (pte : Z) : bool := flag pte PTE_U.

(** The tests [pa == 0 || pa >= PHYSTOP || pa >= KERNBASE]. *)
Definition bad_pa (pa : Z) : bool := (pa =? 0) || (pa >=? PHYSTOP) || (pa >=? KERNBASE).
Definition pte_pa_valid (pte : Z) : bool := negb (bad_pa (PTE_ADDR pte)).

(** x86 sets Accessed and Dirty in paging entries at runtime. *)
Definition VM_PDE_VOLATILE_BITS : Z := 96.
Definition VM_PDE_SYNC_FULL_INTERVAL : Z := 64.
Definition vm_pde_stable (pde : Z) : Z := Z.ldiff pde VM_PDE_VOLATILE_BITS.
Definition vm_pde_merge_runtime_bits (cur want : Z) : Z :=
  Z.lor (Z.ldiff want VM_PDE_VOLATILE_BITS) (Z.land cur VM_PDE_VOLATILE_BITS).

(** ** State *)

Inductive procstate := UNUSED | EMBRYO | SLEEPING | RUNNABLE | RUNNING | STOPPED | ZOMBIE.

(** The fields of [struct proc] that this code uses; [addrsp] is a pointer, 0
    for NULL. *)
Record proc := mkProc {
  pstate : procstate;
  addrsp : Z;
  kstack : Z;
  stack_top : Z;
  stack_bot : Z;
  sig_pending : Z
}.

(** The counters, in the order of the sources. *)
Definition BAD_PTE_DROPS : nat := 0.
Definition PDE_REPAIRS : nat := 1.
Definition PDE_MASTER_REPAIRS : nat := 2.
Definition SYNC_CALLS : nat := 3.
Definition SYNC_FULL_CALLS : nat := 4.
Definition SYNC_ENTRIES : nat := 5.
Definition GUARD_CHECKS : nat := 6.
Definition GUARD_ALLOWS : nat := 7.
Definition GUARD_DENIES : nat := 8.
Definition BYPASS_NO_AS : nat := 9.
Definition BYPASS_VM_SIZE : nat := 10.
Definition COW_CREATED : nat := 11.
Definition FAULT_DISPATCHES : nat := 12.
Definition FAULT_COW : nat := 13.
Definition FAULT_STACK : nat := 14.
Definition FAULT_ZERO : nat := 15.
Definition FAULT_SEGV : nat := 16.

Record vm := mkVm {
  vmach : mach;                     (* memory and the page allocator *)
  tick : nat;                       (* page operations so far *)
  kpgdir : Z;
  pde_ref : gmap Z Z;               (* vm_kernel_pde_ref *)
  pde_ref_ready : bool;
  sync_cursor : Z;
  counters : list Z;
  curproc : option proc;            (* myproc() *)
  spaces : gmap Z address_space;    (* by address *)
  vheap : heap;                     (* of the range tables *)
  cr3 : Z;
  esp0 : Z                          (* of the task state segment *)
}.

Definition set_mach (m : mach) (s : vm) : vm :=
  mkVm m (tick s) (kpgdir s) (pde_ref s) (pde_ref_ready s) (sync_cursor s) (counters s) (curproc s)
       (spaces s) (vheap s) (cr3 s) (esp0 s).
Definition set_tick (n : nat) (s : vm) : vm :=
  mkVm (vmach s) n (kpgdir s) (pde_ref s) (pde_ref_ready s) (sync_cursor s) (counters s) (curproc s)
       (spaces s) (vheap s) (cr3 s) (esp0 s).
Definition set_kpgdir (d : Z) (s : vm) : vm :=
  mkVm (vmach s) (tick s) d (pde_ref s) (pde_ref_ready s) (sync_cursor s) (counters s) (curproc s)
       (spaces s) (vheap s) (cr3 s) (esp0 s).
Definition set_pde_ref (m : gmap Z Z) (b : bool) (s : vm) : vm :=
  mkVm (vmach s) (tick s) (kpgdir s) m b (sync_cursor s) (counters s) (curproc s)
       (spaces s) (vheap s) (cr3 s) (esp0 s).
Definition set_cursor (c : Z) (s : vm) : vm :=
  mkVm (vmach s) (tick s) (kpgdir s) (pde_ref s) (pde_ref_ready s) c (counters s) (curproc s)
       (spaces s) (vheap s) (cr3 s) (esp0 s).
Definition set_counters (l : list Z) (s : vm) : vm :=
  mkVm (vmach s) (tick s) (kpgdir s) (pde_ref s) (pde_ref_ready s) (sync_cursor s) l (curproc s)
       (spaces s) (vheap s) (cr3 s) (esp0 s).
Definition set_curproc (p : option proc) (s : vm) : vm :=
  mkVm (vmach s) (tick s) (kpgdir s) (pde_ref s) (pde_ref_ready s) (sync_cursor s) (counters s) p
       (spaces s) (vheap s) (cr3 s) (esp0 s).
Definition set_spaces (m : gmap Z address_space) (h : heap) (s : vm) : vm :=
  mkVm (vmach s) (tick s) (kpgdir s) (pde_ref s) (pde_ref_ready s) (sync_cursor s) (counters s) (curproc s)
       m h (cr3 s) (esp0 s).
Definition set_cr3 (c e : Z) (s : vm) : vm :=
  mkVm (vmach s) (tick s) (kpgdir s) (pde_ref s) (pde_ref_ready s) (sync_cursor s) (counters s) (curproc s)
       (spaces s) (vheap s) c e.

Open Scope pm_scope.

Definition get : PM vm vm := fun s => Some (s, s).
Definition upd (f : vm -> vm) : PM vm unit := fun s => Some (tt, f s).
Definition vbump (c : nat) (n : Z) : PM vm unit := upd (fun s => set_counters (alter (fun x => x +u n) c (counters s)) s).

(** Words and bytes of memory. *)
Definition ld (a : Z) : PM vm Z := fun s => Some (load32 (mem (vmach s)) a, s).
Definition set_bytes (f : (Z -> Z) -> Z -> Z) : PM vm unit :=
  upd (fun s => set_mach (Kmalloc.set_mem (vmach s) (f (mem (vmach s)))) s).
Definition st (a v : Z) : PM vm unit := set_bytes (fun m => store32 m a v).
Definition zero_page (p : Z) : PM vm unit := set_bytes (fun m => write_bytes m p (replicate 4096 0)).
Definition copy_bytes (dst src n : Z) : PM vm unit := set_bytes (fun m => write_bytes m dst (read_bytes m src n)).
Definition put_bytes (dst : Z) (l : list Z) : PM vm unit := set_bytes (fun m => write_bytes m dst l).

(** ** Processes and address spaces *)

Definition vm_proc_state_requires_addrspace (st : procstate) : bool :=
  match st with SLEEPING | RUNNABLE | RUNNING | STOPPED => true | _ => false end.

Definition myproc : PM vm (option proc) := fun s => Some (curproc s, s).
Definition space_at (a : Z) : PM vm address_space := fun s =>
  match spaces s !! a with Some x => Some (x, s) | None => None end.

Definition proc_pgdir (p : option proc) : PM vm Z :=
  match p with
  | None => pret 0
  | Some q =>
      if addrsp q =? 0 then
        if vm_proc_state_requires_addrspace (pstate q) then ppanic else pret 0
      else
        let! a := space_at (addrsp q) in
        if pgdir a =? 0 then ppanic else pret (pgdir a)
  end.

Definition vm_effective_pgdir (d : Z) : PM vm Z :=
  let! p := myproc in
  match p with
  | None => pret d
  | Some q =>
      if addrsp q =? 0 then pret d
      else
        let! a := space_at (addrsp q) in
        if pgdir a =? 0 then pret d
        else
          let! e := proc_pgdir p in
          if d =? e then pret (pgdir a) else pret d
  end.

(** The address of the structure, 0 for none. *)
Definition vm_current_addrspace_for_pgdir (d : Z) : PM vm Z :=
  let! p := myproc in
  match p with
  | None => pret 0
  | Some q =>
      if addrsp q =? 0 then
        if negb (d =? 0) && vm_proc_state_requires_addrspace (pstate q) then ppanic else pret 0
      else
        let! a := space_at (addrsp q) in
        if pgdir a =? 0 then ppanic
        else
          let! e := vm_effective_pgdir d in
          if negb (e =? pgdir a) then pret 0 else pret (addrsp q)
  end.

Definition vm_addrspace_allows_user_va (d va : Z) : PM vm bool :=
  vbump GUARD_CHECKS 1 >>>
  let! as_ := vm_current_addrspace_for_pgdir d in
  if as_ =? 0 then vbump BYPASS_NO_AS 1 >>> vbump GUARD_ALLOWS 1 >>> pret true
  else
    let! a := space_at as_ in
    if (vma_count a =? 0)%nat then
      if negb (transitional a =? 0) && (vm_size a >? 0) && (va <? vm_size a) then
        vbump BYPASS_VM_SIZE 1 >>> vbump GUARD_ALLOWS 1 >>> pret true
      else vbump GUARD_DENIES 1 >>> pret false
    else
      match vma_find (Some a) va with
      | Some _ => vbump GUARD_ALLOWS 1 >>> pret true
      | None => vbump GUARD_DENIES 1 >>> pret false
      end.

(** ** Walking *)

Definition vm_kernel_pde_canonical (i : Z) : PM vm Z := fun s =>
  Some (if pde_ref_ready s then default 0 (pde_ref s !! i)
        else if negb (kpgdir s =? 0) then load32 (mem (vmach s)) (kpgdir s + 4 * i) else 0, s).

(** [pgtab = kalloc(); memset(pgtab, 0, PGSIZE); *pde = ...] *)
Definition new_table (alloc : PM vm Z) (d va : Z) : PM vm Z :=
  let! t := alloc in
  if t =? 0 then pret 0
  else zero_page t >>> st (d + 4 * PDX va) (Z.lor (V2P t) (Z.lor PTE_P (Z.lor PTE_W PTE_U))) >>>
       pret (t + 4 * PTX va).

(** The address of the page table entry, 0 for NULL.  [alloc] is [None] when
    the argument [alloc] is 0, and otherwise the call of [kalloc]. *)
Definition walk (alloc : option (PM vm Z)) (d va : Z) : PM vm Z :=
  let! pde := ld (d + 4 * PDX va) in
  if flag pde PTE_P then
    let pa := PTE_ADDR pde in
    if bad_pa pa then
      match alloc with
      | None =>
          let! s := get in
          if (va >=? KERNBASE) && negb (kpgdir s =? 0) && (PDX va >=? PDX KERNBASE) then
            let! w := vm_kernel_pde_canonical (PDX va) in
            st (d + 4 * PDX va) w >>>
            (if flag w PTE_P && negb (bad_pa (PTE_ADDR w)) then pret (P2V (PTE_ADDR w) + 4 * PTX va) else pret 0)
          else pret 0
      | Some a => st (d + 4 * PDX va) 0 >>> new_table a d va
      end
    else pret (P2V pa + 4 * PTX va)
  else
    match alloc with
    | None => pret 0
    | Some a => new_table a d va
    end.

(** [panic("pte sane")] for an entry that is both writable and copy-on-write. *)
Definition pte_assert_sane (pte : Z) : PM vm unit :=
  if flag pte PTE_P && pte_is_cow pte && pte_is_writable pte then ppanic else pret tt.

Definition kaddr_writable_current_pgdir (kva : Z) : PM vm bool :=
  if kva <? KERNBASE then pret false
  else
    let! p := myproc in
    let! s := get in
    let! d0 := proc_pgdir p in
    let! d := (if d0 =? 0 then pret (kpgdir s) else vm_effective_pgdir d0) in
    if d =? 0 then pret (kva <? KERNBASE + BOOT_EARLY_PHYSTOP)
    else
      let! pte := walk None d kva in
      if pte =? 0 then pret false
      else
        let! w := ld pte in
        if negb (flag w PTE_P) then pret false
        else pte_assert_sane w >>> pret (pte_is_writable w).

(** The check as the allocator sees it. *)
Definition kaddr_writable (s : vm) (kva : Z) : bool :=
  match kaddr_writable_current_pgdir kva s with Some (b, _) => b | None => false end.

Section Ops.
(** [end_], [meta_base] and [pg_array_addr]: addresses of the kernel image,
    the page metadata and the page descriptors; [data_]: the first address of
    the kernel's writable data. *)
Context (end_ meta_base pg_array_addr data_ : Z) (cpu : nat -> nat).
Context {VE : VmEnv}.

Definition kalloc : PM vm Z := fun s =>
  match Kmalloc.kalloc end_ (kaddr_writable s) meta_base pg_array_addr (cpu (tick s)) (vmach s) with
  | None => None
  | Some (v, m) => Some (v, set_tick (S (tick s)) (set_mach m s))
  end.

Definition kfree (v : Z) : PM vm unit := fun s =>
  match Kalloc.kfree end_ (kaddr_writable s) meta_base (cpu (tick s)) v (kk (vmach s)) with
  | None => None
  | Some k => Some (tt, set_tick (S (tick s)) (set_mach (set_kk (vmach s) k) s))
  end.

Definition kpage_incref (pa : Z) : PM vm unit := fun s =>
  match Kalloc.kpage_incref pa (kk (vmach s)) with
  | None => None
  | Some k => Some (tt, set_mach (set_kk (vmach s) k) s)
  end.

Definition walkpgdir (d va : Z) (alloc : bool) : PM vm Z := walk (if alloc then Some kalloc else None) d va.

Definition vm_lookup_pte (d va : Z) : PM vm Z :=
  let! pte := walkpgdir d (PGROUNDDOWN va) false in
  if pte =? 0 then pret 0
  else
    let! w := ld pte in
    (if flag w PTE_P then pte_assert_sane w else pret tt) >>> pret pte.

Definition vm_tlb_flush (d : Z) : PM vm unit :=
  if d =? 0 then ppanic else upd (fun s => set_cr3 (V2P d) (esp0 s) s).

(** The loop of [mappages], [n] + 1 rounds at most. *)
Fixpoint map_loop (n : nat) (d a last pa perm : Z) : PM vm Z :=
  let! pte := walkpgdir d a true in
  if pte =? 0 then pret (-1)
  else
    let! w := ld pte in
    if flag w PTE_P then ppanic
    else
      st pte (Z.lor (Z.lor pa perm) PTE_P) >>>
      (if a =? last then pret 0
       else match n with
            | O => ppanic
            | S n => map_loop n d (a +u PGSIZE) last (pa +u PGSIZE) perm
            end).

Definition mappages (d va size pa perm : Z) : PM vm Z :=
  let a := PGROUNDDOWN va in
  let last := PGROUNDDOWN (u32 (va + size - 1)) in
  map_loop (Z.to_nat ((last -u a) / PGSIZE)) d a last pa perm.

Definition pte_mark_cow (pte : Z) : PM vm unit :=
  if pte =? 0 then ppanic
  else let! w := ld pte in st pte (Z.lor (Z.ldiff w PTE_W) PTE_COW).
Definition pte_mark_writable (pte : Z) : PM vm unit :=
  if pte =? 0 then ppanic
  else let! w := ld pte in st pte (Z.ldiff (Z.lor w PTE_W) PTE_COW).
Definition pte_mark_user (pte : Z) (enabled : bool) : PM vm unit :=
  if pte =? 0 then ppanic
  else let! w := ld pte in st pte (if enabled then Z.lor w PTE_U else Z.ldiff w PTE_U).

Definition kpage_managed (pa : Z) : PM vm bool := fun s => Some (kpage_is_managed (kk (vmach s)) pa, s).

Definition uvm_release_pte (pte : Z) : PM vm Z :=
  if pte =? 0 then pret (-1)
  else
    let! w := ld pte in
    if negb (flag w PTE_P) then pret 0
    else
      let pa := PTE_ADDR w in
      if pa =? 0 then vbump BAD_PTE_DROPS 1 >>> st pte 0 >>> pret (-2)
      else
        let! m := kpage_managed pa in
        if (pa >=? PHYSTOP) || (pa >=? KERNBASE) || negb m then vbump BAD_PTE_DROPS 1 >>> st pte 0 >>> pret (-2)
        else kfree (P2V pa) >>> st pte 0 >>> pret 1.

(** ** Kernel mappings *)

(** [kmap]: virtual address, physical start and end, permissions. *)
Definition kmap : list (Z * Z * Z * Z) :=
  [(KERNBASE, 0, EXTMEM, PTE_W); (KERNLINK, V2P KERNLINK, V2P data_, 0);
   (data_, V2P data_, PHYSTOP, PTE_W); (DEVSPACE, DEVSPACE, 0, PTE_W)].

(** Stores the directory entries [i], [i+1], ... . *)
Fixpoint share_loop (n : nat) (d i : Z) : PM vm unit :=
  match n with
  | O => pret tt
  | S n => (let! w := vm_kernel_pde_canonical i in st (d + 4 * i) w) >>> share_loop n d (i + 1)
  end.

Fixpoint kmap_loop (l : list (Z * Z * Z * Z)) (d : Z) : PM vm Z :=
  match l with
  | [] => pret 0
  | (virt, ps, pe, perm) :: l =>
      let! r := mappages d virt (pe -u ps) ps perm in
      if r <? 0 then pret (-1) else kmap_loop l d
  end.

(** The loop of [vm_sync_kernel_pdes]: the entries of the master directory and
    of [d] that differ from the reference are repaired; the counts. *)
Fixpoint sync_loop (n : nat) (d i : Z) (master dir : Z) : PM vm (Z * Z) :=
  match n with
  | O => pret (master, dir)
  | S n =>
      let! want := vm_kernel_pde_canonical i in
      let! s := get in
      let! kcur := ld (kpgdir s + 4 * i) in
      let! master :=
        (if negb (vm_pde_stable kcur =? vm_pde_stable want)
         then st (kpgdir s + 4 * i) (vm_pde_merge_runtime_bits kcur want) >>> pret (master + 1)
         else pret master) in
      let! cur := ld (d + 4 * i) in
      let! dir :=
        (if negb (d =? kpgdir s) && negb (vm_pde_stable cur =? vm_pde_stable want)
         then st (d + 4 * i) (vm_pde_merge_runtime_bits cur want) >>> pret (dir + 1)
         else pret dir) in
      sync_loop n d (i + 1) master dir
  end.

Definition vm_sync_kernel_pdes (d : Z) : PM vm unit :=
  let! s := get in
  if (d =? 0) || (kpgdir s =? 0) then pret tt
  else
    vbump SYNC_CALLS 1 >>>
    let span := NPDENTRIES - PDX KERNBASE in
    let full := negb (pde_ref_ready s) || (sync_cursor s mod VM_PDE_SYNC_FULL_INTERVAL =? 0) in
    let start := if full then PDX KERNBASE else PDX KERNBASE + sync_cursor s mod span in
    let end_ := if full then NPDENTRIES else start + 1 in
    (if full then vbump SYNC_FULL_CALLS 1 else pret tt) >>>
    upd (set_cursor (sync_cursor s +u 1)) >>>
    vbump SYNC_ENTRIES (end_ - start) >>>
    let! c := sync_loop (Z.to_nat (end_ - start)) d start 0 0 in
    vbump PDE_MASTER_REPAIRS (fst c) >>> vbump PDE_REPAIRS (snd c).

Fixpoint capture_loop (n : nat) (i : Z) : PM vm unit :=
  match n with
  | O => pret tt
  | S n =>
      (let! s := get in
       let! w := ld (kpgdir s + 4 * i) in
       upd (fun s => set_pde_ref (<[i := w]> (pde_ref s)) (pde_ref_ready s) s)) >>>
      capture_loop n (i + 1)
  end.

Definition vm_capture_kernel_pde_ref : PM vm unit :=
  let! s := get in
  if kpgdir s =? 0 then pret tt
  else capture_loop (Z.to_nat (NPDENTRIES - PDX KERNBASE)) (PDX KERNBASE) >>>
       upd (fun s => set_pde_ref (pde_ref s) true s).

Definition switchkvm : PM vm unit :=
  let! s := get in
  vm_sync_kernel_pdes (kpgdir s) >>> upd (fun s => set_cr3 (V2P (kpgdir s)) (esp0 s) s).

Definition switchuvm (p : option proc) : PM vm unit :=
  match p with
  | None => ppanic
  | Some q =>
      if kstack q =? 0 then ppanic
      else
        let! d := proc_pgdir p in
        if d =? 0 then ppanic
        else vm_sync_kernel_pdes d >>> upd (fun s => set_cr3 (V2P d) (kstack q +u KSTACKSIZE) s)
  end.

(** ** Growing and shrinking *)

(** [vma_expand(as, n)] and [vma_shrink(as, n)], nothing for a null pointer. *)
Definition expand_space (as_ n : Z) : PM vm unit :=
  if as_ =? 0 then pret tt
  else
    let! a := space_at as_ in
    let! s := get in
    match vma_expand (vheap s) (Some a) n with
    | Some (_, h, Some a) => upd (fun s => set_spaces (<[as_ := a]> (spaces s)) h s)
    | _ => ppanic
    end.
Definition shrink_space (as_ n : Z) : PM vm unit :=
  if as_ =? 0 then pret tt
  else
    let! a := space_at as_ in
    match vma_shrink (Some a) n with
    | (_, Some a) => upd (fun s => set_spaces (<[as_ := a]> (spaces s)) (vheap s) s)
    | _ => ppanic
    end.

(** The loop of [deallocuvm_internal].  [fuel] bounds the rounds; one per page
    up to [oldsz] is enough. *)
Fixpoint dealloc_loop (fuel : nat) (d a oldsz : Z) : PM vm unit :=
  if negb (a <? oldsz) then pret tt
  else
    match fuel with
    | O => ppanic
    | S fuel =>
        let! pte := walkpgdir d a false in
        if pte =? 0 then dealloc_loop fuel d (PGADDR (PDX a + 1) 0 0) oldsz
        else
          let! w := ld pte in
          (if flag w PTE_P then
             let! rel := uvm_release_pte pte in
             if (rel <? 0) && negb (rel =? -2) then st pte 0 else pret tt
           else pret tt) >>>
          dealloc_loop fuel d (a +u PGSIZE) oldsz
    end.

Definition pages_to (a b : Z) : nat := Z.to_nat ((b - a + (PGSIZE - 1)) / PGSIZE).

Definition deallocuvm_internal (d as_ oldsz newsz : Z) : PM vm Z :=
  let! d := vm_effective_pgdir d in
  if d =? 0 then ppanic
  else if negb (d mod PGSIZE =? 0) then ppanic
  else if d <? KERNBASE then ppanic
  else
    let! ok := kaddr_writable_current_pgdir d in
    if negb ok then ppanic
    else if newsz >=? oldsz then shrink_space as_ oldsz >>> pret oldsz
    else
      let a := PGROUNDUP newsz in
      dealloc_loop (pages_to a oldsz) d a oldsz >>> shrink_space as_ newsz >>> pret newsz.

(** The loop of [allocuvm_internal]; the result tells whether all the memory
    was there. *)
Fixpoint alloc_loop (fuel : nat) (d as_ a oldsz newsz : Z) : PM vm bool :=
  if negb (a <? newsz) then pret true
  else
    match fuel with
    | O => ppanic
    | S fuel =>
        let! m := kalloc in
        if m =? 0 then deallocuvm_internal d as_ newsz oldsz >>> pret false
        else
          zero_page m >>>
          let! r := mappages d a PGSIZE (V2P m) (Z.lor PTE_W PTE_U) in
          if r <? 0 then deallocuvm_internal d as_ newsz oldsz >>> kfree m >>> pret false
          else alloc_loop fuel d as_ (a +u PGSIZE) oldsz newsz
    end.

Definition allocuvm_internal (d as_ oldsz newsz : Z) : PM vm Z :=
  let! d := vm_effective_pgdir d in
  if newsz >=? KERNBASE then pret 0
  else if newsz <? oldsz then pret oldsz
  else
    let a := PGROUNDUP oldsz in
    let! ok := alloc_loop (pages_to a newsz) d as_ a oldsz newsz in
    if ok then expand_space as_ newsz >>> pret newsz else pret 0.

Definition allocuvm (d oldsz newsz : Z) : PM vm Z :=
  let! as_ := vm_current_addrspace_for_pgdir d in allocuvm_internal d as_ oldsz newsz.
Definition deallocuvm (d oldsz newsz : Z) : PM vm Z :=
  let! as_ := vm_current_addrspace_for_pgdir d in deallocuvm_internal d as_ oldsz newsz.

Definition allocuvm_as (as_ oldsz newsz : Z) : PM vm Z :=
  if as_ =? 0 then pret 0
  else let! a := space_at as_ in
       if pgdir a =? 0 then pret 0 else allocuvm_internal (pgdir a) as_ oldsz newsz.
Definition deallocuvm_as (as_ oldsz newsz : Z) : PM vm Z :=
  if as_ =? 0 then pret 0
  else let! a := space_at as_ in
       if pgdir a =? 0 then pret 0 else deallocuvm_internal (pgdir a) as_ oldsz newsz.

(** The loop of [freevm] over the user half of the directory. *)
Fixpoint free_tables (n : nat) (d i : Z) : PM vm unit :=
  match n with
  | O => pret tt
  | S n =>
      (let! w := ld (d + 4 * i) in
       if flag w PTE_P then
         let pa := PTE_ADDR w in
         if bad_pa pa then st (d + 4 * i) 0
         else kfree (P2V pa) >>> st (d + 4 * i) 0
       else pret tt) >>>
      free_tables n d (i + 1)
  end.

Definition freevm (d : Z) : PM vm unit :=
  if d =? 0 then ppanic
  else deallocuvm d KERNBASE 0 >>> free_tables (Z.to_nat (PDX KERNBASE)) d 0 >>> kfree d.

(** The directory, 0 for none; [as->pgdir] is set by the caller. *)
Definition setupkvm : PM vm Z :=
  let! d := kalloc in
  if d =? 0 then pret 0
  else
    zero_page d >>>
    let! s := get in
    if negb (kpgdir s =? 0) then
      share_loop (Z.to_nat (NPDENTRIES - PDX KERNBASE)) d (PDX KERNBASE) >>> pret d
    else if P2V PHYSTOP >? DEVSPACE then ppanic
    else
      let! r := kmap_loop kmap d in
      if r <? 0 then freevm d >>> pret 0 else pret d.

Definition setupkvm_as (as_ : Z) : PM vm Z :=
  if as_ =? 0 then pret (-1)
  else
    let! d := setupkvm in
    if d =? 0 then pret (-1)
    else
      let! a := space_at as_ in
      upd (fun s => set_spaces (<[as_ := set_pgdir d (owns_pgdir a) (transitional a) a]> (spaces s)) (vheap s) s) >>>
      pret 0.

Definition kvmalloc : PM vm unit :=
  let! d := setupkvm in
  upd (set_kpgdir d) >>> vm_capture_kernel_pde_ref >>> switchkvm.

(** The state of a user page: 0 not present, 1 present but not user, 2 user. *)
Definition user_page_state (d uva : Z) : PM vm Z :=
  let! pte := walkpgdir d uva false in
  if pte =? 0 then pret 0
  else
    let! w := ld pte in
    if negb (flag w PTE_P) then pret 0
    else pte_assert_sane w >>> pret (if pte_is_user w then 2 else 1).

Definition vm_map_zerofill_page (as_ va : Z) (writable : bool) : PM vm Z :=
  if as_ =? 0 then pret (-1)
  else
    let! a := space_at as_ in
    if pgdir a =? 0 then pret (-1)
    else if negb (va mod PGSIZE =? 0) || (va >=? KERNBASE) then pret (-1)
    else
      let! st := user_page_state (pgdir a) va in
      if negb (st =? 0) then pret (-1)
      else
        let! m := kalloc in
        if m =? 0 then pret (-1)
        else
          zero_page m >>>
          let perm := if writable then Z.lor PTE_U PTE_W else PTE_U in
          let! r := mappages (pgdir a) va PGSIZE (V2P m) perm in
          if r <? 0 then kfree m >>> pret (-1) else pret 0.

(** Code that only boot runs: the first user page. *)
Definition inituvm_as (as_ : Z) (init : list Z) : PM vm unit :=
  if as_ =? 0 then ppanic
  else
    let! a := space_at as_ in
    if pgdir a =? 0 then ppanic
    else
      let! d := vm_effective_pgdir (pgdir a) in
      if d =? 0 then ppanic
      else if len init >=? PGSIZE then ppanic
      else
        let! m := kalloc in
        zero_page m >>>
        mappages d 0 PGSIZE (V2P m) (Z.lor PTE_W PTE_U) >>>
        put_bytes m init >>>
        expand_space as_ PGSIZE.

Definition clearpteu (d uva : Z) : PM vm unit :=
  let! pte := walkpgdir d uva false in
  if pte =? 0 then ppanic
  else let! w := ld pte in pte_assert_sane w >>> pte_mark_user pte false.
Definition setpteu (d uva : Z) : PM vm unit :=
  let! pte := walkpgdir d uva false in
  if pte =? 0 then ppanic
  else let! w := ld pte in pte_assert_sane w >>> pte_mark_user pte true.

(** ** Copy on write *)

Definition install_cow_mapping (pa child va flags_ : Z) : PM vm Z :=
  if (pa =? 0) || (child =? 0) then pret (-1)
  else
    let cow_flags := Z.ldiff (Z.lor flags_ PTE_COW) PTE_W in
    kpage_incref pa >>>
    let! r := mappages child va PGSIZE pa cow_flags in
    if r <? 0 then kfree (P2V pa) >>> pret (-1)
    else vbump COW_CREATED 1 >>> pret 0.

(** One page of the first loop of [copyuvm_internal]; false is [goto bad]. *)
Definition copy_page (src d i : Z) : PM vm bool :=
  let! pte := walkpgdir src i false in
  if pte =? 0 then pret true
  else
    let! w := ld pte in
    if negb (flag w PTE_P) then pret true
    else
      pte_assert_sane w >>>
      let pa := PTE_ADDR w in
      let flags_ := PTE_FLAGS w in
      let! m := kpage_managed pa in
      if flag flags_ PTE_U && m then
        if flag flags_ PTE_W then
          let! r := install_cow_mapping pa d i flags_ in pret (negb (r <? 0))
        else
          kpage_incref pa >>>
          let! r := mappages d i PGSIZE pa flags_ in
          if r <? 0 then kfree (P2V pa) >>> pret false else pret true
      else
        let! mm := kalloc in
        if mm =? 0 then pret false
        else
          copy_bytes mm (P2V pa) PGSIZE >>>
          let! r := mappages d i PGSIZE (V2P mm) flags_ in
          if r <? 0 then kfree mm >>> pret false else pret true.

Fixpoint copy_loop (n : nat) (src d i : Z) : PM vm bool :=
  match n with
  | O => pret true
  | S n =>
      let! ok := copy_page src d i in
      if ok then copy_loop n src d (i +u PGSIZE) else pret false
  end.

(** One page of the second loop: the parent's entry is write-protected. *)
Definition protect_page (src i : Z) : PM vm unit :=
  let! pte := walkpgdir src i false in
  if pte =? 0 then pret tt
  else
    let! w := ld pte in
    if negb (flag w PTE_P) then pret tt
    else
      let! m := kpage_managed (PTE_ADDR w) in
      if flag w PTE_U && flag w PTE_W && m then pte_mark_cow pte else pret tt.

Fixpoint protect_loop (n : nat) (src i : Z) : PM vm unit :=
  match n with
  | O => pret tt
  | S n => protect_page src i >>> protect_loop n src (i +u PGSIZE)
  end.

(** [copyuvm_internal(as->pgdir, as, sz)]; the loops run once per page below
    [sz]. *)
Definition copyuvm_internal (src sz : Z) : PM vm Z :=
  let! d := setupkvm in
  if d =? 0 then pret 0
  else
    let! ok := copy_loop (pages_to 0 sz) src d 0 in
    if ok then protect_loop (pages_to 0 sz) src 0 >>> pret d
    else freevm d >>> pret 0.

Definition copyuvm_as (as_ sz : Z) : PM vm Z :=
  if as_ =? 0 then pret 0
  else let! a := space_at as_ in
       if pgdir a =? 0 then pret 0 else copyuvm_internal (pgdir a) sz.

Definition cow_fault (d va : Z) : PM vm Z :=
  let va := PGROUNDDOWN va in
  let! pte := vm_lookup_pte d va in
  if pte =? 0 then pret (-1)
  else
    let! w := ld pte in
    if negb (flag w PTE_P) then pret (-1)
    else if negb (pte_is_cow w) then pret (-1)
    else
      let pa := PTE_ADDR w in
      if pa =? 0 then pret (-1)
      else
        let flags_ := PTE_FLAGS w in
        let! s := get in
        if kpage_refcount (kk (vmach s)) pa >? 1 then
          let! m := kalloc in
          if m =? 0 then pret (-1)
          else
            copy_bytes m (P2V pa) PGSIZE >>>
            let! r := uvm_release_pte pte in
            if r <? 0 then kfree m >>> pret (-1)
            else
              let flags_ := Z.lor (Z.ldiff flags_ PTE_COW) PTE_W in
              st pte (Z.lor (Z.lor (V2P m) flags_) PTE_P) >>>
              vm_tlb_flush d >>> pret 0
        else pte_mark_writable pte >>> vm_tlb_flush d >>> pret 0.

(** ** Access to user memory *)

(** A kernel address, 0 for none. *)
Definition uva2ka (d uva : Z) : PM vm Z :=
  let! d := vm_effective_pgdir d in
  let! ok := vm_addrspace_allows_user_va d uva in
  if negb ok then pret 0
  else
    let! pte := walkpgdir d uva false in
    if pte =? 0 then pret 0
    else
      let! w := ld pte in
      pte_assert_sane w >>>
      pret (if negb (flag w PTE_P) then 0
            else if negb (pte_is_user w) then 0
            else if negb (pte_pa_valid w) then 0
            else P2V (PTE_ADDR w)).

Definition copyout_resolve_zerofill (d va0 : Z) : PM vm Z :=
  let! as_ := vm_current_addrspace_for_pgdir d in
  if as_ =? 0 then pret (-1)
  else
    let! a := space_at as_ in
    match vma_find (Some a) va0 with
    | None => pret (-1)
    | Some i =>
        match live a !! i with
        | None => pret (-1)
        | Some v =>
            if negb (flag (vflags v) VMA_ZEROFILL) then pret (-1)
            else if negb (flag (vflags v) VMA_WRITE) then pret (-1)
            else if negb (vinode v =? 0) then pret (-1)
            else
              let! r := vm_map_zerofill_page as_ va0 true in
              if r <? 0 then pret (-1) else vm_tlb_flush d >>> pret 0
        end
    end.

(** The entry that maps [va0] for writing: its value, or [None] where
    [copyout] returns -1. *)
Definition writable_entry (d va0 : Z) : PM vm (option Z) :=
  let! pte := walkpgdir d va0 false in
  let! w := (if pte =? 0 then pret 0 else ld pte) in
  let! w :=
    (if (pte =? 0) || negb (flag w PTE_P) then
       let! r := copyout_resolve_zerofill d va0 in
       if r <? 0 then pret None
       else
         let! pte := walkpgdir d va0 false in
         if pte =? 0 then pret None
         else let! w := ld pte in pret (if flag w PTE_P then Some w else None)
     else pret (Some w)) in
  match w with
  | None => pret None
  | Some w =>
      pte_assert_sane w >>>
      if negb (pte_is_user w) then pret None
      else if negb (pte_pa_valid w) then pret None
      else if negb (pte_is_writable w) then
        if pte_is_cow w then
          let! r := cow_fault d va0 in
          if r <? 0 then pret None
          else
            let! pte := walkpgdir d va0 false in
            if pte =? 0 then pret None
            else
              let! w := ld pte in
              if negb (flag w PTE_P) then pret None
              else
                pte_assert_sane w >>>
                pret (if negb (pte_is_user w) || negb (pte_is_writable w) then None
                      else if negb (pte_pa_valid w) then None else Some w)
        else pret None
      else pret (Some w)
  end.

(** The loops of [copyout] and [copyin]: every round but the first and the
    last moves a page, so [len / PGSIZE + 2] rounds do. *)
Fixpoint copyout_loop (fuel : nat) (d va : Z) (buf : list Z) : PM vm Z :=
  if len buf =? 0 then pret 0
  else
    match fuel with
    | O => ppanic
    | S fuel =>
        let va0 := PGROUNDDOWN va in
        let! ok := vm_addrspace_allows_user_va d va0 in
        if negb ok then pret (-1)
        else
          let! w := writable_entry d va0 in
          match w with
          | None => pret (-1)
          | Some w =>
              let pa0 := P2V (PTE_ADDR w) in
              if pa0 =? 0 then pret (-1)
              else
                let n := PGSIZE - (va - va0) in
                let n := if n >? len buf then len buf else n in
                put_bytes (pa0 + (va - va0)) (take (Z.to_nat n) buf) >>>
                copyout_loop fuel d (va0 +u PGSIZE) (drop (Z.to_nat n) buf)
          end
    end.

Definition copyout (d va : Z) (buf : list Z) : PM vm Z :=
  let! d := vm_effective_pgdir d in
  copyout_loop (Z.to_nat (len buf / PGSIZE + 2)) d va buf.

(** The bytes read so far, in order, with the return value. *)
Fixpoint copyin_loop (fuel : nat) (d va n : Z) (acc : list Z) : PM vm (Z * list Z) :=
  if n =? 0 then pret (0, acc)
  else
    match fuel with
    | O => ppanic
    | S fuel =>
        let va0 := PGROUNDDOWN va in
        let! ok := vm_addrspace_allows_user_va d va0 in
        if negb ok then pret (-1, acc)
        else
          let! pa0 := uva2ka d va0 in
          if pa0 =? 0 then pret (-1, acc)
          else
            let k := PGSIZE - (va - va0) in
            let k := if k >? n then n else k in
            let! s := get in
            copyin_loop fuel d (va0 +u PGSIZE) (n - k) (acc ++ read_bytes (mem (vmach s)) (pa0 + (va - va0)) k)
    end.

Definition copyin (d va n : Z) : PM vm (Z * list Z) :=
  let! d := vm_effective_pgdir d in
  copyin_loop (Z.to_nat (n / PGSIZE + 2)) d va n [].

(** ** Page faults *)

(** [p->stack_bot = v] and [p->sig_pending |= v] for the current process. *)
Definition set_stack_bot (v : Z) (p : proc) : proc :=
  mkProc (pstate p) (addrsp p) (kstack p) (stack_top p) v (sig_pending p).
Definition add_pending (v : Z) (p : proc) : proc :=
  mkProc (pstate p) (addrsp p) (kstack p) (stack_top p) (stack_bot p) (Z.lor (sig_pending p) v).

(** The loop of [proc_try_grow_stack] for the current process; it goes down one
    page per round. *)
Fixpoint grow_loop (fuel : nat) (q : proc) (target : Z) : PM vm bool :=
  if negb (stack_bot q >? target) then switchuvm (Some q) >>> pret true
  else
    match fuel with
    | O => ppanic
    | S fuel =>
        let guard := stack_bot q -u PGSIZE in
        if (stack_top q -u stack_bot q) / PGSIZE >=? USER_STACK_MAX_PAGES then pret false
        else
          let! d := proc_pgdir (Some q) in
          let! pst := user_page_state d guard in
          let! ok :=
            (if pst =? 1 then setpteu d guard >>> pret true
             else if pst =? 0 then
               let! r := (if negb (addrsp q =? 0) then allocuvm_as (addrsp q) guard (guard +u PGSIZE)
                          else allocuvm d guard (guard +u PGSIZE)) in
               pret (negb (r =? 0))
             else pret false) in
          if negb ok then pret false
          else
            let q := set_stack_bot guard q in
            upd (set_curproc (Some q)) >>> grow_loop fuel q target
    end.

Definition proc_try_grow_stack (q : proc) (fault_addr : Z) : PM vm bool :=
  if (stack_top q =? 0) || (stack_bot q =? 0) then pret false
  else if stack_bot q >=? stack_top q then pret false
  else if fault_addr >=? stack_bot q then pret false
  else if fault_addr <? (stack_top q -u USER_STACK_MAX_PAGES * PGSIZE) then pret false
  else grow_loop (pages_to (PGROUNDDOWN fault_addr) (stack_bot q)) q (PGROUNDDOWN fault_addr).

(** [err]: the error code of the trap. *)
Definition vm_fault_is_user_write_protect (err : Z) : bool := Z.land err 3 =? 3.
Definition vm_fault_is_user_not_present (err : Z) : bool := Z.land err 5 =? 4.

Definition fault_demand_zero (q : proc) (fault_addr : Z) : PM vm Z :=
  if addrsp q =? 0 then pret (-1)
  else
    let va := PGROUNDDOWN fault_addr in
    let! a := space_at (addrsp q) in
    match vma_find (Some a) va with
    | None => pret (-1)
    | Some i =>
        match live a !! i with
        | None => pret (-1)
        | Some v =>
            if negb (flag (vflags v) VMA_ZEROFILL) then pret (-1)
            else if negb (vinode v =? 0) then pret (-1)
            else
              let! d := proc_pgdir (Some q) in
              let! pte := vm_lookup_pte d va in
              let! w := (if pte =? 0 then pret 0 else ld pte) in
              if negb (pte =? 0) && flag w PTE_P then pret (-1)
              else
                let! r := vm_map_zerofill_page (addrsp q) va (flag (vflags v) VMA_WRITE) in
                if r <? 0 then pret (-1)
                else vm_tlb_flush d >>> pret 0
        end
    end.

Definition vm_handle_fault (err fault_addr : Z) : PM vm Z :=
  let! p := myproc in
  match p with
  | None => pret (-1)
  | Some q =>
      vbump FAULT_DISPATCHES 1 >>>
      let! cow :=
        (if vm_fault_is_user_write_protect err then
           let! d := proc_pgdir p in
           let! r := cow_fault d fault_addr in pret (r =? 0)
         else pret false) in
      if cow then vbump FAULT_COW 1 >>> pret 0
      else
        let! grown := proc_try_grow_stack q fault_addr in
        if grown then vbump FAULT_STACK 1 >>> pret 0
        else
          let! zero :=
            (if vm_fault_is_user_not_present err then
               let! r := fault_demand_zero q fault_addr in pret (r =? 0)
             else pret false) in
          if zero then vbump FAULT_ZERO 1 >>> pret 0
          else
            upd (fun s => set_curproc (add_pending SIGSEGV_BIT <$> curproc s) s) >>>
            vbump FAULT_SEGV 1 >>> pret (-1)
  end.
End Ops.
