(* ===== verification/VmSpace.v ===== *)
(** * The invariant of the page tables

    Every page in use by the code of [Vm] has one role: a directory, the table
    of one directory slot, a page of user memory with the set of entries that
    map it, or part of the kernel's own tables.  [vm_ok] says that the words in
    memory, the reference counts and the roles agree; the lemmas show how each
    change of an entry and each page operation changes the roles. *)

From S2P Require Import Prelude NetBytes Vma Kalloc ByteMem Kmalloc Vm.

(** ** Addresses and entries *)

Lemma land_high w : Z.land w 4294963200 = (w mod 4294967296) - w mod 4096.
Proof.
  assert (E : Z.land w 4294963200 = Z.shiftl (Z.shiftr (w mod 2 ^ 32) 12) 12).
  { apply Z.bits_inj'. intros n Hn. rewrite Z.land_spec.
    change 4294963200 with (Z.shiftl (Z.ones 20) 12).
    destruct (Z.lt_ge_cases n 12).
    - rewrite !Z.shiftl_spec_low by lia. apply andb_false_r.
    - rewrite !Z.shiftl_spec_high, Z.shiftr_spec by lia. replace (n - 12 + 12) with n by lia.
      destruct (Z.lt_ge_cases n 32).
      + rewrite Z.ones_spec_low, Z.mod_pow2_bits_low, andb_true_r by lia. done.
      + rewrite Z.ones_spec_high, Z.mod_pow2_bits_high, andb_false_r by lia. done. }
  rewrite E, Z.shiftl_mul_pow2, Z.shiftr_div_pow2 by lia.
  change (2 ^ 32) with 4294967296. change (2 ^ 12) with 4096. mlia.
Qed.

Lemma land_low w : Z.land w 4095 = w mod 4096.
Proof. change 4095 with (Z.ones 12). rewrite Z.land_ones by lia. done. Qed.

Lemma PTE_ADDR_spec w : is_u32 w -> PTE_ADDR w = w - w mod 4096.
Proof. unfold is_u32. intros. unfold PTE_ADDR. rewrite land_high, Z.mod_small by lia. done. Qed.
Lemma PGROUNDDOWN_spec a : is_u32 a -> PGROUNDDOWN a = a - a mod 4096.
Proof. unfold is_u32. intros. unfold PGROUNDDOWN. rewrite land_high, Z.mod_small by lia. done. Qed.

Lemma PDX_spec va : PDX va = (va / 4194304) mod 1024.
Proof.
  unfold PDX, PDXSHIFT. change 1023 with (Z.ones 10). rewrite Z.land_ones, Z.shiftr_div_pow2 by lia. done.
Qed.
Lemma PTX_spec va : PTX va = (va / 4096) mod 1024.
Proof.
  unfold PTX, PTXSHIFT. change 1023 with (Z.ones 10). rewrite Z.land_ones, Z.shiftr_div_pow2 by lia. done.
Qed.

(** The number of user pages of an address space. *)
Definition NUSER : Z := 524288.

Lemma page_index v va : 0 <= v < NUSER -> v * 4096 <= va < v * 4096 + 4096 ->
  PDX va = v / 1024 /\ PTX va = v mod 1024 /\ 0 <= v / 1024 < 512 /\ 0 <= v mod 1024 < 1024.
Proof. unfold NUSER. intros. rewrite PDX_spec, PTX_spec. mlia. Qed.

Lemma flag_P w : flag w PTE_P = Z.testbit w 0. Proof. apply (flag_bit w 0). lia. Qed.
Lemma flag_W w : flag w PTE_W = Z.testbit w 1. Proof. apply (flag_bit w 1). lia. Qed.
Lemma flag_U w : flag w PTE_U = Z.testbit w 2. Proof. apply (flag_bit w 2). lia. Qed.
Lemma flag_COW w : flag w PTE_COW = Z.testbit w 9. Proof. apply (flag_bit w 9). lia. Qed.
Lemma flag_zero m : flag 0 m = false. Proof. done. Qed.

(** An entry is an address with flags. *)
Lemma lor_add pa f : pa mod 4096 = 0 -> 0 <= f < 4096 -> Z.lor pa f = pa + f.
Proof.
  intros Hp Hf. rewrite <- (Z.add_lor_land pa f). enough (E : Z.land pa f = 0) by (rewrite E; lia).
  apply Z.bits_inj'. intros n Hn. rewrite Z.land_spec, Z.bits_0. destruct (Z.lt_ge_cases n 12).
  - rewrite <- (Z.mod_pow2_bits_low pa 12) by lia. change (2 ^ 12) with 4096. by rewrite Hp, Z.bits_0.
  - rewrite <- (Z.mod_small f 4096) by lia. change 4096 with (2 ^ 12).
    rewrite (Z.mod_pow2_bits_high f) by lia. apply andb_false_r.
Qed.

Lemma lor_flags a b : 0 <= a < 4096 -> 0 <= b < 4096 -> 0 <= Z.lor a b < 4096.
Proof.
  intros. assert (0 <= Z.lor a b) by (apply Z.lor_nonneg; lia).
  split; [done|]. apply Z.log2_lt_cancel. rewrite Z.log2_lor by lia. change (Z.log2 4096) with 12.
  apply Z.max_lub_lt; [destruct (decide (a = 0)) as [->|]|destruct (decide (b = 0)) as [->|]]; try (cbn; lia);
    (apply Z.log2_lt_pow2; [lia|]); change (2 ^ 12) with 4096; lia.
Qed.
Lemma ldiff_flags a b : 0 <= a < 4096 -> 0 <= Z.ldiff a b < 4096.
Proof.
  intros. assert (E : Z.ldiff a b = Z.ldiff a b mod 2 ^ 12).
  { apply Z.bits_inj'. intros n Hn. rewrite Z.ldiff_spec. destruct (Z.lt_ge_cases n 12).
    - by rewrite Z.mod_pow2_bits_low, Z.ldiff_spec by lia.
    - rewrite Z.mod_pow2_bits_high by lia. rewrite <- (Z.mod_small a (2 ^ 12)) by (change (2 ^ 12) with 4096; lia).
      by rewrite Z.mod_pow2_bits_high. }
  rewrite E. change (2 ^ 12) with 4096. apply Z.mod_pos_bound. lia.
Qed.

Lemma entry_addr pa f : is_u32 pa -> pa mod 4096 = 0 -> 0 <= f < 4096 ->
  is_u32 (Z.lor pa f) /\ PTE_ADDR (Z.lor pa f) = pa /\ PTE_FLAGS (Z.lor pa f) = f.
Proof.
  intros Hu Ha Hf. rewrite lor_add by done. unfold is_u32 in *.
  assert (Hr : 0 <= pa + f < 4294967296) by mlia. split; [done|]. split.
  - rewrite PTE_ADDR_spec by done. mlia.
  - unfold PTE_FLAGS. rewrite land_low. mlia.
Qed.

(** A change of the low bits keeps the address. *)
Lemma low_change w w' : is_u32 w ->
  (forall n, 12 <= n -> Z.testbit w' n = Z.testbit w n) -> 0 <= w' -> is_u32 w' /\ PTE_ADDR w' = PTE_ADDR w.
Proof.
  intros Hw H Hn. assert (E : w' / 4096 = w / 4096).
  { change 4096 with (2 ^ 12). rewrite <- !Z.shiftr_div_pow2 by lia. apply Z.bits_inj'. intros n Hn'.
    rewrite !Z.shiftr_spec by lia. apply H. lia. }
  assert (Hu : is_u32 w') by (unfold is_u32 in *; mlia). split; [done|].
  rewrite !PTE_ADDR_spec by done. mlia.
Qed.

(** ** Words of memory *)

Definition word (m : Z -> Z) (p j : Z) : Z := load32 m (p + 4 * j).

(** Two memories agree on a page. *)
Definition agree (p : Z) (m m' : Z -> Z) : Prop := forall a, p <= a < p + PGSIZE -> m' a = m a.
Definition bytes_ok (m : Z -> Z) : Prop := forall a, is_u8 (m a).
Definition aligned (p : Z) : Prop := p mod PGSIZE = 0.

Lemma word_agree m m' p j : agree p m m' -> 0 <= j < 1024 -> word m' p j = word m p j.
Proof. intros H Hj. apply load_ext. intros x Hx. apply H. unfold PGSIZE. lia. Qed.

Lemma word_u32 m p j : bytes_ok m -> is_u32 (word m p j).
Proof.
  intros H. unfold word, load32, read_bytes. cbn [Z.to_nat Pos.to_nat Pos.iter_op Nat.add seq fmap list_fmap rd32].
  pose proof (H (p + 4 * j + Z.of_nat 0)). pose proof (H (p + 4 * j + Z.of_nat 1)).
  pose proof (H (p + 4 * j + Z.of_nat 2)). pose proof (H (p + 4 * j + Z.of_nat 3)).
  change (seq 0 (Z.to_nat 4)) with [0;1;2;3]%nat. cbn [fmap list_fmap rd32]. unfold is_u8, is_u32 in *. lia.
Qed.

Lemma write_agree m p l q : aligned p -> aligned q -> p <> q -> forall o, 0 <= o -> o + len l <= PGSIZE ->
  agree q m (write_bytes m (p + o) l).
Proof.
  unfold aligned. intros Hp Hq Hne o Ho Hl a Ha. apply write_other. unfold PGSIZE in *. pose proof (len_nonneg l).
  intros ?. assert (p / 4096 = q / 4096) by mlia. apply Hne. mlia.
Qed.

Lemma store_agree m p j v q : aligned p -> aligned q -> p <> q -> 0 <= j < 1024 ->
  agree q m (store32 m (p + 4 * j) v).
Proof. intros. apply write_agree; try done; [lia|]. change (len (le32 v)) with 4. unfold PGSIZE. lia. Qed.

Lemma word_store m p j q k v : aligned p -> aligned q -> 0 <= j < 1024 -> 0 <= k < 1024 -> is_u32 v ->
  word (store32 m (p + 4 * j) v) q k = if decide (p = q /\ j = k) then v else word m q k.
Proof.
  intros Hp Hq Hj Hk Hv. case_decide as Hd.
  - destruct Hd as [-> ->]. by apply load_store.
  - destruct (decide (p = q)) as [->|Hne].
    + apply load_ext. intros x Hx. apply store_other. assert (j <> k) by tauto. lia.
    + apply word_agree; [by apply store_agree|done].
Qed.

Lemma bytes_write m a l : bytes_ok m -> Forall is_u8 l -> bytes_ok (write_bytes m a l).
Proof.
  intros Hm Hl x. unfold write_bytes. case_match; [|done].
  destruct (nth_in_or_default (Z.to_nat (x - a)) l 0) as [H'| ->]; [|unfold is_u8; lia].
  rewrite Forall_forall in Hl. apply Hl. by apply list_elem_of_In.
Qed.
Lemma bytes_store m a v : bytes_ok m -> bytes_ok (store32 m a v).
Proof.
  intros. apply bytes_write; [done|]. unfold le32. repeat constructor; apply byte_of_range.
Qed.
Lemma bytes_read m a n : bytes_ok m -> Forall is_u8 (read_bytes m a n).
Proof.
  intros H. unfold read_bytes. apply Forall_forall. intros x Hx. apply list_elem_of_fmap in Hx as (i & -> & _). apply H.
Qed.

Lemma zeroed_word m p j : aligned p -> 0 <= j < 1024 -> word (write_bytes m p (replicate 4096 0)) p j = 0.
Proof.
  intros Hp Hj. unfold word, load32, read_bytes. change (seq 0 (Z.to_nat 4)) with [0;1;2;3]%nat. cbn [fmap list_fmap rd32].
  assert (E : forall i, 0 <= i < 4 -> write_bytes m p (replicate 4096 0) (p + 4 * j + i) = 0).
  { intros i Hi. replace (p + 4 * j + i) with (p + Z.of_nat (Z.to_nat (4 * j + i))) by lia.
    apply write_in. apply lookup_replicate_2. lia. }
  rewrite !E by lia. done.
Qed.

(** ** Roles *)

(** [RUser M x]: a page of memory that the entries in [M] (directory and page
    number) map, with [x] further references held by running code. *)
Inductive role := RDir | RTab (d i : Z) | RUser (M : gset (Z * Z)) (x : Z) | RKern.

Definition rcount (r : role) : Z := match r with RUser M x => Z.of_nat (size M) + x | _ => 1 end.

(** The entry for page [v] of directory [d], 0 where there is no table. *)
Definition pte (m : Z -> Z) (d v : Z) : Z :=
  let w := word m d (v / 1024) in
  if flag w PTE_P then word m (P2V (PTE_ADDR w)) (v mod 1024) else 0.

Record dirs_ok (own : gmap Z role) (m : Z -> Z) : Prop := {
  do_tab t d i : own !! t = Some (RTab d i) ->
    own !! d = Some RDir /\ 0 <= i < 512 /\ flag (word m d i) PTE_P = true /\ PTE_ADDR (word m d i) = V2P t;
  do_pde d i : own !! d = Some RDir -> 0 <= i < 512 -> flag (word m d i) PTE_P = true ->
    exists t, own !! t = Some (RTab d i)
}.

(** The user half as a function of directory and page number.  A writable
    entry is the only one of its page, up to those of the directory [G]. *)
Record map_ok (own : gmap Z role) (G : option Z) (f : Z -> Z -> Z) : Prop := {
  mo_user p M x d v : own !! p = Some (RUser M x) -> (d, v) ∈ M ->
    own !! d = Some RDir /\ 0 <= v < NUSER /\ flag (f d v) PTE_P = true /\ PTE_ADDR (f d v) = V2P p;
  mo_pte d v : own !! d = Some RDir -> 0 <= v < NUSER -> flag (f d v) PTE_P = true ->
    exists p M x, own !! p = Some (RUser M x) /\ (d, v) ∈ M;
  mo_excl p M x d v d' v' : own !! p = Some (RUser M x) -> (d, v) ∈ M -> (d', v') ∈ M ->
    flag (f d v) PTE_W = true -> (d', v') = (d, v) \/ G = Some d';
  mo_sane d v : own !! d = Some RDir -> 0 <= v < NUSER -> flag (f d v) PTE_P = true ->
    flag (f d v) PTE_COW && flag (f d v) PTE_W = false;
  mo_u32 d v : own !! d = Some RDir -> 0 <= v < NUSER -> is_u32 (f d v)
}.

(** ** Changes of the user half *)

Definition own_inj (own : gmap Z role) : Prop := forall p q r r',
  own !! p = Some r -> own !! q = Some r' -> V2P p = V2P q -> p = q.

(** The page [p] gets the mappers [M] and [x] further references; without any
    it leaves the roles. *)
Definition put_role (p : Z) (M : gset (Z * Z)) (x : Z) (own : gmap Z role) : gmap Z role :=
  if decide (Z.of_nat (size M) + x = 0) then delete p own else <[p := RUser M x]> own.

Lemma put_role_inv p M x own q r : put_role p M x own !! q = Some r ->
  (q = p /\ r = RUser M x) \/ (q <> p /\ own !! q = Some r).
Proof.
  unfold put_role. case_decide; [rewrite lookup_delete_Some|rewrite lookup_insert_Some]; naive_solver.
Qed.
Lemma put_role_ne p M x own q : q <> p -> put_role p M x own !! q = own !! q.
Proof. intros. unfold put_role. case_decide; [by apply lookup_delete_ne|by apply lookup_insert_ne]. Qed.
Lemma put_role_eq p M x own y : 0 <= x -> y ∈ M -> put_role p M x own !! p = Some (RUser M x).
Proof.
  intros Hx Hy. unfold put_role. rewrite decide_False; [apply lookup_insert_eq|].
  enough (size M <> 0%nat) by lia. intros E%size_empty_inv. set_solver.
Qed.
Lemma put_role_insert p M x own : 0 < Z.of_nat (size M) + x -> put_role p M x own = <[p := RUser M x]> own.
Proof. intros. unfold put_role. by rewrite decide_False by lia. Qed.

(** Changing a page of user memory leaves the directories alone. *)
Lemma put_role_dir p M x own M0 x0 d : own !! p = Some (RUser M0 x0) ->
  put_role p M x own !! d = Some RDir <-> own !! d = Some RDir.
Proof.
  intros Hp. destruct (decide (d = p)) as [->|Hne]; [|by rewrite put_role_ne].
  split; [|congruence]. intros [[_ ?]|[? _]]%put_role_inv; done.
Qed.

Lemma map_ok_ext own G f f' : map_ok own G f ->
  (forall d v, own !! d = Some RDir -> 0 <= v < NUSER -> f' d v = f d v) -> map_ok own G f'.
Proof.
  intros [U P X S W] E. split.
  - intros p M x d v Hp Hin. destruct (U p M x d v Hp Hin) as (Hd & Hv & ? & ?). by rewrite E.
  - intros d v Hd Hv. rewrite E by done. auto.
  - intros p M x d v d' v' Hp Hin Hin'. destruct (U p M x d v Hp Hin) as (Hd & Hv & _). rewrite E by done. eauto.
  - intros d v Hd Hv. rewrite E by done. auto.
  - intros d v Hd Hv. rewrite E by done. auto.
Qed.

(** The function [f'] is [f] with the entry [w] at [(d, v)]. *)
Definition entry_set (own : gmap Z role) (d v w : Z) (f f' : Z -> Z -> Z) : Prop :=
  forall d' v', own !! d' = Some RDir -> 0 <= v' < NUSER ->
    f' d' v' = if decide ((d', v') = (d, v)) then w else f d' v'.

Definition entry_ok (w : Z) : Prop :=
  is_u32 w /\ flag w PTE_P = true /\ flag w PTE_COW && flag w PTE_W = false.

Lemma map_set own G f f' d v w p M x x' :
  map_ok own G f -> own !! p = Some (RUser M x) -> own !! d = Some RDir -> 0 <= v < NUSER ->
  flag (f d v) PTE_P = false -> entry_ok w -> PTE_ADDR w = V2P p -> 0 <= x' ->
  (flag w PTE_W = true -> forall d' v', (d', v') ∈ M -> G = Some d') ->
  (forall d' v', (d', v') ∈ M -> flag (f d' v') PTE_W = true -> G = Some d) ->
  entry_set own d v w f f' ->
  map_ok (put_role p ({[(d, v)]} ∪ M) x' own) G f'.
Proof.
  intros Hm Hp Hd Hv Hf (Hw & HwP & Hws) HA Hx Hx1 Hx2 E.
  assert (Hnew : put_role p ({[(d, v)]} ∪ M) x' own !! p = Some (RUser ({[(d, v)]} ∪ M) x')).
  { apply (put_role_eq _ _ _ _ (d, v)); [done|set_solver]. }
  assert (Hother : forall q M' x'' d' v', own !! q = Some (RUser M' x'') -> (d', v') ∈ M' -> (d', v') <> (d, v)).
  { intros q M' x'' d' v' Hq Hin [= -> ->]. destruct (mo_user _ _ _ Hm _ _ _ _ _ Hq Hin) as (_ & _ & ? & _). congruence. }
  split.
  - intros q M' x'' d' v' Hq Hin. rewrite put_role_dir by done.
    assert (Hc : (d', v') = (d, v) /\ q = p \/ exists M0 x0, own !! q = Some (RUser M0 x0) /\ (d', v') ∈ M0).
    { apply put_role_inv in Hq as [[-> [= -> ->]]|[_ Hq]]; [|by eauto].
      apply elem_of_union in Hin as [Hin%elem_of_singleton|Hin]; [by left|right; by eauto]. }
    destruct Hc as [[[= -> ->] ->]|(M0 & x0 & Hq' & Hin')].
    + rewrite (E d v), decide_True by done. done.
    + destruct (mo_user _ _ _ Hm _ _ _ _ _ Hq' Hin') as (? & ? & ? & ?).
      rewrite (E d' v'), decide_False by (done || by eapply Hother). done.
  - intros d' v' Hd' Hv'. rewrite put_role_dir in Hd' by done. rewrite (E d' v') by done. case_decide as Hc.
    + intros _. exists p, ({[(d, v)]} ∪ M), x'. split; [done|]. set_solver.
    + intros HP. destruct (mo_pte _ _ _ Hm d' v' Hd' Hv' HP) as (q & M' & x'' & Hq & Hin).
      destruct (decide (q = p)) as [->|Hne]; [|exists q, M', x''; by rewrite put_role_ne].
      rewrite Hp in Hq. injection Hq as <- <-. exists p, ({[(d, v)]} ∪ M), x'. split; [done|]. set_solver.
  - intros q M' x'' d1 v1 d2 v2 Hq H1 H2. apply put_role_inv in Hq as [[-> [= -> ->]]|[Hne Hq]].
    + assert (Hd1 : own !! d1 = Some RDir /\ 0 <= v1 < NUSER).
      { apply elem_of_union in H1 as [[= -> ->]%elem_of_singleton|H1]; [done|].
        by destruct (mo_user _ _ _ Hm _ _ _ _ _ Hp H1) as (? & ? & _). }
      rewrite (E d1 v1) by apply Hd1. apply elem_of_union in H1 as [H1%elem_of_singleton|H1].
      * rewrite decide_True by done. intros HW. apply elem_of_union in H2 as [H2%elem_of_singleton|H2]; [left; congruence|].
        right. by eapply Hx1.
      * rewrite decide_False by (by eapply Hother). intros HW.
        apply elem_of_union in H2 as [[= -> ->]%elem_of_singleton|H2]; [right; by eapply Hx2|].
        by eapply (mo_excl _ _ _ Hm).
    + destruct (mo_user _ _ _ Hm _ _ _ _ _ Hq H1) as (? & ? & _).
      rewrite (E d1 v1), decide_False by (done || by eapply Hother). by eapply (mo_excl _ _ _ Hm).
  - intros d' v' Hd' Hv'. rewrite put_role_dir in Hd' by done. rewrite (E d' v') by done. case_decide; [done|].
    by apply (mo_sane _ _ _ Hm).
  - intros d' v' Hd' Hv'. rewrite put_role_dir in Hd' by done. rewrite (E d' v') by done. case_decide; [done|].
    by apply (mo_u32 _ _ _ Hm).
Qed.

(** An entry that is cleared or changed in its flags: [M'] is what remains of
    the mappers. *)
Lemma map_change own G f f' d v w p M x x' (keep : bool) :
  map_ok own G f -> own_inj own -> own !! p = Some (RUser M x) -> (d, v) ∈ M -> 0 <= x' ->
  (if keep then entry_ok w /\ PTE_ADDR w = PTE_ADDR (f d v) /\
                (flag w PTE_W = true -> forall d' v', (d', v') ∈ M -> (d', v') = (d, v) \/ G = Some d')
   else w = 0) ->
  entry_set own d v w f f' ->
  map_ok (put_role p (if keep then M else M ∖ {[(d, v)]}) x' own) G f'.
Proof.
  intros Hm Hinj Hp Hin Hx Hw E.
  destruct (mo_user _ _ _ Hm _ _ _ _ _ Hp Hin) as (Hd & Hv & HP & HA).
  set (M1 := if keep then M else M ∖ {[(d, v)]}).
  assert (Hsub : forall y, y ∈ M1 -> y ∈ M) by (unfold M1; destruct keep; set_solver).
  assert (HM1 : (d, v) ∈ M1 -> keep = true) by (unfold M1; destruct keep; set_solver).
  assert (Hother : forall q M' x'', own !! q = Some (RUser M' x'') -> (d, v) ∈ M' -> q = p).
  { intros q M' x'' Hq Hin'. destruct (mo_user _ _ _ Hm _ _ _ _ _ Hq Hin') as (_ & _ & _ & HA').
    eapply Hinj; [done..|congruence]. }
  split.
  - intros q M' x'' d' v' Hq Hin'. rewrite put_role_dir by done. rewrite (E d' v').
    + apply put_role_inv in Hq as [[-> [= -> ->]]|[Hne Hq]].
      * case_decide as Hc; [|by eapply (mo_user _ _ _ Hm), Hsub].
        injection Hc as -> ->. pose proof (HM1 Hin') as ->. destruct Hw as ((? & ? & ?) & ? & _). split_and!; congruence || lia.
      * rewrite decide_False; [by eapply (mo_user _ _ _ Hm)|]. intros [= -> ->]. by apply Hne, (Hother q M' x'').
    + apply put_role_inv in Hq as [[-> [= -> ->]]|[Hne Hq]]; [apply Hsub in Hin'|]; by eapply (mo_user _ _ _ Hm).
    + apply put_role_inv in Hq as [[-> [= -> ->]]|[Hne Hq]]; [apply Hsub in Hin'|]; by eapply (mo_user _ _ _ Hm).
  - intros d' v' Hd' Hv'. rewrite put_role_dir in Hd' by done. rewrite (E d' v') by done. case_decide as Hc.
    + injection Hc as -> ->. destruct keep; [|subst w; by rewrite flag_zero]. intros _. exists p, M, x'.
      split; [by apply (put_role_eq _ _ _ _ (d, v))|done].
    + intros HP'. destruct (mo_pte _ _ _ Hm d' v' Hd' Hv' HP') as (q & M' & x'' & Hq & Hin').
      destruct (decide (q = p)) as [->|Hne]; [|exists q, M', x''; by rewrite put_role_ne].
      rewrite Hp in Hq. injection Hq as <- <-. exists p, M1, x'.
      assert ((d', v') ∈ M1) by (unfold M1; destruct keep; set_solver). split; [by apply (put_role_eq _ _ _ _ (d', v'))|done].
  - intros q M' x'' d1 v1 d2 v2 Hq H1 H2. apply put_role_inv in Hq as [[-> [= -> ->]]|[Hne Hq]].
    + destruct (mo_user _ _ _ Hm _ _ _ _ _ Hp (Hsub _ H1)) as (? & ? & _). rewrite (E d1 v1) by done.
      case_decide as Hc; [|by eapply (mo_excl _ _ _ Hm); eauto]. injection Hc as -> ->.
      pose proof (HM1 H1) as ->. intros HW. destruct Hw as (_ & _ & Hw). by apply Hw, Hsub.
    + destruct (mo_user _ _ _ Hm _ _ _ _ _ Hq H1) as (? & ? & _). rewrite (E d1 v1), decide_False; [by eapply (mo_excl _ _ _ Hm)| |done..].
      intros [= -> ->]. by apply Hne, (Hother q M' x'').
  - intros d' v' Hd' Hv'. rewrite put_role_dir in Hd' by done. rewrite (E d' v') by done. case_decide; [|by apply (mo_sane _ _ _ Hm)].
    destruct keep; [intros _; apply Hw|subst w; by rewrite flag_zero].
  - intros d' v' Hd' Hv'. rewrite put_role_dir in Hd' by done. rewrite (E d' v') by done. case_decide; [|by apply (mo_u32 _ _ _ Hm)].
    destruct keep; [apply Hw|subst w; done].
Qed.

(** Changes of the roles that no entry depends on: pages without mappers, new
    directories without entries, and directories that have none left. *)
Lemma map_move own own' G f : map_ok own G f ->
  (forall q M x, own' !! q = Some (RUser M x) -> own !! q = Some (RUser M x) \/ M = ∅) ->
  (forall q M x y, own !! q = Some (RUser M x) -> y ∈ M -> own' !! q = Some (RUser M x)) ->
  (forall d, own' !! d = Some RDir -> own !! d = Some RDir \/ forall v, 0 <= v < NUSER -> f d v = 0) ->
  (forall d v, own !! d = Some RDir -> 0 <= v < NUSER -> flag (f d v) PTE_P = true -> own' !! d = Some RDir) ->
  map_ok own' G f.
Proof.
  intros [U P X S W] H1 H2 H3 H4. split.
  - intros p M x d v Hp Hin. destruct (H1 _ _ _ Hp) as [Hp'| ->]; [|set_solver].
    destruct (U p M x d v Hp' Hin) as (Hd & Hv & HP & HA). eauto.
  - intros d v Hd Hv HP. destruct (H3 d Hd) as [Hd'|E]; [|by rewrite E in HP].
    destruct (P d v Hd' Hv HP) as (p & M & x & Hp & Hin). eauto 10.
  - intros p M x d v d' v' Hp Hin. destruct (H1 _ _ _ Hp) as [Hp'| ->]; [eauto|set_solver].
  - intros d v Hd Hv HP. destruct (H3 d Hd) as [Hd'|E]; [eauto|by rewrite E in HP].
  - intros d v Hd Hv. destruct (H3 d Hd) as [Hd'|E]; [eauto|by rewrite E].
Qed.

(** A page that no entry maps. *)
Lemma map_fresh own G f p x : map_ok own G f -> own !! p = None -> map_ok (<[p := RUser ∅ x]> own) G f.
Proof.
  intros Hm Hp. apply (map_move own); [done|..].
  - intros q M y [[_ [= <- _]]|[_ Hq]]%lookup_insert_Some; auto.
  - intros q M y z Hq Hz. rewrite lookup_insert_ne by congruence. done.
  - intros d [[_ ?]|[_ Hd]]%lookup_insert_Some; [done|auto].
  - intros d v Hd _ _. by rewrite lookup_insert_ne by congruence.
Qed.

(** Only the further references change. *)
Lemma map_refs own G f p M x x' : map_ok own G f -> own !! p = Some (RUser M x) -> 0 <= x' ->
  map_ok (put_role p M x' own) G f.
Proof.
  intros [U P X S W] Hp Hx. split.
  - intros q M' y d v [[-> [= -> ->]]|[_ Hq]]%put_role_inv Hin; rewrite put_role_dir by done; eauto.
  - intros d v Hd Hv HP. rewrite put_role_dir in Hd by done. destruct (P d v Hd Hv HP) as (q & M' & y & Hq & Hin).
    destruct (decide (q = p)) as [->|]; [|exists q, M', y; by rewrite put_role_ne].
    exists p, M', x'. split; [|done]. replace M' with M by congruence. apply (put_role_eq _ _ _ _ (d, v)); [done|congruence].
  - intros q M' y d v d' v' [[-> [= -> ->]]|[_ Hq]]%put_role_inv; eauto.
  - intros d v Hd. rewrite put_role_dir in Hd by done. auto.
  - intros d v Hd. rewrite put_role_dir in Hd by done. auto.
Qed.

(** What the kernel image promises: its data and the page metadata lie in the
    direct map. *)
Class KernelImage (end_ meta_base pg_array_addr data_ : Z) : Prop := {
  ki_data : KERNBASE < data_;
  ki_end : data_ <= end_;
  ki_meta : data_ <= meta_base;
  ki_meta_end : meta_base + 8 * NPAGE <= KERNBASE + PHYSTOP;
  ki_desc : 0 < pg_array_addr
}.

(** The reference entry of the kernel half. *)
Definition kref (s : vm) (i : Z) : Z := default 0 (pde_ref s !! i).

(** What no operation on page tables changes. *)
Definition ctl (s s' : vm) : Prop :=
  kpgdir s' = kpgdir s /\ pde_ref s' = pde_ref s /\ pde_ref_ready s' = pde_ref_ready s /\
  curproc s' = curproc s /\ vheap s' = vheap s /\ spaces s' = spaces s.

Lemma ctl_refl s : ctl s s. Proof. done. Qed.
Lemma ctl_trans s1 s2 s3 : ctl s1 s2 -> ctl s2 s3 -> ctl s1 s3.
Proof. unfold ctl. intros (?&?&?&?&?&?) (?&?&?&?&?&?). split_and!; congruence. Qed.

Section Space.
Context {end_ meta_base pg_array_addr data_ : Z} {cpu : nat -> nat}.
Context {KI : KernelImage end_ meta_base pg_array_addr data_}.

Abbreviation page := (Kalloc.page (end_ := end_)).
Abbreviation inv := (Kalloc.inv (end_ := end_)).
Abbreviation kept := (Kalloc.kept (end_ := end_)).
Abbreviation kalloc := (Vm.kalloc end_ meta_base pg_array_addr cpu).
Abbreviation kfree := (Vm.kfree end_ meta_base cpu).
Abbreviation walkpgdir := (Vm.walkpgdir end_ meta_base pg_array_addr cpu).
Abbreviation mappages := (Vm.mappages end_ meta_base pg_array_addr cpu).
Abbreviation bytes s := (mem (vmach s)).

#[local] Instance KM_all : KernelMap end_ (fun _ => true) meta_base.
Proof. split; [|done..]. pose proof ki_data. pose proof ki_end. lia. Qed.

(** The kernel half of every directory is the reference, and the reference
    maps the kernel's data for writing. *)
Record kern_ok (own : gmap Z role) (s : vm) : Prop := {
  ko_ready : pde_ref_ready s = true;
  ko_kpgdir : kpgdir s <> 0 /\ own !! kpgdir s = Some RKern;
  ko_u32 i : is_u32 (kref s i);
  ko_half d i : own !! d = Some RDir \/ d = kpgdir s -> 512 <= i < 1024 ->
    flag (word (bytes s) d i) PTE_P = flag (kref s i) PTE_P /\ PTE_ADDR (word (bytes s) d i) = PTE_ADDR (kref s i);
  ko_map va : data_ <= va < KERNBASE + PHYSTOP ->
    flag (kref s (PDX va)) PTE_P = true /\
    exists t, own !! t = Some RKern /\ PTE_ADDR (kref s (PDX va)) = V2P t /\
      flag (word (bytes s) t (PTX va)) PTE_P = true /\ flag (word (bytes s) t (PTX va)) PTE_W = true /\
      flag (word (bytes s) t (PTX va)) PTE_COW = false;
  ko_cur : match curproc s with
           | None => True
           | Some q => exists a, addrsp q <> 0 /\ spaces s !! addrsp q = Some a /\ own !! pgdir a = Some RDir
           end
}.

(** ** Pages *)

Lemma page_pa p : page p ->
  is_u32 (V2P p) /\ V2P p mod 4096 = 0 /\ bad_pa (V2P p) = false /\ P2V (V2P p) = p /\ aligned p /\
  KERNBASE < p /\ p + PGSIZE <= KERNBASE + PHYSTOP /\ data_ <= p.
Proof.
  intros Hp. destruct (page_spec (KM := KM_all) p Hp) as (Hm & He & E & Hr & _).
  pose proof ki_data. pose proof ki_end. unfold aligned, bad_pa, P2V. rewrite E.
  unfold is_u32, KERNBASE, PHYSTOP, PGSIZE in *.
  rewrite !Z.geb_leb. split_and!; try lia; try mlia.
  rewrite u32_small by (unfold is_u32; lia). lia.
Qed.

Lemma V2P_inj p q : page p -> page q -> V2P p = V2P q -> p = q.
Proof.
  intros Hp Hq E. destruct (page_pa p Hp) as (_ & _ & _ & <- & _). destruct (page_pa q Hq) as (_ & _ & _ & <- & _).
  by rewrite E.
Qed.

(** The reference counts of the pages that have no role here: 0 for free
    pages, and whatever the rest of the kernel holds. *)
Context {F : Z -> Z}.

Definition owned (k : kmem) (p : Z) (r : role) : Prop :=
  page p /\ managed k p = true /\ refs k p = rcount r /\ 1 <= rcount r /\
  match r with RUser _ x => 0 <= x | _ => True end /\ F p = 0.

Record vm_ok (own : gmap Z role) (G : option Z) (s : vm) : Prop := {
  vo_inv : inv (kk (vmach s));
  vo_online : pagealloc_online (vmach s) = true -> pg_ready (kk (vmach s)) = true;
  vo_cpu i : cpu_ok (kk (vmach s)) (cpu i);
  vo_bytes : bytes_ok (bytes s);
  vo_own p r : own !! p = Some r -> owned (kk (vmach s)) p r;
  vo_other q : page q -> own !! q = None -> refs (kk (vmach s)) q = F q;
  vo_dirs : dirs_ok own (bytes s);
  vo_map : map_ok own G (pte (bytes s));
  vo_kern : kern_ok own s
}.

Lemma own_page own G s p r : vm_ok own G s -> own !! p = Some r -> page p.
Proof. intros H Hp. apply (vo_own own G s H p r Hp). Qed.

Lemma own_aligned own G s p r : vm_ok own G s -> own !! p = Some r -> aligned p.
Proof. intros H Hp. eapply page_pa, own_page; eauto. Qed.

(** The entry of a page whose table exists is a word of that table. *)
Lemma pte_tab own G s t d i v : vm_ok own G s -> own !! t = Some (RTab d i) -> v / 1024 = i ->
  pte (bytes s) d v = word (bytes s) t (v mod 1024).
Proof.
  intros H Ht <-. destruct (do_tab own _ (vo_dirs own G s H) t d _ Ht) as (_ & _ & HP & HA).
  unfold pte. rewrite HP, HA. by destruct (page_pa t (own_page _ _ _ _ _ H Ht)) as (_ & _ & _ & -> & _).
Qed.

Lemma tab_of own G s d v : vm_ok own G s -> own !! d = Some RDir -> 0 <= v < NUSER ->
  (flag (word (bytes s) d (v / 1024)) PTE_P = false /\ pte (bytes s) d v = 0) \/
  (flag (word (bytes s) d (v / 1024)) PTE_P = true /\ exists t, own !! t = Some (RTab d (v / 1024))).
Proof.
  intros H Hd Hv. destruct (flag (word (bytes s) d (v / 1024)) PTE_P) eqn:E.
  - right. split; [done|]. apply (do_pde own _ (vo_dirs own G s H)); [done|unfold NUSER in Hv; mlia|done].
  - left. split; [done|]. unfold pte. by rewrite E.
Qed.

(** ** Walking without allocation *)

Definition tab_entry (own : gmap Z role) (m : Z -> Z) (d v r : Z) : Prop :=
  exists t, own !! t = Some (RTab d (v / 1024)) /\ r = t + 4 * (v mod 1024) /\ r <> 0 /\
    word m t (v mod 1024) = pte m d v.

Lemma walk_none own G s d v va : vm_ok own G s -> own !! d = Some RDir -> 0 <= v < NUSER ->
  v * 4096 <= va < v * 4096 + 4096 ->
  exists r, walkpgdir d va false s = Some (r, s) /\
    ((r = 0 /\ flag (word (bytes s) d (v / 1024)) PTE_P = false /\ pte (bytes s) d v = 0) \/
     tab_entry own (bytes s) d v r).
Proof.
  intros H Hd Hv Hva. destruct (page_index v va Hv Hva) as (EX & ET & _ & _).
  unfold Vm.walkpgdir, walk, pbind, ld. rewrite EX, ET. fold (word (bytes s) d (v / 1024)).
  destruct (tab_of own G s d v H Hd Hv) as [[-> ->]|(HP & t & Ht)].
  { exists 0. split; [done|]. left. split_and!; done. }
  rewrite HP. destruct (do_tab own _ (vo_dirs own G s H) t d _ Ht) as (_ & _ & _ & HA). rewrite HA.
  destruct (page_pa t (own_page _ _ _ _ _ H Ht)) as (_ & _ & -> & -> & _ & Hlo & _).
  eexists. split; [done|]. right. exists t. split_and!; try done.
  - unfold KERNBASE in Hlo. mlia.
  - symmetry. by eapply (pte_tab own G s).
Qed.

Lemma PDX_kernel va : KERNBASE <= va < 4294967296 -> 512 <= PDX va < 1024 /\ 0 <= PTX va < 1024.
Proof. unfold KERNBASE. intros. rewrite PDX_spec, PTX_spec. mlia. Qed.

(** The current directory. *)
Lemma cur_pgdir own G s : vm_ok own G s ->
  exists d, proc_pgdir (curproc s) s = Some (d, s) /\
    ((d = 0 /\ curproc s = None) \/
     exists a, own !! d = Some RDir /\ d <> 0 /\ exists q, curproc s = Some q /\ addrsp q <> 0 /\
       spaces s !! addrsp q = Some a /\ pgdir a = d).
Proof.
  intros H. pose proof (ko_cur own s (vo_kern own G s H)) as Hc. destruct (curproc s) as [q|]; [|by eauto].
  destruct Hc as (a & Ha0 & Ha & Hd). exists (pgdir a).
  assert (Hnz : pgdir a <> 0).
  { destruct (page_pa _ (own_page _ _ _ _ _ H Hd)) as (_ & _ & _ & _ & _ & Hlo & _). unfold KERNBASE in Hlo. lia. }
  split; [|right; by eauto 10].
  unfold proc_pgdir. rewrite (proj2 (Z.eqb_neq _ 0) Ha0), (pbind_Some _ _ s a s) by (unfold space_at; by rewrite Ha).
  by rewrite (proj2 (Z.eqb_neq _ 0) Hnz).
Qed.

Lemma effective own G s d : vm_ok own G s -> vm_effective_pgdir d s = Some (d, s).
Proof.
  intros H. destruct (cur_pgdir own G s H) as (e & E & He). unfold vm_effective_pgdir.
  rewrite (pbind_Some _ _ s (curproc s) s) by done. destruct He as [[_ Eq]|(a & Hd & Hnz & q & Eq & Ha0 & Ha & Eg)].
  { by rewrite Eq. }
  rewrite Eq in *. rewrite (proj2 (Z.eqb_neq _ 0) Ha0), (pbind_Some _ _ s a s) by (unfold space_at; by rewrite Ha).
  rewrite Eg, (proj2 (Z.eqb_neq _ 0) Hnz), (pbind_Some _ _ _ _ _ E). by destruct (Z.eqb_spec d e) as [->|].
Qed.

Lemma kaddr_writable_spec own G s va : vm_ok own G s -> data_ <= va < KERNBASE + PHYSTOP ->
  kaddr_writable_current_pgdir va s = Some (true, s).
Proof.
  intros H Hva. pose proof (vo_kern own G s H) as HK. destruct (ko_map own s HK va Hva) as (KP & t & Ht & KA & EP & EW & EC).
  pose proof ki_data. unfold kaddr_writable_current_pgdir. destruct (Z.ltb_spec va KERNBASE); [lia|].
  destruct (PDX_kernel va) as [HX HT]; [unfold KERNBASE, PHYSTOP in *; lia|].
  assert (Hw : forall d, own !! d = Some RDir \/ d = kpgdir s -> walk None d va s = Some (t + 4 * PTX va, s)).
  { intros d Hd. destruct (ko_half own s HK d (PDX va) Hd HX) as [Hf1 Hf2]. unfold walk, pbind, ld.
    fold (word (bytes s) d (PDX va)). rewrite Hf1, KP, Hf2, KA.
    destruct (page_pa t (own_page _ _ _ _ _ H Ht)) as (_ & _ & -> & -> & _). done. }
  assert (Hend : forall d, d <> 0 -> own !! d = Some RDir \/ d = kpgdir s ->
    (if d =? 0 then pret (va <? KERNBASE + BOOT_EARLY_PHYSTOP)
     else pbind (walk None d va) (fun p => if p =? 0 then pret false
            else pbind (ld p) (fun w => if negb (flag w PTE_P) then pret false
                   else pbind (pte_assert_sane w) (fun _ => pret (pte_is_writable w))))) s = Some (true, s)).
  { intros d Hd0 Hd. destruct (Z.eqb_spec d 0); [done|]. unfold pbind at 1. rewrite (Hw d Hd).
    destruct (page_pa t (own_page _ _ _ _ _ H Ht)) as (_ & _ & _ & _ & _ & Hlo & _).
    destruct (Z.eqb_spec (t + 4 * PTX va) 0); [unfold KERNBASE in *; lia|]. unfold pbind, ld.
    fold (word (bytes s) t (PTX va)). rewrite EP. cbn [negb]. unfold pte_assert_sane, pte_is_cow, pte_is_writable.
    rewrite EP, EC, EW. done. }
  rewrite (pbind_Some _ _ s (curproc s) s), (pbind_Some _ _ s s s) by done.
  destruct (cur_pgdir own G s H) as (d0 & E0 & Hd0). rewrite (pbind_Some _ _ _ _ _ E0).
  destruct Hd0 as [[-> _]|(a & Hd0 & Hnz & _)]; cbn [Z.eqb].
  - rewrite (pbind_Some _ _ s (kpgdir s) s) by done. apply Hend; [apply HK|auto].
  - rewrite (proj2 (Z.eqb_neq d0 0) Hnz), (pbind_Some _ _ _ _ _ (effective own G s d0 H)). apply Hend; auto.
Qed.

(** The interface of the allocator holds in every state of the invariant. *)
Lemma kernel_map own G s : vm_ok own G s -> KernelMap end_ (kaddr_writable s) meta_base.
Proof.
  intros H. pose proof ki_data. pose proof ki_end. split; [lia| |].
  - intros v Hu Hv. unfold kaddr_writable. destruct (page_pa v (conj Hu Hv)) as (_ & _ & _ & _ & _ & ? & ? & ?).
    rewrite (kaddr_writable_spec own G s v H); [done|]. unfold PGSIZE in *. lia.
  - intros i Hi. unfold kaddr_writable, meta_addr. pose proof ki_meta. pose proof ki_meta_end.
    rewrite (kaddr_writable_spec own G s _ H); [done|]. unfold NPAGE, PHYSTOP, PGSIZE in *.
    change (536870912 / 4096) with 131072 in *. lia.
Qed.

(** ** Rebuilding the invariant *)

Definition not_user (r : role) : Prop := match r with RUser _ _ => False | _ => True end.
Definition same_tabs (own own' : gmap Z role) : Prop :=
  forall p r, not_user r -> own' !! p = Some r <-> own !! p = Some r.

Lemma put_role_tabs p M x own : (forall r, own !! p = Some r -> ~ not_user r) -> same_tabs own (put_role p M x own).
Proof.
  intros Hp q r Hr. destruct (decide (q = p)) as [->|Hne]; [|by rewrite put_role_ne]. split; intros Hq.
  - apply put_role_inv in Hq as [[_ ->]|[? _]]; done.
  - by destruct (Hp r Hq).
Qed.

Lemma put_role_user_tabs p M x own M0 x0 : own !! p = Some (RUser M0 x0) -> same_tabs own (put_role p M x own).
Proof. intros Hp. apply put_role_tabs. intros r Hr. rewrite Hp in Hr. injection Hr as <-. by intros []. Qed.

(** The part of the state that the allocator's operations keep. *)
Definition quiet (s s' : vm) : Prop :=
  ctl s s' /\ inv (kk (vmach s')) /\ kept (kk (vmach s)) (kk (vmach s')) /\
  pagealloc_online (vmach s') = pagealloc_online (vmach s) /\ bytes_ok (bytes s').

Lemma quiet_refl own G s : vm_ok own G s -> quiet s s.
Proof. intros H. split_and!; try done; [apply (vo_inv _ _ _ H)|apply (vo_bytes _ _ _ H)]. Qed.
Lemma quiet_trans s1 s2 s3 : quiet s1 s2 -> quiet s2 s3 -> quiet s1 s3.
Proof.
  intros (C1 & I1 & K1 & O1 & B1) (C2 & I2 & K2 & O2 & B2). split; [by eapply ctl_trans|]. split; [done|].
  split; [by eapply (Kmalloc.kept_trans (end_ := end_))|]. split; [congruence|done].
Qed.

(** The kernel half of directory [d]. *)
Definition half_ok (s : vm) (m : Z -> Z) (d : Z) : Prop := forall i, 512 <= i < 1024 ->
  flag (word m d i) PTE_P = flag (kref s i) PTE_P /\ PTE_ADDR (word m d i) = PTE_ADDR (kref s i).

Definition cur_dir (s : vm) (d : Z) : Prop :=
  exists q a, curproc s = Some q /\ spaces s !! addrsp q = Some a /\ pgdir a = d.

Lemma kern_rebuild own own' s s' : kern_ok own s -> ctl s s' ->
  (forall p, own !! p = Some RKern -> own' !! p = Some RKern /\ agree p (bytes s) (bytes s')) ->
  (forall d, own' !! d = Some RDir -> half_ok s (bytes s') d) ->
  (forall d, own !! d = Some RDir -> cur_dir s d -> own' !! d = Some RDir) -> kern_ok own' s'.
Proof.
  intros [K1 K2 K3 K4 K5 K6] (C1 & C2 & C3 & C4 & _ & C5) TK TD TC.
  assert (ER : forall i, kref s' i = kref s i) by (intros; unfold kref; by rewrite C2). split.
  - congruence.
  - rewrite C1. split; [apply K2|]. by apply TK, K2.
  - intros i. by rewrite ER.
  - intros d i Hd Hi. rewrite ER, C1 in *. destruct Hd as [Hd| ->]; [by apply TD|].
    rewrite (word_agree (bytes s)); [by apply K4; [right|]| |lia]. apply TK, K2.
  - intros va Hva. rewrite ER. destruct (K5 va Hva) as (KP & t & Ht & KA & HE). split; [done|]. exists t.
    assert (0 <= PTX va < 1024) by (rewrite PTX_spec; apply Z.mod_pos_bound; lia).
    destruct (TK t Ht) as [Ht' A]. by rewrite (word_agree (bytes s)).
  - rewrite C4, C5. destruct (curproc s) as [q|] eqn:Eq; [|done]. destruct K6 as (a & ? & ? & Hd). exists a. split_and!; try done.
    apply TC; [done|]. by exists q, a.
Qed.

Lemma vm_ok_build own own' G G' s s' : vm_ok own G s -> quiet s s' ->
  (forall p r, own' !! p = Some r -> owned (kk (vmach s')) p r) ->
  (forall q, page q -> own' !! q = None -> refs (kk (vmach s')) q = F q) ->
  dirs_ok own' (bytes s') -> map_ok own' G' (pte (bytes s')) ->
  (forall p, own !! p = Some RKern -> own' !! p = Some RKern /\ agree p (bytes s) (bytes s')) ->
  (forall d, own' !! d = Some RDir -> half_ok s (bytes s') d) ->
  (forall d, own !! d = Some RDir -> cur_dir s d -> own' !! d = Some RDir) -> vm_ok own' G' s'.
Proof.
  intros H (C & I & K & O & B) Hown Hoth D M T1 T2 T3. split; try done.
  - destruct K as (_ & _ & _ & ->). rewrite O. apply (vo_online _ _ _ H).
  - intros i. eapply Kmalloc.kept_cpu; [done|apply (vo_cpu _ _ _ H)].
  - by eapply kern_rebuild; [apply (vo_kern _ _ _ H)|..].
Qed.

Lemma half_agree own s m' d : kern_ok own s -> own !! d = Some RDir ->
  (forall i, 512 <= i < 1024 -> word m' d i = word (bytes s) d i) -> half_ok s m' d.
Proof. intros K Hd A i Hi. rewrite A by done. apply (ko_half own s K); auto. Qed.

Lemma vm_ok_user own own' G G' s s' : vm_ok own G s -> quiet s s' -> same_tabs own own' ->
  (forall p r, own' !! p = Some r -> owned (kk (vmach s')) p r) ->
  (forall q, page q -> own' !! q = None -> refs (kk (vmach s')) q = F q) ->
  (forall p r, own !! p = Some r -> r = RDir \/ r = RKern -> agree p (bytes s) (bytes s')) ->
  map_ok own' G' (pte (bytes s')) -> vm_ok own' G' s'.
Proof.
  intros H Q T Hown Hoth A HM. pose proof (vo_dirs _ _ _ H) as [D1 D2]. eapply vm_ok_build; try done.
  - split.
    + intros t d i Ht. destruct (D1 t d i) as (Hd & Hi & HP & HA); [by apply (T _ (RTab d i))|].
      rewrite (word_agree (bytes s)) by ((eapply A; eauto) || lia). split; [by apply (T _ RDir)|done].
    + intros d i Hd Hi. apply (T _ RDir) in Hd; [|done]. rewrite (word_agree (bytes s)) by ((eapply A; eauto) || lia).
      intros HP. destruct (D2 d i Hd Hi HP) as (t & Ht). exists t. by apply (T _ (RTab d i)).
  - intros p Hp. split; [by apply (T _ RKern)|]. eapply A; eauto.
  - intros d Hd. apply (T _ RDir) in Hd; [|done]. eapply half_agree; [apply (vo_kern _ _ _ H)|done|].
    intros i Hi. apply word_agree; [eapply A; eauto|lia].
  - intros d Hd _. by apply (T _ RDir).
Qed.

Lemma pte_agree own G s m' d v : vm_ok own G s -> own !! d = Some RDir -> 0 <= v < NUSER ->
  (forall p r, own !! p = Some r -> not_user r -> agree p (bytes s) m') -> pte m' d v = pte (bytes s) d v.
Proof.
  intros H Hd Hv A. assert (0 <= v / 1024 < 1024 /\ 0 <= v mod 1024 < 1024) by (unfold NUSER in Hv; mlia).
  unfold pte at 1. rewrite (word_agree (bytes s)) by ((by eapply A) || lia).
  destruct (tab_of own G s d v H Hd Hv) as [[-> ->]|(HP & t & Ht)]; [done|]. rewrite HP.
  destruct (do_tab own _ (vo_dirs own G s H) t d _ Ht) as (_ & _ & _ & ->).
  destruct (page_pa t (own_page _ _ _ _ _ H Ht)) as (_ & _ & _ & -> & _).
  rewrite (word_agree (bytes s)) by ((by eapply A) || lia). symmetry. by eapply (pte_tab own G s).
Qed.

(** Nothing in use changed. *)
Lemma vm_ok_frame own G s s' : vm_ok own G s -> quiet s s' ->
  (forall p, page p -> refs (kk (vmach s')) p = refs (kk (vmach s)) p) ->
  (forall p r, own !! p = Some r -> not_user r -> agree p (bytes s) (bytes s')) -> vm_ok own G s'.
Proof.
  intros H Q HR A. eapply vm_ok_user; [done..| | | |].
  - intros p r Hp. destruct (vo_own _ _ _ H p r Hp) as (Hpg & Hm & Hr & Hrest). split_and!; try apply Hrest; try done.
    + destruct Q as (_ & _ & K & _). by rewrite (proj1 K).
    + by rewrite HR.
  - intros q Hq Hn. rewrite HR by done. by apply (vo_other _ _ _ H).
  - intros p r Hp Hr. eapply A; [done|]. by destruct Hr as [-> | ->].
  - eapply map_ok_ext; [apply (vo_map _ _ _ H)|]. intros. by eapply pte_agree.
Qed.

Lemma own_unique own G s : vm_ok own G s -> own_inj own.
Proof. intros H p q r r' Hp Hq. apply V2P_inj; eapply own_page; eauto. Qed.

(** ** Page operations *)

(** A page operation changes the allocator's state only. *)
Lemma kalloc_mem wr c m v m' : Kmalloc.kalloc end_ wr meta_base pg_array_addr c m = Some (v, m') -> mem m' = mem m.
Proof.
  unfold Kmalloc.kalloc, alloc_single_page, alloc_pages_order. change ((0 <? 0) || (0 >? BUDDY_BRIDGE_MAX_ORDER)) with false.
  cbn [Z.eqb]. destruct (kalloc_legacy_page end_ wr meta_base c (kk m)) as [[w k]|]; [|by destruct (pagealloc_online m)].
  intros E. destruct (pagealloc_online m); cbn [negb] in E; [|by simplify_eq]. repeat case_match; by simplify_eq.
Qed.

(** A fresh page is one that running code holds. *)
Lemma kalloc_spec own G s : vm_ok own G s ->
  exists v s', kalloc s = Some (v, s') /\ quiet s s' /\ bytes s' = bytes s /\
    ((v = 0 /\ vm_ok own G s') \/
     (page v /\ own !! v = None /\ vm_ok (<[v := RUser ∅ 1]> own) G s')).
Proof.
  intros H. pose proof (kernel_map own G s H) as KM.
  destruct (kalloc_outcome (KM := KM) ki_desc (vmach s) (cpu (tick s))) as (v & m & E & I & K & O).
  { apply (vo_inv _ _ _ H). } { apply (vo_cpu _ _ _ H). } { apply (vo_online _ _ _ H). }
  pose proof (kalloc_mem _ _ _ _ _ E) as Em. unfold Vm.kalloc. rewrite E.
  set (s' := set_tick (S (tick s)) (set_mach m s)).
  assert (Eb : bytes s' = bytes s) by done.
  assert (Q : quiet s s').
  { split; [done|]. split; [done|]. split; [done|]. split; [|rewrite Eb; apply (vo_bytes _ _ _ H)].
    unfold calm in O. by destruct O as [(_ & _ & Hc & _)|(_ & Hc & _)]. }
  exists v, s'. split; [done|]. split; [done|]. split; [done|]. destruct O as [(-> & HR & _)|(Hg & _)].
  - left. split; [done|]. eapply vm_ok_frame; [done..| |by intros; rewrite Eb].
    done.
  - right. destruct (gr_page _ _ _ _ Hg 0) as (Hp & Hm & H0 & H1); [lia|]. replace (v + 0 * PGSIZE) with v in * by lia.
    assert (Hv : own !! v = None).
    { destruct (own !! v) as [r|] eqn:Er; [|done]. destruct (vo_own _ _ _ H v r Er) as (_ & _ & ? & ? & _). lia. }
    assert (Epr : <[v := RUser ∅ 1]> own = put_role v ∅ 1 own) by (by rewrite put_role_insert).
    assert (Hoth : forall w, page w -> w <> v -> refs (kk m) w = refs (kk (vmach s)) w).
    { intros w Hw Hne. apply (gr_other _ _ _ _ Hg); [done|]. intros j Hj. unfold PGSIZE. by replace (v + j * 4096) with v by lia. }
    split; [done|]. split; [done|]. rewrite Epr. eapply vm_ok_user; [done..| | | | |].
    + apply put_role_tabs. intros r Hr. congruence.
    + intros p r [[-> ->]|[Hne Hpr]]%put_role_inv.
      * split_and!; try done. rewrite <- H0. symmetry. by apply (vo_other _ _ _ H).
      * destruct (vo_own _ _ _ H p r Hpr) as (Hpg & Hm' & Hr & Hrest). split_and!; try apply Hrest; try done.
        -- by rewrite (proj1 K).
        -- by rewrite Hoth.
    + intros q Hq Hn. assert (q <> v) by (intros ->; rewrite <- Epr, lookup_insert_eq in Hn; done).
      rewrite Hoth by done. apply (vo_other _ _ _ H); [done|]. by rewrite put_role_ne in Hn.
    + intros. by rewrite Eb.
    + rewrite <- Epr, Eb. eapply map_fresh; [apply (vo_map _ _ _ H)|done].
Qed.

(** ** References *)

Lemma owned_put k k' own p M x : (forall q r, own !! q = Some r -> owned k q r) ->
  kept k k' -> (forall q, page q -> q <> p -> refs k' q = refs k q) ->
  page p -> managed k p = true -> F p = 0 -> refs k' p = Z.of_nat (size M) + x -> 0 <= x ->
  forall q r, put_role p M x own !! q = Some r -> owned k' q r.
Proof.
  intros Ho K HR Hp Hm HF Hr Hx q r Hq. unfold put_role in Hq. case_decide as Hz.
  - apply lookup_delete_Some in Hq as [Hne Hq]. destruct (Ho q r Hq) as (? & ? & ? & Hrest).
    split_and!; try apply Hrest; [done|by rewrite (proj1 K)|by rewrite HR].
  - apply lookup_insert_Some in Hq as [[<- <-]|[Hne Hq]].
    + split_and!; [done|by rewrite (proj1 K)|done|cbn [rcount]; lia|done|done].
    + destruct (Ho q r Hq) as (? & ? & ? & Hrest). split_and!; try apply Hrest; [done|by rewrite (proj1 K)|by rewrite HR].
Qed.

Lemma other_put k k' own p M x : (forall q, page q -> own !! q = None -> refs k q = F q) ->
  (forall q, page q -> q <> p -> refs k' q = refs k q) -> F p = 0 -> refs k' p = Z.of_nat (size M) + x ->
  forall q, page q -> put_role p M x own !! q = None -> refs k' q = F q.
Proof.
  intros Ho HR HF Hr q Hq Hn. destruct (decide (q = p)) as [->|Hne].
  - unfold put_role in Hn. case_decide; [lia|]. by rewrite lookup_insert_eq in Hn.
  - rewrite put_role_ne in Hn by done. rewrite HR by done. auto.
Qed.

(** The reference count of a user page changes with its role. *)
Lemma vm_ok_put own G s s' p M0 x0 M x : vm_ok own G s -> quiet s s' -> own !! p = Some (RUser M0 x0) -> 0 <= x ->
  refs (kk (vmach s')) p = Z.of_nat (size M) + x ->
  (forall q, page q -> q <> p -> refs (kk (vmach s')) q = refs (kk (vmach s)) q) ->
  (forall q r, own !! q = Some r -> r = RDir \/ r = RKern -> agree q (bytes s) (bytes s')) ->
  map_ok (put_role p M x own) G (pte (bytes s')) -> vm_ok (put_role p M x own) G s'.
Proof.
  intros H Q Hp Hx R1 R2 A HM. destruct (vo_own _ _ _ H p _ Hp) as (Hpg & Hm & _ & _ & _ & HF).
  eapply vm_ok_user; [done..| | | |done|done].
  - by eapply put_role_user_tabs.
  - eapply owned_put; [apply (vo_own _ _ _ H)|apply Q|done..].
  - eapply other_put; [apply (vo_other _ _ _ H)|done..].
Qed.

Lemma kfree_raw own G s p r : vm_ok own G s -> own !! p = Some r ->
  exists s', kfree p s = Some (tt, s') /\ quiet s s' /\ bytes s' = bytes s /\
    refs (kk (vmach s')) p = rcount r - 1 /\
    (forall q, page q -> q <> p -> refs (kk (vmach s')) q = refs (kk (vmach s)) q).
Proof.
  intros H Hp. destruct (vo_own _ _ _ H p r Hp) as (Hpg & Hm & Hr & H1 & _). pose proof (kernel_map own G s H) as KM.
  destruct (kfree_managed (KM := KM) (kk (vmach s)) (cpu (tick s)) p) as (k' & E & I & _ & Hs & _); try done.
  { apply (vo_inv _ _ _ H). } { apply (vo_cpu _ _ _ H). }
  destruct (refs_set_kept _ _ _ _ (Hs ltac:(lia))) as [K [R1 R2]].
  unfold Vm.kfree. rewrite E. eexists. split; [done|]. split; [|split; [done|split; [cbn; lia|done]]].
  split; [done|]. split; [done|]. split; [done|]. split; [done|apply (vo_bytes _ _ _ H)].
Qed.

(** Running code gives a reference back. *)
Lemma kfree_held own G s p M x : vm_ok own G s -> own !! p = Some (RUser M x) -> 1 <= x ->
  exists s', kfree p s = Some (tt, s') /\ quiet s s' /\ bytes s' = bytes s /\
    vm_ok (put_role p M (x - 1) own) G s'.
Proof.
  intros H Hp Hx. destruct (kfree_raw own G s p _ H Hp) as (s' & E & Q & Eb & R1 & R2).
  exists s'. split; [done|]. split; [done|]. split; [done|]. cbn [rcount] in R1.
  eapply vm_ok_put; [done..|lia|lia|done|by intros; rewrite Eb|].
  rewrite Eb. eapply map_refs; [apply (vo_map _ _ _ H)|done|lia].
Qed.

(** A page is mapped by fewer entries than there are words in memory, so its
    reference count cannot overflow. *)
Lemma mappers_bound own G s p M x : vm_ok own G s -> own !! p = Some (RUser M x) -> Z.of_nat (size M) <= 134217728.
Proof.
  intros H Hp.
  set (g := fun y : Z * Z => idx (P2V (PTE_ADDR (word (bytes s) y.1 (y.2 / 1024)))) * 1024 + y.2 mod 1024).
  assert (Hf : forall y, y ∈ M -> exists t, own !! t = Some (RTab y.1 (y.2 / 1024)) /\ 0 <= idx t < NPAGE /\
    g y = idx t * 1024 + y.2 mod 1024).
  { intros [d v] Hy. destruct (mo_user _ _ _ (vo_map _ _ _ H) _ _ _ _ _ Hp Hy) as (Hd & Hv & HP & _).
    destruct (tab_of own G s d v H Hd Hv) as [[_ E]|(_ & t & Ht)]; [rewrite E in HP; done|].
    pose proof (own_page _ _ _ _ _ H Ht) as Hpg. destruct (page_idx (KM := KM_all) t Hpg) as (Hi & _).
    exists t. split; [done|]. split; [done|]. unfold g. cbn [fst snd].
    destruct (do_tab own _ (vo_dirs own G s H) t d _ Ht) as (_ & _ & _ & ->).
    by destruct (page_pa t Hpg) as (_ & _ & _ & -> & _). }
  assert (Hn : NoDup (g <$> elements M)).
  { apply NoDup_fmap_2_strong; [|apply NoDup_elements]. intros [d v] [d' v'] Hy Hy'.
    apply elem_of_elements in Hy, Hy'. destruct (Hf _ Hy) as (t & Ht & Hi & ->). destruct (Hf _ Hy') as (t' & Ht' & Hi' & ->).
    cbn [fst snd] in *. intros E. assert (idx t = idx t' /\ v mod 1024 = v' mod 1024) as [Ei Em] by mlia.
    assert (t = t') as <- by (eapply (idx_inj (KM := KM_all)); [by eapply own_page..|done]).
    rewrite Ht in Ht'. injection Ht' as -> Ed. f_equal. mlia. }
  assert (Hs : (g <$> elements M) ⊆+ seqZ 0 134217728).
  { apply NoDup_submseteq; [done|]. intros i Hi. apply list_elem_of_fmap in Hi as (y & -> & Hy).
    apply elem_of_elements in Hy. destruct (Hf _ Hy) as (t & _ & Hi & ->). apply elem_of_seqZ.
    unfold NPAGE, PHYSTOP, PGSIZE in Hi. change (536870912 / 4096) with 131072 in Hi. mlia. }
  apply submseteq_length in Hs. rewrite length_fmap, length_seqZ in Hs. unfold size, set_size. cbn [compose]. lia.
Qed.

(** Another reference to a mapped page. *)
Lemma incref_held own G s p M : vm_ok own G s -> own !! p = Some (RUser M 0) ->
  exists s', kpage_incref (V2P p) s = Some (tt, s') /\ quiet s s' /\ bytes s' = bytes s /\
    vm_ok (put_role p M 1 own) G s'.
Proof.
  intros H Hp. destruct (vo_own _ _ _ H p _ Hp) as (Hpg & Hm & Hr & H1 & _).
  pose proof (mappers_bound own G s p M 0 H Hp) as Hb. cbn [rcount] in *.
  destruct (proj2 (incref_spec (KM := KM_all) (kk (vmach s)) p (vo_inv _ _ _ H) Hpg Hm)) as (k' & E & I & Hs); [lia|].
  destruct (refs_set_kept _ _ _ _ Hs) as [K [R1 R2]]. unfold Vm.kpage_incref. rewrite E.
  eexists. split; [done|].
  assert (Q : quiet s (set_mach (set_kk (vmach s) k') s)).
  { split; [done|]. split; [done|]. split; [done|]. split; [done|apply (vo_bytes _ _ _ H)]. }
  split; [done|]. split; [done|]. eapply vm_ok_put; [done..|lia|cbn; lia|done|done|].
  eapply map_refs; [apply (vo_map _ _ _ H)|done|lia].
Qed.

(** ** Stores *)

Definition with_bytes (m : Z -> Z) (s : vm) : vm := set_mach (Kmalloc.set_mem (vmach s) m) s.

Lemma quiet_bytes own G s m : vm_ok own G s -> bytes_ok m -> quiet s (with_bytes m s).
Proof.
  intros H Hm. split; [done|]. split; [apply (vo_inv _ _ _ H)|]. split; [apply Kmalloc.kept_refl|]. done.
Qed.

Lemma quiet_with s s1 m : quiet s s1 -> bytes_ok m -> quiet s (with_bytes m s1).
Proof. intros (C & I & K & O & _) Hm. split; [done|]. split; [done|]. split; [done|]. done. Qed.

(** The contents of user pages are as before. *)
Definition data_kept (own : gmap Z role) (s s' : vm) : Prop :=
  forall p M x, own !! p = Some (RUser M x) -> agree p (bytes s) (bytes s').

Lemma tab_index v i : 0 <= v -> i = v / 1024 -> v = i * 1024 + v mod 1024.
Proof. intros. mlia. Qed.

(** A store to a table changes one entry. *)
Lemma pte_store own G s t d i j w : vm_ok own G s -> own !! t = Some (RTab d i) -> 0 <= j < 1024 -> is_u32 w ->
  entry_set own d (i * 1024 + j) w (pte (bytes s)) (pte (store32 (bytes s) (t + 4 * j) w)).
Proof.
  intros H Ht Hj Hw d' v' Hd' Hv'. pose proof (vo_dirs _ _ _ H) as HD.
  destruct (do_tab own _ HD t d i Ht) as (Hd & Hi & HP & HA).
  assert (Hi' : 0 <= v' / 1024 < 1024 /\ 0 <= v' mod 1024 < 1024) by (unfold NUSER in Hv'; mlia).
  assert (Htd : t <> d') by congruence.
  pose proof (own_aligned _ _ _ _ _ H Ht) as At. pose proof (own_aligned _ _ _ _ _ H Hd') as Ad.
  unfold pte at 1. rewrite word_store, decide_False by (done || lia || tauto).
  destruct (tab_of own G s d' v' H Hd' Hv') as [[E1 E2]|(E1 & t' & Ht')].
  - rewrite E1, E2. rewrite decide_False; [done|]. intros [= -> ->].
    replace ((i * 1024 + j) / 1024) with i in E1 by mlia. congruence.
  - rewrite E1. destruct (do_tab own _ HD t' d' _ Ht') as (_ & _ & _ & ->).
    destruct (page_pa t' (own_page _ _ _ _ _ H Ht')) as (_ & _ & _ & -> & At' & _).
    rewrite word_store by (done || lia). rewrite (pte_tab own G s t' d' _ v' H Ht') by done.
    repeat case_decide; try done.
    + destruct H0 as [<- Ej]. rewrite Ht in Ht'. injection Ht' as -> ->. exfalso. apply H1. f_equal. mlia.
    + injection H1 as -> ->. exfalso. apply H0. split; [|mlia].
      replace ((i * 1024 + j) / 1024) with i in Ht' by mlia. eapply own_unique; [done..|].
      destruct (do_tab own _ HD t' d i Ht') as (_ & _ & _ & HA'). congruence.
Qed.

(** What a store to the entry of page [v] leaves alone. *)
Lemma entry_store own G s d v r w : vm_ok own G s -> 0 <= v < NUSER -> tab_entry own (bytes s) d v r -> is_u32 w ->
  let s' := with_bytes (store32 (bytes s) r w) s in
  quiet s s' /\ data_kept own s s' /\ entry_set own d v w (pte (bytes s)) (pte (bytes s')) /\
  (forall p k, own !! p = Some k -> k = RDir \/ k = RKern -> agree p (bytes s) (bytes s')).
Proof.
  intros H Hv (t & Ht & -> & _ & _) Hw s'.
  assert (Hj : 0 <= v mod 1024 < 1024) by (apply Z.mod_pos_bound; lia).
  pose proof (own_aligned _ _ _ _ _ H Ht) as At.
  assert (A : forall q r, own !! q = Some r -> q <> t -> agree q (bytes s) (bytes s')).
  { intros q r Hq Hne. apply store_agree; try done. by eapply own_aligned. }
  split; [eapply quiet_bytes; [done|apply bytes_store, (vo_bytes _ _ _ H)]|]. split; [|split].
  - intros p M x Hp. eapply A; [done|congruence].
  - rewrite (tab_index v (v / 1024)) at 1 by lia. by apply (pte_store own G s).
  - intros p k Hp Hk. eapply A; [done|]. destruct Hk; congruence.
Qed.

(** A held reference becomes an entry. *)
Lemma set_entry own G s d v r w p M x : vm_ok own G s -> own !! d = Some RDir -> 0 <= v < NUSER ->
  tab_entry own (bytes s) d v r -> flag (pte (bytes s) d v) PTE_P = false ->
  own !! p = Some (RUser M x) -> 1 <= x -> entry_ok w -> PTE_ADDR w = V2P p ->
  (flag w PTE_W = true -> forall d' v', (d', v') ∈ M -> G = Some d') ->
  (forall d' v', (d', v') ∈ M -> flag (pte (bytes s) d' v') PTE_W = true -> G = Some d) ->
  vm_ok (put_role p ({[(d, v)]} ∪ M) (x - 1) own) G (with_bytes (store32 (bytes s) r w) s).
Proof.
  intros H Hd Hv Hr HP Hp Hx Hw HA X1 X2. destruct (entry_store own G s d v r w H Hv Hr (proj1 Hw)) as (Q & _ & E & A).
  destruct (vo_own _ _ _ H p _ Hp) as (_ & _ & Hrf & _). cbn [rcount] in Hrf.
  eapply vm_ok_put; [done..|lia| |done|done|].
  - assert ((d, v) ∉ M).
    { intros Hin. destruct (mo_user _ _ _ (vo_map _ _ _ H) _ _ _ _ _ Hp Hin) as (_ & _ & ? & _). congruence. }
    cbn. rewrite size_union, size_singleton by set_solver. lia.
  - eapply map_set; try done; [apply (vo_map _ _ _ H)|lia].
Qed.

(** An entry gets other flags. *)
Lemma flag_entry own G s d v r w p M x : vm_ok own G s -> 0 <= v < NUSER ->
  tab_entry own (bytes s) d v r -> own !! p = Some (RUser M x) -> (d, v) ∈ M ->
  entry_ok w -> PTE_ADDR w = PTE_ADDR (pte (bytes s) d v) ->
  (flag w PTE_W = true -> forall d' v', (d', v') ∈ M -> (d', v') = (d, v) \/ G = Some d') ->
  vm_ok own G (with_bytes (store32 (bytes s) r w) s).
Proof.
  intros H Hv Hr Hp Hin Hw HA X. destruct (entry_store own G s d v r w H Hv Hr (proj1 Hw)) as (Q & _ & E & A).
  destruct (vo_own _ _ _ H p _ Hp) as (_ & _ & _ & H1 & Hx & _).
  assert (Eo : own = put_role p M x own) by (rewrite put_role_insert, insert_id by (done || (cbn in H1; lia)); done).
  eapply vm_ok_user; [done..| | |done|].
  - intros q k Hq. apply (vo_own _ _ _ H). done.
  - apply (vo_other _ _ _ H).
  - rewrite Eo at 1. eapply (map_change own G _ _ d v w p M x x true); try done; [apply (vo_map _ _ _ H)|by eapply own_unique].
Qed.

(** The reference of an entry is given back and the entry cleared. *)
Lemma clear_entry own G s s1 d v r p M x : vm_ok own G s -> 0 <= v < NUSER ->
  tab_entry own (bytes s) d v r -> own !! p = Some (RUser M x) -> (d, v) ∈ M ->
  quiet s s1 -> bytes s1 = bytes s -> refs (kk (vmach s1)) p = Z.of_nat (size M) + x - 1 ->
  (forall q, page q -> q <> p -> refs (kk (vmach s1)) q = refs (kk (vmach s)) q) ->
  vm_ok (put_role p (M ∖ {[(d, v)]}) x own) G (with_bytes (store32 (bytes s1) r 0) s1).
Proof.
  intros H Hv Hr Hp Hin Q Eb R1 R2. rewrite Eb.
  destruct (entry_store own G s d v r 0 H Hv Hr) as (Q' & _ & E & A); [done|].
  destruct (vo_own _ _ _ H p _ Hp) as (_ & _ & _ & _ & Hx & _).
  eapply vm_ok_put; [done| |done|done| |done|done|].
  - apply quiet_with; [done|apply Q'].
  - cbn. rewrite R1. assert (size M <> 0)%nat by (intros E0%size_empty_inv; set_solver).
    rewrite size_difference, size_singleton by set_solver. lia.
  - eapply (map_change own G _ _ d v 0 p M x x false); try done; [apply (vo_map _ _ _ H)|by eapply own_unique].
Qed.

(** ** Tables *)

(** A held page that is zeroed and entered into the directory. *)
Lemma add_table own G s d i t : vm_ok own G s -> own !! d = Some RDir -> 0 <= i < 512 ->
  own !! t = Some (RUser ∅ 1) -> flag (word (bytes s) d i) PTE_P = false ->
  let m := store32 (write_bytes (bytes s) t (replicate 4096 0)) (d + 4 * i) (Z.lor (V2P t) 7) in
  let s' := with_bytes m s in
  quiet s s' /\ data_kept (delete t own) s s' /\ vm_ok (<[t := RTab d i]> own) G s' /\
  (forall d' v', own !! d' = Some RDir -> 0 <= v' < NUSER -> pte m d' v' = pte (bytes s) d' v').
Proof.
  intros H Hd Hi Ht HP m s'.
  pose proof (own_aligned _ _ _ _ _ H Ht) as At. pose proof (own_aligned _ _ _ _ _ H Hd) as Ad.
  destruct (vo_own _ _ _ H t _ Ht) as (Hpg & Hm & Hrf & _ & _ & HF).
  destruct (page_pa t Hpg) as (Hu & Hal & Hbad & HPV & _). assert (Hne : t <> d) by congruence.
  destruct (entry_addr (V2P t) 7 Hu Hal) as (Hw & HA & _); [lia|].
  assert (HwP : flag (Z.lor (V2P t) 7) PTE_P = true) by (rewrite flag_P, Z.lor_spec; apply orb_true_r).
  assert (Em : forall q j, aligned q -> 0 <= j < 1024 -> word m q j =
    if decide (d = q /\ i = j) then Z.lor (V2P t) 7 else if decide (q = t) then 0 else word (bytes s) q j).
  { intros q j Aq Hj. unfold m. rewrite word_store by (done || lia). case_decide; [done|].
    case_decide as Hq; [subst q; by apply zeroed_word|]. apply word_agree; [|done].
    rewrite <- (Z.add_0_r t) at 1. apply write_agree; try done; unfold len; rewrite ?length_replicate; unfold PGSIZE; lia. }
  assert (Ag : forall q, aligned q -> q <> t -> q <> d -> agree q (bytes s) m).
  { intros q Aq Hq1 Hq2 a Ha. unfold m. rewrite (store_agree _ d i _ q) by (done || lia).
    rewrite <- (Z.add_0_r t) at 1. eapply write_agree; try done; unfold len; rewrite ?length_replicate; unfold PGSIZE; lia. }
  assert (Hdir : forall d', <[t := RTab d i]> own !! d' = Some RDir <-> own !! d' = Some RDir).
  { intros d'. rewrite lookup_insert_Some. destruct (decide (t = d')) as [<-|]; naive_solver. }
  assert (Epte : forall d' v', own !! d' = Some RDir -> 0 <= v' < NUSER -> pte m d' v' = pte (bytes s) d' v').
  { intros d' v' Hd' Hv'. pose proof (own_aligned _ _ _ _ _ H Hd') as Ad'.
    assert (Hj : 0 <= v' / 1024 < 1024 /\ 0 <= v' mod 1024 < 1024) by (unfold NUSER in Hv'; mlia).
    unfold pte at 1. rewrite (Em d') by (done || lia). case_decide as Hc.
    - destruct Hc as [-> ->]. rewrite HwP, HA, HPV, Em, decide_False, decide_True by (done || lia || tauto).
      unfold pte. by rewrite HP.
    - rewrite decide_False by congruence. destruct (tab_of own G s d' v' H Hd' Hv') as [[-> ->]|(E1 & t' & Ht')]; [done|].
      rewrite E1. destruct (do_tab own _ (vo_dirs _ _ _ H) t' d' _ Ht') as (_ & _ & _ & ->).
      destruct (page_pa t' (own_page _ _ _ _ _ H Ht')) as (_ & _ & _ & -> & At' & _).
      rewrite Em, decide_False, decide_False by (done || lia || naive_solver congruence). symmetry. by eapply (pte_tab own G s). }
  assert (Q : quiet s s').
  { eapply quiet_bytes; [done|]. apply bytes_store, bytes_write; [apply (vo_bytes _ _ _ H)|].
    apply Forall_replicate. unfold is_u8. lia. }
  split; [done|]. split; [|split; [|done]].
  { intros p M x [? Hp]%lookup_delete_Some. apply Ag; [by eapply own_aligned|done|congruence]. }
  eapply vm_ok_build; [done..| | | | | | |].
  - intros p r [[<- <-]|[Hne' Hp]]%lookup_insert_Some; [split_and!; done|]. by apply (vo_own _ _ _ H).
  - intros q Hq [Hn _]%lookup_insert_None. by apply (vo_other _ _ _ H).
  - pose proof (vo_dirs _ _ _ H) as [D1 D2]. split.
    + intros t' d' i' [[<- [= <- <-]]|[Hne' Ht']]%lookup_insert_Some.
      * rewrite Hdir, Em, decide_True by (done || lia). done.
      * destruct (D1 t' d' i' Ht') as (Hd' & Hi' & HP' & HA'). rewrite Hdir, Em, decide_False, decide_False; try done.
        -- congruence. -- intros [<- <-]. congruence. -- by eapply own_aligned. -- lia.
    + intros d' i' Hd' Hi'. rewrite Hdir in Hd'. rewrite Em by (lia || by eapply own_aligned). case_decide as Hc.
      * destruct Hc as [<- <-]. intros _. exists t. apply lookup_insert_eq.
      * rewrite decide_False by congruence. intros HP'. destruct (D2 d' i' Hd' Hi' HP') as (t' & Ht'). exists t'.
        rewrite lookup_insert_ne; [done|]. congruence.
  - eapply map_ok_ext; [apply (map_move own _ _ _ (vo_map _ _ _ H))|intros; apply Epte; [by apply Hdir|done]].
    + intros q M x [[_ ?]|[_ Hq]]%lookup_insert_Some; [done|auto].
    + intros q M x y Hq Hy. rewrite lookup_insert_ne; [done|]. intros <-. rewrite Ht in Hq. injection Hq as <- <-. set_solver.
    + intros d'. rewrite Hdir. auto.
    + intros d' v' Hd' _ _. by rewrite Hdir.
  - intros p Hp. split; [rewrite lookup_insert_ne; congruence|]. apply Ag; [by eapply own_aligned|congruence..].
  - intros d' Hd'. rewrite Hdir in Hd'. eapply half_agree; [apply (vo_kern _ _ _ H)|done|]. intros j Hj.
    change (word m d' j = word (bytes s) d' j).
    rewrite Em, decide_False, decide_False; [done|congruence|lia|by eapply own_aligned|lia].
  - intros d' Hd' _. by rewrite Hdir.
Qed.

(** ** Mapping a page *)

(** [own'] has more tables of directory [d] than [own]. *)
Definition grown (d : Z) (own own' : gmap Z role) : Prop :=
  own ⊆ own' /\ forall p r, own' !! p = Some r -> own !! p = Some r \/ exists i, r = RTab d i.

Lemma tgrown_refl d own : grown d own own.
Proof. split; [done|auto]. Qed.
Lemma tgrown_trans d o1 o2 o3 : grown d o1 o2 -> grown d o2 o3 -> grown d o1 o3.
Proof.
  intros [S1 G1] [S2 G2]. split; [by etransitivity|]. intros p r [Hp|?]%G2; auto.
Qed.
Lemma grown_dir d own own' e : grown d own own' -> own' !! e = Some RDir <-> own !! e = Some RDir.
Proof.
  intros [S Gr]. split; [|intros; by eapply lookup_weaken]. intros [?|[i ?]]%Gr; done.
Qed.
Lemma grown_user d own own' p M x : grown d own own' -> own' !! p = Some (RUser M x) <-> own !! p = Some (RUser M x).
Proof.
  intros [S Gr]. split; [|intros; by eapply lookup_weaken]. intros [?|[i ?]]%Gr; done.
Qed.

Definition same_ptes (own : gmap Z role) (s s' : vm) : Prop := forall d v,
  own !! d = Some RDir -> 0 <= v < NUSER -> pte (bytes s') d v = pte (bytes s) d v.

Lemma walk_alloc own G s d v va : vm_ok own G s -> own !! d = Some RDir -> 0 <= v < NUSER ->
  v * 4096 <= va < v * 4096 + 4096 ->
  exists r s' own', walkpgdir d va true s = Some (r, s') /\ quiet s s' /\ data_kept own s s' /\ same_ptes own s s' /\
    grown d own own' /\ vm_ok own' G s' /\ (r = 0 \/ tab_entry own' (bytes s') d v r).
Proof.
  intros H Hd Hv Hva. destruct (page_index v va Hv Hva) as (EX & ET & Hi & Hj).
  unfold Vm.walkpgdir, walk, pbind at 1, ld. rewrite EX, ET. fold (word (bytes s) d (v / 1024)).
  destruct (tab_of own G s d v H Hd Hv) as [[HP Hz]|(HP & t & Ht)]; rewrite HP.
  - unfold new_table. destruct (kalloc_spec own G s H) as (t & s1 & E & Q & Eb & O). rewrite (pbind_Some _ _ _ _ _ E).
    destruct O as [[-> H1]|(Hpg & Hn & H1)].
    { exists 0, s1, own. split; [done|]. split; [done|]. split; [intros ? ? ? ?; by rewrite Eb|].
      split; [intros ? ? ? ?; by rewrite Eb|]. split; [apply tgrown_refl|]. auto. }
    destruct (page_pa t Hpg) as (_ & _ & _ & _ & _ & Hlo & _).
    rewrite (proj2 (Z.eqb_neq t 0)) by (unfold KERNBASE in Hlo; lia).
    set (own1 := <[t := RUser ∅ 1]> own) in *.
    assert (Hd1 : own1 !! d = Some RDir) by (apply lookup_insert_Some; right; split; [congruence|done]).
    destruct (add_table own1 G s1 d (v / 1024) t H1 Hd1) as (Q2 & K2 & H2 & P2); [done|apply lookup_insert_eq|by rewrite Eb|].
    rewrite EX, ET. eexists (t + 4 * (v mod 1024)), _, (<[t := RTab d (v / 1024)]> own1). split; [done|].
    split; [by eapply quiet_trans|]. split.
    { intros p M x Hp. rewrite <- Eb. eapply K2. apply lookup_delete_Some. split; [congruence|].
      apply lookup_insert_Some. right. split; [congruence|done]. }
    split. { intros e w He Hw. rewrite <- Eb. apply P2; [|done]. apply lookup_insert_Some. right. split; [congruence|done]. }
    split. { unfold own1. rewrite insert_insert_eq. split; [by apply insert_subseteq|].
             intros p r [[<- <-]|[_ Hp]]%lookup_insert_Some; eauto. }
    split; [done|]. right. exists t. split; [apply lookup_insert_eq|]. split; [done|].
    split; [unfold KERNBASE in Hlo; lia|]. symmetry. eapply pte_tab; [exact H2|apply lookup_insert_eq|done].
  - destruct (do_tab own _ (vo_dirs own G s H) t d _ Ht) as (_ & _ & _ & HA). rewrite HA.
    destruct (page_pa t (own_page _ _ _ _ _ H Ht)) as (_ & _ & -> & -> & _ & Hlo & _).
    eexists _, s, own. split; [done|]. split; [by eapply quiet_refl|]. split; [by intros ? ? ? ?|]. split; [done|].
    split; [apply tgrown_refl|]. split; [done|]. right. exists t. split; [done|]. split; [done|].
    split; [unfold KERNBASE in Hlo; lia|]. symmetry. by eapply pte_tab.
Qed.

Lemma new_entry p f : page p -> 0 <= f < 4096 -> flag f PTE_COW && flag f PTE_W = false ->
  entry_ok (Z.lor (Z.lor (V2P p) f) PTE_P) /\ PTE_ADDR (Z.lor (Z.lor (V2P p) f) PTE_P) = V2P p /\
  PTE_FLAGS (Z.lor (Z.lor (V2P p) f) PTE_P) = Z.lor f PTE_P /\
  flag (Z.lor (Z.lor (V2P p) f) PTE_P) PTE_W = flag f PTE_W.
Proof.
  intros Hp Hf Hs. destruct (page_pa p Hp) as (Hu & Hal & _). rewrite <- Z.lor_assoc.
  destruct (entry_addr (V2P p) (Z.lor f PTE_P) Hu Hal) as (Hw & HA & HF); [apply lor_flags; unfold PTE_P; lia|].
  assert (Hbit : forall n, 0 <= n < 12 -> Z.testbit (Z.lor (V2P p) (Z.lor f PTE_P)) n = Z.testbit (Z.lor f PTE_P) n).
  { intros n Hn. rewrite Z.lor_spec. rewrite <- (Z.mod_pow2_bits_low (V2P p) 12) by lia. change (2 ^ 12) with 4096.
    by rewrite Hal, Z.bits_0. }
  unfold entry_ok. rewrite flag_P, flag_W, flag_COW, !Hbit, !Z.lor_spec by lia.
  change (Z.testbit PTE_P 0) with true. change (Z.testbit PTE_P 1) with false. change (Z.testbit PTE_P 9) with false.
  rewrite !orb_false_r, orb_true_r. rewrite flag_W, flag_COW in *. done.
Qed.

Lemma mappages_one own G s d v p M x f : vm_ok own G s -> own !! d = Some RDir -> 0 <= v < NUSER ->
  flag (pte (bytes s) d v) PTE_P = false -> own !! p = Some (RUser M x) -> 1 <= x ->
  0 <= f < 4096 -> flag f PTE_COW && flag f PTE_W = false ->
  (flag f PTE_W = true -> forall d' v', (d', v') ∈ M -> G = Some d') ->
  (forall d' v', (d', v') ∈ M -> flag (pte (bytes s) d' v') PTE_W = true -> G = Some d) ->
  exists r s' own1, mappages d (v * 4096) PGSIZE (V2P p) f s = Some (r, s') /\ quiet s s' /\ data_kept own s s' /\
    grown d own own1 /\
    ((r = -1 /\ vm_ok own1 G s' /\ same_ptes own s s') \/
     (r = 0 /\ vm_ok (put_role p ({[(d, v)]} ∪ M) (x - 1) own1) G s' /\
      entry_set own d v (Z.lor (Z.lor (V2P p) f) PTE_P) (pte (bytes s)) (pte (bytes s')))).
Proof.
  intros H Hd Hv HP Hp Hx Hf Hs X1 X2. destruct (vo_own _ _ _ H p _ Hp) as (Hpg & _).
  destruct (new_entry p f Hpg Hf Hs) as (Hw & HA & _ & HW).
  unfold Vm.mappages.
  assert (E1 : PGROUNDDOWN (v * 4096) = v * 4096) by (rewrite PGROUNDDOWN_spec; unfold is_u32, NUSER in *; mlia).
  assert (E2 : PGROUNDDOWN (u32 (v * 4096 + PGSIZE - 1)) = v * 4096).
  { unfold PGSIZE, NUSER in *. rewrite u32_small, PGROUNDDOWN_spec by (unfold is_u32; lia). mlia. }
  rewrite E1, E2, Z.sub_diag. change (Z.to_nat (u32 0 / PGSIZE)) with 0%nat. cbn [map_loop].
  destruct (walk_alloc own G s d v (v * 4096) H Hd Hv) as (r & s1 & own1 & E & Q & K & SP & Gr & H1 & O); [lia|].
  rewrite (pbind_Some _ _ _ _ _ E). destruct O as [->|Hr].
  { exists (-1), s1, own1. cbn [Z.eqb]. by auto 10. }
  destruct Hr as (t & Ht & Er & Hr0 & Hwd). assert (Hr : tab_entry own1 (bytes s1) d v r) by (by exists t).
  rewrite (proj2 (Z.eqb_neq r 0) Hr0). rewrite (pbind_Some (ld r) _ s1 (pte (bytes s) d v) s1).
  2: { unfold ld. rewrite Er. change (load32 _ _) with (word (bytes s1) t (v mod 1024)). by rewrite Hwd, SP. }
  rewrite HP. rewrite Z.eqb_refl. eexists 0, _, own1. split; [done|].
  apply (grown_dir d _ _ d Gr) in Hd as Hd1. apply (grown_user d _ _ p M x Gr) in Hp as Hp1.
  destruct (entry_store own1 G s1 d v r _ H1 Hv Hr (proj1 Hw)) as (Q2 & K2 & E3 & _).
  split; [by eapply quiet_trans|]. split; [|split; [done|]].
  { intros q M' x' Hq a Ha. transitivity (bytes s1 a); [|by eapply K]. eapply K2; [|done]. by apply (grown_user d _ _ _ _ _ Gr). }
  right. split; [done|]. split.
  - eapply set_entry; try done.
    + by rewrite SP.
    + by rewrite HW.
    + intros d' v' Hin. destruct (mo_user _ _ _ (vo_map _ _ _ H) _ _ _ _ _ Hp Hin) as (? & ? & _).
      rewrite SP by done. by apply X2.
  - intros d' v' Hd' Hv'. rewrite <- (SP d' v') by done. apply E3; [|done]. by apply (grown_dir d _ _ _ Gr).
Qed.
End Space.
