(* ===== verification/VmUser.v ===== *)
(** * User memory: growing, shrinking and freeing address spaces

    What the operations of [Vm] do to the pages of an address space, on the
    invariant of [VmSpace]. *)

From S2P Require Import Prelude NetBytes Vma Kalloc ByteMem Kmalloc Vm VmSpace.

(** ** Giving up entries *)

(** [own'] is [own] after some entries have been cleared: the tables are the
    same, pages lose mappers, and held pages stay held. *)
Record shrunk (own own' : gmap Z role) : Prop := {
  sh_tabs : same_tabs own own';
  sh_back p M x : own' !! p = Some (RUser M x) -> exists M0, own !! p = Some (RUser M0 x) /\ M ⊆ M0;
  sh_held p M x : own !! p = Some (RUser M x) -> 0 < x -> exists M', own' !! p = Some (RUser M' x)
}.

Lemma shrunk_refl own : shrunk own own.
Proof. split; [done|eauto|eauto]. Qed.
Lemma shrunk_trans o1 o2 o3 : shrunk o1 o2 -> shrunk o2 o3 -> shrunk o1 o3.
Proof.
  intros [T1 B1 H1] [T2 B2 H2]. split.
  - intros p r Hr. rewrite (T2 p r Hr). by apply T1.
  - intros p M x Hp. destruct (B2 p M x Hp) as (M1 & Hp1 & S1). destruct (B1 p M1 x Hp1) as (M0 & Hp0 & S0).
    exists M0. split; [done|]. set_solver.
  - intros p M x Hp Hx. destruct (H1 p M x Hp Hx) as (M1 & Hp1). eauto.
Qed.
Lemma put_role_shrunk own p M x M' : own !! p = Some (RUser M x) -> M' ⊆ M -> shrunk own (put_role p M' x own).
Proof.
  intros Hp HM. split.
  - by eapply put_role_user_tabs.
  - intros q N y [[-> [= -> ->]]|[_ Hq]]%put_role_inv; eauto.
  - intros q N y Hq Hy. destruct (decide (q = p)) as [->|]; [|rewrite put_role_ne by done; eauto].
    rewrite Hp in Hq. injection Hq as <- <-. rewrite put_role_insert by lia. rewrite lookup_insert_eq. eauto.
Qed.

(** Entries that are not present may change. *)
Lemma map_vacate own G f f' : map_ok own G f ->
  (forall d v, own !! d = Some RDir -> 0 <= v < NUSER -> f' d v = f d v \/ (flag (f d v) PTE_P = false /\ f' d v = 0)) ->
  map_ok own G f'.
Proof.
  intros [U P X S W] E. split.
  - intros p M x d v Hp Hin. destruct (U p M x d v Hp Hin) as (Hd & Hv & HP & HA).
    destruct (E d v Hd Hv) as [->|[? _]]; [done|congruence].
  - intros d v Hd Hv. destruct (E d v Hd Hv) as [->|[_ ->]]; [auto|done].
  - intros p M x d v d' v' Hp Hin Hin'. destruct (U p M x d v Hp Hin) as (Hd & Hv & HP & _).
    destruct (E d v Hd Hv) as [->|[? _]]; [eauto|congruence].
  - intros d v Hd Hv. destruct (E d v Hd Hv) as [->|[_ ->]]; [auto|done].
  - intros d v Hd Hv. destruct (E d v Hd Hv) as [->|[_ ->]]; [auto|done].
Qed.

Section User.
Context {end_ meta_base pg_array_addr data_ : Z} {cpu : nat -> nat}.
Context {KI : KernelImage end_ meta_base pg_array_addr data_}.
Context {F : Z -> Z}.

Abbreviation page := (Kalloc.page (end_ := end_)).
Abbreviation kalloc := (Vm.kalloc end_ meta_base pg_array_addr cpu).
Abbreviation kfree := (Vm.kfree end_ meta_base cpu).
Abbreviation walkpgdir := (Vm.walkpgdir end_ meta_base pg_array_addr cpu).
Abbreviation mappages := (Vm.mappages end_ meta_base pg_array_addr cpu).
Abbreviation uvm_release_pte := (Vm.uvm_release_pte end_ meta_base cpu).
Abbreviation bytes s := (mem (vmach s)).
Abbreviation vm_ok := (VmSpace.vm_ok (end_ := end_) (data_ := data_) (cpu := cpu) (F := F)).
Abbreviation quiet := (VmSpace.quiet (end_ := end_)).

(** ** Releasing entries *)

Lemma ld_entry own s d v r : tab_entry own (bytes s) d v r -> ld r s = Some (pte (bytes s) d v, s).
Proof.
  intros (t & _ & -> & _ & E). unfold ld. change (load32 _ _) with (word (bytes s) t (v mod 1024)). by rewrite E.
Qed.

Lemma user_managed own G s p r : vm_ok own G s -> own !! p = Some r ->
  kpage_is_managed (kk (vmach s)) (V2P p) = true.
Proof.
  intros H Hp. destruct (vo_own _ _ _ H p r Hp) as (Hpg & Hm & _). unfold kpage_is_managed.
  destruct (page_idx (KM := kernel_map own G s H) p Hpg) as (_ & -> & _). done.
Qed.

(** The page that a present entry maps. *)
Lemma mapped_page own G s d v : vm_ok own G s -> own !! d = Some RDir -> 0 <= v < NUSER ->
  flag (pte (bytes s) d v) PTE_P = true ->
  exists p M x, own !! p = Some (RUser M x) /\ (d, v) ∈ M /\ page p /\ PTE_ADDR (pte (bytes s) d v) = V2P p.
Proof.
  intros H Hd Hv HP. destruct (mo_pte _ _ _ (vo_map _ _ _ H) d v Hd Hv HP) as (p & M & x & Hp & Hin).
  destruct (mo_user _ _ _ (vo_map _ _ _ H) _ _ _ _ _ Hp Hin) as (_ & _ & _ & HA).
  exists p, M, x. split; [done|]. split; [done|]. split; [|done]. by eapply own_page.
Qed.

Lemma release_spec own G s d v r : vm_ok own G s -> own !! d = Some RDir -> 0 <= v < NUSER ->
  tab_entry own (bytes s) d v r -> flag (pte (bytes s) d v) PTE_P = true ->
  exists s' p M x, own !! p = Some (RUser M x) /\ (d, v) ∈ M /\ PTE_ADDR (pte (bytes s) d v) = V2P p /\
    uvm_release_pte r s = Some (1, s') /\ quiet s s' /\ data_kept own s s' /\
    entry_set own d v 0 (pte (bytes s)) (pte (bytes s')) /\
    vm_ok (put_role p (M ∖ {[(d, v)]}) x own) G s'.
Proof.
  intros H Hd Hv Hr HP. destruct (mapped_page own G s d v H Hd Hv HP) as (p & M & x & Hp & Hin & Hpg & HA).
  destruct (page_pa p Hpg) as (_ & _ & Hbad & HPV & _).
  unfold Vm.uvm_release_pte. pose proof Hr as (t & _ & _ & Hr0 & _). rewrite (proj2 (Z.eqb_neq r 0) Hr0).
  rewrite (pbind_Some _ _ _ _ _ (ld_entry _ _ _ _ _ Hr)), HP. cbn [negb]. rewrite HA.
  unfold bad_pa in Hbad. apply orb_false_iff in Hbad as [[E1 E2]%orb_false_iff E3]. rewrite E1.
  rewrite (pbind_Some (kpage_managed (V2P p)) _ s true s) by (unfold kpage_managed; by rewrite (user_managed own G s p _ H Hp)).
  rewrite E2, E3. cbn [orb negb]. rewrite HPV.
  destruct (kfree_raw own G s p _ H Hp) as (s1 & E & Q & Eb & R1 & R2). rewrite (pbind_Some _ _ _ _ _ E).
  destruct (entry_store own G s d v r 0 H Hv Hr) as (Q' & K' & Es & _); [done|].
  exists (with_bytes (store32 (bytes s1) r 0) s1), p, M, x. split; [done|]. split; [done|]. split; [done|]. split; [done|].
  pose proof (clear_entry own G s s1 d v r p M x H Hv Hr Hp Hin Q Eb) as Hc. rewrite Eb in *.
  split; [|split; [done|split; [done|]]].
  - apply quiet_with; [done|apply Q'].
  - apply Hc; [|done]. cbn [rcount] in R1. lia.
Qed.

(** The entries [lo .. hi-1] of directory [d] are gone. *)
Definition cleared (own : gmap Z role) (d lo hi : Z) (s s' : vm) : Prop := forall d' v,
  own !! d' = Some RDir -> 0 <= v < NUSER ->
  if decide (d' = d /\ lo <= v < hi) then flag (pte (bytes s') d' v) PTE_P = false
  else pte (bytes s') d' v = pte (bytes s) d' v.

Lemma PGADDR_next v : 0 <= v < NUSER -> PGADDR (v / 1024 + 1) 0 0 = (v / 1024 + 1) * 1024 * 4096.
Proof.
  intros Hv. unfold PGADDR, PDXSHIFT, PTXSHIFT, NUSER in *. rewrite Z.shiftl_0_l, !Z.lor_0_r, Z.shiftl_mul_pow2 by lia.
  change (2 ^ 22) with 4194304. rewrite u32_small by (unfold is_u32; mlia). lia.
Qed.

(** One round of [deallocuvm] where there is a table. *)
Lemma release_step own G s d v r : vm_ok own G s -> own !! d = Some RDir -> 0 <= v < NUSER ->
  tab_entry own (bytes s) d v r ->
  exists s' own', (if flag (pte (bytes s) d v) PTE_P then
      pbind (uvm_release_pte r) (fun rel => if (rel <? 0) && negb (rel =? -2) then st r 0 else pret tt)
      else pret tt) s = Some (tt, s') /\
    quiet s s' /\ shrunk own own' /\ data_kept own s s' /\ vm_ok own' G s' /\ cleared own d v (v + 1) s s'.
Proof.
  intros H Hd Hv Hr. destruct (flag (pte (bytes s) d v) PTE_P) eqn:HP.
  - destruct (release_spec own G s d v r H Hd Hv Hr HP) as (s' & p & M & x & Hp & Hin & _ & E & Q & K & Es & H').
    rewrite (pbind_Some _ _ _ _ _ E). exists s', (put_role p (M ∖ {[(d, v)]}) x own). split; [done|]. split; [done|].
    split; [apply (put_role_shrunk own p M x); [done|set_solver]|]. split; [done|]. split; [done|].
    intros d' v' Hd' Hv'. rewrite Es by done.
    destruct (decide ((d', v') = (d, v))) as [[= -> ->]|Hne]; [by rewrite decide_True by lia|].
    rewrite decide_False; [done|]. intros [-> ?]. apply Hne. f_equal. lia.
  - exists s, own. split; [done|]. split; [by eapply quiet_refl|]. split; [apply shrunk_refl|]. split; [by intros ? ? ? ?|].
    split; [done|]. intros d' v' Hd' Hv'. case_decide as Hc; [|done]. destruct Hc as [-> Hc].
    by replace v' with v by lia.
Qed.

Lemma data_kept_trans own own' s s1 s' : shrunk own own' -> data_kept own s s1 -> data_kept own' s1 s' -> data_kept own' s s'.
Proof.
  intros S K1 K2 p M x Hp a Ha. rewrite (K2 p M x Hp a Ha). destruct (sh_back _ _ S _ _ _ Hp) as (M0 & Hp0 & _).
  by apply (K1 p M0 x Hp0).
Qed.

Lemma dealloc_loop_spec fuel own G s d v oldsz : vm_ok own G s -> own !! d = Some RDir ->
  0 <= v <= NUSER -> 0 <= oldsz <= KERNBASE -> (oldsz + 4095) / 4096 - v <= Z.of_nat fuel ->
  exists s' own', dealloc_loop end_ meta_base pg_array_addr cpu fuel d (v * 4096) oldsz s = Some (tt, s') /\
    quiet s s' /\ shrunk own own' /\ data_kept own' s s' /\ vm_ok own' G s' /\
    cleared own d v ((oldsz + 4095) / 4096) s s'.
Proof.
  set (hi := (oldsz + 4095) / 4096). revert own s v.
  assert (Hdone : forall own s v, vm_ok own G s -> oldsz <= v * 4096 -> exists s' own', pret tt s = Some (tt, s') /\
    quiet s s' /\ shrunk own own' /\ data_kept own' s s' /\ vm_ok own' G s' /\ cleared own d v hi s s').
  { intros own s v H Hge. exists s, own. split; [done|]. split; [by eapply quiet_refl|]. split; [apply shrunk_refl|].
    split; [by intros ? ? ? ?|]. split; [done|]. intros d' v' _ _. rewrite decide_False; [done|]. unfold hi. mlia. }
  induction fuel as [|fuel IH]; intros own s v H Hd Hv Ho Hf; cbn [dealloc_loop].
  - destruct (Z.ltb_spec (v * 4096) oldsz); [unfold hi in *; mlia|]. by apply Hdone.
  - destruct (Z.ltb_spec (v * 4096) oldsz) as [Hlt|Hge]; [|by apply Hdone]. cbn [negb].
    assert (Hv' : 0 <= v < NUSER) by (unfold KERNBASE, NUSER in *; lia).
    destruct (walk_none own G s d v (v * 4096) H Hd Hv') as (r & E & O); [lia|]. rewrite (pbind_Some _ _ _ _ _ E).
    destruct O as [(-> & HP & _)|Hr].
    + cbn [Z.eqb]. destruct (page_index v (v * 4096) Hv') as (-> & _ & Hi & _); [lia|]. rewrite PGADDR_next by done.
      destruct (IH own s ((v / 1024 + 1) * 1024) H Hd) as (s' & own' & E' & Q & S & K & H' & C); [unfold NUSER; lia|done|mlia|].
      exists s', own'. split; [done|]. split; [done|]. split; [done|]. split; [done|]. split; [done|].
      intros d' v' Hd' Hv1. pose proof (C d' v' Hd' Hv1) as Hc.
      destruct (decide (d' = d /\ v <= v' < hi)) as [[-> Hr]|Hn]; [|rewrite decide_False in Hc by (intros [? ?]; apply Hn; split; [done|mlia]); done].
      case_decide; [done|]. rewrite Hc. unfold pte. replace (v' / 1024) with (v / 1024) by mlia. by rewrite HP.
    + pose proof Hr as (t & _ & _ & Hr0 & _). rewrite (proj2 (Z.eqb_neq r 0) Hr0).
      rewrite (pbind_Some _ _ _ _ _ (ld_entry _ _ _ _ _ Hr)).
      destruct (release_step own G s d v r H Hd Hv' Hr) as (s1 & own1 & E1 & Q1 & S1 & K1 & H1 & C1).
      rewrite (pbind_Some _ _ _ _ _ E1).
      assert (HT : forall e, own1 !! e = Some RDir <-> own !! e = Some RDir) by (intros e; by apply (sh_tabs _ _ S1)).
      destruct (IH own1 s1 (v + 1) H1) as (s' & own' & E' & Q & S & K & H' & C); [by apply HT|lia|done|lia|].
      exists s', own'. split.
      { replace (v * 4096 +u PGSIZE) with ((v + 1) * 4096); [done|].
        unfold PGSIZE, NUSER in *. rewrite u32_small; [lia|]. unfold is_u32. lia. }
      pose proof (shrunk_trans _ _ _ S1 S) as S'.
      split; [by eapply quiet_trans|]. split; [exact S'|]. split; [by eapply data_kept_trans|].
      split; [done|]. intros d' v' Hd' Hv1. pose proof (C d' v' (proj2 (HT d') Hd') Hv1) as Hc.
      pose proof (C1 d' v' Hd' Hv1) as Hc1. assert (v < hi) by (unfold hi; mlia). repeat case_decide; try lia; congruence.
Qed.

(** ** Directories *)

(** Directory [d] maps nothing. *)
Definition vacant (m : Z -> Z) (d : Z) : Prop := forall v, 0 <= v < NUSER -> flag (pte m d v) PTE_P = false.

(** The entries of all other directories. *)
Definition others_same (own : gmap Z role) (d : Z) (s s' : vm) : Prop := forall d' v,
  own !! d' = Some RDir -> d' <> d -> 0 <= v < NUSER -> pte (bytes s') d' v = pte (bytes s) d' v.

(** The page of a table without entries is freed and its slot cleared. *)
Lemma drop_table own G s s1 d i t : vm_ok own G s -> own !! t = Some (RTab d i) -> vacant (bytes s) d ->
  quiet s s1 -> bytes s1 = bytes s -> refs (kk (vmach s1)) t = 0 ->
  (forall q, page q -> q <> t -> refs (kk (vmach s1)) q = refs (kk (vmach s)) q) ->
  let s' := with_bytes (store32 (bytes s1) (d + 4 * i) 0) s1 in
  quiet s s' /\ data_kept own s s' /\ others_same own d s s' /\ vacant (bytes s') d /\ vm_ok (delete t own) G s'.
Proof.
  intros H Ht Hvac Q Eb R1 R2 s'. pose proof (vo_dirs _ _ _ H) as HD.
  destruct (do_tab own _ HD t d i Ht) as (Hd & Hi & HP & HA).
  pose proof (own_aligned _ _ _ _ _ H Ht) as At. pose proof (own_aligned _ _ _ _ _ H Hd) as Ad.
  assert (Hne : t <> d) by congruence.
  assert (Em : forall q j, aligned q -> 0 <= j < 1024 -> word (bytes s') q j =
    if decide (d = q /\ i = j) then 0 else word (bytes s) q j).
  { intros q j Aq Hj. change (bytes s') with (store32 (bytes s1) (d + 4 * i) 0). rewrite Eb. apply word_store; done || lia. }
  assert (Ag : forall q, aligned q -> q <> d -> agree q (bytes s) (bytes s')).
  { intros q Aq Hq. change (bytes s') with (store32 (bytes s1) (d + 4 * i) 0). rewrite Eb. apply store_agree; try done. lia. }
  assert (Hdir : forall e, delete t own !! e = Some RDir <-> own !! e = Some RDir).
  { intros e. rewrite lookup_delete_Some. split; [tauto|]. intros He. split; [congruence|done]. }
  assert (Ep : forall d' v, own !! d' = Some RDir -> 0 <= v < NUSER ->
    pte (bytes s') d' v = if decide (d' = d /\ v / 1024 = i) then 0 else pte (bytes s) d' v).
  { intros d' v Hd' Hv. assert (Hj : 0 <= v / 1024 < 1024 /\ 0 <= v mod 1024 < 1024) by (unfold NUSER in Hv; mlia).
    unfold pte at 1. rewrite Em by ((by eapply own_aligned) || lia).
    destruct (decide (d = d' /\ i = v / 1024)) as [[<- <-]|Hn]; [by rewrite decide_True by done|].
    rewrite decide_False by (intros [-> ?]; apply Hn; done).
    destruct (tab_of own G s d' v H Hd' Hv) as [[-> ->]|(E1 & t' & Ht')]; [done|]. rewrite E1.
    destruct (do_tab own _ HD t' d' _ Ht') as (_ & _ & _ & ->).
    destruct (page_pa t' (own_page _ _ _ _ _ H Ht')) as (_ & _ & _ & -> & At' & _).
    rewrite (word_agree (bytes s)) by ((apply Ag; [done|congruence]) || lia). symmetry. by eapply (pte_tab own G s). }
  assert (Hvac' : vacant (bytes s') d).
  { intros v Hv. rewrite Ep by done. case_decide; [done|]. by apply Hvac. }
  assert (Q' : quiet s s').
  { apply quiet_with; [done|]. apply bytes_store. rewrite Eb. apply (vo_bytes _ _ _ H). }
  split; [done|]. split; [|split; [|split; [done|]]].
  { intros p M x Hp. apply Ag; [by eapply own_aligned|congruence]. }
  { intros d' v Hd' Hdd Hv. rewrite Ep, decide_False by tauto. done. }
  eapply vm_ok_build; [done..| | | | | | |].
  - intros p r [Hpt Hp]%lookup_delete_Some. destruct (vo_own _ _ _ H p r Hp) as (Hpg & Hm & Hr & Hrest).
    split_and!; try apply Hrest; [done|by rewrite (proj1 (proj1 (proj2 (proj2 Q))))|]. cbn. by rewrite R2.
  - intros q Hq Hn. destruct (decide (q = t)) as [->|Hqt].
    + cbn. rewrite R1. symmetry. apply (vo_own _ _ _ H t _ Ht).
    + cbn. rewrite R2 by done. apply (vo_other _ _ _ H); [done|]. by rewrite lookup_delete_ne in Hn.
  - split.
    + intros t' d' i' [Hne' Ht']%lookup_delete_Some. destruct (do_tab own _ HD t' d' i' Ht') as (Hd' & Hi' & HP' & HA').
      rewrite Hdir, Em by ((by eapply own_aligned) || lia). rewrite decide_False; [done|]. intros [<- <-].
      apply Hne'. eapply own_unique; [done..|]. congruence.
    + intros d' i' Hd' Hi'. rewrite Hdir in Hd'. rewrite Em by ((by eapply own_aligned) || lia).
      case_decide as Hc; [done|]. intros HP'. destruct (do_pde own _ HD d' i' Hd' Hi' HP') as (t' & Ht'). exists t'.
      rewrite lookup_delete_ne; [done|]. intros <-. rewrite Ht in Ht'. injection Ht' as -> ->. tauto.
  - assert (Hm : map_ok (delete t own) G (pte (bytes s))).
    { apply (map_move own _ _ _ (vo_map _ _ _ H)).
      + intros q M x [_ Hq]%lookup_delete_Some. auto.
      + intros q M x y Hq _. rewrite lookup_delete_ne; congruence.
      + intros e. rewrite Hdir. auto.
      + intros e v He _ _. by rewrite Hdir. }
    eapply map_vacate; [exact Hm|..].
    + intros d' v Hd' Hv. rewrite Hdir in Hd'. rewrite Ep by done. case_decide as Hc; [|by left].
      right. destruct Hc as [-> _]. split; [by apply Hvac|done].
  - intros p Hp. split; [rewrite lookup_delete_ne; congruence|]. apply Ag; [by eapply own_aligned|].
    intros ->. congruence.
  - intros d' Hd'. rewrite Hdir in Hd'. eapply half_agree; [apply (vo_kern _ _ _ H)|done|]. intros j Hj.
    rewrite Em by ((by eapply own_aligned) || lia). rewrite decide_False by lia. done.
  - intros d' Hd' _. by rewrite Hdir.
Qed.

(** The results of giving up tables of [d]. *)
Record pruned (d : Z) (own own' : gmap Z role) (s s' : vm) : Prop := {
  pr_quiet : quiet s s';
  pr_data : data_kept own' s s';
  pr_others : others_same own' d s s';
  pr_vacant : vacant (bytes s') d;
  pr_own : grown d own' own
}.

Lemma pruned_trans d o1 o2 o3 s1 s2 s3 : pruned d o1 o2 s1 s2 -> pruned d o2 o3 s2 s3 -> pruned d o1 o3 s1 s3.
Proof.
  intros [Q1 D1 O1 V1 G1] [Q2 D2 O2 V2 G2]. split; [by eapply quiet_trans| | |done|by eapply tgrown_trans].
  - intros p M x Hp a Ha. rewrite (D2 p M x Hp a Ha). apply (D1 p M x); [|done]. by apply (grown_user d _ _ _ _ _ G2).
  - intros d' v Hd' Hne Hv. rewrite O2 by done. apply O1; try done. by apply (grown_dir d _ _ _ G2).
Qed.

Lemma free_slot own G s d i : vm_ok own G s -> own !! d = Some RDir -> vacant (bytes s) d -> 0 <= i < 512 ->
  exists s' own', (let! w := ld (d + 4 * i) in
     if flag w PTE_P then
       let pa := PTE_ADDR w in
       if bad_pa pa then st (d + 4 * i) 0 else kfree (P2V pa) >>> st (d + 4 * i) 0
     else pret tt)%pm s = Some (tt, s') /\
    pruned d own own' s s' /\ vm_ok own' G s' /\ (forall t, own' !! t <> Some (RTab d i)).
Proof.
  intros H Hd Hvac Hi. unfold ld, pbind at 1. fold (word (bytes s) d i). pose proof (vo_dirs _ _ _ H) as HD.
  destruct (flag (word (bytes s) d i) PTE_P) eqn:HP.
  - destruct (do_pde own _ HD d i Hd Hi HP) as (t & Ht). destruct (do_tab own _ HD t d i Ht) as (_ & _ & _ & HA).
    cbn zeta. rewrite HA. destruct (page_pa t (own_page _ _ _ _ _ H Ht)) as (_ & _ & -> & -> & _).
    destruct (kfree_raw own G s t _ H Ht) as (s1 & E & Q & Eb & R1 & R2). rewrite (pbind_Some _ _ _ _ _ E).
    destruct (drop_table own G s s1 d i t H Ht Hvac Q Eb) as (Q' & K & O & V & H'); [cbn in R1; lia|done|].
    eexists _, (delete t own). split; [done|]. split; [|split; [done|]].
    + split; [done| | |done|].
      * intros p M x [_ Hp]%lookup_delete_Some. by eapply K.
      * intros d' v [_ Hd']%lookup_delete_Some. by apply O.
      * split; [apply delete_subseteq|]. intros p r Hp. destruct (decide (p = t)) as [->|Hne].
        -- right. exists i. congruence.
        -- left. by rewrite lookup_delete_ne.
    + intros t' [Hne Ht']%lookup_delete_Some. apply Hne. eapply (own_unique own G s H); [done..|].
      destruct (do_tab own _ HD t' d i Ht') as (_ & _ & _ & HA'). congruence.
  - exists s, own. split; [done|]. split; [split|split; [done|]].
    + by eapply quiet_refl. + by intros ? ? ? ?. + done. + done. + apply tgrown_refl.
    + intros t Ht. destruct (do_tab own _ HD t d i Ht) as (_ & _ & ? & _). congruence.
Qed.

Lemma free_tables_spec n own G s d i : vm_ok own G s -> own !! d = Some RDir -> vacant (bytes s) d ->
  0 <= i -> i + Z.of_nat n = 512 -> (forall t j, own !! t = Some (RTab d j) -> i <= j) ->
  exists s' own', free_tables end_ meta_base cpu n d i s = Some (tt, s') /\
    pruned d own own' s s' /\ vm_ok own' G s' /\ (forall t j, own' !! t <> Some (RTab d j)).
Proof.
  revert own s i. induction n as [|n IH]; intros own s i H Hd Hvac Hi Hn Hlow; cbn [free_tables].
  { exists s, own. split; [done|]. split; [split|split; [done|]].
    + by eapply quiet_refl. + by intros ? ? ? ?. + done. + done. + apply tgrown_refl.
    + intros t j Ht. pose proof (Hlow t j Ht). destruct (do_tab own _ (vo_dirs _ _ _ H) t d j Ht) as (_ & ? & _). lia. }
  destruct (free_slot own G s d i H Hd Hvac) as (s1 & own1 & E & P & H1 & Hn1); [lia|].
  rewrite (pbind_Some _ _ _ _ _ E).
  destruct (IH own1 s1 (i + 1) H1) as (s' & own' & E' & P' & H' & Hn').
  - by apply (grown_dir d _ _ _ (pr_own _ _ _ _ _ P)).
  - apply P.
  - lia.
  - lia.
  - intros t j Ht. destruct (decide (j = i)) as [->|]; [by destruct (Hn1 t)|].
    assert (own !! t = Some (RTab d j)) as Ht0 by (eapply lookup_weaken; [done|apply (pr_own _ _ _ _ _ P)]).
    pose proof (Hlow t j Ht0). lia.
  - exists s', own'. split; [done|]. split; [by eapply pruned_trans|done].
Qed.

(** ** Freeing an address space *)

(** [vm_current_addrspace_for_pgdir] of a directory that is not the current one. *)
Lemma not_current own G s d : vm_ok own G s -> d <> 0 -> ~ cur_dir s d -> vm_current_addrspace_for_pgdir d s = Some (0, s).
Proof.
  intros H Hd0 Hc. unfold vm_current_addrspace_for_pgdir. rewrite (pbind_Some _ _ s (curproc s) s) by done.
  pose proof (ko_cur own s (vo_kern _ _ _ H)) as Hcur. destruct (curproc s) as [q|] eqn:Eq; [|done].
  destruct Hcur as (a & Ha0 & Ha & Hd). rewrite (proj2 (Z.eqb_neq _ 0) Ha0), (pbind_Some _ _ s a s) by (unfold space_at; by rewrite Ha).
  destruct (page_pa _ (own_page _ _ _ _ _ H Hd)) as (_ & _ & _ & _ & _ & Hlo & _).
  rewrite (proj2 (Z.eqb_neq (pgdir a) 0)) by (unfold KERNBASE in Hlo; lia).
  rewrite (pbind_Some _ _ _ _ _ (effective own G s d H)). destruct (Z.eqb_spec d (pgdir a)) as [E|]; [|done].
  destruct Hc. by exists q, a.
Qed.

(** Removing a directory that has neither entries nor tables left. *)
Lemma drop_dir own G s s' d : vm_ok own G s -> own !! d = Some RDir -> ~ cur_dir s d ->
  vacant (bytes s) d -> (forall t j, own !! t <> Some (RTab d j)) ->
  quiet s s' -> bytes s' = bytes s -> refs (kk (vmach s')) d = 0 ->
  (forall q, page q -> q <> d -> refs (kk (vmach s')) q = refs (kk (vmach s)) q) ->
  vm_ok (delete d own) G s'.
Proof.
  intros H Hd Hcur Hvac Ht Q Eb R1 R2. pose proof (vo_dirs _ _ _ H) as [D1 D2].
  eapply vm_ok_build; [done..| | | | | | |].
  - intros p r [Hpt Hp]%lookup_delete_Some. destruct (vo_own _ _ _ H p r Hp) as (Hpg & Hm & Hr & Hrest).
    split_and!; try apply Hrest; [done|by rewrite (proj1 (proj1 (proj2 (proj2 Q))))|]. by rewrite R2.
  - intros q Hq Hn. destruct (decide (q = d)) as [->|Hqt].
    + rewrite R1. symmetry. apply (vo_own _ _ _ H d _ Hd).
    + rewrite R2 by done. apply (vo_other _ _ _ H); [done|]. by rewrite lookup_delete_ne in Hn.
  - rewrite Eb. split.
    + intros t d' i [Hne Ht']%lookup_delete_Some. destruct (D1 t d' i Ht') as (Hd' & Hrest). split; [|done].
      rewrite lookup_delete_ne; [done|]. intros <-. by apply (Ht t i).
    + intros d' i [Hne Hd']%lookup_delete_Some Hi HP. destruct (D2 d' i Hd' Hi HP) as (t & Ht'). exists t.
      rewrite lookup_delete_ne; [done|]. congruence.
  - rewrite Eb. apply (map_move own _ _ _ (vo_map _ _ _ H)).
    + intros q M x [_ Hq]%lookup_delete_Some. auto.
    + intros q M x y Hq _. rewrite lookup_delete_ne; congruence.
    + intros e [_ He]%lookup_delete_Some. auto.
    + intros e v He Hv HP. rewrite lookup_delete_ne; [done|]. intros <-. rewrite Hvac in HP; done.
  - intros p Hp. split; [rewrite lookup_delete_ne; congruence|]. by rewrite Eb.
  - intros d' [_ Hd']%lookup_delete_Some. eapply half_agree; [apply (vo_kern _ _ _ H)|done|]. intros. by rewrite Eb.
  - intros d' Hd' Hc. rewrite lookup_delete_ne; [done|]. intros <-. done.
Qed.

Lemma PGROUNDUP_page n : 0 <= n <= KERNBASE -> PGROUNDUP n = (n + 4095) / 4096 * 4096.
Proof.
  unfold KERNBASE. intros Hn. unfold PGROUNDUP, PGSIZE. rewrite land_high, u32_small by (unfold is_u32; lia).
  rewrite Z.mod_small by lia. mlia.
Qed.

(** [deallocuvm_internal] up to the range table. *)
Lemma dealloc_internal_spec own G s d as_ oldsz newsz : vm_ok own G s -> own !! d = Some RDir ->
  0 <= newsz < oldsz -> oldsz <= KERNBASE ->
  exists s1 own1,
    deallocuvm_internal end_ meta_base pg_array_addr cpu d as_ oldsz newsz s = (shrink_space as_ newsz >>> pret newsz)%pm s1 /\
    quiet s s1 /\ shrunk own own1 /\ data_kept own1 s s1 /\ vm_ok own1 G s1 /\
    cleared own d ((newsz + 4095) / 4096) ((oldsz + 4095) / 4096) s s1.
Proof.
  intros H Hd Hn Ho. unfold deallocuvm_internal. rewrite (pbind_Some _ _ _ _ _ (effective own G s d H)).
  destruct (page_pa d (own_page _ _ _ _ _ H Hd)) as (_ & _ & _ & _ & Al & Hlo & Hhi & Hdat).
  rewrite (proj2 (Z.eqb_neq d 0)) by (unfold KERNBASE in Hlo; lia). unfold aligned in Al. rewrite Al.
  change (negb (0 =? 0)) with false. rewrite (proj2 (Z.ltb_ge d KERNBASE)) by lia. cbn [negb].
  rewrite (pbind_Some _ _ s true s) by (eapply kaddr_writable_spec; [done|unfold PGSIZE in *; lia]). cbn [negb].
  rewrite Z.geb_leb, (proj2 (Z.leb_gt oldsz newsz)) by lia. rewrite PGROUNDUP_page by lia.
  set (v := (newsz + 4095) / 4096).
  destruct (dealloc_loop_spec (pages_to (v * 4096) oldsz) own G s d v oldsz H Hd) as (s1 & own1 & E & Q & S & K & H1 & C).
  - unfold v, NUSER, KERNBASE in *. mlia.
  - lia.
  - unfold pages_to, PGSIZE. mlia.
  - rewrite (pbind_Some _ _ _ _ _ E). by exists s1, own1.
Qed.

Record freed (d : Z) (own own' : gmap Z role) (s s' : vm) : Prop := {
  fr_quiet : quiet s s';
  fr_data : data_kept own' s s';
  fr_others : others_same own' d s s';
  fr_dir : own' !! d = None;
  fr_tab t j : own' !! t <> Some (RTab d j);
  fr_back p r : not_user r -> own' !! p = Some r -> own !! p = Some r;
  fr_keep p r : not_user r -> own !! p = Some r -> p <> d -> (forall j, r <> RTab d j) -> own' !! p = Some r;
  fr_user p M x : own' !! p = Some (RUser M x) -> exists M0, own !! p = Some (RUser M0 x) /\ M ⊆ M0;
  fr_held p M x : own !! p = Some (RUser M x) -> 0 < x -> exists M', own' !! p = Some (RUser M' x)
}.

Lemma freevm_spec own G s d : vm_ok own G s -> own !! d = Some RDir -> ~ cur_dir s d ->
  exists s' own', freevm end_ meta_base pg_array_addr cpu d s = Some (tt, s') /\ vm_ok own' G s' /\ freed d own own' s s'.
Proof.
  intros H Hd Hcur. destruct (page_pa d (own_page _ _ _ _ _ H Hd)) as (_ & _ & _ & _ & _ & Hlo & _).
  assert (Hd0 : d <> 0) by (unfold KERNBASE in Hlo; lia).
  unfold freevm, deallocuvm. rewrite (proj2 (Z.eqb_neq d 0) Hd0).
  destruct (dealloc_internal_spec own G s d 0 KERNBASE 0 H Hd) as (s1 & own1 & E1 & Q1 & S1 & K1 & H1 & C1); [unfold KERNBASE; lia|lia|].
  rewrite (pbind_Some _ _ s 0 s1).
  2: { rewrite (pbind_Some _ _ _ _ _ (not_current own G s d H Hd0 Hcur)). by rewrite E1. }
  assert (HT : forall p r, not_user r -> own1 !! p = Some r <-> own !! p = Some r) by (intros; by apply (sh_tabs _ _ S1)).
  assert (V1 : vacant (bytes s1) d).
  { intros v Hv. pose proof (C1 d v Hd Hv) as Hc. rewrite decide_True in Hc; [done|]. split; [done|].
    change ((0 + 4095) / 4096) with 0. change ((KERNBASE + 4095) / 4096) with NUSER. done. }
  destruct (free_tables_spec (Z.to_nat (PDX KERNBASE)) own1 G s1 d 0 H1) as (s2 & own2 & E2 & P2 & H2 & N2).
  { by apply HT. } { done. } { lia. } { done. }
  { intros t j Ht. destruct (do_tab own1 _ (vo_dirs _ _ _ H1) t d j Ht) as (_ & ? & _). lia. }
  rewrite (pbind_Some _ _ _ _ _ E2). pose proof (pr_own _ _ _ _ _ P2) as Gr.
  assert (Hd2 : own2 !! d = Some RDir) by (apply (grown_dir d _ _ _ Gr), HT; done).
  destruct (kfree_raw own2 G s2 d _ H2 Hd2) as (s' & E3 & Q3 & Eb3 & R1 & R2).
  assert (Q2 : quiet s s2) by (eapply quiet_trans; [done|apply P2]).
  exists s', (delete d own2). split; [done|]. split.
  { eapply (drop_dir own2 G s2 s'); try done; [|apply P2].
    destruct Q2 as ((_ & _ & _ & Cp & _ & Cs) & _). unfold cur_dir. by rewrite Cp, Cs. }
  split.
  - by eapply quiet_trans.
  - intros p M x [_ Hp]%lookup_delete_Some a Ha. rewrite Eb3, (pr_data _ _ _ _ _ P2 p M x Hp a Ha).
    apply (K1 p M x); [|done]. by apply (grown_user d _ _ _ _ _ Gr).
  - intros d' v [_ Hd']%lookup_delete_Some Hne Hv. rewrite Eb3, (pr_others _ _ _ _ _ P2) by done.
    assert (own !! d' = Some RDir) as Hd0' by (by apply HT, (grown_dir d _ _ _ Gr)).
    pose proof (C1 d' v Hd0' Hv) as Hc. rewrite decide_False in Hc by tauto. done.
  - apply lookup_delete_eq.
  - intros t j [_ Ht]%lookup_delete_Some. by apply (N2 t j).
  - intros p r Hr [_ Hp]%lookup_delete_Some. apply HT; [done|]. eapply lookup_weaken; [done|apply Gr].
  - intros p r Hr Hp Hne Hj. rewrite lookup_delete_ne by done. apply HT in Hp; [|done].
    destruct (proj2 Gr p r Hp) as [?|[j ->]]; [done|by destruct (Hj j)].
  - intros p M x [_ Hp]%lookup_delete_Some. apply (grown_user d _ _ _ _ _ Gr) in Hp. by apply (sh_back _ _ S1).
  - intros p M x Hp Hx. destruct (sh_held _ _ S1 p M x Hp Hx) as (M' & Hp'). exists M'.
    rewrite lookup_delete_ne; [by apply (grown_user d _ _ _ _ _ Gr)|]. intros <-. congruence.
Qed.

(** ** New directories *)

Lemma share_loop_run n d i s : pde_ref_ready s = true -> (forall j, is_u32 (kref s j)) -> aligned d ->
  0 <= i -> i + Z.of_nat n <= 1024 -> bytes_ok (bytes s) ->
  exists m, share_loop n d i s = Some (tt, with_bytes m s) /\ bytes_ok m /\
    (forall q, aligned q -> q <> d -> agree q (bytes s) m) /\
    (forall j, 0 <= j < 1024 -> word m d j = if decide (i <= j < i + Z.of_nat n) then kref s j else word (bytes s) d j).
Proof.
  intros Hr Hu Ad. revert s i Hr Hu. induction n as [|n IH]; intros s i Hr Hu Hi Hn B; cbn [share_loop].
  { exists (bytes s). split; [by destruct s as [[] ? ? ? ? ? ? ? ? ? ? ?]|]. split; [done|]. split; [by intros ? ? ? ?|].
    intros j Hj. by rewrite decide_False by lia. }
  rewrite (pbind_Some _ _ s tt (with_bytes (store32 (bytes s) (d + 4 * i) (kref s i)) s)).
  2: { unfold vm_kernel_pde_canonical, pbind. by rewrite Hr. }
  destruct (IH (with_bytes (store32 (bytes s) (d + 4 * i) (kref s i)) s) (i + 1)) as (m & E & B' & A & W); try done.
  { lia. } { lia. } { by apply bytes_store. }
  exists m. split; [done|]. split; [done|]. split.
  - intros q Aq Hq a Ha. rewrite (A q Aq Hq a Ha). apply (store_agree _ d i _ q); try done. lia.
  - intros j Hj. rewrite W by done. change (kref (with_bytes _ s) j) with (kref s j).
    change (bytes (with_bytes ?x s)) with x. rewrite word_store by (done || lia).
    repeat case_decide; try done; try lia. by replace j with i by lia.
Qed.

(** A held page becomes a directory without user entries. *)
Lemma add_dir own G s d m : vm_ok own G s -> own !! d = Some (RUser ∅ 1) -> bytes_ok m ->
  (forall q, aligned q -> q <> d -> agree q (bytes s) m) ->
  (forall j, 0 <= j < 512 -> word m d j = 0) -> half_ok s m d ->
  vm_ok (<[d := RDir]> own) G (with_bytes m s) /\ vacant m d.
Proof.
  intros H Hd B A Wz Hh. assert (Q : quiet s (with_bytes m s)) by (by eapply quiet_bytes).
  assert (V : forall v, 0 <= v < NUSER -> pte m d v = 0).
  { intros v Hv. unfold pte. rewrite Wz by (unfold NUSER in Hv; mlia). done. }
  split; [|intros v Hv; by rewrite V]. pose proof (vo_dirs _ _ _ H) as [D1 D2].
  assert (Hdir : forall e, own !! e = Some RDir -> e <> d) by congruence.
  eapply vm_ok_build; [done..| | | | | | |].
  - destruct (vo_own _ _ _ H d _ Hd) as (? & ? & ? & ? & _ & ?).
    intros p r [[<- <-]|[Hne Hp]]%lookup_insert_Some; [split_and!; done|]. by apply (vo_own _ _ _ H).
  - intros q Hq [Hn _]%lookup_insert_None. by apply (vo_other _ _ _ H).
  - split.
    + intros t d' i [[_ ?]|[Hne Ht]]%lookup_insert_Some; [done|]. destruct (D1 t d' i Ht) as (Hd' & Hi & HP & HA).
      rewrite (word_agree (bytes s)) by (lia || (apply A; [by eapply own_aligned|auto])).
      split; [|done]. rewrite lookup_insert_ne; [done|]. symmetry. auto.
    + intros d' i [[<- _]|[Hne Hd']]%lookup_insert_Some Hi.
      * change (bytes (with_bytes m s)) with m. rewrite Wz by lia. done.
      * rewrite (word_agree (bytes s)) by (lia || (apply A; [by eapply own_aligned|auto])). intros HP.
        destruct (D2 d' i Hd' Hi HP) as (t & Ht). exists t. rewrite lookup_insert_ne; [done|]. congruence.
  - change (bytes (with_bytes m s)) with m. apply (map_move own).
    + eapply map_ok_ext; [apply (vo_map _ _ _ H)|]. intros e v He Hv. eapply pte_agree; [done..|].
      intros p r Hp Hr. apply A; [by eapply own_aligned|]. intros ->. rewrite Hd in Hp. by injection Hp as <-.
    + intros q M x [[_ ?]|[_ Hq]]%lookup_insert_Some; [done|auto].
    + intros q M x y Hq Hy. rewrite lookup_insert_ne; [done|]. intros <-. rewrite Hd in Hq. injection Hq as <- <-. set_solver.
    + intros e [[<- _]|[_ He]]%lookup_insert_Some; auto.
    + intros e v He _ _. rewrite lookup_insert_ne; [done|]. symmetry. auto.
  - intros p Hp. split; [rewrite lookup_insert_ne; congruence|]. apply A; [by eapply own_aligned|congruence].
  - intros e [[<- _]|[_ He]]%lookup_insert_Some; [done|]. eapply half_agree; [apply (vo_kern _ _ _ H)|done|].
    intros i Hi. apply word_agree; [apply A; [by eapply own_aligned|auto]|lia].
  - intros e He _. rewrite lookup_insert_ne; [done|]. symmetry. auto.
Qed.

Lemma setupkvm_spec own G s : vm_ok own G s ->
  exists d s', setupkvm end_ meta_base pg_array_addr data_ cpu s = Some (d, s') /\ quiet s s' /\
    data_kept own s s' /\ same_ptes own s s' /\
    ((d = 0 /\ vm_ok own G s') \/
     (page d /\ own !! d = None /\ vm_ok (<[d := RDir]> own) G s' /\ vacant (bytes s') d)).
Proof.
  intros H. unfold setupkvm. destruct (kalloc_spec own G s H) as (d & s1 & E & Q & Eb & O). rewrite (pbind_Some _ _ _ _ _ E).
  destruct O as [[-> H1]|(Hpg & Hn & H1)].
  { exists 0, s1. split; [done|]. split; [done|]. split; [intros ? ? ? ?; by rewrite Eb|]. split; [|auto].
    intros ? ? ? ?. by rewrite Eb. }
  destruct (page_pa d Hpg) as (_ & _ & _ & _ & Ad & Hlo & _).
  rewrite (proj2 (Z.eqb_neq d 0)) by (unfold KERNBASE in Hlo; lia).
  set (s2 := with_bytes (write_bytes (bytes s1) d (replicate 4096 0)) s1).
  rewrite (pbind_Some _ _ s1 tt s2), (pbind_Some _ _ s2 s2 s2) by done.
  pose proof (vo_kern _ _ _ H1) as K1. rewrite (proj2 (Z.eqb_neq (kpgdir s2) 0)) by apply K1. cbn [negb].
  destruct (share_loop_run 512 d 512 s2) as (m & E2 & B & A & W).
  { apply (ko_ready _ _ K1). } { apply (ko_u32 _ _ K1). } { done. } { lia. } { lia. }
  { apply bytes_write; [apply (vo_bytes _ _ _ H1)|]. apply Forall_replicate. unfold is_u8. lia. }
  assert (EX : PDX KERNBASE = 512) by done. assert (EN : Z.to_nat (NPDENTRIES - 512) = 512%nat) by done.
  rewrite EX, EN, (pbind_Some _ _ _ _ _ E2). exists d, (with_bytes m s1). split; [reflexivity|]. clear E2 EN.
  assert (A' : forall q, aligned q -> q <> d -> agree q (bytes s1) m).
  { intros q Aq Hq a Ha. rewrite (A q Aq Hq a Ha). change (bytes s2) with (write_bytes (bytes s1) d (replicate 4096 0)).
    rewrite <- (Z.add_0_r d) at 1. eapply write_agree; try done; unfold len; rewrite ?length_replicate; unfold PGSIZE; lia. }
  destruct (add_dir _ G s1 d m H1 (lookup_insert_eq own d (RUser ∅ 1)) B A') as [H2 V].
  { intros j Hj. rewrite W, decide_False by lia. apply (zeroed_word (bytes s1) d j Ad). lia. }
  { intros i Hi. rewrite W, decide_True by lia. exact (conj eq_refl eq_refl). }
  rewrite insert_insert_eq in H2.
  split; [by apply quiet_with|]. split; [|split].
  - intros p M x Hp. rewrite <- Eb. apply A'; [by eapply (own_aligned own G s)|congruence].
  - intros e v He Hv. rewrite <- Eb. change (bytes (with_bytes m s1)) with m. eapply pte_agree; [exact H1| |done|].
    { rewrite lookup_insert_ne; congruence. }
    intros p r [[<- <-]|[Hne Hp]]%lookup_insert_Some Hr; [done|]. apply A'; [by eapply (own_aligned own G s)|done].
  - right. done.
Qed.
End User.
