(* ===== verification/VmCow.v ===== *)
(** * Copy on write: [copyuvm], [cow_fault] and access to user memory

    The user memory of an address space is what its entries show of the pages:
    [view].  A page that is writable or marked copy-on-write counts as writable.
    [fork] ([copyuvm_as]) gives a directory with the same view; a page may then
    be shared by many directories, and the theorems show that no directory sees
    what another one writes. *)

From S2P Require Import Prelude NetBytes Vma Kalloc ByteMem Kmalloc Vm VmSpace VmUser.

(** A page as its owner sees it. *)
Record upage := mkUp { up_user : bool; up_write : bool; up_data : list Z }.

Definition entry_view (m : Z -> Z) (w : Z) : option upage :=
  if flag w PTE_P then
    Some (mkUp (flag w PTE_U) (flag w PTE_W || flag w PTE_COW) (read_bytes m (P2V (PTE_ADDR w)) 4096))
  else None.
Definition view (s : vm) (d v : Z) : option upage := entry_view (mem (vmach s)) (pte (mem (vmach s)) d v).

(** No page is held by running code. *)
Definition unheld (own : gmap Z role) : Prop := forall p M x, own !! p = Some (RUser M x) -> x = 0.

Lemma flags_of w f : is_u32 w -> 0 <= f < 12 -> Z.testbit (PTE_FLAGS w) f = Z.testbit w f.
Proof.
  intros _ Hf. unfold PTE_FLAGS. change 4095 with (Z.ones 12). rewrite Z.land_spec, Z.ones_spec_low by lia. apply andb_true_r.
Qed.

Section Cow.
Context {end_ meta_base pg_array_addr data_ : Z} {cpu : nat -> nat}.
Context {KI : KernelImage end_ meta_base pg_array_addr data_}.
Context {F : Z -> Z}.

Abbreviation page := (Kalloc.page (end_ := end_)).
Abbreviation kalloc := (Vm.kalloc end_ meta_base pg_array_addr cpu).
Abbreviation kfree := (Vm.kfree end_ meta_base cpu).
Abbreviation walkpgdir := (Vm.walkpgdir end_ meta_base pg_array_addr cpu).
Abbreviation mappages := (Vm.mappages end_ meta_base pg_array_addr cpu).
Abbreviation bytes s := (mem (vmach s)).
Abbreviation vm_ok := (VmSpace.vm_ok (end_ := end_) (data_ := data_) (cpu := cpu) (F := F)).
Abbreviation quiet := (VmSpace.quiet (end_ := end_)).

(** The roles are determined by the tables and the entries. *)
Lemma roles_sub own own' G G' s s' : vm_ok own G s -> vm_ok own' G' s' -> same_tabs own own' ->
  unheld own -> unheld own' -> same_ptes own s s' -> forall p M, own !! p = Some (RUser M 0) ->
  exists M', own' !! p = Some (RUser M' 0) /\ M ⊆ M'.
Proof.
  intros H H' T U U' SP p M Hp. destruct (vo_own _ _ _ H p _ Hp) as (Hpg & _ & _ & H1 & _). cbn in H1.
  assert (Hmap : forall e v, (e, v) ∈ M -> exists M', own' !! p = Some (RUser M' 0) /\ (e, v) ∈ M').
  { intros e v Hin. destruct (mo_user _ _ _ (vo_map _ _ _ H) _ _ _ _ _ Hp Hin) as (He & Hv & HP & HA).
    assert (He' : own' !! e = Some RDir) by (by apply (T _ RDir)).
    rewrite <- SP in HP, HA by done.
    destruct (mapped_page own' G' s' e v H' He' Hv HP) as (q & M' & x & Hq & Hin' & Hqg & HA').
    assert (q = p) as -> by (eapply V2P_inj; [done|done|congruence]).
    pose proof (U' _ _ _ Hq) as ->. by exists M'. }
  destruct (set_choose_or_empty M) as [[[e v] Hy]|E]; [|rewrite E in H1; change (size ∅) with 0%nat in H1; lia].
  destruct (Hmap e v Hy) as (M' & Hp' & _). exists M'. split; [done|]. intros [e' v'] Hin.
  destruct (Hmap e' v' Hin) as (M2 & Hp2 & ?). congruence.
Qed.

Lemma same_tabs_sym own own' : same_tabs own own' -> same_tabs own' own.
Proof. intros T p r Hr. symmetry. by apply T. Qed.

Lemma roles_unique own own' G G' s s' : vm_ok own G s -> vm_ok own' G' s' -> same_tabs own own' ->
  unheld own -> unheld own' -> same_ptes own s s' -> own' = own.
Proof.
  intros H H' T U U' SP. assert (SP' : same_ptes own' s' s).
  { intros e v He Hv. symmetry. apply SP; [by apply (T _ RDir)|done]. }
  assert (T' := same_tabs_sym _ _ T). apply map_eq. intros p. destruct (own !! p) as [r|] eqn:Ep.
  - destruct r as [|d i|M x|]; try (by apply (T p _)). pose proof (U _ _ _ Ep) as ->.
    destruct (roles_sub own own' G G' s s' H H' T U U' SP p M Ep) as (M' & Hp' & S1).
    destruct (roles_sub own' own G' G s' s H' H T' U' U SP' p M' Hp') as (M2 & Hp2 & S2).
    assert (M2 = M) as -> by congruence. rewrite Hp'. do 2 f_equal. set_solver.
  - destruct (own' !! p) as [r|] eqn:Ep'; [|done]. destruct r as [|d i|M x|]; try (apply (T p _) in Ep'; [congruence|done]).
    pose proof (U' _ _ _ Ep') as ->.
    destruct (roles_sub own' own G' G s' s H' H T' U' U SP' p M Ep') as (M2 & Hp2 & _). congruence.
Qed.

(** The view of a mapped page depends on its entry and its contents. *)
Lemma entry_frame own G s s' d v : vm_ok own G s -> own !! d = Some RDir -> 0 <= v < NUSER ->
  data_kept own s s' -> entry_view (bytes s') (pte (bytes s) d v) = view s d v.
Proof.
  intros H Hd Hv K. unfold view, entry_view. destruct (flag (pte (bytes s) d v) PTE_P) eqn:HP; [|done].
  destruct (mapped_page own G s d v H Hd Hv HP) as (p & M & x & Hp & _ & Hpg & HA). rewrite HA.
  destruct (page_pa p Hpg) as (_ & _ & _ & -> & _). do 2 f_equal. apply read_ext. by eapply K.
Qed.

Lemma view_frame own G s s' d v : vm_ok own G s -> own !! d = Some RDir -> 0 <= v < NUSER ->
  pte (bytes s') d v = pte (bytes s) d v -> data_kept own s s' -> view s' d v = view s d v.
Proof. intros H Hd Hv E K. unfold view at 1. rewrite E. by eapply entry_frame. Qed.

(** ** Copying an address space *)

Record forking (own0 own : gmap Z role) (src d n : Z) (s0 s : vm) : Prop := {
  fk_ok : vm_ok own (Some d) s;
  fk_quiet : quiet s0 s;
  fk_fresh : own0 !! d = None;
  fk_src : own0 !! src = Some RDir;
  fk_unheld : unheld own;
  fk_dir : own !! d = Some RDir;
  fk_tabs p r : not_user r -> p <> d -> (forall j, r <> RTab d j) -> own !! p = Some r <-> own0 !! p = Some r;
  fk_ptes : same_ptes own0 s0 s;
  fk_data : data_kept own0 s0 s;
  fk_view v : 0 <= v < n -> v < NUSER -> view s d v = view s src v;
  fk_rest v : n <= v < NUSER -> 0 <= v -> flag (pte (bytes s) d v) PTE_P = false;
  fk_share p M x v : own !! p = Some (RUser M x) -> (d, v) ∈ M ->
    M = {[(d, v)]} \/ ((src, v) ∈ M /\ flag (pte (bytes s) src v) PTE_U = true)
}.

(** The directories other than the new one. *)
Lemma fork_dirs own0 own src d n s0 s e : forking own0 own src d n s0 s -> own0 !! e = Some RDir -> own !! e = Some RDir /\ e <> d.
Proof.
  intros Hf He. assert (e <> d) by (pose proof (fk_fresh _ _ _ _ _ _ _ Hf); congruence). split; [|done].
  by apply (fk_tabs _ _ _ _ _ _ _ Hf).
Qed.

(** A user page of the start is one still. *)
Lemma fork_data own0 own src d n s0 s s' : forking own0 own src d n s0 s -> vm_ok own0 None s0 -> unheld own0 ->
  data_kept own s s' -> data_kept own0 s0 s'.
Proof.
  intros Hf H0 U0 K p M x Hp a Ha. rewrite <- (fk_data _ _ _ _ _ _ _ Hf p M x Hp a Ha).
  pose proof (U0 _ _ _ Hp) as ->. destruct (vo_own _ _ _ H0 p _ Hp) as (Hpg & _ & _ & H1 & _). cbn in H1.
  destruct (set_choose_or_empty M) as [[[e v] Hy]|E]; [|rewrite E in H1; change (size ∅) with 0%nat in H1; lia].
  destruct (mo_user _ _ _ (vo_map _ _ _ H0) _ _ _ _ _ Hp Hy) as (He & Hv & HP & HA).
  destruct (fork_dirs _ _ _ _ _ _ _ e Hf He) as [He' _].
  rewrite <- (fk_ptes _ _ _ _ _ _ _ Hf) in HP, HA by done.
  destruct (mapped_page own (Some d) s e v (fk_ok _ _ _ _ _ _ _ Hf) He' Hv HP) as (q & M' & x' & Hq & _ & Hqg & HA').
  assert (q = p) as -> by (eapply V2P_inj; [done|done|congruence]). by eapply K.
Qed.

(** Tables added on the way do not matter. *)
Lemma fork_same own0 own own' src d n s0 s s' : forking own0 own src d n s0 s -> vm_ok own0 None s0 -> unheld own0 ->
  vm_ok own' (Some d) s' -> quiet s s' -> grown d own own' -> same_ptes own s s' -> data_kept own s s' ->
  forking own0 own' src d n s0 s'.
Proof.
  intros Hf H0 U0 H' Q' Gr SP K. pose proof (fork_data _ _ _ _ _ _ _ _ Hf H0 U0 K) as D'.
  assert (Hdir := fun e => fork_dirs own0 own src d n s0 s e Hf). destruct Hf as [H Q HF Hs U Hd T P D V R S].
  destruct (Hdir src Hs) as [Hs1 Hne]. split; try done.
  - by eapply quiet_trans.
  - intros p M x Hp. by apply (U p M x), (grown_user d _ _ _ _ _ Gr).
  - by apply (grown_dir d _ _ _ Gr).
  - intros p r Hr Hpd Hj. rewrite <- T by done. split; [|intros; eapply lookup_weaken; [done|apply Gr]].
    intros Hp. destruct (proj2 Gr p r Hp) as [?|[j ->]]; [done|by destruct (Hj j)].
  - intros e v He Hv. rewrite SP by (done || apply Hdir; done). by apply P.
  - intros v Hv Hv'. rewrite (view_frame own (Some d) s s' d), (view_frame own (Some d) s s' src); try done; try lia; try (apply SP; done || lia).
    by apply V.
  - intros v Hv Hv'. rewrite SP by (done || lia). by apply R.
  - intros p M x v Hp Hin. apply (grown_user d _ _ _ _ _ Gr) in Hp.
    destruct (mo_user _ _ _ (vo_map _ _ _ H) _ _ _ _ _ Hp Hin) as (_ & Hv & _). rewrite SP by done. by eapply S.
Qed.

Lemma grown_put own own2 d p M y : own !! p = Some (RUser M 0) -> y ∈ M ->
  grown d (put_role p M 1 own) own2 -> grown d own (put_role p M 0 own2).
Proof.
  intros Hp Hy [S Gr]. split.
  - apply map_subseteq_spec. intros q r Hq. destruct (decide (q = p)) as [->|Hne].
    + rewrite (put_role_eq _ _ _ _ y) by done. congruence.
    + rewrite put_role_ne by done. eapply lookup_weaken; [|done]. by rewrite put_role_ne.
  - intros q r [[-> ->]|[Hne Hq]]%put_role_inv; [by left|]. destruct (Gr q r Hq) as [Hq'|?]; [|by right].
    rewrite put_role_ne in Hq' by done. by left.
Qed.

Lemma grown_fresh own own2 d p : own !! p = None -> grown d (<[p := RUser ∅ 1]> own) own2 -> grown d own (put_role p ∅ 0 own2).
Proof.
  intros Hp [S Gr]. split.
  - apply map_subseteq_spec. intros q r Hq. rewrite put_role_ne by congruence. eapply lookup_weaken; [|done].
    rewrite lookup_insert_ne; congruence.
  - intros q r. unfold put_role. rewrite decide_True by done. intros [Hne Hq]%lookup_delete_Some.
    destruct (Gr q r Hq) as [Hq'|?]; [|by right]. rewrite lookup_insert_ne in Hq' by done. by left.
Qed.

(** The new directory gets its next page. *)
Lemma fork_add own0 own own' src d n s0 s s' p M w : forking own0 own src d n s0 s -> vm_ok own0 None s0 -> unheld own0 ->
  0 <= n < NUSER -> quiet s s' -> data_kept own s s' ->
  (forall q r, q <> p -> (forall j, r <> RTab d j) -> own' !! q = Some r <-> own !! q = Some r) ->
  own' !! p = Some (RUser ({[(d, n)]} ∪ M) 0) -> (M = ∅ \/ own !! p = Some (RUser M 0) /\ (src, n) ∈ M /\ flag (pte (bytes s) src n) PTE_U = true) ->
  (forall r, own !! p = Some r -> ~ not_user r) ->
  vm_ok own' (Some d) s' -> entry_set own d n w (pte (bytes s)) (pte (bytes s')) -> entry_view (bytes s') w = view s src n ->
  forking own0 own' src d (n + 1) s0 s'.
Proof.
  intros Hf H0 U0 Hn Q' K Hoth Hp HM Hpu H' E Ev. pose proof (fork_data _ _ _ _ _ _ _ _ Hf H0 U0 K) as D'.
  assert (Hdir := fun e => fork_dirs own0 own src d n s0 s e Hf). destruct Hf as [H Q HF Hs U Hd T P D V R S].
  destruct (Hdir src Hs) as [Hs1 Hne].
  assert (Hne' : forall q r, not_user r -> own !! q = Some r -> q <> p) by (intros q r Hr Hq ->; by destruct (Hpu r Hq)).
  assert (Es : forall v, 0 <= v < NUSER -> pte (bytes s') src v = pte (bytes s) src v).
  { intros v Hv. rewrite E, decide_False by (done || congruence). done. }
  assert (Vs : forall v, 0 <= v < NUSER -> view s' src v = view s src v).
  { intros v Hv. apply (view_frame own (Some d)); try done. by apply Es. }
  split; try done.
  - by eapply quiet_trans.
  - intros q M' x Hq. destruct (decide (q = p)) as [->|Hqp]; [congruence|]. by apply (U q M' x), Hoth.
  - apply Hoth; try done. by apply (Hne' d RDir).
  - intros q r Hr Hqd Hj. rewrite <- T by done. destruct (decide (q = p)) as [->|Hqp]; [|by apply Hoth].
    split; [intros Hq; rewrite Hp in Hq; by injection Hq as <-|intros Hq; by destruct (Hpu r Hq)].
  - intros e v He Hv. destruct (Hdir e He) as [He' Hed]. rewrite E, decide_False by (done || congruence). by apply P.
  - intros v Hv Hv'. rewrite Vs by lia. unfold view at 1. rewrite E by (done || lia). case_decide as Hc.
    + injection Hc as ->. done.
    + assert (v < n) by (assert (v <> n) by (intros ->; done); lia). rewrite <- V by lia.
      rewrite <- (view_frame own (Some d) s s' d v); try done; try lia; [|rewrite E, decide_False; done || lia].
      unfold view. by rewrite E, decide_False by (done || lia).
  - intros v Hv Hv'. rewrite E, decide_False; [apply R; lia|congruence || (intros [= ->]; lia)|done|lia].
  - intros q M' x v Hq Hin. destruct (decide (q = p)) as [->|Hqp].
    + rewrite Hp in Hq. injection Hq as <- <-. destruct HM as [->|(Hpo & Hsn & HU)].
      * left. set_solver.
      * right. apply elem_of_union in Hin as [[= ->]%elem_of_singleton|Hin].
        -- rewrite Es by done. split; [set_solver|done].
        -- destruct (S p M 0 v Hpo Hin) as [->|[Hsv HU']]; [set_solver|].
           destruct (mo_user _ _ _ (vo_map _ _ _ H) _ _ _ _ _ Hpo Hsv) as (_ & Hv & _).
           rewrite Es by done. split; [set_solver|done].
    + apply Hoth in Hq; [|done|done]. destruct (mo_user _ _ _ (vo_map _ _ _ H) _ _ _ _ _ Hq Hin) as (_ & Hv & _).
      rewrite Es by done. by eapply S.
Qed.

(** What a new entry shows. *)
Lemma new_view m p f : page p -> 0 <= f < 4096 -> flag f PTE_COW && flag f PTE_W = false ->
  entry_view m (Z.lor (Z.lor (V2P p) f) PTE_P) =
    Some (mkUp (flag f PTE_U) (flag f PTE_W || flag f PTE_COW) (read_bytes m p 4096)).
Proof.
  intros Hp Hf Hs. destruct (new_entry p f Hp Hf Hs) as ((Hu & HP & _) & HA & HF & _).
  assert (Hb : forall k, 1 <= k < 12 -> Z.testbit (Z.lor (Z.lor (V2P p) f) PTE_P) k = Z.testbit f k).
  { intros k Hk. rewrite <- flags_of, HF, Z.lor_spec by (done || lia). unfold PTE_P.
    change 1 with (2 ^ 0). rewrite Z.pow2_bits_false by lia. apply orb_false_r. }
  unfold entry_view. rewrite HP, HA, !flag_U, !flag_W, !flag_COW, !Hb by lia.
  by destruct (page_pa p Hp) as (_ & _ & _ & -> & _).
Qed.

Lemma fork_skip own0 own src d n s0 s : forking own0 own src d n s0 s -> 0 <= n < NUSER ->
  flag (pte (bytes s) src n) PTE_P = false -> forking own0 own src d (n + 1) s0 s.
Proof.
  intros Hf Hn HP. destruct Hf as [H Q HF Hs U Hd T P D V R S]. split; try done.
  - intros v Hv Hv'. destruct (decide (v = n)) as [->|]; [|apply V; lia].
    unfold view, entry_view. rewrite HP, R by lia. done.
  - intros v Hv Hv'. apply R; lia.
Qed.

(** A page of the parent is shared, with the flags [f]. *)
Lemma fork_share own0 own src d n s0 s p M f : forking own0 own src d n s0 s -> vm_ok own0 None s0 -> unheld own0 ->
  0 <= n < NUSER -> own !! p = Some (RUser M 0) -> (src, n) ∈ M -> flag (pte (bytes s) src n) PTE_U = true ->
  0 <= f < 4096 -> flag f PTE_W = false -> flag f PTE_U = true ->
  flag f PTE_COW = (flag (pte (bytes s) src n) PTE_W || flag (pte (bytes s) src n) PTE_COW) ->
  exists s1 s2 r, kpage_incref (V2P p) s = Some (tt, s1) /\ mappages d (n * 4096) PGSIZE (V2P p) f s1 = Some (r, s2) /\
    ((r = 0 /\ exists own', forking own0 own' src d (n + 1) s0 s2) \/
     (r = -1 /\ exists s3 own', kfree p s2 = Some (tt, s3) /\ forking own0 own' src d n s0 s3)).
Proof.
  intros Hf H0 U0 Hn Hp Hin HU Hfr HfW HfU HfC. pose proof (fk_ok _ _ _ _ _ _ _ Hf) as H.
  pose proof (fk_dir _ _ _ _ _ _ _ Hf) as Hd. pose proof (own_page _ _ _ _ _ H Hp) as Hpg.
  destruct (incref_held own (Some d) s p M H Hp) as (s1 & E1 & Q1 & Eb1 & H1).
  assert (Hp1 : put_role p M 1 own !! p = Some (RUser M 1)) by (by apply (put_role_eq _ _ _ _ (src, n))).
  assert (Hd1 : put_role p M 1 own !! d = Some RDir) by (by rewrite (put_role_dir p M 1 own M 0)).
  assert (Hs : flag f PTE_COW && flag f PTE_W = false) by (by rewrite HfW, andb_false_r).
  destruct (mappages_one _ (Some d) s1 d n p M 1 f H1 Hd1 Hn) as (r & s2 & own2 & E2 & Q2 & K2 & Gr & O); try done.
  { rewrite Eb1. apply (fk_rest _ _ _ _ _ _ _ Hf); lia. } { by rewrite HfW. }
  exists s1, s2, r. split; [done|]. split; [done|].
  assert (K' : data_kept own s s2).
  { intros q N x Hq a Ha. rewrite <- Eb1. destruct (decide (q = p)) as [->|Hne]; [by apply (K2 p M 1)|].
    apply (K2 q N x); [|done]. by rewrite put_role_ne. }
  assert (Qs : quiet s s2) by (by eapply quiet_trans).
  destruct O as [(-> & H2 & SP)|(-> & H2 & Es)].
  - right. split; [done|]. apply (grown_user d _ _ _ _ _ Gr) in Hp1 as Hp2.
    destruct (kfree_held own2 (Some d) s2 p M 1 H2 Hp2) as (s3 & E3 & Q3 & Eb3 & H3); [lia|].
    exists s3, (put_role p M 0 own2). split; [done|]. eapply fork_same; try done.
    + by eapply quiet_trans.
    + by eapply grown_put.
    + intros e v He Hv. rewrite Eb3, SP by (done || by rewrite (put_role_dir p M 1 own M 0)). by rewrite Eb1.
    + intros q N x Hq. rewrite Eb3. by eapply K'.
  - left. split; [done|]. exists (put_role p ({[(d, n)]} ∪ M) 0 own2). eapply (fork_add own0 own _ src d n s0 s s2 p M); try done.
    + intros q k Hq Hk. rewrite put_role_ne by done. rewrite <- (put_role_ne p M 1 own q Hq). split.
      * intros Hq2. destruct (proj2 Gr q k Hq2) as [?|[j ->]]; [done|by destruct (Hk j)].
      * intros Hq1. eapply lookup_weaken; [done|apply Gr].
    + apply (put_role_eq _ _ _ _ (d, n)); [done|by apply elem_of_union_l, elem_of_singleton].
    + by right.
    + intros k Hk. rewrite Hp in Hk. injection Hk as <-. by intros [].
    + intros e v He Hv. rewrite <- Eb1. apply Es; [|done]. by rewrite (put_role_dir p M 1 own M 0).
    + rewrite new_view by done. unfold view, entry_view.
      destruct (mo_user _ _ _ (vo_map _ _ _ H) _ _ _ _ _ Hp Hin) as (_ & _ & -> & ->).
      destruct (page_pa p Hpg) as (_ & _ & _ & -> & _). rewrite HfW, HfU, HfC, HU. cbn [orb]. do 2 f_equal.
      apply read_ext. by apply (K' p M 0).
Qed.

(** Page [q] of [m'] holds what page [p] of [m] holds. *)
Definition page_same (m : Z -> Z) (p : Z) (m' : Z -> Z) (q : Z) : Prop := forall n,
  read_bytes m' q (Z.min n 4096) = read_bytes m p (Z.min n 4096).

Lemma page_copied m p q : page_same m p (write_bytes m q (read_bytes m p 4096)) q.
Proof.
  intros n. apply list_eq. intros i. unfold read_bytes at 1 3. rewrite !list_lookup_fmap.
  destruct (decide (i < Z.to_nat (Z.min n 4096))%nat) as [Hi|Hi].
  - rewrite lookup_seq_lt by done. cbn [fmap option_fmap option_map]. f_equal. apply write_in. unfold read_bytes.
    rewrite list_lookup_fmap, lookup_seq_lt by lia. done.
  - rewrite !lookup_seq_ge by lia. done.
Qed.

(** Writing into a page of user memory. *)
Lemma write_page own G s q M x o l : vm_ok own G s -> own !! q = Some (RUser M x) -> 0 <= o -> o + len l <= PGSIZE ->
  Forall is_u8 l ->
  let s' := with_bytes (write_bytes (bytes s) (q + o) l) s in
  quiet s s' /\ vm_ok own G s' /\ data_kept (delete q own) s s' /\ same_ptes own s s'.
Proof.
  intros H Hq Ho Hl Hu s'. assert (A : forall k, aligned k -> k <> q -> agree k (bytes s) (bytes s')).
  { intros k Ak Hk. apply write_agree; [by eapply own_aligned|done..]. }
  assert (A' : forall k r, own !! k = Some r -> not_user r -> agree k (bytes s) (bytes s')).
  { intros k r Hk Hr. apply A; [by eapply own_aligned|]. intros ->. rewrite Hq in Hk. by injection Hk as <-. }
  assert (Q : quiet s s').
  { eapply quiet_bytes; [done|]. apply bytes_write; [apply (vo_bytes _ _ _ H)|done]. }
  split; [done|]. split; [by eapply vm_ok_frame|]. split.
  - intros k N y [Hne Hk]%lookup_delete_Some. apply A; [by eapply own_aligned|done].
  - intros d v Hd Hv. by eapply pte_agree.
Qed.

(** The contents of a page are copied to a held page. *)
Lemma copy_to own G s p q M x : vm_ok own G s -> own !! q = Some (RUser M x) ->
  let s' := with_bytes (write_bytes (bytes s) q (read_bytes (bytes s) p 4096)) s in
  quiet s s' /\ vm_ok own G s' /\ data_kept (delete q own) s s' /\ same_ptes own s s' /\
  page_same (bytes s) p (bytes s') q.
Proof.
  intros H Hq. assert (L : len (read_bytes (bytes s) p 4096) = 4096) by (by apply read_length).
  destruct (write_page own G s q M x 0 (read_bytes (bytes s) p 4096) H Hq) as (Q & H' & K & SP).
  { lia. } { rewrite L. unfold PGSIZE. lia. } { apply bytes_read, (vo_bytes _ _ _ H). }
  rewrite Z.add_0_r in *. split; [done|]. split; [done|]. split; [done|]. split; [done|]. apply page_copied.
Qed.

(** A page that is not shared is copied, with its flags [f]. *)
Lemma fork_copy own0 own src d n s0 s p M f : forking own0 own src d n s0 s -> vm_ok own0 None s0 -> unheld own0 ->
  0 <= n < NUSER -> own !! p = Some (RUser M 0) -> (src, n) ∈ M -> f = PTE_FLAGS (pte (bytes s) src n) ->
  exists mm s1, kalloc s = Some (mm, s1) /\
    ((mm = 0 /\ forking own0 own src d n s0 s1) \/
     (mm <> 0 /\ exists r s3,
        mappages d (n * 4096) PGSIZE (V2P mm) f (with_bytes (write_bytes (bytes s1) mm (read_bytes (bytes s1) p 4096)) s1) =
          Some (r, s3) /\
        ((r = 0 /\ exists own', forking own0 own' src d (n + 1) s0 s3) \/
         (r = -1 /\ exists s4 own', kfree mm s3 = Some (tt, s4) /\ forking own0 own' src d n s0 s4)))).
Proof.
  intros Hf H0 U0 Hn Hp Hin ->. pose proof (fk_ok _ _ _ _ _ _ _ Hf) as H. pose proof (fk_dir _ _ _ _ _ _ _ Hf) as Hd.
  destruct (mo_user _ _ _ (vo_map _ _ _ H) _ _ _ _ _ Hp Hin) as (Hsrc & _ & HP & HA).
  pose proof (mo_u32 _ _ _ (vo_map _ _ _ H) src n Hsrc Hn) as Hu. pose proof (mo_sane _ _ _ (vo_map _ _ _ H) src n Hsrc Hn HP) as Hsane.
  set (f := PTE_FLAGS (pte (bytes s) src n)).
  assert (Hf12 : 0 <= f < 4096) by (unfold f, PTE_FLAGS; rewrite land_low; apply Z.mod_pos_bound; lia).
  assert (HfW : flag f PTE_W = flag (pte (bytes s) src n) PTE_W) by (rewrite !flag_W; apply flags_of; [done|lia]).
  assert (HfC : flag f PTE_COW = flag (pte (bytes s) src n) PTE_COW) by (rewrite !flag_COW; apply flags_of; [done|lia]).
  assert (HfU : flag f PTE_U = flag (pte (bytes s) src n) PTE_U) by (rewrite !flag_U; apply flags_of; [done|lia]).
  destruct (kalloc_spec own (Some d) s H) as (mm & s1 & E1 & Q1 & Eb1 & O1). exists mm, s1. split; [done|].
  destruct O1 as [[-> H1]|(Hpm & Hnm & H1)].
  { left. split; [done|]. eapply fork_same; try done; [apply tgrown_refl|intros ? ? ? ?; by rewrite Eb1|intros ? ? ? ?; by rewrite Eb1]. }
  right. destruct (page_pa mm Hpm) as (_ & _ & _ & _ & _ & Hlo & _). split; [unfold KERNBASE in Hlo; lia|].
  set (own1 := <[mm := RUser ∅ 1]> own) in *. assert (Hm1 : own1 !! mm = Some (RUser ∅ 1)) by apply lookup_insert_eq.
  assert (Ho1 : forall q r, own !! q = Some r -> q <> mm /\ own1 !! q = Some r).
  { intros q r Hq. assert (q <> mm) by congruence. split; [done|]. by apply lookup_insert_Some; right. }
  destruct (Ho1 d _ Hd) as [_ Hd1]. destruct (Ho1 p _ Hp) as [_ Hp1].
  destruct (copy_to own1 (Some d) s1 p mm ∅ 1 H1 Hm1) as (Q2 & H2 & K2 & SP2 & R2).
  set (s2 := with_bytes _ s1) in *. clearbody s2.
  assert (Ksp : forall e v, own !! e = Some RDir -> 0 <= v < NUSER -> pte (bytes s2) e v = pte (bytes s) e v).
  { intros e v He Hv. rewrite SP2 by (done || by apply Ho1). by rewrite Eb1. }
  destruct (mappages_one own1 (Some d) s2 d n mm ∅ 1 f H2 Hd1 Hn) as (r & s3 & own3 & E3 & Q3 & K3 & Gr & O3).
  { rewrite Ksp by done. apply (fk_rest _ _ _ _ _ _ _ Hf); lia. } { done. } { lia. } { done. } { by rewrite HfW, HfC. }
  { intros _ d' v' Hx. by apply elem_of_empty in Hx. } { intros d' v' Hx. by apply elem_of_empty in Hx. }
  exists r, s3. split; [done|].
  pose proof (quiet_trans _ _ _ Q1 (quiet_trans _ _ _ Q2 Q3)) as Qs.
  assert (K' : data_kept own s s3).
  { intros q N x Hq a Ha. destruct (Ho1 q _ Hq) as [Hqm Hq1]. rewrite (K3 q N x Hq1 a Ha), <- Eb1.
    apply (K2 q N x); [|done]. by apply lookup_delete_Some. }
  destruct O3 as [(-> & H3 & SP3)|(-> & H3 & Es)].
  - right. split; [done|]. apply (grown_user d _ _ _ _ _ Gr) in Hm1 as Hm3.
    destruct (kfree_held own3 (Some d) s3 mm ∅ 1 H3 Hm3) as (s4 & E4 & Q4 & Eb4 & H4); [lia|].
    exists s4, (put_role mm ∅ 0 own3). split; [done|]. eapply fork_same; try done.
    + by eapply quiet_trans.
    + by eapply grown_fresh.
    + intros e v He Hv. rewrite Eb4, SP3 by (done || by apply Ho1). by apply Ksp.
    + intros q N x Hq. rewrite Eb4. by eapply K'.
  - left. split; [done|]. exists (put_role mm ({[(d, n)]} ∪ ∅) 0 own3).
    eapply (fork_add own0 own _ src d n s0 s s3 mm ∅ (Z.lor (Z.lor (V2P mm) f) PTE_P)); try done.
    + intros q k Hq Hk. rewrite put_role_ne by done. split.
      * intros Hq2. destruct (proj2 Gr q k Hq2) as [Hq1|[j ->]]; [|by destruct (Hk j)].
        by apply lookup_insert_Some in Hq1 as [[? _]|[_ ?]].
      * intros Hq1. eapply lookup_weaken; [by apply Ho1|apply Gr].
    + apply (put_role_eq _ _ _ _ (d, n)); [done|by apply elem_of_union_l, elem_of_singleton].
    + by left.
    + intros k Hk. congruence.
    + intros e v He Hv. rewrite <- (Ksp e v He Hv). apply Es; [by apply Ho1|done].
    + rewrite new_view by (done || by rewrite HfW, HfC). unfold view, entry_view. rewrite HP, HA.
      destruct (page_pa p (own_page _ _ _ _ _ H Hp)) as (_ & _ & _ & -> & _). rewrite HfW, HfU, HfC. do 2 f_equal.
      transitivity (read_bytes (bytes s2) mm 4096); [apply read_ext; by apply (K3 mm ∅ 1)|]. rewrite <- Eb1. apply (R2 4096).
Qed.

(** Counters and the translation cache do not matter. *)
Lemma side_ok own G s s' : vm_ok own G s -> vmach s' = vmach s -> ctl s s' -> vm_ok own G s' /\ quiet s s'.
Proof.
  intros H E C. assert (Q : quiet s s').
  { split; [done|]. rewrite E. split; [apply (vo_inv _ _ _ H)|]. split; [apply Kmalloc.kept_refl|]. split; [done|apply (vo_bytes _ _ _ H)]. }
  split; [|done]. eapply vm_ok_frame; [done..|by rewrite E|by rewrite E].
Qed.

Lemma sane_ok w : flag w PTE_COW && flag w PTE_W = false -> forall s, pte_assert_sane w s = Some (tt, s).
Proof.
  intros Hs s. unfold pte_assert_sane, pte_is_cow, pte_is_writable. rewrite <- andb_assoc, Hs, andb_false_r. done.
Qed.

(** The flags of a page that becomes copy-on-write. *)
Lemma cow_flags f : 0 <= f < 4096 -> let g := Z.ldiff (Z.lor f PTE_COW) PTE_W in
  0 <= g < 4096 /\ flag g PTE_W = false /\ flag g PTE_U = flag f PTE_U /\ flag g PTE_COW = true.
Proof.
  intros Hf g. split; [apply ldiff_flags, lor_flags; [done|unfold PTE_COW; lia]|].
  rewrite flag_W, !flag_U, flag_COW. unfold g. rewrite !Z.ldiff_spec, !Z.lor_spec.
  change (Z.testbit PTE_W 1) with true. change (Z.testbit PTE_W 2) with false. change (Z.testbit PTE_W 9) with false.
  change (Z.testbit PTE_COW 2) with false. change (Z.testbit PTE_COW 9) with true.
  cbn [negb]. by rewrite andb_false_r, !andb_true_r, orb_false_r, orb_true_r.
Qed.

Abbreviation copy_page := (Vm.copy_page end_ meta_base pg_array_addr cpu).
Abbreviation copy_loop := (Vm.copy_loop end_ meta_base pg_array_addr cpu).

Lemma copy_page_spec own0 own src d n s0 s : forking own0 own src d n s0 s -> vm_ok own0 None s0 -> unheld own0 ->
  0 <= n < NUSER ->
  exists ok s' own', copy_page src d (n * 4096) s = Some (ok, s') /\
    forking own0 own' src d (if ok then n + 1 else n) s0 s'.
Proof.
  intros Hf H0 U0 Hn. pose proof (fk_ok _ _ _ _ _ _ _ Hf) as H.
  destruct (fork_dirs _ _ _ _ _ _ _ src Hf (fk_src _ _ _ _ _ _ _ Hf)) as [Hs Hne].
  unfold Vm.copy_page. destruct (walk_none own (Some d) s src n (n * 4096) H Hs Hn) as (r & E & O); [lia|].
  rewrite (pbind_Some _ _ _ _ _ E). destruct O as [(-> & _ & Hz)|Hr].
  { exists true, s, own. split; [done|]. apply fork_skip; [done|done|]. by rewrite Hz. }
  pose proof Hr as (t & _ & _ & Hr0 & _). rewrite (proj2 (Z.eqb_neq r 0) Hr0).
  rewrite (pbind_Some _ _ _ _ _ (ld_entry _ _ _ _ _ Hr)). set (w := pte (bytes s) src n) in *.
  destruct (flag w PTE_P) eqn:HP; cbn [negb]; [|exists true, s, own; split; [done|]; by apply fork_skip].
  destruct (mapped_page own (Some d) s src n H Hs Hn HP) as (p & M & x & Hp & Hin & Hpg & HA).
  pose proof (fk_unheld _ _ _ _ _ _ _ Hf _ _ _ Hp) as ->. fold w in HA.
  pose proof (mo_sane _ _ _ (vo_map _ _ _ H) src n Hs Hn HP) as Hsane. fold w in Hsane.
  pose proof (mo_u32 _ _ _ (vo_map _ _ _ H) src n Hs Hn) as Hu. fold w in Hu.
  rewrite (pbind_Some _ _ s tt s).
  2: { by apply sane_ok. }
  rewrite HA, (pbind_Some (kpage_managed (V2P p)) _ s true s) by (unfold kpage_managed; by rewrite (user_managed own (Some d) s p _ H Hp)).
  assert (HfW : flag (PTE_FLAGS w) PTE_W = flag w PTE_W) by (rewrite !flag_W; apply flags_of; [done|lia]).
  assert (HfC : flag (PTE_FLAGS w) PTE_COW = flag w PTE_COW) by (rewrite !flag_COW; apply flags_of; [done|lia]).
  assert (HfU : flag (PTE_FLAGS w) PTE_U = flag w PTE_U) by (rewrite !flag_U; apply flags_of; [done|lia]).
  assert (Hf12 : 0 <= PTE_FLAGS w < 4096) by (unfold PTE_FLAGS; rewrite land_low; apply Z.mod_pos_bound; lia).
  destruct (page_pa p Hpg) as (_ & _ & Hbad & HPV & _).
  rewrite HfU, HfW, HPV, andb_true_r. destruct (flag w PTE_U) eqn:HU; [destruct (flag w PTE_W) eqn:HW|].
  - destruct (cow_flags (PTE_FLAGS w) Hf12) as (Hg & HgW & HgU & HgC). rewrite HfU in HgU.
    destruct (fork_share own0 own src d n s0 s p M (Z.ldiff (Z.lor (PTE_FLAGS w) PTE_COW) PTE_W) Hf H0 U0 Hn Hp Hin)
      as (s1 & s2 & r' & E1 & E2 & O); try done.
    { fold w. by rewrite HW. }
    unfold install_cow_mapping.
    destruct (page_pa d (own_page _ _ _ _ _ H (fk_dir _ _ _ _ _ _ _ Hf))) as (_ & _ & _ & _ & _ & Hlo & _).
    unfold bad_pa in Hbad. apply orb_false_iff in Hbad as [[Ez _]%orb_false_iff _].
    rewrite Ez, (proj2 (Z.eqb_neq d 0)) by (unfold KERNBASE in Hlo; lia). cbn [orb].
    rewrite HPV. destruct O as [(-> & own' & Hf')|(-> & s3 & own' & E3 & Hf')].
    + destruct (side_ok own' (Some d) s2 (set_counters (alter (fun x => x +u 1) COW_CREATED (counters s2)) s2)
        (fk_ok _ _ _ _ _ _ _ Hf') eq_refl (ctl_refl s2)) as [H3 Q3].
      eexists true, _, own'. split.
      { unfold pbind at 1 2 3. rewrite E1, E2. reflexivity. }
      eapply fork_same; [done..|apply tgrown_refl|done|]. by intros ? ? ? ?.
    + exists false, s3, own'. split; [|done]. unfold pbind at 1 2 3. rewrite E1, E2. cbn. unfold pbind. by rewrite E3.
  - destruct (fork_share own0 own src d n s0 s p M (PTE_FLAGS w) Hf H0 U0 Hn Hp Hin) as (s1 & s2 & r' & E1 & E2 & O); try done.
    { fold w. by rewrite HW. }
    rewrite (pbind_Some _ _ _ _ _ E1), (pbind_Some _ _ _ _ _ E2).
    destruct O as [(-> & own' & Hf')|(-> & s3 & own' & E3 & Hf')]; cbn [Z.ltb Z.compare].
    + by exists true, s2, own'.
    + rewrite (pbind_Some _ _ _ _ _ E3). by exists false, s3, own'.
  - destruct (fork_copy own0 own src d n s0 s p M (PTE_FLAGS w) Hf H0 U0 Hn Hp Hin eq_refl) as (mm & s1 & E1 & O).
    rewrite (pbind_Some _ _ _ _ _ E1). destruct O as [[-> Hf']|(Hm0 & r' & s3 & E3 & O)].
    { by exists false, s1, own. }
    rewrite (proj2 (Z.eqb_neq mm 0) Hm0).
    rewrite (pbind_Some _ _ s1 tt (with_bytes (write_bytes (bytes s1) mm (read_bytes (bytes s1) p 4096)) s1)) by reflexivity.
    rewrite (pbind_Some _ _ _ _ _ E3). destruct O as [(-> & own' & Hf')|(-> & s4 & own' & E4 & Hf')]; cbn [Z.ltb Z.compare].
    + by exists true, s3, own'.
    + rewrite (pbind_Some _ _ _ _ _ E4). by exists false, s4, own'.
Qed.

Lemma page_step n : 0 <= n < NUSER -> n * 4096 +u PGSIZE = (n + 1) * 4096.
Proof. unfold NUSER, PGSIZE. intros. rewrite u32_small by (unfold is_u32; lia). lia. Qed.

Lemma copy_loop_spec k own0 own src d n s0 s : forking own0 own src d n s0 s -> vm_ok own0 None s0 -> unheld own0 ->
  0 <= n -> n + Z.of_nat k <= NUSER ->
  exists ok s' own' n', copy_loop k src d (n * 4096) s = Some (ok, s') /\ forking own0 own' src d n' s0 s' /\
    (ok = true -> n' = n + Z.of_nat k).
Proof.
  revert own n s. induction k as [|k IH]; intros own n s Hf H0 U0 Hn Hk; cbn [Vm.copy_loop].
  { exists true, s, own, n. split; [done|]. split; [done|]. lia. }
  destruct (copy_page_spec own0 own src d n s0 s Hf H0 U0) as (ok & s1 & own1 & E & Hf1); [lia|].
  rewrite (pbind_Some _ _ _ _ _ E). destruct ok; [|by exists false, s1, own1, n].
  rewrite page_step by lia. destruct (IH own1 (n + 1) s1 Hf1 H0 U0) as (ok & s' & own' & n' & E' & Hf' & Hok); [lia|lia|].
  exists ok, s', own', n'. split; [done|]. split; [done|]. intros Ht. rewrite Hok by done. lia.
Qed.

(** ** Write protection of the parent *)

Definition prot (w : Z) : Z :=
  if flag w PTE_P && flag w PTE_U && flag w PTE_W then Z.lor (Z.ldiff w PTE_W) PTE_COW else w.

Lemma prot_spec w : is_u32 w -> flag w PTE_COW && flag w PTE_W = false ->
  is_u32 (prot w) /\ PTE_ADDR (prot w) = PTE_ADDR w /\ flag (prot w) PTE_P = flag w PTE_P /\
  flag (prot w) PTE_U = flag w PTE_U /\ (flag (prot w) PTE_W = flag w PTE_W && negb (flag w PTE_P && flag w PTE_U)) /\
  (flag (prot w) PTE_W || flag (prot w) PTE_COW) = (flag w PTE_W || flag w PTE_COW) /\
  flag (prot w) PTE_COW && flag (prot w) PTE_W = false.
Proof.
  intros Hu Hs. unfold prot. destruct (flag w PTE_P && flag w PTE_U && flag w PTE_W) eqn:E.
  - apply andb_true_iff in E as [[EP EU]%andb_true_iff EW].
    assert (Hlow : forall n, 12 <= n -> Z.testbit (Z.lor (Z.ldiff w PTE_W) PTE_COW) n = Z.testbit w n).
    { intros n Hn. rewrite Z.lor_spec, Z.ldiff_spec. change PTE_W with (2 ^ 1). change PTE_COW with (2 ^ 9).
      rewrite !Z.pow2_bits_false by lia. cbn [negb]. by rewrite andb_true_r, orb_false_r. }
    destruct (low_change w _ Hu Hlow) as [Hu' HA].
    { apply Z.lor_nonneg. split; [|done]. apply Z.ldiff_nonneg. left. apply Hu. }
    split; [done|]. split; [done|]. rewrite EP, EU, EW. rewrite !flag_P, !flag_U, !flag_W, !flag_COW, !Z.lor_spec, !Z.ldiff_spec in *.
    change (Z.testbit PTE_W 0) with false. change (Z.testbit PTE_W 1) with true. change (Z.testbit PTE_W 2) with false.
    change (Z.testbit PTE_COW 0) with false. change (Z.testbit PTE_COW 1) with false. change (Z.testbit PTE_COW 2) with false.
    change (Z.testbit PTE_COW 9) with true. rewrite EP, EU, EW. cbn [negb andb orb]. by rewrite !orb_true_r.
  - split_and!; try done. destruct (flag w PTE_P), (flag w PTE_U), (flag w PTE_W); done.
Qed.

Lemma prot_view m w : is_u32 w -> (flag w PTE_P = true -> flag w PTE_COW && flag w PTE_W = false) ->
  entry_view m (prot w) = entry_view m w.
Proof.
  intros Hu Hs. destruct (flag w PTE_P) eqn:HP; [|unfold prot; by rewrite HP].
  destruct (prot_spec w Hu (Hs eq_refl)) as (_ & E1 & E2 & E3 & _ & E4 & _). unfold entry_view. by rewrite E1, E2, E3, E4.
Qed.

Abbreviation protect_page := (Vm.protect_page end_ meta_base pg_array_addr cpu).
Abbreviation protect_loop := (Vm.protect_loop end_ meta_base pg_array_addr cpu).

Lemma protect_page_spec own G s src n : vm_ok own G s -> own !! src = Some RDir -> 0 <= n < NUSER ->
  exists s', protect_page src (n * 4096) s = Some (tt, s') /\ quiet s s' /\ vm_ok own G s' /\ data_kept own s s' /\
    entry_set own src n (prot (pte (bytes s) src n)) (pte (bytes s)) (pte (bytes s')).
Proof.
  intros H Hs Hn. unfold Vm.protect_page. set (w := pte (bytes s) src n).
  assert (Hid : prot w = w -> exists s', Some (tt, s) = Some (tt, s') /\ quiet s s' /\ vm_ok own G s' /\ data_kept own s s' /\
    entry_set own src n (prot w) (pte (bytes s)) (pte (bytes s'))).
  { intros ->. exists s. split; [done|]. split; [by eapply quiet_refl|]. split; [done|]. split; [by intros ? ? ? ?|].
    intros e v _ _. case_decide as Hc; [|done]. injection Hc as -> ->. done. }
  destruct (walk_none own G s src n (n * 4096) H Hs Hn) as (r & E & O); [lia|]. rewrite (pbind_Some _ _ _ _ _ E).
  destruct O as [(-> & _ & Hz)|Hr]; [apply Hid; unfold w; by rewrite Hz|].
  pose proof Hr as (t & _ & _ & Hr0 & _). rewrite (proj2 (Z.eqb_neq r 0) Hr0).
  rewrite (pbind_Some _ _ _ _ _ (ld_entry _ _ _ _ _ Hr)). fold w.
  destruct (flag w PTE_P) eqn:HP; cbn [negb]; [|apply Hid; unfold prot; by rewrite HP].
  destruct (mapped_page own G s src n H Hs Hn HP) as (p & M & x & Hp & Hin & Hpg & HA). fold w in HA. rewrite HA.
  rewrite (pbind_Some (kpage_managed (V2P p)) _ s true s) by (unfold kpage_managed; by rewrite (user_managed own G s p _ H Hp)).
  rewrite andb_true_r. destruct (flag w PTE_U && flag w PTE_W) eqn:EUW; [|apply Hid; unfold prot; by rewrite HP, <- andb_assoc, EUW].
  pose proof (mo_u32 _ _ _ (vo_map _ _ _ H) src n Hs Hn) as Hu. pose proof (mo_sane _ _ _ (vo_map _ _ _ H) src n Hs Hn HP) as Hsn.
  fold w in Hu, Hsn. destruct (prot_spec w Hu Hsn) as (Pu & PA & PP & PU & PW & _ & PS).
  assert (Ep : prot w = Z.lor (Z.ldiff w PTE_W) PTE_COW).
  { unfold prot. by rewrite HP, <- andb_assoc, EUW. }
  exists (with_bytes (store32 (bytes s) r (prot w)) s). split.
  { unfold pte_mark_cow. rewrite (proj2 (Z.eqb_neq r 0) Hr0), (pbind_Some _ _ _ _ _ (ld_entry _ _ _ _ _ Hr)). fold w. by rewrite Ep. }
  destruct (entry_store own G s src n r (prot w) H Hn Hr Pu) as (Q & K & Es & _).
  split; [done|]. split; [|done]. eapply (flag_entry own G s src n r _ p M x); try done.
  - split; [done|]. split; [congruence|done].
  - apply andb_true_iff in EUW as [EU EW]. rewrite PW, EW, HP, EU. done.
Qed.

Lemma protect_loop_spec k own G s src n : vm_ok own G s -> own !! src = Some RDir -> 0 <= n -> n + Z.of_nat k <= NUSER ->
  exists s', protect_loop k src (n * 4096) s = Some (tt, s') /\ quiet s s' /\ vm_ok own G s' /\ data_kept own s s' /\
    forall e v, own !! e = Some RDir -> 0 <= v < NUSER ->
      pte (bytes s') e v = if decide (e = src /\ n <= v < n + Z.of_nat k) then prot (pte (bytes s) e v) else pte (bytes s) e v.
Proof.
  revert n s. induction k as [|k IH]; intros n s H Hs Hn Hk; cbn [Vm.protect_loop].
  { exists s. split; [done|]. split; [by eapply quiet_refl|]. split; [done|]. split; [by intros ? ? ? ?|].
    intros e v _ _. by rewrite decide_False by lia. }
  destruct (protect_page_spec own G s src n H Hs) as (s1 & E & Q & H1 & K & Es); [lia|]. rewrite (pbind_Some _ _ _ _ _ E).
  rewrite page_step by lia. destruct (IH (n + 1) s1 H1 Hs) as (s' & E' & Q' & H' & K' & Es'); [lia|lia|].
  exists s'. split; [done|]. split; [by eapply quiet_trans|]. split; [done|]. split.
  { intros p M x Hp a Ha. rewrite (K' p M x Hp a Ha). by apply (K p M x). }
  intros e v He Hv. rewrite Es', Es by done. destruct (decide ((e, v) = (src, n))) as [[= -> ->]|Hne].
  - rewrite decide_False, decide_True by lia. done.
  - destruct (decide (e = src)) as [->|]; [|by rewrite !decide_False by tauto].
    assert (v <> n) by congruence. repeat case_decide; try done; lia.
Qed.

(** ** [fork] *)

Lemma vm_ok_map own G G' s : vm_ok own G s -> map_ok own G' (pte (bytes s)) -> vm_ok own G' s.
Proof. intros [? ? ? ? ? ? ? ? ?] ?. by split. Qed.

Lemma vm_ok_weaken own G s : vm_ok own None s -> vm_ok own G s.
Proof.
  intros H. eapply vm_ok_map; [done|]. destruct (vo_map _ _ _ H) as [U P X S W]. split; try done.
  intros p M x d v d' v' Hp Hin Hin' HW. destruct (X p M x d v d' v' Hp Hin Hin' HW); [by left|done].
Qed.

Lemma vm_ok_drop own d s : vm_ok own (Some d) s -> own !! d <> Some RDir -> vm_ok own None s.
Proof.
  intros H Hd. eapply vm_ok_map; [done|]. destruct (vo_map _ _ _ H) as [U P X S W]. split; try done.
  intros p M x e v e' v' Hp Hin Hin' HW. destruct (X p M x e v e' v' Hp Hin Hin' HW) as [?|[= ->]]; [by left|].
  by destruct (U p M x _ v' Hp Hin') as (? & _).
Qed.

Lemma not_cur own G s d : vm_ok own G s -> own !! d = None -> ~ cur_dir s d.
Proof.
  intros H Hd (q & a & Eq & Ea & <-). pose proof (ko_cur _ _ (vo_kern _ _ _ H)) as Hc. rewrite Eq in Hc.
  destruct Hc as (a' & _ & Ea' & Hd'). congruence.
Qed.

Lemma quiet_cur s s' d : quiet s s' -> cur_dir s' d <-> cur_dir s d.
Proof. intros ((_ & _ & _ & Cp & _ & Cs) & _). unfold cur_dir. by rewrite Cp, Cs. Qed.

Lemma fork_start own s s1 src d : vm_ok own None s -> unheld own -> own !! src = Some RDir -> quiet s s1 ->
  data_kept own s s1 -> same_ptes own s s1 -> own !! d = None -> vm_ok (<[d := RDir]> own) None s1 -> vacant (bytes s1) d ->
  forking own (<[d := RDir]> own) src d 0 s s1.
Proof.
  intros H U Hs Q K SP Hd H1 V. assert (Hin : forall q r, not_user r = False -> <[d := RDir]> own !! q = Some r -> own !! q = Some r).
  { intros q r Hr [[<- <-]|[_ Hq]]%lookup_insert_Some; [|done]. cbn in Hr. exfalso. by rewrite <- Hr. }
  split; try done.
  - by apply vm_ok_weaken.
  - intros p M x Hp. apply (U p M x). by apply Hin.
  - apply lookup_insert_eq.
  - intros p r Hr Hne Hj. by rewrite lookup_insert_ne.
  - intros v Hv. lia.
  - intros v Hv Hv'. apply V. lia.
  - intros p M x v Hp Hdv. apply Hin in Hp; [|done].
    destruct (mo_user _ _ _ (vo_map _ _ _ H) _ _ _ _ _ Hp Hdv) as (? & _). congruence.
Qed.

(** All copies failed: everything is as before. *)
Lemma fork_undo own0 own src d n s0 s : forking own0 own src d n s0 s -> vm_ok own0 None s0 -> unheld own0 ->
  exists s', freevm end_ meta_base pg_array_addr cpu d s = Some (tt, s') /\ quiet s0 s' /\ vm_ok own0 None s' /\
    same_ptes own0 s0 s' /\ data_kept own0 s0 s'.
Proof.
  intros Hf H0 U0. pose proof (fk_ok _ _ _ _ _ _ _ Hf) as H. pose proof (fk_quiet _ _ _ _ _ _ _ Hf) as Q.
  destruct (freevm_spec own (Some d) s d H (fk_dir _ _ _ _ _ _ _ Hf)) as (s' & own' & E & H' & Fr).
  { rewrite (quiet_cur s0 s) by done. eapply not_cur; [done|apply (fk_fresh _ _ _ _ _ _ _ Hf)]. }
  assert (T : same_tabs own0 own').
  { intros p r Hr. split.
    - intros Hp. assert (p <> d) by (pose proof (fr_dir _ _ _ _ _ Fr); congruence).
      apply (fk_tabs _ _ _ _ _ _ _ Hf); try done; [|by apply (fr_back _ _ _ _ _ Fr)].
      intros j ->. by apply (fr_tab _ _ _ _ _ Fr p j).
    - intros Hp. assert (Hpd : p <> d) by (pose proof (fk_fresh _ _ _ _ _ _ _ Hf); congruence).
      assert (Hj : forall j, r <> RTab d j).
      { intros j ->. destruct (do_tab own0 _ (vo_dirs _ _ _ H0) p d j Hp) as (? & _).
        pose proof (fk_fresh _ _ _ _ _ _ _ Hf). congruence. }
      apply (fr_keep _ _ _ _ _ Fr); try done. by apply (fk_tabs _ _ _ _ _ _ _ Hf). }
  assert (SP : same_ptes own0 s0 s').
  { intros e v He Hv. destruct (fork_dirs _ _ _ _ _ _ _ e Hf He) as [He1 Hne].
    rewrite (fr_others _ _ _ _ _ Fr) by (done || by apply (T _ RDir)). by apply (fk_ptes _ _ _ _ _ _ _ Hf). }
  assert (own' = own0) as ->.
  { eapply (roles_unique own0 own' None (Some d) s0 s'); try done. intros p M x Hp.
    destruct (fr_user _ _ _ _ _ Fr p M x Hp) as (M0 & Hp0 & _). by apply (fk_unheld _ _ _ _ _ _ _ Hf p M0 x). }
  exists s'. split; [done|]. split; [eapply quiet_trans; [done|apply Fr]|]. split.
  { apply (vm_ok_drop own0 d); [done|]. rewrite (fk_fresh _ _ _ _ _ _ _ Hf). done. }
  split; [done|]. intros p M x Hp a Ha. rewrite (fr_data _ _ _ _ _ Fr p M x Hp a Ha). by apply (fk_data _ _ _ _ _ _ _ Hf p M x).
Qed.

(** After write protection no writable page is shared. *)
Lemma fork_exclusive own0 own src d n s0 s s' : forking own0 own src d n s0 s -> 0 <= n <= NUSER -> vm_ok own (Some d) s' ->
  (forall e v, own !! e = Some RDir -> 0 <= v < NUSER ->
     pte (bytes s') e v = if decide (e = src /\ 0 <= v < 0 + n) then prot (pte (bytes s) e v) else pte (bytes s) e v) ->
  vm_ok own None s'.
Proof.
  intros Hf Hn H' Ep. eapply vm_ok_map; [done|]. pose proof (vo_map _ _ _ H') as [U P X S W]. split; try done.
  destruct (fork_dirs _ _ _ _ _ _ _ src Hf (fk_src _ _ _ _ _ _ _ Hf)) as [Hs Hne].
  pose proof (vo_map _ _ _ (fk_ok _ _ _ _ _ _ _ Hf)) as Hm.
  intros p M x e v e' v' Hp Hin Hin' HW. destruct (X p M x e v e' v' Hp Hin Hin' HW) as [?|[= <-]]; [by left|].
  destruct (fk_share _ _ _ _ _ _ _ Hf p M x v' Hp Hin') as [->|[Hsv HU]]; [left; set_solver|].
  destruct (X p M x e v src v' Hp Hin Hsv HW) as [[= <- <-]|[= ->]]; [|done]. exfalso.
  destruct (mo_user _ _ _ Hm _ _ _ _ _ Hp Hsv) as (_ & Hv & HP & _).
  destruct (mo_user _ _ _ Hm _ _ _ _ _ Hp Hin') as (Hd & _ & HPd & _).
  assert (v' < n). { destruct (decide (v' < n)); [done|]. rewrite (fk_rest _ _ _ _ _ _ _ Hf v') in HPd by lia. done. }
  rewrite Ep, decide_True in HW by (done || lia).
  destruct (prot_spec (pte (bytes s) src v')) as (_ & _ & _ & _ & EW & _); [by apply (mo_u32 _ _ _ Hm)|by apply (mo_sane _ _ _ Hm)|].
  rewrite EW, HP, HU, andb_false_r in HW. done.
Qed.

(** The directories and what they see. *)
Definition same_views (own : gmap Z role) (s s' : vm) : Prop := forall e v,
  own !! e = Some RDir -> 0 <= v < NUSER -> view s' e v = view s e v.

Lemma views_kept own G s s' : vm_ok own G s -> same_ptes own s s' -> data_kept own s s' -> same_views own s s'.
Proof. intros H SP K e v He Hv. eapply view_frame; [done..| |done]. by apply SP. Qed.

Lemma copyuvm_spec own s src sz : vm_ok own None s -> unheld own -> own !! src = Some RDir -> 0 <= sz <= KERNBASE ->
  exists d s', copyuvm_internal end_ meta_base pg_array_addr data_ cpu src sz s = Some (d, s') /\
    same_views own s s' /\
    ((d = 0 /\ vm_ok own None s') \/
     (own !! d = None /\ exists own', vm_ok own' None s' /\ unheld own' /\ own' !! d = Some RDir /\
        (forall e, own' !! e = Some RDir <-> own !! e = Some RDir \/ e = d) /\
        forall v, 0 <= v < NUSER -> view s' d v = if v * PGSIZE <? sz then view s src v else None)).
Proof.
  intros H U Hs Hsz. unfold copyuvm_internal.
  destruct (setupkvm_spec own None s H) as (d & s1 & E & Q & K & SP & O). rewrite (pbind_Some _ _ _ _ _ E).
  destruct O as [[-> H1]|(Hpg & Hd & H1 & V)].
  { exists 0, s1. split; [done|]. split; [by eapply views_kept|]. by left. }
  destruct (page_pa d Hpg) as (_ & _ & _ & _ & _ & Hlo & _).
  rewrite (proj2 (Z.eqb_neq d 0)) by (unfold KERNBASE in Hlo; lia).
  pose proof (fork_start own s s1 src d H U Hs Q K SP Hd H1 V) as Hf.
  set (k := pages_to 0 sz). assert (Hk : Z.of_nat k = (sz + 4095) / 4096).
  { unfold k, pages_to, PGSIZE. mlia. }
  assert (Hk' : Z.of_nat k <= NUSER) by (rewrite Hk; unfold NUSER, KERNBASE in *; mlia).
  destruct (copy_loop_spec k own _ src d 0 s s1 Hf H U) as (ok & s2 & own2 & n' & E2 & Hf2 & Hok); [lia|lia|].
  change (0 * 4096) with 0 in E2. rewrite (pbind_Some _ _ _ _ _ E2). destruct ok.
  - rewrite (Hok eq_refl) in Hf2. cbn [Z.add] in Hf2. clear Hok.
    destruct (fork_dirs _ _ _ _ _ _ _ src Hf2 Hs) as [Hs2 Hne]. pose proof (fk_ok _ _ _ _ _ _ _ Hf2) as H2.
    destruct (protect_loop_spec k own2 (Some d) s2 src 0 H2 Hs2) as (s3 & E3 & Q3 & H3 & K3 & Ep); [lia|lia|].
    change (0 * 4096) with 0 in E3. rewrite (pbind_Some _ _ _ _ _ E3). exists d, s3. split; [done|].
    assert (V3 : same_views own2 s2 s3).
    { intros e v He Hv. transitivity (entry_view (bytes s3) (pte (bytes s2) e v)); [|by eapply entry_frame].
      unfold view. rewrite Ep by done. case_decide; [|done].
      apply prot_view; [by apply (mo_u32 _ _ _ (vo_map _ _ _ H2))|by apply (mo_sane _ _ _ (vo_map _ _ _ H2))]. }
    assert (V2 : same_views own s s2) by (eapply views_kept; [done|apply Hf2|apply Hf2]).
    split; [|right; split; [done|]].
    + intros e v He Hv. destruct (fork_dirs _ _ _ _ _ _ _ e Hf2 He) as [He2 _]. rewrite V3 by done. by apply V2.
    + exists own2. split; [eapply fork_exclusive; [done|lia|done|done]|]. split; [apply Hf2|]. split; [apply Hf2|].
      split.
      { intros e. split; [|intros [He| ->]; [by destruct (fork_dirs _ _ _ _ _ _ _ e Hf2 He)|apply Hf2]].
        intros He. destruct (decide (e = d)) as [->|Hed]; [by right|left]. by apply (fk_tabs _ _ _ _ _ _ _ Hf2) in He. }
      intros v Hv. rewrite V3 by (done || apply Hf2). unfold PGSIZE. destruct (Z.ltb_spec (v * 4096) sz).
      * rewrite (fk_view _ _ _ _ _ _ _ Hf2) by (rewrite ?Hk; mlia). by apply V2.
      * unfold view, entry_view. rewrite (fk_rest _ _ _ _ _ _ _ Hf2); [done|rewrite Hk; mlia|lia].
  - destruct (fork_undo own own2 src d n' s s2 Hf2 H U) as (s3 & E3 & Q3 & H3 & SP3 & K3).
    rewrite (pbind_Some _ _ _ _ _ E3). exists 0, s3. split; [done|]. split; [by eapply views_kept|]. by left.
Qed.
End Cow.
