(* ===== verification/VmAccess.v ===== *)
(** * Access to user memory: write faults, [copyout], [copyin]

    [cow_fault] and the copies between kernel and user memory, on the views of
    [VmCow]: what one address space writes, no other one sees. *)

From S2P Require Import Prelude NetBytes Vma Kalloc ByteMem Kmalloc Vm VmSpace VmUser VmCow.

Section Access.
Context {end_ meta_base pg_array_addr data_ : Z} {cpu : nat -> nat}.
Context {KI : KernelImage end_ meta_base pg_array_addr data_}.
Context {F : Z -> Z}.

Abbreviation page := (Kalloc.page (end_ := end_)).
Abbreviation kalloc := (Vm.kalloc end_ meta_base pg_array_addr cpu).
Abbreviation kfree := (Vm.kfree end_ meta_base cpu).
Abbreviation walkpgdir := (Vm.walkpgdir end_ meta_base pg_array_addr cpu).
Abbreviation mappages := (Vm.mappages end_ meta_base pg_array_addr cpu).
Abbreviation cow_fault := (Vm.cow_fault end_ meta_base pg_array_addr cpu).
Abbreviation bytes s := (mem (vmach s)).
Abbreviation vm_ok := (VmSpace.vm_ok (end_ := end_) (data_ := data_) (cpu := cpu) (F := F)).
Abbreviation quiet := (VmSpace.quiet (end_ := end_)).

(** ** Write faults *)

(** A state reached by work on user memory: nothing is held, and the
    directories and tables are the same. *)
Record settled (own own' : gmap Z role) (s s' : vm) : Prop := {
  se_ok : vm_ok own' None s';
  se_quiet : quiet s s';
  se_unheld : unheld own';
  se_dir e : own' !! e = Some RDir <-> own !! e = Some RDir
}.

Lemma settled_refl own s : vm_ok own None s -> unheld own -> settled own own s s.
Proof. intros H U. split; [done|by eapply quiet_refl|done|done]. Qed.
Lemma settled_trans o1 o2 o3 s1 s2 s3 : settled o1 o2 s1 s2 -> settled o2 o3 s2 s3 -> settled o1 o3 s1 s3.
Proof.
  intros [? Q1 ? D1] [? Q2 ? D2]. split; [done|by eapply quiet_trans|done|]. intros e. by rewrite D2.
Qed.

Lemma tab_entry_move own own' G s s' d v r : tab_entry own (bytes s) d v r -> same_tabs own own' -> vm_ok own' G s' ->
  tab_entry own' (bytes s') d v r.
Proof.
  intros (t & Ht & Er & Hr & _) T H'. apply (T _ (RTab d (v / 1024))) in Ht; [|done]. exists t. split_and!; try done.
  symmetry. by eapply pte_tab.
Qed.

(** The entry that [vm_lookup_pte] finds. *)
Lemma lookup_spec own G s d v va : vm_ok own G s -> own !! d = Some RDir -> 0 <= v < NUSER ->
  v * 4096 <= va < v * 4096 + 4096 ->
  PGROUNDDOWN va = v * 4096 /\
  exists r, vm_lookup_pte end_ meta_base pg_array_addr cpu d va s = Some (r, s) /\
    ((r = 0 /\ pte (bytes s) d v = 0) \/ tab_entry own (bytes s) d v r).
Proof.
  intros H Hd Hv Hva. assert (Er : PGROUNDDOWN va = v * 4096).
  { unfold NUSER in Hv. rewrite PGROUNDDOWN_spec by (unfold is_u32; lia). mlia. }
  split; [done|]. unfold vm_lookup_pte. rewrite Er.
  destruct (walk_none own G s d v (v * 4096) H Hd Hv) as (r & E & O); [lia|]. rewrite (pbind_Some _ _ _ _ _ E).
  exists r. destruct O as [(-> & _ & Hz)|Hr]; [split; [done|by left]|].
  pose proof Hr as (t & _ & _ & Hr0 & _). rewrite (proj2 (Z.eqb_neq r 0) Hr0).
  rewrite (pbind_Some _ _ _ _ _ (ld_entry _ _ _ _ _ Hr)). split; [|by right].
  rewrite (pbind_Some _ _ s tt s); [done|]. destruct (flag (pte (bytes s) d v) PTE_P) eqn:HP; [|done].
  apply sane_ok. by apply (mo_sane _ _ _ (vo_map _ _ _ H)).
Qed.

(** Setting the write bit and clearing the copy-on-write mark. *)
Definition writable_entry_of (w : Z) : Z := Z.ldiff (Z.lor w PTE_W) PTE_COW.

Lemma unprot_spec w : is_u32 w -> let u := writable_entry_of w in
  is_u32 u /\ PTE_ADDR u = PTE_ADDR w /\ flag u PTE_P = flag w PTE_P /\ flag u PTE_U = flag w PTE_U /\
  flag u PTE_W = true /\ flag u PTE_COW = false.
Proof.
  intros Hu u. assert (Hlow : forall n, 12 <= n -> Z.testbit u n = Z.testbit w n).
  { intros n Hn. unfold u, writable_entry_of. rewrite Z.ldiff_spec, Z.lor_spec. change PTE_W with (2 ^ 1). change PTE_COW with (2 ^ 9).
    rewrite !Z.pow2_bits_false by lia. cbn [negb]. by rewrite andb_true_r, orb_false_r. }
  destruct (low_change w u Hu Hlow) as [Hu' HA].
  { apply Z.ldiff_nonneg. left. apply Z.lor_nonneg. split; [apply Hu|done]. }
  split; [done|]. split; [done|]. rewrite !flag_P, !flag_U, !flag_W, !flag_COW. unfold u, writable_entry_of.
  rewrite !Z.ldiff_spec, !Z.lor_spec. change (Z.testbit PTE_W 0) with false. change (Z.testbit PTE_W 1) with true.
  change (Z.testbit PTE_W 2) with false. change (Z.testbit PTE_COW 0) with false. change (Z.testbit PTE_COW 1) with false.
  change (Z.testbit PTE_COW 2) with false. change (Z.testbit PTE_COW 9) with true. cbn [negb].
  by rewrite !andb_true_r, !orb_false_r, orb_true_r, andb_false_r.
Qed.

(** The sole owner of a page takes back the write bit. *)
Lemma cow_sole own s d v r p M : vm_ok own None s -> unheld own -> own !! d = Some RDir -> 0 <= v < NUSER ->
  tab_entry own (bytes s) d v r -> own !! p = Some (RUser M 0) -> (d, v) ∈ M -> (size M <= 1)%nat ->
  flag (pte (bytes s) d v) PTE_P = true -> flag (pte (bytes s) d v) PTE_COW = true ->
  let w := writable_entry_of (pte (bytes s) d v) in
  let s' := with_bytes (store32 (bytes s) r w) s in
  settled own own s s' /\ same_views own s s' /\ pte (bytes s') d v = w.
Proof.
  intros H U Hd Hv Hr Hp Hin HM HP HC w s'. pose proof (vo_map _ _ _ H) as Hm.
  destruct (unprot_spec _ (mo_u32 _ _ _ Hm d v Hd Hv)) as (Wu & WA & WP & WU & WW & WC). fold w in Wu, WA, WP, WU, WW, WC.
  destruct (entry_store own None s d v r w H Hv Hr Wu) as (Q & K & Es & _). fold s' in Q, K, Es.
  assert (H' : vm_ok own None s').
  { eapply (flag_entry own None s d v r w p M 0); try done.
    - split; [done|]. split; [congruence|]. by rewrite WC.
    - intros _ d' v' Hin'. left. assert (E : M = {[(d, v)]}).
      { symmetry. apply set_subseteq_size_eq; [set_solver|]. rewrite size_singleton. lia. }
      rewrite E in Hin'. by apply elem_of_singleton in Hin'. }
  split; [split; [done|done|done|done]|]. split.
  - intros e k He Hk. transitivity (entry_view (bytes s') (pte (bytes s) e k)); [|by eapply entry_frame].
    unfold view. rewrite Es by done. case_decide as Hc; [|done]. injection Hc as -> ->.
    unfold entry_view. by rewrite WA, WP, WU, WW, WC, HC, !orb_true_r.
  - rewrite Es, decide_True by done. done.
Qed.

(** The flags of the private copy. *)
Lemma copy_flags w : is_u32 w -> let g := Z.lor (Z.ldiff (PTE_FLAGS w) PTE_COW) PTE_W in
  0 <= g < 4096 /\ flag g PTE_W = true /\ flag g PTE_U = flag w PTE_U /\ flag g PTE_COW = false.
Proof.
  intros Hu g. assert (Hf : 0 <= PTE_FLAGS w < 4096) by (unfold PTE_FLAGS; rewrite land_low; apply Z.mod_pos_bound; lia).
  split; [apply lor_flags; [by apply ldiff_flags|unfold PTE_W; lia]|].
  rewrite flag_W, !flag_U, flag_COW. unfold g. rewrite !Z.lor_spec, !Z.ldiff_spec, !flags_of by (done || lia).
  change (Z.testbit PTE_W 1) with true. change (Z.testbit PTE_W 2) with false. change (Z.testbit PTE_W 9) with false.
  change (Z.testbit PTE_COW 2) with false. change (Z.testbit PTE_COW 9) with true.
  cbn [negb]. by rewrite orb_true_r, andb_true_r, orb_false_r, andb_false_r.
Qed.

(** A shared page is replaced by a copy. *)
Lemma cow_copy own s d v r p M : vm_ok own None s -> unheld own -> own !! d = Some RDir -> 0 <= v < NUSER ->
  tab_entry own (bytes s) d v r -> own !! p = Some (RUser M 0) -> (d, v) ∈ M ->
  flag (pte (bytes s) d v) PTE_P = true -> flag (pte (bytes s) d v) PTE_COW = true ->
  PTE_ADDR (pte (bytes s) d v) = V2P p ->
  let g := Z.lor (Z.ldiff (PTE_FLAGS (pte (bytes s) d v)) PTE_COW) PTE_W in
  exists m s1, kalloc s = Some (m, s1) /\
    ((m = 0 /\ settled own own s s1 /\ bytes s1 = bytes s) \/
     (m <> 0 /\ exists s3,
        uvm_release_pte end_ meta_base cpu r (with_bytes (write_bytes (bytes s1) m (read_bytes (bytes s1) p 4096)) s1) = Some (1, s3) /\
        let s' := with_bytes (store32 (bytes s3) r (Z.lor (Z.lor (V2P m) g) PTE_P)) s3 in
        exists own', settled own own' s s' /\ same_views own s s' /\
          pte (bytes s') d v = Z.lor (Z.lor (V2P m) g) PTE_P)).
Proof.
  intros H U Hd Hv Hr Hp Hin HP HC HA g.
  destruct (kalloc_spec own None s H) as (m & s1 & E1 & Q1 & Eb1 & O1). exists m, s1. split; [done|].
  destruct O1 as [[-> H1]|(Hpm & Hnm & H1)].
  { left. split; [done|]. split; [|done]. by split. }
  right. destruct (page_pa m Hpm) as (_ & _ & _ & _ & _ & Hlo & _). split; [unfold KERNBASE in Hlo; lia|].
  set (own1 := <[m := RUser ∅ 1]> own) in *. assert (Hm1 : own1 !! m = Some (RUser ∅ 1)) by apply lookup_insert_eq.
  assert (Ho1 : forall q k, own !! q = Some k -> q <> m /\ own1 !! q = Some k).
  { intros q k Hq. assert (q <> m) by congruence. split; [done|]. by apply lookup_insert_Some; right. }
  assert (Hdir : forall e, own1 !! e = Some RDir <-> own !! e = Some RDir).
  { intros e. split; [|apply Ho1]. by intros [[_ ?]|[_ ?]]%lookup_insert_Some. }
  destruct (Ho1 p _ Hp) as [Hpm' Hp1].
  destruct (copy_to own1 None s1 p m ∅ 1 H1 Hm1) as (Q2 & H2 & K2 & SP2 & R2).
  set (s2 := with_bytes _ s1) in *. clearbody s2.
  assert (Ksp : forall e k, own !! e = Some RDir -> 0 <= k < NUSER -> pte (bytes s2) e k = pte (bytes s) e k).
  { intros e k He Hk. rewrite SP2 by (done || by apply Hdir). by rewrite Eb1. }
  assert (Hr2 : tab_entry own1 (bytes s2) d v r).
  { pose proof Hr as (t & Ht & Er & Hr0 & _). exists t. split; [by apply Ho1|]. split; [done|]. split; [done|].
    symmetry. eapply pte_tab; [exact H2|by apply Ho1|done]. }
  destruct (release_spec own1 None s2 d v r H2) as (s3 & p' & M' & x & Hp' & Hin' & HA' & E3 & Q3 & K3 & Es3 & H3); try done.
  { by apply Hdir. } { by rewrite Ksp. }
  assert (p' = p) as ->.
  { rewrite Ksp, HA in HA' by done. eapply V2P_inj; [by eapply (own_page own1 None s2)|by eapply (own_page own None s)|congruence]. }
  rewrite Hp1 in Hp'. injection Hp' as <- <-. exists s3. split; [done|].
  set (own3 := put_role p (M ∖ {[(d, v)]}) 0 own1) in *.
  assert (Hm3 : own3 !! m = Some (RUser ∅ 1)) by (unfold own3; by rewrite put_role_ne).
  assert (Hd3 : forall e, own3 !! e = Some RDir <-> own !! e = Some RDir).
  { intros e. unfold own3. by rewrite (put_role_dir p _ _ own1 M 0). }
  assert (Hr3 : tab_entry own3 (bytes s3) d v r).
  { eapply (tab_entry_move own1 own3); [done|by eapply put_role_user_tabs|done]. }
  destruct (copy_flags (pte (bytes s) d v)) as (Hg & HgW & HgU & HgC); [by apply (mo_u32 _ _ _ (vo_map _ _ _ H))|].
  fold g in Hg, HgW, HgU, HgC. assert (Hgs : flag g PTE_COW && flag g PTE_W = false) by (by rewrite HgC).
  destruct (new_entry m g Hpm Hg Hgs) as (Hw & HwA & _ & _). set (w := Z.lor (Z.lor (V2P m) g) PTE_P) in *.
  destruct (entry_store own3 None s3 d v r w H3 Hv Hr3 (proj1 Hw)) as (Q4 & K4 & Es4 & _).
  set (s' := with_bytes (store32 (bytes s3) r w) s3) in *.
  exists (put_role m ({[(d, v)]} ∪ ∅) 0 own3).
  assert (H' : vm_ok (put_role m ({[(d, v)]} ∪ ∅) 0 own3) None s').
  { eapply (set_entry own3 None s3 d v r w m ∅ 1); try done; [by apply Hd3|].
    rewrite Es3, decide_True by (done || by apply Hdir). done. }
  assert (Ep : forall e k, own !! e = Some RDir -> 0 <= k < NUSER ->
    pte (bytes s') e k = if decide ((e, k) = (d, v)) then w else pte (bytes s) e k).
  { intros e k He Hk. rewrite Es4 by (done || by apply Hd3). case_decide as Hc; [done|].
    rewrite Es3, decide_False by (done || by apply Hdir). by apply Ksp. }
  clearbody s'. split; [split|split].
  - done.
  - exact (quiet_trans _ _ _ Q1 (quiet_trans _ _ _ Q2 (quiet_trans _ _ _ Q3 Q4))).
  - intros q N y [[-> [= -> ->]]|[Hqm Hq]]%put_role_inv; [done|].
    apply put_role_inv in Hq as [[-> [= -> ->]]|[_ Hq]]; [done|].
    apply lookup_insert_Some in Hq as [[? _]|[_ Hq]]; [congruence|]. by eapply U.
  - intros e. rewrite (put_role_dir m _ _ own3 ∅ 1) by done. apply Hd3.
  - intros e k He Hk. unfold view at 1. rewrite Ep by done. case_decide as Hc.
    + injection Hc as -> ->. unfold w. rewrite new_view by done. unfold view, entry_view. rewrite HP, HgU, HgW, HC, orb_true_r, HA.
      destruct (page_pa p (own_page _ _ _ _ _ H Hp)) as (_ & _ & _ & -> & _). do 2 f_equal.
      transitivity (read_bytes (bytes s2) m 4096); [apply read_ext; intros a Ha|rewrite <- Eb1; apply (R2 4096)].
      rewrite (K4 m ∅ 1 Hm3 a Ha). by apply (K3 m ∅ 1).
    + unfold view, entry_view. destruct (flag (pte (bytes s) e k) PTE_P) eqn:HPe; [|done].
      destruct (mapped_page own None s e k H He Hk HPe) as (q & N & y & Hq & Hink & Hqg & HAe). rewrite HAe.
      destruct (page_pa q Hqg) as (_ & _ & _ & -> & _). do 2 f_equal. apply read_ext. intros a Ha.
      destruct (Ho1 q _ Hq) as [Hqm Hq1].
      assert (Hq3 : exists N' y', own3 !! q = Some (RUser N' y')).
      { unfold own3. destruct (decide (q = p)) as [->|Hqp]; [|rewrite put_role_ne by done; by eauto].
        assert (N = M) as -> by congruence. rewrite (put_role_eq _ _ _ _ (e, k)); [by eauto|done|].
        apply elem_of_difference. split; [done|]. by rewrite elem_of_singleton. }
      destruct Hq3 as (N' & y' & Hq3). rewrite (K4 q N' y' Hq3 a Ha), (K3 q N y Hq1 a Ha), <- Eb1.
      apply (K2 q N y); [|done]. by apply lookup_delete_Some.
  - rewrite Ep, decide_True by done. done.
Qed.

Lemma same_views_trans own own' s1 s2 s3 : (forall e, own' !! e = Some RDir <-> own !! e = Some RDir) ->
  same_views own s1 s2 -> same_views own' s2 s3 -> same_views own s1 s3.
Proof. intros D V1 V2 e v He Hv. rewrite V2 by (done || by apply D). by apply V1. Qed.

Lemma flush_ok own own' s s' d : settled own own' s s' -> d <> 0 ->
  exists s2, vm_tlb_flush d s' = Some (tt, s2) /\ settled own own' s s2 /\ bytes s2 = bytes s'.
Proof.
  intros [H Q U D] Hd. unfold vm_tlb_flush. rewrite (proj2 (Z.eqb_neq d 0) Hd).
  destruct (side_ok own' None s' (set_cr3 (V2P d) (esp0 s') s') H eq_refl (ctl_refl s')) as [H2 Q2].
  eexists. split; [done|]. split; [|done]. split; [done|by eapply quiet_trans|done|done].
Qed.

Lemma view_bytes s s' e v : bytes s' = bytes s -> view s' e v = view s e v.
Proof. intros E. unfold view. by rewrite E. Qed.

Lemma dir_nz own G s d : vm_ok own G s -> own !! d = Some RDir -> d <> 0.
Proof.
  intros H Hd. destruct (page_pa d (own_page _ _ _ _ _ H Hd)) as (_ & _ & _ & _ & _ & Hlo & _). unfold KERNBASE in Hlo. lia.
Qed.

Lemma cow_fault_spec own s d v va : vm_ok own None s -> unheld own -> own !! d = Some RDir -> 0 <= v < NUSER ->
  v * 4096 <= va < v * 4096 + 4096 ->
  exists r s' own', cow_fault d va s = Some (r, s') /\ settled own own' s s' /\ same_views own s s' /\
    ((r = 0 /\ flag (pte (bytes s') d v) PTE_P = true /\ flag (pte (bytes s') d v) PTE_W = true) \/
     (r = -1 /\ bytes s' = bytes s /\ own' = own)).
Proof.
  intros H U Hd Hv Hva. unfold Vm.cow_fault. destruct (lookup_spec own None s d v va H Hd Hv Hva) as (-> & _).
  destruct (lookup_spec own None s d v (v * 4096) H Hd Hv) as (_ & r & E & O); [lia|]. rewrite (pbind_Some _ _ _ _ _ E).
  assert (Hfail : exists r0 s' own', Some (-1, s) = Some (r0, s') /\ settled own own' s s' /\ same_views own s s' /\
    ((r0 = 0 /\ flag (pte (bytes s') d v) PTE_P = true /\ flag (pte (bytes s') d v) PTE_W = true) \/
     (r0 = -1 /\ bytes s' = bytes s /\ own' = own))).
  { exists (-1), s, own. split; [done|]. split; [by apply settled_refl|]. split; [done|]. by right. }
  destruct O as [[-> _]|Hr]; [exact Hfail|]. pose proof Hr as (t & _ & _ & Hr0 & _). rewrite (proj2 (Z.eqb_neq r 0) Hr0).
  rewrite (pbind_Some _ _ _ _ _ (ld_entry _ _ _ _ _ Hr)). set (w := pte (bytes s) d v) in *.
  destruct (flag w PTE_P) eqn:HP; cbn [negb]; [|exact Hfail]. unfold pte_is_cow.
  destruct (flag w PTE_COW) eqn:HC; cbn [negb]; [|exact Hfail].
  destruct (mapped_page own None s d v H Hd Hv HP) as (p & M & x & Hp & Hin & Hpg & HA). fold w in HA. rewrite HA.
  pose proof (U _ _ _ Hp) as ->. destruct (page_pa p Hpg) as (_ & _ & Hbad & HPV & _).
  unfold bad_pa in Hbad. apply orb_false_iff in Hbad as [[Ez _]%orb_false_iff _]. rewrite Ez, HPV.
  rewrite (pbind_Some get _ s s s) by done. change (kpage_refcount (kk (vmach s)) (V2P p)) with (refs (kk (vmach s)) p).
  destruct (vo_own _ _ _ H p _ Hp) as (_ & _ & -> & _). cbn [rcount]. rewrite Z.gtb_ltb.
  destruct (Z.ltb_spec 1 (Z.of_nat (size M) + 0)) as [Hsh|Hsole].
  - destruct (cow_copy own s d v r p M H U Hd Hv Hr Hp Hin HP HC HA) as (m & s1 & E1 & O1).
    rewrite (pbind_Some _ _ _ _ _ E1). destruct O1 as [(-> & St & Eb)|(Hm0 & s3 & E3 & own' & St & Vs & Ep)].
    { exists (-1), s1, own. cbn [Z.eqb]. split; [done|]. split; [done|]. split; [intros ? ? ? ?; by apply view_bytes|]. auto. }
    rewrite (proj2 (Z.eqb_neq m 0) Hm0).
    rewrite (pbind_Some _ _ s1 tt (with_bytes (write_bytes (bytes s1) m (read_bytes (bytes s1) p 4096)) s1)) by reflexivity.
    rewrite (pbind_Some _ _ _ _ _ E3). cbn [Z.ltb Z.compare].
    set (s4 := with_bytes (store32 (bytes s3) r (Z.lor (Z.lor (V2P m) (Z.lor (Z.ldiff (PTE_FLAGS w) PTE_COW) PTE_W)) PTE_P)) s3) in *.
    destruct (flush_ok own own' s s4 d St (dir_nz _ _ _ _ H Hd)) as (s5 & E5 & St5 & Eb5).
    exists 0, s5, own'. split.
    { rewrite (pbind_Some _ _ s3 tt s4) by reflexivity. by rewrite (pbind_Some _ _ _ _ _ E5). }
    split; [done|]. split; [intros e k He Hk; rewrite (view_bytes s4) by done; by apply Vs|].
    left. rewrite Eb5. split; [done|]. rewrite (Ep : pte (bytes s4) d v = _).
    destruct (copy_flags w) as (Hg & HgW & HgU & HgC); [by apply (mo_u32 _ _ _ (vo_map _ _ _ H))|].
    assert (Hpm : page m).
    { destruct (kalloc_spec own None s H) as (m' & s1' & E1' & _ & _ & O1'). rewrite E1 in E1'. injection E1' as <- <-.
      destruct O1' as [[-> _]|(? & _)]; done. }
    destruct (new_entry m _ Hpm Hg) as ((_ & HPn & _) & _ & _ & HWn); [by rewrite HgC|]. fold w. split; [done|]. by rewrite HWn.
  - destruct (cow_sole own s d v r p M H U Hd Hv Hr Hp Hin) as (St & Vs & Ep); try done; [lia|]. fold w in St, Vs, Ep.
    set (s4 := with_bytes (store32 (bytes s) r (writable_entry_of w)) s) in *.
    destruct (flush_ok own own s s4 d St (dir_nz _ _ _ _ H Hd)) as (s5 & E5 & St5 & Eb5).
    exists 0, s5, own. split.
    { rewrite (pbind_Some _ _ s tt s4), (pbind_Some _ _ _ _ _ E5); [done|].
      unfold pte_mark_writable. rewrite (proj2 (Z.eqb_neq r 0) Hr0). by rewrite (pbind_Some _ _ _ _ _ (ld_entry _ _ _ _ _ Hr)). }
    split; [done|]. split; [intros e k He Hk; rewrite (view_bytes s4) by done; by apply Vs|].
    left. rewrite Eb5, Ep. destruct (unprot_spec w) as (_ & _ & WP & _ & WW & _); [by apply (mo_u32 _ _ _ (vo_map _ _ _ H))|].
    split; [done|]. split; [congruence|done].
Qed.

(** ** The guard of user addresses *)

(** What [vm_addrspace_allows_user_va] answers. *)
Definition space_allows (a : address_space) (va : Z) : bool :=
  if (vma_count a =? 0)%nat then negb (transitional a =? 0) && (vm_size a >? 0) && (va <? vm_size a)
  else match vma_find (Some a) va with Some _ => true | None => false end.
Definition allowed (s : vm) (d va : Z) : bool :=
  match curproc s with
  | None => true
  | Some q => match spaces s !! addrsp q with
              | None => true
              | Some a => negb (d =? pgdir a) || space_allows a va
              end
  end.

(** Only counters and registers differ. *)
Definition bare (s s' : vm) : Prop := vmach s' = vmach s /\ ctl s s'.
Lemma bare_refl s : bare s s. Proof. done. Qed.
Lemma bare_trans s1 s2 s3 : bare s1 s2 -> bare s2 s3 -> bare s1 s3.
Proof. intros [? ?] [? ?]. split; [congruence|by eapply ctl_trans]. Qed.

Lemma allowed_ctl s s' d va : ctl s s' -> allowed s' d va = allowed s d va.
Proof. intros (_ & _ & _ & E1 & _ & E2). unfold allowed. by rewrite E1, E2. Qed.
Lemma settled_bare own s s' : bare s s' -> vm_ok own None s -> unheld own -> settled own own s s'.
Proof. intros [E C] H U. destruct (side_ok own None s s' H E C). by split. Qed.

Lemma cur_space own G s d : vm_ok own G s ->
  exists r, vm_current_addrspace_for_pgdir d s = Some (r, s) /\
    ((r = 0 /\ forall va, allowed s d va = true) \/
     (r <> 0 /\ exists a, spaces s !! r = Some a /\ pgdir a = d /\ forall va, allowed s d va = space_allows a va)).
Proof.
  intros H. unfold vm_current_addrspace_for_pgdir, allowed. rewrite (pbind_Some _ _ s (curproc s) s) by done.
  destruct (cur_pgdir own G s H) as (e & E & [[_ Eq]|(a & Hd & Hnz & q & Eq & Ha0 & Ha & Eg)]); rewrite Eq.
  { exists 0. split; [done|]. by left. }
  rewrite (proj2 (Z.eqb_neq _ 0) Ha0), Ha, (pbind_Some _ _ s a s) by (unfold space_at; by rewrite Ha).
  rewrite Eg, (proj2 (Z.eqb_neq _ 0) Hnz), (pbind_Some _ _ _ _ _ (effective own G s d H)).
  destruct (Z.eqb_spec d e) as [->|Hne]; cbn [negb orb].
  - exists (addrsp q). split; [done|]. right. split; [done|]. exists a. done.
  - exists 0. split; [done|]. by left.
Qed.

Lemma bump_bare c n s : exists s', vbump c n s = Some (tt, s') /\ bare s s'.
Proof. eexists. split; [done|]. done. Qed.

Lemma allows_spec own G s d va : vm_ok own G s ->
  exists s', vm_addrspace_allows_user_va d va s = Some (allowed s d va, s') /\ bare s s'.
Proof.
  intros H. unfold vm_addrspace_allows_user_va. destruct (bump_bare GUARD_CHECKS 1 s) as (s1 & E1 & B1).
  rewrite (pbind_Some _ _ _ _ _ E1). rewrite <- (allowed_ctl s s1) by apply B1.
  destruct (side_ok own G s s1 H) as [H1 _]; [apply B1..|].
  destruct (cur_space own G s1 d H1) as (r & Er & O). rewrite (pbind_Some _ _ _ _ _ Er).
  assert (Hb : forall c s2 (b : bool), bare s s2 -> exists s3, pbind (vbump c 1) (fun _ => pret b) s2 = Some (b, s3) /\ bare s s3).
  { intros c s2 b B2. eexists. split; [done|]. by eapply bare_trans; [exact B2|]. }
  destruct O as [[-> ->]|(Hr & a & Ha & Eg & Hal)].
  { cbn [Z.eqb]. destruct (bump_bare BYPASS_NO_AS 1 s1) as (s2 & E2 & B2). rewrite (pbind_Some _ _ _ _ _ E2).
    apply Hb. by eapply bare_trans. }
  rewrite (proj2 (Z.eqb_neq r 0) Hr), Hal, (pbind_Some _ _ s1 a s1) by (unfold space_at; by rewrite Ha).
  unfold space_allows. destruct (vma_count a =? 0)%nat.
  - destruct (negb (transitional a =? 0) && (vm_size a >? 0) && (va <? vm_size a)); [|by apply Hb].
    destruct (bump_bare BYPASS_VM_SIZE 1 s1) as (s2 & E2 & B2). rewrite (pbind_Some _ _ _ _ _ E2).
    apply Hb. by eapply bare_trans.
  - by destruct (vma_find (Some a) va); apply Hb.
Qed.
End Access.
