(* ===== verification/VmCopy.v ===== *)
(** * Copies between kernel and user memory: [copyout], [copyin]

    The pages that [copyout] fills on demand, the private copies it makes, and
    what both functions move, on the bytes that a process reads. *)

From S2P Require Import Prelude NetBytes Vma Kalloc ByteMem Kmalloc Vm VmSpace VmUser VmCow VmAccess.

Lemma user_page a : 0 <= a < KERNBASE -> 0 <= a / 4096 < NUSER.
Proof. unfold KERNBASE, NUSER. intros. mlia. Qed.

Section Copy.
Context {end_ meta_base pg_array_addr data_ : Z} {cpu : nat -> nat}.
Context {KI : KernelImage end_ meta_base pg_array_addr data_}.
Context {F : Z -> Z}.

Abbreviation page := (Kalloc.page (end_ := end_)).
Abbreviation kalloc := (Vm.kalloc end_ meta_base pg_array_addr cpu).
Abbreviation kfree := (Vm.kfree end_ meta_base cpu).
Abbreviation walkpgdir := (Vm.walkpgdir end_ meta_base pg_array_addr cpu).
Abbreviation mappages := (Vm.mappages end_ meta_base pg_array_addr cpu).
Abbreviation vm_map_zerofill_page := (Vm.vm_map_zerofill_page end_ meta_base pg_array_addr cpu).
Abbreviation writable_entry := (Vm.writable_entry end_ meta_base pg_array_addr cpu).
Abbreviation bytes s := (mem (vmach s)).
Abbreviation vm_ok := (VmSpace.vm_ok (end_ := end_) (data_ := data_) (cpu := cpu) (F := F)).
Abbreviation quiet := (VmSpace.quiet (end_ := end_)).
Abbreviation settled := (VmAccess.settled (end_ := end_) (data_ := data_) (cpu := cpu) (F := F)).

(** ** Zero pages *)

Definition zeros : list Z := replicate 4096 0.

(** The view of one page is [u], the others are as before. *)
Definition view_set (own : gmap Z role) (d v : Z) (u : option upage) (s s' : vm) : Prop := forall e k,
  own !! e = Some RDir -> 0 <= k < NUSER -> view s' e k = if decide ((e, k) = (d, v)) then u else view s e k.

(** The page [q] leaves the roles of a state in which nothing else is held. *)
Lemma unheld_put own1 own d q M : unheld own -> grown d (<[q := RUser ∅ 1]> own) own1 -> unheld (put_role q M 0 own1).
Proof.
  intros U [_ Gr] p N x [[-> [= -> ->]]|[Hne Hp]]%put_role_inv; [done|].
  apply Gr in Hp as [Hp|[i Hp]]; [|done]. rewrite lookup_insert_ne in Hp by done. by eapply U.
Qed.

Lemma fresh_dirs own1 own d q M e : own !! q = None -> grown d (<[q := RUser ∅ 1]> own) own1 ->
  put_role q M 0 own1 !! e = Some RDir <-> own !! e = Some RDir.
Proof.
  intros Hq Gr. rewrite (put_role_dir q M 0 own1 ∅ 1).
  2: { apply (grown_user _ _ _ _ _ _ Gr), lookup_insert_eq. }
  rewrite (grown_dir _ _ _ _ Gr). destruct (decide (e = q)) as [->|Hne]; [|by rewrite lookup_insert_ne].
  rewrite lookup_insert_eq. split; congruence.
Qed.

(** A new page filled with [l]. *)
Lemma new_page own s m s1 l : vm_ok own None s -> own !! m = None -> bytes s1 = bytes s -> vm_ok (<[m := RUser ∅ 1]> own) None s1 ->
  Forall is_u8 l -> len l = 4096 ->
  let s2 := with_bytes (write_bytes (bytes s1) m l) s1 in
  quiet s1 s2 /\ vm_ok (<[m := RUser ∅ 1]> own) None s2 /\ data_kept own s s2 /\ same_ptes own s s2 /\
  forall i : nat, (i < 4096)%nat -> bytes s2 (m + Z.of_nat i) = nth i l 0.
Proof.
  intros H Hm Eb H1 Hl Hlen s2.
  destruct (write_page _ None s1 m ∅ 1 0 l H1 (lookup_insert_eq _ _ _)) as (Q & H2 & K & SP); [lia|unfold PGSIZE; lia|done|].
  rewrite Z.add_0_r in Q, H2, K, SP. split; [done|]. split; [done|]. split; [|split].
  - intros p M x Hp a Ha. rewrite <- Eb. apply (K p M x); [|done]. rewrite delete_insert_id; done.
  - intros e k He Hk. rewrite <- Eb. apply SP; [|done]. rewrite lookup_insert_ne; congruence.
  - intros i Hi. destruct (lookup_lt_is_Some_2 l i) as [x Hx]; [unfold len in Hlen; lia|].
    rewrite (nth_lookup_Some _ _ _ _ Hx). by apply write_in.
Qed.
Lemma read_zeros m p : (forall i : nat, (i < 4096)%nat -> m (p + Z.of_nat i) = nth i zeros 0) -> read_bytes m p 4096 = zeros.
Proof.
  intros H. apply list_eq. intros i. unfold read_bytes, zeros. rewrite list_lookup_fmap.
  destruct (decide (i < 4096)%nat) as [Hi|Hi].
  - rewrite lookup_seq_lt by lia. cbn [fmap option_fmap option_map]. rewrite H by done.
    rewrite lookup_replicate_2 by done. f_equal. unfold zeros. apply nth_lookup_Some, lookup_replicate_2. done.
  - rewrite (lookup_ge_None_2 (seq _ _)) by (rewrite length_seq; lia).
    rewrite lookup_ge_None_2; [done|]. rewrite length_replicate. lia.
Qed.

(** A page from the allocator, cleared and mapped. *)
Lemma map_new own s d v f : vm_ok own None s -> unheld own -> own !! d = Some RDir -> 0 <= v < NUSER ->
  flag (pte (bytes s) d v) PTE_P = false -> 0 <= f < 4096 -> flag f PTE_COW && flag f PTE_W = false ->
  exists m s1, kalloc s = Some (m, s1) /\
    ((m = 0 /\ settled own own s s1 /\ bytes s1 = bytes s) \/
     (m <> 0 /\ exists r s3,
        mappages d (v * 4096) PGSIZE (V2P m) f (with_bytes (write_bytes (bytes s1) m zeros) s1) = Some (r, s3) /\
        ((r = 0 /\ exists own', settled own own' s s3 /\ pte (bytes s3) d v = Z.lor (Z.lor (V2P m) f) PTE_P /\ page m /\
            view_set own d v (Some (mkUp (flag f PTE_U) (flag f PTE_W || flag f PTE_COW) zeros)) s s3) \/
         (r = -1 /\ own !! m = None /\ exists own', grown d (<[m := RUser ∅ 1]> own) own' /\ vm_ok own' None s3 /\ quiet s s3 /\
            same_ptes own s s3 /\ data_kept own s s3)))).
Proof.
  intros H U Hd Hv HP Hf Hs. destruct (kalloc_spec own None s H) as (m & s1 & E1 & Q1 & Eb1 & O1). exists m, s1. split; [done|].
  destruct O1 as [[-> H1]|(Hpm & Hnm & H1)]; [left; split; [done|]; split; [by split|done]|].
  right. destruct (page_pa m Hpm) as (_ & _ & _ & _ & _ & Hlo & _). split; [unfold KERNBASE in Hlo; lia|].
  destruct (new_page own s m s1 zeros H Hnm Eb1 H1) as (Q2 & H2 & K2 & SP2 & R2).
  { unfold zeros. apply Forall_replicate. unfold is_u8. lia. } { done. }
  set (s2 := with_bytes _ s1) in *. clearbody s2. set (own1 := <[m := RUser ∅ 1]> own) in *.
  assert (Ho1 : forall q k, own !! q = Some k -> own1 !! q = Some k).
  { intros q k Hq. apply lookup_insert_Some. right. split; [congruence|done]. }
  destruct (mappages_one own1 None s2 d v m ∅ 1 f H2) as (r & s3 & own3 & E3 & Q3 & K3 & Gr & O3); try done.
  { by apply Ho1. } { by rewrite SP2. } { apply lookup_insert_eq. }
  exists r, s3. split; [done|]. pose proof (quiet_trans _ _ _ Q1 (quiet_trans _ _ _ Q2 Q3)) as Qs.
  assert (K' : data_kept own s s3).
  { intros q N x Hq a Ha. rewrite (K3 q N x (Ho1 _ _ Hq) a Ha). by apply (K2 q N x). }
  destruct O3 as [(-> & H3 & SP3)|(-> & H3 & Es)].
  - right. split; [done|]. split; [done|]. exists own3. split; [done|]. split; [done|]. split; [done|]. split; [|done].
    intros e k He Hk. rewrite SP3 by (done || by apply Ho1). by apply SP2.
  - left. split; [done|]. exists (put_role m ({[(d, v)]} ∪ ∅) 0 own3). split; [split|].
    + done.
    + done.
    + by eapply unheld_put.
    + intros e. by eapply fresh_dirs.
    + assert (Ep : forall e k, own !! e = Some RDir -> 0 <= k < NUSER ->
        pte (bytes s3) e k = if decide ((e, k) = (d, v)) then Z.lor (Z.lor (V2P m) f) PTE_P else pte (bytes s) e k).
      { intros e k He Hk. rewrite <- (SP2 e k He Hk). apply Es; [by apply Ho1|done]. }
      split; [by rewrite Ep, decide_True|]. split; [done|].
      intros e k He Hk. unfold view at 1. rewrite Ep by done. case_decide as Hc.
      * rewrite new_view by done. do 2 f_equal. transitivity (read_bytes (bytes s2) m 4096).
        -- apply read_ext. apply (K3 m ∅ 1). apply lookup_insert_eq.
        -- by apply read_zeros.
      * by eapply entry_frame.
Qed.

(** The page that could not be mapped goes back. *)
Lemma unmap_new own own' s s3 d m : vm_ok own None s -> unheld own -> own !! m = None ->
  grown d (<[m := RUser ∅ 1]> own) own' -> vm_ok own' None s3 -> quiet s s3 -> same_ptes own s s3 -> data_kept own s s3 ->
  exists s4 own4, kfree m s3 = Some (tt, s4) /\ settled own own4 s s4 /\ same_ptes own s s4 /\ data_kept own s s4.
Proof.
  intros H U Hm Gr H3 Q SP K. destruct (kfree_held own' None s3 m ∅ 1 H3) as (s4 & E4 & Q4 & Eb4 & H4); [|lia|].
  { apply (grown_user _ _ _ _ _ _ Gr), lookup_insert_eq. }
  exists s4, (put_role m ∅ 0 own'). split; [done|]. split; [split|].
  - done.
  - by eapply quiet_trans.
  - by eapply unheld_put.
  - intros e. by eapply fresh_dirs.
  - split; [intros e k He Hk; rewrite Eb4; by apply SP|]. intros q N x Hq. rewrite Eb4. by eapply K.
Qed.

(** ** Demand-zero pages *)

Definition fill_flags (w : bool) : Z := if w then Z.lor PTE_U PTE_W else PTE_U.

Lemma page_state own G s d v va : vm_ok own G s -> own !! d = Some RDir -> 0 <= v < NUSER ->
  v * 4096 <= va < v * 4096 + 4096 ->
  user_page_state end_ meta_base pg_array_addr cpu d va s =
    Some (if flag (pte (bytes s) d v) PTE_P then if flag (pte (bytes s) d v) PTE_U then 2 else 1 else 0, s).
Proof.
  intros H Hd Hv Hva. unfold user_page_state. destruct (walk_none own G s d v va H Hd Hv Hva) as (r & E & O).
  rewrite (pbind_Some _ _ _ _ _ E). destruct O as [(-> & _ & ->)|Hr]; [done|].
  pose proof Hr as (t & _ & _ & Hr0 & _). rewrite (proj2 (Z.eqb_neq r 0) Hr0).
  rewrite (pbind_Some _ _ _ _ _ (ld_entry _ _ _ _ _ Hr)). destruct (flag (pte (bytes s) d v) PTE_P) eqn:HP; [|done].
  cbn [negb]. by rewrite (pbind_Some _ _ _ _ _ (sane_ok _ (mo_sane _ _ _ (vo_map _ _ _ H) d v Hd Hv HP) s)).
Qed.

(** What filling a page does: the page was absent, and is a page of zeros; or
    nothing changes for any process. *)
Lemma zerofill_spec own s as_ a v w : vm_ok own None s -> unheld own -> as_ <> 0 -> spaces s !! as_ = Some a ->
  own !! pgdir a = Some RDir -> 0 <= v < NUSER ->
  exists r s' own', vm_map_zerofill_page as_ (v * 4096) w s = Some (r, s') /\ settled own own' s s' /\
    ((r = -1 /\ same_views own s s') \/
     (r = 0 /\ view s (pgdir a) v = None /\ view_set own (pgdir a) v (Some (mkUp true w zeros)) s s' /\
      flag (pte (bytes s') (pgdir a) v) PTE_P = true)).
Proof.
  intros H U Ha0 Ha Hd Hv. unfold Vm.vm_map_zerofill_page.
  rewrite (proj2 (Z.eqb_neq _ 0) Ha0), (pbind_Some _ _ s a s) by (unfold space_at; by rewrite Ha).
  rewrite (proj2 (Z.eqb_neq _ 0) (dir_nz _ _ _ _ H Hd)).
  replace (negb (v * 4096 mod PGSIZE =? 0) || (v * 4096 >=? KERNBASE)) with false.
  2: { unfold PGSIZE, KERNBASE, NUSER in *. rewrite Z.mod_mul, Z.geb_leb by lia. symmetry. by apply Z.leb_gt; lia. }
  rewrite (pbind_Some _ _ _ _ _ (page_state own None s (pgdir a) v (v * 4096) H Hd Hv ltac:(lia))).
  assert (Hfail : exists r s' own', Some (-1, s) = Some (r, s') /\ settled own own' s s' /\
    ((r = -1 /\ same_views own s s') \/
     (r = 0 /\ view s (pgdir a) v = None /\ view_set own (pgdir a) v (Some (mkUp true w zeros)) s s' /\
      flag (pte (bytes s') (pgdir a) v) PTE_P = true))).
  { exists (-1), s, own. split; [done|]. split; [by apply settled_refl|]. by left. }
  destruct (flag (pte (bytes s) (pgdir a) v) PTE_P) eqn:HP.
  { destruct (flag (pte (bytes s) (pgdir a) v) PTE_U); exact Hfail. }
  cbn [Z.eqb negb]. change (if w then Z.lor PTE_U PTE_W else PTE_U) with (fill_flags w).
  destruct (map_new own s (pgdir a) v (fill_flags w) H U Hd Hv HP) as (m & s1 & E1 & O); [by destruct w|by destruct w|].
  rewrite (pbind_Some _ _ _ _ _ E1). destruct O as [(-> & St & Eb)|(Hm0 & r & s3 & E3 & O)].
  { exists (-1), s1, own. split; [done|]. split; [done|]. left. split; [done|]. intros e k _ _. by apply view_bytes. }
  rewrite (proj2 (Z.eqb_neq m 0) Hm0).
  rewrite (pbind_Some _ _ s1 tt (with_bytes (write_bytes (bytes s1) m zeros) s1)) by reflexivity.
  rewrite (pbind_Some _ _ _ _ _ E3). destruct O as [(-> & own' & St & Ep & Hpm & Vs)|(-> & Hnm & own' & Gr & H3 & Q & SP & K)].
  - exists 0, s3, own'. split; [done|]. split; [done|]. right. split; [done|]. split; [unfold view, entry_view; by rewrite HP|].
    split; [by destruct w|]. rewrite Ep.
    destruct (new_entry m (fill_flags w) Hpm) as ((_ & HPn & _) & _); [by destruct w..|]. done.
  - destruct (unmap_new own own' s s3 (pgdir a) m H U Hnm Gr H3 Q SP K) as (s4 & own4 & E4 & St & SP4 & K4).
    cbn [Z.ltb Z.compare]. rewrite (pbind_Some _ _ _ _ _ E4). exists (-1), s4, own4. split; [done|]. split; [done|].
    left. split; [done|]. by eapply views_kept.
Qed.

(** The effect of [copyout] on the page it is about to write: nothing for any
    other page; the page itself may have been filled with zeros. *)
Definition prepared (own : gmap Z role) (d v : Z) (s s' : vm) : Prop :=
  same_views own s s' \/ (view s d v = None /\ view_set own d v (Some (mkUp true true zeros)) s s').

Lemma resolve_spec own s d v : vm_ok own None s -> unheld own -> own !! d = Some RDir -> 0 <= v < NUSER ->
  exists r s' own', copyout_resolve_zerofill end_ meta_base pg_array_addr cpu d (v * 4096) s = Some (r, s') /\
    settled own own' s s' /\ prepared own d v s s' /\
    (r = -1 \/ (r = 0 /\ view s d v = None /\ view_set own d v (Some (mkUp true true zeros)) s s')).
Proof.
  intros H U Hd Hv. unfold copyout_resolve_zerofill. destruct (cur_space own None s d H) as (as_ & E & O).
  rewrite (pbind_Some _ _ _ _ _ E).
  assert (Hfail : exists r s' own', Some (-1, s) = Some (r, s') /\ settled own own' s s' /\ prepared own d v s s' /\
    (r = -1 \/ (r = 0 /\ view s d v = None /\ view_set own d v (Some (mkUp true true zeros)) s s'))).
  { exists (-1), s, own. split; [done|]. split; [by apply settled_refl|]. split; [by left|]. by left. }
  destruct O as [[-> _]|(Ha0 & a & Ha & Eg & _)]; [exact Hfail|].
  rewrite (proj2 (Z.eqb_neq _ 0) Ha0), (pbind_Some _ _ s a s) by (unfold space_at; by rewrite Ha).
  destruct (vma_find (Some a) (v * 4096)) as [i|]; [|exact Hfail]. destruct (live a !! i) as [x|]; [|exact Hfail].
  destruct (negb (flag (vflags x) VMA_ZEROFILL)); [exact Hfail|]. destruct (negb (flag (vflags x) VMA_WRITE)); [exact Hfail|].
  destruct (negb (vinode x =? 0)); [exact Hfail|]. rewrite <- Eg in Hd |- *.
  destruct (zerofill_spec own s as_ a v true H U Ha0 Ha Hd Hv) as (r & s' & own' & E1 & St & O).
  rewrite (pbind_Some _ _ _ _ _ E1). destruct O as [[-> Vs]|(-> & V0 & Vs & _)].
  - exists (-1), s', own'. split; [done|]. split; [done|]. split; [by left|]. by left.
  - destruct (flush_ok own own' s s' (pgdir a) St (dir_nz _ _ _ _ H Hd)) as (s2 & E2 & St2 & Eb2).
    cbn [Z.ltb Z.compare]. rewrite (pbind_Some _ _ _ _ _ E2). exists 0, s2, own'. split; [done|]. split; [done|].
    assert (Vs2 : view_set own (pgdir a) v (Some (mkUp true true zeros)) s s2).
    { intros e k He Hk. rewrite (view_bytes s') by done. by apply Vs. }
    split; [by right|]. by right.
Qed.

Lemma view_set_same own own' d v u s s1 s2 : (forall e, own' !! e = Some RDir <-> own !! e = Some RDir) ->
  view_set own d v u s s1 -> same_views own' s1 s2 -> view_set own d v u s s2.
Proof. intros D V1 V2 e k He Hk. rewrite V2 by (done || by apply D). by apply V1. Qed.

Lemma prepared_same own own' d v s s1 s2 : (forall e, own' !! e = Some RDir <-> own !! e = Some RDir) ->
  prepared own d v s s1 -> same_views own' s1 s2 -> prepared own d v s s2.
Proof.
  intros D [V|[V0 V]] V2; [left; by eapply same_views_trans|right; split; [done|]; by eapply view_set_same].
Qed.

(** A present entry, read again. *)
Lemma reread own s d v : vm_ok own None s -> own !! d = Some RDir -> 0 <= v < NUSER ->
  flag (pte (bytes s) d v) PTE_P = true ->
  exists r, r <> 0 /\ walkpgdir d (v * 4096) false s = Some (r, s) /\ ld r s = Some (pte (bytes s) d v, s).
Proof.
  intros H Hd Hv HP. destruct (walk_none own None s d v (v * 4096) H Hd Hv) as (r & E & O); [lia|].
  exists r. destruct O as [(_ & _ & Ez)|Hr]; [by rewrite Ez in HP|]. pose proof Hr as (t & _ & _ & Hr0 & _).
  split; [done|]. split; [done|]. by eapply ld_entry.
Qed.

Lemma user_valid own s d v : vm_ok own None s -> own !! d = Some RDir -> 0 <= v < NUSER ->
  flag (pte (bytes s) d v) PTE_P = true -> pte_pa_valid (pte (bytes s) d v) = true.
Proof.
  intros H Hd Hv HP. destruct (mapped_page own None s d v H Hd Hv HP) as (p & M & x & Hp & _ & Hpg & HA).
  unfold pte_pa_valid. rewrite HA. by destruct (page_pa p Hpg) as (_ & _ & -> & _).
Qed.

Definition ready_entry (s : vm) (d v w : Z) : Prop :=
  w = pte (bytes s) d v /\ flag w PTE_P = true /\ flag w PTE_U = true /\ flag w PTE_W = true.

(** The part of [writable_entry] after the entry is known to be present. *)
Lemma private_entry own s d v : vm_ok own None s -> unheld own -> own !! d = Some RDir -> 0 <= v < NUSER ->
  flag (pte (bytes s) d v) PTE_P = true ->
  let w := pte (bytes s) d v in
  exists o s' own',
    (pte_assert_sane w >>>
     if negb (pte_is_user w) then pret None
     else if negb (pte_pa_valid w) then pret None
     else if negb (pte_is_writable w) then
       if pte_is_cow w then
         let! r := Vm.cow_fault end_ meta_base pg_array_addr cpu d (v * 4096) in
         if r <? 0 then pret None
         else
           let! pte := walkpgdir d (v * 4096) false in
           if pte =? 0 then pret None
           else
             let! w := ld pte in
             if negb (flag w PTE_P) then pret None
             else
               pte_assert_sane w >>>
               pret (if negb (pte_is_user w) || negb (pte_is_writable w) then None
                     else if negb (pte_pa_valid w) then None else Some w)
       else pret None
     else pret (Some w))%pm s = Some (o, s') /\
    settled own own' s s' /\ same_views own s s' /\ match o with None => True | Some w => ready_entry s' d v w end.
Proof.
  intros H U Hd Hv HP w. rewrite (pbind_Some _ _ _ _ _ (sane_ok _ (mo_sane _ _ _ (vo_map _ _ _ H) d v Hd Hv HP) s)).
  assert (Hstay : forall o : option Z, match o with None => True | Some w => ready_entry s d v w end ->
    exists o' s' own', Some (o, s) = Some (o', s') /\ settled own own' s s' /\ same_views own s s' /\
      match o' with None => True | Some w => ready_entry s' d v w end).
  { intros o Ho. exists o, s, own. split; [done|]. split; [by apply settled_refl|]. done. }
  unfold pte_is_user, pte_is_writable. destruct (flag w PTE_U) eqn:HU; [|by apply (Hstay None)].
  rewrite (user_valid own s d v H Hd Hv HP : pte_pa_valid w = true). cbn [negb].
  destruct (flag w PTE_W) eqn:HW; [by apply (Hstay (Some w))|]. cbn [negb].
  destruct (pte_is_cow w); [|by apply (Hstay None)].
  destruct (cow_fault_spec own s d v (v * 4096) H U Hd Hv) as (r & s1 & own1 & E1 & St & Vs & O); [lia|].
  rewrite (pbind_Some _ _ _ _ _ E1). destruct O as [(-> & HP1 & HW1)|(-> & Eb & Eo)]; cbn [Z.ltb Z.compare].
  2: { exists None, s1, own1. done. }
  pose proof St as [H1 Q1 U1 D1]. apply D1 in Hd as Hd1.
  destruct (reread own1 s1 d v H1 Hd1 Hv HP1) as (r & Hr0 & Er & El).
  rewrite (pbind_Some _ _ _ _ _ Er), (proj2 (Z.eqb_neq r 0) Hr0), (pbind_Some _ _ _ _ _ El), HP1. cbn [negb].
  rewrite (pbind_Some _ _ _ _ _ (sane_ok _ (mo_sane _ _ _ (vo_map _ _ _ H1) d v Hd1 Hv HP1) s1)).
  rewrite HW1, (user_valid own1 s1 d v H1 Hd1 Hv HP1).
  assert (HU1 : flag (pte (bytes s1) d v) PTE_U = true).
  { pose proof (Vs d v Hd Hv) as E. unfold view, entry_view in E. rewrite HP1, HP in E.
    apply (f_equal (option_map up_user)) in E. cbn [option_map up_user] in E. injection E as E. by rewrite E. }
  rewrite HU1. cbn [negb orb]. exists (Some (pte (bytes s1) d v)), s1, own1. done.
Qed.

Lemma writable_spec own s d v : vm_ok own None s -> unheld own -> own !! d = Some RDir -> 0 <= v < NUSER ->
  exists o s' own', writable_entry d (v * 4096) s = Some (o, s') /\ settled own own' s s' /\ prepared own d v s s' /\
    match o with None => True | Some w => ready_entry s' d v w end.
Proof.
  intros H U Hd Hv. unfold Vm.writable_entry.
  destruct (walk_none own None s d v (v * 4096) H Hd Hv) as (r & E & O); [lia|]. rewrite (pbind_Some _ _ _ _ _ E).
  rewrite (pbind_Some _ _ s (pte (bytes s) d v) s).
  2: { destruct O as [(-> & _ & ->)|Hr]; [done|]. pose proof Hr as (t & _ & _ & Hr0 & _).
       rewrite (proj2 (Z.eqb_neq r 0) Hr0). by eapply ld_entry. }
  destruct (flag (pte (bytes s) d v) PTE_P) eqn:HP.
  - destruct O as [(-> & _ & Ez)|Hr]; [by rewrite Ez in HP|]. pose proof Hr as (t & _ & _ & Hr0 & _).
    rewrite (proj2 (Z.eqb_neq r 0) Hr0). cbn [orb negb]. rewrite (pbind_Some _ _ s (Some (pte (bytes s) d v)) s) by done.
    destruct (private_entry own s d v H U Hd Hv HP) as (o & s' & own' & E' & St & Vs & Ho).
    exists o, s', own'. split; [exact E'|]. split; [done|]. split; [by left|]. done.
  - cbn [negb]. rewrite orb_true_r.
    destruct (resolve_spec own s d v H U Hd Hv) as (q & s1 & own1 & E1 & St1 & P1 & O1).
    destruct O1 as [->|(-> & V0 & Vs)].
    { rewrite (pbind_Some _ _ s None s1). 2: { by rewrite (pbind_Some _ _ _ _ _ E1). }
      exists None, s1, own1. done. }
    pose proof St1 as [H1 Q1 U1 D1]. apply D1 in Hd as Hd1.
    assert (HP1 : flag (pte (bytes s1) d v) PTE_P = true).
    { pose proof (Vs d v Hd Hv) as Ev. rewrite decide_True in Ev by done. unfold view, entry_view in Ev.
      destruct (flag (pte (bytes s1) d v) PTE_P); [reflexivity|discriminate Ev]. }
    destruct (reread own1 s1 d v H1 Hd1 Hv HP1) as (z & Hz0 & Ez & El).
    rewrite (pbind_Some _ _ s (Some (pte (bytes s1) d v)) s1).
    2: { rewrite (pbind_Some _ _ _ _ _ E1). cbn [Z.ltb Z.compare]. rewrite (pbind_Some _ _ _ _ _ Ez), (proj2 (Z.eqb_neq z 0) Hz0).
         rewrite (pbind_Some _ _ _ _ _ El). by rewrite HP1. }
    destruct (private_entry own1 s1 d v H1 U1 Hd1 Hv HP1) as (o & s' & own' & E' & St & Vs' & Ho).
    exists o, s', own'. split; [exact E'|]. split; [by eapply settled_trans|]. split; [by eapply prepared_same|]. done.
Qed.

(** ** The memory that a process sees *)

(** The byte at a user address and the permissions of a page. *)
Definition vbyte (m : Z -> Z -> option upage) (d a : Z) : option Z :=
  match m d (a / 4096) with Some u => up_data u !! Z.to_nat (a mod 4096) | None => None end.
Definition vperm (m : Z -> Z -> option upage) (d k : Z) : option (bool * bool) :=
  option_map (fun u => (up_user u, up_write u)) (m d k).
Definition ubyte (s : vm) : Z -> Z -> option Z := vbyte (view s).
Definition uperm (s : vm) : Z -> Z -> option (bool * bool) := vperm (view s).

(** The bytes [f] are stored at [lo, hi) of [d]; no other address space
    changes, no permission changes, and every other byte of [d] stays, except
    that absent pages may have become pages of zeros. *)
Record stored (alive : Z -> Prop) (d lo hi : Z) (f : Z -> Z) (m m' : Z -> Z -> option upage) : Prop := {
  sd_others e k : alive e -> 0 <= k < NUSER -> e <> d -> m' e k = m e k;
  sd_perm k : 0 <= k < NUSER -> vperm m' d k = vperm m d k \/ (vperm m d k = None /\ vperm m' d k = Some (true, true));
  sd_in a : lo <= a < hi -> vbyte m' d a = Some (f (a - lo)) /\ vperm m' d (a / 4096) = Some (true, true);
  sd_out a : 0 <= a < KERNBASE -> ~ (lo <= a < hi) ->
    vbyte m' d a = vbyte m d a \/ (vbyte m d a = None /\ vbyte m' d a = Some 0)
}.
Definition live_dirs (own : gmap Z role) (e : Z) : Prop := own !! e = Some RDir.
Definition moved (own : gmap Z role) (d lo hi : Z) (f : Z -> Z) (s s' : vm) : Prop :=
  stored (live_dirs own) d lo hi f (view s) (view s').

Lemma stored_trans own own' d lo mid hi f g h s s1 s2 : (forall e, own' !! e = Some RDir <-> own !! e = Some RDir) ->
  0 <= lo <= mid -> mid <= hi <= KERNBASE ->
  (forall i, 0 <= i < mid - lo -> h i = f i) -> (forall i, 0 <= i < hi - mid -> h (mid - lo + i) = g i) ->
  moved own d lo mid f s s1 -> moved own' d mid hi g s1 s2 -> moved own d lo hi h s s2.
Proof.
  intros D Hlo Hhi Hf Hg [O1 P1 I1 N1] [O2 P2 I2 N2]. split.
  - intros e k He Hk Hne. rewrite O2 by (done || by apply D). by apply O1.
  - intros k Hk. destruct (P2 k Hk) as [E|[E1 E2]], (P1 k Hk) as [E'|[E1' E2']]; rewrite ?E, ?E2, ?E', ?E2' in *; auto.
  - intros a Ha. destruct (Z.lt_ge_cases a mid).
    + destruct (I1 a) as [B1 W1]; [lia|]. rewrite Hf by lia. split.
      * destruct (N2 a) as [E|[E1 _]]; [lia|lia|by rewrite E|congruence].
      * destruct (P2 (a / 4096)) as [E|[E1 _]]; [apply user_page; lia|by rewrite E|congruence].
    + destruct (I2 a) as [B2 W2]; [lia|]. split; [|done]. rewrite B2, <- Hg by lia. do 2 f_equal. lia.
  - intros a Ha Hn. destruct (N2 a) as [E|[E1 E2]]; [lia|lia| |]; (destruct (N1 a) as [E'|[E1' E2']]; [lia|lia|..]);
      rewrite ?E, ?E2, ?E', ?E2' in *; auto.
Qed.

Lemma ubyte_same s s' d a : view s' d (a / 4096) = view s d (a / 4096) -> ubyte s' d a = ubyte s d a.
Proof. intros E. unfold ubyte, vbyte. by rewrite E. Qed.
Lemma uperm_same s s' d k : view s' d k = view s d k -> uperm s' d k = uperm s d k.
Proof. intros E. unfold uperm, vperm. by rewrite E. Qed.

Lemma stored_same own d lo f s s' : own !! d = Some RDir -> same_views own s s' -> moved own d lo lo f s s'.
Proof.
  intros Hd V. split.
  - intros e k He Hk _. by apply V.
  - intros k Hk. left. by apply uperm_same, V.
  - lia.
  - intros a Ha _. left. apply ubyte_same, V; [done|]. by apply user_page.
Qed.

Lemma moved_zero own d v lo f s s' : own !! d = Some RDir -> view s d v = None ->
  view_set own d v (Some (mkUp true true zeros)) s s' -> moved own d lo lo f s s'.
Proof.
  intros Hd V0 V. split.
  - intros e k He Hk Hne. rewrite V by done. rewrite decide_False; [done|]. congruence.
  - intros k Hk. unfold uperm, vperm. rewrite V by done. case_decide as Hc; [|by left]. injection Hc as ->. right.
    rewrite V0. done.
  - lia.
  - intros a Ha _. unfold ubyte, vbyte. rewrite V by (done || by apply user_page). case_decide as Hc; [|by left].
    injection Hc as ->. right. rewrite V0. cbn [up_data]. split; [done|]. unfold zeros. apply lookup_replicate_2. mlia.
Qed.

Lemma prepared_moved own d v lo f s s' : own !! d = Some RDir -> prepared own d v s s' -> moved own d lo lo f s s'.
Proof. intros Hd [V|[V0 V]]; [by apply stored_same|by eapply moved_zero]. Qed.

(** A byte of a present page is a byte of memory. *)
Lemma ubyte_mem own s d k a p M x : vm_ok own None s -> own !! p = Some (RUser M x) -> (d, k) ∈ M ->
  k * 4096 <= a < k * 4096 + 4096 -> ubyte s d a = Some (bytes s (p + (a - k * 4096))).
Proof.
  intros H Hp Hin Ha. destruct (mo_user _ _ _ (vo_map _ _ _ H) _ _ _ _ _ Hp Hin) as (Hd & Hk & HP & HA).
  unfold ubyte, vbyte, view, entry_view. replace (a / 4096) with k by mlia. rewrite HP, HA. cbn [up_data].
  destruct (page_pa p (own_page _ _ _ _ _ H Hp)) as (_ & _ & _ & -> & _). unfold read_bytes. rewrite list_lookup_fmap.
  rewrite lookup_seq_lt by mlia. cbn [fmap option_fmap option_map]. do 2 f_equal. mlia.
Qed.

(** A store through a writable entry. *)
Lemma user_store own s d v w o l : vm_ok own None s -> unheld own -> own !! d = Some RDir -> 0 <= v < NUSER ->
  ready_entry s d v w -> 0 <= o -> o + len l <= 4096 -> Forall is_u8 l ->
  let s' := with_bytes (write_bytes (bytes s) (P2V (PTE_ADDR w) + o) l) s in
  settled own own s s' /\ moved own d (v * 4096 + o) (v * 4096 + o + len l) (fun i => nth (Z.to_nat i) l 0) s s'.
Proof.
  intros H U Hd Hv (-> & HP & HU & HW) Ho Hl Hu8 s'. pose proof (len_nonneg l) as Hl0.
  destruct (mapped_page own None s d v H Hd Hv HP) as (p & M & x & Hp & Hin & Hpg & HA).
  unfold s'. rewrite HA. clear s'. destruct (page_pa p Hpg) as (_ & _ & _ & -> & _).
  destruct (write_page own None s p M x o l H Hp Ho Hl Hu8) as (Q & H' & K & SP). set (s' := with_bytes _ s) in *.
  assert (Vn : forall e k, own !! e = Some RDir -> 0 <= k < NUSER -> (e, k) <> (d, v) -> view s' e k = view s e k).
  { intros e k He Hk Hne. unfold view at 1. rewrite SP by done. unfold view, entry_view.
    destruct (flag (pte (bytes s) e k) PTE_P) eqn:HPe; [|done].
    destruct (mapped_page own None s e k H He Hk HPe) as (q & N & y & Hq & Hink & Hqg & HAe). rewrite HAe.
    destruct (page_pa q Hqg) as (_ & _ & _ & -> & _). do 2 f_equal. apply read_ext. intros b Hb.
    apply (K q N y); [|done]. apply lookup_delete_Some. split; [|done]. intros <-.
    assert (N = M /\ y = x) as [-> ->] by (split; congruence).
    destruct (mo_excl _ _ _ (vo_map _ _ _ H) p M x d v e k Hp Hin Hink HW) as [?|?]; done. }
  assert (Pd : uperm s' d v = uperm s d v).
  { unfold uperm, vperm, view. rewrite SP by done. unfold entry_view. by rewrite HP. }
  split; [split; [done|done|done|done]|]. split; fold (ubyte s) (ubyte s') (uperm s) (uperm s').
  - intros e k He Hk Hne. apply Vn; [done|done|congruence].
  - intros k Hk. left. destruct (decide (k = v)) as [->|Hne]; [done|]. apply uperm_same, Vn; [done|done|congruence].
  - intros a Ha. replace (a / 4096) with v by mlia. rewrite Pd. split.
    + rewrite (ubyte_mem own s' d v a p M x) by (done || lia). f_equal. unfold s'. cbn [with_bytes].
      destruct (lookup_lt_is_Some_2 l (Z.to_nat (a - (v * 4096 + o)))) as [b Hb]; [unfold len in *; lia|].
      rewrite (nth_lookup_Some _ _ _ _ Hb). rewrite <- (write_in (bytes s) (p + o) l _ b Hb).
      cbn [vmach set_mach mem Kmalloc.set_mem]. f_equal. lia.
    + unfold uperm, vperm, view, entry_view. by rewrite HP, HU, HW.
  - intros a Ha Hna. left. destruct (decide (a / 4096 = v)) as [Ea|Hne].
    + rewrite (ubyte_mem own s' d v a p M x), (ubyte_mem own s d v a p M x) by (done || mlia). f_equal.
      unfold s'. cbn [vmach set_mach mem Kmalloc.set_mem with_bytes]. apply write_other. mlia.
    + apply ubyte_same, Vn; [done|by apply user_page|congruence].
Qed.

(** ** [copyout] *)

Abbreviation copyout_loop := (Vm.copyout_loop end_ meta_base pg_array_addr cpu).
Definition buf_byte (l : list Z) (i : Z) : Z := nth (Z.to_nat i) l 0.

(** The addresses that the guard lets through. *)
Definition guarded (s : vm) (d lo hi : Z) : Prop := forall a, lo <= a < hi -> allowed s d (a / 4096 * 4096) = true.

Definition copied (own : gmap Z role) (d va : Z) (l : list Z) (s : vm) (r : Z) (s' : vm) : Prop :=
  exists n, 0 <= n <= len l /\ moved own d va (va + n) (buf_byte l) s s' /\ guarded s d va (va + n) /\
    ((r = 0 /\ n = len l) \/ r = -1).

Lemma copied_none own d va l s s' : own !! d = Some RDir -> same_views own s s' -> copied own d va l s (-1) s'.
Proof.
  intros Hd V. exists 0. rewrite Z.add_0_r. split; [pose proof (len_nonneg l); lia|]. split; [by apply stored_same|].
  split; [intros a; lia|by right].
Qed.

(** The first [n] bytes, then the rest at the next page. *)
Lemma copied_step own own' d va n l s s1 r s' : (forall e, own' !! e = Some RDir <-> own !! e = Some RDir) -> ctl s s1 ->
  0 <= va -> va + len l <= KERNBASE -> 0 <= n <= len l ->
  moved own d va (va + n) (buf_byte (take (Z.to_nat n) l)) s s1 -> guarded s d va (va + n) ->
  copied own' d (va + n) (drop (Z.to_nat n) l) s1 r s' -> copied own d va l s r s'.
Proof.
  intros D C Hva Hend Hn M1 G1 (n' & Hn' & M2 & G2 & O).
  assert (Ed : len (drop (Z.to_nat n) l) = len l - n) by (unfold len in *; rewrite length_drop; lia).
  rewrite Ed in *. exists (n + n'). split; [lia|]. rewrite Z.add_assoc. split; [|split].
  - eapply (stored_trans own own' d va (va + n)); [done|lia|lia| | |exact M1|exact M2].
    + intros i Hi. unfold buf_byte. rewrite !nth_lookup, lookup_take_lt by lia. done.
    + intros i Hi. unfold buf_byte. rewrite !nth_lookup, lookup_drop. do 2 f_equal. lia.
  - intros a Ha. destruct (Z.lt_ge_cases a (va + n)); [apply G1; lia|]. rewrite <- (allowed_ctl s s1) by done. apply G2. lia.
  - destruct O as [[-> ->]| ->]; [left; split; [done|lia]|by right].
Qed.

Lemma copyout_loop_spec fuel own s d va l : vm_ok own None s -> unheld own -> own !! d = Some RDir ->
  0 <= va -> va + len l <= KERNBASE -> Forall is_u8 l ->
  (va mod 4096 + len l + 4095) / 4096 <= Z.of_nat fuel ->
  exists r s' own', copyout_loop fuel d va l s = Some (r, s') /\ settled own own' s s' /\ copied own d va l s r s'.
Proof.
  revert own s va l. induction fuel as [|fuel IH]; intros own s va l H U Hd Hva Hend Hl Hf; cbn [Vm.copyout_loop];
    (destruct (Z.eqb_spec (len l) 0) as [El|El];
      [exists 0, s, own; split; [done|]; split; [by apply settled_refl|]; exists 0; rewrite El, Z.add_0_r; split; [lia|];
       split; [by apply stored_same|]; split; [intros a; lia|by left]|]).
  { pose proof (len_nonneg l). mlia. }
  pose proof (len_nonneg l) as Hl0. set (v := va / 4096). assert (Hv : 0 <= v < NUSER) by (apply user_page; lia).
  assert (Er : PGROUNDDOWN va = v * 4096).
  { rewrite PGROUNDDOWN_spec by (unfold is_u32, KERNBASE in *; lia). unfold v. mlia. }
  rewrite Er. destruct (allows_spec own None s d (v * 4096) H) as (s1 & E1 & B1). rewrite (pbind_Some _ _ _ _ _ E1).
  pose proof (settled_bare own s s1 B1 H U) as St1. pose proof St1 as [H1 _ _ _].
  assert (V1 : same_views own s s1) by (intros e k _ _; apply view_bytes; by rewrite (proj1 B1)).
  destruct (allowed s d (v * 4096)) eqn:Hal; cbn [negb].
  2: { exists (-1), s1, own. split; [done|]. split; [done|]. by apply copied_none. }
  destruct (writable_spec own s1 d v H1 U Hd Hv) as (o & s2 & own2 & E2 & St2 & P2 & Ho). rewrite (pbind_Some _ _ _ _ _ E2).
  pose proof (settled_trans _ _ _ _ _ _ St1 St2) as St12. pose proof St2 as [H2 Q2 U2 D2].
  assert (M12 : forall f, moved own d va va f s s2).
  { intros f. eapply (stored_trans own own d va va va); [done|lia|lia|lia|lia|by apply stored_same|by eapply prepared_moved].
    Unshelve. all: exact f. }
  destruct o as [w|].
  2: { exists (-1), s2, own2. split; [done|]. split; [done|]. exists 0. rewrite Z.add_0_r. split; [lia|]. split; [done|].
       split; [intros a; lia|by right]. }
  apply D2 in Hd as Hd2. pose proof Ho as (Ew & HPw & _).
  assert (Hpa : (P2V (PTE_ADDR w) =? 0) = false).
  { apply Z.eqb_neq. rewrite Ew in *. destruct (mapped_page own2 None s2 d v H2 Hd2 Hv HPw) as (p & M & x & Hp & _ & Hpg & ->).
    destruct (page_pa p Hpg) as (_ & _ & _ & -> & _ & Hlo & _). unfold KERNBASE in Hlo. lia. }
  rewrite Hpa. set (o := va - v * 4096). set (n := if PGSIZE - o >? len l then len l else PGSIZE - o).
  assert (Hn : 0 < n <= len l /\ o + n <= 4096 /\ (n = len l \/ o + n = 4096)).
  { unfold n, o, v, PGSIZE. rewrite Z.gtb_ltb. destruct (Z.ltb_spec (len l) (4096 - (va - va / 4096 * 4096))); mlia. }
  assert (Hlt : len (take (Z.to_nat n) l) = n) by (unfold len in *; rewrite length_take; lia).
  assert (Ho0 : 0 <= o < 4096) by (unfold o, v; mlia).
  destruct (user_store own2 s2 d v w o (take (Z.to_nat n) l) H2 U2 Hd2 Hv Ho) as (St3 & M3); [lia|lia|by apply Forall_take|].
  set (s3 := with_bytes _ s2) in *. rewrite (pbind_Some _ _ s2 tt s3) by reflexivity. pose proof St3 as [H3 Q3 U3 D3].
  rewrite Hlt in M3. replace (v * 4096 + o) with va in M3 by (unfold o; lia).
  assert (Enx : v * 4096 +u PGSIZE = (v + 1) * 4096) by (apply page_step; done).
  assert (Hctl : ctl s s3) by (eapply ctl_trans; [apply St12|apply Q3]).
  assert (M13 : moved own d va (va + n) (buf_byte (take (Z.to_nat n) l)) s s3).
  { eapply (stored_trans own own2 d va va (va + n)); [done|lia|lia|lia| |apply (M12 (fun _ => 0))|exact M3].
    intros i Hi. unfold buf_byte. do 2 f_equal. lia. }
  assert (Ed : len (drop (Z.to_nat n) l) = len l - n) by (unfold len in *; rewrite length_drop; lia).
  assert (G13 : guarded s d va (va + n)).
  { intros a Ha. replace (a / 4096) with v by (unfold o, v in *; mlia). done. }
  pose proof (settled_trans _ _ _ _ _ _ St12 St3) as St13.
  destruct Hn as (Hn & Hon & [En|En]).
  - assert (Edr : drop (Z.to_nat n) l = []) by (apply nil_length_inv; clearbody n; clear -Ed En; unfold len in *; lia).
    rewrite Edr. exists 0, s3, own2. split; [by destruct fuel|]. split; [done|].
    eapply (copied_step own own2 d va n l s s3); [done|done|lia|lia|lia|done|done|]. rewrite Edr. exists 0. rewrite Z.add_0_r.
    split; [done|]. split; [by apply stored_same|]. split; [intros a; lia|by left].
  - rewrite Enx. replace ((v + 1) * 4096) with (va + n) by (unfold o in *; lia).
    destruct (IH own2 s3 (va + n) (drop (Z.to_nat n) l) H3 U3 Hd2) as (r & s4 & own4 & E4 & St4 & C4); try lia.
    { by apply Forall_drop. } { unfold o, v in *. mlia. }
    exists r, s4, own4. split; [done|]. split; [by eapply settled_trans|].
    eapply (copied_step own own2 d va n l s s3); [done|done|lia|lia|lia|done|done|done].
Qed.

Lemma copyout_spec own s d va l : vm_ok own None s -> unheld own -> own !! d = Some RDir ->
  0 <= va -> va + len l <= KERNBASE -> Forall is_u8 l ->
  exists r s' own', copyout end_ meta_base pg_array_addr cpu d va l s = Some (r, s') /\ settled own own' s s' /\
    copied own d va l s r s'.
Proof.
  intros H U Hd Hva Hend Hl. unfold copyout. rewrite (pbind_Some _ _ _ _ _ (effective own None s d H)).
  apply copyout_loop_spec; try done. pose proof (len_nonneg l). unfold PGSIZE. mlia.
Qed.

(** ** [copyin] *)

(** The entry that [uva2ka] accepts: a present user page that the guard allows. *)
Definition readable (s : vm) (d v : Z) : bool :=
  allowed s d (v * 4096) && match uperm s d v with Some (true, _) => true | _ => false end.

Lemma bare_ubyte s s' d a : bare s s' -> ubyte s' d a = ubyte s d a.
Proof. intros [E _]. apply ubyte_same, view_bytes. by rewrite E. Qed.
Lemma bare_readable s s' d v : bare s s' -> readable s' d v = readable s d v.
Proof.
  intros [E C]. unfold readable. by rewrite (allowed_ctl s s' d _ C), (uperm_same s s' d v (view_bytes s s' d v ltac:(by rewrite E))).
Qed.

Lemma uva2ka_spec own s d v : vm_ok own None s -> own !! d = Some RDir -> 0 <= v < NUSER ->
  exists r s', uva2ka end_ meta_base pg_array_addr cpu d (v * 4096) s = Some (r, s') /\ bare s s' /\
    if readable s d v then r <> 0 /\ forall o, 0 <= o < 4096 -> ubyte s d (v * 4096 + o) = Some (bytes s' (r + o)) else r = 0.
Proof.
  intros H Hd Hv. unfold uva2ka. rewrite (pbind_Some _ _ _ _ _ (effective own None s d H)).
  destruct (allows_spec own None s d (v * 4096) H) as (s1 & E1 & B1). rewrite (pbind_Some _ _ _ _ _ E1). unfold readable.
  destruct (allowed s d (v * 4096)); cbn [negb andb]; [|exists 0, s1; done].
  destruct (side_ok own None s s1 H) as [H1 _]; [apply B1..|]. rewrite <- (uperm_same s s1 d v) by (apply view_bytes; by rewrite (proj1 B1)).
  destruct (walk_none own None s1 d v (v * 4096) H1 Hd Hv) as (r & E & O); [lia|]. rewrite (pbind_Some _ _ _ _ _ E).
  unfold uperm, vperm, view, entry_view. destruct O as [(-> & _ & ->)|Hr]; [exists 0, s1; done|].
  pose proof Hr as (t & _ & _ & Hr0 & _). rewrite (proj2 (Z.eqb_neq r 0) Hr0).
  rewrite (pbind_Some _ _ _ _ _ (ld_entry _ _ _ _ _ Hr)). destruct (flag (pte (bytes s1) d v) PTE_P) eqn:HP.
  2: { rewrite (pbind_Some _ _ s1 tt s1) by (unfold pte_assert_sane; by rewrite HP). exists 0, s1. done. }
  rewrite (pbind_Some _ _ _ _ _ (sane_ok _ (mo_sane _ _ _ (vo_map _ _ _ H1) d v Hd Hv HP) s1)).
  unfold pte_is_user. rewrite (user_valid own s1 d v H1 Hd Hv HP). cbn [negb option_map up_user up_write].
  destruct (flag (pte (bytes s1) d v) PTE_U); [|exists 0, s1; done].
  destruct (mapped_page own None s1 d v H1 Hd Hv HP) as (p & M & x & Hp & Hin & Hpg & HA).
  eexists _, s1. split; [reflexivity|]. split; [done|]. cbn [negb]. rewrite HA.
  destruct (page_pa p Hpg) as (_ & _ & _ & -> & _ & Hlo & _). split; [unfold KERNBASE in Hlo; lia|].
  intros o Ho. rewrite <- (bare_ubyte s s1) by done. rewrite (ubyte_mem own s1 d v _ p M x) by (done || lia).
  do 3 f_equal. lia.
Qed.

(** What a copy has read: the bytes of the process, up to the first page that
    it may not read. *)
Definition fetched (s : vm) (d va n : Z) (r : Z) (l : list Z) : Prop :=
  len l <= n /\ (forall i b, l !! i = Some b -> ubyte s d (va + Z.of_nat i) = Some b) /\
  ((r = 0 /\ len l = n /\ forall a, va <= a < va + n -> readable s d (a / 4096) = true) \/
   (r = -1 /\ exists a, va <= a < va + n /\ readable s d (a / 4096) = false)).

Lemma fetched_step s d va n k r l l' : 0 <= k <= n -> len l = k ->
  (forall i b, l !! i = Some b -> ubyte s d (va + Z.of_nat i) = Some b) ->
  (forall a, va <= a < va + k -> readable s d (a / 4096) = true) ->
  fetched s d (va + k) (n - k) r l' -> fetched s d va n r (l ++ l').
Proof.
  intros Hk Hl B1 R1 (Hl' & B2 & O). split; [unfold len in *; rewrite length_app; lia|]. split.
  - intros i b [Hi|[Hge Hi]]%lookup_app_Some; [by apply B1|]. apply B2 in Hi. rewrite <- Hi. f_equal. unfold len in Hl. lia.
  - destruct O as [(-> & El & R2)|(-> & a & Ha & Hr)].
    + left. split; [done|]. split; [unfold len in *; rewrite length_app; lia|]. intros a Ha.
      destruct (Z.lt_ge_cases a (va + k)); [apply R1; lia|apply R2; lia].
    + right. split; [done|]. exists a. split; [lia|done].
Qed.

Lemma fetched_bare s s1 d va n r l : bare s s1 -> fetched s1 d va n r l -> fetched s d va n r l.
Proof.
  intros B (Hl & Hb & O). split; [done|]. split; [intros i b Hi; rewrite <- (bare_ubyte s s1) by done; by apply Hb|].
  destruct O as [(? & ? & R)|(? & a & Ha & R)].
  - left. split_and!; try done. intros a Ha. rewrite <- (bare_readable s s1) by done. by apply R.
  - right. split; [done|]. exists a. split; [done|]. by rewrite <- (bare_readable s s1).
Qed.

Lemma copyin_loop_spec fuel own s d va n acc : vm_ok own None s -> own !! d = Some RDir ->
  0 <= va -> 0 <= n -> va + n <= KERNBASE -> (va mod 4096 + n + 4095) / 4096 <= Z.of_nat fuel ->
  exists r l s', copyin_loop end_ meta_base pg_array_addr cpu fuel d va n acc s = Some ((r, acc ++ l), s') /\ bare s s' /\
    fetched s d va n r l.
Proof.
  revert s va n acc. induction fuel as [|fuel IH]; intros s va n acc H Hd Hva Hn0 Hend Hf; cbn [copyin_loop];
    (destruct (Z.eqb_spec n 0) as [->|En];
      [exists 0, [], s; rewrite app_nil_r; split; [done|]; split; [done|]; split; [done|]; split; [done|]; left; split; [done|];
       split; [done|]; lia|]).
  { mlia. }
  set (v := va / 4096). assert (Hv : 0 <= v < NUSER) by (apply user_page; lia).
  assert (Er : PGROUNDDOWN va = v * 4096).
  { rewrite PGROUNDDOWN_spec by (unfold is_u32, KERNBASE in *; lia). unfold v. mlia. }
  rewrite Er. destruct (allows_spec own None s d (v * 4096) H) as (s1 & E1 & B1). rewrite (pbind_Some _ _ _ _ _ E1).
  destruct (side_ok own None s s1 H) as [H1 _]; [apply B1..|].
  assert (Hfail : forall s', bare s s' -> readable s d v = false ->
    exists r l s'', Some ((-1, acc), s') = Some ((r, acc ++ l), s'') /\ bare s s'' /\ fetched s d va n r l).
  { intros s' B Hr. exists (-1), [], s'. rewrite app_nil_r. split; [done|]. split; [done|]. split; [done|]. split; [done|].
    right. split; [done|]. exists va. split; [lia|done]. }
  destruct (allowed s d (v * 4096)) eqn:Hal; cbn [negb].
  2: { apply Hfail; [done|]. unfold readable. by rewrite Hal. }
  destruct (uva2ka_spec own s1 d v H1 Hd Hv) as (p & s2 & E2 & B2 & O). rewrite (pbind_Some _ _ _ _ _ E2).
  pose proof (bare_trans _ _ _ B1 B2) as B12. rewrite (bare_readable s s1) in O by done.
  destruct (readable s d v) eqn:Hrd; [|rewrite O; by apply Hfail]. destruct O as [Hp0 Hb].
  rewrite (proj2 (Z.eqb_neq p 0) Hp0). set (o := va - v * 4096). set (k := if PGSIZE - o >? n then n else PGSIZE - o).
  assert (Ho : 0 <= o < 4096) by (unfold o, v; mlia).
  assert (Hk : 0 < k <= n /\ o + k <= 4096 /\ (k = n \/ o + k = 4096)).
  { unfold k, o, v, PGSIZE. rewrite Z.gtb_ltb. destruct (Z.ltb_spec n (4096 - (va - va / 4096 * 4096))); mlia. }
  clearbody k. rewrite (pbind_Some get _ s2 s2 s2) by done. set (l1 := read_bytes (bytes s2) (p + o) k).
  assert (Hl1 : len l1 = k) by (unfold l1, len, read_bytes; rewrite length_fmap, length_seq; lia).
  assert (Hb1 : forall i b, l1 !! i = Some b -> ubyte s d (va + Z.of_nat i) = Some b).
  { intros i b Hi. pose proof (lookup_lt_Some _ _ _ Hi) as Hlt. unfold l1, read_bytes in Hi. rewrite list_lookup_fmap in Hi.
    rewrite lookup_seq_lt in Hi by (unfold len in Hl1; lia). cbn in Hi. injection Hi as <-. rewrite <- (bare_ubyte s s1) by done.
    replace (va + Z.of_nat i) with (v * 4096 + (o + Z.of_nat i)) by (unfold o; lia).
    rewrite Hb by (unfold len in Hl1; lia). do 2 f_equal. lia. }
  assert (Hrk : forall a, va <= a < va + k -> readable s d (a / 4096) = true).
  { intros a Ha. replace (a / 4096) with v by (unfold o, v in *; mlia). done. }
  clearbody l1. destruct (side_ok own None s s2 H) as [H2 _]; [apply B12..|].
  assert (Enx : v * 4096 +u PGSIZE = (v + 1) * 4096) by (apply page_step; done). rewrite Enx.
  destruct Hk as (Hk & Hok & [->|Eok]).
  - rewrite Z.sub_diag. exists 0, l1, s2. split; [by destruct fuel|]. split; [done|]. rewrite <- (app_nil_r l1).
    eapply (fetched_step s d va n n); [lia|done|done|done|]. rewrite Z.sub_diag. split; [done|]. split; [done|]. left. split_and!; [done..|lia].
  - replace ((v + 1) * 4096) with (va + k) by (unfold o in *; lia).
    destruct (IH s2 (va + k) (n - k) (acc ++ l1) H2 Hd) as (r & l2 & s3 & E3 & B3 & F3); [lia..|unfold o, v in *; mlia|].
    exists r, (l1 ++ l2), s3. rewrite app_assoc. split; [done|]. split; [by eapply bare_trans|].
    eapply (fetched_step s d va n k); [lia|done|done|done|]. by eapply fetched_bare.
Qed.

Lemma copyin_spec own s d va n : vm_ok own None s -> own !! d = Some RDir -> 0 <= va -> 0 <= n -> va + n <= KERNBASE ->
  exists r l s', copyin end_ meta_base pg_array_addr cpu d va n s = Some ((r, l), s') /\ bare s s' /\ fetched s d va n r l.
Proof.
  intros H Hd Hva Hn Hend. unfold copyin. rewrite (pbind_Some _ _ _ _ _ (effective own None s d H)).
  apply (copyin_loop_spec _ own s d va n []); try done. unfold PGSIZE. mlia.
Qed.
End Copy.
