(* ===== verification/VmGrow.v ===== *)
(** * Growing and shrinking an address space: [allocuvm], [deallocuvm]

    The pages of the new addresses are pages of zeros, the pages of the dropped
    ones are gone, and no other page of any address space changes; when memory
    runs out everything is as before.  The range table follows ([Vma]). *)

From S2P Require Import Prelude NetBytes Vma Kalloc ByteMem Kmalloc Vm VmSpace VmUser VmCow VmAccess VmCopy.

Section Grow.
Context {end_ meta_base pg_array_addr data_ : Z} {cpu : nat -> nat}.
Context {KI : KernelImage end_ meta_base pg_array_addr data_}.
Context {F : Z -> Z}.
Context {VE : VmEnv}.

Abbreviation page := (Kalloc.page (end_ := end_)).
Abbreviation bytes s := (mem (vmach s)).
Abbreviation vm_ok := (VmSpace.vm_ok (end_ := end_) (data_ := data_) (cpu := cpu) (F := F)).
Abbreviation quiet := (VmSpace.quiet (end_ := end_)).
Abbreviation settled := (VmAccess.settled (end_ := end_) (data_ := data_) (cpu := cpu) (F := F)).
Abbreviation alloc_loop := (Vm.alloc_loop end_ meta_base pg_array_addr cpu).
Abbreviation deallocuvm_internal := (Vm.deallocuvm_internal end_ meta_base pg_array_addr cpu).
Abbreviation allocuvm_internal := (Vm.allocuvm_internal end_ meta_base pg_array_addr cpu).

(** ** Range tables *)

Lemma shrink_loop_pgdir fuel a n : pgdir (shrink_loop fuel a n) = pgdir a.
Proof.
  revert a. induction fuel as [|fuel IH]; intros a; cbn [shrink_loop]; [done|].
  destruct (last_vma a) as [v|]; [|done]. destruct (va_start v >=? n).
  - unfold vma_remove. destruct (vma_count a =? 0)%nat; [apply IH|].
    destruct (vma_count a - 1 <? vma_count a)%nat; rewrite IH; done.
  - by destruct (va_end v >? n).
Qed.

Lemma vma_shrink_pgdir a n : exists r a', vma_shrink (Some a) n = (r, Some a') /\ pgdir a' = pgdir a.
Proof.
  unfold vma_shrink. destruct (n >? vm_size a); [by eauto|]. destruct (n =? vm_size a); [by eauto|].
  do 2 eexists. split; [done|]. cbn [set_vm_size pgdir]. apply shrink_loop_pgdir.
Qed.

Lemma vma_insert_pgdir h a v r h' a' : vma_insert h (Some a) (Some v) = Some (r, h', a') ->
  exists a2, a' = Some a2 /\ pgdir a2 = pgdir a.
Proof.
  unfold vma_insert, vma_ensure_capacity. intros E. repeat case_match; simplify_eq; eauto.
Qed.

Lemma vma_expand_pgdir h a n : vma_expand h (Some a) n <> None ->
  exists r h' a', vma_expand h (Some a) n = Some (r, h', Some a') /\ pgdir a' = pgdir a.
Proof.
  intros Hn. unfold vma_expand in *. destruct (n <? vm_size a); [by eauto|]. destruct (n =? vm_size a); [by eauto|].
  destruct (vma_insert h (Some a) (Some _)) as [[[r h'] a']|] eqn:Ei; cycle 1.
  { destruct (last_vma a) as [l|]; [|done]. destruct (mergeable _ _ _); [|done]. by eauto 10. }
  destruct (vma_insert_pgdir _ _ _ _ _ _ Ei) as (a2 & -> & E2).
  destruct (last_vma a) as [l|]; [destruct (mergeable _ _ _); [by eauto 10|]|];
    (destruct (r <? 0); [by eauto 10|]; do 3 eexists; split; [done|]; by case_match).
Qed.

(** The range table of [as_] changes; its directory stays. *)
Definition respaced (as_ : Z) (s s' : vm) : Prop :=
  vmach s' = vmach s /\ kpgdir s' = kpgdir s /\ pde_ref s' = pde_ref s /\ pde_ref_ready s' = pde_ref_ready s /\
  curproc s' = curproc s /\ (forall b, b <> as_ -> spaces s' !! b = spaces s !! b) /\
  option_map pgdir (spaces s' !! as_) = option_map pgdir (spaces s !! as_).

Lemma respaced_ok own G as_ s s' : vm_ok own G s -> respaced as_ s s' -> vm_ok own G s'.
Proof.
  intros [I O C B Ow Ot D M K] (E1 & E2 & E3 & E4 & E5 & E6 & E7). split; rewrite ?E1; try done.
  destruct K as [K1 K2 K3 K4 K5 K6]. split; unfold kref in *; rewrite ?E1, ?E2, ?E3, ?E4, ?E5; try done.
  destruct (curproc s) as [q|]; [|done]. destruct K6 as (a & Ha0 & Ha & Hd).
  destruct (decide (addrsp q = as_)) as [<-|Hne]; [|exists a; by rewrite E6].
  rewrite Ha in E7. destruct (spaces s' !! addrsp q) as [a'|] eqn:Ea; [|done]. cbn in E7. injection E7 as E7.
  exists a'. split; [done|]. split; [done|]. by rewrite E7.
Qed.

Lemma shrink_space_spec as_ n s : (as_ <> 0 -> is_Some (spaces s !! as_)) ->
  exists s', shrink_space as_ n s = Some (tt, s') /\ respaced as_ s s' /\
    forall a, as_ <> 0 -> spaces s !! as_ = Some a -> spaces s' !! as_ = snd (vma_shrink (Some a) n).
Proof.
  intros Ha. unfold shrink_space. destruct (Z.eqb_spec as_ 0) as [->|H0].
  { exists s. split; [done|]. split; [by split_and!|done]. }
  destruct (Ha H0) as [a Ea]. rewrite (pbind_Some _ _ s a s) by (unfold space_at; by rewrite Ea).
  destruct (vma_shrink_pgdir a n) as (r & a' & E & Ep). rewrite E. eexists. split; [done|]. split.
  - split_and!; try done; cbn [spaces set_spaces].
    + intros b Hb. by rewrite lookup_insert_ne.
    + by rewrite lookup_insert_eq, Ea; cbn; rewrite Ep.
  - intros a0 _ Ea0. rewrite Ea in Ea0. injection Ea0 as <-. rewrite E. cbn [spaces set_spaces snd]. apply lookup_insert_eq.
Qed.

Lemma expand_space_spec as_ n s :
  (as_ <> 0 -> exists a, spaces s !! as_ = Some a /\ vma_expand (vheap s) (Some a) n <> None) ->
  exists s', expand_space as_ n s = Some (tt, s') /\ respaced as_ s s' /\
    forall a, as_ <> 0 -> spaces s !! as_ = Some a -> exists r, vma_expand (vheap s) (Some a) n = Some (r, vheap s', spaces s' !! as_).
Proof.
  intros Ha. unfold expand_space. destruct (Z.eqb_spec as_ 0) as [->|H0].
  { exists s. split; [done|]. split; [by split_and!|done]. }
  destruct (Ha H0) as (a & Ea & Hn). rewrite (pbind_Some _ _ s a s) by (unfold space_at; by rewrite Ea).
  rewrite (pbind_Some get _ s s s) by done.
  destruct (vma_expand_pgdir _ a n Hn) as (r & h' & a' & E & Ep). rewrite E. eexists. split; [done|]. split.
  - split_and!; try done; cbn [spaces set_spaces].
    + intros b Hb. by rewrite lookup_insert_ne.
    + by rewrite lookup_insert_eq, Ea; cbn; rewrite Ep.
  - intros a0 _ Ea0. rewrite Ea in Ea0. injection Ea0 as <-. exists r. rewrite E. cbn [spaces set_spaces vheap]. by rewrite lookup_insert_eq.
Qed.
(** ** Shrinking *)

Definition up (n : Z) : Z := (n + 4095) / 4096.

(** The pages [lo, hi) of [d] become [u]; all others stay. *)
Definition views_in (own : gmap Z role) (d lo hi : Z) (u : option upage) (s s' : vm) : Prop := forall e k,
  own !! e = Some RDir -> 0 <= k < NUSER -> view s' e k = if decide (e = d /\ lo <= k < hi) then u else view s e k.

Lemma cleared_views own own1 G s s1 d lo hi : vm_ok own G s -> vm_ok own1 G s1 -> shrunk own own1 -> data_kept own1 s s1 ->
  cleared own d lo hi s s1 -> views_in own d lo hi None s s1.
Proof.
  intros H H1 Sh K C e k He Hk. pose proof (C e k He Hk) as Hc. unfold view at 1, entry_view. case_decide as Hd; [by rewrite Hc|].
  rewrite Hc. unfold view, entry_view. destruct (flag (pte (bytes s) e k) PTE_P) eqn:HP; [|done].
  destruct (mapped_page own1 G s1 e k H1) as (p & M & x & Hp & _ & Hpg & HA); [|done|by rewrite Hc|].
  { by apply (sh_tabs _ _ Sh). }
  rewrite Hc in HA. rewrite HA. destruct (page_pa p Hpg) as (_ & _ & _ & -> & _). do 2 f_equal. apply read_ext.
  intros a Ha. by apply (K p M x).
Qed.

(** The state after a change of the range table of [as_] and of user pages. *)
Record adjusted (own own' : gmap Z role) (as_ : Z) (s s' : vm) : Prop := {
  ad_ok : vm_ok own' None s';
  ad_unheld : unheld own';
  ad_dirs e : own' !! e = Some RDir <-> own !! e = Some RDir;
  ad_cur : curproc s' = curproc s;
  ad_spaces b : b <> as_ -> spaces s' !! b = spaces s !! b;
  ad_pgdir : option_map pgdir (spaces s' !! as_) = option_map pgdir (spaces s !! as_)
}.

Lemma settled_adjusted own own' as_ s s' : settled own own' s s' -> adjusted own own' as_ s s'.
Proof.
  intros [H Q U D]. destruct Q as ((_ & _ & _ & E1 & _ & E2) & _). split; try done; by rewrite E2.
Qed.

Lemma adjusted_trans o1 o2 o3 as_ s1 s2 s3 : adjusted o1 o2 as_ s1 s2 -> adjusted o2 o3 as_ s2 s3 -> adjusted o1 o3 as_ s1 s3.
Proof.
  intros [H1 U1 D1 C1 S1 P1] [H2 U2 D2 C2 S2 P2]. split; try done.
  - intros e. by rewrite D2.
  - congruence.
  - intros b Hb. by rewrite S2, S1.
  - congruence.
Qed.

(** [deallocuvm_internal], also while the caller holds pages. *)
Lemma dealloc_views own s d as_ oldsz newsz : vm_ok own None s -> own !! d = Some RDir ->
  0 <= newsz < oldsz -> oldsz <= KERNBASE -> (as_ <> 0 -> is_Some (spaces s !! as_)) ->
  exists s1 s2 own1, deallocuvm_internal d as_ oldsz newsz s = Some (newsz, s2) /\
    quiet s s1 /\ respaced as_ s1 s2 /\ shrunk own own1 /\ vm_ok own1 None s2 /\
    views_in own d (up newsz) (up oldsz) None s s2 /\
    forall a, as_ <> 0 -> spaces s !! as_ = Some a -> spaces s2 !! as_ = snd (vma_shrink (Some a) newsz).
Proof.
  intros H Hd Hn Ho Ha. destruct (dealloc_internal_spec own None s d as_ oldsz newsz H Hd Hn Ho) as (s1 & own1 & E & Q & Sh & K & H1 & C).
  pose proof Q as ((_ & _ & _ & _ & _ & Es) & _).
  destruct (shrink_space_spec as_ newsz s1) as (s2 & E2 & R2 & Sp); [by rewrite Es|].
  rewrite E, (pbind_Some _ _ _ _ _ E2). exists s1, s2, own1. split; [done|]. split; [done|]. split; [done|]. split; [done|].
  split; [by eapply respaced_ok|]. split; [|by rewrite <- Es].
  intros e k He Hk. rewrite (view_bytes s1) by (by rewrite (proj1 R2)). by eapply (cleared_views own own1).
Qed.

Lemma shrunk_unheld own own1 : shrunk own own1 -> unheld own -> unheld own1.
Proof. intros Sh U p M x Hp. destruct (sh_back _ _ Sh p M x Hp) as (M0 & Hp0 & _). by eapply U. Qed.

Lemma respaced_adjusted own own1 as_ s s1 s2 : quiet s s1 -> respaced as_ s1 s2 -> vm_ok own1 None s2 -> unheld own1 ->
  (forall e, own1 !! e = Some RDir <-> own !! e = Some RDir) -> adjusted own own1 as_ s s2.
Proof.
  intros ((_ & _ & _ & C1 & _ & S1) & _) (_ & _ & _ & _ & C2 & S2 & P2) H2 U D. split; try done.
  - congruence.
  - intros b Hb. by rewrite S2, S1.
  - by rewrite P2, S1.
Qed.

Lemma dealloc_spec own s d as_ oldsz newsz : vm_ok own None s -> unheld own -> own !! d = Some RDir ->
  0 <= newsz < oldsz -> oldsz <= KERNBASE -> (as_ <> 0 -> is_Some (spaces s !! as_)) ->
  exists s' own', deallocuvm_internal d as_ oldsz newsz s = Some (newsz, s') /\ adjusted own own' as_ s s' /\
    views_in own d (up newsz) (up oldsz) None s s' /\
    forall a, as_ <> 0 -> spaces s !! as_ = Some a -> spaces s' !! as_ = snd (vma_shrink (Some a) newsz).
Proof.
  intros H U Hd Hn Ho Ha. destruct (dealloc_views own s d as_ oldsz newsz H Hd Hn Ho Ha) as (s1 & s2 & own1 & E & Q & R & Sh & H2 & V & Sp).
  exists s2, own1. split; [done|]. split; [|done]. eapply respaced_adjusted; [done..|by eapply shrunk_unheld|].
  intros e. by apply (sh_tabs _ _ Sh).
Qed.

(** ** Growing *)

Definition zero_view : option upage := Some (mkUp true true zeros).

Lemma alloc_loop_spec fuel own s d as_ k oldsz newsz : vm_ok own None s -> unheld own -> own !! d = Some RDir ->
  0 <= oldsz < newsz -> newsz < KERNBASE -> up oldsz <= k -> (as_ <> 0 -> is_Some (spaces s !! as_)) ->
  (forall j, k <= j < up newsz -> view s d j = None) -> up newsz - k <= Z.of_nat fuel ->
  exists ok s' own', alloc_loop fuel d as_ (k * 4096) oldsz newsz s = Some (ok, s') /\ adjusted own own' as_ s s' /\
    if ok then settled own own' s s' /\ views_in own d k (up newsz) zero_view s s'
    else views_in own d (up oldsz) (up newsz) None s s' /\
         forall a, as_ <> 0 -> spaces s !! as_ = Some a -> spaces s' !! as_ = snd (vma_shrink (Some a) oldsz).
Proof.
  revert own s k. induction fuel as [|fuel IH]; intros own s k H U Hd Hsz Hhi Hk Ha Hab Hf; cbn [Vm.alloc_loop];
    (destruct (Z.ltb_spec (k * 4096) newsz) as [Hlt|Hge]; cbn [negb];
     [|exists true, s, own; split; [done|]; split; [by apply settled_adjusted, settled_refl|]; split; [by apply settled_refl|];
       intros e j He Hj; rewrite decide_False; [done|unfold up; mlia]]).
  { unfold up in *. mlia. }
  assert (Hkr : 0 <= k < NUSER) by (unfold up, NUSER, KERNBASE in *; mlia).
  assert (HP : flag (pte (bytes s) d k) PTE_P = false).
  { assert (Hv : view s d k = None) by (apply Hab; unfold up; mlia). unfold view, entry_view in Hv.
    destruct (flag (pte (bytes s) d k) PTE_P); [discriminate Hv|done]. }
  destruct (map_new own s d k (Z.lor PTE_W PTE_U) H U Hd Hkr HP) as (m & s1 & E1 & O); [done..|].
  rewrite (pbind_Some _ _ _ _ _ E1).
  destruct O as [(-> & St & Eb)|(Hm0 & r & s3 & E3 & O)].
  - cbn [Z.eqb]. pose proof St as [H1 Q1 U1 D1]. pose proof Q1 as ((_ & _ & _ & _ & _ & Es) & _).
    destruct (dealloc_spec own s1 d as_ newsz oldsz H1 U Hd Hsz) as (s' & own' & E' & A' & V' & Sp); [lia|by rewrite Es|].
    rewrite (pbind_Some _ _ _ _ _ E'). exists false, s', own'. split; [done|].
    split; [eapply adjusted_trans; [by apply settled_adjusted|done]|]. split; [|by rewrite <- Es].
    intros e j He Hj. rewrite V' by done. case_decide; [done|]. by apply view_bytes.
  - rewrite (proj2 (Z.eqb_neq m 0) Hm0).
    rewrite (pbind_Some _ _ s1 tt (with_bytes (write_bytes (bytes s1) m zeros) s1)) by reflexivity.
    rewrite (pbind_Some _ _ _ _ _ E3).
    destruct O as [(-> & own3 & St & _ & _ & Vs)|(-> & Hnm & own3 & Gr & H3 & Q & SP & K)]; cbn [Z.ltb Z.compare].
    + pose proof St as [H3 Q3 U3 D3]. pose proof Q3 as ((_ & _ & _ & _ & _ & Es) & _). rewrite page_step by done.
      destruct (IH own3 s3 (k + 1) H3 U3) as (ok & s' & own' & E' & A' & O'); [by apply D3|done|done|lia|by rewrite Es| |lia|].
      { intros j Hj. rewrite Vs by (done || (unfold up, NUSER, KERNBASE in *; mlia)). rewrite decide_False by (intros [= ->]; lia).
        apply Hab. lia. }
      exists ok, s', own'. split; [done|]. split; [eapply adjusted_trans; [by apply settled_adjusted|done]|].
      assert (Hv3 : forall e j, own !! e = Some RDir -> 0 <= j < NUSER -> ~ (e = d /\ j = k) -> view s3 e j = view s e j).
      { intros e j He Hj Hne. rewrite Vs by done. rewrite decide_False; [done|]. intros [= -> ->]. by apply Hne. }
      destruct ok.
      * destruct O' as [St' V']. split; [by eapply settled_trans|]. intros e j He Hj. rewrite V' by (done || by apply D3).
        destruct (decide (e = d /\ j = k)) as [[-> ->]|Hne].
        -- rewrite decide_False by lia. rewrite Vs, !decide_True by (done || (unfold up; mlia)). done.
        -- rewrite Hv3 by done. case_decide; case_decide; (done || lia).
      * destruct O' as [V' Sp]. split; [|by rewrite <- Es]. intros e j He Hj. rewrite V' by (done || by apply D3).
        case_decide as Hc; [done|]. apply Hv3; [done..|]. intros [-> ->]. apply Hc. split; [done|]. split; [done|]. unfold up. mlia.
    + pose proof Q as ((_ & _ & _ & _ & _ & Es) & _).
      destruct (dealloc_views own3 s3 d as_ newsz oldsz H3) as (s4 & s5 & own5 & E5 & Q5 & R5 & Sh & H5 & V5 & Sp); [|done|lia|by rewrite Es|].
      { apply (grown_dir _ _ _ _ Gr). rewrite lookup_insert_ne; congruence. }
      rewrite (pbind_Some _ _ _ _ _ E5).
      destruct (sh_held _ _ Sh m ∅ 1) as (M' & Hm5); [apply (grown_user _ _ _ _ _ _ Gr), lookup_insert_eq|lia|].
      destruct (kfree_held own5 None s5 m M' 1 H5 Hm5) as (s6 & E6 & Q6 & Eb6 & H6); [lia|].
      rewrite (pbind_Some _ _ _ _ _ E6). exists false, s6, (put_role m M' (1 - 1) own5). split; [done|].
      assert (Dm : forall e, own5 !! e = Some RDir <-> own !! e = Some RDir).
      { intros e. rewrite (sh_tabs _ _ Sh e RDir I), (grown_dir _ _ _ _ Gr).
        destruct (decide (e = m)) as [->|Hne]; [rewrite lookup_insert_eq; split; congruence|by rewrite lookup_insert_ne]. }
      pose proof Q6 as ((_ & _ & _ & C6 & _ & S6) & _).
      split; [|split].
      * split.
        -- done.
        -- intros p N x [[-> [= -> ->]]|[Hne Hp]]%put_role_inv; [done|]. destruct (sh_back _ _ Sh p N x Hp) as (M0 & Hp0 & _).
           apply Gr in Hp0 as [Hp0|[i Hp0]]; [|done]. rewrite lookup_insert_ne in Hp0 by done. by eapply U.
        -- intros e. by rewrite (put_role_dir m _ _ own5 M' 1).
        -- destruct R5 as (_ & _ & _ & _ & C5 & _). destruct Q5 as ((_ & _ & _ & C4 & _) & _). destruct Q as ((_ & _ & _ & C3 & _) & _). congruence.
        -- intros b Hb. destruct R5 as (_ & _ & _ & _ & _ & S5 & _). destruct Q5 as ((_ & _ & _ & _ & _ & S4) & _). by rewrite S6, S5, S4, Es.
        -- destruct R5 as (_ & _ & _ & _ & _ & _ & P5). destruct Q5 as ((_ & _ & _ & _ & _ & S4) & _). by rewrite S6, P5, S4, Es.
      * intros e j He Hj. rewrite (view_bytes s5) by done. rewrite V5 by (done || (apply (grown_dir _ _ _ _ Gr); rewrite lookup_insert_ne; congruence)).
        case_decide; [done|]. eapply view_frame; [exact H|done|done|by apply SP|done].
      * intros a Ha0 Ea. rewrite S6. apply Sp; [done|]. by rewrite Es.
Qed.

(** [allocuvm_internal].  The hypothesis on absent pages is what keeps
    [mappages] from its remap panic. *)
Lemma alloc_spec own s d as_ oldsz newsz : vm_ok own None s -> unheld own -> own !! d = Some RDir ->
  0 <= oldsz < newsz -> newsz < KERNBASE -> (forall k, up oldsz <= k < up newsz -> view s d k = None) ->
  (as_ <> 0 -> exists a, spaces s !! as_ = Some a /\ vma_expand (vheap s) (Some a) newsz <> None) ->
  exists r s' own', allocuvm_internal d as_ oldsz newsz s = Some (r, s') /\ adjusted own own' as_ s s' /\
    ((r = newsz /\ views_in own d (up oldsz) (up newsz) zero_view s s' /\
      forall a, as_ <> 0 -> spaces s !! as_ = Some a -> exists h' q, vma_expand (vheap s) (Some a) newsz = Some (q, h', spaces s' !! as_)) \/
     (r = 0 /\ same_views own s s' /\
      forall a, as_ <> 0 -> spaces s !! as_ = Some a -> spaces s' !! as_ = snd (vma_shrink (Some a) oldsz))).
Proof.
  intros H U Hd Hsz Hhi Hab Ha. unfold Vm.allocuvm_internal. rewrite (pbind_Some _ _ _ _ _ (effective own None s d H)).
  rewrite Z.geb_leb, (proj2 (Z.leb_gt KERNBASE newsz)), (proj2 (Z.ltb_ge newsz oldsz)), (PGROUNDUP_page (F := F)) by lia.
  destruct (alloc_loop_spec (pages_to (up oldsz * 4096) newsz) own s d as_ (up oldsz) oldsz newsz H U Hd Hsz Hhi)
    as (ok & s1 & own1 & E1 & A1 & O); [lia| |done|unfold pages_to, up, PGSIZE; mlia|].
  { intros H0. destruct (Ha H0) as (a & Ea & _). by eexists. }
  fold (up oldsz). rewrite (pbind_Some _ _ _ _ _ E1). destruct ok.
  - destruct O as [St V]. pose proof St as [H1 ((_ & _ & _ & _ & Eh & Es) & _) U1 D1].
    destruct (expand_space_spec as_ newsz s1) as (s2 & E2 & R2 & Sp).
    { intros H0. destruct (Ha H0) as (a & Ea & Hx). exists a. by rewrite Es, Eh. }
    rewrite (pbind_Some _ _ _ _ _ E2). exists newsz, s2, own1. split; [done|]. split.
    { eapply adjusted_trans; [exact A1|]. eapply (respaced_adjusted own1 own1 as_ s1 s1 s2); [by eapply quiet_refl|done|by eapply respaced_ok|done|done]. }
    left. split; [done|]. split.
    + intros e k He Hk. rewrite (view_bytes s1) by (by rewrite (proj1 R2)). by apply V.
    + intros a H0 Ea. destruct (Sp a H0) as [q Eq]; [by rewrite Es|]. rewrite Eh in Eq. by eauto.
  - destruct O as [V Sp]. exists 0, s1, own1. split; [done|]. split; [done|]. right. split; [done|]. split; [|done].
    intros e k He Hk. rewrite V by done. case_decide as Hc; [|done]. destruct Hc as [-> Hc]. symmetry. by apply Hab.
Qed.
End Grow.
