(* ===== verification/VmExample.v ===== *)
(** * A small machine

    A concrete state that satisfies the invariant of [VmSpace]: sixteen pages
    of memory, of which the kernel's directory, one page table of the kernel and
    the directory of a process are in use. *)

From S2P Require Import Prelude NetBytes Vma Kalloc ByteMem Kmalloc Vm VmSpace VmUser VmCow.

Module Machine.
Import Kalloc.Example.

Definition DATA : Z := KERNBASE + 4096.
Definition META : Z := KERNBASE + 2097152.
Definition one_cpu (_ : nat) : nat := 0%nat.

#[export] Instance image : KernelImage END META 1 DATA.
Proof. split; unfold END, META, DATA, KERNBASE, NPAGE, PHYSTOP, PGSIZE; vm_compute; congruence. Qed.

(** Sixteen pages, on two CPUs, when locking has started. *)
Definition pages_early : kmem :=
  default (blank_kmem 2) (freerange_loop END all_mapped 0 16 END (blank_kmem 2)).
Definition pages_late : kmem := set_use_lock true pages_early.

(** The kernel's directory, its table, and the directory of a process. *)
Definition KDIR : Z := END + 61440.
Definition KTAB : Z := END + 57344.
Definition UDIR : Z := END + 53248.

Definition take_page (k : kmem) : kmem :=
  match kalloc_legacy_page END all_mapped 0 0 k with Some (_, k) => k | None => k end.
Definition taken : kmem := take_page (take_page (take_page pages_late)).

(** Every entry of the kernel half points to [KTAB], whose entries are present
    and writable. *)
Definition pde : Z := V2P KTAB + 3.
Definition start_byte (a : Z) : Z :=
  let p := a / 4096 in
  if p =? KTAB / 4096 then if a mod 4 =? 0 then 3 else 0
  else if ((p =? KDIR / 4096) || (p =? UDIR / 4096)) && (2048 <=? a mod 4096) then byte_of pde (a mod 4)
  else 0.

Definition roles : gmap Z role := <[KDIR := RKern]> (<[KTAB := RKern]> {[UDIR := RDir]}).

(** The reference counts of all other pages. *)
Definition rest (q : Z) : Z := if bool_decide (q = KDIR \/ q = KTAB \/ q = UDIR) then 0 else refs taken q.

Definition kernel_pdes : gmap Z Z := list_to_map ((fun i => (512 + Z.of_nat i, pde)) <$> seq 0 512).

Definition no_counts : bcount := mkB (replicate 8 0) (replicate 8 0) (replicate 8 0) 0 (replicate 8 0) 0 0 0.
Definition SPACE : Z := 8.
Definition start : vm :=
  mkVm (mkM taken start_byte false no_counts) 0 KDIR kernel_pdes true 0 (replicate 17 0) None
    {[SPACE := mkAs UDIR 1 0 None 0 0 0 0]} (mkHeap ∅ ∅) (V2P KDIR) 0.

(** ** The allocator *)

#[local] Existing Instance direct_map.

Lemma sixteen_pages j : 0 <= j < 16 ->
  page (end_ := END) (END + j * PGSIZE) /\ managed (blank_kmem 2) (END + j * PGSIZE) = false.
Proof.
  intros Hj. split; [|done]. split; [unfold is_u32, END, KERNBASE, PGSIZE; lia|].
  assert (Hb : forallb (fun i => kalloc_runptr_valid END (END + Z.of_nat i * PGSIZE)) (seq 0 16) = true) by (vm_compute; reflexivity).
  rewrite forallb_forall in Hb. specialize (Hb (Z.to_nat j)). rewrite Z2Nat.id in Hb by lia. apply Hb. apply in_seq. lia.
Qed.

Lemma late_pages : inv (end_ := END) pages_late.
Proof.
  assert (Hb : booting (end_ := END) (blank_kmem 2)).
  { split; [apply (blank_inv (end_ := END))|]. split; [done|]. split; [done|]. unfold cpu_ok; cbn; lia. }
  destruct (freerange_loop_spec (KM := direct_map) 16 END (blank_kmem 2) Hb sixteen_pages) as (k & E & Hk & _).
  apply inv_locked. unfold pages_early. rewrite E. exact (proj1 Hk).
Qed.

Lemma take_spec k v : inv (end_ := END) k -> length (caches k) = 2%nat ->
  fst <$> kalloc_legacy_page END all_mapped 0 0 k = Some v -> v <> 0 ->
  inv (end_ := END) (take_page k) /\ length (caches (take_page k)) = 2%nat /\ page (end_ := END) v /\
  refs (take_page k) v = 1 /\ refs k v = 0 /\
  (forall w, page (end_ := END) w -> w <> v -> refs (take_page k) w = refs k w) /\
  (forall w, page (end_ := END) w -> managed (take_page k) w = managed k w).
Proof.
  intros Hi Hc Ev Hv. destruct (alloc_any (KM := direct_map) k 0 Hi) as (v' & k' & E & Hi' & O); [unfold cpu_ok; lia|].
  unfold take_page. rewrite E in Ev |- *. cbn in Ev. injection Ev as ->.
  destruct O as [(_ & Hp & _ & Hz & _ & (R1 & R2 & R3 & R4 & _))|(? & _)]; [|done]. split_and!; try done. by rewrite R4.
Qed.

(** The three pages and the others. *)
Lemma taken_spec : inv (end_ := END) taken /\ length (caches taken) = 2%nat /\
  (forall p, p = KDIR \/ p = KTAB \/ p = UDIR -> page (end_ := END) p /\ managed taken p = true /\ refs taken p = 1) .
Proof.
  assert (L : length (caches pages_late) = 2%nat) by (vm_compute; reflexivity).
  destruct (take_spec pages_late KDIR late_pages L) as (I1 & L1 & P1 & R1 & _ & O1 & M1); [vm_compute; reflexivity|done|].
  destruct (take_spec _ KTAB I1 L1) as (I2 & L2 & P2 & R2 & _ & O2 & M2); [vm_compute; reflexivity|done|].
  destruct (take_spec _ UDIR I2 L2) as (I3 & L3 & P3 & R3 & _ & O3 & M3); [vm_compute; reflexivity|done|].
  unfold taken. split; [exact I3|]. split; [exact L3|].
  assert (Hm : forall p, page (end_ := END) p -> managed pages_late p = true -> managed (take_page (take_page (take_page pages_late))) p = true).
  { intros p Hp E. rewrite (M3 p Hp), (M2 p Hp), (M1 p Hp). exact E. }
  intros p [-> |[-> | ->]].
  - split; [exact P1|]. split; [apply (Hm _ P1); vm_compute; reflexivity|]. rewrite (O3 _ P1), (O2 _ P1); [exact R1|discriminate..].
  - split; [exact P2|]. split; [apply (Hm _ P2); vm_compute; reflexivity|]. rewrite (O3 _ P2); [exact R2|discriminate].
  - split; [exact P3|]. split; [apply (Hm _ P3); vm_compute; reflexivity|exact R3].
Qed.

(** ** Memory *)

Lemma word_bytes m p j : word m p j = m (p + 4 * j) + 256 * m (p + 4 * j + 1) + 65536 * m (p + 4 * j + 2) + 16777216 * m (p + 4 * j + 3).
Proof. unfold word, load32, read_bytes. change (seq 0 (Z.to_nat 4)) with [0;1;2;3]%nat. cbn [fmap list_fmap rd32]. by rewrite Z.add_0_r. Qed.

Lemma start_ktab j : 0 <= j < 1024 -> word start_byte KTAB j = 3.
Proof.
  intros Hj. rewrite word_bytes. unfold start_byte. change KTAB with 2148589568.
  rewrite !(proj2 (Z.eqb_eq _ (2148589568 / 4096))) by mlia.
  rewrite (proj2 (Z.eqb_eq ((2148589568 + 4 * j) mod 4) 0)), !(proj2 (Z.eqb_neq _ 0)) by mlia. done.
Qed.

Lemma start_dir d j : d = KDIR \/ d = UDIR -> 0 <= j < 1024 -> word start_byte d j = if 512 <=? j then pde else 0.
Proof.
  intros Hd Hj. rewrite word_bytes. unfold start_byte.
  assert (Hp : forall o, 0 <= o < 4096 -> ((d + o) / 4096 =? KTAB / 4096) = false /\
    (((d + o) / 4096 =? KDIR / 4096) || ((d + o) / 4096 =? UDIR / 4096)) = true /\ (d + o) mod 4096 = o /\ (d + o) mod 4 = o mod 4).
  { intros o Ho. change KTAB with 2148589568. change KDIR with 2148593664 in *. change UDIR with 2148585472 in *.
    rewrite Z.eqb_neq, orb_true_iff, !Z.eqb_eq. destruct Hd as [-> | ->]; mlia. }
  rewrite <- !Z.add_assoc.
  destruct (Hp (4 * j)) as (-> & -> & -> & ->); [lia|]. destruct (Hp (4 * j + 1)) as (-> & -> & -> & ->); [lia|].
  destruct (Hp (4 * j + 2)) as (-> & -> & -> & ->); [lia|]. destruct (Hp (4 * j + 3)) as (-> & -> & -> & ->); [lia|]. cbn [andb].
  replace ((4 * j) mod 4) with 0 by mlia. replace ((4 * j + 1) mod 4) with 1 by mlia. replace ((4 * j + 2) mod 4) with 2 by mlia.
  replace ((4 * j + 3) mod 4) with 3 by mlia.
  destruct (Z.leb_spec 512 j); [rewrite !(proj2 (Z.leb_le 2048 _)) by lia; reflexivity|].
  rewrite !(proj2 (Z.leb_gt 2048 _)) by lia. done.
Qed.

#[local] Opaque taken start_byte.

Lemma start_bytes : bytes_ok start_byte.
Proof.
  intros a. Transparent start_byte. unfold start_byte. repeat case_match; try (unfold is_u8; lia). apply byte_of_range.
Qed.
#[local] Opaque start_byte.

Lemma kernel_pde i : kernel_pdes !! i = if bool_decide (512 <= i < 1024) then Some pde else None.
Proof.
  unfold kernel_pdes. case_bool_decide as Hi.
  - apply elem_of_list_to_map_1.
    + rewrite <- list_fmap_compose. apply NoDup_fmap_2_strong; [|apply NoDup_seq]. intros x y _ _ E. cbn in E. lia.
    + apply list_elem_of_fmap. exists (Z.to_nat (i - 512)). split; [f_equal; lia|]. apply elem_of_seq. lia.
  - apply not_elem_of_list_to_map_1. rewrite <- list_fmap_compose. intros (x & -> & Hx)%list_elem_of_fmap. apply elem_of_seq in Hx.
    cbn in Hi. lia.
Qed.

(** ** The invariant *)

Lemma role_of p r : roles !! p = Some r -> (p = KDIR /\ r = RKern) \/ (p = KTAB /\ r = RKern) \/ (p = UDIR /\ r = RDir).
Proof.
  unfold roles. intros [[<- <-]|[_ [[<- <-]|[_ [<- <-]%lookup_singleton_Some]]%lookup_insert_Some]]%lookup_insert_Some; auto.
Qed.
Lemma role_dir d : roles !! d = Some RDir <-> d = UDIR.
Proof. split; [by intros [[_ ?]|[[_ ?]|[? _]]]%role_of|intros ->; reflexivity]. Qed.

Lemma start_vacant v : 0 <= v < NUSER -> pte start_byte UDIR v = 0.
Proof.
  intros Hv. unfold pte. rewrite (start_dir UDIR) by (auto || (unfold NUSER in Hv; mlia)).
  rewrite (proj2 (Z.leb_gt 512 _)) by (unfold NUSER in Hv; mlia). reflexivity.
Qed.

Lemma start_kern : kern_ok (data_ := DATA) roles start.
Proof.
  assert (HK : roles !! KDIR = Some RKern) by reflexivity. assert (HT : roles !! KTAB = Some RKern) by reflexivity.
  assert (Hr : forall i, kref start i = if bool_decide (512 <= i < 1024) then pde else 0).
  { intros i. unfold kref. cbn [pde_ref start]. rewrite kernel_pde. by case_bool_decide. }
  split.
  - reflexivity.
  - split; [discriminate|exact HK].
  - intros i. rewrite Hr. case_bool_decide; unfold is_u32; [vm_compute; split; congruence|lia].
  - intros d i Hd Hi. cbn [vmach start mem kpgdir] in *. rewrite Hr, bool_decide_true by done.
    rewrite (start_dir d i) by (try lia; destruct Hd as [->%role_dir| ->]; auto). by rewrite (proj2 (Z.leb_le 512 i)) by lia.
  - intros va Hva. assert (Hx : 512 <= PDX va < 1024 /\ 0 <= PTX va < 1024).
    { apply (PDX_kernel (F := rest)). unfold DATA, KERNBASE, PHYSTOP in *. lia. }
    rewrite Hr, bool_decide_true by lia. split; [reflexivity|]. exists KTAB. split; [done|]. split; [reflexivity|].
    cbn [vmach start mem]. rewrite start_ktab by lia. split_and!; reflexivity.
  - exact I.
Qed.

Lemma start_ok : VmSpace.vm_ok (end_ := END) (data_ := DATA) (cpu := one_cpu) (F := rest) roles None start.
Proof.
  destruct taken_spec as (Hi & Hl & Hp). split; cbn [vmach start kk mem pagealloc_online].
  - exact Hi.
  - discriminate.
  - intros i. unfold cpu_ok, one_cpu. rewrite Hl. lia.
  - exact start_bytes.
  - intros p r Hr. assert (Hc : (p = KDIR \/ p = KTAB \/ p = UDIR) /\ rcount r = 1 /\ match r with RUser _ x => 0 <= x | _ => True end).
    { destruct (role_of p r Hr) as [[-> ->]|[[-> ->]|[-> ->]]]; auto. }
    destruct Hc as (Hc & Hr1 & Hx). destruct (Hp p Hc) as (Hpg & Hm & H1). rewrite <- Hr1 in H1.
    split; [exact Hpg|]. split; [exact Hm|]. split; [exact H1|]. split; [lia|]. split; [exact Hx|].
    unfold rest. by rewrite bool_decide_true.
  - intros q _ Hn. unfold rest. rewrite bool_decide_false; [reflexivity|]. intros [-> |[-> | ->]]; by vm_compute in Hn.
  - split.
    + intros t d i Ht. by destruct (role_of _ _ Ht) as [[_ ?]|[[_ ?]|[_ ?]]].
    + intros d i ->%role_dir Hi' HP. rewrite (start_dir UDIR) in HP by (auto || lia).
      by rewrite (proj2 (Z.leb_gt 512 i)) in HP by lia.
  - split.
    + intros p M x d v Hr. by destruct (role_of _ _ Hr) as [[_ ?]|[[_ ?]|[_ ?]]].
    + intros d v ->%role_dir Hv. by rewrite start_vacant.
    + intros p M x d v d' v' Hr. by destruct (role_of _ _ Hr) as [[_ ?]|[[_ ?]|[_ ?]]].
    + intros d v ->%role_dir Hv. by rewrite start_vacant.
    + intros d v ->%role_dir Hv. rewrite start_vacant by done. unfold is_u32. lia.
  - exact start_kern.
Qed.

Lemma start_unheld : unheld roles.
Proof. intros p M x Hr. by destruct (role_of _ _ Hr) as [[_ ?]|[[_ ?]|[_ ?]]]. Qed.
End Machine.
