(* ===== verification/VmMem.v ===== *)
(** * The memories of the processes

    What the operations on address spaces promise: every live page directory is
    a private memory.  [ustep] is the specification, on directories as names of
    memories; [exec] runs the operations of [Vm]; the theorems show that every
    run of the kernel's operations is a run of the specification, that no
    enabled operation panics, and that a memory changes only by operations
    addressed to it. *)

From S2P Require Import Prelude NetBytes Vma Kalloc ByteMem Kmalloc Vm VmSpace VmUser VmCow VmAccess VmCopy VmGrow VmExample.

(** ** Specification *)

Abbreviation memories := (Z -> Z -> option upage).

Inductive uop :=
| UNew
| UFork (src sz : Z)
| UGrow (d oldsz newsz : Z)
| UShrink (d oldsz newsz : Z)
| UFault (d va : Z)
| UWrite (d va : Z) (l : list Z)
| URead (d va n : Z)
| UFree (d : Z).

Definition keeps (L : gset Z) (m m' : memories) : Prop := forall e k, e ∈ L -> 0 <= k < NUSER -> m' e k = m e k.
Definition retouched (L : gset Z) (d lo hi : Z) (u : option upage) (m m' : memories) : Prop := forall e k,
  e ∈ L -> 0 <= k < NUSER -> m' e k = if decide (e = d /\ lo <= k < hi) then u else m e k.

(** One operation with its result: the return value and the bytes read. *)
Inductive ustep (L : gset Z) (m m' : memories) : uop -> Z * list Z -> Prop :=
| us_new d : d <> 0 -> d ∉ L -> keeps L m m' -> (forall k, 0 <= k < NUSER -> m' d k = None) -> ustep L m m' UNew (d, [])
| us_new_fail : keeps L m m' -> ustep L m m' UNew (0, [])
| us_fork src sz d : d <> 0 -> d ∉ L -> keeps L m m' ->
    (forall k, 0 <= k < NUSER -> m' d k = if k * PGSIZE <? sz then m src k else None) -> ustep L m m' (UFork src sz) (d, [])
| us_fork_fail src sz : keeps L m m' -> ustep L m m' (UFork src sz) (0, [])
| us_grow d oldsz newsz : retouched L d (up oldsz) (up newsz) zero_view m m' -> ustep L m m' (UGrow d oldsz newsz) (newsz, [])
| us_grow_fail d oldsz newsz : keeps L m m' -> ustep L m m' (UGrow d oldsz newsz) (0, [])
| us_shrink d oldsz newsz : retouched L d (up newsz) (up oldsz) None m m' -> ustep L m m' (UShrink d oldsz newsz) (newsz, [])
| us_fault d va r : keeps L m m' -> r = 0 \/ r = -1 -> ustep L m m' (UFault d va) (r, [])
| us_write d va l n r : 0 <= n <= len l -> stored (fun e => e ∈ L) d va (va + n) (buf_byte l) m m' ->
    (r = 0 /\ n = len l) \/ r = -1 -> ustep L m m' (UWrite d va l) (r, [])
| us_read d va n r l : keeps L m m' -> len l <= n -> (forall i b, l !! i = Some b -> vbyte m d (va + Z.of_nat i) = Some b) ->
    (r = 0 /\ len l = n) \/ r = -1 -> ustep L m m' (URead d va n) (r, l)
| us_free d : keeps (L ∖ {[d]}) m m' -> ustep L m m' (UFree d) (0, []).

(** The live directories after an operation. *)
Definition track (op : uop) (r : Z * list Z) (L : gset Z) : gset Z :=
  match op with
  | UNew | UFork _ _ => if fst r =? 0 then L else {[fst r]} ∪ L
  | UFree d => L ∖ {[d]}
  | _ => L
  end.

Inductive urun : gset Z -> memories -> list (uop * (Z * list Z)) -> gset Z -> memories -> Prop :=
| ur_nil L m : urun L m [] L m
| ur_cons L m m1 L' m' op r tr : ustep L m m1 op r -> urun (track op r L) m1 tr L' m' -> urun L m ((op, r) :: tr) L' m'.

(** ** Implementation *)

Section Mem.
Context (end_ meta_base pg_array_addr data_ : Z) (cpu : nat -> nat).
Context {VE : VmEnv}.

Definition exec (op : uop) : PM vm (Z * list Z) :=
  match op with
  | UNew => let! d := setupkvm end_ meta_base pg_array_addr data_ cpu in pret (d, [])
  | UFork src sz => let! d := copyuvm_internal end_ meta_base pg_array_addr data_ cpu src sz in pret (d, [])
  | UGrow d oldsz newsz => let! r := allocuvm end_ meta_base pg_array_addr cpu d oldsz newsz in pret (r, [])
  | UShrink d oldsz newsz => let! r := deallocuvm end_ meta_base pg_array_addr cpu d oldsz newsz in pret (r, [])
  | UFault d va => let! r := cow_fault end_ meta_base pg_array_addr cpu d va in pret (r, [])
  | UWrite d va l => let! r := copyout end_ meta_base pg_array_addr cpu d va l in pret (r, [])
  | URead d va n => copyin end_ meta_base pg_array_addr cpu d va n
  | UFree d => freevm end_ meta_base pg_array_addr cpu d >>> pret (0, [])
  end.

(** What a caller must ensure: the directory is live, the addresses are user
    addresses, new memory is not mapped yet, and the directory of the running
    process is neither freed nor resized here ([exec] builds new images). *)
Definition enabled (L : gset Z) (s : vm) (op : uop) : Prop :=
  match op with
  | UNew => True
  | UFork src sz => src ∈ L /\ 0 <= sz <= KERNBASE
  | UGrow d oldsz newsz => (d ∈ L) /\ ~ cur_dir s d /\ 0 <= oldsz < newsz /\ newsz < KERNBASE /\
      forall k, up oldsz <= k < up newsz -> view s d k = None
  | UShrink d oldsz newsz => (d ∈ L) /\ ~ cur_dir s d /\ 0 <= newsz < oldsz /\ oldsz <= KERNBASE
  | UFault d va => (d ∈ L) /\ 0 <= va < KERNBASE
  | UWrite d va l => (d ∈ L) /\ 0 <= va /\ va + len l <= KERNBASE /\ Forall is_u8 l
  | URead d va n => (d ∈ L) /\ 0 <= va /\ 0 <= n /\ va + n <= KERNBASE
  | UFree d => (d ∈ L) /\ ~ cur_dir s d
  end.

Inductive vrun : gset Z -> vm -> list (uop * (Z * list Z)) -> gset Z -> vm -> Prop :=
| vr_nil L s : vrun L s [] L s
| vr_cons L s s1 L' s' op r tr : enabled L s op -> exec op s = Some (r, s1) -> vrun (track op r L) s1 tr L' s' ->
    vrun L s ((op, r) :: tr) L' s'.

(** The directory that an operation is addressed to. *)
Definition target (op : uop) : option Z :=
  match op with
  | UGrow d _ _ | UShrink d _ _ | UWrite d _ _ | UFree d => Some d
  | _ => None
  end.
End Mem.

(** ** Refinement *)

Section Refine.
Context {end_ meta_base pg_array_addr data_ : Z} {cpu : nat -> nat}.
Context {KI : KernelImage end_ meta_base pg_array_addr data_}.
Context {F : Z -> Z}.
Context {VE : VmEnv}.

Abbreviation bytes s := (mem (vmach s)).
Abbreviation vm_ok := (VmSpace.vm_ok (end_ := end_) (data_ := data_) (cpu := cpu) (F := F)).
Abbreviation exec := (VmMem.exec end_ meta_base pg_array_addr data_ cpu).
Abbreviation vrun := (VmMem.vrun end_ meta_base pg_array_addr data_ cpu).

(** The state between operations: the invariant with the live directories [L]. *)
Definition mem_ok (L : gset Z) (s : vm) : Prop :=
  exists own, vm_ok own None s /\ unheld own /\ forall e, e ∈ L <-> own !! e = Some RDir.

Lemma freed_views own own' s s' d : vm_ok own None s -> vm_ok own' None s' -> freed (end_ := end_) d own own' s s' ->
  forall e k, own' !! e = Some RDir -> 0 <= k < NUSER -> view s' e k = view s e k.
Proof.
  intros H H' Fr e k He Hk. assert (Hne : e <> d) by (pose proof (fr_dir _ _ _ _ _ Fr); congruence).
  pose proof (fr_others _ _ _ _ _ Fr e k He Hne Hk) as Ep. unfold view, entry_view. rewrite Ep.
  destruct (flag (pte (bytes s) e k) PTE_P) eqn:HP; [|done].
  destruct (mapped_page own' None s' e k H' He Hk) as (p & M & x & Hp & _ & Hpg & HA); [by rewrite Ep|].
  rewrite Ep in HA. rewrite HA. destruct (page_pa p Hpg) as (_ & _ & _ & -> & _). do 2 f_equal. apply read_ext.
  intros a Ha. by apply (fr_data _ _ _ _ _ Fr p M x).
Qed.

Lemma keeps_views (L : gset Z) own s s' : (forall e, e ∈ L <-> own !! e = Some RDir) -> same_views own s s' -> keeps L (view s) (view s').
Proof. intros HL V e k He Hk. apply V; [by apply HL|done]. Qed.
Lemma retouched_views (L : gset Z) own d lo hi u s s' : (forall e, e ∈ L <-> own !! e = Some RDir) -> views_in own d lo hi u s s' ->
  retouched L d lo hi u (view s) (view s').
Proof. intros HL V e k He Hk. apply V; [by apply HL|done]. Qed.
Lemma stored_alive (P Q : Z -> Prop) d lo hi f m m' : (forall e, Q e -> P e) -> stored P d lo hi f m m' -> stored Q d lo hi f m m'.
Proof. intros E [O Pm I N]. split; try done. intros e k He. apply O. by apply E. Qed.
Lemma settled_mem (L : gset Z) own own' s s' : (forall e, e ∈ L <-> own !! e = Some RDir) ->
  settled (end_ := end_) (data_ := data_) (cpu := cpu) (F := F) own own' s s' -> mem_ok L s'.
Proof. intros HL [H _ U D]. exists own'. split_and!; try done. intros e. by rewrite HL, D. Qed.
Lemma adjusted_mem (L : gset Z) own own' a s s' : (forall e, e ∈ L <-> own !! e = Some RDir) ->
  adjusted (end_ := end_) (data_ := data_) (cpu := cpu) (F := F) own own' a s s' -> mem_ok L s'.
Proof. intros HL [H U D _ _ _]. exists own'. split_and!; try done. intros e. by rewrite HL, D. Qed.

(** Every enabled operation returns, and is a step of the specification. *)
Lemma exec_step L s op : mem_ok L s -> enabled L s op ->
  exists r s', exec op s = Some (r, s') /\ mem_ok (track op r L) s' /\ ustep L (view s) (view s') op r.
Proof.
  intros (own & H & U & HL) En. destruct op as [|src sz|d oldsz newsz|d oldsz newsz|d va|d va l|d va n|d]; cbn [VmMem.exec enabled track] in *.
  - destruct (setupkvm_spec own None s H) as (d & s' & E & Q & K & SP & O). rewrite (pbind_Some _ _ _ _ _ E).
    exists (d, []), s'. split; [done|]. assert (Kp : keeps L (view s) (view s')) by (eapply keeps_views; [done|by eapply views_kept]).
    cbn [fst]. destruct O as [[-> H']|(Hpg & Hd & H' & V)].
    { cbn [Z.eqb]. split; [by exists own|by constructor]. }
    destruct (page_pa d Hpg) as (_ & _ & _ & _ & _ & Hlo & _). assert (Hd0 : d <> 0) by (unfold KERNBASE in Hlo; lia).
    rewrite (proj2 (Z.eqb_neq d 0) Hd0). split.
    + exists (<[d := RDir]> own). split; [done|]. split.
      * intros p M x [[_ ?]|[_ Hp]]%lookup_insert_Some; [done|by eapply U].
      * intros e. rewrite elem_of_union, elem_of_singleton, HL, lookup_insert_Some. naive_solver.
    + constructor; try done; [by rewrite HL, Hd|]. intros k Hk. unfold view, entry_view. by rewrite V.
  - destruct En as [Hs Hsz]. destruct (copyuvm_spec own s src sz H U) as (d & s' & E & V & O); [by apply HL|done|].
    rewrite (pbind_Some _ _ _ _ _ E). exists (d, []), s'. split; [done|].
    pose proof (keeps_views L own s s' HL V) as Kp. cbn [fst]. destruct O as [[-> H']|(Hd & own' & H' & U' & Hd' & D' & Vd)].
    { cbn [Z.eqb]. split; [by exists own|by constructor]. }
    pose proof (dir_nz _ _ _ _ H' Hd') as Hd0. rewrite (proj2 (Z.eqb_neq d 0) Hd0). split.
    + exists own'. split; [done|]. split; [done|]. intros e. rewrite D', elem_of_union, elem_of_singleton, HL. naive_solver.
    + constructor; try done. by rewrite HL, Hd.
  - destruct En as (Hd & Hc & Hsz & Hhi & Hab). apply HL in Hd as Hd'.
    unfold allocuvm.
    destruct (alloc_spec own s d 0 oldsz newsz H U Hd' Hsz Hhi Hab) as (r & s' & own' & E & A & O); [done|].
    rewrite (pbind_Some _ _ s r s').
    2: { rewrite (pbind_Some _ _ _ _ _ (not_current own None s d H (dir_nz _ _ _ _ H Hd') Hc)). exact E. }
    exists (r, []), s'. split; [done|]. split; [by eapply adjusted_mem|].
    destruct O as [(-> & V & _)|(-> & V & _)]; constructor; [by eapply retouched_views|by eapply keeps_views].
  - destruct En as (Hd & Hc & Hsz & Hhi). apply HL in Hd as Hd'.
    destruct (dealloc_spec own s d 0 oldsz newsz H U Hd' Hsz Hhi) as (s' & own' & E & A & V & _); [done|].
    unfold deallocuvm. rewrite (pbind_Some _ _ s newsz s').
    2: { rewrite (pbind_Some _ _ _ _ _ (not_current own None s d H (dir_nz _ _ _ _ H Hd') Hc)). exact E. }
    exists (newsz, []), s'. split; [done|]. split; [by eapply adjusted_mem|]. constructor. by eapply retouched_views.
  - destruct En as (Hd & Hva). apply HL in Hd as Hd'.
    destruct (cow_fault_spec own s d (va / 4096) va H U Hd') as (r & s' & own' & E & St & V & O); [by apply user_page|mlia|].
    rewrite (pbind_Some _ _ _ _ _ E). exists (r, []), s'. split; [done|]. split; [by eapply settled_mem|].
    constructor; [by eapply keeps_views|]. destruct O as [[-> _]|[-> _]]; auto.
  - destruct En as (Hd & Hva & Hend & Hu8). apply HL in Hd as Hd'.
    destruct (copyout_spec own s d va l H U Hd' Hva Hend Hu8) as (r & s' & own' & E & St & (n & Hn & Mv & _ & O)).
    rewrite (pbind_Some _ _ _ _ _ E). exists (r, []), s'. split; [done|]. split; [by eapply settled_mem|].
    assert (Sd : stored (fun e => e ∈ L) d va (va + n) (buf_byte l) (view s) (view s')).
    { eapply stored_alive; [|exact Mv]. intros e He. by apply HL. }
    by econstructor.
  - destruct En as (Hd & Hva & Hn & Hend). apply HL in Hd as Hd'.
    destruct (copyin_spec own s d va n H Hd' Hva Hn Hend) as (r & l & s' & E & B & (Hl & Hb & O)).
    exists (r, l), s'. split; [done|]. destruct B as [Em C]. destruct (side_ok own None s s' H Em C) as [H' _].
    split; [by exists own|]. constructor; try done.
    + eapply keeps_views; [done|]. intros e k _ _. apply view_bytes. by rewrite Em.
    + destruct O as [(-> & El & _)|(-> & _)]; auto.
  - destruct En as (Hd & Hc). apply HL in Hd as Hd'.
    destruct (freevm_spec own None s d H Hd' Hc) as (s' & own' & E & H' & Fr). rewrite (pbind_Some _ _ _ _ _ E).
    exists (0, []), s'. split; [done|].
    assert (D' : forall e, e ∈ L ∖ {[d]} <-> own' !! e = Some RDir).
    { intros e. rewrite elem_of_difference, elem_of_singleton, HL. split.
      - intros [He Hne]. by apply (fr_keep _ _ _ _ _ Fr e RDir).
      - intros He. split; [by apply (fr_back _ _ _ _ _ Fr e RDir)|]. intros ->. by rewrite (fr_dir _ _ _ _ _ Fr) in He. }
    split.
    + exists own'. split; [done|]. split; [|done]. intros p M x Hp. destruct (fr_user _ _ _ _ _ Fr p M x Hp) as (M0 & Hp0 & _). by eapply U.
    + constructor. intros e k He Hk. eapply freed_views; [exact H|exact H'|done|by apply D'|done].
Qed.

Lemma vrun_refines L s tr L' s' : vrun L s tr L' s' -> mem_ok L s -> mem_ok L' s' /\ urun L (view s) tr L' (view s').
Proof.
  induction 1 as [L s|L s s1 L' s' op r tr En E R IH]; intros H; [split; [done|constructor]|].
  destruct (exec_step L s op H En) as (r' & s2 & E' & H' & St). rewrite E in E'. injection E' as <- <-.
  destruct (IH H') as [H2 R2]. split; [done|]. by econstructor.
Qed.

(** A step of the specification changes only the memory it is addressed to. *)
Lemma ustep_frame L m m' op r d k : ustep L m m' op r -> d ∈ L -> target op <> Some d -> 0 <= k < NUSER -> m' d k = m d k.
Proof.
  intros St Hd Ht Hk. destruct St as [? ? ? Kp|Kp|? ? ? ? ? Kp|? ? Kp|? ? ? Kp|? ? ? Kp|? ? ? Kp|? ? ? Kp|? ? ? ? ? ? Kp|? ? ? ? ? Kp|? Kp];
    cbn [target] in Ht; try (by apply Kp).
  - rewrite Kp, decide_False by (done || by intros [-> _]). done.
  - rewrite Kp, decide_False by (done || by intros [-> _]). done.
  - apply (sd_others _ _ _ _ _ _ _ Kp); [done|done|]. by intros ->.
  - apply Kp; [|done]. apply elem_of_difference. split; [done|]. rewrite elem_of_singleton. by intros ->.
Qed.

Lemma track_keep op r L d : d ∈ L -> target op <> Some d -> d ∈ track op r L.
Proof.
  intros Hd Ht. destruct op; cbn [track target] in *; try done; try (case_match; [done|by apply elem_of_union_r]).
  apply elem_of_difference. split; [done|]. rewrite elem_of_singleton. by intros ->.
Qed.

Lemma urun_frame L m tr L' m' d k : urun L m tr L' m' -> d ∈ L -> Forall (fun x => target (fst x) <> Some d) tr -> 0 <= k < NUSER ->
  m' d k = m d k.
Proof.
  induction 1 as [L m|L m m1 L' m' op r tr St R IH]; intros Hd Ht Hk; [done|]. apply Forall_cons in Ht as [Ht Hts].
  rewrite IH by (done || by apply track_keep). by eapply ustep_frame.
Qed.
(** What [copyout] stored is what [copyin] reads. *)
Lemma copied_fetched own s1 d va l s0 s' r' l' : copied own d va l s0 0 s1 -> 0 <= va -> va + len l <= KERNBASE -> ctl s0 s1 ->
  fetched s1 d va (len l) r' l' -> bare s1 s' -> r' = 0 /\ l' = l.
Proof.
  intros (n & Hn & Mv & G & [[_ ->]|?]) Hva Hend C (Hl & Hb & O) _; [|done].
  assert (Hrd : forall a, va <= a < va + len l -> readable s1 d (a / 4096) = true).
  { intros a Ha. unfold readable. rewrite (allowed_ctl s0 s1) by done. rewrite (G a Ha). cbn [andb].
    destruct (sd_in _ _ _ _ _ _ _ Mv a Ha) as [_ W]. unfold uperm. by rewrite W. }
  destruct O as [(-> & El & _)|(_ & a & Ha & Hr)]; [|by rewrite Hrd in Hr]. split; [done|].
  apply list_eq. intros i. destruct (l' !! i) as [b|] eqn:Ei.
  - pose proof (lookup_lt_Some _ _ _ Ei) as Hi. apply Hb in Ei.
    destruct (sd_in _ _ _ _ _ _ _ Mv (va + Z.of_nat i)) as [W _]; [unfold len in *; lia|].
    unfold ubyte in Ei. rewrite Ei in W. injection W as ->. unfold buf_byte.
    destruct (lookup_lt_is_Some_2 l i) as [c Hc]; [unfold len in *; lia|]. rewrite Hc. f_equal.
    apply nth_lookup_Some. rewrite <- Hc. f_equal. lia.
  - symmetry. apply lookup_ge_None. apply lookup_ge_None in Ei. unfold len in *. lia.
Qed.

(** ** Properties *)

(** C9.  Address spaces are private memories.  From any consistent state, in
    whatever order the kernel creates, forks, grows, shrinks, writes, reads and
    frees address spaces and resolves write faults, every operation does to the
    memories of the processes what the specification [ustep] says, also when
    the machine is out of pages; copy-on-write sharing, reference counts and
    demand-zero pages do not show.  The state stays consistent, and no
    operation that a caller may ask for panics. *)
Theorem user_memory_refines L s tr L' s' :
  mem_ok L s -> vrun L s tr L' s' ->
  mem_ok L' s' /\ urun L (view s) tr L' (view s') /\
  forall op, enabled L' s' op -> exists r s'', exec op s' = Some (r, s'').
Proof.
  intros H R. destruct (vrun_refines L s tr L' s' R H) as [H' R']. split; [done|]. split; [done|].
  intros op En. destruct (exec_step L' s' op H' En) as (r & s2 & E & _). by eauto.
Qed.

(** C10.  Isolation.  Operations that are not addressed to a live address
    space leave all of it as it was, contents and permissions, however its
    pages are shared with the address spaces the operations change. *)
Theorem user_memory_isolated L s tr L' s' d k :
  mem_ok L s -> vrun L s tr L' s' -> d ∈ L -> Forall (fun x => target (fst x) <> Some d) tr -> 0 <= k < NUSER ->
  view s' d k = view s d k.
Proof. intros H R Hd Ht Hk. destruct (vrun_refines L s tr L' s' R H) as [_ R']. by eapply urun_frame. Qed.

(** C19.  No page that a process can write through its tables is mapped
    twice: in every reachable state, two different entries of live directories
    that map the same page are both read-only for the hardware, and no entry is
    writable and marked copy-on-write at once. *)
Theorem writable_exclusive L s tr L' s' d v d' v' :
  mem_ok L s -> vrun L s tr L' s' -> d ∈ L' -> d' ∈ L' -> 0 <= v < NUSER -> 0 <= v' < NUSER ->
  flag (pte (bytes s') d v) PTE_P = true -> flag (pte (bytes s') d' v') PTE_P = true ->
  PTE_ADDR (pte (bytes s') d v) = PTE_ADDR (pte (bytes s') d' v') -> flag (pte (bytes s') d v) PTE_W = true ->
  (d, v) = (d', v') /\ flag (pte (bytes s') d v) PTE_COW = false.
Proof.
  intros H R Hd Hd' Hv Hv' HP HP' EA HW. destruct (vrun_refines L s tr L' s' R H) as [(own & H' & _ & HL) _].
  apply HL in Hd, Hd'. destruct (mapped_page own None s' d v H' Hd Hv HP) as (p & M & x & Hp & Hin & Hpg & HA).
  destruct (mapped_page own None s' d' v' H' Hd' Hv' HP') as (q & N & y & Hq & Hin' & Hqg & HA').
  assert (q = p) as -> by (apply V2P_inj; congruence). assert (N = M /\ y = x) as [-> ->] by (split; congruence).
  destruct (mo_excl _ _ _ (vo_map _ _ _ H') p M x d v d' v' Hp Hin Hin' HW) as [E|?]; [|done]. split; [done|].
  pose proof (mo_sane _ _ _ (vo_map _ _ _ H') d v Hd Hv HP) as Hs. rewrite HW, andb_true_r in Hs. done.
Qed.

(** C20.  The reference count of a user page is the number of entries that
    map it, in every reachable state; that number is at most 2^27, so the
    counter never reaches the limit at which [kpage_incref] panics. *)
Theorem refcount_exact L s tr L' s' d v :
  mem_ok L s -> vrun L s tr L' s' -> d ∈ L' -> 0 <= v < NUSER -> flag (pte (bytes s') d v) PTE_P = true ->
  exists M : gset (Z * Z),
    (forall e k, (e, k) ∈ M <-> (e ∈ L') /\ 0 <= k < NUSER /\ flag (pte (bytes s') e k) PTE_P = true /\
       PTE_ADDR (pte (bytes s') e k) = PTE_ADDR (pte (bytes s') d v)) /\
    kpage_refcount (kk (vmach s')) (PTE_ADDR (pte (bytes s') d v)) = Z.of_nat (size M) /\
    1 <= Z.of_nat (size M) <= 134217728.
Proof.
  intros H R Hd Hv HP. destruct (vrun_refines L s tr L' s' R H) as [(own & H' & U & HL) _]. apply HL in Hd.
  destruct (mapped_page own None s' d v H' Hd Hv HP) as (p & M & x & Hp & Hin & Hpg & HA). pose proof (U _ _ _ Hp) as ->.
  exists M. rewrite HA. split; [|split].
  - intros e k. split.
    + intros Hek. destruct (mo_user _ _ _ (vo_map _ _ _ H') p M 0 e k Hp Hek) as (He & Hk & HPk & HAk). by rewrite HL.
    + intros (He & Hk & HPk & HAk). apply HL in He.
      destruct (mapped_page own None s' e k H' He Hk HPk) as (q & N & y & Hq & Hink & Hqg & HAq).
      assert (q = p) as -> by (apply V2P_inj; congruence). by assert (N = M) as -> by congruence.
  - change (kpage_refcount (kk (vmach s')) (V2P p)) with (refs (kk (vmach s')) p).
    destruct (vo_own _ _ _ H' p _ Hp) as (_ & _ & -> & _). cbn [rcount]. lia.
  - pose proof (mappers_bound own None s' p M 0 H' Hp). destruct (vo_own _ _ _ H' p _ Hp) as (_ & _ & _ & H1 & _). cbn [rcount] in H1. lia.
Qed.

(** C22.  When [copyout] reports success, a [copyin] of the same range succeeds
    and returns exactly the bytes that were copied out. *)
Theorem copyout_copyin L s d va l s1 :
  mem_ok L s -> d ∈ L -> 0 <= va -> va + len l <= KERNBASE -> Forall is_u8 l ->
  copyout end_ meta_base pg_array_addr cpu d va l s = Some (0, s1) ->
  exists s2, copyin end_ meta_base pg_array_addr cpu d va (len l) s1 = Some ((0, l), s2).
Proof.
  intros (own & H & U & HL) Hd Hva Hend Hu8 E1. apply HL in Hd.
  destruct (copyout_spec own s d va l H U Hd Hva Hend Hu8) as (r & s1' & own' & E & [H1 Q1 U1 D1] & C).
  rewrite E1 in E. injection E as <- <-. destruct (copyin_spec own' s1 d va (len l) H1) as (r & l' & s2 & E2 & B & Ft); try done.
  { by apply D1. } { apply len_nonneg. }
  destruct (copied_fetched own s1 d va l s s2 r l' C Hva Hend (proj1 Q1) Ft B) as [-> ->]. by exists s2.
Qed.

(** C21.  Growing a process ([allocuvm_as], as [sbrk] and [exec] call it) never
    panics when the new addresses are not mapped.  On success the new pages are
    zero, user-accessible and writable, and the range table maps exactly the new
    addresses in addition, as anonymous read-write memory; it stays as it was
    only when it is full and the kernel heap refuses the array of the next
    capacity, a refusal that the code ignores.  When pages run out, every page
    and the range table are as before.  No other page of any address space
    changes either way. *)
Theorem allocuvm_grows L s as_ a newsz :
  mem_ok L s -> as_ <> 0 -> spaces s !! as_ = Some a -> pgdir a ∈ L ->
  wf_as a -> below a -> is_u32 (vma_cap a) -> Z.of_nat (vma_count a) < 2147483648 ->
  0 <= vm_size a < newsz -> newsz < KERNBASE ->
  (forall k, up (vm_size a) <= k < up newsz -> view s (pgdir a) k = None) ->
  exists r s' a', allocuvm_as end_ meta_base pg_array_addr cpu as_ (vm_size a) newsz s = Some (r, s') /\ mem_ok L s' /\
    spaces s' !! as_ = Some a' /\
    ((r = newsz /\ retouched L (pgdir a) (up (vm_size a)) (up newsz) zero_view (view s) (view s') /\
      (extends a a' newsz (Z.lor VMA_READ VMA_WRITE) \/
       a' = a /\ no_room (vheap s) a (Z.of_nat (vma_count a) + 1))) \/
     (r = 0 /\ keeps L (view s) (view s') /\ a' = a)).
Proof.
  intros (own & H & U & HL) Ha0 Ha Hd Wf Bl Cap Cnt Hsz Hhi Hab. pose proof (proj1 (HL _) Hd) as Hd'.
  unfold allocuvm_as. rewrite (proj2 (Z.eqb_neq _ 0) Ha0), (pbind_Some _ _ s a s) by (unfold space_at; by rewrite Ha).
  rewrite (proj2 (Z.eqb_neq _ 0) (dir_nz _ _ _ _ H Hd')).
  destruct (alloc_spec own s (pgdir a) as_ (vm_size a) newsz H U Hd' Hsz Hhi Hab) as (r & s' & own' & E & A & O).
  { intros _. exists a. split; [done|].
    destruct (expand_outcome (vheap s) a newsz Wf Bl Cap Cnt) as (q & h' & a' & -> & _); [lia|done]. }
  exists r, s'. destruct O as [(-> & V & Sp)|(-> & V & Sp)].
  - destruct (Sp a Ha0 Ha) as (h' & q & Ex).
    destruct (expand_outcome (vheap s) a newsz Wf Bl Cap Cnt) as (q' & h2 & a' & Ex' & Hx); [lia|].
    rewrite Ex in Ex'. injection Ex' as <- <- Es. exists a'. split; [done|]. split; [by eapply adjusted_mem|]. split; [done|].
    left. split; [done|]. split; [by eapply retouched_views|]. destruct Hx as [[_ ?]|(_ & -> & _ & ?)]; auto.
  - exists a. split; [done|]. split; [by eapply adjusted_mem|]. split.
    + rewrite (Sp a Ha0 Ha). unfold vma_shrink. rewrite Z.gtb_ltb, Z.ltb_irrefl, Z.eqb_refl. done.
    + right. split; [done|]. split; [by eapply keeps_views|done].
Qed.
End Refine.

(** ** On the small machine *)

Module OnMachine.
Import Kalloc.Example Machine.

(** A kernel heap with one block for range tables. *)
Definition TABLE : Z := 64.

#[local] Instance one_block : VmEnv.
Proof.
  refine {| Vma.kmalloc := fun h _ => if decide (TABLE ∈ blocks h) then None else Some TABLE;
            fresh_array := fun _ n => replicate (Z.to_nat n) (mkVma 0 0 0 0 0);
            new_kernel_pgdir := fun _ => None; copy_user_pgdir := fun _ _ _ => None |}; try done.
  - intros h n p. case_decide; [done|]. intros E. injection E as <-. done.
  - intros p n. apply length_replicate.
Defined.

Abbreviation run := (vrun END META 1 DATA one_cpu).

Lemma start_mem : mem_ok (end_ := END) (data_ := DATA) (cpu := one_cpu) (F := rest) {[UDIR]} start.
Proof.
  exists roles. split; [exact start_ok|]. split; [exact start_unheld|]. intros e. by rewrite elem_of_singleton, role_dir.
Qed.

(** The process grows by a page and forks. *)
Definition after (op : uop) (s : vm) : vm := match exec END META 1 DATA one_cpu op s with Some (_, s') => s' | None => s end.
Definition CHILD : Z := END + 40960.
Definition s_grown : vm := after (UGrow UDIR 0 4096) start.
Definition s_forked : vm := after (UFork UDIR 4096) s_grown.

Lemma exec_after op s r : fst <$> exec END META 1 DATA one_cpu op s = Some r ->
  exec END META 1 DATA one_cpu op s = Some (r, after op s).
Proof. unfold after. destruct (exec END META 1 DATA one_cpu op s) as [[r' s']|]; intros E; [|discriminate E]. by injection E as <-. Qed.

Lemma absent k : 0 <= k < 1 -> view start UDIR k = None.
Proof.
  intros Hk. unfold view, entry_view. change (mem (vmach start)) with start_byte. rewrite start_vacant; [reflexivity|unfold NUSER; lia].
Qed.
Lemma grow_ok : run {[UDIR]} start [(UGrow UDIR 0 4096, (4096, []))] {[UDIR]} s_grown.
Proof.
  apply (vr_cons END META 1 DATA one_cpu {[UDIR]} start s_grown {[UDIR]} s_grown (UGrow UDIR 0 4096) (4096, []) []).
  - split; [by apply elem_of_singleton|]. split; [intros (q & a & Eq & _); discriminate Eq|]. split; [lia|]. split; [reflexivity|]. exact absent.
  - apply exec_after. vm_compute. reflexivity.
  - apply vr_nil.
Qed.

Lemma vrun_app L s tr L1 s1 tr' L' s' : run L s tr L1 s1 -> run L1 s1 tr' L' s' -> run L s (tr ++ tr') L' s'.
Proof. induction 1; [done|]. intros R. cbn [app]. by eapply vr_cons; [..|auto]. Qed.

Definition BOTH : gset Z := {[CHILD]} ∪ {[UDIR]}.
Lemma fork_ok : run {[UDIR]} s_grown [(UFork UDIR 4096, (CHILD, []))] BOTH s_forked.
Proof.
  apply (vr_cons END META 1 DATA one_cpu {[UDIR]} s_grown s_forked BOTH s_forked (UFork UDIR 4096) (CHILD, []) []).
  - split; [by apply elem_of_singleton|unfold KERNBASE; lia].
  - apply exec_after. vm_compute. reflexivity.
  - apply vr_nil.
Qed.

Definition steps : list (uop * (Z * list Z)) := [(UGrow UDIR 0 4096, (4096, []))] ++ [(UFork UDIR 4096, (CHILD, []))].
Lemma steps_ok : run {[UDIR]} start steps BOTH s_forked.
Proof. eapply vrun_app; [exact grow_ok|exact fork_ok]. Qed.

Lemma user_memory_refines_witness : run {[UDIR]} start steps BOTH s_forked /\ urun {[UDIR]} (view start) steps BOTH (view s_forked).
Proof.
  split; [exact steps_ok|]. exact (proj1 (proj2 (user_memory_refines (KI := image) _ _ _ _ _ start_mem steps_ok))).
Defined.

(** The fork write-protects the parent's page, which does not show. *)
Lemma user_memory_isolated_witness : run {[UDIR]} s_grown [(UFork UDIR 4096, (CHILD, []))] BOTH s_forked /\
  view s_forked UDIR 0 = view s_grown UDIR 0.
Proof.
  split; [exact fork_ok|].
  apply (user_memory_isolated (KI := image) (F := rest) _ _ _ _ _ UDIR 0
           (proj1 (vrun_refines (KI := image) _ _ _ _ _ grow_ok start_mem)) fork_ok).
  - by apply elem_of_singleton.
  - constructor; [discriminate|constructor].
  - unfold NUSER. lia.
Defined.

Lemma writable_exclusive_witness : flag (pte (mem (vmach s_grown)) UDIR 0) PTE_COW = false.
Proof.
  apply (writable_exclusive (KI := image) _ _ _ _ _ UDIR 0 UDIR 0 start_mem grow_ok); try (by apply elem_of_singleton);
    try (unfold NUSER; lia); try (vm_compute; reflexivity).
Defined.

(** The page is shared by parent and child. *)
Lemma refcount_exact_witness : exists M : gset (Z * Z), size M = 2%nat /\ ((CHILD, 0) ∈ M) /\ ((UDIR, 0) ∈ M).
Proof.
  destruct (refcount_exact (KI := image) _ _ _ _ _ UDIR 0 start_mem steps_ok) as (M & HM & Hc & _).
  - apply elem_of_union_r. by apply elem_of_singleton.
  - unfold NUSER. lia.
  - vm_compute. reflexivity.
  - exists M. split; [|split].
    + apply Nat2Z.inj. rewrite <- Hc. vm_compute. reflexivity.
    + apply HM. split; [apply elem_of_union_l; by apply elem_of_singleton|]. split; [unfold NUSER; lia|]. split; vm_compute; reflexivity.
    + apply HM. split; [apply elem_of_union_r; by apply elem_of_singleton|]. split; [unfold NUSER; lia|]. split; vm_compute; reflexivity.
Defined.

Lemma copyout_copyin_witness : exists s1 s2, copyin END META 1 one_cpu UDIR 100 3 s1 = Some ((0, [1; 2; 3]), s2).
Proof.
  destruct (copyout END META 1 one_cpu UDIR 100 [1; 2; 3] s_grown) as [[r s1]|] eqn:E.
  - assert (Er : fst <$> copyout END META 1 one_cpu UDIR 100 [1; 2; 3] s_grown = Some 0) by (vm_compute; reflexivity).
    rewrite E in Er. cbn in Er. injection Er as ->. exists s1.
    apply (copyout_copyin (KI := image) (F := rest) {[UDIR]} s_grown UDIR 100 [1; 2; 3] s1).
    + exact (proj1 (vrun_refines (KI := image) _ _ _ _ _ grow_ok start_mem)).
    + by apply elem_of_singleton.
    + lia.
    + change (len [1; 2; 3]) with 3. unfold KERNBASE. lia.
    + repeat constructor; unfold is_u8; lia.
    + exact E.
  - apply (f_equal (fmap fst)) in E. vm_compute in E. discriminate E.
Defined.

Lemma allocuvm_grows_witness : exists s' a', allocuvm_as END META 1 one_cpu SPACE 0 4096 start = Some (4096, s') /\
  spaces s' !! SPACE = Some a' /\ extends (mkAs UDIR 1 0 None 0 0 0 0) a' 4096 (Z.lor VMA_READ VMA_WRITE).
Proof.
  assert (Er : fst <$> allocuvm_as END META 1 one_cpu SPACE 0 4096 start = Some 4096) by (vm_compute; reflexivity).
  destruct (allocuvm_grows (KI := image) (F := rest) {[UDIR]} start SPACE (mkAs UDIR 1 0 None 0 0 0 0) 4096 start_mem)
    as (r & s' & a' & E & _ & Ea & Ho).
  - discriminate.
  - reflexivity.
  - by apply elem_of_singleton.
  - split; [reflexivity|]. split; [done|]. split; constructor.
  - constructor.
  - unfold is_u32. cbn. lia.
  - cbn. lia.
  - cbn. lia.
  - reflexivity.
  - exact absent.
  - exists s', a'. change (vm_size (mkAs UDIR 1 0 None 0 0 0 0)) with 0 in E. rewrite E in Er. cbn [fmap option_fmap option_map fst] in Er.
    injection Er as ->. split; [exact E|]. split; [exact Ea|].
    destruct Ho as [(_ & _ & [Hx|(_ & _ & cap & _ & Hk)])|(Hr & _)]; [exact Hx|discriminate Hk|discriminate Hr].
Defined.
End OnMachine.
