(* ===== verification/BlockDev.v ===== *)
(** * Block devices: [src/kernel/core/blockdev.c], [src/include/buf.h]

    The table of block devices and their partitions, and [bdevrw], which hands a
    buffer to the driver of its device.  A driver is a [bdevsw]: a function on
    the buffer and on the state [D] behind it; the memory disk
    [src/kernel/driver/memide.c] is one.  [None] is a panic of the driver. *)

From S2P Require Import Prelude.

Definition BSIZE : Z := 512.
Definition NDEV : Z := 64.
Definition B_VALID : Z := 2.
Definition B_DIRTY : Z := 4.
Definition B_ERROR : Z := 8.
Definition B_INHASH : Z := 16.

(** [lock] is a sleep lock: its holder's process number, if it is locked.  The
    links are buffer numbers; [NBUF] stands for the list head. *)
Record buf := mkBuf {
  b_flags : Z;
  b_dev : Z;
  b_blockno : Z;
  b_lock : option Z;
  b_refcnt : Z;
  b_prev : nat;
  b_next : nat;
  b_hnext : option nat;
  b_data : list Z
}.

Definition set_flags (f : Z) (b : buf) : buf :=
  mkBuf f (b_dev b) (b_blockno b) (b_lock b) (b_refcnt b) (b_prev b) (b_next b) (b_hnext b) (b_data b).
Definition set_ident (d n : Z) (b : buf) : buf :=
  mkBuf (b_flags b) d n (b_lock b) (b_refcnt b) (b_prev b) (b_next b) (b_hnext b) (b_data b).
Definition set_lock (l : option Z) (b : buf) : buf :=
  mkBuf (b_flags b) (b_dev b) (b_blockno b) l (b_refcnt b) (b_prev b) (b_next b) (b_hnext b) (b_data b).
Definition set_refcnt (r : Z) (b : buf) : buf :=
  mkBuf (b_flags b) (b_dev b) (b_blockno b) (b_lock b) r (b_prev b) (b_next b) (b_hnext b) (b_data b).
Definition set_prev (p : nat) (b : buf) : buf :=
  mkBuf (b_flags b) (b_dev b) (b_blockno b) (b_lock b) (b_refcnt b) p (b_next b) (b_hnext b) (b_data b).
Definition set_next (n : nat) (b : buf) : buf :=
  mkBuf (b_flags b) (b_dev b) (b_blockno b) (b_lock b) (b_refcnt b) (b_prev b) n (b_hnext b) (b_data b).
Definition set_hnext (n : option nat) (b : buf) : buf :=
  mkBuf (b_flags b) (b_dev b) (b_blockno b) (b_lock b) (b_refcnt b) (b_prev b) (b_next b) n (b_data b).
Definition set_data (d : list Z) (b : buf) : buf :=
  mkBuf (b_flags b) (b_dev b) (b_blockno b) (b_lock b) (b_refcnt b) (b_prev b) (b_next b) (b_hnext b) d.

Definition valid (b : buf) : bool := flag (b_flags b) B_VALID.
Definition dirty (b : buf) : bool := flag (b_flags b) B_DIRTY.
Definition errored (b : buf) : bool := flag (b_flags b) B_ERROR.
Definition inhash (b : buf) : bool := flag (b_flags b) B_INHASH.

(** ** The device table *)

Section Table.
Context {D : Type}.

(** [struct bdevsw]; the function pointers may be null.  The first argument of
    [rw] is the running process. *)
Record bdevsw := mkOps {
  o_rw : option (Z -> buf -> PM D (Z * buf));
  o_nblocks : option (D -> Z -> Z)
}.

Record bdev := mkDev {
  d_ops : option bdevsw;
  d_parent : Z;
  d_start : Z;
  d_nblocks : Z;
  d_is_part : bool
}.

Definition no_dev : bdev := mkDev None 0 0 0 false.
Definition bdevtable : Type := Z -> bdev.
Definition set_dev (t : bdevtable) (n : Z) (d : bdev) : bdevtable := fun i => if i =? n then d else t i.

Definition bdevinit : bdevtable := fun _ => no_dev.

Definition bdev_register (dev : Z) (ops : option bdevsw) (t : bdevtable) : Z * bdevtable :=
  if dev >=? NDEV then (-1, t)
  else
    match ops with
    | None => (-1, t)
    | Some o => match o_rw o with
                | None => (-1, t)
                | Some _ => (0, set_dev t dev (mkDev ops dev 0 0 false))
                end
    end.

Definition has_ops (d : bdev) : bool := match d_ops d with Some _ => true | None => false end.

(** The loop of [bdev_unregister]: some other entry is a partition of [dev]. *)
Definition has_parts (dev : Z) (t : bdevtable) : bool :=
  existsb (fun i => negb (i =? dev) && has_ops (t i) && d_is_part (t i) && (d_parent (t i) =? dev))
    (Z.of_nat <$> seq 0 (Z.to_nat NDEV)).

Definition bdev_unregister (dev : Z) (t : bdevtable) : Z * bdevtable :=
  if dev >=? NDEV then (-1, t)
  else if negb (has_ops (t dev)) then (-1, t)
  else if has_parts dev t then (-1, t)
  else (0, set_dev t dev no_dev).

Definition bdev_register_part (dev parent start nblocks : Z) (t : bdevtable) : Z * bdevtable :=
  if (dev >=? NDEV) || (parent >=? NDEV) || (nblocks =? 0) then (-1, t)
  else
    match d_ops (t parent) with
    | None => (-1, t)
    | Some o => (0, set_dev t dev (mkDev (Some o) parent start nblocks true))
    end.

Definition bdev_set_nblocks (dev nblocks : Z) (t : bdevtable) : Z * bdevtable :=
  if (dev >=? NDEV) || (nblocks =? 0) then (-1, t)
  else if negb (has_ops (t dev)) || d_is_part (t dev) then (-1, t)
  else let d := t dev in (0, set_dev t dev (mkDev (d_ops d) (d_parent d) (d_start d) nblocks (d_is_part d))).

Definition bdev_nblocks (t : bdevtable) (s : D) (dev : Z) : Z :=
  if dev >=? NDEV then 0
  else
    match d_ops (t dev) with
    | None => 0
    | Some o =>
        if d_is_part (t dev) then d_nblocks (t dev)
        else if negb (d_nblocks (t dev) =? 0) then d_nblocks (t dev)
        else match o_nblocks o with None => 0 | Some f => f s dev end
    end.

(** ** Transfers *)

(** The driver for a buffer and the identity under which it gets it; [None]
    where [bdevrw] returns -1 at once. *)
Definition bdev_route (t : bdevtable) (b : buf) : option ((Z -> buf -> PM D (Z * buf)) * Z * Z) :=
  if b_dev b >=? NDEV then None
  else
    let d := t (b_dev b) in
    match d_ops d with
    | None => None
    | Some o =>
        match o_rw o with
        | None => None
        | Some rw =>
            if negb (d_is_part d) then Some (rw, b_dev b, b_blockno b)
            else if b_blockno b >=? d_nblocks d then None
            else Some (rw, d_parent d, b_blockno b +u d_start d)
        end
    end.

(** The buffer has the parent's identity while the driver works on it. *)
Definition bdevrw (t : bdevtable) (pid : Z) (b : buf) : PM D (Z * buf) := fun s =>
  match bdev_route t b with
  | None => Some ((-1, b), s)
  | Some (rw, pd, pn) =>
      match rw pid (set_ident pd pn b) s with
      | None => None
      | Some ((r, b'), s') => Some ((r, set_ident (b_dev b) (b_blockno b) b'), s')
      end
  end.
End Table.
Arguments bdevsw : clear implicits.
Arguments bdev : clear implicits.
Arguments bdevtable : clear implicits.

(** ** The memory disk *)

Section MemIde.
(** [disksize] is the number of blocks of the image. *)
Context (disksize : Z).

Record memdisk := mkMemdisk { md_block : Z -> list Z }.

Definition memide_nblocks (_ : memdisk) (_ : Z) : Z := disksize.

Definition memide_backend_rw (pid : Z) (b : buf) : PM memdisk (Z * buf) := fun s =>
  if negb (bool_decide (b_lock b = Some pid)) then None
  else if valid b && negb (dirty b) then None
  else if negb (b_dev b =? 1) then None
  else if b_blockno b >=? disksize then None
  else if dirty b then
    Some ((0, set_flags (Z.lor (Z.ldiff (b_flags b) B_DIRTY) B_VALID) b),
          mkMemdisk (fun n => if n =? b_blockno b then b_data b else md_block s n))
  else Some ((0, set_flags (Z.lor (b_flags b) B_VALID) (set_data (md_block s (b_blockno b)) b)), s).
End MemIde.
