(* ===== verification/Bio.v ===== *)
(** * The buffer cache: [src/kernel/fs/bio.c], [src/kernel/core/sleeplock.c]

    A table of buffers with hash chains for lookup and a doubly linked ring in
    order of release.  Pointers are buffer numbers, and [NBUF] stands for the
    head of the ring.  Each function here is one critical section of
    [bcache.lock] or of a buffer's sleep lock; [BioRun] interleaves them.  In
    [acquiresleep], [None] means that the caller sleeps; elsewhere it is a
    panic.  [bcache_health_check], a report for the operator, is left out. *)

From S2P Require Import Prelude HashChain BlockDev.

Definition NBUF : nat := 128.
Definition BCACHE_HASH_SIZE : nat := 64.
Definition BHASH (dev blockno : Z) : nat := Z.to_nat (Z.land (dev *u 31 +u blockno) 63).

Record bcache := mkBc {
  bc_buf : list buf;
  bc_prev : nat;                    (* head.prev *)
  bc_next : nat;                    (* head.next *)
  bc_hash : list (option nat)
}.

Definition upd_buf (i : nat) (f : buf -> buf) (c : bcache) : bcache :=
  mkBc (alter f i (bc_buf c)) (bc_prev c) (bc_next c) (bc_hash c).
Definition set_hash (h : nat) (p : option nat) (c : bcache) : bcache :=
  mkBc (bc_buf c) (bc_prev c) (bc_next c) (<[h := p]> (bc_hash c)).
Definition head (c : bcache) (h : nat) : option nat := default None (bc_hash c !! h).

(** [b->next] and [b->prev], also for the head of the ring. *)
Definition next_of (c : bcache) (i : nat) : nat :=
  if (i =? NBUF)%nat then bc_next c else match bc_buf c !! i with Some b => b_next b | None => NBUF end.
Definition prev_of (c : bcache) (i : nat) : nat :=
  if (i =? NBUF)%nat then bc_prev c else match bc_buf c !! i with Some b => b_prev b | None => NBUF end.
Definition put_next (i n : nat) (c : bcache) : bcache :=
  if (i =? NBUF)%nat then mkBc (bc_buf c) (bc_prev c) n (bc_hash c) else upd_buf i (set_next n) c.
Definition put_prev (i p : nat) (c : bcache) : bcache :=
  if (i =? NBUF)%nat then mkBc (bc_buf c) p (bc_next c) (bc_hash c) else upd_buf i (set_prev p) c.

Definition bcache_bufptr_valid (i : nat) : bool := (i <? NBUF)%nat.

(** The loop of [binit]: buffer [i] goes to the front of the ring. *)
Definition push_front (i : nat) (c : bcache) : bcache :=
  let c := put_next i (next_of c NBUF) c in
  let c := put_prev i NBUF c in
  let c := put_prev (next_of c NBUF) i c in
  put_next NBUF i c.

Fixpoint binit_loop (n i : nat) (c : bcache) : bcache :=
  match n with
  | O => c
  | S n => binit_loop n (S i) (push_front i (upd_buf i (fun b => set_lock None (set_hnext None b)) c))
  end.

(** [zeroed] is the memory of the table before [binit]. *)
Definition zeroed : bcache :=
  mkBc (replicate NBUF (mkBuf 0 0 0 None 0 0 0 None (replicate 512 0))) 0 0 (replicate BCACHE_HASH_SIZE None).
Definition binit (c : bcache) : bcache :=
  let c := mkBc (bc_buf c) NBUF NBUF (replicate BCACHE_HASH_SIZE None) in
  binit_loop NBUF 0 c.

(** ** Lookup and eviction *)

Inductive walked := Hit (i : nat) | Miss | Corrupt.

(** [for(b = bcache.hash[h]; b != 0; b = b->hash_next)]; a chain has at most
    [NBUF] buffers, and [None] stands for a loop that never ends. *)
Fixpoint bget_walk (fuel : nat) (c : bcache) (p : option nat) (dev blockno : Z) : option walked :=
  match fuel with
  | O => None
  | S fuel =>
      match p with
      | None => Some Miss
      | Some i =>
          if negb (bcache_bufptr_valid i) then Some Corrupt
          else match bc_buf c !! i with
               | None => None
               | Some b => if (b_dev b =? dev) && (b_blockno b =? blockno) then Some (Hit i)
                           else bget_walk fuel c (b_hnext b) dev blockno
               end
      end
  end.

(** The scan from the least recently released buffer. *)
Fixpoint find_victim (fuel : nat) (c : bcache) (i : nat) : option nat :=
  match fuel with
  | O => None
  | S fuel =>
      if (i =? NBUF)%nat then None
      else match bc_buf c !! i with
           | None => None
           | Some b => if (b_refcnt b =? 0) && negb (dirty b) then Some i else find_victim fuel c (b_prev b)
           end
  end.

(** [pp]: the head of a chain or the link of a buffer. *)
Inductive cell := CHash (h : nat) | CLink (i : nat).
Definition get_cell (c : bcache) (q : cell) : option nat :=
  match q with CHash h => head c h | CLink i => match bc_buf c !! i with Some b => b_hnext b | None => None end end.
Definition set_cell (q : cell) (v : option nat) (c : bcache) : bcache :=
  match q with CHash h => set_hash h v c | CLink i => upd_buf i (set_hnext v) c end.

(** The removal of [e] from the chain [h]. *)
Fixpoint unhash (fuel : nat) (q : cell) (h e : nat) (c : bcache) : option bcache :=
  match fuel with
  | O => None
  | S fuel =>
      match get_cell c q with
      | None => Some c
      | Some i =>
          if decide (i = e) then Some (set_cell q (get_cell c (CLink e)) c)
          else if negb (bcache_bufptr_valid i) then Some (set_hash h None c)
          else unhash fuel (CLink i) h e c
      end
  end.

(** The part of [bget] under [bcache.lock]. *)
Definition bget (dev blockno : Z) : PM bcache nat := fun c =>
  let h := BHASH dev blockno in
  let miss c :=
    match find_victim (S NBUF) c (bc_prev c) with
    | None => None
    | Some e =>
        match bc_buf c !! e with
        | None => None
        | Some b =>
            match (if inhash b then let oh := BHASH (b_dev b) (b_blockno b) in unhash (S NBUF) (CHash oh) oh e c else Some c) with
            | None => None
            | Some c =>
                let c := upd_buf e (fun b => set_hnext (head c h) (set_refcnt 1 (set_flags B_INHASH (set_ident dev blockno b)))) c in
                Some (e, set_hash h (Some e) c)
            end
        end
    end in
  match bget_walk (S NBUF) c (head c h) dev blockno with
  | None => None
  | Some (Hit i) => Some (i, upd_buf i (fun b => set_refcnt (b_refcnt b +u 1) b) c)
  | Some Miss => miss c
  | Some Corrupt => miss (set_hash h None c)
  end.

(** ** Sleep locks *)

Definition acquiresleep (pid : Z) (i : nat) : PM bcache unit := fun c =>
  match bc_buf c !! i with
  | None => None
  | Some b => match b_lock b with
              | Some _ => None
              | None => Some (tt, upd_buf i (set_lock (Some pid)) c)
              end
  end.
Definition releasesleep (i : nat) : PM bcache unit := fun c => Some (tt, upd_buf i (set_lock None) c).
Definition holdingsleep (pid : Z) (i : nat) (c : bcache) : bool :=
  match bc_buf c !! i with Some b => bool_decide (b_lock b = Some pid) | None => false end.

(** The part of [brelse] under [bcache.lock]. *)
Definition brelse_unref (i : nat) : PM bcache unit := fun c =>
  let c := upd_buf i (fun b => set_refcnt (b_refcnt b -u 1) b) c in
  match bc_buf c !! i with
  | None => None
  | Some b =>
      if b_refcnt b =? 0 then
        let c := put_prev (next_of c i) (prev_of c i) c in
        let c := put_next (prev_of c i) (next_of c i) c in
        let c := put_next i (next_of c NBUF) c in
        let c := put_prev i NBUF c in
        let c := put_prev (next_of c NBUF) i c in
        Some (tt, put_next NBUF i c)
      else Some (tt, c)
  end.

(** ** Reading and writing *)

Section Ops.
Context {D : Type} (t : bdevtable D).

Record bio := mkBio { bc : bcache; dev_st : D }.

Definition on_bc {A} (m : PM bcache A) : PM bio A := fun s =>
  match m (bc s) with Some (a, c) => Some (a, mkBio c (dev_st s)) | None => None end.

Open Scope pm_scope.

(** [bdevrw(b)] on the buffer in the table. *)
Definition rw_buf (pid : Z) (i : nat) : PM bio Z := fun s =>
  match bc_buf (bc s) !! i with
  | None => None
  | Some b =>
      match bdevrw t pid b (dev_st s) with
      | None => None
      | Some ((r, b'), d) => Some (r, mkBio (upd_buf i (fun _ => b') (bc s)) d)
      end
  end.

(** [bread] after [bget]. *)
Definition bread_fill (pid : Z) (i : nat) : PM bio unit := fun s =>
  match bc_buf (bc s) !! i with
  | None => None
  | Some b =>
      if valid b then Some (tt, s)
      else
        (let! r := rw_buf pid i in
         on_bc (fun c => Some (tt,
           if r <? 0 then upd_buf i (fun b => set_data (replicate 512 0) (set_flags (Z.lor (b_flags b) (Z.lor B_ERROR B_VALID)) b)) c
           else upd_buf i (fun b => set_flags (Z.ldiff (b_flags b) B_ERROR) b) c))) s
  end.

Definition bread (pid dev blockno : Z) : PM bio nat :=
  let! i := on_bc (bget dev blockno) in
  on_bc (acquiresleep pid i) >>> bread_fill pid i >>> pret i.

Definition berror (i : nat) : PM bio bool := fun s =>
  match bc_buf (bc s) !! i with Some b => Some (errored b, s) | None => None end.

Definition bwrite (pid : Z) (i : nat) : PM bio unit := fun s =>
  if negb (holdingsleep pid i (bc s)) then None
  else
    (on_bc (fun c => Some (tt, upd_buf i (fun b => set_flags (Z.lor (b_flags b) B_DIRTY) b) c)) >>>
     let! r := rw_buf pid i in
     on_bc (fun c => Some (tt,
       if r <? 0 then upd_buf i (fun b => set_flags (Z.lor (b_flags b) B_ERROR) b) c
       else upd_buf i (fun b => set_flags (Z.ldiff (b_flags b) B_ERROR) b) c))) s.

Definition brelse (pid : Z) (i : nat) : PM bio unit := fun s =>
  if negb (holdingsleep pid i (bc s)) then None
  else (on_bc (releasesleep i) >>> on_bc (brelse_unref i)) s.

(** The buffer, or nothing for -1. *)
Definition bread_ok (pid dev blockno : Z) : PM bio (option nat) :=
  let! i := bread pid dev blockno in
  let! e := berror i in
  if e then brelse pid i >>> pret None else pret (Some i).

Definition bwrite_ok (pid : Z) (i : nat) : PM bio Z :=
  bwrite pid i >>> let! e := berror i in pret (if e then -1 else 0).
End Ops.
Arguments bio : clear implicits.

(** ** Hash chains *)

Definition bkey (b : buf) : option (Z * Z) := if inhash b then Some (b_dev b, b_blockno b) else None.

Lemma BHASH_bound dev n : (BHASH dev n < BCACHE_HASH_SIZE)%nat.
Proof.
  unfold BHASH, BCACHE_HASH_SIZE. change 63 with (Z.ones 6). rewrite Z.land_ones by lia.
  pose proof (Z.mod_pos_bound (dev *u 31 +u n) (2 ^ 6) ltac:(lia)). lia.
Qed.

#[export] Program Instance buf_chained : Chained buf (Z * Z) := {|
  nxt := b_hnext; set_nxt := set_hnext; key := bkey; bucket := fun k => BHASH (fst k) (snd k); buckets := BCACHE_HASH_SIZE
|}.
Next Obligation. done. Qed.
Next Obligation. by intros []. Qed.
Next Obligation. done. Qed.
Next Obligation. intros [dev n]. apply BHASH_bound. Qed.

Definition btab (c : bcache) : table buf := mkT (bc_buf c) (bc_hash c).

(** ** The ring *)

(** [l] leads from [x] to [y] along [nx], and back along [pv]. *)
Fixpoint seg (nx pv : nat -> nat) (x : nat) (l : list nat) (y : nat) : Prop :=
  match l with
  | [] => nx x = y /\ pv y = x
  | z :: l => nx x = z /\ pv z = x /\ seg nx pv z l y
  end.

Definition ring (c : bcache) (ord : list nat) : Prop := seg (next_of c) (prev_of c) NBUF ord NBUF.

Record buf_ok (b : buf) : Prop := {
  bo_ref : is_u32 (b_refcnt b);
  bo_data : length (b_data b) = 512%nat;
  bo_hash : 0 < b_refcnt b \/ valid b = true \/ dirty b = true -> inhash b = true
}.

(** [C]: the buffers of each chain; [ord]: the ring, most recently released
    first. *)
Record cache_ok (c : bcache) (C : nat -> list nat) (ord : list nat) : Prop := {
  bk_len : length (bc_buf c) = NBUF;
  bk_chains : chains (btab c) C;
  bk_buf i b : bc_buf c !! i = Some b -> buf_ok b;
  bk_ring : ring c ord;
  bk_perm : ord ≡ₚ seq 0 NBUF
}.

Lemma seg_app nx pv x l1 z l2 y : seg nx pv x (l1 ++ z :: l2) y <-> seg nx pv x l1 z /\ seg nx pv z l2 y.
Proof. revert x; induction l1 as [|w l1 IH]; intros x; cbn [app seg]; [tauto|]. rewrite IH. tauto. Qed.

Lemma seg_ext nx pv nx' pv' x l y : seg nx pv x l y ->
  (forall i, i = x \/ i ∈ l -> nx' i = nx i) -> (forall i, i = y \/ i ∈ l -> pv' i = pv i) -> seg nx' pv' x l y.
Proof.
  revert x; induction l as [|z l IH]; intros x; cbn [seg]; intros H Hn Hp.
  - destruct H as [E1 E2]. split; [by rewrite Hn by auto|by rewrite Hp by auto].
  - destruct H as (E1 & E2 & H). split; [by rewrite Hn by auto|]. split; [by rewrite Hp by (rewrite elem_of_cons; auto)|].
    apply IH; [done|..]; intros i Hi; [apply Hn|apply Hp]; rewrite elem_of_cons; naive_solver.
Qed.

Definition fupd (f : nat -> nat) (i v : nat) : nat -> nat := fun j => if decide (j = i) then v else f j.
Lemma fupd_eq f i v : fupd f i v i = v.
Proof. unfold fupd. by case_decide. Qed.
Lemma fupd_ne f i v j : j <> i -> fupd f i v j = f j.
Proof. unfold fupd. by case_decide. Qed.

Lemma seg_first nx pv x l y : seg nx pv x l y -> (l = [] /\ nx x = y) \/ exists l', l = nx x :: l' /\ seg nx pv (nx x) l' y.
Proof. destruct l as [|z l]; cbn; [intros [? _]; by left|]. intros (<- & _ & H). right. by exists l. Qed.
Lemma seg_last nx pv x l y : seg nx pv x l y -> (l = [] /\ pv y = x) \/ exists l', l = l' ++ [pv y] /\ seg nx pv x l' (pv y).
Proof.
  destruct (decide (l = [])) as [->|Hl]; [intros [_ ?]; by left|].
  destruct (exists_last Hl) as (l' & z & ->). intros [H1 [_ E]]%seg_app. right. exists l'. by rewrite E.
Qed.

Lemma fupd_cong f g i v j : f j = g j -> fupd f i v j = fupd g i v j.
Proof. unfold fupd. by case_decide. Qed.

(** Joining the two neighbours of [i]. *)
Lemma seg_remove nx pv x l1 i l2 y : seg nx pv x (l1 ++ i :: l2) y -> NoDup (x :: l1 ++ i :: l2) -> NoDup (l1 ++ i :: l2 ++ [y]) ->
  seg (fupd nx (pv i) (nx i)) (fupd pv (nx i) (pv i)) x (l1 ++ l2) y.
Proof.
  intros H Hx Hy. apply seg_app in H as [H1 H2].
  apply NoDup_cons in Hx as [Hxn _]. apply NoDup_app in Hy as (Hn1 & Hn12 & [Hi Hn2]%NoDup_cons).
  apply NoDup_app in Hn2 as (Hn2 & Hn2y & _).
  destruct (seg_last _ _ _ _ _ H1) as [[-> Ep]|(l1' & -> & H1')], (seg_first _ _ _ _ _ H2) as [[-> En]|(l2' & -> & H2')];
    try rewrite Ep in *; try rewrite En in *; try apply NoDup_app in Hn1 as (Hn1 & Hp & _); try apply NoDup_cons in Hn2 as [Hn Hn2].
  - cbn. by rewrite !fupd_eq.
  - cbn [app seg]. rewrite !fupd_eq. split; [done|]. split; [done|].
    apply (seg_ext nx pv); [done|..]; intros j Hj; rewrite fupd_ne; [done| |done|]; set_solver.
  - rewrite app_nil_r. apply seg_app. split; [|cbn; by rewrite !fupd_eq].
    apply (seg_ext nx pv); [done|..]; intros j Hj; rewrite fupd_ne; [done| |done|]; set_solver.
  - rewrite <- app_assoc. cbn [app]. apply seg_app. split.
    + apply (seg_ext nx pv); [done|..]; intros j Hj; rewrite fupd_ne; [done| |done|]; set_solver.
    + cbn [seg]. rewrite !fupd_eq. split; [done|]. split; [done|].
      apply (seg_ext nx pv); [done|..]; intros j Hj; rewrite fupd_ne; [done| |done|]; set_solver.
Qed.

(** Putting [i] after the head. *)
Lemma seg_push nx pv h l i : seg nx pv h l h -> i <> h -> i ∉ l -> h ∉ l -> NoDup l ->
  let nx' := fupd nx i (nx h) in
  seg (fupd nx' h i) (fupd (fupd pv i h) (nx' h) i) h (i :: l) h.
Proof.
  intros H Hi Hl Hh Hnd nx'. assert (Eh : nx' h = nx h) by (by apply fupd_ne). rewrite Eh. cbn [seg]. rewrite fupd_eq. split; [done|].
  destruct (seg_first _ _ _ _ _ H) as [[-> En]|(l' & -> & H')]; cbn [seg].
  - rewrite En. rewrite (fupd_ne _ h i i), fupd_eq by done. split; [done|]. rewrite (fupd_ne _ h i i) by done. unfold nx'. by rewrite !fupd_eq.
  - set (z := nx h) in *. apply NoDup_cons in Hnd as [Hz Hnd].
    rewrite (fupd_ne _ z), fupd_eq by set_solver. split; [done|]. rewrite (fupd_ne _ h i i) by done. unfold nx' at 1. rewrite !fupd_eq.
    split; [done|]. split; [done|]. apply (seg_ext nx pv); [done|..]; intros j Hj; unfold nx'; rewrite !fupd_ne; set_solver.
Qed.

Lemma upd_buf_lookup i f c j : bc_buf (upd_buf i f c) !! j = if decide (j = i) then f <$> bc_buf c !! i else bc_buf c !! j.
Proof. cbn. case_decide as E; [subst; by rewrite list_lookup_alter_eq|by rewrite list_lookup_alter_ne]. Qed.

(** The links of the ring as two functions. *)
Definition ringpos (c : bcache) (i : nat) : Prop := i = NBUF \/ (i < length (bc_buf c))%nat.

Lemma next_put_next i n c : ringpos c i -> forall j, next_of (put_next i n c) j = fupd (next_of c) i n j.
Proof.
  intros Hi j. unfold next_of, put_next, fupd. destruct (Nat.eqb_spec i NBUF) as [->|Hne].
  - destruct (Nat.eqb_spec j NBUF); case_decide; [done|done|done|done].
  - destruct Hi as [|Hi]; [done|]. destruct (lookup_lt_is_Some_2 _ _ Hi) as [b Hb]. rewrite upd_buf_lookup.
    destruct (Nat.eqb_spec j NBUF) as [->|]; [by rewrite decide_False by done|]. case_decide; [subst; by rewrite Hb|done].
Qed.
Lemma prev_put_prev i n c : ringpos c i -> forall j, prev_of (put_prev i n c) j = fupd (prev_of c) i n j.
Proof.
  intros Hi j. unfold prev_of, put_prev, fupd. destruct (Nat.eqb_spec i NBUF) as [->|Hne].
  - destruct (Nat.eqb_spec j NBUF); case_decide; [done|done|done|done].
  - destruct Hi as [|Hi]; [done|]. destruct (lookup_lt_is_Some_2 _ _ Hi) as [b Hb]. rewrite upd_buf_lookup.
    destruct (Nat.eqb_spec j NBUF) as [->|]; [by rewrite decide_False by done|]. case_decide; [subst; by rewrite Hb|done].
Qed.
Lemma next_upd i f c : (forall b, bc_buf c !! i = Some b -> b_next (f b) = b_next b) -> forall j, next_of (upd_buf i f c) j = next_of c j.
Proof.
  intros Hf j. unfold next_of. rewrite upd_buf_lookup. destruct (j =? NBUF)%nat; [done|]. case_decide; [subst|done].
  destruct (bc_buf c !! i) as [b|] eqn:E; [by apply (Hf b)|done].
Qed.
Lemma prev_upd i f c : (forall b, bc_buf c !! i = Some b -> b_prev (f b) = b_prev b) -> forall j, prev_of (upd_buf i f c) j = prev_of c j.
Proof.
  intros Hf j. unfold prev_of. rewrite upd_buf_lookup. destruct (j =? NBUF)%nat; [done|]. case_decide; [subst|done].
  destruct (bc_buf c !! i) as [b|] eqn:E; [by apply (Hf b)|done].
Qed.
Lemma next_put_prev i n c : forall j, next_of (put_prev i n c) j = next_of c j.
Proof. intros j. unfold put_prev. destruct (i =? NBUF)%nat; [done|]. by apply next_upd. Qed.
Lemma prev_put_next i n c : forall j, prev_of (put_next i n c) j = prev_of c j.
Proof. intros j. unfold put_next. destruct (i =? NBUF)%nat; [done|]. by apply prev_upd. Qed.

(** ** Changes of the ring alone *)

Definition reringed (b b' : buf) : Prop := exists p n, b' = set_prev p (set_next n b).

Lemma reringed_refl b : reringed b b.
Proof. exists (b_prev b), (b_next b). by destruct b. Qed.
Lemma reringed_trans a b c : reringed a b -> reringed b c -> reringed a c.
Proof. intros (p & n & ->) (p' & n' & ->). by exists p', n'. Qed.

Record ringonly (c c' : bcache) : Prop := {
  ro_len : length (bc_buf c') = length (bc_buf c);
  ro_hash : bc_hash c' = bc_hash c;
  ro_buf i b : bc_buf c !! i = Some b -> exists b', bc_buf c' !! i = Some b' /\ reringed b b'
}.

Lemma ringonly_trans a b c : ringonly a b -> ringonly b c -> ringonly a c.
Proof.
  intros [L1 H1 B1] [L2 H2 B2]. split; [congruence|congruence|]. intros i x Hx. destruct (B1 i x Hx) as (y & Hy & R1).
  destruct (B2 i y Hy) as (z & Hz & R2). exists z. split; [done|]. by eapply reringed_trans.
Qed.

Lemma ringonly_inv c c' i b' : ringonly c c' -> bc_buf c' !! i = Some b' -> exists b, bc_buf c !! i = Some b /\ reringed b b'.
Proof.
  intros R Hb. pose proof (lookup_lt_Some _ _ _ Hb) as Hlt. rewrite (ro_len _ _ R) in Hlt.
  destruct (lookup_lt_is_Some_2 _ _ Hlt) as [b Hb0]. destruct (ro_buf _ _ R i b Hb0) as (b2 & Hb2 & Hr). exists b. split; [done|congruence].
Qed.

Lemma ringonly_upd i f c : (forall b, reringed b (f b)) -> ringonly c (upd_buf i f c).
Proof.
  intros Hf. split; [cbn; by rewrite length_alter|done|]. intros j b Hb. rewrite upd_buf_lookup. case_decide; [subst; rewrite Hb; eauto|].
  exists b. split; [done|apply reringed_refl].
Qed.

Lemma ringonly_put_next i n c : ringonly c (put_next i n c).
Proof.
  unfold put_next. destruct (i =? NBUF)%nat.
  - split; [done|done|]. intros j b Hb. exists b. split; [done|apply reringed_refl].
  - apply ringonly_upd. intros b. exists (b_prev b), n. by destruct b.
Qed.
Lemma ringonly_put_prev i n c : ringonly c (put_prev i n c).
Proof.
  unfold put_prev. destruct (i =? NBUF)%nat.
  - split; [done|done|]. intros j b Hb. exists b. split; [done|apply reringed_refl].
  - apply ringonly_upd. intros b. exists n, (b_next b). by destruct b.
Qed.

Lemma ringonly_chains c c' C : ringonly c c' -> chains (btab c) C -> chains (btab c') C.
Proof.
  intros R Ok. unfold btab. rewrite (ro_hash _ _ R). apply (chains_frame (bc_buf c)); [exact Ok|..].
  - intros i b' Hb'. destruct (ringonly_inv _ _ _ _ R Hb') as (b & Hb & p & n & ->). by exists b.
  - intros i b Hb. destruct (ro_buf _ _ R i b Hb) as (b' & Hb' & p & n & ->). eauto.
Qed.

Lemma reringed_ok b b' : reringed b b' -> buf_ok b -> buf_ok b'.
Proof. intros (p & n & ->) [H1 H2 H3]. by split. Qed.

Lemma ringpos_of c c' i : ringonly c c' -> ringpos c i -> ringpos c' i.
Proof. intros R [->|Hi]; [by left|right]. by rewrite (ro_len _ _ R). Qed.

(** What [brelse] does to the ring, once [i] is out of it, and what the loop of
    [binit] does. *)
Lemma push_front_ring i c : ringonly c (push_front i c).
Proof.
  unfold push_front. eapply ringonly_trans; [apply ringonly_put_next|]. eapply ringonly_trans; [apply ringonly_put_prev|].
  eapply ringonly_trans; [apply ringonly_put_prev|apply ringonly_put_next].
Qed.

Lemma ring_pos c ord i : ring c ord -> (forall j, j ∈ ord -> (j < length (bc_buf c))%nat) -> i = NBUF \/ i ∈ ord ->
  ringpos c i /\ ringpos c (next_of c i) /\ ringpos c (prev_of c i).
Proof.
  intros R Hin Hi.
  assert (P : forall j, j = NBUF \/ j ∈ ord -> ringpos c j) by (intros j [->|Hj]; [by left|right; by apply Hin]).
  split; [by apply P|]. destruct Hi as [->|Hi].
  - split; apply P.
    + destruct (seg_first _ _ _ _ _ R) as [[-> ?]|(l & -> & _)]; [by left|right; left].
    + destruct (seg_last _ _ _ _ _ R) as [[-> ?]|(l & -> & _)]; [by left|right]. apply elem_of_app. right. left.
  - apply list_elem_of_split in Hi as (l1 & l2 & ->). apply seg_app in R as [R1 R2]. split; apply P.
    + destruct (seg_first _ _ _ _ _ R2) as [[-> ?]|(l & -> & _)]; [by left|right]. set_solver.
    + destruct (seg_last _ _ _ _ _ R1) as [[-> ?]|(l & -> & _)]; [by left|right]. set_solver.
Qed.

Lemma push_front_spec i c ord : ring c ord -> NoDup ord -> (forall j, j ∈ ord -> (j < length (bc_buf c))%nat) ->
  (length (bc_buf c) <= NBUF)%nat -> (i < length (bc_buf c))%nat -> i ∉ ord -> ring (push_front i c) (i :: ord).
Proof.
  intros R Hnd Hin Hlen Hi Hni. unfold ring, push_front.
  set (c1 := put_next i (next_of c NBUF) c). set (c2 := put_prev i NBUF c1). set (c3 := put_prev (next_of c2 NBUF) i c2).
  assert (R1 : ringonly c c1) by apply ringonly_put_next.
  assert (R2 : ringonly c c2) by (eapply ringonly_trans; [exact R1|apply ringonly_put_prev]).
  assert (R3 : ringonly c c3) by (eapply ringonly_trans; [exact R2|apply ringonly_put_prev]).
  destruct (ring_pos c ord NBUF R Hin ltac:(by left)) as (_ & Pn & _). assert (Pi : ringpos c i) by (by right).
  assert (N1 : forall j, next_of c1 j = fupd (next_of c) i (next_of c NBUF) j) by (by apply next_put_next).
  assert (N2 : forall j, next_of c2 j = next_of c1 j) by (apply next_put_prev).
  assert (Eh : next_of c2 NBUF = next_of c NBUF) by (rewrite N2, N1; apply fupd_ne; lia).
  apply (seg_ext (fupd (fupd (next_of c) i (next_of c NBUF)) NBUF i) (fupd (fupd (prev_of c) i NBUF) (fupd (next_of c) i (next_of c NBUF) NBUF) i)).
  - apply seg_push; [done|lia|done| |done]. intros Hj%Hin. lia.
  - intros j _. rewrite next_put_next by (by left). apply fupd_cong. unfold c3. by rewrite next_put_prev, N2, N1.
  - intros j _. rewrite prev_put_next. unfold c3. rewrite prev_put_prev by (rewrite Eh; by apply (ringpos_of c)).
    rewrite Eh. rewrite (fupd_ne (next_of c)) by lia. apply fupd_cong.
    unfold c2. rewrite prev_put_prev by (by apply (ringpos_of c)). apply fupd_cong, prev_put_next.
Qed.

(** ** The operations keep the cache well formed *)

(** The change leaves identity and links alone. *)
Definition keeps_place (f : buf -> buf) (b : buf) : Prop :=
  bkey (f b) = bkey b /\ b_hnext (f b) = b_hnext b /\ b_next (f b) = b_next b /\ b_prev (f b) = b_prev b.

Lemma upd_ok c C ord i f : cache_ok c C ord -> (forall b, bc_buf c !! i = Some b -> keeps_place f b /\ buf_ok (f b)) ->
  cache_ok (upd_buf i f c) C ord.
Proof.
  intros K Hf. split.
  - cbn. rewrite length_alter. apply K.
  - apply (chains_alter (bc_buf c)); [apply K|]. intros b Hb. by destruct (Hf b Hb) as [(? & ? & _) _].
  - intros j b. rewrite upd_buf_lookup. case_decide; [subst|apply K]. intros (a & Ha & ->)%fmap_Some. by apply Hf.
  - apply (seg_ext (next_of c) (prev_of c)); [apply K|..]; intros j _.
    + apply next_upd. intros b Hb. by apply Hf.
    + apply prev_upd. intros b Hb. by apply Hf.
  - apply K.
Qed.

Lemma ord_facts c C ord : cache_ok c C ord -> NoDup ord /\ (forall j, j ∈ ord <-> (j < length (bc_buf c))%nat).
Proof.
  intros K. rewrite (bk_perm _ _ _ K), (bk_len _ _ _ K). split; [apply NoDup_seq|]. intros j. rewrite (bk_perm _ _ _ K), elem_of_seq. lia.
Qed.

Lemma unlink_ring c ord i : ring c ord -> NoDup ord -> (forall j, j ∈ ord -> (j < length (bc_buf c))%nat) ->
  (length (bc_buf c) <= NBUF)%nat -> i ∈ ord ->
  let c1 := put_prev (next_of c i) (prev_of c i) c in
  ring (put_next (prev_of c1 i) (next_of c1 i) c1) (filter (fun j => j <> i) ord).
Proof.
  intros R Hnd Hin Hlen Hi c1. destruct (ring_pos c ord i R Hin ltac:(by right)) as (_ & Pn & Pp).
  apply list_elem_of_split in Hi as (l1 & l2 & ->). apply NoDup_app in Hnd as Hnd'. destruct Hnd' as (Hn1 & H12 & [Hni Hn2]%NoDup_cons).
  assert (Hh : NBUF ∉ l1 ++ i :: l2) by (intros Hj%Hin; lia).
  assert (En : next_of c1 i = next_of c i) by (unfold c1; by rewrite next_put_prev).
  assert (Ep : prev_of c1 i = prev_of c i).
  { unfold c1. rewrite prev_put_prev by done. apply fupd_ne. apply seg_app in R as [_ R2].
    destruct (seg_first _ _ _ _ _ R2) as [[-> ->]|(l & -> & _)]; set_solver. }
  rewrite En, Ep. rewrite filter_app, filter_cons_False by (by intros ?). rewrite !without_id by set_solver.
  eapply seg_ext; [apply (seg_remove _ _ _ _ _ _ _ R)|..].
  - by apply NoDup_cons.
  - rewrite NoDup_app, NoDup_cons, NoDup_app. split; [done|]. split; [set_solver|]. split; [set_solver|]. split; [done|].
    split; [set_solver|apply NoDup_singleton].
  - intros j _. rewrite next_put_next by (by apply (ringpos_of c); [apply ringonly_put_prev|]). apply fupd_cong. unfold c1. apply next_put_prev.
  - intros j _. rewrite prev_put_next. unfold c1. by apply prev_put_prev.
Qed.

Lemma filter_ord_perm ord (i : nat) : NoDup ord -> i ∈ ord -> i :: filter (fun j => j <> i) ord ≡ₚ ord.
Proof.
  intros Hnd Hi. apply list_elem_of_split in Hi as (l1 & l2 & ->). apply NoDup_app in Hnd as (_ & H12 & [Hni _]%NoDup_cons).
  rewrite filter_app, filter_cons_False by (by intros ?). rewrite !without_id by set_solver. apply Permutation_middle.
Qed.

(** The last reference moves the buffer to the front of the ring. *)
Lemma unref_spec c C ord i b : cache_ok c C ord -> bc_buf c !! i = Some b -> 0 < b_refcnt b ->
  exists c', brelse_unref i c = Some (tt, c') /\
    cache_ok c' C (if b_refcnt b =? 1 then i :: filter (fun j => j <> i) ord else ord) /\
    ringonly (upd_buf i (set_refcnt (b_refcnt b - 1)) c) c'.
Proof.
  intros K Hb Hr. destruct (bk_buf _ _ _ K i b Hb) as [[_ Hu] Hd Hh].
  assert (Er : b_refcnt b -u 1 = b_refcnt b - 1) by (unfold u32; apply Z.mod_small; lia).
  set (c0 := upd_buf i (set_refcnt (b_refcnt b - 1)) c).
  assert (E0 : upd_buf i (fun x => set_refcnt (b_refcnt x -u 1) x) c = c0).
  { unfold c0, upd_buf. rewrite !(alter_insert_at _ _ _ _ Hb). by rewrite Er. }
  assert (K0 : cache_ok c0 C ord).
  { apply upd_ok; [done|]. intros x Hx. rewrite Hb in Hx. injection Hx as <-. split; [done|]. split; cbn; [unfold is_u32; lia|done|].
    intros _. apply Hh. by left. }
  assert (Hb0 : bc_buf c0 !! i = Some (set_refcnt (b_refcnt b - 1) b)) by (unfold c0; by rewrite upd_buf_lookup, decide_True, Hb).
  unfold brelse_unref. rewrite E0, Hb0. cbn [b_refcnt set_refcnt].
  destruct (Z.eqb_spec (b_refcnt b) 1) as [E1|E1].
  2:{ replace (b_refcnt b - 1 =? 0) with false by lia. exists c0. split; [done|]. split; [done|]. split; [done|done|]. intros j x Hx. exists x. split; [done|apply reringed_refl]. }
  replace (b_refcnt b - 1 =? 0) with true by lia. cbv zeta. eexists. split; [reflexivity|].
  destruct (ord_facts _ _ _ K0) as [Hnd Hin]. pose proof (bk_len _ _ _ K0) as Hlen.
  set (c1 := put_prev (next_of c0 i) (prev_of c0 i) c0). set (c2 := put_next (prev_of c1 i) (next_of c1 i) c1).
  change (cache_ok (push_front i c2) C (i :: filter (fun j => j <> i) ord) /\ ringonly c0 (push_front i c2)).
  assert (R2 : ringonly c0 c2) by (eapply ringonly_trans; [apply ringonly_put_prev|apply ringonly_put_next]).
  assert (R3 : ringonly c0 (push_front i c2)) by (eapply ringonly_trans; [exact R2|apply push_front_ring]).
  assert (Hil : (i < length (bc_buf c0))%nat) by (by apply lookup_lt_Some in Hb0).
  split; [|done]. split.
  - by rewrite (ro_len _ _ R3).
  - apply (ringonly_chains c0); [done|apply K0].
  - intros j x Hx. destruct (ringonly_inv _ _ _ _ R3 Hx) as (y & Hy & Ry). apply (reringed_ok y); [done|by apply (bk_buf _ _ _ K0 j)].
  - apply push_front_spec; rewrite ?(ro_len _ _ R2); [|by apply NoDup_filter| |lia|done|].
    + apply unlink_ring; [apply K0|done|intros j Hj; by apply Hin|lia|by apply Hin].
    + intros j [_ Hj]%list_elem_of_filter. by apply Hin.
    + intros [? _]%list_elem_of_filter. done.
  - rewrite filter_ord_perm; [apply K0|done|by apply Hin].
Qed.

(** ** Lookup *)

Definition free (b : buf) : bool := (b_refcnt b =? 0) && negb (dirty b).

Lemma bwalk_spec fuel c p js dev n : links (bc_buf c) p js -> (length (bc_buf c) <= NBUF)%nat -> (length js < fuel)%nat ->
  (exists i b, bget_walk fuel c p dev n = Some (Hit i) /\ i ∈ js /\ bc_buf c !! i = Some b /\ b_dev b = dev /\ b_blockno b = n) \/
  (bget_walk fuel c p dev n = Some Miss /\ forall i b, i ∈ js -> bc_buf c !! i = Some b -> ~ (b_dev b = dev /\ b_blockno b = n)).
Proof.
  intros Hc Hlen. revert fuel. induction Hc as [|i b js Hi Hc IH]; intros [|fuel] Hf; cbn in Hf; try lia; cbn [bget_walk].
  - right. split; [done|]. intros i b Hi. by apply elem_of_nil in Hi.
  - pose proof (lookup_lt_Some _ _ _ Hi). replace (negb (bcache_bufptr_valid i)) with false
      by (unfold bcache_bufptr_valid; symmetry; apply negb_false_iff, Nat.ltb_lt; lia). rewrite Hi.
    destruct ((b_dev b =? dev) && (b_blockno b =? n)) eqn:E.
    + apply andb_true_iff in E as [E1%Z.eqb_eq E2%Z.eqb_eq]. left. exists i, b. split; [done|]. split; [left|done].
    + destruct (IH fuel ltac:(lia)) as [(j & bj & Ej & Hj & Hb)|[Em Hm]].
      * left. exists j, bj. split; [done|]. split; [by right|done].
      * right. split; [done|]. intros j bj Hj Hbj. apply elem_of_cons in Hj as [->|Hj]; [|by apply (Hm j)].
        assert (bj = b) as -> by congruence. intros [<- <-]. by rewrite !Z.eqb_refl in E.
Qed.

(** The victim is the free buffer that was released first. *)
Lemma victim_spec fuel c l y : seg (next_of c) (prev_of c) NBUF l y -> (forall j, j ∈ l -> (j < length (bc_buf c))%nat) ->
  (length (bc_buf c) <= NBUF)%nat -> (length l < fuel)%nat ->
  match find_victim fuel c (prev_of c y) with
  | Some e => exists l1 l2 b, l = l1 ++ e :: l2 /\ bc_buf c !! e = Some b /\ free b = true /\
      forall j bj, j ∈ l2 -> bc_buf c !! j = Some bj -> free bj = false
  | None => forall j bj, j ∈ l -> bc_buf c !! j = Some bj -> free bj = false
  end.
Proof.
  revert y fuel. induction l as [|z l IH] using rev_ind; intros y fuel Hs Hin Hlen Hf; rewrite ?length_app in Hf; cbn in Hf.
  - destruct Hs as [_ ->]. destruct fuel; [lia|]. cbn [find_victim]. rewrite Nat.eqb_refl. intros j bj Hj. by apply elem_of_nil in Hj.
  - apply seg_app in Hs as [Hs [_ ->]]. destruct fuel as [|fuel]; [lia|]. cbn [find_victim].
    assert (Hz : (z < length (bc_buf c))%nat) by (apply Hin; set_solver).
    rewrite (proj2 (Nat.eqb_neq z NBUF)) by lia. destruct (lookup_lt_is_Some_2 _ _ Hz) as [b Hb]. rewrite Hb. fold (free b).
    destruct (free b) eqn:Ef; [exists l, [], b; split; [done|]; split; [done|]; split; [done|]; by intros ? ? ?%elem_of_nil|].
    assert (Ep : b_prev b = prev_of c z) by (unfold prev_of; by rewrite (proj2 (Nat.eqb_neq z NBUF)), Hb by lia). rewrite Ep.
    specialize (IH z fuel Hs ltac:(intros; apply Hin; set_solver) Hlen ltac:(lia)).
    destruct (find_victim fuel c (prev_of c z)) as [e|].
    + destruct IH as (l1 & l2 & be & -> & He & Hfe & Hrest). exists l1, (l2 ++ [z]), be. rewrite <- app_assoc. split; [done|].
      split; [done|]. split; [done|]. intros j bj [Hj| ->%list_elem_of_singleton]%elem_of_app Hbj; [by apply (Hrest j)|congruence].
    + intros j bj [Hj| ->%list_elem_of_singleton]%elem_of_app Hbj; [by apply (IH j)|congruence].
Qed.

(** [unhash] is the removal of [HashChain] where the links are in range. *)
Definition bplace (q : cell) : place := match q with CHash h => AtHead h | CLink i => AtEntry i end.
Definition with_tab (c : bcache) (t : table buf) : bcache := mkBc (t_el t) (bc_prev c) (bc_next c) (t_hd t).

Lemma unhash_eq fuel q h e c js : links (bc_buf c) (get_cell c q) js -> (length (bc_buf c) <= NBUF)%nat ->
  unhash fuel q h e c = with_tab c <$> unlink_at fuel (bplace q) e (btab c).
Proof.
  assert (E : forall p, get_cell c p = get_at (btab c) (bplace p)) by (by intros []).
  revert q js; induction fuel as [|fuel IH]; intros q js Hl Hlen; cbn [unhash unlink_at]; [done|]. rewrite <- E.
  destruct (get_cell c q) as [i|] eqn:Eg; [|by destruct c]. inversion Hl as [|i' b js' Hb Hl' E1]; subst.
  pose proof (lookup_lt_Some _ _ _ Hb).
  destruct (decide (i = e)) as [->|]; [rewrite E; cbn; by destruct q|].
  replace (negb (bcache_bufptr_valid i)) with false
    by (unfold bcache_bufptr_valid; symmetry; apply negb_false_iff, Nat.ltb_lt; lia).
  apply (IH (CLink i) js'); [|done]. cbn. by rewrite Hb.
Qed.

Lemma bdetach c C ord e b : cache_ok c C ord -> bc_buf c !! e = Some b ->
  exists t, (if inhash b then let oh := BHASH (b_dev b) (b_blockno b) in unhash (S NBUF) (CHash oh) oh e c else Some c) = Some (with_tab c t) /\
    linksonly (btab c) t /\
    forall h, (h < BCACHE_HASH_SIZE)%nat -> links (t_el t) (first_at t h) (filter (fun i => i <> e) (C h)).
Proof.
  intros K Hb. destruct (inhash b) eqn:Eh.
  - assert (Ek : key b = Some (b_dev b, b_blockno b)) by (cbn; unfold bkey; by rewrite Eh). cbv zeta.
    destruct (unlink_chains (btab c) C e b _ (bk_chains _ _ _ K) Hb Ek) as (t & Et & R & Hl).
    exists t. pose proof (bk_len _ _ _ K) as Hlen. destruct (ch_links _ _ (bk_chains _ _ _ K) _ (BHASH_bound (b_dev b) (b_blockno b))) as [Hc _].
    rewrite (unhash_eq _ (CHash _) _ _ c _ Hc) by lia. cbn [bplace]. cbn [t_el btab] in Et. rewrite Hlen in Et.
    cbn [bucket buf_chained fst snd] in Et. by rewrite Et.
  - exists (btab c). split; [by destruct c|]. split; [apply linksonly_refl|]. apply (keyless_chains (btab c) C e b (bk_chains _ _ _ K) Hb).
    cbn. unfold bkey. by rewrite Eh.
Qed.

(** The buffer [bget] hands out for a block that was not cached. *)
Definition fresh_buf (dev n : Z) (hn : option nat) (b : buf) : buf :=
  set_hnext hn (set_refcnt 1 (set_flags B_INHASH (set_ident dev n b))).

Record evicted (dev n : Z) (c c' : bcache) (ord : list nat) (e : nat) : Prop := {
  ev_last : exists l1 l2, ord = l1 ++ e :: l2 /\ forall j bj, j ∈ l2 -> bc_buf c !! j = Some bj -> free bj = false;
  ev_new : exists b hn, bc_buf c !! e = Some b /\ free b = true /\ bc_buf c' !! e = Some (fresh_buf dev n hn b);
  ev_other j b : j <> e -> bc_buf c !! j = Some b -> exists hn, bc_buf c' !! j = Some (set_hnext hn b)
}.

Lemma bassign c C ord e b t dev n : cache_ok c C ord -> bc_buf c !! e = Some b -> linksonly (btab c) t ->
  (forall h, (h < BCACHE_HASH_SIZE)%nat -> links (t_el t) (first_at t h) (filter (fun i => i <> e) (C h))) ->
  (forall j x, bc_buf c !! j = Some x -> bkey x <> Some (dev, n)) ->
  let h := BHASH dev n in
  let c1 := with_tab c t in
  let c2 := set_hash h (Some e) (upd_buf e (fun b => set_hnext (head c1 h) (set_refcnt 1 (set_flags B_INHASH (set_ident dev n b)))) c1) in
  (exists C2, cache_ok c2 C2 ord) /\ bc_buf c2 !! e = Some (fresh_buf dev n (head c1 h) b) /\
  forall j x, j <> e -> bc_buf c !! j = Some x -> exists hn, bc_buf c2 !! j = Some (set_hnext hn x).
Proof.
  intros K Hb R Hl Hno h c1 c2. destruct (lo_el _ _ R e b Hb) as [m Hm]. set (b2 := fresh_buf dev n (head c1 h) b).
  assert (E2 : bc_buf c2 = <[e := b2]> (t_el t)) by (cbn; by rewrite (alter_insert_at _ _ _ _ Hm)).
  assert (Helt : (e < length (t_el t))%nat) by (by apply lookup_lt_Some in Hm).
  assert (He2 : bc_buf c2 !! e = Some b2) by (by rewrite E2, list_lookup_insert_eq).
  assert (Hother : forall j x, j <> e -> bc_buf c !! j = Some x -> exists hn, bc_buf c2 !! j = Some (set_hnext hn x)).
  { intros j x Hj Hx. rewrite E2, list_lookup_insert_ne by done. destruct (lo_el _ _ R j x Hx) as [k Hk]. exists k. exact Hk. }
  assert (Hring : forall j, b_next <$> (bc_buf c2 !! j) = b_next <$> (bc_buf c !! j) /\ b_prev <$> (bc_buf c2 !! j) = b_prev <$> (bc_buf c !! j)).
  { intros j. destruct (decide (j = e)) as [->|Hj]; [by rewrite He2, Hb|]. rewrite E2, list_lookup_insert_ne by done.
    destruct (t_el t !! j) as [x|] eqn:Ex.
    - destruct (linksonly_inv _ _ _ _ R Ex) as (y & k & Hy & ->). cbn in Hy. by rewrite Hy.
    - apply lookup_ge_None in Ex. rewrite (lo_len _ _ R) in Ex. cbn in Ex. by rewrite (proj2 (lookup_ge_None _ _) Ex). }
  split; [|by split].
  edestruct (assign_chains (btab c) C e b t (dev, n) b2) as [Z1 Z2 Z3 Z4 Z5]; [apply K|done|done|exact Hl|intros j x Hx _; by apply (Hno j)|done|done|].
  eexists. split.
  - rewrite E2, length_insert. etransitivity; [apply R|apply K].
  - unfold btab. rewrite E2. split; [exact Z1|exact Z2|exact Z3|exact Z4|exact Z5].
  - intros j x Hx. destruct (decide (j = e)) as [->|Hj].
    + rewrite He2 in Hx. injection Hx as <-. destruct (bk_buf _ _ _ K e b Hb). by split.
    + rewrite E2, list_lookup_insert_ne in Hx by done. destruct (linksonly_inv _ _ _ _ R Hx) as (y & k & Hy & ->).
      destruct (bk_buf _ _ _ K j y Hy) as [H1 H2 H3]. by split.
  - apply (seg_ext (next_of c) (prev_of c)); [apply K|..]; intros j _; unfold next_of, prev_of; destruct (j =? NBUF)%nat; try done.
    + destruct (Hring j) as [E _]. destruct (bc_buf c2 !! j), (bc_buf c !! j); cbn in E; congruence.
    + destruct (Hring j) as [_ E]. destruct (bc_buf c2 !! j), (bc_buf c !! j); cbn in E; congruence.
  - apply K.
Qed.

Definition absent (c : bcache) (dev n : Z) : Prop := forall j b, bc_buf c !! j = Some b -> bkey b <> Some (dev, n).

Inductive bget_out (dev n : Z) (c : bcache) (ord : list nat) : option (nat * bcache) -> Prop :=
| out_hit i b : bc_buf c !! i = Some b -> bkey b = Some (dev, n) ->
    bget_out dev n c ord (Some (i, upd_buf i (set_refcnt (b_refcnt b +u 1)) c))
| out_evict e c' C' : absent c dev n -> cache_ok c' C' ord -> evicted dev n c c' ord e -> bget_out dev n c ord (Some (e, c'))
| out_panic : absent c dev n -> (forall j b, bc_buf c !! j = Some b -> free b = false) -> bget_out dev n c ord None.

Lemma bget_spec c C ord dev n : cache_ok c C ord -> bget_out dev n c ord (bget dev n c).
Proof.
  intros K. pose proof (BHASH_bound dev n) as Hh. pose proof (bk_len _ _ _ K) as Hlen. unfold bget.
  destruct (ch_links _ _ (bk_chains _ _ _ K) _ Hh) as [Hc _].
  pose proof (chains_short _ C _ (bk_chains _ _ _ K) Hh) as Hsh. cbn [t_el btab] in Hsh.
  destruct (bwalk_spec (S NBUF) c (head c (BHASH dev n)) _ dev n Hc ltac:(lia) ltac:(lia)) as [(i & b & -> & Hi & Hb & <- & <-)|[-> Hmiss]].
  - destruct (ch_in _ _ (bk_chains _ _ _ K) _ i Hh Hi) as (a & k & Ha & Hk & _).
    assert (a = b) as -> by (cbn in Ha; congruence). cbn in Hk. unfold bkey in Hk. destruct (inhash b) eqn:Ei; [|done].
    replace (upd_buf i (fun b0 => set_refcnt (b_refcnt b0 +u 1) b0) c) with (upd_buf i (set_refcnt (b_refcnt b +u 1)) c)
      by (unfold upd_buf; by rewrite !(alter_insert_at _ _ _ _ Hb)).
    apply out_hit; [done|]. unfold bkey. by rewrite Ei.
  - assert (Hno : absent c dev n).
    { intros j x Hx Ek. pose proof (ch_linked _ _ (bk_chains _ _ _ K) j x (dev, n) Hx Ek) as Hin. unfold bkey in Ek.
      destruct (inhash x); [|done]. injection Ek as E1 E2. by apply (Hmiss j x Hin Hx). }
    destruct (ord_facts _ _ _ K) as [Hnd Hin].
    assert (Hlord : length ord = NBUF) by (rewrite (bk_perm _ _ _ K); apply length_seq).
    pose proof (victim_spec (S NBUF) c ord NBUF (bk_ring _ _ _ K) ltac:(intros j Hj; by apply Hin) ltac:(lia) ltac:(lia)) as Hv.
    change (prev_of c NBUF) with (bc_prev c) in Hv. destruct (find_victim (S NBUF) c (bc_prev c)) as [e|].
    + destruct Hv as (l1 & l2 & b & -> & Hb & Hfb & Hrest). rewrite Hb.
      destruct (bdetach c C _ e b K Hb) as (t & Et & R & Hl). cbv zeta in Et |- *. rewrite Et.
      destruct (bassign c C _ e b t dev n K Hb R Hl Hno) as ([C2 K2] & He2 & Ho).
      eapply out_evict; [done|exact K2|]. split; [by exists l1, l2|eauto|exact Ho].
    + apply out_panic; [done|]. intros j x Hx. apply (Hv j x); [|done]. apply Hin. by apply lookup_lt_Some in Hx.
Qed.

(** ** The empty cache *)

Definition unused (b : buf) : Prop := buf_ok b /\ inhash b = false.

Lemma binit_loop_spec n i c ord : ring c ord -> ord ≡ₚ seq 0 i -> length (bc_buf c) = NBUF -> (i + n <= NBUF)%nat ->
  (forall j b, bc_buf c !! j = Some b -> unused b) ->
  let c' := binit_loop n i c in
  ring c' (rev (seq i n) ++ ord) /\ length (bc_buf c') = NBUF /\ bc_hash c' = bc_hash c /\ (forall j b, bc_buf c' !! j = Some b -> unused b).
Proof.
  revert i c ord. induction n as [|n IH]; intros i c ord R Hp Hlen Hle Hu; cbn [binit_loop seq]; [done|].
  set (c1 := upd_buf i (fun b => set_lock None (set_hnext None b)) c). set (c2 := push_front i c1).
  assert (R2 : ringonly c1 c2) by apply push_front_ring.
  assert (L1 : length (bc_buf c1) = NBUF) by (cbn; by rewrite length_alter).
  assert (U1 : forall j b, bc_buf c1 !! j = Some b -> unused b).
  { intros j b. unfold c1. rewrite upd_buf_lookup. case_decide; [subst|apply Hu]. intros (a & Ha & ->)%fmap_Some.
    destruct (Hu i a Ha) as [[? ? ?] ?]. by split. }
  assert (Hin : forall j, j ∈ ord -> (j < i)%nat) by (intros j Hj; rewrite Hp, elem_of_seq in Hj; lia).
  destruct (IH (S i) c2 (i :: ord)) as (R' & L' & H' & U').
  - apply push_front_spec; rewrite ?L1; [|rewrite Hp; apply NoDup_seq| |done|lia|intros Hj%Hin; lia].
    + apply (seg_ext (next_of c) (prev_of c)); [done|..]; intros j _; [by apply next_upd|by apply prev_upd].
    + intros j Hj%Hin. lia.
  - rewrite Hp. rewrite <- Nat.add_1_r, seq_app. cbn. apply Permutation_cons_append.
  - by rewrite (ro_len _ _ R2).
  - lia.
  - intros j b Hb. destruct (ringonly_inv _ _ _ _ R2 Hb) as (a & Ha & Hr). destruct (U1 j a Ha) as [Ho Hi].
    split; [by apply (reringed_ok a)|]. by destruct Hr as (p & m & ->).
  - cbn [rev]. rewrite <- app_assoc. split; [exact R'|]. split; [exact L'|]. split; [|exact U']. by rewrite H', (ro_hash _ _ R2).
Qed.

Lemma binit_spec c : length (bc_buf c) = NBUF -> (forall j b, bc_buf c !! j = Some b -> unused b) ->
  cache_ok (binit c) (fun _ => []) (rev (seq 0 NBUF)).
Proof.
  intros Hlen Hu. unfold binit. set (c1 := mkBc _ _ _ _).
  destruct (binit_loop_spec NBUF 0 c1 []) as (R & L & H & U); [done|done|done|lia|done|]. rewrite app_nil_r in R. split; [exact L| | |exact R|].
  - unfold btab. rewrite H. cbn [bc_hash c1]. split; cbn [t_hd t_el].
    + by rewrite length_replicate.
    + intros h Hh. split; [|apply NoDup_nil_2]. unfold first_at. cbn [t_hd]. rewrite lookup_replicate_2 by done. constructor.
    + intros h i _ Hi. by apply elem_of_nil in Hi.
    + intros i b k Hb Hk. destruct (U i b Hb) as [_ Hi]. cbn in Hk. unfold bkey in Hk. by rewrite Hi in Hk.
    + intros i j a b k Ha _ Hk. destruct (U i a Ha) as [_ Hi]. cbn in Hk. unfold bkey in Hk. by rewrite Hi in Hk.
  - intros i b Hb. by apply (U i b).
  - symmetry. apply Permutation_rev.
Qed.

(** [binit] leaves the other fields of a buffer as they were. *)
Lemma binit_loop_fields n i c : forall j b, bc_buf (binit_loop n i c) !! j = Some b -> exists b0, bc_buf c !! j = Some b0 /\
  b_refcnt b = b_refcnt b0 /\ b_flags b = b_flags b0 /\ (b_lock b0 = None -> b_lock b = None).
Proof.
  revert i c; induction n as [|n IH]; intros i c j b; cbn [binit_loop]; [eauto|]. intros H.
  destruct (IH _ _ j b H) as (b1 & Hb1 & E1 & E2 & E3). destruct (ringonly_inv _ _ _ _ (push_front_ring _ _) Hb1) as (b2 & Hb2 & p & m & ->).
  rewrite upd_buf_lookup in Hb2. case_decide; [|eauto]. subst. apply fmap_Some in Hb2 as (b3 & Hb3 & ->). eauto 6.
Qed.

Lemma binit_fields i b : bc_buf (binit zeroed) !! i = Some b -> b_refcnt b = 0 /\ b_lock b = None /\ dirty b = false /\ valid b = false.
Proof.
  intros H. destruct (binit_loop_fields _ _ _ i b H) as (b0 & Hb0 & E1 & E2 & E3). apply lookup_replicate in Hb0 as [-> _].
  unfold dirty, valid. rewrite E1, E2. auto.
Qed.

Lemma zeroed_unused j b : bc_buf zeroed !! j = Some b -> unused b.
Proof. intros [-> _]%lookup_replicate. split; [|done]. split; [done|done|]. cbn. intros [?|[?|?]]; [lia|done|done]. Qed.

(** [bget] returns the buffer of a cached block with one more reference;
    for a block that is not cached it recycles the buffer that was released
    longest ago among those that nobody uses and that are clean, gives it the
    block's identity with no flag but [B_INHASH], and changes no other buffer but
    for hash links; it panics only when every buffer is in use or dirty. *)
Theorem bget_recycles_lru c C ord dev n : cache_ok c C ord -> bget_out dev n c ord (bget dev n c).
Proof. apply bget_spec. Qed.

Lemma bget_recycles_lru_witness : bget_out 1 5 (binit zeroed) (rev (seq 0 NBUF)) (bget 1 5 (binit zeroed)).
Proof. apply (bget_recycles_lru _ (fun _ => [])). apply binit_spec; [reflexivity|apply zeroed_unused]. Defined.
