(* ===== verification/BioRun.v ===== *)
(** * Processes sharing the buffer cache

    [BlockDev] and [Bio] give the critical sections; here processes interleave
    them.  A [handle] is a buffer that a process got from [bget] and has not yet
    released; its phase says which critical section comes next.  A transfer is
    one step: the driver works on the one buffer whose lock the process holds.

    Devices are whole disks, whose drivers keep the contract [rw_outcome] of the
    comment in [src/kernel/driver/ide.c] above [iderw].  Under it, [run_refines]
    says that the cache and the disks together are one memory of blocks,
    [content], which only a process that holds the block changes.  With a
    partition the contract cannot be met, see [Race] at the end. *)

From S2P Require Import Prelude HashChain BlockDev Bio.

(** ** The contract of a driver *)

Section Contract.
Context {D : Type} (disk : D -> Z -> Z -> list Z).

(** The blocks other than that of [b]. *)
Definition elsewhere (b : buf) (d d' : D) : Prop :=
  forall dev n, (dev, n) <> (b_dev b, b_blockno b) -> disk d' dev n = disk d dev n.

(** A dirty buffer is written, any other is read; -1 leaves the flags alone. *)
Record rw_outcome (b : buf) (d : D) (r : Z) (b' : buf) (d' : D) : Prop := {
  rw_frame : b' = set_data (b_data b') (set_flags (b_flags b') b) /\ length (b_data b') = 512%nat;
  rw_flags : b_flags b' = if r <? 0 then b_flags b else Z.lor (Z.ldiff (b_flags b) B_DIRTY) B_VALID;
  rw_elsewhere : elsewhere b d d';
  rw_disk_len : length (disk d' (b_dev b) (b_blockno b)) = 512%nat;
  rw_write : dirty b = true -> b_data b' = b_data b /\ (0 <= r -> disk d' (b_dev b) (b_blockno b) = b_data b);
  rw_read : dirty b = false -> disk d' (b_dev b) (b_blockno b) = disk d (b_dev b) (b_blockno b) /\
    (0 <= r -> b_data b' = disk d (b_dev b) (b_blockno b))
}.

Definition blocks_ok (d : D) : Prop := forall dev n, length (disk d dev n) = 512%nat.

Definition drives (dev : Z) (rw : Z -> buf -> PM D (Z * buf)) : Prop :=
  forall pid b d r b' d', b_dev b = dev -> dirty b = true \/ valid b = false -> length (b_data b) = 512%nat -> blocks_ok d ->
    rw pid b d = Some ((r, b'), d') -> rw_outcome b d r b' d'.
End Contract.

(** What the cache asks of the devices below it. *)
Class Storage (D : Type) (t : bdevtable D) := {
  disk : D -> Z -> Z -> list Z;
  whole_disks dev o rw : d_ops (t dev) = Some o -> o_rw o = Some rw -> d_is_part (t dev) = false /\ drives disk dev rw
}.

(** ** Processes *)

Inductive phase := Waiting | Locked | Ready | Releasing.
#[export] Instance phase_eq : EqDecision phase.
Proof. solve_decision. Defined.

Record handle := mkHandle { h_pid : Z; h_buf : nat; h_dev : Z; h_block : Z; h_phase : phase }.
#[export] Instance handle_eq : EqDecision handle.
Proof. solve_decision. Defined.

Definition goto (p : phase) (h : handle) : handle := mkHandle (h_pid h) (h_buf h) (h_dev h) (h_block h) p.
Definition holding (h : handle) : bool := match h_phase h with Locked | Ready => true | _ => false end.

Section Run.
Context {D : Type} (t : bdevtable D) `{St : !Storage D t}.

Record run := mkRun { r_bio : bio D; r_hs : list handle }.

(** [Store] is a change of the data and the [log_write] after it, [Write] a
    change and the [bwrite] after it. *)
Inductive act :=
| Get (pid dev n : Z)
| Lock (k : nat)
| Fill (k : nat)
| Store (k : nat) (data : list Z)
| Write (k : nat) (data : list Z)
| Unlock (k : nat)
| Unref (k : nat).

(** [b->flags |= B_DIRTY] of [log_write], after the change of the data. *)
Definition modify (i : nat) (data : list Z) : PM (bio D) unit :=
  on_bc (fun c => Some (tt, upd_buf i (set_data data) c)).
Definition mark_dirty (i : nat) : PM (bio D) unit :=
  on_bc (fun c => Some (tt, upd_buf i (fun b => set_flags (Z.lor (b_flags b) B_DIRTY) b) c)).

Open Scope pm_scope.

(** What a handle does in phase [p] before it goes to phase [q]. *)
Definition act_of (a : act) : option (nat * phase * phase * (handle -> PM (bio D) unit)) :=
  match a with
  | Get _ _ _ | Unref _ => None
  | Lock k => Some (k, Waiting, Locked, fun h => on_bc (acquiresleep (h_pid h) (h_buf h)))
  | Fill k => Some (k, Locked, Ready, fun h => bread_fill t (h_pid h) (h_buf h))
  | Store k data => Some (k, Ready, Ready, fun h => modify (h_buf h) data >>> mark_dirty (h_buf h))
  | Write k data => Some (k, Ready, Ready, fun h => modify (h_buf h) data >>> bwrite t (h_pid h) (h_buf h))
  | Unlock k => Some (k, Ready, Releasing, fun h => on_bc (releasesleep (h_buf h)))
  end.

Definition data_ok (a : act) : bool :=
  match a with Store _ data | Write _ data => (length data =? 512)%nat | _ => true end.

(** [None]: the act is not enabled, or panics. *)
Definition step (a : act) (s : run) : option run :=
  match a with
  | Get pid dev n =>
      if len (r_hs s) <? 4294967295 then
        match on_bc (bget dev n) (r_bio s) with
        | Some (i, x) => Some (mkRun x (r_hs s ++ [mkHandle pid i dev n Waiting]))
        | None => None
        end
      else None
  | Unref k =>
      match r_hs s !! k with
      | Some h =>
          if bool_decide (h_phase h = Releasing) then
            match on_bc (brelse_unref (h_buf h)) (r_bio s) with
            | Some (_, x) => Some (mkRun x (delete k (r_hs s)))
            | None => None
            end
          else None
      | None => None
      end
  | _ =>
      match act_of a with
      | Some (k, p, q, m) =>
          match r_hs s !! k with
          | Some h =>
              if bool_decide (h_phase h = p) && data_ok a then
                match m h (r_bio s) with
                | Some (_, x) => Some (mkRun x (<[k := goto q h]> (r_hs s)))
                | None => None
                end
              else None
          | None => None
          end
      | None => None
      end
  end.

Fixpoint steps (al : list act) (s : run) : option run :=
  match al with
  | [] => Some s
  | a :: al => match step a s with Some s' => steps al s' | None => None end
  end.

(** ** The memory of blocks *)

(** The data of the dirty buffer of a block, or else the block on the disk. *)
Definition content (x : bio D) (dev n : Z) : list Z :=
  match list_find (fun b => bkey b = Some (dev, n) /\ dirty b = true) (bc_buf (bc x)) with
  | Some (_, b) => b_data b
  | None => disk (dev_st x) dev n
  end.

(** The block a handle is for. *)
Definition block_of (k : nat) (s : run) : option (Z * Z) :=
  match r_hs s !! k with Some h => Some (h_dev h, h_block h) | None => None end.

(** What an act does to the memory of blocks. *)
Definition spec_step (a : act) (s : run) (M : Z -> Z -> list Z) : Z -> Z -> list Z :=
  match a with
  | Store k data | Write k data => fun dev n => if decide (block_of k s = Some (dev, n)) then data else M dev n
  | _ => M
  end.

(** ** The invariant *)

Definition count (i : nat) (hs : list handle) : Z := len (filter (fun h => h_buf h = i) hs).

Record inv (s : run) : Prop := {
  iv_cache : exists C ord, cache_ok (bc (r_bio s)) C ord;
  iv_few : len (r_hs s) < 4294967296;
  iv_ref i b : bc_buf (bc (r_bio s)) !! i = Some b -> b_refcnt b = count i (r_hs s);
  iv_handle k h : r_hs s !! k = Some h -> exists b, bc_buf (bc (r_bio s)) !! h_buf h = Some b /\
    bkey b = Some (h_dev h, h_block h) /\ (h_phase h = Ready -> valid b = true) /\ (holding h = true -> b_lock b = Some (h_pid h));
  iv_lock i b pid : bc_buf (bc (r_bio s)) !! i = Some b -> b_lock b = Some pid ->
    exists k h, r_hs s !! k = Some h /\ h_buf h = i /\ holding h = true;
  iv_excl k k' h h' : r_hs s !! k = Some h -> r_hs s !! k' = Some h' -> h_buf h = h_buf h' ->
    holding h = true -> holding h' = true -> k = k';
  iv_dirty i b : bc_buf (bc (r_bio s)) !! i = Some b -> dirty b = true -> valid b = true;
  iv_clean i b : bc_buf (bc (r_bio s)) !! i = Some b -> valid b = true -> dirty b = false -> errored b = false ->
    b_data b = disk (dev_st (r_bio s)) (b_dev b) (b_blockno b);
  iv_disk : blocks_ok disk (dev_st (r_bio s))
}.

(** *** Counting handles *)

Lemma count_app i hs hs' : count i (hs ++ hs') = count i hs + count i hs'.
Proof. unfold count. by rewrite filter_app, len_app. Qed.
Lemma count_cons i h hs : count i (h :: hs) = (if decide (h_buf h = i) then 1 else 0) + count i hs.
Proof.
  unfold count, len. case_decide as E; [rewrite filter_cons_True by done|rewrite filter_cons_False by done]; cbn [length]; lia.
Qed.
Lemma count_nonneg i hs : 0 <= count i hs.
Proof. apply len_nonneg. Qed.
Lemma count_le i hs : count i hs <= len hs.
Proof. induction hs as [|h hs IH]; [done|]. rewrite count_cons. unfold len in *. cbn [length]. case_decide; lia. Qed.

(** A list split at a position. *)
Lemma split_at {A} (l : list A) k x : l !! k = Some x -> exists l1 l2, l = l1 ++ x :: l2 /\ length l1 = k.
Proof. intros E. exists (take k l), (drop (S k) l). split; [by rewrite take_drop_middle|]. apply length_take_le. apply lookup_lt_Some in E. lia. Qed.

Lemma count_insert i hs k h h' : hs !! k = Some h -> h_buf h' = h_buf h -> count i (<[k := h']> hs) = count i hs.
Proof.
  intros (l1 & l2 & -> & <-)%split_at E. replace (length l1) with (length l1 + 0)%nat by lia. rewrite insert_app_r. cbn.
  rewrite !count_app, !count_cons, E. lia.
Qed.
Lemma count_delete i hs k h : hs !! k = Some h -> count i (delete k hs) = count i hs - (if decide (h_buf h = i) then 1 else 0).
Proof.
  intros (l1 & l2 & -> & <-)%split_at. rewrite delete_middle, !count_app, count_cons. lia.
Qed.
Lemma count_pos i hs k h : hs !! k = Some h -> h_buf h = i -> 0 < count i hs.
Proof.
  intros (l1 & l2 & -> & <-)%split_at E. rewrite count_app, count_cons, decide_True by done.
  pose proof (count_nonneg i l1). pose proof (count_nonneg i l2). lia.
Qed.

(** *** Flags *)

Lemma valid_bit b : valid b = Z.testbit (b_flags b) 1. Proof. apply (flag_bit _ 1). lia. Qed.
Lemma dirty_bit b : dirty b = Z.testbit (b_flags b) 2. Proof. apply (flag_bit _ 2). lia. Qed.
Lemma errored_bit b : errored b = Z.testbit (b_flags b) 3. Proof. apply (flag_bit _ 3). lia. Qed.
Lemma inhash_bit b : inhash b = Z.testbit (b_flags b) 4. Proof. apply (flag_bit _ 4). lia. Qed.

(** *** A handle moves to its next phase *)

Definition at_ (x : bio D) (i : nat) : option buf := bc_buf (bc x) !! i.

(** The new buffer of a step: flags, data and lock may change. *)
Definition revised (b b' : buf) : Prop := exists fl dt l, b' = set_lock l (set_data dt (set_flags fl b)).

Lemma revised_key b b' : revised b b' -> inhash b = true -> inhash b' = true -> bkey b' = bkey b.
Proof. intros (fl & dt & l & ->) H1 H2. unfold bkey. by rewrite H1, H2. Qed.

Record moves (s : run) (k : nat) (h : handle) (q : phase) (b b' : buf) (d' : D) : Prop := {
  mv_h : r_hs s !! k = Some h;
  mv_b : at_ (r_bio s) (h_buf h) = Some b;
  mv_rev : revised b b';
  mv_len : length (b_data b') = 512%nat;
  mv_hash : inhash b' = true;
  mv_had : holding h = true \/ b_lock b = None;
  mv_lock : b_lock b' = if holding (goto q h) then Some (h_pid h) else None;
  mv_ready : q = Ready -> valid b' = true;
  mv_dirty : dirty b' = true -> valid b' = true;
  mv_clean : valid b' = true -> dirty b' = false -> errored b' = false -> b_data b' = disk d' (b_dev b) (b_blockno b);
  mv_else : elsewhere disk b (dev_st (r_bio s)) d';
  mv_dlen : length (disk d' (b_dev b) (b_blockno b)) = 512%nat
}.

Definition moved_to (s : run) (k : nat) (h : handle) (q : phase) (b' : buf) (d' : D) : run :=
  mkRun (mkBio (upd_buf (h_buf h) (fun _ => b') (bc (r_bio s))) d') (<[k := goto q h]> (r_hs s)).

Lemma handle_inhash s k h b : inv s -> r_hs s !! k = Some h -> at_ (r_bio s) (h_buf h) = Some b -> inhash b = true /\ b_dev b = h_dev h /\ b_blockno b = h_block h.
Proof.
  intros I Hk Hb. destruct (iv_handle _ I k h Hk) as (b' & Hb' & Ek & _). assert (b' = b) as -> by (unfold at_ in Hb; congruence).
  unfold bkey in Ek. destruct (inhash b); [|done]. by injection Ek as -> ->.
Qed.

Lemma inhash_uniq s i j b b' : inv s -> at_ (r_bio s) i = Some b -> at_ (r_bio s) j = Some b' -> inhash b = true -> inhash b' = true ->
  b_dev b = b_dev b' -> b_blockno b = b_blockno b' -> i = j.
Proof.
  intros I Hb Hb' E1 E2 E3 E4. destruct (iv_cache _ I) as (C & ord & K).
  apply (ch_uniq _ _ (bk_chains _ _ _ K) i j b b' (b_dev b, b_blockno b) Hb Hb'); cbn; unfold bkey; rewrite ?E1, ?E2; congruence.
Qed.

Lemma moved_at s k h q b b' d' j : moves s k h q b b' d' ->
  at_ (r_bio (moved_to s k h q b' d')) j = if decide (j = h_buf h) then Some b' else at_ (r_bio s) j.
Proof. intros M. unfold at_. cbn [moved_to r_bio bc]. rewrite upd_buf_lookup. case_decide; [|done]. pose proof (mv_b _ _ _ _ _ _ _ M) as E. unfold at_ in E. by rewrite E. Qed.
Lemma moved_handle s k h q b' d' k' : r_hs s !! k = Some h ->
  r_hs (moved_to s k h q b' d') !! k' = if decide (k' = k) then Some (goto q h) else r_hs s !! k'.
Proof.
  intros Hk. cbn. case_decide; [subst; rewrite list_lookup_insert_eq; [done|by apply lookup_lt_Some in Hk]|by rewrite list_lookup_insert_ne].
Qed.

(** No other handle of the buffer holds its lock. *)
Lemma no_other_holder s k h q b b' d' : inv s -> moves s k h q b b' d' ->
  forall k' h', k' <> k -> r_hs s !! k' = Some h' -> h_buf h' = h_buf h -> holding h' = false.
Proof.
  intros I M k' h' Hne Hk' E. destruct (holding h') eqn:Eh; [|done]. exfalso.
  destruct (mv_had _ _ _ _ _ _ _ M) as [Hh|Hn].
  - apply Hne. exact (iv_excl _ I k' k h' h Hk' (mv_h _ _ _ _ _ _ _ M) E Eh Hh).
  - destruct (iv_handle _ I k' h' Hk') as (c & Hc & _ & _ & Hl). pose proof (mv_b _ _ _ _ _ _ _ M) as Hb. unfold at_ in Hb.
    rewrite E in Hc. assert (c = b) as -> by congruence. by rewrite Hn in Hl; discriminate (Hl Eh).
Qed.

Lemma moved_cache s k h q b b' d' : inv s -> moves s k h q b b' d' -> exists C ord, cache_ok (bc (r_bio (moved_to s k h q b' d'))) C ord.
Proof.
  intros I M. destruct (iv_cache _ I) as (C & ord & K). exists C, ord. cbn [moved_to r_bio bc].
  pose proof (mv_b _ _ _ _ _ _ _ M) as Hb. unfold at_ in Hb. destruct (handle_inhash s k h b I (mv_h _ _ _ _ _ _ _ M) Hb) as (Hi & _ & _).
  apply upd_ok; [done|]. intros a Ha. assert (a = b) as -> by congruence. split.
  - pose proof (revised_key _ _ (mv_rev _ _ _ _ _ _ _ M) Hi (mv_hash _ _ _ _ _ _ _ M)) as Ek.
    destruct (mv_rev _ _ _ _ _ _ _ M) as (fl & dt & l & E). repeat split; [done|by rewrite E..].
  - split; [|apply M|intros _; apply M]. destruct (bk_buf _ _ _ K _ b Hb) as [Hr _ _]. by destruct (mv_rev _ _ _ _ _ _ _ M) as (fl & dt & l & ->).
Qed.

Lemma advance_inv s k h q b b' d' : inv s -> moves s k h q b b' d' -> inv (moved_to s k h q b' d').
Proof.
  intros I M. pose proof (mv_h _ _ _ _ _ _ _ M) as Hk. pose proof (mv_b _ _ _ _ _ _ _ M) as Hb.
  destruct (handle_inhash s k h b I Hk Hb) as (Hi & Ed & En). destruct (mv_rev _ _ _ _ _ _ _ M) as (fl & dt & l & Er).
  assert (Ek : bkey b' = Some (h_dev h, h_block h)).
  { rewrite (revised_key b b'); [unfold bkey; rewrite Hi; congruence|apply M|done|apply M]. }
  pose proof (no_other_holder _ _ _ _ _ _ _ I M) as Hno.
  assert (At : forall j c, at_ (r_bio (moved_to s k h q b' d')) j = Some c -> (j = h_buf h /\ c = b') \/ (j <> h_buf h /\ at_ (r_bio s) j = Some c)).
  { intros j c. rewrite (moved_at _ _ _ _ _ _ _ _ M). case_decide; [intros Ec; injection Ec as <-; by left|by right]. }
  split.
  - by apply (moved_cache s k h q b).
  - cbn. unfold len. rewrite length_insert. apply I.
  - intros j c [[-> ->]|[Hj Hc]]%At; cbn [moved_to r_hs]; rewrite (count_insert _ _ _ h) by done; [|by apply I].
    rewrite Er. exact (iv_ref _ I _ b Hb).
  - intros k' h'. rewrite moved_handle by done. case_decide as Ekk.
    + intros E. injection E as <-. exists b'. split; [change (at_ (r_bio (moved_to s k h q b' d')) (h_buf h) = Some b'); by rewrite (moved_at _ _ _ _ _ _ _ _ M), decide_True|].
      split; [done|]. split; [apply M|]. intros Hh. rewrite (mv_lock _ _ _ _ _ _ _ M). by rewrite Hh.
    + intros Hk'. destruct (iv_handle _ I k' h' Hk') as (c & Hc & Ec & Hv & Hl).
      destruct (decide (h_buf h' = h_buf h)) as [E|E].
      * rewrite E in Hc. assert (c = b) as -> by (unfold at_ in Hb; congruence). exists b'. rewrite E.
        split; [change (at_ (r_bio (moved_to s k h q b' d')) (h_buf h) = Some b'); by rewrite (moved_at _ _ _ _ _ _ _ _ M), decide_True|].
        pose proof (Hno k' h' Ekk Hk' E) as Hh. unfold bkey in Ec. rewrite Hi in Ec. injection Ec as E1 E2.
        split; [congruence|]. unfold holding in *. split; [intros Ep; by rewrite Ep in Hh|congruence].
      * exists c. split; [|done]. change (at_ (r_bio (moved_to s k h q b' d')) (h_buf h') = Some c). by rewrite (moved_at _ _ _ _ _ _ _ _ M), decide_False.
  - intros j c pid [[-> ->]|[Hj Hc]]%At Hl.
    + rewrite (mv_lock _ _ _ _ _ _ _ M) in Hl. destruct (holding (goto q h)) eqn:Eh; [|done]. exists k, (goto q h).
      rewrite moved_handle, decide_True by done. done.
    + destruct (iv_lock _ I j c pid Hc Hl) as (k' & h' & Hk' & E & Hh). exists k', h'. rewrite moved_handle, decide_False; [done|congruence|done].
  - intros k1 k2 h1 h2. rewrite !moved_handle by done. case_decide as E1; case_decide as E2; intros H1 H2 Eb Hh1 Hh2; try congruence.
    + injection H1 as <-. cbn in Eb. rewrite (Hno k2 h2) in Hh2; [done|congruence|done|done].
    + injection H2 as <-. cbn in Eb. rewrite (Hno k1 h1) in Hh1; [done|congruence|done|done].
    + by apply (iv_excl _ I k1 k2 h1 h2).
  - intros j c [[-> ->]|[Hj Hc]]%At; [apply M|by apply (iv_dirty _ I j)].
  - intros j c [[-> ->]|[Hj Hc]]%At Hv Hd He.
    + cbn [moved_to r_bio dev_st]. rewrite (mv_clean _ _ _ _ _ _ _ M) by done. by rewrite Er.
    + cbn [moved_to r_bio dev_st]. rewrite (mv_else _ _ _ _ _ _ _ M); [by apply (iv_clean _ I j)|]. intros E. injection E as E1 E2.
      apply Hj. destruct (iv_cache _ I) as (C & ord & K). destruct (bk_buf _ _ _ K j c Hc) as [_ _ Hh].
      apply (inhash_uniq s j (h_buf h) c b); [done|done|done|apply Hh; auto|done|done|done].
  - intros dev n. cbn. destruct (decide ((dev, n) = (b_dev b, b_blockno b))) as [E|E]; [injection E as -> ->; apply M|].
    rewrite (mv_else _ _ _ _ _ _ _ M) by done. apply I.
Qed.

(** *** The content of a block *)

Lemma content_at s i b dev n : inv s -> at_ (r_bio s) i = Some b -> bkey b = Some (dev, n) ->
  content (r_bio s) dev n = if dirty b then b_data b else disk (dev_st (r_bio s)) dev n.
Proof.
  intros I Hb Ek. unfold content.
  assert (U : forall j c, at_ (r_bio s) j = Some c -> bkey c = Some (dev, n) -> c = b).
  { intros j c Hc Ec. unfold bkey in Ek, Ec. destruct (inhash b) eqn:Hi, (inhash c) eqn:Hj; try done. injection Ek as E1 E2. injection Ec as E3 E4.
    assert (i = j) as -> by (apply (inhash_uniq s i j b c I); congruence). congruence. }
  destruct (list_find _ _) as [[j c]|] eqn:E.
  - apply list_find_Some in E as (Hc & [Ec Hd] & _). assert (c = b) as -> by (by apply (U j)). by rewrite Hd.
  - destruct (dirty b) eqn:Hd; [|done]. exfalso. apply list_find_None in E. rewrite Forall_lookup in E. by apply (E i b Hb).
Qed.

Lemma content_absent s dev n : absent (bc (r_bio s)) dev n -> content (r_bio s) dev n = disk (dev_st (r_bio s)) dev n.
Proof.
  intros A. unfold content. destruct (list_find _ _) as [[j c]|] eqn:E; [|done]. apply list_find_Some in E as (Hc & [Ec _] & _). by destruct (A j c Hc).
Qed.

Lemma present_or_absent (x : bio D) dev n : (exists i b, at_ x i = Some b /\ bkey b = Some (dev, n)) \/ absent (bc x) dev n.
Proof.
  destruct (list_find (fun b => bkey b = Some (dev, n)) (bc_buf (bc x))) as [[i b]|] eqn:E.
  - apply list_find_Some in E as (Hb & Ek & _). left. eauto.
  - right. intros j b Hb. apply list_find_None in E. rewrite Forall_lookup in E. by apply (E j b).
Qed.

Lemma moved_content s k h q b b' d' : inv s -> moves s k h q b b' d' -> forall dev n,
  content (r_bio (moved_to s k h q b' d')) dev n =
    if decide ((h_dev h, h_block h) = (dev, n)) then (if dirty b' then b_data b' else disk d' dev n) else content (r_bio s) dev n.
Proof.
  intros I M dev n. pose proof (advance_inv _ _ _ _ _ _ _ I M) as I'. pose proof (mv_h _ _ _ _ _ _ _ M) as Hk. pose proof (mv_b _ _ _ _ _ _ _ M) as Hb.
  destruct (handle_inhash s k h b I Hk Hb) as (Hi & Ed & En).
  assert (Ek : bkey b' = Some (h_dev h, h_block h)).
  { rewrite (revised_key b b'); [unfold bkey; rewrite Hi; congruence|apply M|done|apply M]. }
  assert (Ekb : bkey b = Some (h_dev h, h_block h)) by (unfold bkey; rewrite Hi; congruence).
  case_decide as E.
  { injection E as <- <-. apply (content_at (moved_to s k h q b' d') (h_buf h) b'); [done| |done]. by rewrite (moved_at _ _ _ _ _ _ _ _ M), decide_True. }
  assert (Ee : disk d' dev n = disk (dev_st (r_bio s)) dev n) by (apply (mv_else _ _ _ _ _ _ _ M); congruence).
  destruct (present_or_absent (r_bio s) dev n) as [(i & c & Hc & Ec)|A].
  - assert (i <> h_buf h) by (intros ->; congruence). rewrite (content_at s i c) by done.
    rewrite (content_at (moved_to s k h q b' d') i c); [by cbn [moved_to r_bio dev_st]; rewrite Ee|done| |done].
    by rewrite (moved_at _ _ _ _ _ _ _ _ M), decide_False.
  - rewrite (content_absent s) by done. rewrite (content_absent (moved_to s k h q b' d')); [done|]. intros j c Hc.
    change (at_ (r_bio (moved_to s k h q b' d')) j = Some c) in Hc. rewrite (moved_at _ _ _ _ _ _ _ _ M) in Hc. case_decide; [|by apply (A j)].
    injection Hc as <-. congruence.
Qed.

(** *** Transfers *)

Lemma bdevrw_spec pid b d r b' d' : dirty b = true \/ valid b = false -> length (b_data b) = 512%nat -> blocks_ok disk d ->
  bdevrw t pid b d = Some ((r, b'), d') -> rw_outcome disk b d r b' d'.
Proof.
  intros Hw Hl Hd. unfold bdevrw, bdev_route.
  assert (Herr : Some ((-1, b), d) = Some ((r, b'), d') -> rw_outcome disk b d r b' d').
  { intros E. injection E as <- <- <-. split; [split; [by destruct b|done]|done|done|apply Hd|split; [done|lia]|split; [done|lia]]. }
  destruct (b_dev b >=? NDEV); [exact Herr|]. destruct (d_ops (t (b_dev b))) as [o|] eqn:Eo; [|exact Herr].
  destruct (o_rw o) as [rw|] eqn:Er; [|exact Herr]. destruct (whole_disks (b_dev b) o rw Eo Er) as [-> Hdr]. cbn [negb].
  replace (set_ident (b_dev b) (b_blockno b) b) with b by (by destruct b).
  destruct (rw pid b d) as [[[r0 b0] d0]|] eqn:Erw; [|done]. intros E. injection E as <- <- <-.
  pose proof (Hdr pid b d r0 b0 d0 eq_refl Hw Hl Hd Erw) as O. destruct (rw_frame _ _ _ _ _ _ O) as [Ef _].
  replace (set_ident (b_dev b) (b_blockno b) b0) with b0 by (rewrite Ef; by destruct b). done.
Qed.

Lemma upd_twice i f g c : upd_buf i f (upd_buf i g c) = upd_buf i (fun b => f (g b)) c.
Proof.
  unfold upd_buf. cbn. f_equal. generalize (bc_buf c) as l. revert i.
  induction i as [|i IH]; intros [|b l]; [done|done|done|]. change (b :: alter f i (alter g i l) = b :: alter (fun b => f (g b)) i l). by rewrite IH.
Qed.
Lemma upd_const i f c b : bc_buf c !! i = Some b -> upd_buf i f c = upd_buf i (fun _ => f b) c.
Proof. intros Hb. unfold upd_buf. by rewrite !(alter_insert_at _ _ _ _ Hb). Qed.

Ltac bits := rewrite ?valid_bit, ?dirty_bit, ?errored_bit, ?inhash_bit in *; cbn [b_flags set_flags set_data set_lock] in *;
  rewrite ?Z.lor_spec, ?Z.ldiff_spec, ?Z.lor_spec in *; change (Z.testbit B_VALID 1) with true in *; change (Z.testbit B_VALID 2) with false in *;
  change (Z.testbit B_VALID 3) with false in *; change (Z.testbit B_VALID 4) with false in *; change (Z.testbit B_DIRTY 1) with false in *;
  change (Z.testbit B_DIRTY 2) with true in *; change (Z.testbit B_DIRTY 3) with false in *; change (Z.testbit B_DIRTY 4) with false in *;
  change (Z.testbit B_ERROR 1) with false in *; change (Z.testbit B_ERROR 2) with false in *; change (Z.testbit B_ERROR 3) with true in *;
  change (Z.testbit B_ERROR 4) with false in *; cbn [negb] in *; rewrite ?orb_true_r, ?orb_false_r, ?andb_true_r, ?andb_false_r in *.

(** The step of a handle that holds the lock: the lock stays. *)
Definition fills (s : run) (k : nat) (h : handle) (x : bio D) (v : list Z) : Prop :=
  exists b b' d', moves s k h Ready b b' d' /\ mkRun x (<[k := goto Ready h]> (r_hs s)) = moved_to s k h Ready b' d' /\
    v = if dirty b' then b_data b' else disk d' (h_dev h) (h_block h).

(** The buffer of a handle that holds the lock. *)
Lemma held_buf s k h : inv s -> r_hs s !! k = Some h -> holding h = true -> exists b, at_ (r_bio s) (h_buf h) = Some b /\
  b_lock b = Some (h_pid h) /\ length (b_data b) = 512%nat /\ inhash b = true /\ b_dev b = h_dev h /\ b_blockno b = h_block h /\
  (h_phase h = Ready -> valid b = true).
Proof.
  intros I Hk Hh. destruct (iv_handle _ I k h Hk) as (b & Hb & _ & Hv & Hl). exists b. split; [done|]. split; [auto|].
  destruct (iv_cache _ I) as (C & ord & K). destruct (bk_buf _ _ _ K _ b Hb) as [_ Hlen _]. split; [done|].
  destruct (handle_inhash s k h b I Hk Hb) as (? & ? & ?). done.
Qed.

Lemma fill_spec s k h u x : inv s -> r_hs s !! k = Some h -> holding h = true ->
  bread_fill t (h_pid h) (h_buf h) (r_bio s) = Some (u, x) -> fills s k h x (content (r_bio s) (h_dev h) (h_block h)) /\
  (forall j b, at_ (r_bio s) j = Some b -> dirty b = false -> exists b', at_ x j = Some b' /\ dirty b' = false).
Proof.
  intros I Hk Hh. destruct (held_buf s k h I Hk Hh) as (b & Hb & Hl & Hlen & Hi & Ed & En & _).
  assert (Ec : content (r_bio s) (h_dev h) (h_block h) = if dirty b then b_data b else disk (dev_st (r_bio s)) (h_dev h) (h_block h)).
  { apply (content_at s (h_buf h)); [done|done|]. unfold bkey. rewrite Hi. congruence. }
  unfold bread_fill. unfold at_ in Hb. rewrite Hb. destruct (valid b) eqn:Hv.
  { intros E. injection E as <- <-. split; [|eauto]. exists b, b, (dev_st (r_bio s)). split; [|split; [|done]].
    - split; try done; [by exists (b_flags b), (b_data b), (b_lock b); destruct b|by left| |apply I].
      intros _ Hd He. by apply (iv_clean _ I (h_buf h)).
    - unfold moved_to. f_equal. destruct (r_bio s) as [c d]. cbn in *. f_equal. destruct c as [l p n hs]. unfold upd_buf. cbn in *. f_equal.
      rewrite (alter_insert_at _ _ _ _ Hb). by rewrite list_insert_id. }
  assert (Hd : dirty b = false) by (destruct (dirty b) eqn:Hd; [by rewrite (iv_dirty _ I _ b Hb Hd) in Hv|done]).
  unfold pbind, rw_buf. rewrite Hb. destruct (bdevrw t (h_pid h) b (dev_st (r_bio s))) as [[[r b1] d']|] eqn:Erw; [|done].
  apply bdevrw_spec in Erw as O; [|by right|done|apply I]. destruct (rw_frame _ _ _ _ _ _ O) as [Ef Hl1]. pose proof (rw_flags _ _ _ _ _ _ O) as Efl.
  destruct (rw_read _ _ _ _ _ _ O Hd) as [Hdk Hrd].
  intros E. unfold on_bc in E. cbn in E. injection E as <- <-. rewrite Ec, Hd.
  set (b2 := if r <? 0 then set_data (replicate 512 0) (set_flags (Z.lor (b_flags b1) (Z.lor B_ERROR B_VALID)) b1) else set_flags (Z.ldiff (b_flags b1) B_ERROR) b1).
  assert (Hd2 : dirty b2 = false) by (unfold b2; destruct (Z.ltb_spec r 0); bits; rewrite ?Efl; bits; done).
  assert (Ex : forall c, (if r <? 0 then upd_buf (h_buf h) (fun x => set_data (replicate 512 0) (set_flags (Z.lor (b_flags x) (Z.lor B_ERROR B_VALID)) x)) (upd_buf (h_buf h) (fun _ => b1) c)
    else upd_buf (h_buf h) (fun x => set_flags (Z.ldiff (b_flags x) B_ERROR) x) (upd_buf (h_buf h) (fun _ => b1) c)) = upd_buf (h_buf h) (fun _ => b2) c)
    by (intros c; unfold b2; destruct (r <? 0); by rewrite upd_twice).
  split.
  2:{ intros j a Ha Hda. unfold at_ in *. cbn [bc]. rewrite Ex, upd_buf_lookup. case_decide; [|eauto]. rewrite Hb. cbn. eauto. }
  exists b, b2, d'. split; [|split].
  - assert (Er : b2 = set_lock (b_lock b) (set_data (b_data b2) (set_flags (b_flags b2) b))) by (unfold b2; destruct (r <? 0); rewrite Ef; by destruct b).
    split; try done.
    + by exists (b_flags b2), (b_data b2), (b_lock b).
    + unfold b2. destruct (r <? 0); [apply (length_replicate 512 0)|exact Hl1].
    + unfold b2. destruct (r <? 0); bits; rewrite ?Efl; bits; done.
    + by left.
    + by rewrite Er.
    + intros _. unfold b2. destruct (r <? 0); bits; rewrite ?Efl; bits; done.
    + intros _. unfold b2. destruct (r <? 0); bits; rewrite ?Efl; bits; done.
    + intros _ _. unfold b2. destruct (Z.ltb_spec r 0); [bits; intros; bits; done|]. intros _. cbn. rewrite Hrd by done. by rewrite Hdk.
    + apply O.
    + apply O.
  - unfold moved_to. by rewrite Ex.
  - by rewrite <- Ed, <- En, Hdk, Hd2.
Qed.

Lemma store_spec s k h data u x : inv s -> r_hs s !! k = Some h -> h_phase h = Ready -> length data = 512%nat ->
  (modify (h_buf h) data >>> mark_dirty (h_buf h)) (r_bio s) = Some (u, x) -> fills s k h x data.
Proof.
  intros I Hk Hp Hdl. destruct (held_buf s k h I Hk ltac:(unfold holding; by rewrite Hp)) as (b & Hb & Hl & Hlen & Hi & Ed & En & Hv).
  unfold pbind, modify, mark_dirty, on_bc. cbn. intros E. injection E as <- <-. rewrite upd_twice. rewrite (upd_const _ _ _ b Hb).
  eexists b, _, (dev_st (r_bio s)). split; [|split; [reflexivity|]].
  - split; try done.
    + by exists (Z.lor (b_flags b) B_DIRTY), data, (b_lock b).
    + by bits.
    + left. unfold holding. by rewrite Hp.
    + intros _. specialize (Hv Hp). by bits.
    + intros _. specialize (Hv Hp). by bits.
    + by bits.
    + apply I.
  - replace (dirty _) with true; [done|]. symmetry. by bits.
Qed.

(** After a write that fails the buffer stays dirty. *)
Lemma write_spec s k h data u x : inv s -> r_hs s !! k = Some h -> h_phase h = Ready -> length data = 512%nat ->
  (modify (h_buf h) data >>> bwrite t (h_pid h) (h_buf h)) (r_bio s) = Some (u, x) ->
  fills s k h x data /\ exists b, at_ x (h_buf h) = Some b /\ b_data b = data /\ dirty b = errored b /\
    (errored b = false -> disk (dev_st x) (h_dev h) (h_block h) = data).
Proof.
  intros I Hk Hp Hdl. destruct (held_buf s k h I Hk ltac:(unfold holding; by rewrite Hp)) as (b & Hb & Hl & Hlen & Hi & Ed & En & Hv).
  specialize (Hv Hp). unfold at_ in Hb. unfold pbind at 1, modify, on_bc at 1. cbn. set (x0 := mkBio (upd_buf (h_buf h) (set_data data) (bc (r_bio s))) (dev_st (r_bio s))).
  unfold bwrite, holdingsleep. cbn [bc x0]. rewrite upd_buf_lookup, decide_True, Hb by done. cbn [fmap option_fmap option_map b_lock set_data].
  rewrite Hl, bool_decide_true by done. cbn [negb]. unfold pbind, on_bc, rw_buf. cbn.
  set (b0 := set_flags (Z.lor (b_flags b) B_DIRTY) (set_data data b)).
  rewrite upd_twice, !list_lookup_alter_eq, Hb. cbn. change (set_flags _ (set_data data b)) with b0.
  destruct (bdevrw t (h_pid h) b0 (dev_st (r_bio s))) as [[[r b1] d']|] eqn:Erw; [|done].
  assert (Hd0 : dirty b0 = true) by (unfold b0; by bits).
  apply bdevrw_spec in Erw as O; [|by left|done|apply I]. destruct (rw_frame _ _ _ _ _ _ O) as [Ef Hl1]. pose proof (rw_flags _ _ _ _ _ _ O) as Efl.
  destruct (rw_write _ _ _ _ _ _ O Hd0) as [Hdt Hwr]. cbn [b0 b_data b_dev b_blockno set_flags set_data] in Hdt, Hwr.
  intros E. injection E as <- <-.
  set (b2 := if r <? 0 then set_flags (Z.lor (b_flags b1) B_ERROR) b1 else set_flags (Z.ldiff (b_flags b1) B_ERROR) b1).
  assert (Er : b2 = set_lock (b_lock b) (set_data data (set_flags (b_flags b2) b))) by (unfold b2; destruct (r <? 0); rewrite Ef, Hdt; by destruct b).
  assert (Hf : valid b2 = true /\ inhash b2 = true /\ dirty b2 = (r <? 0) /\ errored b2 = (r <? 0)).
  { cbn [b0 b_flags set_flags set_data] in Efl. clear - Efl Hv Hi. unfold b2. clear b2.
    destruct (r <? 0); bits; rewrite !Efl; bits; rewrite ?Hv, ?Hi; done. }
  destruct Hf as (Hv2 & Hi2 & Hd2 & He2).
  set (x' := mkBio _ d').
  assert (Ex : x' = mkBio (upd_buf (h_buf h) (fun _ => b2) (bc (r_bio s))) d').
  { unfold x', b2. f_equal. destruct (r <? 0); by rewrite !upd_twice. }
  split.
  - exists b, b2, d'. split; [|split; [unfold moved_to; by rewrite Ex|]].
    + split; try done.
      * by exists (b_flags b2), data, (b_lock b).
      * by rewrite Er.
      * left. unfold holding. by rewrite Hp.
      * by rewrite Er.
      * intros _ Hdd _. rewrite Hd2 in Hdd. apply Z.ltb_ge in Hdd. rewrite Er. cbn. by rewrite Hwr.
      * apply (rw_elsewhere _ _ _ _ _ _ O).
      * apply (rw_disk_len _ _ _ _ _ _ O).
    + rewrite Hd2, Er. destruct (Z.ltb_spec r 0); [done|]. cbn. rewrite <- Ed, <- En. by rewrite Hwr.
  - exists b2. rewrite Ex. unfold at_. cbn [bc dev_st]. rewrite upd_buf_lookup, decide_True, Hb by done. split; [done|]. split; [by rewrite Er|].
    split; [congruence|]. intros He. rewrite He2 in He. apply Z.ltb_ge in He. rewrite <- Ed, <- En. by apply Hwr.
Qed.

(** *** Locks *)

Lemma lock_spec s k h u x : inv s -> r_hs s !! k = Some h -> on_bc (acquiresleep (h_pid h) (h_buf h)) (r_bio s) = Some (u, x) ->
  exists b b', moves s k h Locked b b' (dev_st (r_bio s)) /\ mkRun x (<[k := goto Locked h]> (r_hs s)) = moved_to s k h Locked b' (dev_st (r_bio s)) /\
    b_data b' = b_data b /\ dirty b' = dirty b.
Proof.
  intros I Hk. destruct (iv_handle _ I k h Hk) as (b & Hb & Ek & _). unfold on_bc, acquiresleep. rewrite Hb.
  destruct (b_lock b) eqn:El; [done|]. intros E. injection E as <- <-. destruct (handle_inhash s k h b I Hk Hb) as (Hi & Ed & En).
  destruct (iv_cache _ I) as (C & ord & K). destruct (bk_buf _ _ _ K _ b Hb) as [_ Hlen _].
  exists b, (set_lock (Some (h_pid h)) b). split; [|split; [|done]].
  - split; try done; [by exists (b_flags b), (b_data b), (Some (h_pid h)); destruct b|by right|exact (iv_dirty _ I _ b Hb)|exact (iv_clean _ I (h_buf h) b Hb)|apply I].
  - unfold moved_to. by rewrite (upd_const _ _ _ b Hb).
Qed.

Lemma unlock_spec s k h u x : inv s -> r_hs s !! k = Some h -> holding h = true -> on_bc (releasesleep (h_buf h)) (r_bio s) = Some (u, x) ->
  exists b b', moves s k h Releasing b b' (dev_st (r_bio s)) /\ mkRun x (<[k := goto Releasing h]> (r_hs s)) = moved_to s k h Releasing b' (dev_st (r_bio s)) /\
    b_data b' = b_data b /\ dirty b' = dirty b.
Proof.
  intros I Hk Hh. destruct (held_buf s k h I Hk Hh) as (b & Hb & Hl & Hlen & Hi & Ed & En & _). unfold at_ in Hb.
  unfold on_bc, releasesleep. intros E. injection E as <- <-. exists b, (set_lock None b). split; [|split; [|done]].
  - split; try done; [by exists (b_flags b), (b_data b), None; destruct b|by left|exact (iv_dirty _ I _ b Hb)|exact (iv_clean _ I (h_buf h) b Hb)|apply I].
  - unfold moved_to. by rewrite (upd_const _ _ _ b Hb).
Qed.

(** *** Handles come and go *)

Record samebuf (b b' : buf) : Prop := {
  sb_flags : b_flags b' = b_flags b;
  sb_dev : b_dev b' = b_dev b;
  sb_blockno : b_blockno b' = b_blockno b;
  sb_lock : b_lock b' = b_lock b;
  sb_data : b_data b' = b_data b
}.

Lemma samebuf_key b b' : samebuf b b' -> bkey b' = bkey b.
Proof. intros [E1 E2 E3 _ _]. unfold bkey, inhash. by rewrite E1, E2, E3. Qed.

(** The handles [hs'] are those of [s] under the numbering [f], without some that
    hold no lock, and with new ones that wait; a buffer is either as it was, or
    new and then without a handle in [s]. *)
Record framed (s : run) (x' : bio D) (hs' : list handle) (f : nat -> nat) : Prop := {
  fr_inj a b : f a = f b -> a = b;
  fr_old k h : hs' !! k = Some h -> r_hs s !! f k = Some h \/
    (h_phase h = Waiting /\ exists b', at_ x' (h_buf h) = Some b' /\ bkey b' = Some (h_dev h, h_block h));
  fr_holders k h : r_hs s !! k = Some h -> holding h = true -> exists k', hs' !! k' = Some h;
  fr_back j b' : at_ x' j = Some b' -> (exists b, at_ (r_bio s) j = Some b /\ samebuf b b') \/
    (valid b' = false /\ dirty b' = false /\ b_lock b' = None);
  fr_fwd k h b : r_hs s !! k = Some h -> at_ (r_bio s) (h_buf h) = Some b -> exists b', at_ x' (h_buf h) = Some b' /\ samebuf b b';
  fr_dev : dev_st x' = dev_st (r_bio s)
}.

Lemma framed_inv s x' hs' f : inv s -> framed s x' hs' f -> (exists C ord, cache_ok (bc x') C ord) -> len hs' < 4294967296 ->
  (forall i b, at_ x' i = Some b -> b_refcnt b = count i hs') -> inv (mkRun x' hs').
Proof.
  intros I F K' Hfew Href. split; cbn [r_bio r_hs]; [exact K'|exact Hfew|exact Href|..].
  - intros k h Hk. destruct (fr_old _ _ _ _ F k h Hk) as [Ho|(Hw & b' & Hb' & Ek)].
    + destruct (iv_handle _ I _ h Ho) as (b & Hb & Ek & Hv & Hl). destruct (fr_fwd _ _ _ _ F _ h b Ho Hb) as (b' & Hb' & Sb).
      exists b'. split; [exact Hb'|]. rewrite (samebuf_key _ _ Sb), (sb_lock _ _ Sb). split; [done|]. split; [|done].
      unfold valid. by rewrite (sb_flags _ _ Sb).
    + exists b'. split; [exact Hb'|]. split; [done|]. unfold holding. by rewrite Hw.
  - intros i b' pid Hb' El. destruct (fr_back _ _ _ _ F i b' Hb') as [(b & Hb & Sb)|(_ & _ & E)]; [|congruence].
    rewrite (sb_lock _ _ Sb) in El. destruct (iv_lock _ I i b pid Hb El) as (k & h & Hk & Ei & Hh).
    destruct (fr_holders _ _ _ _ F k h Hk Hh) as (k' & Hk'). by exists k', h.
  - intros k k' h h' Hk Hk' Eb Hh Hh'. apply (fr_inj _ _ _ _ F).
    destruct (fr_old _ _ _ _ F k h Hk) as [Ho|(Hw & _)]; [|unfold holding in Hh; by rewrite Hw in Hh].
    destruct (fr_old _ _ _ _ F k' h' Hk') as [Ho'|(Hw & _)]; [|unfold holding in Hh'; by rewrite Hw in Hh'].
    by apply (iv_excl _ I _ _ h h').
  - intros i b' Hb'. destruct (fr_back _ _ _ _ F i b' Hb') as [(b & Hb & Sb)|(_ & E & _)]; [|congruence].
    unfold dirty, valid. rewrite (sb_flags _ _ Sb). apply (iv_dirty _ I i b Hb).
  - intros i b' Hb' Hv Hd He. destruct (fr_back _ _ _ _ F i b' Hb') as [(b & Hb & Sb)|(E & _)]; [|congruence].
    rewrite (fr_dev _ _ _ _ F). unfold valid, dirty, errored in *. rewrite (sb_flags _ _ Sb) in *. rewrite (sb_data _ _ Sb), (sb_dev _ _ Sb), (sb_blockno _ _ Sb).
    by apply (iv_clean _ I i).
  - rewrite (fr_dev _ _ _ _ F). apply I.
Qed.

(** A block has the same content if its buffer is as it was, or was clean. *)
Lemma framed_content s x' hs' f : inv s -> inv (mkRun x' hs') -> framed s x' hs' f ->
  (forall j b, at_ (r_bio s) j = Some b -> dirty b = true -> exists b', at_ x' j = Some b' /\ samebuf b b') ->
  forall dev n, content x' dev n = content (r_bio s) dev n.
Proof.
  intros I I' F Hd dev n. change (content x' dev n) with (content (r_bio (mkRun x' hs')) dev n).
  assert (Hold : forall j b, at_ (r_bio s) j = Some b -> bkey b = Some (dev, n) -> dirty b = true -> content x' dev n = content (r_bio s) dev n).
  { intros j b Hb Ek Hdb. destruct (Hd j b Hb Hdb) as (b' & Hb' & Sb). rewrite (content_at s j b) by done. rewrite Hdb.
    rewrite (content_at (mkRun x' hs') j b'); [|done|done|by rewrite (samebuf_key _ _ Sb)]. unfold dirty in *. rewrite (sb_flags _ _ Sb), Hdb. apply Sb. }
  assert (Hnew : forall j b', at_ x' j = Some b' -> bkey b' = Some (dev, n) -> dirty b' = true -> exists b, at_ (r_bio s) j = Some b /\ bkey b = Some (dev, n) /\ dirty b = true).
  { intros j b' Hb' Ek Hdb. destruct (fr_back _ _ _ _ F j b' Hb') as [(b & Hb & Sb)|(_ & E & _)]; [|congruence].
    exists b. unfold dirty in *. rewrite (sb_flags _ _ Sb) in Hdb. by rewrite <- (samebuf_key _ _ Sb). }
  unfold content at 1. destruct (list_find _ _) as [[j b']|] eqn:E.
  - apply list_find_Some in E as (Hb' & [Ek Hdb] & _). destruct (Hnew j b' Hb' Ek Hdb) as (b & Hb & Ekb & Hdb').
    rewrite <- (Hold j b) by done. rewrite (content_at (mkRun x' hs') j b') by done. by rewrite Hdb.
  - apply list_find_None in E. rewrite Forall_lookup in E. unfold content. destruct (list_find _ (bc_buf (bc (r_bio s)))) as [[j b]|] eqn:E2.
    + apply list_find_Some in E2 as (Hb & [Ek Hdb] & _). destruct (Hd j b Hb Hdb) as (b' & Hb' & Sb). exfalso. apply (E j b' Hb').
      rewrite (samebuf_key _ _ Sb). split; [done|]. unfold dirty. by rewrite (sb_flags _ _ Sb).
    + exact (f_equal (fun d => disk d dev n) (fr_dev _ _ _ _ F)).
Qed.

Lemma samebuf_refl b : samebuf b b.
Proof. by split. Qed.

Lemma lookup_snoc {A} (l : list A) a k x : (l ++ [a]) !! k = Some x -> l !! k = Some x \/ x = a.
Proof. intros [?|[_ H]]%lookup_app_Some; [by left|right]. apply list_lookup_singleton_Some in H. by destruct H as [_ ->]. Qed.

(** A new handle leaves the refcounts exact when its own buffer has one more. *)
Lemma snoc_refs s x' h : inv s ->
  (forall j b', at_ x' j = Some b' -> b_refcnt b' = count j (r_hs s) + if decide (h_buf h = j) then 1 else 0) ->
  forall j b', at_ x' j = Some b' -> b_refcnt b' = count j (r_hs s ++ [h]).
Proof. intros I H j b' Hb'. rewrite (H j b' Hb'), count_app, count_cons. change (count j []) with 0. lia. Qed.

Lemma get_hit_spec s pid dev n i b : inv s -> len (r_hs s) < 4294967295 -> at_ (r_bio s) i = Some b -> bkey b = Some (dev, n) ->
  let x' := mkBio (upd_buf i (set_refcnt (b_refcnt b +u 1)) (bc (r_bio s))) (dev_st (r_bio s)) in
  let h := mkHandle pid i dev n Waiting in
  framed s x' (r_hs s ++ [h]) id /\ inv (mkRun x' (r_hs s ++ [h])) /\
  forall j c, at_ (r_bio s) j = Some c -> exists c', at_ x' j = Some c' /\ samebuf c c'.
Proof.
  intros I Hl Hb Ek x' h. unfold at_ in Hb. pose proof (iv_ref _ I i b Hb) as Hr. pose proof (count_le i (r_hs s)). pose proof (count_nonneg i (r_hs s)).
  assert (Er : b_refcnt b +u 1 = count i (r_hs s) + 1) by (unfold u32; rewrite Hr; apply Z.mod_small; lia).
  assert (At : forall j, at_ x' j = if decide (j = i) then Some (set_refcnt (b_refcnt b +u 1) b) else at_ (r_bio s) j).
  { intros j. unfold at_, x'. cbn [bc]. rewrite upd_buf_lookup. case_decide; [by rewrite Hb|done]. }
  assert (Fw : forall j c, at_ (r_bio s) j = Some c -> exists c', at_ x' j = Some c' /\ samebuf c c').
  { intros j c Hc. rewrite At. case_decide; [subst|exists c; split; [done|apply samebuf_refl]].
    assert (c = b) as -> by (unfold at_ in Hc; congruence). eexists. split; [done|]. by split. }
  assert (F : framed s x' (r_hs s ++ [h]) id).
  { split; [done| | | |eauto|done].
    - intros k g [Ho| ->]%lookup_snoc; [by left|right]. split; [done|]. cbn [h h_buf h_dev h_block]. rewrite At, decide_True by done. eexists. split; [done|exact Ek].
    - intros k g Hk _. exists k. by apply lookup_app_l_Some.
    - intros j c'. rewrite At. case_decide; [subst|intros Hc; left; exists c'; split; [done|apply samebuf_refl]].
      intros Ec. injection Ec as <-. left. exists b. split; [done|by split]. }
  split; [exact F|]. split; [|exact Fw]. apply (framed_inv s x' _ id I F).
  - destruct (iv_cache _ I) as (C & ord & K). exists C, ord. apply upd_ok; [done|]. intros a Ha. assert (a = b) as -> by congruence.
    split; [done|]. destruct (bk_buf _ _ _ K i b Hb) as [? ? Hh]. split; cbn; [apply u32_range|done|]. intros _.
    unfold bkey in Ek. destruct (inhash b) eqn:Ei; [exact Ei|done].
  - rewrite len_app. change (len [h]) with 1. lia.
  - apply snoc_refs; [done|]. intros j c'. rewrite At. cbn [h h_buf]. case_decide as E.
    + subst. intros Ec. injection Ec as <-. rewrite decide_True by done. exact Er.
    + intros Hc. rewrite decide_False by congruence. rewrite (iv_ref _ I j c' Hc). lia.
Qed.

Lemma get_evict_spec s pid dev n e c' C' ord : inv s -> len (r_hs s) < 4294967295 ->
  cache_ok c' C' ord -> evicted dev n (bc (r_bio s)) c' ord e ->
  let x' := mkBio c' (dev_st (r_bio s)) in
  let h := mkHandle pid e dev n Waiting in
  framed s x' (r_hs s ++ [h]) id /\ inv (mkRun x' (r_hs s ++ [h])) /\
  forall j c, at_ (r_bio s) j = Some c -> dirty c = true -> exists c', at_ x' j = Some c' /\ samebuf c c'.
Proof.
  intros I Hl K' Ev x' h. destruct (ev_new _ _ _ _ _ _ Ev) as (b & hn & Hb & Hfree & Hb').
  apply andb_true_iff in Hfree as [Hz%Z.eqb_eq Hcl]. apply negb_true_iff in Hcl.
  pose proof (iv_ref _ I e b Hb) as Hr. rewrite Hz in Hr.
  assert (Hnoh : forall k g, r_hs s !! k = Some g -> h_buf g <> e) by (intros k g Hk E; pose proof (count_pos e _ k g Hk E); lia).
  assert (Hlk : b_lock b = None).
  { destruct (b_lock b) as [p|] eqn:El; [|done]. destruct (iv_lock _ I e b p Hb El) as (k & g & Hk & E & _). by destruct (Hnoh k g Hk). }
  assert (Fw : forall j c, j <> e -> at_ (r_bio s) j = Some c -> exists c', at_ x' j = Some c' /\ samebuf c c' /\ b_refcnt c' = b_refcnt c).
  { intros j c Hj Hc. destruct (ev_other _ _ _ _ _ _ Ev j c Hj Hc) as [m Hm]. eexists. split; [exact Hm|]. by split. }
  assert (Bk : forall j d, j <> e -> at_ x' j = Some d -> exists c, at_ (r_bio s) j = Some c /\ samebuf c d /\ b_refcnt d = b_refcnt c).
  { intros j d Hj Hd. destruct (iv_cache _ I) as (C & ord' & K). pose proof (lookup_lt_Some _ _ _ Hd) as Hlt. cbn in Hlt.
    rewrite (bk_len _ _ _ K'), <- (bk_len _ _ _ K) in Hlt. destruct (lookup_lt_is_Some_2 _ _ Hlt) as [c Hc].
    destruct (Fw j c Hj Hc) as (d' & Hd' & Sb & Er). exists c. split; [exact Hc|]. assert (d' = d) as -> by congruence. done. }
  assert (F : framed s x' (r_hs s ++ [h]) id).
  { split; [done| | | | |done].
    - intros k g [Ho| ->]%lookup_snoc; [by left|right]. split; [done|]. eexists. split; [exact Hb'|done].
    - intros k g Hk _. exists k. by apply lookup_app_l_Some.
    - intros j d Hd. destruct (decide (j = e)) as [->|Hj]; [right|left].
      + assert (d = fresh_buf dev n hn b) as -> by (unfold at_ in Hd; cbn in Hd; congruence). done.
      + destruct (Bk j d Hj Hd) as (c & Hc & Sb & _). eauto.
    - intros k g c Hk Hc. destruct (Fw _ c (Hnoh k g Hk) Hc) as (c2 & ? & ? & _). eauto. }
  split; [exact F|]. split.
  - apply (framed_inv s x' _ id I F); [eauto|rewrite len_app; change (len [h]) with 1; lia|].
    apply snoc_refs; [done|]. intros j d Hd. cbn [h h_buf]. destruct (decide (j = e)) as [->|Hj].
    + rewrite decide_True by done. assert (d = fresh_buf dev n hn b) as -> by (unfold at_ in Hd; cbn in Hd; congruence). cbn. lia.
    + rewrite decide_False by congruence. destruct (Bk j d Hj Hd) as (c & Hc & _ & ->). rewrite (iv_ref _ I j c Hc). lia.
  - intros j c Hc Hd. destruct (decide (j = e)) as [->|Hj]; [unfold at_ in Hc; congruence|]. destruct (Fw j c Hj Hc) as (c2 & ? & ? & _). eauto.
Qed.

Definition skip (k j : nat) : nat := if (j <? k)%nat then j else S j.
Lemma skip_inj k a b : skip k a = skip k b -> a = b.
Proof. unfold skip. destruct (Nat.ltb_spec a k), (Nat.ltb_spec b k); lia. Qed.
Lemma delete_skip {A} (l : list A) k j : delete k l !! j = l !! skip k j.
Proof. unfold skip. destruct (Nat.ltb_spec j k); [by rewrite list_lookup_delete_lt|by rewrite list_lookup_delete_ge]. Qed.
Lemma skip_onto k j : j <> k -> exists i, skip k i = j.
Proof.
  intros Hj. destruct (decide (j < k)%nat); [exists j|exists (j - 1)%nat]; unfold skip.
  - by rewrite (proj2 (Nat.ltb_lt j k)).
  - rewrite (proj2 (Nat.ltb_ge (j - 1) k)) by lia. lia.
Qed.

Lemma unref_run_spec s k h : inv s -> r_hs s !! k = Some h -> h_phase h = Releasing ->
  exists c', brelse_unref (h_buf h) (bc (r_bio s)) = Some (tt, c') /\
    let x' := mkBio c' (dev_st (r_bio s)) in
    framed s x' (delete k (r_hs s)) (skip k) /\ inv (mkRun x' (delete k (r_hs s))) /\
    forall j c, at_ (r_bio s) j = Some c -> exists c', at_ x' j = Some c' /\ samebuf c c'.
Proof.
  intros I Hk Hp. destruct (iv_handle _ I k h Hk) as (b & Hb & Ek & _). destruct (iv_cache _ I) as (C & ord & K).
  pose proof (iv_ref _ I _ b Hb) as Hr. pose proof (count_pos _ _ k h Hk eq_refl) as Hpos.
  destruct (unref_spec _ C ord (h_buf h) b K Hb ltac:(lia)) as (c' & E & K' & R). exists c'. split; [exact E|]. intros x'.
  set (c0 := upd_buf (h_buf h) (set_refcnt (b_refcnt b - 1)) (bc (r_bio s))) in R.
  assert (At0 : forall j, bc_buf c0 !! j = if decide (j = h_buf h) then Some (set_refcnt (b_refcnt b - 1) b) else at_ (r_bio s) j).
  { intros j. unfold c0. rewrite upd_buf_lookup. case_decide; [by rewrite Hb|done]. }
  assert (Fw : forall j c, at_ (r_bio s) j = Some c -> exists c', at_ x' j = Some c' /\ samebuf c c').
  { intros j c Hc. specialize (At0 j). destruct (decide (j = h_buf h)) as [->|Hj].
    - destruct (ro_buf _ _ R _ _ At0) as (b' & Hb' & p & m & ->). assert (c = b) as -> by (unfold at_ in Hc; congruence). eexists. split; [exact Hb'|]. by split.
    - rewrite Hc in At0. destruct (ro_buf _ _ R _ _ At0) as (b' & Hb' & p & m & ->). eexists. split; [exact Hb'|]. by split. }
  assert (Bk : forall j d, at_ x' j = Some d -> exists c, at_ (r_bio s) j = Some c /\ samebuf c d /\ b_refcnt d = b_refcnt c - if decide (h_buf h = j) then 1 else 0).
  { intros j d Hd. destruct (ringonly_inv _ _ _ _ R Hd) as (c & Hc & p & m & ->). rewrite At0 in Hc. case_decide as Ej.
    - injection Hc as <-. exists b. rewrite decide_True by done. subst j. split; [exact Hb|]. split; [by split|done].
    - exists c. rewrite decide_False by congruence. split; [exact Hc|]. split; [by split|cbn; lia]. }
  assert (F : framed s x' (delete k (r_hs s)) (skip k)).
  { split; [apply skip_inj| | | |eauto|done].
    - intros j g. rewrite delete_skip. by left.
    - intros j g Hj Hg. destruct (decide (j = k)) as [->|Hne]; [unfold holding in Hg; assert (g = h) as -> by congruence; by rewrite Hp in Hg|].
      destruct (skip_onto k j Hne) as [i Hi]. exists i. by rewrite delete_skip, Hi.
    - intros j d Hd. destruct (Bk j d Hd) as (c & Hc & Sb & _). left. eauto. }
  split; [exact F|]. split; [|exact Fw]. apply (framed_inv s x' _ (skip k) I F).
  - eauto.
  - unfold len. rewrite length_delete by (by exists h). pose proof (iv_few _ I). unfold len in *. lia.
  - intros j d Hd. destruct (Bk j d Hd) as (c & Hc & _ & ->). rewrite (count_delete _ _ k h) by done. by rewrite (iv_ref _ I j c Hc).
Qed.

(** ** The refinement *)

Lemma advance_same s k h q b b' d' : inv s -> moves s k h q b b' d' -> (if dirty b' then b_data b' else disk d' (h_dev h) (h_block h)) = content (r_bio s) (h_dev h) (h_block h) ->
  forall dev n, content (r_bio (moved_to s k h q b' d')) dev n = content (r_bio s) dev n.
Proof.
  intros I M E dev n. rewrite (moved_content s k h q b b' d' I M). case_decide as Ed; [|done]. by injection Ed as <- <-.
Qed.

Lemma kept_content s k h b b' : inv s -> r_hs s !! k = Some h -> at_ (r_bio s) (h_buf h) = Some b -> b_data b' = b_data b -> dirty b' = dirty b ->
  (if dirty b' then b_data b' else disk (dev_st (r_bio s)) (h_dev h) (h_block h)) = content (r_bio s) (h_dev h) (h_block h).
Proof.
  intros I Hk Hb E1 E2. destruct (handle_inhash s k h b I Hk Hb) as (Hi & Ed & En).
  rewrite (content_at s (h_buf h) b); [by rewrite E1, E2|done|done|]. unfold bkey. rewrite Hi. congruence.
Qed.

Definition refined (a : act) (s s' : run) : Prop :=
  inv s' /\ forall dev n, content (r_bio s') dev n = spec_step a s (content (r_bio s)) dev n.

Lemma fills_refined s k h x v : inv s -> r_hs s !! k = Some h -> fills s k h x v ->
  let s' := mkRun x (<[k := goto Ready h]> (r_hs s)) in
  inv s' /\ forall dev n, content (r_bio s') dev n = if decide (block_of k s = Some (dev, n)) then v else content (r_bio s) dev n.
Proof.
  intros I Hk (b & b' & d' & M & E & ->). cbv zeta. rewrite E. split; [by apply (advance_inv s k h Ready b)|].
  intros dev n. rewrite (moved_content s k h Ready b b' d' I M). unfold block_of. rewrite Hk.
  case_decide as E1; case_decide as E2; [|congruence|congruence|done]. by injection E1 as <- <-.
Qed.

Lemma step_refined a s s' : inv s -> step a s = Some s' -> refined a s s'.
Proof.
  intros I. destruct a as [pid dev n|k|k|k data|k data|k|k]; cbn [step act_of data_ok]; rewrite ?andb_true_r.
  - destruct (Z.ltb_spec (len (r_hs s)) 4294967295) as [Hl|]; [|done]. destruct (iv_cache _ I) as (C & ord & K). unfold on_bc.
    destruct (bget_spec _ C ord dev n K) as [i b Hb Ek|e c' C' _ K' Ev|]; [| |done]; intros E; injection E as <-.
    + destruct (get_hit_spec s pid dev n i b I Hl Hb Ek) as (F & I' & Fw). split; [exact I'|].
      cbn [spec_step r_bio]. apply (framed_content _ _ _ _ I I' F). intros j c Hc _. eauto.
    + destruct (get_evict_spec s pid dev n e c' C' ord I Hl K' Ev) as (F & I' & Fw). split; [exact I'|].
      cbn [spec_step r_bio]. exact (framed_content _ _ _ _ I I' F Fw).
  - destruct (r_hs s !! k) as [h|] eqn:Hk; [|done]. case_bool_decide as Hp; [|done].
    destruct (on_bc _ _) as [[u x]|] eqn:E; [|done]. intros Es. injection Es as <-.
    destruct (lock_spec s k h u x I Hk E) as (b & b' & M & -> & E1 & E2). split; [by eapply advance_inv|].
    apply (advance_same s k h Locked b); [done|done|]. apply (kept_content s k h b); [done|done|apply M|done|done].
  - destruct (r_hs s !! k) as [h|] eqn:Hk; [|done]. case_bool_decide as Hp; [|done].
    destruct (bread_fill t (h_pid h) (h_buf h) (r_bio s)) as [[u x]|] eqn:E; [|done]. intros Es. injection Es as <-.
    destruct (fill_spec s k h u x I Hk ltac:(unfold holding; by rewrite Hp) E) as [F _]. destruct (fills_refined _ _ _ _ _ I Hk F) as [I' Hc]. split; [exact I'|].
    intros dev n. rewrite Hc. case_decide as Eb; [|done]. unfold block_of in Eb. rewrite Hk in Eb. by injection Eb as <- <-.
  - destruct (r_hs s !! k) as [h|] eqn:Hk; [|done]. case_bool_decide as Hp; [|done]. destruct (Nat.eqb_spec (length data) 512) as [Hl|]; [|done]. cbn [andb].
    destruct ((modify (h_buf h) data >>> mark_dirty (h_buf h)) (r_bio s)) as [[u x]|] eqn:E; [|done]. intros Es. injection Es as <-.
    exact (fills_refined _ _ _ _ _ I Hk (store_spec s k h data u x I Hk Hp Hl E)).
  - destruct (r_hs s !! k) as [h|] eqn:Hk; [|done]. case_bool_decide as Hp; [|done]. destruct (Nat.eqb_spec (length data) 512) as [Hl|]; [|done]. cbn [andb].
    destruct ((modify (h_buf h) data >>> bwrite t (h_pid h) (h_buf h)) (r_bio s)) as [[u x]|] eqn:E; [|done]. intros Es. injection Es as <-.
    exact (fills_refined _ _ _ _ _ I Hk (proj1 (write_spec s k h data u x I Hk Hp Hl E))).
  - destruct (r_hs s !! k) as [h|] eqn:Hk; [|done]. case_bool_decide as Hp; [|done].
    destruct (on_bc _ _) as [[u x]|] eqn:E; [|done]. intros Es. injection Es as <-.
    destruct (unlock_spec s k h u x I Hk ltac:(unfold holding; by rewrite Hp) E) as (b & b' & M & -> & E1 & E2). split; [by eapply advance_inv|].
    apply (advance_same s k h Releasing b); [done|done|]. apply (kept_content s k h b); [done|done|apply M|done|done].
  - destruct (r_hs s !! k) as [h|] eqn:Hk; [|done]. case_bool_decide as Hp; [|done]. unfold on_bc.
    destruct (unref_run_spec s k h I Hk Hp) as (c' & -> & F & I' & Fw). intros Es. injection Es as <-. split; [exact I'|].
    cbn [spec_step r_bio]. apply (framed_content _ _ _ _ I I' F). intros j c Hc _. eauto.
Qed.

(** A memory of blocks, and the blocks that are open. *)
Record smem := mkMem { sm_open : list (Z * Z); sm_block : Z -> Z -> list Z }.

Definition spec_act (a : act) (m : smem) : smem :=
  match a with
  | Get _ dev n => mkMem (sm_open m ++ [(dev, n)]) (sm_block m)
  | Unref k => mkMem (delete k (sm_open m)) (sm_block m)
  | Store k data | Write k data =>
      mkMem (sm_open m) (fun dev n => if decide (sm_open m !! k = Some (dev, n)) then data else sm_block m dev n)
  | _ => m
  end.
Definition spec_acts (al : list act) (m : smem) : smem := fold_left (fun m a => spec_act a m) al m.

Definition ident_of (h : handle) : Z * Z := (h_dev h, h_block h).
Definition represents (s : run) (m : smem) : Prop :=
  sm_open m = ident_of <$> r_hs s /\ forall dev n, sm_block m dev n = content (r_bio s) dev n.

(** The cache after [binit], with the disks in state [d]. *)
Definition boot (d : D) : run := mkRun (mkBio (binit zeroed) d) [].

Lemma boot_inv d : blocks_ok disk d -> inv (boot d).
Proof.
  intros Hd. pose proof (binit_spec zeroed eq_refl zeroed_unused) as K.
  split; cbn [r_bio r_hs boot bc dev_st].
  - eauto.
  - done.
  - intros i b Hb. by destruct (binit_fields i b Hb) as [-> _].
  - done.
  - intros i b pid Hb El. destruct (binit_fields i b Hb) as (_ & E & _). congruence.
  - done.
  - intros i b Hb E. destruct (binit_fields i b Hb) as (_ & _ & E' & _). congruence.
  - intros i b Hb E. destruct (binit_fields i b Hb) as (_ & _ & _ & E'). congruence.
  - exact Hd.
Qed.

(** The handles after a step. *)
Lemma step_open a s s' : step a s = Some s' ->
  ident_of <$> r_hs s' = match a with Get _ dev n => (ident_of <$> r_hs s) ++ [(dev, n)] | Unref k => delete k (ident_of <$> r_hs s) | _ => ident_of <$> r_hs s end.
Proof.
  assert (G : forall k h q, r_hs s !! k = Some h -> ident_of <$> <[k := goto q h]> (r_hs s) = ident_of <$> r_hs s).
  { intros k h q Hk. rewrite list_fmap_insert. apply list_insert_id. by rewrite list_lookup_fmap, Hk. }
  destruct a as [pid dev n|k|k|k data|k data|k|k]; cbn [step act_of].
  1:{ destruct (_ <? _); [|done]. destruct (on_bc _ _) as [[i x]|]; [|done]. intros E. injection E as <-. cbn. by rewrite fmap_app. }
  6:{ destruct (r_hs s !! k) as [h|]; [|done]. case_bool_decide; [|done]. destruct (on_bc _ _) as [[i x]|]; [|done]. intros E. injection E as <-.
      cbn [r_hs]. rewrite !delete_take_drop, fmap_app, fmap_take, fmap_drop. done. }
  all: destruct (r_hs s !! k) as [h|] eqn:Hk; [|done]; destruct (bool_decide _ && _); [|done].
  all: match goal with |- match ?m with _ => _ end = _ -> _ => destruct m as [[i x]|]; [|done] end; intros E; injection E as <-; by apply G.
Qed.

Lemma step_represents a s s' m : inv s -> represents s m -> step a s = Some s' -> represents s' (spec_act a m).
Proof.
  intros I [Ho Hb] E. destruct (step_refined a s s' I E) as [_ Hc]. pose proof (step_open a s s' E) as Ho'. split.
  - rewrite Ho'. destruct a; cbn; by rewrite Ho.
  - intros dev n. rewrite Hc. destruct a as [pid d' n'|k|k|k data|k data|k|k]; cbn [spec_act spec_step sm_block]; try apply Hb.
    + rewrite Hb, Ho, list_lookup_fmap. unfold block_of. by destruct (r_hs s !! k).
    + rewrite Hb, Ho, list_lookup_fmap. unfold block_of. by destruct (r_hs s !! k).
Qed.

Lemma steps_represent al s s' m : inv s -> represents s m -> steps al s = Some s' -> inv s' /\ represents s' (spec_acts al m).
Proof.
  revert s m; induction al as [|a al IH]; intros s m I R; cbn [steps spec_acts fold_left].
  - intros E. injection E as <-. done.
  - destruct (step a s) as [s1|] eqn:E1; [|done]. intros E. apply (IH s1); [|by apply (step_represents a s)|done].
    by destruct (step_refined a s s1 I E1).
Qed.

Lemma boot_represents d : represents (boot d) (mkMem [] (disk d)).
Proof.
  split; [done|]. intros dev n. symmetry. apply (content_absent (boot d)). intros j b Hb Ek. cbn in Hb.
  destruct (binit_fields j b Hb) as (E & _). destruct (bk_chains _ _ _ (binit_spec zeroed eq_refl zeroed_unused)) as [_ _ _ Hl _].
  pose proof (Hl j b (dev, n) Hb Ek) as Hj. by apply elem_of_nil in Hj.
Qed.

Lemma boot_runs d al s : blocks_ok disk d -> steps al (boot d) = Some s -> inv s /\ represents s (spec_acts al (mkMem [] (disk d))).
Proof. intros Hd E. apply (steps_represent al (boot d)); [by apply boot_inv|apply boot_represents|done]. Qed.

(** C23.  However processes interleave the critical sections of [bget],
    [acquiresleep], [bread], [log_write], [bwrite] and [brelse], with evictions
    and failing transfers, the cache and the disks behave as one memory of
    blocks: a store by the process that holds a block changes that block and no
    other, nothing else changes any block, and a process that holds a block
    without an error flag sees its current content. *)
Theorem buffer_cache_refines d al s : blocks_ok disk d -> steps al (boot d) = Some s ->
  let m := spec_acts al (mkMem [] (disk d)) in
  sm_open m = ident_of <$> r_hs s /\
  (forall dev n, content (r_bio s) dev n = sm_block m dev n) /\
  (forall k h b, r_hs s !! k = Some h -> h_phase h = Ready -> at_ (r_bio s) (h_buf h) = Some b -> errored b = false ->
     b_data b = sm_block m (h_dev h) (h_block h)).
Proof.
  intros Hd E m. destruct (boot_runs d al s Hd E) as [I [Ho Hc]]. fold m in Ho, Hc. split; [done|]. split; [intros dev n; by rewrite Hc|].
  intros k h b Hk Hp Hb He. destruct (handle_inhash s k h b I Hk Hb) as (Hi & Ed & En).
  rewrite Hc, (content_at s (h_buf h) b); [|done|done|unfold bkey; rewrite Hi; congruence]. destruct (dirty b) eqn:Hdy; [done|].
  destruct (iv_handle _ I k h Hk) as (b' & Hb' & _ & Hv & _). assert (b' = b) as -> by (unfold at_ in Hb; congruence).
  rewrite (iv_clean _ I (h_buf h) b Hb (Hv Hp) Hdy He). by rewrite Ed, En.
Qed.

(** C24.  A block has one buffer, and only one process at a time is past
    [acquiresleep] on it; the reference count of a buffer is the number of
    processes between [bget] and the end of [brelse]; and the buffer keeps the
    identity a process asked for until that process releases it. *)
Theorem buffer_exclusive d al s : blocks_ok disk d -> steps al (boot d) = Some s ->
  (forall k k' h h', r_hs s !! k = Some h -> r_hs s !! k' = Some h' -> ident_of h = ident_of h' ->
     h_buf h = h_buf h' /\ (holding h = true -> holding h' = true -> k = k')) /\
  (forall i b, at_ (r_bio s) i = Some b -> b_refcnt b = count i (r_hs s)) /\
  (forall k h, r_hs s !! k = Some h -> exists b, at_ (r_bio s) (h_buf h) = Some b /\ (b_dev b, b_blockno b) = ident_of h).
Proof.
  intros Hd E. destruct (boot_runs d al s Hd E) as [I _]. split; [|split; [apply I|]].
  - intros k k' h h' Hk Hk' Ei. destruct (iv_handle _ I k h Hk) as (b & Hb & _). destruct (iv_handle _ I k' h' Hk') as (b' & Hb' & _).
    destruct (handle_inhash s k h b I Hk Hb) as (Hi & Ed & En), (handle_inhash s k' h' b' I Hk' Hb') as (Hi' & Ed' & En').
    unfold ident_of in Ei. injection Ei as E1 E2.
    assert (Eb : h_buf h = h_buf h') by (apply (inhash_uniq s _ _ b b' I Hb Hb'); congruence).
    split; [done|]. by apply (iv_excl _ I k k' h h').
  - intros k h Hk. destruct (iv_handle _ I k h Hk) as (b & Hb & _). exists b. split; [done|].
    destruct (handle_inhash s k h b I Hk Hb) as (_ & -> & ->). done.
Qed.

(** C25.  In every state that processes reach, the table is well formed: each
    hash chain links exactly the buffers whose identity hashes to it, every
    buffer is once in the ring, next and prev agree, and a buffer has a 32-bit
    reference count and a block of 512 bytes. *)
Theorem buffer_cache_wf d al s : blocks_ok disk d -> steps al (boot d) = Some s -> exists C ord, cache_ok (bc (r_bio s)) C ord.
Proof. intros Hd E. destruct (boot_runs d al s Hd E) as [I _]. apply I. Qed.

(** A [bwrite] whose driver reports success has the data on the disk and leaves
    a clean buffer; after a failure the buffer has the error flag and is still
    dirty. *)
Theorem bwrite_durable d al s k h data s' : blocks_ok disk d -> steps al (boot d) = Some s -> r_hs s !! k = Some h ->
  step (Write k data) s = Some s' ->
  exists b, at_ (r_bio s') (h_buf h) = Some b /\ b_data b = data /\ dirty b = errored b /\
    (errored b = false -> disk (dev_st (r_bio s')) (h_dev h) (h_block h) = data).
Proof.
  intros Hd E Hk. destruct (boot_runs d al s Hd E) as [I _]. cbn [step act_of data_ok]. rewrite Hk.
  case_bool_decide as Hp; [|done]. destruct (Nat.eqb_spec (length data) 512) as [Hl|]; [|done]. cbn [andb].
  destruct ((modify (h_buf h) data >>> bwrite t (h_pid h) (h_buf h)) (r_bio s)) as [[u x]|] eqn:Ew; [|done]. intros Es. injection Es as <-.
  destruct (write_spec s k h data u x I Hk Hp Hl Ew) as [_ (b & Hb & Edt & Edr & Hdk)]. by exists b.
Qed.

End Run.
Arguments run : clear implicits.

(** ** The memory disk keeps the contract *)

Section MemStorage.
Context (disksize : Z).

Definition memide_bdev_ops : bdevsw memdisk := mkOps (Some (memide_backend_rw disksize)) (Some (memide_nblocks disksize)).

(** [ideinit] of [memide.c], after [bdevinit]. *)
Definition mem_table : bdevtable memdisk := snd (bdev_register 1 (Some memide_bdev_ops) bdevinit).

Definition mem_disk (s : memdisk) (_ n : Z) : list Z := md_block s n.

Lemma memide_drives : drives (fun s dev n => if dev =? 1 then mem_disk s dev n else replicate 512 0) 1 (memide_backend_rw disksize).
Proof.
  intros pid b d r b' d' Ed Hw Hl Hd. unfold memide_backend_rw.
  destruct (negb (bool_decide (b_lock b = Some pid))); [done|]. destruct (valid b && negb (dirty b)) eqn:Hvd; [done|].
  rewrite Ed, Z.eqb_refl. cbn [negb]. destruct (b_blockno b >=? disksize); [done|].
  specialize (Hd 1 (b_blockno b)) as Hdn. cbn in Hdn. destruct (dirty b) eqn:Hdy; intros E; injection E as <- <- <-.
  - split; cbn; rewrite ?Ed; cbn; unfold mem_disk; cbn; rewrite ?Z.eqb_refl.
    + split; [by destruct b|done].
    + done.
    + intros dev n Hne. cbn in Hne. destruct (Z.eqb_spec dev 1) as [->|]; [|done]. cbn. destruct (Z.eqb_spec n (b_blockno b)) as [->|]; [|done]. exfalso. apply Hne. congruence.
    + done.
    + done.
    + congruence.
  - split; cbn; rewrite ?Ed; cbn; unfold mem_disk.
    + split; [by destruct b|exact Hdn].
    + f_equal. apply Z.bits_inj'. intros n Hn. rewrite Z.ldiff_spec. destruct (decide (n = 2)) as [->|Hne].
      * rewrite dirty_bit in Hdy. by rewrite Hdy.
      * change B_DIRTY with (2 ^ 2). rewrite Z.pow2_bits_false by done. by rewrite andb_true_r.
    + done.
    + exact Hdn.
    + congruence.
    + done.
Qed.

#[export] Instance mem_storage : Storage memdisk mem_table.
Proof.
  refine {| disk := fun s dev n => if dev =? 1 then mem_disk s dev n else replicate 512 0 |}.
  intros dev o rw. unfold mem_table. cbn. unfold set_dev. destruct (Z.eqb_spec dev 1) as [->|]; [|done].
  cbn. intros E. injection E as <-. intros E. injection E as <-. split; [done|apply memide_drives].
Defined.
End MemStorage.

Module MemRun.
Definition image : memdisk := mkMemdisk (fun n => replicate 512 (n mod 256)).
Definition new_data : list Z := replicate 512 7.
(** Two processes at the same block, the first writing it, and a third at a
    device that does not exist. *)
Definition opening : list act := [Get 1 1 5; Get 2 1 5; Lock 0; Fill 0].
Definition acts : list act := opening ++ [Write 0 new_data; Unlock 0; Unref 0; Lock 0; Fill 0; Get 3 9 0; Lock 1; Fill 1; Store 0 new_data].

Lemma image_blocks : blocks_ok (disk (t := mem_table 1000)) image.
Proof. intros dev n. cbn [disk mem_storage]. unfold mem_disk, image. cbn [md_block]. destruct (dev =? 1); apply length_replicate. Qed.

(** The state after some acts, if they are enabled. *)
Definition after (al : list act) : run memdisk := default (boot image) (steps (mem_table 1000) al (boot image)).
Definition enabled (al : list act) : bool := match steps (mem_table 1000) al (boot image) with Some _ => true | None => false end.
Lemma after_eq al : enabled al = true -> steps (mem_table 1000) al (boot image) = Some (after al).
Proof. unfold enabled, after. by destruct (steps _ _ _). Qed.

Lemma buffer_cache_refines_witness :
  let m := spec_acts acts (mkMem [] (disk (t := mem_table 1000) image)) in
  sm_open m = ident_of <$> r_hs (after acts) /\ forall dev n, content (mem_table 1000) (r_bio (after acts)) dev n = sm_block m dev n.
Proof.
  intros m. destruct (buffer_cache_refines (mem_table 1000) image acts (after acts)) as (H1 & H2 & _); [apply image_blocks|apply after_eq; vm_compute; reflexivity|].
  split; [exact H1|exact H2].
Defined.

Lemma buffer_exclusive_witness : enabled acts = true /\ forall i b, at_ (r_bio (after acts)) i = Some b -> b_refcnt b = count i (r_hs (after acts)).
Proof.
  destruct (buffer_exclusive (mem_table 1000) image acts (after acts)) as (_ & H & _); [apply image_blocks|apply after_eq; vm_compute; reflexivity|].
  split; [vm_compute; reflexivity|exact H].
Defined.

Lemma buffer_cache_wf_witness : exists C ord, cache_ok (bc (r_bio (after acts))) C ord.
Proof. apply (buffer_cache_wf (mem_table 1000) image acts); [apply image_blocks|apply after_eq; vm_compute; reflexivity]. Defined.

Lemma bwrite_durable_witness : exists s' b, step (mem_table 1000) (Write 0 new_data) (after opening) = Some s' /\
  at_ (r_bio s') 0 = Some b /\ b_data b = new_data.
Proof.
  destruct (step (mem_table 1000) (Write 0 new_data) (after opening)) as [s'|] eqn:E.
  - destruct (bwrite_durable (mem_table 1000) image opening (after opening) 0 (mkHandle 1 0 1 5 Ready) new_data s') as (b & Hb & Ed & _);
      [apply image_blocks|apply after_eq; vm_compute; reflexivity|vm_compute; reflexivity|exact E|].
    exists s', b. split; [exact eq_refl|]. split; [exact Hb|exact Ed].
  - exfalso. assert (H : match step (mem_table 1000) (Write 0 new_data) (after opening) with Some _ => true | None => false end = true) by (vm_compute; reflexivity).
    rewrite E in H. discriminate H.
Defined.
End MemRun.
