(* ===== verification/BlockIo.v ===== *)
(** * Reading and writing a block device: [blockdev_read] and [blockdev_write] of
    [src/kernel/core/blockdev.c]

    The two loops of the device file, on top of [bread_ok], [bwrite_ok] and
    [brelse].  They are followed through by one process while no other has a
    buffer; [BioRun] is about the others.  A destination or source below
    [KERNBASE] belongs to a user: [copyout] and [copyin] are then arguments, and
    a [copyin] that fails has copied a prefix of the bytes. *)

From S2P Require Import Prelude HashChain BlockDev Bio BioRun.

Definition u64 (x : Z) : Z := x mod 18446744073709551616.

Section Loops.
Context {D : Type} (t : bdevtable D) (pid : Z).
(** [copyout addr bytes] and [copyin addr len] on the page directory of the
    process, and the kernel's memory. *)
Context (copyout : Z -> list Z -> bool) (copyin : Z -> Z -> bool * list Z) (kmem : Z -> Z).

Open Scope pm_scope.

Definition data_of (i : nat) : PM (bio D) (list Z) := fun x =>
  match bc_buf (bc x) !! i with Some b => Some (b_data b, x) | None => None end.

(** The part of a transfer that falls into the block of [off]. *)
Definition chunk_at (off n total : Z) : Z :=
  let chunk := BSIZE - off mod BSIZE in if chunk >? n -u total then n -u total else chunk.

(** [out] is what has been delivered so far. *)
Fixpoint read_loop (fuel : nat) (dev dst off n total : Z) (out : list Z) : PM (bio D) (Z * list Z) :=
  match fuel with
  | O => ppanic
  | S fuel =>
      if total <? u32 n then
        let chunk := chunk_at off n total in
        let! r := bread_ok t pid dev (u32 (off / BSIZE)) in
        match r with
        | None => pret (-1, out)
        | Some i =>
            let! d := data_of i in
            let bytes := take (Z.to_nat chunk) (drop (Z.to_nat (off mod BSIZE)) d) in
            if (dst +u total <? KERNBASE) && negb (copyout (dst +u total) bytes) then brelse pid i >>> pret (-1, out)
            else brelse pid i >>> read_loop fuel dev dst (u64 (off + chunk)) n (total +u chunk) (out ++ bytes)
        end
      else pret (n, out)
  end.

(** The bytes a block gets from the source, and whether all of them came. *)
Definition kernel (addr len : Z) : list Z := (fun k => kmem (addr + Z.of_nat k)) <$> seq 0 (Z.to_nat len).
Definition fetch (addr len : Z) : bool * list Z :=
  if addr <? KERNBASE then copyin addr len else (true, kernel addr len).
Definition splice (o : nat) (bytes d : list Z) : list Z := take o d ++ bytes ++ drop (o + length bytes) d.
Definition put_data (i : nat) (d : list Z) : PM (bio D) unit := on_bc (fun c => Some (tt, upd_buf i (set_data d) c)).

Fixpoint write_loop (fuel : nat) (dev src off n total : Z) : PM (bio D) Z :=
  match fuel with
  | O => ppanic
  | S fuel =>
      if total <? u32 n then
        let chunk := chunk_at off n total in
        let! r := bread_ok t pid dev (u32 (off / BSIZE)) in
        match r with
        | None => pret (-1)
        | Some i =>
            let! d := data_of i in
            let (ok, bytes) := fetch (src +u total) chunk in
            put_data i (splice (Z.to_nat (off mod BSIZE)) bytes d) >>>
            if negb ok then brelse pid i >>> pret (-1)
            else
              let! e := bwrite_ok t pid i in
              if e <? 0 then brelse pid i >>> pret (-1)
              else brelse pid i >>> write_loop fuel dev src (u64 (off + chunk)) n (total +u chunk)
        end
      else pret n
  end.

(** The guards and the clipping of [n], the same in both; [p] says that there is
    a process with a page directory. *)
Definition blockdev_limit (minor : Z) (x : bio D) : Z := bdev_nblocks t (dev_st x) minor *u BSIZE.
Definition blockdev_clip (p : bool) (minor addr off n : Z) (x : bio D) : option Z :=
  if (addr =? 0) || (minor <? 0) || (minor >=? NDEV) then None
  else if (addr <? KERNBASE) && negb p then None
  else
    let limit := blockdev_limit minor x in
    if (off >? limit) || (u64 (off + n) <? off) then None
    else Some (if u64 (off + n) >? limit then s32 (limit - off) else n).

Definition blockdev_read (p : bool) (minor dst off n : Z) : PM (bio D) (Z * list Z) := fun x =>
  match blockdev_clip p minor dst off n x with
  | None => Some ((-1, []), x)
  | Some n => read_loop (S (Z.to_nat (u32 n))) minor dst off n 0 [] x
  end.

Definition blockdev_write (p : bool) (minor src off n : Z) : PM (bio D) Z := fun x =>
  match blockdev_clip p minor src off n x with
  | None => Some (-1, x)
  | Some n => write_loop (S (Z.to_nat (u32 n))) minor src off n 0 x
  end.
End Loops.

(** ** One process at a time *)

Section Seq.
Context {D : Type} (t : bdevtable D) `{St : !Storage D t} (pid : Z).

Definition roomy (x : bio D) : Prop := exists j b, at_ x j = Some b /\ dirty b = false.
Definition quiet (x : bio D) : Prop := inv t (mkRun x []) /\ roomy x.
Definition has_block (x : bio D) (i : nat) (dev n : Z) : Prop := inv t (mkRun x [mkHandle pid i dev n Ready]).
Definition same_content (x x' : bio D) : Prop := forall dev n, content t x' dev n = content t x dev n.

(** The driver answers every request for one of the first [N] blocks. *)
Definition answers (dev N : Z) : Prop := forall b d, b_dev b = dev -> 0 <= b_blockno b < N -> b_lock b = Some pid ->
  dirty b = true \/ valid b = false -> is_Some (bdevrw t pid b d).

Lemma get_quiet x dev n : quiet x -> exists i x', on_bc (bget dev n) x = Some (i, x') /\
  inv t (mkRun x' [mkHandle pid i dev n Waiting]) /\ roomy x' /\ same_content x x'.
Proof.
  intros [I (j & b & Hb & Hd)]. destruct (iv_cache _ _ I) as (C & ord & K). cbn [r_bio] in K.
  assert (Hf : free b = true) by (unfold free; rewrite Hd, (iv_ref _ _ I j b Hb); done).
  unfold on_bc. pose proof (bget_spec _ C ord dev n K) as O.
  destruct O as [i c Hc Ek|e c' C' _ K' Ev|_ Hno]; [| |by rewrite (Hno j b Hb) in Hf].
  - destruct (get_hit_spec t (mkRun x []) pid dev n i c I ltac:(done) Hc Ek) as (F & I' & Fw). eexists i, _. split; [done|]. split; [exact I'|].
    destruct (Fw j b Hb) as (b' & Hb' & Sb). split; [exists j, b'; unfold dirty; by rewrite (sb_flags _ _ Sb)|].
    exact (framed_content t (mkRun x []) _ _ _ I I' F (fun k a Ha _ => Fw k a Ha)).
  - destruct (get_evict_spec t (mkRun x []) pid dev n e c' C' ord I ltac:(done) K' Ev) as (F & I' & Fw). eexists e, _. split; [done|]. split; [exact I'|].
    destruct (ev_new _ _ _ _ _ _ Ev) as (b0 & hn & _ & _ & Hb'). split; [by eexists e, _|].
    exact (framed_content t (mkRun x []) _ _ _ I I' F Fw).
Qed.

Lemma lock_quiet x i dev n : inv t (mkRun x [mkHandle pid i dev n Waiting]) -> roomy x -> exists x', on_bc (acquiresleep pid i) x = Some (tt, x') /\
  inv t (mkRun x' [mkHandle pid i dev n Locked]) /\ roomy x' /\ same_content x x'.
Proof.
  intros I (j & bj & Hbj & Hdj). set (s := mkRun x [mkHandle pid i dev n Waiting]) in *.
  destruct (iv_handle _ _ I 0%nat _ eq_refl) as (b & Hb & _). cbn [h_buf r_bio s] in Hb.
  assert (El : b_lock b = None).
  { destruct (b_lock b) as [p|] eqn:El; [|done]. destruct (iv_lock _ _ I i b p Hb El) as ([|k] & h & Hk & _ & Hh); [|done]. by injection Hk as <-. }
  assert (E : step t (Lock 0) s = Some (mkRun (mkBio (upd_buf i (set_lock (Some pid)) (bc x)) (dev_st x)) [mkHandle pid i dev n Locked])).
  { cbn. unfold on_bc, acquiresleep. by rewrite Hb, El. }
  destruct (step_refined t _ _ _ I E) as [I' Hc]. eexists. split; [unfold on_bc, acquiresleep; by rewrite Hb, El|]. split; [exact I'|].
  split; [|exact Hc]. unfold roomy, at_. cbn [bc]. exists j. rewrite upd_buf_lookup. case_decide; [subst|eauto]. unfold at_ in Hbj. rewrite Hbj. by eexists.
Qed.

Lemma fill_quiet x i dev n N : inv t (mkRun x [mkHandle pid i dev n Locked]) -> roomy x -> answers dev N -> 0 <= n < N ->
  exists x', bread_fill t pid i x = Some (tt, x') /\ has_block x' i dev n /\ roomy x' /\ same_content x x'.
Proof.
  intros I (j & bj & Hbj & Hdj) Ha Hn. set (s := mkRun x [mkHandle pid i dev n Locked]) in *. set (h := mkHandle pid i dev n Locked).
  destruct (held_buf t s 0%nat h I eq_refl eq_refl) as (b & Hb & Hl & Hlen & Hi & Ed & En & _). cbn [h h_buf h_dev h_block] in *.
  assert (E : exists x', bread_fill t pid i x = Some (tt, x')).
  { unfold bread_fill. unfold at_ in Hb. cbn [s r_bio] in Hb. rewrite Hb. destruct (valid b) eqn:Hv; [eauto|].
    unfold pbind, rw_buf. rewrite Hb. destruct (Ha b (dev_st x)) as [[[r b'] d'] ->]; [done|lia|done|by right|]. unfold on_bc. eauto. }
  destruct E as [x' E]. exists x'. split; [done|].
  assert (Es : step t (Fill 0) s = Some (mkRun x' [mkHandle pid i dev n Ready])) by (cbn; by rewrite E).
  destruct (step_refined t _ _ _ I Es) as [I' Hc]. split; [exact I'|]. split; [|exact Hc].
  destruct (fill_spec t s 0%nat h tt x' I eq_refl eq_refl E) as [_ Hr]. destruct (Hr j bj Hbj Hdj) as (b' & ? & ?). by exists j, b'.
Qed.

(** A buffer with its block, or with the error flag. *)
Lemma ready_data x i dev n : has_block x i dev n -> exists b, at_ x i = Some b /\ bkey b = Some (dev, n) /\ length (b_data b) = 512%nat /\
  (errored b = false -> b_data b = content t x dev n).
Proof.
  intros I. destruct (held_buf t _ 0%nat _ I eq_refl eq_refl) as (b & Hb & _ & Hlen & Hi & Ed & En & Hv). cbn [h_buf h_dev h_block r_bio] in *.
  assert (Ek : bkey b = Some (dev, n)) by (unfold bkey; rewrite Hi; congruence).
  exists b. split; [done|]. split; [done|]. split; [done|]. intros He.
  change (content t x dev n) with (content t (r_bio (mkRun x [mkHandle pid i dev n Ready])) dev n).
  rewrite (content_at t _ i b dev n I Hb Ek). destruct (dirty b) eqn:Hd; [done|].
  rewrite (iv_clean _ _ I i b Hb (Hv eq_refl) Hd He). cbn. by rewrite Ed, En.
Qed.

Lemma bread_spec x dev n N : quiet x -> answers dev N -> 0 <= n < N ->
  exists i x', bread t pid dev n x = Some (i, x') /\ has_block x' i dev n /\ roomy x' /\ same_content x x'.
Proof.
  intros Q Ha Hn. destruct (get_quiet x dev n Q) as (i & x1 & E1 & I1 & R1 & C1). destruct (lock_quiet x1 i dev n I1 R1) as (x2 & E2 & I2 & R2 & C2).
  destruct (fill_quiet x2 i dev n N I2 R2 Ha Hn) as (x3 & E3 & I3 & R3 & C3). exists i, x3. unfold bread, pbind. rewrite E1, E2, E3.
  split; [done|]. split; [done|]. split; [done|]. intros d m. by rewrite C3, C2, C1.
Qed.

Lemma brelse_inv x i dev n : has_block x i dev n -> exists x', brelse pid i x = Some (tt, x') /\ inv t (mkRun x' []) /\ same_content x x' /\
  forall j b, at_ x j = Some b -> exists b', at_ x' j = Some b' /\ bkey b' = bkey b /\ b_flags b' = b_flags b.
Proof.
  intros I. destruct (held_buf t _ 0%nat _ I eq_refl eq_refl) as (b & Hb & Hl & _). cbn [h_buf h_pid r_bio] in *.
  set (s := mkRun x [mkHandle pid i dev n Ready]) in *. set (x1 := mkBio (upd_buf i (set_lock None) (bc x)) (dev_st x)).
  assert (E1 : step t (Unlock 0) s = Some (mkRun x1 [mkHandle pid i dev n Releasing])) by done.
  destruct (step_refined t _ _ _ I E1) as [I1 C1]. destruct (unref_run_spec t _ 0%nat _ I1 eq_refl eq_refl) as (c' & E2 & F & I2 & Fw).
  cbn [h_buf r_bio bc x1] in E2. exists (mkBio c' (dev_st x)). split.
  { unfold brelse, holdingsleep. unfold at_ in Hb. rewrite Hb, Hl, bool_decide_true by done. cbn [negb]. unfold pbind, on_bc, releasesleep. cbn [bc dev_st]. by rewrite E2. }
  split; [exact I2|]. split.
  - intros d m. etransitivity; [|exact (C1 d m)]. exact (framed_content t _ _ _ _ I1 I2 F (fun k a Ha _ => Fw k a Ha) d m).
  - intros k a Hk. assert (H1 : exists a1, at_ x1 k = Some a1 /\ bkey a1 = bkey a /\ b_flags a1 = b_flags a).
    { unfold at_, x1 in *. cbn [bc]. rewrite upd_buf_lookup. case_decide; [subst; rewrite Hk; by eexists|eauto]. }
    destruct H1 as (a1 & Ha1 & Ek & Ef). destruct (Fw k a1 Ha1) as (a2 & Ha2 & Sb). exists a2. split; [exact Ha2|].
    rewrite (samebuf_key _ _ Sb), (sb_flags _ _ Sb). done.
Qed.

Lemma brelse_spec x i dev n : has_block x i dev n -> roomy x -> exists x', brelse pid i x = Some (tt, x') /\ quiet x' /\ same_content x x' /\
  forall j b, at_ x j = Some b -> exists b', at_ x' j = Some b' /\ bkey b' = bkey b /\ b_flags b' = b_flags b.
Proof.
  intros H (j & b & Hb & Hd). destruct (brelse_inv x i dev n H) as (x' & E & I & C & Fw). exists x'. split; [done|]. split; [|done]. split; [done|].
  destruct (Fw j b Hb) as (b' & Hb' & _ & Ef). exists j, b'. split; [done|]. unfold dirty in *. by rewrite Ef.
Qed.

(** [bread_ok] gives the block, or -1 when the buffer has the error flag. *)
Definition failed (x : bio D) (dev n : Z) : Prop := exists i b, at_ x i = Some b /\ bkey b = Some (dev, n) /\ errored b = true.

Lemma bread_ok_spec x dev n N : quiet x -> answers dev N -> 0 <= n < N ->
  exists r x', bread_ok t pid dev n x = Some (r, x') /\ same_content x x' /\
    match r with
    | Some i => has_block x' i dev n /\ roomy x' /\ exists b, at_ x' i = Some b /\ b_data b = content t x dev n /\ length (b_data b) = 512%nat
    | None => quiet x' /\ failed x' dev n
    end.
Proof.
  intros Q Ha Hn. destruct (bread_spec x dev n N Q Ha Hn) as (i & x1 & E1 & I1 & R1 & C1). unfold bread_ok, pbind at 1. rewrite E1.
  destruct (ready_data x1 i dev n I1) as (b & Hb & Ek & Hlen & Hd). unfold pbind at 1, berror. unfold at_ in Hb. rewrite Hb. destruct (errored b) eqn:He.
  - destruct (brelse_spec x1 i dev n I1 R1) as (x2 & E2 & Q2 & C2 & Fw). exists None, x2. unfold pbind. rewrite E2. split; [done|].
    split; [intros d m; by rewrite C2, C1|]. split; [done|]. destruct (Fw i b Hb) as (b' & Hb' & Ek' & Ef). exists i, b'. split; [done|]. split; [congruence|].
    unfold errored in *. by rewrite Ef.
  - exists (Some i), x1. split; [done|]. split; [done|]. split; [done|]. split; [done|]. exists b. split; [done|]. split; [rewrite <- C1; by apply Hd|done].
Qed.

(** A change of the data and a [bwrite_ok] after it. *)
Lemma write_quiet x i dev n N data : has_block x i dev n -> answers dev N -> 0 <= n < N -> length data = 512%nat ->
  exists e x', (put_data i data >>> bwrite_ok t pid i)%pm x = Some (e, x') /\ has_block x' i dev n /\
    (forall d m, content t x' d m = if decide ((dev, n) = (d, m)) then data else content t x d m) /\
    ((e = 0 /\ roomy x') \/ (e = -1 /\ failed x' dev n)).
Proof.
  intros I Ha Hn Hl. set (h := mkHandle pid i dev n Ready). set (s := mkRun x [h]) in *.
  destruct (held_buf t s 0%nat h I eq_refl eq_refl) as (b & Hb & Hlk & Hlen & Hi & Ed & En & Hv). cbn [h h_buf h_dev h_block] in *.
  assert (E : exists x', (modify i data >>> bwrite t pid i)%pm x = Some (tt, x')).
  { unfold pbind at 1, modify, on_bc at 1. cbn. unfold bwrite, holdingsleep, at_ in *. cbn [bc]. cbn [s r_bio] in Hb. rewrite upd_buf_lookup, decide_True, Hb by done.
    cbn [fmap option_fmap option_map b_lock set_data]. rewrite Hlk, bool_decide_true by done. cbn [negb]. unfold pbind, on_bc, rw_buf. cbn [bc dev_st].
    rewrite !upd_buf_lookup, !decide_True by done. rewrite Hb. cbn [fmap option_fmap option_map].
    set (b0 := set_flags _ _). destruct (Ha b0 (dev_st x)) as [[[r b'] d'] ->]; [done|unfold b0; cbn; lia|done|left|eauto].
    unfold b0. rewrite dirty_bit. cbn [b_flags set_flags set_data]. by rewrite Z.lor_spec, orb_true_r. }
  destruct E as [x' E].
  assert (Es : step t (Write 0 data) s = Some (mkRun x' [h])).
  { cbn [step act_of r_hs s lookup list_lookup]. cbn [h h_phase data_ok h_buf h_pid r_bio]. rewrite Hl, bool_decide_true by done. cbn [andb Nat.eqb].
    change (r_bio s) with x. by rewrite E. }
  destruct (step_refined t _ _ _ I Es) as [I' Hc].
  destruct (write_spec t s 0%nat h data tt x' I eq_refl eq_refl Hl E) as [_ (b' & Hb' & Edt & Edr & _)]. cbn [h h_buf] in Hb'.
  exists (if errored b' then -1 else 0), x'. split.
  { unfold bwrite_ok. unfold put_data, pbind in *. unfold modify in E. destruct (on_bc _ x) as [[u x1]|]; [|done]. rewrite E. unfold berror, at_ in *. by rewrite Hb'. }
  split; [exact I'|]. split.
  - intros d m. etransitivity; [exact (Hc d m)|]. cbn. case_decide as E1; case_decide as E2; [done|congruence|congruence|done].
  - destruct (errored b') eqn:He; [right|left]; (split; [done|]).
    + exists i, b'. split; [done|]. split; [|done]. destruct (handle_inhash t _ 0%nat h b' I' eq_refl Hb') as (Hi' & E1 & E2).
      unfold bkey. rewrite Hi'. cbn in E1, E2. congruence.
    + exists i, b'. by split; [|congruence].
Qed.
End Seq.

(** ** The device as a sequence of bytes *)

Section Bytes.
Context {D : Type} (t : bdevtable D) `{St : !Storage D t} (pid : Z).

Definition dev_byte (x : bio D) (dev k : Z) : Z := nth (Z.to_nat (k mod BSIZE)) (content t x dev (k / BSIZE)) 0.
Definition dev_bytes (x : bio D) (dev off n : Z) : list Z := (fun k => dev_byte x dev (off + Z.of_nat k)) <$> seq 0 (Z.to_nat n).

Lemma dev_bytes_app x dev off a b : 0 <= a -> 0 <= b -> dev_bytes x dev off a ++ dev_bytes x dev (off + a) b = dev_bytes x dev off (a + b).
Proof.
  intros Ha Hb. unfold dev_bytes. rewrite Z2Nat.inj_add, seq_app, fmap_app by done. f_equal.
  rewrite <- (Nat.add_0_r (0 + Z.to_nat a)), <- fmap_add_seq, <- list_fmap_compose. apply list_fmap_ext. intros i k _. cbn. f_equal. lia.
Qed.

Lemma dev_bytes_same x x' dev off n : same_content t x x' -> dev_bytes x' dev off n = dev_bytes x dev off n.
Proof. intros C. unfold dev_bytes, dev_byte. apply list_fmap_ext. intros i k _. by rewrite C. Qed.

Lemma chunk_bytes x dev off c d : 0 <= off -> 0 <= c -> off mod BSIZE + c <= BSIZE -> d = content t x dev (off / BSIZE) -> length d = 512%nat ->
  take (Z.to_nat c) (drop (Z.to_nat (off mod BSIZE)) d) = dev_bytes x dev off c.
Proof.
  unfold BSIZE. intros Ho Hc Hoc Hd Hl. pose proof (Z.mod_pos_bound off 512 ltac:(lia)) as Hm. apply (list_eq_same_length _ _ (Z.to_nat c)).
  - unfold dev_bytes. by rewrite length_fmap, length_seq.
  - rewrite length_take, length_drop, Hl. lia.
  - intros i a b Hi. rewrite lookup_take_lt, lookup_drop by lia. unfold dev_bytes. rewrite list_lookup_fmap, lookup_seq_lt by lia.
    cbn. intros Ha Hb. injection Hb as <-. unfold dev_byte, BSIZE.
    assert (Hq : (off + Z.of_nat i) / 512 = off / 512 /\ (off + Z.of_nat i) mod 512 = off mod 512 + Z.of_nat i).
    { pose proof (Z.div_mod off 512 ltac:(lia)). split; symmetry; [apply (Z.div_unique _ 512 _ (off mod 512 + Z.of_nat i))|apply (Z.mod_unique _ 512 (off / 512))]; lia. }
    destruct Hq as [-> ->]. rewrite <- Hd. rewrite Z2Nat.inj_add, Nat2Z.id by lia. symmetry. apply nth_lookup_Some, Ha.
Qed.

Lemma chunk_range off n total : 0 <= off -> 0 <= total < n -> n < 2147483648 ->
  let c := chunk_at off n total in 0 < c /\ c <= n - total /\ off mod BSIZE + c <= BSIZE.
Proof.
  intros Ho Ht Hn. unfold chunk_at, BSIZE. pose proof (Z.mod_pos_bound off 512 ltac:(lia)) as Hm.
  assert (E : n -u total = n - total) by (apply u32_small; unfold is_u32; lia). rewrite E.
  destruct (Z.gtb_spec (512 - off mod 512) (n - total)); lia.
Qed.

Context (copyout : Z -> list Z -> bool).

(** How [blockdev_read] ends: everything is delivered, or a prefix, and then the
    next block has the error flag or the next [copyout] fails. *)
Definition read_ends (x x' : bio D) (dev dst off n total r : Z) (out : list Z) : Prop :=
  (r = n /\ out = dev_bytes x dev off (n - total)) \/
  (r = -1 /\ exists m, 0 <= m < n - total /\ out = dev_bytes x dev off m /\
    (failed x' dev ((off + m) / BSIZE) \/ (dst +u (total + m) < KERNBASE /\ exists bytes, copyout (dst +u (total + m)) bytes = false))).

Lemma read_loop_spec N dev dst n : answers t pid dev N -> N <= 4294967296 -> 0 <= n < 2147483648 ->
  forall fuel x off total out, quiet t x -> 0 <= off -> 0 <= total <= n -> off + (n - total) <= N * BSIZE -> (Z.to_nat (n - total) < fuel)%nat ->
  exists r out' x', read_loop t pid copyout fuel dev dst off n total out x = Some ((r, out ++ out'), x') /\ quiet t x' /\ same_content t x x' /\
    read_ends x x' dev dst off n total r out'.
Proof.
  intros Ha HN Hn. induction fuel as [|fuel IH]; intros x off total out Q Ho Ht Hlim Hf; [lia|]. cbn [read_loop].
  rewrite (u32_small n) by (unfold is_u32; lia). destruct (Z.ltb_spec total n) as [Hlt|Hge].
  2:{ exists n, [], x. rewrite app_nil_r. split; [done|]. split; [done|]. split; [done|]. left. split; [done|]. unfold dev_bytes. by replace (Z.to_nat (n - total)) with 0%nat by lia. }
  destruct (chunk_range off n total Ho ltac:(lia) ltac:(lia)) as (Hc1 & Hc2 & Hc3). set (c := chunk_at off n total) in *.
  assert (Hb : 0 <= off / BSIZE < N).
  { unfold BSIZE in *. split; [apply Z.div_pos; lia|]. apply Z.div_lt_upper_bound; lia. }
  rewrite (u32_small (off / BSIZE)) by (unfold is_u32; lia).
  destruct (bread_ok_spec t pid x dev (off / BSIZE) N Q Ha Hb) as (r & x1 & E1 & C1 & Hr). unfold pbind at 1. rewrite E1. destruct r as [i|].
  2:{ destruct Hr as [Q1 F1]. exists (-1), [], x1. rewrite app_nil_r. split; [done|]. split; [done|]. split; [done|]. right. split; [done|].
      exists 0. split; [lia|]. split; [done|]. left. by rewrite Z.add_0_r. }
  destruct Hr as (H1 & R1 & b & Hb1 & Ed & Hlen). unfold pbind at 1, data_of. unfold at_ in Hb1. rewrite Hb1.
  set (bytes := take (Z.to_nat c) (drop (Z.to_nat (off mod BSIZE)) (b_data b))).
  assert (Eb : bytes = dev_bytes x dev off c) by (apply chunk_bytes; [done|lia|done|done|done]).
  destruct (brelse_spec t pid x1 i dev _ H1 R1) as (x2 & E2 & Q2 & C2 & _).
  assert (C12 : same_content t x x2) by (intros d m; by rewrite C2, C1).
  destruct ((dst +u total <? KERNBASE) && negb (copyout (dst +u total) bytes)) eqn:Ef; unfold pbind at 1; rewrite E2.
  { apply andb_true_iff in Ef as [Ek%Z.ltb_lt Ec%negb_true_iff]. exists (-1), [], x2. rewrite app_nil_r. split; [done|]. split; [done|]. split; [done|]. right.
    split; [done|]. exists 0. split; [lia|]. split; [done|]. right. rewrite Z.add_0_r. eauto. }
  assert (Eu : u64 (off + c) = off + c) by (unfold u64; apply Z.mod_small; unfold BSIZE in *; lia).
  assert (Et : total +u c = total + c) by (apply u32_small; unfold is_u32; lia). rewrite Eu, Et.
  destruct (IH x2 (off + c) (total + c) (out ++ bytes) Q2 ltac:(lia) ltac:(lia) ltac:(lia) ltac:(lia)) as (r & out' & x3 & E3 & Q3 & C3 & He).
  exists r, (bytes ++ out'), x3. rewrite app_assoc. split; [done|]. split; [done|]. split; [intros d m; by rewrite C3, C12|].
  destruct He as [[-> ->]|(-> & m & Hm & -> & He)]; [left|right]; split; [done| |done|].
  - rewrite Eb, (dev_bytes_same x x2) by done. rewrite dev_bytes_app by lia. f_equal. lia.
  - exists (c + m). split; [lia|]. rewrite Eb, (dev_bytes_same x x2) by done. rewrite dev_bytes_app by lia. split; [done|].
    by replace (off + (c + m)) with (off + c + m) by lia; replace (total + (c + m)) with (total + c + m) by lia.
Qed.

(** The clipping for a device below 4 GB. *)
Lemma clip_spec p minor addr off n x : addr <> 0 -> 0 <= minor < NDEV -> p = true \/ KERNBASE <= addr -> 0 <= n < 2147483648 ->
  0 <= bdev_nblocks t (dev_st x) minor -> bdev_nblocks t (dev_st x) minor * BSIZE < 4294967296 ->
  0 <= off <= bdev_nblocks t (dev_st x) minor * BSIZE ->
  blockdev_clip t p minor addr off n x = Some (Z.min n (bdev_nblocks t (dev_st x) minor * BSIZE - off)).
Proof.
  intros Ha Hm Hp Hn H0 Hlim Ho. unfold blockdev_clip, blockdev_limit. set (L := bdev_nblocks t (dev_st x) minor * BSIZE) in *.
  assert (0 <= L) by (unfold L, BSIZE; lia). rewrite (u32_small L) by (unfold is_u32; lia).
  replace ((addr =? 0) || (minor <? 0) || (minor >=? NDEV)) with false by lia.
  replace ((addr <? KERNBASE) && negb p) with false by (destruct Hp as [->|Hp]; [by rewrite andb_false_r|]; symmetry; apply andb_false_iff; left; lia).
  assert (Eu : u64 (off + n) = off + n) by (unfold u64; apply Z.mod_small; lia). rewrite Eu.
  replace ((off >? L) || (off + n <? off)) with false by lia. f_equal.
  destruct (Z.gtb_spec (off + n) L); [rewrite s32_id by lia|]; lia.
Qed.

Lemma blockdev_read_spec p minor dst off n x : quiet t x -> dst <> 0 -> 0 <= minor < NDEV -> p = true \/ KERNBASE <= dst -> 0 <= n < 2147483648 ->
  let N := bdev_nblocks t (dev_st x) minor in
  0 <= N -> N * BSIZE < 4294967296 -> 0 <= off <= N * BSIZE -> answers t pid minor N ->
  let n' := Z.min n (N * BSIZE - off) in
  exists r out x', blockdev_read t pid copyout p minor dst off n x = Some ((r, out), x') /\ quiet t x' /\ same_content t x x' /\
    read_ends x x' minor dst off n' 0 r out.
Proof.
  intros Q Hd Hm Hp Hn N H0 Hlim Ho Ha n'. unfold blockdev_read. rewrite (clip_spec p minor dst off n x) by done. fold N. fold n'.
  assert (Hn' : 0 <= n' < 2147483648) by lia. rewrite (u32_small n') by (unfold is_u32; lia).
  apply (read_loop_spec N minor dst n' Ha ltac:(unfold BSIZE in *; lia) Hn' (S (Z.to_nat n')) x off 0 [] Q); lia.
Qed.
End Bytes.

(** ** Writing *)

Lemma splice_nth o bytes d j : (o + length bytes <= length d)%nat ->
  nth j (splice o bytes d) 0 = if (o <=? j)%nat && (j <? o + length bytes)%nat then nth (j - o) bytes 0 else nth j d 0.
Proof.
  intros H. unfold splice. destruct (Nat.leb_spec o j) as [H1|H1]; cbn [andb].
  - rewrite app_nth2 by (rewrite length_take; lia). rewrite length_take, Nat.min_l by lia. destruct (Nat.ltb_spec j (o + length bytes)).
    + by rewrite app_nth1 by lia.
    + rewrite app_nth2 by lia. rewrite nth_skipn. f_equal. lia.
  - rewrite app_nth1 by (rewrite length_take; lia). rewrite !nth_lookup, lookup_take_lt by lia. done.
Qed.

Lemma splice_length o bytes d : (o + length bytes <= length d)%nat -> length (splice o bytes d) = length d.
Proof. intros H. unfold splice. rewrite !length_app, length_take, length_drop. lia. Qed.

Section Writing.
Context {D : Type} (t : bdevtable D) `{St : !Storage D t} (pid : Z) (copyin : Z -> Z -> bool * list Z) (kmem : Z -> Z).

(** The bytes [m] of [src] are at [off], and everything else is as before. *)
Definition stored (x x' : bio D) (dev off src m : Z) : Prop := forall d k, 0 <= k ->
  dev_byte t x' d k = if (d =? dev) && (off <=? k) && (k <? off + m) then kmem (src + (k - off)) else dev_byte t x d k.

Lemma stored_none x x' dev off src : same_content t x x' -> stored x x' dev off src 0.
Proof.
  intros C d k Hk. replace ((d =? dev) && (off <=? k) && (k <? off + 0)) with false by (destruct (d =? dev); cbn; lia).
  unfold dev_byte. by rewrite C.
Qed.

Lemma stored_app x x1 x2 dev off src a b : 0 <= a -> 0 <= b -> stored x x1 dev off src a -> stored x1 x2 dev (off + a) (src + a) b -> stored x x2 dev off src (a + b).
Proof.
  intros Ha Hb H1 H2 d k Hk. rewrite H2, H1 by done. destruct (Z.eqb_spec d dev); cbn [andb]; [|done].
  destruct (Z.leb_spec (off + a) k), (Z.ltb_spec k (off + a + b)), (Z.leb_spec off k), (Z.ltb_spec k (off + a)), (Z.ltb_spec k (off + (a + b))); cbn [andb]; try lia; try done;
    f_equal; lia.
Qed.

Lemma stored_trans_same x x1 x2 dev off src a : stored x x1 dev off src a -> same_content t x1 x2 -> stored x x2 dev off src a.
Proof. intros H C d k Hk. rewrite <- H by done. unfold dev_byte. by rewrite C. Qed.

(** Writing within one block. *)
Lemma stored_block x x' dev off src c d : 0 <= off -> 0 <= c -> off mod BSIZE + c <= BSIZE -> d = content t x dev (off / BSIZE) -> length d = 512%nat ->
  (forall e m, content t x' e m = if decide ((dev, off / BSIZE) = (e, m)) then splice (Z.to_nat (off mod BSIZE)) (kernel kmem src c) d else content t x e m) ->
  stored x x' dev off src c.
Proof.
  unfold BSIZE. intros Ho Hc Hoc Hd Hl H e k Hk. unfold dev_byte, BSIZE. rewrite H.
  pose proof (Z.div_mod off 512 ltac:(lia)) as Eo. pose proof (Z.div_mod k 512 ltac:(lia)) as Ek.
  pose proof (Z.mod_pos_bound off 512 ltac:(lia)). pose proof (Z.mod_pos_bound k 512 ltac:(lia)).
  assert (Hlk : length (kernel kmem src c) = Z.to_nat c) by (unfold kernel; by rewrite length_fmap, length_seq).
  case_decide as E.
  - injection E as <- Eq. rewrite Z.eqb_refl. cbn [andb]. rewrite splice_nth by (rewrite Hlk, Hl; lia). rewrite Hlk.
    replace ((off <=? k) && (k <? off + c)) with ((Z.to_nat (off mod 512) <=? Z.to_nat (k mod 512))%nat && (Z.to_nat (k mod 512) <? Z.to_nat (off mod 512) + Z.to_nat c)%nat)
      by (rewrite Eq in Eo; destruct (Nat.leb_spec (Z.to_nat (off mod 512)) (Z.to_nat (k mod 512))), (Nat.ltb_spec (Z.to_nat (k mod 512)) (Z.to_nat (off mod 512) + Z.to_nat c)); cbn [andb]; symmetry;
        [apply andb_true_iff|apply andb_false_iff|apply andb_false_iff|apply andb_false_iff]; lia).
    destruct (_ && _) eqn:Eb; [|by rewrite Hd, Eq]. apply andb_true_iff in Eb as [E1%Nat.leb_le E2%Nat.ltb_lt].
    unfold kernel. apply nth_lookup_Some. rewrite list_lookup_fmap, lookup_seq_lt by lia. cbn. f_equal. f_equal. rewrite Eq in Eo. lia.
  - replace ((e =? dev) && (off <=? k) && (k <? off + c)) with false; [done|]. symmetry. destruct (Z.eqb_spec e dev) as [->|]; [|done]. cbn [andb].
    apply andb_false_iff. destruct (Z.leb_spec off k); [right|by left]. apply Z.ltb_ge. assert (k / 512 <> off / 512) by congruence. nia.
Qed.

(** How [blockdev_write] ends from a kernel source: everything is stored, or a
    part, and then a block of the range has the error flag. *)
Definition write_ends (x x' : bio D) (dev src off n r : Z) : Prop :=
  exists m, stored x x' dev off src m /\
    ((r = n /\ m = n /\ roomy x') \/
     (r = -1 /\ 0 <= m <= n /\ exists blk, off / BSIZE <= blk /\ blk * BSIZE < off + n /\ failed x' dev blk)).

Lemma write_loop_spec N dev src n : answers t pid dev N -> N <= 4294967296 -> 0 <= n < 2147483648 -> KERNBASE <= src -> src + n <= 4294967296 ->
  forall fuel x off total, quiet t x -> 0 <= off -> 0 <= total <= n -> off + (n - total) <= N * BSIZE -> (Z.to_nat (n - total) < fuel)%nat ->
  exists r x', write_loop t pid copyin kmem fuel dev src off n total x = Some (r, x') /\ inv t (mkRun x' []) /\
    exists r', (r = if r' =? n - total then n else r') /\ write_ends x x' dev (src + total) off (n - total) r'.
Proof.
  intros Ha HN Hn Hs Hsn. induction fuel as [|fuel IH]; intros x off total Q Ho Ht Hlim Hf; [lia|]. cbn [write_loop].
  rewrite (u32_small n) by (unfold is_u32; lia). destruct (Z.ltb_spec total n) as [Hlt|Hge].
  2:{ exists n, x. split; [done|]. split; [apply Q|]. exists (n - total). rewrite Z.eqb_refl. split; [done|]. exists 0. split; [by apply stored_none|].
      left. split; [done|]. split; [lia|apply Q]. }
  destruct (chunk_range off n total Ho ltac:(lia) ltac:(lia)) as (Hc1 & Hc2 & Hc3). set (c := chunk_at off n total) in *.
  assert (Hb : 0 <= off / BSIZE < N).
  { unfold BSIZE in *. split; [apply Z.div_pos; lia|]. apply Z.div_lt_upper_bound; lia. }
  assert (Hfirst : off / BSIZE * BSIZE < off + (n - total)) by (unfold BSIZE; pose proof (Z.mul_div_le off 512 ltac:(lia)); lia).
  assert (Hbad : (-1 =? n - total) = false) by lia.
  rewrite (u32_small (off / BSIZE)) by (unfold is_u32; lia).
  destruct (bread_ok_spec t pid x dev (off / BSIZE) N Q Ha Hb) as (r & x1 & E1 & C1 & Hr). unfold pbind at 1. rewrite E1. destruct r as [i|].
  2:{ destruct Hr as [Q1 F1]. exists (-1), x1. split; [done|]. split; [apply Q1|]. exists (-1). rewrite Hbad. split; [done|].
      exists 0. split; [by apply stored_none|]. right. split; [done|]. split; [lia|]. by exists (off / BSIZE). }
  destruct Hr as (H1 & R1 & b & Hb1 & Ed & Hlen). unfold pbind at 1, data_of. unfold at_ in Hb1. rewrite Hb1.
  rewrite (u32_small (src + total)) by (unfold is_u32, KERNBASE in *; lia). unfold fetch. rewrite (proj2 (Z.ltb_ge (src + total) KERNBASE)) by lia. cbn [negb].
  set (data := splice (Z.to_nat (off mod BSIZE)) (kernel kmem (src + total) c) (b_data b)).
  assert (Hdl : length data = 512%nat).
  { unfold data. rewrite splice_length; [done|]. unfold kernel. rewrite length_fmap, length_seq, Hlen. unfold BSIZE in *. pose proof (Z.mod_pos_bound off 512 ltac:(lia)). lia. }
  destruct (write_quiet t pid x1 i dev (off / BSIZE) N data H1 Ha Hb Hdl) as (e & x2 & E2 & H2 & C2 & He).
  assert (S2 : stored x x2 dev off (src + total) c).
  { apply (stored_block x x2 dev off (src + total) c (b_data b)); [done|lia|done|by rewrite Ed|done|]. intros d m. rewrite C2. case_decide; [done|apply C1]. }
  unfold pbind at 1. unfold pbind at 1 in E2. destruct (put_data i data x1) as [[u x1']|] eqn:Ep; [|done]. unfold pbind at 1. rewrite E2.
  destruct (brelse_inv t pid x2 i dev _ H2) as (x3 & E3 & I3 & C3 & Fw).
  pose proof (stored_trans_same _ _ _ _ _ _ _ S2 C3) as S3. destruct He as [[-> R2]|[-> F2]].
  2:{ cbn [Z.ltb Z.compare]. unfold pbind. rewrite E3. exists (-1), x3. split; [done|]. split; [done|]. exists (-1). rewrite Hbad. split; [done|]. exists c. split; [done|].
      right. split; [done|]. split; [lia|]. exists (off / BSIZE). split; [lia|]. split; [done|]. destruct F2 as (j & bj & Hj & Ek & Ee).
      destruct (Fw j bj Hj) as (bj' & Hj' & Ek' & Ef). exists j, bj'. split; [done|]. split; [congruence|]. unfold errored in *. by rewrite Ef. }
  cbn [Z.ltb Z.compare]. unfold pbind. rewrite E3.
  assert (Eu : u64 (off + c) = off + c) by (unfold u64; apply Z.mod_small; unfold BSIZE in *; lia).
  assert (Et : total +u c = total + c) by (apply u32_small; unfold is_u32; lia). rewrite Eu, Et.
  assert (Q3 : quiet t x3).
  { split; [done|]. destruct R2 as (j & bj & Hj & Hdj). destruct (Fw j bj Hj) as (bj' & Hj' & _ & Ef). exists j, bj'. split; [done|]. unfold dirty in *. by rewrite Ef. }
  destruct (IH x3 (off + c) (total + c) Q3 ltac:(lia) ltac:(lia) ltac:(lia) ltac:(lia)) as (r & x4 & E4 & I4 & r' & Er & m & Sm & He).
  exists r, x4. split; [done|]. split; [done|]. replace (src + (total + c)) with (src + total + c) in Sm by lia.
  destruct He as [(-> & -> & R4)|(-> & Hm & blk & Hb1' & Hb2' & F4)].
  - exists (n - total). rewrite Z.eqb_refl in Er |- *. split; [done|]. exists (c + (n - (total + c))). split; [apply (stored_app x x3); [lia|lia|done|done]|].
    left. split; [done|]. split; [lia|done].
  - exists (-1). rewrite Hbad. replace (-1 =? n - (total + c)) with false in Er by lia. split; [done|]. exists (c + m). split; [apply (stored_app x x3); [lia|lia|done|done]|].
    right. split; [done|]. split; [lia|]. exists blk. split; [|split; [lia|done]]. etransitivity; [|exact Hb1']. apply Z.div_le_mono; unfold BSIZE; lia.
Qed.

Lemma blockdev_write_spec p minor src off n x : quiet t x -> 0 <= minor < NDEV -> KERNBASE <= src -> src + n <= 4294967296 -> 0 <= n < 2147483648 ->
  let N := bdev_nblocks t (dev_st x) minor in
  0 <= N -> N * BSIZE < 4294967296 -> 0 <= off <= N * BSIZE -> answers t pid minor N ->
  let n' := Z.min n (N * BSIZE - off) in
  exists r x', blockdev_write t pid copyin kmem p minor src off n x = Some (r, x') /\ inv t (mkRun x' []) /\ write_ends x x' minor src off n' r.
Proof.
  intros Q Hm Hs Hsn Hn N H0 Hlim Ho Ha n'. unfold blockdev_write. rewrite (clip_spec t p minor src off n x) by (unfold KERNBASE in *; first [done|lia|by right]). fold N. fold n'.
  assert (Hn' : 0 <= n' < 2147483648) by lia. rewrite (u32_small n') by (unfold is_u32; lia).
  destruct (write_loop_spec N minor src n' Ha ltac:(unfold BSIZE in *; lia) Hn' Hs ltac:(lia) (S (Z.to_nat n')) x off 0 Q) as (r & x' & E & I & r' & Er & He); try lia.
  exists r, x'. split; [done|]. split; [done|]. rewrite Z.sub_0_r, Z.add_0_r in *. replace r with r' by (destruct (Z.eqb_spec r' n'); congruence). done.
Qed.
End Writing.

(** ** The device file *)

Section Claims.
Context {D : Type} (t : bdevtable D) `{St : !Storage D t} (pid : Z).

(** C26.  [blockdev_read] of a device below 4 GB returns, and delivers exactly
    the current bytes of the device from [off] on, clipped at its end; it fails
    only where a block has the error flag or [copyout] fails, with the bytes
    before that delivered; and it changes no block. *)
Theorem blockdev_read_exact copyout p minor dst off n x : quiet t x -> dst <> 0 -> 0 <= minor < NDEV -> p = true \/ KERNBASE <= dst -> 0 <= n < 2147483648 ->
  let N := bdev_nblocks t (dev_st x) minor in
  0 <= N -> N * BSIZE < 4294967296 -> 0 <= off <= N * BSIZE -> answers t pid minor N ->
  let n' := Z.min n (N * BSIZE - off) in
  exists r out x', blockdev_read t pid copyout p minor dst off n x = Some ((r, out), x') /\ quiet t x' /\ same_content t x x' /\
    read_ends t copyout x x' minor dst off n' 0 r out.
Proof. apply blockdev_read_spec. Qed.

(** C27.  [blockdev_write] from kernel memory to a device below 4 GB returns;
    when it returns the clipped count, exactly those bytes of the device have
    the source's bytes and no other byte of any device has changed; when it
    returns -1 that holds of a prefix, and a block of the range has the error
    flag.  The cache stays coherent in both cases. *)
Theorem blockdev_write_exact copyin kmem p minor src off n x : quiet t x -> 0 <= minor < NDEV -> KERNBASE <= src -> src + n <= 4294967296 -> 0 <= n < 2147483648 ->
  let N := bdev_nblocks t (dev_st x) minor in
  0 <= N -> N * BSIZE < 4294967296 -> 0 <= off <= N * BSIZE -> answers t pid minor N ->
  let n' := Z.min n (N * BSIZE - off) in
  exists r x', blockdev_write t pid copyin kmem p minor src off n x = Some (r, x') /\ inv t (mkRun x' []) /\ write_ends t kmem x x' minor src off n' r.
Proof. apply blockdev_write_spec. Qed.
End Claims.

(** The limit wraps at 32 bits: of a device whose size is a multiple of
    4 GB nothing beyond offset 0 can be read or written. *)
Theorem blockdev_limit_wraps {D} (t : bdevtable D) pid copyout copyin kmem p minor addr off n x q :
  bdev_nblocks t (dev_st x) minor = q * 8388608 -> 0 < off ->
  blockdev_read t pid copyout p minor addr off n x = Some ((-1, []), x) /\
  blockdev_write t pid copyin kmem p minor addr off n x = Some (-1, x).
Proof.
  intros E Ho. assert (C : blockdev_clip t p minor addr off n x = None).
  { unfold blockdev_clip, blockdev_limit. destruct (_ || _ || _); [done|]. destruct (_ && _); [done|]. rewrite E.
    replace (q * 8388608 *u BSIZE) with 0 by (unfold u32, BSIZE; replace (q * 8388608 * 512) with (q * 4294967296) by lia; by rewrite Z.mod_mul).
    by rewrite (proj2 (Z.gtb_lt off 0) Ho). }
  unfold blockdev_read, blockdev_write. by rewrite C.
Qed.

(** ** Partitions *)

(** A driver that answers only for the blocks [lo], ..., [hi]-1 of [dev]. *)
Definition fenced {D} (dev lo hi : Z) (rw : Z -> buf -> PM D (Z * buf)) (pid : Z) (b : buf) : PM D (Z * buf) := fun s =>
  if (b_dev b =? dev) && (lo <=? b_blockno b) && (b_blockno b <? hi) then rw pid b s else None.

(** A transfer on a partition asks the driver of the parent for a block
    inside the partition and for nothing else, and the buffer comes back with the
    partition's identity. *)
Theorem partition_confined {D} (t : bdevtable D) pid b s o rw parent first size : b_dev b < NDEV ->
  t (b_dev b) = mkDev (Some o) parent first size true -> o_rw o = Some rw ->
  0 <= first -> first + size <= 4294967296 -> 0 <= b_blockno b ->
  bdevrw t pid b s =
    bdevrw (set_dev t (b_dev b) (mkDev (Some (mkOps (Some (fenced parent first (first + size) rw)) (o_nblocks o))) parent first size true)) pid b s /\
  forall r b' s', bdevrw t pid b s = Some ((r, b'), s') -> b_dev b' = b_dev b /\ b_blockno b' = b_blockno b.
Proof.
  intros Hd Et Er Hf Hs Hb. split.
  - unfold bdevrw, bdev_route. unfold set_dev. rewrite Et, Z.eqb_refl. cbn [d_ops o_rw d_is_part negb d_nblocks d_parent d_start]. rewrite Er.
    destruct (b_dev b >=? NDEV); [done|]. destruct (Z.geb_spec (b_blockno b) size) as [|Hlt]; [done|].
    rewrite (u32_small (b_blockno b + first)) by (unfold is_u32; lia). unfold fenced. cbn [b_dev b_blockno set_ident]. rewrite Z.eqb_refl.
    by replace (true && (first <=? b_blockno b + first) && (b_blockno b + first <? first + size)) with true by lia.
  - intros r b' s'. unfold bdevrw. destruct (bdev_route t b) as [[[f pd] pn]|]; [destruct (f _ _ _) as [[[r0 b0] s0]|]; [|done]|]; intros E; injection E as <- <- <-; done.
Qed.

Module OnMemDisk.
Import MemRun.

Lemma mem_nblocks s : bdev_nblocks (mem_table 1000) s 1 = 1000.
Proof. done. Qed.

Lemma mem_answers pid : answers (mem_table 1000) pid 1 1000.
Proof.
  intros b d Ed Hn Hl Hw. unfold bdevrw, bdev_route. rewrite Ed. cbn. replace (set_ident 1 (b_blockno b) b) with b by (rewrite <- Ed; by destruct b).
  unfold memide_backend_rw. rewrite Hl, bool_decide_true, Ed by done. cbn [negb Z.eqb Pos.eqb].
  replace (valid b && negb (dirty b)) with false by (destruct Hw as [->| ->]; [by rewrite andb_false_r|done]).
  destruct (Z.geb_spec (b_blockno b) 1000); [lia|]. destruct (dirty b); eauto.
Qed.

Lemma boot_quiet : quiet (mem_table 1000) (r_bio (boot image)).
Proof.
  split; [exact (boot_inv (mem_table 1000) image image_blocks)|]. destruct (bc_buf (binit zeroed) !! 0%nat) as [b|] eqn:E.
  - exists 0%nat, b. split; [exact E|]. by destruct (binit_fields 0 b E) as (_ & _ & -> & _).
  - apply lookup_ge_None in E. rewrite (bk_len _ _ _ (binit_spec zeroed eq_refl zeroed_unused)) in E. unfold NBUF in E. lia.
Qed.

Lemma blockdev_read_exact_witness : exists r out x', blockdev_read (mem_table 1000) 1 (fun _ _ => true) true 1 4096 700 2000 (r_bio (boot image)) = Some ((r, out), x') /\
  same_content (mem_table 1000) (r_bio (boot image)) x'.
Proof.
  generalize boot_quiet. generalize (r_bio (boot image)) as x. intros x Q.
  destruct (blockdev_read_exact (mem_table 1000) 1 (fun _ _ => true) true 1 4096 700 2000 x Q) as (r & out & x' & E & _ & C & _);
    [lia|unfold NDEV; lia|by left|lia|rewrite mem_nblocks; lia|rewrite mem_nblocks; unfold BSIZE; lia|rewrite mem_nblocks; unfold BSIZE; lia|apply mem_answers|]. by exists r, out, x'.
Defined.

Lemma blockdev_write_exact_witness : exists r x', blockdev_write (mem_table 1000) 1 (fun _ _ => (true, [])) (fun _ => 9) true 1 KERNBASE 700 2000 (r_bio (boot image)) = Some (r, x') /\
  inv (mem_table 1000) (mkRun x' []).
Proof.
  generalize boot_quiet. generalize (r_bio (boot image)) as x. intros x Q.
  destruct (blockdev_write_exact (mem_table 1000) 1 (fun _ _ => (true, [])) (fun _ => 9) true 1 KERNBASE 700 2000 x Q) as (r & x' & E & I & _);
    [unfold NDEV; lia|lia|unfold KERNBASE; lia|lia|rewrite mem_nblocks; lia|rewrite mem_nblocks; unfold BSIZE; lia|rewrite mem_nblocks; unfold BSIZE; lia|apply mem_answers|]. by exists r, x'.
Defined.

Lemma blockdev_limit_wraps_witness : blockdev_read (mem_table 8388608) 1 (fun _ _ => true) true 1 4096 512 512 (r_bio (boot image)) = Some ((-1, []), r_bio (boot image)).
Proof. apply (blockdev_limit_wraps (mem_table 8388608) 1 (fun _ _ => true) (fun _ _ => (true, [])) (fun _ => 0) true 1 4096 512 512 (r_bio (boot image)) 1); [reflexivity|lia]. Defined.

(** Partition 2: 100 blocks of disk 1 from block 63 on. *)
Definition part_table : bdevtable memdisk := snd (bdev_register_part 2 1 63 100 (mem_table 1000)).
Definition part_buf : buf := mkBuf B_INHASH 2 5 (Some 1) 1 0 0 None (replicate 512 0).

Lemma partition_confined_witness : forall r b' s', bdevrw part_table 1 part_buf image = Some ((r, b'), s') -> b_dev b' = 2 /\ b_blockno b' = 5.
Proof.
  destruct (partition_confined part_table 1 part_buf image (memide_bdev_ops 1000) (memide_backend_rw 1000) 1 63 100) as [_ H];
    [reflexivity|reflexivity|reflexivity|lia|lia|cbn; lia|]. exact H.
Defined.
End OnMemDisk.
