(* ===== verification/Umalloc.v ===== *)
(** * The heap of the C library: [src/libc/umalloc.c]

    The allocator keeps its free blocks in a ring in order of address, through
    the static header [base]; a block is a header of eight bytes (the next free
    block, the size in units of eight bytes) and its data, in one memory.  [sbrk]
    is the system call, with the contract of the class [Kernel]. *)

From S2P Require Import Prelude NetBytes ByteMem.

(** [freep] and the end of the data segment, beside the memory. *)
Record uheap := mkU { um : Z -> Z; freep : Z; brk : Z }.

Definition HDR : Z := 8.
Definition MORECORE_MIN_HEADERS : Z := 512.

Definition ptr_at (m : Z -> Z) (p : Z) : Z := load32 m p.
Definition size_at (m : Z -> Z) (p : Z) : Z := load32 m (p + 4).
Definition set_ptr (m : Z -> Z) (p v : Z) : Z -> Z := store32 m p v.
Definition set_size (m : Z -> Z) (p v : Z) : Z -> Z := store32 m (p + 4) v.

(** [p + n] for a [Header *p]. *)
Definition hdr_add (p n : Z) : Z := p +u HDR *u n.

Class Kernel := {
  sbrk : Z -> uheap -> Z * uheap;
  sbrk_ok n u : 0 < n < 2147483648 -> sbrk n u = (4294967295, u) \/
    exists m, sbrk n u = (brk u, mkU m (freep u) (brk u + n)) /\ brk u + n <= KERNBASE /\ forall x, x < brk u -> m x = um u x
}.

Section Alloc.
Context `{K : Kernel} (base : Z).

(** The search of [free] for the place of [bp]. *)
Fixpoint free_scan (fuel : nat) (m : Z -> Z) (bp p : Z) : option Z :=
  match fuel with
  | O => None
  | S fuel =>
      let q := ptr_at m p in
      if (bp >? p) && (bp <? q) then Some p
      else if (p >=? q) && ((bp >? p) || (bp <? q)) then Some p
      else free_scan fuel m bp q
  end.

(** More than the number of headers below the break. *)
Definition ring_fuel (u : uheap) : nat := Z.to_nat (brk u / HDR + 3).

(** The part of [free] after the search. *)
Definition free_join (m : Z -> Z) (bp p : Z) : Z -> Z :=
  let q := ptr_at m p in
  let m1 :=
    if hdr_add bp (size_at m bp) =? q then
      let m := set_size m bp (size_at m bp +u size_at m q) in
      set_ptr m bp (ptr_at m q)
    else set_ptr m bp q in
  if hdr_add p (size_at m1 p) =? bp then
    let m := set_size m1 p (size_at m1 p +u size_at m1 bp) in
    set_ptr m p (ptr_at m bp)
  else set_ptr m1 p bp.

Definition free (ap : Z) (u : uheap) : option uheap :=
  if ap =? 0 then Some u
  else
    let bp := ap -u HDR in
    match free_scan (ring_fuel u) (um u) bp (freep u) with
    | None => None
    | Some p => Some (mkU (free_join (um u) bp p) p (brk u))
    end.

(** The argument of [sbrk] for [nu] units, an [int]. *)
Definition sbrk_request (nu : Z) : Z := s32 (nu *u HDR).

Definition morecore (nu : Z) (u : uheap) : option (Z * uheap) :=
  let nu := if nu <? MORECORE_MIN_HEADERS then MORECORE_MIN_HEADERS else nu in
  let (p, u) := sbrk (sbrk_request nu) u in
  if p =? 4294967295 then Some (0, u)
  else
    match free (p +u HDR) (mkU (set_size (um u) p nu) (freep u) (brk u)) with
    | None => None
    | Some u => Some (freep u, u)
    end.

(** [n] units of the free block [p], whose predecessor is [prevp]. *)
Definition take_units (n prevp p : Z) (u : uheap) : Z * uheap :=
  let m := um u in
  if size_at m p =? n then (p +u HDR, mkU (set_ptr m prevp (ptr_at m p)) prevp (brk u))
  else
    let m := set_size m p (size_at m p -u n) in
    let q := hdr_add p (size_at m p) in
    (q +u HDR, mkU (set_size m q n) prevp (brk u)).

Fixpoint malloc_loop (fuel : nat) (n prevp p : Z) (u : uheap) : option (Z * uheap) :=
  match fuel with
  | O => None
  | S fuel =>
      if size_at (um u) p >=? n then Some (take_units n prevp p u)
      else if p =? freep u then
        match morecore n u with
        | None => None
        | Some (p, u) => if p =? 0 then Some (0, u) else malloc_loop fuel n p (ptr_at (um u) p) u
        end
      else malloc_loop fuel n p (ptr_at (um u) p) u
  end.

Definition units (nbytes : Z) : Z := (nbytes +u (HDR - 1)) / HDR +u 1.

(** The ring before the first call of [malloc]. *)
Definition start_ring (u : uheap) : uheap :=
  if freep u =? 0 then mkU (set_size (set_ptr (um u) base base) base 0) base (brk u) else u.

Definition malloc (nbytes : Z) (u : uheap) : option (Z * uheap) :=
  let n := units nbytes in
  let u := start_ring u in
  malloc_loop (ring_fuel u + ring_fuel u) n (freep u) (ptr_at (um u) (freep u)) u.

Definition realloc (ptr nbytes : Z) (u : uheap) : option (Z * uheap) :=
  if ptr =? 0 then malloc nbytes u
  else if nbytes =? 0 then match free ptr u with Some u => Some (0, u) | None => None end
  else
    let oldbytes := (size_at (um u) (ptr -u HDR) -u 1) *u HDR in
    match malloc nbytes u with
    | None => None
    | Some (new, u) =>
        if new =? 0 then Some (0, u)
        else
          let k := if oldbytes <? nbytes then oldbytes else nbytes in
          let u := mkU (write_bytes (um u) new (read_bytes (um u) ptr k)) (freep u) (brk u) in
          match free ptr u with Some u => Some (new, u) | None => None end
    end.
End Alloc.

(** ** The ring in memory *)

(** From header [x] the links lead along the blocks [l] to [y]. *)
Fixpoint fl (m : Z -> Z) (x : Z) (l : list (Z * Z)) (y : Z) : Prop :=
  match l with
  | [] => ptr_at m x = y
  | (a, s) :: l => ptr_at m x = a /\ size_at m a = s /\ fl m a l y
  end.

(** Blocks in order of address after [lo], no two of them adjacent. *)
Fixpoint asc (lo : Z) (l : list (Z * Z)) : Prop :=
  match l with
  | [] => True
  | (a, s) :: l => lo < a /\ 0 < s /\ asc (a + HDR * s) l
  end.

Fixpoint lastp (x : Z) (l : list (Z * Z)) : Z := match l with [] => x | (a, _) :: l => lastp a l end.

(** The units in the blocks [l]. *)
Definition total (l : list (Z * Z)) : Z := foldr (fun b t => snd b + t) 0 l.

Lemma total_app l1 l2 : total (l1 ++ l2) = total l1 + total l2.
Proof. unfold total. induction l1 as [|b l1 IH]; cbn [app foldr]; lia. Qed.

Lemma total_cons a s l : total ((a, s) :: l) = s + total l.
Proof. done. Qed.

(** [z] is the header of [x] or of a block of [l]. *)
Definition header_of (x : Z) (l : list (Z * Z)) (z : Z) : Prop := z = x \/ exists s, (z, s) ∈ l.

Lemma fl_app m x l1 a s l2 y : fl m x (l1 ++ (a, s) :: l2) y <-> fl m x l1 a /\ size_at m a = s /\ fl m a l2 y.
Proof. revert x; induction l1 as [|[b t] l1 IH]; intros x; cbn [app fl]; [tauto|]. rewrite IH. tauto. Qed.

Lemma fl_join m x l1 l2 y : fl m x (l1 ++ l2) y <-> fl m x l1 (match l2 with [] => y | (a, _) :: _ => a end) /\ fl m (lastp x l1) l2 y.
Proof.
  revert x; induction l1 as [|[b t] l1 IH]; intros x; cbn [app fl lastp].
  - destruct l2 as [|[a s] l2]; cbn [fl]; tauto.
  - rewrite IH. tauto.
Qed.

Lemma word_frame m m' a : (forall b, a <= b < a + 8 -> m' b = m b) -> ptr_at m' a = ptr_at m a /\ size_at m' a = size_at m a.
Proof. intros H. split; apply load_ext; intros x Hx; apply H; lia. Qed.

Lemma fl_frame m m' x l y : fl m x l y -> (forall z, header_of x l z -> ptr_at m' z = ptr_at m z) ->
  (forall z s, (z, s) ∈ l -> size_at m' z = size_at m z) -> fl m' x l y.
Proof.
  revert x; induction l as [|[a s] l IH]; intros x; cbn [fl]; intros H Hp Hs.
  - rewrite Hp; [done|by left].
  - destruct H as (E1 & E2 & H). split; [rewrite Hp; [done|by left]|]. split; [rewrite (Hs a s); [done|left]|]. apply IH; [done|..].
    + intros z Hz. apply Hp. right. destruct Hz as [->|[t Ht]]; [exists s; left|exists t; by right].
    + intros z t Hz. apply (Hs z t). by right.
Qed.

Lemma asc_in lo l a s : asc lo l -> (a, s) ∈ l -> lo < a /\ 0 < s.
Proof.
  revert lo; induction l as [|[b t] l IH]; intros lo; cbn [asc]; [by intros _ ?%elem_of_nil|]. intros (H1 & H2 & H3) [E|Hin]%elem_of_cons.
  - by injection E as -> ->.
  - destruct (IH _ H3 Hin). unfold HDR in *. lia.
Qed.

Lemma asc_weaken lo lo' l : lo' <= lo -> asc lo l -> asc lo' l.
Proof. destruct l as [|[a s] l]; cbn [asc]; [done|]. intros ? (? & ? & ?). split; [lia|done]. Qed.

Lemma asc_app lo l1 a s l2 : asc lo (l1 ++ (a, s) :: l2) <->
  asc lo l1 /\ (forall b t, (b, t) ∈ l1 -> b + HDR * t < a) /\ lo < a /\ 0 < s /\ asc (a + HDR * s) l2.
Proof.
  revert lo; induction l1 as [|[b t] l1 IH]; intros lo; cbn [app asc].
  - split; [intros (? & ? & ?); split; [done|]; split; [by intros ? ? ?%elem_of_nil|done]|tauto].
  - rewrite IH. split.
    + intros (H1 & H2 & H3 & H4 & H5 & H6 & H7). split; [done|]. split; [|unfold HDR in *; split; [lia|done]].
      intros c v [E|Hin]%elem_of_cons; [by injection E as -> ->|by apply H4].
    + intros ((H1 & H2 & H3) & H4 & H5 & H6 & H7). repeat (split; [done|]). split; [intros c v Hin; apply H4; by right|]. split; [apply H4; left|done].
Qed.

(** The blocks of [l] and a block at [b] that is apart from them. *)
Definition apart (b n : Z) (l : list (Z * Z)) : Prop := forall a s, (a, s) ∈ l -> a + HDR * s <= b \/ b + HDR * n <= a.

Lemma asc_place lo l b n : asc lo l -> apart b n l -> 0 < n ->
  exists l1 l2, l = l1 ++ l2 /\ (forall a s, (a, s) ∈ l1 -> a + HDR * s <= b) /\ (forall a s, (a, s) ∈ l2 -> b + HDR * n <= a).
Proof.
  revert lo; induction l as [|[a s] l IH]; intros lo; cbn [asc].
  - exists [], []. split; [done|]. split; by intros ? ? ?%elem_of_nil.
  - intros (H1 & H2 & H3) Hd Hn. destruct (Hd a s ltac:(left)) as [Hl|Hr].
    + destruct (IH _ H3) as (l1 & l2 & -> & G1 & G2); [intros c v Hc; apply Hd; by right|done|]. exists ((a, s) :: l1), l2. split; [done|]. split; [|done].
      intros c v [E|Hin]%elem_of_cons; [by injection E as -> ->|by apply G1].
    + exists [], ((a, s) :: l). split; [done|]. split; [by intros ? ? ?%elem_of_nil|]. intros c v [E|Hin]%elem_of_cons; [by injection E as -> ->|].
      destruct (asc_in _ _ _ _ H3 Hin). unfold HDR in *. lia.
Qed.

Lemma asc_length lo hi l : asc lo l -> (forall a s, (a, s) ∈ l -> a + HDR * s <= hi) -> lo <= hi -> HDR * Z.of_nat (length l) <= hi - lo.
Proof.
  revert lo; induction l as [|[a s] l IH]; intros lo; cbn [asc length]; [unfold HDR; lia|]. intros (H1 & H2 & H3) Hb Hlo.
  pose proof (Hb a s ltac:(left)). specialize (IH _ H3 ltac:(intros; apply Hb; by right) ltac:(done)). unfold HDR in *. lia.
Qed.

Lemma lastp_app x l a s : lastp x (l ++ [(a, s)]) = a.
Proof. revert x; induction l as [|[b t] l IH]; intros x; [done|]. apply IH. Qed.

Lemma lastp_cases x l : (l = [] /\ lastp x l = x) \/ exists l' s, l = l' ++ [(lastp x l, s)].
Proof.
  destruct (decide (l = [])) as [->|Hne]; [by left|right]. destruct (exists_last Hne) as (l' & [a s] & ->). exists l', s. by rewrite lastp_app.
Qed.

(** ** The search of [free] *)

Section Scan.
Context (base : Z).

Lemma scan_up m bp l1 l2 x fuel : fl m x (l1 ++ l2) base -> asc x (l1 ++ l2) -> base <= x < bp ->
  (forall a s, (a, s) ∈ l1 -> a < bp) -> (forall a s, (a, s) ∈ l2 -> bp < a) -> (length l1 < fuel)%nat ->
  free_scan fuel m bp x = Some (lastp x l1).
Proof.
  revert x fuel; induction l1 as [|[a s] l1 IH]; intros x [|fuel] Hf Ha Hx H1 H2 Hfu; cbn in Hfu; try lia; cbn [free_scan lastp app fl asc] in *.
  - destruct l2 as [|[b t] l2]; cbn [fl] in Hf.
    + rewrite Hf. replace ((bp >? x) && (bp <? base)) with false by lia. replace ((x >=? base) && ((bp >? x) || (bp <? base))) with true by lia. done.
    + destruct Hf as (-> & _). pose proof (H2 b t ltac:(left)). replace ((bp >? x) && (bp <? b)) with true by lia. done.
  - destruct Hf as (-> & _ & Hf). destruct Ha as (Hxa & Hs & Ha). pose proof (H1 a s ltac:(left)).
    replace ((bp >? x) && (bp <? a)) with false by lia. replace ((x >=? a) && ((bp >? x) || (bp <? a))) with false by lia.
    apply IH; [done| |lia|intros; eapply H1; by right|done|lia]. apply (asc_weaken (a + HDR * s)); [unfold HDR; lia|done].
Qed.

Lemma scan_wrap m bp r x k : fl m x r base -> asc x r -> base < bp < x ->
  free_scan (length r + S k) m bp x = free_scan k m bp base.
Proof.
  revert x; induction r as [|[a s] r IH]; intros x Hf Ha Hx; cbn [length Nat.add free_scan fl asc] in *.
  - rewrite Hf. replace ((bp >? x) && (bp <? base)) with false by lia. replace ((x >=? base) && ((bp >? x) || (bp <? base))) with false by lia. done.
  - destruct Hf as (-> & _ & Hf). destruct Ha as (Hxa & Hs & Ha). replace ((bp >? x) && (bp <? a)) with false by lia.
    replace ((x >=? a) && ((bp >? x) || (bp <? a))) with false by lia. apply IH; [done| |lia]. apply (asc_weaken (a + HDR * s)); [unfold HDR; lia|done].
Qed.

Lemma scan_more fuel k m bp p r : free_scan fuel m bp p = Some r -> (fuel <= k)%nat -> free_scan k m bp p = Some r.
Proof.
  revert k p; induction fuel as [|fuel IH]; intros [|k] p H Hk; cbn [free_scan] in *; try done; try lia.
  destruct ((bp >? p) && (bp <? ptr_at m p)); [done|]. destruct ((p >=? ptr_at m p) && ((bp >? p) || (bp <? ptr_at m p))); [done|]. apply IH; [done|lia].
Qed.

(** From any header of the ring the search ends at the block before [bp]. *)
Lemma scan_spec m bp l1 l2 f : fl m base (l1 ++ l2) base -> asc (base + 7) (l1 ++ l2) -> base + 7 < bp ->
  (forall a s, (a, s) ∈ l1 -> a < bp) -> (forall a s, (a, s) ∈ l2 -> bp < a) -> header_of base (l1 ++ l2) f ->
  free_scan (length (l1 ++ l2) + 2) m bp f = Some (lastp base l1).
Proof.
  intros Hf Ha Hb H1 H2 Hh. assert (Ha' : asc base (l1 ++ l2)) by (by apply (asc_weaken (base + 7)); [lia|]).
  assert (Hbase : forall k, (length l1 < k)%nat -> free_scan k m bp base = Some (lastp base l1)).
  { intros k Hk. apply (scan_up m bp l1 l2); [done|done|lia|done|done|done]. }
  destruct Hh as [->|[s Hin]]; [apply Hbase; rewrite length_app; lia|]. apply elem_of_app in Hin as [Hin|Hin].
  - apply list_elem_of_split in Hin as (k1 & k2 & ->). rewrite <- app_assoc in Hf, Ha. cbn [app] in Hf, Ha.
    apply fl_app in Hf as (_ & _ & Hf). apply asc_app in Ha as (_ & _ & Hf1 & Hs & Ha).
    assert (E : lastp base (k1 ++ (f, s) :: k2) = lastp f k2).
    { clear. generalize base. induction k1 as [|[b t] k1 IH]; intros x; [done|]. apply IH. }
    rewrite E. apply (scan_more (S (length k2))); [|rewrite !length_app; cbn; lia]. apply (scan_up m bp k2 l2); [done| | | |done|lia].
    + apply (asc_weaken (f + HDR * s)); [unfold HDR; lia|done].
    + pose proof (H1 f s ltac:(apply elem_of_app; right; left)). lia.
    + intros a t Hat. apply (H1 a t). apply elem_of_app. right. by right.
  - pose proof (H2 f s Hin). apply list_elem_of_split in Hin as (k1 & k2 & ->). rewrite app_assoc in Hf, Ha.
    apply fl_app in Hf as (_ & _ & Hf). apply asc_app in Ha as (_ & _ & Hf1 & Hs & Ha).
    apply (scan_more (length k2 + S (S (length l1)))); [|rewrite !length_app; cbn; lia]. rewrite (scan_wrap m bp k2 f); [apply Hbase; lia|done| |lia].
    apply (asc_weaken (f + HDR * s)); [unfold HDR; lia|done].
Qed.
End Scan.

(** ** Joining free blocks *)

(** The two memories differ at most in the header at [c]. *)
Definition only (c : Z) (m m' : Z -> Z) : Prop := forall x, ~ (c <= x < c + 8) -> m' x = m x.

Lemma hdr_only_refl c m : only c m m.
Proof. by intros x _. Qed.
Lemma hdr_only_trans c m m1 m2 : only c m m1 -> only c m1 m2 -> only c m m2.
Proof. intros H1 H2 x Hx. by rewrite H2, H1. Qed.
Lemma only_ptr c m v : only c m (set_ptr m c v).
Proof. intros x Hx. apply store_other. lia. Qed.
Lemma only_size c m v : only c m (set_size m c v).
Proof. intros x Hx. apply store_other. lia. Qed.

Lemma only_word c m m' z : only c m m' -> z + 8 <= c \/ c + 8 <= z -> ptr_at m' z = ptr_at m z /\ size_at m' z = size_at m z.
Proof. intros H Hz. apply word_frame. intros b Hb. apply H. lia. Qed.

Lemma only_fl c m m' x l y : only c m m' -> fl m x l y -> (forall z, header_of x l z -> z + 8 <= c \/ c + 8 <= z) -> fl m' x l y.
Proof.
  intros H Hf Hz. apply (fl_frame m); [done|..].
  - intros z Hh. by apply (only_word c); [|apply Hz].
  - intros z s Hin. apply (only_word c); [done|]. apply Hz. right. by exists s.
Qed.

Lemma ptr_set m c v : is_u32 v -> ptr_at (set_ptr m c v) c = v.
Proof. apply load_store. Qed.
Lemma size_set m c v : is_u32 v -> size_at (set_size m c v) c = v.
Proof. apply load_store. Qed.
Lemma size_set_ptr m c v : size_at (set_ptr m c v) c = size_at m c.
Proof. apply load_ext. intros x Hx. apply store_other. lia. Qed.
Lemma ptr_set_size m c v : ptr_at (set_size m c v) c = ptr_at m c.
Proof. apply load_ext. intros x Hx. apply store_other. lia. Qed.

Lemma hdr_add_small p n : 0 <= p -> 0 <= n -> p + HDR * n < 4294967296 -> hdr_add p n = p + HDR * n.
Proof. intros. unfold hdr_add. rewrite (u32_small (HDR * n)), u32_small; unfold is_u32, HDR in *; lia. Qed.

Section Join.
Context (base hi : Z) (Hbase : 0 < base) (Hhi : hi <= KERNBASE).

(** A ring of free blocks below [hi]. *)
Record ring_in (m : Z -> Z) (l : list (Z * Z)) : Prop := {
  ri_fl : fl m base l base;
  ri_asc : asc (base + 7) l;
  ri_end a s : (a, s) ∈ l -> a + HDR * s <= hi;
  ri_base : size_at m base = 0
}.

(** [l'] has the bytes of [l] and of the block [bp], and no others. *)
Definition covers (bp n : Z) (l l' : list (Z * Z)) : Prop :=
  forall b k, 0 < k -> apart b k l -> b + HDR * k <= bp \/ bp + HDR * n <= b -> apart b k l'.

Lemma join_right m bp n l2 p : base + 7 < bp -> 0 < n -> bp + HDR * n <= hi -> size_at m bp = n ->
  fl m p l2 base -> (forall a s, (a, s) ∈ l2 -> bp + HDR * n <= a /\ 0 < s /\ a + HDR * s <= hi) -> asc bp l2 ->
  exists m1 n' l2', (if hdr_add bp (size_at m bp) =? ptr_at m p then
      set_ptr (set_size m bp (size_at m bp +u size_at m (ptr_at m p))) bp (ptr_at (set_size m bp (size_at m bp +u size_at m (ptr_at m p))) (ptr_at m p))
    else set_ptr m bp (ptr_at m p)) = m1 /\
    only bp m m1 /\ size_at m1 bp = n' /\ n <= n' /\ bp + HDR * n' <= hi /\ fl m1 bp l2' base /\ asc (bp + HDR * n') l2' /\
    (forall x, x ∈ l2' -> x ∈ l2) /\ (length l2' <= length l2)%nat /\ n' + total l2' = n + total l2 /\ covers bp n l2 ((bp, n') :: l2').
Proof.
  intros Hb Hn He Hs Hf H2 Ha. unfold HDR, KERNBASE in *. rewrite Hs, hdr_add_small by (unfold HDR; lia). unfold HDR.
  destruct l2 as [|[a s] l2]; cbn [fl asc] in *.
  - rewrite Hf. rewrite (proj2 (Z.eqb_neq _ _)) by lia. eexists _, n, []. split; [done|]. split; [apply only_ptr|]. split; [by rewrite size_set_ptr|].
    split; [lia|]. split; [lia|]. split; [apply ptr_set; unfold is_u32; lia|]. split; [done|]. split; [done|]. split; [done|]. split; [done|].
    intros b k Hk _ Hd c t [E|E%elem_of_nil]%elem_of_cons; [|done]. injection E as -> ->. unfold HDR in *. lia.
  - destruct Hf as (-> & Es & Hf). destruct Ha as (Hba & Hs0 & Ha). destruct (H2 a s ltac:(left)) as (Hge & _ & Hae).
    destruct (Z.eqb_spec (bp + 8 * n) a) as [Ea|Ea].
    + rewrite Es. assert (Eu : n +u s = n + s) by (apply u32_small; unfold is_u32; lia). rewrite Eu.
      assert (O : only bp m (set_ptr (set_size m bp (n + s)) bp (ptr_at (set_size m bp (n + s)) a))) by (eapply hdr_only_trans; [apply only_size|apply only_ptr]).
      assert (Ep : ptr_at (set_size m bp (n + s)) a = ptr_at m a) by (apply (only_word bp); [apply only_size|lia]).
      eexists _, (n + s), l2. split; [done|]. split; [done|]. split; [rewrite size_set_ptr; apply size_set; unfold is_u32; lia|]. split; [lia|]. split; [lia|].
      split; [|split; [by replace (bp + 8 * (n + s)) with (a + 8 * s) by lia|split; [intros x Hx; by right|split; [cbn; lia|split; [rewrite total_cons; lia|]]]]].
      * assert (Hq : is_u32 (ptr_at m a)).
        { destruct l2 as [|[c t] l2]; cbn [fl] in Hf; [rewrite Hf|destruct Hf as (-> & _); destruct (H2 c t ltac:(right; left)) as (? & ? & ?)]; unfold is_u32; lia. }
        destruct l2 as [|[c t] l2]; cbn [fl] in *.
        -- rewrite ptr_set by (rewrite Ep; done). by rewrite Ep.
        -- destruct Hf as (E1 & E2 & Hf). rewrite ptr_set by (rewrite Ep; done). split; [by rewrite Ep|].
           assert (Hsep : forall z, header_of c l2 z -> z + 8 <= bp \/ bp + 8 <= z).
           { intros z Hz. right. destruct Ha as (Hac & Ht & Ha). destruct Hz as [->|[v Hv]]; [unfold HDR in *; lia|]. destruct (asc_in _ _ _ _ Ha Hv). unfold HDR in *. lia. }
           split; [rewrite (proj2 (only_word bp m _ c O ltac:(apply Hsep; by left))); done|]. by apply (only_fl bp m).
      * intros b k Hk Hap Hd c t [E|Hin]%elem_of_cons; [|apply Hap; by right]. injection E as -> ->.
        pose proof (Hap a s ltac:(left)). unfold HDR in *. lia.
    + assert (O : only bp m (set_ptr m bp a)) by apply only_ptr.
      eexists _, n, ((a, s) :: l2). split; [done|]. split; [done|]. split; [by rewrite size_set_ptr|]. split; [lia|]. split; [lia|].
      split; [|split; [cbn [asc]; unfold HDR in *; split; [lia|done]|split; [done|split; [done|split; [done|]]]]].
      * cbn [fl]. rewrite ptr_set by (unfold is_u32; lia). split; [done|].
        assert (Hsep : forall z, header_of a l2 z -> z + 8 <= bp \/ bp + 8 <= z).
        { intros z Hz. right. destruct Hz as [->|[v Hv]]; [unfold HDR in *; lia|]. destruct (asc_in _ _ _ _ Ha Hv). unfold HDR in *. lia. }
        split; [rewrite (proj2 (only_word bp m _ a O ltac:(apply Hsep; by left))); done|]. by apply (only_fl bp m).
      * intros b k Hk Hap Hd c t [E|Hin]%elem_of_cons; [|by apply Hap]. injection E as -> ->. unfold HDR in *. lia.
Qed.
Lemma asc_snoc lo l a s : asc lo (l ++ [(a, s)]) <-> asc lo l /\ (forall b t, (b, t) ∈ l -> b + HDR * t < a) /\ lo < a /\ 0 < s.
Proof. rewrite asc_app. cbn [asc]. tauto. Qed.

(** The headers of the blocks before [bp] are apart from its header. *)
Lemma left_sep l1 bp : asc (base + 7) l1 -> base + 7 < bp -> (forall a s, (a, s) ∈ l1 -> a + HDR * s <= bp) ->
  forall z, header_of base l1 z -> z + 8 <= bp.
Proof.
  intros Ha Hb H1 z [->|[s Hz]]; [lia|]. destruct (asc_in _ _ _ _ Ha Hz). pose proof (H1 z s Hz). unfold HDR in *. lia.
Qed.

(** A free block [p] before the free block [bp]. *)
Section Left.
Context (m1 : Z -> Z) (p sp bp n' : Z) (k l2 : list (Z * Z)).
Hypothesis Hfk : fl m1 base k p.
Hypothesis Hsp1 : size_at m1 p = sp.
Hypothesis Hs1 : size_at m1 bp = n'.
Hypothesis Hf : fl m1 bp l2 base.
Hypothesis Hb0 : size_at m1 base = 0.
Hypothesis Hak : asc (base + 7) (k ++ [(p, sp)]).
Hypothesis Hpe : p + HDR * sp <= bp.
Hypothesis Hn' : 0 < n'.
Hypothesis Ha : asc (bp + HDR * n') l2.
Hypothesis He : forall a s, (a, s) ∈ k ++ (p, sp) :: (bp, n') :: l2 -> a + HDR * s <= hi.

Lemma left_before : base + 7 < p /\ 0 < sp /\ p + 8 <= bp /\ (forall z, header_of base k z -> z + 8 <= p) /\ (forall z, header_of bp l2 z -> p + 8 <= z).
Proof.
  apply asc_snoc in Hak as (A1 & A2 & A3 & A4). assert (Hp8 : p + 8 <= bp) by (unfold HDR in *; lia). repeat (split; [done|]). split.
  - apply (left_sep k p A1 ltac:(lia)). intros a s Hin. pose proof (A2 a s Hin). lia.
  - intros z [->|[s Hin]]; [lia|]. destruct (asc_in _ _ _ _ Ha Hin). unfold HDR in *. lia.
Qed.

(** They stay two blocks. *)
Lemma link_left : p + HDR * sp <> bp -> ring_in (set_ptr m1 p bp) (k ++ (p, sp) :: (bp, n') :: l2).
Proof.
  intros Ej. destruct left_before as (Hb & Hs0 & Hp8 & Hksep & Hsep). pose proof (only_ptr p m1 bp) as O2. pose proof (He bp n' ltac:(set_solver)).
  apply asc_snoc in Hak as (A1 & A2 & _). split; [| |done|].
  - apply fl_app. split; [apply (only_fl p m1); [done|done|]; intros z Hz'; left; by apply Hksep|].
    split; [by rewrite size_set_ptr|]. cbn [fl]. split; [apply ptr_set; unfold is_u32, KERNBASE, HDR in *; lia|].
    split; [rewrite (proj2 (only_word p m1 _ bp O2 ltac:(right; lia))); done|]. apply (only_fl p m1); [done|done|]. intros z Hz'. right. by apply Hsep.
  - apply asc_app. split; [done|]. split; [done|]. split; [done|]. split; [lia|]. cbn [asc]. split; [unfold HDR in *; lia|]. split; [lia|done].
  - rewrite (proj2 (only_word p m1 _ base O2 ltac:(left; apply Hksep; by left))). done.
Qed.

(** They become one. *)
Lemma merge_left : p + HDR * sp = bp ->
  ring_in (set_ptr (set_size m1 p (sp + n')) p (ptr_at m1 bp)) (k ++ (p, sp + n') :: l2).
Proof.
  intros Ej. destruct left_before as (Hb & Hs0 & Hp8 & Hksep & Hsep). pose proof (He bp n' ltac:(set_solver)).
  set (m2 := set_size m1 p (sp + n')). pose proof (hdr_only_trans p m1 m2 _ (only_size p m1 _) (only_ptr p m2 (ptr_at m1 bp))) as O2. set (m3 := set_ptr m2 p (ptr_at m1 bp)) in *.
  assert (Hq : is_u32 (ptr_at m1 bp)).
  { destruct l2 as [|[c t] l2']; cbn [fl asc] in *; [rewrite Hf|destruct Hf as (-> & _); pose proof (He c t ltac:(set_solver))]; unfold is_u32, KERNBASE, HDR in *; lia. }
  apply asc_snoc in Hak as (A1 & A2 & _). split.
  - apply fl_app. split; [apply (only_fl p m1); [done|done|]; intros z Hz'; left; by apply Hksep|].
    split; [unfold m3; rewrite size_set_ptr; apply size_set; unfold is_u32, HDR, KERNBASE in *; lia|].
    assert (Hf' : fl m3 bp l2 base) by (apply (only_fl p m1); [done|done|]; intros z Hz; right; by apply Hsep).
    assert (E3 : ptr_at m3 p = ptr_at m3 bp) by (unfold m3 at 1; rewrite ptr_set by done; symmetry; apply (only_word p m1 m3 bp O2); by right).
    destruct l2 as [|[c t] l2']; cbn [fl] in *; by rewrite E3.
  - apply asc_app. split; [done|]. split; [done|]. split; [done|]. split; [lia|]. by replace (p + HDR * (sp + n')) with (bp + HDR * n') by (unfold HDR in *; lia).
  - intros a s [Hin|[E|Hin]%elem_of_cons]%elem_of_app; [apply He; set_solver|injection E as -> ->; unfold HDR in *; lia|apply He; set_solver].
  - rewrite (proj2 (only_word p m1 m3 base O2 ltac:(left; apply Hksep; by left))). done.
Qed.
End Left.

(** [free_join] makes [bp] part of the ring. *)
Lemma join_spec m bp n l1 l2 : ring_in m (l1 ++ l2) -> base + 7 < bp -> 0 < n -> bp + HDR * n <= hi -> size_at m bp = n ->
  (forall a s, (a, s) ∈ l1 -> a + HDR * s <= bp) -> (forall a s, (a, s) ∈ l2 -> bp + HDR * n <= a) ->
  let p := lastp base l1 in
  exists l', ring_in (free_join m bp p) l' /\ header_of base l' p /\ covers bp n (l1 ++ l2) l' /\ total l' = total (l1 ++ l2) + n /\ (exists a s, (a, s) ∈ l' /\ n <= s) /\
    (length l' <= S (length (l1 ++ l2)))%nat /\ (forall x, ~ (bp <= x < bp + 8) -> ~ (p <= x < p + 8) -> free_join m bp p x = m x).
Proof.
  intros [Hf Ha He Hz] Hb Hn Hbe Hs H1 H2 p. assert (Ep0 : p = lastp base l1) by done. clearbody p.
  apply fl_join in Hf as [Hf1 Hf2]. rewrite <- Ep0 in Hf2.
  assert (Ha1 : asc (base + 7) l1 /\ asc bp l2).
  { clear -Ha H2 Hn. revert Ha. generalize (base + 7). induction l1 as [|[b t] l1' IH]; intros lo; cbn [app asc].
    - destruct l2 as [|[a s] l2']; cbn [asc]; [done|]. intros (? & ? & ?). pose proof (H2 a s ltac:(left)). unfold HDR in *. split; [done|]. split; [lia|done].
    - intros (? & ? & H). destruct (IH _ H). done. }
  destruct Ha1 as [Ha1 Ha2].
  assert (H2' : forall a s, (a, s) ∈ l2 -> bp + HDR * n <= a /\ 0 < s /\ a + HDR * s <= hi).
  { intros a s Hin. split; [by apply (H2 a s)|]. split; [by apply (asc_in bp l2 a s)|]. apply He, elem_of_app. by right. }
  destruct (join_right m bp n l2 p Hb Hn Hbe Hs Hf2 H2' Ha2) as (m1 & n' & l2' & E1 & O1 & Hs1 & Hnn & Hbe' & Hf3 & Ha3 & Hsub & Hlen & Htot & Hcov).
  pose proof (left_sep l1 bp Ha1 Hb H1) as Hsep.
  assert (Hp8 : p + 8 <= bp).
  { apply Hsep. rewrite Ep0. destruct (lastp_cases base l1) as [[_ E]|(l' & s & E)]; [left; exact E|right]. exists s. rewrite E at 2. apply elem_of_app. right. left. }
  assert (Hp0 : 0 < p).
  { rewrite Ep0. destruct (lastp_cases base l1) as [[_ E]|(l' & s & E)]; [lia|]. assert (Hin : (lastp base l1, s) ∈ l1) by (rewrite E at 2; apply elem_of_app; right; left).
    destruct (asc_in _ _ _ _ Ha1 Hin). lia. }
  destruct (only_word bp m m1 p O1 ltac:(lia)) as [Epp Eps].
  destruct (only_word bp m m1 base O1 ltac:(lia)) as [_ Ebs].
  assert (Hsep2 : forall z, header_of bp l2' z -> p + 8 <= z).
  { intros z [->|[s Hin]]; [lia|]. destruct (H2' z s (Hsub _ Hin)). unfold HDR in *. lia. }
  unfold free_join. rewrite E1. cbv zeta. rewrite Hs1, Eps.
  destruct (lastp_cases base l1) as [[-> Ep]|(k & sp & El)].
  - (* nothing before [bp] *)
    cbn [lastp] in Ep, Ep0. subst p. rewrite Hz, hdr_add_small by (unfold HDR, KERNBASE in *; lia).
    rewrite (proj2 (Z.eqb_neq _ _)) by (unfold HDR; lia). pose proof (only_ptr base m1 bp) as O2.
    exists ((bp, n') :: l2'). split; [|split; [by left|split; [exact Hcov|split; [rewrite total_cons; cbn [app]; lia|split; [exists bp, n'; split; [left|done]|split; [cbn; lia|]]]]]].
    + split.
      * cbn [fl]. rewrite ptr_set by (unfold is_u32, KERNBASE, HDR in *; lia). split; [done|].
        split; [rewrite (proj2 (only_word base m1 _ bp O2 ltac:(right; lia))); done|]. apply (only_fl base m1); [done|done|]. intros z Hz'. right. by apply Hsep2.
      * cbn [asc]. split; [lia|]. split; [lia|done].
      * intros a s [E|Hin]%elem_of_cons; [by injection E as -> ->|]. by destruct (H2' a s (Hsub _ Hin)) as (_ & _ & ?).
      * by rewrite size_set_ptr, Ebs.
    + intros x Hx1 Hx2. rewrite O2 by done. by apply O1.
  - rewrite <- Ep0 in El. clear Ep0. subst l1.
    apply asc_snoc in Ha1 as (Hak & Hkp & Hbp & Hsp).
    rewrite fl_app in Hf1. destruct Hf1 as (Hfk & Esp & Hpl). rewrite Esp.
    assert (Hpe : p + HDR * sp <= bp) by (apply (H1 p sp), elem_of_app; right; left).
    rewrite hdr_add_small by (unfold HDR, KERNBASE in *; lia).
    assert (Hfk1 : fl m1 base k p).
    { apply (only_fl bp m); [done|done|]. intros z Hz'. left. apply (left_sep (k ++ [(p, sp)]) bp); [by apply asc_snoc|done|done|].
      destruct Hz' as [->|[t Ht]]; [by left|right; exists t; set_solver]. }
    assert (He' : forall a s, (a, s) ∈ k ++ (p, sp) :: (bp, n') :: l2' -> a + HDR * s <= hi).
    { intros a s [Hin|[E|[E|Hin]%elem_of_cons]%elem_of_cons]%elem_of_app; [apply He; set_solver|injection E as -> ->; apply He; set_solver|by injection E as -> ->|].
      by destruct (H2' a s (Hsub _ Hin)) as (_ & _ & ?). }
    assert (Hak1 : asc (base + 7) (k ++ [(p, sp)])) by (by apply asc_snoc).
    assert (Hcovk : covers bp n (k ++ [(p, sp)] ++ l2) (k ++ (p, sp) :: (bp, n') :: l2')).
    { intros b v Hv Hap Hd a s [Hin|[E|Hin]%elem_of_cons]%elem_of_app; [apply Hap, elem_of_app; by left|injection E as -> ->; apply Hap; set_solver|].
      apply (Hcov b v Hv); [intros c w Hcw; apply Hap; set_solver|done|done]. }
    destruct (Z.eqb_spec (p + HDR * sp) bp) as [Ej|Ej].
    + assert (Eu : sp +u n' = sp + n') by (apply u32_small; unfold is_u32, HDR, KERNBASE in *; lia). rewrite Eu.
      rewrite (proj1 (only_word p m1 _ bp (only_size p m1 (sp + n')) ltac:(right; lia))).
      pose proof (hdr_only_trans p m1 _ _ (only_size p m1 (sp + n')) (only_ptr p _ (ptr_at m1 bp))) as O2.
      exists (k ++ (p, sp + n') :: l2'). split; [apply merge_left with (sp := sp) (bp := bp); auto; lia|split; [right; exists (sp + n'); set_solver|split; [|split; [rewrite !total_app, !total_cons; change (total []) with 0; lia|split; [exists p, (sp + n'); split; [set_solver|lia]|split; [rewrite !length_app; cbn; lia|]]]]]].
      * intros b v Hv Hap Hd a s [Hin|[E|Hin]%elem_of_cons]%elem_of_app; [apply Hap; set_solver| |].
        -- injection E as -> ->. rewrite <- app_assoc in Hap. pose proof (Hcovk b v Hv Hap Hd p sp ltac:(set_solver)). pose proof (Hcovk b v Hv Hap Hd bp n' ltac:(set_solver)). unfold HDR in *. lia.
        -- rewrite <- app_assoc in Hap. apply (Hcovk b v Hv Hap Hd). set_solver.
      * intros x Hx1 Hx2. rewrite O2 by done. by apply O1.
    + pose proof (only_ptr p m1 bp) as O2.
      exists (k ++ (p, sp) :: (bp, n') :: l2'). split; [apply link_left; auto; lia|split; [right; exists sp; set_solver|split; [by rewrite <- app_assoc|split; [rewrite !total_app, !total_cons; change (total []) with 0; lia|split; [exists bp, n'; split; [set_solver|done]|split; [rewrite !length_app; cbn; lia|]]]]]].
      intros x Hx1 Hx2. rewrite O2 by done. by apply O1.
Qed.

End Join.

(** ** The heap *)

Section Heap.
Context `{Kn : Kernel} (base : Z).

(** [H]: the live buffers and their contents. *)
Record uheap_ok (u : uheap) (l : list (Z * Z)) (H : gmap Z (list Z)) : Prop := {
  uo_lim : 0 < base /\ base + 8 <= brk u <= KERNBASE;
  uo_ring : ring_in base (brk u) (um u) l;
  uo_freep : header_of base l (freep u);
  uo_blk p bs : H !! p = Some bs -> base + 16 <= p /\ p + len bs <= brk u /\ len bs mod 8 = 0 /\
    size_at (um u) (p - 8) = len bs / 8 + 1 /\ read_bytes (um u) p (len bs) = bs;
  uo_free p bs : H !! p = Some bs -> apart (p - 8) (len bs / 8 + 1) l;
  uo_disj p q bs cs : H !! p = Some bs -> H !! q = Some cs -> p <> q -> p + len bs <= q - 8 \/ q + len cs <= p - 8
}.

(** Bytes of [base] and of free blocks. *)
Definition in_free (l : list (Z * Z)) (x : Z) : Prop := base <= x < base + 8 \/ exists a s, (a, s) ∈ l /\ a <= x < a + HDR * s.

Lemma len_units (bs : list Z) : len bs mod 8 = 0 -> HDR * (len bs / 8 + 1) = len bs + 8.
Proof. intros E. pose proof (Z.div_mod (len bs) 8 ltac:(lia)). unfold HDR. lia. Qed.

Lemma buffer_apart u l H p bs x : uheap_ok u l H -> H !! p = Some bs -> in_free l x -> ~ (p - 8 <= x < p + len bs).
Proof.
  intros O Hp Hx. destruct (uo_blk _ _ _ O p bs Hp) as (H1 & H2 & H3 & _). pose proof (len_units bs H3) as E.
  destruct Hx as [Hx|(a & s & Hin & Hx)]; [lia|]. destruct (uo_free _ _ _ O p bs Hp a s Hin); lia.
Qed.

(** A buffer that is not touched. *)
Lemma buffer_kept m m' p bs : size_at m (p - 8) = len bs / 8 + 1 -> read_bytes m p (len bs) = bs ->
  (forall x, p - 8 <= x < p + len bs -> m' x = m x) -> size_at m' (p - 8) = len bs / 8 + 1 /\ read_bytes m' p (len bs) = bs.
Proof.
  intros E1 E2 Hm. pose proof (len_nonneg bs). split.
  - rewrite <- E1. apply load_ext. intros x Hx. apply Hm. lia.
  - rewrite <- E2 at 2. apply read_ext. intros x Hx. apply Hm. lia.
Qed.

Lemma ring_length u l H : uheap_ok u l H -> (length l + 2 <= ring_fuel u)%nat.
Proof.
  intros O. destruct (uo_lim _ _ _ O) as (H0 & Hb & Hk). pose proof (asc_length _ (brk u) l (ri_asc _ _ _ _ (uo_ring _ _ _ O)) (ri_end _ _ _ _ (uo_ring _ _ _ O)) ltac:(lia)) as E.
  unfold ring_fuel, HDR in *. assert (Z.of_nat (length l) <= brk u / 8) by (apply Z.div_le_lower_bound; lia). lia.
Qed.

Lemma header_free l z x : asc (base + 7) l -> header_of base l z -> z <= x < z + 8 -> in_free l x.
Proof.
  intros Ha [->|[s Hin]] Hx; [by left|right]. exists z, s. split; [done|]. destruct (asc_in _ _ _ _ Ha Hin). unfold HDR. lia.
Qed.

Lemma lastp_header (k r : list (Z * Z)) : header_of base (k ++ r) (lastp base k).
Proof.
  destruct (lastp_cases base k) as [[_ ->]|(l' & s & E)]; [by left|right]. exists s. rewrite E at 2. set_solver.
Qed.

(** A block outside the ring joins it. *)
Lemma free_block u l bp n : 0 < base -> base + 8 <= brk u <= KERNBASE -> ring_in base (brk u) (um u) l -> header_of base l (freep u) ->
  (length l + 2 <= ring_fuel u)%nat -> base + 7 < bp -> 0 < n -> bp + HDR * n <= brk u -> size_at (um u) bp = n -> apart bp n l ->
  exists m' p l', free (bp + HDR) u = Some (mkU m' p (brk u)) /\ ring_in base (brk u) m' l' /\ header_of base l' p /\ covers bp n l l' /\ total l' = total l + n /\
    (exists a s, (a, s) ∈ l' /\ n <= s) /\ (length l' <= S (length l))%nat /\ (forall x, ~ (bp <= x < bp + 8) -> ~ in_free l x -> m' x = um u x).
Proof.
  intros H0 Hk R Hfp Hfu Hb Hn He Hs Hap.
  destruct (asc_place _ l bp n (ri_asc _ _ _ _ R) Hap Hn) as (l1 & l2 & -> & H1 & H2).
  assert (Hscan : free_scan (ring_fuel u) (um u) bp (freep u) = Some (lastp base l1)).
  { apply (scan_more (length (l1 ++ l2) + 2)); [|done]. apply (scan_spec base); [apply R|apply R|done| | |done].
    - intros a s Hin. pose proof (H1 a s Hin). assert (0 < s) by (apply (asc_in _ (l1 ++ l2) a s (ri_asc _ _ _ _ R)); set_solver). unfold HDR in *. lia.
    - intros a s Hin. pose proof (H2 a s Hin). unfold HDR in *. lia. }
  destruct (join_spec base (brk u) H0 ltac:(lia) (um u) bp n l1 l2 R Hb Hn He Hs H1 H2) as (l' & R' & Hp & Hc & Htot & Hbig & Hlen & Hm).
  exists (free_join (um u) bp (lastp base l1)), (lastp base l1), l'. split.
  - unfold free. rewrite (proj2 (Z.eqb_neq _ _)) by (unfold HDR; lia).
    replace (bp + HDR -u HDR) with bp by (replace (bp + HDR - HDR) with bp by lia; symmetry; apply u32_small; unfold is_u32, KERNBASE, HDR in *; lia). by rewrite Hscan.
  - split; [done|]. split; [done|]. split; [done|]. split; [done|]. split; [done|]. split; [done|]. intros x Hx Hin. apply Hm; [done|]. intros Hx'. apply Hin.
    apply (header_free _ (lastp base l1)); [apply R|apply lastp_header|done].
Qed.

Lemma free_spec u l H ap bs : uheap_ok u l H -> H !! ap = Some bs ->
  exists u' l', free ap u = Some u' /\ uheap_ok u' l' (delete ap H) /\ brk u' = brk u /\ total l' = total l + (len bs / 8 + 1).
Proof.
  intros O Hap. destruct (uo_lim _ _ _ O) as (H0 & Hk). destruct (uo_blk _ _ _ O ap bs Hap) as (B1 & B2 & B3 & B4 & _).
  pose proof (len_units bs B3) as Eu. pose proof (len_nonneg bs). assert (Hn : 0 < len bs / 8 + 1) by (pose proof (Z.div_pos (len bs) 8); lia).
  destruct (free_block u l (ap - 8) (len bs / 8 + 1) H0 Hk (uo_ring _ _ _ O) (uo_freep _ _ _ O) (ring_length _ _ _ O) ltac:(lia) Hn ltac:(lia) B4 (uo_free _ _ _ O ap bs Hap))
    as (m' & p & l' & E & R' & Hp & Hc & Htot & _ & _ & Hm). replace (ap - 8 + HDR) with ap in E by (unfold HDR; lia).
  exists (mkU m' p (brk u)), l'. split; [done|]. split; [|done]. split; cbn [um freep brk]; [done|done|done|..].
  - intros q cs Hq. apply lookup_delete_Some in Hq as [Hne Hq]. destruct (uo_blk _ _ _ O q cs Hq) as (C1 & C2 & C3 & C4 & C5).
    split; [done|]. split; [done|]. split; [done|]. apply (buffer_kept (um u)); [done|done|]. intros x Hx. apply Hm.
    + pose proof (len_nonneg bs). destruct (uo_disj _ _ _ O ap q bs cs Hap Hq ltac:(done)); lia.
    + intros Hin. by apply (buffer_apart _ _ _ _ _ _ O Hq Hin).
  - intros q cs Hq. apply lookup_delete_Some in Hq as [Hne Hq]. destruct (uo_blk _ _ _ O q cs Hq) as (C1 & C2 & C3 & _). pose proof (len_units cs C3).
    apply Hc; [pose proof (Z.div_pos (len cs) 8 (len_nonneg cs)); lia|by apply (uo_free _ _ _ O q)|]. destruct (uo_disj _ _ _ O ap q bs cs Hap Hq ltac:(done)); lia.
  - intros q r cs ds Hq Hr. apply lookup_delete_Some in Hq as [_ Hq], Hr as [_ Hr]. by apply (uo_disj _ _ _ O q r).
Qed.

(** [morecore] adds a block of at least [n] units, or fails and changes nothing. *)
Lemma morecore_spec u l H n : uheap_ok u l H -> 0 < n <= 268435455 ->
  (morecore n u = Some (0, u) /\ sbrk (HDR * Z.max 512 n) u = (4294967295, u)) \/
  exists u' l', morecore n u = Some (freep u', u') /\ uheap_ok u' l' H /\ (length l' <= S (length l))%nat /\ (exists a s, (a, s) ∈ l' /\ n <= s) /\
    total l' = total l + Z.max 512 n /\ brk u' = brk u + HDR * Z.max 512 n.
Proof.
  intros O Hn. destruct (uo_lim _ _ _ O) as (H0 & Hk). unfold morecore. set (nu := if n <? MORECORE_MIN_HEADERS then MORECORE_MIN_HEADERS else n).
  assert (Hnu : n <= nu /\ 0 < nu <= 268435455 /\ Z.max 512 n = nu) by (unfold nu, MORECORE_MIN_HEADERS; destruct (Z.ltb_spec n 512); lia). clearbody nu.
  destruct Hnu as (Hnu1 & Hnu & ->). rewrite (Z.mul_comm HDR nu).
  unfold sbrk_request. rewrite (u32_small (nu * HDR)), s32_id by (unfold is_u32, HDR; lia).
  destruct (sbrk_ok (nu * HDR) u ltac:(unfold HDR; lia)) as [E|(m & -> & Hbk & Hm)]; [left; by rewrite E|right].
  rewrite (proj2 (Z.eqb_neq (brk u) 4294967295)) by (unfold KERNBASE in *; lia).
  rewrite (u32_small (brk u + HDR)) by (unfold is_u32, KERNBASE, HDR in *; lia). cbn [um freep brk].
  set (u1 := mkU (set_size m (brk u) nu) (freep u) (brk u + nu * HDR)).
  assert (Hlow : forall x, x < brk u -> um u1 x = um u x) by (intros x Hx; cbn; rewrite <- Hm by done; apply store_other; lia).
  assert (Hhdr : forall z, header_of base l z -> z + 8 <= brk u).
  { intros z [->|[s Hin]]; [lia|]. pose proof (ri_end _ _ _ _ (uo_ring _ _ _ O) z s Hin). destruct (asc_in _ _ _ _ (ri_asc _ _ _ _ (uo_ring _ _ _ O)) Hin). unfold HDR in *. lia. }
  assert (Hw : forall z, header_of base l z -> ptr_at (um u1) z = ptr_at (um u) z /\ size_at (um u1) z = size_at (um u) z).
  { intros z Hz. apply word_frame. intros x Hx. apply Hlow. pose proof (Hhdr z Hz). lia. }
  assert (R1 : ring_in base (brk u1) (um u1) l).
  { destruct (uo_ring _ _ _ O) as [F A E B]. split; [|done| |].
    - apply (fl_frame (um u)); [done|intros z Hz; by apply Hw|]. intros z s Hin. apply Hw. right. by exists s.
    - intros a s Hin. cbn. pose proof (E a s Hin). unfold HDR in *. lia.
    - rewrite (proj2 (Hw base ltac:(by left))). done. }
  destruct (free_block u1 l (brk u) nu H0) as (m' & p & l' & E & R' & Hp & Hc & Htot & (a & s & Hin & Has) & Hlen & Hm'); [cbn; unfold HDR in *; lia|done|apply O| | | | | | |].
  { pose proof (ring_length _ _ _ O). unfold ring_fuel in *. cbn [brk u1]. assert (brk u / HDR <= (brk u + nu * HDR) / HDR) by (apply Z.div_le_mono; unfold HDR; lia). lia. }
  { lia. } { lia. } { cbn. unfold HDR in *. lia. } { cbn. apply size_set. unfold is_u32. lia. }
  { intros c v Hcv. left. pose proof (ri_end _ _ _ _ (uo_ring _ _ _ O) c v Hcv). done. }
  change (mkU (set_size m (brk u) nu) (freep u) (brk u + nu * HDR)) with u1. rewrite E. exists (mkU m' p (brk u1)), l'. split; [done|].
  split; [|split; [done|split; [exists a, s; split; [done|lia]|split; [done|cbn; lia]]]]. split; cbn [um freep brk]; [cbn; unfold HDR in *; lia|done|done|..].
  - intros q cs Hq. destruct (uo_blk _ _ _ O q cs Hq) as (C1 & C2 & C3 & C4 & C5). split; [done|]. split; [cbn; unfold HDR; lia|]. split; [done|].
    apply (buffer_kept (um u)); [done|done|]. intros x Hx. rewrite <- Hlow by lia. apply Hm'; [lia|]. intros Hf. by apply (buffer_apart _ _ _ _ _ _ O Hq Hf).
  - intros q cs Hq. destruct (uo_blk _ _ _ O q cs Hq) as (C1 & C2 & C3 & _). pose proof (len_units cs C3).
    apply Hc; [pose proof (Z.div_pos (len cs) 8 (len_nonneg cs)); lia|by apply (uo_free _ _ _ O q)|]. left. lia.
  - apply (uo_disj _ _ _ O).
Qed.
(** ** Taking a block *)

Lemma asc_drop lo l1 a s l2 : asc lo (l1 ++ (a, s) :: l2) -> asc lo (l1 ++ l2).
Proof.
  intros Ha. apply asc_app in Ha as (H1 & H2 & H3 & H4 & H5). destruct l2 as [|[b t] l2]; [by rewrite app_nil_r|]. cbn [asc] in H5.
  apply asc_app. split; [done|]. unfold HDR in *. split; [intros c v Hc; pose proof (H2 c v Hc); lia|]. split; [lia|]. split; [lia|apply H5].
Qed.

(** The headers of the ring are eight bytes apart. *)
Lemma headers_apart l z z' : asc (base + 7) l -> header_of base l z -> header_of base l z' -> z <> z' -> z + 8 <= z' \/ z' + 8 <= z.
Proof.
  intros Ha Hz Hz' Hne.
  assert (G : forall a s b t, (a, s) ∈ l -> (b, t) ∈ l -> a < b -> a + 8 <= b).
  { clear -Ha. revert Ha. generalize (base + 7). induction l as [|[c v] l IH]; intros lo; cbn [asc]; [by intros _ ? ? ? ? ?%elem_of_nil|].
    intros (H1 & H2 & H3) a s b t Hin1 Hin2 Hlt. apply elem_of_cons in Hin1 as [E1|Hin1], Hin2 as [E2|Hin2].
    - injection E1 as -> ->. injection E2 as -> ->. lia.
    - injection E1 as -> ->. destruct (asc_in _ _ _ _ H3 Hin2). unfold HDR in *. lia.
    - injection E2 as -> ->. destruct (asc_in _ _ _ _ H3 Hin1). unfold HDR in *. lia.
    - by apply (IH _ H3 a s b t). }
  destruct Hz as [->|[s Hs]], Hz' as [->|[s' Hs']]; [done| | |].
  - destruct (asc_in _ _ _ _ Ha Hs'). lia.
  - destruct (asc_in _ _ _ _ Ha Hs). lia.
  - destruct (Z.lt_total z z') as [?|[->|?]]; [left; by apply (G z s z' s')|done|right; by apply (G z' s' z s)].
Qed.

Lemma take_exact u l1 a s l2 H : uheap_ok u (l1 ++ (a, s) :: l2) H ->
  let m := set_ptr (um u) (lastp base l1) (ptr_at (um u) a) in
  ring_in base (brk u) m (l1 ++ l2) /\ size_at m a = s /\ header_of base (l1 ++ l2) (lastp base l1) /\
  forall x, ~ in_free (l1 ++ (a, s) :: l2) x -> m x = um u x.
Proof.
  intros O m. destruct (uo_ring _ _ _ O) as [F A E B]. pose proof (uo_lim _ _ _ O) as (H0 & Hk). set (p := lastp base l1) in *.
  assert (Hp : header_of base (l1 ++ (a, s) :: l2) p) by apply lastp_header.
  assert (Hpa : p <> a).
  { apply asc_app in A as (A1 & A2 & A3 & _). unfold p. destruct (lastp_cases base l1) as [[_ ->]|(k & t & Ek)]; [lia|]. intros Ea.
    assert (Hin : (lastp base l1, t) ∈ l1) by (rewrite Ek at 2; set_solver). pose proof (A2 _ _ Hin). destruct (asc_in _ _ _ _ A1 Hin). unfold HDR in *. lia. }
  pose proof (only_ptr p (um u) (ptr_at (um u) a)) as Om. fold m in Om.
  assert (Hsep : forall z, header_of base (l1 ++ (a, s) :: l2) z -> z <> p -> ptr_at m z = ptr_at (um u) z /\ size_at m z = size_at (um u) z).
  { intros z Hz Hne. apply (only_word p); [done|]. by apply (headers_apart (l1 ++ (a, s) :: l2)). }
  assert (Hsz : forall z, header_of base (l1 ++ (a, s) :: l2) z -> size_at m z = size_at (um u) z).
  { intros z Hz. destruct (decide (z = p)) as [->|Hne]; [apply size_set_ptr|by apply Hsep]. }
  apply fl_app in F as (F1 & F2 & F3).
  assert (Hq : is_u32 (ptr_at (um u) a)).
  { destruct l2 as [|[c t] l2]; cbn [fl] in F3; [rewrite F3|destruct F3 as (-> & _); pose proof (E c t ltac:(set_solver)); apply asc_app in A as (_ & _ & ? & ? & A);
      destruct A as (? & ? & _)]; unfold is_u32, KERNBASE, HDR in *; lia. }
  assert (Hl : forall b t, (b, t) ∈ l1 ++ l2 -> header_of base (l1 ++ (a, s) :: l2) b) by (intros b t Hin; right; exists t; set_solver).
  split; [split|split; [|split]].
  - apply fl_join. fold p. split.
    + assert (G : forall y, fl (um u) base l1 y -> forall v, ptr_at m p = v -> fl m base l1 v).
      { intros y Hy v Hv. destruct (lastp_cases base l1) as [[-> Ep]|(k & t & Ek)]; [exact Hv|]. fold p in Ek. rewrite Ek in Hy |- *. rewrite fl_app in Hy |- *.
        destruct Hy as (Y1 & Y2 & _). cbn [fl]. split; [|split; [rewrite Hsz; done|done]].
        apply (fl_frame (um u)); [done|..].
        - intros z Hz. apply Hsep; [destruct Hz as [->|[w Hw]]; [by left|apply (Hl z w); rewrite Ek; set_solver]|].
          assert (A' : asc (base + 7) (k ++ (p, t) :: (a, s) :: l2)) by (rewrite Ek in A; by rewrite <- app_assoc in A). apply asc_app in A' as (A1 & A2 & A3 & _).
          destruct Hz as [->|[w Hw]]; [lia|]. pose proof (A2 z w Hw). destruct (asc_in _ _ _ _ A1 Hw). unfold HDR in *. lia.
        - intros z w Hw. apply Hsz. apply (Hl z w). rewrite Ek. set_solver. }
      apply (G a F1). unfold m. rewrite ptr_set by done. destruct l2 as [|[c t] l2]; cbn [fl] in F3; [done|apply F3].
    + destruct l2 as [|[c t] l2]; cbn [fl] in *; [unfold m; by rewrite ptr_set|]. destruct F3 as (E1 & E2 & F3). split; [unfold m; by rewrite ptr_set|].
      split; [rewrite Hsz; [done|]; apply (Hl c t); set_solver|]. apply (fl_frame (um u)); [done|..].
      * intros z Hz. assert (Hz' : exists w, (z, w) ∈ (c, t) :: l2) by (destruct Hz as [->|[w Hw]]; [exists t; left|exists w; by right]). destruct Hz' as [w Hw].
        apply Hsep; [apply (Hl z w); set_solver|]. apply asc_app in A as (A1 & A2 & A3 & A4 & A5). destruct (asc_in _ _ _ _ A5 Hw).
        unfold p. destruct (lastp_cases base l1) as [[_ ->]|(k & v & Ek)]; [unfold HDR in *; lia|]. assert (Hin : (lastp base l1, v) ∈ l1) by (rewrite Ek at 2; set_solver).
        pose proof (A2 _ _ Hin). destruct (asc_in _ _ _ _ A1 Hin). unfold HDR in *. lia.
      * intros z w Hw. apply Hsz. apply (Hl z w). set_solver.
  - by apply (asc_drop _ l1 a s).
  - intros b t Hin. apply E. set_solver.
  - rewrite Hsz; [done|by left].
  - rewrite Hsz; [done|]. right. exists s. set_solver.
  - apply lastp_header.
  - intros x Hx. apply Om. intros Hx'. apply Hx. by apply (header_free _ p).
Qed.

Lemma take_split u l1 a s l2 H n : uheap_ok u (l1 ++ (a, s) :: l2) H -> 0 < n < s ->
  let q := a + HDR * (s - n) in
  let m := set_size (set_size (um u) a (s - n)) q n in
  ring_in base (brk u) m (l1 ++ (a, s - n) :: l2) /\ size_at m q = n /\ header_of base (l1 ++ (a, s - n) :: l2) (lastp base l1) /\
  forall x, ~ in_free (l1 ++ (a, s) :: l2) x -> m x = um u x.
Proof.
  intros O Hn q m. destruct (uo_ring _ _ _ O) as [F A E B]. pose proof (uo_lim _ _ _ O) as (H0 & Hk).
  pose proof (E a s ltac:(set_solver)) as Ea. pose proof A as A'. apply asc_app in A' as (A1 & A2 & A3 & A4 & A5).
  assert (Hin : forall x, (a <= x < a + 8 \/ q <= x < q + 8) -> in_free (l1 ++ (a, s) :: l2) x).
  { intros x Hx. right. exists a, s. split; [set_solver|]. unfold q, HDR in *. lia. }
  assert (Hm : forall x, ~ (a <= x < a + 8) -> ~ (q <= x < q + 8) -> m x = um u x).
  { intros x Hx1 Hx2. unfold m. rewrite (only_size q), (only_size a); done. }
  assert (Hw : forall z, header_of base (l1 ++ (a, s) :: l2) z -> z <> a -> ptr_at m z = ptr_at (um u) z /\ size_at m z = size_at (um u) z).
  { intros z Hz Hne. apply word_frame. intros x Hx. apply Hm.
    - destruct (headers_apart _ z a A Hz ltac:(right; exists s; set_solver) Hne); lia.
    - destruct Hz as [->|[t Hz]]; [unfold q, HDR; lia|]. apply elem_of_app in Hz as [Hz|[Ez|Hz]%elem_of_cons].
      + pose proof (A2 z t Hz). destruct (asc_in _ _ _ _ A1 Hz). unfold q, HDR in *. lia.
      + injection Ez as -> ->. done.
      + destruct (asc_in _ _ _ _ A5 Hz). unfold q, HDR in *. lia. }
  assert (Hl1 : forall z t, (z, t) ∈ l1 -> z <> a) by (intros z t Hz; pose proof (A2 z t Hz); destruct (asc_in _ _ _ _ A1 Hz); unfold HDR in *; lia).
  assert (Hl2 : forall z t, (z, t) ∈ l2 -> z <> a) by (intros z t Hz; destruct (asc_in _ _ _ _ A5 Hz); unfold HDR in *; lia).
  apply fl_app in F as (F1 & F2 & F3).
  assert (Hqa : ptr_at m a = ptr_at (um u) a /\ size_at m a = s - n).
  { destruct (only_word q (set_size (um u) a (s - n)) m a (only_size q _ n) ltac:(left; unfold q, HDR; lia)) as [-> ->].
    split; [apply ptr_set_size|]. apply size_set. unfold is_u32, KERNBASE, HDR in *. lia. }
  split; [split|split; [|split]].
  - apply fl_app. split; [|split; [apply Hqa|]].
    + apply (fl_frame (um u)); [done|..].
      * intros z Hz. apply Hw; [destruct Hz as [->|[t Hz]]; [by left|right; exists t; set_solver]|]. destruct Hz as [->|[t Hz]]; [lia|by apply (Hl1 z t)].
      * intros z t Hz. apply Hw; [right; exists t; set_solver|by apply (Hl1 z t)].
    + apply (fl_frame (um u)); [done|..].
      * intros z [->|[t Hz]]; [apply Hqa|]. apply Hw; [right; exists t; set_solver|by apply (Hl2 z t)].
      * intros z t Hz. apply Hw; [right; exists t; set_solver|by apply (Hl2 z t)].
  - apply asc_app. split; [done|]. split; [done|]. split; [done|]. split; [lia|]. apply (asc_weaken (a + HDR * s)); [unfold HDR; lia|done].
  - intros b t [Hb|[Eb|Hb]%elem_of_cons]%elem_of_app; [apply E; set_solver|injection Eb as -> ->; unfold HDR in *; lia|apply E; set_solver].
  - rewrite (proj2 (Hw base ltac:(by left) ltac:(lia))). done.
  - unfold m. apply size_set. unfold is_u32, KERNBASE, HDR in *. lia.
  - apply lastp_header.
  - intros x Hx. apply Hm; intros Hx'; apply Hx, Hin; auto.
Qed.

Lemma take_block u l1 a s l2 H n : uheap_ok u (l1 ++ (a, s) :: l2) H -> 0 < n <= s ->
  exists r u' l' bs, take_units n (lastp base l1) a u = (r, u') /\ r <> 0 /\ H !! r = None /\ len bs = HDR * (n - 1) /\
    uheap_ok u' l' (<[r := bs]> H) /\ total l' + n = total (l1 ++ (a, s) :: l2) /\ brk u' = brk u.
Proof.
  intros O Hn. destruct (uo_ring _ _ _ O) as [F A E B]. pose proof (uo_lim _ _ _ O) as (H0 & Hk). pose proof (E a s ltac:(set_solver)) as Ea.
  pose proof (asc_app (base + 7) l1 a s l2) as [Hs _]. destruct (Hs A) as (_ & _ & A3 & A4 & _). clear Hs.
  apply fl_app in F as (_ & Fs & _).
  assert (G : exists q m' l', take_units n (lastp base l1) a u = (q + HDR, mkU m' (lastp base l1) (brk u)) /\ a <= q /\ q + HDR * n = a + HDR * s /\
    ring_in base (brk u) m' l' /\ size_at m' q = n /\ total l' + n = total (l1 ++ (a, s) :: l2) /\ header_of base l' (lastp base l1) /\ (forall x, ~ in_free (l1 ++ (a, s) :: l2) x -> m' x = um u x) /\
    (forall b t, (b, t) ∈ l' -> (b, t) ∈ l1 ++ l2 \/ (b = a /\ a + HDR * t = q))).
  { unfold take_units. rewrite Fs. destruct (Z.eqb_spec s n) as [->|Hne].
    - destruct (take_exact u l1 a n l2 H O) as (R & Hsz & Hp & Hm). rewrite (u32_small (a + HDR)) by (unfold is_u32, KERNBASE, HDR in *; lia).
      eexists a, _, _. split; [done|]. split; [lia|]. split; [lia|]. split; [exact R|]. split; [exact Hsz|]. split; [rewrite !total_app, !total_cons; lia|]. split; [done|]. split; [done|]. by left.
    - destruct (take_split u l1 a s l2 H n O ltac:(lia)) as (R & Hsz & Hp & Hm). set (q := a + HDR * (s - n)) in *.
      assert (Es : s -u n = s - n) by (apply u32_small; unfold is_u32, KERNBASE, HDR in *; lia). rewrite Es, size_set by (unfold is_u32, KERNBASE, HDR in *; lia).
      rewrite hdr_add_small by (unfold KERNBASE, HDR in *; lia). fold q. rewrite (u32_small (q + HDR)) by (unfold q, is_u32, KERNBASE, HDR in *; lia).
      eexists q, _, _. split; [done|]. split; [unfold q, HDR; lia|]. split; [unfold q, HDR; lia|]. split; [exact R|]. split; [exact Hsz|]. split; [rewrite !total_app, !total_cons; lia|]. split; [done|]. split; [done|].
      intros b t [Hb|[Eb|Hb]%elem_of_cons]%elem_of_app; [left; set_solver|injection Eb as -> ->; right; done|left; set_solver]. }
  destruct G as (q & m' & l' & -> & Hq1 & Hq2 & R & Hsz & Htot & Hp & Hm & Hl).
  assert (Hnew : forall x, q <= x < q + HDR * n -> in_free (l1 ++ (a, s) :: l2) x) by (intros x Hx; right; exists a, s; split; [set_solver|unfold HDR in *; lia]).
  assert (Hno : H !! (q + HDR) = None).
  { destruct (H !! (q + HDR)) as [bs|] eqn:Eb; [|done]. exfalso. pose proof (len_nonneg bs). destruct (uo_blk _ _ _ O _ bs Eb) as (_ & _ & E3 & _). pose proof (len_units bs E3).
    apply (buffer_apart _ _ _ _ bs q O Eb (Hnew q ltac:(unfold HDR; lia))). unfold HDR in *. lia. }
  set (bs := read_bytes m' (q + HDR) (HDR * (n - 1))). assert (Hlen : len bs = HDR * (n - 1)) by (apply read_length; unfold HDR; lia).
  assert (Hlen8 : len bs / 8 + 1 = n /\ len bs mod 8 = 0).
  { rewrite Hlen. unfold HDR. rewrite Z.mul_comm, Z.div_mul, Z.mod_mul by lia. lia. }
  destruct Hlen8 as [Hu Hmod].
  assert (Hsep : forall p cs, H !! p = Some cs -> p + len cs <= q \/ q + HDR * n <= p - 8).
  { intros p cs Hpc. destruct (uo_blk _ _ _ O p cs Hpc) as (_ & _ & C3 & _). pose proof (len_units cs C3). pose proof (len_nonneg cs).
    destruct (uo_free _ _ _ O p cs Hpc a s ltac:(set_solver)); unfold HDR in *; lia. }
  exists (q + HDR), (mkU m' (lastp base l1) (brk u)), l', bs. split; [done|]. split; [unfold HDR; lia|]. split; [done|]. split; [done|].
  split; [|done]. split; cbn [um freep brk]; [done|done|done|..].
  - intros p cs. rewrite lookup_insert_Some. intros [[<- <-]|[Hne Hpc]].
    + rewrite Hlen. split; [unfold HDR in *; lia|]. split; [unfold HDR in *; lia|]. rewrite <- Hlen. split; [done|]. rewrite Hu.
      replace (q + HDR - 8) with q by (unfold HDR; lia). split; [done|]. unfold bs at 2. by rewrite Hlen.
    + destruct (uo_blk _ _ _ O p cs Hpc) as (C1 & C2 & C3 & C4 & C5). split; [done|]. split; [done|]. split; [done|]. apply (buffer_kept (um u)); [done|done|].
      intros x Hx. apply Hm. intros Hf. by apply (buffer_apart _ _ _ _ _ _ O Hpc Hf).
  - intros p cs. rewrite lookup_insert_Some. intros [[<- <-]|[Hne Hpc]] b t Hbt.
    + rewrite Hu. replace (q + HDR - 8) with q by (unfold HDR; lia). destruct (Hl b t Hbt) as [Hin|[-> Et]]; [|left; lia].
      apply elem_of_app in Hin as [Hin|Hin]; apply asc_app in A as (B1 & B2 & B3 & B4 & B5); [left; pose proof (B2 b t Hin); lia|right; destruct (asc_in _ _ _ _ B5 Hin); lia].
    + destruct (Hl b t Hbt) as [Hin|[-> Et]]; [apply (uo_free _ _ _ O p cs Hpc); set_solver|]. pose proof (uo_free _ _ _ O p cs Hpc a s ltac:(set_solver)).
      pose proof (ri_asc _ _ _ _ R) as Ar. destruct (asc_in _ _ _ _ Ar Hbt). unfold HDR in *. lia.
  - intros p p' cs cs'. rewrite !lookup_insert_Some. intros [[<- <-]|[Hne Hpc]] [[<- <-]|[Hne' Hpc']] Hpp; [done| | |by apply (uo_disj _ _ _ O p p')].
    + destruct (Hsep p' cs' Hpc'); unfold HDR in *; lia.
    + destruct (Hsep p cs Hpc); unfold HDR in *; lia.
Qed.

(** ** The search of [malloc] *)

(** The search along the blocks [S], none of which is [freep]. *)
Lemma walk_blocks u n l x y k : fl (um u) x l y -> (forall z s, (z, s) ∈ l -> z <> freep u) ->
  (exists l1 a s l2, l = l1 ++ (a, s) :: l2 /\ n <= s /\ malloc_loop (length l + k) n x (ptr_at (um u) x) u = Some (take_units n (lastp x l1) a u)) \/
  ((forall a s, (a, s) ∈ l -> s < n) /\ malloc_loop (length l + k) n x (ptr_at (um u) x) u = malloc_loop k n (lastp x l) y u).
Proof.
  revert x. induction l as [|[a s] l IH]; intros x Hf Hne; cbn [fl lastp length Nat.add] in *.
  - right. split; [by intros ? ? ?%elem_of_nil|]. by rewrite Hf.
  - destruct Hf as (-> & Es & Hf). cbn [malloc_loop]. rewrite Es. destruct (Z.geb_spec s n) as [Hge|Hlt].
    + left. exists [], a, s, l. done.
    + rewrite (proj2 (Z.eqb_neq _ _) (Hne a s ltac:(left))). destruct (IH a Hf ltac:(intros; eapply Hne; by right)) as [(l1 & b & t & l2 & -> & Hbt & E)|[Hsm E]].
      * left. exists ((a, s) :: l1), b, t, l2. done.
      * right. split; [|done]. intros c v [Ec|Hc]%elem_of_cons; [injection Ec as -> ->; lia|by apply (Hsm c v)].
Qed.

(** What [malloc] does after a round without success. *)
Definition after_round (k : nat) (n : Z) (u : uheap) : option (Z * uheap) :=
  match morecore n u with
  | None => None
  | Some (p, u) => if p =? 0 then Some (0, u) else malloc_loop k n p (ptr_at (um u) p) u
  end.

Lemma lastp_mid x l1 f s l2 : lastp x (l1 ++ (f, s) :: l2) = lastp f l2.
Proof. revert x; induction l1 as [|[b t] l1 IH]; intros x; [done|]. apply IH. Qed.

(** One round of the ring: the first fit after [freep], or none. *)
Lemma round_spec u l H n k : uheap_ok u l H -> 0 < n ->
  (exists l1 a s l2, l = l1 ++ (a, s) :: l2 /\ n <= s /\
     malloc_loop (length l + S k) n (freep u) (ptr_at (um u) (freep u)) u = Some (take_units n (lastp base l1) a u)) \/
  ((forall a s, (a, s) ∈ l -> s < n) /\
     malloc_loop (length l + S k) n (freep u) (ptr_at (um u) (freep u)) u = after_round k n u).
Proof.
  intros O Hn. destruct (uo_ring _ _ _ O) as [F A E B]. destruct (uo_freep _ _ _ O) as [Ef|[sf Hin]].
  - rewrite Ef in *. destruct (walk_blocks u n l base base (S k) F) as [(l1 & a & s & l2 & -> & Hs & Ew)|[Hsm Ew]].
    { intros z s Hz. rewrite Ef. destruct (asc_in _ _ _ _ A Hz). lia. }
    { left. exists l1, a, s, l2. done. }
    right. split; [done|]. rewrite Ew. cbn [malloc_loop]. rewrite B. replace (0 >=? n) with false by lia. rewrite Ef, Z.eqb_refl. done.
  - apply list_elem_of_split in Hin as (l1 & l2 & El). set (f := freep u) in *. rewrite El in *. apply asc_app in A as (A1 & A2 & A3 & A4 & A5).
    apply fl_app in F as (F1 & Fs & F2).
    assert (H2 : forall z s, (z, s) ∈ l2 -> z <> f) by (intros z s Hz; destruct (asc_in _ _ _ _ A5 Hz); unfold HDR in *; lia).
    assert (H1 : forall z s, (z, s) ∈ l1 -> z <> f) by (intros z s Hz; pose proof (A2 z s Hz); destruct (asc_in _ _ _ _ A1 Hz); unfold HDR in *; lia).
    replace (length (l1 ++ (f, sf) :: l2) + S k)%nat with (length l2 + S (length l1 + S k))%nat by (rewrite length_app; cbn; lia).
    destruct (walk_blocks u n l2 f base (S (length l1 + S k)) F2 H2) as [(k1 & a & s & k2 & -> & Hs & Ew)|[Hsm2 Ew]].
    { left. exists (l1 ++ (f, sf) :: k1), a, s, k2. split; [by rewrite <- app_assoc|]. split; [done|]. by rewrite Ew, lastp_mid. }
    rewrite Ew. cbn [malloc_loop]. rewrite B. replace (0 >=? n) with false by lia. fold f. rewrite (proj2 (Z.eqb_neq base f)) by lia.
    destruct (walk_blocks u n l1 base f (S k) F1 H1) as [(k1 & a & s & k2 & -> & Hs & Ew1)|[Hsm1 Ew1]].
    { left. exists k1, a, s, (k2 ++ (f, sf) :: l2). split; [by rewrite <- app_assoc|]. done. }
    rewrite Ew1. cbn [malloc_loop]. rewrite Fs. destruct (Z.geb_spec sf n) as [Hge|Hlt].
    { left. exists l1, f, sf, l2. done. }
    right. split; [|fold f; by rewrite Z.eqb_refl]. intros a s [Hin|[Ea|Hin]%elem_of_cons]%elem_of_app; [by apply (Hsm1 a s)|injection Ea as -> ->; lia|by apply (Hsm2 a s)].
Qed.

Lemma loop_more fuel k n p q u r : malloc_loop fuel n p q u = Some r -> (fuel <= k)%nat -> malloc_loop k n p q u = Some r.
Proof.
  revert k p q u; induction fuel as [|fuel IH]; intros [|k] p q u E Hk; cbn [malloc_loop] in *; try done; try lia.
  destruct (size_at (um u) q >=? n); [done|]. destruct (q =? freep u); [|apply IH; [done|lia]].
  destruct (morecore n u) as [[p1 u1]|]; [|done]. destruct (p1 =? 0); [done|]. apply IH; [done|lia].
Qed.

Lemma ring_fuel_le u u' : brk u <= brk u' -> (ring_fuel u <= ring_fuel u')%nat.
Proof. intros Hb. unfold ring_fuel. assert (brk u / HDR <= brk u' / HDR) by (apply Z.div_le_mono; unfold HDR; lia). lia. Qed.

(** [malloc] finds a block, or gets one from the kernel, or finds that it has none to give. *)
Lemma malloc_ring u l H n : uheap_ok u l H -> 0 < n <= 268435455 ->
  let r := malloc_loop (ring_fuel u + ring_fuel u) n (freep u) (ptr_at (um u) (freep u)) u in
  (r = Some (0, u) /\ sbrk (HDR * Z.max 512 n) u = (4294967295, u)) \/
  exists p u' l' bs, r = Some (p, u') /\ p <> 0 /\ H !! p = None /\ len bs = HDR * (n - 1) /\ uheap_ok u' l' (<[p := bs]> H) /\
    HDR * (total l' + n - total l) = brk u' - brk u.
Proof.
  intros O Hn r. pose proof (ring_length _ _ _ O) as Hf. set (k := (length l + 2)%nat).
  assert (Hmore : forall v, malloc_loop (length l + S k) n (freep u) (ptr_at (um u) (freep u)) u = Some v -> r = Some v).
  { intros v Hv. apply (loop_more (length l + S k)); [done|unfold k; lia]. }
  destruct (round_spec u l H n k O ltac:(lia)) as [(l1 & a & s & l2 & El & Hs & E)|[Hsm E]]; rewrite E in Hmore; clear E.
  - right. subst l. destruct (take_block u l1 a s l2 H n O ltac:(lia)) as (p & u' & l' & bs & E & G1 & G2 & G3 & G4 & G5 & G6).
    exists p, u', l', bs. repeat (split; [by first [apply Hmore; rewrite E|idtac]|]). lia.
  - unfold after_round in Hmore. destruct (morecore_spec u l H n O Hn) as [[E Hsb]|(u1 & l1 & E & O1 & Hl & (a & s & Hin & Hs) & Ht1 & Hb1)]; rewrite E in Hmore.
    + left. split; [by apply Hmore|done].
    + right. assert (Hfp : freep u1 <> 0).
      { pose proof (uo_lim _ _ _ O1). destruct (uo_freep _ _ _ O1) as [->|[t Ht]]; [lia|]. destruct (asc_in _ _ _ _ (ri_asc _ _ _ _ (uo_ring _ _ _ O1)) Ht). lia. }
      rewrite (proj2 (Z.eqb_neq _ _) Hfp) in Hmore.
      destruct (round_spec u1 l1 H n (k - length l1 - 1) O1 ltac:(lia)) as [(k1 & b & t & k2 & El & Ht & E1)|[Hsm1 _]]; [|by pose proof (Hsm1 a s Hin); lia].
      replace (length l1 + S (k - length l1 - 1))%nat with k in E1 by (unfold k; lia). rewrite E1 in Hmore. subst l1.
      destruct (take_block u1 k1 b t k2 H n O1 ltac:(lia)) as (p & u' & l' & bs & E2 & G1 & G2 & G3 & G4 & G5 & G6).
      exists p, u', l', bs. repeat (split; [by first [apply Hmore; rewrite E2|idtac]|]). lia.
Qed.

Lemma units_spec nbytes : 0 <= nbytes <= 2147479552 -> 0 < units nbytes <= 268435455 /\ nbytes <= HDR * (units nbytes - 1) < nbytes + 8.
Proof.
  intros Hb. unfold units, HDR. rewrite (u32_small (nbytes + (8 - 1))) by (unfold is_u32; lia). pose proof (Z.div_mod (nbytes + (8 - 1)) 8 ltac:(lia)).
  pose proof (Z.mod_pos_bound (nbytes + (8 - 1)) 8 ltac:(lia)). rewrite u32_small by (unfold is_u32; lia). lia.
Qed.

(** The state of the heap, [H] its buffers and [F] its free units: before the first [malloc], or a ring. *)
Definition heap_ok (u : uheap) (H : gmap Z (list Z)) (F : Z) : Prop :=
  (freep u = 0 /\ H = ∅ /\ F = 0 /\ 0 < base /\ base + 8 <= brk u <= KERNBASE) \/ exists l, uheap_ok u l H /\ F = total l.

Lemma ok_freep u l H : uheap_ok u l H -> freep u <> 0.
Proof.
  intros O. pose proof (uo_lim _ _ _ O). destruct (uo_freep _ _ _ O) as [->|[t Ht]]; [lia|]. destruct (asc_in _ _ _ _ (ri_asc _ _ _ _ (uo_ring _ _ _ O)) Ht). lia.
Qed.

Lemma ring_start u H F : heap_ok u H F -> exists l, uheap_ok (start_ring base u) l H /\ F = total l /\ brk (start_ring base u) = brk u.
Proof.
  intros [(E & -> & -> & H0 & Hk)|(l & O & ->)]; unfold start_ring.
  - rewrite E. exists []. cbn [Z.eqb]. set (m := set_size (set_ptr (um u) base base) base 0). assert (Hu : is_u32 base) by (unfold is_u32, KERNBASE in *; lia).
    split; [|done]. split; cbn [um freep brk]; [done| |by left|by intros; simplify_map_eq..]. split; [|done|by intros ? ? ?%elem_of_nil|by apply size_set].
    cbn [fl]. unfold m. by rewrite ptr_set_size, ptr_set.
  - exists l. by rewrite (proj2 (Z.eqb_neq _ _) (ok_freep _ _ _ O)).
Qed.

(** The kernel has no memory for a request of [nbytes] bytes. *)
Definition refused (nbytes : Z) (u : uheap) : Prop := sbrk (HDR * Z.max 512 (units nbytes)) u = (4294967295, u).

Lemma malloc_spec nbytes u H F : heap_ok u H F -> 0 <= nbytes <= 2147479552 ->
  (malloc base nbytes u = Some (0, start_ring base u) /\ heap_ok (start_ring base u) H F /\ refused nbytes (start_ring base u)) \/
  exists p u' bs F', malloc base nbytes u = Some (p, u') /\ p <> 0 /\ H !! p = None /\ nbytes <= len bs < nbytes + 8 /\
    heap_ok u' (<[p := bs]> H) F' /\ HDR * (F' - F) + len bs + 8 = brk u' - brk u.
Proof.
  intros O Hb. destruct (ring_start u H F O) as (l & O1 & EF & Ebrk). destruct (units_spec nbytes Hb) as [Hn Hlen]. unfold malloc.
  destruct (malloc_ring _ l H _ O1 Hn) as [[E Hs]|(p & u' & l' & bs & E & Hp & Hno & Hl & O' & Ht)].
  - left. split; [exact E|]. split; [right; by exists l|exact Hs].
  - right. exists p, u', bs, (total l'). split; [exact E|]. split; [done|]. split; [done|]. split; [by rewrite Hl|]. split; [right; by exists l'|].
    rewrite EF, <- Ebrk, <- Ht, Hl. unfold HDR. lia.
Qed.

(** ** The program's own writes, and [realloc] *)

Definition store_at (a : Z) (data : list Z) (u : uheap) : uheap := mkU (write_bytes (um u) a data) (freep u) (brk u).

Lemma buffer_store u l H p bs off data : uheap_ok u l H -> H !! p = Some bs -> 0 <= off -> off + len data <= len bs ->
  uheap_ok (store_at (p + off) data u) l (<[p := patch off data bs]> H).
Proof.
  intros O Hp Ho Hd. destruct (uo_blk _ _ _ O p bs Hp) as (B1 & B2 & B3 & B4 & B5). destruct (uo_lim _ _ _ O) as (H0 & Hk). pose proof (len_nonneg data).
  assert (Ln : len (patch off data bs) = len bs) by (by apply patch_len).
  assert (Hm : forall x, ~ (p <= x < p + len bs) -> um (store_at (p + off) data u) x = um u x) by (intros x Hx; apply write_other; lia).
  assert (Hw : forall z, header_of base l z -> ptr_at (um (store_at (p + off) data u)) z = ptr_at (um u) z /\ size_at (um (store_at (p + off) data u)) z = size_at (um u) z).
  { intros z Hz. apply word_frame. intros x Hx. apply Hm. intros Hin. apply (buffer_apart _ _ _ _ bs x O Hp); [|lia].
    apply (header_free _ z); [apply (uo_ring _ _ _ O)|done|done]. }
  assert (Hin : forall q cs, <[p := patch off data bs]> H !! q = Some cs -> exists ds, H !! q = Some ds /\ len ds = len cs).
  { intros q cs. rewrite lookup_insert_Some. intros [[<- <-]|[_ Hq]]; [by exists bs|by exists cs]. }
  split; cbn [freep brk store_at]; [done| |by apply O|..].
  - destruct (uo_ring _ _ _ O) as [F A E B]. split; [|done|done|by rewrite (proj2 (Hw base ltac:(by left)))].
    apply (fl_frame (um u)); [done|intros z Hz; by apply Hw|]. intros z s Hz. apply Hw. right. by exists s.
  - intros q cs. rewrite lookup_insert_Some. intros [[<- <-]|[Hne Hq]].
    + rewrite Ln. split; [done|]. split; [done|]. split; [done|]. split.
      * rewrite <- B4. apply load_ext. intros x Hx. apply Hm. lia.
      * cbn [um store_at]. rewrite read_patch by done. by rewrite B5.
    + destruct (uo_blk _ _ _ O q cs Hq) as (C1 & C2 & C3 & C4 & C5). split; [done|]. split; [done|]. split; [done|]. apply (buffer_kept (um u)); [done|done|].
      intros x Hx. apply Hm. destruct (uo_disj _ _ _ O p q bs cs Hp Hq Hne); lia.
  - intros q cs Hq. destruct (Hin q cs Hq) as (ds & Hq' & <-). by apply (uo_free _ _ _ O).
  - intros q r cs ds Hq Hr. destruct (Hin q cs Hq) as (cs' & Hq' & <-). destruct (Hin r ds Hr) as (ds' & Hr' & <-). by apply (uo_disj _ _ _ O q r).
Qed.

Lemma read_take u l H p bs k : uheap_ok u l H -> H !! p = Some bs -> 0 <= k <= len bs -> read_bytes (um u) p k = take (Z.to_nat k) bs.
Proof.
  intros O Hp Hk. destruct (uo_blk _ _ _ O p bs Hp) as (_ & _ & _ & _ & E). rewrite <- E at 1. replace (len bs) with (k + (len bs - k)) by lia.
  rewrite read_app by lia. rewrite take_app_length'; [done|]. pose proof (read_length (um u) p k ltac:(lia)). unfold len in *. lia.
Qed.

(** [realloc] of a live buffer: a buffer with the same bytes as far as both go, the old one given back; or the heap as it was. *)
Lemma realloc_spec u l H p bs nbytes : uheap_ok u l H -> H !! p = Some bs -> 0 < nbytes <= 2147479552 ->
  (realloc base p nbytes u = Some (0, u) /\ sbrk (HDR * Z.max 512 (units nbytes)) u = (4294967295, u)) \/
  exists q u' l' cs, realloc base p nbytes u = Some (q, u') /\ q <> 0 /\ H !! q = None /\ nbytes <= len cs < nbytes + 8 /\
    (let k := Z.to_nat (Z.min (len bs) nbytes) in take k cs = take k bs) /\ uheap_ok u' l' (<[q := cs]> (delete p H)) /\
    HDR * (total l' + units nbytes - total l - (len bs / 8 + 1)) = brk u' - brk u.
Proof.
  intros O Hp Hb. destruct (uo_blk _ _ _ O p bs Hp) as (B1 & B2 & B3 & B4 & _). destruct (uo_lim _ _ _ O) as (H0 & Hk). pose proof (len_nonneg bs).
  pose proof (len_units bs B3) as Eu. unfold realloc. rewrite (proj2 (Z.eqb_neq p 0)), (proj2 (Z.eqb_neq nbytes 0)) by lia.
  assert (Eold : (size_at (um u) (p -u HDR) -u 1) *u HDR = len bs).
  { replace (p -u HDR) with (p - 8) by (symmetry; apply u32_small; unfold is_u32, KERNBASE, HDR in *; lia). rewrite B4.
    rewrite (u32_small (len bs / 8 + 1 - 1)), u32_small; unfold is_u32, KERNBASE, HDR in *; lia. }
  rewrite Eold. destruct (units_spec nbytes ltac:(lia)) as [Hn Hlen]. unfold malloc, start_ring. rewrite (proj2 (Z.eqb_neq _ _) (ok_freep _ _ _ O)).
  destruct (malloc_ring u l H _ O Hn) as [[-> Hs]|(q & u1 & l1 & cs & -> & Hq & Hno & Hl & O1 & Ht1)]; [by left|right].
  rewrite (proj2 (Z.eqb_neq q 0) Hq). set (k := if len bs <? nbytes then len bs else nbytes).
  assert (Ek : Z.min (len bs) nbytes = k /\ 0 <= k <= len bs /\ k <= len cs) by (unfold k; destruct (Z.ltb_spec (len bs) nbytes); lia). destruct Ek as (-> & Hk1 & Hk2). clearbody k.
  assert (Hne : p <> q) by congruence. assert (Hp1 : <[q := cs]> H !! p = Some bs) by (by rewrite lookup_insert_ne).
  rewrite (read_take u1 l1 _ p bs k O1 Hp1 Hk1). set (d := take (Z.to_nat k) bs).
  assert (Ld : len d = k) by (unfold d, len in *; rewrite length_take; lia).
  pose proof (buffer_store u1 l1 _ q cs 0 d O1 (lookup_insert_eq _ _ _) ltac:(lia) ltac:(lia)) as O2. rewrite Z.add_0_r, insert_insert_eq in O2.
  destruct (free_spec _ _ _ p bs O2) as (u' & l' & Ef & O3 & Hb3 & Ht3); [by rewrite lookup_insert_ne|]. unfold store_at in Ef. rewrite Ef.
  exists q, u', l', (patch 0 d cs). split; [done|]. split; [done|]. split; [done|]. split; [rewrite patch_len; lia|]. split.
  - cbv zeta. unfold patch. change (Z.to_nat 0) with 0%nat. rewrite take_0. cbn [app]. unfold len in Ld. rewrite take_app_length' by lia. done.
  - rewrite <- delete_insert_ne by done. split; [done|]. cbn [store_at brk] in Hb3. unfold HDR in *. lia.
Qed.

(** ** What a program sees *)

Inductive uact := Malloc (nbytes : Z) | Free (p : Z) | Realloc (p nbytes : Z) | Store (p off : Z) (data : list Z).

Definition uexec (x : uact) (u : uheap) : option (Z * uheap) :=
  match x with
  | Malloc nbytes => malloc base nbytes u
  | Free p => match free p u with Some u => Some (0, u) | None => None end
  | Realloc p nbytes => realloc base p nbytes u
  | Store p off data => Some (0, store_at (p + off) data u)
  end.

(** Live buffers only, requests below 2 GB, writes inside a buffer. *)
Definition uvalid (H : gmap Z (list Z)) (x : uact) : Prop :=
  match x with
  | Malloc nbytes => 0 <= nbytes <= 2147479552
  | Free p => p = 0 \/ is_Some (H !! p)
  | Realloc p nbytes => 0 <= nbytes <= 2147479552 /\ (p = 0 \/ is_Some (H !! p))
  | Store p off data => exists bs, H !! p = Some bs /\ 0 <= off /\ off + len data <= len bs
  end.

(** A new buffer of [n] bytes beside the buffers [H], whose bytes are [init] where both have some. *)
Definition new_buffer (n : Z) (init : list Z) (r : Z) (H H' : gmap Z (list Z)) : Prop :=
  r <> 0 /\ H !! r = None /\ exists bs, H' = <[r := bs]> H /\ n <= len bs < n + 8 /\ let k := Z.to_nat (Z.min (len init) n) in take k bs = take k init.

(** The buffers after a call that returned [r]; [no] says that the kernel refused a request. *)
Definition uspec (no : Z -> Prop) (x : uact) (r : Z) (H H' : gmap Z (list Z)) : Prop :=
  match x with
  | Malloc nbytes => (r = 0 /\ H' = H /\ no nbytes) \/ new_buffer nbytes [] r H H'
  | Free p => H' = delete p H
  | Realloc p nbytes =>
      if p =? 0 then (r = 0 /\ H' = H /\ no nbytes) \/ new_buffer nbytes [] r H H'
      else if nbytes =? 0 then r = 0 /\ H' = delete p H
      else exists bs, H !! p = Some bs /\
        ((r = 0 /\ H' = H /\ no nbytes) \/ H !! r = None /\ new_buffer nbytes bs r (delete p H) H')
  | Store p off data => exists bs, H !! p = Some bs /\ H' = <[p := patch off data bs]> H
  end.

(** The bytes of the live buffers, headers included. *)
Definition live (H : gmap Z (list Z)) : Z := map_fold (fun _ bs t => len bs + 8 + t) 0 H.

Lemma live_insert p bs H : H !! p = None -> live (<[p := bs]> H) = len bs + 8 + live H.
Proof. intros Hp. unfold live. rewrite map_fold_insert_L; [done| |done]. intros. lia. Qed.

Lemma live_delete p bs H : H !! p = Some bs -> live H = len bs + 8 + live (delete p H).
Proof. intros Hp. rewrite <- (insert_delete_id H p bs) at 1 by done. apply live_insert, lookup_delete_eq. Qed.

Lemma live_patch p bs cs H : H !! p = Some bs -> len cs = len bs -> live (<[p := cs]> H) = live H.
Proof.
  intros Hp E. rewrite (live_delete p bs H Hp), <- E. rewrite <- (insert_delete_eq H p cs). apply live_insert, lookup_delete_eq.
Qed.

Lemma live_malloc nbytes u H F : heap_ok u H F -> 0 <= nbytes <= 2147479552 -> exists r u' H' F', malloc base nbytes u = Some (r, u') /\
  ((r = 0 /\ H' = H /\ refused nbytes (start_ring base u)) \/ new_buffer nbytes [] r H H') /\ heap_ok u' H' F' /\
  HDR * F' + live H' - brk u' = HDR * F + live H - brk u.
Proof.
  intros O Hb. destruct (malloc_spec nbytes u H F O Hb) as [(E & O' & Hr)|(p & u' & bs & F' & E & Hp & Hno & Hl & O' & Ht)].
  - exists 0, (start_ring base u), H, F. destruct (ring_start u H F O) as (_ & _ & _ & ->). split; [exact E|]. split; [by left|done].
  - exists p, u', (<[p := bs]> H), F'. split; [exact E|]. split; [|split; [done|rewrite live_insert by done; lia]]. right. split; [done|]. split; [done|]. exists bs.
    split; [done|]. split; [done|]. cbv zeta. change (len (A := Z) []) with 0. rewrite Z.min_l by lia. by rewrite !take_0.
Qed.

Lemma live_free p u H F : heap_ok u H F -> p = 0 \/ is_Some (H !! p) -> exists u' F', free p u = Some u' /\ heap_ok u' (delete p H) F' /\
  HDR * F' + live (delete p H) - brk u' = HDR * F + live H - brk u.
Proof.
  intros O Hp. assert (H0 : H !! 0 = None).
  { destruct O as [(_ & -> & _)|(l & O & _)]; [done|]. destruct (H !! 0) as [bs|] eqn:E; [|done]. destruct (uo_blk _ _ _ O 0 bs E) as (B & _). pose proof (uo_lim _ _ _ O). lia. }
  destruct (decide (p = 0)) as [->|Hne].
  - rewrite delete_id by done. exists u, F. done.
  - destruct Hp as [?|[bs Hp]]; [done|]. destruct O as [(_ & -> & _)|(l & O & ->)]; [done|].
    destruct (free_spec u l H p bs O Hp) as (u' & l' & E & O' & Eb & Et). exists u', (total l'). split; [done|]. split; [right; by exists l'|].
    rewrite (live_delete p bs H Hp), Eb, Et. destruct (uo_blk _ _ _ O p bs Hp) as (_ & _ & B3 & _). pose proof (len_units bs B3). unfold HDR in *. lia.
Qed.

Lemma live_realloc p nbytes u H F bs : heap_ok u H F -> H !! p = Some bs -> 0 < nbytes <= 2147479552 -> exists r u' H' F', realloc base p nbytes u = Some (r, u') /\
  ((r = 0 /\ H' = H /\ refused nbytes (start_ring base u)) \/ H !! r = None /\ new_buffer nbytes bs r (delete p H) H') /\ heap_ok u' H' F' /\
  HDR * F' + live H' - brk u' = HDR * F + live H - brk u.
Proof.
  intros [(_ & -> & _)|(l & O & ->)] Hp Hb; [done|].
  destruct (realloc_spec u l H p bs nbytes O Hp Hb) as [[E Hr]|(q & u' & l' & cs & E & Hq & Hno & Hl & Hk & O' & Ht)].
  - exists 0, u, H, (total l). split; [exact E|]. split; [|split; [right; by exists l|done]]. left. split; [done|]. split; [done|].
    unfold start_ring. by rewrite (proj2 (Z.eqb_neq _ _) (ok_freep _ _ _ O)).
  - assert (Hno' : delete p H !! q = None) by (apply lookup_delete_None; by right). exists q, u', (<[q := cs]> (delete p H)), (total l').
    split; [exact E|]. split; [|split; [right; by exists l'|]].
    + right. split; [done|]. split; [done|]. split; [done|]. exists cs. done.
    + rewrite live_insert, (live_delete p bs H Hp) by done. destruct (uo_blk _ _ _ O p bs Hp) as (_ & _ & B3 & _). pose proof (len_units bs B3).
      destruct (uo_blk _ _ _ O' q cs ltac:(apply lookup_insert_eq)) as (_ & _ & C3 & _). pose proof (len_units cs C3).
      destruct (units_spec nbytes ltac:(lia)) as [_ Hn]. unfold HDR in *. lia.
Qed.

(** C13.  The allocator of the C library carries out any call of [malloc], [free] and [realloc] and any write of the
    program into its buffers, its searches of the ring always end, and what the program sees is a set of
    disjoint buffers: a new buffer is not one of the old ones and has at least the bytes asked for, [realloc] keeps
    the contents, nothing else changes a buffer, [malloc] returns 0 only when the kernel refuses memory; and no byte
    is lost: what is not in a live buffer is in the ring of free blocks. *)
Theorem malloc_heap_refines x u H F : heap_ok u H F -> uvalid H x ->
  exists r u' H' F', uexec x u = Some (r, u') /\ uspec (fun n => refused n (start_ring base u)) x r H H' /\ heap_ok u' H' F' /\
    HDR * F' + live H' - brk u' = HDR * F + live H - brk u.
Proof.
  intros O Hv. destruct x as [nbytes|p|p nbytes|p off data]; cbn [uexec uvalid uspec] in *.
  - by apply live_malloc.
  - destruct (live_free p u H F O Hv) as (u' & F' & -> & G). by exists 0, u', (delete p H), F'.
  - destruct Hv as [Hb Hp]. destruct (Z.eqb_spec p 0) as [->|Hz]; [by apply live_malloc|]. destruct (Z.eqb_spec nbytes 0) as [->|Hn].
    + unfold realloc. rewrite (proj2 (Z.eqb_neq p 0) Hz). destruct (live_free p u H F O Hp) as (u' & F' & -> & G). by exists 0, u', (delete p H), F'.
    + destruct Hp as [?|[bs Hp]]; [done|]. destruct (live_realloc p nbytes u H F bs O Hp ltac:(lia)) as (r & u' & H' & F' & E & G1 & G2). exists r, u', H', F'.
      split; [exact E|]. split; [by exists bs|done].
  - destruct Hv as (bs & Hp & Ho & Hd). destruct O as [(_ & -> & _)|(l & O & ->)]; [done|]. eexists 0, _, (<[p := patch off data bs]> H), (total l). split; [done|].
    split; [by exists bs|]. split; [right; exists l; split; [by apply buffer_store|done]|]. rewrite (live_patch p bs) by (done || by apply patch_len). done.
Qed.

End Heap.

(** ** Requests that do not fit 32 bits *)

Lemma units_top nbytes : 4294967289 <= nbytes < 4294967296 -> units nbytes = units 0.
Proof.
  intros Hb. unfold units, HDR. replace (nbytes +u (8 - 1)) with (nbytes + 7 - 4294967296); [|unfold u32; rewrite <- (Z_mod_plus_full (nbytes + (8 - 1)) (-1)), Z.mod_small; lia].
  rewrite Z.div_small by lia. done.
Qed.

Lemma units_big nbytes : 2147483641 <= nbytes <= 4294967288 -> 268435457 <= units nbytes <= 536870912.
Proof.
  intros Hb. unfold units, HDR. rewrite (u32_small (nbytes + (8 - 1))) by (unfold is_u32; lia). pose proof (Z.div_mod (nbytes + (8 - 1)) 8 ltac:(lia)).
  pose proof (Z.mod_pos_bound (nbytes + (8 - 1)) 8 ltac:(lia)). rewrite u32_small by (unfold is_u32; lia). lia.
Qed.

(** The unit count of [malloc] is computed without a check of the size: the seven largest sizes are served like
    [malloc(0)], and for every other size of 2 GB or more [morecore] asks the kernel for a break that is not above the old one. *)
Theorem malloc_size_wraps `{Kn : Kernel} base nbytes u : is_u32 nbytes -> 2147483641 <= nbytes ->
  malloc base nbytes u = malloc base 0 u \/ sbrk_request (units nbytes) <= 0.
Proof.
  intros Hu Hb. unfold is_u32 in Hu. destruct (Z.leb_spec 4294967289 nbytes) as [Ht|Ht].
  - left. unfold malloc. cbv zeta. rewrite (units_top nbytes) by lia. reflexivity.
  - right. pose proof (units_big nbytes ltac:(lia)) as Hn. unfold sbrk_request, HDR, u32. destruct (Z.eq_dec (units nbytes) 536870912) as [->|Hne]; [vm_compute; discriminate|].
    rewrite (Z.mod_small (units nbytes * 8)) by lia. unfold s32.
    rewrite <- (Z_mod_plus_full (units nbytes * 8 + 2147483648) (-1)), Z.mod_small; lia.
Qed.

(** ** A kernel, and a program *)

Module SmallBreak.

(** A kernel that lets the break grow to 1 MB and not shrink. *)
Definition small_sbrk (n : Z) (u : uheap) : Z * uheap :=
  if (0 <=? n) && (brk u + n <=? 1048576) then (brk u, mkU (um u) (freep u) (brk u + n)) else (4294967295, u).

#[export] Instance small_kernel : Kernel.
Proof.
  refine {| sbrk := small_sbrk |}. intros n u Hn. unfold small_sbrk. rewrite (proj2 (Z.leb_le 0 n)) by lia. cbn [andb].
  destruct (Z.leb_spec (brk u + n) 1048576) as [Hb|Hb]; [right|by left]. exists (um u). split; [done|]. split; [unfold KERNBASE; lia|done].
Defined.

Definition u0 : uheap := mkU (fun _ => 0) 0 8192.

(** The first buffer is the end of the first page above the break. *)
Example first_malloc : fst <$> malloc 4096 100 u0 = Some 12184.
Proof. vm_compute. reflexivity. Qed.

Lemma u0_ok : heap_ok 4096 u0 ∅ 0.
Proof. left. unfold KERNBASE. cbn. repeat split; lia. Qed.

Lemma malloc_heap_refines_witness : exists r u' H' F', uexec 4096 (Malloc 100) u0 = Some (r, u') /\
  uspec (fun n => refused n (start_ring 4096 u0)) (Malloc 100) r ∅ H' /\ heap_ok 4096 u' H' F' /\
  HDR * F' + live H' - brk u' = HDR * 0 + live ∅ - brk u0.
Proof. apply (malloc_heap_refines 4096 (Malloc 100) u0 ∅ 0); [exact u0_ok|split; vm_compute; discriminate]. Defined.

End SmallBreak.
