(* ===== verification/ProcTab.v ===== *)
(** * The process table: [struct proc], [ptable] and the scheduler's queues

    The data of src/include/proc.h, src/kernel/core/proc.c and proc_sched.c.  A
    pointer to a process is its index in the table ([None] is null); channels,
    address spaces, descriptor tables and inodes are addresses (0 is null).  The
    name, trap frame and tick count of a process are left out; of the saved
    context the model keeps the place where the process gave up its CPU. *)

From S2P Require Import Prelude.

Definition NPROC : nat := 128.
Definition PID_MAX : Z := 32767.
Definition NCPU : nat := 8.
Definition MLFQ_NQUEUES : Z := 5.
Definition MLFQ_BOOST_INTERVAL : Z := 200.
Definition MLFQ_BOOST_INTERVAL_MIN : Z := 10.
Definition MLFQ_BOOST_INTERVAL_MAX : Z := 5000.
Definition MLFQ_PROMOTE_MIN_SLEEP : Z := 2.
Definition MLFQ_FORK_START_Q : Z := 1.
Definition MLFQ_QUANTUM_Q1 : Z := 2.
Definition mlfq_quanta : list Z := [1; 2; 4; 8; 16].
Definition CHAN_WAIT_HASH_SIZE : nat := 256.
Definition PROC_NGROUPS_MAX : nat := 16.
Definition NSIG : Z := 32.
Definition NOFILE_DEFAULT : Z := 256.
Definition NOFILE_HARD : Z := 512.

Inductive procstate := UNUSED | EMBRYO | SLEEPING | RUNNABLE | RUNNING | STOPPED | ZOMBIE.
#[export] Instance procstate_eq_dec : EqDecision procstate.
Proof. solve_decision. Defined.

(** Where a process that is not running goes on: the start of a new process, or
    the call of [sched] in [yield], [sleep], [proc_maybe_stop_current] or [exit]. *)
Inductive resume := AtForkret | InYield | InSleep (c : Z) | InStop | InExit.
#[export] Instance resume_eq_dec : EqDecision resume.
Proof. solve_decision. Defined.

(** Reasons for [schedq_enqueue_locked]. *)
Inductive reason := SCHED_ENQ_FORK | SCHED_ENQ_WAKE | SCHED_ENQ_YIELD | SCHED_ENQ_SIGNAL | SCHED_ENQ_ALARM.
#[export] Instance reason_eq_dec : EqDecision reason.
Proof. solve_decision. Defined.

(** Identity and limits of a process. *)
Record cred := mkCred {
  uid : Z;
  gid : Z;
  ruid : Z;
  rgid : Z;
  suid : Z;
  sgid : Z;
  ngroups : Z;
  groups : list Z;
  umask : Z;
  rlimit_nofile_cur : Z;
  rlimit_nofile_max : Z
}.

(** Its signals. *)
Record sigdata := mkSig {
  sig_pending : Z;
  sig_caught : Z;
  sig_mask : Z;
  sig_ignored : Z;
  sig_handler : list Z;
  sig_actmask : list Z;
  sig_actflags : list Z
}.

(** What the scheduler keeps about it. *)
Record scheddata := mkSched {
  sched_q : Z;
  sched_flags : Z;
  sched_budget_left : Z;
  sched_enq_tick : Z;
  sched_last_start_tick : Z;
  sched_last_block_tick : Z;
  sched_last_wake_tick : Z;
  sched_cpu_burst_ticks : Z;
  sched_next : option nat;
  sched_prev : option nat
}.

Record proc := mkProc {
  state : procstate;
  pid : Z;
  ppid : Z;
  pgid : Z;
  sid : Z;
  tty : Z;
  creds : cred;
  parent : option nat;
  chan : Z;
  tick_next : option nat;
  on_tickq : bool;
  killed : bool;
  xstatus : Z;
  wait_event : Z;
  wait_status : Z;
  sigs : sigdata;
  alarm_ticks : Z;
  alarm_interval_ticks : Z;
  sdata : scheddata;
  sz : Z;
  stack_top : Z;
  stack_bot : Z;
  addrsp : Z;
  kstack : Z;
  fdtable : Z;
  cwd : Z;
  context : resume
}.

(** A queue of the scheduler, linked through [sched_next] and [sched_prev]. *)
Record mlfq_queue := mkQ {
  q_head : option nat;
  q_tail : option nat;
  q_count : Z
}.

(** [ptable] with the static data of proc.c, proc_sched.c and proc_lifecycle.c. *)
Record ptable := mkPt {
  procs : list proc;
  nextpid : Z;
  initproc : option nat;
  mlfq_qs : list mlfq_queue;
  mlfq_last_boost_tick : Z;
  mlfq_boost_interval_ticks : Z;
  mlfq_stat_promotions : Z;
  mlfq_stat_demotions : Z;
  mlfq_stat_boosts : Z;
  mlfq_stat_budget_expired : Z;
  tick_sleepq_head : option nat;
  active_tick_sleepers : Z;
  chan_wait_hash : list Z;
  active_alarm_count : Z;
  ticks : Z
}.

(** ** Assignments to fields *)

Definition set_uid (v : Z) (r : cred) : cred := mkCred v (gid r) (ruid r) (rgid r) (suid r) (sgid r) (ngroups r) (groups r) (umask r)
  (rlimit_nofile_cur r) (rlimit_nofile_max r).
Definition set_gid (v : Z) (r : cred) : cred := mkCred (uid r) v (ruid r) (rgid r) (suid r) (sgid r) (ngroups r) (groups r) (umask r)
  (rlimit_nofile_cur r) (rlimit_nofile_max r).
Definition set_ruid (v : Z) (r : cred) : cred := mkCred (uid r) (gid r) v (rgid r) (suid r) (sgid r) (ngroups r) (groups r) (umask r)
  (rlimit_nofile_cur r) (rlimit_nofile_max r).
Definition set_rgid (v : Z) (r : cred) : cred := mkCred (uid r) (gid r) (ruid r) v (suid r) (sgid r) (ngroups r) (groups r) (umask r)
  (rlimit_nofile_cur r) (rlimit_nofile_max r).
Definition set_suid (v : Z) (r : cred) : cred := mkCred (uid r) (gid r) (ruid r) (rgid r) v (sgid r) (ngroups r) (groups r) (umask r)
  (rlimit_nofile_cur r) (rlimit_nofile_max r).
Definition set_sgid (v : Z) (r : cred) : cred := mkCred (uid r) (gid r) (ruid r) (rgid r) (suid r) v (ngroups r) (groups r) (umask r)
  (rlimit_nofile_cur r) (rlimit_nofile_max r).
Definition set_ngroups (v : Z) (r : cred) : cred := mkCred (uid r) (gid r) (ruid r) (rgid r) (suid r) (sgid r) v (groups r) (umask r)
  (rlimit_nofile_cur r) (rlimit_nofile_max r).
Definition set_groups (v : list Z) (r : cred) : cred := mkCred (uid r) (gid r) (ruid r) (rgid r) (suid r) (sgid r) (ngroups r) v (umask r)
  (rlimit_nofile_cur r) (rlimit_nofile_max r).
Definition set_sig_pending (v : Z) (r : sigdata) : sigdata := mkSig v (sig_caught r) (sig_mask r) (sig_ignored r) (sig_handler r) (sig_actmask r)
  (sig_actflags r).
Definition set_sig_caught (v : Z) (r : sigdata) : sigdata := mkSig (sig_pending r) v (sig_mask r) (sig_ignored r) (sig_handler r) (sig_actmask r)
  (sig_actflags r).
Definition set_sig_mask (v : Z) (r : sigdata) : sigdata := mkSig (sig_pending r) (sig_caught r) v (sig_ignored r) (sig_handler r) (sig_actmask r)
  (sig_actflags r).
Definition set_sig_ignored (v : Z) (r : sigdata) : sigdata := mkSig (sig_pending r) (sig_caught r) (sig_mask r) v (sig_handler r) (sig_actmask r)
  (sig_actflags r).
Definition set_sig_handler (v : list Z) (r : sigdata) : sigdata := mkSig (sig_pending r) (sig_caught r) (sig_mask r) (sig_ignored r) v
  (sig_actmask r) (sig_actflags r).
Definition set_sig_actmask (v : list Z) (r : sigdata) : sigdata := mkSig (sig_pending r) (sig_caught r) (sig_mask r) (sig_ignored r) (sig_handler r)
  v (sig_actflags r).
Definition set_sig_actflags (v : list Z) (r : sigdata) : sigdata := mkSig (sig_pending r) (sig_caught r) (sig_mask r) (sig_ignored r) (sig_handler r)
  (sig_actmask r) v.
Definition set_sched_q (v : Z) (r : scheddata) : scheddata := mkSched v (sched_flags r) (sched_budget_left r) (sched_enq_tick r)
  (sched_last_start_tick r) (sched_last_block_tick r) (sched_last_wake_tick r) (sched_cpu_burst_ticks r) (sched_next r) (sched_prev r).
Definition set_sched_flags (v : Z) (r : scheddata) : scheddata := mkSched (sched_q r) v (sched_budget_left r) (sched_enq_tick r)
  (sched_last_start_tick r) (sched_last_block_tick r) (sched_last_wake_tick r) (sched_cpu_burst_ticks r) (sched_next r) (sched_prev r).
Definition set_sched_budget_left (v : Z) (r : scheddata) : scheddata := mkSched (sched_q r) (sched_flags r) v (sched_enq_tick r)
  (sched_last_start_tick r) (sched_last_block_tick r) (sched_last_wake_tick r) (sched_cpu_burst_ticks r) (sched_next r) (sched_prev r).
Definition set_sched_enq_tick (v : Z) (r : scheddata) : scheddata := mkSched (sched_q r) (sched_flags r) (sched_budget_left r) v
  (sched_last_start_tick r) (sched_last_block_tick r) (sched_last_wake_tick r) (sched_cpu_burst_ticks r) (sched_next r) (sched_prev r).
Definition set_sched_last_start_tick (v : Z) (r : scheddata) : scheddata := mkSched (sched_q r) (sched_flags r) (sched_budget_left r)
  (sched_enq_tick r) v (sched_last_block_tick r) (sched_last_wake_tick r) (sched_cpu_burst_ticks r) (sched_next r) (sched_prev r).
Definition set_sched_last_block_tick (v : Z) (r : scheddata) : scheddata := mkSched (sched_q r) (sched_flags r) (sched_budget_left r)
  (sched_enq_tick r) (sched_last_start_tick r) v (sched_last_wake_tick r) (sched_cpu_burst_ticks r) (sched_next r) (sched_prev r).
Definition set_sched_last_wake_tick (v : Z) (r : scheddata) : scheddata := mkSched (sched_q r) (sched_flags r) (sched_budget_left r)
  (sched_enq_tick r) (sched_last_start_tick r) (sched_last_block_tick r) v (sched_cpu_burst_ticks r) (sched_next r) (sched_prev r).
Definition set_sched_cpu_burst_ticks (v : Z) (r : scheddata) : scheddata := mkSched (sched_q r) (sched_flags r) (sched_budget_left r)
  (sched_enq_tick r) (sched_last_start_tick r) (sched_last_block_tick r) (sched_last_wake_tick r) v (sched_next r) (sched_prev r).
Definition set_sched_next (v : option nat) (r : scheddata) : scheddata := mkSched (sched_q r) (sched_flags r) (sched_budget_left r)
  (sched_enq_tick r) (sched_last_start_tick r) (sched_last_block_tick r) (sched_last_wake_tick r) (sched_cpu_burst_ticks r) v (sched_prev r).
Definition set_sched_prev (v : option nat) (r : scheddata) : scheddata := mkSched (sched_q r) (sched_flags r) (sched_budget_left r)
  (sched_enq_tick r) (sched_last_start_tick r) (sched_last_block_tick r) (sched_last_wake_tick r) (sched_cpu_burst_ticks r) (sched_next r) v.
Definition set_state (v : procstate) (r : proc) : proc := mkProc v (pid r) (ppid r) (pgid r) (sid r) (tty r) (creds r) (parent r) (chan r)
  (tick_next r) (on_tickq r) (killed r) (xstatus r) (wait_event r) (wait_status r) (sigs r) (alarm_ticks r) (alarm_interval_ticks r) (sdata r) (sz r)
  (stack_top r) (stack_bot r) (addrsp r) (kstack r) (fdtable r) (cwd r) (context r).
Definition set_pid (v : Z) (r : proc) : proc := mkProc (state r) v (ppid r) (pgid r) (sid r) (tty r) (creds r) (parent r) (chan r) (tick_next r)
  (on_tickq r) (killed r) (xstatus r) (wait_event r) (wait_status r) (sigs r) (alarm_ticks r) (alarm_interval_ticks r) (sdata r) (sz r) (stack_top r)
  (stack_bot r) (addrsp r) (kstack r) (fdtable r) (cwd r) (context r).
Definition set_ppid (v : Z) (r : proc) : proc := mkProc (state r) (pid r) v (pgid r) (sid r) (tty r) (creds r) (parent r) (chan r) (tick_next r)
  (on_tickq r) (killed r) (xstatus r) (wait_event r) (wait_status r) (sigs r) (alarm_ticks r) (alarm_interval_ticks r) (sdata r) (sz r) (stack_top r)
  (stack_bot r) (addrsp r) (kstack r) (fdtable r) (cwd r) (context r).
Definition set_pgid (v : Z) (r : proc) : proc := mkProc (state r) (pid r) (ppid r) v (sid r) (tty r) (creds r) (parent r) (chan r) (tick_next r)
  (on_tickq r) (killed r) (xstatus r) (wait_event r) (wait_status r) (sigs r) (alarm_ticks r) (alarm_interval_ticks r) (sdata r) (sz r) (stack_top r)
  (stack_bot r) (addrsp r) (kstack r) (fdtable r) (cwd r) (context r).
Definition set_sid (v : Z) (r : proc) : proc := mkProc (state r) (pid r) (ppid r) (pgid r) v (tty r) (creds r) (parent r) (chan r) (tick_next r)
  (on_tickq r) (killed r) (xstatus r) (wait_event r) (wait_status r) (sigs r) (alarm_ticks r) (alarm_interval_ticks r) (sdata r) (sz r) (stack_top r)
  (stack_bot r) (addrsp r) (kstack r) (fdtable r) (cwd r) (context r).
Definition set_tty (v : Z) (r : proc) : proc := mkProc (state r) (pid r) (ppid r) (pgid r) (sid r) v (creds r) (parent r) (chan r) (tick_next r)
  (on_tickq r) (killed r) (xstatus r) (wait_event r) (wait_status r) (sigs r) (alarm_ticks r) (alarm_interval_ticks r) (sdata r) (sz r) (stack_top r)
  (stack_bot r) (addrsp r) (kstack r) (fdtable r) (cwd r) (context r).
Definition set_creds (v : cred) (r : proc) : proc := mkProc (state r) (pid r) (ppid r) (pgid r) (sid r) (tty r) v (parent r) (chan r) (tick_next r)
  (on_tickq r) (killed r) (xstatus r) (wait_event r) (wait_status r) (sigs r) (alarm_ticks r) (alarm_interval_ticks r) (sdata r) (sz r) (stack_top r)
  (stack_bot r) (addrsp r) (kstack r) (fdtable r) (cwd r) (context r).
Definition set_parent (v : option nat) (r : proc) : proc := mkProc (state r) (pid r) (ppid r) (pgid r) (sid r) (tty r) (creds r) v (chan r)
  (tick_next r) (on_tickq r) (killed r) (xstatus r) (wait_event r) (wait_status r) (sigs r) (alarm_ticks r) (alarm_interval_ticks r) (sdata r) (sz r)
  (stack_top r) (stack_bot r) (addrsp r) (kstack r) (fdtable r) (cwd r) (context r).
Definition set_chan (v : Z) (r : proc) : proc := mkProc (state r) (pid r) (ppid r) (pgid r) (sid r) (tty r) (creds r) (parent r) v (tick_next r)
  (on_tickq r) (killed r) (xstatus r) (wait_event r) (wait_status r) (sigs r) (alarm_ticks r) (alarm_interval_ticks r) (sdata r) (sz r) (stack_top r)
  (stack_bot r) (addrsp r) (kstack r) (fdtable r) (cwd r) (context r).
Definition set_tick_next (v : option nat) (r : proc) : proc := mkProc (state r) (pid r) (ppid r) (pgid r) (sid r) (tty r) (creds r) (parent r)
  (chan r) v (on_tickq r) (killed r) (xstatus r) (wait_event r) (wait_status r) (sigs r) (alarm_ticks r) (alarm_interval_ticks r) (sdata r) (sz r)
  (stack_top r) (stack_bot r) (addrsp r) (kstack r) (fdtable r) (cwd r) (context r).
Definition set_on_tickq (v : bool) (r : proc) : proc := mkProc (state r) (pid r) (ppid r) (pgid r) (sid r) (tty r) (creds r) (parent r) (chan r)
  (tick_next r) v (killed r) (xstatus r) (wait_event r) (wait_status r) (sigs r) (alarm_ticks r) (alarm_interval_ticks r) (sdata r) (sz r)
  (stack_top r) (stack_bot r) (addrsp r) (kstack r) (fdtable r) (cwd r) (context r).
Definition set_killed (v : bool) (r : proc) : proc := mkProc (state r) (pid r) (ppid r) (pgid r) (sid r) (tty r) (creds r) (parent r) (chan r)
  (tick_next r) (on_tickq r) v (xstatus r) (wait_event r) (wait_status r) (sigs r) (alarm_ticks r) (alarm_interval_ticks r) (sdata r) (sz r)
  (stack_top r) (stack_bot r) (addrsp r) (kstack r) (fdtable r) (cwd r) (context r).
Definition set_xstatus (v : Z) (r : proc) : proc := mkProc (state r) (pid r) (ppid r) (pgid r) (sid r) (tty r) (creds r) (parent r) (chan r)
  (tick_next r) (on_tickq r) (killed r) v (wait_event r) (wait_status r) (sigs r) (alarm_ticks r) (alarm_interval_ticks r) (sdata r) (sz r)
  (stack_top r) (stack_bot r) (addrsp r) (kstack r) (fdtable r) (cwd r) (context r).
Definition set_wait_event (v : Z) (r : proc) : proc := mkProc (state r) (pid r) (ppid r) (pgid r) (sid r) (tty r) (creds r) (parent r) (chan r)
  (tick_next r) (on_tickq r) (killed r) (xstatus r) v (wait_status r) (sigs r) (alarm_ticks r) (alarm_interval_ticks r) (sdata r) (sz r)
  (stack_top r) (stack_bot r) (addrsp r) (kstack r) (fdtable r) (cwd r) (context r).
Definition set_wait_status (v : Z) (r : proc) : proc := mkProc (state r) (pid r) (ppid r) (pgid r) (sid r) (tty r) (creds r) (parent r) (chan r)
  (tick_next r) (on_tickq r) (killed r) (xstatus r) (wait_event r) v (sigs r) (alarm_ticks r) (alarm_interval_ticks r) (sdata r) (sz r) (stack_top r)
  (stack_bot r) (addrsp r) (kstack r) (fdtable r) (cwd r) (context r).
Definition set_sigs (v : sigdata) (r : proc) : proc := mkProc (state r) (pid r) (ppid r) (pgid r) (sid r) (tty r) (creds r) (parent r) (chan r)
  (tick_next r) (on_tickq r) (killed r) (xstatus r) (wait_event r) (wait_status r) v (alarm_ticks r) (alarm_interval_ticks r) (sdata r) (sz r)
  (stack_top r) (stack_bot r) (addrsp r) (kstack r) (fdtable r) (cwd r) (context r).
Definition set_alarm_ticks (v : Z) (r : proc) : proc := mkProc (state r) (pid r) (ppid r) (pgid r) (sid r) (tty r) (creds r) (parent r) (chan r)
  (tick_next r) (on_tickq r) (killed r) (xstatus r) (wait_event r) (wait_status r) (sigs r) v (alarm_interval_ticks r) (sdata r) (sz r) (stack_top r)
  (stack_bot r) (addrsp r) (kstack r) (fdtable r) (cwd r) (context r).
Definition set_alarm_interval_ticks (v : Z) (r : proc) : proc := mkProc (state r) (pid r) (ppid r) (pgid r) (sid r) (tty r) (creds r) (parent r)
  (chan r) (tick_next r) (on_tickq r) (killed r) (xstatus r) (wait_event r) (wait_status r) (sigs r) (alarm_ticks r) v (sdata r) (sz r) (stack_top r)
  (stack_bot r) (addrsp r) (kstack r) (fdtable r) (cwd r) (context r).
Definition set_sdata (v : scheddata) (r : proc) : proc := mkProc (state r) (pid r) (ppid r) (pgid r) (sid r) (tty r) (creds r) (parent r) (chan r)
  (tick_next r) (on_tickq r) (killed r) (xstatus r) (wait_event r) (wait_status r) (sigs r) (alarm_ticks r) (alarm_interval_ticks r) v (sz r)
  (stack_top r) (stack_bot r) (addrsp r) (kstack r) (fdtable r) (cwd r) (context r).
Definition set_sz (v : Z) (r : proc) : proc := mkProc (state r) (pid r) (ppid r) (pgid r) (sid r) (tty r) (creds r) (parent r) (chan r) (tick_next r)
  (on_tickq r) (killed r) (xstatus r) (wait_event r) (wait_status r) (sigs r) (alarm_ticks r) (alarm_interval_ticks r) (sdata r) v (stack_top r)
  (stack_bot r) (addrsp r) (kstack r) (fdtable r) (cwd r) (context r).
Definition set_stack_top (v : Z) (r : proc) : proc := mkProc (state r) (pid r) (ppid r) (pgid r) (sid r) (tty r) (creds r) (parent r) (chan r)
  (tick_next r) (on_tickq r) (killed r) (xstatus r) (wait_event r) (wait_status r) (sigs r) (alarm_ticks r) (alarm_interval_ticks r) (sdata r) (sz r)
  v (stack_bot r) (addrsp r) (kstack r) (fdtable r) (cwd r) (context r).
Definition set_stack_bot (v : Z) (r : proc) : proc := mkProc (state r) (pid r) (ppid r) (pgid r) (sid r) (tty r) (creds r) (parent r) (chan r)
  (tick_next r) (on_tickq r) (killed r) (xstatus r) (wait_event r) (wait_status r) (sigs r) (alarm_ticks r) (alarm_interval_ticks r) (sdata r) (sz r)
  (stack_top r) v (addrsp r) (kstack r) (fdtable r) (cwd r) (context r).
Definition set_addrsp (v : Z) (r : proc) : proc := mkProc (state r) (pid r) (ppid r) (pgid r) (sid r) (tty r) (creds r) (parent r) (chan r)
  (tick_next r) (on_tickq r) (killed r) (xstatus r) (wait_event r) (wait_status r) (sigs r) (alarm_ticks r) (alarm_interval_ticks r) (sdata r) (sz r)
  (stack_top r) (stack_bot r) v (kstack r) (fdtable r) (cwd r) (context r).
Definition set_kstack (v : Z) (r : proc) : proc := mkProc (state r) (pid r) (ppid r) (pgid r) (sid r) (tty r) (creds r) (parent r) (chan r)
  (tick_next r) (on_tickq r) (killed r) (xstatus r) (wait_event r) (wait_status r) (sigs r) (alarm_ticks r) (alarm_interval_ticks r) (sdata r) (sz r)
  (stack_top r) (stack_bot r) (addrsp r) v (fdtable r) (cwd r) (context r).
Definition set_fdtable (v : Z) (r : proc) : proc := mkProc (state r) (pid r) (ppid r) (pgid r) (sid r) (tty r) (creds r) (parent r) (chan r)
  (tick_next r) (on_tickq r) (killed r) (xstatus r) (wait_event r) (wait_status r) (sigs r) (alarm_ticks r) (alarm_interval_ticks r) (sdata r) (sz r)
  (stack_top r) (stack_bot r) (addrsp r) (kstack r) v (cwd r) (context r).
Definition set_cwd (v : Z) (r : proc) : proc := mkProc (state r) (pid r) (ppid r) (pgid r) (sid r) (tty r) (creds r) (parent r) (chan r)
  (tick_next r) (on_tickq r) (killed r) (xstatus r) (wait_event r) (wait_status r) (sigs r) (alarm_ticks r) (alarm_interval_ticks r) (sdata r) (sz r)
  (stack_top r) (stack_bot r) (addrsp r) (kstack r) (fdtable r) v (context r).
Definition set_context (v : resume) (r : proc) : proc := mkProc (state r) (pid r) (ppid r) (pgid r) (sid r) (tty r) (creds r) (parent r) (chan r)
  (tick_next r) (on_tickq r) (killed r) (xstatus r) (wait_event r) (wait_status r) (sigs r) (alarm_ticks r) (alarm_interval_ticks r) (sdata r) (sz r)
  (stack_top r) (stack_bot r) (addrsp r) (kstack r) (fdtable r) (cwd r) v.
Definition set_q_head (v : option nat) (r : mlfq_queue) : mlfq_queue := mkQ v (q_tail r) (q_count r).
Definition set_q_tail (v : option nat) (r : mlfq_queue) : mlfq_queue := mkQ (q_head r) v (q_count r).
Definition set_q_count (v : Z) (r : mlfq_queue) : mlfq_queue := mkQ (q_head r) (q_tail r) v.
Definition set_procs (v : list proc) (r : ptable) : ptable := mkPt v (nextpid r) (initproc r) (mlfq_qs r) (mlfq_last_boost_tick r)
  (mlfq_boost_interval_ticks r) (mlfq_stat_promotions r) (mlfq_stat_demotions r) (mlfq_stat_boosts r) (mlfq_stat_budget_expired r)
  (tick_sleepq_head r) (active_tick_sleepers r) (chan_wait_hash r) (active_alarm_count r) (ticks r).
Definition set_nextpid (v : Z) (r : ptable) : ptable := mkPt (procs r) v (initproc r) (mlfq_qs r) (mlfq_last_boost_tick r)
  (mlfq_boost_interval_ticks r) (mlfq_stat_promotions r) (mlfq_stat_demotions r) (mlfq_stat_boosts r) (mlfq_stat_budget_expired r)
  (tick_sleepq_head r) (active_tick_sleepers r) (chan_wait_hash r) (active_alarm_count r) (ticks r).
Definition set_initproc (v : option nat) (r : ptable) : ptable := mkPt (procs r) (nextpid r) v (mlfq_qs r) (mlfq_last_boost_tick r)
  (mlfq_boost_interval_ticks r) (mlfq_stat_promotions r) (mlfq_stat_demotions r) (mlfq_stat_boosts r) (mlfq_stat_budget_expired r)
  (tick_sleepq_head r) (active_tick_sleepers r) (chan_wait_hash r) (active_alarm_count r) (ticks r).
Definition set_mlfq_qs (v : list mlfq_queue) (r : ptable) : ptable := mkPt (procs r) (nextpid r) (initproc r) v (mlfq_last_boost_tick r)
  (mlfq_boost_interval_ticks r) (mlfq_stat_promotions r) (mlfq_stat_demotions r) (mlfq_stat_boosts r) (mlfq_stat_budget_expired r)
  (tick_sleepq_head r) (active_tick_sleepers r) (chan_wait_hash r) (active_alarm_count r) (ticks r).
Definition set_mlfq_last_boost_tick (v : Z) (r : ptable) : ptable := mkPt (procs r) (nextpid r) (initproc r) (mlfq_qs r) v
  (mlfq_boost_interval_ticks r) (mlfq_stat_promotions r) (mlfq_stat_demotions r) (mlfq_stat_boosts r) (mlfq_stat_budget_expired r)
  (tick_sleepq_head r) (active_tick_sleepers r) (chan_wait_hash r) (active_alarm_count r) (ticks r).
Definition set_mlfq_boost_interval_ticks (v : Z) (r : ptable) : ptable := mkPt (procs r) (nextpid r) (initproc r) (mlfq_qs r)
  (mlfq_last_boost_tick r) v (mlfq_stat_promotions r) (mlfq_stat_demotions r) (mlfq_stat_boosts r) (mlfq_stat_budget_expired r) (tick_sleepq_head r)
  (active_tick_sleepers r) (chan_wait_hash r) (active_alarm_count r) (ticks r).
Definition set_mlfq_stat_promotions (v : Z) (r : ptable) : ptable := mkPt (procs r) (nextpid r) (initproc r) (mlfq_qs r) (mlfq_last_boost_tick r)
  (mlfq_boost_interval_ticks r) v (mlfq_stat_demotions r) (mlfq_stat_boosts r) (mlfq_stat_budget_expired r) (tick_sleepq_head r)
  (active_tick_sleepers r) (chan_wait_hash r) (active_alarm_count r) (ticks r).
Definition set_mlfq_stat_demotions (v : Z) (r : ptable) : ptable := mkPt (procs r) (nextpid r) (initproc r) (mlfq_qs r) (mlfq_last_boost_tick r)
  (mlfq_boost_interval_ticks r) (mlfq_stat_promotions r) v (mlfq_stat_boosts r) (mlfq_stat_budget_expired r) (tick_sleepq_head r)
  (active_tick_sleepers r) (chan_wait_hash r) (active_alarm_count r) (ticks r).
Definition set_mlfq_stat_boosts (v : Z) (r : ptable) : ptable := mkPt (procs r) (nextpid r) (initproc r) (mlfq_qs r) (mlfq_last_boost_tick r)
  (mlfq_boost_interval_ticks r) (mlfq_stat_promotions r) (mlfq_stat_demotions r) v (mlfq_stat_budget_expired r) (tick_sleepq_head r)
  (active_tick_sleepers r) (chan_wait_hash r) (active_alarm_count r) (ticks r).
Definition set_mlfq_stat_budget_expired (v : Z) (r : ptable) : ptable := mkPt (procs r) (nextpid r) (initproc r) (mlfq_qs r) (mlfq_last_boost_tick r)
  (mlfq_boost_interval_ticks r) (mlfq_stat_promotions r) (mlfq_stat_demotions r) (mlfq_stat_boosts r) v (tick_sleepq_head r) (active_tick_sleepers r)
  (chan_wait_hash r) (active_alarm_count r) (ticks r).
Definition set_tick_sleepq_head (v : option nat) (r : ptable) : ptable := mkPt (procs r) (nextpid r) (initproc r) (mlfq_qs r)
  (mlfq_last_boost_tick r) (mlfq_boost_interval_ticks r) (mlfq_stat_promotions r) (mlfq_stat_demotions r) (mlfq_stat_boosts r)
  (mlfq_stat_budget_expired r) v (active_tick_sleepers r) (chan_wait_hash r) (active_alarm_count r) (ticks r).
Definition set_active_tick_sleepers (v : Z) (r : ptable) : ptable := mkPt (procs r) (nextpid r) (initproc r) (mlfq_qs r) (mlfq_last_boost_tick r)
  (mlfq_boost_interval_ticks r) (mlfq_stat_promotions r) (mlfq_stat_demotions r) (mlfq_stat_boosts r) (mlfq_stat_budget_expired r)
  (tick_sleepq_head r) v (chan_wait_hash r) (active_alarm_count r) (ticks r).
Definition set_chan_wait_hash (v : list Z) (r : ptable) : ptable := mkPt (procs r) (nextpid r) (initproc r) (mlfq_qs r) (mlfq_last_boost_tick r)
  (mlfq_boost_interval_ticks r) (mlfq_stat_promotions r) (mlfq_stat_demotions r) (mlfq_stat_boosts r) (mlfq_stat_budget_expired r)
  (tick_sleepq_head r) (active_tick_sleepers r) v (active_alarm_count r) (ticks r).
Definition set_active_alarm_count (v : Z) (r : ptable) : ptable := mkPt (procs r) (nextpid r) (initproc r) (mlfq_qs r) (mlfq_last_boost_tick r)
  (mlfq_boost_interval_ticks r) (mlfq_stat_promotions r) (mlfq_stat_demotions r) (mlfq_stat_boosts r) (mlfq_stat_budget_expired r)
  (tick_sleepq_head r) (active_tick_sleepers r) (chan_wait_hash r) v (ticks r).
Definition set_ticks (v : Z) (r : ptable) : ptable := mkPt (procs r) (nextpid r) (initproc r) (mlfq_qs r) (mlfq_last_boost_tick r)
  (mlfq_boost_interval_ticks r) (mlfq_stat_promotions r) (mlfq_stat_demotions r) (mlfq_stat_boosts r) (mlfq_stat_budget_expired r)
  (tick_sleepq_head r) (active_tick_sleepers r) (chan_wait_hash r) (active_alarm_count r) v.

(** ** Pointers *)

Definition cred0 : cred := mkCred 0 0 0 0 0 0 0 (replicate PROC_NGROUPS_MAX 0) 0 0 0.
Definition sig0 : sigdata := mkSig 0 0 0 0 (replicate 32 0) (replicate 32 0) (replicate 32 0).
Definition sched0 : scheddata := mkSched 0 0 0 0 0 0 0 0 None None.

(** A slot of the table at boot: all zero. *)
Definition proc0 : proc := mkProc UNUSED 0 0 0 0 0 cred0 None 0 None false false 0 0 0 sig0 0 0 sched0 0 0 0 0 0 0 0 AtForkret.

(** [pr s i]: the process at index [i]; [upd i f s]: an assignment through such a pointer. *)
Definition pr (s : ptable) (i : nat) : proc := nth i (procs s) proc0.
Definition upd (i : nat) (f : proc -> proc) (s : ptable) : ptable := set_procs (alter f i (procs s)) s.
Definition upd_sched (f : scheddata -> scheddata) (p : proc) : proc := set_sdata (f (sdata p)) p.
Definition upd_sigs (f : sigdata -> sigdata) (p : proc) : proc := set_sigs (f (sigs p)) p.
Definition upd_creds (f : cred -> cred) (p : proc) : proc := set_creds (f (creds p)) p.

(** The queue of level [q]. *)
Definition q0 : mlfq_queue := mkQ None None 0.
Definition qu (s : ptable) (q : Z) : mlfq_queue := nth (Z.to_nat q) (mlfq_qs s) q0.
Definition upd_q (q : Z) (f : mlfq_queue -> mlfq_queue) (s : ptable) : ptable := set_mlfq_qs (alter f (Z.to_nat q) (mlfq_qs s)) s.

Definition next_of (s : ptable) (i : nat) : option nat := sched_next (sdata (pr s i)).
Definition prev_of (s : ptable) (i : nat) : option nat := sched_prev (sdata (pr s i)).
Definition st (s : ptable) (i : nat) : procstate := state (pr s i).
Definition lvl (s : ptable) (i : nat) : Z := sched_q (sdata (pr s i)).

(** ** Assignments and reads *)

Lemma pr_upd i j f s : (i < length (procs s))%nat -> pr (upd i f s) j = if decide (i = j) then f (pr s j) else pr s j.
Proof.
  intros Hi. unfold pr, upd. cbn [procs set_procs]. rewrite !nth_lookup. destruct (decide (i = j)) as [<-|Hne].
  - rewrite list_lookup_alter_eq. destruct (lookup_lt_is_Some_2 (procs s) i Hi) as [p ->]. done.
  - by rewrite list_lookup_alter_ne.
Qed.

Lemma pr_upd_eq i f s : (i < length (procs s))%nat -> pr (upd i f s) i = f (pr s i).
Proof. intros Hi. rewrite pr_upd by done. by rewrite decide_True. Qed.

Lemma pr_upd_ne i j f s : i <> j -> pr (upd i f s) j = pr s j.
Proof. intros Hne. unfold pr, upd. cbn [procs set_procs]. rewrite !nth_lookup. by rewrite list_lookup_alter_ne. Qed.

Lemma upd_length i f s : length (procs (upd i f s)) = length (procs s).
Proof. apply length_alter. Qed.

Lemma qu_upd q r f s : (Z.to_nat q < length (mlfq_qs s))%nat -> 0 <= q -> 0 <= r ->
  qu (upd_q q f s) r = if decide (q = r) then f (qu s r) else qu s r.
Proof.
  intros Hq H0 H1. unfold qu, upd_q. cbn [mlfq_qs set_mlfq_qs]. rewrite !nth_lookup. destruct (decide (q = r)) as [<-|Hne].
  - rewrite list_lookup_alter_eq. destruct (lookup_lt_is_Some_2 (mlfq_qs s) (Z.to_nat q) Hq) as [p ->]. done.
  - rewrite list_lookup_alter_ne; [done|]. lia.
Qed.
