(* ===== verification/Sched.v ===== *)
(** * The scheduler's queues: [src/kernel/core/proc_sched.c]

    Five queues of runnable processes, doubly linked through the process table.
    Operations run with [ptable.lock] held.  The second half gives the lists the
    links stand for ([queues]) and what each operation does to them. *)

From S2P Require Import Prelude ProcTab.

Definition SCHED_F_BUDGET_EXPIRED : Z := 1.
Definition SCHED_F_BOOST_APPLIED : Z := 2.

Definition is_some {A} (o : option A) : bool := match o with Some _ => true | None => false end.

Definition mlfq_list_append (q : Z) (p : nat) (s : ptable) : ptable :=
  let t := q_tail (qu s q) in
  let s := upd p (upd_sched (fun d => set_sched_prev t (set_sched_next None d))) s in
  let s := match t with
           | Some t => upd t (upd_sched (set_sched_next (Some p))) s
           | None => upd_q q (set_q_head (Some p)) s
           end in
  upd_q q (fun r => set_q_count (q_count r +u 1) (set_q_tail (Some p) r)) s.

Definition mlfq_list_remove (q : Z) (p : nat) (s : ptable) : ptable :=
  let n := next_of s p in
  let v := prev_of s p in
  let s := match v with
           | Some v => upd v (upd_sched (set_sched_next n)) s
           | None => upd_q q (set_q_head n) s
           end in
  let s := match n with
           | Some n => upd n (upd_sched (set_sched_prev v)) s
           | None => upd_q q (set_q_tail v) s
           end in
  let s := upd p (upd_sched (fun d => set_sched_prev None (set_sched_next None d))) s in
  upd_q q (fun r => if q_count r >? 0 then set_q_count (q_count r - 1) r else r) s.

Definition mlfq_is_queued (p : nat) (s : ptable) : bool :=
  if is_some (next_of s p) || is_some (prev_of s p) then true
  else
    let q := lvl s p in
    (q >=? 0) && (q <? MLFQ_NQUEUES) && bool_decide (q_head (qu s q) = Some p).

(** The demotion of a process whose quantum is used up. *)
Definition enq_demote (p : nat) (r : reason) (expired : bool) (s : ptable) : ptable :=
  if expired && bool_decide (r = SCHED_ENQ_YIELD) then
    let s := if lvl s p <? MLFQ_NQUEUES - 1 then upd p (upd_sched (fun d => set_sched_q (sched_q d + 1) d)) s else s in
    set_mlfq_stat_demotions (mlfq_stat_demotions s +u 1) s
  else s.

(** The promotion of a process that has slept. *)
Definition enq_promote (p : nat) (r : reason) (now : Z) (s : ptable) : ptable :=
  if bool_decide (r = SCHED_ENQ_WAKE) || bool_decide (r = SCHED_ENQ_ALARM) || bool_decide (r = SCHED_ENQ_SIGNAL) then
    let slept := now -u sched_last_block_tick (sdata (pr s p)) in
    let s := if (slept >=? MLFQ_PROMOTE_MIN_SLEEP) && (lvl s p >? 0)
             then set_mlfq_stat_promotions (mlfq_stat_promotions s +u 1) (upd p (upd_sched (fun d => set_sched_q (sched_q d - 1) d)) s)
             else s in
    upd p (upd_sched (set_sched_last_wake_tick now)) s
  else s.

Definition schedq_enqueue_locked (p : nat) (r : reason) (s : ptable) : ptable :=
  let s := if negb (bool_decide (r = SCHED_ENQ_YIELD)) && mlfq_is_queued p s then mlfq_list_remove (lvl s p) p s else s in
  let now := ticks s in
  let orig_q := lvl s p in
  let expired := flag (sched_flags (sdata (pr s p))) SCHED_F_BUDGET_EXPIRED in
  let s := enq_demote p r expired s in
  let s := upd p (upd_sched (fun d => set_sched_flags (Z.ldiff (sched_flags d) SCHED_F_BUDGET_EXPIRED) d)) s in
  let s := enq_promote p r now s in
  let q := lvl s p in
  let q := if q <? 0 then 0 else q in
  let q := if q >=? MLFQ_NQUEUES then MLFQ_NQUEUES - 1 else q in
  let s := upd p (upd_sched (set_sched_q q)) s in
  let s := if negb (q =? orig_q) || expired || negb (bool_decide (r = SCHED_ENQ_YIELD))
           then upd p (upd_sched (set_sched_budget_left (nth (Z.to_nat q) mlfq_quanta 0))) s else s in
  let s := upd p (upd_sched (set_sched_enq_tick now)) s in
  mlfq_list_append q p s.

Definition schedq_dequeue_locked (p : nat) (s : ptable) : ptable :=
  if negb (mlfq_is_queued p s) then s
  else if (lvl s p >=? 0) && (lvl s p <? MLFQ_NQUEUES) then mlfq_list_remove (lvl s p) p s else s.

(** The loop of [schedq_pick_next_locked] over the levels [qs]. *)
Fixpoint pick_from (qs : list Z) (s : ptable) : option nat * ptable :=
  match qs with
  | [] => (None, s)
  | q :: qs =>
      match q_head (qu s q) with
      | None => pick_from qs s
      | Some p => (Some p, mlfq_list_remove q p s)
      end
  end.

Definition schedq_pick_next_locked (s : ptable) : option nat * ptable := pick_from [0; 1; 2; 3; 4] s.

Definition mlfq_timer_charge (p : nat) (s : ptable) : ptable :=
  let d := sdata (pr s p) in
  if sched_budget_left d >? 1 then upd p (upd_sched (set_sched_budget_left (sched_budget_left d - 1))) s
  else
    let s := upd p (upd_sched (set_sched_budget_left 0)) s in
    if negb (flag (sched_flags d) SCHED_F_BUDGET_EXPIRED) then
      let s := upd p (upd_sched (set_sched_flags (Z.lor (sched_flags d) SCHED_F_BUDGET_EXPIRED))) s in
      set_mlfq_stat_budget_expired (mlfq_stat_budget_expired s +u 1) s
    else s.

(** The body of the loop of [mlfq_apply_global_boost]. *)
Definition boost_one (p : nat) (s : ptable) : ptable :=
  let clear d := set_sched_flags (Z.ldiff (sched_flags d) (Z.lor SCHED_F_BUDGET_EXPIRED SCHED_F_BOOST_APPLIED)) d in
  match st s p with
  | UNUSED | ZOMBIE | EMBRYO | RUNNING => s
  | x =>
      if lvl s p <=? 1 then s
      else if bool_decide (x = RUNNABLE) then
        let q := lvl s p in
        let s := mlfq_list_remove q p s in
        let s := upd p (upd_sched (fun d => clear (set_sched_budget_left (nth 1 mlfq_quanta 0) (set_sched_q 1 d)))) s in
        mlfq_list_append 1 p s
      else upd p (upd_sched (fun d => clear (set_sched_q 1 d))) s
  end.

Definition boost_all (s : ptable) : ptable := fold_left (fun s p => boost_one p s) (seq 0 NPROC) s.

Definition mlfq_apply_global_boost (now : Z) (s : ptable) : ptable :=
  if now -u mlfq_last_boost_tick s <? mlfq_boost_interval_ticks s then s
  else
    let s := set_mlfq_last_boost_tick now s in
    let s := boost_all s in
    set_mlfq_stat_boosts (mlfq_stat_boosts s +u 1) s.

Definition mlfq_set_boost_interval (interval : Z) (s : ptable) : Z * ptable :=
  if (interval <? MLFQ_BOOST_INTERVAL_MIN) || (interval >? MLFQ_BOOST_INTERVAL_MAX) then (-1, s)
  else (0, set_mlfq_last_boost_tick (ticks s) (set_mlfq_boost_interval_ticks interval s)).

(** ** What the operations leave alone *)

(** The table without the scheduler's part. *)
Definition nosched (s : ptable) : ptable :=
  mkPt (set_sdata sched0 <$> procs s) (nextpid s) (initproc s) [] 0 0 0 0 0 0 (tick_sleepq_head s) (active_tick_sleepers s)
    (chan_wait_hash s) (active_alarm_count s) (ticks s).

Lemma nosched_upd p f s : (forall r, set_sdata sched0 (f r) = set_sdata sched0 r) -> nosched (upd p f s) = nosched s.
Proof.
  intros Hf. unfold nosched, upd. cbn [procs set_procs nextpid initproc tick_sleepq_head active_tick_sleepers chan_wait_hash active_alarm_count ticks]. f_equal.
  apply list_eq. intros i. rewrite !list_lookup_fmap. destruct (decide (p = i)) as [<-|Hne].
  - rewrite list_lookup_alter_eq. destruct (procs s !! p); cbn; [by rewrite Hf|done].
  - by rewrite list_lookup_alter_ne.
Qed.

Lemma nosched_sched p f s : nosched (upd p (upd_sched f) s) = nosched s.
Proof. by apply nosched_upd. Qed.

Lemma nosched_q q f s : nosched (upd_q q f s) = nosched s.
Proof. done. Qed.

Lemma nosched_append q p s : nosched (mlfq_list_append q p s) = nosched s.
Proof. unfold mlfq_list_append. destruct (q_tail (qu s q)); by rewrite ?nosched_q, ?nosched_sched, ?nosched_q, ?nosched_sched. Qed.

Lemma nosched_remove q p s : nosched (mlfq_list_remove q p s) = nosched s.
Proof.
  unfold mlfq_list_remove. destruct (next_of s p), (prev_of s p); repeat first [rewrite nosched_q|rewrite nosched_sched]; done.
Qed.

Lemma nosched_demote p r e s : nosched (enq_demote p r e s) = nosched s.
Proof. unfold enq_demote. destruct (e && _); [|done]. destruct (lvl s p <? _); [|done]. apply (nosched_sched p _ s). Qed.

Lemma nosched_promote p r now s : nosched (enq_promote p r now s) = nosched s.
Proof. unfold enq_promote. destruct (_ || _); [|done]. rewrite nosched_sched. destruct (_ && _); [|done]. apply (nosched_sched p _ s). Qed.

Lemma nosched_enqueue p r s : nosched (schedq_enqueue_locked p r s) = nosched s.
Proof.
  unfold schedq_enqueue_locked. rewrite nosched_append, nosched_sched.
  assert (E : forall b (f : scheddata -> scheddata) t, nosched (if b : bool then upd p (upd_sched f) t else t) = nosched t)
    by (intros [] f t; [apply nosched_sched|done]).
  rewrite E, nosched_sched, nosched_promote, nosched_sched, nosched_demote. destruct (_ && _); [apply nosched_remove|done].
Qed.

Lemma pr_nosched s i : pr (nosched s) i = set_sdata sched0 (pr s i).
Proof. unfold pr, nosched. cbn [procs]. change proc0 with (set_sdata sched0 proc0) at 1. apply map_nth. Qed.

(** A part of the table that the scheduler does not keep. *)
Lemma keep_proc {A} (f : proc -> A) s s' i : nosched s' = nosched s -> (forall p, f (set_sdata sched0 p) = f p) -> f (pr s' i) = f (pr s i).
Proof. intros E Hf. rewrite <- (Hf (pr s' i)), <- (Hf (pr s i)), <- !pr_nosched. by rewrite E. Qed.

Lemma keep_st s s' i : nosched s' = nosched s -> st s' i = st s i.
Proof. intros E. by apply (keep_proc state). Qed.

Lemma keep_length s s' : nosched s' = nosched s -> length (procs s') = length (procs s).
Proof. intros E. rewrite <- (length_fmap (set_sdata sched0) (procs s)), <- (length_fmap (set_sdata sched0) (procs s')). apply (f_equal procs) in E. cbn in E. by rewrite E. Qed.

(** ** Links *)

Lemma link_next_upd p f s j : (p < length (procs s))%nat ->
  next_of (upd p (upd_sched f) s) j = if decide (p = j) then sched_next (f (sdata (pr s j))) else next_of s j.
Proof. intros Hp. unfold next_of. rewrite pr_upd by done. by destruct (decide (p = j)). Qed.

Lemma link_prev_upd p f s j : (p < length (procs s))%nat ->
  prev_of (upd p (upd_sched f) s) j = if decide (p = j) then sched_prev (f (sdata (pr s j))) else prev_of s j.
Proof. intros Hp. unfold prev_of. rewrite pr_upd by done. by destruct (decide (p = j)). Qed.

(** [L] is the list of the processes from [q_head] on, in both directions. *)
Definition links (s : ptable) (L : list nat) : Prop :=
  forall l1 p l2, L = l1 ++ p :: l2 -> prev_of s p = last l1 /\ next_of s p = head l2.

Record qlist (s : ptable) (q : Z) (L : list nat) : Prop := {
  ql_head : q_head (qu s q) = head L;
  ql_tail : q_tail (qu s q) = last L;
  ql_count : q_count (qu s q) = len L;
  ql_links : links s L;
  ql_nodup : NoDup L
}.

(** The five lists, the members of list [q] at level [q]; other processes are not linked. *)
Record queues (s : ptable) (Ls : Z -> list nat) : Prop := {
  qs_procs : length (procs s) = NPROC;
  qs_len : length (mlfq_qs s) = Z.to_nat MLFQ_NQUEUES;
  qs_list q : 0 <= q < MLFQ_NQUEUES -> qlist s q (Ls q);
  qs_in q p : 0 <= q < MLFQ_NQUEUES -> p ∈ Ls q -> (p < NPROC)%nat /\ lvl s p = q;
  qs_out p : (p < NPROC)%nat -> p ∉ Ls (lvl s p) -> next_of s p = None /\ prev_of s p = None;
  qs_lvl p : (p < NPROC)%nat -> 0 <= lvl s p < MLFQ_NQUEUES
}.

Definition queued (Ls : Z -> list nat) (s : ptable) (p : nat) : Prop := p ∈ Ls (lvl s p).

Lemma head_in {A} (l : list A) x : head l = Some x -> x ∈ l.
Proof. destruct l; [done|]. intros [= ->]. left. Qed.

Lemma last_in {A} (l : list A) x : last l = Some x -> x ∈ l.
Proof. intros E. apply last_Some in E as [l' ->]. set_solver. Qed.

(** The links of one process are those of a list it is in. *)
Lemma links_in s L p : links s L -> p ∈ L -> (forall x, prev_of s p = Some x -> x ∈ L) /\ (forall x, next_of s p = Some x -> x ∈ L).
Proof.
  intros Hl Hp. apply list_elem_of_split in Hp as (l1 & l2 & ->). destruct (Hl l1 p l2 eq_refl) as [-> ->]. split; intros x.
  - intros Hx%last_in. set_solver.
  - intros Hx%head_in. set_solver.
Qed.

Lemma queued_spec s Ls p : queues s Ls -> (p < NPROC)%nat -> mlfq_is_queued p s = true <-> queued Ls s p.
Proof.
  intros Q Hp. pose proof (qs_lvl _ _ Q p Hp) as Hq. pose proof (qs_list _ _ Q _ Hq) as L. unfold mlfq_is_queued, queued. split.
  - intros E. destruct (decide (p ∈ Ls (lvl s p))) as [|Hn]; [done|]. destruct (qs_out _ _ Q p Hp Hn) as [N P].
    exfalso. rewrite N, P in E. cbn [is_some orb] in E. apply andb_true_iff in E as [_ E]. apply bool_decide_eq_true in E. rewrite (ql_head _ _ _ L) in E. by apply Hn, head_in.
  - intros Hin. destruct (is_some (next_of s p) || is_some (prev_of s p)) eqn:E; [done|]. apply orb_false_iff in E as [E1 E2].
    apply list_elem_of_split in Hin as (l1 & l2 & EL). destruct (ql_links _ _ _ L l1 p l2 EL) as [P N]. rewrite P in E2. rewrite N in E1.
    destruct (last l1) eqn:El; [done|]. apply last_None in El as ->. unfold MLFQ_NQUEUES in *. rewrite (ql_head _ _ _ L), EL. cbn [app head].
    rewrite bool_decide_eq_true_2 by done. lia.
Qed.

(** ** Appending and removing *)

(** [Ls] with list [q] replaced. *)
Definition lput (q : Z) (l : list nat) (Ls : Z -> list nat) : Z -> list nat := fun r => if decide (r = q) then l else Ls r.

Lemma lput_eq q l Ls : lput q l Ls q = l.
Proof. unfold lput. by rewrite decide_True. Qed.
Lemma lput_ne q l Ls r : r <> q -> lput q l Ls r = Ls r.
Proof. intros. unfold lput. by rewrite decide_False. Qed.

Lemma lvl_upd p f s j : (forall d, sched_q (f d) = sched_q d) -> lvl (upd p (upd_sched f) s) j = lvl s j.
Proof.
  intros Hf. unfold lvl. destruct (decide (p < length (procs s))%nat) as [Hp|Hp].
  - rewrite pr_upd by done. destruct (decide (p = j)) as [->|]; [|done]. cbn. apply Hf.
  - destruct (decide (p = j)) as [->|Hne]; [|by rewrite pr_upd_ne]. unfold pr. rewrite !nth_overflow by (rewrite ?upd_length; lia). done.
Qed.

Lemma lvl_q q f s j : lvl (upd_q q f s) j = lvl s j.
Proof. done. Qed.

Lemma append_lvl q p s j : lvl (mlfq_list_append q p s) j = lvl s j.
Proof. unfold mlfq_list_append. rewrite lvl_q. destruct (q_tail (qu s q)); rewrite ?lvl_q, ?lvl_upd by done; done. Qed.

Lemma remove_lvl q p s j : lvl (mlfq_list_remove q p s) j = lvl s j.
Proof. unfold mlfq_list_remove. rewrite lvl_q, lvl_upd by done. destruct (next_of s p), (prev_of s p); repeat first [rewrite lvl_q|rewrite lvl_upd by done]; done. Qed.

(** The effect on the links. *)
Lemma append_links q p s : (p < length (procs s))%nat -> q_tail (qu s q) <> Some p ->
  (forall t, q_tail (qu s q) = Some t -> (t < length (procs s))%nat) ->
  let s' := mlfq_list_append q p s in
  (forall j, next_of s' j = if decide (j = p) then None else if decide (q_tail (qu s q) = Some j) then Some p else next_of s j) /\
  (forall j, prev_of s' j = if decide (j = p) then q_tail (qu s q) else prev_of s j) /\ (forall j, lvl s' j = lvl s j).
Proof.
  intros Hp Ht Htl. unfold mlfq_list_append. destruct (q_tail (qu s q)) as [t|] eqn:Et.
  - assert (Hne : t <> p) by congruence. pose proof (Htl t eq_refl) as Hl. split; [|split]; intros j.
    + change (next_of (upd_q q ?f ?s) j) with (next_of s j). rewrite link_next_upd by (by rewrite upd_length). rewrite link_next_upd by done. cbn [sched_next sched_prev set_sched_next set_sched_prev].
      destruct (decide (t = j)) as [<-|]; [rewrite (decide_False (P := t = p)), decide_True by done; done|].
      rewrite (decide_False (P := Some t = Some j)) by congruence. destruct (decide (p = j)), (decide (j = p)); congruence.
    + change (prev_of (upd_q q ?f ?s) j) with (prev_of s j). rewrite link_prev_upd by (by rewrite upd_length). cbn [sched_next sched_prev set_sched_next set_sched_prev].
      change (sched_prev (sdata (pr ?s j))) with (prev_of s j). rewrite link_prev_upd by done. cbn [sched_next sched_prev set_sched_next set_sched_prev]. destruct (decide (t = j)), (decide (p = j)), (decide (j = p)); congruence.
    + change (lvl (upd_q q ?f ?s) j) with (lvl s j). by rewrite !lvl_upd.
  - split; [|split]; intros j.
    + change (next_of (upd_q q ?f (upd_q q ?g ?s)) j) with (next_of s j). rewrite link_next_upd by done. cbn [sched_next sched_prev set_sched_next set_sched_prev]. rewrite (decide_False (P := None = Some j)) by done.
      destruct (decide (p = j)), (decide (j = p)); congruence.
    + change (prev_of (upd_q q ?f (upd_q q ?g ?s)) j) with (prev_of s j). rewrite link_prev_upd by done. cbn [sched_next sched_prev set_sched_next set_sched_prev]. destruct (decide (p = j)), (decide (j = p)); congruence.
    + change (lvl (upd_q q ?f (upd_q q ?g ?s)) j) with (lvl s j). by rewrite !lvl_upd.
Qed.

Lemma remove_links q p s : (p < length (procs s))%nat ->
  (forall x, next_of s p = Some x -> (x < length (procs s))%nat /\ x <> p) -> (forall x, prev_of s p = Some x -> (x < length (procs s))%nat /\ x <> p) ->
  (forall x, next_of s p = Some x -> prev_of s p <> Some x) ->
  let s' := mlfq_list_remove q p s in
  (forall j, next_of s' j = if decide (j = p) then None else if decide (prev_of s p = Some j) then next_of s p else next_of s j) /\
  (forall j, prev_of s' j = if decide (j = p) then None else if decide (next_of s p = Some j) then prev_of s p else prev_of s j) /\
  (forall j, lvl s' j = lvl s j).
Proof.
  intros Hp Hn Hv Hnv. unfold mlfq_list_remove. set (n := next_of s p) in *. set (v := prev_of s p) in *.
  set (s1 := match v with Some v => upd v (upd_sched (set_sched_next n)) s | None => upd_q q (set_q_head n) s end).
  set (s2 := match n with Some n => upd n (upd_sched (set_sched_prev v)) s1 | None => upd_q q (set_q_tail v) s1 end).
  assert (L1 : length (procs s1) = length (procs s)) by (unfold s1; destruct v; [apply upd_length|done]).
  assert (L2 : length (procs s2) = length (procs s)) by (unfold s2; destruct n; [by rewrite upd_length|done]).
  assert (N1 : forall j, next_of s1 j = if decide (v = Some j) then n else next_of s j).
  { intros j. unfold s1. destruct v as [v'|] eqn:Ev; [|by rewrite decide_False by done]. rewrite link_next_upd by (by apply Hv). cbn [sched_next sched_prev set_sched_next set_sched_prev]. destruct (decide (v' = j)), (decide (Some v' = Some j)); congruence. }
  assert (P1 : forall j, prev_of s1 j = prev_of s j).
  { intros j. unfold s1. destruct v as [v'|] eqn:Ev; [|done]. rewrite link_prev_upd by (by apply Hv). cbn [sched_next sched_prev set_sched_next set_sched_prev]. by destruct (decide (v' = j)). }
  assert (N2 : forall j, next_of s2 j = next_of s1 j).
  { intros j. unfold s2. destruct n as [n'|] eqn:En; [|done]. rewrite link_next_upd by (rewrite L1; by apply Hn). cbn [sched_next sched_prev set_sched_next set_sched_prev]. by destruct (decide (n' = j)). }
  assert (P2 : forall j, prev_of s2 j = if decide (n = Some j) then v else prev_of s1 j).
  { intros j. unfold s2. destruct n as [n'|] eqn:En; [|by rewrite decide_False by done]. rewrite link_prev_upd by (rewrite L1; by apply Hn). cbn [sched_next sched_prev set_sched_next set_sched_prev]. destruct (decide (n' = j)), (decide (Some n' = Some j)); congruence. }
  split; [|split]; intros j.
  - change (next_of (upd_q q ?f ?s) j) with (next_of s j). rewrite link_next_upd by lia. cbn [sched_next sched_prev set_sched_next set_sched_prev]. destruct (decide (p = j)), (decide (j = p)); try congruence. by rewrite N2, N1.
  - change (prev_of (upd_q q ?f ?s) j) with (prev_of s j). rewrite link_prev_upd by lia. cbn [sched_next sched_prev set_sched_next set_sched_prev]. destruct (decide (p = j)), (decide (j = p)); try congruence. by rewrite P2, P1.
  - change (lvl (upd_q q ?f ?s) j) with (lvl s j). rewrite lvl_upd by done.
    assert (E1 : lvl s1 j = lvl s j) by (unfold s1; destruct v; [by apply lvl_upd|done]). rewrite <- E1. unfold s2. destruct n; [by apply lvl_upd|done].
Qed.

(** The effect on the queue. *)
Lemma qu_proc p f s r : qu (upd p f s) r = qu s r.
Proof. done. Qed.

Lemma append_qu q p s r : 0 <= q -> 0 <= r -> (Z.to_nat q < length (mlfq_qs s))%nat ->
  qu (mlfq_list_append q p s) r =
    if decide (q = r) then mkQ (match q_tail (qu s q) with Some _ => q_head (qu s q) | None => Some p end) (Some p) (q_count (qu s q) +u 1) else qu s r.
Proof.
  intros Hq Hr Hl. unfold mlfq_list_append. destruct (q_tail (qu s q)) as [t|] eqn:Et.
  - rewrite qu_upd by done. change (qu (upd ?x ?f (upd ?y ?g s)) r) with (qu s r). destruct (decide (q = r)) as [<-|]; [|done]. done.
  - assert (Hl' : (Z.to_nat q < length (mlfq_qs (upd_q q (set_q_head (Some p)) (upd p (upd_sched (λ d, set_sched_prev None (set_sched_next None d))) s))))%nat)
      by (unfold upd_q; cbn [mlfq_qs set_mlfq_qs]; rewrite length_alter; exact Hl).
    rewrite qu_upd by done. rewrite qu_upd by done. change (qu (upd ?x ?f s) r) with (qu s r). destruct (decide (q = r)) as [<-|]; done.
Qed.

Lemma remove_qu q p s r : 0 <= q -> 0 <= r -> (Z.to_nat q < length (mlfq_qs s))%nat ->
  qu (mlfq_list_remove q p s) r =
    if decide (q = r) then mkQ (match prev_of s p with Some _ => q_head (qu s q) | None => next_of s p end)
      (match next_of s p with Some _ => q_tail (qu s q) | None => prev_of s p end)
      (if q_count (qu s q) >? 0 then q_count (qu s q) - 1 else q_count (qu s q)) else qu s r.
Proof.
  intros Hq Hr Hl. unfold mlfq_list_remove.
  assert (Hlen : forall x f t, length (mlfq_qs (upd_q x f t)) = length (mlfq_qs t)) by (intros; unfold upd_q; cbn [mlfq_qs set_mlfq_qs]; apply length_alter).
  destruct (prev_of s p) as [v|], (next_of s p) as [n|]; repeat first [rewrite qu_proc|rewrite qu_upd by (try done; cbn [mlfq_qs upd set_procs]; rewrite ?Hlen; done)];
    (destruct (decide (q = r)) as [<-|]; [|done]); destruct (qu s q) as [h t c]; cbn [q_count q_head q_tail set_q_count set_q_head set_q_tail]; by destruct (c >? 0).
Qed.

Lemma append_len q p s : length (mlfq_qs (mlfq_list_append q p s)) = length (mlfq_qs s).
Proof. unfold mlfq_list_append. destruct (q_tail (qu s q)); unfold upd_q; cbn [mlfq_qs set_mlfq_qs upd set_procs]; rewrite ?length_alter; done. Qed.

Lemma remove_len q p s : length (mlfq_qs (mlfq_list_remove q p s)) = length (mlfq_qs s).
Proof. unfold mlfq_list_remove. destruct (prev_of s p), (next_of s p); unfold upd_q; cbn [mlfq_qs set_mlfq_qs upd set_procs]; rewrite ?length_alter; done. Qed.

Lemma snoc_split {A} (L l1 l2 : list A) x p : L ++ [x] = l1 ++ p :: l2 -> (l1 = L /\ p = x /\ l2 = []) \/ exists k, l2 = k ++ [x] /\ L = l1 ++ p :: k.
Proof.
  intros E. destruct l2 as [|y l2 _] using rev_ind.
  - left. apply app_inj_tail in E as [-> ->]. done.
  - right. exists l2. rewrite app_comm_cons, app_assoc in E. apply app_inj_tail in E as [-> ->]. done.
Qed.

(** The members of a list are few. *)
Lemma members_few (L : list nat) : NoDup L -> (forall p, p ∈ L -> (p < NPROC)%nat) -> len L <= 128.
Proof.
  intros Hn Hp. unfold len. assert (length L <= length (seq 0 NPROC))%nat; [|rewrite length_seq in *; unfold NPROC in *; lia].
  apply submseteq_length, NoDup_submseteq; [done|]. intros x Hx. apply elem_of_seq. pose proof (Hp x Hx). lia.
Qed.

Lemma queues_members s Ls q : queues s Ls -> 0 <= q < MLFQ_NQUEUES -> len (Ls q) <= 128.
Proof. intros Q Hq. apply members_few; [apply (qs_list _ _ Q q Hq)|]. intros p Hp. by apply (qs_in _ _ Q q). Qed.

Lemma append_spec s Ls p : queues s Ls -> (p < NPROC)%nat -> ~ queued Ls s p ->
  queues (mlfq_list_append (lvl s p) p s) (lput (lvl s p) (Ls (lvl s p) ++ [p]) Ls).
Proof.
  intros Q Hp Hnq. set (q := lvl s p). pose proof (qs_lvl _ _ Q p Hp) as Hq. fold q in Hq. pose proof (qs_list _ _ Q q Hq) as L.
  assert (Hnot : forall r, 0 <= r < MLFQ_NQUEUES -> p ∉ Ls r) by (intros r Hr Hin; destruct (qs_in _ _ Q r p Hr Hin) as [_ <-]; done).
  assert (Hlen : (Z.to_nat q < length (mlfq_qs s))%nat) by (rewrite (qs_len _ _ Q); unfold MLFQ_NQUEUES in *; lia).
  destruct (append_links q p s) as (N & P & V).
  { by rewrite (qs_procs _ _ Q). }
  { rewrite (ql_tail _ _ _ L). intros E%last_in. by apply (Hnot q). }
  { intros t. rewrite (ql_tail _ _ _ L), (qs_procs _ _ Q). intros E%last_in. by apply (qs_in _ _ Q q). }
  rewrite (ql_tail _ _ _ L) in N, P.
  split.
  - rewrite (keep_length s); [apply Q|apply nosched_append].
  - rewrite append_len. apply Q.
  - intros r Hr. pose proof (qs_list _ _ Q r Hr) as R. destruct (decide (r = q)) as [->|Hne].
    + rewrite lput_eq. split.
      * rewrite append_qu, decide_True by (unfold MLFQ_NQUEUES in *; lia || done). cbn [q_head]. rewrite (ql_tail _ _ _ L), (ql_head _ _ _ L). by destruct (Ls q) as [|x l] using rev_ind; [|rewrite last_snoc; destruct l].
      * rewrite append_qu, decide_True by (unfold MLFQ_NQUEUES in *; lia || done). cbn [q_tail]. by rewrite last_snoc.
      * rewrite append_qu, decide_True by (unfold MLFQ_NQUEUES in *; lia || done). cbn [q_count]. rewrite (ql_count _ _ _ L), len_app. pose proof (queues_members _ _ q Q Hq). pose proof (len_nonneg (Ls q)).
        rewrite u32_small by (unfold is_u32; lia). done.
      * intros l1 x l2 E. rewrite N, P. destruct (snoc_split _ _ _ _ _ E) as [(-> & -> & ->)|(k & -> & EL)]; [by rewrite !decide_True|].
        destruct (ql_links _ _ _ L l1 x k EL) as [P' N']. assert (Hx : x ∈ Ls q) by (rewrite EL; set_solver). rewrite !(decide_False (P := x = p)) by (intros ->; by apply (Hnot q)).
        split; [done|]. rewrite N', EL. rewrite last_app_cons. destruct k as [|y k _] using rev_ind.
        -- by rewrite decide_True.
        -- cbn [last]. assert (E1 : last (x :: k ++ [y]) = Some y) by (rewrite app_comm_cons; apply last_snoc). rewrite E1.
           rewrite decide_False; [by destruct k|]. intros [= ->]. pose proof (ql_nodup _ _ _ L) as Hd. rewrite EL in Hd. apply NoDup_app in Hd as (_ & _ & Hd). apply NoDup_cons in Hd as [Hd _]. set_solver.
      * apply NoDup_app. split; [apply L|]. split; [|apply NoDup_singleton]. intros x Hx Ex. apply list_elem_of_singleton in Ex as ->. by apply (Hnot q).
    + rewrite lput_ne by done. split; try (rewrite append_qu, decide_False by (done || unfold MLFQ_NQUEUES in *; lia); by apply R); [|apply R].
      intros l1 x l2 E. assert (Hx : x ∈ Ls r) by (rewrite E; set_solver). rewrite N, P, !(decide_False (P := x = p)) by (intros ->; by apply (Hnot r)).
      rewrite decide_False; [by apply (ql_links _ _ _ R)|]. intros Hl%last_in. destruct (qs_in _ _ Q q x Hq Hl), (qs_in _ _ Q r x Hr Hx). congruence.
  - intros r x Hr. rewrite V. destruct (decide (r = q)) as [->|Hne]; [rewrite lput_eq|rewrite lput_ne by done; by apply (qs_in _ _ Q)].
    intros [Hx|Ex]%elem_of_app; [by apply (qs_in _ _ Q)|]. by apply list_elem_of_singleton in Ex as ->.
  - intros x Hx. rewrite V, N, P. intros Hnx. destruct (decide (x = p)) as [->|Hxp]; [exfalso; apply Hnx; fold q; rewrite lput_eq; set_solver|].
    assert (Hnx' : x ∉ Ls (lvl s x)) by (intros Hin; apply Hnx; destruct (decide (lvl s x = q)) as [E|]; [rewrite E in *; rewrite lput_eq; set_solver|by rewrite lput_ne]).
    rewrite decide_False; [by apply (qs_out _ _ Q)|]. intros Hl%last_in. destruct (qs_in _ _ Q q x Hq Hl) as [_ E]. by rewrite E in Hnx'.
  - intros x Hx. rewrite V. by apply Q.
Qed.

(** A process in the middle of a list: its neighbours. *)
Lemma neighbours s L l1 p l2 : links s L -> NoDup L -> L = l1 ++ p :: l2 ->
  prev_of s p = last l1 /\ next_of s p = head l2 /\ (p ∉ l1) /\ (p ∉ l2) /\ (forall x, head l2 = Some x -> last l1 <> Some x) /\ NoDup (l1 ++ l2).
Proof.
  intros Hl Hd E. destruct (Hl _ _ _ E) as [Hp Hn]. rewrite E in Hd. apply NoDup_app in Hd as (D1 & D2 & D3). apply NoDup_cons in D3 as [D3 D4].
  split; [done|]. split; [done|]. split; [intros Hin; apply (D2 p Hin); left|]. split; [done|]. split.
  - intros x Hx%head_in Hy%last_in. apply (D2 x Hy). by right.
  - apply NoDup_app. split; [done|]. split; [|done]. intros x Hx Hx2. apply (D2 x Hx). by right.
Qed.

(** The links of the list without [p], for the effect of [mlfq_list_remove]. *)
Lemma links_without s s' l1 p l2 : links s (l1 ++ p :: l2) -> NoDup (l1 ++ p :: l2) ->
  (forall j, j ∈ l1 ++ l2 -> next_of s' j = if decide (last l1 = Some j) then head l2 else next_of s j) ->
  (forall j, j ∈ l1 ++ l2 -> prev_of s' j = if decide (head l2 = Some j) then last l1 else prev_of s j) ->
  links s' (l1 ++ l2).
Proof.
  intros Hl Hd N P k1 x k2 E. destruct (neighbours _ _ _ _ _ Hl Hd eq_refl) as (_ & _ & Hp1 & Hp2 & _ & Hd').
  assert (Hx : x ∈ l1 ++ l2) by (rewrite E; set_solver). rewrite (N x Hx), (P x Hx). rewrite E in Hd'.
  apply app_eq_inv in E as [(k & -> & E)|(k & -> & E)].
  - destruct k as [|y k]; cbn [app] in E.
    + (* [x] is the head of [l2] *) rewrite app_nil_r in *. subst l2. cbn [head]. rewrite (decide_True (P := Some x = Some x)) by done.
      destruct (Hl (k1 ++ [p]) x k2) as [_ Nx]; [by rewrite <- app_assoc|]. split; [done|]. rewrite decide_False; [done|].
      intros Hx1%last_in. apply NoDup_app in Hd' as (_ & Hd' & _). apply (Hd' x Hx1). left.
    + injection E as <- E. subst k2. destruct (Hl k1 x (k ++ p :: l2)) as [Px Nx]; [by rewrite <- app_assoc|]. rewrite Px, Nx. split.
      * rewrite decide_False; [done|]. intros Hx2%head_in. apply NoDup_app in Hd' as (_ & _ & Hd'). apply NoDup_cons in Hd' as [Hd' _]. apply Hd'. set_solver.
      * destruct k as [|y k _] using rev_ind; [by rewrite last_snoc, decide_True|]. rewrite app_comm_cons, app_assoc, last_snoc. rewrite decide_False.
        -- by rewrite <- !app_assoc; destruct k.
        -- intros [= ->]. apply NoDup_app in Hd' as (_ & _ & Hd'). apply NoDup_cons in Hd' as [Hd' _]. set_solver.
  - destruct k as [|y k]; cbn [app] in E.
    + subst l2. rewrite app_nil_r in *. cbn [head]. rewrite (decide_True (P := Some x = Some x)) by done.
      destruct (Hl (l1 ++ [p]) x k2) as [_ Nx]; [by rewrite <- app_assoc|]. split; [done|]. rewrite decide_False; [done|].
      intros Hx1%last_in. apply NoDup_app in Hd' as (_ & Hd' & _). apply (Hd' x Hx1). left.
    + subst l2. destruct (Hl (l1 ++ p :: y :: k) x k2) as [Px Nx]; [by rewrite <- app_assoc|]. rewrite Px, Nx.
      assert (Hxn : x ∉ l1 ++ y :: k) by (apply NoDup_app in Hd' as (_ & Hd' & _); intros Hin; apply (Hd' x Hin); left). split.
      * cbn [head app]. rewrite decide_False by (intros [= ->]; set_solver). rewrite !last_app_cons. by destruct k.
      * rewrite decide_False; [done|]. intros Hin%last_in. set_solver.
Qed.

Lemma remove_spec s Ls q l1 p l2 : queues s Ls -> 0 <= q < MLFQ_NQUEUES -> Ls q = l1 ++ p :: l2 ->
  queues (mlfq_list_remove q p s) (lput q (l1 ++ l2) Ls).
Proof.
  intros Q Hq E. pose proof (qs_list _ _ Q q Hq) as L. destruct (neighbours _ _ _ _ _ (ql_links _ _ _ L) (ql_nodup _ _ _ L) E) as (Ep & En & Hp1 & Hp2 & Hnv & Hd).
  assert (Hin : forall x, x ∈ l1 ++ p :: l2 -> (x < length (procs s))%nat) by (intros x Hx; rewrite <- E in Hx; rewrite (qs_procs _ _ Q); by apply (qs_in _ _ Q q)).
  assert (Hlen : (Z.to_nat q < length (mlfq_qs s))%nat) by (rewrite (qs_len _ _ Q); unfold MLFQ_NQUEUES in *; lia).
  destruct (remove_links q p s) as (N & P & V).
  { apply Hin. set_solver. }
  { intros x. rewrite En. intros Hx%head_in. split; [apply Hin; set_solver|by intros ->]. }
  { intros x. rewrite Ep. intros Hx%last_in. split; [apply Hin; set_solver|by intros ->]. }
  { intros x. rewrite En, Ep. apply Hnv. }
  rewrite Ep, En in N, P. destruct (qs_in _ _ Q q p Hq ltac:(rewrite E; set_solver)) as [Hpn Hpq].
  split.
  - rewrite (keep_length s); [apply Q|apply nosched_remove].
  - rewrite remove_len. apply Q.
  - intros r Hr. pose proof (qs_list _ _ Q r Hr) as R. destruct (decide (r = q)) as [->|Hne].
    + rewrite lput_eq. split; [| | |apply (links_without s _ l1 p l2)|done].
      * rewrite remove_qu, decide_True by (unfold MLFQ_NQUEUES in *; lia || done). cbn [q_head]. rewrite Ep, En, (ql_head _ _ _ L), E. destruct l1 as [|x l1] using rev_ind; [done|]. rewrite last_snoc. by destruct l1.
      * rewrite remove_qu, decide_True by (unfold MLFQ_NQUEUES in *; lia || done). cbn [q_tail]. rewrite Ep, En, (ql_tail _ _ _ L), E, last_app_cons. destruct l2 as [|x l2]; [by rewrite app_nil_r|]. cbn [head]. by rewrite last_app_cons.
      * rewrite remove_qu, decide_True by (unfold MLFQ_NQUEUES in *; lia || done). cbn [q_count]. rewrite (ql_count _ _ _ L), E. unfold len. rewrite !length_app. cbn [length].
        rewrite (proj2 (Z.gtb_lt _ _)) by lia. lia.
      * rewrite <- E. apply L.
      * rewrite <- E. apply L.
      * intros j Hj. rewrite N, decide_False; [done|]. intros ->. set_solver.
      * intros j Hj. rewrite P, decide_False; [done|]. intros ->. set_solver.
    + rewrite lput_ne by done. split; try (rewrite remove_qu, decide_False by (done || unfold MLFQ_NQUEUES in *; lia); by apply R); [|apply R].
      intros k1 x k2 Ex. assert (Hx : x ∈ Ls r) by (rewrite Ex; set_solver).
      assert (Hxq : x ∉ l1 ++ p :: l2) by (rewrite <- E; intros Hx'; destruct (qs_in _ _ Q q x Hq Hx'), (qs_in _ _ Q r x Hr Hx); congruence).
      rewrite N, P, !(decide_False (P := x = p)) by (intros ->; set_solver).
      rewrite !decide_False; [by apply (ql_links _ _ _ R)|intros Hl%last_in; set_solver|intros Hl%head_in; set_solver].
  - intros r x Hr. rewrite V. destruct (decide (r = q)) as [->|Hne]; [rewrite lput_eq|rewrite lput_ne by done; by apply (qs_in _ _ Q)].
    intros Hx. apply (qs_in _ _ Q q x Hq). rewrite E. set_solver.
  - intros x Hx. rewrite V, N, P. intros Hnx. destruct (decide (x = p)) as [->|Hxp]; [done|].
    assert (Hnx' : x ∉ Ls (lvl s x)). { intros Hi. apply Hnx. destruct (decide (lvl s x = q)) as [Ex|]; [|by rewrite lput_ne]. rewrite Ex in *. rewrite lput_eq. rewrite E in Hi. set_solver. }
    destruct (qs_out _ _ Q x Hx Hnx') as [N0 P0]. rewrite N0, P0.
    assert (Hxq : x ∉ l1 ++ p :: l2) by (rewrite <- E; intros Hx'; destruct (qs_in _ _ Q q x Hq Hx') as [_ Ex]; by rewrite Ex in Hnx').
    rewrite !decide_False; [done|intros Hl%head_in; set_solver|intros Hl%last_in; set_solver].
  - intros x Hx. rewrite V. by apply Q.
Qed.

(** ** Putting a process into a queue *)

Lemma queues_same s s' Ls : procs s' = procs s -> mlfq_qs s' = mlfq_qs s -> queues s Ls -> queues s' Ls.
Proof.
  intros E1 E2 [H1 H2 H3 H4 H5 H6]. assert (E : forall i, pr s' i = pr s i) by (intros; unfold pr; by rewrite E1).
  split; [by rewrite E1|by rewrite E2| | | |].
  - intros q Hq. destruct (H3 q Hq) as [Q1 Q2 Q3 Q4 Q5]. split; unfold qu in *; rewrite ?E2; try done. intros l1 p l2 EL. unfold prev_of, next_of. rewrite E. by apply Q4.
  - intros q p Hq Hp. unfold lvl. rewrite E. by apply H4.
  - intros p Hp. unfold lvl, next_of, prev_of. rewrite E. by apply H5.
  - intros p Hp. unfold lvl. rewrite E. by apply H6.
Qed.

(** [p] is in no list. *)
Definition unqueued (Ls : Z -> list nat) (p : nat) : Prop := forall q, 0 <= q < MLFQ_NQUEUES -> p ∉ Ls q.

Lemma queued_unqueued s Ls p : queues s Ls -> (p < NPROC)%nat -> ~ queued Ls s p <-> unqueued Ls p.
Proof.
  intros Q Hp. split; [|intros H Hq; by apply (H (lvl s p) (qs_lvl _ _ Q p Hp))].
  intros H q Hq Hin. apply H. unfold queued. by destruct (qs_in _ _ Q q p Hq Hin) as [_ ->].
Qed.

(** A process outside the queues may change its fields other than the links. *)
Lemma queues_upd s Ls p f : queues s Ls -> (p < NPROC)%nat -> unqueued Ls p ->
  (sched_next (sdata (f (pr s p))) = next_of s p) -> (sched_prev (sdata (f (pr s p))) = prev_of s p) -> 0 <= sched_q (sdata (f (pr s p))) < MLFQ_NQUEUES ->
  queues (upd p f s) Ls.
Proof.
  intros Q Hp Hu Hn Hv Hq. assert (Hl : (p < length (procs s))%nat) by (by rewrite (qs_procs _ _ Q)).
  assert (En : forall j, next_of (upd p f s) j = next_of s j) by (intros j; unfold next_of; rewrite pr_upd by done; destruct (decide (p = j)) as [<-|]; done).
  assert (Ev : forall j, prev_of (upd p f s) j = prev_of s j) by (intros j; unfold prev_of; rewrite pr_upd by done; destruct (decide (p = j)) as [<-|]; done).
  assert (El : forall j, j <> p -> lvl (upd p f s) j = lvl s j) by (intros j Hj; unfold lvl; by rewrite pr_upd_ne).
  assert (Elp : 0 <= lvl (upd p f s) p < MLFQ_NQUEUES) by (unfold lvl; by rewrite pr_upd_eq).
  destruct Q as [H1 H2 H3 H4 H5 H6]. split; [by rewrite upd_length|done| | | |].
  - intros q Hr. destruct (H3 q Hr) as [Q1 Q2 Q3 Q4 Q5]. split; try done. intros l1 x l2 EL. rewrite En, Ev. by apply Q4.
  - intros q x Hr Hx. rewrite El; [by apply H4|]. intros ->. by apply (Hu q).
  - intros x Hx. rewrite En, Ev. destruct (decide (x = p)) as [->|Hne]; [|rewrite El by done; by apply H5]. intros _. apply H5; [done|]. apply Hu. by apply H6.
  - intros x Hx. destruct (decide (x = p)) as [->|Hne]; [done|]. rewrite El by done. by apply H6.
Qed.

Lemma queues_field s Ls p f : queues s Ls -> (p < NPROC)%nat -> unqueued Ls p ->
  (forall d, sched_next (f d) = sched_next d) -> (forall d, sched_prev (f d) = sched_prev d) -> 0 <= sched_q (f (sdata (pr s p))) < MLFQ_NQUEUES ->
  queues (upd p (upd_sched f) s) Ls.
Proof. intros Q Hp Hu Hn Hv Hq. apply queues_upd; try done; [apply (Hn (sdata (pr s p)))|apply (Hv (sdata (pr s p)))]. Qed.

(** The level of a process when it becomes runnable. *)
Definition new_level (r : reason) (expired : bool) (slept q : Z) : Z :=
  match r with
  | SCHED_ENQ_YIELD => if expired then Z.min (q + 1) (MLFQ_NQUEUES - 1) else q
  | SCHED_ENQ_FORK => q
  | SCHED_ENQ_WAKE | SCHED_ENQ_SIGNAL | SCHED_ENQ_ALARM => if slept >=? MLFQ_PROMOTE_MIN_SLEEP then Z.max (q - 1) 0 else q
  end.

(** The scheduler's data of [p] when it becomes runnable, but for the links. *)
Definition requeued (r : reason) (now : Z) (d : scheddata) : scheddata :=
  let expired := flag (sched_flags d) SCHED_F_BUDGET_EXPIRED in
  let q := new_level r expired (now -u sched_last_block_tick d) (sched_q d) in
  mkSched q (Z.ldiff (sched_flags d) SCHED_F_BUDGET_EXPIRED)
    (match r with SCHED_ENQ_YIELD => if expired then nth (Z.to_nat q) mlfq_quanta 0 else sched_budget_left d | _ => nth (Z.to_nat q) mlfq_quanta 0 end)
    now (sched_last_start_tick d) (sched_last_block_tick d)
    (match r with SCHED_ENQ_WAKE | SCHED_ENQ_SIGNAL | SCHED_ENQ_ALARM => now | _ => sched_last_wake_tick d end)
    (sched_cpu_burst_ticks d) (sched_next d) (sched_prev d).

Lemma new_level_range r e t q : 0 <= q < MLFQ_NQUEUES -> 0 <= new_level r e t q < MLFQ_NQUEUES.
Proof. unfold MLFQ_NQUEUES, new_level. intros. destruct r, e, (t >=? MLFQ_PROMOTE_MIN_SLEEP); unfold MLFQ_NQUEUES; lia. Qed.

Lemma upd_ext p f g s : (forall x, x = pr s p -> f x = g x) -> upd p f s = upd p g s.
Proof.
  intros E. unfold upd. f_equal. apply list_eq. intros i. destruct (decide (p = i)) as [<-|Hne]; [|by rewrite !list_lookup_alter_ne].
  rewrite !list_lookup_alter_eq. destruct (procs s !! p) as [x|] eqn:Ex; [|done]. cbn. f_equal. apply E. unfold pr. rewrite nth_lookup, Ex. done.
Qed.

(** [p]'s scheduler data set to [d]. *)
Definition put (p : nat) (d : scheddata) (s : ptable) : ptable := upd p (upd_sched (fun _ => d)) s.

Lemma put_step p f d s : upd p (upd_sched f) (put p d s) = put p (f d) s.
Proof.
  unfold put, upd. cbn [procs set_procs]. unfold set_procs. cbn. f_equal. apply list_eq. intros i. destruct (decide (p = i)) as [<-|Hne]; [|by rewrite !list_lookup_alter_ne].
  rewrite !list_lookup_alter_eq. by destruct (procs s !! p).
Qed.

Lemma put_sdata p d s : (p < length (procs s))%nat -> sdata (pr (put p d s) p) = d.
Proof. intros Hp. unfold put. by rewrite pr_upd_eq. Qed.

Lemma put_self p s : put p (sdata (pr s p)) s = s.
Proof.
  unfold put. rewrite (upd_ext p (upd_sched (fun _ => sdata (pr s p))) id); [|intros x ->; unfold upd_sched; by destruct (pr s p)].
  unfold upd. rewrite list_alter_id by done. by destruct s.
Qed.

Lemma demote_eq p r e d s : (p < length (procs s))%nat -> exists s', enq_demote p r e (put p d s) =
  put p (set_sched_q (if e && bool_decide (r = SCHED_ENQ_YIELD) && (sched_q d <? MLFQ_NQUEUES - 1) then sched_q d + 1 else sched_q d) d) s' /\
  procs s' = procs s /\ mlfq_qs s' = mlfq_qs s /\ nosched s' = nosched s.
Proof.
  intros Hp. unfold enq_demote, lvl. rewrite put_sdata by done. assert (Ed : forall x : scheddata, set_sched_q (sched_q x) x = x) by (by intros []).
  destruct (e && bool_decide (r = SCHED_ENQ_YIELD)); cbn [andb].
  - destruct (sched_q d <? MLFQ_NQUEUES - 1).
    + rewrite put_step. exists (set_mlfq_stat_demotions (mlfq_stat_demotions s +u 1) s). done.
    + rewrite Ed. exists (set_mlfq_stat_demotions (mlfq_stat_demotions s +u 1) s). done.
  - rewrite Ed. by exists s.
Qed.

Lemma promote_eq p r now d s : (p < length (procs s))%nat -> exists s', enq_promote p r now (put p d s) =
  put p (if bool_decide (r = SCHED_ENQ_WAKE) || bool_decide (r = SCHED_ENQ_ALARM) || bool_decide (r = SCHED_ENQ_SIGNAL) then
    set_sched_last_wake_tick now (set_sched_q (if (now -u sched_last_block_tick d >=? MLFQ_PROMOTE_MIN_SLEEP) && (sched_q d >? 0) then sched_q d - 1 else sched_q d) d)
    else d) s' /\ procs s' = procs s /\ mlfq_qs s' = mlfq_qs s /\ nosched s' = nosched s.
Proof.
  intros Hp. unfold enq_promote, lvl. rewrite put_sdata by done. assert (Ed : forall x : scheddata, set_sched_q (sched_q x) x = x) by (by intros []).
  destruct (_ || _ || _); [|by exists s]. destruct (_ && _).
  - exists (set_mlfq_stat_promotions (mlfq_stat_promotions s +u 1) s). rewrite put_step.
    change (set_mlfq_stat_promotions ?v (put p ?e s)) with (put p e (set_mlfq_stat_promotions v s)). by rewrite put_step.
  - exists s. rewrite put_step. by rewrite Ed.
Qed.

(** [schedq_enqueue_locked] for a process outside the queues. *)
Lemma enqueue_eq s Ls p r : queues s Ls -> (p < NPROC)%nat -> unqueued Ls p ->
  let d := requeued r (ticks s) (sdata (pr s p)) in
  exists s1, schedq_enqueue_locked p r s = mlfq_list_append (sched_q d) p (put p d s1) /\ procs s1 = procs s /\ mlfq_qs s1 = mlfq_qs s /\ nosched s1 = nosched s.
Proof.
  intros Q Hp Hu d. assert (Hl : (p < length (procs s))%nat) by (by rewrite (qs_procs _ _ Q)).
  assert (Hg : mlfq_is_queued p s = false) by (apply not_true_iff_false; rewrite queued_spec by done; by apply queued_unqueued).
  pose proof (qs_lvl _ _ Q p Hp) as Hq. unfold schedq_enqueue_locked. rewrite Hg, andb_false_r. cbv zeta. unfold lvl in *. set (d0 := sdata (pr s p)) in *. set (e := flag (sched_flags d0) SCHED_F_BUDGET_EXPIRED).
  destruct (demote_eq p r e d0 s Hl) as (s1 & E1 & L1 & M1 & N1). assert (E0 : put p d0 s = s) by apply put_self. rewrite E0 in E1. rewrite E1. rewrite put_step. assert (Hl1 : (p < length (procs s1))%nat) by (by rewrite L1).
  edestruct (promote_eq p r (ticks s)) as (s2 & -> & L2 & M2 & N2); [exact Hl1|]. assert (Hl2 : (p < length (procs s2))%nat) by (by rewrite L2).
  exists s2. split; [|split; [by rewrite L2|split; [by rewrite M2|by rewrite N2]]].
  rewrite put_sdata by done. rewrite !put_step.
  assert (G : forall (b : bool) x y, (if b then put p x s2 else put p y s2) = put p (if b then x else y) s2) by (by intros []).
  rewrite G, put_step. unfold d, requeued. fold e. clearbody e. clear - Hq. destruct d0 as [q f b et ls lb lw cb nx pv].
  cbn [sched_q sched_flags sched_last_block_tick set_sched_q set_sched_flags sched_next sched_prev sched_budget_left] in *.
  unfold new_level, MLFQ_PROMOTE_MIN_SLEEP, MLFQ_NQUEUES in *. set (sl := ticks s -u lb >=? 2). clearbody sl.
  assert (Hc : q = 0 \/ q = 1 \/ q = 2 \/ q = 3 \/ q = 4) by lia. clear Hq. destruct_or! Hc; subst q; destruct r, e, sl; reflexivity.
Qed.

Lemma enqueue_spec s Ls p r : queues s Ls -> (p < NPROC)%nat -> unqueued Ls p ->
  let s' := schedq_enqueue_locked p r s in let q := sched_q (requeued r (ticks s) (sdata (pr s p))) in
  queues s' (lput q (Ls q ++ [p]) Ls) /\ nosched s' = nosched s /\ 0 <= q < MLFQ_NQUEUES /\ lvl s' p = q.
Proof.
  intros Q Hp Hu s' q. assert (Hq : 0 <= q < MLFQ_NQUEUES) by (apply new_level_range; by apply (qs_lvl _ _ Q)).
  destruct (enqueue_eq s Ls p r Q Hp Hu) as (s1 & E & L1 & M1 & N1). fold q in E. set (d := requeued r (ticks s) (sdata (pr s p))) in *.
  assert (Ep : pr s1 p = pr s p) by (unfold pr; by rewrite L1). assert (Hl : (p < length (procs s1))%nat) by (rewrite L1, (qs_procs _ _ Q); done).
  assert (Q2 : queues (put p d s1) Ls).
  { apply queues_upd; [by apply (queues_same s)|done|done|..]; cbn [upd_sched sdata set_sdata]; unfold next_of, prev_of; rewrite ?Ep; done. }
  assert (El : lvl (put p d s1) p = q) by (unfold lvl; rewrite put_sdata; done).
  assert (Q3 : queues s' (lput q (Ls q ++ [p]) Ls)).
  { unfold s'. rewrite E. rewrite <- El. apply append_spec; [done|done|]. by apply queued_unqueued. }
  split; [done|]. split; [apply nosched_enqueue|]. split; [done|]. apply (qs_in _ _ Q3 q p Hq). rewrite lput_eq. set_solver.
Qed.

(** ** Picking a process *)

Lemma pick_head s Ls q p l : queues s Ls -> 0 <= q < MLFQ_NQUEUES -> Ls q = p :: l ->
  queues (mlfq_list_remove q p s) (lput q l Ls) /\ nosched (mlfq_list_remove q p s) = nosched s.
Proof. intros Q Hq E. split; [|apply nosched_remove]. apply (remove_spec s Ls q [] p l Q Hq E). Qed.

Lemma pick_from_spec s Ls qs : queues s Ls -> Forall (fun q => 0 <= q < MLFQ_NQUEUES) qs ->
  (Forall (fun q => Ls q = []) qs /\ pick_from qs s = (None, s)) \/
  exists k1 q k2 p l, qs = k1 ++ q :: k2 /\ Forall (fun r => Ls r = []) k1 /\ Ls q = p :: l /\ pick_from qs s = (Some p, mlfq_list_remove q p s).
Proof.
  intros Q. induction qs as [|q qs IH]; intros Hf; [by left|]. apply Forall_cons in Hf as [Hq Hf]. cbn [pick_from]. rewrite (ql_head _ _ _ (qs_list _ _ Q q Hq)).
  destruct (Ls q) as [|p l] eqn:E; cbn [head].
  - destruct (IH Hf) as [[H1 ->]|(k1 & r & k2 & p & l & -> & H1 & H2 & ->)]; [left; by split; [constructor|]|right].
    exists (q :: k1), r, k2, p, l. split; [done|]. split; [by constructor|]. done.
  - right. exists [], q, qs, p, l. done.
Qed.

(** The scheduler takes the oldest process of the highest level that has one. *)
Lemma pick_spec s Ls : queues s Ls ->
  ((forall q, 0 <= q < MLFQ_NQUEUES -> Ls q = []) /\ schedq_pick_next_locked s = (None, s)) \/
  exists q p l s', 0 <= q < MLFQ_NQUEUES /\ (forall r, 0 <= r < q -> Ls r = []) /\ Ls q = p :: l /\
    schedq_pick_next_locked s = (Some p, s') /\ queues s' (lput q l Ls) /\ nosched s' = nosched s.
Proof.
  intros Q. unfold schedq_pick_next_locked. set (levels := [0; 1; 2; 3; 4]).
  assert (Hall : Forall (fun q => 0 <= q < MLFQ_NQUEUES) levels) by (unfold levels, MLFQ_NQUEUES; repeat constructor; lia).
  destruct (pick_from_spec s Ls levels Q Hall) as [[H1 ->]|(k1 & q & k2 & p & l & E & H1 & H2 & ->)].
  - left. split; [|done]. intros q Hq. rewrite Forall_forall in H1. apply H1. unfold levels, MLFQ_NQUEUES in *. rewrite !elem_of_cons. lia.
  - right. assert (Hq : 0 <= q < MLFQ_NQUEUES) by (rewrite Forall_forall in Hall; apply Hall; rewrite E; set_solver).
    destruct (pick_head s Ls q p l Q Hq H2) as [Q' N]. exists q, p, l, (mlfq_list_remove q p s). split; [done|]. split; [|done].
    assert (El : k1 = seqZ 0 q).
    { unfold levels in E. destruct k1 as [|a [|b [|c [|d [|e [|? ?]]]]]]; cbn [app] in E; injection E; intros; subst; try done; by destruct k2. }
    intros r Hr. rewrite Forall_forall in H1. apply H1. rewrite El. apply elem_of_seqZ. lia.
Qed.

(** ** Runnable processes *)

(** The queues hold exactly the runnable processes. *)
Definition run_ok (s : ptable) (Ls : Z -> list nat) : Prop :=
  queues s Ls /\ forall p, (p < NPROC)%nat -> st s p = RUNNABLE <-> queued Ls s p.

Lemma run_ok_unqueued s Ls p : run_ok s Ls -> (p < NPROC)%nat -> st s p <> RUNNABLE -> unqueued Ls p.
Proof. intros [Q R] Hp Hs. apply (queued_unqueued s); [done|done|]. intros Hq. by apply Hs, R. Qed.

Lemma queued_lput s s' Ls q l p : (forall r, lvl s' p = r -> lvl s p = r) -> queued Ls s p -> (lvl s p = q -> p ∈ l) -> queued (lput q l Ls) s' p.
Proof.
  intros El Hq Hl. unfold queued in *. rewrite <- (El _ eq_refl). destruct (decide (lvl s p = q)) as [E|]; [rewrite E, lput_eq; by apply Hl|by rewrite lput_ne].
Qed.

Lemma elem_of_snoc {A} (l : list A) x y : x ∈ l ++ [y] <-> x = y \/ x ∈ l.
Proof. rewrite elem_of_app, list_elem_of_singleton. tauto. Qed.

(** One more process becomes runnable. *)
Lemma add_run_ok s s' Ls p q : queues s Ls -> queues s' (lput q (Ls q ++ [p]) Ls) -> nosched s' = nosched s -> 0 <= q < MLFQ_NQUEUES -> st s p = RUNNABLE ->
  (forall j, (j < NPROC)%nat -> j <> p -> st s j = RUNNABLE <-> queued Ls s j) -> run_ok s' (lput q (Ls q ++ [p]) Ls).
Proof.
  intros Q Q' N Hq Hs HR. assert (El : lvl s' p = q) by (apply (qs_in _ _ Q' q p Hq); rewrite lput_eq; apply elem_of_snoc; by left). split; [done|].
  intros j Hj. rewrite (keep_st _ _ _ N). destruct (decide (j = p)) as [->|Hne].
  - split; [|done]. intros _. unfold queued. rewrite El, lput_eq. apply elem_of_snoc. by left.
  - rewrite HR by done. unfold queued. split; intros Hin.
    + assert (Hin' : j ∈ lput q (Ls q ++ [p]) Ls (lvl s j)) by (destruct (decide (lvl s j = q)) as [E|]; [rewrite E in *; rewrite lput_eq; apply elem_of_snoc; by right|by rewrite lput_ne]).
      by destruct (qs_in _ _ Q' (lvl s j) j ltac:(by apply (qs_lvl _ _ Q)) Hin') as [_ ->].
    + set (r' := lvl s' j) in *. assert (Hr : 0 <= r' < MLFQ_NQUEUES) by (by apply (qs_lvl _ _ Q')).
      assert (Hj' : j ∈ Ls r') by (destruct (decide (r' = q)) as [E|]; [rewrite E, lput_eq in Hin; rewrite E; by apply elem_of_snoc in Hin as [->|]|by rewrite lput_ne in Hin]).
      destruct (qs_in _ _ Q r' j Hr Hj') as [_ ->]. done.
Qed.

Lemma enqueue_run_ok s Ls p r : queues s Ls -> (p < NPROC)%nat -> unqueued Ls p -> st s p = RUNNABLE ->
  (forall j, (j < NPROC)%nat -> j <> p -> st s j = RUNNABLE <-> queued Ls s j) ->
  let q := sched_q (requeued r (ticks s) (sdata (pr s p))) in
  run_ok (schedq_enqueue_locked p r s) (lput q (Ls q ++ [p]) Ls) /\ nosched (schedq_enqueue_locked p r s) = nosched s.
Proof.
  intros Q Hp Hu Hs HR q. destruct (enqueue_spec s Ls p r Q Hp Hu) as (Q' & N & Hq & El). split; [|done]. by apply (add_run_ok s).
Qed.

(** A process leaves the queues. *)
Lemma dequeue_run_ok s s' Ls q l1 p l2 : queues s Ls -> (forall j, (j < NPROC)%nat -> st s j = RUNNABLE <-> queued Ls s j) -> 0 <= q < MLFQ_NQUEUES -> Ls q = l1 ++ p :: l2 ->
  queues s' (lput q (l1 ++ l2) Ls) -> nosched s' = nosched s -> forall j, (j < NPROC)%nat -> (st s' j = RUNNABLE /\ j <> p) <-> queued (lput q (l1 ++ l2) Ls) s' j.
Proof.
  intros Q R Hq E Q' N j Hj. rewrite (keep_st _ _ _ N), R by done. pose proof (qs_list _ _ Q q Hq) as L.
  destruct (neighbours _ _ _ _ _ (ql_links _ _ _ L) (ql_nodup _ _ _ L) E) as (_ & _ & Hp1 & Hp2 & _ & _). unfold queued. split.
  - intros [Hin Hne]. pose proof (qs_lvl _ _ Q j Hj) as Hlj.
    assert (Hin' : j ∈ lput q (l1 ++ l2) Ls (lvl s j)) by (destruct (decide (lvl s j = q)) as [Ej|]; [rewrite Ej in *; rewrite lput_eq; rewrite E in Hin; set_solver|by rewrite lput_ne]).
    by destruct (qs_in _ _ Q' _ j Hlj Hin') as [_ ->].
  - intros Hin. pose proof (qs_lvl _ _ Q' j Hj) as Hlj. destruct (decide (lvl s' j = q)) as [Ej|Hne].
    + rewrite Ej, lput_eq in Hin. assert (Hin' : j ∈ Ls q) by (rewrite E; set_solver). destruct (qs_in _ _ Q q j Hq Hin') as [_ ->]. split; [done|]. intros ->. set_solver.
    + rewrite lput_ne in Hin by done. destruct (qs_in _ _ Q _ j Hlj Hin) as [_ E1]. rewrite E1. split; [done|]. intros ->.
      destruct (qs_in _ _ Q q p Hq ltac:(rewrite E; set_solver)). congruence.
Qed.

(** ** The boost *)

(** Other fields of a process that is not runnable. *)
Lemma run_ok_upd s Ls p f : run_ok s Ls -> (p < NPROC)%nat -> st s p <> RUNNABLE -> state (f (pr s p)) <> RUNNABLE ->
  sched_next (sdata (f (pr s p))) = next_of s p -> sched_prev (sdata (f (pr s p))) = prev_of s p -> 0 <= sched_q (sdata (f (pr s p))) < MLFQ_NQUEUES ->
  run_ok (upd p f s) Ls.
Proof.
  intros [Q R] Hp Hs Hs' Hn Hv Hq. assert (Hu : unqueued Ls p) by (by apply (run_ok_unqueued s)). pose proof (queues_upd s Ls p f Q Hp Hu Hn Hv Hq) as Q'.
  split; [done|]. intros j Hj. destruct (decide (j = p)) as [->|Hne].
  - unfold st. rewrite pr_upd_eq by (by rewrite (qs_procs _ _ Q)). split; [done|]. intros Hin. exfalso. revert Hin. by apply (queued_unqueued (upd p f s)).
  - unfold st, queued, lvl. rewrite pr_upd_ne by done. by apply R.
Qed.

Lemma boost_one_spec s Ls p : run_ok s Ls -> (p < NPROC)%nat ->
  exists Ls', run_ok (boost_one p s) Ls' /\ nosched (boost_one p s) = nosched s /\ (forall j, j <> p -> lvl (boost_one p s) j = lvl s j) /\
    (st s p = RUNNABLE -> lvl (boost_one p s) p <= 1).
Proof.
  intros RO Hp. pose proof RO as [Q R]. pose proof (qs_lvl _ _ Q p Hp) as Hq. unfold boost_one.
  assert (Hl : (p < length (procs s))%nat) by (by rewrite (qs_procs _ _ Q)).
  destruct (st s p) eqn:Es; try (exists Ls; done); (destruct (Z.leb_spec (lvl s p) 1) as [Hle|Hgt]; [exists Ls; done|]).
  - rewrite bool_decide_eq_false_2 by done. exists Ls. split; [apply run_ok_upd; try done; [by rewrite Es|change (st s p <> RUNNABLE); by rewrite Es]|]. split; [apply nosched_sched|]. split; [|done].
    intros j Hj. unfold lvl. by rewrite pr_upd_ne.
  - rewrite bool_decide_eq_true_2 by done. cbv zeta. pose proof (proj1 (R p Hp) Es) as Hin. unfold queued in Hin.
    apply list_elem_of_split in Hin as (l1 & l2 & E). set (q := lvl s p) in *. pose proof (remove_spec s Ls q l1 p l2 Q Hq E) as Q1. set (s1 := mlfq_list_remove q p s) in *.
    pose proof (nosched_remove q p s) as N1. fold s1 in N1. pose proof (dequeue_run_ok s s1 Ls q l1 p l2 Q R Hq E Q1 N1) as R1. set (L1 := lput q (l1 ++ l2) Ls) in *.
    assert (U1 : unqueued L1 p) by (apply (queued_unqueued s1); [done|done|]; intros H%R1; [|done]; by destruct H).
    match goal with |- context [upd p ?f s1] => set (g := f); set (s2 := upd p g s1) end.
    assert (Hl1 : (p < length (procs s1))%nat) by (by rewrite (qs_procs _ _ Q1)).
    assert (Q2 : queues s2 L1) by (apply queues_upd; try done; unfold g; cbn; unfold MLFQ_NQUEUES; lia).
    assert (N2 : nosched s2 = nosched s) by (unfold s2, g; rewrite nosched_sched; done).
    assert (E2 : lvl s2 p = 1) by (unfold lvl, s2; by rewrite pr_upd_eq).
    assert (U2 : ~ queued L1 s2 p) by (by apply queued_unqueued).
    pose proof (append_spec s2 L1 p Q2 Hp U2) as Q3. rewrite E2 in Q3. exists (lput 1 (L1 1 ++ [p]) L1).
    assert (N3 : nosched (mlfq_list_append 1 p s2) = nosched s) by (by rewrite nosched_append).
    split; [apply (add_run_ok s2); try done; [by rewrite nosched_append|by rewrite (keep_st _ _ _ N2)|]|split; [done|split; [|intros _; rewrite append_lvl, E2; lia]]].
    + intros j Hj Hne. rewrite (keep_st _ _ _ N2), <- (keep_st _ _ j N1). unfold queued. assert (El : lvl s2 j = lvl s1 j) by (unfold lvl, s2; by rewrite pr_upd_ne). rewrite El.
      rewrite <- (R1 j Hj). tauto.
    + intros j Hj. rewrite append_lvl. unfold lvl, s2. rewrite pr_upd_ne by done. apply remove_lvl.
  - rewrite bool_decide_eq_false_2 by done. exists Ls. split; [apply run_ok_upd; try done; [by rewrite Es|change (st s p <> RUNNABLE); by rewrite Es]|]. split; [apply nosched_sched|]. split; [|done].
    intros j Hj. unfold lvl. by rewrite pr_upd_ne.
Qed.

Lemma boost_fold s Ls ps : run_ok s Ls -> (forall p, p ∈ ps -> (p < NPROC)%nat) -> NoDup ps ->
  let s' := fold_left (fun s p => boost_one p s) ps s in
  exists Ls', run_ok s' Ls' /\ nosched s' = nosched s /\ (forall j, j ∉ ps -> lvl s' j = lvl s j) /\ (forall p, p ∈ ps -> st s p = RUNNABLE -> lvl s' p <= 1).
Proof.
  revert s Ls. induction ps as [|p ps IH]; intros s Ls R Hp Hd; cbn [fold_left].
  - exists Ls. split; [done|]. split; [done|]. split; [done|]. by intros p ?%elem_of_nil.
  - apply NoDup_cons in Hd as [Hn Hd]. destruct (boost_one_spec s Ls p R ltac:(apply Hp; left)) as (L1 & R1 & N1 & V1 & B1).
    destruct (IH _ _ R1 ltac:(intros x Hx; apply Hp; by right) Hd) as (L2 & R2 & N2 & V2 & B2). exists L2. split; [done|]. split; [by rewrite N2|]. split.
    + intros j Hj. rewrite not_elem_of_cons in Hj. destruct Hj as [Hj1 Hj2]. by rewrite V2, V1.
    + intros x [->|Hx]%elem_of_cons Hs; [rewrite V2 by done; by apply B1|]. apply B2; [done|]. by rewrite (keep_st _ _ _ N1).
Qed.

Lemma boost_all_spec s Ls : run_ok s Ls ->
  exists Ls', run_ok (boost_all s) Ls' /\ nosched (boost_all s) = nosched s /\ forall p, (p < NPROC)%nat -> st s p = RUNNABLE -> lvl (boost_all s) p <= 1.
Proof.
  intros R. destruct (boost_fold s Ls (seq 0 NPROC) R) as (L2 & R2 & N2 & _ & B2); [intros p Hp%elem_of_seq; lia|apply NoDup_seq|].
  exists L2. split; [exact R2|]. split; [exact N2|]. intros p Hp Hs. apply B2; [apply elem_of_seq; lia|exact Hs].
Qed.

Lemma run_ok_same s s' Ls : procs s' = procs s -> mlfq_qs s' = mlfq_qs s -> run_ok s Ls -> run_ok s' Ls.
Proof.
  intros E1 E2 [Q R]. split; [by apply (queues_same s)|]. intros p Hp. specialize (R p Hp). unfold st, queued, lvl, pr in *. by rewrite E1.
Qed.

Lemma boost_cases now s : mlfq_apply_global_boost now s = s /\ now -u mlfq_last_boost_tick s < mlfq_boost_interval_ticks s \/
  exists v, mlfq_apply_global_boost now s = set_mlfq_stat_boosts v (boost_all (set_mlfq_last_boost_tick now s)).
Proof.
  unfold mlfq_apply_global_boost. destruct (Z.ltb_spec (now -u mlfq_last_boost_tick s) (mlfq_boost_interval_ticks s)); [by left|right]. eexists. reflexivity.
Qed.

Lemma boost_spec s Ls now : run_ok s Ls ->
  exists Ls', run_ok (mlfq_apply_global_boost now s) Ls' /\ nosched (mlfq_apply_global_boost now s) = nosched s /\
    (mlfq_boost_interval_ticks s <= now -u mlfq_last_boost_tick s -> forall p, (p < NPROC)%nat -> st s p = RUNNABLE -> lvl (mlfq_apply_global_boost now s) p <= 1).
Proof.
  intros R. destruct (boost_cases now s) as [[-> Hlt]|[v ->]]; [exists Ls; split; [done|]; split; [done|lia]|].
  assert (R1 : run_ok (set_mlfq_last_boost_tick now s) Ls) by (by apply (run_ok_same s)).
  destruct (boost_all_spec _ Ls R1) as (L2 & R2 & N2 & B2). exists L2. revert R2 N2 B2. generalize (boost_all (set_mlfq_last_boost_tick now s)). intros t R2 N2 B2.
  split; [by apply (run_ok_same t)|]. split; [exact N2|]. intros _ p Hp Hs. exact (B2 p Hp Hs).
Qed.

Lemma charge_spec s Ls p : run_ok s Ls -> (p < NPROC)%nat -> st s p <> RUNNABLE -> run_ok (mlfq_timer_charge p s) Ls /\ nosched (mlfq_timer_charge p s) = nosched s.
Proof.
  intros R Hp Hs. pose proof R as [Q _]. pose proof (qs_lvl _ _ Q p Hp) as Hq.
  assert (G : forall t f, run_ok t Ls -> st t p <> RUNNABLE -> (forall d, sched_next (f d) = sched_next d) -> (forall d, sched_prev (f d) = sched_prev d) -> (forall d, sched_q (f d) = sched_q d) ->
    run_ok (upd p (upd_sched f) t) Ls /\ nosched (upd p (upd_sched f) t) = nosched t).
  { intros t f Rt Ht H1 H2 H3. split; [|apply nosched_sched].
    apply run_ok_upd; [done|done|done|done|apply H1|apply H2|]. cbn [upd_sched sdata set_sdata]. rewrite H3. destruct Rt as [Qt _]. exact (qs_lvl _ _ Qt p Hp). }
  unfold mlfq_timer_charge. destruct (_ >? 1); [by apply G|]. destruct (G s (set_sched_budget_left 0) R Hs) as [R1 N1]; try done.
  destruct (negb _); [|done]. destruct (G _ (set_sched_flags (Z.lor (sched_flags (sdata (pr s p))) SCHED_F_BUDGET_EXPIRED)) R1) as [R2 N2]; try done.
  { by rewrite (keep_st _ _ _ N1). }
  rewrite N1 in N2. revert R2 N2. match goal with |- run_ok ?t _ -> _ => generalize t end. intros u R2 N2. split; [by apply (run_ok_same u)|exact N2].
Qed.

Lemma dequeue_spec s Ls p : queues s Ls -> (p < NPROC)%nat ->
  exists Ls', queues (schedq_dequeue_locked p s) Ls' /\ nosched (schedq_dequeue_locked p s) = nosched s /\ unqueued Ls' p /\
    ((unqueued Ls p /\ Ls' = Ls) \/ exists q l1 l2, 0 <= q < MLFQ_NQUEUES /\ Ls q = l1 ++ p :: l2 /\ Ls' = lput q (l1 ++ l2) Ls).
Proof.
  intros Q Hp. pose proof (qs_lvl _ _ Q p Hp) as Hq. unfold schedq_dequeue_locked. destruct (mlfq_is_queued p s) eqn:E; cbn [negb].
  - apply (queued_spec s Ls p Q Hp) in E. rewrite (proj2 (andb_true_iff _ _)) by (unfold MLFQ_NQUEUES in *; lia). apply list_elem_of_split in E as (l1 & l2 & E).
    pose proof (remove_spec s Ls (lvl s p) l1 p l2 Q Hq E) as Q1. exists (lput (lvl s p) (l1 ++ l2) Ls). split; [done|]. split; [apply nosched_remove|]. split; [|right; by exists (lvl s p), l1, l2].
    pose proof (qs_list _ _ Q _ Hq) as L. destruct (neighbours _ _ _ _ _ (ql_links _ _ _ L) (ql_nodup _ _ _ L) E) as (_ & _ & Hp1 & Hp2 & _ & _).
    apply (queued_unqueued _ _ p Q1 Hp). unfold queued. rewrite remove_lvl, lput_eq. by intros [|]%elem_of_app.
  - assert (Hu : unqueued Ls p) by (apply (queued_unqueued s); [done|done|]; intros H; apply (queued_spec s Ls p Q Hp) in H; congruence).
    exists Ls. split; [done|]. split; [done|]. split; [done|]. by left.
Qed.

(** ** Start of the system *)

Definition boot_table : ptable :=
  mkPt (replicate NPROC proc0) 1 None (replicate (Z.to_nat MLFQ_NQUEUES) q0) 0 MLFQ_BOOST_INTERVAL 0 0 0 0 None 0 (replicate CHAN_WAIT_HASH_SIZE 0) 0 0.

Lemma boot_pr p : pr boot_table p = proc0.
Proof. unfold pr, boot_table. cbn [procs]. rewrite nth_lookup. destruct (replicate NPROC proc0 !! p) eqn:E; [|done]. apply lookup_replicate in E as [-> _]. done. Qed.

Lemma boot_qu q : qu boot_table q = q0.
Proof. unfold qu, boot_table. cbn [mlfq_qs]. rewrite nth_lookup. destruct (replicate _ q0 !! Z.to_nat q) eqn:E; [|done]. apply lookup_replicate in E as [-> _]. done. Qed.

Lemma boot_run_ok : run_ok boot_table (fun _ => []).
Proof.
  split; [split; [apply length_replicate|apply length_replicate| | | |]|].
  - intros q _. split; rewrite ?boot_qu; try done; [|constructor]. intros l1 p l2 E. by destruct l1.
  - intros q p _ H. by apply elem_of_nil in H.
  - intros p _ _. unfold next_of, prev_of. by rewrite boot_pr.
  - intros p _. unfold lvl. rewrite boot_pr. cbn. unfold MLFQ_NQUEUES. lia.
  - intros p _. unfold st, queued. rewrite boot_pr. split; [done|]. intros H. by apply elem_of_nil in H.
Qed.

(** ** The scheduler's contract *)

(** The first process of the highest level that has one, and the lists without it. *)
Fixpoint top_from (qs : list Z) (Ls : Z -> list nat) : option (nat * (Z -> list nat)) :=
  match qs with
  | [] => None
  | q :: qs => match Ls q with p :: l => Some (p, lput q l Ls) | [] => top_from qs Ls end
  end.

Definition top (Ls : Z -> list nat) : option (nat * (Z -> list nat)) := top_from [0; 1; 2; 3; 4] Ls.

Lemma top_pick qs s Ls : queues s Ls -> Forall (fun q => 0 <= q < MLFQ_NQUEUES) qs ->
  match top_from qs Ls with
  | Some (p, Ls') => exists s', pick_from qs s = (Some p, s') /\ queues s' Ls' /\ nosched s' = nosched s
  | None => pick_from qs s = (None, s)
  end.
Proof.
  intros Q. induction qs as [|q qs IH]; intros Hf; [done|]. apply Forall_cons in Hf as [Hq Hf]. cbn [top_from pick_from]. rewrite (ql_head _ _ _ (qs_list _ _ Q q Hq)).
  destruct (Ls q) as [|p l] eqn:E; cbn [head]; [by apply IH|]. destruct (pick_head s Ls q p l Q Hq E) as [Q' N]. by exists (mlfq_list_remove q p s).
Qed.

Lemma filter_absent (p : nat) (l : list nat) : (p ∉ l) -> filter (fun x => x <> p) l = l.
Proof.
  induction l as [|x l IH]; intros Hl; [done|]. rewrite filter_cons_True by (intros ->; apply Hl; left). f_equal. apply IH. intros ?. apply Hl. by right.
Qed.

Lemma filter_remove (p : nat) (l1 l2 : list nat) : (p ∉ l1) -> (p ∉ l2) -> filter (fun x => x <> p) (l1 ++ p :: l2) = l1 ++ l2.
Proof. intros H1 H2. rewrite filter_app, filter_cons_False by (intros ?; done). by rewrite !filter_absent. Qed.

(** The lists after [schedq_dequeue_locked]: without [p]. *)
Lemma dequeue_lists s Ls p : queues s Ls -> (p < NPROC)%nat ->
  exists Ls', queues (schedq_dequeue_locked p s) Ls' /\ nosched (schedq_dequeue_locked p s) = nosched s /\ forall q, 0 <= q < MLFQ_NQUEUES -> Ls' q = filter (fun x => x <> p) (Ls q).
Proof.
  intros Q Hp. destruct (dequeue_spec s Ls p Q Hp) as (Ls' & Q' & N & _ & C). exists Ls'. split; [done|]. split; [done|]. intros q Hq.
  destruct C as [[Hu ->]|(r & l1 & l2 & Hr & E & ->)]; [symmetry; by apply filter_absent, Hu|].
  destruct (neighbours _ _ _ _ _ (ql_links _ _ _ (qs_list _ _ Q r Hr)) (ql_nodup _ _ _ (qs_list _ _ Q r Hr)) E) as (_ & _ & Hp1 & Hp2 & _ & _).
  destruct (decide (q = r)) as [->|Hne]; [rewrite lput_eq, E; symmetry; by apply filter_remove|]. rewrite lput_ne by done. symmetry. apply filter_absent. intros Hin.
  destruct (qs_in _ _ Q q p Hq Hin) as [_ L1]. destruct (qs_in _ _ Q r p Hr) as [_ L2]; [rewrite E; apply elem_of_app; right; left|]. congruence.
Qed.

(** C4.  The scheduler's doubly linked queues are five first-in first-out lists of the runnable
    processes, and each operation is the operation on lists: a process that becomes runnable goes to the
    end of the list of its level (one lower after a used-up quantum, one higher after a sleep of two
    ticks), leaving takes it out of its list, the choice is the first process of the highest non-empty
    level, and a boost that is due leaves no runnable process below level 1.  None of them touches
    anything but the scheduler's data. *)
Theorem mlfq_refines s Ls : run_ok s Ls ->
  (forall p r, (p < NPROC)%nat -> unqueued Ls p ->
     let d := sdata (pr s p) in
     let q := new_level r (flag (sched_flags d) SCHED_F_BUDGET_EXPIRED) (ticks s -u sched_last_block_tick d) (sched_q d) in
     queues (schedq_enqueue_locked p r s) (lput q (Ls q ++ [p]) Ls) /\ nosched (schedq_enqueue_locked p r s) = nosched s) /\
  (forall p, (p < NPROC)%nat -> exists Ls',
     queues (schedq_dequeue_locked p s) Ls' /\ nosched (schedq_dequeue_locked p s) = nosched s /\ forall q, 0 <= q < MLFQ_NQUEUES -> Ls' q = filter (fun x => x <> p) (Ls q)) /\
  match top Ls with
  | Some (p, Ls') => exists s', schedq_pick_next_locked s = (Some p, s') /\ queues s' Ls' /\ nosched s' = nosched s
  | None => schedq_pick_next_locked s = (None, s) /\ forall p, (p < NPROC)%nat -> st s p <> RUNNABLE
  end /\
  (forall now, exists Ls', run_ok (mlfq_apply_global_boost now s) Ls' /\ nosched (mlfq_apply_global_boost now s) = nosched s /\
     (mlfq_boost_interval_ticks s <= now -u mlfq_last_boost_tick s -> forall p, (p < NPROC)%nat -> st s p = RUNNABLE -> lvl (mlfq_apply_global_boost now s) p <= 1)).
Proof.
  intros RO. pose proof RO as [Q R]. assert (Hall : Forall (fun q => 0 <= q < MLFQ_NQUEUES) [0; 1; 2; 3; 4]) by (unfold MLFQ_NQUEUES; repeat constructor; lia).
  split; [|split; [|split]].
  - intros p r Hp Hu d q. destruct (enqueue_spec s Ls p r Q Hp Hu) as (Q' & N & _). done.
  - intros p Hp. by apply dequeue_lists.
  - unfold top, schedq_pick_next_locked. pose proof (top_pick [0; 1; 2; 3; 4] s Ls Q Hall) as H. destruct (top_from _ Ls) as [[p Ls']|] eqn:E; [done|]. split; [done|].
    intros p Hp Hs. apply R in Hs; [|done]. unfold queued in Hs. assert (El : Ls (lvl s p) = []); [|rewrite El in Hs; by apply elem_of_nil in Hs].
    pose proof (qs_lvl _ _ Q p Hp) as Hl. unfold MLFQ_NQUEUES in Hl. cbn [top_from] in E. assert (Hc : lvl s p = 0 \/ lvl s p = 1 \/ lvl s p = 2 \/ lvl s p = 3 \/ lvl s p = 4) by lia.
    destruct (Ls 0) eqn:E0; [|done]. destruct (Ls 1) eqn:E1; [|done]. destruct (Ls 2) eqn:E2; [|done]. destruct (Ls 3) eqn:E3; [|done]. destruct (Ls 4) eqn:E4; [|done]. destruct_or! Hc; rewrite Hc; done.
  - intros now. by apply (boost_spec s Ls).
Qed.

(** Slot 3 becomes runnable in the empty table, and is picked. *)
Lemma mlfq_refines_witness : run_ok boot_table (fun _ => []) /\
  queues (schedq_enqueue_locked 3 SCHED_ENQ_FORK boot_table) (lput 0 [3%nat] (fun _ => [])) /\ schedq_pick_next_locked boot_table = (None, boot_table).
Proof.
  split; [exact boot_run_ok|]. destruct (mlfq_refines boot_table (fun _ => []) boot_run_ok) as (H1 & _ & H3 & _). split; [|exact (proj1 H3)].
  refine (proj1 (H1 3%nat SCHED_ENQ_FORK _ _)); [unfold NPROC; lia|]. intros q _ H. by apply elem_of_nil in H.
Defined.
