(* ===== verification/Proc.v ===== *)
(** * Processes: [src/kernel/core/proc.c], [proc_lifecycle.c], [proc_signal.c]

    Sleeping and waking, signals, alarms, process groups and credentials, fork,
    exit and wait, on the process table of [ProcTab].  Every definition is a
    critical section of [ptable.lock].  The memory, descriptor tables and
    inodes of a process are the class [Resources]. *)

From S2P Require Import Prelude ProcTab Sched.

Definition SIGHUP : Z := 1.
Definition SIGINT : Z := 2.
Definition SIGQUIT : Z := 3.
Definition SIGILL : Z := 4.
Definition SIGTRAP : Z := 5.
Definition SIGABRT : Z := 6.
Definition SIGBUS : Z := 7.
Definition SIGFPE : Z := 8.
Definition SIGKILL : Z := 9.
Definition SIGUSR1 : Z := 10.
Definition SIGSEGV : Z := 11.
Definition SIGUSR2 : Z := 12.
Definition SIGPIPE : Z := 13.
Definition SIGALRM : Z := 14.
Definition SIGTERM : Z := 15.
Definition SIGCHLD : Z := 17.
Definition SIGCONT : Z := 18.
Definition SIGSTOP : Z := 19.
Definition SIGTSTP : Z := 20.
Definition SIGTTIN : Z := 21.
Definition SIGTTOU : Z := 22.
Definition SIGXCPU : Z := 24.
Definition SIGXFSZ : Z := 25.
Definition SIGSYS : Z := 31.
Definition SIGBIT (sig : Z) : Z := Z.shiftl 1 (sig - 1).

Definition SIG_BLOCK : Z := 0.
Definition SIG_UNBLOCK : Z := 1.
Definition SIG_SETMASK : Z := 2.

Definition WNOHANG : Z := 1.
Definition WUNTRACED : Z := 2.
Definition WCONTINUED : Z := 4.
Definition WAIT_EVENT_NONE : Z := 0.
Definition WAIT_EVENT_STOPPED : Z := 1.
Definition WAIT_EVENT_CONTINUED : Z := 2.
Definition WSTATUS_EXIT (code : Z) : Z := Z.shiftl (Z.land code 255) 8.
Definition WSTATUS_SIG (sig : Z) : Z := Z.land sig 127.
Definition WSTATUS_STOP (sig : Z) : Z := Z.lor (Z.shiftl (Z.land sig 255) 8) 127.
Definition WSTATUS_CONT : Z := 65535.
Definition WIFEXITED_INT (s : Z) : bool := Z.land s 255 =? 0.
Definition WEXITSTATUS_INT (s : Z) : Z := Z.land (Z.shiftr s 8) 255.
Definition WIFSIGNALED_INT (s : Z) : bool := negb (Z.land s 127 =? 0) && negb (Z.land s 127 =? 127).
Definition WTERMSIG_INT (s : Z) : Z := Z.land s 127.
Definition WIFSTOPPED_INT (s : Z) : bool := Z.land s 255 =? 127.
Definition WSTOPSIG_INT (s : Z) : Z := Z.land (Z.shiftr s 8) 255.
Definition WIFCONTINUED_INT (s : Z) : bool := s =? 65535.

Definition eq_ptr (a b : option nat) : bool := bool_decide (a = b).
Definition is_state (s : ptable) (p : nat) (x : procstate) : bool := bool_decide (st s p = x).

(** The loop [for(p = ptable.proc; p < &ptable.proc[NPROC]; p++)]. *)
Definition each (f : nat -> ptable -> ptable) (s : ptable) : ptable := fold_left (fun s p => f p s) (seq 0 NPROC) s.

(** ** Sleeping and waking *)

Section Sleep.

(** The addresses of [ptable.proc] and of [ticks], and the size of a process. *)
Context (proc_base sizeof_proc ticks_addr : Z).

(** A process as a channel. *)
Definition proc_addr (p : nat) : Z := proc_base + sizeof_proc * Z.of_nat p.

Definition chan_wait_hash_idx (chan : Z) : nat := Z.to_nat (Z.land (Z.shiftr chan 2) 255).
Definition hash_at (s : ptable) (i : nat) : Z := nth i (chan_wait_hash s) 0.
Definition upd_hash (i : nat) (f : Z -> Z) (s : ptable) : ptable := set_chan_wait_hash (alter f i (chan_wait_hash s)) s.

Definition tick_sleepq_add_locked (p : nat) (s : ptable) : ptable :=
  if on_tickq (pr s p) then s
  else
    let s := upd p (set_tick_next (tick_sleepq_head s)) s in
    let s := set_tick_sleepq_head (Some p) s in
    let s := upd p (set_on_tickq true) s in
    set_active_tick_sleepers (active_tick_sleepers s + 1) s.

(** [*pp = v]: the link after the process [prev], or the head. *)
Definition set_link (prev : option nat) (v : option nat) (s : ptable) : ptable :=
  match prev with None => set_tick_sleepq_head v s | Some r => upd r (set_tick_next v) s end.

Definition tick_forget (p : nat) (s : ptable) : ptable :=
  let s := upd p (fun r => set_on_tickq false (set_tick_next None r)) s in
  if active_tick_sleepers s >? 0 then set_active_tick_sleepers (active_tick_sleepers s - 1) s else s.

Fixpoint tick_unlink (fuel : nat) (prev cur : option nat) (p : nat) (s : ptable) : ptable :=
  match fuel, cur with
  | S fuel, Some c =>
      if bool_decide (c = p) then tick_forget p (set_link prev (tick_next (pr s p)) s)
      else tick_unlink fuel (Some c) (tick_next (pr s c)) p s
  | _, _ => tick_forget p s
  end.

Definition tick_sleepq_remove_locked (p : nat) (s : ptable) : ptable :=
  if negb (on_tickq (pr s p)) then s else tick_unlink (S NPROC) None (tick_sleepq_head s) p s.

(** [sleep] up to its call of [sched]. *)
Definition sleep_enter (chan : Z) (p : nat) (s : ptable) : ptable :=
  let s := upd_hash (chan_wait_hash_idx chan) (fun n => n +u 1) s in
  let s := if chan =? ticks_addr then tick_sleepq_add_locked p s else s in
  upd p (fun r => upd_sched (set_sched_last_block_tick (ticks s)) (set_state SLEEPING (set_chan chan r))) s.

(** [sleep] after [sched] has returned. *)
Definition sleep_exit (chan : Z) (p : nat) (s : ptable) : ptable :=
  let s := if chan =? ticks_addr then tick_sleepq_remove_locked p s else s in
  let i := chan_wait_hash_idx chan in
  let s := if hash_at s i >? 0 then upd_hash i (fun n => n - 1) s else s in
  upd p (set_chan 0) s.

Definition wake (r : reason) (p : nat) (s : ptable) : ptable := schedq_enqueue_locked p r (upd p (set_state RUNNABLE) s).

Definition wake_if (chan : Z) (p : nat) (s : ptable) : ptable :=
  if is_state s p SLEEPING && (ProcTab.chan (pr s p) =? chan) then wake SCHED_ENQ_WAKE p s else s.

(** The walk over the processes that sleep on [ticks]. *)
Fixpoint wake_ticks (fuel : nat) (cur : option nat) (chan : Z) (s : ptable) : ptable :=
  match fuel, cur with
  | S fuel, Some p =>
      let next := tick_next (pr s p) in
      let s := wake_if chan p s in
      let s := tick_sleepq_remove_locked p s in
      wake_ticks fuel next chan s
  | _, _ => s
  end.

Definition wakeup1 (chan : Z) (s : ptable) : ptable :=
  if chan =? ticks_addr then wake_ticks (S NPROC) (tick_sleepq_head s) chan s
  else if hash_at s (chan_wait_hash_idx chan) =? 0 then s
  else if (chan >=? proc_base) && (chan <? proc_base + sizeof_proc * Z.of_nat NPROC) && ((chan - proc_base) mod sizeof_proc =? 0)
  then wake_if chan (Z.to_nat ((chan - proc_base) / sizeof_proc)) s
  else each (wake_if chan) s.

Definition yield_enter (p : nat) (s : ptable) : ptable :=
  schedq_enqueue_locked p SCHED_ENQ_YIELD (upd p (set_state RUNNABLE) s).

End Sleep.

(** ** Signals *)

Definition valid_signo (signo : Z) : bool := (signo >? 0) && (signo <? NSIG).

(** The first signal of [order] that is in [pending]. *)
Fixpoint first_of (order : list Z) (pending : Z) : Z :=
  match order with
  | [] => 0
  | sig :: order => if flag pending (SIGBIT sig) then sig else first_of order pending
  end.

Definition signal_pick_stop (pending : Z) : Z := first_of [SIGSTOP; SIGTSTP; SIGTTIN; SIGTTOU] pending.
Definition signal_pick_fatal (pending : Z) : Z :=
  first_of [SIGKILL; SIGSEGV; SIGBUS; SIGILL; SIGFPE; SIGABRT; SIGTERM; SIGINT; SIGQUIT; SIGHUP; SIGTRAP; SIGPIPE; SIGALRM; SIGUSR1; SIGUSR2;
            SIGXCPU; SIGXFSZ; SIGSYS] pending.

Definition bits (l : list Z) : Z := fold_right (fun sig m => Z.lor (SIGBIT sig) m) 0 l.

Definition proc_note_signal_locked (p : nat) (signo : Z) (s : ptable) : ptable :=
  if negb (valid_signo signo) then s
  else
    let s := upd p (upd_sigs (fun g => set_sig_pending (Z.lor (sig_pending g) (SIGBIT signo)) g)) s in
    let s := if signo =? SIGCONT then
               let s := upd p (upd_sigs (fun g => set_sig_pending (Z.ldiff (sig_pending g) (bits [SIGSTOP; SIGTSTP])) g)) s in
               if is_state s p STOPPED then wake SCHED_ENQ_SIGNAL p s else s
             else s in
    let s := if signo =? SIGKILL then upd p (set_killed true) s else s in
    if is_state s p SLEEPING then wake SCHED_ENQ_SIGNAL p s else s.

Definition fatal_signals : Z :=
  bits [SIGHUP; SIGINT; SIGQUIT; SIGILL; SIGTRAP; SIGABRT; SIGBUS; SIGFPE; SIGKILL; SIGUSR1; SIGSEGV; SIGUSR2; SIGPIPE; SIGALRM; SIGTERM; SIGXCPU;
        SIGXFSZ; SIGSYS].
Definition stop_signals : Z := bits [SIGSTOP; SIGTSTP; SIGTTIN; SIGTTOU].

(** The signals with a handler move from pending to caught. *)
Fixpoint catch_loop (sigl : list Z) (pending : Z) (g : sigdata) : Z * sigdata :=
  match sigl with
  | [] => (pending, g)
  | signo :: sigl =>
      if negb (flag pending (SIGBIT signo)) || (signo =? SIGKILL) || (signo =? SIGSTOP) then catch_loop sigl pending g
      else if nth (Z.to_nat signo) (sig_handler g) 0 >? 1 then
        catch_loop sigl (Z.ldiff pending (SIGBIT signo))
          (set_sig_pending (Z.ldiff (sig_pending g) (SIGBIT signo)) (set_sig_caught (Z.lor (sig_caught g) (SIGBIT signo)) g))
      else catch_loop sigl pending g
  end.

Definition clear_pending (m : Z) : proc -> proc := upd_sigs (fun g => set_sig_pending (Z.ldiff (sig_pending g) m) g).

Definition apply_cont (p : nat) (pending : Z) (s : ptable) : Z * ptable :=
  if flag pending (SIGBIT SIGCONT) then
    let s := upd p (clear_pending (SIGBIT SIGCONT)) s in
    let s := if is_state s p STOPPED
             then upd p (fun r => set_wait_status WSTATUS_CONT (set_wait_event WAIT_EVENT_CONTINUED r)) (wake SCHED_ENQ_SIGNAL p s)
             else s in
    (Z.ldiff pending (SIGBIT SIGCONT), s)
  else (pending, s).

Definition apply_stop (p : nat) (pending : Z) (s : ptable) : Z * ptable :=
  if flag pending stop_signals then
    let stopsig := signal_pick_stop pending in
    let s := upd p (clear_pending stop_signals) s in
    let s := if is_state s p RUNNING || is_state s p RUNNABLE || is_state s p SLEEPING
             then upd p (fun r => set_wait_status (WSTATUS_STOP stopsig) (set_wait_event WAIT_EVENT_STOPPED (set_state STOPPED r))) s
             else s in
    (Z.ldiff pending stop_signals, s)
  else (pending, s).

Definition apply_fatal (p : nat) (pending : Z) (s : ptable) : ptable :=
  if flag pending fatal_signals then
    let termsig := signal_pick_fatal pending in
    let s := upd p (set_killed true) s in
    let s := if valid_signo termsig then upd p (set_xstatus (WSTATUS_SIG termsig)) s else s in
    let s := if is_state s p STOPPED then wake SCHED_ENQ_SIGNAL p s else s in
    upd p (clear_pending fatal_signals) s
  else s.

Definition proc_apply_pending_signals (p : nat) (s : ptable) : ptable :=
  let g := sigs (pr s p) in
  let pending := Z.ldiff (Z.ldiff (sig_pending g) (sig_mask g)) (sig_ignored g) in
  let (pending, g) := catch_loop (seqZ 1 (NSIG - 1)) pending g in
  let s := upd p (set_sigs g) s in
  let (pending, s) := apply_cont p pending s in
  let (pending, s) := apply_stop p pending s in
  apply_fatal p pending s.

(** [proc_sigaction] with the action of the caller, copied in. *)
Definition proc_sigaction (p : nat) (signo : Z) (act : option (Z * Z * Z)) (s : ptable) : Z * ptable :=
  if negb (valid_signo signo) then (-1, s)
  else
    match act with
    | None => (0, s)
    | Some (handler, mask, flags) =>
        if (signo =? SIGKILL) || (signo =? SIGSTOP) then (-1, s)
        else
          let i := Z.to_nat signo in
          (0, upd p (upd_sigs (fun g =>
                let g := set_sig_handler (<[i := handler]> (sig_handler g)) g in
                let g := set_sig_actmask (<[i := mask]> (sig_actmask g)) g in
                let g := set_sig_actflags (<[i := flags]> (sig_actflags g)) g in
                if handler =? 1 then set_sig_ignored (Z.lor (sig_ignored g) (SIGBIT signo)) g
                else set_sig_ignored (Z.ldiff (sig_ignored g) (SIGBIT signo)) g)) s)
    end.

Definition unblockable : Z := bits [SIGKILL; SIGSTOP].

Definition proc_sigprocmask (p : nat) (how : Z) (set : option Z) (s : ptable) : Z * ptable :=
  match set with
  | None => (0, s)
  | Some set =>
      let oldmask := sig_mask (sigs (pr s p)) in
      let put m := (0, upd p (upd_sigs (set_sig_mask (Z.ldiff m unblockable))) s) in
      if how =? SIG_BLOCK then put (Z.lor oldmask set)
      else if how =? SIG_UNBLOCK then put (Z.ldiff oldmask set)
      else if how =? SIG_SETMASK then put set
      else (-1, s)
  end.

(** ** Alarms *)

Definition proc_set_alarm_state (p : nat) (deadline interval : Z) (s : ptable) : ptable :=
  let old := alarm_ticks (pr s p) in
  let s := upd p (fun r => set_alarm_interval_ticks (if negb (deadline =? 0) then interval else 0) (set_alarm_ticks deadline r)) s in
  if (old =? 0) && negb (deadline =? 0) then set_active_alarm_count (active_alarm_count s + 1) s
  else if negb (old =? 0) && (deadline =? 0) then set_active_alarm_count (active_alarm_count s - 1) s
  else s.

Definition check_alarm (current : Z) (p : nat) (s : ptable) : ptable :=
  if is_state s p UNUSED || (alarm_ticks (pr s p) =? 0) then s
  else if current >=? alarm_ticks (pr s p) then
    let interval := alarm_interval_ticks (pr s p) in
    let s := if negb (interval =? 0) then upd p (set_alarm_ticks (current +u interval)) s else proc_set_alarm_state p 0 0 s in
    let s := upd p (upd_sigs (fun g => set_sig_pending (Z.lor (sig_pending g) (SIGBIT SIGALRM)) g)) s in
    if is_state s p SLEEPING then wake SCHED_ENQ_ALARM p s else s
  else s.

Definition proc_check_alarms (current : Z) (s : ptable) : ptable :=
  if active_alarm_count s =? 0 then s else each (check_alarm current) s.

(** ** Process groups, sessions, kill *)

Fixpoint kill_loop (cur : option nat) (pid signo : Z) (ps : list nat) (delivered : Z) (s : ptable) : Z * ptable :=
  match ps with
  | [] => (delivered, s)
  | p :: ps =>
      let r := pr s p in
      if is_state s p UNUSED || (ProcTab.pid r =? 0) then kill_loop cur pid signo ps delivered s
      else
        let allow_init_hup :=
          (pid >? 0) && (ProcTab.pid r =? pid) && (signo =? SIGHUP) &&
          match cur with Some c => eq_ptr (Some c) (initproc s) || (uid (creds (pr s c)) =? 0) | None => false end in
        if eq_ptr (Some p) (initproc s) && negb allow_init_hup then kill_loop cur pid signo ps delivered s
        else
          let hit := if pid >? 0 then ProcTab.pid r =? pid
                     else if pid =? 0 then match cur with Some c => pgid r =? pgid (pr s c) | None => false end
                     else if pid =? -1 then true
                     else pgid r =? - pid in
          if hit then
            let s := proc_note_signal_locked p signo s in
            if pid >? 0 then (delivered + 1, s) else kill_loop cur pid signo ps (delivered + 1) s
          else kill_loop cur pid signo ps delivered s
  end.

Definition proc_kill_with_signal (cur : option nat) (pid signo : Z) (s : ptable) : Z * ptable :=
  if negb (valid_signo signo) then (-1, s)
  else let (delivered, s) := kill_loop cur pid signo (seq 0 NPROC) 0 s in (if delivered >? 0 then 0 else -1, s).

Fixpoint signal_group (pgid signo : Z) (ps : list nat) (delivered : Z) (s : ptable) : Z * ptable :=
  match ps with
  | [] => (delivered, s)
  | p :: ps =>
      if is_state s p UNUSED || eq_ptr (Some p) (initproc s) then signal_group pgid signo ps delivered s
      else if negb (ProcTab.pgid (pr s p) =? pgid) then signal_group pgid signo ps delivered s
      else signal_group pgid signo ps (delivered + 1) (proc_note_signal_locked p signo s)
  end.

Definition proc_signal_pgid (pgid signo : Z) (s : ptable) : Z * ptable :=
  if (pgid <=? 0) || negb (valid_signo signo) then (-1, s)
  else let (delivered, s) := signal_group pgid signo (seq 0 NPROC) 0 s in (if delivered >? 0 then 0 else -1, s).

Definition find_pid (pid : Z) (s : ptable) : option nat :=
  find (fun p => (ProcTab.pid (pr s p) =? pid) && negb (is_state s p UNUSED)) (seq 0 NPROC).

Definition proc_getsid (cur : nat) (pid : Z) (s : ptable) : Z :=
  if pid =? 0 then sid (pr s cur) else match find_pid pid s with Some p => sid (pr s p) | None => -1 end.

Definition proc_setpgid (cur : nat) (pid pgid : Z) (s : ptable) : Z * ptable :=
  let pid := if pid =? 0 then ProcTab.pid (pr s cur) else pid in
  let pgid := if pgid =? 0 then pid else pgid in
  if (pid <? 0) || (pgid <? 0) then (-1, s)
  else
    match find_pid pid s with
    | None => (-1, s)
    | Some t =>
        if ProcTab.pid (pr s t) =? sid (pr s t) then (-1, s)
        else if negb (sid (pr s t) =? sid (pr s cur)) then (-1, s)
        else if negb (bool_decide (t = cur)) && negb (eq_ptr (parent (pr s t)) (Some cur)) then (-1, s)
        else (0, upd t (set_pgid pgid) s)
    end.

Definition proc_setsid (p : nat) (s : ptable) : Z * ptable :=
  let r := pr s p in
  if pid r =? pgid r then (-1, s)
  else if existsb (fun q => negb (is_state s q UNUSED) && negb (bool_decide (q = p)) && (pgid (pr s q) =? pid r)) (seq 0 NPROC) then (-1, s)
  else (pid r, upd p (fun r => set_tty (-1) (set_pgid (pid r) (set_sid (pid r) r))) s).

(** ** Credentials *)

Definition cred_matches_current_uid (c : cred) (id : Z) : bool := (id =? ruid c) || (id =? uid c) || (id =? suid c).
Definition cred_matches_current_gid (c : cred) (id : Z) : bool := (id =? rgid c) || (id =? gid c) || (id =? sgid c).

Definition proc_setresuid (p : nat) (r e v : Z) (s : ptable) : Z * ptable :=
  if (r <? -1) || (e <? -1) || (v <? -1) then (-1, s)
  else
    let c := creds (pr s p) in
    let new_ruid := if r =? -1 then ruid c else r in
    let new_euid := if e =? -1 then uid c else e in
    let new_suid := if v =? -1 then suid c else v in
    if negb (uid c =? 0) &&
       negb (cred_matches_current_uid c new_ruid && cred_matches_current_uid c new_euid && cred_matches_current_uid c new_suid) then (-1, s)
    else (0, upd p (upd_creds (fun c => set_suid new_suid (set_uid new_euid (set_ruid new_ruid c)))) s).

Definition proc_setresgid (p : nat) (r e v : Z) (s : ptable) : Z * ptable :=
  if (r <? -1) || (e <? -1) || (v <? -1) then (-1, s)
  else
    let c := creds (pr s p) in
    let new_rgid := if r =? -1 then rgid c else r in
    let new_egid := if e =? -1 then gid c else e in
    let new_sgid := if v =? -1 then sgid c else v in
    if negb (uid c =? 0) &&
       negb (cred_matches_current_gid c new_rgid && cred_matches_current_gid c new_egid && cred_matches_current_gid c new_sgid) then (-1, s)
    else (0, upd p (upd_creds (fun c =>
               let c := set_sgid new_sgid (set_gid new_egid (set_rgid new_rgid c)) in
               if ngroups c >? 0 then set_groups (<[0%nat := gid c]> (groups c)) c else c)) s).

Definition proc_setuid (p : nat) (u : Z) (s : ptable) : Z * ptable :=
  if u <? 0 then (-1, s)
  else if uid (creds (pr s p)) =? 0 then proc_setresuid p u u u s else proc_setresuid p (-1) u (-1) s.

Definition proc_setgid (p : nat) (g : Z) (s : ptable) : Z * ptable :=
  if g <? 0 then (-1, s)
  else if uid (creds (pr s p)) =? 0 then proc_setresgid p g g g s else proc_setresgid p (-1) g (-1) s.

Definition proc_setgroups (p : nat) (gs : list Z) (s : ptable) : Z * ptable :=
  let n := len gs in
  if n >? Z.of_nat PROC_NGROUPS_MAX then (-1, s)
  else if negb (uid (creds (pr s p)) =? 0) then (-1, s)
  else if n =? 0 then (0, upd p (upd_creds (fun c => set_groups (gid c :: replicate (PROC_NGROUPS_MAX - 1) 0) (set_ngroups 1 c))) s)
  else (0, upd p (upd_creds (fun c => set_groups (gs ++ replicate (PROC_NGROUPS_MAX - length gs) 0) (set_ngroups n c))) s).

Definition proc_in_group (r : proc) (g : Z) : bool :=
  (gid (creds r) =? g) || existsb (fun x => x =? g) (take (Z.to_nat (Z.min (ngroups (creds r)) (Z.of_nat PROC_NGROUPS_MAX))) (groups (creds r))).

(** ** Load averages: [src/kernel/core/proc_stats.c] *)

Definition LAVG_FSHIFT : Z := 11.
Definition LAVG_FIXED1 : Z := 2048.
Definition LAVG_EXP_1 : Z := 1884.
Definition LAVG_EXP_5 : Z := 2014.
Definition LAVG_EXP_15 : Z := 2037.

Definition is_active (s : ptable) (p : nat) : bool := is_state s p RUNNABLE || is_state s p RUNNING.

(** One average, with the operators in the order C applies them. *)
Definition lavg_update (exp n old : Z) : Z :=
  Z.shiftr ((old *u exp) +u ((u32 (Z.shiftl n LAVG_FSHIFT) *u (LAVG_FIXED1 - exp)) / LAVG_FIXED1)) LAVG_FSHIFT.

Definition proc_tick_loadavg (lavg : Z * Z * Z) (s : ptable) : Z * Z * Z :=
  let n := Z.of_nat (length (List.filter (is_active s) (seq 0 NPROC))) in
  let '(a, b, c) := lavg in
  (lavg_update LAVG_EXP_1 n a, lavg_update LAVG_EXP_5 n b, lavg_update LAVG_EXP_15 n c).

Definition proc_count_active (s : ptable) : Z * Z :=
  let live := List.filter (fun p => negb (is_state s p UNUSED || (pid (pr s p) <=? 0))) (seq 0 NPROC) in
  (Z.of_nat (length (List.filter (is_active s) live)), len live).

(** With up to twelve active processes the averages never leave 0. *)
Lemma lavg_stays_zero n exp : 0 <= n <= 12 -> exp = LAVG_EXP_1 \/ exp = LAVG_EXP_5 \/ exp = LAVG_EXP_15 -> lavg_update exp n 0 = 0.
Proof.
  intros Hn He. assert (Hall : forallb (fun k => forallb (fun e => lavg_update e k 0 =? 0) [LAVG_EXP_1; LAVG_EXP_5; LAVG_EXP_15]) (seqZ 0 13) = true) by reflexivity.
  rewrite forallb_forall in Hall. specialize (Hall n ltac:(apply list_elem_of_In, elem_of_seqZ; lia)). rewrite forallb_forall in Hall.
  apply Z.eqb_eq, Hall. cbn [In]. destruct He as [->|[->| ->]]; auto.
Qed.
