(* ===== verification/ProcLife.v ===== *)
(** * The life of a process: [src/kernel/core/proc_lifecycle.c], the scheduler loop

    fork, exit and wait, and what one CPU does between two processes, on the
    table of [ProcTab].  [None] is a panic. *)

From S2P Require Import Prelude ProcTab Sched Proc.

(** Kernel stacks, descriptor tables, address spaces and inodes.  A handle is a
    nonzero number; 0 is the failure of an allocation. *)
Class Resources (R : Type) := {
  kalloc_contiguous : R -> Z * R;
  fdtable_alloc : R -> Z * R;
  fdtable_dup : Z -> Z -> R -> Z * R;
  fdtable_free : Z -> R -> R;
  address_space_create : R -> Z * R;
  address_space_dup_cow : Z -> R -> Z * R;
  address_space_destroy : Z -> R -> R;
  allocuvm_first : Z -> R -> Z * R;
  idup : Z -> R -> R;
  iput : Z -> R -> R
}.

(** The process table, what each CPU runs, and the resources. *)
Record mach (R : Type) := mkMach { pt : ptable; cpus : list (option nat); res : R }.
Arguments mkMach {R} _ _ _.
Arguments pt {R} _.
Arguments cpus {R} _.
Arguments res {R} _.

Definition with_pt {R} (s : ptable) (m : mach R) : mach R := mkMach s (cpus m) (res m).

Section Life.
Context {R : Type} `{Res : Resources R}.
Context (proc_base sizeof_proc ticks_addr : Z).

Definition wait_status_has_valid_signal (status : Z) : bool :=
  if negb (WIFSIGNALED_INT status) then true else valid_signo (WTERMSIG_INT status).

Definition proc_wait_target_match (cur child : proc) (pid : Z) : bool :=
  if pid >? 0 then ProcTab.pid child =? pid
  else if pid =? 0 then pgid child =? pgid cur
  else if pid =? -1 then true
  else pgid child =? - pid.

(** ** A new process *)

Definition pid_taken (s : ptable) (p : nat) (candidate : Z) : bool :=
  existsb (fun q => negb (bool_decide (q = p)) && negb (is_state s q UNUSED) && (pid (pr s q) =? candidate)) (seq 0 NPROC).

Fixpoint choose_pid (tries : nat) (p : nat) (s : ptable) : option (Z * ptable) :=
  match tries with
  | O => None
  | S tries =>
      let candidate := nextpid s in
      let s := set_nextpid (if nextpid s >=? PID_MAX then 2 else nextpid s + 1) s in
      if pid_taken s p candidate then choose_pid tries p s else Some (candidate, s)
  end.

(** A slot between its allocation and its first run. *)
Definition embryo (pid : Z) (r : proc) : proc :=
  mkProc EMBRYO pid 0 pid pid (-1) (mkCred 0 0 0 0 0 0 1 (replicate PROC_NGROUPS_MAX 0) 18 NOFILE_DEFAULT NOFILE_HARD)
    (parent r) (chan r) None false (killed r) 0 WAIT_EVENT_NONE 0 sig0 0 0
    (mkSched MLFQ_FORK_START_Q 0 MLFQ_QUANTUM_Q1 0 0 0 0 0 None None)
    (sz r) (stack_top r) (stack_bot r) 0 (kstack r) (fdtable r) (cwd r) (context r).

(** [allocproc]: the slot, or none. *)
Definition allocproc (s : ptable) (x : R) : option (option nat * ptable * R) :=
  match find (fun p => is_state s p UNUSED) (seq 0 NPROC) with
  | None => Some (None, s, x)
  | Some p =>
      let s := upd p (fun r => set_on_tickq false (set_tick_next None (set_state EMBRYO r))) s in
      match choose_pid (Z.to_nat PID_MAX) p s with
      | None => None
      | Some (pid, s) =>
          let s := upd p (embryo pid) s in
          let (k, x) := if kstack (pr s p) =? 0 then kalloc_contiguous x else (kstack (pr s p), x) in
          let s := upd p (set_kstack k) s in
          if k =? 0 then Some (None, upd p (set_state UNUSED) s, x)
          else
            let (f, x) := if fdtable (pr s p) =? 0 then fdtable_alloc x else (fdtable (pr s p), x) in
            let s := upd p (set_fdtable f) s in
            if f =? 0 then Some (None, upd p (set_state UNUSED) s, x)
            else Some (Some p, upd p (set_context AtForkret) s, x)
      end
  end.

Definition userinit (s : ptable) (x : R) : option (ptable * R) :=
  match allocproc s x with
  | None => None
  | Some (None, _, _) => None
  | Some (Some p, s, x) =>
      let s := set_initproc (Some p) s in
      let (a, x) := address_space_create x in
      let s := upd p (set_addrsp a) s in
      if a =? 0 then None
      else
        let (n, x) := allocuvm_first a x in
        let s := upd p (set_sz n) s in
        if n =? 0 then None
        else
          let s := upd p (fun r => set_tty 0 (set_cwd 0 r)) s in
          let s := upd p (fun r => set_state RUNNABLE (upd_sched (set_sched_q MLFQ_FORK_START_Q) r)) s in
          Some (schedq_enqueue_locked p SCHED_ENQ_FORK s, x)
  end.

(** The fields a child takes from its parent. *)
Definition inherit (a : Z) (cur : nat) (c r : proc) : proc :=
  mkProc (state r) (pid r) (pid c) (pgid c) (sid c) (tty c) (creds c) (Some cur) (chan r) (tick_next r) (on_tickq r) (killed r) 0 WAIT_EVENT_NONE 0
    (mkSig 0 0 (sig_mask (sigs c)) (sig_ignored (sigs c)) (sig_handler (sigs c)) (sig_actmask (sigs c)) (sig_actflags (sigs c)))
    0 0 (sdata r) (sz c) (stack_top c) (stack_bot c) a (kstack r) (fdtable r) (cwd r) (context r).

Definition fork (cur : nat) (s : ptable) (x : R) : option (Z * ptable * R) :=
  match allocproc s x with
  | None => None
  | Some (None, s, x) => Some (-1, s, x)
  | Some (Some np, s, x) =>
      if addrsp (pr s cur) =? 0 then None
      else
        let (a, x) := address_space_dup_cow (addrsp (pr s cur)) x in
        if a =? 0 then Some (-1, upd np (set_state UNUSED) s, x)
        else
          let s := upd np (inherit a cur (pr s cur)) s in
          let (ok, x) := fdtable_dup (fdtable (pr s cur)) (fdtable (pr s np)) x in
          if ok <? 0 then
            let x := fdtable_free (fdtable (pr s np)) x in
            let x := address_space_destroy a x in
            Some (-1, upd np (fun r => set_state UNUSED (set_addrsp 0 (set_fdtable 0 r))) s, x)
          else
            let x := idup (cwd (pr s cur)) x in
            let s := upd np (set_cwd (cwd (pr s cur))) s in
            let s := upd np (fun r => set_state RUNNABLE (upd_sched (set_sched_q MLFQ_FORK_START_Q) r)) s in
            Some (pid (pr s np), schedq_enqueue_locked np SCHED_ENQ_FORK s, x)
  end.

(** ** Exit *)

Definition reparent (cur : nat) (p : nat) (s : ptable) : ptable :=
  if eq_ptr (parent (pr s p)) (Some cur) then
    match initproc s with
    | None => s
    | Some i =>
        let s := upd p (fun r => set_ppid (pid (pr s i)) (set_parent (Some i) r)) s in
        if is_state s p ZOMBIE then wakeup1 proc_base sizeof_proc ticks_addr (proc_addr proc_base sizeof_proc i) s else s
    end
  else s.

(** [exit] up to its call of [sched]. *)
Definition exit_enter (cur : nat) (status : Z) (s : ptable) (x : R) : option (ptable * R) :=
  if eq_ptr (initproc s) (Some cur) then None
  else
    let x := if negb (fdtable (pr s cur) =? 0) then fdtable_free (fdtable (pr s cur)) x else x in
    let s := upd cur (set_fdtable 0) s in
    let x := iput (cwd (pr s cur)) x in
    let s := upd cur (set_cwd 0) s in
    let s := match parent (pr s cur) with
             | Some q => wakeup1 proc_base sizeof_proc ticks_addr (proc_addr proc_base sizeof_proc q) s
             | None => wakeup1 proc_base sizeof_proc ticks_addr 0 s
             end in
    let s := each (reparent cur) s in
    let xs := xstatus (pr s cur) in
    let s := if negb (xs =? 0) && negb (wait_status_has_valid_signal xs) then upd cur (set_xstatus 0) s else s in
    let s := if xstatus (pr s cur) =? 0 then upd cur (set_xstatus (WSTATUS_EXIT status)) s else s in
    Some (upd cur (set_state ZOMBIE) s, x).

(** ** Wait *)

(** The slot of a process that has been waited for. *)
Definition reaped (r : proc) : proc :=
  mkProc UNUSED 0 0 0 0 (-1) (mkCred 0 0 0 0 0 0 0 (replicate PROC_NGROUPS_MAX 0) 18 0 0) None (chan r) None false false 0 WAIT_EVENT_NONE 0
    sig0 (alarm_ticks r) (alarm_interval_ticks r) sched0 (sz r) (stack_top r) (stack_bot r) 0 (kstack r) (fdtable r) (cwd r) (context r).

(** What there is to report about the child [p]: its pid and status. *)
Definition wait_report (options : Z) (p : nat) (s : ptable) (x : R) : option (Z * Z * ptable * R) :=
  let r := pr s p in
  let event := Some (pid r, wait_status r, upd p (fun r => set_wait_status 0 (set_wait_event WAIT_EVENT_NONE r)) s, x) in
  if flag options WUNTRACED && (wait_event r =? WAIT_EVENT_STOPPED) then event
  else if flag options WCONTINUED && (wait_event r =? WAIT_EVENT_CONTINUED) then event
  else if is_state s p ZOMBIE then
    let x := if negb (addrsp r =? 0) then address_space_destroy (addrsp r) x else x in
    Some (pid r, xstatus r, upd p reaped s, x)
  else None.

(** One pass of [proc_waitpid]: it returns, or the process sleeps. *)
Inductive wait_result := WaitReturn (ret : Z) (status : option Z) (s : ptable) (x : R) | WaitSleep.

Definition wait_idle (cur : nat) (options : Z) (havekids : bool) (s : ptable) (x : R) : wait_result :=
  if negb havekids || killed (pr s cur) then WaitReturn (-1) None s x
  else if flag options WNOHANG then WaitReturn 0 None s x
  else WaitSleep.

Fixpoint wait_scan (cur : nat) (pid options : Z) (ps : list nat) (havekids : bool) (s : ptable) (x : R) : wait_result :=
  match ps with
  | [] => wait_idle cur options havekids s x
  | p :: ps =>
      if negb (eq_ptr (parent (pr s p)) (Some cur)) || negb (proc_wait_target_match (pr s cur) (pr s p) pid)
      then wait_scan cur pid options ps havekids s x
      else
        match wait_report options p s x with
        | Some (found, status, s, x) => WaitReturn found (Some status) s x
        | None => wait_scan cur pid options ps true s x
        end
  end.

Definition proc_waitpid_pass (cur : nat) (pid options : Z) (s : ptable) (x : R) : wait_result :=
  if negb (Z.ldiff options (Z.lor WNOHANG (Z.lor WUNTRACED WCONTINUED)) =? 0) then WaitReturn (-1) None s x
  else if pid >? 0 then
    match find (fun p => ProcTab.pid (pr s p) =? pid) (seq 0 NPROC) with
    | None => wait_idle cur options false s x
    | Some p =>
        if negb (eq_ptr (parent (pr s p)) (Some cur)) then WaitReturn (-1) None s x
        else
          match wait_report options p s x with
          | Some (found, status, s, x) => WaitReturn found (Some status) s x
          | None => wait_idle cur options true s x
          end
    end
  else wait_scan cur pid options (seq 0 NPROC) false s x.

Definition P_PID : Z := 1.
Definition P_PGID : Z := 2.
Definition P_ALL : Z := 3.
Definition CLD_EXITED : Z := 1.
Definition CLD_KILLED : Z := 2.
Definition CLD_STOPPED : Z := 3.
Definition CLD_CONTINUED : Z := 4.

(** The target of [proc_waitid], and what it tells its caller about a status. *)
Definition waitid_target (idtype id : Z) : option Z :=
  if idtype =? P_PID then Some id
  else if idtype =? P_PGID then Some (if id =? 0 then 0 else - id)
  else if idtype =? P_ALL then Some (-1)
  else None.

Definition waitid_info (ret st : Z) : list Z :=
  if WIFSTOPPED_INT st then [SIGCHLD; CLD_STOPPED; WSTOPSIG_INT st; ret]
  else if WIFCONTINUED_INT st then [SIGCHLD; CLD_CONTINUED; SIGCONT; ret]
  else if WIFSIGNALED_INT st then [SIGCHLD; CLD_KILLED; WTERMSIG_INT st; ret]
  else [SIGCHLD; CLD_EXITED; WEXITSTATUS_INT st; ret].

(** ** CPUs *)

(** [sched] from process [p] of CPU [c]: the CPU is back in its scheduler loop. *)
Definition sched (c p : nat) (k : resume) (m : mach R) : option (mach R) :=
  if is_state (pt m) p RUNNING then None
  else Some (mkMach (upd p (set_context k) (pt m)) (<[c := None]> (cpus m)) (res m)).

(** The process continues where it gave up its CPU, up to the release of [ptable.lock]. *)
Definition continue (c p : nat) (m : mach R) : option (mach R) :=
  match context (pr (pt m) p) with
  | AtForkret | InYield | InStop => Some m
  | InSleep chan => Some (with_pt (sleep_exit ticks_addr chan p (pt m)) m)
  | InExit => None
  end.

(** One round of [scheduler] on CPU [c]. *)
Definition scheduler_round (c : nat) (m : mach R) : option (mach R) :=
  match schedq_pick_next_locked (pt m) with
  | (None, s) => Some (with_pt s m)
  | (Some p, s) =>
      let s := upd p (upd_sched (fun d => set_sched_cpu_burst_ticks 0 (set_sched_last_start_tick (ticks s) d))) s in
      let s := upd p (set_state RUNNING) s in
      continue c p (mkMach s (<[c := Some p]> (cpus m)) (res m))
  end.

Definition yield (c p : nat) (m : mach R) : option (mach R) :=
  sched c p InYield (with_pt (yield_enter p (pt m)) m).

Definition sleep (c p : nat) (chan : Z) (m : mach R) : option (mach R) :=
  sched c p (InSleep chan) (with_pt (sleep_enter ticks_addr chan p (pt m)) m).

Definition proc_maybe_stop_current (c p : nat) (m : mach R) : option (mach R) :=
  if is_state (pt m) p STOPPED then sched c p InStop m else Some m.

Definition exit (c p : nat) (status : Z) (m : mach R) : option (mach R) :=
  match exit_enter p status (pt m) (res m) with
  | None => None
  | Some (s, x) => sched c p InExit (mkMach s (cpus m) x)
  end.

End Life.
