(* ===== verification/ProcInv.v ===== *)
(** * The invariant of the process table

    Which process each CPU runs, where the others wait, the counts of sleepers
    by channel, the queue of processes that sleep on [ticks], and process ids;
    and how changes to single processes keep it. *)

From S2P Require Import Prelude ProcTab Sched Proc ProcLife.

(** ** Counting processes *)

Definition cnt (f : nat -> bool) : Z := Z.of_nat (length (List.filter f (seq 0 NPROC))).

Lemma cnt_change f g p : (p < NPROC)%nat -> (forall j, j <> p -> g j = f j) -> cnt g = cnt f + Z.b2z (g p) - Z.b2z (f p).
Proof.
  intros Hp H. unfold cnt. rewrite (filter_change f g p) by (done || apply NoDup_seq). rewrite decide_True by (apply elem_of_seq; lia). lia.
Qed.

Lemma cnt_ext f g : (forall j, (j < NPROC)%nat -> g j = f j) -> cnt g = cnt f.
Proof.
  intros H. unfold cnt. do 2 f_equal. apply List.filter_ext_in. intros a Ha. apply List.in_seq in Ha. apply H. lia.
Qed.

Lemma cnt_range f : 0 <= cnt f <= 128.
Proof. unfold cnt. pose proof (List.filter_length_le f (seq 0 NPROC)) as H. rewrite length_seq in H. unfold NPROC in *. lia. Qed.

Lemma cnt_pos f p : (p < NPROC)%nat -> f p = true -> 0 < cnt f.
Proof.
  intros Hp Hf. unfold cnt. assert (In p (List.filter f (seq 0 NPROC))) as Hin by (apply List.filter_In; split; [apply List.in_seq; lia|done]).
  destruct (List.filter f (seq 0 NPROC)); [done|]. cbn [length]. lia.
Qed.

(** ** The invariant *)

Section Inv.
Context (proc_base sizeof_proc ticks_addr : Z).

(** A process in [sleep] that does not run: on which channel. *)
Definition sleeping_on (s : ptable) (i : nat) (p : nat) : bool :=
  (is_state s p SLEEPING || is_state s p RUNNABLE) && match context (pr s p) with InSleep c => Nat.eqb (chan_wait_hash_idx c) i | _ => false end.

(** The processes that sleep on [ticks], in the order of their list. *)
Fixpoint tick_list (s : ptable) (x : option nat) (T : list nat) : Prop :=
  match T with
  | [] => x = None
  | p :: T => x = Some p /\ tick_list s (tick_next (pr s p)) T
  end.

Record tick_ok (s : ptable) (T : list nat) : Prop := {
  tk_list : tick_list s (tick_sleepq_head s) T;
  tk_nodup : NoDup T;
  tk_in p : p ∈ T <-> (p < NPROC)%nat /\ on_tickq (pr s p) = true;
  tk_count : active_tick_sleepers s = len T;
  tk_state p : p ∈ T -> (st s p = SLEEPING \/ st s p = RUNNABLE) /\ context (pr s p) = InSleep ticks_addr;
  tk_all p : (p < NPROC)%nat -> st s p = SLEEPING -> chan (pr s p) = ticks_addr -> p ∈ T
}.

(** What CPUs run: running processes, and processes that have just been stopped. *)
Record cpu_ok (s : ptable) (cs : list (option nat)) : Prop := {
  cp_distinct c c' p : cs !! c = Some (Some p) -> cs !! c' = Some (Some p) -> c = c';
  cp_state c p : cs !! c = Some (Some p) -> (p < NPROC)%nat /\ (st s p = RUNNING \/ st s p = STOPPED);
  cp_running p : (p < NPROC)%nat -> st s p = RUNNING -> exists c, cs !! c = Some (Some p)
}.

Definition on_cpu (cs : list (option nat)) (p : nat) : Prop := exists c, cs !! c = Some (Some p).

(** Where a process that does not run continues. *)
Definition ctx_ok (s : ptable) (cs : list (option nat)) (p : nat) : Prop :=
  match st s p with
  | SLEEPING => context (pr s p) = InSleep (chan (pr s p)) /\ (forall q, chan (pr s p) = proc_addr proc_base sizeof_proc q -> (q < NPROC)%nat -> q = p)
  | RUNNABLE => match context (pr s p) with InExit => False | InSleep c => chan (pr s p) = c | _ => True end
  | STOPPED => on_cpu cs p \/ context (pr s p) = InStop
  | ZOMBIE => context (pr s p) = InExit
  | _ => True
  end.

Record pid_ok (s : ptable) : Prop := {
  pd_next : 1 <= nextpid s <= PID_MAX;
  pd_pos p : (p < NPROC)%nat -> st s p <> UNUSED -> 1 <= pid (pr s p) <= PID_MAX;
  pd_inj p q : (p < NPROC)%nat -> (q < NPROC)%nat -> st s p <> UNUSED -> st s q <> UNUSED -> pid (pr s p) = pid (pr s q) -> p = q
}.

(** The states in which a process has an address space. *)
Definition has_space (x : procstate) : bool :=
  match x with SLEEPING | RUNNABLE | RUNNING | STOPPED => true | _ => false end.

Record flow_ok (s : ptable) (cs : list (option nat)) : Prop := {
  fl_cpu : cpu_ok s cs;
  fl_ctx p : (p < NPROC)%nat -> ctx_ok s cs p;
  fl_hlen : length (chan_wait_hash s) = CHAN_WAIT_HASH_SIZE;
  fl_hash i : (i < CHAN_WAIT_HASH_SIZE)%nat -> hash_at s i = cnt (sleeping_on s i);
  fl_tick : exists T, tick_ok s T;
  fl_pid : pid_ok s;
  fl_space p : (p < NPROC)%nat -> has_space (st s p) = true -> addrsp (pr s p) <> 0;
  fl_init p : (p < NPROC)%nat -> has_space (st s p) = true -> exists i, initproc s = Some i /\ (i < NPROC)%nat
}.

Definition table_ok (s : ptable) (cs : list (option nat)) : Prop := (exists Ls, run_ok s Ls) /\ flow_ok s cs.

(** ** Changes that the invariant does not see *)

(** The fields [flow_ok] depends on. *)
Definition flow_of (r : proc) := (state r, context r, chan r, tick_next r, on_tickq r, pid r, addrsp r).
Definition flow_rest (s : ptable) := (tick_sleepq_head s, active_tick_sleepers s, chan_wait_hash s, nextpid s, initproc s).

Record same_flow (s s' : ptable) : Prop := {
  sf_proc p : flow_of (pr s' p) = flow_of (pr s p);
  sf_rest : flow_rest s' = flow_rest s
}.

Lemma same_flow_fields s s' p : same_flow s s' ->
  st s' p = st s p /\ context (pr s' p) = context (pr s p) /\ chan (pr s' p) = chan (pr s p) /\ tick_next (pr s' p) = tick_next (pr s p) /\
  on_tickq (pr s' p) = on_tickq (pr s p) /\ pid (pr s' p) = pid (pr s p) /\ addrsp (pr s' p) = addrsp (pr s p).
Proof. intros [H _]. specialize (H p). unfold flow_of in H. injection H. unfold st. intros. done. Qed.

Lemma tick_list_ext s s' x T : (forall p, p ∈ T -> tick_next (pr s' p) = tick_next (pr s p)) -> tick_list s x T -> tick_list s' x T.
Proof.
  revert x; induction T as [|p T IH]; intros x H; cbn [tick_list]; [done|]. intros [-> Ht]. split; [done|]. rewrite H by left. apply IH; [|done]. intros q Hq. apply H. by right.
Qed.

Lemma flow_same s s' cs : same_flow s s' -> flow_ok s cs -> flow_ok s' cs.
Proof.
  intros S F. pose proof (fun p => same_flow_fields s s' p S) as E. destruct S as [_ HR]. unfold flow_rest in HR. injection HR as R1 R2 R3 R4 R5.
  assert (Es : forall p, st s' p = st s p) by (intros p; apply E). assert (Ec : forall p, context (pr s' p) = context (pr s p)) by (intros p; apply E).
  assert (Eh : forall p, chan (pr s' p) = chan (pr s p)) by (intros p; apply E). assert (En : forall p, tick_next (pr s' p) = tick_next (pr s p)) by (intros p; apply E).
  assert (Eo : forall p, on_tickq (pr s' p) = on_tickq (pr s p)) by (intros p; apply E). assert (Ep : forall p, pid (pr s' p) = pid (pr s p)) by (intros p; apply E).
  assert (Ea : forall p, addrsp (pr s' p) = addrsp (pr s p)) by (intros p; apply E). clear E.
  destruct F as [C X L H T P A I]. split.
  - destruct C as [C1 C2 C3]. split; [done| |]; intros; rewrite ?Es in *; eauto.
  - intros p Hp. specialize (X p Hp). unfold ctx_ok in *. by rewrite Es, Ec, Eh.
  - by rewrite R3.
  - intros i Hi. unfold hash_at in *. rewrite R3, (H i Hi). apply cnt_ext. intros j Hj. unfold sleeping_on, is_state. by rewrite Es, Ec.
  - destruct T as [T [T1 T2 T3 T4 T5 T6]]. exists T. split; [| |intros p; rewrite Eo; apply T3|by rewrite R2| |]; try done.
    + rewrite R1. by apply (tick_list_ext s).
    + intros p Hp. rewrite Es, Ec. by apply T5.
    + intros p Hp. rewrite Es, Eh. by apply T6.
  - destruct P as [P1 P2 P3]. split; [by rewrite R4|intros p Hp; rewrite Es, Ep; by apply P2|]. intros p q Hp Hq. rewrite !Es, !Ep. by apply P3.
  - intros p Hp. rewrite Es, Ea. by apply A.
  - intros p Hp. rewrite Es, R5. by apply I.
Qed.

Lemma same_flow_nosched s s' : nosched s' = nosched s -> same_flow s s'.
Proof.
  intros E. split; [intros p; by apply (keep_proc flow_of)|]. unfold nosched in E. injection E as _ E1 E2 E3 E4 E5 _ _. unfold flow_rest. by rewrite E1, E2, E3, E4, E5.
Qed.

(** The queues depend on the scheduler's data and on the states. *)
Lemma run_ok_view s s' Ls : length (procs s') = length (procs s) -> mlfq_qs s' = mlfq_qs s -> (forall j, sdata (pr s' j) = sdata (pr s j)) -> (forall j, st s' j = st s j) ->
  run_ok s Ls -> run_ok s' Ls.
Proof.
  intros E1 E2 Ed Es [Q R]. destruct Q as [H1 H2 H3 H4 H5 H6]. split; [split; [by rewrite E1|by rewrite E2| | | |]|].
  - intros q Hq. destruct (H3 q Hq) as [Q1 Q2 Q3 Q4 Q5]. split; unfold qu in *; rewrite ?E2; try done. intros l1 x l2 EL. unfold prev_of, next_of. rewrite Ed. by apply Q4.
  - intros q x Hq Hx. unfold lvl. rewrite Ed. by apply H4.
  - intros x Hx. unfold lvl, next_of, prev_of. rewrite Ed. by apply H5.
  - intros x Hx. unfold lvl. rewrite Ed. by apply H6.
  - intros j Hj. rewrite Es. unfold queued, lvl. rewrite Ed. by apply R.
Qed.

(** A change of fields that neither part of the invariant depends on. *)
Lemma table_upd s cs p f : table_ok s cs -> flow_of (f (pr s p)) = flow_of (pr s p) -> sdata (f (pr s p)) = sdata (pr s p) -> table_ok (upd p f s) cs.
Proof.
  intros [[Ls RO] F] E1 E2. assert (Hpr : forall j, flow_of (pr (upd p f s) j) = flow_of (pr s j) /\ sdata (pr (upd p f s) j) = sdata (pr s j)).
  { intros j. destruct (decide (p < length (procs s))%nat) as [Hp|Hp].
    - rewrite pr_upd by done. by destruct (decide (p = j)) as [<-|].
    - destruct (decide (p = j)) as [<-|Hne]; [|by rewrite pr_upd_ne]. unfold pr. by rewrite !nth_overflow by (rewrite ?upd_length; lia). }
  split; [|apply (flow_same s); [split; [intros j; apply Hpr|done]|done]].
  exists Ls. apply (run_ok_view s); [apply upd_length|done|intros j; apply Hpr| |done]. intros j. destruct (Hpr j) as [H _]. unfold flow_of in H. by injection H.
Qed.

(** ** Changes to one process *)

Definition core_of (r : proc) := (state r, context r, chan r, pid r, addrsp r).

Lemma flow_change s s' cs cs' p : flow_ok s cs -> (p < NPROC)%nat -> (forall j, j <> p -> core_of (pr s' j) = core_of (pr s j)) ->
  length (chan_wait_hash s') = length (chan_wait_hash s) ->
  (forall i, (i < CHAN_WAIT_HASH_SIZE)%nat -> hash_at s' i = hash_at s i + Z.b2z (sleeping_on s' i p) - Z.b2z (sleeping_on s i p)) ->
  (exists T, tick_ok s' T) -> nextpid s' = nextpid s -> initproc s' = initproc s ->
  (st s' p <> UNUSED -> st s p <> UNUSED /\ pid (pr s' p) = pid (pr s p)) -> (has_space (st s' p) = true -> has_space (st s p) = true /\ addrsp (pr s' p) <> 0) ->
  cpu_ok s' cs' -> ctx_ok s' cs' p -> (forall j, j <> p -> on_cpu cs j -> on_cpu cs' j) -> flow_ok s' cs'.
Proof.
  intros [C X L H T P A I] Hp Ho Hl Hh HT Hn Hi Hpid Hsp HC HX Hon.
  assert (E : forall j, j <> p -> st s' j = st s j /\ context (pr s' j) = context (pr s j) /\ chan (pr s' j) = chan (pr s j) /\ pid (pr s' j) = pid (pr s j) /\ addrsp (pr s' j) = addrsp (pr s j)).
  { intros j Hj. pose proof (Ho j Hj) as E. unfold core_of in E. injection E. unfold st. intros. done. }
  split; [done| |by rewrite Hl| |done| | |].
  - intros j Hj. destruct (decide (j = p)) as [->|Hne]; [done|]. specialize (X j Hj). unfold ctx_ok in *. destruct (E j Hne) as (-> & -> & -> & _).
    destruct (st s j); try done. destruct X as [X|X]; [left; by apply Hon|by right].
  - intros i Hi'. rewrite (Hh i Hi'), (H i Hi'). symmetry. apply cnt_change; [done|]. intros j Hj. unfold sleeping_on, is_state. by destruct (E j Hj) as (-> & -> & _).
  - destruct P as [P1 P2 P3].
    assert (Hd : forall j, (j < NPROC)%nat -> st s' j <> UNUSED -> st s j <> UNUSED /\ pid (pr s' j) = pid (pr s j)).
    { intros j Hj Hs. destruct (decide (j = p)) as [->|Hne]; [by apply Hpid|]. destruct (E j Hne) as (E1 & _ & _ & E2 & _). by rewrite E1 in Hs. }
    split; [by rewrite Hn|intros j Hj Hs; destruct (Hd j Hj Hs) as [? ->]; by apply P2|].
    intros a b Ha Hb Hsa Hsb. destruct (Hd a Ha Hsa) as [? ->], (Hd b Hb Hsb) as [? ->]. by apply P3.
  - intros j Hj. destruct (decide (j = p)) as [->|Hne]; [intros Hb%Hsp; apply Hb|]. destruct (E j Hne) as (-> & _ & _ & _ & ->). by apply A.
  - intros j Hj. rewrite Hi. destruct (decide (j = p)) as [->|Hne]; [intros [Hb _]%Hsp; by apply (I p)|]. destruct (E j Hne) as (-> & _). by apply I.
Qed.

(** The tick queue when only the state of a process changes. *)
Lemma tick_state s s' T p : tick_ok s T -> (forall j, tick_next (pr s' j) = tick_next (pr s j)) -> (forall j, on_tickq (pr s' j) = on_tickq (pr s j)) ->
  tick_sleepq_head s' = tick_sleepq_head s -> active_tick_sleepers s' = active_tick_sleepers s -> (forall j, j <> p -> core_of (pr s' j) = core_of (pr s j)) ->
  (p ∈ T -> (st s' p = SLEEPING \/ st s' p = RUNNABLE) /\ context (pr s' p) = InSleep ticks_addr) ->
  ((p < NPROC)%nat -> st s' p = SLEEPING -> chan (pr s' p) = ticks_addr -> p ∈ T) -> tick_ok s' T.
Proof.
  intros [T1 T2 T3 T4 T5 T6] Hn Ho Hh Ha Hc Hp1 Hp2.
  assert (E : forall j, j <> p -> st s' j = st s j /\ context (pr s' j) = context (pr s j) /\ chan (pr s' j) = chan (pr s j)).
  { intros j Hj. pose proof (Hc j Hj) as E. unfold core_of in E. injection E. unfold st. intros. done. }
  split; [rewrite Hh; by apply (tick_list_ext s)|done|intros j; rewrite Ho; apply T3|by rewrite Ha| |].
  - intros j Hj. destruct (decide (j = p)) as [->|Hne]; [by apply Hp1|]. destruct (E j Hne) as (-> & -> & _). by apply T5.
  - intros j Hj. destruct (decide (j = p)) as [->|Hne]; [by apply Hp2|]. destruct (E j Hne) as (-> & _ & ->). by apply T6.
Qed.

(** An update of [p] in which the tick fields stay. *)
Lemma upd_fields s p f j : (p < length (procs s))%nat -> tick_next (f (pr s p)) = tick_next (pr s p) -> on_tickq (f (pr s p)) = on_tickq (pr s p) ->
  tick_next (pr (upd p f s) j) = tick_next (pr s j) /\ on_tickq (pr (upd p f s) j) = on_tickq (pr s j).
Proof. intros Hp E1 E2. rewrite pr_upd by done. by destruct (decide (p = j)) as [<-|]. Qed.

(** ** Waking a process *)

Definition may_wake (s : ptable) (cs : list (option nat)) (p : nat) : Prop := st s p = SLEEPING \/ (st s p = STOPPED /\ ~ on_cpu cs p).

Lemma wake_flow s cs p : flow_ok s cs -> length (procs s) = NPROC -> (p < NPROC)%nat -> may_wake s cs p -> flow_ok (upd p (set_state RUNNABLE) s) cs.
Proof.
  intros F Hlen Hp Hw. assert (Hl : (p < length (procs s))%nat) by (by rewrite Hlen). set (s' := upd p (set_state RUNNABLE) s).
  assert (Hs : st s' p = RUNNABLE) by (unfold st, s'; by rewrite pr_upd_eq). assert (Hr : pr s' p = set_state RUNNABLE (pr s p)) by (unfold s'; by rewrite pr_upd_eq).
  assert (Ho : forall j, j <> p -> pr s' j = pr s j) by (intros; unfold s'; by rewrite pr_upd_ne).
  assert (Hnc : ~ on_cpu cs p) by (intros [c Hc]; destruct (cp_state _ _ (fl_cpu _ _ F) c p Hc) as [_ H2]; destruct Hw as [H1|[_ H1]]; [destruct H2; congruence|apply H1; by exists c]).
  assert (Hctx : (st s p = SLEEPING /\ context (pr s p) = InSleep (chan (pr s p))) \/ (st s p = STOPPED /\ context (pr s p) = InStop)).
  { pose proof (fl_ctx _ _ F p Hp) as X. unfold ctx_ok in X. destruct Hw as [H1|[H1 _]]; rewrite H1 in X; [left; split; [done|apply X]|right; split; [done|]]. by destruct X. }
  apply (flow_change s s' cs cs p F Hp).
  - intros j Hj. by rewrite Ho.
  - done.
  - intros i Hi. change (hash_at s' i) with (hash_at s i). unfold sleeping_on, is_state. rewrite Hs, Hr. destruct Hctx as [[-> E]|[-> E]]; cbn [context set_state]; rewrite E; repeat case_bool_decide; try done; cbn [orb andb]; lia.
  - destruct (fl_tick _ _ F) as [T HT]. exists T. apply (tick_state s s' T p HT); [by intros j; apply (upd_fields s p (set_state RUNNABLE) j Hl)..|done|done|intros j Hj; by rewrite Ho| |].
    + intros Hin. split; [by right|]. rewrite Hr. apply (tk_state _ _ HT p Hin).
    + rewrite Hs. done.
  - done.
  - done.
  - intros _. rewrite Hr. split; [destruct Hw as [->|[-> _]]; done|done].
  - intros _. assert (Hsp : has_space (st s p) = true) by (by destruct Hw as [->|[-> _]]). split; [done|]. rewrite Hr. by apply (fl_space _ _ F p Hp).
  - destruct (fl_cpu _ _ F) as [C1 C2 C3]. assert (Es : forall j, j <> p -> st s' j = st s j) by (intros j Hj; unfold st; by rewrite Ho). split; [done| |].
    + intros c j Hc. destruct (decide (j = p)) as [->|Hne]; [exfalso; apply Hnc; by exists c|]. rewrite Es by done. by apply (C2 c).
    + intros j Hj. destruct (decide (j = p)) as [->|Hne]; [by rewrite Hs|]. rewrite Es by done. by apply C3.
  - unfold ctx_ok. rewrite Hs, Hr. cbn [context set_state chan]. destruct Hctx as [[_ ->]|[_ ->]]; done.
  - done.
Qed.

(** What a wake-up leaves alone. *)
Definition nowake (s : ptable) : ptable :=
  mkPt ((fun r => set_on_tickq false (set_tick_next None (set_state UNUSED (set_sdata sched0 r)))) <$> procs s) (nextpid s) (initproc s) [] 0 0 0 0 0 0 None 0
    (chan_wait_hash s) (active_alarm_count s) (ticks s).

Lemma wake_ok s cs p r : table_ok s cs -> (p < NPROC)%nat -> may_wake s cs p ->
  table_ok (wake r p s) cs /\ nosched (wake r p s) = nosched (upd p (set_state RUNNABLE) s).
Proof.
  intros [[Ls RO] F] Hp Hw. pose proof RO as [Q R]. pose proof (wake_flow s cs p F (qs_procs _ _ Q) Hp Hw) as F1.
  assert (Hl : (p < length (procs s))%nat) by (by rewrite (qs_procs _ _ Q)).
  assert (Hu : unqueued Ls p) by (apply (run_ok_unqueued s); [done|done|]; destruct Hw as [->|[-> _]]; done).
  set (s1 := upd p (set_state RUNNABLE) s) in *.
  assert (Q1 : queues s1 Ls) by (apply queues_upd; try done; exact (qs_lvl _ _ Q p Hp)).
  destruct (enqueue_run_ok s1 Ls p r Q1 Hp Hu) as [RO' N].
  { unfold st, s1. by rewrite pr_upd_eq. }
  { intros j Hj Hne. unfold st, s1, queued, lvl. rewrite pr_upd_ne by done. by apply R. }
  unfold wake. fold s1. split; [|done]. split; [by eexists|]. apply (flow_same s1); [by apply same_flow_nosched|done].
Qed.

(** ** The tick queue *)

Definition untick (r : proc) : proc := set_on_tickq false (set_tick_next None r).

(** The table without the tick queue. *)
Definition notick (s : ptable) : ptable := set_active_tick_sleepers 0 (set_tick_sleepq_head None (set_procs (untick <$> procs s) s)).

Lemma pr_notick s i : pr (notick s) i = untick (pr s i).
Proof. unfold pr, notick. cbn [procs set_active_tick_sleepers set_tick_sleepq_head set_procs]. change proc0 with (untick proc0) at 1. apply map_nth. Qed.

Lemma keep_tick {A} (f : proc -> A) s s' i : notick s' = notick s -> (forall p, f (untick p) = f p) -> f (pr s' i) = f (pr s i).
Proof. intros E Hf. rewrite <- (Hf (pr s' i)), <- (Hf (pr s i)), <- !pr_notick. by rewrite E. Qed.

Lemma notick_upd p f s : (forall r, untick (f r) = untick r) -> notick (upd p f s) = notick s.
Proof.
  intros Hf. unfold notick, upd, set_active_tick_sleepers, set_tick_sleepq_head, set_procs. cbn. f_equal.
  apply list_eq. intros i. rewrite !list_lookup_fmap. destruct (decide (p = i)) as [<-|Hne].
  - rewrite list_lookup_alter_eq. destruct (procs s !! p); cbn; [by rewrite Hf|done].
  - by rewrite list_lookup_alter_ne.
Qed.

Record tick_q (s : ptable) (T : list nat) : Prop := {
  tq_list : tick_list s (tick_sleepq_head s) T;
  tq_nodup : NoDup T;
  tq_in p : p ∈ T <-> (p < NPROC)%nat /\ on_tickq (pr s p) = true;
  tq_count : active_tick_sleepers s = len T
}.

Lemma tick_ok_q s T : tick_ok s T -> tick_q s T.
Proof. by intros [? ? ? ? ? ?]. Qed.

(** [p] at the end of the list [l1], from the link of [prev]. *)
Definition link_of (s : ptable) (prev : option nat) : option nat :=
  match prev with None => tick_sleepq_head s | Some r => tick_next (pr s r) end.

Lemma set_link_procs prev v s j : (forall r, prev = Some r -> (r < length (procs s))%nat) ->
  tick_next (pr (set_link prev v s) j) = if decide (prev = Some j) then v else tick_next (pr s j).
Proof.
  intros Hr. destruct prev as [r|]; cbn [set_link]; [|done]. rewrite pr_upd by (by apply Hr). destruct (decide (r = j)) as [<-|]; [by rewrite decide_True|].
  rewrite decide_False; [done|congruence].
Qed.

Lemma unlink_walk s p l1 l2 prev fuel : tick_list s (link_of s prev) (l1 ++ p :: l2) -> p ∉ l1 -> (length l1 < fuel)%nat ->
  tick_unlink fuel prev (link_of s prev) p s = tick_forget p (set_link (match last l1 with Some x => Some x | None => prev end) (tick_next (pr s p)) s).
Proof.
  revert prev fuel. induction l1 as [|x l1 IH]; intros prev [|fuel] Ht Hn Hf; cbn [length] in Hf; try lia; cbn [app tick_list] in Ht; destruct Ht as [E Ht]; cbn [tick_unlink]; rewrite E.
  - by rewrite bool_decide_eq_true_2.
  - rewrite bool_decide_eq_false_2 by (intros ->; apply Hn; left). change (tick_next (pr s x)) with (link_of s (Some x)) at 1.
    rewrite IH; [|done|intros ?; apply Hn; by right|lia]. destruct l1 as [|y l1 _] using rev_ind; [done|]. change (x :: l1 ++ [y]) with ((x :: l1) ++ [y]). by rewrite !last_snoc.
Qed.

Lemma tick_list_split s x l1 p l2 : tick_list s x (l1 ++ p :: l2) -> tick_list s (tick_next (pr s p)) l2.
Proof. revert x; induction l1 as [|y l1 IH]; intros x; cbn [app tick_list]; [by intros [_ ?]|]. intros [_ H]. by eapply IH. Qed.

(** The list with [p] taken out. *)
Lemma tick_list_without s s' x x' l1 p l2 : tick_list s x (l1 ++ p :: l2) -> NoDup (l1 ++ p :: l2) ->
  x' = match l1 with [] => tick_next (pr s p) | _ => x end ->
  (forall j, j ∈ l1 ++ l2 -> tick_next (pr s' j) = if decide (last l1 = Some j) then tick_next (pr s p) else tick_next (pr s j)) ->
  tick_list s' x' (l1 ++ l2).
Proof.
  revert x x'. induction l1 as [|y l1 IH]; intros x x' Ht Hd -> Hn; cbn [app] in *.
  - destruct Ht as [_ Ht]. apply (tick_list_ext s); [|done]. intros q Hq. rewrite Hn by done. by rewrite decide_False.
  - destruct Ht as [-> Ht]. apply NoDup_cons in Hd as [Hy Hd]. split; [done|]. apply (IH (tick_next (pr s y))); [done|done| |].
    + rewrite Hn by left. destruct l1 as [|z l1]; [by rewrite decide_True|]. rewrite decide_False; [done|]. intros Hl. change (last (z :: l1) = Some y) in Hl. apply Hy, elem_of_app. left. by apply last_in.
    + intros j Hj. rewrite Hn by (by right). destruct l1 as [|z l1]; [|done]. cbn [last]. rewrite !decide_False; [done|done|]. intros [= ->]. apply Hy. apply elem_of_app. right. by right.
Qed.

Lemma tick_remove_q s T p : tick_q s T -> length (procs s) = NPROC ->
  let s' := tick_sleepq_remove_locked p s in
  notick s' = notick s /\ (((p ∉ T) /\ s' = s) \/ exists l1 l2, T = l1 ++ p :: l2 /\ tick_q s' (l1 ++ l2)).
Proof.
  intros [Hl Hd Hin Hc] Hlen. unfold tick_sleepq_remove_locked. destruct (on_tickq (pr s p)) eqn:Eo; cbn [negb].
  2: { split; [done|]. left. split; [|done]. intros H%Hin. destruct H. congruence. }
  destruct (decide (p < NPROC)%nat) as [Hp|Hp].
  2: { exfalso. unfold pr in Eo. rewrite nth_overflow in Eo by lia. done. }
  assert (HpT : p ∈ T) by (by apply Hin). apply list_elem_of_split in HpT as (l1 & l2 & ->). pose proof Hd as Hd'. apply NoDup_app in Hd' as (D1 & D2 & D3). apply NoDup_cons in D3 as [D3 D4].
  assert (Hp1 : p ∉ l1) by (intros H; apply (D2 p H); left).
  assert (Hf : (length l1 < S NPROC)%nat).
  { pose proof (members_few (l1 ++ p :: l2) Hd ltac:(intros q Hq; by apply Hin)) as H. unfold len in H. rewrite length_app in H. unfold NPROC. lia. }
  change (tick_sleepq_head s) with (link_of s None). rewrite (unlink_walk s p l1 l2 None) by done. set (v := tick_next (pr s p)). set (prev := match last l1 with Some x => Some x | None => None end).
  assert (Hprev : prev = last l1) by (unfold prev; by destruct (last l1)). rewrite Hprev in *. clear prev Hprev.
  assert (Hpl : forall r, last l1 = Some r -> (r < length (procs s))%nat) by (intros r Hr%last_in; rewrite Hlen; apply Hin; apply elem_of_app; by left).
  set (s1 := set_link (last l1) v s). assert (L1 : length (procs s1) = length (procs s)) by (unfold s1; destruct (last l1); [apply upd_length|done]).
  assert (O1 : forall j, on_tickq (pr s1 j) = on_tickq (pr s j)).
  { intros j. unfold s1. destruct (last l1) as [r|] eqn:El; [|done]. cbn [set_link]. rewrite pr_upd by (by apply Hpl). by destruct (decide (r = j)). }
  unfold tick_forget. set (s2 := upd p (fun r => set_on_tickq false (set_tick_next None r)) s1).
  assert (A2 : active_tick_sleepers s2 = len (l1 ++ p :: l2)) by (unfold s2, s1; destruct (last l1); exact Hc).
  assert (Hpos : 0 < len (l1 ++ p :: l2)) by (unfold len; rewrite length_app; cbn [length]; lia).
  rewrite A2, (proj2 (Z.gtb_lt _ _)) by lia. split.
  - assert (N2 : notick s2 = notick s).
    { unfold s2. rewrite notick_upd by done. unfold s1. destruct (last l1); [by apply notick_upd|done]. }
    exact N2.
  - right. exists l1, l2. split; [done|]. set (s3 := set_active_tick_sleepers _ s2). change (pr s3) with (pr s2).
    assert (N2 : forall j, j <> p -> tick_next (pr s2 j) = if decide (last l1 = Some j) then v else tick_next (pr s j)).
    { intros j Hj. unfold s2. rewrite pr_upd_ne by done. unfold s1. by apply set_link_procs. }
    assert (Hx : tick_sleepq_head s3 = match l1 with [] => v | _ => tick_sleepq_head s end).
    { unfold s3, s2, s1. destruct l1 as [|y l1 _] using rev_ind; [done|]. rewrite last_snoc. cbn. by destruct l1. }
    split.
    + apply (tick_list_without s s3 (tick_sleepq_head s) _ l1 p l2); [done|done|done|]. intros j Hj. apply N2. intros ->. apply elem_of_app in Hj as [?|?]; done.
    + apply NoDup_app. split; [done|]. split; [|done]. intros x Hx1 Hx2. apply (D2 x Hx1). by right.
    + intros j. change (pr s3 j) with (pr s2 j). split.
      * intros Hj. assert (Hne : j <> p) by (intros ->; apply elem_of_app in Hj as [?|?]; done). unfold s2. rewrite pr_upd_ne, O1 by done. apply Hin.
        apply elem_of_app in Hj as [?|?]; apply elem_of_app; [by left|right; by right].
      * intros [Hj Ho]. destruct (decide (j = p)) as [->|Hne]; [unfold s2 in Ho; rewrite pr_upd_eq in Ho by lia; done|]. unfold s2 in Ho. rewrite pr_upd_ne, O1 in Ho by done.
        assert (Hj2 : j ∈ l1 ++ p :: l2) by (by apply Hin). apply elem_of_app in Hj2 as [?|[->|?]%elem_of_cons]; [apply elem_of_app; by left|done|apply elem_of_app; by right].
    + cbn [active_tick_sleepers s3 set_active_tick_sleepers]. unfold len. rewrite !length_app. cbn [length]. lia.
Qed.

Lemma tick_remove_ok s cs p : table_ok s cs -> st s p <> SLEEPING -> table_ok (tick_sleepq_remove_locked p s) cs /\ notick (tick_sleepq_remove_locked p s) = notick s.
Proof.
  intros [[Ls RO] F] Hs. pose proof RO as [Q _]. destruct (fl_tick _ _ F) as [T HT]. pose proof (tick_remove_q s T p (tick_ok_q _ _ HT) (qs_procs _ _ Q)) as [N C].
  split; [|done]. set (s' := tick_sleepq_remove_locked p s) in *.
  assert (Ef : forall j, core_of (pr s' j) = core_of (pr s j)) by (intros j; by apply (keep_tick core_of)).
  assert (Es : forall j, st s' j = st s j) by (intros j; by apply (keep_tick state)).
  assert (Er : nextpid s' = nextpid s /\ initproc s' = initproc s /\ chan_wait_hash s' = chan_wait_hash s /\ mlfq_qs s' = mlfq_qs s /\ length (procs s') = length (procs s)).
  { pose proof N as N'. unfold notick in N'. injection N' as N1 N2 N3 N4 _ _ _ _ _ _ N5 _ _. repeat (split; [done|]). by apply (f_equal length) in N1; rewrite !length_fmap in N1. }
  destruct Er as (R1 & R2 & R3 & R4 & R5). split; [exists Ls; apply (run_ok_view s); [done|done|intros j; by apply (keep_tick sdata)|done|done]|].
  destruct C as [[_ E]|(l1 & l2 & ET & [T1 T2 T3 T4])]; [rewrite E; done|].
  destruct (decide (p < NPROC)%nat) as [Hp|Hp].
  2: { exfalso. apply Hp. apply (tk_in _ _ HT p). rewrite ET. apply elem_of_app. right. left. }
  apply (flow_change s s' cs cs p F Hp); [by intros j _|by rewrite R3| | |done|done|rewrite Es| | | |done].
  - intros i Hi. unfold hash_at. rewrite R3. unfold sleeping_on, is_state. rewrite Es. assert (Ec : context (pr s' p) = context (pr s p)) by (by apply (keep_tick context)). rewrite Ec. lia.
  - exists (l1 ++ l2). split; [done|done|done|done| |].
    + intros j Hj. rewrite Es. assert (Ec : context (pr s' j) = context (pr s j)) by (by apply (keep_tick context)). rewrite Ec. apply (tk_state _ _ HT). rewrite ET.
      apply elem_of_app in Hj as [?|?]; apply elem_of_app; [by left|right; by right].
    + intros j Hj Hsl Hch. rewrite Es in Hsl. assert (Ec : chan (pr s' j) = chan (pr s j)) by (by apply (keep_tick chan)). rewrite Ec in Hch.
      pose proof (tk_all _ _ HT j Hj Hsl Hch) as Hin. rewrite ET in Hin. apply elem_of_app in Hin as [?|[->|?]%elem_of_cons]; [apply elem_of_app; by left|done|apply elem_of_app; by right].
  - intros H. split; [done|]. by apply (keep_tick pid).
  - rewrite Es. intros H. split; [done|]. assert (Ea : addrsp (pr s' p) = addrsp (pr s p)) by (by apply (keep_tick addrsp)). rewrite Ea. by apply (fl_space _ _ F).
  - destruct (fl_cpu _ _ F) as [C1 C2 C3]. split; [done| |]; intros; rewrite ?Es in *; eauto.
  - pose proof (fl_ctx _ _ F p Hp) as X. unfold ctx_ok in *. rewrite Es. assert (Ec : context (pr s' p) = context (pr s p)) by (by apply (keep_tick context)).
    assert (Eh : chan (pr s' p) = chan (pr s p)) by (by apply (keep_tick chan)). by rewrite Ec, Eh.
Qed.

(** ** Waking all sleepers of a channel *)

Lemma nowake_nosched s s' : nosched s' = nosched s -> nowake s' = nowake s.
Proof.
  assert (E : forall t, nowake t = nowake (nosched t)) by (intros t; unfold nowake, nosched; cbn; f_equal; rewrite <- list_fmap_compose; by apply list_fmap_ext).
  intros H. by rewrite E, H, <- E.
Qed.

Lemma nowake_notick s s' : notick s' = notick s -> nowake s' = nowake s.
Proof.
  assert (E : forall t, nowake t = nowake (notick t)) by (intros t; unfold nowake, notick; cbn; f_equal; rewrite <- list_fmap_compose; by apply list_fmap_ext).
  intros H. by rewrite E, H, <- E.
Qed.

Lemma nowake_state s p x : nowake (upd p (set_state x) s) = nowake s.
Proof.
  unfold nowake, upd. cbn. f_equal. apply list_eq. intros i. rewrite !list_lookup_fmap. destruct (decide (p = i)) as [<-|Hne].
  - rewrite list_lookup_alter_eq. by destruct (procs s !! p).
  - by rewrite list_lookup_alter_ne.
Qed.

(** The state of [j] when the sleepers [ps] of the channel [c] have been woken. *)
Definition woken_state (c : Z) (ps : list nat) (s : ptable) (j : nat) : procstate :=
  if decide (j ∈ ps /\ st s j = SLEEPING /\ chan (pr s j) = c) then RUNNABLE else st s j.

Definition quiet (r : proc) : proc := set_on_tickq false (set_tick_next None (set_state UNUSED (set_sdata sched0 r))).

Lemma pr_nowake s i : pr (nowake s) i = quiet (pr s i).
Proof. unfold pr, nowake. cbn [procs]. change proc0 with (quiet proc0) at 1. apply map_nth. Qed.

Lemma keep_wake {A} (f : proc -> A) s s' i : nowake s' = nowake s -> (forall p, f (quiet p) = f p) -> f (pr s' i) = f (pr s i).
Proof. intros E Hf. rewrite <- (Hf (pr s' i)), <- (Hf (pr s i)), <- !pr_nowake. by rewrite E. Qed.

Lemma wake_state s r p j : (p < length (procs s))%nat -> nosched (wake r p s) = nosched (upd p (set_state RUNNABLE) s) -> st (wake r p s) j = if decide (j = p) then RUNNABLE else st s j.
Proof.
  intros Hp N. rewrite (keep_st _ _ _ N). unfold st. rewrite pr_upd by done. destruct (decide (p = j)) as [<-|]; [by rewrite decide_True|by rewrite decide_False].
Qed.

Lemma table_len s cs : table_ok s cs -> length (procs s) = NPROC.
Proof. intros [[Ls [Q _]] _]. apply Q. Qed.

Lemma wake_if_ok s cs c p : table_ok s cs -> (p < NPROC)%nat ->
  table_ok (wake_if c p s) cs /\ nowake (wake_if c p s) = nowake s /\ forall j, st (wake_if c p s) j = woken_state c [p] s j.
Proof.
  intros T Hp. pose proof (table_len _ _ T) as Hlen. unfold wake_if, woken_state, is_state. destruct (bool_decide_reflect (st s p = SLEEPING)) as [Hs|Hs]; cbn [andb].
  - destruct (Z.eqb_spec (chan (pr s p)) c) as [Hc|Hc].
    + destruct (wake_ok s cs p SCHED_ENQ_WAKE T Hp ltac:(by left)) as [T' N]. split; [done|]. split; [rewrite (nowake_nosched _ _ N); apply nowake_state|].
      intros j. rewrite (wake_state s SCHED_ENQ_WAKE p j) by (lia || done). destruct (decide (j = p)) as [->|Hne].
      * rewrite decide_True; [done|]. split; [left|done].
      * rewrite decide_False; [done|]. intros [Hin _]. apply list_elem_of_singleton in Hin. done.
    + split; [done|]. split; [done|]. intros j. rewrite decide_False; [done|]. intros (Hin & _ & H). apply list_elem_of_singleton in Hin. congruence.
  - split; [done|]. split; [done|]. intros j. rewrite decide_False; [done|]. intros (Hin & H & _). apply list_elem_of_singleton in Hin. congruence.
Qed.

Lemma woken_step c p ps s s1 j : (forall i, st s1 i = woken_state c [p] s i) -> chan (pr s1 j) = chan (pr s j) -> woken_state c ps s1 j = woken_state c (p :: ps) s j.
Proof.
  intros H1 Hc. unfold woken_state in *. rewrite (H1 j), Hc. destruct (decide (j ∈ [p] /\ st s j = SLEEPING /\ chan (pr s j) = c)) as [(Hin & Hs & Hch)|Hn].
  - rewrite (decide_False (P := j ∈ ps /\ RUNNABLE = SLEEPING /\ _)) by (by intros (_ & ? & _)). rewrite decide_True; [done|]. split; [|done]. apply list_elem_of_singleton in Hin as ->. left.
  - destruct (decide (j ∈ ps /\ st s j = SLEEPING /\ chan (pr s j) = c)) as [(Hin & Hs & Hch)|Hn2].
    + rewrite decide_True; [done|]. split; [by right|done].
    + rewrite decide_False; [done|]. intros ([->|Hin]%elem_of_cons & Hs & Hch); [apply Hn; split; [left|done]|by apply Hn2].
Qed.

Lemma wake_fold s cs c ps : table_ok s cs -> (forall p, p ∈ ps -> (p < NPROC)%nat) -> let s' := fold_left (fun s p => wake_if c p s) ps s in
  table_ok s' cs /\ nowake s' = nowake s /\ forall j, st s' j = woken_state c ps s j.
Proof.
  revert s. induction ps as [|p ps IH]; intros s T Hp; cbn [fold_left].
  - split; [done|]. split; [done|]. intros j. unfold woken_state. rewrite decide_False; [done|]. by intros [?%elem_of_nil _].
  - destruct (wake_if_ok s cs c p T ltac:(apply Hp; left)) as (T1 & N1 & S1). destruct (IH _ T1 ltac:(intros q Hq; apply Hp; by right)) as (T2 & N2 & S2).
    split; [done|]. split; [by rewrite N2|]. intros j. rewrite S2. apply woken_step; [done|]. by apply (keep_wake chan).
Qed.

Lemma table_ticks s cs : table_ok s cs -> exists T, tick_ok s T.
Proof. intros [_ F]. apply F. Qed.

(** Taking the first process off the tick queue. *)
Lemma tick_pop s cs p T : table_ok s cs -> tick_q s (p :: T) -> st s p <> SLEEPING -> let s' := tick_sleepq_remove_locked p s in
  table_ok s' cs /\ notick s' = notick s /\ tick_q s' T /\ tick_sleepq_head s' = tick_next (pr s p).
Proof.
  intros TB TQ Hs s'. destruct (tick_remove_ok s cs p TB Hs) as [T' N]. destruct (tick_remove_q s (p :: T) p TQ (table_len _ _ TB)) as [_ [[Hn _]|(l1 & l2 & E & Q)]]; [exfalso; apply Hn; left|].
  pose proof (tq_nodup _ _ TQ) as Hd. assert (E1 : l1 = [] /\ l2 = T).
  { destruct l1 as [|x l1]; cbn [app] in E; [by injection E|]. injection E as <- E. exfalso. apply NoDup_cons in Hd as [Hd _]. apply Hd. rewrite E. apply elem_of_app. right. left. }
  destruct E1 as [-> ->]. split; [done|]. split; [done|]. split; [done|].
  pose proof (tq_list _ _ Q) as L'. pose proof (tq_list _ _ TQ) as L. cbn [tick_list app] in *. destruct L as [_ L].
  destruct T as [|y T]; cbn [tick_list] in *; [rewrite L; exact L'|]. destruct L as [-> _], L' as [L' _]. exact L'.
Qed.

Lemma keep_q_nosched s s' T : nosched s' = nosched s -> tick_q s T -> tick_q s' T.
Proof.
  intros N [H1 H2 H3 H4]. assert (En : forall j, tick_next (pr s' j) = tick_next (pr s j)) by (intros j; by apply (keep_proc tick_next)).
  assert (Eo : forall j, on_tickq (pr s' j) = on_tickq (pr s j)) by (intros j; by apply (keep_proc on_tickq)).
  unfold nosched in N. injection N as _ _ _ N1 N2 _ _ _. split; [rewrite N1; by apply (tick_list_ext s)|done|intros p; rewrite Eo; apply H3|by rewrite N2].
Qed.

Lemma wake_if_q s cs c p T : table_ok s cs -> (p < NPROC)%nat -> tick_q s T -> tick_q (wake_if c p s) T /\ tick_next (pr (wake_if c p s) p) = tick_next (pr s p).
Proof.
  intros TB Hp Q. unfold wake_if, is_state. destruct (bool_decide_reflect (st s p = SLEEPING)) as [Hs|]; cbn [andb]; [|done]. destruct (_ =? c); [|done].
  destruct (wake_ok s cs p SCHED_ENQ_WAKE TB Hp ltac:(by left)) as [_ N]. pose proof (table_len _ _ TB) as Hl. split.
  - apply (keep_q_nosched _ _ _ N). destruct Q as [H1 H2 H3 H4]. assert (G : forall j, tick_next (pr (upd p (set_state RUNNABLE) s) j) = tick_next (pr s j) /\ on_tickq (pr (upd p (set_state RUNNABLE) s) j) = on_tickq (pr s j))
      by (intros j; apply upd_fields; [lia|done|done]).
    split; [apply (tick_list_ext s); [intros q _; apply G|done]|done|intros j; rewrite (proj2 (G j)); apply H3|done].
  - rewrite (keep_proc tick_next _ _ p N) by done. by rewrite pr_upd_eq by lia.
Qed.

Lemma wake_ticks_ok T s cs fuel : table_ok s cs -> tick_q s T -> (forall p, p ∈ T -> st s p = SLEEPING -> chan (pr s p) = ticks_addr) -> (length T < fuel)%nat ->
  let s' := wake_ticks fuel (tick_sleepq_head s) ticks_addr s in
  table_ok s' cs /\ nowake s' = nowake s /\ forall j, st s' j = woken_state ticks_addr T s j.
Proof.
  revert s fuel. induction T as [|p T IH]; intros s [|fuel] TB Q Hch Hf; cbn [length] in Hf; try lia; cbn [wake_ticks].
  - pose proof (tq_list _ _ Q) as L. cbn [tick_list] in L. rewrite L. split; [done|]. split; [done|]. intros j. unfold woken_state. rewrite decide_False; [done|]. by intros [?%elem_of_nil _].
  - pose proof (tq_list _ _ Q) as L. cbn [tick_list] in L. destruct L as [-> L]. assert (Hp : (p < NPROC)%nat) by (apply (tq_in _ _ Q p); left).
    destruct (wake_if_ok s cs ticks_addr p TB Hp) as (T1 & N1 & S1). destruct (wake_if_q s cs ticks_addr p (p :: T) TB Hp Q) as [Q1 E1].
    set (s1 := wake_if ticks_addr p s) in *.
    assert (Hns : st s1 p <> SLEEPING).
    { rewrite S1. unfold woken_state. destruct (decide _) as [|Hn]; [done|]. intros Hs. apply Hn. split; [left|]. split; [done|]. apply Hch; [left|done]. }
    destruct (tick_pop s1 cs p T T1 Q1 Hns) as (T2 & N2 & Q2 & H2). set (s2 := tick_sleepq_remove_locked p s1) in *. rewrite <- E1, <- H2.
    assert (S2 : forall j, st s2 j = st s1 j) by (intros j; by apply (keep_tick state)).
    assert (C2 : forall j, chan (pr s2 j) = chan (pr s j)) by (intros j; rewrite (keep_tick chan _ _ j N2) by done; by apply (keep_wake chan)).
    destruct (IH s2 fuel T2 Q2) as (T3 & N3 & S3); [|lia|].
    { intros q Hq Hs. rewrite C2. apply Hch; [by right|]. rewrite S2, S1 in Hs. unfold woken_state in Hs. by destruct (decide _). }
    split; [done|]. split; [by rewrite N3, (nowake_notick _ _ N2)|]. intros j. rewrite S3. rewrite <- (woken_step ticks_addr p T s s2 j); [done|intros i; by rewrite S2|done].
Qed.

(** ** [wakeup1] *)

(** [wakeup1], with its three shortcuts, wakes the processes that sleep on [c] and no others. *)
Lemma wakeup1_ok s cs c : table_ok s cs -> 0 < sizeof_proc ->
  let s' := wakeup1 proc_base sizeof_proc ticks_addr c s in
  table_ok s' cs /\ nowake s' = nowake s /\ forall j, (j < NPROC)%nat -> st s' j = if decide (st s j = SLEEPING /\ chan (pr s j) = c) then RUNNABLE else st s j.
Proof.
  intros TB Hsz. unfold wakeup1. pose proof TB as [_ F].
  assert (W : forall ps j, (st s j = SLEEPING -> chan (pr s j) = c -> j ∈ ps) -> woken_state c ps s j = if decide (st s j = SLEEPING /\ chan (pr s j) = c) then RUNNABLE else st s j).
  { intros ps j Hin. unfold woken_state. destruct (decide (st s j = SLEEPING /\ chan (pr s j) = c)) as [[H1 H2]|Hn]; [rewrite decide_True by (split; [by apply Hin|done]); done|].
    rewrite decide_False; [done|]. intros [_ H]. done. }
  destruct (Z.eqb_spec c ticks_addr) as [->|Hnt].
  - destruct (fl_tick _ _ F) as [T HT]. destruct (wake_ticks_ok T s cs (S NPROC) TB (tick_ok_q _ _ HT)) as (T1 & N1 & S1).
    + intros p Hp Hs. destruct (tk_state _ _ HT p Hp) as [_ E]. assert (Hpn : (p < NPROC)%nat) by (by apply (tk_in _ _ HT p)). pose proof (fl_ctx _ _ F p Hpn) as X. unfold ctx_ok in X. rewrite Hs in X. destruct X as [X _]. congruence.
    + pose proof (members_few T (tk_nodup _ _ HT) ltac:(intros q Hq; by apply (tk_in _ _ HT q))) as H. unfold len in H. unfold NPROC. lia.
    + split; [done|]. split; [done|]. intros j Hj. rewrite S1. apply W. intros Hs Hc. by apply (tk_all _ _ HT).
  - destruct (Z.eqb_spec (hash_at s (chan_wait_hash_idx c)) 0) as [H0|_].
    + split; [done|]. split; [done|]. intros j Hj. rewrite decide_False; [done|]. intros [Hs Hc].
      assert (Hi : (chan_wait_hash_idx c < CHAN_WAIT_HASH_SIZE)%nat).
      { unfold chan_wait_hash_idx, CHAN_WAIT_HASH_SIZE. pose proof (Z.land_nonneg (Z.shiftr c 2) 255). change 255 with (Z.ones 8) in *. rewrite Z.land_ones in * by lia. pose proof (Z.mod_pos_bound (Z.shiftr c 2) (2 ^ 8)). lia. }
      rewrite (fl_hash _ _ F _ Hi) in H0. pose proof (fl_ctx _ _ F j Hj) as X. unfold ctx_ok in X. rewrite Hs in X. destruct X as [X _].
      assert (0 < cnt (sleeping_on s (chan_wait_hash_idx c))); [|lia]. apply (cnt_pos _ j Hj). unfold sleeping_on, is_state. rewrite Hs, X, Hc, Nat.eqb_refl. done.
    + destruct ((c >=? proc_base) && (c <? proc_base + sizeof_proc * Z.of_nat NPROC) && ((c - proc_base) mod sizeof_proc =? 0)) eqn:Eslot.
      * apply andb_true_iff in Eslot as [[Hge Hlt]%andb_true_iff Hmod]. apply Z.geb_le in Hge. apply Z.ltb_lt in Hlt. apply Z.eqb_eq in Hmod. set (q := (c - proc_base) / sizeof_proc).
        assert (Ec : c = proc_base + sizeof_proc * q) by (unfold q; pose proof (Z.div_mod (c - proc_base) sizeof_proc); lia).
        assert (Hq : 0 <= q < Z.of_nat NPROC) by (split; [apply Z.div_pos; lia|apply Z.div_lt_upper_bound; lia]).
        destruct (wake_if_ok s cs c (Z.to_nat q) TB ltac:(lia)) as (T1 & N1 & S1). split; [done|]. split; [done|]. intros j Hj. rewrite S1. apply W. intros Hs Hc.
        pose proof (fl_ctx _ _ F j Hj) as X. unfold ctx_ok in X. rewrite Hs in X. destruct X as [_ X]. rewrite (X (Z.to_nat q)); [left| |lia]. rewrite Hc, Ec. unfold proc_addr. lia.
      * destruct (wake_fold s cs c (seq 0 NPROC) TB) as (T1 & N1 & S1); [intros p Hp%elem_of_seq; lia|]. split; [exact T1|]. split; [exact N1|]. intros j Hj. unfold each. rewrite S1. apply W. intros _ _. apply elem_of_seq. lia.
Qed.

(** ** Leaving a CPU *)

Lemma cpu_leave s s' cs c p : cpu_ok s cs -> cs !! c = Some (Some p) -> (forall j, j <> p -> st s' j = st s j) -> st s' p <> RUNNING -> cpu_ok s' (<[c := None]> cs).
Proof.
  intros [C1 C2 C3] Hc Ho Hs.
  assert (K : forall d j, <[c := None]> cs !! d = Some (Some j) -> cs !! d = Some (Some j) /\ j <> p).
  { intros d j Hd. destruct (decide (c = d)) as [<-|Hne].
    - rewrite list_lookup_insert_eq in Hd by (by apply lookup_lt_Some in Hc). done.
    - rewrite list_lookup_insert_ne in Hd by done. split; [done|]. intros ->. apply Hne. by apply (C1 c d p). }
  split.
  - intros d d' j Hd Hd'. apply (C1 d d' j); by apply K.
  - intros d j Hd. destruct (K d j Hd) as [Hd' Hne]. rewrite Ho by done. by apply (C2 d).
  - intros j Hj Hr. destruct (decide (j = p)) as [->|Hne]; [done|]. rewrite Ho in Hr by done. destruct (C3 j Hj Hr) as [d Hd]. exists d.
    rewrite list_lookup_insert_ne; [done|]. intros <-. rewrite Hc in Hd. by injection Hd.
Qed.

Lemma on_cpu_leave cs c p j : cs !! c = Some (Some p) -> j <> p -> on_cpu cs j -> on_cpu (<[c := None]> cs) j.
Proof. intros Hc Hne [d Hd]. exists d. rewrite list_lookup_insert_ne; [done|]. intros <-. rewrite Hc in Hd. by injection Hd as ->. Qed.

Lemma running_not_ticking s cs T c p : flow_ok s cs -> tick_ok s T -> cs !! c = Some (Some p) -> p ∉ T.
Proof. intros F HT Hc Hin. destruct (cp_state _ _ (fl_cpu _ _ F) c p Hc) as [_ H]. destruct (tk_state _ _ HT p Hin) as [H2 _]. destruct H, H2; congruence. Qed.

Lemma running_not_counted s cs c p i : flow_ok s cs -> cs !! c = Some (Some p) -> sleeping_on s i p = false.
Proof. intros F Hc. destruct (cp_state _ _ (fl_cpu _ _ F) c p Hc) as [_ H]. unfold sleeping_on, is_state. destruct H as [-> | ->]; done. Qed.

(** A running process that goes to a queue, stops or exits. *)
Lemma flow_leave s cs c p f : flow_ok s cs -> length (procs s) = NPROC -> cs !! c = Some (Some p) ->
  flow_of (f (pr s p)) = (state (f (pr s p)), context (f (pr s p)), chan (pr s p), tick_next (pr s p), on_tickq (pr s p), pid (pr s p), addrsp (pr s p)) ->
  ((state (f (pr s p)) = RUNNABLE /\ context (f (pr s p)) = InYield) \/ (state (f (pr s p)) = STOPPED /\ context (f (pr s p)) = InStop) \/
   (state (f (pr s p)) = ZOMBIE /\ context (f (pr s p)) = InExit)) ->
  flow_ok (upd p f s) (<[c := None]> cs).
Proof.
  intros F Hlen Hc Ef Hk. destruct (cp_state _ _ (fl_cpu _ _ F) c p Hc) as [Hp Hs]. unfold flow_of in Ef. injection Ef as E3 E4 E5 E6 E7.
  assert (Hl : (p < length (procs s))%nat) by lia. set (s' := upd p f s). assert (Hr : pr s' p = f (pr s p)) by (unfold s'; by rewrite pr_upd_eq).
  assert (Ho : forall j, j <> p -> pr s' j = pr s j) by (intros; unfold s'; by rewrite pr_upd_ne).
  assert (Hst : st s' p = state (f (pr s p))) by (unfold st; by rewrite Hr).
  apply (flow_change s s' cs _ p F Hp).
  - intros j Hj. by rewrite Ho.
  - done.
  - intros i Hi. change (hash_at s' i) with (hash_at s i). rewrite (running_not_counted s cs c p i F Hc). assert (E : sleeping_on s' i p = false).
    { unfold sleeping_on, is_state. rewrite Hst, Hr. destruct Hk as [[-> ->]|[[-> ->]|[-> ->]]]; by rewrite ?andb_false_r. }
    rewrite E. lia.
  - destruct (fl_tick _ _ F) as [T HT]. pose proof (running_not_ticking s cs T c p F HT Hc) as HnT. exists T.
    apply (tick_state s s' T p HT); [by intros j; apply (upd_fields s p f j Hl)..|done|done|intros j Hj; by rewrite Ho|done|].
    intros _. rewrite Hst. destruct Hk as [[-> _]|[[-> _]|[-> _]]]; done.
  - done.
  - done.
  - intros _. rewrite Hr. split; [destruct Hs as [-> | ->]; done|done].
  - intros _. assert (Hsp : has_space (st s p) = true) by (destruct Hs as [-> | ->]; done). split; [done|]. rewrite Hr, E7. by apply (fl_space _ _ F p Hp).
  - apply (cpu_leave s s' cs c p (fl_cpu _ _ F) Hc); [intros j Hj; unfold st; by rewrite Ho|]. rewrite Hst. destruct Hk as [[-> _]|[[-> _]|[-> _]]]; done.
  - unfold ctx_ok. rewrite Hst, Hr. destruct Hk as [[-> ->]|[[-> ->]|[-> ->]]]; try done. by right.
  - intros j Hj. by apply (on_cpu_leave cs c p).
Qed.

Lemma flow_rest_upd p f s : flow_rest (upd p f s) = flow_rest s.
Proof. done. Qed.

Lemma flow_ctx k r r' : flow_of r = flow_of r' -> flow_of (set_context k r) = flow_of (set_context k r').
Proof. unfold flow_of. intros E. injection E as E1 E2 E3 E4 E5 E6 E7. cbn [state context chan tick_next on_tickq pid addrsp set_context]. by rewrite E1, E3, E4, E5, E6, E7. Qed.

(** A running process becomes runnable: [yield]. *)
Lemma yield_ok s cs c p : table_ok s cs -> cs !! c = Some (Some p) ->
  table_ok (upd p (set_context InYield) (yield_enter p s)) (<[c := None]> cs) /\ st (yield_enter p s) p = RUNNABLE.
Proof.
  intros [[Ls RO] F] Hc. pose proof RO as [Q R]. destruct (cp_state _ _ (fl_cpu _ _ F) c p Hc) as [Hp Hs]. assert (Hl : (p < length (procs s))%nat) by (by rewrite (qs_procs _ _ Q)).
  assert (Hu : unqueued Ls p) by (apply (run_ok_unqueued s); [done|done|]; destruct Hs as [-> | ->]; done).
  set (s1 := upd p (set_state RUNNABLE) s). assert (Hs1 : st s1 p = RUNNABLE) by (unfold st, s1; by rewrite pr_upd_eq).
  assert (Q1 : queues s1 Ls) by (apply queues_upd; try done; exact (qs_lvl _ _ Q p Hp)).
  destruct (enqueue_run_ok s1 Ls p SCHED_ENQ_YIELD Q1 Hp Hu Hs1) as [RO' N].
  { intros j Hj Hne. unfold st, s1, queued, lvl. rewrite pr_upd_ne by done. by apply R. }
  unfold yield_enter. fold s1. set (s2 := schedq_enqueue_locked p SCHED_ENQ_YIELD s1) in *. assert (L2 : length (procs s2) = length (procs s)) by (rewrite (keep_length _ _ N); apply upd_length).
  split; [|by rewrite (keep_st _ _ _ N)]. split.
  - eexists. eapply (run_ok_view s2); [apply upd_length|exact eq_refl| | |exact RO']; intros j; unfold st; rewrite pr_upd by lia; by destruct (decide (p = j)).
  - pose proof (flow_leave s cs c p (fun r => set_context InYield (set_state RUNNABLE r)) F (qs_procs _ _ Q) Hc eq_refl ltac:(by left)) as F'.
    apply (flow_same (upd p (fun r => set_context InYield (set_state RUNNABLE r)) s)); [|done]. split.
    + intros j. rewrite !pr_upd by lia. pose proof (keep_proc flow_of _ _ j N (fun _ => eq_refl)) as Ej. unfold s1 in Ej. rewrite pr_upd in Ej by exact Hl. destruct (decide (p = j)) as [<-|]; [|exact Ej].
      exact (flow_ctx _ _ _ Ej).
    + destruct (same_flow_nosched _ _ N) as [_ E]. rewrite !flow_rest_upd, E. unfold s1. by rewrite flow_rest_upd.
Qed.

End Inv.
