(* ===== verification/ProcRun.v ===== *)
(** * Processes at run time: every critical section keeps the invariant

    What the CPUs do with the process table, one critical section of
    [ptable.lock] at a time, and that each of them keeps [table_ok]. *)

From S2P Require Import Prelude ProcTab Sched Proc ProcLife ProcInv.

#[local] Opaque schedq_enqueue_locked tick_sleepq_remove_locked wakeup1 schedq_pick_next_locked.

Section Run.
Context (proc_base sizeof_proc ticks_addr : Z).

#[local] Abbreviation table_ok := (table_ok proc_base sizeof_proc ticks_addr).
#[local] Abbreviation flow_ok := (flow_ok proc_base sizeof_proc ticks_addr).
#[local] Abbreviation tick_ok := (tick_ok ticks_addr).

(** ** Sleeping *)

Lemma tick_add_q s T p : tick_q s T -> (p < NPROC)%nat -> p ∉ T -> length (procs s) = NPROC ->
  tick_q (tick_sleepq_add_locked p s) (p :: T) /\ notick (tick_sleepq_add_locked p s) = notick s /\ forall j, j <> p -> pr (tick_sleepq_add_locked p s) j = pr s j.
Proof.
  intros [Hl Hd Hin Hc] Hp Hn Hlen. unfold tick_sleepq_add_locked.
  assert (Eo : on_tickq (pr s p) = false) by (destruct (on_tickq (pr s p)) eqn:E; [exfalso; apply Hn; by apply Hin|done]). rewrite Eo.
  set (s1 := upd p (set_tick_next (tick_sleepq_head s)) s). set (s2 := set_tick_sleepq_head (Some p) s1). set (s3 := upd p (set_on_tickq true) s2).
  assert (L1 : length (procs s1) = NPROC) by (unfold s1; by rewrite upd_length). assert (L2 : length (procs s2) = NPROC) by exact L1.
  assert (Ho : forall j, j <> p -> pr s3 j = pr s j) by (intros j Hj; unfold s3; rewrite pr_upd_ne by done; change (pr s2) with (pr s1); unfold s1; by rewrite pr_upd_ne).
  assert (Hr : pr s3 p = set_on_tickq true (set_tick_next (tick_sleepq_head s) (pr s p))).
  { unfold s3. rewrite pr_upd_eq by lia. change (pr s2) with (pr s1). unfold s1. by rewrite pr_upd_eq by lia. }
  set (s4 := set_active_tick_sleepers _ s3). change (pr s4) with (pr s3). split; [|split; [|exact Ho]].
  - split.
    + cbn [tick_list]. split; [done|]. change (pr s4) with (pr s3). rewrite Hr. cbn [tick_next set_on_tickq set_tick_next]. apply (tick_list_ext s); [|done].
      intros j Hj. change (pr s4) with (pr s3). rewrite Ho; [done|]. intros ->. done.
    + by apply NoDup_cons.
    + intros j. change (pr s4) with (pr s3). destruct (decide (j = p)) as [->|Hne]; [rewrite Hr; split; [done|]; intros _; left|]. rewrite Ho by done. rewrite <- Hin. rewrite elem_of_cons. tauto.
    + change (active_tick_sleepers s4) with (active_tick_sleepers s + 1). rewrite Hc. unfold len. cbn [length]. lia.
  - change (notick s4) with (notick s3). unfold s3. rewrite notick_upd by done. change (notick s2) with (notick s1). unfold s1. by rewrite notick_upd.
Qed.

Lemma tick_q_upd s T p f : (p < length (procs s))%nat -> tick_next (f (pr s p)) = tick_next (pr s p) -> on_tickq (f (pr s p)) = on_tickq (pr s p) -> tick_q s T -> tick_q (upd p f s) T.
Proof.
  intros Hp E1 E2 [T1 T2 T3 T4]. pose proof (fun j => upd_fields s p f j Hp E1 E2) as Hf.
  split; [apply (tick_list_ext s); [intros j _; apply Hf|exact T1]|exact T2|intros j; rewrite (proj2 (Hf j)); apply T3|exact T4].
Qed.

(** What [sleep] does before it gives up the CPU. *)
Lemma sleep_enter_spec s T c p : tick_q s T -> (p < NPROC)%nat -> (p ∉ T) -> length (procs s) = NPROC ->
  let s' := sleep_enter ticks_addr c p s in
  tick_q s' (if decide (c = ticks_addr) then p :: T else T) /\
  (forall j, j <> p -> pr s' j = pr s j) /\ core_of (pr s' p) = (SLEEPING, context (pr s p), c, pid (pr s p), addrsp (pr s p)) /\
  (sched_next (sdata (pr s' p)) = next_of s p /\ sched_prev (sdata (pr s' p)) = prev_of s p /\ lvl s' p = lvl s p) /\
  chan_wait_hash s' = alter (fun n => n +u 1) (chan_wait_hash_idx c) (chan_wait_hash s) /\
  nextpid s' = nextpid s /\ initproc s' = initproc s /\ mlfq_qs s' = mlfq_qs s /\ length (procs s') = NPROC.
Proof.
  intros Q Hp Hn Hlen. unfold sleep_enter. set (s0 := upd_hash _ _ s). assert (Q0 : tick_q s0 T) by (destruct Q as [Q1 Q2 Q3 Q4]; split; [by apply (tick_list_ext s)|exact Q2|exact Q3|exact Q4]).
  assert (G : forall t U, tick_q t U -> notick t = notick s0 -> (forall j, j <> p -> pr t j = pr s j) ->
    let s' := upd p (fun r => upd_sched (set_sched_last_block_tick (ticks t)) (set_state SLEEPING (set_chan c r))) t in
    tick_q s' U /\ (forall j, j <> p -> pr s' j = pr s j) /\ core_of (pr s' p) = (SLEEPING, context (pr s p), c, pid (pr s p), addrsp (pr s p)) /\
    (sched_next (sdata (pr s' p)) = next_of s p /\ sched_prev (sdata (pr s' p)) = prev_of s p /\ lvl s' p = lvl s p) /\
    chan_wait_hash s' = alter (fun n => n +u 1) (chan_wait_hash_idx c) (chan_wait_hash s) /\
    nextpid s' = nextpid s /\ initproc s' = initproc s /\ mlfq_qs s' = mlfq_qs s /\ length (procs s') = NPROC).
  { intros t U Qt N Ho s'.
    assert (E : context (pr t p) = context (pr s p) /\ pid (pr t p) = pid (pr s p) /\ addrsp (pr t p) = addrsp (pr s p) /\ sdata (pr t p) = sdata (pr s p)).
    { change (pr s) with (pr s0). repeat split; [by apply (keep_tick context)|by apply (keep_tick pid)|by apply (keep_tick addrsp)|by apply (keep_tick sdata)]. }
    destruct E as (E1 & E2 & E3 & E4). pose proof N as N'. unfold notick in N'. injection N' as N1 N2 N3 N4 _ _ _ _ _ _ N5 _ _.
    assert (Lt : length (procs t) = NPROC) by (apply (f_equal length) in N1; rewrite !length_fmap in N1; by rewrite N1).
    assert (Hr : pr s' p = upd_sched (set_sched_last_block_tick (ticks t)) (set_state SLEEPING (set_chan c (pr t p)))) by (unfold s'; by rewrite pr_upd_eq by lia).
    split; [|split; [intros j Hj; unfold s'; rewrite pr_upd_ne by done; by apply Ho|]].
    - apply tick_q_upd; [lia|done|done|exact Qt].
    - rewrite Hr. split; [unfold core_of; cbn; by rewrite E1, E2, E3|]. split; [unfold lvl, next_of, prev_of; rewrite Hr; cbn; by rewrite E4|].
      split; [exact N5|]. split; [exact N2|]. split; [exact N3|]. split; [exact N4|]. unfold s'. by rewrite upd_length. }
  destruct (Z.eqb_spec c ticks_addr) as [->|Hne].
  - rewrite decide_True by done. destruct (tick_add_q s0 T p Q0 Hp Hn Hlen) as (Q1 & N1 & O1). by apply G.
  - rewrite decide_False by done. by apply G.
Qed.

Lemma hash_alter s s' f i c : chan_wait_hash s' = alter f (chan_wait_hash_idx c) (chan_wait_hash s) -> (i < length (chan_wait_hash s))%nat ->
  hash_at s' i = if decide (chan_wait_hash_idx c = i) then f (hash_at s i) else hash_at s i.
Proof.
  intros E Hi. unfold hash_at. rewrite E, !nth_lookup. destruct (decide (chan_wait_hash_idx c = i)) as [<-|Hne].
  - rewrite list_lookup_alter_eq. destruct (lookup_lt_is_Some_2 (chan_wait_hash s) _ Hi) as [x ->]. done.
  - by rewrite list_lookup_alter_ne.
Qed.

Lemma chan_idx_lt c : (chan_wait_hash_idx c < CHAN_WAIT_HASH_SIZE)%nat.
Proof.
  unfold chan_wait_hash_idx, CHAN_WAIT_HASH_SIZE. change 255 with (Z.ones 8). rewrite Z.land_ones by lia. pose proof (Z.mod_pos_bound (Z.shiftr c 2) (2 ^ 8)). lia.
Qed.

(** A running process goes to sleep on a channel that is not another process. *)
Lemma sleep_ok s cs c p ch : table_ok s cs -> cs !! c = Some (Some p) -> (forall q, ch = proc_addr proc_base sizeof_proc q -> (q < NPROC)%nat -> q = p) ->
  table_ok (upd p (set_context (InSleep ch)) (sleep_enter ticks_addr ch p s)) (<[c := None]> cs).
Proof.
  intros [[Ls RO] F] Hc Hch. pose proof RO as [Q R]. destruct (cp_state _ _ (fl_cpu _ _ _ _ _ F) c p Hc) as [Hp Hs]. pose proof (qs_procs _ _ Q) as Hlen.
  destruct (fl_tick _ _ _ _ _ F) as [T HT]. pose proof (running_not_ticking _ _ _ s cs T c p F HT Hc) as HnT.
  destruct (sleep_enter_spec s T ch p (tick_ok_q _ _ _ HT) Hp HnT Hlen) as (Q1 & O1 & K1 & (D1 & D2 & D3) & H1 & P1 & I1 & M1 & L1).
  set (s1 := sleep_enter ticks_addr ch p s) in *. set (s2 := upd p (set_context (InSleep ch)) s1).
  assert (O2 : forall j, j <> p -> pr s2 j = pr s j) by (intros j Hj; unfold s2; rewrite pr_upd_ne by done; by apply O1).
  assert (E2 : pr s2 p = set_context (InSleep ch) (pr s1 p)) by (unfold s2; by rewrite pr_upd_eq by lia).
  unfold core_of in K1. injection K1 as K1 K2 K3 K4 K5. assert (S2 : st s2 p = SLEEPING) by (unfold st; rewrite E2; exact K1).
  assert (Hnr : st s p <> RUNNABLE) by (destruct Hs as [-> | ->]; done).
  assert (Hsp : has_space (st s p) = true) by (destruct Hs as [-> | ->]; done).
  split.
  - exists Ls. apply (run_ok_view (upd p (fun _ => set_context (InSleep ch) (pr s1 p)) s)); [unfold s2; rewrite !upd_length; lia|exact M1| | |].
    1,2: intros j; unfold st; destruct (decide (j = p)) as [->|Hne]; [rewrite E2, pr_upd_eq by lia; done|rewrite O2, pr_upd_ne by done; done].
    apply (run_ok_upd s); [done|done|done|cbn [state set_context]; by rewrite K1|exact D1|exact D2|]. change (0 <= lvl s1 p < MLFQ_NQUEUES). rewrite D3. by apply (qs_lvl _ _ Q).
  - apply (flow_change _ _ _ s s2 cs _ p F Hp).
    + intros j Hj. by rewrite O2.
    + change (chan_wait_hash s2) with (chan_wait_hash s1). rewrite H1. apply length_alter.
    + intros i Hi. change (hash_at s2 i) with (hash_at s1 i). rewrite (running_not_counted _ _ _ s cs c p i F Hc). rewrite (hash_alter s s1 _ i ch H1) by (by rewrite (fl_hlen _ _ _ _ _ F)).
      assert (Es : sleeping_on s2 i p = Nat.eqb (chan_wait_hash_idx ch) i) by (unfold sleeping_on, is_state; by rewrite S2, E2). rewrite Es.
      destruct (decide (chan_wait_hash_idx ch = i)) as [->|Hne]; [rewrite Nat.eqb_refl|rewrite (proj2 (Nat.eqb_neq _ _)) by done; cbn; lia].
      pose proof (cnt_range (sleeping_on s i)) as Hr. rewrite <- (fl_hash _ _ _ _ _ F i Hi) in Hr. cbn [Z.b2z]. rewrite u32_small by (unfold is_u32; lia); lia.
    + assert (Q2 : tick_q s2 (if decide (ch = ticks_addr) then p :: T else T)) by (apply tick_q_upd; [lia|done|done|exact Q1]).
      destruct Q2 as [T1 T2 T3 T4]. eexists. split; [exact T1|exact T2|exact T3|exact T4| |].
      * intros j Hj. destruct (decide (j = p)) as [->|Hne].
        { rewrite S2, E2. split; [by left|]. destruct (decide (ch = ticks_addr)) as [->|]; [done|]. by exfalso. }
        unfold st. rewrite O2 by done. apply (tk_state _ _ _ HT). destruct (decide (ch = ticks_addr)); [by apply elem_of_cons in Hj as [->|]|done].
      * intros j Hj. destruct (decide (j = p)) as [->|Hne].
        { intros _. rewrite E2. cbn [chan set_context]. rewrite K3. intros ->. rewrite decide_True by done. left. }
        unfold st. rewrite O2 by done. intros A1 A2. pose proof (tk_all _ _ _ HT j Hj A1 A2). destruct (decide (ch = ticks_addr)); [by right|done].
    + exact P1.
    + exact I1.
    + intros _. rewrite E2. split; [by destruct Hs as [-> | ->]|exact K4].
    + intros _. split; [done|]. rewrite E2. cbn [addrsp set_context]. rewrite K5. by apply (fl_space _ _ _ _ _ F p Hp).
    + apply (cpu_leave s s2 cs c p (fl_cpu _ _ _ _ _ F) Hc); [intros j Hj; unfold st; by rewrite O2|]. by rewrite S2.
    + unfold ctx_ok. rewrite S2, E2. cbn [context chan set_context]. rewrite K3. done.
    + intros j Hj. by apply (on_cpu_leave cs c p).
Qed.

(** ** The scheduler gives a CPU to a process *)

(** What [sleep] does when the process runs again. *)
Lemma sleep_exit_spec s T ch p : tick_q s T -> (p < NPROC)%nat -> length (procs s) = NPROC ->
  let s' := sleep_exit ticks_addr ch p s in
  (exists T', tick_q s' T' /\ forall j, j ∈ T' <-> (j ∈ T) /\ (ch = ticks_addr -> j <> p)) /\
  (forall j, j <> p -> core_of (pr s' j) = core_of (pr s j)) /\ core_of (pr s' p) = (st s p, context (pr s p), 0, pid (pr s p), addrsp (pr s p)) /\
  (forall j, sdata (pr s' j) = sdata (pr s j)) /\
  chan_wait_hash s' = (if hash_at s (chan_wait_hash_idx ch) >? 0 then alter (fun n => n - 1) (chan_wait_hash_idx ch) (chan_wait_hash s) else chan_wait_hash s) /\
  nextpid s' = nextpid s /\ initproc s' = initproc s /\ mlfq_qs s' = mlfq_qs s /\ length (procs s') = NPROC.
Proof.
  intros Q Hp Hlen. unfold sleep_exit.
  assert (G : forall t T', tick_q t T' -> (forall j, j ∈ T' <-> (j ∈ T) /\ (ch = ticks_addr -> j <> p)) -> notick t = notick s ->
    let u := if hash_at t (chan_wait_hash_idx ch) >? 0 then upd_hash (chan_wait_hash_idx ch) (fun n => n - 1) t else t in
    let s' := upd p (set_chan 0) u in
    (exists T', tick_q s' T' /\ forall j, j ∈ T' <-> (j ∈ T) /\ (ch = ticks_addr -> j <> p)) /\
    (forall j, j <> p -> core_of (pr s' j) = core_of (pr s j)) /\ core_of (pr s' p) = (st s p, context (pr s p), 0, pid (pr s p), addrsp (pr s p)) /\
    (forall j, sdata (pr s' j) = sdata (pr s j)) /\
    chan_wait_hash s' = (if hash_at s (chan_wait_hash_idx ch) >? 0 then alter (fun n => n - 1) (chan_wait_hash_idx ch) (chan_wait_hash s) else chan_wait_hash s) /\
    nextpid s' = nextpid s /\ initproc s' = initproc s /\ mlfq_qs s' = mlfq_qs s /\ length (procs s') = NPROC).
  { intros t T' Qt HT' N u s'. pose proof N as N'. unfold notick in N'. injection N' as N1 N2 N3 N4 _ _ _ _ _ _ N5 _ _.
    assert (Lt : length (procs t) = NPROC) by (apply (f_equal length) in N1; rewrite !length_fmap in N1; by rewrite N1).
    assert (U : procs u = procs t /\ tick_sleepq_head u = tick_sleepq_head t /\ active_tick_sleepers u = active_tick_sleepers t /\ nextpid u = nextpid t /\ initproc u = initproc t /\ mlfq_qs u = mlfq_qs t /\
      chan_wait_hash u = if hash_at t (chan_wait_hash_idx ch) >? 0 then alter (fun n => n - 1) (chan_wait_hash_idx ch) (chan_wait_hash t) else chan_wait_hash t) by (unfold u; by destruct (_ >? 0)).
    destruct U as (U1 & U2 & U3 & U4 & U5 & U6 & U7). assert (Pu : forall j, pr u j = pr t j) by (intros j; unfold pr; by rewrite U1).
    assert (Qu : tick_q u T').
    { destruct Qt as [A1 A2 A3 A4]. split; [rewrite U2; apply (tick_list_ext t); [intros j _; by rewrite Pu|done]|done|intros j; rewrite Pu; apply A3|by rewrite U3]. }
    assert (Lu : (p < length (procs u))%nat) by (rewrite U1; lia).
    split; [exists T'; split; [by apply tick_q_upd|done]|].
    split; [intros j Hj; unfold s'; rewrite pr_upd_ne, Pu by done; by apply (keep_tick core_of)|].
    assert (Hr : pr s' p = set_chan 0 (pr t p)) by (unfold s'; by rewrite pr_upd_eq, Pu).
    split; [|split].
    - rewrite Hr. pose proof (keep_tick core_of s t p N (fun _ => eq_refl)) as E. unfold core_of in *. cbn [state context chan pid addrsp set_chan]. injection E as E1 E2 _ E4 E5. unfold st. by rewrite E1, E2, E4, E5.
    - intros j. rewrite <- (keep_tick sdata s t j N (fun _ => eq_refl)). unfold s'. rewrite pr_upd by done. rewrite Pu. by destruct (decide (p = j)).
    - change (chan_wait_hash s') with (chan_wait_hash u). rewrite U7. unfold hash_at. rewrite N5. split; [done|].
      change (nextpid s') with (nextpid u). change (initproc s') with (initproc u). change (mlfq_qs s') with (mlfq_qs u). rewrite U4, U5, U6. split; [exact N2|]. split; [exact N3|]. split; [exact N4|].
      unfold s'. rewrite upd_length, U1. exact Lt. }
  destruct (Z.eqb_spec ch ticks_addr) as [->|Hne].
  - destruct (tick_remove_q s T p Q Hlen) as [N C]. destruct C as [[Hn E]|(l1 & l2 & E & Q')].
    + apply (G _ T); [by rewrite E| |done]. intros j. split; [|by intros [? _]]. intros Hj. split; [done|]. intros _ ->. done.
    + apply (G _ (l1 ++ l2)); [done| |done]. intros j. rewrite E. pose proof (tq_nodup _ _ Q) as Hd. rewrite E in Hd. apply NoDup_app in Hd as (_ & D2 & [D3 _]%NoDup_cons). rewrite !elem_of_app, elem_of_cons. split.
      * intros Hj. split; [tauto|]. intros _ ->. destruct Hj as [Hj|Hj]; [apply (D2 p Hj); left|done].
      * intros [[Hj|[->|Hj]] Hne]; [by left| |by right]. by exfalso; apply Hne.
  - apply (G s T); [done| |done]. intros j. split; [|by intros [? _]]. done.
Qed.

Lemma cpu_enter s s' cs c p : cpu_ok s cs -> cs !! c = Some None -> (p < NPROC)%nat -> ~ on_cpu cs p -> (forall j, j <> p -> st s' j = st s j) -> st s' p = RUNNING -> cpu_ok s' (<[c := Some p]> cs).
Proof.
  intros [C1 C2 C3] Hc Hp Hn Ho Hs. pose proof (lookup_lt_Some _ _ _ Hc) as Hl.
  assert (K : forall d j, <[c := Some p]> cs !! d = Some (Some j) -> (d = c /\ j = p) \/ (d <> c /\ cs !! d = Some (Some j) /\ j <> p)).
  { intros d j Hd. destruct (decide (c = d)) as [<-|Hne].
    - rewrite list_lookup_insert_eq in Hd by done. injection Hd as <-. by left.
    - rewrite list_lookup_insert_ne in Hd by done. right. split; [done|]. split; [done|]. intros ->. apply Hn. by exists d. }
  split.
  - intros d d' j Hd Hd'. destruct (K _ _ Hd) as [[-> ->]|(Hn1 & Hd1 & Hj1)], (K _ _ Hd') as [[-> E]|(Hn2 & Hd2 & Hj2)]; try done. by apply (C1 d d' j).
  - intros d j Hd. destruct (K _ _ Hd) as [[-> ->]|(Hn1 & Hd1 & Hj1)]; [split; [done|by left]|]. rewrite Ho by done. by apply (C2 d).
  - intros j Hj Hr. destruct (decide (j = p)) as [->|Hne]; [exists c; by rewrite list_lookup_insert_eq|]. rewrite Ho in Hr by done. destruct (C3 j Hj Hr) as [d Hd]. exists d.
    rewrite list_lookup_insert_ne; [done|]. intros <-. congruence.
Qed.

Lemma on_cpu_enter cs c p j : cs !! c = Some None -> on_cpu cs j -> on_cpu (<[c := Some p]> cs) j.
Proof. intros Hc [d Hd]. exists d. rewrite list_lookup_insert_ne; [done|]. intros <-. congruence. Qed.

Lemma runnable_off_cpu s cs p : cpu_ok s cs -> st s p = RUNNABLE -> ~ on_cpu cs p.
Proof. intros C Hs [c Hc]. destruct (cp_state _ _ C c p Hc) as [_ [H|H]]; congruence. Qed.

(** The table when [p] has been taken from its queue and is running: [s1], and when it has left [sleep]: [s2]. *)
Lemma run_flow s s2 cs c p T' : flow_ok s cs -> cs !! c = Some None -> (p < NPROC)%nat -> st s p = RUNNABLE ->
  (forall j, j <> p -> core_of (pr s2 j) = core_of (pr s j)) -> st s2 p = RUNNING -> pid (pr s2 p) = pid (pr s p) -> addrsp (pr s2 p) = addrsp (pr s p) ->
  nextpid s2 = nextpid s -> initproc s2 = initproc s -> length (chan_wait_hash s2) = length (chan_wait_hash s) ->
  (forall i, (i < CHAN_WAIT_HASH_SIZE)%nat -> hash_at s2 i = hash_at s i - Z.b2z (sleeping_on s i p)) ->
  tick_q s2 T' -> (forall T, tick_ok s T -> forall j, j ∈ T' <-> (j ∈ T) /\ j <> p) -> flow_ok s2 (<[c := Some p]> cs).
Proof.
  intros F Hc Hp Hs Ho Hs2 Hpid Hsp Hn Hi Hl Hh Q HT. assert (Es : forall j, j <> p -> st s2 j = st s j) by (intros j Hj; specialize (Ho j Hj); unfold core_of in Ho; by injection Ho).
  assert (Hsl : forall i, sleeping_on s2 i p = false) by (intros i; unfold sleeping_on, is_state; by rewrite Hs2).
  apply (flow_change _ _ _ s s2 cs _ p F Hp); try done.
  - intros i Hi'. rewrite Hsl, (Hh i Hi'). cbn [Z.b2z]. lia.
  - destruct (fl_tick _ _ _ _ _ F) as [T TO]. specialize (HT T TO). exists T'. destruct Q as [Q1 Q2 Q3 Q4]. split; [exact Q1|exact Q2|exact Q3|exact Q4| |].
    + intros j Hj. apply HT in Hj as [Hj Hne]. pose proof (Ho j Hne) as E. unfold core_of in E. injection E as E1 E2 _ _ _. unfold st. rewrite E1, E2. by apply (tk_state _ _ _ TO).
    + intros j Hj S1 S2. destruct (decide (j = p)) as [->|Hne]; [congruence|]. apply HT. split; [|done]. pose proof (Ho j Hne) as E. unfold core_of in E. injection E as E1 _ E3 _ _. unfold st in S1. rewrite E1 in S1. rewrite E3 in S2. by apply (tk_all _ _ _ TO).
  - intros _. by rewrite Hs, Hpid.
  - intros _. assert (Hh' : has_space (st s p) = true) by (by rewrite Hs). split; [done|]. rewrite Hsp. by apply (fl_space _ _ _ _ _ F).
  - apply (cpu_enter s); try done; [apply F|]. apply (runnable_off_cpu s); [apply F|done].
  - unfold ctx_ok. by rewrite Hs2.
  - intros j _. by apply on_cpu_enter.
Qed.

(** The scheduler's choice, as a change of the table: the process runs, off the queues. *)
Lemma pick_run s Ls : run_ok s Ls ->
  ((forall p, (p < NPROC)%nat -> st s p <> RUNNABLE) /\ schedq_pick_next_locked s = (None, s)) \/
  exists p s1, (p < NPROC)%nat /\ st s p = RUNNABLE /\ schedq_pick_next_locked s = (Some p, s1) /\ nosched s1 = nosched s /\
    forall f, state (f (pr s1 p)) <> RUNNABLE -> sched_next (sdata (f (pr s1 p))) = next_of s1 p -> sched_prev (sdata (f (pr s1 p))) = prev_of s1 p -> sched_q (sdata (f (pr s1 p))) = lvl s1 p ->
      exists Ls', run_ok (upd p f s1) Ls'.
Proof.
  intros [Q R]. destruct (pick_spec s Ls Q) as [[H1 H2]|(q & p & l & s1 & Hq & _ & HL & E & Q1 & N)].
  - left. split; [|done]. intros p Hp Hs. apply R in Hs; [|done]. unfold queued in Hs. rewrite H1 in Hs by (by apply (qs_lvl _ _ Q)). by apply elem_of_nil in Hs.
  - right. destruct (qs_in _ _ Q q p Hq ltac:(rewrite HL; left)) as [Hp Hlv]. assert (Hs : st s p = RUNNABLE) by (apply R; [done|]; unfold queued; rewrite Hlv, HL; left).
    exists p, s1. split; [done|]. split; [done|]. split; [done|]. split; [done|]. intros f F1 F2 F3 F4. exists (lput q l Ls).
    assert (HR : forall j, (j < NPROC)%nat -> (st s1 j = RUNNABLE /\ j <> p) <-> queued (lput q l Ls) s1 j) by exact (dequeue_run_ok s s1 Ls q [] p l Q R Hq HL Q1 N).
    assert (Hu : unqueued (lput q l Ls) p) by (apply (queued_unqueued s1); [done|done|]; intros Hin; apply HR in Hin as [_ ?]; done).
    assert (Q2 : queues (upd p f s1) (lput q l Ls)) by (apply queues_upd; try done; rewrite F4; by apply (qs_lvl _ _ Q1)). split; [done|].
    intros j Hj. destruct (decide (j = p)) as [->|Hne].
    + unfold st. rewrite pr_upd_eq by (by rewrite (qs_procs _ _ Q1)). split; [done|]. intros Hin. exfalso. revert Hin. by apply (queued_unqueued (upd p f s1)).
    + unfold st, queued, lvl. rewrite pr_upd_ne by done. split; [intros; by apply HR|]. intros H. by apply HR in H as [? _].
Qed.

(** One round of a CPU's scheduler: it does nothing when no process is runnable; otherwise a runnable process runs on it. *)
Lemma dispatch_ok {R} (m : mach R) c : table_ok (pt m) (cpus m) -> cpus m !! c = Some None ->
  exists m', scheduler_round ticks_addr c m = Some m' /\ table_ok (pt m') (cpus m') /\ res m' = res m /\
    ((m' = m /\ forall p, (p < NPROC)%nat -> st (pt m) p <> RUNNABLE) \/
     exists p, st (pt m) p = RUNNABLE /\ cpus m' = <[c := Some p]> (cpus m) /\ st (pt m') p = RUNNING).
Proof.
  destruct m as [s cs x]. cbn [pt cpus res]. intros [[Ls RO] F] Hc. unfold scheduler_round. cbn [pt cpus res].
  destruct (pick_run s Ls RO) as [[H1 ->]|(p & s1 & Hp & Hs & -> & N & RU)].
  { exists (mkMach s cs x). split; [done|]. split; [split; [by exists Ls|done]|]. split; [done|]. by left. }
  pose proof (qs_procs _ _ (proj1 RO)) as Hlen. pose proof (keep_length _ _ N) as Hlen1.
  set (f := fun r => set_state RUNNING (upd_sched (fun d => set_sched_cpu_burst_ticks 0 (set_sched_last_start_tick (ticks s1) d)) r)).
  set (s2 := upd p _ s1). set (s3 := upd p (set_state RUNNING) s2).
  assert (E3 : pr s3 p = f (pr s1 p)) by (unfold s3, s2; rewrite pr_upd_eq by (rewrite upd_length; lia); by rewrite pr_upd_eq by lia).
  assert (O3 : forall j, j <> p -> pr s3 j = pr s1 j) by (intros j Hj; unfold s3, s2; by rewrite !pr_upd_ne).
  assert (L3 : length (procs s3) = NPROC) by (unfold s3, s2; rewrite !upd_length; lia).
  destruct (RU f ltac:(done) ltac:(done) ltac:(done) ltac:(done)) as [Ls' RO1].
  assert (RO3 : run_ok s3 Ls').
  { apply (run_ok_view (upd p f s1)); [rewrite L3, upd_length; lia|done| | |exact RO1]; intros j; unfold st; destruct (decide (j = p)) as [->|Hne]; rewrite ?E3, ?O3 by done; [by rewrite pr_upd_eq by lia|by rewrite pr_upd_ne|by rewrite pr_upd_eq by lia|by rewrite pr_upd_ne]. }
  pose proof (same_flow_nosched _ _ N) as SF. pose proof (sf_rest _ _ SF) as R1. unfold flow_rest in R1. injection R1 as R1 R2 R3 R4 R5.
  assert (C3 : forall j, j <> p -> core_of (pr s3 j) = core_of (pr s j)) by (intros j Hj; rewrite O3 by done; by apply (keep_proc core_of)).
  assert (K3 : core_of (pr s3 p) = (RUNNING, context (pr s p), chan (pr s p), pid (pr s p), addrsp (pr s p))).
  { rewrite E3. pose proof (keep_proc core_of s s1 p N (fun _ => eq_refl)) as E. unfold core_of in *. injection E as _ A2 A3 A4 A5. by rewrite <- A2, <- A3, <- A4, <- A5. }
  assert (Q3 : forall T, tick_ok s T -> tick_q s3 T).
  { intros T HT. assert (Q1 : tick_q s1 T) by (apply (keep_q_nosched s); [done|by apply tick_ok_q in HT]). unfold s3, s2. apply tick_q_upd; [rewrite upd_length; lia|done|done|]. apply tick_q_upd; [lia|done|done|done]. }
  unfold core_of in K3. injection K3 as K1 K2 K3 K4 K5. unfold continue. cbn [pt]. rewrite K2. destruct (fl_tick _ _ _ _ _ F) as [T HT].
  pose proof (fl_ctx _ _ _ _ _ F p Hp) as X. unfold ctx_ok in X. rewrite Hs in X.
  assert (Simple : (forall i, sleeping_on s i p = false) -> p ∉ T -> table_ok s3 (<[c := Some p]> cs)).
  { intros Hsl HpT. split; [by exists Ls'|]. apply (run_flow s s3 cs c p T); try done.
    - change (chan_wait_hash s3) with (chan_wait_hash s1). by rewrite R3.
    - intros i Hi. rewrite Hsl. unfold hash_at. change (chan_wait_hash s3) with (chan_wait_hash s1). rewrite R3. cbn [Z.b2z]. lia.
    - by apply Q3.
    - intros T' HT' j. assert (HTT : j ∈ T <-> j ∈ T') by (rewrite (tk_in _ _ _ HT), (tk_in _ _ _ HT'); done). rewrite HTT. split; [|tauto]. intros Hj. split; [done|]. intros ->. by apply HpT, HTT. }
  assert (Nosl : (forall ch, context (pr s p) <> InSleep ch) -> table_ok s3 (<[c := Some p]> cs)).
  { intros Hn. apply Simple; [intros i; unfold sleeping_on; destruct (context (pr s p)) eqn:E; try (by rewrite andb_false_r); by destruct (Hn c0)|].
    intros Hin. destruct (tk_state _ _ _ HT p Hin) as [_ E]. by apply (Hn ticks_addr). }
  destruct (context (pr s p)) as [| |ch| |] eqn:Ectx; [| | | |done].
  1,2,4: eexists; split; [reflexivity|]; split; [by apply Nosl|]; split; [done|]; right; exists p; done.
  eexists. split; [reflexivity|]. cbn [pt cpus res with_pt]. destruct (sleep_exit_spec s3 T ch p (Q3 T HT) Hp L3) as ((T' & Q4 & HT') & O4 & K & D4 & H4 & P4 & I4 & M4 & L4).
  set (s4 := sleep_exit ticks_addr ch p s3) in *. unfold core_of in K. injection K as B1 B2 B3 B4 B5.
  assert (S4 : st s4 p = RUNNING) by (unfold st; rewrite B1; unfold st; by rewrite K1).
  split; [|split; [done|right; exists p; done]]. split.
  - exists Ls'. apply (run_ok_view s3); [lia|done|done| |done]. intros j. destruct (decide (j = p)) as [->|Hne]; [rewrite S4; unfold st; by rewrite K1|]. specialize (O4 j Hne). unfold core_of in O4. by injection O4.
  - pose proof (chan_idx_lt ch) as Hidx. assert (Hsl : forall i, sleeping_on s i p = Nat.eqb (chan_wait_hash_idx ch) i) by (intros i; unfold sleeping_on, is_state; by rewrite Hs, Ectx).
    apply (run_flow s s4 cs c p T'); try done.
    + intros j Hj. rewrite O4 by done. by apply C3.
    + by rewrite B4, K4.
    + by rewrite B5, K5.
    + by rewrite P4.
    + by rewrite I4.
    + rewrite H4. change (chan_wait_hash s3) with (chan_wait_hash s1). rewrite R3. destruct (_ >? 0); [by rewrite length_alter|done].
    + intros i Hi. assert (Eh : forall i, hash_at s3 i = hash_at s i) by (intros k; unfold hash_at; change (chan_wait_hash s3) with (chan_wait_hash s1); by rewrite R3).
      assert (Hpos : 0 < hash_at s3 (chan_wait_hash_idx ch)).
      { rewrite Eh, (fl_hash _ _ _ _ _ F _ Hidx). apply (cnt_pos _ p Hp). by rewrite Hsl, Nat.eqb_refl. }
      rewrite (proj2 (Z.gtb_lt _ _)) in H4 by done. rewrite (hash_alter s3 s4 _ i ch H4) by (change (chan_wait_hash s3) with (chan_wait_hash s1); by rewrite R3, (fl_hlen _ _ _ _ _ F)).
      rewrite Hsl, Eh. destruct (decide (chan_wait_hash_idx ch = i)) as [->|Hne]; [by rewrite Nat.eqb_refl|]. rewrite (proj2 (Nat.eqb_neq _ _)) by done. cbn [Z.b2z]. lia.
    + intros T2 HT2 j. rewrite HT'. assert (HTT : j ∈ T <-> j ∈ T2) by (rewrite (tk_in _ _ _ HT), (tk_in _ _ _ HT2); done). rewrite HTT. split; intros [Hj Hne]; split; try done.
      intros ->. destruct (decide (ch = ticks_addr)) as [->|Hn]; [by apply Hne|]. destruct (tk_state _ _ _ HT2 p Hj) as [_ E]. congruence.
Qed.

(** ** Giving up the CPU *)

Lemma upd_upd p f g s : upd p f (upd p g s) = upd p (fun r => f (g r)) s.
Proof.
  unfold upd. cbn [procs set_procs]. assert (E : alter f p (alter g p (procs s)) = alter (fun r => f (g r)) p (procs s)); [|unfold set_procs; cbn; by rewrite E].
  apply list_eq. intros i. destruct (decide (p = i)) as [<-|Hne]; [|by rewrite !list_lookup_alter_ne]. rewrite !list_lookup_alter_eq. by destruct (procs s !! p).
Qed.

(** A process that stops or exits. *)
Lemma leave_ok s cs c p f x k : table_ok s cs -> cs !! c = Some (Some p) -> ((x = STOPPED /\ k = InStop) \/ (x = ZOMBIE /\ k = InExit)) ->
  flow_of (f (pr s p)) = (x, k, chan (pr s p), tick_next (pr s p), on_tickq (pr s p), pid (pr s p), addrsp (pr s p)) -> sdata (f (pr s p)) = sdata (pr s p) ->
  table_ok (upd p f s) (<[c := None]> cs).
Proof.
  intros [[Ls RO] F] Hc Hx Ef Ed. destruct (cp_state _ _ (fl_cpu _ _ _ _ _ F) c p Hc) as [Hp Hs]. pose proof RO as [Q _].
  assert (Es : state (f (pr s p)) = x /\ context (f (pr s p)) = k) by (unfold flow_of in Ef; by injection Ef). destruct Es as [E1 E2]. split.
  - exists Ls. apply run_ok_upd; try done; [by destruct Hs as [-> | ->]|rewrite E1; by destruct Hx as [[-> _]|[-> _]]|by rewrite Ed..|]. rewrite Ed. by apply (qs_lvl _ _ Q).
  - apply flow_leave; try done; [apply Q|by rewrite Ef, E1, E2|]. rewrite E1, E2. destruct Hx as [[-> ->]|[-> ->]]; [right; by left|right; by right].
Qed.

(** Data that the invariant does not mention. *)
Lemma table_rest s s' cs : procs s' = procs s -> mlfq_qs s' = mlfq_qs s -> flow_rest s' = flow_rest s -> table_ok s cs -> table_ok s' cs.
Proof.
  intros E1 E2 E3 [[Ls RO] F]. split; [exists Ls; by apply (run_ok_same s)|]. apply (flow_same _ _ _ s); [|done]. split; [|done]. intros p. unfold pr. by rewrite E1.
Qed.

Lemma nowake_fields s s' p : nowake s' = nowake s -> pid (pr s' p) = pid (pr s p) /\ parent (pr s' p) = parent (pr s p) /\ xstatus (pr s' p) = xstatus (pr s p) /\ chan (pr s' p) = chan (pr s p) /\ initproc s' = initproc s.
Proof.
  intros N. split; [by apply (keep_wake pid)|]. split; [by apply (keep_wake parent)|]. split; [by apply (keep_wake xstatus)|]. split; [by apply (keep_wake chan)|].
  unfold nowake in N. by injection N.
Qed.

(** ** Exit *)

(** What [exit] does to the processes before the last change: children get a new parent and sleepers may wake. *)
Record exiting (s s' : ptable) : Prop := {
  ex_st p : st s p <> SLEEPING -> st s' p = st s p;
  ex_pid p : pid (pr s' p) = pid (pr s p);
  ex_status p : xstatus (pr s' p) = xstatus (pr s p);
  ex_chan p : chan (pr s' p) = chan (pr s p);
  ex_init : initproc s' = initproc s
}.

Lemma exiting_refl s : exiting s s.
Proof. by split. Qed.

Lemma exiting_trans s s1 s2 : exiting s s1 -> exiting s1 s2 -> exiting s s2.
Proof.
  intros [A1 A2 A3 A4 A5] [B1 B2 B3 B4 B5]. split; [|intros; by rewrite B2|intros; by rewrite B3|intros; by rewrite B4|by rewrite B5]. intros p Hp. rewrite B1; [by apply A1|]. by rewrite A1.
Qed.

Lemma wakeup_exiting s cs c : table_ok s cs -> 0 < sizeof_proc ->
  table_ok (wakeup1 proc_base sizeof_proc ticks_addr c s) cs /\ exiting s (wakeup1 proc_base sizeof_proc ticks_addr c s).
Proof.
  intros T Hsz. destruct (wakeup1_ok _ _ _ s cs c T Hsz) as (T' & N & S'). split; [done|]. split; [|intros p; by apply (nowake_fields s _ p)..|by apply (nowake_fields s _ 0%nat)].
  intros p Hp. destruct (decide (p < NPROC)%nat) as [Hl|Hl]; [rewrite S' by done; rewrite decide_False; [done|]; by intros [? _]|].
  pose proof (table_len _ _ _ _ _ T) as L1. pose proof (table_len _ _ _ _ _ T') as L2. unfold st, pr. by rewrite !nth_overflow by lia.
Qed.

Lemma reparent_ok cur p s cs : table_ok s cs -> 0 < sizeof_proc -> (p < NPROC)%nat ->
  table_ok (reparent proc_base sizeof_proc ticks_addr cur p s) cs /\ exiting s (reparent proc_base sizeof_proc ticks_addr cur p s).
Proof.
  intros T Hsz Hp. unfold reparent. destruct (eq_ptr _ _); [|split; [done|apply exiting_refl]]. destruct (initproc s) as [i|] eqn:Ei; [|split; [done|apply exiting_refl]].
  set (f := fun r => set_ppid (pid (pr s i)) (set_parent (Some i) r)). assert (T1 : table_ok (upd p f s) cs) by (apply table_upd; done).
  assert (E1 : exiting s (upd p f s)).
  { pose proof (table_len _ _ _ _ _ T) as Hl. assert (Hf : forall j, st (upd p f s) j = st s j /\ pid (pr (upd p f s) j) = pid (pr s j) /\ xstatus (pr (upd p f s) j) = xstatus (pr s j) /\ chan (pr (upd p f s) j) = chan (pr s j)) by (intros j; unfold st; rewrite pr_upd by lia; by destruct (decide (p = j))).
    split; [intros j _; apply Hf|intros j; apply Hf|intros j; apply Hf|intros j; apply Hf|done]. }
  destruct (is_state _ p ZOMBIE); [|by split]. destruct (wakeup_exiting (upd p f s) cs (proc_addr proc_base sizeof_proc i) T1 Hsz) as [T2 E2]. split; [done|]. by apply (exiting_trans _ (upd p f s)).
Qed.

Lemma reparent_fold cur ps s cs : table_ok s cs -> 0 < sizeof_proc -> (forall p, p ∈ ps -> (p < NPROC)%nat) ->
  let s' := fold_left (fun s p => reparent proc_base sizeof_proc ticks_addr cur p s) ps s in table_ok s' cs /\ exiting s s'.
Proof.
  revert s. induction ps as [|p ps IH]; intros s T Hsz Hps; cbn [fold_left]; [split; [done|apply exiting_refl]|].
  destruct (reparent_ok cur p s cs T Hsz ltac:(apply Hps; left)) as [T1 E1]. destruct (IH _ T1 Hsz ltac:(intros q Hq; apply Hps; by right)) as [T2 E2]. split; [done|]. by apply (exiting_trans _ _ _ E1).
Qed.

(** The parents after [exit] has gone through the table. *)
Definition heir (s : ptable) (cur : nat) (x : option nat) : option nat := if eq_ptr x (Some cur) then match initproc s with Some i => Some i | None => x end else x.

Lemma reparent_parents cur ps s cs : table_ok s cs -> 0 < sizeof_proc -> NoDup ps -> (forall p, p ∈ ps -> (p < NPROC)%nat) ->
  let s' := fold_left (fun s p => reparent proc_base sizeof_proc ticks_addr cur p s) ps s in
  forall j, parent (pr s' j) = if decide (j ∈ ps) then heir s cur (parent (pr s j)) else parent (pr s j).
Proof.
  revert s. induction ps as [|p ps IH]; intros s T Hsz Hd Hps; cbn [fold_left]; [intros j; by rewrite decide_False by apply not_elem_of_nil|].
  apply NoDup_cons in Hd as [Hd1 Hd2]. destruct (reparent_ok cur p s cs T Hsz ltac:(apply Hps; left)) as [T1 E1]. set (s1 := reparent _ _ _ cur p s) in *. intros j.
  rewrite (IH s1 T1 Hsz Hd2) by (intros q Hq; apply Hps; by right).
  assert (P1 : parent (pr s1 j) = if decide (j = p) then heir s cur (parent (pr s j)) else parent (pr s j)).
  { unfold s1, reparent, heir. pose proof (table_len _ _ _ _ _ T) as Hl. assert (Hp : (p < NPROC)%nat) by (apply Hps; left). destruct (eq_ptr (parent (pr s p)) (Some cur)) eqn:E.
    - destruct (initproc s) as [i|]; [|destruct (decide (j = p)) as [->|]; [by rewrite E|done]].
      set (f := fun r => set_ppid (pid (pr s i)) (set_parent (Some i) r)). assert (Pu : parent (pr (upd p f s) j) = if decide (j = p) then Some i else parent (pr s j)).
      { rewrite pr_upd by lia. destruct (decide (p = j)) as [->|]; [by rewrite decide_True|by rewrite decide_False]. }
      assert (Pw : parent (pr (if is_state (upd p f s) p ZOMBIE then wakeup1 proc_base sizeof_proc ticks_addr (proc_addr proc_base sizeof_proc i) (upd p f s) else upd p f s) j) = parent (pr (upd p f s) j)).
      { destruct (is_state _ p ZOMBIE); [|done]. destruct (wakeup1_ok proc_base sizeof_proc ticks_addr (upd p f s) cs (proc_addr proc_base sizeof_proc i)) as (_ & N & _); [by apply table_upd|done|]. by apply (nowake_fields (upd p f s)). }
      rewrite Pw, Pu. destruct (decide (j = p)) as [->|]; [by rewrite E|done].
    - destruct (decide (j = p)) as [->|]; [by rewrite E|done]. }
  assert (H1 : forall x, heir s1 cur x = heir s cur x) by (intros x; unfold heir; by rewrite (ex_init _ _ E1)). rewrite H1, P1.
  destruct (decide (j ∈ ps)) as [Hj|Hj], (decide (j = p)) as [->|Hne]; try done.
  - by rewrite decide_True by (by right).
  - by rewrite decide_True by left.
  - rewrite decide_False; [done|]. by intros [?|?]%elem_of_cons.
Qed.

(** The status that [exit] leaves for the parent. *)
Definition final_status (xs status : Z) : Z :=
  if negb (xs =? 0) && wait_status_has_valid_signal xs then xs else WSTATUS_EXIT status.

(** Everything [exit] does before the process becomes a zombie. *)
Lemma exit_body s cs p : table_ok s cs -> 0 < sizeof_proc -> (p < NPROC)%nat ->
  let s1 := upd p (set_cwd 0) (upd p (set_fdtable 0) s) in
  let s2 := wakeup1 proc_base sizeof_proc ticks_addr (match parent (pr s1 p) with Some q => proc_addr proc_base sizeof_proc q | None => 0 end) s1 in
  let s3 := each (reparent proc_base sizeof_proc ticks_addr p) s2 in
  table_ok s3 cs /\ exiting s s3 /\ (forall q, (q < NPROC)%nat -> parent (pr s3 q) = heir s p (parent (pr s q))) /\
  (forall q, (q < NPROC)%nat -> parent (pr s p) = Some q -> st s3 q <> SLEEPING \/ chan (pr s3 q) <> proc_addr proc_base sizeof_proc q).
Proof.
  intros T Hsz Hp s1 s2 s3. pose proof (table_len _ _ _ _ _ T) as Hl.
  assert (T1 : table_ok s1 cs) by (unfold s1; apply table_upd; [apply table_upd; done|done|done]).
  assert (P1 : forall j, st s1 j = st s j /\ pid (pr s1 j) = pid (pr s j) /\ xstatus (pr s1 j) = xstatus (pr s j) /\ chan (pr s1 j) = chan (pr s j) /\ parent (pr s1 j) = parent (pr s j)).
  { intros j. unfold s1, st. rewrite upd_upd, pr_upd by lia. by destruct (decide (p = j)). }
  assert (E1 : exiting s s1) by (split; [intros j _; apply P1|intros j; apply P1|intros j; apply P1|intros j; apply P1|done]).
  destruct (P1 p) as (_ & _ & _ & _ & Pp). set (ch := match parent (pr s p) with Some q => proc_addr proc_base sizeof_proc q | None => 0 end).
  assert (Es3 : s3 = fold_left (fun s q => reparent proc_base sizeof_proc ticks_addr p q s) (seq 0 NPROC) s2) by reflexivity. clearbody s3.
  assert (Es2 : s2 = wakeup1 proc_base sizeof_proc ticks_addr ch s1) by (unfold s2, ch; by rewrite Pp). clearbody s2.
  destruct (wakeup_exiting s1 cs ch T1 Hsz) as [T2 E2]. destruct (wakeup1_ok proc_base sizeof_proc ticks_addr s1 cs ch T1 Hsz) as (_ & N2 & W2). cbv zeta in N2, W2. rewrite <- Es2 in T2, E2, N2, W2.
  assert (Hseq : forall q, q ∈ seq 0 NPROC -> (q < NPROC)%nat) by (intros q Hq%elem_of_seq; lia).
  destruct (reparent_fold p (seq 0 NPROC) s2 cs T2 Hsz Hseq) as [T3 E3]. pose proof (reparent_parents p (seq 0 NPROC) s2 cs T2 Hsz (NoDup_seq _ _) Hseq) as P3.
  cbv zeta in P3, T3, E3. rewrite <- Es3 in P3, T3, E3. clear Es3.
  split; [done|]. split; [by apply (exiting_trans _ _ _ (exiting_trans _ _ _ E1 E2))|]. split.
  - intros q Hq. rewrite P3, decide_True by (apply elem_of_seq; lia). destruct (nowake_fields s1 s2 q N2) as (_ & -> & _ & _ & Hi). destruct (P1 q) as (_ & _ & _ & _ & ->). unfold heir. by rewrite Hi.
  - intros q Hq Ep. assert (Ech : ch = proc_addr proc_base sizeof_proc q) by (unfold ch; by rewrite Ep). destruct (decide (st s2 q = SLEEPING)) as [Hsl|Hsl]; [|left; by rewrite (ex_st _ _ E3)].
    right. rewrite (ex_chan _ _ E3). intros Hch. rewrite (ex_chan _ _ E2) in Hch. rewrite (W2 q Hq) in Hsl. rewrite Ech in Hsl. destruct (decide (st s1 q = SLEEPING /\ _)) as [|Hn]; [done|]. by apply Hn.
Qed.

Lemma exit_ok {R} `{Resources R} (m : mach R) c p status : table_ok (pt m) (cpus m) -> 0 < sizeof_proc -> cpus m !! c = Some (Some p) -> initproc (pt m) <> Some p ->
  exists m', exit proc_base sizeof_proc ticks_addr c p status m = Some m' /\ table_ok (pt m') (cpus m') /\ cpus m' = <[c := None]> (cpus m) /\
    st (pt m') p = ZOMBIE /\ (forall q, pid (pr (pt m') q) = pid (pr (pt m) q)) /\ xstatus (pr (pt m') p) = final_status (xstatus (pr (pt m) p)) status /\
    (forall q, (q < NPROC)%nat -> parent (pr (pt m') q) = heir (pt m) p (parent (pr (pt m) q))) /\
    (forall q, (q < NPROC)%nat -> parent (pr (pt m) p) = Some q -> st (pt m') q <> SLEEPING \/ chan (pr (pt m') q) <> proc_addr proc_base sizeof_proc q).
Proof.
  destruct m as [s cs x]. cbn [pt cpus res]. intros T Hsz Hc Hi. unfold exit, exit_enter. cbn [pt cpus res].
  assert (E0 : eq_ptr (initproc s) (Some p) = false) by (by apply bool_decide_eq_false_2). rewrite E0.
  pose proof T as [[Ls RO] F]. destruct (cp_state _ _ (fl_cpu _ _ _ _ _ F) c p Hc) as [Hp Hs]. destruct (exit_body s cs p T Hsz Hp) as (T3 & E3 & P3 & W3).
  set (s1 := upd p (set_cwd 0) (upd p (set_fdtable 0) s)) in *.
  assert (Ew : match parent (pr s1 p) with Some q => wakeup1 proc_base sizeof_proc ticks_addr (proc_addr proc_base sizeof_proc q) s1 | None => wakeup1 proc_base sizeof_proc ticks_addr 0 s1 end =
    wakeup1 proc_base sizeof_proc ticks_addr (match parent (pr s1 p) with Some q => proc_addr proc_base sizeof_proc q | None => 0 end) s1) by (by destruct (parent (pr s1 p))).
  rewrite Ew. clear Ew. revert T3 E3 P3 W3. match goal with |- table_ok ?t _ -> _ => generalize t end. clear s1. intros s3 T3 E3 P3 W3. pose proof (table_len _ _ _ _ _ T3) as L3.
  set (xs := xstatus (pr s3 p)) in *. assert (Exs : xs = xstatus (pr s p)) by apply E3.
  set (s4 := if negb (xs =? 0) && negb (wait_status_has_valid_signal xs) then upd p (set_xstatus 0) s3 else s3).
  set (s5 := if xstatus (pr s4 p) =? 0 then upd p (set_xstatus (WSTATUS_EXIT status)) s4 else s4).
  assert (E5 : exists v, s5 = upd p (set_xstatus v) s3 /\ v = final_status xs status).
  { assert (Hid : forall t, t = upd p (set_xstatus (xstatus (pr t p))) t).
    { intros t. unfold upd. destruct t as [ps ? ? ? ? ? ? ? ? ? ? ? ? ? ?]. unfold set_procs, pr. cbn. f_equal. apply list_eq. intros i. destruct (decide (p = i)) as [<-|]; [|by rewrite list_lookup_alter_ne].
      rewrite list_lookup_alter_eq, nth_lookup. destruct (ps !! p) as [r|]; [|done]. cbn. by destruct r. }
    unfold s5, s4, final_status. destruct (Z.eqb_spec xs 0) as [Hz|Hz]; cbn [negb andb].
    - fold xs. rewrite Hz. cbn. by eexists.
    - destruct (wait_status_has_valid_signal xs); cbn [negb].
      + fold xs. rewrite (proj2 (Z.eqb_neq _ _)) by done. eexists. split; [apply Hid|done].
      + rewrite pr_upd_eq by lia. cbn [xstatus set_xstatus]. cbn [Z.eqb]. rewrite upd_upd. eexists. split; [reflexivity|done]. }
  destruct E5 as (v & -> & Ev). unfold sched. cbn [pt cpus res]. rewrite upd_upd.
  assert (Ez : forall f, state (f (pr s3 p)) = ZOMBIE -> is_state (upd p f s3) p RUNNING = false) by (intros f Hf; unfold is_state, st; rewrite pr_upd_eq by lia; by rewrite Hf).
  rewrite Ez by done. eexists. split; [reflexivity|]. cbn [pt cpus]. rewrite upd_upd.
  assert (Hf : forall j, j <> p -> pr (upd p (fun r => set_context InExit (set_state ZOMBIE (set_xstatus v r))) s3) j = pr s3 j) by (intros j Hj; by rewrite pr_upd_ne).
  split; [by apply (leave_ok s3 cs c p _ ZOMBIE InExit T3 Hc); [right|..]|]. split; [done|]. unfold st. rewrite pr_upd_eq by lia. cbn [state xstatus set_context set_state set_xstatus].
  split; [done|]. split; [intros q; rewrite <- (ex_pid _ _ E3); rewrite pr_upd by lia; by destruct (decide (p = q))|]. split; [by rewrite Ev, Exs|]. split.
  - intros q Hq. rewrite <- (P3 q Hq). rewrite pr_upd by lia. by destruct (decide (p = q)).
  - intros q Hq Ep. destruct (decide (q = p)) as [->|Hne]; [left; by rewrite pr_upd_eq by lia|]. rewrite Hf by done. by apply W3.
Qed.

End Run.
