(* ===== verification/ProcFork.v ===== *)
(** * fork and wait keep the invariant of the process table

    Slots that hold no running process: allocation, reaping, process ids. *)

From S2P Require Import Prelude ProcTab Sched Proc ProcLife ProcInv ProcRun.

#[local] Opaque schedq_enqueue_locked tick_sleepq_remove_locked wakeup1 schedq_pick_next_locked.

(** ** Slots without a running process *)

Definition idle (x : procstate) : bool := match x with UNUSED | EMBRYO | ZOMBIE => true | _ => false end.

Section Fork.
Context (proc_base sizeof_proc ticks_addr : Z).

#[local] Abbreviation table_ok := (table_ok proc_base sizeof_proc ticks_addr).
#[local] Abbreviation flow_ok := (flow_ok proc_base sizeof_proc ticks_addr).
#[local] Abbreviation tick_ok := (tick_ok ticks_addr).

Lemma idle_not_ticking s cs T p : flow_ok s cs -> tick_ok s T -> idle (st s p) = true -> p ∉ T.
Proof. intros F HT Hi Hin. destruct (tk_state _ _ _ HT p Hin) as [[H|H] _]; rewrite H in Hi; done. Qed.

(** [p] goes from one such state to another, or becomes runnable for the first time. *)
Lemma flow_idle s s' cs p : flow_ok s cs -> (p < NPROC)%nat -> idle (st s p) = true ->
  (st s' p = UNUSED \/ st s' p = EMBRYO \/ (st s' p = RUNNABLE /\ context (pr s' p) = AtForkret /\ addrsp (pr s' p) <> 0 /\ exists i, initproc s' = Some i /\ (i < NPROC)%nat)) ->
  (forall j, j <> p -> flow_of (pr s' j) = flow_of (pr s j)) -> on_tickq (pr s' p) = false ->
  tick_sleepq_head s' = tick_sleepq_head s -> active_tick_sleepers s' = active_tick_sleepers s -> chan_wait_hash s' = chan_wait_hash s ->
  (initproc s' = initproc s \/ exists i, initproc s' = Some i /\ (i < NPROC)%nat) -> pid_ok s' -> flow_ok s' cs.
Proof.
  intros F Hp Hi Hs Ho Ht R1 R2 R3 R4 HP. destruct (fl_tick _ _ _ _ _ F) as [T HT]. pose proof (idle_not_ticking s cs T p F HT Hi) as HnT. destruct F as [C X L H _ P A I].
  assert (E : forall j, j <> p -> st s' j = st s j /\ context (pr s' j) = context (pr s j) /\ chan (pr s' j) = chan (pr s j) /\ tick_next (pr s' j) = tick_next (pr s j) /\ on_tickq (pr s' j) = on_tickq (pr s j) /\ addrsp (pr s' j) = addrsp (pr s j)).
  { intros j Hj. specialize (Ho j Hj). unfold flow_of in Ho. injection Ho. unfold st. intros. done. }
  assert (Hnr : st s' p <> RUNNING /\ st s' p <> SLEEPING) by (destruct Hs as [->|[->|[-> _]]]; done).
  split.
  - destruct C as [C1 C2 C3]. split; [done| |].
    + intros c j Hc. destruct (decide (j = p)) as [->|Hne]; [|destruct (E j Hne) as [-> _]; by apply (C2 c)]. destruct (C2 c p Hc) as [_ [Hx|Hx]]; rewrite Hx in Hi; done.
    + intros j Hj. destruct (decide (j = p)) as [->|Hne]; [by intros ?; destruct Hnr|destruct (E j Hne) as [-> _]; by apply C3].
  - intros j Hj. destruct (decide (j = p)) as [->|Hne]; [|specialize (X j Hj); unfold ctx_ok in *; destruct (E j Hne) as (-> & -> & -> & _); done].
    unfold ctx_ok. destruct Hs as [->|[->|(-> & -> & _)]]; done.
  - by rewrite R3.
  - intros i Hi'. unfold hash_at in *. rewrite R3, (H i Hi'). apply cnt_ext. intros j Hj. unfold sleeping_on, is_state. destruct (decide (j = p)) as [->|Hne]; [|by destruct (E j Hne) as (-> & -> & _)].
    destruct (st s p); try done; destruct Hs as [->|[->|(-> & -> & _)]]; done.
  - exists T. destruct HT as [T1 T2 T3 T4 T5 T6]. split; [| |intros j|by rewrite R2|intros j Hj|intros j Hj].
    + rewrite R1. apply (tick_list_ext s); [|done]. intros j Hj. apply E. intros ->. done.
    + done.
    + destruct (decide (j = p)) as [->|Hne]; [rewrite Ht; split; [done|by intros [_ ?]]|]. destruct (E j Hne) as (_ & _ & _ & _ & -> & _). apply T3.
    + assert (Hne : j <> p) by (intros ->; done). destruct (E j Hne) as (-> & -> & _). by apply T5.
    + destruct (decide (j = p)) as [->|Hne]; [by intros ?; destruct Hnr|]. destruct (E j Hne) as (-> & _ & -> & _). by apply T6.
  - done.
  - intros j Hj. destruct (decide (j = p)) as [->|Hne]; [destruct Hs as [->|[->|(-> & _ & ? & _)]]; done|]. destruct (E j Hne) as (-> & _ & _ & _ & _ & ->). by apply A.
  - intros j Hj Hsp. destruct R4 as [R4|R4]; [|exact R4]. destruct (decide (j = p)) as [->|Hne]; [destruct Hs as [Hs|[Hs|(_ & _ & _ & Hs)]]; [by rewrite Hs in Hsp..|exact Hs]|].
    rewrite R4. destruct (E j Hne) as (Hj' & _). rewrite Hj' in Hsp. by apply (I j).
Qed.

Lemma pid_ok_upd s p f : pid_ok s -> (p < length (procs s))%nat -> (state (f (pr s p)) <> UNUSED -> st s p <> UNUSED /\ pid (f (pr s p)) = pid (pr s p)) -> pid_ok (upd p f s).
Proof.
  intros [P1 P2 P3] Hl Hf. assert (E : forall j, st (upd p f s) j <> UNUSED -> st s j <> UNUSED /\ pid (pr (upd p f s) j) = pid (pr s j)).
  { intros j. unfold st. rewrite pr_upd by done. by destruct (decide (p = j)) as [<-|]. }
  split; [done| |].
  - intros j Hj Hs. destruct (E j Hs) as [? ->]. by apply P2.
  - intros i j Hi Hj Hs1 Hs2. destruct (E i Hs1) as [? ->], (E j Hs2) as [? ->]. by apply P3.
Qed.

(** A change of such a slot that gives up its process id or keeps it. *)
Lemma slot_upd s cs p f : table_ok s cs -> (p < NPROC)%nat -> idle (st s p) = true ->
  (state (f (pr s p)) = UNUSED \/ (state (f (pr s p)) = EMBRYO /\ st s p = EMBRYO /\ pid (f (pr s p)) = pid (pr s p))) -> on_tickq (f (pr s p)) = false ->
  sched_next (sdata (f (pr s p))) = None -> sched_prev (sdata (f (pr s p))) = None -> 0 <= sched_q (sdata (f (pr s p))) < MLFQ_NQUEUES ->
  table_ok (upd p f s) cs.
Proof.
  intros [[Ls RO] F] Hp Hi Hs Ht D1 D2 D3. pose proof RO as [Q R]. pose proof (qs_procs _ _ Q) as Hl. assert (Hnr : st s p <> RUNNABLE) by (by destruct (st s p)).
  destruct (qs_out _ _ Q p Hp) as [O1 O2]. { apply (run_ok_unqueued s Ls p RO Hp Hnr). by apply (qs_lvl _ _ Q). }
  assert (Er : pr (upd p f s) p = f (pr s p)) by (by rewrite pr_upd_eq by lia). split.
  - exists Ls. apply run_ok_upd; try done; [by destruct Hs as [->|[-> _]]|by rewrite O1|by rewrite O2].
  - apply (flow_idle s _ cs p F Hp Hi); try done.
    + unfold st. rewrite Er. destruct Hs as [->|[-> _]]; [by left|right; by left].
    + intros j Hj. by rewrite pr_upd_ne.
    + by rewrite Er.
    + by left.
    + apply pid_ok_upd; [apply F|lia|]. destruct Hs as [Hs|(Hs1 & Hs2 & Hs3)]; [by rewrite Hs|]. intros _. by rewrite Hs2.
Qed.

(** ** Wait *)

Section Wait.
Context {R : Type} `{Res : Resources R}.

Lemma wait_report_ok options p s x cs r v s' x' : table_ok s cs -> (p < NPROC)%nat -> wait_report options p s x = Some (r, v, s', x') -> table_ok s' cs.
Proof.
  intros T Hp E. unfold wait_report in E. assert (Te : table_ok (upd p (fun r => set_wait_status 0 (set_wait_event WAIT_EVENT_NONE r)) s) cs) by (by apply table_upd).
  destruct (_ && _) in E; [by injection E as <- <- <- <-|]. destruct (_ && _) in E; [by injection E as <- <- <- <-|].
  destruct (is_state s p ZOMBIE) eqn:Ez in E; [|done]. injection E as <- <- <- <-. apply bool_decide_eq_true in Ez. apply slot_upd; [done|done|by rewrite Ez|by left|done..].
Qed.

Lemma wait_scan_ok cur pid options ps b s x cs r v s' x' : table_ok s cs -> (forall p, p ∈ ps -> (p < NPROC)%nat) -> wait_scan cur pid options ps b s x = WaitReturn r v s' x' -> table_ok s' cs.
Proof.
  revert b. induction ps as [|p ps IH]; intros b T Hps; cbn [wait_scan].
  - unfold wait_idle. destruct (_ || _); [by intros [= <- <- <- <-]|]. destruct (flag _ _); [by intros [= <- <- <- <-]|done].
  - assert (Hps' : forall q, q ∈ ps -> (q < NPROC)%nat) by (intros q Hq; apply Hps; by right). destruct (_ || _); [by apply IH|]. destruct (wait_report options p s x) as [[[[f w] s1] x1]|] eqn:E; [|by apply IH].
    intros [= <- <- <- <-]. eapply wait_report_ok; [exact T| |exact E]. apply Hps. left.
Qed.

Lemma find_slot f p : find f (seq 0 NPROC) = Some p -> (p < NPROC)%nat /\ f p = true.
Proof. intros H. apply List.find_some in H as [H1 H2]. apply List.in_seq in H1. split; [lia|done]. Qed.

Lemma wait_pass_ok cur pid options s x cs r v s' x' : table_ok s cs -> proc_waitpid_pass cur pid options s x = WaitReturn r v s' x' -> table_ok s' cs.
Proof.
  intros T. unfold proc_waitpid_pass.
  assert (Idle : forall b, wait_idle cur options b s x = WaitReturn r v s' x' -> table_ok s' cs).
  { intros b. unfold wait_idle. destruct (_ || _); [by intros [= <- <- <- <-]|]. destruct (flag _ _); [by intros [= <- <- <- <-]|done]. }
  destruct (negb _); [by intros [= <- <- <- <-]|]. destruct (pid >? 0).
  - destruct (find _ _) as [p|] eqn:Ef; [|by apply Idle]. apply find_slot in Ef as [Hp _]. destruct (negb _); [by intros [= <- <- <- <-]|].
    destruct (wait_report options p s x) as [[[[f w] s1] x1]|] eqn:E; [|by apply Idle]. intros [= <- <- <- <-]. by eapply wait_report_ok.
  - apply wait_scan_ok; [done|]. intros p Hp%elem_of_seq. lia.
Qed.

End Wait.

(** ** Process ids *)

(** The [k]-th candidate after [x]. *)
Definition nth_pid (x : Z) (k : nat) : Z := if x + Z.of_nat k <=? PID_MAX then x + Z.of_nat k else x + Z.of_nat k - PID_MAX + 1.

Lemma nth_pid_next x k : 1 <= x <= PID_MAX -> (Z.of_nat k < 1000) -> nth_pid (if x >=? PID_MAX then 2 else x + 1) k = nth_pid x (S k).
Proof.
  unfold nth_pid, PID_MAX. intros Hx Hk. rewrite Z.geb_leb. destruct (Z.leb_spec 32767 x); repeat (case Z.leb_spec; intros); lia.
Qed.

Lemma nth_pid_inj x i j : 1 <= x <= PID_MAX -> Z.of_nat i < 1000 -> Z.of_nat j < 1000 -> nth_pid x i = nth_pid x j -> i = j.
Proof. unfold nth_pid, PID_MAX. intros Hx Hi Hj. case Z.leb_spec; intros H1; case Z.leb_spec; intros H2 E; lia. Qed.

Lemma choose_pid_spec n p s : 1 <= nextpid s <= PID_MAX ->
  match choose_pid n p s with
  | Some (c, s') => 1 <= c <= PID_MAX /\ pid_taken s p c = false /\ exists v, s' = set_nextpid v s /\ 1 <= v <= PID_MAX
  | None => forall k, (k < n)%nat -> Z.of_nat k < 1000 -> pid_taken s p (nth_pid (nextpid s) k) = true
  end.
Proof.
  revert s. induction n as [|n IH]; intros s Hn; cbn [choose_pid]; [intros k Hk; lia|]. set (v := if nextpid s >=? PID_MAX then 2 else nextpid s + 1).
  assert (Hv : 1 <= v <= PID_MAX) by (unfold v, PID_MAX in *; rewrite Z.geb_leb; destruct (Z.leb_spec 32767 (nextpid s)); lia).
  change (pid_taken (set_nextpid v s) p (nextpid s)) with (pid_taken s p (nextpid s)). destruct (pid_taken s p (nextpid s)) eqn:E.
  - specialize (IH (set_nextpid v s) Hv). destruct (choose_pid n p (set_nextpid v s)) as [[c s']|].
    + destruct IH as (H1 & H2 & w & -> & H3). split; [done|]. split; [exact H2|]. by exists w.
    + intros [|k] Hk Hb; [unfold nth_pid; rewrite Z.add_0_r, (proj2 (Z.leb_le _ _)) by lia; exact E|]. rewrite <- nth_pid_next by (done || lia). apply IH; lia.
  - split; [done|]. split; [done|]. by exists v.
Qed.

(** [n] different values are not all among the values of [n - 1] slots. *)
Lemma slots_too_few (f g : nat -> Z) n p : (p < n)%nat -> (forall i j, (i < n)%nat -> (j < n)%nat -> f i = f j -> i = j) ->
  (forall k, (k < n)%nat -> exists q, (q < n)%nat /\ q <> p /\ g q = f k) -> False.
Proof.
  intros Hp Hinj H. assert (D : NoDup (f <$> seq 0 n)).
  { apply NoDup_alt. intros i j x Hi Hj. rewrite !list_lookup_fmap in Hi, Hj. destruct (seq 0 n !! i) as [a|] eqn:Ea in Hi; [|done]. destruct (seq 0 n !! j) as [b|] eqn:Eb in Hj; [|done].
    cbn in Hi, Hj. injection Hi as <-. injection Hj as Hj. apply lookup_seq in Ea as [-> Ha], Eb as [-> Hb]. by apply Hinj in Hj; [|lia..]. }
  pose proof (List.remove_length_lt Nat.eq_dec (seq 0 n) p ltac:(apply List.in_seq; lia)) as Hlt.
  assert (Hle : (length (f <$> seq 0 n) <= length (map g (List.remove Nat.eq_dec p (seq 0 n))))%nat).
  { apply List.NoDup_incl_length; [by apply NoDup_ListNoDup|]. intros c Hc. apply List.in_map_iff in Hc as (k & <- & Hk%List.in_seq). destruct (H k ltac:(lia)) as (q & Hq & Hne & <-).
    apply List.in_map_iff. exists q. split; [done|]. apply List.in_in_remove; [done|]. apply List.in_seq. lia. }
  rewrite length_map, length_fmap in Hle. rewrite !length_seq in *. lia.
Qed.

(** One of 128 candidates is free: the panic of [allocproc] is not reached. *)
Lemma choose_pid_total n p s : (p < NPROC)%nat -> (NPROC <= n)%nat -> 1 <= nextpid s <= PID_MAX -> exists c s', choose_pid n p s = Some (c, s').
Proof.
  intros Hp Hn Hx. pose proof (choose_pid_spec n p s Hx) as H. destruct (choose_pid n p s) as [[c s']|]; [by exists c, s'|exfalso]. assert (Hb : Z.of_nat NPROC < 1000) by done.
  revert Hp Hn Hb. unfold pid_taken in H. generalize NPROC H. clear H. intros N H Hp Hn Hb. apply (slots_too_few (nth_pid (nextpid s)) (fun q => pid (pr s q)) N p Hp).
  - intros i j Hi Hj. apply nth_pid_inj; [done|lia..].
  - intros k Hk. specialize (H k ltac:(lia) ltac:(lia)). apply existsb_exists in H as (q & Hq%List.in_seq & H). apply andb_true_iff in H as [[H1 _]%andb_true_iff H2]. apply Z.eqb_eq in H2.
    apply negb_true_iff, bool_decide_eq_false in H1. exists q. split; [lia|done].
Qed.

Lemma pid_free s p c q : pid_taken s p c = false -> (q < NPROC)%nat -> q <> p -> st s q <> UNUSED -> pid (pr s q) <> c.
Proof.
  intros H Hq Hne Hs E. assert (Ht : pid_taken s p c = true); [|congruence]. apply existsb_exists. exists q. split; [apply List.in_seq; lia|].
  unfold is_state. rewrite !bool_decide_eq_false_2 by done. cbn [negb andb]. by apply Z.eqb_eq.
Qed.

(** ** Allocation *)

Lemma pid_tries : (NPROC <= Z.to_nat PID_MAX)%nat.
Proof. unfold NPROC, PID_MAX. lia. Qed.

(** A free slot gets a new process id. *)
Lemma embryo_ok s cs p c v : table_ok s cs -> (p < NPROC)%nat -> st s p = UNUSED -> 1 <= c <= PID_MAX -> pid_taken s p c = false -> 1 <= v <= PID_MAX ->
  table_ok (upd p (embryo c) (set_nextpid v s)) cs.
Proof.
  intros [[Ls RO] F] Hp Hs Hc Hf Hv. pose proof RO as [Q _]. pose proof (qs_procs _ _ Q) as Hl. set (s1 := set_nextpid v s). assert (Hl1 : (p < length (procs s1))%nat) by (change (p < length (procs s))%nat; lia).
  assert (RO1 : run_ok s1 Ls) by (by apply (run_ok_same s)). destruct (qs_out _ _ Q p Hp) as [O1 O2].
  { apply (run_ok_unqueued s Ls p RO Hp); [by rewrite Hs|]. by apply (qs_lvl _ _ Q). }
  assert (Er : pr (upd p (embryo c) s1) p = embryo c (pr s p)) by (by rewrite pr_upd_eq). assert (Eo : forall j, j <> p -> pr (upd p (embryo c) s1) j = pr s j) by (intros j Hj; by rewrite pr_upd_ne).
  split.
  - exists Ls. apply run_ok_upd; [done|done|change (st s1 p) with (st s p); by rewrite Hs|done|change (next_of s1 p) with (next_of s p); by rewrite O1|change (prev_of s1 p) with (prev_of s p); by rewrite O2|done].
  - apply (flow_idle s _ cs p F Hp); [by rewrite Hs|right; left; unfold st; by rewrite Er|intros j Hj; by rewrite Eo|by rewrite Er|done|done|done|by left|].
    destruct (fl_pid _ _ _ _ _ F) as [P1 P2 P3]. split; [exact Hv| |].
    + intros j Hj. destruct (decide (j = p)) as [->|Hne]; [intros _; by rewrite Er|]. unfold st. rewrite Eo by done. by apply P2.
    + intros i j Hi Hj. unfold st. destruct (decide (i = p)) as [->|Hni], (decide (j = p)) as [->|Hnj]; rewrite ?Er, ?Eo by done; [done| | |by apply P3].
      * intros _ Hsj E. cbn [pid embryo] in E. exfalso. by apply (pid_free s p c j Hf Hj Hnj Hsj).
      * intros Hsi _ E. cbn [pid embryo] in E. exfalso. by apply (pid_free s p c i Hf Hi Hni Hsi).
Qed.

(** A slot that a new process is being built in: [s'] differs from [s] in the slot [p] alone. *)
Record building (s s' : ptable) (cs : list (option nat)) (p : nat) : Prop := {
  bu_ok : table_ok s' cs;
  bu_slot : (p < NPROC)%nat;
  bu_was : st s p = UNUSED;
  bu_now : st s' p = EMBRYO;
  bu_tick : on_tickq (pr s' p) = false;
  bu_links : sched_next (sdata (pr s' p)) = None /\ sched_prev (sdata (pr s' p)) = None;
  bu_pid : forall q, (q < NPROC)%nat -> q <> p -> st s q <> UNUSED -> pid (pr s q) <> pid (pr s' p);
  bu_others j : j <> p -> pr s' j = pr s j;
  bu_init : initproc s' = initproc s
}.

Lemma building_upd s s' cs p f : building s s' cs p -> (forall r, state (f r) = state r) -> (forall r, pid (f r) = pid r) -> (forall r, on_tickq (f r) = on_tickq r) ->
  (forall r, sched_next (sdata (f r)) = sched_next (sdata r)) -> (forall r, sched_prev (sdata (f r)) = sched_prev (sdata r)) -> (forall r, 0 <= sched_q (sdata r) < MLFQ_NQUEUES -> 0 <= sched_q (sdata (f r)) < MLFQ_NQUEUES) ->
  building s (upd p f s') cs p.
Proof.
  intros [T Hp Hw Hn Ht [Hl1 Hl2] Hpid Ho Hi] F1 F2 F3 F4 F5 F6. pose proof (table_len _ _ _ _ _ T) as Hl. assert (Er : pr (upd p f s') p = f (pr s' p)) by (by rewrite pr_upd_eq by lia).
  assert (Hlv : 0 <= lvl s' p < MLFQ_NQUEUES) by (destruct T as [[Ls [Q _]] _]; by apply (qs_lvl _ _ Q)).
  split; try done; rewrite ?Er.
  - apply slot_upd; [done|done|by rewrite Hn|right; rewrite F1, F2; done|by rewrite F3|by rewrite F4|by rewrite F5|by apply F6].
  - unfold st. by rewrite Er, F1.
  - by rewrite F3.
  - by rewrite F4, F5.
  - by rewrite F2.
  - intros j Hj. rewrite pr_upd_ne by done. by apply Ho.
Qed.

(** The slot is given back. *)
Lemma building_free s s' cs p f : building s s' cs p -> (forall r, state (f r) = UNUSED) -> (forall r, on_tickq (f r) = on_tickq r) -> (forall r, sdata (f r) = sdata r) -> table_ok (upd p f s') cs.
Proof.
  intros [T Hp Hw Hn Ht [Hl1 Hl2] Hpid Ho Hi] F1 F3 F4. assert (Hlv : 0 <= lvl s' p < MLFQ_NQUEUES) by (destruct T as [[Ls [Q _]] _]; by apply (qs_lvl _ _ Q)).
  apply slot_upd; [done|done|by rewrite Hn|left; by rewrite F1|by rewrite F3|by rewrite F4|by rewrite F4|by rewrite F4].
Qed.

(** The slot becomes a runnable process. *)
Lemma building_done s s' cs p r : building s s' cs p -> context (pr s' p) = AtForkret -> addrsp (pr s' p) <> 0 -> (exists i, initproc s' = Some i /\ (i < NPROC)%nat) ->
  let s1 := upd p (fun r => set_state RUNNABLE (upd_sched (set_sched_q MLFQ_FORK_START_Q) r)) s' in
  table_ok (schedq_enqueue_locked p r s1) cs /\ nosched (schedq_enqueue_locked p r s1) = nosched s1.
Proof.
  intros [[[Ls RO] F] Hp Hw Hn Ht [Hl1 Hl2] Hpid Ho _] Hc Ha Hi s1. pose proof RO as [Q R]. pose proof (qs_procs _ _ Q) as Hl. set (f := fun r => set_state RUNNABLE (upd_sched (set_sched_q MLFQ_FORK_START_Q) r)) in s1.
  assert (Er : pr s1 p = f (pr s' p)) by (unfold s1; by rewrite pr_upd_eq by lia). assert (Eo : forall j, j <> p -> pr s1 j = pr s' j) by (intros j Hj; unfold s1; by rewrite pr_upd_ne).
  assert (Hu : unqueued Ls p) by (apply (run_ok_unqueued s'); [done|done|by rewrite Hn]).
  assert (Q1 : queues s1 Ls) by (unfold s1; apply queues_upd; done).
  destruct (enqueue_run_ok s1 Ls p r Q1 Hp Hu) as [RO' N].
  { unfold st. by rewrite Er. }
  { intros j Hj Hne. unfold st, queued, lvl. rewrite Eo by done. by apply R. }
  split; [|done]. split; [by eexists|]. apply (flow_same _ _ _ s1); [by apply same_flow_nosched|].
  apply (flow_idle s' s1 cs p F Hp); [by rewrite Hn| |intros j Hj; by rewrite Eo|by rewrite Er|done|done|done|by left|].
  - right. right. unfold st. rewrite Er. done.
  - apply pid_ok_upd; [apply F|lia|]. intros _. by rewrite Hn.
Qed.

Section Alloc.
Context {R : Type} `{Res : Resources R}.

(** [allocproc] never panics; it finds a slot or reports that it has none. *)
Lemma allocproc_ok s cs x : table_ok s cs -> exists o s' x', allocproc s x = Some (o, s', x') /\
  match o with Some p => building s s' cs p /\ context (pr s' p) = AtForkret | None => table_ok s' cs /\ initproc s' = initproc s end.
Proof.
  intros T. unfold allocproc. destruct (find _ _) as [p|] eqn:Ef; [|by exists None, s, x].
  apply find_slot in Ef as [Hp Hs]. apply bool_decide_eq_true in Hs. pose proof (table_len _ _ _ _ _ T) as Hl. pose proof T as [_ F]. pose proof (pd_next _ (fl_pid _ _ _ _ _ F)) as Hn.
  set (g := fun r => set_on_tickq false (set_tick_next None (set_state EMBRYO r))). set (s1 := upd p g s).
  pose proof pid_tries as Ht. revert Ht. generalize (Z.to_nat PID_MAX). intros tries Ht.
  destruct (choose_pid_total tries p s1 Hp Ht Hn) as (c & s2 & E). rewrite E. pose proof (choose_pid_spec tries p s1 Hn) as HC. rewrite E in HC. destruct HC as (Hc & Hf & v & -> & Hv).
  assert (Eq : upd p (embryo c) (set_nextpid v s1) = upd p (embryo c) (set_nextpid v s)) by (change (set_nextpid v s1) with (upd p g (set_nextpid v s)); rewrite upd_upd; reflexivity).
  rewrite Eq. assert (Hf' : pid_taken s p c = false).
  { apply not_true_iff_false. intros H. apply not_true_iff_false in Hf. apply Hf. unfold pid_taken in *. apply existsb_exists in H as (q & Hq & H). apply existsb_exists. exists q. split; [done|].
    destruct (decide (q = p)) as [->|Hne]; [by rewrite bool_decide_eq_true_2 in H|]. unfold is_state, st, s1 in *. by rewrite pr_upd_ne by done. }
  set (s3 := upd p (embryo c) (set_nextpid v s)). assert (Er : pr s3 p = embryo c (pr s p)) by (unfold s3; by rewrite pr_upd_eq by (change (p < length (procs s))%nat; lia)).
  assert (B3 : building s s3 cs p).
  { split; rewrite ?Er; try done; [by apply embryo_ok|unfold st; by rewrite Er| |intros j Hj; unfold s3; by rewrite pr_upd_ne]. intros q Hq Hne Hsq. cbn [pid embryo]. by apply (pid_free s p). }
  destruct (if kstack (pr s3 p) =? 0 then kalloc_contiguous x else (kstack (pr s3 p), x)) as [k x1].
  assert (B4 : building s (upd p (set_kstack k) s3) cs p) by (apply building_upd; done). set (s4 := upd p (set_kstack k) s3) in *.
  destruct (k =? 0).
  { eexists None, _, _. split; [reflexivity|]. split; [by apply (building_free s)|]. apply B4. }
  destruct (if fdtable (pr s4 p) =? 0 then fdtable_alloc x1 else (fdtable (pr s4 p), x1)) as [h x2].
  assert (B5 : building s (upd p (set_fdtable h) s4) cs p) by (apply building_upd; done). set (s5 := upd p (set_fdtable h) s4) in *.
  destruct (h =? 0).
  { eexists None, _, _. split; [reflexivity|]. split; [by apply (building_free s)|]. apply B5. }
  eexists (Some p), _, _. split; [reflexivity|]. split; [by apply building_upd|]. pose proof (table_len _ _ _ _ _ (bu_ok _ _ _ _ B5)). by rewrite pr_upd_eq by lia.
Qed.

(** [fork] either fails and leaves no process behind, or makes one runnable child of [cur] with a process id of its own. *)
Lemma proc_fork_ok s cs x cur : table_ok s cs -> (cur < NPROC)%nat -> has_space (st s cur) = true ->
  exists r s' x', fork cur s x = Some (r, s', x') /\ table_ok s' cs /\
    (r = -1 \/ exists np, (np < NPROC)%nat /\ st s np = UNUSED /\ st s' np = RUNNABLE /\ pid (pr s' np) = r /\ parent (pr s' np) = Some cur /\ 1 <= r <= PID_MAX /\
       (forall q, (q < NPROC)%nat -> st s q <> UNUSED -> pid (pr s q) <> r) /\ forall j, j <> np -> st s' j = st s j).
Proof.
  intros T Hcur Hsp. unfold fork. destruct (allocproc_ok s cs x T) as (o & s1 & x1 & -> & H). destruct o as [np|]; [|destruct H as [T1 _]; exists (-1), s1, x1; split; [done|]; split; [done|by left]].
  destruct H as [B Hctx]. assert (Hne : cur <> np) by (intros ->; rewrite (bu_was _ _ _ _ B) in Hsp; done). pose proof T as [_ F].
  assert (Ec : pr s1 cur = pr s cur) by (by apply (bu_others _ _ _ _ B)). assert (Ha : addrsp (pr s1 cur) <> 0) by (rewrite Ec; by apply (fl_space _ _ _ _ _ F)).
  rewrite (proj2 (Z.eqb_neq _ _)) by done. destruct (address_space_dup_cow (addrsp (pr s1 cur)) x1) as [a x2].
  destruct (Z.eqb_spec a 0) as [Ha0|Ha0].
  { eexists _, _, _. split; [reflexivity|]. split; [by apply (building_free s)|by left]. }
  set (c := pr s1 cur) in *. pose proof (building_upd s s1 cs np (inherit a cur c) B ltac:(done) ltac:(done) ltac:(done) ltac:(done) ltac:(done) ltac:(done)) as B2.
  pose proof (table_len _ _ _ _ _ (bu_ok _ _ _ _ B)) as L1. assert (Hnp : (np < NPROC)%nat) by apply B. assert (E2 : pr (upd np (inherit a cur c) s1) np = inherit a cur c (pr s1 np)) by (by rewrite pr_upd_eq by lia).
  set (s2 := upd np (inherit a cur c) s1) in *. destruct (fdtable_dup _ _ x2) as [ok x3]. destruct (ok <? 0).
  { eexists _, _, _. split; [reflexivity|]. split; [by apply (building_free s s2)|by left]. }
  pose proof (building_upd s s2 cs np (set_cwd (cwd (pr s2 cur))) B2 ltac:(done) ltac:(done) ltac:(done) ltac:(done) ltac:(done) ltac:(done)) as B3.
  pose proof (table_len _ _ _ _ _ (bu_ok _ _ _ _ B2)) as L2. assert (E3 : pr (upd np (set_cwd (cwd (pr s2 cur))) s2) np = set_cwd (cwd (pr s2 cur)) (inherit a cur c (pr s1 np))) by (rewrite pr_upd_eq by lia; by rewrite E2).
  set (s3 := upd np (set_cwd (cwd (pr s2 cur))) s2) in *. pose proof (table_len _ _ _ _ _ (bu_ok _ _ _ _ B3)) as L3.
  destruct (building_done s s3 cs np SCHED_ENQ_FORK B3) as [T4 N4]; [by rewrite E3|by rewrite E3|rewrite (bu_init _ _ _ _ B3); by apply (fl_init _ _ _ _ _ F cur)|].
  set (f := fun r => set_state RUNNABLE (upd_sched (set_sched_q MLFQ_FORK_START_Q) r)) in *. set (s4 := upd np f s3) in *. assert (E4 : pr s4 np = f (pr s3 np)) by (unfold s4; by rewrite pr_upd_eq by lia).
  eexists _, _, _. split; [reflexivity|]. split; [exact T4|]. right. exists np. split; [done|]. split; [apply B|].
  assert (Hpid : pid (pr s4 np) = pid (pr s3 np)) by (by rewrite E4).
  split; [rewrite (keep_st _ _ _ N4); unfold st; by rewrite E4|]. split; [by apply (keep_proc pid)|]. split; [rewrite (keep_proc parent _ _ np N4) by done; by rewrite E4, E3|]. rewrite Hpid.
  split; [destruct (bu_ok _ _ _ _ B3) as [_ F3]; apply (pd_pos _ (fl_pid _ _ _ _ _ F3) np Hnp); by rewrite (bu_now _ _ _ _ B3)|].
  split.
  - intros q Hq Hsq. apply (bu_pid _ _ _ _ B3); [done| |done]. intros ->. by rewrite (bu_was _ _ _ _ B3) in Hsq.
  - intros j Hj. rewrite (keep_st _ _ _ N4). unfold st, s4. rewrite pr_upd_ne by done. by rewrite (bu_others _ _ _ _ B3).
Qed.

End Alloc.

End Fork.
