(* ===== verification/ProcSig.v ===== *)
(** * Signals, alarms and the clock keep the invariant of the process table *)

From S2P Require Import Prelude ProcTab Sched Proc ProcLife ProcInv ProcRun.

#[local] Opaque schedq_enqueue_locked tick_sleepq_remove_locked wakeup1 schedq_pick_next_locked.

Section Sig.
Context (proc_base sizeof_proc ticks_addr : Z).

#[local] Abbreviation table_ok := (table_ok proc_base sizeof_proc ticks_addr).
#[local] Abbreviation flow_ok := (flow_ok proc_base sizeof_proc ticks_addr).

(** What a signal to other processes leaves alone: what the CPUs run, ids. *)
Record signalled (cs : list (option nat)) (s s' : ptable) : Prop := {
  sg_ok : table_ok s' cs;
  sg_cpu j : on_cpu cs j -> st s' j = st s j;
  sg_rest : initproc s' = initproc s
}.

Lemma signalled_refl cs s : table_ok s cs -> signalled cs s s.
Proof. by split. Qed.

Lemma signalled_trans cs s s1 s2 : signalled cs s s1 -> signalled cs s1 s2 -> signalled cs s s2.
Proof. intros [A1 A2 A3] [B1 B2 B3]. split; [done|intros j Hj; rewrite B2 by done; by apply A2|by rewrite B3]. Qed.

Lemma upd_signalled s cs p f : table_ok s cs -> (forall r, flow_of (f r) = flow_of r) -> (forall r, sdata (f r) = sdata r) -> signalled cs s (upd p f s).
Proof.
  intros T E1 E2. split; [by apply table_upd|intros j _|done]. unfold st. destruct (decide (p < length (procs s))%nat) as [Hp|Hp].
  - rewrite pr_upd by done. destruct (decide (p = j)) as [->|]; [|done]. specialize (E1 (pr s j)). unfold flow_of in E1. by injection E1.
  - destruct (decide (p = j)) as [->|]; [|by rewrite pr_upd_ne]. unfold pr. by rewrite !nth_overflow by (rewrite ?upd_length; lia).
Qed.

Lemma wake_signalled s cs p r : table_ok s cs -> (p < NPROC)%nat -> may_wake s cs p -> signalled cs s (wake r p s).
Proof.
  intros T Hp Hw. pose proof T as [_ F]. destruct (wake_ok _ _ _ s cs p r T Hp Hw) as [T' N]. pose proof (table_len _ _ _ _ _ T) as Hl. split; [done| |].
  - intros j [c Hj]. rewrite (wake_state s r p j) by (lia || done). rewrite decide_False; [done|]. intros ->. destruct (cp_state _ _ (fl_cpu _ _ _ _ _ F) c p Hj) as [_ H].
    destruct Hw as [Hw|[_ Hw]]; [destruct H; congruence|]. apply Hw. by exists c.
  - unfold nosched in N. by injection N.
Qed.

Lemma rest_signalled s s' cs : table_ok s cs -> procs s' = procs s -> mlfq_qs s' = mlfq_qs s -> flow_rest s' = flow_rest s -> signalled cs s s'.
Proof.
  intros T E1 E2 E3. split; [by apply (table_rest _ _ _ s)|intros j _; unfold st, pr; by rewrite E1|]. unfold flow_rest in E3. by injection E3.
Qed.

(** A sleeping process is woken, another one is left as it is. *)
Lemma wake_sleeper s cs p r : table_ok s cs -> (p < NPROC)%nat -> signalled cs s (if is_state s p SLEEPING then wake r p s else s).
Proof.
  intros T Hp. unfold is_state. destruct (bool_decide_reflect (st s p = SLEEPING)) as [Hs|]; [|by apply signalled_refl]. apply wake_signalled; [done|done|by left].
Qed.

(** ** Sending a signal *)

(** No process is about to stop while [SIGCONT] is sent. *)
Definition may_send (s : ptable) (cs : list (option nat)) (signo : Z) : Prop := signo = SIGCONT -> forall p, on_cpu cs p -> st s p <> STOPPED.

Lemma may_send_keep s s' cs signo : signalled cs s s' -> may_send s cs signo -> may_send s' cs signo.
Proof. intros S H E p Hp. rewrite (sg_cpu _ _ _ S p Hp). by apply H. Qed.

Lemma note_signal_ok s cs p signo : table_ok s cs -> (p < NPROC)%nat -> may_send s cs signo -> signalled cs s (proc_note_signal_locked p signo s).
Proof.
  intros T Hp Hm. unfold proc_note_signal_locked. destruct (negb _); [by apply signalled_refl|].
  set (s1 := upd p _ s). assert (S1 : signalled cs s s1) by (by apply upd_signalled).
  set (s2 := if signo =? SIGCONT then _ else s1). assert (S2 : signalled cs s1 s2).
  { unfold s2. destruct (Z.eqb_spec signo SIGCONT) as [E|]; [|apply signalled_refl, S1]. set (t := upd p _ s1). assert (St : signalled cs s1 t) by (apply upd_signalled; [apply S1|done|done]).
    unfold is_state. destruct (bool_decide_reflect (st t p = STOPPED)) as [Hs|]; [|done]. apply (signalled_trans _ _ t); [done|]. apply wake_signalled; [apply St|done|]. right. split; [done|].
    intros Hc. apply (may_send_keep _ _ _ _ (signalled_trans _ _ _ _ S1 St) Hm E p Hc Hs). }
  set (s3 := if signo =? SIGKILL then _ else s2). assert (S3 : signalled cs s2 s3) by (unfold s3; destruct (signo =? SIGKILL); [apply upd_signalled; [apply S2|done|done]|apply signalled_refl, S2]).
  apply (signalled_trans _ _ _ _ S1), (signalled_trans _ _ _ _ S2), (signalled_trans _ _ _ _ S3). apply wake_sleeper; [apply S3|done].
Qed.

Lemma kill_loop_ok cur pid signo ps n s cs : table_ok s cs -> (forall p, p ∈ ps -> (p < NPROC)%nat) -> may_send s cs signo -> signalled cs s (kill_loop cur pid signo ps n s).2.
Proof.
  revert n s. induction ps as [|p ps IH]; intros n s T Hps Hm; cbn [kill_loop snd]; [by apply signalled_refl|].
  assert (Hps' : forall q, q ∈ ps -> (q < NPROC)%nat) by (intros q Hq; apply Hps; by right). destruct (_ || _); [by apply IH|]. destruct (_ && negb _); [by apply IH|].
  match goal with |- context [if ?b then _ else kill_loop _ _ _ _ _ _] => destruct b end; [|by apply IH].
  pose proof (note_signal_ok s cs p signo T ltac:(apply Hps; left) Hm) as S1. destruct (pid >? 0); [done|]. apply (signalled_trans _ _ _ _ S1). apply IH; [apply S1|done|by apply (may_send_keep s)].
Qed.

Lemma kill_ok cur pid signo s cs : table_ok s cs -> may_send s cs signo -> signalled cs s (proc_kill_with_signal cur pid signo s).2.
Proof.
  intros T Hm. unfold proc_kill_with_signal. destruct (negb _); [by apply signalled_refl|].
  pose proof (kill_loop_ok cur pid signo (seq 0 NPROC) 0 s cs T ltac:(intros p Hp%elem_of_seq; lia) Hm) as H. by destruct (kill_loop _ _ _ _ _ _).
Qed.

Lemma signal_group_ok g signo ps n s cs : table_ok s cs -> (forall p, p ∈ ps -> (p < NPROC)%nat) -> may_send s cs signo -> signalled cs s (signal_group g signo ps n s).2.
Proof.
  revert n s. induction ps as [|p ps IH]; intros n s T Hps Hm; cbn [signal_group snd]; [by apply signalled_refl|].
  assert (Hps' : forall q, q ∈ ps -> (q < NPROC)%nat) by (intros q Hq; apply Hps; by right). destruct (_ || _); [by apply IH|]. destruct (negb _); [by apply IH|].
  pose proof (note_signal_ok s cs p signo T ltac:(apply Hps; left) Hm) as S1. apply (signalled_trans _ _ _ _ S1). apply IH; [apply S1|done|by apply (may_send_keep s)].
Qed.

Lemma signal_pgid_ok g signo s cs : table_ok s cs -> may_send s cs signo -> signalled cs s (proc_signal_pgid g signo s).2.
Proof.
  intros T Hm. unfold proc_signal_pgid. destruct (_ || _); [by apply signalled_refl|].
  pose proof (signal_group_ok g signo (seq 0 NPROC) 0 s cs T ltac:(intros p Hp%elem_of_seq; lia) Hm) as H. by destruct (signal_group _ _ _ _ _).
Qed.

(** ** Alarms *)

Lemma set_alarm_ok p d i s cs : table_ok s cs -> signalled cs s (proc_set_alarm_state p d i s).
Proof.
  intros T. unfold proc_set_alarm_state. set (s1 := upd p _ s). assert (S1 : signalled cs s s1) by (by apply upd_signalled). pose proof (sg_ok _ _ _ S1) as T1.
  destruct (_ && _); [|destruct (_ && _); [|done]]; (apply (signalled_trans _ _ _ _ S1); by apply rest_signalled).
Qed.

Lemma check_alarm_ok now p s cs : table_ok s cs -> (p < NPROC)%nat -> signalled cs s (check_alarm now p s).
Proof.
  intros T Hp. unfold check_alarm. destruct (_ || _); [by apply signalled_refl|]. destruct (_ >=? _); [|by apply signalled_refl].
  set (s1 := if negb _ then _ else _). assert (S1 : signalled cs s s1) by (unfold s1; destruct (negb _); [by apply upd_signalled|by apply set_alarm_ok]).
  set (s2 := upd p _ s1). assert (S2 : signalled cs s1 s2) by (apply upd_signalled; [apply S1|done|done]).
  apply (signalled_trans _ _ _ _ S1), (signalled_trans _ _ _ _ S2). apply wake_sleeper; [apply S2|done].
Qed.

Lemma each_ok f s cs : table_ok s cs -> (forall p t, table_ok t cs -> (p < NPROC)%nat -> signalled cs t (f p t)) -> signalled cs s (each f s).
Proof.
  intros T Hf. unfold each. assert (Hps : forall p, p ∈ seq 0 NPROC -> (p < NPROC)%nat) by (intros p Hp%elem_of_seq; lia). revert s T Hps.
  generalize (seq 0 NPROC). intros ps. induction ps as [|p ps IH]; intros s T Hps; cbn [fold_left]; [by apply signalled_refl|].
  pose proof (Hf p s T ltac:(apply Hps; left)) as S1. apply (signalled_trans _ _ _ _ S1). apply IH; [apply S1|]. intros q Hq. apply Hps. by right.
Qed.

Lemma check_alarms_ok now s cs : table_ok s cs -> signalled cs s (proc_check_alarms now s).
Proof. intros T. unfold proc_check_alarms. destruct (_ =? 0); [by apply signalled_refl|]. apply each_ok; [done|]. intros p t Ht Hp. by apply check_alarm_ok. Qed.

(** ** Signals of the running process *)

Lemma flag_ldiff a b m : flag (Z.ldiff a b) m = true -> flag a m = true.
Proof.
  unfold flag. rewrite !negb_true_iff, !Z.eqb_neq. intros H E. apply H. apply Z.bits_inj'. intros n Hn.
  rewrite Z.land_spec, Z.ldiff_spec, Z.bits_0. apply (f_equal (fun z => Z.testbit z n)) in E. rewrite Z.land_spec, Z.bits_0 in E. by destruct (Z.testbit a n), (Z.testbit b n), (Z.testbit m n).
Qed.

(** The signals [proc_apply_pending_signals] is going to act on. *)
Definition deliverable (p : nat) (s : ptable) : Z :=
  let g := sigs (pr s p) in (catch_loop (seqZ 1 (NSIG - 1)) (Z.ldiff (Z.ldiff (sig_pending g) (sig_mask g)) (sig_ignored g)) g).1.

(** A stop signal and a fatal one are not pending at the same time. *)
Definition may_apply (p : nat) (s : ptable) : Prop := flag (deliverable p s) stop_signals = false \/ flag (deliverable p s) fatal_signals = false.

(** The running process is marked as stopped; it is still on its CPU. *)
Lemma stop_ok s cs c p f : table_ok s cs -> cs !! c = Some (Some p) ->
  flow_of (f (pr s p)) = (STOPPED, context (pr s p), chan (pr s p), tick_next (pr s p), on_tickq (pr s p), pid (pr s p), addrsp (pr s p)) -> sdata (f (pr s p)) = sdata (pr s p) ->
  table_ok (upd p f s) cs.
Proof.
  intros [[Ls RO] F] Hc Ef Ed. pose proof RO as [Q _]. pose proof (qs_procs _ _ Q) as Hl. destruct (cp_state _ _ (fl_cpu _ _ _ _ _ F) c p Hc) as [Hp Hs].
  unfold flow_of in Ef. injection Ef as E1 E2 E3 E4 E5 E6 E7. set (s' := upd p f s). assert (Er : pr s' p = f (pr s p)) by (unfold s'; by rewrite pr_upd_eq by lia).
  assert (Eo : forall j, j <> p -> pr s' j = pr s j) by (intros j Hj; unfold s'; by rewrite pr_upd_ne). assert (Es : st s' p = STOPPED) by (unfold st; by rewrite Er).
  assert (Hsp : has_space (st s p) = true) by (by destruct Hs as [-> | ->]). split.
  - exists Ls. apply run_ok_upd; [done|done|by destruct Hs as [-> | ->]|by rewrite E1|by rewrite Ed|by rewrite Ed|rewrite Ed; by apply (qs_lvl _ _ Q)].
  - apply (flow_change _ _ _ s s' cs cs p F Hp); [intros j Hj; by rewrite Eo|done| | |done|done| | | |unfold ctx_ok; rewrite Es; left; by exists c|done].
    + intros i Hi. change (hash_at s' i) with (hash_at s i). rewrite (running_not_counted _ _ _ s cs c p i F Hc). assert (E0 : sleeping_on s' i p = false) by (unfold sleeping_on, is_state; by rewrite Es). rewrite E0. lia.
    + destruct (fl_tick _ _ _ _ _ F) as [T HT]. pose proof (running_not_ticking _ _ _ s cs T c p F HT Hc) as HnT. exists T.
      assert (Hl' : (p < length (procs s))%nat) by lia. apply (tick_state _ s s' T p HT); [by intros j; apply (upd_fields s p f j Hl')..|done|done|intros j Hj; by rewrite Eo|done|by rewrite Es].
    + intros _. rewrite Er. split; [by destruct Hs as [-> | ->]|done].
    + intros _. split; [done|]. rewrite Er, E7. by apply (fl_space _ _ _ _ _ F).
    + destruct (fl_cpu _ _ _ _ _ F) as [C1 C2 C3]. assert (Eo' : forall j, j <> p -> st s' j = st s j) by (intros j Hj; unfold st; by rewrite Eo). split; [done| |].
      * intros d j Hd. destruct (decide (j = p)) as [->|Hne]; [split; [done|by right]|]. rewrite Eo' by done. by apply (C2 d).
      * intros j Hj. destruct (decide (j = p)) as [->|Hne]; [by rewrite Es|]. rewrite Eo' by done. by apply C3.
Qed.

(** Fields that neither the invariant nor the scheduler uses. *)
Lemma same_states_upd s t cs p f : (p < NPROC)%nat -> (table_ok t cs /\ forall j, st t j = st s j) -> (forall r, flow_of (f r) = flow_of r) -> (forall r, sdata (f r) = sdata r) ->
  table_ok (upd p f t) cs /\ forall j, st (upd p f t) j = st s j.
Proof.
  intros Hp [T S] H1 H2. split; [by apply table_upd|]. intros j. rewrite <- S. pose proof (table_len _ _ _ _ _ T) as L. unfold st. rewrite pr_upd by lia.
  destruct (decide (p = j)) as [->|]; [|done]. specialize (H1 (pr t j)). unfold flow_of in H1. by injection H1.
Qed.

Lemma apply_fatal_ok p pend s cs : table_ok s cs -> (p < NPROC)%nat -> st s p = RUNNING -> table_ok (apply_fatal p pend s) cs /\ forall j, st (apply_fatal p pend s) j = st s j.
Proof.
  intros T Hp Hs. pose proof (table_len _ _ _ _ _ T) as Hl. unfold apply_fatal. destruct (flag pend fatal_signals); [|done]. set (s1 := upd p (set_killed true) s).
  assert (S1 : table_ok s1 cs /\ forall j, st s1 j = st s j) by (by apply same_states_upd). set (s2 := if valid_signo _ then _ else s1). assert (S2 : table_ok s2 cs /\ forall j, st s2 j = st s j) by (unfold s2; destruct (valid_signo _); [by apply same_states_upd|done]).
  assert (E : is_state s2 p STOPPED = false) by (unfold is_state; rewrite (proj2 S2), Hs; done). rewrite E. by apply same_states_upd.
Qed.

(** [proc_apply_pending_signals] of a running process: it runs on, or it is marked as stopped. *)
Lemma apply_ok s cs c p : table_ok s cs -> cs !! c = Some (Some p) -> st s p = RUNNING -> may_apply p s ->
  table_ok (proc_apply_pending_signals p s) cs /\ (st (proc_apply_pending_signals p s) p = RUNNING \/ st (proc_apply_pending_signals p s) p = STOPPED) /\
  forall j, j <> p -> st (proc_apply_pending_signals p s) j = st s j.
Proof.
  intros T Hc Hs Hm. unfold may_apply, deliverable in Hm. unfold proc_apply_pending_signals. destruct (catch_loop _ _ _) as [pend g]. cbn [fst] in Hm.
  pose proof T as [_ F]. destruct (cp_state _ _ (fl_cpu _ _ _ _ _ F) c p Hc) as [Hp _].
  set (s1 := upd p (set_sigs g) s). assert (S1 : table_ok s1 cs /\ forall j, st s1 j = st s j) by (by apply same_states_upd).
  assert (C : exists pend2 s2, apply_cont p pend s1 = (pend2, s2) /\ (table_ok s2 cs /\ forall j, st s2 j = st s j) /\ (forall m, flag pend2 m = true -> flag pend m = true)).
  { unfold apply_cont. destruct (flag pend (SIGBIT SIGCONT)); [|by eexists _, _]. set (t := upd p _ s1). assert (St : table_ok t cs /\ forall j, st t j = st s j) by (by apply same_states_upd).
    assert (E : is_state t p STOPPED = false) by (unfold is_state; rewrite (proj2 St), Hs; done). rewrite E. eexists _, _. split; [done|]. split; [done|]. intros m. apply flag_ldiff. }
  destruct C as (pend2 & s2 & -> & S2 & Hsub). unfold apply_stop. destruct (flag pend2 stop_signals) eqn:Est.
  - set (t := upd p (clear_pending stop_signals) s2). assert (St : table_ok t cs /\ forall j, st t j = st s j) by (by apply same_states_upd). assert (E : is_state t p RUNNING = true) by (unfold is_state; rewrite (proj2 St), Hs; done). rewrite E. cbn [orb].
    assert (Hfat : flag (Z.ldiff pend2 stop_signals) fatal_signals = false).
    { apply not_true_iff_false. intros H%flag_ldiff%Hsub. apply Hsub in Est. destruct Hm; congruence. }
    unfold apply_fatal. rewrite Hfat. pose proof (table_len _ _ _ _ _ (proj1 St)) as Lt. split; [by apply (stop_ok t cs c p); [apply St|..]|]. split; [right; unfold st; by rewrite pr_upd_eq by lia|].
    intros j Hj. unfold st. rewrite pr_upd_ne by done. apply St.
  - destruct (apply_fatal_ok p pend2 s2 cs (proj1 S2) Hp ltac:(rewrite (proj2 S2); done)) as [T3 S3]. split; [done|]. rewrite !S3. split; [left; by rewrite (proj2 S2)|]. intros j _. by rewrite S3, (proj2 S2).
Qed.

(** ** The clock *)

Lemma nosched_ok s s' cs : table_ok s cs -> (exists Ls, run_ok s' Ls) -> nosched s' = nosched s -> signalled cs s s'.
Proof.
  intros [RO F] RO' N. split; [split; [done|]; apply (flow_same _ _ _ s); [by apply same_flow_nosched|done]|intros j _; by apply keep_st|]. unfold nosched in N. by injection N.
Qed.

Lemma boost_ok now s cs : table_ok s cs -> signalled cs s (mlfq_apply_global_boost now s).
Proof. intros T. pose proof T as [[Ls RO] F]. destruct (boost_spec s Ls now RO) as (Ls' & RO' & N & _). apply nosched_ok; [done|by exists Ls'|done]. Qed.

Lemma charge_ok p s cs : table_ok s cs -> on_cpu cs p -> signalled cs s (mlfq_timer_charge p s).
Proof.
  intros T [c Hc]. pose proof T as [[Ls RO] F]. destruct (cp_state _ _ (fl_cpu _ _ _ _ _ F) c p Hc) as [Hp Hs].
  destruct (charge_spec s Ls p RO Hp ltac:(by destruct Hs as [-> | ->])) as [RO' N]. apply nosched_ok; [done|by exists Ls|done].
Qed.

End Sig.
