(* ===== verification/ProcMach.v ===== *)
(** * The machine: what CPUs do with processes, in any order

    An action is one critical section of [ptable.lock] in a system call, in the
    timer interrupt or in the scheduler loop of one CPU; a run is any sequence
    of actions of any CPUs.  [step] is what the code does, [None] a panic, and
    [act_ok] when the code may do it. *)

From S2P Require Import Prelude ProcTab Sched Proc ProcLife ProcInv ProcRun ProcFork ProcSig.

Lemma boot_hash i : hash_at boot_table i = 0.
Proof. unfold hash_at, boot_table. cbn [chan_wait_hash]. rewrite nth_lookup. destruct (replicate CHAN_WAIT_HASH_SIZE 0 !! i) eqn:E; [|done]. apply lookup_replicate in E as [-> _]. done. Qed.

Section Machine.
Context (proc_base sizeof_proc ticks_addr : Z).

#[local] Abbreviation table_ok := (table_ok proc_base sizeof_proc ticks_addr).
#[local] Abbreviation flow_ok := (flow_ok proc_base sizeof_proc ticks_addr).
#[local] Abbreviation building := (building proc_base sizeof_proc ticks_addr).

Lemma boot_ok n : table_ok boot_table (replicate n None).
Proof.
  assert (Hs : forall p, st boot_table p = UNUSED) by (intros p; unfold st; by rewrite boot_pr). split; [exists (fun _ => []); apply boot_run_ok|].
  assert (Hc : forall (c p : nat), replicate n (@None nat) !! c = Some (Some p) -> False) by (intros c p H; by apply lookup_replicate in H as [? _]). split.
  - split; [intros c c' p H; by apply Hc in H|intros c p H; by apply Hc in H|intros p _; by rewrite Hs].
  - intros p _. unfold ctx_ok. by rewrite Hs.
  - apply length_replicate.
  - intros i _. rewrite boot_hash. rewrite (cnt_ext (fun _ => false)); [|intros j _; unfold sleeping_on, is_state; by rewrite Hs]. unfold cnt. assert (E : forall l : list nat, List.filter (fun _ => false) l = []) by (intros l; induction l; done). by rewrite E.
  - exists []. split; [done|constructor| |done| |].
    + intros p. rewrite boot_pr. split; [intros H; by apply elem_of_nil in H|by intros [_ ?]].
    + intros p H. by apply elem_of_nil in H.
    + intros p _. by rewrite Hs.
  - split; [cbn; unfold PID_MAX; lia|intros p _ H; by rewrite Hs in H|intros p q _ _ H; by rewrite Hs in H].
  - intros p _. by rewrite Hs.
  - intros p _. by rewrite Hs.
Qed.

Lemma building_init s s' cs p : building s s' cs p -> building (set_initproc (Some p) s) (set_initproc (Some p) s') cs p.
Proof.
  intros [[[Ls RO] F] Hp Hw Hn Ht Hl Hpid Ho _]. split; try done. split; [exists Ls; by apply (run_ok_same s')|].
  apply (flow_idle _ _ _ s' _ cs p F Hp); try done; [by rewrite Hn|right; by left|right; by exists p|]. destruct (fl_pid _ _ _ _ _ F) as [P1 P2 P3]. by split.
Qed.

Lemma nosched_init s s' : nosched s' = nosched s -> initproc s' = initproc s.
Proof. unfold nosched. intros E. by injection E. Qed.

Lemma userinit_ok {R} `{Resources R} s cs x s' x' : table_ok s cs -> userinit s x = Some (s', x') -> table_ok s' cs /\ exists p, initproc s' = Some p /\ (p < NPROC)%nat.
Proof.
  intros T. unfold userinit. destruct (allocproc_ok _ _ _ s cs x T) as (o & s1 & x1 & -> & H1). destruct o as [p|]; [|done]. destruct H1 as [B Hctx]. apply building_init in B.
  set (s2 := set_initproc (Some p) s1) in *. destruct (address_space_create x1) as [a x2].
  pose proof (building_upd _ _ _ _ s2 cs p (set_addrsp a) B ltac:(done) ltac:(done) ltac:(done) ltac:(done) ltac:(done) ltac:(done)) as B3. destruct (Z.eqb_spec a 0) as [|Ha]; [done|].
  destruct (allocuvm_first a x2) as [n x3]. pose proof (building_upd _ _ _ _ _ cs p (set_sz n) B3 ltac:(done) ltac:(done) ltac:(done) ltac:(done) ltac:(done) ltac:(done)) as B4. destruct (n =? 0); [done|].
  pose proof (building_upd _ _ _ _ _ cs p (fun r => set_tty 0 (set_cwd 0 r)) B4 ltac:(done) ltac:(done) ltac:(done) ltac:(done) ltac:(done) ltac:(done)) as B5.
  rewrite !upd_upd in B5. rewrite (upd_upd p (set_sz n)), (upd_upd p (fun r => set_tty 0 (set_cwd 0 r))). clear B3 B4. set (s5 := upd p (fun r => set_tty 0 (set_cwd 0 (set_sz n (set_addrsp a r)))) s2) in *.
  assert (Hp : (p < NPROC)%nat) by apply B. pose proof (table_len _ _ _ _ _ (bu_ok _ _ _ _ _ _ _ B)) as L2. assert (E5 : pr s5 p = set_tty 0 (set_cwd 0 (set_sz n (set_addrsp a (pr s2 p))))) by (unfold s5; by rewrite pr_upd_eq by lia).
  destruct (building_done _ _ _ _ s5 cs p SCHED_ENQ_FORK B5) as [T6 N6]; [rewrite E5; exact Hctx|by rewrite E5|by exists p|]. intros E. injection E as <- <-. split; [exact T6|].
  exists p. split; [|done]. exact (nosched_init _ _ N6).
Qed.

(** ** Actions *)

Inductive act :=
  | Dispatch (c : nat)
  | Yield (c : nat)
  | Sleep (c : nat) (chan : Z)
  | StopSelf (c : nat)
  | Exit (c : nat) (status : Z)
  | Waitpid (c : nat) (pid options : Z)
  | Fork (c : nat)
  | Wakeup (chan : Z)
  | Kill (cur : option nat) (pid signo : Z)
  | SignalGroup (pgid signo : Z)
  | ApplySignals (c : nat)
  | Sigaction (c : nat) (signo : Z) (a : option (Z * Z * Z))
  | Sigprocmask (c : nat) (how : Z) (set : option Z)
  | SetAlarm (c : nat) (deadline interval : Z)
  | Tick
  | Alarms (now : Z)
  | Boost (now : Z)
  | Charge (c : nat)
  | Setpgid (c : nat) (pid pgid : Z)
  | Setsid (c : nat)
  | Setresuid (c : nat) (r e v : Z)
  | Setresgid (c : nat) (r e v : Z)
  | Setgroups (c : nat) (gs : list Z).

Section Steps.
Context {R : Type} `{Res : Resources R}.

(** The action of the process on CPU [c]. *)
Definition on (c : nat) (m : mach R) (f : nat -> option (mach R)) : option (mach R) :=
  match cpus m !! c with Some (Some p) => f p | _ => Some m end.

Definition step (a : act) (m : mach R) : option (mach R) :=
  let table s := Some (with_pt s m) in
  match a with
  | Dispatch c => scheduler_round ticks_addr c m
  | Yield c => on c m (fun p => yield c p m)
  | Sleep c chan => on c m (fun p => sleep ticks_addr c p chan m)
  | StopSelf c => on c m (fun p => proc_maybe_stop_current c p m)
  | Exit c status => on c m (fun p => exit proc_base sizeof_proc ticks_addr c p status m)
  | Waitpid c pid options => on c m (fun p =>
      match proc_waitpid_pass p pid options (pt m) (res m) with
      | WaitReturn _ _ s x => Some (mkMach s (cpus m) x)
      | WaitSleep => sleep ticks_addr c p (proc_addr proc_base sizeof_proc p) m
      end)
  | Fork c => on c m (fun p => match fork p (pt m) (res m) with Some (_, s, x) => Some (mkMach s (cpus m) x) | None => None end)
  | Wakeup chan => table (wakeup1 proc_base sizeof_proc ticks_addr chan (pt m))
  | Kill cur pid signo => table (proc_kill_with_signal cur pid signo (pt m)).2
  | SignalGroup pgid signo => table (proc_signal_pgid pgid signo (pt m)).2
  | ApplySignals c => on c m (fun p => table (proc_apply_pending_signals p (pt m)))
  | Sigaction c signo a => on c m (fun p => table (proc_sigaction p signo a (pt m)).2)
  | Sigprocmask c how set => on c m (fun p => table (proc_sigprocmask p how set (pt m)).2)
  | SetAlarm c d i => on c m (fun p => table (proc_set_alarm_state p d i (pt m)))
  | Tick => table (set_ticks (ticks (pt m) +u 1) (pt m))
  | Alarms now => table (proc_check_alarms now (pt m))
  | Boost now => table (mlfq_apply_global_boost now (pt m))
  | Charge c => on c m (fun p => table (mlfq_timer_charge p (pt m)))
  | Setpgid c pid pgid => on c m (fun p => table (proc_setpgid p pid pgid (pt m)).2)
  | Setsid c => on c m (fun p => table (proc_setsid p (pt m)).2)
  | Setresuid c r e v => on c m (fun p => table (proc_setresuid p r e v (pt m)).2)
  | Setresgid c r e v => on c m (fun p => table (proc_setresgid p r e v (pt m)).2)
  | Setgroups c gs => on c m (fun p => table (proc_setgroups p gs (pt m)).2)
  end.

(** Who acts: an idle CPU dispatches, a running process does the rest, a process that was told to stop stops. *)
Definition act_cpu (a : act) (m : mach R) : Prop :=
  match a with
  | Dispatch c => cpus m !! c = Some None
  | StopSelf c => exists p, cpus m !! c = Some (Some p)
  | Yield c | Sleep c _ | Exit c _ | Waitpid c _ _ | Fork c | ApplySignals c | Sigaction c _ _ | Sigprocmask c _ _ | SetAlarm c _ _ | Charge c
  | Setpgid c _ _ | Setsid c | Setresuid c _ _ _ | Setresgid c _ _ _ | Setgroups c _ =>
      exists p, cpus m !! c = Some (Some p) /\ st (pt m) p = RUNNING
  | _ => True
  end.

(** What the callers take care of: channels are not the addresses of other processes, [init] does not exit.  And what they do not:
    [SIGCONT] does not meet a process between its two critical sections of stopping, and no stop and fatal signals are pending together. *)
Definition act_arg (a : act) (m : mach R) : Prop :=
  match a with
  | Sleep c chan => forall p q, cpus m !! c = Some (Some p) -> chan = proc_addr proc_base sizeof_proc q -> (q < NPROC)%nat -> q = p
  | Exit c _ => forall p, cpus m !! c = Some (Some p) -> initproc (pt m) <> Some p
  | Kill _ _ signo | SignalGroup _ signo => may_send (pt m) (cpus m) signo
  | ApplySignals c => forall p, cpus m !! c = Some (Some p) -> may_apply p (pt m)
  | _ => True
  end.

Definition act_ok (a : act) (m : mach R) : Prop := act_cpu a m /\ act_arg a m.

Inductive steps : mach R -> mach R -> Prop :=
  | steps_nil m : steps m m
  | steps_cons a m m1 m2 : act_ok a m -> step a m = Some m1 -> steps m1 m2 -> steps m m2.

(** ** Every action keeps the invariant *)

Definition mach_ok (m : mach R) : Prop := table_ok (pt m) (cpus m).

Lemma on_eq c (m : mach R) p f : cpus m !! c = Some (Some p) -> on c m f = f p.
Proof. unfold on. by intros ->. Qed.

Lemma sched_ok c p k (m : mach R) s : is_state s p RUNNING = false -> sched c p k (with_pt s m) = Some (mkMach (upd p (set_context k) s) (<[c := None]> (cpus m)) (res m)).
Proof. unfold sched, with_pt. cbn [pt cpus res]. by intros ->. Qed.

Lemma yield_step (m : mach R) c p : mach_ok m -> cpus m !! c = Some (Some p) -> exists m', yield c p m = Some m' /\ mach_ok m'.
Proof.
  intros T Hc. destruct (yield_ok _ _ _ (pt m) (cpus m) c p T Hc) as [T' S']. unfold yield. rewrite sched_ok; [|unfold is_state; by rewrite S']. eexists. split; [reflexivity|exact T'].
Qed.

Lemma sleep_step (m : mach R) c p ch : mach_ok m -> cpus m !! c = Some (Some p) -> (forall q, ch = proc_addr proc_base sizeof_proc q -> (q < NPROC)%nat -> q = p) -> exists m', sleep ticks_addr c p ch m = Some m' /\ mach_ok m'.
Proof.
  intros T Hc Hch. pose proof T as [[Ls [Q _]] F]. destruct (cp_state _ _ (fl_cpu _ _ _ _ _ F) c p Hc) as [Hp _]. destruct (fl_tick _ _ _ _ _ F) as [Ts HT].
  destruct (sleep_enter_spec ticks_addr (pt m) Ts ch p (tick_ok_q _ _ _ HT) Hp (running_not_ticking _ _ _ _ _ _ c p F HT Hc) (qs_procs _ _ Q)) as (_ & _ & K & _). unfold core_of in K. injection K as K _ _ _ _.
  pose proof (sleep_ok _ _ _ (pt m) (cpus m) c p ch T Hc Hch) as T'. unfold sleep. rewrite sched_ok; [|unfold is_state, st; by rewrite K]. eexists. split; [reflexivity|exact T'].
Qed.

Lemma stop_step (m : mach R) c p : mach_ok m -> cpus m !! c = Some (Some p) -> exists m', proc_maybe_stop_current c p m = Some m' /\ mach_ok m'.
Proof.
  intros T Hc. unfold proc_maybe_stop_current, is_state. destruct (bool_decide_reflect (st (pt m) p = STOPPED)) as [Hs|]; [|by exists m].
  unfold sched, is_state. rewrite Hs. rewrite bool_decide_eq_false_2 by done. eexists. split; [reflexivity|]. unfold mach_ok. cbn [pt cpus].
  apply (leave_ok _ _ _ (pt m) (cpus m) c p _ STOPPED InStop T Hc); [by left| |done]. unfold flow_of. cbn. unfold st in Hs. by rewrite Hs.
Qed.

Lemma table_step (m : mach R) s : table_ok s (cpus m) -> exists m', Some (with_pt s m) = Some m' /\ mach_ok m'.
Proof. intros T. eexists. split; [reflexivity|exact T]. Qed.

(** Calls that change only fields of one process that the table's invariant does not mention. *)
Lemma sigaction_ok p signo a s cs : table_ok s cs -> table_ok (proc_sigaction p signo a s).2 cs.
Proof.
  intros T. unfold proc_sigaction. destruct (negb _); [done|]. destruct a as [[[h k] f]|]; [|done]. destruct (_ || _); [done|]. cbn [snd]. by apply table_upd.
Qed.

Lemma sigprocmask_ok p how set s cs : table_ok s cs -> table_ok (proc_sigprocmask p how set s).2 cs.
Proof.
  intros T. unfold proc_sigprocmask. destruct set as [v|]; [|done]. destruct (how =? SIG_BLOCK); [by apply table_upd|]. destruct (how =? SIG_UNBLOCK); [by apply table_upd|]. destruct (how =? SIG_SETMASK); [by apply table_upd|done].
Qed.

Lemma setpgid_ok p pid pgid s cs : table_ok s cs -> table_ok (proc_setpgid p pid pgid s).2 cs.
Proof.
  intros T. unfold proc_setpgid. destruct (_ || _); [done|]. destruct (find_pid _ s) as [t|]; [|done]. destruct (_ =? _); [done|]. destruct (negb _); [done|]. destruct (_ && _); [done|]. by apply table_upd.
Qed.

Lemma setsid_ok p s cs : table_ok s cs -> table_ok (proc_setsid p s).2 cs.
Proof. intros T. unfold proc_setsid. destruct (_ =? _); [done|]. destruct (existsb _ _); [done|]. by apply table_upd. Qed.

Lemma setresuid_ok p r e v s cs : table_ok s cs -> table_ok (proc_setresuid p r e v s).2 cs.
Proof. intros T. unfold proc_setresuid. destruct (_ || _); [done|]. destruct (_ && _); [done|]. by apply table_upd. Qed.

Lemma setresgid_ok p r e v s cs : table_ok s cs -> table_ok (proc_setresgid p r e v s).2 cs.
Proof. intros T. unfold proc_setresgid. destruct (_ || _); [done|]. destruct (_ && _); [done|]. by apply table_upd. Qed.

Lemma setgroups_ok p gs s cs : table_ok s cs -> table_ok (proc_setgroups p gs s).2 cs.
Proof. intros T. unfold proc_setgroups. destruct (_ >? _); [done|]. destruct (negb _); [done|]. destruct (_ =? 0); by apply table_upd. Qed.

Hypothesis sizeof_pos : 0 < sizeof_proc.

Lemma wait_step (m : mach R) c p pid options : mach_ok m -> cpus m !! c = Some (Some p) ->
  exists m', match proc_waitpid_pass p pid options (pt m) (res m) with WaitReturn _ _ s x => Some (mkMach s (cpus m) x) | WaitSleep => sleep ticks_addr c p (proc_addr proc_base sizeof_proc p) m end = Some m' /\ mach_ok m'.
Proof.
  intros T Hc. destruct (proc_waitpid_pass p pid options (pt m) (res m)) as [r v s x|] eqn:E.
  - eexists. split; [reflexivity|]. exact (wait_pass_ok _ _ _ _ _ _ _ _ _ _ _ _ _ T E).
  - apply sleep_step; [done|done|]. intros q Hq _. unfold proc_addr in Hq. nia.
Qed.

Lemma fork_step (m : mach R) c p : mach_ok m -> cpus m !! c = Some (Some p) -> exists m', match fork p (pt m) (res m) with Some (_, s, x) => Some (mkMach s (cpus m) x) | None => None end = Some m' /\ mach_ok m'.
Proof.
  intros T Hc. pose proof T as [_ F]. destruct (cp_state _ _ (fl_cpu _ _ _ _ _ F) c p Hc) as [Hp Hs].
  destruct (proc_fork_ok _ _ _ (pt m) (cpus m) (res m) p T Hp ltac:(by destruct Hs as [-> | ->])) as (r & s & x & -> & T' & _). eexists. split; [reflexivity|exact T'].
Qed.

Lemma step_ok a (m : mach R) : mach_ok m -> act_ok a m -> exists m', step a m = Some m' /\ mach_ok m'.
Proof.
  intros T [Hcpu Harg]. destruct a; cbn [act_cpu act_arg step] in *;
    try (destruct Hcpu as (p & Hc & Hs); rewrite (on_eq _ _ p) by exact Hc).
  - destruct (dispatch_ok proc_base sizeof_proc ticks_addr m c T Hcpu) as (m' & E & T' & _). by exists m'.
  - by apply yield_step.
  - apply sleep_step; [done|done|]. intros q. by apply Harg.
  - destruct Hcpu as (p & Hc). rewrite (on_eq _ _ p) by exact Hc. by apply stop_step.
  - destruct (exit_ok proc_base sizeof_proc ticks_addr m c p status T sizeof_pos Hc ltac:(by apply Harg)) as (m' & E & T' & _). by exists m'.
  - by apply wait_step.
  - by apply (fork_step m c).
  - apply table_step. by apply wakeup1_ok.
  - apply table_step. by apply kill_ok.
  - apply table_step. by apply signal_pgid_ok.
  - apply table_step. apply (apply_ok _ _ _ _ _ c); [exact T|done|done|by apply Harg].
  - apply table_step. by apply sigaction_ok.
  - apply table_step. by apply sigprocmask_ok.
  - apply table_step. by apply set_alarm_ok.
  - apply table_step. by apply (table_rest _ _ _ (pt m)).
  - apply table_step. by apply check_alarms_ok.
  - apply table_step. by apply boost_ok.
  - apply table_step. apply charge_ok; [exact T|by exists c].
  - apply table_step. by apply setpgid_ok.
  - apply table_step. by apply setsid_ok.
  - apply table_step. by apply setresuid_ok.
  - apply table_step. by apply setresgid_ok.
  - apply table_step. by apply setgroups_ok.
Qed.

Lemma mach_steps_ok (m m' : mach R) : mach_ok m -> steps m m' -> mach_ok m'.
Proof. intros T H. induction H as [|a m m1 m2 Ha E _ IH]; [done|]. apply IH. destruct (step_ok a m T Ha) as (m3 & E' & T'). congruence. Qed.


(** C5.  [wakeup1], with its three shortcuts (the list of processes that sleep on [ticks], the counts of sleepers by
    hashed channel, the single slot of a channel that is a process), makes exactly the processes runnable that
    sleep on the channel, and changes nothing but states, the scheduler's data and the list of tick sleepers. *)
Theorem wakeup_refines m c : mach_ok m ->
  let s' := wakeup1 proc_base sizeof_proc ticks_addr c (pt m) in
  (forall p, (p < NPROC)%nat -> st s' p = if decide (st (pt m) p = SLEEPING /\ chan (pr (pt m) p) = c) then RUNNABLE else st (pt m) p) /\
  nowake s' = nowake (pt m) /\ table_ok s' (cpus m).
Proof. intros T s'. destruct (wakeup1_ok proc_base sizeof_proc ticks_addr (pt m) (cpus m) c T sizeof_pos) as (T' & N & S'). split; [exact S'|]. by split. Qed.

(** C6.  The process on CPU [c] exits: it becomes a zombie that keeps its process id, its children become children of
    [init], a parent that waits for it is awake, and the parent's next [waitpid] for it returns its process id
    and status (a signal that killed it, otherwise the code it passed to [exit]) and frees its slot. *)
Theorem exit_then_wait m c p q status : mach_ok m -> cpus m !! c = Some (Some p) -> initproc (pt m) <> Some p ->
  parent (pr (pt m) p) = Some q -> (q < NPROC)%nat -> q <> p -> 1 <= pid (pr (pt m) p) -> (forall j, (j < NPROC)%nat -> pid (pr (pt m) j) = pid (pr (pt m) p) -> j = p) ->
  exists m', exit proc_base sizeof_proc ticks_addr c p status m = Some m' /\ mach_ok m' /\ cpus m' !! c = Some None /\ st (pt m') p = ZOMBIE /\
    (forall j, (j < NPROC)%nat -> parent (pr (pt m') j) = if decide (parent (pr (pt m) j) = Some p) then match initproc (pt m) with Some i => Some i | None => Some p end else parent (pr (pt m) j)) /\
    (st (pt m') q <> SLEEPING \/ chan (pr (pt m') q) <> proc_addr proc_base sizeof_proc q) /\
    exists s' x', proc_waitpid_pass q (pid (pr (pt m) p)) 0 (pt m') (res m') =
      WaitReturn (pid (pr (pt m) p)) (Some (final_status (xstatus (pr (pt m) p)) status)) s' x' /\ st s' p = UNUSED /\ table_ok s' (cpus m').
Proof.
  intros T Hc Hi Hpar Hq Hne Hpos Hpid. destruct (exit_ok proc_base sizeof_proc ticks_addr m c p status T sizeof_pos Hc Hi) as (m' & E & T' & Ecpu & Z' & P' & X' & Par' & W'). exists m'.
  assert (Hp : (p < NPROC)%nat) by (pose proof T as [_ F]; by destruct (cp_state _ _ (fl_cpu _ _ _ _ _ F) c p Hc)).
  split; [done|]. split; [exact T'|]. split; [rewrite Ecpu; apply list_lookup_insert_eq; by apply lookup_lt_Some in Hc|]. split; [done|]. split.
  { intros j Hj. rewrite (Par' j Hj). unfold heir, eq_ptr. destruct (decide (parent (pr (pt m) j) = Some p)) as [Ej|Ej]; [rewrite bool_decide_eq_true_2, Ej by done; by destruct (initproc (pt m))|by rewrite bool_decide_eq_false_2]. }
  split; [by apply W'|]. assert (Epar : parent (pr (pt m') p) = Some q).
  { rewrite (Par' p Hp), Hpar. unfold heir, eq_ptr. rewrite bool_decide_eq_false_2; [done|congruence]. }
  assert (EW : exists s' x', proc_waitpid_pass q (pid (pr (pt m) p)) 0 (pt m') (res m') = WaitReturn (pid (pr (pt m) p)) (Some (final_status (xstatus (pr (pt m) p)) status)) s' x' /\ st s' p = UNUSED).
  { unfold proc_waitpid_pass. rewrite (proj2 (Z.gtb_lt _ _)) by lia. cbn [negb]. change (negb (Z.ldiff 0 _ =? 0)) with false. cbv iota.
    assert (Ef : find (fun j => pid (pr (pt m') j) =? pid (pr (pt m) p)) (seq 0 NPROC) = Some p).
    { destruct (find _ _) as [j|] eqn:Ef.
      - apply find_slot in Ef as [Hj Ej]. apply Z.eqb_eq in Ej. rewrite P' in Ej. f_equal. by apply Hpid.
      - exfalso. pose proof (List.find_none _ _ Ef p ltac:(apply List.in_seq; lia)) as Hn. cbv beta in Hn. rewrite P', Z.eqb_refl in Hn. done. }
    rewrite Ef, Epar. unfold eq_ptr. rewrite bool_decide_eq_true_2 by done. cbn [negb]. unfold wait_report. change (flag 0 WUNTRACED) with false. change (flag 0 WCONTINUED) with false. cbn [andb].
    unfold is_state. rewrite bool_decide_eq_true_2 by done. rewrite P', X'. eexists _, _. split; [reflexivity|]. pose proof (table_len _ _ _ _ _ T') as L. unfold st. by rewrite pr_upd_eq by lia. }
  destruct EW as (s' & x' & EW & U). exists s', x'. split; [done|]. split; [done|]. exact (wait_pass_ok _ _ _ _ _ _ _ _ _ _ _ _ _ T' EW).
Qed.

End Steps.

End Machine.

(** ** A concrete machine *)

Module Demo.

(** Handles are numbers given out in order; nothing fails. *)
#[local] Instance counting : Resources Z := {|
  kalloc_contiguous x := (x, x + 1);
  fdtable_alloc x := (x, x + 1);
  fdtable_dup _ _ x := (0, x);
  fdtable_free _ x := x;
  address_space_create x := (x, x + 1);
  address_space_dup_cow _ x := (x, x + 1);
  address_space_destroy _ x := x;
  allocuvm_first _ x := (4096, x);
  idup _ x := x;
  iput _ x := x |}.

Definition BASE : Z := 2148597760.
Definition SIZE : Z := 1024.
Definition TICKS : Z := 2148532224.

Definition start : mach Z :=
  match userinit boot_table 1 with Some (s, x) => mkMach s (replicate NCPU None) x | None => mkMach boot_table [] 0 end.

Fixpoint run (l : list act) (m : mach Z) : option (mach Z) :=
  match l with [] => Some m | a :: l => match step BASE SIZE TICKS a m with Some m => run l m | None => None end end.

(** [init] runs on CPU 0 and forks; the child runs on CPU 1. *)
Definition two : mach Z := match run [Dispatch 0; Fork 0; Dispatch 1] start with Some m => m | None => start end.

(** The child sleeps on a channel. *)
Definition asleep : mach Z := match run [Sleep 1 7000] two with Some m => m | None => start end.

Lemma boot_two : userinit boot_table 1 = Some (pt start, res start) /\ cpus start = replicate NCPU None /\
  steps BASE SIZE TICKS start two /\ steps BASE SIZE TICKS two asleep.
Proof.
  split; [vm_compute; reflexivity|]. split; [vm_compute; reflexivity|]. split.
  - apply (steps_cons _ _ _ (Dispatch 0) _ (match step BASE SIZE TICKS (Dispatch 0) start with Some m => m | None => start end)); [split; [vm_compute; reflexivity|exact I]|vm_compute; reflexivity|].
    apply (steps_cons _ _ _ (Fork 0) _ (match run [Dispatch 0; Fork 0] start with Some m => m | None => start end)); [split; [exists 0%nat; split; vm_compute; reflexivity|exact I]|vm_compute; reflexivity|].
    apply (steps_cons _ _ _ (Dispatch 1) _ two); [split; [vm_compute; reflexivity|exact I]|vm_compute; reflexivity|apply steps_nil].
  - apply (steps_cons _ _ _ (Sleep 1 7000) _ asleep); [split|vm_compute; reflexivity|apply steps_nil].
    + exists 1%nat. split; vm_compute; reflexivity.
    + intros p q _ E Hq. exfalso. unfold proc_addr, BASE, SIZE, NPROC in *. lia.
Qed.


Lemma demo_ok m : steps BASE SIZE TICKS start m -> mach_ok BASE SIZE TICKS m.
Proof.
  intros Hs. destruct boot_two as (E & Ec & _). apply (mach_steps_ok BASE SIZE TICKS ltac:(reflexivity) start m); [|done]. unfold mach_ok. rewrite Ec. by destruct (userinit_ok BASE SIZE TICKS _ _ _ _ _ (boot_ok BASE SIZE TICKS NCPU) E).
Qed.

Lemma steps_app m m1 m2 : steps BASE SIZE TICKS m m1 -> steps BASE SIZE TICKS m1 m2 -> steps BASE SIZE TICKS m m2.
Proof. intros H1 H2. induction H1 as [|a m m1 m3 Ha E _ IH]; [done|]. eapply steps_cons; [exact Ha|exact E|by apply IH]. Qed.

Lemma wakeup_refines_witness : st (pt asleep) 1 = SLEEPING /\ st (wakeup1 BASE SIZE TICKS 7000 (pt asleep)) 1 = RUNNABLE /\ st (wakeup1 BASE SIZE TICKS 7000 (pt asleep)) 0 = RUNNING.
Proof.
  destruct boot_two as (_ & _ & S1 & S2). destruct (wakeup_refines BASE SIZE TICKS ltac:(reflexivity) asleep 7000 (demo_ok asleep (steps_app _ _ _ S1 S2))) as [H _].
  split; [vm_compute; reflexivity|]. assert (H0 : (0 < NPROC)%nat) by (unfold NPROC; lia). assert (H1 : (1 < NPROC)%nat) by (unfold NPROC; lia).
  specialize (H 1%nat H1) as E1. specialize (H 0%nat H0) as E0. clear H. revert E1 E0. generalize (wakeup1 BASE SIZE TICKS 7000 (pt asleep)). intros w E1 E0. split; [rewrite E1|rewrite E0]; vm_compute; reflexivity.
Defined.

Lemma exit_then_wait_witness : exists m', exit BASE SIZE TICKS 1 1 3 two = Some m' /\
  exists s' x', proc_waitpid_pass 0 2 0 (pt m') (res m') = WaitReturn 2 (Some (WSTATUS_EXIT 3)) s' x'.
Proof.
  destruct boot_two as (_ & _ & S1 & _). destruct (exit_then_wait BASE SIZE TICKS ltac:(reflexivity) two 1 1 0 3 (demo_ok two S1)) as (m' & E & _ & _ & _ & _ & _ & s' & x' & W & _).
  - vm_compute; reflexivity.
  - vm_compute; discriminate.
  - vm_compute; reflexivity.
  - unfold NPROC; lia.
  - lia.
  - vm_compute; discriminate.
  - intros j Hj E. assert (Hc : forallb (fun j => negb (pid (pr (pt two) j) =? pid (pr (pt two) 1)) || Nat.eqb j 1) (seq 0 NPROC) = true) by (vm_compute; reflexivity).
    rewrite forallb_forall in Hc. specialize (Hc j ltac:(apply List.in_seq; lia)). rewrite E, Z.eqb_refl in Hc. by apply Nat.eqb_eq in Hc.
  - exists m'. split; [exact E|]. exists s', x'. replace 2 with (pid (pr (pt two) 1)) by (vm_compute; reflexivity). rewrite W. do 2 f_equal. 
Defined.

(** A process that finds a stop signal and a fatal signal pending when it returns to user mode is put into the run queue
    while it runs, by [proc_apply_pending_signals]; it then exits, and when the scheduler reaches it in its queue
    the kernel panics with "zombie exit".  Here [init] sends its child, which runs on CPU 1, [SIGSTOP] and [SIGKILL]. *)
Theorem stop_and_kill_panics :
  exists m, run [Dispatch 0; Fork 0; Dispatch 1; Kill (Some 0%nat) 2 SIGSTOP; Kill (Some 0%nat) 2 SIGKILL; ApplySignals 1; StopSelf 1; Exit 1 0] start = Some m /\
    st (pt m) 1 = ZOMBIE /\ mlfq_is_queued 1 (pt m) = true /\ cpus m !! 1%nat = Some None /\ step BASE SIZE TICKS (Dispatch 1) m = None.
Proof. eexists. split; [vm_compute; reflexivity|]. split; [vm_compute; reflexivity|]. split; [vm_compute; reflexivity|]. split; vm_compute; reflexivity. Qed.

End Demo.
