(* ===== verification/FdTable.v ===== *)
(** * Open files and descriptor tables: [src/kernel/fs/file.c], [src/kernel/core/sysfile.c]

    The file objects with their reference counts and the cache of closed ones,
    the descriptor table of a process, and the calls that move descriptors:
    open, close, dup, dup2, fcntl, fork, exit and exec. *)

From S2P Require Import Prelude.

Inductive ftype := FD_NONE | FD_PIPE | FD_INODE | FD_SOCKET.

(** [struct file]; pointers to pipes, inodes and sockets are addresses. *)
Record file := mkFile {
  magic : Z;
  type : ftype;
  ref : Z;
  readable : bool;
  writable : bool;
  pty_side : Z;
  pty_index : Z;
  pipe : Z;
  ip : Z;
  socket : Z;
  off : Z
}.

Definition FILE_MAGIC : Z := 1179208773.
Definition FILE_CACHE_MAX : Z := 512.
Definition PTY_SIDE_NONE : Z := 0.
Definition PTYDEV : Z := 3.
Definition SERIALDEV : Z := 4.
Definition AUDIODEV : Z := 5.
Definition TUNTAPDEV : Z := 6.
Definition FD_CLOEXEC : Z := 1.
Definition FDTABLE_INIT_CAPACITY : Z := 32.
Definition NOFILE_HARD : Z := 512.
Definition WORDS : nat := 1024.
Definition BYTES : nat := 4096.

Definition set_magic (v : Z) (f : file) : file := mkFile v (type f) (ref f) (readable f) (writable f) (pty_side f) (pty_index f) (pipe f) (ip f) (socket f) (off f).
Definition set_ref (v : Z) (f : file) : file := mkFile (magic f) (type f) v (readable f) (writable f) (pty_side f) (pty_index f) (pipe f) (ip f) (socket f) (off f).
Definition set_type (v : ftype) (f : file) : file := mkFile (magic f) v (ref f) (readable f) (writable f) (pty_side f) (pty_index f) (pipe f) (ip f) (socket f) (off f).

(** [struct fdtable]; [entries] and [fdflags] are whole pages. *)
Record fdtable := mkFt {
  entries : list Z;
  fdflags : list Z;
  capacity : Z;
  nfds : Z;
  next_fd_hint : Z
}.

Definition set_entries (v : list Z) (t : fdtable) : fdtable := mkFt v (fdflags t) (capacity t) (nfds t) (next_fd_hint t).
Definition set_fdflags (v : list Z) (t : fdtable) : fdtable := mkFt (entries t) v (capacity t) (nfds t) (next_fd_hint t).
Definition set_nfds (v : Z) (t : fdtable) : fdtable := mkFt (entries t) (fdflags t) (capacity t) v (next_fd_hint t).
Definition set_hint (v : Z) (t : fdtable) : fdtable := mkFt (entries t) (fdflags t) (capacity t) (nfds t) v.

Definition entry (t : fdtable) (i : Z) : Z := nth (Z.to_nat i) (entries t) 0.
Definition fdflag (t : fdtable) (i : Z) : Z := nth (Z.to_nat i) (fdflags t) 0.
Definition put (i v : Z) (t : fdtable) : fdtable := set_entries (<[Z.to_nat i := v]> (entries t)) t.
Definition put_flag (i v : Z) (t : fdtable) : fdtable := set_fdflags (<[Z.to_nat i := v]> (fdflags t)) t.

(** What file.c asks other components to do when the last reference of a file goes. *)
Inductive call :=
  | PipeClose (p : Z) (writable : bool)
  | PtyClose (f : file)
  | SerialClose (f : file)
  | AudioClose (f : file)
  | TuntapClose (f : file)
  | Iput (ip : Z)
  | SocketClose (s : Z).

(** The kernel heap and the page allocator.  A fresh page has any contents. *)
Class Heap (K : Type) := {
  kmalloc : K -> Z * K;
  kmalloc_free : Z -> K -> K;
  kalloc_words : K -> option (list Z) * K;
  kalloc_bytes : K -> option (list Z) * K;
  kfree : K -> K
}.

(** File objects by address, the cache of closed ones, the calls made, the heap. *)
Record fstate (K : Type) := mkFs {
  files : gmap Z file;
  cache_head : Z;
  cache_count : Z;
  closed : list (Z * list call);
  heap : K
}.
Arguments mkFs {K} _ _ _ _ _.
Arguments files {K} _.
Arguments cache_head {K} _.
Arguments cache_count {K} _.
Arguments closed {K} _.
Arguments heap {K} _.

Definition set_heap {K} (k : K) (s : fstate K) : fstate K := mkFs (files s) (cache_head s) (cache_count s) (closed s) k.
Definition upd_file {K} (a : Z) (g : file -> file) (s : fstate K) : fstate K := mkFs (alter g a (files s)) (cache_head s) (cache_count s) (closed s) (heap s).

Section Files.
Context {K : Type} `{Hp : Heap K}.

(** The major number of an inode that is a device, and its minor number; the
    drivers' answers to the calls that read and set the non-blocking mode. *)
Context (dev_major : Z -> option Z) (dev_minor : Z -> Z).
Context (get_nonblock : Z -> file -> Z) (set_nonblock : Z -> file -> bool -> Z).

(** ** File objects *)

(** [None]: the pointer is not null but leads to no file object. *)
Definition file_handle_valid (f : Z) (s : fstate K) : option bool :=
  if f =? 0 then Some false
  else if f <? KERNBASE then Some false
  else
    match files s !! f with
    | None => None
    | Some x => Some ((magic x =? FILE_MAGIC) && negb (ref x <? 1))
    end.

Definition new_file : file := mkFile FILE_MAGIC FD_NONE 1 false false PTY_SIDE_NONE (-1) 0 0 0 0.

Definition filealloc (s : fstate K) : Z * fstate K :=
  if negb (cache_head s =? 0) then
    let f := cache_head s in
    let next := match files s !! f with Some x => magic x | None => 0 end in
    let n := if cache_count s >? 0 then cache_count s - 1 else cache_count s in
    (f, mkFs (<[f := new_file]> (files s)) next n (closed s) (heap s))
  else
    let (f, k) := kmalloc (heap s) in
    if f =? 0 then (0, set_heap k s)
    else (f, mkFs (<[f := new_file]> (files s)) (cache_head s) (cache_count s) (closed s) k).

Definition filedup (f : Z) (s : fstate K) : option (Z * fstate K) :=
  match file_handle_valid f s with
  | None => None
  | Some false => Some (0, s)
  | Some true => Some (f, upd_file f (fun x => set_ref (ref x + 1) x) s)
  end.

Definition is_dev (m : Z) (ff : file) : bool := negb (ip ff =? 0) && bool_decide (dev_major (ip ff) = Some m).

Definition close_calls (ff : file) : list call :=
  match type ff with
  | FD_PIPE => [PipeClose (pipe ff) (writable ff)]
  | FD_INODE =>
      (if is_dev PTYDEV ff then [PtyClose ff] else []) ++ (if is_dev SERIALDEV ff then [SerialClose ff] else []) ++
      (if is_dev AUDIODEV ff then [AudioClose ff] else []) ++ (if is_dev TUNTAPDEV ff then [TuntapClose ff] else []) ++ [Iput (ip ff)]
  | FD_SOCKET => [SocketClose (socket ff)]
  | FD_NONE => []
  end.

Definition fileclose (f : Z) (s : fstate K) : option (fstate K) :=
  match file_handle_valid f s with
  | None => None
  | Some false => Some s
  | Some true =>
      match files s !! f with
      | None => None
      | Some x =>
          if ref x - 1 >? 0 then Some (upd_file f (set_ref (ref x - 1)) s)
          else
            let ff := set_ref (ref x - 1) x in
            let s := mkFs (<[f := set_type FD_NONE (set_magic 0 (set_ref 0 x))]> (files s)) (cache_head s) (cache_count s) (closed s ++ [(f, close_calls ff)]) (heap s) in
            if cache_count s <? FILE_CACHE_MAX then
              Some (mkFs (alter (set_magic (cache_head s)) f (files s)) f (cache_count s +u 1) (closed s) (heap s))
            else Some (mkFs (delete f (files s)) (cache_head s) (cache_count s) (closed s) (kmalloc_free f (heap s)))
      end
  end.

(** ** Descriptor tables *)

(** [fdtable_expand]: 0 or -1. *)
Definition fdtable_expand (t : fdtable) (k : K) : Z * fdtable * K :=
  let c := capacity t in
  let new_capacity := if c >? 256 then c * 2 else c + 256 in
  if new_capacity *u 4 >? PGSIZE then (-1, t, k)
  else if u32 new_capacity >? PGSIZE then (-1, t, k)
  else
    match kalloc_words k with
    | (None, k) => (-1, t, k)
    | (Some words, k) =>
        match kalloc_bytes k with
        | (None, k) => (-1, t, kfree k)
        | (Some bytes, k) =>
            let c := Z.to_nat c in
            let n := Z.to_nat new_capacity in
            (0, mkFt (take c (entries t) ++ replicate (n - c) 0 ++ drop n words) (take c (fdflags t) ++ replicate (n - c) 0 ++ drop n bytes)
                  new_capacity (nfds t) (next_fd_hint t), kfree (kfree k))
        end
    end.

(** The table that [fdtable_init] makes of two zeroed pages. *)
Definition fdtable_init : fdtable := mkFt (replicate WORDS 0) (replicate BYTES 0) FDTABLE_INIT_CAPACITY 0 0.

(** [fdtable_alloc]: a table, none, or a panic of [fdtable_init]. *)
Definition fdtable_alloc (k : K) : option (option fdtable * K) :=
  match kalloc_words k with
  | (None, k) => Some (None, k)
  | (Some _, k) =>
      match kalloc_words k with
      | (None, _) => None
      | (Some _, k) =>
          match kalloc_bytes k with
          | (None, _) => None
          | (Some _, k) => Some (Some fdtable_init, k)
          end
      end
  end.

(** The loop of [fdtable_free]. *)
Fixpoint free_loop (n : nat) (i : Z) (t : fdtable) (s : fstate K) : option (fdtable * fstate K) :=
  match n with
  | O => Some (t, s)
  | S n =>
      if entry t i =? 0 then free_loop n (i + 1) t s
      else match fileclose (entry t i) s with None => None | Some s => free_loop n (i + 1) (put i 0 t) s end
  end.

Definition fdtable_free (t : fdtable) (s : fstate K) : option (fstate K) :=
  match free_loop (Z.to_nat (nfds t)) 0 t s with
  | None => None
  | Some (_, s) => Some (set_heap (kfree (kfree (kfree (heap s)))) s)
  end.

(** The loop of [fdtable_dup]. *)
Fixpoint dup_loop (n : nat) (i : Z) (pt ct : fdtable) (s : fstate K) : option (fdtable * fstate K) :=
  match n with
  | O => Some (ct, s)
  | S n =>
      if entry pt i =? 0 then dup_loop n (i + 1) pt ct s
      else
        match filedup (entry pt i) s with
        | None => None
        | Some (f, s) => dup_loop n (i + 1) pt (put_flag i (fdflag pt i) (put i f ct)) s
        end
  end.

Definition zero_prefix (n : Z) (l : list Z) : list Z := replicate (Z.to_nat n) 0 ++ drop (Z.to_nat n) l.

Definition fdtable_dup (pt ct : fdtable) (s : fstate K) : option (Z * fdtable * fstate K) :=
  let '(r, ct, k) := if capacity pt >? capacity ct then fdtable_expand ct (heap s) else (0, ct, heap s) in
  let s := set_heap k s in
  if r <? 0 then Some (-1, ct, s)
  else
    let ct := mkFt (zero_prefix (capacity ct) (entries ct)) (zero_prefix (capacity ct) (fdflags ct)) (capacity pt) (nfds pt) (next_fd_hint pt) in
    match dup_loop (Z.to_nat (nfds pt)) 0 pt ct s with
    | None => None
    | Some (ct, s) => Some (0, ct, s)
    end.

(** [while(nfds > 0 && entries[nfds - 1] == 0) nfds--]. *)
Fixpoint trim (n : nat) (t : fdtable) : fdtable :=
  match n with
  | O => t
  | S n => if (nfds t >? 0) && (entry t (nfds t - 1) =? 0) then trim n (set_nfds (nfds t - 1) t) else t
  end.

Definition fd_get (fd : Z) (t : fdtable) : Z := if (fd <? 0) || (fd >=? nfds t) then 0 else entry t fd.

Definition fd_clear (fd : Z) (t : fdtable) : fdtable :=
  if (fd <? 0) || (fd >=? nfds t) then t
  else
    let t := put_flag fd 0 (put fd 0 t) in
    let t := if fd <? next_fd_hint t then set_hint fd t else t in
    trim (Z.to_nat (nfds t)) t.

(** [while(fd >= capacity) expand]: at most three rounds, since the third expansion fails. *)
Fixpoint grow_to (fuel : nat) (fd : Z) (t : fdtable) (k : K) : Z * fdtable * K :=
  match fuel with
  | O => (-1, t, k)
  | S fuel =>
      if fd >=? capacity t then
        let '(r, t, k) := fdtable_expand t k in if r <? 0 then (-1, t, k) else grow_to fuel fd t k
      else (0, t, k)
  end.

Definition fd_ensure_slot (fd : Z) (t : fdtable) (k : K) : Z * fdtable * K :=
  if fd <? 0 then (-1, t, k)
  else
    let '(r, t, k) := grow_to 4 fd t k in
    if r <? 0 then (-1, t, k) else (0, if fd >=? nfds t then set_nfds (fd + 1) t else t, k).

(** The soft limit of the process, at most [NOFILE_HARD]. *)
Definition proc_fd_limit (rlimit_nofile_cur : Z) : Z := if rlimit_nofile_cur >? NOFILE_HARD then NOFILE_HARD else rlimit_nofile_cur.

(** One of the two loops of [fdalloc]. *)
Fixpoint fd_scan (n : nat) (fd limit f : Z) (t : fdtable) : option Z * fdtable :=
  match n with
  | O => (None, t)
  | S n =>
      let t := if fd >=? nfds t then set_nfds (fd + 1) t else t in
      if entry t fd =? 0 then
        let t := put fd f t in
        let t := set_hint (fd + 1) t in
        (Some fd, if next_fd_hint t >=? limit then set_hint 0 t else t)
      else fd_scan n (fd + 1) limit f t
  end.

Definition fdalloc (limit f : Z) (t : fdtable) (k : K) : Z * fdtable * K :=
  let '(r, t, k) := grow_to 4 (limit - 1) t k in
  if r <? 0 then (-1, t, k)
  else
    let start := next_fd_hint t in
    let start := if (start <? 0) || (start >=? limit) then 0 else start in
    let start := if start >=? nfds t then 0 else start in
    match fd_scan (Z.to_nat (limit - start)) start limit f t with
    | (Some fd, t) => (fd, t, k)
    | (None, t) =>
        match fd_scan (Z.to_nat (if start <? limit then start else limit)) 0 limit f t with
        | (Some fd, t) => (fd, t, k)
        | (None, t) => (-1, t, k)
        end
    end.

(** [argfd]: the file of a descriptor; [None] for a pointer to nothing. *)
Definition argfd (fd : Z) (t : fdtable) (s : fstate K) : option Z :=
  if (fd <? 0) || (fd >=? nfds t) || (entry t fd =? 0) then Some 0
  else if entry t fd <? KERNBASE then Some 0
  else
    match files s !! entry t fd with
    | None => None
    | Some x => Some (if negb (magic x =? FILE_MAGIC) || (ref x <? 1) then 0 else entry t fd)
    end.

(** ** System calls: result, table, state *)

Definition result : Type := option (Z * fdtable * fstate K).

Definition sys_dup (limit fd : Z) (t : fdtable) (s : fstate K) : result :=
  match argfd fd t s with
  | None => None
  | Some f =>
      if f =? 0 then Some (-1, t, s)
      else
        let '(r, t, k) := fdalloc limit f t (heap s) in
        let s := set_heap k s in
        if r <? 0 then Some (-1, t, s)
        else match filedup f s with None => None | Some (_, s) => Some (r, t, s) end
  end.

Definition sys_close (fd : Z) (t : fdtable) (s : fstate K) : result :=
  match argfd fd t s with
  | None => None
  | Some f =>
      if f =? 0 then Some (-1, t, s)
      else
        let t := fd_clear fd t in
        match fileclose f s with None => None | Some s => Some (0, t, s) end
  end.

Definition sys_dup2 (limit oldfd newfd : Z) (t : fdtable) (s : fstate K) : result :=
  match argfd oldfd t s with
  | None => None
  | Some f =>
      if f =? 0 then Some (-1, t, s)
      else if (newfd <? 0) || (newfd >=? limit) then Some (-1, t, s)
      else if oldfd =? newfd then Some (newfd, t, s)
      else
        let '(r, t, k) := fd_ensure_slot newfd t (heap s) in
        let s := set_heap k s in
        if r <? 0 then Some (-1, t, s)
        else
          let oldf := entry t newfd in
          match (if oldf =? 0 then Some (t, s) else let t := fd_clear newfd t in match fileclose oldf s with None => None | Some s => Some (t, s) end) with
          | None => None
          | Some (t, s) =>
              let t := put_flag newfd 0 (put newfd f t) in
              match filedup f s with None => None | Some (_, s) => Some (newfd, t, s) end
          end
  end.

(** The loop of [F_DUPFD] and [F_DUPFD_CLOEXEC]. *)
Fixpoint dupfd_loop (n : nat) (i f flags : Z) (t : fdtable) (s : fstate K) : result :=
  match n with
  | O => Some (-1, t, s)
  | S n =>
      let '(r, t, k) := fd_ensure_slot i t (heap s) in
      let s := set_heap k s in
      if r <? 0 then Some (-1, t, s)
      else if entry t i =? 0 then
        let t := put_flag i flags (put i f t) in
        match filedup f s with None => None | Some (_, s) => Some (i, t, s) end
      else dupfd_loop n (i + 1) f flags t s
  end.

Definition F_DUPFD : Z := 0.
Definition F_GETFD : Z := 1.
Definition F_SETFD : Z := 2.
Definition F_GETFL : Z := 3.
Definition F_SETFL : Z := 4.
Definition F_DUPFD_CLOEXEC : Z := 1030.
Definition O_RDONLY : Z := 0.
Definition O_WRONLY : Z := 1.
Definition O_RDWR : Z := 2.
Definition O_NONBLOCK : Z := 8192.

(** An audio stream has a minor number other than 0. *)
Definition is_audio (ff : file) : bool := is_dev AUDIODEV ff && negb (dev_minor (ip ff) =? 0).

Definition getfl (x : file) : Z :=
  let flags := if readable x && writable x then O_RDWR else if writable x then O_WRONLY else O_RDONLY in
  let inode := match type x with FD_INODE => true | _ => false end in
  let flags := if inode && is_audio x && (get_nonblock AUDIODEV x >? 0) then Z.lor flags O_NONBLOCK else flags in
  if inode && is_dev TUNTAPDEV x && (get_nonblock TUNTAPDEV x >? 0) then Z.lor flags O_NONBLOCK else flags.

Definition setfl (x : file) (arg : Z) : Z :=
  let inode := match type x with FD_INODE => true | _ => false end in
  if inode && is_audio x && (set_nonblock AUDIODEV x (flag arg O_NONBLOCK) <? 0) then -1
  else if inode && is_dev TUNTAPDEV x && (set_nonblock TUNTAPDEV x (flag arg O_NONBLOCK) <? 0) then -1
  else 0.

Definition sys_fcntl (limit fd cmd arg : Z) (t : fdtable) (s : fstate K) : result :=
  match argfd fd t s with
  | None => None
  | Some f =>
      if f =? 0 then Some (-1, t, s)
      else if (cmd =? F_DUPFD) || (cmd =? F_DUPFD_CLOEXEC) then
        if (arg <? 0) || (arg >=? limit) then Some (-1, t, s)
        else dupfd_loop (Z.to_nat (limit - arg)) arg f (if cmd =? F_DUPFD then 0 else FD_CLOEXEC) t s
      else if cmd =? F_GETFD then Some (Z.land (fdflag t fd) FD_CLOEXEC, t, s)
      else if cmd =? F_SETFD then Some (0, put_flag fd (Z.land arg FD_CLOEXEC) t, s)
      else if cmd =? F_GETFL then match files s !! f with None => None | Some x => Some (getfl x, t, s) end
      else if cmd =? F_SETFL then match files s !! f with None => None | Some x => Some (setfl x arg, t, s) end
      else Some (-1, t, s)
  end.

(** The end of [exec]: descriptors marked close-on-exec go. *)
Fixpoint cloexec_loop (n : nat) (i : Z) (t : fdtable) (s : fstate K) : option (fdtable * fstate K) :=
  match n with
  | O => Some (t, s)
  | S n =>
      if negb (entry t i =? 0) && flag (fdflag t i) FD_CLOEXEC then
        match fileclose (entry t i) s with None => None | Some s => cloexec_loop n (i + 1) (put_flag i 0 (put i 0 t)) s end
      else cloexec_loop n (i + 1) t s
  end.

Definition exec_close (t : fdtable) (s : fstate K) : option (fdtable * fstate K) :=
  match cloexec_loop (Z.to_nat (nfds t)) 0 t s with
  | None => None
  | Some (t, s) => Some (trim (Z.to_nat (nfds t)) t, s)
  end.

(** What drivers and file system answer to [open]: the terminal side and index
    that [pty_open] stores, or its refusal; whether truncation fails; whether
    the driver of a serial line, audio stream or tunnel refuses. *)
Record answers := mkAnswers {
  pty_open : option (Z * Z);
  truncate_fails : bool;
  dev_open_fails : bool
}.

Definition is_major (m inode : Z) : bool := bool_decide (dev_major inode = Some m).

Definition set_pty (side index : Z) (x : file) : file := mkFile (magic x) (type x) (ref x) (readable x) (writable x) side index (pipe x) (ip x) (socket x) (off x).
Definition set_inode (inode startoff : Z) (r w : bool) (x : file) : file := mkFile (magic x) FD_INODE (ref x) r w (pty_side x) (pty_index x) (pipe x) inode (socket x) startoff.

(** [fd_clear; fileclose; return -1]. *)
Definition abandon (fd f : Z) (t : fdtable) (s : fstate K) : result :=
  let t := fd_clear fd t in match fileclose f s with None => None | Some s => Some (-1, t, s) end.

(** The part for a pseudo-terminal: its driver stores side and index, or refuses. *)
Definition open_pty (inode : Z) (e : answers) (f : Z) (s : fstate K) : option (fstate K) :=
  if is_major PTYDEV inode then match pty_open e with None => None | Some (side, index) => Some (upd_file f (set_pty side index) s) end else Some s.

(** [sys_open] from the point where it has the inode. *)
Definition open_inode (limit inode startoff : Z) (r w : bool) (e : answers) (t : fdtable) (s : fstate K) : result :=
  let (f, s) := filealloc s in
  if f =? 0 then Some (-1, t, s)
  else
    let '(fd, t, k) := fdalloc limit f t (heap s) in
    let s := set_heap k s in
    if fd <? 0 then match fileclose f s with None => None | Some s => Some (-1, t, s) end
    else
      match open_pty inode e f s with
      | None => abandon fd f t s
      | Some s =>
          if truncate_fails e then abandon fd f t s
          else
            let s := upd_file f (set_inode inode startoff r w) s in
            if (is_major SERIALDEV inode || is_major AUDIODEV inode || is_major TUNTAPDEV inode) && dev_open_fails e then abandon fd f t s
            else Some (fd, t, s)
      end.

(** What [allocproc] and [fork] do with the child's table: a result and the table, a panic, or a fault. *)
Inductive fork_result :=
  | ForkPanic
  | ForkFault
  | ForkDone (r : Z) (child : option fdtable) (s : fstate K).

Definition fork_fds (pt : fdtable) (s : fstate K) : fork_result :=
  match fdtable_alloc (heap s) with
  | None => ForkPanic
  | Some (None, k) => ForkDone (-1) None (set_heap k s)
  | Some (Some ct, k) =>
      match fdtable_dup pt ct (set_heap k s) with
      | None => ForkFault
      | Some (r, ct, s) =>
          if r <? 0 then match fdtable_free ct s with None => ForkFault | Some s => ForkDone (-1) None s end
          else ForkDone 0 (Some ct) s
      end
  end.

End Files.
