(* ===== verification/FdView.v ===== *)
(** * What a descriptor table says

    The view of a table: a finite map from descriptors to the file and the
    close-on-exec mark.  The operations on tables as changes of the view. *)

From S2P Require Import Prelude FdTable.

(** ** Slots *)

(** The file and the flags at a slot of the table, 0 outside it. *)
Definition slot (t : fdtable) (i : Z) : Z := if (0 <=? i) && (i <? capacity t) then entry t i else 0.
Definition fmark (t : fdtable) (i : Z) : Z := if (0 <=? i) && (i <? capacity t) then fdflag t i else 0.
Definition cell (t : fdtable) (i : Z) : Z * Z := (slot t i, fmark t i).

Definition view (t : fdtable) : gmap Z (Z * bool) :=
  map_imap (fun i _ => if slot t i =? 0 then None else Some (slot t i, flag (fmark t i) FD_CLOEXEC))
    (gset_to_gmap tt (list_to_set (seqZ 0 (capacity t)) : gset Z)).

(** Nothing lies at or above [nfds], and a free slot has no flags. *)
Record table_wf (t : fdtable) : Prop := {
  tw_entries : length (entries t) = WORDS;
  tw_flags : length (fdflags t) = BYTES;
  tw_cap : capacity t = 32 \/ capacity t = 288 \/ capacity t = 576;
  tw_nfds : 0 <= nfds t <= capacity t;
  tw_top i : nfds t <= i -> slot t i = 0
}.

Definition clean (t : fdtable) : Prop := forall i, slot t i = 0 -> fmark t i = 0.

(** The hint: no free slot below it. *)
Definition low_hint (t : fdtable) : Prop := forall i, 0 <= i < next_fd_hint t -> slot t i <> 0.

Definition table_ok (t : fdtable) : Prop := table_wf t /\ clean t.

Lemma slot_in t i : 0 <= i < capacity t -> slot t i = entry t i.
Proof. intros H. unfold slot. rewrite (proj2 (Z.leb_le _ _)), (proj2 (Z.ltb_lt _ _)) by lia. done. Qed.

Lemma fmark_in t i : 0 <= i < capacity t -> fmark t i = fdflag t i.
Proof. intros H. unfold fmark. rewrite (proj2 (Z.leb_le _ _)), (proj2 (Z.ltb_lt _ _)) by lia. done. Qed.

Lemma cell_out t i : i < 0 \/ capacity t <= i -> cell t i = (0, 0).
Proof. intros H. unfold cell, slot, fmark. destruct (Z.leb_spec 0 i), (Z.ltb_spec i (capacity t)); cbn [andb]; (done || lia). Qed.

Lemma slot_out t i : i < 0 \/ capacity t <= i -> slot t i = 0.
Proof. intros H. exact (f_equal fst (cell_out t i H)). Qed.

Lemma slot_bound t i : table_wf t -> slot t i <> 0 -> 0 <= i < nfds t.
Proof.
  intros W H. destruct (Z.lt_ge_cases i 0); [by rewrite slot_out in H by lia|]. destruct (Z.lt_ge_cases i (nfds t)); [lia|]. by rewrite (tw_top t W) in H by lia.
Qed.

Lemma lookup_view t i : view t !! i = if slot t i =? 0 then None else Some (slot t i, flag (fmark t i) FD_CLOEXEC).
Proof.
  unfold view. rewrite map_lookup_imap, lookup_gset_to_gmap. destruct (decide (i ∈ (list_to_set (seqZ 0 (capacity t)) : gset Z))) as [H|H].
  - rewrite option_guard_True by done. done.
  - rewrite option_guard_False by done. rewrite slot_out; [done|]. rewrite elem_of_list_to_set, elem_of_seqZ in H. lia.
Qed.

Lemma view_slot t i f c : view t !! i = Some (f, c) -> slot t i = f /\ f <> 0 /\ flag (fmark t i) FD_CLOEXEC = c.
Proof. rewrite lookup_view. destruct (Z.eqb_spec (slot t i) 0); [done|]. by intros [= <- <-]. Qed.

Lemma view_None t i : view t !! i = None <-> slot t i = 0.
Proof. rewrite lookup_view. by destruct (Z.eqb_spec (slot t i) 0). Qed.

(** ** Changes of cells and views *)

Definition same_cells (t t' : fdtable) : Prop := forall i, cell t' i = cell t i.
Definition one_cell (i : Z) (c : Z * Z) (t t' : fdtable) : Prop := forall j, cell t' j = if decide (j = i) then c else cell t j.

Lemma same_slot t t' i : same_cells t t' -> slot t' i = slot t i.
Proof. intros H. exact (f_equal fst (H i)). Qed.

Lemma one_slot i c t t' j : one_cell i c t t' -> slot t' j = if decide (j = i) then c.1 else slot t j.
Proof. intros H. pose proof (f_equal fst (H j)) as E. cbn [fst cell] in E. rewrite E. by destruct (decide (j = i)). Qed.

Lemma view_same t t' : same_cells t t' -> view t' = view t.
Proof. intros H. apply map_eq. intros i. rewrite !lookup_view. by injection (H i) as -> ->. Qed.

Lemma view_one i f g t t' : one_cell i (f, g) t t' -> view t' = if f =? 0 then delete i (view t) else <[i := (f, flag g FD_CLOEXEC)]> (view t).
Proof.
  intros H. apply map_eq. intros j. rewrite lookup_view. pose proof (H j) as E. unfold cell in E. destruct (decide (j = i)) as [->|Hne].
  - injection E as -> ->. destruct (Z.eqb_spec f 0); [by rewrite lookup_delete_eq|by rewrite lookup_insert_eq].
  - injection E as -> ->. destruct (Z.eqb_spec f 0); [rewrite lookup_delete_ne by done|rewrite lookup_insert_ne by done]; by rewrite lookup_view.
Qed.

Lemma same_refl t : same_cells t t.
Proof. done. Qed.

Lemma same_trans t t1 t2 : same_cells t t1 -> same_cells t1 t2 -> same_cells t t2.
Proof. intros H1 H2 i. by rewrite H2. Qed.

Lemma same_one i c t t1 t2 : same_cells t t1 -> one_cell i c t1 t2 -> one_cell i c t t2.
Proof. intros H1 H2 j. by rewrite H2, H1. Qed.

Lemma one_same i c t t1 t2 : one_cell i c t t1 -> same_cells t1 t2 -> one_cell i c t t2.
Proof. intros H1 H2 j. by rewrite H2. Qed.

Lemma same_clean t t' : same_cells t t' -> clean t -> clean t'.
Proof. intros H Hc i. injection (H i) as -> ->. apply Hc. Qed.

Lemma one_clean i c t t' : one_cell i c t t' -> (c.1 = 0 -> c.2 = 0) -> clean t -> clean t'.
Proof. intros H Hz Hc j. pose proof (H j) as E. destruct (decide (j = i)) as [->|]; [destruct c; injection E as -> ->; exact Hz|injection E as -> ->; apply Hc]. Qed.

(** ** One slot *)

Lemma slot_insert (l : list Z) i j v : (Z.to_nat i < length l)%nat -> 0 <= i -> 0 <= j ->
  nth (Z.to_nat j) (<[Z.to_nat i := v]> l) 0 = if decide (j = i) then v else nth (Z.to_nat j) l 0.
Proof.
  intros Hl Hi Hj. rewrite !nth_lookup. destruct (decide (j = i)) as [->|Hne]; [by rewrite list_lookup_insert_eq|].
  rewrite list_lookup_insert_ne by lia. done.
Qed.

Lemma wf_len t i : table_wf t -> 0 <= i < capacity t -> (Z.to_nat i < length (entries t))%nat /\ (Z.to_nat i < length (fdflags t))%nat.
Proof. intros W Hi. rewrite (tw_entries t W), (tw_flags t W). unfold WORDS, BYTES. destruct (tw_cap t W) as [?|[?|?]]; lia. Qed.

Lemma put_cell t i v : table_wf t -> 0 <= i < capacity t -> one_cell i (v, fmark t i) t (put i v t).
Proof.
  intros W Hi j. destruct (wf_len t i W Hi) as [Hl _]. unfold cell, slot, fmark. change (capacity (put i v t)) with (capacity t). change (fdflag (put i v t) j) with (fdflag t j).
  destruct (Z.leb_spec 0 j), (Z.ltb_spec j (capacity t)); cbn [andb]; [|by rewrite decide_False by lia..].
  unfold entry at 1, put. cbn [entries set_entries]. rewrite slot_insert by lia. destruct (decide (j = i)) as [->|]; [|done].
  rewrite (proj2 (Z.leb_le _ _)), (proj2 (Z.ltb_lt _ _)) by lia. done.
Qed.

Lemma put_flag_cell t i g : table_wf t -> 0 <= i < capacity t -> one_cell i (slot t i, g) t (put_flag i g t).
Proof.
  intros W Hi j. destruct (wf_len t i W Hi) as [_ Hl]. unfold cell, slot, fmark. change (capacity (put_flag i g t)) with (capacity t). change (entry (put_flag i g t) j) with (entry t j).
  destruct (Z.leb_spec 0 j), (Z.ltb_spec j (capacity t)); cbn [andb]; [|by rewrite decide_False by lia..].
  unfold fdflag at 1, put_flag. cbn [fdflags set_fdflags]. rewrite slot_insert by lia. destruct (decide (j = i)) as [->|]; [|done].
  rewrite (proj2 (Z.leb_le _ _)), (proj2 (Z.ltb_lt _ _)) by lia. done.
Qed.

Lemma put_wf t i v : table_wf t -> 0 <= i < capacity t -> i < nfds t \/ v = 0 -> table_wf (put i v t).
Proof.
  intros W Hi Hv. split; [unfold put; cbn [entries set_entries]; rewrite length_insert; apply W|apply W|apply W|apply W|].
  intros j Hj. change (nfds (put i v t)) with (nfds t) in Hj. rewrite (one_slot _ _ _ _ _ (put_cell t i v W Hi)). destruct (decide (j = i)) as [->|]; [destruct Hv as [?| ->]; [lia|done]|]. by apply (tw_top t W).
Qed.

Lemma put_flag_wf t i v : table_wf t -> table_wf (put_flag i v t).
Proof. intros W. split; [apply W|unfold put_flag; cbn [fdflags set_fdflags]; rewrite length_insert; apply W|apply W|apply W|exact (tw_top t W)]. Qed.

Lemma put_both t i v g : table_wf t -> 0 <= i < capacity t -> i < nfds t \/ v = 0 ->
  table_wf (put_flag i g (put i v t)) /\ one_cell i (v, g) t (put_flag i g (put i v t)).
Proof.
  intros W Hi Hv. pose proof (put_wf t i v W Hi Hv) as W1. split; [by apply put_flag_wf|].
  intros j. rewrite (put_flag_cell (put i v t) i g W1 Hi j). pose proof (put_cell t i v W Hi) as P. destruct (decide (j = i)) as [->|Hne].
  - rewrite (one_slot _ _ _ _ _ P). by rewrite decide_True.
  - rewrite (P j). by rewrite decide_False.
Qed.

Lemma hint_wf t v : table_wf t -> table_wf (set_hint v t).
Proof. intros W. split; [apply W|apply W|apply W|apply W|exact (tw_top t W)]. Qed.

Lemma nfds_wf t v : table_wf t -> nfds t <= v <= capacity t -> table_wf (set_nfds v t).
Proof. intros W Hv. pose proof (tw_nfds t W). split; [apply W|apply W|apply W|cbn; lia|]. intros i Hi. cbn [nfds set_nfds] in Hi. apply (tw_top t W). lia. Qed.

(** ** Clearing a descriptor *)

Lemma trim_spec n t : table_wf t -> table_wf (trim n t) /\ same_cells t (trim n t) /\ capacity (trim n t) = capacity t /\ next_fd_hint (trim n t) = next_fd_hint t.
Proof.
  revert t. induction n as [|n IH]; intros t W; cbn [trim]; [done|]. destruct (Z.gtb_spec (nfds t) 0); cbn [andb]; [|done].
  destruct (Z.eqb_spec (entry t (nfds t - 1)) 0) as [E|]; [|done]. pose proof (tw_nfds t W). apply (IH (set_nfds (nfds t - 1) t)).
  split; [apply W|apply W|apply W|cbn; lia|]. intros i Hi. cbn [nfds set_nfds] in Hi. change (slot t i = 0). destruct (decide (i = nfds t - 1)) as [->|]; [rewrite slot_in by lia; exact E|apply (tw_top t W); lia].
Qed.

Lemma fd_clear_spec t fd : table_wf t -> 0 <= fd < nfds t ->
  table_wf (fd_clear fd t) /\ one_cell fd (0, 0) t (fd_clear fd t) /\ capacity (fd_clear fd t) = capacity t /\ (low_hint t -> low_hint (fd_clear fd t)).
Proof.
  intros W Hfd. pose proof (tw_nfds t W) as Hn. unfold fd_clear. rewrite (proj2 (Z.ltb_ge _ _)), Z.geb_leb, (proj2 (Z.leb_gt _ _)) by lia. cbn [orb].
  destruct (put_both t fd 0 0 W ltac:(lia) (or_intror eq_refl)) as [W1 C1]. set (t1 := put_flag fd 0 (put fd 0 t)) in *.
  set (t2 := if fd <? next_fd_hint t1 then set_hint fd t1 else t1). assert (H2 : table_wf t2 /\ same_cells t1 t2 /\ capacity t2 = capacity t /\ next_fd_hint t2 = Z.min fd (next_fd_hint t)).
  { change (next_fd_hint t) with (next_fd_hint t1). change (capacity t) with (capacity t1). unfold t2. clearbody t1. destruct (Z.ltb_spec fd (next_fd_hint t1)); (split; [by (done || apply hint_wf)|]; split; [done|]; split; [done|cbn [next_fd_hint set_hint]; lia]). }
  clearbody t2. destruct H2 as (W2 & S2 & C2 & N2).
  destruct (trim_spec (Z.to_nat (nfds t2)) t2 W2) as (W3 & S3 & C3 & N3). assert (C : one_cell fd (0, 0) t (trim (Z.to_nat (nfds t2)) t2)) by (eapply one_same; [eapply one_same; [exact C1|exact S2]|exact S3]).
  split; [exact W3|]. split; [exact C|]. split; [congruence|]. intros Hl i Hi. rewrite N3, N2 in Hi. rewrite (one_slot _ _ _ _ _ C). rewrite decide_False by lia. apply Hl. lia.
Qed.

(** A descriptor that is open above keeps a slot below [nfds]. *)
Lemma below_open t i j : table_wf t -> i < j -> slot t j <> 0 -> i < nfds t.
Proof. intros W Hij Hj. pose proof (slot_bound t j W Hj). lia. Qed.

(** ** Growing a table *)

(** The contract of the kernel heap: [heap_ok k A], the objects at [A] are allocated. *)
Class HeapLaws (K : Type) `{Heap K} := {
  heap_ok : K -> gset Z -> Prop;
  kmalloc_law k A a k' : heap_ok k A -> kmalloc k = (a, k') -> (a = 0 /\ heap_ok k' A) \/ ((KERNBASE <= a < 4294967296) /\ (a ∉ A) /\ heap_ok k' ({[a]} ∪ A));
  kmalloc_free_law k A a : heap_ok k A -> a ∈ A -> heap_ok (kmalloc_free a k) (A ∖ {[a]});
  kalloc_words_law k A o k' : heap_ok k A -> kalloc_words k = (o, k') -> heap_ok k' A /\ forall w, o = Some w -> length w = WORDS;
  kalloc_bytes_law k A o k' : heap_ok k A -> kalloc_bytes k = (o, k') -> heap_ok k' A /\ forall w, o = Some w -> length w = BYTES;
  kfree_law k A : heap_ok k A -> heap_ok (kfree k) A
}.

Section Tables.
Context {K : Type} {Hp : Heap K} {HL : HeapLaws K}.

(** A table before and after a change that moves no descriptor. *)
Record kept (t t' : fdtable) : Prop := {
  kt_wf : table_wf t';
  kt_cells : same_cells t t';
  kt_cap : capacity t <= capacity t';
  kt_nfds : nfds t <= nfds t';
  kt_hint : next_fd_hint t' = next_fd_hint t
}.

Lemma files_kept_refl t : table_wf t -> kept t t.
Proof. intros W. split; [done|done|lia|lia|done]. Qed.

Lemma files_kept_trans t t1 t2 : kept t t1 -> kept t1 t2 -> kept t t2.
Proof. intros [A1 A2 A3 A4 A5] [B1 B2 B3 B4 B5]. split; [done|by eapply same_trans|lia|lia|congruence]. Qed.

Lemma kept_view t t' : kept t t' -> view t' = view t.
Proof. intros H. apply view_same, H. Qed.

Lemma kept_low t t' : kept t t' -> low_hint t -> low_hint t'.
Proof. intros H Hl i Hi. rewrite (same_slot t t') by apply H. apply Hl. by rewrite <- (kt_hint t t' H). Qed.

Lemma kept_ok t t' : kept t t' -> clean t -> table_ok t'.
Proof. intros H Hc. split; [apply H|]. by apply (same_clean t); [apply H|]. Qed.

Lemma kept_nfds t v : table_wf t -> nfds t <= v <= capacity t -> kept t (set_nfds v t).
Proof. intros W Hv. split; [by apply nfds_wf|done|cbn; lia|cbn; lia|done]. Qed.

Lemma nth_expand (es words : list Z) c n i : (c <= n)%nat -> (c <= length es)%nat -> (i < n)%nat ->
  nth i (take c es ++ replicate (n - c) 0 ++ drop n words) 0 = if decide (i < c)%nat then nth i es 0 else 0.
Proof.
  intros Hcn Hc Hi. rewrite !nth_lookup. destruct (decide (i < c)%nat) as [Hlt|Hge].
  - rewrite lookup_app_l by (rewrite length_take; lia). by rewrite lookup_take_lt.
  - rewrite lookup_app_r by (rewrite length_take; lia). rewrite length_take, Nat.min_l by lia. rewrite lookup_app_l by (rewrite length_replicate; lia).
    destruct (replicate (n - c) 0 !! (i - c)%nat) eqn:E; [|done]. by apply lookup_replicate in E as [-> _].
Qed.

Lemma expand_spec t k A : table_wf t -> heap_ok k A -> let '(r, t', k') := fdtable_expand t k in
  heap_ok k' A /\ ((r = -1 /\ t' = t) \/ (r = 0 /\ kept t t' /\ capacity t' = (if capacity t =? 32 then 288 else 576) /\ nfds t' = nfds t)).
Proof.
  intros W Hk. unfold fdtable_expand. set (n := if capacity t >? 256 then capacity t * 2 else capacity t + 256).
  assert (Hn : n = 288 /\ capacity t = 32 \/ n = 576 /\ capacity t = 288 \/ n = 1152) by (unfold n; destruct (tw_cap t W) as [E|[E|E]]; rewrite E; cbn; tauto).
  destruct (Z.gtb_spec (n *u 4) PGSIZE) as [|Hn4]; [split; [done|by left]|]. assert (Hn' : n = 288 /\ capacity t = 32 \/ n = 576 /\ capacity t = 288).
  { destruct Hn as [?|[?|E]]; [by left|by right|]. exfalso. rewrite E in Hn4. vm_compute in Hn4. by apply Hn4. }
  destruct (_ >? PGSIZE); [split; [done|by left]|]. destruct (kalloc_words k) as [o k1] eqn:E1. destruct (kalloc_words_law _ _ _ _ Hk E1) as [Hk1 Hw]. destruct o as [words|]; [|split; [done|by left]].
  destruct (kalloc_bytes k1) as [o k2] eqn:E2. destruct (kalloc_bytes_law _ _ _ _ Hk1 E2) as [Hk2 Hb]. destruct o as [bytes|]; [|split; [by apply kfree_law|by left]].
  split; [by apply kfree_law, kfree_law|]. right. split; [done|]. specialize (Hw words eq_refl). specialize (Hb bytes eq_refl). pose proof (tw_entries t W) as Le. pose proof (tw_flags t W) as Lf. unfold WORDS, BYTES in *.
  set (t' := mkFt _ _ n _ _). pose proof (tw_nfds t W) as Hnf.
  assert (Hs : same_cells t t').
  { intros i. destruct (Z.lt_ge_cases i 0); [by rewrite !cell_out by lia|]. destruct (Z.lt_ge_cases i n); [|by rewrite !cell_out by (cbn; lia)].
    unfold cell. rewrite slot_in, fmark_in by (cbn; lia). unfold entry, fdflag, t'. cbn [entries fdflags]. rewrite !nth_expand by lia.
    destruct (decide (Z.to_nat i < Z.to_nat (capacity t))%nat); [by rewrite slot_in, fmark_in by lia|]. symmetry. apply cell_out. lia. }
  split; [|split; [|done]; cbn [capacity t']; destruct Hn' as [[-> ->]|[-> ->]]; done]. split; [|exact Hs|cbn; lia|cbn; lia|done]. split; [| |cbn; lia|cbn; lia|].
  - unfold t', WORDS. cbn [entries]. rewrite !length_app, length_take, length_replicate, length_drop. lia.
  - unfold t', BYTES. cbn [fdflags]. rewrite !length_app, length_take, length_replicate, length_drop. lia.
  - intros i Hi. rewrite (same_slot t) by done. by apply (tw_top t W).
Qed.

Lemma grow_spec fuel fd t k A : table_wf t -> heap_ok k A -> let '(r, t', k') := grow_to fuel fd t k in
  heap_ok k' A /\ kept t t' /\ nfds t' = nfds t /\ ((r = -1 /\ (capacity t <= fd \/ fuel = 0%nat)) \/ (r = 0 /\ fd < capacity t')).
Proof.
  revert t k. induction fuel as [|fuel IH]; intros t k W Hk; cbn [grow_to]; [split; [done|]; split; [by apply files_kept_refl|]; split; [done|]; left; split; [done|by right]|].
  rewrite Z.geb_leb. destruct (Z.leb_spec (capacity t) fd); [|split; [done|]; split; [by apply files_kept_refl|]; split; [done|by right]].
  pose proof (expand_spec t k A W Hk) as E. destruct (fdtable_expand t k) as [[r t1] k1]. destruct E as [Hk1 [[-> ->]|(-> & K1 & _ & N1)]]; cbn [Z.ltb Z.compare].
  - split; [done|]. split; [by apply files_kept_refl|]. split; [done|]. left. split; [done|by left].
  - specialize (IH t1 k1 (kt_wf _ _ K1) Hk1). destruct (grow_to fuel fd t1 k1) as [[r2 t2] k2]. destruct IH as (Hk2 & K2 & N2 & C2).
    split; [done|]. split; [by apply (files_kept_trans t t1)|]. split; [congruence|]. destruct C2 as [[-> _]|C2]; [left; split; [done|by left]|by right].
Qed.

Lemma ensure_spec fd t k A : table_wf t -> heap_ok k A -> let '(r, t', k') := fd_ensure_slot fd t k in
  heap_ok k' A /\ kept t t' /\ ((r = -1 /\ (fd < 0 \/ capacity t <= fd)) \/ (r = 0 /\ 0 <= fd < nfds t')).
Proof.
  intros W Hk. unfold fd_ensure_slot. destruct (Z.ltb_spec fd 0); [split; [done|]; split; [by apply files_kept_refl|]; left; lia|].
  pose proof (grow_spec 4 fd t k A W Hk) as G. destruct (grow_to 4 fd t k) as [[r t1] k1]. destruct G as (Hk1 & K1 & N1 & [[-> [?|?]]|[-> Hc]]); cbn [Z.ltb Z.compare]; [split; [done|]; split; [done|]; left; lia|done|].
  pose proof (tw_nfds t1 (kt_wf _ _ K1)) as Hn. split; [done|]. rewrite Z.geb_leb. destruct (Z.leb_spec (nfds t1) fd).
  - split; [apply (files_kept_trans t t1); [done|]; apply kept_nfds; [apply K1|lia]|]. right. cbn. lia.
  - split; [done|]. right. lia.
Qed.

(** ** The next free descriptor *)

(** The first free slot from [fd] on. *)
Lemma fdscan_spec n fd limit f t : table_wf t -> clean t -> 0 <= fd -> fd + Z.of_nat n <= capacity t -> f <> 0 ->
  let '(r, t') := fd_scan n fd limit f t in
  match r with
  | Some i => table_wf t' /\ (fd <= i < fd + Z.of_nat n) /\ slot t i = 0 /\ (forall j, fd <= j < i -> slot t j <> 0) /\ one_cell i (f, 0) t t' /\ next_fd_hint t' = (if limit <=? i + 1 then 0 else i + 1)
  | None => kept t t' /\ capacity t' = capacity t /\ (forall j, fd <= j < fd + Z.of_nat n -> slot t j <> 0)
  end.
Proof.
  revert fd t. induction n as [|n IH]; intros fd t W Hcl Hfd Hc Hf; cbn [fd_scan]; [split; [by apply files_kept_refl|]; split; [done|lia]|].
  set (t1 := if fd >=? nfds t then set_nfds (fd + 1) t else t). pose proof (tw_nfds t W) as Hn.
  assert (W1 : kept t t1 /\ capacity t1 = capacity t /\ fd < nfds t1).
  { unfold t1. rewrite Z.geb_leb. destruct (Z.leb_spec (nfds t) fd); [split; [apply kept_nfds; [done|lia]|split; [done|cbn; lia]]|split; [by apply files_kept_refl|split; [done|lia]]]. }
  clearbody t1. destruct W1 as (K1 & C1 & N1). assert (W1 := kt_wf _ _ K1). assert (S1 := kt_cells _ _ K1). assert (E : entry t1 fd = slot t fd) by (rewrite <- (same_slot _ _ fd S1), slot_in by lia; done). rewrite E.
  destruct (Z.eqb_spec (slot t fd) 0) as [E0|E0].
  - assert (P : one_cell fd (f, 0) t (put fd f t1)).
    { apply (same_one _ _ _ t1); [done|]. assert (E1 : fmark t1 fd = 0) by (apply (same_clean t t1 S1 Hcl); by rewrite (same_slot t)). rewrite <- E1. apply put_cell; [done|lia]. }
    assert (W2 : table_wf (set_hint (fd + 1) (put fd f t1))) by (apply hint_wf, put_wf; [done|lia|by left]). cbn [next_fd_hint set_hint]. rewrite Z.geb_leb.
    split; [destruct (limit <=? fd + 1); [by apply hint_wf|done]|]. split; [lia|]. split; [done|]. split; [lia|]. split; [by destruct (limit <=? fd + 1)|]. by destruct (limit <=? fd + 1).
  - specialize (IH (fd + 1) t1 W1 (same_clean _ _ S1 Hcl) ltac:(lia) ltac:(lia) Hf). destruct (fd_scan n (fd + 1) limit f t1) as [[i|] t'].
    + destruct IH as (W' & Hi & E1 & Hbelow & Hs & Hh). split; [done|]. split; [lia|]. split; [by rewrite <- (same_slot _ _ i S1)|].
      split; [intros j Hj; destruct (decide (j = fd)) as [->|]; [done|]; rewrite <- (same_slot _ _ j S1); apply Hbelow; lia|]. split; [by apply (same_one _ _ _ t1)|done].
    + destruct IH as (K' & C' & Hall). split; [by apply (files_kept_trans t t1)|]. split; [congruence|]. intros j Hj. destruct (decide (j = fd)) as [->|]; [done|]. rewrite <- (same_slot _ _ j S1). apply Hall. lia.
Qed.

(** [fdalloc] puts the file into a free slot below the limit, the lowest one
    when the hint is right; it fails when there is none, or no memory. *)
Definition fdalloc_post (limit f : Z) (t : fdtable) (r : Z) (t' : fdtable) : Prop :=
  (r = -1 /\ kept t t' /\ (capacity t < limit \/ forall i, 0 <= i < limit -> slot t i <> 0)) \/
  ((0 <= r < limit) /\ table_wf t' /\ slot t r = 0 /\ one_cell r (f, 0) t t' /\ (low_hint t -> (forall i, 0 <= i < r -> slot t i <> 0) /\ low_hint t')).

Lemma scan_low start limit f i t t' : (start = 0 \/ start = next_fd_hint t) -> slot t i = 0 -> (forall j, start <= j < i -> slot t j <> 0) -> one_cell i (f, 0) t t' -> f <> 0 ->
  next_fd_hint t' = (if limit <=? i + 1 then 0 else i + 1) -> low_hint t -> (forall j, 0 <= j < i -> slot t j <> 0) /\ low_hint t'.
Proof.
  intros Hst _ Hb Hs Hf Hh Hl. assert (Hall : forall j, 0 <= j < i -> slot t j <> 0) by (intros j Hj; destruct (Z.lt_ge_cases j start); [apply Hl; lia|apply Hb; lia]).
  split; [done|]. intros j Hj. rewrite Hh in Hj. rewrite (one_slot _ _ _ _ _ Hs). destruct (decide (j = i)); [done|]. apply Hall. destruct (limit <=? i + 1); lia.
Qed.

Lemma fdalloc_spec limit f t k A : table_ok t -> heap_ok k A -> f <> 0 -> let '(r, t', k') := fdalloc limit f t k in heap_ok k' A /\ fdalloc_post limit f t r t'.
Proof.
  intros [W Hcl] Hk Hf. unfold fdalloc. pose proof (grow_spec 4 (limit - 1) t k A W Hk) as G. destruct (grow_to 4 (limit - 1) t k) as [[r t1] k1]. destruct G as (Hk1 & K1 & N1 & [[-> [?|?]]|[-> Hc]]); cbn [Z.ltb Z.compare]; [|done|].
  { split; [done|]. left. split; [done|]. split; [done|]. left. lia. }
  set (st1 := if (next_fd_hint t1 <? 0) || (next_fd_hint t1 >=? limit) then 0 else next_fd_hint t1). set (start := if st1 >=? nfds t1 then 0 else st1).
  assert (Hst : 0 <= start /\ (start = 0 \/ (start = next_fd_hint t1 /\ start < limit))).
  { unfold start. assert (0 <= st1 /\ (st1 = 0 \/ (st1 = next_fd_hint t1 /\ st1 < limit))) by (unfold st1; destruct (Z.ltb_spec (next_fd_hint t1) 0); cbn [orb]; [lia|]; rewrite Z.geb_leb; destruct (Z.leb_spec limit (next_fd_hint t1)); lia). destruct (st1 >=? nfds t1); lia. }
  clearbody start st1. assert (W1 := kt_wf _ _ K1). assert (S1 := kt_cells _ _ K1). assert (Hcl1 := same_clean _ _ S1 Hcl). pose proof (tw_nfds t1 W1) as Hn1.
  assert (Hfull : forall t2, kept t1 t2 -> (forall i, 0 <= i < limit -> slot t1 i <> 0) -> fdalloc_post limit f t (-1) t2).
  { intros t2 K2 Hall. left. split; [done|]. split; [by apply (files_kept_trans t t1)|]. right. intros i Hi. rewrite <- (same_slot _ _ i S1). by apply Hall. }
  assert (Hfound : forall i t2 t3 st, kept t1 t2 -> (st = 0 \/ st = next_fd_hint t2) -> 0 <= st -> table_wf t3 -> st <= i < limit -> slot t2 i = 0 -> (forall j, st <= j < i -> slot t2 j <> 0) ->
    one_cell i (f, 0) t2 t3 -> next_fd_hint t3 = (if limit <=? i + 1 then 0 else i + 1) -> fdalloc_post limit f t i t3).
  { intros i t2 t3 st K2 Hst2 Hst0 W3 Hi E0 Hb Hs Hh. assert (K02 := files_kept_trans _ _ _ K1 K2). assert (S02 := kt_cells _ _ K02). right. split; [lia|]. split; [done|]. split; [by rewrite <- (same_slot _ _ i S02)|]. split; [by apply (same_one _ _ _ t2)|].
    intros Hl. destruct (scan_low st limit f i t2 t3 Hst2 E0 Hb Hs Hf Hh (kept_low _ _ K02 Hl)) as [HA HB]. split; [|done]. intros j Hj. rewrite <- (same_slot _ _ j S02). by apply HA. }
  destruct (Z.lt_ge_cases limit start) as [Hneg|Hle].
  { assert (Es : start = 0) by lia. rewrite Es. replace (Z.to_nat (limit - 0)) with 0%nat by lia. cbn [fd_scan]. replace (Z.to_nat (if 0 <? limit then 0 else limit)) with 0%nat by (destruct (Z.ltb_spec 0 limit); lia). cbn [fd_scan].
    split; [done|]. apply Hfull; [by apply files_kept_refl|lia]. }
  pose proof (fdscan_spec (Z.to_nat (limit - start)) start limit f t1 W1 Hcl1 ltac:(lia) ltac:(lia) Hf) as H1. destruct (fd_scan (Z.to_nat (limit - start)) start limit f t1) as [[i|] t2].
  - destruct H1 as (W2 & Hi & E0 & Hb & Hs & Hh). split; [done|]. apply (Hfound i t1 t2 start (files_kept_refl _ W1)); [destruct Hst as [_ [?|[? _]]]; tauto|lia|done|lia|done..].
  - destruct H1 as (K2 & C2 & Hall). assert (W2 := kt_wf _ _ K2). assert (S2 := kt_cells _ _ K2).
    assert (Hb : 0 + Z.of_nat (Z.to_nat (if start <? limit then start else limit)) <= capacity t2) by (destruct (Z.ltb_spec start limit); lia).
    pose proof (fdscan_spec _ 0 limit f t2 W2 (same_clean _ _ S2 Hcl1) ltac:(lia) Hb Hf) as H3.
    destruct (fd_scan _ 0 limit f t2) as [[i|] t3].
    + destruct H3 as (W3 & Hi & E0 & Hbl & Hs & Hh). split; [done|]. apply (Hfound i t2 t3 0 K2); [by left|lia|done| |done..]. destruct (Z.ltb_spec start limit); lia.
    + destruct H3 as (K3 & _ & Hall3). split; [done|]. apply Hfull; [by apply (files_kept_trans t1 t2)|]. intros i Hi. destruct (Z.lt_ge_cases i start); [|apply Hall; lia]. rewrite <- (same_slot _ _ i S2). apply Hall3. destruct (Z.ltb_spec start limit); lia.
Qed.

End Tables.
