(* ===== verification/FdRefs.v ===== *)
(** * References to open files

    The file objects of [file.c]: each has as many references as there are
    descriptors that point to it; the last one closes it, once. *)

From S2P Require Import Prelude FdTable FdView.

(** ** Counting descriptors *)

(** How many descriptors of a view lead to the file at [a]. *)
Definition links (a : Z) (v : gmap Z (Z * bool)) : Z := Z.of_nat (size (filter (fun x => x.2.1 = a) v)).

Lemma links_insert a v i f c : v !! i = None -> links a (<[i := (f, c)]> v) = links a v + Z.b2z (f =? a).
Proof.
  intros Hv. unfold links. destruct (Z.eqb_spec f a) as [->|Hne].
  - rewrite map_filter_insert_True by done. rewrite map_size_insert_None by (apply map_lookup_filter_None; by left). cbn. lia.
  - rewrite map_filter_insert_not' by (cbn; (done || by rewrite Hv)). cbn. lia.
Qed.

Lemma links_delete a v i f c : v !! i = Some (f, c) -> links a (delete i v) = links a v - Z.b2z (f =? a).
Proof. intros Hv. rewrite <- (insert_delete_id v i (f, c) Hv) at 2. rewrite links_insert by apply lookup_delete_eq. lia. Qed.

Lemma links_nonneg a v : 0 <= links a v.
Proof. unfold links. lia. Qed.

Lemma links_pos v i f c : v !! i = Some (f, c) -> 0 < links f v.
Proof. intros Hv. pose proof (links_delete f v i f c Hv) as E. pose proof (links_nonneg f (delete i v)). rewrite Z.eqb_refl in E. cbn in E. lia. Qed.

Lemma links_zero a v : map_Forall (fun _ x => x.1 <> a) v -> links a v = 0.
Proof. intros H. unfold links. rewrite map_empty_filter_2; [done|]. intros i x Hx. by apply (H i x). Qed.

Lemma links_none a v : links a v = 0 -> map_Forall (fun _ x => x.1 <> a) v.
Proof. intros H i [f c] Hx E. cbn in E. subst f. pose proof (links_pos v i a c Hx). lia. Qed.

(** Replacing an entry. *)
Lemma links_replace a v i f c f' c' : v !! i = Some (f, c) -> links a (<[i := (f', c')]> v) = links a v - Z.b2z (f =? a) + Z.b2z (f' =? a).
Proof. intros Hv. rewrite <- insert_delete_eq, links_insert by apply lookup_delete_eq. by rewrite (links_delete a v i f c Hv). Qed.

(** ** File objects *)

(** The files of the cache, linked through their first word. *)
Fixpoint chain (F : gmap Z file) (h : Z) (C : list Z) : Prop :=
  match C with
  | [] => h = 0
  | a :: C => h = a /\ a <> 0 /\ exists x, F !! a = Some x /\ ref x = 0 /\ chain F (magic x) C
  end.

Lemma chain_other F F' h C : (forall a, a ∈ C -> F' !! a = F !! a) -> chain F h C -> chain F' h C.
Proof.
  revert h. induction C as [|b C IH]; intros h HF; cbn [chain]; [done|]. intros (Hh & Hb & x & Hx & Hr & Hc). split; [done|]. split; [done|]. exists x.
  split; [rewrite HF by (by left); done|]. split; [done|]. apply IH; [|done]. intros a Ha. apply HF. by right.
Qed.

Lemma chain_in F h C a : chain F h C -> a ∈ C -> exists x, F !! a = Some x /\ ref x = 0.
Proof.
  revert h. induction C as [|b C IH]; intros h Hc Ha; [by apply elem_of_nil in Ha|]. cbn [chain] in Hc. destruct Hc as (-> & Hb & x & Hx & Hr & Hc).
  apply elem_of_cons in Ha as [->|Ha]; [by exists x|]. by apply (IH (magic x)).
Qed.

(** What a file is, apart from its count. *)
Definition obj {K} (s : fstate K) (a : Z) : option file := set_ref 0 <$> files s !! a.

Section Refs.
Context {K : Type} {Hp : Heap K} {HL : HeapLaws K}.
Context (dev_major : Z -> option Z).
Implicit Types (s : fstate K) (n m : Z -> Z).

(** The state of [file.c] when [n] says how many references there are: the
    objects that are not open are the cache. *)
Record fs_ok (s : fstate K) (n : Z -> Z) : Prop := {
  fo_heap : heap_ok (heap s) (dom (files s));
  fo_cache : exists C, NoDup C /\ chain (files s) (cache_head s) C /\ cache_count s = len C /\ len C <= FILE_CACHE_MAX /\ (forall a x, files s !! a = Some x -> 0 < n a \/ a ∈ C);
  fo_addr a x : files s !! a = Some x -> KERNBASE <= a < 4294967296;
  fo_ref a : 0 <= n a;
  fo_live a : 0 < n a -> exists x, files s !! a = Some x /\ magic x = FILE_MAGIC /\ ref x = n a
}.

Lemma fs_ok_ext s n n' : (forall a, n' a = n a) -> fs_ok s n -> fs_ok s n'.
Proof.
  intros E [H1 H2 H3 H4 H5]. split; [done| |done|intros a; by rewrite E|].
  - destruct H2 as (C & ? & ? & ? & ? & Hall). exists C. do 4 (split; [done|]). intros a x Hx. rewrite E. by apply (Hall a x).
  - intros a Ha. rewrite E in *. by apply H5.
Qed.

Lemma fs_ok_heap s n k : fs_ok s n -> heap_ok k (dom (files s)) -> fs_ok (set_heap k s) n.
Proof. intros [H1 H2 H3 H4 H5] Hk. by split. Qed.

(** One more reference, one less. *)
Definition inc (f : Z) (n : Z -> Z) (a : Z) : Z := n a + Z.b2z (f =? a).
Definition dec (f : Z) (n : Z -> Z) (a : Z) : Z := n a - Z.b2z (f =? a).

Lemma inc_eq f n : inc f n f = n f + 1.
Proof. unfold inc. rewrite Z.eqb_refl. done. Qed.
Lemma inc_ne f n a : f <> a -> inc f n a = n a.
Proof. intros H. unfold inc. rewrite (proj2 (Z.eqb_neq _ _)) by done. cbn. lia. Qed.
Lemma dec_eq f n : dec f n f = n f - 1.
Proof. unfold dec. rewrite Z.eqb_refl. done. Qed.
Lemma dec_ne f n a : f <> a -> dec f n a = n a.
Proof. intros H. unfold dec. rewrite (proj2 (Z.eqb_neq _ _)) by done. cbn. lia. Qed.

(** What a run of calls does to the files: [l] lists the ones closed, with the calls made for each. *)
Record fs_step (s : fstate K) (n : Z -> Z) (s' : fstate K) (n' : Z -> Z) (l : list (Z * list call)) : Prop := {
  st_ok : fs_ok s' n';
  st_old a : 0 < n' a -> 0 < n a;
  st_closed : closed s' = closed s ++ l;
  st_nodup : NoDup l.*1;
  st_gone a : a ∈ l.*1 <-> 0 < n a /\ n' a = 0;
  st_calls a cs : (a, cs) ∈ l -> exists x, obj s a = Some x /\ cs = close_calls dev_major x;
  st_obj a : 0 < n' a -> obj s' a = obj s a
}.

Lemma step_refl s n : fs_ok s n -> fs_step s n s n [].
Proof. intros H. split; [done|done|by rewrite app_nil_r|constructor| |intros a cs Ha; by apply elem_of_nil in Ha|done]. intros a. cbn. split; [intros Ha; by apply elem_of_nil in Ha|lia]. Qed.

Lemma step_trans s n s1 n1 l1 s2 n2 l2 : fs_step s n s1 n1 l1 -> fs_step s1 n1 s2 n2 l2 -> fs_step s n s2 n2 (l1 ++ l2).
Proof.
  intros A B. pose proof (fo_ref _ _ (st_ok _ _ _ _ _ A)) as P1. pose proof (fo_ref _ _ (st_ok _ _ _ _ _ B)) as P2. split; [apply B| | | | | |].
  - intros a Ha. by apply (st_old _ _ _ _ _ A), (st_old _ _ _ _ _ B).
  - rewrite (st_closed _ _ _ _ _ B), (st_closed _ _ _ _ _ A). by rewrite app_assoc.
  - rewrite fmap_app. apply NoDup_app. split; [apply A|]. split; [|apply B]. intros a H1 H2. apply (st_gone _ _ _ _ _ A) in H1. apply (st_gone _ _ _ _ _ B) in H2. lia.
  - intros a. rewrite fmap_app, elem_of_app, (st_gone _ _ _ _ _ A), (st_gone _ _ _ _ _ B). specialize (P1 a). specialize (P2 a). pose proof (st_old _ _ _ _ _ A a). pose proof (st_old _ _ _ _ _ B a). lia.
  - intros a cs Ha. apply elem_of_app in Ha as [Ha|Ha]; [by apply (st_calls _ _ _ _ _ A)|]. destruct (st_calls _ _ _ _ _ B a cs Ha) as (x & Hx & Hc). exists x. split; [|done]. rewrite <- (st_obj _ _ _ _ _ A); [done|].
    assert (Hin : a ∈ l2.*1) by (apply list_elem_of_fmap; by exists (a, cs)). by apply (st_gone _ _ _ _ _ B) in Hin as [? _].
  - intros a Ha. rewrite (st_obj _ _ _ _ _ B a Ha). apply (st_obj _ _ _ _ _ A). by apply (st_old _ _ _ _ _ B).
Qed.

Lemma step_ext s n m s' n' m' l : (forall a, m a = n a) -> (forall a, m' a = n' a) -> fs_step s n s' n' l -> fs_step s m s' m' l.
Proof.
  intros E E' [H1 H2 H3 H4 H5 H6 H7]. split; [by apply (fs_ok_ext s' n')|intros a; rewrite E, E'; apply H2|done|done|intros a; rewrite E, E'; apply H5|done|intros a; rewrite E'; apply H7].
Qed.

Lemma step_heap s n k : fs_ok s n -> heap_ok k (dom (files s)) -> fs_step s n (set_heap k s) n [].
Proof. intros H Hk. destruct (step_refl s n H) as [_ H2 H3 H4 H5 H6 H7]. split; [by apply fs_ok_heap|done..]. Qed.

(** An open file's pointer passes the checks. *)
Lemma valid_live s n f : fs_ok s n -> 0 < n f -> file_handle_valid f s = Some true /\ f <> 0.
Proof.
  intros Hs Hf. destruct (fo_live s n Hs f Hf) as (x & Hx & Hm & Hr). pose proof (fo_addr s n Hs f x Hx) as Ha. unfold KERNBASE in Ha.
  unfold file_handle_valid. rewrite (proj2 (Z.eqb_neq _ _)) by lia. unfold KERNBASE. rewrite (proj2 (Z.ltb_ge _ _)) by lia. rewrite Hx, Hm, Z.eqb_refl, Hr. rewrite (proj2 (Z.ltb_ge _ _)) by lia. split; [done|lia].
Qed.

Lemma chain_live s n C a : fs_ok s n -> chain (files s) (cache_head s) C -> 0 < n a -> ~ a ∈ C.
Proof. intros Hs Hc Ha Hin. destruct (chain_in _ _ _ _ Hc Hin) as (x & Hx & Hr). destruct (fo_live s n Hs a Ha) as (y & Hy & _ & Hry). rewrite Hx in Hy. injection Hy as <-. lia. Qed.
(** A new count for an open file. *)
Lemma recount s n f x g v n' : fs_ok s n -> 0 < n f -> files s !! f = Some x -> g x = set_ref v x -> 0 < v -> n' f = v -> (forall a, a <> f -> n' a = n a) ->
  fs_step s n (upd_file f g s) n' [] /\ dom (files (upd_file f g s)) = dom (files s).
Proof.
  intros Hs Hf Hx Hg Hv Hnf Hno. assert (HF : files (upd_file f g s) = <[f := set_ref v x]> (files s)).
  { unfold upd_file. cbn [files]. apply map_eq. intros a. destruct (decide (a = f)) as [->|]; [rewrite lookup_alter_eq, lookup_insert_eq, Hx; cbn; by rewrite Hg|by rewrite lookup_alter_ne, lookup_insert_ne]. }
  assert (Hd : dom (<[f := set_ref v x]> (files s)) = dom (files s)) by (rewrite dom_insert_L; apply elem_of_dom_2 in Hx as ?; set_solver).
  assert (Hpos : forall a, 0 < n a <-> 0 < n' a) by (intros a; destruct (decide (a = f)) as [->|]; [lia|by rewrite Hno]).
  destruct (fo_live s n Hs f Hf) as (y & Hy & Hm & Hr). rewrite Hx in Hy. injection Hy as <-.
  split; [|by rewrite HF]. split; [|intros a; apply Hpos|by rewrite app_nil_r|constructor| |intros a cs Ha; by apply elem_of_nil in Ha|].
  - split; [rewrite HF, Hd; apply Hs| | |intros a; destruct (decide (a = f)) as [->|]; [lia|rewrite Hno by done; apply Hs]|].
    + destruct (fo_cache s n Hs) as (C & HN & Hc & Hcnt & Hmax & Hall). exists C. split; [done|]. split.
      { rewrite HF. apply (chain_other (files s)); [|done]. intros a Ha. rewrite lookup_insert_ne; [done|]. intros <-. by apply (chain_live s n C f Hs Hc). }
      split; [done|]. split; [done|]. rewrite HF. intros a y. destruct (decide (a = f)) as [->|]; [intros _; left; lia|]. rewrite lookup_insert_ne by done. rewrite <- Hpos. apply Hall.
    + rewrite HF. intros a y. destruct (decide (a = f)) as [->|]; [intros _; by apply (fo_addr s n Hs f x)|]. rewrite lookup_insert_ne by done. apply (fo_addr s n Hs).
    + rewrite HF. intros a Ha. destruct (decide (a = f)) as [->|Hne]; [rewrite lookup_insert_eq; eexists; split; [done|]; split; [done|by rewrite Hnf]|]. rewrite Hno in * by done. rewrite lookup_insert_ne by done. by apply (fo_live s n Hs).
  - intros a. cbn. split; [intros Ha; by apply elem_of_nil in Ha|]. specialize (Hpos a). lia.
  - intros a _. unfold obj. rewrite HF. destruct (decide (a = f)) as [->|]; [by rewrite lookup_insert_eq, Hx|by rewrite lookup_insert_ne].
Qed.

(** [filedup] on an open file. *)
Lemma filedup_spec s n f : fs_ok s n -> 0 < n f -> exists s', filedup f s = Some (f, s') /\ fs_step s n s' (inc f n) [].
Proof.
  intros Hs Hf. destruct (valid_live s n f Hs Hf) as [Hv _]. unfold filedup. rewrite Hv. eexists. split; [reflexivity|]. destruct (fo_live s n Hs f Hf) as (x & Hx & _ & Hr).
  apply (recount s n f x _ (ref x + 1)); [done|done|done|done|lia|rewrite inc_eq; lia|]. intros a Ha. by apply inc_ne.
Qed.

(** The last reference goes: the object into the cache, or back to the heap. *)
Lemma drop_last s n f s' cs : fs_ok s n -> n f = 1 -> obj s f = Some cs ->
  fs_ok s' (dec f n) -> closed s' = closed s ++ [(f, close_calls dev_major cs)] -> (forall a, a <> f -> files s' !! a = files s !! a) ->
  fs_step s n s' (dec f n) [(f, close_calls dev_major cs)].
Proof.
  intros Hs Hf Ho Hok Hc HF. split; [done| |done| | | |].
  - intros a. destruct (decide (f = a)) as [<-|]; [lia|]. by rewrite dec_ne.
  - apply NoDup_singleton.
  - intros a. cbn. rewrite list_elem_of_singleton. split; [intros ->; rewrite dec_eq; lia|]. intros [H1 H2]. destruct (decide (f = a)); [done|]. rewrite dec_ne in H2 by done. lia.
  - intros a l Ha. apply list_elem_of_singleton in Ha as [= -> ->]. by exists cs.
  - intros a Ha. unfold obj. rewrite HF; [done|]. intros ->. rewrite dec_eq in Ha. lia.
Qed.

Lemma fileclose_spec s n f : fs_ok s n -> 0 < n f -> exists s' l, fileclose dev_major f s = Some s' /\ fs_step s n s' (dec f n) l.
Proof.
  intros Hs Hf. destruct (valid_live s n f Hs Hf) as [Hv Hf0]. unfold fileclose. rewrite Hv. destruct (fo_live s n Hs f Hf) as (x & Hx & Hm & Hr). rewrite Hx.
  destruct (Z.gtb_spec (ref x - 1) 0) as [Hgt|Hle]; [do 2 eexists; split; [reflexivity|]; apply (recount s n f x _ (ref x - 1)); [done|done|done|done|lia|rewrite dec_eq; lia|intros a Ha; by apply dec_ne]|]. assert (Hr1 : ref x = 1) by lia.
  cbn [cache_count cache_head files closed heap]. replace (set_ref (ref x - 1) x) with (set_ref 0 x) by (by rewrite Hr1).
  assert (Ho : obj s f = Some (set_ref 0 x)) by (unfold obj; by rewrite Hx). destruct (fo_cache s n Hs) as (C & HN & Hc & Hcnt & Hmax & Hall).
  assert (HfC : ~ f ∈ C) by (by apply (chain_live s n)). pose proof (fo_addr s n Hs f x Hx) as Haddr. unfold FILE_CACHE_MAX in *.
  assert (Hpos : forall a, a <> f -> dec f n a = n a) by (intros a Ha; by apply dec_ne).
  assert (Hge : forall a, 0 <= dec f n a) by (intros a; destruct (decide (a = f)) as [->|]; [rewrite dec_eq; lia|rewrite Hpos by done; apply Hs]).
  destruct (Z.ltb_spec (cache_count s) 512) as [Hlt|Hfull]; do 2 eexists; (split; [reflexivity|]); apply (drop_last s n f); try done; try lia.
  - set (x' := set_magic (cache_head s) (set_type FD_NONE (set_magic 0 (set_ref 0 x)))).
    assert (HF : alter (set_magic (cache_head s)) f (<[f := set_type FD_NONE (set_magic 0 (set_ref 0 x))]> (files s)) = <[f := x']> (files s)) by (apply map_eq; intros a; destruct (decide (a = f)) as [->|]; [by rewrite lookup_alter_eq, !lookup_insert_eq|by rewrite lookup_alter_ne, !lookup_insert_ne]).
    split; cbn [heap files cache_head cache_count]; rewrite ?HF.
    + rewrite dom_insert_L. replace ({[f]} ∪ dom (files s)) with (dom (files s)) by (apply elem_of_dom_2 in Hx as ?; set_solver). apply Hs.
    + exists (f :: C). split; [by constructor|]. unfold len in *. split; [cbn [chain]; split; [done|]; split; [done|]; exists x'; rewrite lookup_insert_eq; split; [done|]; split; [done|]; apply (chain_other (files s)); [intros a Ha; rewrite lookup_insert_ne by (intros <-; done); done|exact Hc]|].
      split; [rewrite u32_small by (unfold is_u32; lia); cbn [length]; lia|]. split; [cbn [length]; unfold FILE_CACHE_MAX; lia|]. intros a y. destruct (decide (a = f)) as [->|]; [intros _; right; by left|]. rewrite lookup_insert_ne by done. intros Hy. rewrite Hpos by done. destruct (Hall a y Hy); [by left|right; by right].
    + intros a y. destruct (decide (a = f)) as [->|]; [done|]. rewrite lookup_insert_ne by done. apply (fo_addr s n Hs).
    + done.
    + intros a Ha. destruct (decide (a = f)) as [->|]; [rewrite dec_eq in Ha; lia|]. rewrite lookup_insert_ne by done. rewrite Hpos in * by done. by apply (fo_live s n Hs).
  - intros a Ha. cbn [files]. rewrite lookup_alter_ne, lookup_insert_ne by done. done.
  - assert (HF : delete f (<[f := set_type FD_NONE (set_magic 0 (set_ref 0 x))]> (files s)) = delete f (files s)) by apply delete_insert_eq.
    split; cbn [heap files cache_head cache_count]; rewrite ?HF.
    + rewrite dom_delete_L. apply kmalloc_free_law; [apply Hs|by apply elem_of_dom_2 in Hx].
    + exists C. split; [done|]. split; [apply (chain_other (files s)); [|done]; intros a Ha; rewrite lookup_delete_ne by (intros <-; done); done|]. split; [done|]. split; [done|]. intros a y. destruct (decide (a = f)) as [->|]; [by rewrite lookup_delete_eq|]. rewrite lookup_delete_ne by done. rewrite Hpos by done. apply Hall.
    + intros a y. destruct (decide (a = f)) as [->|]; [by rewrite lookup_delete_eq|]. rewrite lookup_delete_ne by done. apply (fo_addr s n Hs).
    + done.
    + intros a Ha. destruct (decide (a = f)) as [->|]; [rewrite dec_eq in Ha; lia|]. rewrite lookup_delete_ne by done. rewrite Hpos in * by done. by apply (fo_live s n Hs).
  - intros a Ha. cbn [files]. rewrite lookup_delete_ne, lookup_insert_ne by done. done.
Qed.

(** A new file has one reference; nothing else changes. *)
Lemma filealloc_spec s n : fs_ok s n -> let (f, s') := filealloc s in
  (f = 0 /\ fs_step s n s' n []) \/
  (f <> 0 /\ n f = 0 /\ fs_ok s' (inc f n) /\ files s' = <[f := new_file]> (files s) /\ closed s' = closed s).
Proof.
  intros Hs. unfold filealloc. destruct (fo_cache s n Hs) as (C & HN & Hc & Hcnt & Hmax & Hall).
  assert (Hn0 : forall a, (~ exists x, files s !! a = Some x) -> n a = 0) by (intros a Ha; pose proof (fo_ref s n Hs a); destruct (decide (0 < n a)) as [Hp0|]; [destruct (fo_live s n Hs a Hp0) as (x & Hx & _); exfalso; apply Ha; by exists x|lia]).
  assert (Hlive : forall f, n f = 0 -> forall a, 0 < inc f n a -> exists x, <[f := new_file]> (files s) !! a = Some x /\ magic x = FILE_MAGIC /\ ref x = inc f n a).
  { intros f Hf a Ha. destruct (decide (f = a)) as [<-|Hne]; [rewrite lookup_insert_eq, inc_eq, Hf; by exists new_file|]. rewrite inc_ne in * by done. rewrite lookup_insert_ne by done. by apply (fo_live s n Hs). }
  assert (Hge : forall f a, 0 <= inc f n a) by (intros f a; unfold inc; pose proof (fo_ref s n Hs a); destruct (f =? a); cbn; lia).
  assert (Hgt : forall f a, 0 < n a -> 0 < inc f n a) by (intros f a; unfold inc; destruct (f =? a); cbn; lia).
  destruct C as [|f C]; cbn [chain] in Hc.
  - rewrite Hc. cbn [Z.eqb negb]. destruct (kmalloc (heap s)) as [f k] eqn:E. destruct (kmalloc_law _ _ _ _ (fo_heap s n Hs) E) as [[-> Hk]|(Ha & Hf & Hk)]; [left; split; [done|by apply step_heap]|].
    unfold KERNBASE in Ha. rewrite (proj2 (Z.eqb_neq f 0)) by lia. right. split; [lia|]. assert (Hnf : n f = 0) by (apply Hn0; intros [x Hx]; by apply elem_of_dom_2 in Hx). split; [done|]. split; [|done].
    split; cbn [heap files cache_head cache_count]; [by rewrite dom_insert_L| | |apply Hge|by apply Hlive].
    + exists []. split; [done|]. split; [done|]. split; [done|]. split; [done|]. intros a x. destruct (decide (f = a)) as [<-|Hne]; [intros _; left; rewrite inc_eq; lia|]. rewrite lookup_insert_ne by done. intros Hx. left. apply Hgt. destruct (Hall a x Hx) as [?|Hin]; [done|by apply elem_of_nil in Hin].
    + intros a x. destruct (decide (f = a)) as [<-|Hne]; [intros _; unfold KERNBASE; lia|]. rewrite lookup_insert_ne by done. apply (fo_addr s n Hs).
  - destruct Hc as (Hh & Hf0 & x & Hx & Hr & Hc). rewrite Hh. rewrite (proj2 (Z.eqb_neq f 0)) by done. cbn [negb]. rewrite Hx. right. split; [done|]. apply NoDup_cons in HN as [HfC HN].
    assert (Hnf : n f = 0). { pose proof (fo_ref s n Hs f). destruct (decide (0 < n f)) as [Hp0|]; [|lia]. destruct (fo_live s n Hs f Hp0) as (y & Hy & _ & Hry). rewrite Hx in Hy. injection Hy as <-. lia. }
    split; [done|]. split; [|done]. split; cbn [heap files cache_head cache_count]; [| | |apply Hge|by apply Hlive].
    + rewrite dom_insert_L. replace ({[f]} ∪ dom (files s)) with (dom (files s)) by (apply elem_of_dom_2 in Hx as ?; set_solver). apply Hs.
    + exists C. split; [done|]. split; [apply (chain_other (files s)); [|done]; intros a Ha; rewrite lookup_insert_ne by (intros <-; done); done|]. unfold len in *. cbn [length] in *. split; [rewrite Z.gtb_ltb, (proj2 (Z.ltb_lt _ _)) by lia; lia|]. split; [lia|].
      intros a y. destruct (decide (f = a)) as [<-|Hne]; [intros _; left; rewrite inc_eq; lia|]. rewrite lookup_insert_ne by done. intros Hy. destruct (Hall a y Hy) as [?|Hin]; [left; by apply Hgt|]. apply elem_of_cons in Hin as [->|?]; [done|by right].
    + intros a y. destruct (decide (f = a)) as [<-|Hne]; [intros _; by apply (fo_addr s n Hs f x)|]. rewrite lookup_insert_ne by done. apply (fo_addr s n Hs).
Qed.

End Refs.
