(* ===== verification/FdCalls.v ===== *)
(** * The calls on descriptors, and their specification

    Each call as a change of the process's view and of the references to the
    files; fork, exit and exec as loops of such changes. *)

From S2P Require Import Prelude FdTable FdView FdRefs.

(** The references: [m] from elsewhere, and those of a view. *)
Definition refs (m : Z -> Z) (v : gmap Z (Z * bool)) (a : Z) : Z := m a + links a v.

(** ** Specification of the calls on one table *)

(** A call that needs a new descriptor fails when all below the limit are
    used, or when the table (of [cap] slots) has to grow and there is no memory. *)
Definition full (cap lo limit : Z) (v : gmap Z (Z * bool)) : Prop := cap < limit \/ forall i, lo <= i < limit -> v !! i <> None.

Definition close_spec (fd : Z) (v : gmap Z (Z * bool)) (r : Z) (v' : gmap Z (Z * bool)) : Prop :=
  match v !! fd with None => r = -1 /\ v' = v | Some _ => r = 0 /\ v' = delete fd v end.

Definition dup_spec (cap limit fd : Z) (v : gmap Z (Z * bool)) (r : Z) (v' : gmap Z (Z * bool)) : Prop :=
  match v !! fd with
  | None => r = -1 /\ v' = v
  | Some (f, _) => (r = -1 /\ v' = v /\ full cap 0 limit v) \/ ((0 <= r < limit) /\ v !! r = None /\ v' = <[r := (f, false)]> v)
  end.

Definition dup2_spec (cap limit oldfd newfd : Z) (v : gmap Z (Z * bool)) (r : Z) (v' : gmap Z (Z * bool)) : Prop :=
  match v !! oldfd with
  | None => r = -1 /\ v' = v
  | Some (f, _) =>
      if bool_decide (0 <= newfd < limit) then
        if oldfd =? newfd then r = newfd /\ v' = v
        else (r = -1 /\ v' = v /\ cap <= newfd) \/ (r = newfd /\ v' = <[newfd := (f, false)]> v)
      else r = -1 /\ v' = v
  end.

Definition fcntl_spec (cap limit fd cmd arg : Z) (v : gmap Z (Z * bool)) (r : Z) (v' : gmap Z (Z * bool)) : Prop :=
  match v !! fd with
  | None => r = -1 /\ v' = v
  | Some (f, c) =>
      if bool_decide (cmd = F_DUPFD \/ cmd = F_DUPFD_CLOEXEC) then
        if bool_decide (0 <= arg < limit) then
          (r = -1 /\ v' = v /\ full cap arg limit v) \/
          ((arg <= r < limit) /\ v !! r = None /\ (forall i, arg <= i < r -> v !! i <> None) /\ v' = <[r := (f, bool_decide (cmd = F_DUPFD_CLOEXEC))]> v)
        else r = -1 /\ v' = v
      else if cmd =? F_GETFD then r = Z.b2z c /\ v' = v
      else if cmd =? F_SETFD then r = 0 /\ v' = <[fd := (f, flag arg FD_CLOEXEC)]> v
      else v' = v
  end.

(** Replacing the highest descriptor by [dup2] loses it; every other use is covered. *)
Definition dup2_fits (oldfd newfd : Z) (v : gmap Z (Z * bool)) : Prop := v !! newfd = None \/ oldfd = newfd \/ exists i, newfd < i /\ v !! i <> None.

Section Calls.
Context {K : Type} {Hp : Heap K} {HL : HeapLaws K}.
Context (dev_major : Z -> option Z) (dev_minor : Z -> Z).
Context (get_nonblock : Z -> file -> Z) (set_nonblock : Z -> file -> bool -> Z).
Context (m : Z -> Z) (Hm : forall a, 0 <= m a).
Implicit Types (s : fstate K) (t : fdtable).

#[local] Abbreviation ok t s := (fs_ok s (refs m (view t))).

(** What a call leaves behind. *)
Definition after t s t' s' : Prop :=
  table_ok t' /\ (exists l, fs_step dev_major s (refs m (view t)) s' (refs m (view t')) l) /\ (low_hint t -> low_hint t').

Lemma slot_live t s i : ok t s -> slot t i <> 0 -> 0 < refs m (view t) (slot t i).
Proof.
  intros Hs Hi. pose proof (lookup_view t i) as E. rewrite (proj2 (Z.eqb_neq _ _)) in E by done. unfold refs. pose proof (Hm (slot t i)). pose proof (links_pos _ _ _ _ E). lia.
Qed.

Lemma argfd_spec fd t s : table_wf t -> ok t s -> argfd fd t s = Some (slot t fd).
Proof.
  intros W Hs. unfold argfd. pose proof (tw_nfds t W). destruct (Z.ltb_spec fd 0); cbn [orb]; [by rewrite slot_out by lia|].
  rewrite Z.geb_leb. destruct (Z.leb_spec (nfds t) fd); cbn [orb]; [by rewrite (tw_top t W) by lia|]. rewrite <- slot_in by lia. destruct (Z.eqb_spec (slot t fd) 0) as [->|Hne]; [done|].
  pose proof (slot_live t s fd Hs Hne) as Hl. destruct (fo_live _ _ Hs _ Hl) as (x & Hx & Hmg & Hr). pose proof (fo_addr _ _ Hs _ _ Hx) as Ha. rewrite (proj2 (Z.ltb_ge _ _)) by lia.
  rewrite Hx, Hmg, Z.eqb_refl, Hr. cbn [negb orb]. rewrite (proj2 (Z.ltb_ge _ _)) by lia. done.
Qed.

Lemma after_kept t s t' k : table_ok t -> ok t s -> kept t t' -> heap_ok k (dom (files s)) -> after t s t' (set_heap k s).
Proof.
  intros [W Hc] Hs Hk Hh. split; [by apply (kept_ok t)|]. split; [exists []; rewrite (kept_view t t') by done; by apply step_heap|by apply kept_low].
Qed.

Lemma fd_after_refl t s : table_ok t -> ok t s -> after t s t s.
Proof. intros Ht Hs. split; [done|]. split; [exists []; by apply step_refl|done]. Qed.

Lemma fd_after_trans t s t1 s1 t2 s2 : after t s t1 s1 -> after t1 s1 t2 s2 -> after t s t2 s2.
Proof. intros (_ & (l1 & H1) & L1) (O2 & (l2 & H2) & L2). split; [done|]. split; [exists (l1 ++ l2); by eapply step_trans|tauto]. Qed.

Lemma after_ok t s t' s' : after t s t' s' -> table_ok t' /\ ok t' s'.
Proof. intros (O & (l & H) & _). split; [done|apply H]. Qed.

(** *** close *)

(** A table has lost a descriptor, and its file is closed. *)
Lemma close_step fd g t s t' : ok t s -> slot t fd <> 0 -> one_cell fd (0, g) t t' -> view t' = delete fd (view t) /\ exists s' l,
  fileclose dev_major (slot t fd) s = Some s' /\ fs_step dev_major s (refs m (view t)) s' (refs m (view t')) l.
Proof.
  intros Hs E C1. pose proof (slot_live t s fd Hs E) as Hl. destruct (fileclose_spec dev_major s _ _ Hs Hl) as (s' & l & Es & Hst). assert (V1 : view t' = delete fd (view t)) by apply (view_one fd 0 g _ _ C1).
  split; [done|]. exists s', l. split; [done|]. rewrite V1. apply (step_ext dev_major s (refs m (view t)) _ _ (dec (slot t fd) (refs m (view t)))); [done| |done].
  intros a. unfold refs, dec. rewrite (links_delete a (view t) fd (slot t fd) (flag (fmark t fd) FD_CLOEXEC)); [lia|]. rewrite lookup_view. by rewrite (proj2 (Z.eqb_neq _ _)).
Qed.

Lemma clear_close fd t s : table_ok t -> ok t s -> slot t fd <> 0 -> exists s', fileclose dev_major (slot t fd) s = Some s' /\ after t s (fd_clear fd t) s' /\ view (fd_clear fd t) = delete fd (view t).
Proof.
  intros [W Hc] Hs E. destruct (fd_clear_spec t fd W (slot_bound t fd W E)) as (W1 & C1 & _ & L1). destruct (close_step fd 0 t s _ Hs E C1) as (V1 & s' & l & Es & Hst).
  exists s'. split; [done|]. split; [|done]. split; [split; [done|by apply (one_clean _ _ _ _ C1)]|]. split; [by exists l|done].
Qed.

Lemma sys_close_spec fd t s : table_ok t -> ok t s -> exists r t' s',
  sys_close dev_major fd t s = Some (r, t', s') /\ after t s t' s' /\ close_spec fd (view t) r (view t').
Proof.
  intros Ht Hs. unfold sys_close, close_spec. rewrite (argfd_spec fd t s (proj1 Ht) Hs). rewrite lookup_view. destruct (Z.eqb_spec (slot t fd) 0) as [E|E].
  { do 3 eexists. split; [reflexivity|]. split; [by apply fd_after_refl|done]. }
  destruct (clear_close fd t s Ht Hs E) as (s' & Es & Ha & V). rewrite Es. do 3 eexists. split; [reflexivity|]. by rewrite V.
Qed.

(** *** dup *)

(** A descriptor for [f] has been put at [r]; [filedup] counts it. *)
Lemma after_dup t s r f g t' k : ok t s -> clean t -> heap_ok k (dom (files s)) -> table_wf t' -> slot t r = 0 -> f <> 0 -> 0 < refs m (view t) f -> one_cell r (f, g) t t' -> (low_hint t -> low_hint t') ->
  view t' = <[r := (f, flag g FD_CLOEXEC)]> (view t) /\ exists s', filedup f (set_heap k s) = Some (f, s') /\ after t s t' s'.
Proof.
  intros Hs Hc Hk W' E0 Hf Hl C1 L1. assert (V1 : view t' = <[r := (f, flag g FD_CLOEXEC)]> (view t)) by (rewrite (view_one r f g _ _ C1); by rewrite (proj2 (Z.eqb_neq _ _))).
  split; [done|]. destruct (filedup_spec dev_major (set_heap k s) _ f (fs_ok_heap s _ k Hs Hk) Hl) as (s' & Es & Hst). exists s'. split; [done|]. split; [split; [done|]; apply (one_clean _ _ _ _ C1); done|]. split; [|done]. exists ([] ++ []).
  apply (step_trans dev_major s (refs m (view t)) (set_heap k s) (refs m (view t))); [by apply step_heap|]. apply (step_ext dev_major _ (refs m (view t)) _ _ (inc f (refs m (view t)))); [done| |done].
  intros a. rewrite V1. unfold refs, inc. rewrite links_insert by (by apply view_None). lia.
Qed.

Lemma full_slots cap lo limit t : (cap < limit \/ forall i, lo <= i < limit -> slot t i <> 0) -> full cap lo limit (view t).
Proof. intros [H|H]; [by left|right]. intros i Hi. rewrite view_None. by apply H. Qed.

Lemma sys_dup_spec limit fd t s : table_ok t -> ok t s -> exists r t' s',
  sys_dup limit fd t s = Some (r, t', s') /\ after t s t' s' /\ dup_spec (capacity t) limit fd (view t) r (view t') /\
  (low_hint t -> 0 <= r -> forall i, 0 <= i < r -> view t !! i <> None).
Proof.
  intros [W Hc] Hs. unfold sys_dup, dup_spec. rewrite (argfd_spec fd t s W Hs). rewrite lookup_view. destruct (Z.eqb_spec (slot t fd) 0) as [E|E].
  { do 3 eexists. split; [reflexivity|]. split; [by apply fd_after_refl|]. split; [done|]. intros _ Hr. by vm_compute in Hr. }
  pose proof (slot_live t s fd Hs E) as Hl. pose proof (fdalloc_spec limit (slot t fd) t (heap s) _ (conj W Hc) (fo_heap _ _ Hs) E) as Hf. destruct (fdalloc limit (slot t fd) t (heap s)) as [[r t1] k1].
  destruct Hf as [Hk [(-> & K1 & Hfull)|(Hr & W1 & E0 & C1 & Hlow)]].
  - cbn [Z.ltb Z.compare]. do 3 eexists. split; [reflexivity|]. split; [by apply after_kept|]. split; [left; split; [done|]; split; [by apply kept_view|by apply full_slots]|]. intros _ Hr. by vm_compute in Hr.
  - rewrite (proj2 (Z.ltb_ge _ _)) by lia. destruct (after_dup t s r (slot t fd) 0 t1 k1 Hs Hc Hk W1 E0 E Hl C1 (fun H => proj2 (Hlow H))) as (V1 & s' & Es & Ha). rewrite Es. do 3 eexists. split; [reflexivity|]. split; [done|].
    split; [right; split; [done|]; split; [by apply view_None|done]|]. intros H _ i Hi. rewrite view_None. by apply Hlow.
Qed.
Lemma set_heap_id s : set_heap (heap s) s = s.
Proof. by destruct s. Qed.

Lemma one_low i f g t t' : one_cell i (f, g) t t' -> f <> 0 -> next_fd_hint t' = next_fd_hint t -> low_hint t -> low_hint t'.
Proof. intros C Hf Hh Hl j Hj. rewrite (one_slot _ _ _ _ _ C). destruct (decide (j = i)); [done|]. apply Hl. by rewrite <- Hh. Qed.

Lemma out_of_range i limit : (i <? 0) || (i >=? limit) = negb (bool_decide (0 <= i < limit)).
Proof. rewrite Z.geb_leb. case_bool_decide; destruct (Z.ltb_spec i 0), (Z.leb_spec limit i); (done || lia). Qed.

(** *** dup2 *)

(** The new entry of [dup2] and of [F_DUPFD]. *)
Lemma put_dup t s i f g : table_ok t -> ok t s -> 0 <= i < nfds t -> slot t i = 0 -> f <> 0 -> 0 < refs m (view t) f ->
  view (put_flag i g (put i f t)) = <[i := (f, flag g FD_CLOEXEC)]> (view t) /\ exists s', filedup f s = Some (f, s') /\ after t s (put_flag i g (put i f t)) s'.
Proof.
  intros [W Hc] Hs Hi E0 Hf Hl. pose proof (tw_nfds t W). destruct (put_both t i f g W ltac:(lia) (or_introl (proj2 Hi))) as [W1 C1].
  destruct (after_dup t s i f g _ (heap s) Hs Hc (fo_heap _ _ Hs) W1 E0 Hf Hl C1 (one_low i f g _ _ C1 Hf eq_refl)) as (V & s' & Es & Ha). rewrite set_heap_id in Es. split; [done|]. by exists s'.
Qed.

Lemma sys_dup2_spec limit oldfd newfd t s : table_ok t -> ok t s -> dup2_fits oldfd newfd (view t) -> exists r t' s',
  sys_dup2 dev_major limit oldfd newfd t s = Some (r, t', s') /\ after t s t' s' /\ dup2_spec (capacity t) limit oldfd newfd (view t) r (view t').
Proof.
  intros Ht Hs Hfit. unfold sys_dup2, dup2_spec. rewrite (argfd_spec oldfd t s (proj1 Ht) Hs). rewrite lookup_view. destruct (Z.eqb_spec (slot t oldfd) 0) as [E|E].
  { do 3 eexists. split; [reflexivity|]. split; [by apply fd_after_refl|done]. }
  rewrite out_of_range. case_bool_decide as Hrange; cbn [negb]; [|do 3 eexists; split; [reflexivity|]; split; [by apply fd_after_refl|done]].
  destruct (Z.eqb_spec oldfd newfd) as [|Hne]; [do 3 eexists; split; [reflexivity|]; split; [by apply fd_after_refl|done]|].
  pose proof (ensure_spec newfd t (heap s) _ (proj1 Ht) (fo_heap _ _ Hs)) as Hens. destruct (fd_ensure_slot newfd t (heap s)) as [[r1 t1] k1]. destruct Hens as (Hk & K1 & [[-> Hcap]|[-> Hn]]); cbn [Z.ltb Z.compare].
  { do 3 eexists. split; [reflexivity|]. split; [by apply after_kept|]. left. split; [done|]. split; [by apply kept_view|]. lia. }
  pose proof (after_kept t s t1 k1 Ht Hs K1 Hk) as A1. destruct (after_ok _ _ _ _ A1) as [Ht1 Hs1]. assert (S1 := kt_cells _ _ K1). assert (V1 := kept_view _ _ K1). pose proof (tw_nfds t1 (proj1 Ht1)) as Hn1.
  rewrite <- slot_in by lia. rewrite (same_slot t t1 newfd S1).
  assert (Hold : forall t2 s2, table_ok t2 -> ok t2 s2 -> slot t2 oldfd = slot t oldfd -> 0 < refs m (view t2) (slot t oldfd)) by (intros t2 s2 _ Hs2 Heq; rewrite <- Heq; apply (slot_live t2 s2); [done|by rewrite Heq]).
  destruct (Z.eqb_spec (slot t newfd) 0) as [E0|E0].
  - destruct (put_dup t1 (set_heap k1 s) newfd (slot t oldfd) 0 Ht1 Hs1 ltac:(lia) ltac:(by rewrite (same_slot t)) E (Hold _ _ Ht1 Hs1 (same_slot _ _ _ S1))) as (V2 & s2 & Es & A2). rewrite Es. do 3 eexists. split; [reflexivity|].
    split; [by eapply fd_after_trans|]. right. split; [done|]. by rewrite V2, V1.
  - assert (E1 : slot t1 newfd <> 0) by (by rewrite (same_slot t)). destruct (clear_close newfd t1 (set_heap k1 s) Ht1 Hs1 E1) as (s2 & Es & A2 & V2). rewrite (same_slot t t1 newfd S1) in Es. rewrite Es.
    destruct (after_ok _ _ _ _ A2) as [Ht2 Hs2]. destruct (fd_clear_spec t1 newfd (proj1 Ht1) Hn) as (W2 & C2 & Cap2 & _).
    assert (Hn2 : 0 <= newfd < nfds (fd_clear newfd t1)).
    { split; [lia|]. destruct Hfit as [Hv|[?|(i & Hi & Hv)]]; [by rewrite view_None in Hv|done|]. rewrite view_None in Hv. apply (below_open _ newfd i W2 Hi). rewrite (one_slot _ _ _ _ _ C2), decide_False by lia. by rewrite (same_slot t). }
    assert (S2 : slot (fd_clear newfd t1) oldfd = slot t oldfd) by (rewrite (one_slot _ _ _ _ _ C2), decide_False by done; by apply same_slot).
    destruct (put_dup (fd_clear newfd t1) s2 newfd (slot t oldfd) 0 Ht2 Hs2 Hn2 ltac:(by rewrite (one_slot _ _ _ _ _ C2), decide_True) E (Hold _ _ Ht2 Hs2 S2)) as (V3 & s3 & Es3 & A3). rewrite Es3. do 3 eexists. split; [reflexivity|].
    split; [eapply fd_after_trans; [exact A1|]; by eapply fd_after_trans|]. right. split; [done|]. rewrite V3, V2, V1. apply insert_delete_eq.
Qed.

(** *** fcntl *)

Lemma dupfd_spec f flags n i t s : table_ok t -> ok t s -> 0 <= i -> f <> 0 -> 0 < refs m (view t) f -> exists r t' s',
  dupfd_loop n i f flags t s = Some (r, t', s') /\ after t s t' s' /\
  ((r = -1 /\ view t' = view t /\ full (capacity t) i (i + Z.of_nat n) (view t)) \/
   ((i <= r < i + Z.of_nat n) /\ view t !! r = None /\ (forall j, i <= j < r -> view t !! j <> None) /\ view t' = <[r := (f, flag flags FD_CLOEXEC)]> (view t))).
Proof.
  revert i t s. induction n as [|n IH]; intros i t s Ht Hs Hi Hf Hl; cbn [dupfd_loop].
  { do 3 eexists. split; [reflexivity|]. split; [by apply fd_after_refl|]. left. split; [done|]. split; [done|]. right. lia. }
  pose proof (ensure_spec i t (heap s) _ (proj1 Ht) (fo_heap _ _ Hs)) as Hens. destruct (fd_ensure_slot i t (heap s)) as [[r1 t1] k1]. destruct Hens as (Hk & K1 & [[-> Hcap]|[-> Hn]]); cbn [Z.ltb Z.compare].
  { do 3 eexists. split; [reflexivity|]. split; [by apply after_kept|]. left. split; [done|]. split; [by apply kept_view|]. left. lia. }
  pose proof (after_kept t s t1 k1 Ht Hs K1 Hk) as A1. destruct (after_ok _ _ _ _ A1) as [Ht1 Hs1]. assert (S1 := kt_cells _ _ K1). assert (V1 := kept_view _ _ K1). pose proof (tw_nfds t1 (proj1 Ht1)) as Hn1.
  rewrite <- slot_in by lia. rewrite (same_slot t t1 i S1). destruct (Z.eqb_spec (slot t i) 0) as [E0|E0].
  - destruct (put_dup t1 (set_heap k1 s) i f flags Ht1 Hs1 ltac:(lia) ltac:(by rewrite (same_slot t)) Hf ltac:(by rewrite V1)) as (V2 & s2 & Es & A2). rewrite Es. do 3 eexists. split; [reflexivity|].
    split; [by eapply fd_after_trans|]. right. split; [lia|]. split; [by apply view_None|]. split; [lia|]. by rewrite V2, V1.
  - destruct (IH (i + 1) t1 (set_heap k1 s) Ht1 Hs1 ltac:(lia) Hf ltac:(by rewrite V1)) as (r & t' & s' & Er & A2 & Hr). exists r, t', s'. split; [done|]. split; [by eapply fd_after_trans|]. rewrite V1 in Hr.
    assert (Hfirst : view t !! i <> None) by (by rewrite view_None). assert (Hstep : forall j hi, (forall j, i + 1 <= j < hi -> view t !! j <> None) -> i <= j < hi -> view t !! j <> None) by (intros j hi Hall Hj; destruct (decide (j = i)) as [->|]; [done|]; apply Hall; lia).
    destruct Hr as [(-> & V2 & Hfull)|(Hr & E & Hbelow & V2)].
    + left. split; [done|]. split; [done|]. destruct Hfull as [Hc|Hall]; [left; pose proof (kt_cap _ _ K1); lia|right]. intros j Hj. apply (Hstep j (i + 1 + Z.of_nat n)); [done|lia].
    + right. split; [lia|]. split; [done|]. split; [|done]. intros j Hj. by apply (Hstep j r).
Qed.

Lemma land_one x : Z.land x FD_CLOEXEC = Z.b2z (flag x FD_CLOEXEC).
Proof. unfold flag, FD_CLOEXEC. change 1 with (Z.ones 1). rewrite Z.land_ones by lia. change (2 ^ 1) with 2. rewrite Zmod_odd. by destruct (Z.odd x). Qed.

Lemma sys_fcntl_spec limit fd cmd arg t s : table_ok t -> ok t s -> exists r t' s',
  sys_fcntl dev_major dev_minor get_nonblock set_nonblock limit fd cmd arg t s = Some (r, t', s') /\ after t s t' s' /\ fcntl_spec (capacity t) limit fd cmd arg (view t) r (view t').
Proof.
  intros Ht Hs. unfold sys_fcntl, fcntl_spec. rewrite (argfd_spec fd t s (proj1 Ht) Hs). rewrite lookup_view. destruct (Z.eqb_spec (slot t fd) 0) as [E|E].
  { do 3 eexists. split; [reflexivity|]. split; [by apply fd_after_refl|done]. }
  pose proof (slot_live t s fd Hs E) as Hl. pose proof (slot_bound t fd (proj1 Ht) E) as Hfd. pose proof (tw_nfds t (proj1 Ht)) as Hn. destruct (fo_live _ _ Hs _ Hl) as (x & Hx & _).
  assert (Hdup : (cmd =? F_DUPFD) || (cmd =? F_DUPFD_CLOEXEC) = bool_decide (cmd = F_DUPFD \/ cmd = F_DUPFD_CLOEXEC)) by (apply eq_true_iff_eq; rewrite orb_true_iff, !Z.eqb_eq, bool_decide_eq_true; done). rewrite Hdup.
  case_bool_decide as Hcmd.
  - rewrite out_of_range. case_bool_decide as Harg; cbn [negb]; [|do 3 eexists; split; [reflexivity|]; split; [by apply fd_after_refl|done]].
    destruct (dupfd_spec (slot t fd) (if cmd =? F_DUPFD then 0 else FD_CLOEXEC) (Z.to_nat (limit - arg)) arg t s Ht Hs ltac:(lia) E Hl) as (r & t' & s' & Er & Ha & Hr). exists r, t', s'. split; [done|]. split; [done|].
    replace (arg + Z.of_nat (Z.to_nat (limit - arg))) with limit in Hr by lia. replace (bool_decide (cmd = F_DUPFD_CLOEXEC)) with (flag (if cmd =? F_DUPFD then 0 else FD_CLOEXEC) FD_CLOEXEC); [done|].
    destruct Hcmd as [->| ->]; done.
  - destruct (cmd =? F_GETFD); [do 3 eexists; split; [reflexivity|]; split; [by apply fd_after_refl|]; split; [|done]; rewrite fmark_in by lia; apply land_one|].
    destruct (cmd =? F_SETFD).
    + do 3 eexists. split; [reflexivity|]. pose proof (put_flag_cell t fd (Z.land arg FD_CLOEXEC) (proj1 Ht) ltac:(lia)) as C1. assert (V1 := view_one _ _ _ _ _ C1). rewrite (proj2 (Z.eqb_neq _ _)) in V1 by done.
      assert (Hfl : flag (Z.land arg FD_CLOEXEC) FD_CLOEXEC = flag arg FD_CLOEXEC) by (rewrite land_one; by destruct (flag arg FD_CLOEXEC)). rewrite Hfl in V1.
      split; [|by rewrite V1]. split; [split; [apply put_flag_wf, Ht|apply (one_clean _ _ _ _ C1); [by intros ?|apply Ht]]|]. split; [|by apply (one_low fd _ _ _ _ C1)]. exists []. apply (step_ext dev_major _ (refs m (view t)) _ _ (refs m (view t))); [done| |by apply step_refl].
      intros a. rewrite V1. unfold refs. rewrite (links_replace a (view t) fd (slot t fd) (flag (fmark t fd) FD_CLOEXEC)); [lia|]. rewrite lookup_view. by rewrite (proj2 (Z.eqb_neq _ _)).
    + rewrite Hx. destruct (cmd =? F_GETFL); [|destruct (cmd =? F_SETFL)]; (do 3 eexists; split; [reflexivity|]; split; [by apply fd_after_refl|done]).
Qed.

(** *** exec *)

(** The slots from [i] on, [n] of them. *)
#[local] Abbreviation within i n j := (decide (i <= j < i + Z.of_nat n)).

Lemma cloexec_spec n i t s : table_ok t -> ok t s -> 0 <= i -> i + Z.of_nat n <= capacity t -> exists t' s' l,
  cloexec_loop dev_major n i t s = Some (t', s') /\ table_ok t' /\ fs_step dev_major s (refs m (view t)) s' (refs m (view t')) l /\
  forall j, view t' !! j = if within i n j then (match view t !! j with Some (_, true) => None | o => o end) else view t !! j.
Proof.
  revert i t s. induction n as [|n IH]; intros i t s Ht Hs Hi Hc; cbn [cloexec_loop].
  { exists t, s, []. split; [done|]. split; [done|]. split; [by apply step_refl|]. intros j. by rewrite decide_False by lia. }
  pose proof (lookup_view t i) as Ei. rewrite <- slot_in, <- fmark_in by lia. destruct (negb (slot t i =? 0) && flag (fmark t i) FD_CLOEXEC) eqn:Eb.
  - apply andb_true_iff in Eb as [E Ef]. apply negb_true_iff, Z.eqb_neq in E. rewrite (proj2 (Z.eqb_neq _ _)), Ef in Ei by done. destruct (put_both t i 0 0 (proj1 Ht) ltac:(lia) (or_intror eq_refl)) as [W1 C1].
    destruct (close_step i 0 t s _ Hs E C1) as (V1 & s1 & l1 & Es & H1). rewrite Es. assert (Ht1 : table_ok (put_flag i 0 (put i 0 t))) by (split; [done|]; apply (one_clean _ _ _ _ C1); [done|apply Ht]).
    destruct (IH (i + 1) _ s1 Ht1 (st_ok _ _ _ _ _ _ H1) ltac:(lia) ltac:(cbn; lia)) as (t' & s' & l & El & Ht' & H2 & Hv). exists t', s', (l1 ++ l). split; [done|]. split; [done|]. split; [by eapply step_trans|].
    intros j. rewrite Hv, V1. destruct (decide (j = i)) as [->|Hne]; [rewrite decide_False, decide_True, lookup_delete_eq, Ei by lia; done|]. rewrite lookup_delete_ne by done. destruct (within (i + 1) n j), (within i (S n) j); (done || lia).
  - destruct (IH (i + 1) t s Ht Hs ltac:(lia) ltac:(lia)) as (t' & s' & l & El & Ht' & H2 & Hv). exists t', s', l. split; [done|]. split; [done|]. split; [done|]. intros j. rewrite Hv.
    destruct (decide (j = i)) as [->|Hne]; [|destruct (within (i + 1) n j), (within i (S n) j); (done || lia)]. rewrite decide_False, decide_True by lia. rewrite Ei. destruct (slot t i =? 0); [done|]. cbn [negb andb] in Eb. by rewrite Eb.
Qed.

Lemma fd_exec_spec t s : table_ok t -> ok t s -> exists t' s' l, exec_close dev_major t s = Some (t', s') /\ table_ok t' /\
  fs_step dev_major s (refs m (view t)) s' (refs m (view t')) l /\ view t' = filter (fun x => x.2.2 = false) (view t).
Proof.
  intros Ht Hs. pose proof (tw_nfds t (proj1 Ht)) as Hn. destruct (cloexec_spec (Z.to_nat (nfds t)) 0 t s Ht Hs ltac:(lia) ltac:(lia)) as (t1 & s1 & l & E1 & [W1 C1] & H1 & V1). unfold exec_close. rewrite E1.
  destruct (trim_spec (Z.to_nat (nfds t1)) t1 W1) as (W2 & S2 & _). assert (V2 := view_same _ _ S2). do 3 eexists. split; [reflexivity|]. split; [split; [done|by apply (same_clean t1)]|]. rewrite V2. split; [exact H1|].
  apply map_eq. intros j. rewrite V1, map_lookup_filter. destruct (view t !! j) as [[f c]|] eqn:E; cbn; [|by destruct (within 0 _ j)].
  destruct (view_slot _ _ _ _ E) as (E0 & Hf & _). pose proof (slot_bound t j (proj1 Ht) ltac:(by rewrite E0)). rewrite decide_True by lia. by destruct c.
Qed.

(** *** exit *)

Lemma fdfree_spec n i t s : table_wf t -> ok t s -> 0 <= i -> i + Z.of_nat n <= capacity t -> exists t' s' l,
  free_loop dev_major n i t s = Some (t', s') /\ fs_step dev_major s (refs m (view t)) s' (refs m (view t')) l /\ forall j, view t' !! j = if within i n j then None else view t !! j.
Proof.
  revert i t s. induction n as [|n IH]; intros i t s W Hs Hi Hc; cbn [free_loop].
  { exists t, s, []. split; [done|]. split; [by apply step_refl|]. intros j. by rewrite decide_False by lia. }
  rewrite <- slot_in by lia. destruct (Z.eqb_spec (slot t i) 0) as [E|E].
  - destruct (IH (i + 1) t s W Hs ltac:(lia) ltac:(lia)) as (t' & s' & l & El & H2 & Hv). exists t', s', l. split; [done|]. split; [done|]. intros j. rewrite Hv.
    destruct (decide (j = i)) as [->|Hne]; [rewrite decide_False, decide_True by lia; by apply view_None|]. destruct (within (i + 1) n j), (within i (S n) j); (done || lia).
  - assert (C1 := put_cell t i 0 W ltac:(lia)). destruct (close_step i _ t s _ Hs E C1) as (V1 & s1 & l1 & Es & H1). rewrite Es.
    destruct (IH (i + 1) _ s1 (put_wf t i 0 W ltac:(lia) (or_intror eq_refl)) (st_ok _ _ _ _ _ _ H1) ltac:(lia) ltac:(cbn; lia)) as (t' & s' & l & El & H2 & Hv). exists t', s', (l1 ++ l). split; [done|]. split; [by eapply step_trans|].
    intros j. rewrite Hv, V1. destruct (decide (j = i)) as [->|Hne]; [rewrite decide_False, decide_True, lookup_delete_eq by lia; done|]. rewrite lookup_delete_ne by done. destruct (within (i + 1) n j), (within i (S n) j); (done || lia).
Qed.

Lemma links_empty a : links a ∅ = 0.
Proof. by apply links_zero. Qed.

Lemma fdtable_free_spec t s : table_wf t -> ok t s -> exists s' l, fdtable_free dev_major t s = Some s' /\ fs_step dev_major s (refs m (view t)) s' m l.
Proof.
  intros W Hs. pose proof (tw_nfds t W) as Hn. destruct (fdfree_spec (Z.to_nat (nfds t)) 0 t s W Hs ltac:(lia) ltac:(lia)) as (t1 & s1 & l & E1 & H1 & V1). unfold fdtable_free. rewrite E1. do 2 eexists. split; [reflexivity|].
  assert (V : view t1 = ∅).
  { apply map_eq. intros j. rewrite V1, lookup_empty. destruct (within 0 _ j) as [|Hj]; [done|]. apply view_None. destruct (decide (slot t j = 0)) as [|Hne]; [done|]. pose proof (slot_bound t j W Hne). lia. }
  rewrite V in H1. apply (step_trans dev_major s (refs m (view t)) s1 m l _ _ []).
  - apply (step_ext dev_major s (refs m (view t)) _ _ (refs m ∅)); [done| |done]. intros a. unfold refs. rewrite links_empty. lia.
  - assert (Hok : fs_ok s1 m) by (apply (fs_ok_ext s1 (refs m ∅)); [intros a; unfold refs; rewrite links_empty; lia|apply H1]). apply step_heap; [done|]. by apply kfree_law, kfree_law, kfree_law, Hok.
Qed.

(** *** open *)

(** The fields of an open file are set. *)
Lemma refit s n f g : fs_ok s n -> 0 < n f -> (forall x, magic (g x) = magic x /\ ref (g x) = ref x) -> fs_ok (upd_file f g s) n.
Proof.
  intros Hs Hf Hg. assert (Hl : forall a y, files (upd_file f g s) !! a = Some y -> exists x, files s !! a = Some x /\ magic y = magic x /\ ref y = ref x).
  { intros a y. unfold upd_file. cbn [files]. destruct (decide (f = a)) as [<-|]; [rewrite lookup_alter_eq; destruct (files s !! f) as [x|]; [|done]; cbn; intros [= <-]; exists x; destruct (Hg x); done|]. rewrite lookup_alter_ne by done. intros Hy. by exists y. }
  split; [unfold upd_file; cbn [files heap]; rewrite dom_alter_L; apply Hs| | |apply Hs|].
  - destruct (fo_cache s n Hs) as (C & HN & Hc & Hcnt & Hmax & Hall). exists C. split; [done|]. split.
    { apply (chain_other (files s)); [|done]. intros a Ha. unfold upd_file. cbn [files]. rewrite lookup_alter_ne; [done|]. intros <-. by apply (chain_live s n C f Hs Hc Hf). }
    split; [done|]. split; [done|]. intros a y Hy. destruct (Hl a y Hy) as (x & Hx & _). by apply (Hall a x).
  - intros a y Hy. destruct (Hl a y Hy) as (x & Hx & _). by apply (fo_addr s n Hs a x).
  - intros a Ha. destruct (fo_live s n Hs a Ha) as (x & Hx & Hmg & Hr). unfold upd_file. cbn [files]. destruct (decide (f = a)) as [<-|]; [rewrite lookup_alter_eq, Hx; exists (g x); destruct (Hg x) as [E1 E2]; rewrite E1, E2; done|rewrite lookup_alter_ne by done; by exists x].
Qed.

(** The file that [open] makes, its count aside. *)
Definition opened (inode startoff : Z) (r w : bool) (e : answers) : file :=
  let (side, index) := if is_major dev_major PTYDEV inode then default (PTY_SIDE_NONE, -1) (pty_open e) else (PTY_SIDE_NONE, -1) in
  mkFile FILE_MAGIC FD_INODE 0 r w side index 0 inode 0 startoff.

(** The calls for a file that [open] gives back: none, or those for a device whose driver refused. *)
Definition vain_calls (cs : list call) : Prop :=
  cs = [] \/ exists x, type x = FD_INODE /\ (is_major dev_major SERIALDEV (ip x) || is_major dev_major AUDIODEV (ip x) || is_major dev_major TUNTAPDEV (ip x)) = true /\ cs = close_calls dev_major x.

Definition open_failed t s t' s' : Prop :=
  view t' = view t /\ fs_ok s' (refs m (view t)) /\ (forall a, 0 < refs m (view t) a -> obj s' a = obj s a) /\
  exists l, closed s' = closed s ++ l /\ (l = [] \/ exists f cs, refs m (view t) f = 0 /\ l = [(f, cs)] /\ vain_calls cs).

Definition open_post (limit inode startoff : Z) (r w : bool) (e : answers) t s (fd : Z) t' s' : Prop :=
  table_ok t' /\ (low_hint t -> low_hint t') /\
  ((fd = -1 /\ open_failed t s t' s') \/
   ((0 <= fd < limit) /\ view t !! fd = None /\ (low_hint t -> forall i, 0 <= i < fd -> view t !! i <> None) /\
    exists f, f <> 0 /\ refs m (view t) f = 0 /\ view t' = <[fd := (f, false)]> (view t) /\ fs_ok s' (refs m (view t')) /\
    closed s' = closed s /\ obj s' f = Some (opened inode startoff r w e) /\ forall a, a <> f -> obj s' a = obj s a)).

(** One file is closed. *)
Lemma single_close s n s' n' l f y : fs_step dev_major s n s' n' l -> (forall a, (0 < n a /\ n' a = 0) <-> a = f) -> obj s f = Some y -> l = [(f, close_calls dev_major y)].
Proof.
  intros H Hf Hy. assert (Hin : forall a, a ∈ l.*1 <-> a = f) by (intros a; rewrite (st_gone _ _ _ _ _ _ H); apply Hf). assert (Hnd := st_nodup _ _ _ _ _ _ H). assert (Hcs := st_calls _ _ _ _ _ _ H).
  destruct l as [|[a cs] l]; [exfalso; by apply (not_elem_of_nil f), Hin|]. assert (Ea : a = f) by (apply Hin; cbn; left). subst a. destruct (Hcs f cs ltac:(left)) as (x & Hx & ->). rewrite Hy in Hx. injection Hx as <-.
  destruct l as [|[b cs] l]; [done|]. exfalso. cbn in Hnd, Hin. apply NoDup_cons in Hnd as [Hnd _]. apply Hnd. rewrite (proj1 (Hin b)); [left|right; left].
Qed.

(** [open] gives up after it has a descriptor. *)
Lemma give_up_spec t s t1 s1 fd f y : view t !! fd = None -> refs m (view t) f = 0 -> table_ok t1 -> view t1 = <[fd := (f, false)]> (view t) -> fs_ok s1 (refs m (view t1)) ->
  closed s1 = closed s -> (forall a, a <> f -> obj s1 a = obj s a) -> obj s1 f = Some y -> vain_calls (close_calls dev_major y) ->
  exists t' s', abandon dev_major fd f t1 s1 = Some (-1, t', s') /\ table_ok t' /\ (low_hint t1 -> low_hint t') /\ open_failed t s t' s'.
Proof.
  intros E0 Hn Ht1 V1 Hs1 Hcl Hobj Hy Hv. assert (Hl : view t1 !! fd = Some (f, false)) by (rewrite V1; apply lookup_insert_eq). destruct (view_slot _ _ _ _ Hl) as (Ef & Hf & _).
  destruct (clear_close fd t1 s1 Ht1 Hs1 ltac:(by rewrite Ef)) as (s' & Es & (Ht' & (l & Hst) & Hlow) & V). rewrite Ef in Es. unfold abandon. rewrite Es. do 2 eexists. split; [reflexivity|]. split; [done|]. split; [done|].
  assert (V' : view (fd_clear fd t1) = view t) by (rewrite V, V1; by apply delete_insert_id). rewrite V' in Hst. assert (Hr : forall a, refs m (view t1) a = inc f (refs m (view t)) a) by (intros a; rewrite V1; unfold refs, inc; rewrite links_insert by done; lia).
  split; [done|]. split; [apply Hst|]. split.
  { intros a Ha. rewrite (st_obj _ _ _ _ _ _ Hst a Ha). apply Hobj. intros ->. lia. }
  exists l. split; [rewrite (st_closed _ _ _ _ _ _ Hst); by rewrite Hcl|]. right. exists f, (close_calls dev_major y). split; [done|]. split; [|done]. apply (single_close s1 _ s' _ l f y Hst); [|done].
  intros a. rewrite Hr. destruct (decide (f = a)) as [<-|Hne]; [rewrite inc_eq; split; [done|lia]|rewrite inc_ne by done; split; [lia|congruence]].
Qed.

Lemma set_file_obj s f g y : obj s f = Some y -> (forall x, set_ref 0 (g x) = g (set_ref 0 x)) -> obj (upd_file f g s) f = Some (g y) /\ forall a, a <> f -> obj (upd_file f g s) a = obj s a.
Proof.
  intros Hy Hg. unfold obj, upd_file in *. cbn [files]. rewrite lookup_alter_eq. destruct (files s !! f) as [x|]; [|done]. cbn in *. injection Hy as <-. rewrite Hg. split; [done|]. intros a Ha. by rewrite lookup_alter_ne.
Qed.

Lemma open_pty_spec inode startoff r w e f s n : fs_ok s n -> 0 < n f -> obj s f = Some (set_ref 0 new_file) -> match open_pty dev_major inode e f s with
  | None => True
  | Some s' => exists y, fs_ok s' n /\ closed s' = closed s /\ (forall a, a <> f -> obj s' a = obj s a) /\ obj s' f = Some y /\ type y = FD_NONE /\ set_inode inode startoff r w y = opened inode startoff r w e
  end.
Proof.
  intros Hs Hf Hnew. unfold open_pty, opened. destruct (is_major dev_major PTYDEV inode); [|by exists (set_ref 0 new_file)]. destruct (pty_open e) as [[side index]|]; [|done].
  destruct (set_file_obj s f (set_pty side index) _ Hnew (fun _ => eq_refl)) as [O1 O2]. exists (set_pty side index (set_ref 0 new_file)). split; [by apply refit|]. done.
Qed.

Lemma open_spec limit inode startoff r w e t s : table_ok t -> ok t s -> exists fd t' s',
  open_inode dev_major limit inode startoff r w e t s = Some (fd, t', s') /\ open_post limit inode startoff r w e t s fd t' s'.
Proof.
  clear dev_minor get_nonblock set_nonblock. intros Ht Hs. unfold open_inode. pose proof (filealloc_spec dev_major s _ Hs) as Ha. destruct (filealloc s) as [f s1]. destruct Ha as [[-> H1]|(Hf & Hn & H1 & HF & Hcl)].
  { do 3 eexists. split; [reflexivity|]. split; [done|]. split; [done|]. left. split; [done|]. split; [done|]. split; [apply H1|]. split; [intros a; apply (st_obj _ _ _ _ _ _ H1)|]. exists []. split; [apply H1|by left]. }
  rewrite (proj2 (Z.eqb_neq f 0)) by done. assert (Hobj : forall a, a <> f -> obj s1 a = obj s a) by (intros a Hne; unfold obj; by rewrite HF, lookup_insert_ne). assert (Hnew : obj s1 f = Some (set_ref 0 new_file)) by (unfold obj; by rewrite HF, lookup_insert_eq).
  pose proof (fdalloc_spec limit f t (heap s1) _ Ht (fo_heap _ _ H1) Hf) as Hd. destruct (fdalloc limit f t (heap s1)) as [[fd t1] k1]. destruct Hd as [Hk [(-> & K1 & Hfull)|(Hr & W1 & E0 & C1 & Hlow)]].
  - cbn [Z.ltb Z.compare]. assert (Hl : 0 < inc f (refs m (view t)) f) by (rewrite inc_eq; lia). destruct (fileclose_spec dev_major _ _ f (fs_ok_heap _ _ k1 H1 Hk) Hl) as (s2 & l & Es & H2). rewrite Es. do 3 eexists. split; [reflexivity|].
    split; [by apply (kept_ok t), Ht|]. split; [by apply kept_low|]. left. split; [done|]. split; [by apply kept_view|]. assert (Hdec : forall a, dec f (inc f (refs m (view t))) a = refs m (view t) a) by (intros a; unfold dec, inc; lia).
    split; [apply (fs_ok_ext s2 _ _ (fun a => eq_sym (Hdec a))), H2|]. split.
    { intros a Hp0. rewrite (st_obj _ _ _ _ _ _ H2) by (by rewrite Hdec). apply Hobj. intros ->. lia. }
    exists l. split; [rewrite (st_closed _ _ _ _ _ _ H2); cbn [closed set_heap]; by rewrite Hcl|]. right. exists f, []. split; [done|]. split; [|by left]. apply (single_close _ _ _ _ _ f (set_ref 0 new_file) H2); [|done].
    intros a. rewrite Hdec. destruct (decide (f = a)) as [<-|Hne]; [rewrite inc_eq; split; [done|lia]|rewrite inc_ne by done; split; [lia|congruence]].
  - rewrite (proj2 (Z.ltb_ge _ _)) by lia. assert (V1 := view_one _ _ _ _ _ C1). rewrite (proj2 (Z.eqb_neq f 0)) in V1 by done. change (flag 0 FD_CLOEXEC) with false in V1.
    assert (E0' : view t !! fd = None) by (by apply view_None). assert (Ht1 : table_ok t1) by (split; [done|]; apply (one_clean _ _ _ _ C1); [done|apply Ht]). assert (L1 : low_hint t -> low_hint t1) by (intros H; apply (Hlow H)).
    assert (Hrefs : forall a, refs m (view t1) a = inc f (refs m (view t)) a) by (intros a; rewrite V1; unfold refs, inc; rewrite links_insert by done; lia). assert (Hfl : 0 < refs m (view t1) f) by (rewrite Hrefs, inc_eq; lia).
    assert (Hs1 : fs_ok (set_heap k1 s1) (refs m (view t1))) by (apply (fs_ok_ext _ (inc f (refs m (view t)))); [done|by apply fs_ok_heap]).
    assert (Hgive : forall s2 y, fs_ok s2 (refs m (view t1)) -> closed s2 = closed s -> (forall a, a <> f -> obj s2 a = obj s a) -> obj s2 f = Some y -> vain_calls (close_calls dev_major y) ->
      exists fd' t' s', abandon dev_major fd f t1 s2 = Some (fd', t', s') /\ open_post limit inode startoff r w e t s fd' t' s').
    { intros s2 y G1 G2 G3 G4 G5. destruct (give_up_spec t s t1 s2 fd f y E0' Hn Ht1 V1 G1 G2 G3 G4 G5) as (t' & s' & Eg & Gt & Gl & Gp). exists (-1), t', s'. split; [done|]. split; [done|]. split; [tauto|]. by left. }
    pose proof (open_pty_spec inode startoff r w e f (set_heap k1 s1) _ Hs1 Hfl Hnew) as Hpty.
    destruct (open_pty dev_major inode e f (set_heap k1 s1)) as [s2|]; [|apply (Hgive _ (set_ref 0 new_file)); try done; by left]. destruct Hpty as (y & G1 & G2 & G3' & G4 & G5 & G6). cbn [closed set_heap] in G2. rewrite Hcl in G2.
    assert (G3 : forall a, a <> f -> obj s2 a = obj s a) by (intros a Hne; rewrite G3' by done; by apply Hobj).
    destruct (truncate_fails e); [apply (Hgive s2 y); try done; left; unfold close_calls; by rewrite G5|].
    destruct (set_file_obj s2 f (set_inode inode startoff r w) y G4 (fun _ => eq_refl)) as [O1 O2]. assert (G7 : fs_ok (upd_file f (set_inode inode startoff r w) s2) (refs m (view t1))) by (by apply refit). assert (G8 : forall a, a <> f -> obj (upd_file f (set_inode inode startoff r w) s2) a = obj s a) by (intros a Hne; rewrite O2 by done; by apply G3).
    destruct (_ && dev_open_fails e) eqn:Edev.
    + apply andb_true_iff in Edev as [Edev _]. apply (Hgive _ (set_inode inode startoff r w y)); try done. right. exists (set_inode inode startoff r w y). done.
    + do 3 eexists. split; [reflexivity|]. split; [done|]. split; [done|]. right. split; [done|]. split; [done|]. split; [intros H i Hi; rewrite view_None; by apply Hlow|].
      exists f. split; [done|]. split; [done|]. split; [done|]. split; [done|]. split; [done|]. split; [by rewrite O1, G6|done].
Qed.

(** *** fork *)

(** Here [m] counts all references before the fork, the parent's among them. *)
Lemma dup_loop_spec pt n i ct s : table_wf pt -> (forall j, slot pt j <> 0 -> 0 < m (slot pt j)) -> table_ok ct -> ok ct s -> 0 <= i -> i + Z.of_nat n <= nfds ct -> nfds ct <= capacity pt -> (forall j, i <= j -> slot ct j = 0) -> exists ct' s' l,
  dup_loop n i pt ct s = Some (ct', s') /\ table_ok ct' /\ fs_step dev_major s (refs m (view ct)) s' (refs m (view ct')) l /\ next_fd_hint ct' = next_fd_hint ct /\
  forall j, view ct' !! j = if within i n j then view pt !! j else view ct !! j.
Proof.
  intros Wp Hpt. revert i ct s. induction n as [|n IH]; intros i ct s Ht Hs Hi Hn Hcap Hz; cbn [dup_loop].
  { exists ct, s, []. split; [done|]. split; [done|]. split; [by apply step_refl|]. split; [done|]. intros j. by rewrite decide_False by lia. }
  pose proof (tw_nfds ct (proj1 Ht)) as Hnc. rewrite <- slot_in by lia. pose proof (lookup_view pt i) as Ei. destruct (Z.eqb_spec (slot pt i) 0) as [E|E].
  - destruct (IH (i + 1) ct s Ht Hs ltac:(lia) ltac:(lia) Hcap ltac:(intros j Hj; apply Hz; lia)) as (ct' & s' & l & El & Ht' & H2 & Hh & Hv). exists ct', s', l. split; [done|]. split; [done|]. split; [done|]. split; [done|]. intros j. rewrite Hv.
    destruct (decide (j = i)) as [->|Hne]; [rewrite decide_False, decide_True, Ei by lia; apply view_None, Hz; lia|]. destruct (within (i + 1) n j), (within i (S n) j); (done || lia).
  - rewrite <- fmark_in by lia. assert (Hl : 0 < refs m (view ct) (slot pt i)) by (unfold refs; pose proof (Hpt i E); pose proof (links_nonneg (slot pt i) (view ct)); lia).
    destruct (put_dup ct s i (slot pt i) (fmark pt i) Ht Hs ltac:(lia) (Hz i ltac:(lia)) E Hl) as (V1 & s1 & Es & (Ht1 & (l1 & H1) & _)). rewrite Es.
    destruct (put_both ct i (slot pt i) (fmark pt i) (proj1 Ht) ltac:(lia) ltac:(left; lia)) as [_ C1]. set (ct1 := put_flag i (fmark pt i) (put i (slot pt i) ct)) in *.
    destruct (IH (i + 1) ct1 s1 Ht1 (st_ok _ _ _ _ _ _ H1) ltac:(lia) ltac:(cbn; lia) Hcap ltac:(intros j Hj; rewrite (one_slot _ _ _ _ _ C1), decide_False by lia; apply Hz; lia)) as (ct' & s' & l & El & Ht' & H2 & Hh & Hv).
    exists ct', s', (l1 ++ l). split; [done|]. split; [done|]. split; [by eapply step_trans|]. split; [done|]. intros j. rewrite Hv, V1.
    destruct (decide (j = i)) as [->|Hne]; [rewrite decide_False, decide_True, lookup_insert_eq, Ei by lia; done|]. rewrite lookup_insert_ne by done. destruct (within (i + 1) n j), (within i (S n) j); (done || lia).
Qed.

(** A table with no descriptors. *)
Lemma blank_ok t : length (entries t) = WORDS -> length (fdflags t) = BYTES -> (capacity t = 32 \/ capacity t = 288 \/ capacity t = 576) -> 0 <= nfds t <= capacity t ->
  (forall i, 0 <= i < capacity t -> entry t i = 0 /\ fdflag t i = 0) -> table_ok t /\ (forall i, slot t i = 0) /\ view t = ∅.
Proof.
  intros He Hf Hc Hn Hz. assert (Hcell : forall i, cell t i = (0, 0)) by (intros i; destruct (decide (0 <= i < capacity t)) as [Hi|]; [destruct (Hz i Hi); unfold cell; rewrite slot_in, fmark_in by done; congruence|apply cell_out; lia]).
  assert (Hs : forall i, slot t i = 0) by (intros i; by injection (Hcell i)). split; [split; [by split|]; intros i _; by injection (Hcell i)|]. split; [done|]. apply map_eq. intros i. rewrite lookup_empty. by apply view_None.
Qed.

Lemma nth_replicate n i : nth i (replicate n 0) 0 = 0.
Proof. rewrite nth_lookup. destruct (replicate n 0 !! i) eqn:E; [|done]. by apply lookup_replicate in E as [-> _]. Qed.

Lemma nth_zero_prefix n l i : 0 <= i < n -> nth (Z.to_nat i) (zero_prefix n l) 0 = 0.
Proof. intros Hi. unfold zero_prefix. rewrite app_nth1 by (rewrite length_replicate; lia). apply nth_replicate. Qed.

Lemma length_zero_prefix n l : n <= Z.of_nat (length l) -> length (zero_prefix n l) = length l.
Proof. intros Hn. unfold zero_prefix. rewrite length_app, length_replicate, length_drop. lia. Qed.

Lemma init_ok : table_ok fdtable_init /\ view fdtable_init = ∅.
Proof.
  assert (Hb : table_ok fdtable_init /\ (forall i, slot fdtable_init i = 0) /\ view fdtable_init = ∅); [|by destruct Hb as (? & _ & ?)].
  apply blank_ok; [apply length_replicate|apply length_replicate|by left|done|]. intros i _. split; apply nth_replicate.
Qed.

Lemma falloc_spec k A : heap_ok k A -> match fdtable_alloc k with
  | None => True
  | Some (o, k') => heap_ok k' A /\ forall t, o = Some t -> table_ok t /\ view t = ∅ /\ capacity t = 32
  end.
Proof.
  intros Hk. unfold fdtable_alloc. destruct (kalloc_words k) as [o k1] eqn:E1. destruct (kalloc_words_law _ _ _ _ Hk E1) as [Hk1 _]. destruct o; [|done].
  destruct (kalloc_words k1) as [o k2] eqn:E2. destruct (kalloc_words_law _ _ _ _ Hk1 E2) as [Hk2 _]. destruct o; [|done].
  destruct (kalloc_bytes k2) as [o k3] eqn:E3. destruct (kalloc_bytes_law _ _ _ _ Hk2 E3) as [Hk3 _]. destruct o; [|done]. split; [done|]. intros t Et. assert (E : t = fdtable_init) by congruence. rewrite E. destruct init_ok. done.
Qed.

Lemma fdtable_dup_spec pt ct s : table_ok pt -> capacity pt <= 288 -> (forall j, slot pt j <> 0 -> 0 < m (slot pt j)) -> table_ok ct -> view ct = ∅ -> capacity ct = 32 -> fs_ok s m -> exists r ct' s' l,
  fdtable_dup pt ct s = Some (r, ct', s') /\ table_ok ct' /\ fs_step dev_major s m s' (refs m (view ct')) l /\
  ((r = -1 /\ view ct' = ∅) \/ (r = 0 /\ view ct' = view pt /\ (low_hint pt -> low_hint ct'))).
Proof.
  intros Hpt Hc Hl Ht Hv Hc2 Hs. assert (Hm0 : forall a, refs m ∅ a = m a) by (intros a; unfold refs; rewrite links_empty; lia). unfold fdtable_dup.
  assert (Hex : exists r ct1 k, (if capacity pt >? capacity ct then fdtable_expand ct (heap s) else (0, ct, heap s)) = (r, ct1, k) /\ heap_ok k (dom (files s)) /\ kept ct ct1 /\ (r = -1 \/ (r = 0 /\ capacity ct1 = capacity pt))).
  { pose proof (tw_cap pt (proj1 Hpt)) as Hcp. destruct (Z.gtb_spec (capacity pt) (capacity ct)) as [Hgt|Hle].
    - pose proof (expand_spec ct (heap s) _ (proj1 Ht) (fo_heap _ _ Hs)) as He. destruct (fdtable_expand ct (heap s)) as [[r ct1] k]. exists r, ct1, k. split; [done|]. destruct He as [Hk [[-> ->]|(-> & K1 & C1 & _)]]; (split; [done|]); [split; [apply files_kept_refl, Ht|by left]|].
      split; [done|]. right. split; [done|]. rewrite C1, Hc2. cbn. lia.
    - exists 0, ct, (heap s). split; [done|]. split; [apply Hs|]. split; [apply files_kept_refl, Ht|]. right. split; [done|lia]. }
  destruct Hex as (r & ct1 & k & -> & Hk & K1 & Hr). destruct Hr as [->|[-> C1]]; cbn [Z.ltb Z.compare].
  { do 4 eexists. split; [reflexivity|]. split; [by apply (kept_ok ct), Ht|]. rewrite (kept_view _ _ K1), Hv. split; [|by left]. apply (step_ext dev_major s m _ _ m); [done|done|by apply step_heap]. }
  set (ct2 := mkFt _ _ _ _ _). pose proof (kt_wf _ _ K1) as W1. pose proof (tw_nfds pt (proj1 Hpt)) as Hn.
  assert (Hb : table_ok ct2 /\ (forall i, slot ct2 i = 0) /\ view ct2 = ∅).
  { assert (Hbig : capacity ct1 <= 576) by (destruct (tw_cap ct1 W1) as [?|[?|?]]; lia). apply blank_ok; unfold ct2; cbn [entries fdflags capacity nfds].
    - rewrite length_zero_prefix; [apply W1|]. rewrite (tw_entries _ W1). unfold WORDS. lia.
    - rewrite length_zero_prefix; [apply W1|]. rewrite (tw_flags _ W1). unfold BYTES. lia.
    - apply Hpt.
    - done.
    - intros i Hi. unfold entry, fdflag. cbn [entries fdflags]. rewrite !nth_zero_prefix by lia. done. }
  destruct Hb as (Ht2 & Hz & V2). assert (Hs2 : fs_ok (set_heap k s) (refs m (view ct2))) by (rewrite V2; apply (fs_ok_ext _ m); [done|by apply fs_ok_heap]).
  destruct (dup_loop_spec pt (Z.to_nat (nfds pt)) 0 ct2 (set_heap k s) (proj1 Hpt) Hl Ht2 Hs2 ltac:(lia) ltac:(cbn; lia) ltac:(cbn; lia) ltac:(intros j _; apply Hz)) as (ct' & s' & l & El & Ht' & H2 & Hh & Hv'). rewrite El.
  assert (V : view ct' = view pt).
  { apply map_eq. intros j. rewrite Hv'. destruct (within 0 _ j) as [|Hj]; [done|]. rewrite V2, lookup_empty. symmetry. apply view_None. destruct (decide (slot pt j = 0)) as [|Hne]; [done|]. pose proof (slot_bound pt j (proj1 Hpt) Hne). lia. }
  exists 0, ct', s', ([] ++ l). split; [done|]. split; [done|]. split; [|right; split; [done|]; split; [done|]].
  - eapply step_trans; [by apply (step_heap dev_major s m k)|]. apply (step_ext dev_major _ (refs m (view ct2)) _ _ (refs m (view ct'))); [intros a; by rewrite V2, Hm0|done|done].
  - intros Hlow j Hj. rewrite Hh in Hj. rewrite <- view_None, V, view_None. by apply Hlow.
Qed.

Lemma fork_spec pt s : table_ok pt -> capacity pt <= 288 -> (forall j, slot pt j <> 0 -> 0 < m (slot pt j)) -> fs_ok s m ->
  match fork_fds dev_major pt s with
  | ForkPanic => True
  | ForkFault => False
  | ForkDone r None s' => r = -1 /\ exists l, fs_step dev_major s m s' m l
  | ForkDone r (Some ct) s' => r = 0 /\ table_ok ct /\ view ct = view pt /\ (low_hint pt -> low_hint ct) /\ exists l, fs_step dev_major s m s' (refs m (view pt)) l
  end.
Proof.
  intros Hpt Hc Hl Hs. unfold fork_fds. pose proof (falloc_spec (heap s) _ (fo_heap _ _ Hs)) as Ha. destruct (fdtable_alloc (heap s)) as [[o k]|]; [|done]. destruct Ha as [Hk Hnew]. pose proof (step_heap dev_major s m k Hs Hk) as H1.
  destruct o as [ct|]; [|split; [done|by exists []]]. destruct (Hnew ct eq_refl) as (Ht & V & C). destruct (fdtable_dup_spec pt ct (set_heap k s) Hpt Hc Hl Ht V C (st_ok _ _ _ _ _ _ H1)) as (r & ct' & s' & l & -> & Ht' & H2 & Hr).
  destruct Hr as [[-> V']|(-> & V' & Hlow)]; cbn [Z.ltb Z.compare].
  - destruct (fdtable_free_spec ct' s' (proj1 Ht') (st_ok _ _ _ _ _ _ H2)) as (s2 & l2 & -> & H3). split; [done|]. exists ([] ++ (l ++ l2)). eapply step_trans; [done|]. by eapply step_trans.
  - split; [done|]. split; [done|]. split; [done|]. split; [done|]. exists ([] ++ l). rewrite <- V'. by eapply step_trans.
Qed.

End Calls.
