(* ===== verification/FdMach.v ===== *)
(** * Processes that open, pass on and close files

    All descriptor tables of the system over one set of file objects, and the
    calls of the processes in any order. *)

From S2P Require Import Prelude FdTable FdView FdRefs FdCalls.

(** ** The machine *)

Inductive tcall :=
  | Open (inode startoff : Z) (r w : bool) (e : answers)
  | Close (fd : Z)
  | Dup (fd : Z)
  | Dup2 (oldfd newfd : Z)
  | Fcntl (fd cmd arg : Z).

(** A process makes a call under its soft limit, or execs, forks or exits. *)
Inductive op :=
  | Call (p : nat) (rlimit : Z) (c : tcall)
  | Exec (p : nat)
  | Fork (p : nat)
  | Exit (p : nat).

Section Machine.
Context {K : Type} {Hp : Heap K}.
Context (dev_major : Z -> option Z) (dev_minor : Z -> Z).
Context (get_nonblock : Z -> file -> Z) (set_nonblock : Z -> file -> bool -> Z).

(** One table per process, in the order they are forked; none after exit. *)
Record sys := mkSys { tabs : list (option fdtable); fls : fstate K }.

Inductive outcome := Done (r : Z) (x : sys) | Panic | Fault.

Definition run_call (limit : Z) (c : tcall) (t : fdtable) (s : fstate K) : result :=
  match c with
  | Open inode startoff r w e => open_inode dev_major limit inode startoff r w e t s
  | Close fd => sys_close dev_major fd t s
  | Dup fd => sys_dup limit fd t s
  | Dup2 oldfd newfd => sys_dup2 dev_major limit oldfd newfd t s
  | Fcntl fd cmd arg => sys_fcntl dev_major dev_minor get_nonblock set_nonblock limit fd cmd arg t s
  end.

Definition step (o : op) (x : sys) : outcome :=
  match o with
  | Call p rlimit c =>
      match tabs x !! p with
      | Some (Some t) =>
          match run_call (proc_fd_limit rlimit) c t (fls x) with
          | None => Fault
          | Some (r, t', s') => Done r (mkSys (<[p := Some t']> (tabs x)) s')
          end
      | _ => Done (-1) x
      end
  | Exec p =>
      match tabs x !! p with
      | Some (Some t) =>
          match exec_close dev_major t (fls x) with
          | None => Fault
          | Some (t', s') => Done 0 (mkSys (<[p := Some t']> (tabs x)) s')
          end
      | _ => Done (-1) x
      end
  | Fork p =>
      match tabs x !! p with
      | Some (Some t) =>
          match fork_fds dev_major t (fls x) with
          | ForkPanic => Panic
          | ForkFault => Fault
          | ForkDone r None s' => Done r (mkSys (tabs x) s')
          | ForkDone r (Some ct) s' => Done r (mkSys (tabs x ++ [Some ct]) s')
          end
      | _ => Done (-1) x
      end
  | Exit p =>
      match tabs x !! p with
      | Some (Some t) =>
          match fdtable_free dev_major t (fls x) with
          | None => Fault
          | Some s' => Done 0 (mkSys (<[p := None]> (tabs x)) s')
          end
      | _ => Done (-1) x
      end
  end.

(** [file_has_refs_on_dev], the device number of an inode given by [inode_dev]; [None] for
    an entry that leads to no file. *)
Fixpoint scan_table (inode_dev : Z -> Z) (dev : Z) (n : nat) (i : Z) (t : fdtable) (s : fstate K) : option bool :=
  match n with
  | O => Some false
  | S n =>
      let f := entry t i in
      if f =? 0 then scan_table inode_dev dev n (i + 1) t s
      else
        match files s !! f with
        | None => None
        | Some x =>
            if ref x <? 1 then scan_table inode_dev dev n (i + 1) t s
            else if negb (match type x with FD_INODE => true | _ => false end) || (ip x =? 0) then scan_table inode_dev dev n (i + 1) t s
            else if inode_dev (ip x) =? dev then Some true
            else scan_table inode_dev dev n (i + 1) t s
        end
  end.

Fixpoint scan_procs (inode_dev : Z -> Z) (dev : Z) (ts : list (option fdtable)) (s : fstate K) : option bool :=
  match ts with
  | [] => Some false
  | None :: ts => scan_procs inode_dev dev ts s
  | Some t :: ts =>
      match scan_table inode_dev dev (Z.to_nat (nfds t)) 0 t s with
      | None => None
      | Some true => Some true
      | Some false => scan_procs inode_dev dev ts s
      end
  end.

Definition file_has_refs_on_dev (inode_dev : Z -> Z) (dev : Z) (x : sys) : option bool := scan_procs inode_dev dev (tabs x) (fls x).

(** ** Specification *)

Definition views (x : sys) : list (option (gmap Z (Z * bool))) := option_map view <$> tabs x.

Definition olinks (a : Z) (o : option (gmap Z (Z * bool))) : Z := match o with Some v => links a v | None => 0 end.

(** All descriptors of the file at [a]. *)
Definition total (vs : list (option (gmap Z (Z * bool)))) (a : Z) : Z := foldr (fun o z => olinks a o + z) 0 vs.

(** What a call may do to the view of its process; [made f y]: the new file [y] at [f]. *)
Definition call_spec (cap limit : Z) (made : Z -> file -> Prop) (c : tcall) (v : gmap Z (Z * bool)) (r : Z) (v' : gmap Z (Z * bool)) : Prop :=
  match c with
  | Open inode startoff rd wr e => (r = -1 /\ v' = v) \/ ((0 <= r < limit) /\ v !! r = None /\ exists f, made f (opened dev_major inode startoff rd wr e) /\ v' = <[r := (f, false)]> v)
  | Close fd => close_spec fd v r v'
  | Dup fd => dup_spec cap limit fd v r v'
  | Dup2 oldfd newfd => dup2_spec cap limit oldfd newfd v r v'
  | Fcntl fd cmd arg => fcntl_spec cap limit fd cmd arg v r v'
  end.

Definition op_spec (o : op) (x : sys) (r : Z) (x' : sys) : Prop :=
  match o with
  | Call p rlimit c =>
      match tabs x !! p with
      | Some (Some t) => exists v', views x' = <[p := Some v']> (views x) /\
          call_spec (capacity t) (proc_fd_limit rlimit) (fun f y => f <> 0 /\ total (views x) f = 0 /\ obj (fls x') f = Some y) c (view t) r v'
      | _ => r = -1 /\ x' = x
      end
  | Exec p =>
      match tabs x !! p with
      | Some (Some t) => r = 0 /\ views x' = <[p := Some (filter (fun d => d.2.2 = false) (view t))]> (views x)
      | _ => r = -1 /\ x' = x
      end
  | Fork p =>
      match tabs x !! p with
      | Some (Some t) => (r = -1 /\ views x' = views x) \/ (r = 0 /\ views x' = views x ++ [Some (view t)])
      | _ => r = -1 /\ x' = x
      end
  | Exit p =>
      match tabs x !! p with
      | Some (Some t) => r = 0 /\ views x' = <[p := None]> (views x)
      | _ => r = -1 /\ x' = x
      end
  end.

(** What happens to the files when the counts go from [n] to [n']: the files
    that lose their last descriptor are closed, each once, with the calls that
    its kind asks for; a file that [open] made in vain is given back, with the
    close call of its device if it was the driver that refused. *)
Record files_change (s : fstate K) (n : Z -> Z) (s' : fstate K) (n' : Z -> Z) (l : list (Z * list call)) : Prop := {
  fc_closed : closed s' = closed s ++ l;
  fc_nodup : NoDup l.*1;
  fc_gone a : 0 < n a -> (a ∈ l.*1 <-> n' a = 0);
  fc_calls a cs : (a, cs) ∈ l -> (0 < n a /\ exists x, obj s a = Some x /\ cs = close_calls dev_major x) \/ (n a = 0 /\ vain_calls dev_major cs);
  fc_obj a : 0 < n a -> 0 < n' a -> obj s' a = obj s a
}.

(** The calls that the code gets right. *)
Definition fits (o : op) (x : sys) : Prop :=
  match o with
  | Call p _ (Dup2 oldfd newfd) => forall t, tabs x !! p = Some (Some t) -> dup2_fits oldfd newfd (view t)
  | Fork p => forall t, tabs x !! p = Some (Some t) -> capacity t <= 288
  | _ => True
  end.

(** The first process, and every state that operations of [P] lead to. *)
Inductive reach (start : K -> Prop) (P : op -> Prop) : sys -> Prop :=
  | reach_start k : start k -> reach start P (mkSys [Some fdtable_init] (mkFs ∅ 0 0 [] k))
  | reach_step x o r x' : reach start P x -> P o -> fits o x -> step o x = Done r x' -> reach start P x'.

Definition not_exec (o : op) : Prop := match o with Exec _ => False | _ => True end.

(** ** Invariant *)

Context {HL : HeapLaws K}.

Record sys_ok (x : sys) : Prop := {
  so_tab p t : tabs x !! p = Some (Some t) -> table_ok t;
  so_fs : fs_ok (fls x) (total (views x))
}.

Definition sys_low (x : sys) : Prop := forall p t, tabs x !! p = Some (Some t) -> low_hint t.

Lemma views_lookup x p t : tabs x !! p = Some (Some t) -> views x !! p = Some (Some (view t)).
Proof. intros H. unfold views. by rewrite list_lookup_fmap, H. Qed.

Lemma ftotal_cons o vs a : total (o :: vs) a = olinks a o + total vs a.
Proof. done. Qed.

Lemma olinks_nonneg a o : 0 <= olinks a o.
Proof. destruct o as [v|]; [apply links_nonneg|done]. Qed.

Lemma total_nonneg vs a : 0 <= total vs a.
Proof. induction vs as [|o vs IH]; [done|]. rewrite ftotal_cons. pose proof (olinks_nonneg a o). lia. Qed.

Lemma total_insert vs p o o' a : vs !! p = Some o -> total (<[p := o']> vs) a = total vs a - olinks a o + olinks a o'.
Proof.
  revert p. induction vs as [|q vs IH]; intros [|p] Hp0; cbn in Hp0; try done.
  - injection Hp0 as ->. change (total (o' :: vs) a = total (o :: vs) a - olinks a o + olinks a o'). rewrite !ftotal_cons. lia.
  - change (total (q :: <[p := o']> vs) a = total (q :: vs) a - olinks a o + olinks a o'). rewrite !ftotal_cons, (IH p Hp0). lia.
Qed.

Lemma ftotal_app vs o a : total (vs ++ [o]) a = total vs a + olinks a o.
Proof. induction vs as [|q vs IH]; cbn [app]; rewrite ?ftotal_cons, ?IH; [change (total [] a) with 0|]; lia. Qed.

Lemma total_ge vs p v a : vs !! p = Some (Some v) -> links a v <= total vs a.
Proof. intros H. pose proof (total_insert vs p (Some v) None a H) as E. pose proof (total_nonneg (<[p := None]> vs) a). cbn in E. lia. Qed.

(** The references from other tables. *)
Definition others (x : sys) (t : fdtable) (a : Z) : Z := total (views x) a - links a (view t).

Lemma others_nonneg x p t : tabs x !! p = Some (Some t) -> forall a, 0 <= others x t a.
Proof. intros H a. unfold others. pose proof (total_ge _ p _ a (views_lookup x p t H)). lia. Qed.

Lemma others_refs x t a : refs (others x t) (view t) a = total (views x) a.
Proof. unfold refs, others. lia. Qed.

Lemma others_after x p t t' s' a : tabs x !! p = Some (Some t) -> refs (others x t) (view t') a = total (views (mkSys (<[p := Some t']> (tabs x)) s')) a.
Proof. intros H. unfold views. cbn [tabs]. rewrite list_fmap_insert. rewrite (total_insert _ p (Some (view t))) by (by apply views_lookup). cbn. unfold refs, others, views. lia. Qed.

Lemma others_ok x p t : sys_ok x -> tabs x !! p = Some (Some t) -> fs_ok (fls x) (refs (others x t) (view t)).
Proof. intros Hx _. apply (fs_ok_ext _ (total (views x))); [apply others_refs|apply Hx]. Qed.

Lemma change_step s n s' n' l : fs_step dev_major s n s' n' l -> files_change s n s' n' l.
Proof.
  intros H. split; [apply H|apply H| | |].
  - intros a Ha. rewrite (st_gone _ _ _ _ _ _ H). tauto.
  - intros a cs Ha. left. split; [|by apply (st_calls _ _ _ _ _ _ H)]. apply (st_gone _ _ _ _ _ _ H). apply list_elem_of_fmap. by exists (a, cs).
  - intros a _. apply H.
Qed.

(** A step's result, for the theorem below. *)
Definition good (o : op) (x : sys) (r : Z) (x' : sys) : Prop :=
  sys_ok x' /\ op_spec o x r x' /\ (exists l, files_change (fls x) (total (views x)) (fls x') (total (views x')) l) /\ (not_exec o -> sys_low x -> sys_low x').

Lemma views_insert x p t' s' : views (mkSys (<[p := Some t']> (tabs x)) s') = <[p := Some (view t')]> (views x).
Proof. unfold views. cbn [tabs]. by rewrite list_fmap_insert. Qed.

Lemma tabs_insert x p o q t' : <[p := o]> (tabs x) !! q = Some (Some t') -> o = Some t' \/ tabs x !! q = Some (Some t').
Proof. intros H. apply list_lookup_insert_Some in H as [(_ & -> & _)|[_ H]]; [by left|by right]. Qed.

(** One table changes, and the references with it. *)
Lemma replaced x p t t' s' l : sys_ok x -> tabs x !! p = Some (Some t) -> table_ok t' -> fs_step dev_major (fls x) (refs (others x t) (view t)) s' (refs (others x t) (view t')) l ->
  let x' := mkSys (<[p := Some t']> (tabs x)) s' in sys_ok x' /\ files_change (fls x) (total (views x)) s' (total (views x')) l.
Proof.
  intros Hx Ht Ht' Hst x'. assert (H : fs_step dev_major (fls x) (total (views x)) s' (total (views x')) l).
  { apply (step_ext dev_major _ (refs (others x t) (view t)) _ _ (refs (others x t) (view t'))); [intros a; by rewrite others_refs|intros a; symmetry; by apply others_after|done]. }
  split; [|by apply change_step]. split; [|apply H]. intros q u Hq. apply tabs_insert in Hq as [[= ->]|Hq]; [done|]. by apply (so_tab x Hx q).
Qed.

Lemma replaced_low x p t t' s' : tabs x !! p = Some (Some t) -> (low_hint t -> low_hint t') -> sys_low x -> sys_low (mkSys (<[p := Some t']> (tabs x)) s').
Proof. intros Ht Hl Hx q u Hq. apply tabs_insert in Hq as [[= <-]|Hq]; [by apply Hl, (Hx p)|by apply (Hx q)]. Qed.

Lemma replaced_good x p rlimit c t t' s' r : sys_ok x -> tabs x !! p = Some (Some t) -> after dev_major (others x t) t (fls x) t' s' ->
  (forall made, call_spec (capacity t) (proc_fd_limit rlimit) made c (view t) r (view t')) -> good (Call p rlimit c) x r (mkSys (<[p := Some t']> (tabs x)) s').
Proof.
  intros Hx Ht (Ht' & (l & Hst) & Hlow) Hspec. destruct (replaced x p t t' s' l Hx Ht Ht' Hst) as [H1 H2]. split; [done|]. split; [cbn [op_spec]; rewrite Ht; exists (view t'); split; [apply views_insert|apply Hspec]|].
  split; [by exists l|]. intros _. by apply (replaced_low x p t).
Qed.
Lemma open_good x p rlimit inode startoff r w e t fd t' s' : sys_ok x -> tabs x !! p = Some (Some t) -> open_post dev_major (others x t) (proc_fd_limit rlimit) inode startoff r w e t (fls x) fd t' s' ->
  good (Call p rlimit (Open inode startoff r w e)) x fd (mkSys (<[p := Some t']> (tabs x)) s').
Proof.
  intros Hx Ht (Ht' & Hlow & H). set (x' := mkSys (<[p := Some t']> (tabs x)) s'). assert (Htot := fun a => others_after x p t t' s' a Ht). fold x' in Htot.
  assert (Hok : fs_ok s' (refs (others x t) (view t')) -> sys_ok x').
  { intros Hfs. split; [|by apply (fs_ok_ext _ _ _ (fun a => eq_sym (Htot a)))]. intros q u Hq. apply tabs_insert in Hq as [[= ->]|Hq]; [done|]. by apply (so_tab x Hx q). }
  assert (Hlow' : not_exec (Call p rlimit (Open inode startoff r w e)) -> sys_low x -> sys_low x') by (intros _; by apply (replaced_low x p t)).
  assert (Hviews := views_insert x p t' s'). fold x' in Hviews. unfold good. cbn [op_spec call_spec]. rewrite Ht. destruct H as [(-> & (V & Hfs & Hobj & l & Hcl & Hl))|(Hfd & E0 & _ & f & Hf & Hn & V & Hfs & Hcl & Hof & Hobj)].
  - split; [apply Hok; by rewrite V|]. split; [exists (view t'); split; [done|by left]|]. split; [|done]. exists l. assert (Hsame : forall a, total (views x') a = total (views x) a) by (intros a; rewrite <- Htot, V; apply others_refs).
    split; [done|destruct Hl as [->|(f & cs & _ & -> & _)]; [constructor|apply NoDup_singleton]| | |].
    + intros a Ha. rewrite Hsame. destruct Hl as [->|(f & cs & Hn & -> & _)]; [split; [intros H; by apply elem_of_nil in H|lia]|]. change ([(f, cs)].*1) with [f]. rewrite list_elem_of_singleton. rewrite others_refs in Hn. split; [intros ->|]; lia.
    + intros a cs Ha. right. destruct Hl as [->|(f & cs' & Hn & -> & Hv)]; [by apply elem_of_nil in Ha|]. apply list_elem_of_singleton in Ha as [= -> ->]. by rewrite others_refs in Hn.
    + intros a Ha _. apply Hobj. by rewrite others_refs.
  - rewrite others_refs in Hn. split; [by apply Hok|]. split; [exists (view t'); split; [done|]; right; split; [done|]; split; [done|]; by exists f|]. split; [|done]. exists [].
    assert (Hge : forall a, total (views x) a <= total (views x') a) by (intros a; rewrite <- Htot, V; unfold refs; rewrite links_insert by done; unfold others; destruct (f =? a); cbn; lia).
    split; [by rewrite app_nil_r|constructor| | |].
    + intros a Ha. split; [intros H; by apply elem_of_nil in H|specialize (Hge a); lia].
    + intros a cs Ha. by apply elem_of_nil in Ha.
    + intros a Ha _. apply Hobj. intros ->. lia.
Qed.

Lemma call_good x p rlimit c t : sys_ok x -> fits (Call p rlimit c) x -> tabs x !! p = Some (Some t) -> exists r t' s',
  run_call (proc_fd_limit rlimit) c t (fls x) = Some (r, t', s') /\ good (Call p rlimit c) x r (mkSys (<[p := Some t']> (tabs x)) s').
Proof.
  intros Hx Hfit Ht. pose proof (so_tab x Hx p t Ht) as Htab. pose proof (others_ok x p t Hx Ht) as Hs. pose proof (others_nonneg x p t Ht) as Hm. destruct c as [inode startoff r w e|fd|fd|oldfd newfd|fd cmd arg]; cbn [run_call].
  - destruct (open_spec dev_major (others x t) (others_nonneg x p t Ht) (proc_fd_limit rlimit) inode startoff r w e t (fls x) Htab Hs) as (fd & t' & s' & E & H). exists fd, t', s'. split; [done|]. by apply (open_good x p rlimit _ _ _ _ _ t).
  - destruct (sys_close_spec dev_major (others x t) Hm fd t (fls x) Htab Hs) as (r & t' & s' & E & Ha & Hsp). exists r, t', s'. split; [done|]. by apply (replaced_good x p _ _ t).
  - destruct (sys_dup_spec dev_major (others x t) Hm (proc_fd_limit rlimit) fd t (fls x) Htab Hs) as (r & t' & s' & E & Ha & Hsp & _). exists r, t', s'. split; [done|]. by apply (replaced_good x p _ _ t).
  - destruct (sys_dup2_spec dev_major (others x t) Hm (proc_fd_limit rlimit) oldfd newfd t (fls x) Htab Hs (Hfit t Ht)) as (r & t' & s' & E & Ha & Hsp). exists r, t', s'. split; [done|]. by apply (replaced_good x p _ _ t).
  - destruct (sys_fcntl_spec dev_major dev_minor get_nonblock set_nonblock (others x t) Hm (proc_fd_limit rlimit) fd cmd arg t (fls x) Htab Hs) as (r & t' & s' & E & Ha & Hsp). exists r, t', s'. split; [done|]. by apply (replaced_good x p _ _ t).
Qed.

Lemma good_same o x : sys_ok x -> op_spec o x (-1) x -> good o x (-1) x.
Proof. intros Hx H. split; [done|]. split; [done|]. split; [exists []; apply change_step, step_refl, Hx|done]. Qed.

Lemma exec_good x p t : sys_ok x -> tabs x !! p = Some (Some t) -> exists t' s', exec_close dev_major t (fls x) = Some (t', s') /\ good (Exec p) x 0 (mkSys (<[p := Some t']> (tabs x)) s').
Proof.
  intros Hx Ht. destruct (fd_exec_spec dev_major (others x t) (others_nonneg x p t Ht) t (fls x) (so_tab x Hx p t Ht) (others_ok x p t Hx Ht)) as (t' & s' & l & E & Ht' & Hst & V). exists t', s'. split; [done|].
  destruct (replaced x p t t' s' l Hx Ht Ht' Hst) as [H1 H2]. split; [done|]. split; [cbn [op_spec]; rewrite Ht; split; [done|]; by rewrite views_insert, V|]. split; [by exists l|done].
Qed.

Lemma exit_good x p t : sys_ok x -> tabs x !! p = Some (Some t) -> exists s', fdtable_free dev_major t (fls x) = Some s' /\ good (Exit p) x 0 (mkSys (<[p := None]> (tabs x)) s').
Proof.
  intros Hx Ht. destruct (fdtable_free_spec dev_major (others x t) (others_nonneg x p t Ht) t (fls x) (proj1 (so_tab x Hx p t Ht)) (others_ok x p t Hx Ht)) as (s' & l & E & Hst). exists s'. split; [done|].
  set (x' := mkSys (<[p := None]> (tabs x)) s'). assert (Hv : views x' = <[p := None]> (views x)) by (unfold views, x'; cbn [tabs]; by rewrite list_fmap_insert).
  assert (Hst' : fs_step dev_major (fls x) (total (views x)) s' (total (views x')) l).
  { apply (step_ext dev_major _ (refs (others x t) (view t)) _ _ (others x t)); [intros a; by rewrite others_refs| |done]. intros a. rewrite Hv, (total_insert _ p (Some (view t))) by (by apply views_lookup). cbn. unfold others. lia. }
  split; [split; [|apply Hst']|]; [intros q u Hq; apply tabs_insert in Hq as [?|Hq]; [done|]; by apply (so_tab x Hx q)|]. split; [cbn [op_spec]; rewrite Ht; done|]. split; [exists l; by apply change_step|].
  intros _ Hlow q u Hq. apply tabs_insert in Hq as [?|Hq]; [done|by apply (Hlow q)].
Qed.

Lemma fork_good x p t : sys_ok x -> tabs x !! p = Some (Some t) -> capacity t <= 288 -> match fork_fds dev_major t (fls x) with
  | ForkPanic => True
  | ForkFault => False
  | ForkDone r None s' => good (Fork p) x r (mkSys (tabs x) s')
  | ForkDone r (Some ct) s' => good (Fork p) x r (mkSys (tabs x ++ [Some ct]) s')
  end.
Proof.
  intros Hx Ht Hc. pose proof (so_tab x Hx p t Ht) as Htab. pose proof (total_nonneg (views x)) as Hm.
  assert (Hl : forall j, slot t j <> 0 -> 0 < total (views x) (slot t j)) by (intros j Hj; rewrite <- (others_refs x t); by apply (slot_live (others x t) (others_nonneg x p t Ht) t (fls x)); [apply (others_ok x p)|]).
  pose proof (fork_spec dev_major (total (views x)) Hm t (fls x) Htab Hc Hl (so_fs x Hx)) as Hf. destruct (fork_fds dev_major t (fls x)) as [| |r [ct|] s']; [done|done| |].
  - destruct Hf as (-> & Hct & V & Hlow & l & Hst). set (x' := mkSys (tabs x ++ [Some ct]) s'). assert (Hv : views x' = views x ++ [Some (view ct)]) by (unfold views, x'; cbn [tabs]; by rewrite fmap_app).
    assert (Hst' : fs_step dev_major (fls x) (total (views x)) s' (total (views x')) l) by (apply (step_ext dev_major _ (total (views x)) _ _ (refs (total (views x)) (view t))); [done|intros a; by rewrite Hv, ftotal_app, V|done]).
    assert (Hnew : forall q u, tabs x' !! q = Some (Some u) -> tabs x !! q = Some (Some u) \/ u = ct) by (intros q u Hq; cbn [tabs x'] in Hq; apply lookup_app_Some in Hq as [?|[_ Hq]]; [by left|right]; apply list_lookup_singleton_Some in Hq as [_ [= <-]]; done).
    split; [split; [|apply Hst']|]; [intros q u Hq; destruct (Hnew q u Hq) as [?| ->]; [by apply (so_tab x Hx q)|done]|]. split; [cbn [op_spec]; rewrite Ht; right; split; [done|]; by rewrite Hv, V|]. split; [exists l; by apply change_step|].
    intros _ Hx0 q u Hq. destruct (Hnew q u Hq) as [?| ->]; [by apply (Hx0 q)|]. by apply Hlow, (Hx0 p).
  - destruct Hf as (-> & l & Hst). split; [split; [apply (so_tab x Hx)|apply Hst]|]. split; [cbn [op_spec]; rewrite Ht; by left|]. split; [exists l; by apply change_step|done].
Qed.

Lemma fork_panics t s : fork_fds dev_major t s = ForkPanic -> fdtable_alloc (heap s) = None.
Proof.
  unfold fork_fds. destruct (fdtable_alloc (heap s)) as [[[ct|] k]|]; [|done|done]. destruct (fdtable_dup t ct (set_heap k s)) as [[[r ct'] s']|]; [|done]. destruct (r <? 0); [|done]. by destruct (fdtable_free dev_major ct' s').
Qed.

Lemma step_good o x : sys_ok x -> fits o x -> match step o x with Done r x' => good o x r x' | Panic => (exists p, o = Fork p) /\ fdtable_alloc (heap (fls x)) = None | Fault => False end.
Proof.
  intros Hx Hfit. destruct o as [p rlimit c|p|p|p]; cbn [step]; destruct (tabs x !! p) as [[t|]|] eqn:Ht; try (apply good_same; [done|]; cbn [op_spec]; by rewrite Ht).
  - destruct (call_good x p rlimit c t Hx Hfit Ht) as (r & t' & s' & -> & H). exact H.
  - destruct (exec_good x p t Hx Ht) as (t' & s' & -> & H). exact H.
  - pose proof (fork_good x p t Hx Ht (Hfit t Ht)) as H. pose proof (fork_panics t (fls x)) as Hpanic. destruct (fork_fds dev_major t (fls x)) as [| |r [ct|] s']; [|done|done|done]. split; [by exists p|by apply Hpanic].
  - destruct (exit_good x p t Hx Ht) as (s' & -> & H). exact H.
Qed.

Lemma boot_fds_ok k : heap_ok k ∅ -> let x := mkSys [Some fdtable_init] (mkFs ∅ 0 0 [] k) in sys_ok x /\ sys_low x.
Proof.
  intros Hk x. destruct init_ok as [Ht V]. assert (Hin : forall p t, tabs x !! p = Some (Some t) -> t = fdtable_init) by (intros p t Hp0; apply list_lookup_singleton_Some in Hp0 as [_ [= <-]]; done).
  assert (Htot : forall a, total (views x) a = 0) by (intros a; unfold views; cbn [tabs x]; rewrite list_fmap_singleton, ftotal_cons; cbn [olinks option_map]; rewrite V, links_empty; done).
  split; [split; [intros p t Hp0; by rewrite (Hin p t Hp0)|]|intros p t Hp0; rewrite (Hin p t Hp0); intros i Hi; change (next_fd_hint fdtable_init) with 0 in Hi; lia].
  apply (fs_ok_ext _ (fun _ => 0)); [done|]. split; cbn [files heap cache_head cache_count fls x]; [by rewrite dom_empty_L| |intros a y Hy; by rewrite lookup_empty in Hy|done|done].
  exists []. split; [constructor|]. split; [done|]. split; [done|]. split; [done|]. intros a y Hy. by rewrite lookup_empty in Hy.
Qed.

Lemma reach_ok P x : reach (fun k => heap_ok k ∅) P x -> sys_ok x /\ ((forall o, P o -> not_exec o) -> sys_low x).
Proof.
  induction 1 as [k Hk|x o r x' Hr [IH1 IH2] Ho Hfit E]; [destruct (boot_fds_ok k Hk); done|]. pose proof (step_good o x IH1 Hfit) as H. rewrite E in H. destruct H as (H1 & _ & _ & H2). split; [done|]. intros HP. apply H2; [by apply HP|by apply IH2].
Qed.

(** An open file of an inode on the device. *)
Definition on_dev (inode_dev : Z -> Z) (dev : Z) (s : fstate K) (f : Z) : Prop := exists y, obj s f = Some y /\ type y = FD_INODE /\ ip y <> 0 /\ inode_dev (ip y) = dev.

Lemma scan_table_spec inode_dev dev m n i t s : table_wf t -> (forall a, 0 <= m a) -> fs_ok s (refs m (view t)) -> 0 <= i -> i + Z.of_nat n <= capacity t ->
  exists b, scan_table inode_dev dev n i t s = Some b /\ (b = true <-> exists j, i <= j < i + Z.of_nat n /\ slot t j <> 0 /\ on_dev inode_dev dev s (slot t j)).
Proof.
  intros W Hm Hs. revert i. induction n as [|n IH]; intros i Hi Hc; cbn [scan_table]; [exists false; split; [done|]; split; [done|intros (j & Hj & _); lia]|].
  destruct (IH (i + 1) ltac:(lia) ltac:(lia)) as (b & Eb & Hb). rewrite <- slot_in by lia.
  assert (Hskip : (slot t i = 0 \/ ~ on_dev inode_dev dev s (slot t i)) -> b = true <-> exists j, i <= j < i + Z.of_nat (S n) /\ slot t j <> 0 /\ on_dev inode_dev dev s (slot t j)).
  { intros Hno. rewrite Hb. split; intros (j & Hj & H1 & H2); [exists j; split; [lia|done]|]. destruct (decide (j = i)) as [->|]; [destruct Hno; done|]. exists j. split; [lia|done]. }
  destruct (Z.eqb_spec (slot t i) 0) as [E|E]; [exists b; split; [done|]; apply Hskip; by left|].
  destruct (fo_live _ _ Hs _ (slot_live m Hm t s i Hs E)) as (x & Hx & _ & Hr). pose proof (slot_live m Hm t s i Hs E). rewrite Hx. rewrite (proj2 (Z.ltb_ge _ _)) by lia. assert (Ho : obj s (slot t i) = Some (set_ref 0 x)) by (unfold obj; by rewrite Hx).
  assert (Hon : on_dev inode_dev dev s (slot t i) <-> type x = FD_INODE /\ ip x <> 0 /\ inode_dev (ip x) = dev) by (unfold on_dev; rewrite Ho; split; [intros (y & [= <-] & H1); exact H1|intros H1; by exists (set_ref 0 x)]).
  destruct (type x) eqn:Et; cbn [negb orb]; try (exists b; split; [done|]; apply Hskip; right; rewrite Hon; by intros [? _]).
  destruct (Z.eqb_spec (ip x) 0); [exists b; split; [done|]; apply Hskip; right; rewrite Hon; tauto|]. destruct (Z.eqb_spec (inode_dev (ip x)) dev); [|exists b; split; [done|]; apply Hskip; right; rewrite Hon; tauto].
  exists true. split; [done|]. split; [|done]. intros _. exists i. split; [lia|]. split; [done|]. by apply Hon.
Qed.

Lemma scan_procs_spec inode_dev dev s n ts : (forall t, Some t ∈ ts -> table_wf t /\ exists m, (forall a, 0 <= m a) /\ forall a, refs m (view t) a = n a) -> fs_ok s n ->
  exists b, scan_procs inode_dev dev ts s = Some b /\ (b = true <-> exists t i f c, Some t ∈ ts /\ view t !! i = Some (f, c) /\ on_dev inode_dev dev s f).
Proof.
  intros Hts Hs. induction ts as [|o ts IH]; cbn [scan_procs]; [exists false; split; [done|]; split; [done|intros (t & i & f & c & H & _); by apply elem_of_nil in H]|].
  destruct IH as (b & Eb & Hb); [intros t Ht; apply Hts; by right|].
  assert (Hskip : (forall t i f c, o = Some t -> view t !! i = Some (f, c) -> ~ on_dev inode_dev dev s f) -> b = true <-> exists t i f c, Some t ∈ o :: ts /\ view t !! i = Some (f, c) /\ on_dev inode_dev dev s f).
  { intros Hno. rewrite Hb. split; intros (t & i & f & c & H1 & H2 & H3); exists t, i, f, c; (split; [|done]); [by right|]. apply elem_of_cons in H1 as [<-|H1]; [|done]. by destruct (Hno t i f c eq_refl H2). }
  destruct o as [t|]; [|exists b; split; [done|]; by apply Hskip]. destruct (Hts t ltac:(left)) as (W & m & Hm & Hn). pose proof (tw_nfds t W).
  destruct (scan_table_spec inode_dev dev m (Z.to_nat (nfds t)) 0 t s W Hm (fs_ok_ext _ _ _ Hn Hs) ltac:(lia) ltac:(lia)) as (b1 & -> & H1). destruct b1.
  - exists true. split; [done|]. split; [|done]. intros _. destruct (proj1 H1 eq_refl) as (j & _ & E & Hj). pose proof (lookup_view t j) as Ev. rewrite (proj2 (Z.eqb_neq _ _)) in Ev by done. exists t, j, (slot t j), (flag (fmark t j) FD_CLOEXEC). split; [left|done].
  - exists b. split; [done|]. apply Hskip. intros u i f c [= <-] Hv Hon. destruct (view_slot _ _ _ _ Hv) as (E & Hf & _). subst f. assert (false = true); [|done]. apply H1. exists i. pose proof (slot_bound t i W Hf). split; [lia|done].
Qed.

(** The scan before an unmount reads only file objects that exist, and
    finds the device in use exactly when some process has a descriptor of a
    file on it. *)
Theorem unmount_scan_exact inode_dev P x dev : reach (fun k => heap_ok k ∅) P x -> exists b, file_has_refs_on_dev inode_dev dev x = Some b /\
  (b = true <-> exists p v i f c, views x !! p = Some (Some v) /\ v !! i = Some (f, c) /\ on_dev inode_dev dev (fls x) f).
Proof.
  intros Hr. destruct (reach_ok _ x Hr) as [Hx _]. assert (Hin : forall t, Some t ∈ tabs x -> exists p, tabs x !! p = Some (Some t)) by (intros t Ht; by apply list_elem_of_lookup in Ht).
  destruct (scan_procs_spec inode_dev dev (fls x) (total (views x)) (tabs x)) as (b & Eb & Hb); [|apply Hx|].
  - intros t Ht. destruct (Hin t Ht) as [p Hp0]. split; [apply (so_tab x Hx p t Hp0)|]. exists (others x t). split; [by apply (others_nonneg x p)|apply others_refs].
  - exists b. split; [done|]. rewrite Hb. split.
    + intros (t & i & f & c & Ht & Hv & Hon). destruct (Hin t Ht) as [p Hp0]. exists p, (view t), i, f, c. split; [by apply views_lookup|done].
    + intros (p & v & i & f & c & Hp0 & Hv & Hon). unfold views in Hp0. rewrite list_lookup_fmap in Hp0. destruct (tabs x !! p) as [[t|]|] eqn:Et; cbn in Hp0; [|done|done]. injection Hp0 as <-. exists t, i, f, c. split; [by apply list_elem_of_lookup; exists p|done].
Qed.

(** C7.  Whatever the processes do, in any order, the code implements the
    views.  Excepted ([fits]) are a [dup2] onto the highest open descriptor and
    the fork of a table of more than 288 slots, which the code gets wrong.  Every
    file that has descriptors is a valid object whose count is the
    number of its descriptors in all tables, an object without descriptors is a
    free one of the cache; the next operation never follows a dangling pointer,
    panics only in a fork without memory, changes the views as specified, and
    closes exactly the files that lose their last descriptor, each once. *)
Theorem descriptors_refine x o : reach (fun k => heap_ok k ∅) (fun _ => True) x -> fits o x ->
  (forall a, 0 < total (views x) a -> exists f, files (fls x) !! a = Some f /\ magic f = FILE_MAGIC /\ ref f = total (views x) a) /\
  (forall a f, files (fls x) !! a = Some f -> total (views x) a = 0 -> ref f = 0) /\
  match step o x with
  | Done r x' => op_spec o x r x' /\ exists l, files_change (fls x) (total (views x)) (fls x') (total (views x')) l
  | Panic => (exists p, o = Fork p) /\ fdtable_alloc (heap (fls x)) = None
  | Fault => False
  end.
Proof.
  intros Hr Hfit. destruct (reach_ok _ x Hr) as [Hx _]. split; [apply (fo_live _ _ (so_fs x Hx))|]. split.
  - intros a f Hf Ha. destruct (fo_cache _ _ (so_fs x Hx)) as (C & _ & Hc & _ & _ & Hall). destruct (Hall a f Hf) as [?|Hin]; [lia|]. destruct (chain_in _ _ _ _ Hc Hin) as (y & Hy & Hry). congruence.
  - pose proof (step_good o x Hx Hfit) as H. destruct (step o x) as [r x'| |]; [|done|done]. by destruct H as (_ & ? & ? & _).
Qed.


End Machine.

(** ** A run *)

Module Demo.

(** A heap that hands out fresh addresses; a new page is full of the ones that [kfree] leaves. *)
Definition kmalloc_next (k : Z) : Z * Z := if k + 64 <=? 4294967296 then (k, k + 64) else (0, k).

#[export] Instance next_heap : Heap Z := {
  kmalloc := kmalloc_next;
  kmalloc_free _ k := k;
  kalloc_words k := (Some (replicate WORDS 16843009), k);
  kalloc_bytes k := (Some (replicate BYTES 1), k);
  kfree k := k
}.

Definition next_ok (k : Z) (A : gset Z) : Prop := KERNBASE <= k /\ forall a, a ∈ A -> a < k.

Lemma next_kmalloc k A a k' : next_ok k A -> kmalloc_next k = (a, k') -> (a = 0 /\ next_ok k' A) \/ ((KERNBASE <= a < 4294967296) /\ (a ∉ A) /\ next_ok k' ({[a]} ∪ A)).
Proof.
  intros [Hk HA]. unfold kmalloc_next. destruct (Z.leb_spec (k + 64) 4294967296); intros [= <- <-]; [right|left; by split].
  split; [lia|]. split; [intros Hin; specialize (HA k Hin); lia|]. split; [lia|]. intros b Hb. apply elem_of_union in Hb as [->%elem_of_singleton|Hb]; [lia|]. specialize (HA b Hb). lia.
Qed.

Lemma next_free k A a : next_ok k A -> a ∈ A -> next_ok k (A ∖ {[a]}).
Proof. intros [Hk HA] _. split; [done|]. intros b Hb. apply HA. set_solver. Qed.

#[export] Program Instance next_laws : HeapLaws Z := { heap_ok := next_ok; kmalloc_law := next_kmalloc; kmalloc_free_law := next_free }.
Next Obligation. intros k A o k' Hk [= <- <-]. split; [done|]. intros w [= <-]. by vm_compute. Qed.
Next Obligation. intros k A o k' Hk [= <- <-]. split; [done|]. intros w [= <-]. by vm_compute. Qed.
Next Obligation. done. Qed.

Definition no_dev (_ : Z) : option Z := None.
Definition demo_step : op -> sys -> outcome := step (K := Z) no_dev (fun _ => 0) (fun _ _ => 0) (fun _ _ _ => 0).
Definition demo_start : sys := mkSys [Some fdtable_init] (mkFs ∅ 0 0 [] KERNBASE).

Fixpoint run (os : list op) (x : sys) : option (list Z * sys) :=
  match os with
  | [] => Some ([], x)
  | o :: os =>
      match demo_step o x with
      | Done r x' => match run os x' with Some (rs, x) => Some (r :: rs, x) | None => None end
      | _ => None
      end
  end.

(** Everyone agrees. *)
Definition fine : answers := mkAnswers None false false.

Definition open_one (inode : Z) : op := Call 0 256 (Open inode 0 true true fine).

(** What a run leaves: results, views, reference counts, the log of closed files. *)
Definition result_of (os : list op) : option (list Z * list (option (list (Z * (Z * bool)))) * list (Z * Z) * list (Z * list call)) :=
  match run os demo_start with
  | Some (rs, x) => Some (rs, option_map map_to_list <$> views x, map_to_list (ref <$> files (fls x)), closed (fls x))
  | None => None
  end.

(** The operations that need no condition. *)
Definition simple (o : op) : bool := match o with Call _ _ (Dup2 _ _) | Fork _ => false | Exec _ => false | _ => true end.

Lemma run_reach P os x rs x' : (forall o, simple o = true -> P o) -> reach no_dev (fun _ => 0) (fun _ _ => 0) (fun _ _ _ => 0) (fun k => heap_ok k ∅) P x ->
  forallb simple os = true -> run os x = Some (rs, x') -> reach no_dev (fun _ => 0) (fun _ _ => 0) (fun _ _ _ => 0) (fun k => heap_ok k ∅) P x'.
Proof.
  intros HP. revert x rs. induction os as [|o os IH]; intros x rs Hx Ho E; [by injection E as _ <-|]. cbn [run] in E. cbn [forallb] in Ho. apply andb_true_iff in Ho as [Ho Hos].
  destruct (demo_step o x) as [r y| |] eqn:Ey; [|done|done]. destruct (run os y) as [[rs' z]|] eqn:Ez; [|done]. injection E as _ <-. apply (IH y rs'); [|done|done].
  apply (reach_step _ _ _ _ _ _ x o r y); [done|by apply HP| |done]. destruct o as [p rl []| | |]; done.
Qed.

Lemma demo_reach P : reach no_dev (fun _ => 0) (fun _ _ => 0) (fun _ _ _ => 0) (fun k => heap_ok k ∅) P demo_start.
Proof. apply reach_start. split; [unfold KERNBASE; lia|set_solver]. Qed.

(** Two files in one process, the first on two descriptors. *)
Definition two_files : sys := match run [open_one 5; open_one 6; Call 0 256 (Dup 0); Call 0 256 (Close 1)] demo_start with Some (_, x) => x | None => demo_start end.

Lemma two_files_reach : reach no_dev (fun _ => 0) (fun _ _ => 0) (fun _ _ _ => 0) (fun k => heap_ok k ∅) not_exec two_files.
Proof.
  destruct (run [open_one 5; open_one 6; Call 0 256 (Dup 0); Call 0 256 (Close 1)] demo_start) as [[rs x]|] eqn:E; [|by vm_compute in E].
  assert (Hx : two_files = x) by (unfold two_files; by rewrite E). rewrite Hx. refine (run_reach not_exec _ demo_start rs x _ (demo_reach _) _ E); [|reflexivity]. by intros [].
Qed.

Lemma reach_weaken (P Q : op -> Prop) x : (forall o, P o -> Q o) -> reach no_dev (fun _ => 0) (fun _ _ => 0) (fun _ _ _ => 0) (fun k => heap_ok k ∅) P x -> reach no_dev (fun _ => 0) (fun _ _ => 0) (fun _ _ _ => 0) (fun k => heap_ok k ∅) Q x.
Proof. intros H. induction 1 as [k Hk|x o r x' _ IH Ho Hf E]; [by constructor|]. apply (reach_step _ _ _ _ _ _ x o r x'); [done|by apply H|done|done]. Qed.

Lemma two_files_fork : fits (Fork 0) two_files.
Proof. intros t Ht. assert (E : (option_map capacity <$> tabs two_files) !! 0%nat = Some (Some 288)) by (vm_compute; reflexivity). rewrite list_lookup_fmap, Ht in E. cbn in E. injection E as ->. lia. Qed.

Lemma descriptors_refine_witness : total (views two_files) KERNBASE = 2 /\ (exists f, files (fls two_files) !! KERNBASE = Some f /\ ref f = 2) /\ demo_step (Fork 0) two_files <> Fault.
Proof.
  destruct (descriptors_refine no_dev (fun _ => 0) (fun _ _ => 0) (fun _ _ _ => 0) two_files (Fork 0) (reach_weaken _ _ _ (fun _ _ => I) two_files_reach) two_files_fork) as (H1 & _ & H2).
  assert (E : total (views two_files) KERNBASE = 2) by (vm_compute; reflexivity). split; [exact E|]. split.
  - destruct (H1 KERNBASE ltac:(rewrite E; lia)) as (f & Hf & _ & Hr). exists f. split; [exact Hf|]. rewrite Hr. exact E.
  - unfold demo_step. destruct (step _ _ _ _ (Fork 0) two_files); [discriminate|discriminate|destruct H2].
Defined.


Lemma unmount_scan_exact_witness : file_has_refs_on_dev (fun i => i) 5 two_files = Some true /\ exists p v i f c, views two_files !! p = Some (Some v) /\ v !! i = Some (f, c) /\ on_dev (fun i => i) 5 (fls two_files) f.
Proof.
  destruct (unmount_scan_exact no_dev (fun _ => 0) (fun _ _ => 0) (fun _ _ _ => 0) (fun i => i) not_exec two_files 5 two_files_reach) as (b & Eb & Hb).
  assert (E : file_has_refs_on_dev (fun i => i) 5 two_files = Some true) by (vm_compute; reflexivity). split; [exact E|]. rewrite E in Eb. injection Eb as <-. exact (proj1 Hb eq_refl).
Defined.

(** When [dup2] replaces the highest descriptor of the process, the new
    entry is put above [nfds]: the call returns the descriptor, but close does
    not find it, and exit does not either, so that the file keeps a reference
    that no descriptor holds and is never closed. *)
Theorem dup2_loses_top : result_of [open_one 5; open_one 6; Call 0 256 (Dup2 0 1); Call 0 256 (Close 1); Exit 0] =
  Some ([0; 1; 1; -1; 0], [None], [(KERNBASE + 64, 0); (KERNBASE, 1)], [(KERNBASE + 64, [Iput 6])]).
Proof. vm_compute. reflexivity. Qed.

(** A child of a process whose table has 576 slots cannot use those from 288 on: they keep what the page held. *)
Theorem fork_high_slots :
  option_map (fun x => x.1.1.1) (result_of [Call 0 512 (Open 5 0 true true fine); Call 0 512 (Fcntl 0 F_DUPFD 300); Call 0 512 (Close 300); Fork 0; Call 1 512 (Fcntl 0 F_DUPFD 300)]) = Some [0; 300; 0; 0; -1].
Proof. vm_compute. reflexivity. Qed.

(** After exec has closed descriptor 0 the hint stays above it: open returns 4 although 0 is free. *)
Theorem exec_keeps_hint :
  option_map (fun x => x.1.1.1) (result_of [open_one 5; open_one 6; open_one 7; open_one 8; Call 0 256 (Close 1); open_one 9; Call 0 256 (Fcntl 0 F_SETFD 1); Exec 0; open_one 10]) = Some [0; 1; 2; 3; 0; 1; 0; 0; 4].
Proof. vm_compute. reflexivity. Qed.

End Demo.
